(* ===== verification/_CoqProject ===== *)
-Q . S2P
Prelude.v
CString.v
Syslog.v
Machine.v
Ata.v
BlockDev.v
FsFormat.v
FsCodec.v
FsRoundtrip.v
FsStore.v
FsDurable.v
FsOps.v
FsSpec.v
FsRefine.v
FsInit.v
Elf.v
ElfSpec.v
Manifest.v
AppProcess.v
AppProcessSpec.v
Heap.v
HeapSpec.v
IrqRegistry.v
Bmp.v
TcpState.v
TcpSegment.v
TcpClient.v
TcpReceive.v
TcpClaims.v
HttpText.v
HttpParse.v
HttpClient.v
HttpSafe.v
HttpDecode.v
HttpServe.v
HttpClaims.v
Allocator.v
Paging.v
PagingTree.v
PagingSpace.v
PagingMap.v
PagingKernel.v
PagingGuard.v
PagingClaims.v
NetState.v
NetBytes.v
NetSend.v
NetDhcp.v
NetDns.v
NetInput.v
NetParse.v
NetReceive.v
NetRun.v
NetDatagram.v
NetNames.v
NetLease.v
NetClaims.v
Scheduler.v
SchedRing.v
SchedInv.v
SchedSpawn.v
SchedSafe.v
SchedRun.v
SchedTurns.v
SchedKeeps.v
AppCatalog.v
AppRuntime.v
AppImage.v
AppLaunch.v
AppHistory.v
MachineClaims.v
