(* ===== verification/Prelude.v ===== *)
(** * NostaluxOS kernel: a verification library

    NostaluxOS is a 64-bit hobby operating system in C ([src/kernel], with
    applications in [src/apps] and host tests in [src/tests]).  This library
    models the parts of the kernel that hold state other code depends on, as
    executable definitions translated from the source, and proves what makes
    them correct.  This file is the root: the documentation, then the shared
    notation, tactics and lemmas.

    ** Conventions

    Integers are [Z]; [u8], [u16], [u32], [u64] and [i32] write out the
    wrap-around of the C types wherever the code can reach it.  A [char] array
    is a list of bytes of its capacity; a C string argument is an optional list
    ([None]: NULL) read up to its first NUL ([cstr]).  Reads and stores through
    pointers into buffers are checked accesses ([rd], [wr], [copy_checked]):
    [None] is an access outside the object, so a result [Some _] says that a run
    stayed in bounds.  State is passed explicitly; the storage code uses the
    state monad [ST] below with a weakest-precondition calculus ([wp]).
    Callbacks, devices and handlers are arguments of the definitions, never
    invented.  Loops that are not structural take fuel: the bound is stated
    with the loop and proved to be enough.

    ** Components, bottom up

    - Strings and numbers ([kstring.c]): CString.
    - Kernel log ([syslog.c]): Syslog.  The ring of events refines a bounded
      list of the newest messages ([syslog_write_refines]); the text copy
      returns whole newest lines.
    - Ports and disk ([io.h], [ata.c]): Machine, Ata.  The port hardware is a
      class without laws, so the driver theorems hold for every device; the
      status loops run up to the 10,000,000 rounds of the source, counted in
      binary.  The result of [ata_write] tells what reached the device.
    - The block-device interface: BlockDev.  The class [BlockDevice] with the
      laws [DiskLaws] is what the filesystem relies on; the driver of Ata is one
      instance, a disk in memory with a programmable fault schedule another, and
      the second one satisfies the laws.
    - Filesystem ([fs.c]): FsFormat (on-disk structs, checksum, serialization),
      FsCodec and FsRoundtrip (what is written is read back; the checksum sees
      every single-byte corruption), FsStore (two slots, commit, mount), FsDurable
      (a commit cut off at any transfer leaves the old or the new files, a
      reported commit the new ones), FsOps (the operations with their
      rollback), FsSpec and FsRefine (every history of requests implements a
      finite map from names to contents, fails without effect, protects reserved
      names, and is on the disk when it is over), FsInit ([fs_init], recovery,
      the self-test, the legacy upgrade: only a blank medium is formatted, a
      medium that cannot be trusted is never written).
    - ELF loader ([elf64_loader.c]): Elf, ElfSpec.  Inspection of any bytes stays
      in bounds; an accepted image has disjoint in-range segments, none writable
      and executable, and an executable entry point; loading copies exactly that.
    - Manifests ([app_manifest.c]): Manifest.  Validation accepts exactly the
      valid manifests, the registry behaves as a bounded set of them.
    - Processes ([app_process.c]): AppProcess, AppProcessSpec.  Requests on the
      table follow the life cycle of an id; services are released exactly once the
      process is over; slots are reused oldest first, ids never.  The plan check
      is exact and accepts every plan of the ELF loader (composition of the two).
    - Heap ([heap.c]): Heap, HeapSpec.  The free list tiles the heap in every
      history; allocations are aligned and disjoint; release coalesces.
    - Interrupt registry ([irq_registry.c]): IrqRegistry.  A line is a bounded set
      of handlers; dispatch calls each once even when handlers remove themselves.
    - Bitmaps ([bmp.c]): Bmp.  Opening is safe on any bytes, every pixel of
      an accepted image can be read, encoding round-trips.
    - TCP client ([tcp_client.c]): TcpState (the struct), TcpSegment (segments and
      the checksum), TcpClient (one definition per function), TcpReceive
      (the invariant, kept by every operation and every segment),
      TcpClaims (arbitrary runs stay in bounds; the state machine;
      in-order delivery under loss, repetition and reordering; stale segments
      change nothing; blocking calls return; the segments built verify; a
      connect overtaken by the peer's FIN never completes).
    - HTTP client ([http_client.c]): HttpText (characters, spans, header lines,
      tokens, codings), HttpParse (chunked bodies, the head, whole responses),
      HttpClient (requests, queries of a response, the exchange over the TCP
      client).  HttpSafe: every parser returns on any bytes, in
      bounds.  HttpDecode: the parsers read only from their cursor on; hence the compacting walk of the chunked decoder ends as the
      validating one although it overwrites what it reads.  HttpServe: the
      codings of a server, and that the client takes them back.  HttpClaims: accepted responses have one unambiguous end,
      requests take no separator from host or path, the exchange returns.
    - Paging ([paging.c]): Allocator (the interface of [kmalloc] and [kfree], with
      the heap as an instance), Paging (address spaces: tables and frames are
      pages of bytes, read and written as the code does), PagingKernel (the static
      tables, [paging_init], guard pages).  PagingTree to PagingMap: memory
      holds a tree of tables, owned page by page, and every operation is a step on
      it.  PagingMap: the effect on what a user sees.  PagingGuard: the walk of the
      processor over the kernel's tables.  PagingClaims: all spaces
      together; mapping, unmapping and copies are exact, spaces are isolated and leak nothing, the kernel's map is
      the identity but for the guard pages.
    - Network stack ([net.c]): NetState (the structs, a state monad over stack and
      environment), NetBytes (byte order, checksums, classes of addresses), NetSend
      (ARP, routes, IPv4, UDP and ICMP out, bindings), NetDhcp, NetDns, NetInput
      (frames in, timer, polling, [net_init]).  NetParse to NetRun: the invariant
      [net_ok] is kept by every call, and every parser stays in the bytes received.
      NetDatagram: what one stack puts on the wire another takes in.
      NetNames: the encoding of names, an answer as a chain of records, entries of the
      cache and their time; NetLease: the options and messages of DHCP.
      NetClaims: any history is safe, a
      first datagram is delivered after address resolution, answers, cached
      answers and leases are what the servers said, for as long as they said.
    - Scheduler ([scheduler.c], [context_switch] of [entry.asm]): Scheduler (one definition per
      function, over the kernel memory of Paging; tasks are records at addresses, linked by
      [next]; kernel stacks are memory word by word; a run ends normally, halts, or faults).
      SchedRing: the tasks form a ring.  SchedInv: the invariant, with the blocks of
      the heap, the guard pages and the address spaces of all tasks.  SchedSpawn, SchedSafe:
      destruction, creation, switches and ends keep it.  SchedRun: every request, as a step
      that keeps the contexts of the other tasks; the first task.  SchedTurns: the queue of
      turns, what a suspended task finds again, the quantum, the end of a task.  SchedKeeps: what no request
      changes.
    - Application catalog ([app_catalog.c]): AppCatalog.  Installation is
      exact; the embedded applications are installed all or not at all.
    - Launching ([app_runtime.c]): AppRuntime, over the scheduler, paging, the loader, the
      catalog and the processes.  AppImage: a space and its image among the tasks.
      AppLaunch: the process table in a launch, and each end of a launch.  AppHistory: requests, launches, memory calls and calls on the
      process table in any order.  MachineClaims: on a concrete machine and in general, every state
      that is reached is sound and every request returns, contexts survive, turns are fair,
      quanta end, launches are exact.

    The pieces meet in BlockDev (fs.c over ata.c), in the kernel log (both write
    to it, Heap too), in [app_process_track_loaded] (which takes the plan of
    [elf64_inspect]), in the registry lookup of manifests by executable name, in the
    allocator interface that paging is proved against and the heap implements, in
    [http_client_get], which runs the blocking operations of the TCP client, in
    [net_env], through which the stack calls the handlers of ports and of TCP, and in
    [scheduler], whose state holds the kernel's memory, the address spaces and the
    processes: a launch runs the loader, paging, the process table and the scheduler on it.

    ** Bounds and fuel

    FNV and record loops are structural.  The heap's loops use the number of
    headers plus one; folding the carries of a checksum 8 rounds (4 are enough
    below 2^48); the blocking TCP loops [rounds]: every service sees the
    clock advance towards the timeout or counts one of a million stalls.  The
    HTTP parsers take the length of the span as fuel, since every round moves
    their cursor; the walk over heads ten rounds, two more than the source allows
    informational responses.  A copy to or from user memory takes a round per
    page, two more than whole pages fit; the framebuffer loop a round per huge page.
    Expanding a DNS name takes 130 rounds, one more than the code allows; validating
    one 255, encoding one its length and one; the options of a DHCP packet its length.
    A loop over the ring of tasks takes a round per task and one more; the loop over the
    pages of an image a round per page and one more.

    ** What is assumed of code that is not here

    Devices obey [DiskLaws] in the durability theorems (a failed transfer
    changes nothing, an uncertain one the addressed sectors at most, and so on);
    a handler called by the dispatcher may do anything to the registry that the
    stated theorem allows; [poll] of a TCP client changes the client only the way
    [tcp_client_receive] does ([poll_ok]), which the receive function itself satisfies.
    The driver of the network stack fills the buffer it is given and nothing else, its
    clock is a 64-bit number, and a handler leaves the stack well formed, by whatever
    calls it makes ([env_ok]); sending does not call back into the stack.
    [app_services_release_process] is recorded as a trace of calls: it works on
    other tables and does not call back.  The assembly of [context_switch] pushes and pops
    the words the model writes and reads; FXSAVE and FXRSTOR copy the whole image;
    a task calls with room on its stack ([call_ok]) and stores only to its own
    ([allowed]); interrupts come only where the code enables them.  Payload writes by the owners of heap
    blocks are assumed to stay inside their blocks, as C requires.

    ** Not modelled

    Still to do: [network.c] (the request tables over the stack), [app_services.c]
    (handles and windows of applications; the one flag that a launch uses is modelled), the removal of
    files of an earlier build in [app_catalog.c], the decoders of keyboard, mouse and clock.  Left out on purpose: inline
    assembly and boot code, PCI and RTL8139 register sequences, which are their
    hardware, the write of EFER and the invalidations of the TLB (a model of memory does
    not see them), the drawing code of the shell and the desktop, and the
    applications, which only call the kernel; the debug-port echo of the
    log. *)

From Stdlib Require Export ZArith Lia.
From stdpp Require Export base list list_numbers strings.

#[global] Open Scope Z_scope.

#[global] Arguments Z.eqb : simpl never.
#[global] Arguments Z.ltb : simpl never.
#[global] Arguments Z.leb : simpl never.
#[global] Arguments Z.add : simpl never.
#[global] Arguments Z.sub : simpl never.
#[global] Arguments Z.mul : simpl never.
#[global] Arguments Z.opp : simpl never.
#[global] Arguments Z.pow : simpl never.
#[global] Arguments Z.div : simpl never.
#[global] Arguments Z.modulo : simpl never.
#[global] Arguments Z.land : simpl never.
#[global] Arguments Z.lor : simpl never.
#[global] Arguments Z.lxor : simpl never.
#[global] Arguments Z.shiftl : simpl never.
#[global] Arguments Z.shiftr : simpl never.
#[global] Arguments Nat.modulo : simpl never.
#[global] Arguments Nat.div : simpl never.
#[global] Arguments Z.of_nat : simpl never.
#[global] Arguments Z.to_nat : simpl never.

(** ** Machine integers

    An unsigned [w]-bit object is a [Z] in [0 .. 2^w); arithmetic that can
    leave that range is wrapped explicitly with the functions below. *)

Definition u8 (z : Z) : Z := Z.land z 0xFF.
Definition u16 (z : Z) : Z := Z.land z 0xFFFF.
Definition u32 (z : Z) : Z := Z.land z 0xFFFFFFFF.
Definition u64 (z : Z) : Z := Z.land z 0xFFFFFFFFFFFFFFFF.

(** Masking is reduction modulo the power of two. *)
Lemma u8_mod z : u8 z = z mod 2 ^ 8.
Proof. apply (Z.land_ones z 8). lia. Qed.
Lemma u16_mod z : u16 z = z mod 2 ^ 16.
Proof. apply (Z.land_ones z 16). lia. Qed.
Lemma u32_mod z : u32 z = z mod 2 ^ 32.
Proof. apply (Z.land_ones z 32). lia. Qed.
Lemma u64_mod z : u64 z = z mod 2 ^ 64.
Proof. apply (Z.land_ones z 64). lia. Qed.
#[global] Arguments u8 : simpl never.
#[global] Arguments u16 : simpl never.
#[global] Arguments u32 : simpl never.
#[global] Arguments u64 : simpl never.

(** Conversion of a [w]-bit pattern to the two's complement value. *)
Definition i32 (z : Z) : Z := (z + 2 ^ 31) mod 2 ^ 32 - 2 ^ 31.
Definition i64 (z : Z) : Z := (z + 2 ^ 63) mod 2 ^ 64 - 2 ^ 63.

Definition UINT32_MAX : Z := 2 ^ 32 - 1.
Definition UINT64_MAX : Z := 2 ^ 64 - 1.
Definition SIZE_MAX : Z := 2 ^ 64 - 1.

Definition byte_ok (b : Z) : Prop := 0 <= b < 256.
Definition bytes_ok (l : list Z) : Prop := Forall byte_ok l.
Definition u32_ok (z : Z) : Prop := 0 <= z < 2 ^ 32.
Definition u64_ok (z : Z) : Prop := 0 <= z < 2 ^ 64.

(** Values that fit are not changed by the wrap-around. *)
Lemma u32_small z : u32_ok z -> u32 z = z.
Proof. rewrite u32_mod. unfold u32_ok. intros. by apply Z.mod_small. Qed.

Lemma u32_range z : u32_ok (u32 z).
Proof. rewrite u32_mod. unfold u32_ok. pose proof (Z.mod_pos_bound z (2 ^ 32)). lia. Qed.

Lemma u64_range z : u64_ok (u64 z).
Proof. rewrite u64_mod. unfold u64_ok. pose proof (Z.mod_pos_bound z (2 ^ 64)). lia. Qed.

Lemma u8_range v : 0 <= u8 v < 256.
Proof. rewrite u8_mod. apply Z.mod_pos_bound. lia. Qed.

Lemma lor_u32 a b : u32_ok a -> u32_ok b -> u32_ok (Z.lor a b).
Proof.
  unfold u32_ok. intros Ha Hb. split; [apply Z.lor_nonneg; lia|].
  destruct (Z.eq_dec (Z.lor a b) 0) as [->|]; [lia|].
  apply Z.log2_lt_pow2; [pose proof (proj2 (Z.lor_nonneg a b) ltac:(lia)); lia|].
  rewrite Z.log2_lor by lia. apply Z.max_lub_lt.
  - destruct (Z.eq_dec a 0) as [->|]; [done|]. apply Z.log2_lt_pow2; lia.
  - destruct (Z.eq_dec b 0) as [->|]; [done|]. apply Z.log2_lt_pow2; lia.
Qed.

Lemma u64_small z : u64_ok z -> u64 z = z.
Proof. rewrite u64_mod. unfold u64_ok. intros. by apply Z.mod_small. Qed.

Definition byte_okb (b : Z) : bool := (0 <=? b) && (b <? 256).
Definition bytes_okb (l : list Z) : bool := forallb byte_okb l.

(** ** Arrays

    A C array is the list of its elements.  [znth] reads a cell and
    [memcpy_at] is the byte-copy loop
    [for (j = 0; j < n; j++) dst[off + j] = src[j];].  Cells past the end
    of the list do not exist: a read gives 0 and a store is dropped. *)

Definition znth (l : list Z) (i : Z) : Z := default 0 (l !! Z.to_nat i).

Definition memcpy_at {A} (dst : list A) (off : nat) (src : list A) : list A :=
  take off dst ++ take (length dst - off) src ++ drop (off + length src) dst.

Definition zeros (n : Z) : list Z := replicate (Z.to_nat n) 0.

(** [slice l off n] is the [n]-byte window of [l] at [off]. *)
Definition slice {A} (l : list A) (off n : nat) : list A := take n (drop off l).

(** ** Little-endian byte representation *)

Fixpoint le_bytes (n : nat) (v : Z) : list Z :=
  match n with
  | O => []
  | S n => v mod 256 :: le_bytes n (v / 256)
  end.

Fixpoint le_val (bs : list Z) : Z :=
  match bs with
  | [] => 0
  | b :: t => b + 256 * le_val t
  end.

#[global] Arguments memcpy_at : simpl never.
#[global] Arguments slice : simpl never.
#[global] Arguments zeros : simpl never.
#[global] Arguments znth : simpl never.

(** ** C strings

    A [const char*] is the list of bytes from the pointer to the end of its
    object; the end of the list reads as the terminating NUL.  [cstr] is the
    string proper: the bytes before the first NUL. *)

Fixpoint cstr (s : list Z) : list Z :=
  match s with
  | [] => []
  | c :: t => if c =? 0 then [] else c :: cstr t
  end.

(** A Rocq string literal as the bytes of the C literal. *)
Fixpoint cs (s : string) : list Z :=
  match s with
  | EmptyString => []
  | String a t => Z.of_N (Ascii.N_of_ascii a) :: cs t
  end.

Definition is_terminated (s : list Z) : Prop := 0 ∈ s.

(** The bounded string copy the kernel writes in several places:
    [while (src[i] != 0 && i + 1 < cap) { dst[i] = src[i]; i++; } dst[i] = 0;]
    Bytes of [dst] behind the terminator keep their old values. *)
Definition copy_cstring (dst : list Z) (cap : nat) (src : list Z) : list Z :=
  memcpy_at dst 0 (take (cap - 1) (cstr src) ++ [0]).

(** ** Checked accesses

    A buffer that foreign data goes through is read and written with the
    functions below: [None] is an access outside the object. *)

Definition rd (bytes : list Z) (offset : Z) : option Z :=
  if 0 <=? offset then bytes !! Z.to_nat offset else None.

(** A checked store of one byte. *)
Definition wr (bytes : list Z) (p v : Z) : option (list Z) :=
  if (0 <=? p) && (p <? Z.of_nat (length bytes)) then Some (<[Z.to_nat p := u8 v]> bytes) else None.

(** The byte-copy loop from [source + s] to [loaded + d], with both ranges checked. *)
Definition copy_checked (loaded source : list Z) (d s n : Z) : option (list Z) :=
  if (0 <=? d) && (0 <=? s) && (0 <=? n) && (d + n <=? Z.of_nat (length loaded)) &&
     (s + n <=? Z.of_nat (length source))
  then Some (memcpy_at loaded (Z.to_nat d) (slice source (Z.to_nat s) (Z.to_nat n)))
  else None.

(** ** State-passing computations

    Code that reads and writes global state is a function from the state to
    a result and the next state. *)

Definition ST (S A : Type) : Type := S -> A * S.

Definition st_ret {S A} (a : A) : ST S A := fun s => (a, s).
Definition st_bind {S A B} (m : ST S A) (k : A -> ST S B) : ST S B :=
  fun s => let (a, s') := m s in k a s'.
Definition st_get {S A} (f : S -> A) : ST S A := fun s => (f s, s).
Definition st_mod {S} (f : S -> S) : ST S unit := fun s => (tt, f s).

Declare Scope st_scope.
Delimit Scope st_scope with st.
Notation "'let!' x := m 'in' k" := (st_bind m (fun x => k))
  (at level 10, x name, m at level 100, k at level 200)
  : st_scope.
Notation "'do!' m 'in' k" := (st_bind m (fun _ => k))
  (at level 10, m at level 100, k at level 200)
  : st_scope.

(** [wp m Q s]: running [m] from [s] ends in a result and a state that
    satisfy [Q]. *)
Definition wp {S A} (m : ST S A) (Q : A -> S -> Prop) (s : S) : Prop :=
  Q (m s).1 (m s).2.

(** ** Bounded polling loops

    [poll_upto p body s] runs [body] at most [p] times, threading the state,
    and stops at the first iteration that yields a result. *)

Fixpoint poll_upto {S A} (p : positive) (body : ST S (option A)) : ST S (option A) :=
  match p with
  | xH => body
  | xO q => fun s =>
      match poll_upto q body s with
      | (Some a, s1) => (Some a, s1)
      | (None, s1) => poll_upto q body s1
      end
  | xI q => fun s =>
      match body s with
      | (Some a, s0) => (Some a, s0)
      | (None, s0) =>
          match poll_upto q body s0 with
          | (Some a, s1) => (Some a, s1)
          | (None, s1) => poll_upto q body s1
          end
      end
  end.

(** * Lemmas *)

Create HintDb nos.
Create Rewrite HintDb nos.

Lemma wp_ret {S A} (a : A) Q (s : S) : Q a s -> wp (st_ret a) Q s.
Proof. done. Qed.

Lemma wp_bind {S A B} (m : ST S A) (k : A -> ST S B) Q (s : S) :
  wp m (fun a s' => wp (k a) Q s') s -> wp (st_bind m k) Q s.
Proof. unfold wp, st_bind. by destruct (m s). Qed.

Lemma wp_get {S A} (f : S -> A) Q (s : S) : Q (f s) s -> wp (st_get f) Q s.
Proof. done. Qed.

Lemma wp_mod {S} (f : S -> S) (Q : unit -> S -> Prop) (s : S) :
  Q tt (f s) -> wp (st_mod f) Q s.
Proof. done. Qed.

Lemma wp_mono {S A} (m : ST S A) (P Q : A -> S -> Prop) (s : S) :
  wp m P s -> (forall a s', P a s' -> Q a s') -> wp m Q s.
Proof. unfold wp. auto. Qed.

Lemma wp_if {S A} (b : bool) (m1 m2 : ST S A) Q (s : S) :
  (b = true -> wp m1 Q s) -> (b = false -> wp m2 Q s) ->
  wp (if b then m1 else m2) Q s.
Proof. destruct b; auto. Qed.

Lemma wp_run {S A} (m : ST S A) Q (s s' : S) a :
  m s = (a, s') -> wp m Q s -> Q a s'.
Proof. unfold wp. by intros ->. Qed.

Lemma wp_intro {S A} (m : ST S A) (Q : A -> S -> Prop) (s : S) :
  (forall a s', m s = (a, s') -> Q a s') -> wp m Q s.
Proof. unfold wp. destruct (m s) eqn:E; auto. Qed.

(** An invariant kept by every iteration is kept by the whole loop. *)
Lemma poll_upto_inv {S A} (p : positive) (body : ST S (option A)) (I : S -> Prop) :
  (forall s, I s -> I (body s).2) ->
  forall s, I s -> I (poll_upto p body s).2.
Proof.
  intros Hb. induction p as [q IH|q IH|]; intros s Hs; simpl; auto.
  - specialize (Hb s Hs). destruct (body s) as [[a|] s0]; simpl in *; auto.
    specialize (IH s0 Hb) as Hq.
    destruct (poll_upto q body s0) as [[a|] s1]; simpl in *; auto.
  - specialize (IH s Hs) as Hq.
    destruct (poll_upto q body s) as [[a|] s1]; simpl in *; auto.
Qed.

(** A result of the loop is the result of one of its iterations. *)
Lemma poll_upto_result {S A} (p : positive) (body : ST S (option A))
    (I : S -> Prop) (R : A -> S -> Prop) :
  (forall s, I s -> I (body s).2) ->
  (forall s a s', I s -> body s = (Some a, s') -> R a s') ->
  forall s a s', I s -> poll_upto p body s = (Some a, s') -> R a s'.
Proof.
  intros Hb Hr. induction p as [q IH|q IH|]; intros s a s' Hs; simpl; eauto.
  - pose proof (Hb s Hs) as H0.
    destruct (body s) as [[a0|] s0] eqn:E0; simpl in *.
    { intros [= -> ->]. eauto. }
    pose proof (poll_upto_inv q body I Hb s0 H0) as H1.
    destruct (poll_upto q body s0) as [[a1|] s1] eqn:E1; simpl in *; eauto.
    intros [= -> ->]. eauto.
  - pose proof (poll_upto_inv q body I Hb s Hs) as H1.
    destruct (poll_upto q body s) as [[a1|] s1] eqn:E1; simpl in *; eauto.
    intros [= -> ->]. eauto.
Qed.

Lemma pair_of_fst {A B} (p : A * B) a : p.1 = a -> p = (a, p.2).
Proof. destruct p; simpl. by intros ->. Qed.

Lemma st_bind_run {S A B} (m : ST S A) (k : A -> ST S B) s :
  st_bind m k s = k (m s).1 (m s).2.
Proof. unfold st_bind. by destruct (m s). Qed.

(** *** Lists *)

Lemma length_memcpy_at {A} (dst src : list A) off :
  (off <= length dst)%nat -> length (memcpy_at dst off src) = length dst.
Proof.
  intros H. unfold memcpy_at.
  rewrite !length_app, !length_take, length_drop. lia.
Qed.

(** [memcpy_at] is the loop that stores one element at a time. *)
Lemma memcpy_at_loop {A} (dst src : list A) off :
  (off <= length dst)%nat -> memcpy_at dst off src = list_inserts off src dst.
Proof.
  intros Hoff. apply list_eq. intros i.
  destruct (decide (i < length dst)%nat) as [Hi|Hi].
  2: { rewrite !lookup_ge_None_2; [done | rewrite length_inserts; lia
                                  | rewrite length_memcpy_at; lia]. }
  unfold memcpy_at.
  destruct (decide (i < off)%nat) as [H1|H1].
  { rewrite lookup_app_l by (rewrite length_take; lia).
    rewrite lookup_take_lt by lia.
    symmetry. apply list_lookup_inserts_lt. lia. }
  rewrite lookup_app_r by (rewrite length_take; lia).
  rewrite length_take, Nat.min_l by lia.
  destruct (decide (i < off + length src)%nat) as [H2|H2].
  - rewrite list_lookup_inserts by lia.
    rewrite lookup_app_l by (rewrite length_take; lia).
    rewrite lookup_take_lt by lia. done.
  - rewrite list_lookup_inserts_ge by lia.
    rewrite lookup_app_r by (rewrite length_take; lia).
    rewrite length_take, lookup_drop. f_equal. lia.
Qed.

Lemma memcpy_at_in {A} (dst src : list A) off :
  (off + length src <= length dst)%nat ->
  memcpy_at dst off src = take off dst ++ src ++ drop (off + length src) dst.
Proof. intros H. unfold memcpy_at. rewrite (take_ge src) by lia. done. Qed.

Lemma lookup_memcpy_in {A} (dst src : list A) off i :
  (off + length src <= length dst)%nat -> (off <= i < off + length src)%nat ->
  memcpy_at dst off src !! i = src !! (i - off)%nat.
Proof.
  intros H Hi. rewrite memcpy_at_loop by lia. apply list_lookup_inserts; lia.
Qed.

Lemma lookup_memcpy_out {A} (dst src : list A) off i :
  (off + length src <= length dst)%nat -> (i < off \/ off + length src <= i)%nat ->
  memcpy_at dst off src !! i = dst !! i.
Proof.
  intros H Hi. rewrite memcpy_at_loop by lia.
  destruct Hi; [by apply list_lookup_inserts_lt | by apply list_lookup_inserts_ge].
Qed.

Lemma lookup_slice {A} (l : list A) off n i :
  (i < n)%nat -> slice l off n !! i = l !! (off + i)%nat.
Proof. intros H. unfold slice. rewrite lookup_take_lt by done. apply lookup_drop. Qed.

Lemma take_memcpy_0 {A} (dst src : list A) :
  (length src <= length dst)%nat -> take (length src) (memcpy_at dst 0 src) = src.
Proof. intros H. rewrite memcpy_at_in by lia. simpl. by rewrite take_app_length. Qed.

Lemma take_memcpy {A} (b src : list A) n :
  (n + length src <= length b)%nat ->
  take (n + length src) (memcpy_at b n src) = take n b ++ src.
Proof.
  intros H. rewrite memcpy_at_in by done. rewrite app_assoc.
  rewrite take_app_le by (rewrite length_app, length_take; lia).
  apply take_ge. rewrite length_app, length_take. lia.
Qed.

Lemma memcpy_at_Forall {A} (P : A -> Prop) dst src off :
  Forall P dst -> Forall P src -> Forall P (memcpy_at dst off src).
Proof.
  intros Hd Hs. unfold memcpy_at.
  apply Forall_app_2; [by apply Forall_take|].
  apply Forall_app_2; [by apply Forall_take | by apply Forall_drop].
Qed.

Lemma length_zeros n : 0 <= n -> length (zeros n) = Z.to_nat n.
Proof. intros. unfold zeros. by rewrite length_replicate. Qed.

Lemma bytes_ok_zeros n : bytes_ok (zeros n).
Proof. apply Forall_replicate. unfold byte_ok. lia. Qed.

Lemma bytes_okb_true l : bytes_okb l = true -> bytes_ok l.
Proof.
  intros H. apply Forall_forall. intros x Hx.
  apply list_elem_of_In in Hx. eapply forallb_forall in H; [|done].
  unfold byte_okb in H. unfold byte_ok. lia.
Qed.

Lemma length_slice {A} (l : list A) off n :
  (off + n <= length l)%nat -> length (slice l off n) = n.
Proof. intros. unfold slice. rewrite length_take, length_drop. lia. Qed.

Lemma slice_app_l {A} (l k : list A) off n :
  (off + n <= length l)%nat -> slice (l ++ k) off n = slice l off n.
Proof.
  intros. unfold slice. rewrite drop_app_le by lia.
  rewrite take_app_le by (rewrite length_drop; lia). done.
Qed.

Lemma slice_app_r {A} (l k : list A) off n :
  (length l <= off)%nat -> slice (l ++ k) off n = slice k (off - length l) n.
Proof. intros. unfold slice. by rewrite drop_app_ge by lia. Qed.

Lemma slice_0_length {A} (l k : list A) n :
  n = length l -> slice (l ++ k) 0 n = l.
Proof. intros ->. unfold slice. rewrite drop_0. apply take_app_length. Qed.

Lemma slice_cons {A} (x : A) l off n : slice (x :: l) (S off) n = slice l off n.
Proof. done. Qed.

Lemma take_app_slice {A} (l : list A) off n :
  take off l ++ slice l off n = take (off + n) l.
Proof. unfold slice. symmetry. rewrite <- (take_take_drop l off n). done. Qed.

Lemma slice_Forall {A} (P : A -> Prop) l off n : Forall P l -> Forall P (slice l off n).
Proof. intros. unfold slice. by apply Forall_take, Forall_drop. Qed.

Lemma slice_all {A} (l : list A) n : n = length l -> slice l 0 n = l.
Proof. intros ->. unfold slice. rewrite drop_0. by apply take_ge. Qed.

(** *** Little-endian values *)

Lemma length_le_bytes n v : length (le_bytes n v) = n.
Proof. revert v. induction n as [|n IH]; intros v; [done|]. cbn [le_bytes length]. by rewrite IH. Qed.

Lemma le_bytes_ok n v : bytes_ok (le_bytes n v).
Proof.
  revert v. induction n; intros v; constructor; [|apply IHn].
  unfold byte_ok. pose proof (Z.mod_pos_bound v 256). lia.
Qed.

Lemma le_val_bytes n v :
  0 <= v < 256 ^ Z.of_nat n -> le_val (le_bytes n v) = v.
Proof.
  revert v. induction n as [|n IH]; intros v Hv.
  - simpl in *. lia.
  - rewrite Nat2Z.inj_succ, Z.pow_succ_r in Hv by lia.
    cbn [le_bytes le_val]. rewrite IH.
    + pose proof (Z.div_mod v 256). lia.
    + split; [apply Z.div_pos; lia | apply Z.div_lt_upper_bound; lia].
Qed.

Lemma le_bytes_val bs : bytes_ok bs -> le_bytes (length bs) (le_val bs) = bs.
Proof.
  induction 1 as [|b t Hb Ht IH]; [done|]. unfold byte_ok in Hb.
  cbn [length le_bytes le_val]. rewrite (Z.mul_comm 256), Z.mod_add, Z.div_add by lia.
  rewrite Z.mod_small, Z.div_small, Z.add_0_l by lia. by rewrite IH.
Qed.

Lemma le_val_range bs :
  bytes_ok bs -> 0 <= le_val bs < 256 ^ Z.of_nat (length bs).
Proof.
  induction 1 as [|b t Hb Ht IH]; [simpl; lia|]. unfold byte_ok in Hb.
  cbn [le_val length]. rewrite Nat2Z.inj_succ, Z.pow_succ_r by lia. lia.
Qed.

(** *** C strings *)

Lemma cstr_nonzero s : Forall (fun c => c <> 0) (cstr s).
Proof.
  induction s as [|c t IH]; simpl; [constructor|].
  destruct (Z.eqb_spec c 0); constructor; auto.
Qed.

Lemma cstr_idem s : Forall (fun c => c <> 0) s -> cstr s = s.
Proof.
  induction 1 as [|c t Hc Ht IH]; simpl; [done|].
  destruct (Z.eqb_spec c 0); [done|]. by rewrite IH.
Qed.

Lemma cstr_cstr s : cstr (cstr s) = cstr s.
Proof. apply cstr_idem, cstr_nonzero. Qed.

Lemma cstr_app_0 s t : Forall (fun c => c <> 0) s -> cstr (s ++ 0 :: t) = s.
Proof.
  induction 1 as [|c s Hc Hs IH]; simpl; [done|].
  destruct (Z.eqb_spec c 0); [done|]. by rewrite IH.
Qed.

Lemma length_cstr s : (length (cstr s) <= length s)%nat.
Proof. induction s as [|c t IH]; simpl; [lia|]. destruct (c =? 0); simpl; lia. Qed.

Lemma take_cstr s : take (length (cstr s)) s = cstr s.
Proof.
  induction s as [|c t IH]; simpl; [done|].
  destruct (c =? 0); simpl; [done|]. by rewrite IH.
Qed.

Lemma length_cstr_terminated s :
  is_terminated s -> (length (cstr s) < length s)%nat.
Proof.
  unfold is_terminated. induction s as [|c t IH]; simpl; [by intros ?%elem_of_nil|].
  intros [<-|Ht]%elem_of_cons; simpl; [lia|].
  destruct (c =? 0); simpl; [lia|]. specialize (IH Ht). lia.
Qed.

(** Reading the array at the length of its string finds the terminator. *)
Lemma cstr_split s :
  is_terminated s -> exists t, s = cstr s ++ 0 :: t.
Proof.
  unfold is_terminated. induction s as [|c s IH]; simpl; [by intros ?%elem_of_nil|].
  destruct (Z.eqb_spec c 0) as [->|Hc]; [eauto|].
  intros [?|Hs]%elem_of_cons; [lia|].
  destruct (IH Hs) as [t Ht]. exists t. simpl. by rewrite <- Ht.
Qed.

Lemma cstr_bytes_ok s : bytes_ok s -> bytes_ok (cstr s).
Proof.
  induction 1 as [|c t Hc Ht IH]; simpl; [constructor|].
  destruct (c =? 0); constructor; auto.
Qed.

Lemma cs_bytes_ok s : bytes_ok (cs s).
Proof.
  induction s as [|a t IH]; simpl; constructor; auto.
  unfold byte_ok. pose proof (Ascii.N_ascii_bounded a). lia.
Qed.

Lemma length_copy_cstring dst cap src : length (copy_cstring dst cap src) = length dst.
Proof. apply length_memcpy_at. lia. Qed.

Lemma cstr_copy_cstring dst cap src :
  (0 < cap)%nat -> (cap <= length dst)%nat ->
  cstr (copy_cstring dst cap src) = take (cap - 1) (cstr src).
Proof.
  intros H0 Hcap. unfold copy_cstring. rewrite memcpy_at_in.
  - simpl. rewrite <- app_assoc. simpl. apply cstr_app_0.
    apply Forall_take, cstr_nonzero.
  - rewrite length_app, length_take. simpl. lia.
Qed.

Lemma copy_cstring_terminated dst cap src :
  (0 < cap)%nat -> (cap <= length dst)%nat -> is_terminated (copy_cstring dst cap src).
Proof.
  intros H0 Hcap. unfold copy_cstring, is_terminated. rewrite memcpy_at_in.
  - simpl. rewrite !elem_of_app. left. right. by apply list_elem_of_singleton.
  - rewrite length_app, length_take. simpl. lia.
Qed.

Lemma copy_cstring_bytes_ok dst cap src :
  bytes_ok dst -> bytes_ok src -> bytes_ok (copy_cstring dst cap src).
Proof.
  intros Hd Hs. apply memcpy_at_Forall; [done|].
  apply Forall_app_2; [by apply Forall_take, cstr_bytes_ok|].
  constructor; [unfold byte_ok; lia | constructor].
Qed.

(** ** Lemmas on checked accesses *)

Lemma rd_Some bytes p : 0 <= p < Z.of_nat (length bytes) -> is_Some (rd bytes p).
Proof. intros H. unfold rd. rewrite (proj2 (Z.leb_le 0 p)) by lia. apply lookup_lt_is_Some. lia. Qed.

Lemma rd_byte bytes p v : bytes_ok bytes -> rd bytes p = Some v -> byte_ok v.
Proof.
  unfold rd, bytes_ok. intros Hb H. destruct (0 <=? p); [|done].
  rewrite Forall_forall in Hb. by apply Hb, list_elem_of_lookup_2 with (Z.to_nat p).
Qed.

Lemma rd_insert_eq l p v : 0 <= p < Z.of_nat (length l) -> rd (<[Z.to_nat p := v]> l) p = Some v.
Proof. intros. unfold rd. rewrite (proj2 (Z.leb_le _ _)) by lia. apply list_lookup_insert_eq. lia. Qed.

Lemma rd_insert_ne l p q v : 0 <= p -> p <> q -> rd (<[Z.to_nat p := v]> l) q = rd l q.
Proof.
  intros Hp Hpq. unfold rd. destruct (Z.leb_spec 0 q); [|done]. apply list_lookup_insert_ne. lia.
Qed.

Lemma rd_app_l (l r : list Z) p : 0 <= p < Z.of_nat (length l) -> rd (l ++ r) p = l !! Z.to_nat p.
Proof.
  intros. unfold rd. rewrite (proj2 (Z.leb_le _ _)) by lia. apply lookup_app_l. lia.
Qed.

Lemma wr_Some bytes p v : 0 <= p < Z.of_nat (length bytes) -> wr bytes p v = Some (<[Z.to_nat p := u8 v]> bytes).
Proof. intros. unfold wr. rewrite (proj2 (Z.leb_le _ _)), (proj2 (Z.ltb_lt _ _)) by lia. done. Qed.

Lemma some_bind {A B} (a : A) (f : A -> option B) : (Some a ≫= f) = f a.
Proof. done. Qed.

(** A store into the prefix of a buffer. *)
Lemma wr_app (l r : list Z) p v :
  0 <= p < Z.of_nat (length l) -> wr (l ++ r) p v = Some (<[Z.to_nat p := u8 v]> l ++ r).
Proof. intros. rewrite wr_Some by (rewrite length_app; lia). by rewrite insert_app_l by lia. Qed.

Lemma copy_checked_Some loaded source d s n :
  0 <= d -> 0 <= s -> 0 <= n -> d + n <= Z.of_nat (length loaded) -> s + n <= Z.of_nat (length source) ->
  exists out, copy_checked loaded source d s n = Some out /\ length out = length loaded /\
    (forall k, 0 <= k < n -> out !! Z.to_nat (d + k) = source !! Z.to_nat (s + k)) /\
    (forall i, 0 <= i -> ~ (d <= i < d + n) -> out !! Z.to_nat i = loaded !! Z.to_nat i).
Proof.
  intros Hd Hs Hn H1 H2. unfold copy_checked.
  rewrite !(proj2 (Z.leb_le _ _)) by lia. simpl. eexists. split; [done|].
  assert (Hl : length (slice source (Z.to_nat s) (Z.to_nat n)) = Z.to_nat n)
    by (apply length_slice; lia).
  split; [apply length_memcpy_at; lia|]. split.
  - intros k Hk. rewrite lookup_memcpy_in by (rewrite Hl; lia).
    rewrite lookup_slice by lia. f_equal. lia.
  - intros i Hi Hni. apply lookup_memcpy_out; rewrite Hl; lia.
Qed.

(** The bytes of the destination up to the end of what was copied. *)
Lemma copy_checked_take loaded source d s n out :
  copy_checked loaded source d s n = Some out ->
  take (Z.to_nat (d + n)) out = take (Z.to_nat d) loaded ++ slice source (Z.to_nat s) (Z.to_nat n).
Proof.
  unfold copy_checked. destruct (_ && _) eqn:E; [|done]. intros [= <-].
  apply andb_true_iff in E as [E E5%Z.leb_le]. apply andb_true_iff in E as [E E4%Z.leb_le].
  apply andb_true_iff in E as [E E3%Z.leb_le]. apply andb_true_iff in E as [E1%Z.leb_le E2%Z.leb_le].
  assert (Hl : length (slice source (Z.to_nat s) (Z.to_nat n)) = Z.to_nat n) by (apply length_slice; lia).
  rewrite memcpy_at_in by lia. rewrite app_assoc, take_app_le by (rewrite length_app, length_take; lia).
  apply take_ge. rewrite length_app, length_take. lia.
Qed.

Lemma copy_checked_bytes loaded source d s n :
  bytes_ok loaded -> bytes_ok source ->
  0 <= d -> 0 <= s -> 0 <= n -> d + n <= Z.of_nat (length loaded) -> s + n <= Z.of_nat (length source) ->
  exists out, copy_checked loaded source d s n = Some out /\ length out = length loaded /\ bytes_ok out.
Proof.
  intros Hl Hs ? ? ? H1 H2.
  destruct (copy_checked_Some loaded source d s n) as (out & E & El & _); [lia..|].
  exists out. split; [done|]. split; [done|]. unfold copy_checked in E. destruct (_ && _); [|done].
  injection E as <-. rewrite memcpy_at_in by (rewrite length_slice; lia).
  apply Forall_app_2; [by apply Forall_take|]. apply Forall_app_2; [|by apply Forall_drop].
  unfold slice. by apply Forall_take, Forall_drop.
Qed.

#[global] Arguments le_bytes : simpl never.

(** ** Tactics *)

(** Split boolean conjunctions and disjunctions and turn the comparisons
    among the hypotheses into propositions. *)
Ltac bdestr_hyps :=
  repeat match goal with
  | H : _ && _ = true |- _ => apply andb_true_iff in H as [? ?]
  | H : _ || _ = false |- _ => apply orb_false_iff in H as [? ?]
  | H : negb _ = true |- _ => apply negb_true_iff in H
  | H : negb _ = false |- _ => apply negb_false_iff in H
  | H : (_ =? _) = true |- _ => apply Z.eqb_eq in H
  | H : (_ =? _) = false |- _ => apply Z.eqb_neq in H
  | H : (_ <? _) = true |- _ => apply Z.ltb_lt in H
  | H : (_ <? _) = false |- _ => apply Z.ltb_ge in H
  | H : (_ <=? _) = true |- _ => apply Z.leb_le in H
  | H : (_ <=? _) = false |- _ => apply Z.leb_gt in H
  end.

(** One step of the weakest-precondition calculus. *)
Ltac wp_step :=
  match goal with
  | |- wp (st_bind _ _) _ _ => apply wp_bind
  | |- wp (st_ret _) _ _ => apply wp_ret
  | |- wp (st_get _) _ _ => apply wp_get
  | |- wp (st_mod _) _ _ => apply wp_mod
  | |- wp (if ?b then _ else _) _ _ => apply wp_if; intro
  end.
Ltac wp_steps := repeat (wp_step; cbv beta).

(** Resolves the checked reads of a goal whose bounds [lia] can prove. *)
Ltac read_all :=
  repeat match goal with
  | |- context [rd ?b ?p] =>
      let E := fresh "E" in
      destruct (rd_Some b p ltac:(lia)) as [? E]; rewrite E; simpl
  end.

#[export] Hint Resolve bytes_ok_zeros le_bytes_ok cs_bytes_ok cstr_bytes_ok
  copy_cstring_bytes_ok copy_cstring_terminated : nos.
#[export] Hint Rewrite @length_le_bytes length_copy_cstring : nos.
