(* ===== verification/CString.v ===== *)
(** * kernel/kstring.c: the kernel's C-string helpers

    Strings are lists of bytes as explained in the prelude.  Each function is
    the loop of the source; [hd0] is the [*p] of the code. *)

From S2P Require Import Prelude.

Definition hd0 (s : list Z) : Z := match s with [] => 0 | c :: _ => c end.

(** ** Operations *)

Fixpoint kstrcmp (a b : list Z) : Z :=
  match a, b with
  | ca :: a', cb :: b' =>
      if (ca =? 0) || (cb =? 0) then ca - cb
      else if ca =? cb then kstrcmp a' b' else ca - cb
  | _, _ => hd0 a - hd0 b
  end.

Fixpoint kstrncmp (a b : list Z) (n : nat) : Z :=
  match n with
  | O => 0
  | S n' =>
      let ca := hd0 a in
      let cb := hd0 b in
      if negb (ca =? cb) then ca - cb
      else if (ca =? 0) || (cb =? 0) then ca - cb
      else kstrncmp (tail a) (tail b) n'
  end.

Fixpoint kstrlen (s : list Z) : Z :=
  match s with
  | [] => 0
  | c :: t => if c =? 0 then 0 else 1 + kstrlen t
  end.

Fixpoint kskip_spaces (s : list Z) : list Z :=
  match s with
  | c :: t => if (c =? 32) || (c =? 9) then kskip_spaces t else s
  | [] => []
  end.

Definition UINT_MAX : Z := 2 ^ 32 - 1.

Definition is_digit (c : Z) : bool := (48 <=? c) && (c <=? 57).

(** The digit loop of [kparse_uint]: [None] is the overflow return, otherwise
    the value, whether a digit was read, and the cursor. *)
Fixpoint parse_digits (cursor : list Z) (value : Z) (has_digits : bool)
    : option (Z * bool * list Z) :=
  match cursor with
  | c :: t =>
      if is_digit c then
        let digit := u32 (c - 48) in
        if (UINT_MAX - digit) / 10 <? value then None
        else parse_digits t (u32 (value * 10 + digit)) true
      else Some (value, has_digits, cursor)
  | [] => Some (value, has_digits, [])
  end.

(** [Some (value, rest)] is the [true] return with [*out_value] and [*str]
    assigned, [None] the [false] return, which assigns neither. *)
Definition kparse_uint (str : list Z) : option (Z * list Z) :=
  match parse_digits (kskip_spaces str) 0 false with
  | None => None
  | Some (value, has_digits, cursor) =>
      if has_digits then Some (value, cursor) else None
  end.

(** ** Specifications *)

(** The longest prefix of decimal digits and its value in base ten, as
    unbounded integers. *)
Fixpoint digits_of (s : list Z) : list Z :=
  match s with
  | c :: t => if is_digit c then c :: digits_of t else []
  | [] => []
  end.

Definition dec_val (acc : Z) (ds : list Z) : Z :=
  fold_left (fun v c => v * 10 + (c - 48)) ds acc.

(** ** Lemmas *)

Lemma kstrlen_cstr s : kstrlen s = Z.of_nat (length (cstr s)).
Proof.
  induction s as [|c t IH]; simpl; [done|].
  destruct (c =? 0); cbn [length]; [done|]. rewrite IH. lia.
Qed.

Lemma kstrcmp_cstr a b : kstrcmp a b = 0 <-> cstr a = cstr b.
Proof.
  revert b. induction a as [|ca a IH]; intros [|cb b]; simpl.
  - done.
  - destruct (Z.eqb_spec cb 0) as [->|H]; [done|].
    split; [lia | intros [=]].
  - destruct (Z.eqb_spec ca 0) as [->|H]; [done|].
    split; [lia | intros [=]].
  - destruct (Z.eqb_spec ca 0) as [->|Ha], (Z.eqb_spec cb 0) as [->|Hb]; simpl.
    + done.
    + split; [lia | intros [=]].
    + split; [lia | intros [=]].
    + destruct (Z.eqb_spec ca cb) as [->|Hab].
      * rewrite IH. split; [by intros -> | by intros [= ->]].
      * split; [lia | by intros [= ->]].
Qed.

Lemma kstrcmp_cstr_b a b : (kstrcmp a b =? 0) = bool_decide (cstr a = cstr b).
Proof.
  apply eq_true_iff_eq. rewrite Z.eqb_eq, bool_decide_eq_true. apply kstrcmp_cstr.
Qed.

Lemma kstrcmp_antisym a b : kstrcmp b a = - kstrcmp a b.
Proof.
  revert b. induction a as [|ca a IH]; intros [|cb b]; simpl; try lia.
  rewrite (orb_comm (cb =? 0)), (Z.eqb_sym cb ca).
  destruct ((ca =? 0) || (cb =? 0)); [lia|].
  destruct (ca =? cb); [apply IH | lia].
Qed.

(** A comparison bounded by more than the string's length is the full one. *)
Lemma kstrncmp_kstrcmp n a b :
  (length (cstr a) < n)%nat -> kstrncmp a b n = kstrcmp a b.
Proof.
  revert n b. induction a as [|ca a IH]; intros [|n] b Hn; simpl in *; try lia.
  - destruct b as [|cb b]; simpl; [done|].
    by destruct (Z.eqb_spec 0 cb) as [<-|].
  - destruct b as [|cb b]; simpl.
    + destruct (Z.eqb_spec ca 0); simpl in *; [lia|done].
    + destruct (Z.eqb_spec ca 0) as [->|Ha]; simpl in *.
      * by destruct (Z.eqb_spec 0 cb) as [<-|].
      * destruct (Z.eqb_spec ca cb) as [->|Hab]; simpl.
        -- destruct (Z.eqb_spec cb 0); [lia|]. simpl. apply IH. lia.
        -- destruct (cb =? 0); done.
Qed.

Lemma dec_val_ge acc ds :
  0 <= acc -> Forall (fun c => is_digit c = true) ds -> acc <= dec_val acc ds.
Proof.
  intros Hacc Hds. revert acc Hacc.
  induction Hds as [|c ds Hc Hds IH]; intros acc Hacc; [unfold dec_val; simpl; lia|].
  unfold is_digit in Hc. bdestr_hyps.
  change (dec_val acc (c :: ds)) with (dec_val (acc * 10 + (c - 48)) ds).
  etrans; [|apply IH]; lia.
Qed.

Lemma digits_of_digits s : Forall (fun c => is_digit c = true) (digits_of s).
Proof.
  induction s as [|c t IH]; simpl; [constructor|].
  destruct (is_digit c) eqn:E; constructor; auto.
Qed.

Lemma parse_digits_spec s acc hd :
  0 <= acc <= UINT_MAX ->
  parse_digits s acc hd =
    if UINT_MAX <? dec_val acc (digits_of s) then None
    else Some (dec_val acc (digits_of s),
               match digits_of s with [] => hd | _ => true end,
               drop (length (digits_of s)) s).
Proof.
  revert acc hd. induction s as [|c t IH]; intros acc hd Hacc; cbn [parse_digits digits_of].
  { unfold dec_val; simpl. destruct (Z.ltb_spec UINT_MAX acc); [lia|done]. }
  destruct (is_digit c) eqn:Ec; cbn [length drop].
  2: { unfold dec_val; simpl. destruct (Z.ltb_spec UINT_MAX acc); [lia|done]. }
  pose proof (digits_of_digits t) as Hd.
  change (dec_val acc (c :: digits_of t)) with (dec_val (acc * 10 + (c - 48)) (digits_of t)).
  unfold is_digit in Ec. bdestr_hyps.
  rewrite !u32_mod. rewrite (Z.mod_small (c - 48)) by lia.
  pose proof (dec_val_ge (acc * 10 + (c - 48)) _ ltac:(lia) Hd) as Hge.
  destruct (Z.ltb_spec ((UINT_MAX - (c - 48)) / 10) acc) as [Ho|Ho].
  - unfold UINT_MAX in *.
    destruct (Z.ltb_spec (2 ^ 32 - 1) (dec_val (acc * 10 + (c - 48)) (digits_of t))); [done|].
    exfalso. assert (acc <= (2 ^ 32 - 1 - (c - 48)) / 10)
      by (apply Z.div_le_lower_bound; lia). lia.
  - assert (acc * 10 + (c - 48) <= UINT_MAX).
    { unfold UINT_MAX in *.
      pose proof (Z.mul_div_le (2 ^ 32 - 1 - (c - 48)) 10). lia. }
    rewrite Z.mod_small by (unfold UINT_MAX in *; lia).
    rewrite IH by lia. destruct (_ <? _); [done|].
    by destruct (digits_of t).
Qed.

(** ** Theorems *)

(** [kparse_uint] skips blanks and reads the longest run of decimal
    digits; it succeeds exactly when there is at least one digit and the value
    in unbounded arithmetic fits [unsigned int], and then returns that value
    and the cursor behind the digits: the per-digit overflow guard neither
    rejects a representable number nor lets one wrap. *)
Theorem kparse_uint_exact (str : list Z) :
  let s := kskip_spaces str in
  let ds := digits_of s in
  kparse_uint str =
    if (match ds with [] => true | _ => false end) || (UINT_MAX <? dec_val 0 ds)
    then None else Some (dec_val 0 ds, drop (length ds) s).
Proof.
  intros s ds. unfold kparse_uint. fold s.
  rewrite parse_digits_spec by (unfold UINT_MAX; lia). fold ds.
  destruct (UINT_MAX <? dec_val 0 ds) eqn:E; [by rewrite orb_true_r|].
  rewrite orb_false_r. by destruct ds.
Qed.
