(* ===== verification/Syslog.v ===== *)
(** * kernel/syslog.c: the in-memory event ring

    [syslog] holds the three globals of the source.  The debug-port echo of
    [syslog_write] (port 0xE9) has no effect on that state and is left out. *)

From S2P Require Import Prelude CString.

Definition SYSLOG_CAPACITY : nat := 64%nat.
Definition SYSLOG_MESSAGE_LEN : nat := 80%nat.
#[global] Arguments SYSLOG_CAPACITY : simpl never.
#[global] Arguments SYSLOG_MESSAGE_LEN : simpl never.

Record syslog := Syslog {
  g_entries : list (list Z);
  g_start : nat;
  g_count : nat;
}.

(** ** Operations *)

Definition copy_message (dest src : list Z) : list Z :=
  copy_cstring dest SYSLOG_MESSAGE_LEN src.

Definition syslog_init (s : syslog) : syslog :=
  Syslog (map (fun e => memcpy_at e 0 [0]) (g_entries s)) 0 0.

Definition syslog_write (message : list Z) (s : syslog) : syslog :=
  if (g_count s <? SYSLOG_CAPACITY)%nat then
    let index := ((g_start s + g_count s) mod SYSLOG_CAPACITY)%nat in
    Syslog (alter (fun e => copy_message e message) index (g_entries s))
           (g_start s) (g_count s + 1)
  else
    let index := g_start s in
    Syslog (alter (fun e => copy_message e message) index (g_entries s))
           ((g_start s + 1) mod SYSLOG_CAPACITY)%nat (g_count s).

Definition syslog_length (s : syslog) : nat := g_count s.

Definition syslog_entry (s : syslog) (index : nat) : option (list Z) :=
  if (g_count s <=? index)%nat then None
  else Some (default [] (g_entries s !! ((g_start s + index) mod SYSLOG_CAPACITY)%nat)).

(** The first loop of [syslog_copy_text]: walk back from the newest entry
    while complete entries fit. *)
Fixpoint copy_text_first (s : syslog) (available : Z) (first : nat) (required : Z) : nat :=
  match first with
  | O => O
  | S first' =>
      let length := match syslog_entry s first' with
                    | Some message => kstrlen message
                    | None => 0
                    end in
      if available - required <? length + 1 then first
      else copy_text_first s available first' (required + (length + 1))
  end.

(** The inner copy of one message at [written], bounded by [available]. *)
Definition copy_text_message (buffer : list Z) (written available : nat)
    (message : option (list Z)) : list Z * nat :=
  match message with
  | None => (buffer, written)
  | Some m =>
      let chars := take (available - written) (cstr m) in
      (memcpy_at buffer written chars, (written + length chars)%nat)
  end.

(** The second loop, over the entries [i .. i+n-1]. *)
Fixpoint copy_text_loop (s : syslog) (available : nat) (n i : nat)
    (buffer : list Z) (written : nat) : list Z * nat :=
  match n with
  | O => (buffer, written)
  | S n' =>
      let '(buffer, written) :=
        copy_text_message buffer written available (syslog_entry s i) in
      if (written <? available)%nat
      then copy_text_loop s available n' (i + 1) (<[written := 10]> buffer) (written + 1)
      else copy_text_loop s available n' (i + 1) buffer written
  end.

(** Result: the buffer after the call and the returned length. *)
Definition syslog_copy_text (s : syslog) (buffer : list Z) (capacity : nat) : list Z * nat :=
  if (capacity =? 0)%nat then (buffer, O)
  else
    let available := (capacity - 1)%nat in
    let first := copy_text_first s (Z.of_nat available) (g_count s) 0 in
    let '(buffer, written) :=
      copy_text_loop s available (g_count s - first) first buffer 0 in
    let '(buffer, written) :=
      if (written =? 0)%nat && negb (g_count s =? 0)%nat && negb (available =? 0)%nat
      then copy_text_message buffer written available (syslog_entry s (g_count s - 1))
      else (buffer, written) in
    (<[written := 0]> buffer, written).

(** The zero-initialised globals. *)
Definition syslog_boot : syslog :=
  Syslog (replicate SYSLOG_CAPACITY (replicate SYSLOG_MESSAGE_LEN 0)) 0 0.

(** ** Invariant and abstract view *)

Definition entry_wf (e : list Z) : Prop := length e = SYSLOG_MESSAGE_LEN.

Definition syslog_wf (s : syslog) : Prop :=
  length (g_entries s) = SYSLOG_CAPACITY /\ Forall entry_wf (g_entries s) /\
  (g_start s < SYSLOG_CAPACITY)%nat /\ (g_count s <= SYSLOG_CAPACITY)%nat.

(** The retained messages, oldest first. *)
Definition messages (s : syslog) : list (list Z) :=
  map (fun i => cstr (default [] (syslog_entry s i))) (seq 0 (g_count s)).

(** The abstract log: an unbounded history of which the last
    [SYSLOG_CAPACITY] messages are kept, each cut to 79 characters. *)
Definition keep_newest (l : list (list Z)) : list (list Z) :=
  drop (length l - SYSLOG_CAPACITY) l.

(** Text of a list of messages, one per line. *)
Definition lines (ms : list (list Z)) : list Z := concat (map (fun m => m ++ [10]) ms).

(** ** Lemmas *)

Lemma syslog_boot_wf : syslog_wf syslog_boot.
Proof.
  split_and!; [apply length_replicate| |unfold SYSLOG_CAPACITY; simpl; lia..].
  apply Forall_replicate, length_replicate.
Qed.

Lemma length_messages s : length (messages s) = g_count s.
Proof. unfold messages. by rewrite length_map, length_seq. Qed.

Lemma entry_at s i :
  (i < g_count s)%nat ->
  default [] (syslog_entry s i) =
    default [] (g_entries s !! ((g_start s + i) mod SYSLOG_CAPACITY)%nat).
Proof. intros H. unfold syslog_entry. destruct (Nat.leb_spec (g_count s) i); [lia|done]. Qed.

Lemma lookup_messages s i :
  (i < g_count s)%nat ->
  messages s !! i =
    Some (cstr (default [] (g_entries s !! ((g_start s + i) mod SYSLOG_CAPACITY)%nat))).
Proof.
  intros H. unfold messages. rewrite list_lookup_fmap, lookup_seq_lt by done.
  simpl. by rewrite entry_at.
Qed.

(** Distinct logical positions use distinct physical slots. *)
Lemma slot_inj st i j :
  (i < SYSLOG_CAPACITY)%nat -> (j < SYSLOG_CAPACITY)%nat ->
  ((st + i) mod SYSLOG_CAPACITY = (st + j) mod SYSLOG_CAPACITY)%nat -> i = j.
Proof.
  unfold SYSLOG_CAPACITY. intros Hi Hj H.
  pose proof (Nat.div_mod_eq (st + i) 64). pose proof (Nat.div_mod_eq (st + j) 64).
  nia.
Qed.

Lemma syslog_write_wf message s : syslog_wf s -> syslog_wf (syslog_write message s).
Proof.
  intros (H1 & H2 & H3 & H4). unfold syslog_wf, syslog_write.
  assert (HF : forall i, Forall entry_wf (alter (fun e => copy_message e message) i (g_entries s))).
  { intros i. apply Forall_alter; [done|]. intros e _ He. unfold entry_wf, copy_message.
    by rewrite length_copy_cstring. }
  destruct (Nat.ltb_spec (g_count s) SYSLOG_CAPACITY); simpl;
    rewrite length_alter; split_and!; auto; try lia.
  apply Nat.mod_upper_bound. done.
Qed.

Lemma written_entry s i message :
  syslog_wf s -> (i < SYSLOG_CAPACITY)%nat ->
  cstr (default [] (alter (fun e => copy_message e message) i (g_entries s) !! i))
    = take (SYSLOG_MESSAGE_LEN - 1) (cstr message).
Proof.
  intros (H1 & H2 & _) Hi. rewrite list_lookup_alter_eq.
  destruct (lookup_lt_is_Some_2 (g_entries s) i) as [e He]; [lia|].
  rewrite He. simpl. unfold copy_message. apply cstr_copy_cstring.
  - unfold SYSLOG_MESSAGE_LEN. lia.
  - eapply Forall_lookup_1 in H2; [|exact He]. rewrite H2. done.
Qed.

Lemma untouched_entry (es : list (list Z)) message (i j : nat) :
  i <> j -> alter (fun e => copy_message e message) i es !! j = es !! j.
Proof. apply list_lookup_alter_ne. Qed.

Lemma lines_app a b : lines (a ++ b) = lines a ++ lines b.
Proof. unfold lines. by rewrite map_app, concat_app. Qed.

Lemma drop_messages_S s i :
  (i < g_count s)%nat ->
  drop i (messages s) = cstr (default [] (syslog_entry s i)) :: drop (S i) (messages s).
Proof.
  intros H. apply drop_S. rewrite lookup_messages by done. by rewrite entry_at.
Qed.

Lemma entry_Some s i :
  (i < g_count s)%nat -> syslog_entry s i = Some (default [] (syslog_entry s i)).
Proof. intros H. unfold syslog_entry. by destruct (Nat.leb_spec (g_count s) i); [lia|]. Qed.

(** The backwards walk keeps the number of bytes of the chosen suffix in
    [required] and stops at the longest suffix that fits. *)
Lemma copy_text_first_spec s avail first required :
  (first <= g_count s)%nat ->
  required = Z.of_nat (length (lines (drop first (messages s)))) -> required <= avail ->
  let f := copy_text_first s avail first required in
  (f <= first)%nat /\ Z.of_nat (length (lines (drop f (messages s)))) <= avail /\
  (f = O \/ avail < Z.of_nat (length (lines (drop (f - 1) (messages s))))).
Proof.
  revert required. induction first as [|n IH]; intros required Hn Hreq Hav; simpl.
  { rewrite <- Hreq. auto. }
  rewrite entry_Some by lia.
  assert (Hlen : Z.of_nat (length (lines (drop n (messages s)))) =
            required + (kstrlen (default [] (syslog_entry s n)) + 1)).
  { rewrite drop_messages_S by lia. unfold lines. cbn [map concat].
    fold (lines (drop (S n) (messages s))). rewrite !length_app, kstrlen_cstr, Hreq.
    simpl. lia. }
  destruct (Z.ltb_spec (avail - required) (kstrlen (default [] (syslog_entry s n)) + 1)).
  - rewrite <- Hreq. split_and!; [lia..|]. right.
    rewrite Nat.sub_succ, Nat.sub_0_r. lia.
  - destruct (IH (required + (kstrlen (default [] (syslog_entry s n)) + 1))) as (A & B & C);
      [lia..|]. split_and!; [lia|done|done].
Qed.

Lemma take_snoc_insert (b : list Z) n x :
  (n < length b)%nat -> take (S n) (<[n := x]> b) = take n b ++ [x].
Proof.
  intros H. rewrite (take_S_r _ _ x) by (by rewrite list_lookup_insert_eq).
  by rewrite take_insert_ge by lia.
Qed.

(** When the remaining entries fit, the forward loop appends them all. *)
Lemma copy_text_loop_spec s avail n i buffer written :
  (i + n = g_count s)%nat -> (avail < length buffer)%nat ->
  (written + length (lines (drop i (messages s))) <= avail)%nat ->
  let r := copy_text_loop s avail n i buffer written in
  length r.1 = length buffer /\
  r.2 = (written + length (lines (drop i (messages s))))%nat /\
  take r.2 r.1 = take written buffer ++ lines (drop i (messages s)).
Proof.
  revert i buffer written. induction n as [|n IH]; intros i buffer written Hi Hb Hw.
  { rewrite drop_ge in * by (rewrite length_messages; lia). simpl in *.
    rewrite app_nil_r. split_and!; [done|lia|done]. }
  rewrite drop_messages_S in * by lia.
  cbn [copy_text_loop]. rewrite entry_Some by lia. cbn [copy_text_message].
  set (m := cstr (default [] (syslog_entry s i))) in *.
  unfold lines in Hw |- *. cbn [map concat] in Hw |- *.
  fold (lines (drop (S i) (messages s))) in Hw |- *.
  rewrite !length_app in Hw |- *. simpl in Hw |- *.
  rewrite (take_ge m) by lia.
  destruct (Nat.ltb_spec (written + length m) avail) as [Hlt|]; [|lia].
  assert (Hlm : length (memcpy_at buffer written m) = length buffer)
    by (apply length_memcpy_at; lia).
  rewrite (Nat.add_1_r i), (Nat.add_1_r (written + length m)).
  destruct (IH (S i) (<[(written + length m)%nat := 10]> (memcpy_at buffer written m))
              (S (written + length m))%nat) as (A & B & C);
    [lia | rewrite length_insert; lia | lia |].
  rewrite length_insert, Hlm in A. split_and!; [done | rewrite B; unfold m; lia |].
  rewrite C, take_snoc_insert, take_memcpy by lia. by rewrite <- !app_assoc.
Qed.

(** The fallback for a buffer that cannot hold one complete line. *)
Lemma copy_text_tail s b capacity :
  (0 < capacity)%nat -> length b = capacity ->
  let r := if (O =? 0)%nat && negb (g_count s =? 0)%nat && negb (capacity - 1 =? 0)%nat
           then copy_text_message b 0 (capacity - 1) (syslog_entry s (g_count s - 1))
           else (b, O) in
  length r.1 = capacity /\ (r.2 < capacity)%nat /\
  take r.2 r.1 = take (capacity - 1) (default [] (last (messages s))).
Proof.
  intros Hc Hb. rewrite Nat.eqb_refl.
  destruct (Nat.eqb_spec (g_count s) 0) as [Hz|Hz]; simpl.
  { assert (messages s = []) as -> by (apply nil_length_inv; by rewrite length_messages).
    simpl. rewrite take_nil. split_and!; [done|lia|done]. }
  destruct (Nat.eqb_spec (capacity - 1) 0) as [->|Ha]; simpl; [split_and!; [done|lia|done]|].
  rewrite entry_Some by lia. simpl.
  rewrite last_lookup, length_messages, <- Nat.sub_1_r, lookup_messages by lia. simpl.
  rewrite <- entry_at by lia. rewrite Nat.sub_0_r.
  set (m := take _ (cstr _)). assert (length m <= capacity - 1)%nat
    by (unfold m; rewrite length_take; lia).
  rewrite length_memcpy_at by lia. split_and!; [done|lia|]. apply take_memcpy_0. lia.
Qed.

(** ** Theorems *)

(** [syslog_write] on the 64-slot ring implements an unbounded
    history cut to its newest 64 messages: the retained messages after the
    call are those before it with the message (cut to 79 characters) at the
    end, the oldest dropped when the ring is full; the ring stays well
    formed. *)
Theorem syslog_write_refines (message : list Z) (s : syslog) :
  syslog_wf s ->
  syslog_wf (syslog_write message s) /\
  messages (syslog_write message s) =
    keep_newest (messages s ++ [take (SYSLOG_MESSAGE_LEN - 1) (cstr message)]).
Proof.
  intros Hwf. split; [by apply syslog_write_wf|].
  pose proof Hwf as (H1 & H2 & H3 & H4).
  unfold keep_newest. rewrite length_app, length_messages. simpl.
  unfold syslog_write. destruct (Nat.ltb_spec (g_count s) SYSLOG_CAPACITY) as [Hc|Hc].
  - replace (g_count s + 1 - SYSLOG_CAPACITY)%nat with O by lia. rewrite drop_0.
    apply (list_eq_same_length _ _ (g_count s + 1)).
    1-2: rewrite ?length_app, !length_messages; simpl; lia.
    intros i x y Hi. rewrite lookup_messages by done. simpl.
    destruct (decide (i = g_count s)) as [->|Hne].
    + rewrite lookup_app_r by (rewrite length_messages; lia).
      rewrite length_messages, Nat.sub_diag. simpl.
      rewrite written_entry by (try done; by apply Nat.mod_upper_bound). by intros [= <-] [= <-].
    + rewrite lookup_app_l, lookup_messages by (rewrite ?length_messages; lia).
      rewrite untouched_entry by (intros ?%slot_inj; lia). congruence.
  - assert (Hcap : g_count s = SYSLOG_CAPACITY) by lia.
    replace (g_count s + 1 - SYSLOG_CAPACITY)%nat with 1%nat by lia.
    apply (list_eq_same_length _ _ (g_count s)).
    1-2: rewrite ?length_drop, ?length_app, !length_messages; simpl; lia.
    intros i x y Hi. rewrite lookup_messages by done. simpl.
    assert (Hslot : (((g_start s + 1) `mod` SYSLOG_CAPACITY + i) `mod` SYSLOG_CAPACITY
                    = (g_start s + S i) `mod` SYSLOG_CAPACITY)%nat).
    { rewrite Nat.Div0.add_mod_idemp_l. f_equal. lia. }
    rewrite Hslot, lookup_drop.
    destruct (decide (S i = g_count s)) as [He|Hne].
    + rewrite lookup_app_r by (rewrite length_messages; lia).
      rewrite length_messages. replace (1 + i - g_count s)%nat with O by lia.
      replace ((g_start s + S i) `mod` SYSLOG_CAPACITY)%nat with (g_start s).
      2: { rewrite He, Hcap. pose proof (Nat.Div0.mod_add (g_start s) 1 SYSLOG_CAPACITY) as E.
           rewrite Nat.mul_1_l in E. rewrite E. by rewrite Nat.mod_small. }
      rewrite written_entry by done. by intros [= <-] [= <-].
    + rewrite lookup_app_l, lookup_messages by (rewrite ?length_messages; lia).
      rewrite untouched_entry; [simpl; congruence|].
      intros Heq. rewrite <- (Nat.mod_small (g_start s) SYSLOG_CAPACITY) in Heq at 1 by done.
      rewrite <- (Nat.add_0_r (g_start s)) in Heq at 1.
      apply slot_inj in Heq; lia.
Qed.

(** [syslog_copy_text] never writes past the buffer, always
    terminates the text, and delivers exactly the longest run of newest
    complete lines that fits; only when not even the newest line fits does it
    deliver that message truncated to the space. *)
Theorem syslog_copy_text_newest (s : syslog) (buffer : list Z) (capacity : nat) :
  (0 < capacity)%nat -> length buffer = capacity ->
  let r := syslog_copy_text s buffer capacity in
  let ms := messages s in
  length r.1 = capacity /\ (r.2 < capacity)%nat /\ r.1 !! r.2 = Some 0 /\
  exists first, (first <= length ms)%nat /\
    (length (lines (drop first ms)) < capacity)%nat /\
    (first = O \/ (capacity <= length (lines (drop (first - 1) ms)))%nat) /\
    take r.2 r.1 =
      if (first =? length ms)%nat
      then take (capacity - 1) (default [] (last ms))
      else lines (drop first ms).
Proof.
  intros Hcap Hbuf r ms. unfold r, syslog_copy_text.
  destruct (Nat.eqb_spec capacity 0); [lia|].
  destruct (copy_text_first_spec s (Z.of_nat (capacity - 1)) (g_count s) 0) as (F1 & F2 & F3);
    [lia | by rewrite drop_ge by (rewrite length_messages; lia) | lia |].
  set (first := copy_text_first s (Z.of_nat (capacity - 1)) (g_count s) 0) in *.
  destruct (copy_text_loop_spec s (capacity - 1) (g_count s - first) first buffer 0)
    as (L1 & L2 & L3); [lia | lia | simpl; lia |].
  destruct (copy_text_loop s (capacity - 1) (g_count s - first) first buffer 0) as [b w].
  simpl in L1, L2, L3. subst ms. rewrite length_messages.
  destruct (Nat.eqb_spec first (g_count s)) as [Hf|Hf].
  - rewrite drop_ge in L2 by (rewrite length_messages; lia). simpl in L2. subst w.
    pose proof (copy_text_tail s b capacity ltac:(lia) ltac:(lia)) as (T1 & T2 & T3).
    destruct (if _ && _ && _ then _ else _) as [b' w']. simpl in *.
    rewrite length_insert, list_lookup_insert_eq by lia.
    split_and!; [lia..|done|]. exists first.
    destruct (Nat.eqb_spec first (g_count s)); [|done].
    rewrite take_insert_ge by lia. split_and!; [lia|lia| |done].
    destruct F3; [by left|right; lia].
  - assert (Hnz : lines (drop first (messages s)) <> []).
    { rewrite drop_messages_S by lia. unfold lines. cbn [map concat].
      by intros [[??]%app_nil ?]%app_nil. }
    destruct w as [|w]; [by apply eq_sym, nil_length_inv in L2|].
    simpl. rewrite length_insert, list_lookup_insert_eq by lia.
    split_and!; [lia..|done|]. exists first. destruct (Nat.eqb_spec first (g_count s)); [done|].
    rewrite take_insert_ge by lia. split_and!; [lia|lia| |exact L3].
    destruct F3; [by left|right; lia].
Qed.

(** A 20-byte buffer that holds the newest of two lines. *)
Lemma syslog_copy_text_newest_witness :
  let s := syslog_write (cs "world") (syslog_write (cs "hello, this is long") syslog_boot) in
  syslog_copy_text s (replicate 20 7) 20 =
    (cs "world" ++ [10] ++ [0] ++ replicate 13 7, 6%nat) /\
  exists first, (first <= length (messages s))%nat.
Proof.
  intros s.
  pose proof (syslog_copy_text_newest s (replicate 20 7) 20 ltac:(lia) ltac:(vm_compute; reflexivity))
    as (_ & _ & _ & first & Hf & _).
  split; [vm_compute; reflexivity | exists first; exact Hf].
Defined.

Lemma syslog_write_refines_witness :
  messages (syslog_write (cs "b") (syslog_write (cs "a") syslog_boot)) = [cs "a"; cs "b"] /\
  syslog_wf (syslog_write (cs "b") (syslog_write (cs "a") syslog_boot)).
Proof.
  split; [vm_compute; reflexivity|].
  apply syslog_write_refines, syslog_write_wf, syslog_boot_wf.
Defined.
