(* ===== verification/Machine.v ===== *)
(** * The I/O-port machine the drivers run on

    [kernel/include/io.h] is inline assembly around the [in]/[out] family of
    instructions.  The hardware behind the ports is not part of the source:
    it is the parameter [P] with the four operations of [PortIO], about which
    nothing is assumed.  [machine] adds the kernel log ([kernel/syslog.c]) and
    a trace of the port operations performed (newest first), which exists for
    specifications only: no operation reads it. *)

From S2P Require Import Prelude Syslog.

(** What the devices do with each port instruction. *)
Class PortIO (P : Type) := {
  hw_inb : Z -> P -> Z * P;
  hw_outb : Z -> Z -> P -> P;
  hw_insw : Z -> nat -> P -> list Z * P;
  hw_outsw : Z -> list Z -> P -> P;
}.

Inductive io_event :=
| EvIn (port value : Z)
| EvOut (port value : Z)
| EvInsw (port : Z) (bytes : list Z)
| EvOutsw (port : Z) (bytes : list Z).

Record machine (P : Type) := Machine {
  hw : P;
  trace : list io_event;
  klog : syslog;
}.
Arguments Machine {P} _ _ _.
Arguments hw {P} _.
Arguments trace {P} _.
Arguments klog {P} _.

Section Ops.
Context {P : Type} `{PortIO P}.

Definition inb (port : Z) : ST (machine P) Z := fun m =>
  let '(v, p) := hw_inb port (hw m) in
  (v, Machine p (EvIn port v :: trace m) (klog m)).

Definition outb (port value : Z) : ST (machine P) unit := fun m =>
  (tt, Machine (hw_outb port value (hw m)) (EvOut port value :: trace m) (klog m)).

(** [rep insw]: [count] 16-bit words, delivered as [2 * count] bytes. *)
Definition insw (port : Z) (count : nat) : ST (machine P) (list Z) := fun m =>
  let '(bs, p) := hw_insw port count (hw m) in
  (bs, Machine p (EvInsw port bs :: trace m) (klog m)).

Definition outsw (port : Z) (bytes : list Z) : ST (machine P) unit := fun m =>
  (tt, Machine (hw_outsw port bytes (hw m)) (EvOutsw port bytes :: trace m) (klog m)).

Definition io_wait : ST (machine P) unit := outb 0x80 0.

Definition log (message : list Z) : ST (machine P) unit := fun m =>
  (tt, Machine (hw m) (trace m) (syslog_write message (klog m))).

End Ops.

(** ** Reading a trace *)

(** The data blocks handed to a device with [outsw], oldest first. *)
Fixpoint payload (tr : list io_event) : list (list Z) :=
  match tr with
  | [] => []
  | EvOutsw _ bs :: tr => payload tr ++ [bs]
  | _ :: tr => payload tr
  end.

(** The value a port was last written with. *)
Fixpoint last_out (port : Z) (tr : list io_event) : option Z :=
  match tr with
  | [] => None
  | EvOut p v :: tr => if p =? port then Some v else last_out port tr
  | _ :: tr => last_out port tr
  end.

(** ** Computations that hand over no data

    [quiet m]: running [m] performs no [outsw]. *)

Section Quiet.
Context {P : Type} `{PortIO P}.

Definition quiet {A} (m : ST (machine P) A) : Prop :=
  forall s, payload (trace (m s).2) = payload (trace s).

Lemma quiet_ret {A} (a : A) : quiet (st_ret a).
Proof. done. Qed.

Lemma quiet_bind {A B} (m : ST (machine P) A) (k : A -> ST (machine P) B) :
  quiet m -> (forall a, quiet (k a)) -> quiet (st_bind m k).
Proof.
  intros Hm Hk s. unfold st_bind. specialize (Hm s).
  destruct (m s) as [a s1]; simpl in *. by rewrite Hk.
Qed.

Lemma quiet_if {A} (b : bool) (m1 m2 : ST (machine P) A) :
  quiet m1 -> quiet m2 -> quiet (if b then m1 else m2).
Proof. by destruct b. Qed.

Lemma quiet_inb port : quiet (inb port).
Proof. intros s. unfold inb. by destruct (hw_inb port (hw s)). Qed.

Lemma quiet_outb port v : quiet (outb port v).
Proof. done. Qed.

Lemma quiet_insw port n : quiet (insw port n).
Proof. intros s. unfold insw. by destruct (hw_insw port n (hw s)). Qed.

Lemma quiet_log msg : quiet (log msg).
Proof. done. Qed.

Lemma quiet_poll {A} p (body : ST (machine P) (option A)) :
  quiet body -> quiet (poll_upto p body).
Proof.
  intros Hb s.
  apply (poll_upto_inv p body (fun s' => payload (trace s') = payload (trace s))); [|done].
  intros s' <-. apply Hb.
Qed.
End Quiet.

#[export] Hint Resolve quiet_ret quiet_bind quiet_if quiet_inb quiet_outb quiet_insw
  quiet_log quiet_poll : nos.
