(* ===== verification/Ata.v ===== *)
(** * kernel/ata.c: the ATA PIO driver

    The driver is modelled over the port machine of [Machine.v], so it runs
    against every device: the hardware is a parameter.  [ATA_TIMEOUT] bounds
    both status loops by 10,000,000 iterations; [poll_upto] counts them in
    binary, so the bound is the one of the source. *)

From S2P Require Import Prelude Syslog Machine.

Open Scope st_scope.

Definition ATA_DATA : Z := 0x1F0.
Definition ATA_SECTOR_CNT : Z := 0x1F2.
Definition ATA_LBA_LOW : Z := 0x1F3.
Definition ATA_LBA_MID : Z := 0x1F4.
Definition ATA_LBA_HIGH : Z := 0x1F5.
Definition ATA_DRIVE_HEAD : Z := 0x1F6.
Definition ATA_STATUS : Z := 0x1F7.
Definition ATA_COMMAND : Z := 0x1F7.

Definition CMD_READ_PIO : Z := 0x20.
Definition CMD_WRITE_PIO : Z := 0x30.
Definition CMD_IDENTIFY : Z := 0xEC.
Definition CMD_CACHE_FLUSH : Z := 0xE7.

Definition STATUS_BSY : Z := 0x80.
Definition STATUS_DF : Z := 0x20.
Definition STATUS_DRQ : Z := 0x08.
Definition STATUS_ERR : Z := 0x01.

Definition ATA_TIMEOUT : positive := 10000000%positive.

Inductive ata_init_result_t := ATA_INIT_ERROR | ATA_INIT_READY | ATA_INIT_NO_DEVICE.
Inductive ata_write_result_t := ATA_WRITE_FAILED | ATA_WRITE_COMPLETE | ATA_WRITE_UNCERTAIN.

#[export] Instance ata_init_result_eq : EqDecision ata_init_result_t.
Proof. solve_decision. Defined.
#[export] Instance ata_write_result_eq : EqDecision ata_write_result_t.
Proof. solve_decision. Defined.

(** [status & MASK] as a truth value. *)
Definition has_flag (status mask : Z) : bool := negb (Z.land status mask =? 0).

Section Ata.
Context {P : Type} `{PortIO P}.
Abbreviation M := (ST (machine P)).

Definition ata_status_failed (status : Z) : M bool :=
  if has_flag status STATUS_DF then
    do! log (cs "ATA: Device fault") in st_ret true
  else if has_flag status STATUS_ERR then
    do! log (cs "ATA: Command error") in st_ret true
  else st_ret false.

Definition wait_not_busy_body : M (option bool) :=
  let! status := inb ATA_STATUS in
  if (status =? 0) || (status =? 0xFF) then st_ret (Some false)
  else if negb (has_flag status STATUS_BSY) then
    let! failed := ata_status_failed status in st_ret (Some (negb failed))
  else st_ret None.

Definition ata_wait_not_busy : M bool :=
  let! r := poll_upto ATA_TIMEOUT wait_not_busy_body in
  match r with
  | Some b => st_ret b
  | None => do! log (cs "ATA: Timeout waiting for BSY to clear") in st_ret false
  end.

Definition wait_drq_body : M (option bool) :=
  let! status := inb ATA_STATUS in
  if (status =? 0) || (status =? 0xFF) then st_ret (Some false)
  else if negb (has_flag status STATUS_BSY) then
    let! failed := ata_status_failed status in
    if failed then st_ret (Some false)
    else if has_flag status STATUS_DRQ then st_ret (Some true)
    else st_ret None
  else st_ret None.

Definition ata_wait_drq : M bool :=
  let! r := poll_upto ATA_TIMEOUT wait_drq_body in
  match r with
  | Some b => st_ret b
  | None => do! log (cs "ATA: Timeout waiting for DRQ to set") in st_ret false
  end.

(** The four dummy status reads after a drive selection. *)
Definition status_delay : M unit :=
  do! inb ATA_STATUS in do! inb ATA_STATUS in
  do! inb ATA_STATUS in do! inb ATA_STATUS in st_ret tt.

Definition ata_select_drive : M unit :=
  do! outb ATA_DRIVE_HEAD 0xE0 in status_delay.

Definition ata_select_lba (lba : Z) : M unit :=
  do! outb ATA_DRIVE_HEAD (u8 (Z.lor 0xE0 (Z.land (Z.shiftr lba 24) 0x0F))) in
  status_delay.

(** The buffers of the callers are arrays, never NULL. *)
Definition ata_valid_request (lba count : Z) : bool :=
  if count =? 0 then false
  else u64 (lba + count - 1) <=? 0x0FFFFFFF.

Definition ata_init : M ata_init_result_t :=
  let! status := inb ATA_STATUS in
  if status =? 0xFF then st_ret ATA_INIT_NO_DEVICE
  else
    do! ata_select_drive in
    do! io_wait in
    do! outb ATA_SECTOR_CNT 0 in
    do! outb ATA_LBA_LOW 0 in
    do! outb ATA_LBA_MID 0 in
    do! outb ATA_LBA_HIGH 0 in
    do! outb ATA_COMMAND CMD_IDENTIFY in
    let! status := inb ATA_STATUS in
    if status =? 0 then st_ret ATA_INIT_NO_DEVICE
    else
      let! ok := ata_wait_not_busy in
      if negb ok then st_ret ATA_INIT_ERROR
      else
        (* the second register is read only when the first is zero *)
        let! mid := inb ATA_LBA_MID in
        let! atapi := (if negb (mid =? 0) then st_ret true
                       else let! high := inb ATA_LBA_HIGH in st_ret (negb (high =? 0))) in
        if atapi : bool then
          do! log (cs "ATA: Unsupported non-ATA device") in st_ret ATA_INIT_ERROR
        else
          let! ok := ata_wait_drq in
          if negb ok then st_ret ATA_INIT_ERROR
          else
            do! insw ATA_DATA 256 in
            let! ok := ata_wait_not_busy in
            st_ret (if ok : bool then ATA_INIT_READY else ATA_INIT_ERROR).

(** The register programming shared by reads and writes: address, count and
    command. *)
Definition ata_issue (lba count command : Z) : M unit :=
  do! ata_select_lba lba in
  do! outb ATA_SECTOR_CNT (u8 count) in
  do! outb ATA_LBA_LOW (u8 lba) in
  do! outb ATA_LBA_MID (u8 (Z.shiftr lba 8)) in
  do! outb ATA_LBA_HIGH (u8 (Z.shiftr lba 16)) in
  outb ATA_COMMAND command.

(** The sector loops, [n] sectors left, the next one numbered [i]. *)
Fixpoint read_sectors (n i : nat) (buffer : list Z) : M (bool * list Z) :=
  match n with
  | O => st_ret (true, buffer)
  | S n' =>
      let! ok := ata_wait_drq in
      if negb ok then st_ret (false, buffer)
      else
        let! bytes := insw ATA_DATA 256 in
        read_sectors n' (i + 1) (memcpy_at buffer (i * 512) bytes)
  end.

(** [ata_read]: the result and the buffer after the call. *)
Definition ata_read (lba count : Z) (buffer : list Z) : M (bool * list Z) :=
  if negb (ata_valid_request lba count) then st_ret (false, buffer)
  else
    let! ok := ata_wait_not_busy in
    if negb ok then st_ret (false, buffer)
    else
      do! ata_issue lba count CMD_READ_PIO in
      let! r := read_sectors (Z.to_nat count) 0 buffer in
      if negb r.1 then st_ret (false, r.2)
      else
        let! ok := ata_wait_not_busy in
        st_ret (ok, r.2).

Fixpoint write_sectors (n i : nat) (buffer : list Z) (transferred : bool)
    : M (option ata_write_result_t) :=
  match n with
  | O => st_ret None
  | S n' =>
      let! ok := ata_wait_drq in
      if negb ok then
        st_ret (Some (if transferred then ATA_WRITE_UNCERTAIN else ATA_WRITE_FAILED))
      else
        do! outsw ATA_DATA (slice buffer (i * 512) 512) in
        write_sectors n' (i + 1) buffer true
  end.

Definition ata_write (lba count : Z) (buffer : list Z) : M ata_write_result_t :=
  if negb (ata_valid_request lba count) then st_ret ATA_WRITE_FAILED
  else
    let! ok := ata_wait_not_busy in
    if negb ok then st_ret ATA_WRITE_FAILED
    else
      do! ata_issue lba count CMD_WRITE_PIO in
      let! r := write_sectors (Z.to_nat count) 0 buffer false in
      match r with
      | Some early => st_ret early
      | None =>
          let! ok := ata_wait_not_busy in
          if negb ok then st_ret ATA_WRITE_UNCERTAIN
          else
            do! outb ATA_COMMAND CMD_CACHE_FLUSH in
            let! ok := ata_wait_not_busy in
            st_ret (if ok : bool then ATA_WRITE_COMPLETE else ATA_WRITE_UNCERTAIN)
      end.
End Ata.

(** ** Specifications *)

(** The 28-bit address a drive decodes from its registers. *)
Definition decoded_lba (tr : list io_event) : option Z :=
  head ← last_out ATA_DRIVE_HEAD tr;
  high ← last_out ATA_LBA_HIGH tr;
  mid ← last_out ATA_LBA_MID tr;
  low ← last_out ATA_LBA_LOW tr;
  Some (Z.land head 0x0F * 2 ^ 24 + high * 2 ^ 16 + mid * 2 ^ 8 + low).

(** ** Lemmas *)

Section Lemmas.
Context {P : Type} `{PortIO P}.
Abbreviation M := (ST (machine P)).

Lemma quiet_status_failed status : quiet (ata_status_failed (P := P) status).
Proof. unfold ata_status_failed. auto 6 with nos. Qed.
Hint Resolve quiet_status_failed : nos.

Lemma quiet_wait_not_busy : quiet (ata_wait_not_busy (P := P)).
Proof.
  unfold ata_wait_not_busy, wait_not_busy_body. apply quiet_bind.
  - apply quiet_poll. auto 8 with nos.
  - intros [b|]; auto with nos.
Qed.

Lemma quiet_wait_drq : quiet (ata_wait_drq (P := P)).
Proof.
  unfold ata_wait_drq, wait_drq_body. apply quiet_bind.
  - apply quiet_poll. auto 10 with nos.
  - intros [b|]; auto with nos.
Qed.

Lemma quiet_issue lba count cmd : quiet (ata_issue (P := P) lba count cmd).
Proof. unfold ata_issue, ata_select_lba, status_delay. auto 12 with nos. Qed.
(* keep unification from unrolling the polling loops *)
#[local] Opaque poll_upto.

Lemma wp_quiet {A} (m : M A) (Q : A -> machine P -> Prop) (s : machine P) :
  quiet m -> (forall a s', payload (trace s') = payload (trace s) -> Q a s') -> wp m Q s.
Proof. intros Hq HQ. apply wp_intro. intros a s' E. apply HQ. specialize (Hq s). by rewrite E in Hq. Qed.

(** The blocks the loop hands over are the first [k] sectors of the buffer;
    it stops early only on the report that matches what was transferred. *)
Lemma write_sectors_payload n i buffer transferred (s : machine P) :
  wp (write_sectors n i buffer transferred) (fun r s' =>
    exists k, (k <= n)%nat /\
      payload (trace s') =
        payload (trace s) ++ map (fun j => slice buffer (j * 512) 512) (seq i k) /\
      match r with
      | None => k = n
      | Some ATA_WRITE_FAILED => k = O /\ transferred = false
      | Some ATA_WRITE_UNCERTAIN => (0 < k)%nat \/ transferred = true
      | Some ATA_WRITE_COMPLETE => False
      end) s.
Proof.
  revert i transferred s. induction n as [|n IH]; intros i transferred s; cbn [write_sectors].
  { apply wp_ret. exists O. rewrite app_nil_r. auto. }
  apply wp_bind. apply wp_quiet; [apply quiet_wait_drq|]. intros ok s1 E1. apply wp_if; intros _.
  { apply wp_ret. exists O. simpl. rewrite app_nil_r. destruct transferred; auto with lia. }
  apply wp_bind. unfold wp at 1. simpl.
  eapply wp_mono; [apply IH|]. cbv beta. intros r s2 (k & Hk & Hp & Hr).
  exists (S k). simpl in Hp. rewrite Hp, E1, <- app_assoc, Nat.add_1_r.
  split; [lia|]. split; [done|]. destruct r as [[]|]; [destruct Hr; congruence|done|left; lia|lia].
Qed.

Lemma wp_wait_exact (Q : bool -> machine P -> Prop) (s : machine P) :
  (forall b s', payload (trace s') = payload (trace s) -> Q b s') -> wp ata_wait_not_busy Q s.
Proof. intros HQ. apply wp_quiet; [apply quiet_wait_not_busy|done]. Qed.

(** The 28 address bits, taken apart and put together. *)
Lemma lba_registers lba :
  0 <= lba < 2 ^ 28 ->
  Z.land (u8 (Z.lor 0xE0 (Z.land (Z.shiftr lba 24) 0x0F))) 0x0F * 2 ^ 24 +
    u8 (Z.shiftr lba 16) * 2 ^ 16 + u8 (Z.shiftr lba 8) * 2 ^ 8 + u8 lba = lba.
Proof.
  intros Hl. rewrite !u8_mod.
  assert (Hhead : Z.land (Z.lor 0xE0 (Z.land (Z.shiftr lba 24) 0x0F) mod 2 ^ 8) 0x0F
                  = Z.shiftr lba 24).
  { assert (0 <= Z.shiftr lba 24 < 16) as Hh.
    { rewrite Z.shiftr_div_pow2 by lia.
      split; [apply Z.div_pos; lia | apply Z.div_lt_upper_bound; lia]. }
    assert (Z.shiftr lba 24 ∈ seqZ 0 16) as Hin by (apply elem_of_seqZ; lia).
    revert Hin. generalize (Z.shiftr lba 24). intros h Hin.
    apply (proj1 (Forall_forall (fun h => Z.land (Z.lor 0xE0 (Z.land h 0x0F) mod 2 ^ 8) 0x0F = h) _))
      with (x := h) in Hin; [done|]. vm_compute. repeat constructor. }
  rewrite Hhead, !Z.shiftr_div_pow2 by lia.
  pose proof (Z.div_mod lba (2 ^ 8)). pose proof (Z.div_mod (lba / 2 ^ 8) (2 ^ 8)).
  pose proof (Z.div_mod (lba / 2 ^ 16) (2 ^ 8)).
  assert (lba / 2 ^ 16 = lba / 2 ^ 8 / 2 ^ 8) by (by rewrite Z.div_div by lia).
  assert (lba / 2 ^ 24 = lba / 2 ^ 16 / 2 ^ 8) by (by rewrite Z.div_div by lia).
  lia.
Qed.

(** ** Theorems *)

(** Against every device, the result [ata_write] reports tells
    exactly how much of the buffer was handed to the controller: after
    [ATA_WRITE_FAILED] nothing was, after [ATA_WRITE_UNCERTAIN] at least one
    sector and always a prefix of the buffer in order, after
    [ATA_WRITE_COMPLETE] every sector of the request. *)
Theorem ata_write_reports_transfer (lba count : Z) (buffer : list Z) (s : machine P) :
  0 <= count < 256 ->
  let r := ata_write lba count buffer s in
  exists k, (k <= Z.to_nat count)%nat /\
    payload (trace r.2) =
      payload (trace s) ++ map (fun j => slice buffer (j * 512) 512) (seq 0 k) /\
    match r.1 with
    | ATA_WRITE_FAILED => k = O
    | ATA_WRITE_UNCERTAIN => (0 < k)%nat
    | ATA_WRITE_COMPLETE => k = Z.to_nat count
    end.
Proof.
  intros Hcount. set (Q := fun (res : ata_write_result_t) (s' : machine P) =>
    exists k, (k <= Z.to_nat count)%nat /\
      payload (trace s') =
        payload (trace s) ++ map (fun j => slice buffer (j * 512) 512) (seq 0 k) /\
      match res with
      | ATA_WRITE_FAILED => k = O
      | ATA_WRITE_UNCERTAIN => (0 < k)%nat
      | ATA_WRITE_COMPLETE => k = Z.to_nat count
      end).
  cut (wp (ata_write lba count buffer) Q s); [done|].
  assert (Hnone : forall s', payload (trace s') = payload (trace s) -> Q ATA_WRITE_FAILED s').
  { intros s' E. exists O. rewrite app_nil_r. auto with lia. }
  unfold ata_write. apply wp_if; intros Hv; [by apply wp_ret, Hnone|].
  apply wp_bind, wp_wait_exact. intros b1 s1 E1. apply wp_if; intros _; [by apply wp_ret, Hnone|].
  apply wp_bind. apply wp_quiet; [apply quiet_issue|]. intros _ s2 E2.
  apply wp_bind. eapply wp_mono; [apply write_sectors_payload|].
  cbv beta. intros r s3 (k & Hk & Hp & Hr). rewrite E2, E1 in Hp.
  destruct r as [res|].
  { apply wp_ret. exists k. split_and!; [done..|].
    destruct res; [by destruct Hr|done|by destruct Hr]. }
  assert (Hpos : (0 < k)%nat).
  { subst k. unfold ata_valid_request in Hv. destruct (Z.eqb_spec count 0); [done|lia]. }
  assert (Hdone : forall res s', res <> ATA_WRITE_FAILED ->
            payload (trace s') = payload (trace s3) -> Q res s').
  { intros res s' Hres E. exists k. rewrite E. by destruct res. }
  apply wp_bind, wp_wait_exact. intros b4 s4 E4. apply wp_if; intros _.
  { by apply wp_ret, Hdone. }
  apply wp_bind. apply wp_quiet; [apply quiet_outb|]. intros _ s5 E5.
  apply wp_bind, wp_wait_exact. intros b6 s6 E6. apply wp_ret, Hdone; [by destruct b6|].
  by rewrite E6, E5.
Qed.

(** programming a command writes the sector count and the
    command byte, and the four address registers decode to exactly the
    requested 28-bit block address. *)
Theorem ata_issue_programs_address (lba count command : Z) (s : machine P) :
  0 <= lba < 2 ^ 28 -> 0 <= count < 256 ->
  let s' := (ata_issue lba count command s).2 in
  decoded_lba (trace s') = Some lba /\
  last_out ATA_SECTOR_CNT (trace s') = Some count /\
  last_out ATA_COMMAND (trace s') = Some command.
Proof.
  intros Hl Hc s'. subst s'.
  assert (Htr : exists v1 v2 v3 v4, trace (ata_issue lba count command s).2 =
    [EvOut ATA_COMMAND command; EvOut ATA_LBA_HIGH (u8 (Z.shiftr lba 16));
     EvOut ATA_LBA_MID (u8 (Z.shiftr lba 8)); EvOut ATA_LBA_LOW (u8 lba);
     EvOut ATA_SECTOR_CNT (u8 count);
     EvIn ATA_STATUS v1; EvIn ATA_STATUS v2; EvIn ATA_STATUS v3; EvIn ATA_STATUS v4;
     EvOut ATA_DRIVE_HEAD (u8 (Z.lor 0xE0 (Z.land (Z.shiftr lba 24) 0x0F)))] ++ trace s).
  { unfold ata_issue, ata_select_lba, status_delay, inb, outb, st_bind, st_ret. cbn.
    repeat match goal with |- context [hw_inb ?p ?h] => destruct (hw_inb p h) end.
    cbn. eauto. }
  destruct Htr as (v1 & v2 & v3 & v4 & ->).
  split_and!.
  - etrans; [|exact (f_equal Some (lba_registers lba Hl))]. reflexivity.
  - etrans; [|exact (f_equal Some (eq_trans (u8_mod count) (Z.mod_small count (2 ^ 8) Hc)))]. reflexivity.
  - reflexivity.
Qed.
End Lemmas.

(** ** A drive that is always ready

    Every status read shows ready with data requested; the state counts the
    sectors taken.  It shows that the hypotheses of the theorems can hold. *)
#[local] Instance ready_drive : PortIO nat := {
  hw_inb port n := (if port =? ATA_STATUS then 0x48 else 0, n);
  hw_outb _ _ n := n;
  hw_insw _ count n := (replicate (2 * count) 0, n);
  hw_outsw _ _ n := S n;
}.

Definition ready_machine : machine nat := Machine O [] syslog_boot.

Lemma ata_write_reports_transfer_witness :
  exists k, (k <= 2)%nat /\
    payload (trace (ata_write 2048 2 (replicate 1024 7) ready_machine).2) =
      map (fun j => slice (replicate 1024 7) (j * 512) 512) (seq 0 k) /\
    k = 2%nat.
Proof.
  destruct (ata_write_reports_transfer 2048 2 (replicate 1024 7) ready_machine ltac:(lia))
    as (k & Hk & Hp & Hr).
  exists k. split; [exact Hk|]. split; [exact Hp|]. vm_compute in Hr. exact Hr.
Defined.

Lemma ata_issue_programs_address_witness :
  decoded_lba (trace (ata_issue 0xABCDEF1 1 CMD_READ_PIO ready_machine).2) = Some 0xABCDEF1.
Proof.
  exact (proj1 (ata_issue_programs_address 0xABCDEF1 1 CMD_READ_PIO ready_machine
                  ltac:(lia) ltac:(lia))).
Defined.
