(* ===== verification/BlockDev.v ===== *)
(** * The block-device interface between kernel/fs.c and kernel/ata.c

    The filesystem uses the driver through [ata_init], [ata_read] and
    [ata_write] of [kernel/include/ata.h], and writes to the kernel log that
    the driver also writes to.  [BlockDevice] is that interface; [DiskLaws]
    states what the header documents about the three results in terms of the
    sectors on the medium.  The filesystem theorems are proved against the
    class.  Two instances are given: the driver of [Ata.v] on any port
    machine, and a disk in memory with a programmable fault schedule, which
    satisfies the laws. *)

From stdpp Require Import gmap.
From S2P Require Import Prelude Syslog Machine Ata.

Class BlockDevice (D : Type) := {
  bd_init : ST D ata_init_result_t;
  bd_read : Z -> Z -> list Z -> ST D (bool * list Z);
  bd_write : Z -> Z -> list Z -> ST D ata_write_result_t;
  bd_syslog : D -> syslog;
  bd_set_syslog : syslog -> D -> D;
}.

Definition bd_log {D} `{BlockDevice D} (message : list Z) (d : D) : D :=
  bd_set_syslog (syslog_write message (bd_syslog d)) d.

(** The driver of the kernel is a block device. *)
#[export] Instance ata_device {P} `{PortIO P} : BlockDevice (machine P) := {
  bd_init := ata_init;
  bd_read := ata_read;
  bd_write := ata_write;
  bd_syslog := klog;
  bd_set_syslog l m := Machine (hw m) (trace m) l;
}.

(** ** Laws *)

(** [n] consecutive sectors as one byte string. *)
Fixpoint sectors_at (sec : Z -> list Z) (lba : Z) (n : nat) : list Z :=
  match n with
  | O => []
  | S n => sec lba ++ sectors_at sec (lba + 1) n
  end.

(** [sector d lba]: the 512 bytes stored on the medium at [lba].  Reads,
    initialisation and logging do not change the medium.  A successful read
    delivers it.  A write touches only the requested range; [COMPLETE] means
    the range holds the buffer, [FAILED] that nothing was handed over.  A
    one-sector write is atomic: interrupted, it leaves the old or the new
    sector. *)
Class DiskLaws (D : Type) `{BlockDevice D} := {
  sector : D -> Z -> list Z;
  sector_length : forall d lba, length (sector d lba) = 512%nat;
  sector_bytes : forall d lba, bytes_ok (sector d lba);
  init_sector : forall d lba, sector (bd_init d).2 lba = sector d lba;
  log_sector : forall l d lba, sector (bd_set_syslog l d) lba = sector d lba;
  read_sector : forall d lba count buf l, sector (bd_read lba count buf d).2 l = sector d l;
  read_data : forall d lba count buf,
    length buf = Z.to_nat (count * 512) ->
    (bd_read lba count buf d).1.1 = true ->
    (bd_read lba count buf d).1.2 = sectors_at (sector d) lba (Z.to_nat count);
  write_outside : forall d lba count buf l,
    ~ (lba <= l < lba + count) -> sector (bd_write lba count buf d).2 l = sector d l;
  write_failed : forall d lba count buf l,
    (bd_write lba count buf d).1 = ATA_WRITE_FAILED ->
    sector (bd_write lba count buf d).2 l = sector d l;
  write_complete : forall d lba count buf,
    0 <= count -> length buf = Z.to_nat (count * 512) -> bytes_ok buf ->
    (bd_write lba count buf d).1 = ATA_WRITE_COMPLETE ->
    sectors_at (sector (bd_write lba count buf d).2) lba (Z.to_nat count) = buf;
  write_atomic : forall d lba buf,
    length buf = 512%nat -> bytes_ok buf ->
    sector (bd_write lba 1 buf d).2 lba = sector d lba \/ sector (bd_write lba 1 buf d).2 lba = buf;
}.

(** A device on which no call fails any more, whatever is asked of it. *)
Definition reliable {D} `{BlockDevice D} (d : D) : Prop :=
  exists P : D -> Prop, P d /\
    forall d, P d ->
      ((bd_init d).1 = ATA_INIT_READY /\ P (bd_init d).2) /\
      (forall lba count buf, (bd_read lba count buf d).1.1 = true /\ P (bd_read lba count buf d).2) /\
      (forall lba count buf, (bd_write lba count buf d).1 = ATA_WRITE_COMPLETE /\
         P (bd_write lba count buf d).2) /\
      (forall l, P (bd_set_syslog l d)).

(** ** Sector runs *)

Lemma length_sectors_at sec lba n :
  (forall l, length (sec l) = 512%nat) -> length (sectors_at sec lba n) = (n * 512)%nat.
Proof.
  intros Hl. revert lba. induction n as [|n IH]; intros lba; [done|].
  cbn [sectors_at]. rewrite length_app, Hl, IH. done.
Qed.

Lemma sectors_at_ext sec sec' lba n :
  (forall l, lba <= l < lba + Z.of_nat n -> sec l = sec' l) ->
  sectors_at sec lba n = sectors_at sec' lba n.
Proof.
  revert lba. induction n as [|n IH]; intros lba Hx; [done|].
  cbn [sectors_at]. rewrite Hx by lia. f_equal. apply IH. intros. apply Hx. lia.
Qed.

Lemma sectors_at_bytes sec lba n :
  (forall l, bytes_ok (sec l)) -> bytes_ok (sectors_at sec lba n).
Proof.
  intros Hb. revert lba. induction n as [|n IH]; intros lba; [constructor|].
  cbn [sectors_at]. apply Forall_app_2; [apply Hb | apply IH].
Qed.

(** Sector [i] of a run is its [i]-th 512-byte window. *)
Lemma sectors_at_slice sec lba n i :
  (forall l, length (sec l) = 512%nat) -> (i < n)%nat ->
  slice (sectors_at sec lba n) (i * 512) 512 = sec (lba + Z.of_nat i).
Proof.
  intros Hl. revert lba i. induction n as [|n IH]; intros lba i Hi; [lia|].
  cbn [sectors_at]. destruct i as [|i].
  - rewrite Nat.mul_0_l, Z.add_0_r. apply slice_0_length. by rewrite Hl.
  - rewrite slice_app_r by (rewrite Hl; lia). rewrite Hl.
    replace (S i * 512 - 512)%nat with (i * 512)%nat by lia.
    rewrite IH by lia. f_equal. lia.
Qed.

(** ** A disk in memory

    Each call takes the next entry of the fault schedule; an exhausted
    schedule means no fault.  [FaultAfter k] stops a transfer after [k]
    sectors; a write that transferred something reports [UNCERTAIN]. *)

Inductive sim_fault := NoFault | FaultAfter (k : nat).

Record sim_disk := SimDisk {
  sim_present : bool;
  sim_sectors : gmap Z (list Z);
  sim_faults : list sim_fault;
  sim_log : syslog;
}.

Definition sim_sector (d : sim_disk) (lba : Z) : list Z :=
  match sim_sectors d !! lba with
  | Some s => if (length s =? 512)%nat && bytes_okb s then s else zeros 512
  | None => zeros 512
  end.

Definition next_fault (d : sim_disk) : sim_fault * sim_disk :=
  match sim_faults d with
  | [] => (NoFault, d)
  | f :: fs => (f, SimDisk (sim_present d) (sim_sectors d) fs (sim_log d))
  end.

Fixpoint put_sectors (m : gmap Z (list Z)) (lba : Z) (n : nat) (buf : list Z) : gmap Z (list Z) :=
  match n with
  | O => m
  | S n => put_sectors (<[lba := take 512 buf]> m) (lba + 1) n (drop 512 buf)
  end.

Definition sim_init : ST sim_disk ata_init_result_t := fun d =>
  if sim_present d then
    match next_fault d with
    | (NoFault, d) => (ATA_INIT_READY, d)
    | (FaultAfter _, d) => (ATA_INIT_ERROR, d)
    end
  else (ATA_INIT_NO_DEVICE, d).

Definition sim_read (lba count : Z) (buf : list Z) : ST sim_disk (bool * list Z) := fun d =>
  match next_fault d with
  | (NoFault, d) => ((true, sectors_at (sim_sector d) lba (Z.to_nat count)), d)
  | (FaultAfter k, d) =>
      ((false, memcpy_at buf 0 (sectors_at (sim_sector d) lba (Nat.min k (Z.to_nat count)))), d)
  end.

Definition sim_write (lba count : Z) (buf : list Z) : ST sim_disk ata_write_result_t := fun d =>
  match next_fault d with
  | (NoFault, d) =>
      (ATA_WRITE_COMPLETE,
       SimDisk (sim_present d) (put_sectors (sim_sectors d) lba (Z.to_nat count) buf)
         (sim_faults d) (sim_log d))
  | (FaultAfter k, d) =>
      let n := Nat.min k (Z.to_nat count) in
      (if (n =? 0)%nat then ATA_WRITE_FAILED else ATA_WRITE_UNCERTAIN,
       SimDisk (sim_present d) (put_sectors (sim_sectors d) lba n buf)
         (sim_faults d) (sim_log d))
  end.

#[export] Instance sim_device : BlockDevice sim_disk := {
  bd_init := sim_init;
  bd_read := sim_read;
  bd_write := sim_write;
  bd_syslog := sim_log;
  bd_set_syslog l d := SimDisk (sim_present d) (sim_sectors d) (sim_faults d) l;
}.

Definition map_sector (m : gmap Z (list Z)) (lba : Z) : list Z :=
  sim_sector (SimDisk true m [] syslog_boot) lba.

Lemma sim_sector_map d lba : sim_sector d lba = map_sector (sim_sectors d) lba.
Proof. done. Qed.

Lemma next_fault_sectors d : sim_sectors (next_fault d).2 = sim_sectors d.
Proof. unfold next_fault. by destruct (sim_faults d). Qed.

Lemma put_sectors_other m lba n buf l :
  ~ (lba <= l < lba + Z.of_nat n) -> put_sectors m lba n buf !! l = m !! l.
Proof.
  revert m lba buf. induction n as [|n IH]; intros m lba buf Hl; [done|].
  cbn [put_sectors]. rewrite IH by lia. apply lookup_insert_ne. lia.
Qed.

Lemma map_sector_ext m m' l : m !! l = m' !! l -> map_sector m l = map_sector m' l.
Proof. unfold map_sector, sim_sector. simpl. by intros ->. Qed.

Lemma sim_sector_length d lba : length (sim_sector d lba) = 512%nat.
Proof.
  unfold sim_sector. destruct (sim_sectors d !! lba) as [s|]; [|done].
  destruct ((length s =? 512)%nat && bytes_okb s) eqn:E; [|done].
  apply andb_true_iff in E as [E _]. by apply Nat.eqb_eq in E.
Qed.

Lemma sim_sector_bytes d lba : bytes_ok (sim_sector d lba).
Proof.
  unfold sim_sector. destruct (sim_sectors d !! lba) as [s|]; [|apply bytes_ok_zeros].
  destruct ((length s =? 512)%nat && bytes_okb s) eqn:E; [|apply bytes_ok_zeros].
  apply andb_true_iff in E as [_ E]. by apply bytes_okb_true.
Qed.

Lemma bytes_okb_complete l : bytes_ok l -> bytes_okb l = true.
Proof.
  intros Hl. apply forallb_forall. intros x Hx%list_elem_of_In.
  unfold bytes_ok in Hl. rewrite Forall_forall in Hl. specialize (Hl x Hx). unfold byte_ok in Hl. unfold byte_okb. lia.
Qed.

Lemma put_sectors_read m lba n buf :
  length buf = (n * 512)%nat -> bytes_ok buf ->
  sectors_at (map_sector (put_sectors m lba n buf)) lba n = buf.
Proof.
  revert m lba buf. induction n as [|n IH]; intros m lba buf Hl Hb.
  { symmetry. by apply nil_length_inv. }
  cbn [put_sectors sectors_at].
  rewrite IH by (rewrite ?length_drop; lia || by apply Forall_drop).
  assert (Hh : length (take 512 buf) = 512%nat) by (rewrite length_take; lia).
  rewrite (map_sector_ext _ (<[lba := take 512 buf]> m)) by (apply put_sectors_other; lia).
  unfold map_sector, sim_sector; cbn [sim_sectors]. rewrite lookup_insert_eq, Hh.
  rewrite bytes_okb_complete by (by apply Forall_take). simpl. by rewrite take_drop.
Qed.

(** The in-memory disk obeys the laws, faults included. *)
#[export] Program Instance sim_laws : DiskLaws sim_disk := {
  sector := sim_sector;
  sector_length := sim_sector_length;
  sector_bytes := sim_sector_bytes;
}.
Next Obligation.
  intros d lba. simpl. unfold sim_init. destruct (sim_present d); [|done].
  pose proof (next_fault_sectors d) as E. destruct (next_fault d) as [[|k] d']; simpl in *;
    by rewrite !sim_sector_map, E.
Qed.
Next Obligation. done. Qed.
Next Obligation.
  intros d lba count buf l. simpl. unfold sim_read. pose proof (next_fault_sectors d) as E.
  destruct (next_fault d) as [[|k] d']; simpl in *; by rewrite !sim_sector_map, E.
Qed.
Next Obligation.
  intros d lba count buf Hl. simpl. unfold sim_read. pose proof (next_fault_sectors d) as E.
  destruct (next_fault d) as [[|k] d']; simpl in *; [|done]. intros _.
  apply sectors_at_ext. intros l _. by rewrite !sim_sector_map, E.
Qed.
Next Obligation.
  intros d lba count buf l Hl. simpl. unfold sim_write. pose proof (next_fault_sectors d) as E.
  destruct (next_fault d) as [[|k] d']; simpl in *; rewrite !sim_sector_map; simpl; rewrite E;
    apply map_sector_ext, put_sectors_other; lia.
Qed.
Next Obligation.
  intros d lba count buf l. simpl. unfold sim_write. pose proof (next_fault_sectors d) as E.
  destruct (next_fault d) as [[|k] d']; simpl in *; [done|].
  destruct (Nat.eqb_spec (k `min` Z.to_nat count) 0) as [->|]; [|done]. intros _.
  simpl. by rewrite !sim_sector_map, E.
Qed.
Next Obligation.
  intros d lba count buf Hc Hl Hb. simpl. unfold sim_write. pose proof (next_fault_sectors d) as E.
  destruct (next_fault d) as [[|k] d']; simpl in *; [|by destruct (_ =? 0)%nat]. intros _.
  apply (put_sectors_read (sim_sectors d') lba (Z.to_nat count) buf); [lia|done].
Qed.
Next Obligation.
  intros d lba buf Hl Hb. simpl. unfold sim_write. pose proof (next_fault_sectors d) as E.
  pose proof (put_sectors_read (sim_sectors (next_fault d).2) lba 1 buf ltac:(lia) Hb) as Hp.
  cbn [sectors_at] in Hp. rewrite app_nil_r in Hp. change (Z.to_nat 1) with 1%nat.
  destruct (next_fault d) as [[|[|k]] d']; simpl in *; rewrite !sim_sector_map; simpl.
  - by right.
  - left. by rewrite E.
  - right. by rewrite Nat.min_0_r.
Qed.

Lemma sim_reliable d : sim_present d = true -> sim_faults d = [] -> reliable d.
Proof.
  intros Hp Hf. exists (fun d => sim_present d = true /\ sim_faults d = []). split; [done|].
  clear d Hp Hf. intros d [Hp Hf]. simpl. unfold sim_init, sim_read, sim_write, next_fault.
  rewrite Hp, Hf. split_and!; done.
Qed.

(** *** Reliable devices *)

Section Reliable.
Context {D : Type} `{BlockDevice D}.

Lemma reliable_init (d : D) : reliable d -> (bd_init d).1 = ATA_INIT_READY /\ reliable (bd_init d).2.
Proof. intros (P & Hd & HP). destruct (HP d Hd) as ([? ?] & _). split; [done|]. by exists P. Qed.

Lemma reliable_read (d : D) lba count buf :
  reliable d -> (bd_read lba count buf d).1.1 = true /\ reliable (bd_read lba count buf d).2.
Proof.
  intros (P & Hd & HP). destruct (HP d Hd) as (_ & Hr & _).
  destruct (Hr lba count buf) as [? ?]. split; [done|]. by exists P.
Qed.

Lemma reliable_write (d : D) lba count buf :
  reliable d -> (bd_write lba count buf d).1 = ATA_WRITE_COMPLETE /\ reliable (bd_write lba count buf d).2.
Proof.
  intros (P & Hd & HP). destruct (HP d Hd) as (_ & _ & Hw & _).
  destruct (Hw lba count buf) as [? ?]. split; [done|]. by exists P.
Qed.

Lemma reliable_log (d : D) msg : reliable d -> reliable (bd_log msg d).
Proof. intros (P & Hd & HP). destruct (HP d Hd) as (_ & _ & _ & Hl). exists P. by split; [apply Hl|]. Qed.
End Reliable.
