(* ===== verification/FsFormat.v ===== *)
(** * kernel/fs.c, part 1: on-disk format and in-memory files

    The packed structs of the source are records; [encode_*]/[decode_*] are
    their byte representations (little endian, no padding between fields).
    [FILES] is a list of 32 [fs_file] records, [g_disk_table] a
    [disk_table].  Sizes are [Z], array indices [nat]. *)

From S2P Require Import Prelude CString.

Definition FS_MAX_FILES : nat := 32%nat.
Definition FS_MAX_FILENAME : nat := 32%nat.
Definition FS_MAX_FILE_SIZE : Z := 8192.

Definition FS_STORAGE_LBA : Z := 2048.
Definition FS_MAGIC_VAL : Z := 0xBA5EBA11.
Definition FS_LEGACY_DISK_VERSION : Z := 1.
Definition FS_GENERATION_DISK_VERSION : Z := 2.
Definition FS_CONTENT_DISK_VERSION : Z := 3.
Definition FS_INTEGRITY_DISK_VERSION : Z := 4.
Definition FS_DISK_VERSION : Z := 5.
Definition FS_SLOT_COUNT : Z := 2.
Definition FS_DISK_DATA_BYTES : Z := 1024.
Definition FS_DISK_RECORD_HEAD : Z := 1.
Definition FS_DISK_RECORD_CONTINUATION : Z := 2.
Definition FS_DISK_RECORD_BYTES : Z := 1 + 32 + 4 + FS_DISK_DATA_BYTES.
Definition FS_DISK_TABLE_BYTES : Z := FS_DISK_RECORD_BYTES * 32.
Definition FS_DISK_TABLE_SECTORS : Z := (FS_DISK_TABLE_BYTES + 511) / 512.
Definition FS_DISK_TABLE_PAD : Z := FS_DISK_TABLE_SECTORS * 512 - FS_DISK_TABLE_BYTES.
Definition FS_SLOT_SECTORS : Z := 1 + FS_DISK_TABLE_SECTORS.
#[global] Arguments FS_MAX_FILES : simpl never.
#[global] Arguments FS_MAX_FILENAME : simpl never.

(** ** Data *)

Record fs_file := FsFile {
  in_use : bool;
  fname : list Z;
  fsize : Z;
  fdata : list Z;
}.

Record fs_disk_header := FsDiskHeader {
  magic : Z;
  version : Z;
  table_bytes : Z;
  checksum : Z;
  generation : Z;
  header_checksum : Z;
  reserved : list Z;
}.

Record fs_disk_record := FsDiskRecord {
  r_in_use : Z;
  r_name : list Z;
  r_size : Z;
  r_data : list Z;
}.

Record fs_disk_table := FsDiskTable {
  records : list fs_disk_record;
  padding : list Z;
}.

Definition zero_record : fs_disk_record :=
  FsDiskRecord 0 (zeros 32) 0 (zeros FS_DISK_DATA_BYTES).
Definition zero_table : fs_disk_table :=
  FsDiskTable (replicate FS_MAX_FILES zero_record) (zeros FS_DISK_TABLE_PAD).
Definition zero_file : fs_file :=
  FsFile false (zeros 32) 0 (zeros FS_MAX_FILE_SIZE).

#[global] Arguments zero_record : simpl never.
#[global] Arguments zero_table : simpl never.
#[global] Arguments zero_file : simpl never.

(** ** Byte representation *)

Definition encode_header (h : fs_disk_header) : list Z :=
  le_bytes 4 (magic h) ++ le_bytes 4 (version h) ++ le_bytes 4 (table_bytes h) ++
  le_bytes 4 (checksum h) ++ le_bytes 4 (generation h) ++
  le_bytes 4 (header_checksum h) ++ reserved h.

Definition decode_header (bs : list Z) : fs_disk_header :=
  FsDiskHeader (le_val (slice bs 0 4)) (le_val (slice bs 4 4)) (le_val (slice bs 8 4))
    (le_val (slice bs 12 4)) (le_val (slice bs 16 4)) (le_val (slice bs 20 4))
    (slice bs 24 (Z.to_nat 488)).

Definition encode_record (r : fs_disk_record) : list Z :=
  [r_in_use r] ++ r_name r ++ le_bytes 4 (r_size r) ++ r_data r.

Definition decode_record (bs : list Z) : fs_disk_record :=
  FsDiskRecord (znth bs 0) (slice bs 1 32) (le_val (slice bs 33 4))
    (slice bs 37 (Z.to_nat FS_DISK_DATA_BYTES)).

Fixpoint encode_records (rs : list fs_disk_record) : list Z :=
  match rs with
  | [] => []
  | r :: rs => encode_record r ++ encode_records rs
  end.

Fixpoint decode_records (n : nat) (bs : list Z) : list fs_disk_record :=
  match n with
  | O => []
  | S n => decode_record (take (Z.to_nat FS_DISK_RECORD_BYTES) bs)
           :: decode_records n (drop (Z.to_nat FS_DISK_RECORD_BYTES) bs)
  end.

Definition encode_table (t : fs_disk_table) : list Z :=
  encode_records (records t) ++ padding t.

Definition decode_table (bs : list Z) : fs_disk_table :=
  FsDiskTable (decode_records FS_MAX_FILES bs)
    (slice bs (Z.to_nat FS_DISK_TABLE_BYTES) (Z.to_nat FS_DISK_TABLE_PAD)).

#[global] Arguments encode_header : simpl never.
#[global] Arguments decode_header : simpl never.
#[global] Arguments encode_record : simpl never.
#[global] Arguments decode_record : simpl never.
#[global] Arguments encode_table : simpl never.
#[global] Arguments decode_table : simpl never.

(** ** Checksums *)

Definition fnv_step (value byte : Z) : Z := u32 (Z.lxor value byte * 16777619).

Definition fs_checksum (bytes : list Z) : Z := fold_left fnv_step bytes 2166136261.

(** The header checksum reads its own four bytes as zero. *)
Definition fs_header_checksum (h : fs_disk_header) : Z :=
  fs_checksum (memcpy_at (encode_header h) 20 [0; 0; 0; 0]).

(** ** Header predicates *)

Definition fs_header_is_valid (h : fs_disk_header) : bool :=
  if negb (magic h =? FS_MAGIC_VAL) ||
     (negb (version h =? FS_LEGACY_DISK_VERSION) &&
      negb (version h =? FS_GENERATION_DISK_VERSION) &&
      negb (version h =? FS_CONTENT_DISK_VERSION) &&
      negb (version h =? FS_INTEGRITY_DISK_VERSION) &&
      negb (version h =? FS_DISK_VERSION)) ||
     negb (table_bytes h =? FS_DISK_TABLE_BYTES)
  then false
  else (version h <? FS_INTEGRITY_DISK_VERSION) ||
       (header_checksum h =? fs_header_checksum h).

Definition fs_bytes_are_blank (bytes : list Z) : bool := forallb (fun b => b =? 0) bytes.

Definition fs_header_is_blank (h : fs_disk_header) : bool :=
  fs_bytes_are_blank (encode_header h).

Definition fs_header_generation (h : fs_disk_header) : Z :=
  if version h =? FS_LEGACY_DISK_VERSION then 0 else generation h.

Definition fs_generation_is_newer (lhs rhs : Z) : bool :=
  let distance := u32 (lhs - rhs) in
  negb (distance =? 0) && (distance <? 0x80000000).

Fixpoint fs_bytes_equal (lhs rhs : list Z) : bool :=
  match lhs, rhs with
  | a :: l, b :: r => if a =? b then fs_bytes_equal l r else false
  | [], [] => true
  | _, _ => false
  end.

Definition fs_slot_header_lba (slot : Z) : Z := FS_STORAGE_LBA + slot * FS_SLOT_SECTORS.

(** ** Names *)

Fixpoint valid_name_loop (s : list Z) (length : nat) : bool :=
  match s with
  | [] => true
  | c :: t =>
      if c =? 0 then true
      else if (c =? 32) || (c =? 9) || (c =? 47) || (c =? 92) then false
      else if (FS_MAX_FILENAME <=? S length)%nat then false
      else valid_name_loop t (S length)
  end.

Definition fs_is_valid_name (name : option (list Z)) : bool :=
  match name with
  | None => false
  | Some s => if hd0 s =? 0 then false else valid_name_loop s 0
  end.

Definition fs_copy_name (file : fs_file) (name : list Z) : fs_file :=
  FsFile (in_use file) (copy_cstring (fname file) FS_MAX_FILENAME name) (fsize file) (fdata file).

Definition fs_clear (file : fs_file) : fs_file :=
  FsFile false (<[O := 0]> (fname file)) 0 (<[O := 0]> (fdata file)).

(** ** Serialization *)

Definition fs_disk_records_needed (size : Z) : Z :=
  if size =? 0 then 1 else (size + FS_DISK_DATA_BYTES - 1) / FS_DISK_DATA_BYTES.

Definition chunk_of (remaining : Z) : Z :=
  if FS_DISK_DATA_BYTES <? remaining then FS_DISK_DATA_BYTES else remaining.

(** [count] bytes of a file from [off]. *)
Definition file_bytes (f : fs_file) (off count : Z) : list Z :=
  slice (fdata f) (Z.to_nat off) (Z.to_nat count).

(** The stores into the (already zeroed) head record of a file. *)
Definition head_record (f : fs_file) : fs_disk_record :=
  FsDiskRecord FS_DISK_RECORD_HEAD
    (memcpy_at (zeros 32) 0 (take (FS_MAX_FILENAME - 1) (cstr (fname f))))
    (u32 (fsize f))
    (memcpy_at (zeros FS_DISK_DATA_BYTES) 0 (file_bytes f 0 (chunk_of (fsize f)))).

Definition continuation_record (f : fs_file) (copied : Z) : fs_disk_record :=
  let chunk := chunk_of (fsize f - copied) in
  FsDiskRecord FS_DISK_RECORD_CONTINUATION (zeros 32) (u32 chunk)
    (memcpy_at (zeros FS_DISK_DATA_BYTES) 0 (file_bytes f copied chunk)).

(** The [while (copied < size)] loop; [fuel] iterations at most. *)
Fixpoint serialize_continuations (fuel : nat) (f : fs_file) (copied : Z)
    (disk_index : nat) (recs : list fs_disk_record) : nat * list fs_disk_record :=
  match fuel with
  | O => (disk_index, recs)
  | S fuel' =>
      if copied <? fsize f then
        serialize_continuations fuel' f (copied + chunk_of (fsize f - copied))
          (disk_index + 1) (<[disk_index := continuation_record f copied]> recs)
      else (disk_index, recs)
  end.

Fixpoint serialize_files (files : list fs_file) (disk_index : nat)
    (recs : list fs_disk_record) : bool * list fs_disk_record :=
  match files with
  | [] => (true, recs)
  | f :: files' =>
      if negb (in_use f) then serialize_files files' disk_index recs
      else
        let record_count := fs_disk_records_needed (fsize f) in
        if Z.of_nat (FS_MAX_FILES - disk_index) <? record_count then (false, recs)
        else
          let recs := <[disk_index := head_record f]> recs in
          let '(disk_index, recs) :=
            serialize_continuations (Z.to_nat record_count) f (chunk_of (fsize f))
              (disk_index + 1) recs in
          serialize_files files' disk_index recs
  end.

(** [fs_serialize]: the result and [g_disk_table] after the call. *)
Definition fs_serialize (FILES : list fs_file) : bool * fs_disk_table :=
  let '(ok, recs) := serialize_files FILES 0 (records zero_table) in
  (ok, FsDiskTable recs (padding zero_table)).

(** ** Deserialization *)

Definition rec_at (recs : list fs_disk_record) (i : nat) : fs_disk_record :=
  default zero_record (recs !! i).

(** Is the name of record [i] taken by an earlier head record? *)
Definition duplicate_name (recs : list fs_disk_record) (i : nat) : bool :=
  existsb (fun prior => (r_in_use prior =? FS_DISK_RECORD_HEAD) &&
                        (kstrcmp (r_name prior) (r_name (rec_at recs i)) =? 0))
    (take i recs).

Definition legacy_record_ok (recs : list fs_disk_record) (i : nat) : bool :=
  let record := rec_at recs i in
  if r_in_use record =? 0 then true
  else if negb (r_in_use record =? FS_DISK_RECORD_HEAD) ||
          (FS_DISK_DATA_BYTES <=? r_size record) ||
          negb (znth (r_name record) 31 =? 0) ||
          negb (znth (r_data record) (r_size record) =? 0) ||
          negb (fs_is_valid_name (Some (r_name record)))
  then false
  else negb (duplicate_name recs i).

(** The stores into one file slot from one legacy record. *)
Definition legacy_file (record : fs_disk_record) (file : fs_file) : fs_file :=
  if r_in_use record =? 0 then fs_clear file
  else
    FsFile true (memcpy_at (fname file) 0 (cstr (r_name record) ++ [0])) (r_size record)
      (memcpy_at (fdata file) 0 (take (Z.to_nat (r_size record)) (r_data record) ++ [0])).

(** [None] is the [false] return, which leaves [FILES] as it was. *)
Definition fs_deserialize_legacy (t : fs_disk_table) (FILES : list fs_file)
    : option (list fs_file) :=
  if forallb (legacy_record_ok (records t)) (seq 0 FS_MAX_FILES)
  then Some (imap (fun i file => legacy_file (rec_at (records t) i) file) FILES)
  else None.

Definition fs_disk_continuation_is_valid (record : fs_disk_record) (expected_size : Z) : bool :=
  (r_in_use record =? FS_DISK_RECORD_CONTINUATION) && (r_size record =? expected_size) &&
  forallb (fun c => c =? 0) (r_name record).

(** The extent loop of the validation pass over parts [part .. part+n-1];
    [Some remaining] when all are valid. *)
Fixpoint validate_parts (n : nat) (recs : list fs_disk_record) (disk_index part : nat)
    (remaining : Z) : option Z :=
  match n with
  | O => Some remaining
  | S n' =>
      let expected := chunk_of remaining in
      if negb (fs_disk_continuation_is_valid (rec_at recs (disk_index + part)) expected)
      then None
      else validate_parts n' recs disk_index (part + 1) (remaining - expected)
  end.

(** Validation pass of [fs_deserialize_current]: [fuel] bounds the number of
    iterations (each advances [disk_index] by at least one). *)
Fixpoint validate_current (fuel : nat) (recs : list fs_disk_record)
    (disk_index logical_count : nat) : bool :=
  match fuel with
  | O => true
  | S fuel' =>
      if (FS_MAX_FILES <=? disk_index)%nat then true
      else
        let head := rec_at recs disk_index in
        if r_in_use head =? 0 then validate_current fuel' recs (disk_index + 1) logical_count
        else if negb (r_in_use head =? FS_DISK_RECORD_HEAD) ||
                (FS_MAX_FILE_SIZE <=? r_size head) ||
                negb (znth (r_name head) 31 =? 0) ||
                negb (fs_is_valid_name (Some (r_name head)))
        then false
        else if duplicate_name recs disk_index then false
        else
          let needed := fs_disk_records_needed (r_size head) in
          if Z.of_nat (FS_MAX_FILES - disk_index) <? needed then false
          else
            let remaining := if FS_DISK_DATA_BYTES <? r_size head
                             then r_size head - FS_DISK_DATA_BYTES else 0 in
            match validate_parts (Z.to_nat needed - 1) recs disk_index 1 remaining with
            | None => false
            | Some remaining =>
                if negb (remaining =? 0) || (FS_MAX_FILES <=? logical_count)%nat then false
                else validate_current fuel' recs (disk_index + Z.to_nat needed) (logical_count + 1)
            end
  end.

(** The extent copy loop of the second pass. *)
Fixpoint load_parts (n : nat) (recs : list fs_disk_record) (disk_index part : nat)
    (data : list Z) (copied : Z) : list Z :=
  match n with
  | O => data
  | S n' =>
      let continuation := rec_at recs (disk_index + part) in
      let chunk := r_size continuation in
      load_parts n' recs disk_index (part + 1)
        (memcpy_at data (Z.to_nat copied) (take (Z.to_nat chunk) (r_data continuation)))
        (copied + chunk)
  end.

(** The stores into one logical file. *)
Definition load_file (recs : list fs_disk_record) (disk_index : nat) (file : fs_file) : fs_file :=
  let head := rec_at recs disk_index in
  let size := r_size head in
  let chunk := chunk_of size in
  let data := memcpy_at (fdata file) 0 (take (Z.to_nat chunk) (r_data head)) in
  let needed := fs_disk_records_needed size in
  let data := load_parts (Z.to_nat needed - 1) recs disk_index 1 data chunk in
  FsFile true (memcpy_at (fname file) 0 (cstr (r_name head) ++ [0])) size
    (<[Z.to_nat size := 0]> data).

Fixpoint load_current (fuel : nat) (recs : list fs_disk_record)
    (disk_index logical_index : nat) (FILES : list fs_file) : list fs_file :=
  match fuel with
  | O => FILES
  | S fuel' =>
      if (FS_MAX_FILES <=? disk_index)%nat then FILES
      else
        let head := rec_at recs disk_index in
        if r_in_use head =? 0 then load_current fuel' recs (disk_index + 1) logical_index FILES
        else
          load_current fuel' recs
            (disk_index + Z.to_nat (fs_disk_records_needed (r_size head))) (logical_index + 1)
            (alter (load_file recs disk_index) logical_index FILES)
  end.

Definition fs_deserialize_current (t : fs_disk_table) (FILES : list fs_file)
    : option (list fs_file) :=
  if validate_current FS_MAX_FILES (records t) 0 0
  then Some (load_current FS_MAX_FILES (records t) 0 0 (map fs_clear FILES))
  else None.
