(* ===== verification/FsRoundtrip.v ===== *)
(** * kernel/fs.c, part 3: serialization round trip

    The table [fs_serialize] produces is the concatenation of one extent chain
    per file ([recs_of]) followed by zero records.  [fs_deserialize_current]
    walks exactly those chains. *)

From S2P Require Import Prelude CString FsFormat FsCodec.

(** ** What [fs_serialize] writes, as a list *)

(** The continuation records of a file from byte [copied] on. *)
Fixpoint conts (fuel : nat) (f : fs_file) (copied : Z) : list fs_disk_record :=
  match fuel with
  | O => []
  | S fuel' =>
      if copied <? fsize f then
        continuation_record f copied :: conts fuel' f (copied + chunk_of (fsize f - copied))
      else []
  end.

Definition file_recs (f : fs_file) : list fs_disk_record :=
  head_record f :: conts (Z.to_nat (fs_disk_records_needed (fsize f))) f (chunk_of (fsize f)).

Fixpoint recs_of (files : list fs_file) : list fs_disk_record :=
  match files with
  | [] => []
  | f :: files' => if in_use f then file_recs f ++ recs_of files' else recs_of files'
  end.

(** ** Arithmetic of extents *)

Lemma chunk_of_range r : 0 <= r -> 0 <= chunk_of r <= r /\ chunk_of r <= 1024.
Proof. intros. unfold chunk_of. fs_consts. destruct (Z.ltb_spec 1024 r); lia. Qed.

(** Number of records for the bytes from [copied] to [size]. *)
Definition parts (size copied : Z) : Z := (size - copied + 1023) / 1024.

Lemma parts_step size copied :
  0 <= copied < size ->
  parts size copied = 1 + parts size (copied + chunk_of (size - copied)) /\
  0 <= parts size (copied + chunk_of (size - copied)).
Proof.
  intros H. unfold parts, chunk_of. fs_consts.
  destruct (Z.ltb_spec 1024 (size - copied)) as [Hc|Hc].
  - replace (size - copied + 1023) with (size - (copied + 1024) + 1023 + 1 * 1024) by lia.
    rewrite Z.div_add by lia. split; [lia|]. apply Z.div_pos; lia.
  - replace (size - (copied + (size - copied)) + 1023) with 1023 by lia.
    rewrite (Z.div_small 1023) by lia.
    assert ((size - copied + 1023) / 1024 = 1); [|lia].
    symmetry. apply (Z.div_unique _ _ _ (size - copied - 1)); lia.
Qed.

Lemma parts_done size : parts size size = 0.
Proof. unfold parts. by rewrite Z.sub_diag. Qed.

Lemma parts_pos size copied : 0 <= copied < size -> 1 <= parts size copied.
Proof. intros H. pose proof (parts_step size copied H). lia. Qed.

Lemma needed_parts size :
  0 <= size -> fs_disk_records_needed size = 1 + parts size (chunk_of size).
Proof.
  intros H. unfold fs_disk_records_needed. fs_consts.
  destruct (Z.eqb_spec size 0) as [->|Hne]; [done|].
  pose proof (parts_step size 0 ltac:(lia)) as [Hs _].
  unfold parts in Hs at 1. rewrite !Z.sub_0_r, Z.add_0_l in Hs.
  rewrite <- Hs. f_equal. lia.
Qed.

Lemma parts_nonneg size copied : 0 <= copied <= size -> 0 <= parts size copied.
Proof. intros H. unfold parts. apply Z.div_pos; lia. Qed.

Lemma length_conts fuel f copied :
  0 <= copied <= fsize f -> (Z.to_nat (parts (fsize f) copied) <= fuel)%nat ->
  length (conts fuel f copied) = Z.to_nat (parts (fsize f) copied).
Proof.
  revert copied. induction fuel as [|fuel IH]; intros copied Hc Hf.
  { simpl. lia. }
  cbn [conts]. destruct (Z.ltb_spec copied (fsize f)) as [Hlt|Hge].
  - pose proof (parts_step (fsize f) copied ltac:(lia)) as [Hp Hp'].
    pose proof (chunk_of_range (fsize f - copied) ltac:(lia)) as Hr.
    cbn [length]. rewrite IH by lia. lia.
  - replace copied with (fsize f) by lia. by rewrite parts_done.
Qed.

Lemma length_file_recs f :
  0 <= fsize f -> length (file_recs f) = Z.to_nat (fs_disk_records_needed (fsize f)).
Proof.
  intros H. unfold file_recs. cbn [length].
  pose proof (chunk_of_range (fsize f) H).
  pose proof (parts_nonneg (fsize f) (chunk_of (fsize f)) ltac:(lia)).
  rewrite length_conts; rewrite ?needed_parts by done; lia.
Qed.

(** ** Serialization produces [recs_of] *)

Lemma insert_next {A} (pre : list A) (x z : A) k :
  <[length pre := x]> (pre ++ replicate (S k) z) = (pre ++ [x]) ++ replicate k z.
Proof. rewrite insert_app_r_alt by lia. rewrite Nat.sub_diag. simpl. by rewrite <- app_assoc. Qed.

Lemma serialize_continuations_list fuel f copied pre k :
  (length (conts fuel f copied) <= k)%nat ->
  serialize_continuations fuel f copied (length pre) (pre ++ replicate k zero_record) =
    (length (pre ++ conts fuel f copied),
     (pre ++ conts fuel f copied) ++ replicate (k - length (conts fuel f copied)) zero_record).
Proof.
  revert copied pre k. induction fuel as [|fuel IH]; intros copied pre k Hk.
  { simpl. by rewrite app_nil_r, Nat.sub_0_r. }
  cbn [serialize_continuations conts] in *.
  destruct (copied <? fsize f); [|by rewrite app_nil_r, Nat.sub_0_r].
  cbn [length] in *. destruct k as [|k]; [lia|].
  rewrite insert_next. replace (length pre + 1)%nat
    with (length (pre ++ [continuation_record f copied])) by (rewrite length_app; simpl; lia).
  rewrite IH by lia. by rewrite <- !app_assoc.
Qed.

(** A successful serialization is the chains followed by zero records, and
    the chains fit the table. *)
Lemma serialize_files_list files pre k :
  Forall (fun f => 0 <= fsize f) files -> (length pre + k = FS_MAX_FILES)%nat ->
  serialize_files files (length pre) (pre ++ replicate k zero_record) =
    if (length (recs_of files) <=? k)%nat
    then (true, (pre ++ recs_of files) ++ replicate (k - length (recs_of files)) zero_record)
    else (false, (serialize_files files (length pre) (pre ++ replicate k zero_record)).2).
Proof.
  intros Hs. revert pre k. induction Hs as [|f files Hf Hs IH]; intros pre k Hk.
  { simpl. by rewrite app_nil_r, Nat.sub_0_r. }
  cbn [serialize_files recs_of]. destruct (in_use f) eqn:Hu; cbn [negb].
  2: { by apply IH. }
  pose proof (length_file_recs f Hf) as Hlen.
  replace (FS_MAX_FILES - length pre)%nat with k by lia.
  destruct (Z.ltb_spec (Z.of_nat k) (fs_disk_records_needed (fsize f))) as [Hn|Hn].
  { rewrite length_app, Hlen. destruct (Nat.leb_spec (Z.to_nat (fs_disk_records_needed (fsize f)) + length (recs_of files)) k); [lia|done]. }
  unfold file_recs in Hlen. cbn [length] in Hlen. destruct k as [|k]; [lia|].
  rewrite insert_next. replace (length pre + 1)%nat
    with (length (pre ++ [head_record f])) by (rewrite length_app; simpl; lia).
  rewrite serialize_continuations_list by lia.
  set (c := conts _ f _) in *.
  replace ((pre ++ [head_record f]) ++ c) with (pre ++ file_recs f)
    by (unfold file_recs; fold c; by rewrite <- app_assoc).
  rewrite IH.
  2: { rewrite length_app. unfold file_recs. fold c. cbn [length]. lia. }
  unfold file_recs; fold c. rewrite !length_app. cbn [length].
  replace (k - length c - length (recs_of files))%nat
    with (S k - (S (length c) + length (recs_of files)))%nat by lia.
  rewrite <- !app_assoc.
  destruct (Nat.leb_spec (length (recs_of files)) (k - length c)),
    (Nat.leb_spec (S (length c) + length (recs_of files)) (S k)); try lia; done.
Qed.

(** ** Names *)

Lemma valid_name_loop_cstr s n : valid_name_loop (cstr s) n = valid_name_loop s n.
Proof.
  revert n. induction s as [|c t IH]; intros n; simpl; [done|].
  destruct (Z.eqb_spec c 0) as [->|Hc]; simpl; [done|].
  destruct (Z.eqb_spec c 0); [done|]. by rewrite IH.
Qed.

Lemma hd0_cstr s : (hd0 (cstr s) =? 0) = (hd0 s =? 0).
Proof. destruct s as [|c t]; simpl; [done|]. by destruct (c =? 0) eqn:E; simpl. Qed.

(** Validity is a property of the string, not of the bytes behind it. *)
Lemma fs_is_valid_name_cstr a b :
  cstr a = cstr b -> fs_is_valid_name (Some a) = fs_is_valid_name (Some b).
Proof.
  intros H. unfold fs_is_valid_name.
  rewrite <- (hd0_cstr a), <- (hd0_cstr b), <- (valid_name_loop_cstr a),
    <- (valid_name_loop_cstr b), H. done.
Qed.

Lemma length_cstr_fname f : file_wf f -> (length (cstr (fname f)) <= 31)%nat.
Proof. intros (Hl & Ht & _). pose proof (length_cstr_terminated _ Ht). lia. Qed.

(** The name field of a head record: the string padded with zeros. *)
Lemma head_name_eq f :
  file_wf f ->
  r_name (head_record f) = cstr (fname f) ++ replicate (32 - length (cstr (fname f))) 0.
Proof.
  intros Hwf. pose proof (length_cstr_fname f Hwf) as Hl.
  unfold head_record; cbn [r_name]. rewrite FS_MAX_FILENAME_eq, take_ge by lia.
  rewrite memcpy_at_in by (rewrite length_zeros; lia).
  simpl. unfold zeros. by rewrite drop_replicate.
Qed.

Lemma cstr_head_name f : file_wf f -> cstr (r_name (head_record f)) = cstr (fname f).
Proof.
  intros Hwf. rewrite head_name_eq by done. pose proof (length_cstr_fname f Hwf).
  replace (32 - length (cstr (fname f)))%nat with (S (31 - length (cstr (fname f)))) by lia.
  simpl. apply cstr_app_0, cstr_nonzero.
Qed.

Lemma head_name_last f : file_wf f -> znth (r_name (head_record f)) 31 = 0.
Proof.
  intros Hwf. rewrite head_name_eq by done. pose proof (length_cstr_fname f Hwf).
  unfold znth. rewrite lookup_app_r by lia. by rewrite lookup_replicate_2 by lia.
Qed.

Lemma head_size f : file_wf f -> r_size (head_record f) = fsize f.
Proof.
  intros (_ & _ & _ & Hs & _). unfold head_record; cbn [r_size]. apply u32_small.
  fs_consts. unfold u32_ok. lia.
Qed.

(** ** Extent chains *)

Lemma length_file_bytes f off n :
  file_wf f -> 0 <= off -> 0 <= n -> off + n <= fsize f ->
  length (file_bytes f off n) = Z.to_nat n.
Proof.
  intros (_ & _ & _ & Hs & Hd & _) H1 H2 H3. unfold file_bytes. apply length_slice.
  rewrite Hd. fs_consts. lia.
Qed.

Lemma continuation_valid f copied :
  0 <= copied < fsize f ->
  fs_disk_continuation_is_valid (continuation_record f copied) (chunk_of (fsize f - copied)) = true.
Proof.
  intros H. unfold fs_disk_continuation_is_valid, continuation_record; fs_proj.
  pose proof (chunk_of_range (fsize f - copied) ltac:(lia)).
  rewrite u32_small by (unfold u32_ok; lia). rewrite !Z.eqb_refl. done.
Qed.

Lemma continuation_data f copied :
  file_wf f -> 0 <= copied < fsize f ->
  take (Z.to_nat (r_size (continuation_record f copied))) (r_data (continuation_record f copied))
    = file_bytes f copied (chunk_of (fsize f - copied)).
Proof.
  intros Hwf H. unfold continuation_record; fs_proj.
  pose proof (chunk_of_range (fsize f - copied) ltac:(lia)).
  rewrite u32_small by (unfold u32_ok; lia).
  rewrite <- (length_file_bytes f copied (chunk_of (fsize f - copied))) at 1 by (done || lia).
  apply take_memcpy_0. rewrite length_file_bytes, length_zeros by (done || lia || fs_consts; lia).
  fs_consts. lia.
Qed.

Lemma head_data f :
  file_wf f ->
  take (Z.to_nat (chunk_of (fsize f))) (r_data (head_record f)) = file_bytes f 0 (chunk_of (fsize f)).
Proof.
  intros Hwf. unfold head_record; fs_proj. pose proof Hwf as (_ & _ & _ & Hs & _).
  pose proof (chunk_of_range (fsize f) ltac:(lia)).
  rewrite <- (length_file_bytes f 0 (chunk_of (fsize f))) at 1 by (done || lia).
  apply take_memcpy_0. rewrite length_file_bytes, length_zeros by (done || lia || fs_consts; lia).
  fs_consts. lia.
Qed.

Lemma rec_at_mid pre r rest : rec_at (pre ++ r :: rest) (length pre) = r.
Proof. unfold rec_at. by rewrite list_lookup_middle. Qed.

Lemma validate_parts_conts fuel f copied P rest di part :
  0 <= copied <= fsize f -> (Z.to_nat (parts (fsize f) copied) <= fuel)%nat ->
  length P = (di + part)%nat ->
  validate_parts (length (conts fuel f copied)) (P ++ conts fuel f copied ++ rest) di part
    (fsize f - copied) = Some 0.
Proof.
  revert copied P part. induction fuel as [|fuel IH]; intros copied P part Hc Hf HP;
    cbn [conts] in *.
  { simpl. f_equal. destruct (Z.eq_dec copied (fsize f)) as [->|]; [lia|].
    pose proof (parts_pos (fsize f) copied ltac:(lia)). lia. }
  destruct (Z.ltb_spec copied (fsize f)) as [Hlt|Hge].
  2: { simpl. f_equal. lia. }
  cbn [length validate_parts app]. rewrite <- HP, rec_at_mid.
  rewrite continuation_valid by lia. cbn [negb].
  pose proof (parts_step (fsize f) copied ltac:(lia)).
  pose proof (chunk_of_range (fsize f - copied) ltac:(lia)).
  replace (fsize f - copied - chunk_of (fsize f - copied))
    with (fsize f - (copied + chunk_of (fsize f - copied))) by lia.
  rewrite cons_middle, app_assoc.
  apply IH; [lia | lia | rewrite length_app; simpl; lia].
Qed.

Lemma load_parts_conts fuel f copied P rest di part data :
  file_wf f -> 0 <= copied <= fsize f -> (Z.to_nat (parts (fsize f) copied) <= fuel)%nat ->
  length P = (di + part)%nat ->
  length data = Z.to_nat FS_MAX_FILE_SIZE -> bytes_ok data ->
  take (Z.to_nat copied) data = take (Z.to_nat copied) (fdata f) ->
  let data' := load_parts (length (conts fuel f copied)) (P ++ conts fuel f copied ++ rest)
                 di part data copied in
  length data' = Z.to_nat FS_MAX_FILE_SIZE /\ bytes_ok data' /\
  take (Z.to_nat (fsize f)) data' = take (Z.to_nat (fsize f)) (fdata f).
Proof.
  intros Hwf. pose proof Hwf as (_ & _ & _ & Hs & Hd & Hb).
  revert copied P part data. induction fuel as [|fuel IH];
    intros copied P part data Hc Hf HP Hlen Hok Htake; cbn [conts] in *.
  { replace (fsize f) with copied; [done|].
    destruct (Z.eq_dec copied (fsize f)) as [->|]; [done|].
    pose proof (parts_pos (fsize f) copied ltac:(lia)). lia. }
  destruct (Z.ltb_spec copied (fsize f)) as [Hlt|Hge].
  2: { replace (fsize f) with copied by lia. done. }
  cbn [length load_parts app]. rewrite <- HP, rec_at_mid.
  rewrite continuation_data by (done || lia).
  pose proof (chunk_of_range (fsize f - copied) ltac:(lia)) as Hch.
  replace (r_size (continuation_record f copied)) with (chunk_of (fsize f - copied))
    by (unfold continuation_record; fs_proj; rewrite u32_small; unfold u32_ok; lia).
  pose proof (length_file_bytes f copied (chunk_of (fsize f - copied)) Hwf) as Hfb.
  pose proof (parts_step (fsize f) copied ltac:(lia)).
  rewrite cons_middle, app_assoc. fs_consts. apply IH; try lia.
  - rewrite length_app. simpl. lia.
  - rewrite length_memcpy_at; lia.
  - apply memcpy_at_Forall; [done|]. unfold file_bytes. by apply slice_Forall.
  - replace (Z.to_nat (copied + chunk_of (fsize f - copied)))
      with (Z.to_nat copied + length (file_bytes f copied (chunk_of (fsize f - copied))))%nat at 1
      by (rewrite Hfb; lia).
    rewrite take_memcpy by (rewrite Hfb; lia). rewrite Htake. unfold file_bytes.
    rewrite take_app_slice. f_equal. lia.
Qed.

(** A slot that can receive a file: arrays of the declared sizes. *)
Definition slot_wf (f : fs_file) : Prop :=
  length (fname f) = 32%nat /\ bytes_ok (fname f) /\
  length (fdata f) = Z.to_nat FS_MAX_FILE_SIZE /\ bytes_ok (fdata f).

(** Slot [l] holds the file that slot [f] holds. *)
Definition same_file (f l : fs_file) : Prop :=
  in_use l = true /\ view l = view f /\ file_wf l /\ cstr (fname l) = cstr (fname f).

Lemma file_wf_slot f : file_wf f -> slot_wf f.
Proof. unfold file_wf, slot_wf. tauto. Qed.

Lemma store_name_wf dst name :
  length dst = 32%nat -> bytes_ok dst -> bytes_ok name -> (length (cstr name) <= 31)%nat ->
  let r := memcpy_at dst 0 (cstr name ++ [0]) in
  length r = 32%nat /\ is_terminated r /\ bytes_ok r /\ cstr r = cstr name.
Proof.
  intros Hd Hb Hn Hl.
  assert (Heq : copy_cstring dst 32 name = memcpy_at dst 0 (cstr name ++ [0])).
  { unfold copy_cstring. by rewrite take_ge by lia. }
  simpl. rewrite <- Heq, length_copy_cstring. split; [done|].
  split; [apply copy_cstring_terminated; lia|]. split; [by apply copy_cstring_bytes_ok|].
  rewrite cstr_copy_cstring by lia. by apply take_ge.
Qed.

Lemma load_file_same f pre rest file :
  file_wf f -> slot_wf file ->
  same_file f (load_file (pre ++ file_recs f ++ rest) (length pre) file).
Proof.
  intros Hwf (Hn & Hnb & Hd & Hdb). pose proof Hwf as (_ & _ & _ & Hs & Hfd & Hfb).
  unfold file_recs. cbn [app]. unfold load_file. rewrite rec_at_mid, head_size by done.
  pose proof (chunk_of_range (fsize f) ltac:(lia)) as Hch.
  pose proof (length_file_recs f ltac:(lia)) as Hlr. unfold file_recs in Hlr. cbn [length] in Hlr.
  replace (Z.to_nat (fs_disk_records_needed (fsize f)) - 1)%nat
    with (length (conts (Z.to_nat (fs_disk_records_needed (fsize f))) f (chunk_of (fsize f)))) by lia.
  rewrite (cons_middle (head_record f)), (app_assoc pre). rewrite head_data by done.
  pose proof (length_file_bytes f 0 (chunk_of (fsize f)) Hwf ltac:(lia) ltac:(lia) ltac:(lia)) as Hfl.
  destruct (load_parts_conts (Z.to_nat (fs_disk_records_needed (fsize f))) f (chunk_of (fsize f))
    (pre ++ [head_record f]) rest (length pre) 1
    (memcpy_at (fdata file) 0 (file_bytes f 0 (chunk_of (fsize f))))) as (L1 & L2 & L3);
    [done | lia | rewrite needed_parts by lia; pose proof (parts_nonneg (fsize f) (chunk_of (fsize f))); lia
    | by rewrite length_app | rewrite length_memcpy_at; lia
    | apply memcpy_at_Forall; [done | by apply slice_Forall] | |].
  { rewrite <- Hfl at 1. rewrite take_memcpy_0 by (rewrite Hfl, Hd; fs_consts; lia).
    unfold file_bytes. change (Z.to_nat 0) with O. unfold slice. by rewrite drop_0. }
  set (data' := load_parts _ _ _ _ _ _) in *. clearbody data'.
  destruct (store_name_wf (fname file) (r_name (head_record f))) as (N1 & N2 & N3 & N4);
    [done|done| |rewrite cstr_head_name by done; by apply length_cstr_fname|].
  { rewrite head_name_eq by done. apply Forall_app_2; [by apply cstr_bytes_ok; apply Hwf|].
    apply Forall_replicate. unfold byte_ok. lia. }
  rewrite cstr_head_name in * by done.
  unfold same_file, view, file_wf; fs_proj. rewrite FS_MAX_FILE_SIZE_eq in *.
  rewrite length_insert, take_insert_ge, L3, N4 by lia.
  split_and!; try done; try lia. apply Forall_insert; [done|unfold byte_ok; lia].
Qed.

(** ** Whole tables *)

Lemma validate_zeros fuel pre k lc :
  (length pre + k = FS_MAX_FILES)%nat ->
  validate_current fuel (pre ++ replicate k zero_record) (length pre) lc = true.
Proof.
  revert pre k. induction fuel as [|fuel IH]; intros pre k Hk; cbn [validate_current]; [done|].
  destruct (Nat.leb_spec FS_MAX_FILES (length pre)); [done|].
  destruct k as [|k]; [lia|]. cbn [replicate]. rewrite rec_at_mid.
  change (r_in_use zero_record =? 0) with true. cbv iota.
  rewrite cons_middle, app_assoc. replace (length pre + 1)%nat
    with (length (pre ++ [zero_record])) by (rewrite length_app; simpl; lia).
  apply IH. rewrite length_app. simpl. lia.
Qed.

Lemma load_zeros fuel pre k li FILES :
  (length pre + k = FS_MAX_FILES)%nat ->
  load_current fuel (pre ++ replicate k zero_record) (length pre) li FILES = FILES.
Proof.
  revert pre k. induction fuel as [|fuel IH]; intros pre k Hk; cbn [load_current]; [done|].
  destruct (Nat.leb_spec FS_MAX_FILES (length pre)); [done|].
  destruct k as [|k]; [lia|]. cbn [replicate]. rewrite rec_at_mid.
  change (r_in_use zero_record =? 0) with true. cbv iota.
  rewrite cons_middle, app_assoc. replace (length pre + 1)%nat
    with (length (pre ++ [zero_record])) by (rewrite length_app; simpl; lia).
  apply IH. rewrite length_app. simpl. lia.
Qed.

(** No head record of [pre] has a name among [names]. *)
Definition names_fresh (pre : list fs_disk_record) (names : list (list Z)) : Prop :=
  forall r, r ∈ pre -> r_in_use r = FS_DISK_RECORD_HEAD -> cstr (r_name r) ∉ names.

Lemma duplicate_name_false pre r rest names :
  names_fresh pre names -> cstr (r_name r) ∈ names ->
  duplicate_name (pre ++ r :: rest) (length pre) = false.
Proof.
  intros Hf Hin. unfold duplicate_name. rewrite rec_at_mid, take_app_length.
  apply not_true_iff_false. intros (p & Hp & Hb)%existsb_exists.
  apply list_elem_of_In in Hp. bdestr_hyps. apply (Hf p Hp); [done|].
  by match goal with H : kstrcmp _ _ = 0 |- _ => apply kstrcmp_cstr in H; rewrite H end.
Qed.

Lemma conts_in_use fuel f copied r :
  r ∈ conts fuel f copied -> r_in_use r = FS_DISK_RECORD_CONTINUATION.
Proof.
  revert copied. induction fuel as [|fuel IH]; intros copied; simpl; [by intros ?%elem_of_nil|].
  destruct (copied <? fsize f); [|by intros ?%elem_of_nil].
  intros [->|H]%elem_of_cons; [done | by eapply IH].
Qed.

Lemma names_fresh_step pre f names :
  file_wf f -> names_fresh pre (cstr (fname f) :: names) -> cstr (fname f) ∉ names ->
  names_fresh (pre ++ file_recs f) names.
Proof.
  intros Hwf Hf Hnd r [Hr|Hr]%elem_of_app Hu.
  { intros Hin. apply (Hf r Hr Hu). by right. }
  apply elem_of_cons in Hr as [->|Hr]; [by rewrite cstr_head_name|].
  apply conts_in_use in Hr. unfold FS_DISK_RECORD_HEAD, FS_DISK_RECORD_CONTINUATION in *. lia.
Qed.

Definition file_ok (f : fs_file) : Prop :=
  file_wf f /\ (in_use f = true -> fs_is_valid_name (Some (fname f)) = true).

Lemma file_recs_nonempty f : (0 < length (file_recs f))%nat.
Proof. unfold file_recs. simpl. lia. Qed.

Lemma head_of_chain f pre rest : rec_at (pre ++ file_recs f ++ rest) (length pre) = head_record f.
Proof. unfold file_recs. cbn [app]. apply rec_at_mid. Qed.

Lemma head_checks f :
  file_ok f -> in_use f = true ->
  negb (r_in_use (head_record f) =? FS_DISK_RECORD_HEAD) ||
    (FS_MAX_FILE_SIZE <=? r_size (head_record f)) ||
    negb (znth (r_name (head_record f)) 31 =? 0) ||
    negb (fs_is_valid_name (Some (r_name (head_record f)))) = false.
Proof.
  intros [Hwf Hval] Hu. rewrite head_size, head_name_last by done.
  rewrite (fs_is_valid_name_cstr _ (fname f)), Hval by (done || by apply cstr_head_name).
  destruct Hwf as (_ & _ & _ & Hs & _).
  destruct (Z.leb_spec FS_MAX_FILE_SIZE (fsize f)); [lia|]. done.
Qed.

Lemma chain_not_duplicate f pre rest names :
  file_wf f -> names_fresh pre names -> cstr (fname f) ∈ names ->
  duplicate_name (pre ++ file_recs f ++ rest) (length pre) = false.
Proof.
  intros Hwf Hf Hin. unfold file_recs. cbn [app].
  apply duplicate_name_false with names; [done|]. by rewrite cstr_head_name.
Qed.

Lemma chain_parts_valid f pre rest :
  file_wf f ->
  validate_parts (Z.to_nat (fs_disk_records_needed (fsize f)) - 1) (pre ++ file_recs f ++ rest)
    (length pre) 1
    (if FS_DISK_DATA_BYTES <? fsize f then fsize f - FS_DISK_DATA_BYTES else 0) = Some 0.
Proof.
  intros (_ & _ & _ & Hs & _). pose proof (length_file_recs f ltac:(lia)) as Hlen.
  pose proof (chunk_of_range (fsize f) ltac:(lia)).
  replace (if FS_DISK_DATA_BYTES <? fsize f then fsize f - FS_DISK_DATA_BYTES else 0)
    with (fsize f - chunk_of (fsize f))
    by (unfold chunk_of; destruct (FS_DISK_DATA_BYTES <? fsize f); lia).
  unfold file_recs in Hlen |- *. cbn [length app] in Hlen |- *.
  replace (Z.to_nat (fs_disk_records_needed (fsize f)) - 1)%nat
    with (length (conts (Z.to_nat (fs_disk_records_needed (fsize f))) f (chunk_of (fsize f)))) by lia.
  rewrite cons_middle, app_assoc. apply validate_parts_conts; [lia| |by rewrite length_app].
  rewrite needed_parts by lia. pose proof (parts_nonneg (fsize f) (chunk_of (fsize f))). lia.
Qed.

Lemma validate_recs files pre k fuel lc :
  Forall file_ok files -> NoDup (map fst (live files)) ->
  names_fresh pre (map fst (live files)) ->
  (length pre + (length (recs_of files) + k) = FS_MAX_FILES)%nat -> (lc <= length pre)%nat ->
  validate_current fuel (pre ++ recs_of files ++ replicate k zero_record) (length pre) lc = true.
Proof.
  intros Hok. revert pre fuel lc. induction Hok as [|f files Hf Hok IH];
    intros pre fuel lc Hnd Hfr Hk Hlc.
  { simpl in *. by apply validate_zeros. }
  pose proof (proj1 Hf) as Hwf.
  cbn [recs_of live] in *. destruct (in_use f) eqn:Hu; [|by apply IH].
  cbn [map] in Hnd. apply NoDup_cons in Hnd as [Hnin Hnd]. cbn [view fst] in Hnin.
  destruct fuel as [|fuel]; [done|]. cbn [validate_current].
  destruct (Nat.leb_spec FS_MAX_FILES (length pre)) as [|Hlt]; [done|].
  pose proof Hwf as (_ & _ & _ & Hs & _).
  pose proof (length_file_recs f ltac:(lia)) as Hlen.
  rewrite <- app_assoc. rewrite length_app in Hk.
  set (rest := recs_of files ++ replicate k zero_record) in *.
  rewrite head_of_chain. change (r_in_use (head_record f) =? 0) with false. cbv iota.
  rewrite head_checks by done. cbv iota.
  rewrite (chain_not_duplicate _ _ _ (cstr (fname f) :: map fst (live files)))
    by (done || by left). cbv iota.
  rewrite head_size by done.
  destruct (Z.ltb_spec (Z.of_nat (FS_MAX_FILES - length pre)) (fs_disk_records_needed (fsize f)));
    [lia|].
  rewrite chain_parts_valid by done. cbn [Z.eqb negb orb].
  change (negb (0 =? 0)) with false. destruct (Nat.leb_spec FS_MAX_FILES lc); [lia|]. cbn [orb].
  rewrite app_assoc, <- Hlen, <- length_app. apply IH; [done| |rewrite length_app; lia|].
  - by apply names_fresh_step.
  - rewrite length_app. pose proof (file_recs_nonempty f). lia.
Qed.

(** Loading appends one slot per file to the slots already filled. *)
Lemma load_recs files pre k fuel filled rest :
  Forall file_ok files -> Forall slot_wf rest ->
  (length pre + (length (recs_of files) + k) = FS_MAX_FILES)%nat ->
  (FS_MAX_FILES <= fuel + length pre)%nat -> (length (live files) <= length rest)%nat ->
  exists loaded,
    load_current fuel (pre ++ recs_of files ++ replicate k zero_record) (length pre)
      (length filled) (filled ++ rest) = filled ++ loaded ++ drop (length loaded) rest /\
    Forall2 same_file (List.filter in_use files) loaded.
Proof.
  intros Hok. revert pre fuel filled rest. induction Hok as [|f files [Hwf Hval] Hok IH];
    intros pre fuel filled rest Hrest Hk Hfuel Hroom.
  { exists []. simpl in *. split; [by rewrite load_zeros | constructor]. }
  cbn [recs_of live List.filter] in *. destruct (in_use f) eqn:Hu; [|by apply IH].
  pose proof (file_recs_nonempty f) as Hne. rewrite length_app in Hk.
  destruct fuel as [|fuel]; [lia|]. cbn [load_current].
  destruct (Nat.leb_spec FS_MAX_FILES (length pre)) as [|Hlt]; [lia|].
  pose proof Hwf as (_ & _ & _ & Hs & _).
  pose proof (length_file_recs f ltac:(lia)) as Hlen.
  rewrite <- app_assoc. set (tl := recs_of files ++ replicate k zero_record) in *.
  rewrite head_of_chain. change (r_in_use (head_record f) =? 0) with false. cbv iota.
  rewrite head_size by done.
  destruct rest as [|slot rest]; [simpl in Hroom; lia|]. apply Forall_cons in Hrest as [Hslot Hrest].
  rewrite alter_app_r_alt by lia. rewrite Nat.sub_diag. cbn [alter list_alter].
  pose proof (load_file_same f pre tl slot Hwf Hslot) as Hsame.
  set (l := load_file _ _ slot) in *.
  rewrite (app_assoc pre), <- Hlen, <- length_app.
  rewrite cons_middle, (app_assoc filled), Nat.add_1_r.
  replace (S (length filled)) with (length (filled ++ [l])) by (rewrite length_app; simpl; lia).
  destruct (IH (pre ++ file_recs f) fuel (filled ++ [l]) rest) as (loaded & HE & HF);
    [done | rewrite length_app; lia | rewrite length_app; lia | simpl in Hroom; lia |].
  exists (l :: loaded). split; [|by constructor]. rewrite HE. by rewrite <- !app_assoc.
Qed.

(** ** Well-formed tables *)

Lemma zero_record_wf : record_wf zero_record.
Proof.
  unfold record_wf, zero_record; fs_proj. unfold byte_ok, u32_ok.
  rewrite !length_zeros by (fs_consts; lia). split_and!; auto with nos lia.
Qed.

Lemma head_record_wf f : file_wf f -> record_wf (head_record f).
Proof.
  intros Hwf. pose proof Hwf as (_ & _ & Hn & Hs & _ & Hb).
  pose proof (length_cstr_fname f Hwf).
  unfold record_wf. split; [unfold head_record; fs_proj; fs_consts; unfold byte_ok; lia|].
  split. { rewrite head_name_eq, length_app, length_replicate by done. lia. }
  split. { rewrite head_name_eq by done. apply Forall_app_2; [by apply cstr_bytes_ok|].
           apply Forall_replicate. unfold byte_ok. lia. }
  split. { rewrite head_size by done. unfold u32_ok. fs_consts. lia. }
  unfold head_record; fs_proj. split.
  - rewrite length_memcpy_at; rewrite ?length_zeros by (fs_consts; lia); lia.
  - apply memcpy_at_Forall; [apply bytes_ok_zeros | by apply slice_Forall].
Qed.

Lemma continuation_record_wf f copied : file_wf f -> record_wf (continuation_record f copied).
Proof.
  intros (_ & _ & _ & _ & _ & Hb). unfold record_wf, continuation_record; fs_proj.
  split; [fs_consts; unfold byte_ok; lia|]. split; [done|]. split; [apply bytes_ok_zeros|].
  split; [apply u32_range|]. split.
  - rewrite length_memcpy_at; rewrite ?length_zeros by (fs_consts; lia); lia.
  - apply memcpy_at_Forall; [apply bytes_ok_zeros | by apply slice_Forall].
Qed.

Lemma conts_wf fuel f copied : file_wf f -> Forall record_wf (conts fuel f copied).
Proof.
  intros Hwf. revert copied. induction fuel as [|fuel IH]; intros copied; simpl; [constructor|].
  destruct (copied <? fsize f); constructor; [by apply continuation_record_wf | apply IH].
Qed.

Lemma recs_of_wf files : Forall file_ok files -> Forall record_wf (recs_of files).
Proof.
  induction 1 as [|f files [Hwf _] Hok IH]; simpl; [constructor|].
  destruct (in_use f); [|done]. constructor; [by apply head_record_wf|].
  apply Forall_app_2; [by apply conts_wf | done].
Qed.

Lemma files_wf_ok FILES : files_wf FILES -> Forall file_ok FILES.
Proof.
  intros (_ & Hw & Hv & _). rewrite Forall_forall in Hw, Hv |- *.
  intros f Hf. split; auto.
Qed.

Lemma fs_serialize_table FILES :
  files_wf FILES ->
  fs_serialize FILES =
    if (length (recs_of FILES) <=? FS_MAX_FILES)%nat
    then (true, FsDiskTable (recs_of FILES ++ replicate (FS_MAX_FILES - length (recs_of FILES)) zero_record)
                  (padding zero_table))
    else (false, (fs_serialize FILES).2).
Proof.
  intros Hwf. unfold fs_serialize at 1.
  assert (Hsz : Forall (fun f => 0 <= fsize f) FILES).
  { destruct Hwf as (_ & Hw & _). eapply Forall_impl; [exact Hw|]. intros f (_ & _ & _ & Hs & _). lia. }
  pose proof (serialize_files_list FILES [] FS_MAX_FILES Hsz ltac:(done)) as HE.
  cbn [length app] in HE. change (records zero_table) with (replicate FS_MAX_FILES zero_record).
  unfold fs_serialize. change (records zero_table) with (replicate FS_MAX_FILES zero_record).
  rewrite HE. destruct (_ <=? _)%nat; [done|].
  by destruct (serialize_files FILES 0 (replicate FS_MAX_FILES zero_record)).
Qed.

Lemma serialized_table_wf FILES t :
  files_wf FILES -> fs_serialize FILES = (true, t) -> table_wf t.
Proof.
  intros Hwf. rewrite fs_serialize_table by done.
  destruct (Nat.leb_spec (length (recs_of FILES)) FS_MAX_FILES); [|done]. intros [= <-].
  unfold table_wf; fs_proj. rewrite length_app, length_replicate. split; [lia|].
  split. { apply Forall_app_2; [by apply recs_of_wf, files_wf_ok|].
           apply Forall_replicate, zero_record_wf. }
  unfold zero_table; fs_proj. split; [by rewrite length_zeros by (fs_consts; lia)|apply bytes_ok_zeros].
Qed.

Lemma fs_clear_wf f : slot_wf f -> file_wf (fs_clear f) /\ in_use (fs_clear f) = false.
Proof.
  intros (Hn & Hnb & Hd & Hdb). split; [|done]. unfold file_wf, fs_clear; fs_proj.
  rewrite !length_insert. split_and!; auto; try (fs_consts; lia).
  - unfold is_terminated. apply list_elem_of_lookup. exists O. apply list_lookup_insert_eq. lia.
  - apply Forall_insert; [done|unfold byte_ok; lia].
  - apply Forall_insert; [done|unfold byte_ok; lia].
Qed.

Lemma live_app a b : live (a ++ b) = live a ++ live b.
Proof. induction a as [|f a IH]; simpl; [done|]. rewrite IH. by destruct (in_use f). Qed.

Lemma live_unused fs : Forall (fun f => in_use f = false) fs -> live fs = [].
Proof. induction 1 as [|f fs Hf Hfs IH]; simpl; [done|]. by rewrite Hf. Qed.

Lemma live_filter fs : live (List.filter in_use fs) = live fs.
Proof.
  induction fs as [|f fs IH]; simpl; [done|]. destruct (in_use f) eqn:E; simpl; [|done].
  by rewrite E, IH.
Qed.

Lemma live_same fs ls : Forall2 same_file fs ls -> Forall (fun f => in_use f = true) fs -> live ls = live fs.
Proof.
  induction 1 as [|f l fs ls (Hu & Hv & _) Hrest IH]; [done|].
  intros [Hf Hfs]%Forall_cons. simpl. by rewrite Hu, Hf, Hv, IH.
Qed.

Lemma filter_in_use fs : Forall (fun f => in_use f = true) (List.filter in_use fs).
Proof. induction fs as [|f fs IH]; simpl; [constructor|]. by destruct (in_use f) eqn:E; [constructor|]. Qed.

Lemma length_live fs : (length (live fs) <= length fs)%nat.
Proof. induction fs as [|f fs IH]; simpl; [lia|]. destruct (in_use f); simpl; lia. Qed.

Lemma same_file_ok fs ls :
  Forall2 same_file fs ls -> Forall file_ok fs -> Forall (fun f => in_use f = true) fs ->
  Forall file_ok ls.
Proof.
  induction 1 as [|f l fs ls (_ & _ & Hw & Hn) Hrest IH]; [constructor|].
  intros [[_ Hv] Hok]%Forall_cons [Hu Hus]%Forall_cons. constructor; [|by apply IH].
  split; [done|]. intros _. rewrite (fs_is_valid_name_cstr _ (fname f)) by done. by apply Hv.
Qed.

Lemma Forall_filter_in_use (P : fs_file -> Prop) fs : Forall P fs -> Forall P (List.filter in_use fs).
Proof. induction 1 as [|f fs Hf Hfs IH]; simpl; [constructor|]. destruct (in_use f); [by constructor|done]. Qed.

Lemma cleared_slots slots :
  Forall slot_wf slots ->
  Forall slot_wf (map fs_clear slots) /\ Forall file_ok (map fs_clear slots) /\
  Forall (fun f => in_use f = false) (map fs_clear slots).
Proof.
  induction 1 as [|f fs Hf Hfs (I1 & I2 & I3)]; simpl; [split_and!; constructor|].
  destruct (fs_clear_wf f Hf) as [Hw Hu]. split_and!; constructor; auto.
  - by apply file_wf_slot.
  - split; [done|]. by rewrite Hu.
Qed.

Lemma files_wf_intro FILES :
  length FILES = FS_MAX_FILES -> Forall file_ok FILES -> NoDup (map fst (live FILES)) ->
  files_wf FILES.
Proof.
  intros Hl Hok Hnd. split; [done|].
  split; [|split; [|done]]; eapply Forall_impl; try exact Hok; by intros f [? ?].
Qed.

(** What the loader makes of a serialized table. *)
Lemma deserialize_serialized FILES slots t :
  files_wf FILES -> length slots = FS_MAX_FILES -> Forall slot_wf slots ->
  fs_serialize FILES = (true, t) ->
  exists FILES', fs_deserialize_current t slots = Some FILES' /\
    live FILES' = live FILES /\ files_wf FILES'.
Proof.
  intros Hwf Hls Hslots. rewrite fs_serialize_table by done.
  destruct (Nat.leb_spec (length (recs_of FILES)) FS_MAX_FILES) as [Hfit|]; [|done]. intros [= <-].
  pose proof (files_wf_ok _ Hwf) as Hok. pose proof Hwf as (Hlen & _ & _ & Hnd).
  destruct (cleared_slots slots Hslots) as (C1 & C2 & C3).
  unfold fs_deserialize_current; fs_proj.
  pose proof (validate_recs FILES [] (FS_MAX_FILES - length (recs_of FILES)) FS_MAX_FILES 0 Hok Hnd
    ltac:(by intros r ?%elem_of_nil) ltac:(simpl; lia) ltac:(simpl; lia)) as HV.
  cbn [app length] in HV. rewrite HV.
  pose proof (length_live FILES) as Hll.
  destruct (load_recs FILES [] (FS_MAX_FILES - length (recs_of FILES)) FS_MAX_FILES []
              (map fs_clear slots)) as (loaded & HE & HF);
    [done | done | cbn [length]; lia | cbn [length]; lia | rewrite length_map; lia |].
  eexists. split; [by f_equal|]. cbn [app length] in HE. rewrite HE.
  pose proof (Forall2_length _ _ _ HF) as Hlf.
  assert (Hlive : live (loaded ++ drop (length loaded) (map fs_clear slots)) = live FILES).
  { rewrite live_app, (live_unused (drop _ _)), app_nil_r by (by apply Forall_drop).
    rewrite (live_same _ _ HF (filter_in_use _)). apply live_filter. }
  split; [done|]. apply files_wf_intro; [| |by rewrite Hlive].
  - rewrite length_app, length_drop, length_map, Hls.
    assert (length loaded <= length FILES)%nat by (rewrite <- Hlf; apply List.filter_length_le). lia.
  - apply Forall_app_2; [|by apply Forall_drop].
    apply (same_file_ok _ _ HF); [by apply Forall_filter_in_use | apply filter_in_use].
Qed.

(** C5: every table of files that [fs_serialize] accepts is read
    back from its on-disk bytes by [fs_deserialize_current], into whatever
    the file slots held before, as exactly the same files: same names, same
    contents, same order.  The slots end well formed. *)
Theorem fs_serialize_roundtrip (FILES slots : list fs_file) (t : fs_disk_table) :
  files_wf FILES -> length slots = FS_MAX_FILES -> Forall slot_wf slots ->
  fs_serialize FILES = (true, t) ->
  exists FILES', fs_deserialize_current (decode_table (encode_table t)) slots = Some FILES' /\
    live FILES' = live FILES /\ files_wf FILES'.
Proof.
  intros Hwf Hls Hslots Hser. rewrite decode_encode_table by (by eapply serialized_table_wf).
  by apply deserialize_serialized.
Qed.

Lemma length_recs_of FILES :
  Forall file_wf FILES ->
  length (recs_of FILES) =
    sum_list_with (fun f => if in_use f then Z.to_nat (fs_disk_records_needed (fsize f)) else O) FILES.
Proof.
  induction 1 as [|f FILES (_ & _ & _ & Hs & _) Hok IH]; [done|].
  cbn [recs_of sum_list_with].
  destruct (in_use f); [|done]. rewrite length_app, length_file_recs, IH by lia. done.
Qed.

(** serialization succeeds exactly when the extent records of all
    files together (one per started 1,024 bytes, at least one per file) fit
    the 32-record table. *)
Theorem fs_serialize_capacity (FILES : list fs_file) :
  files_wf FILES ->
  (fs_serialize FILES).1 = true <->
  (sum_list_with (fun f => if in_use f then Z.to_nat (fs_disk_records_needed (fsize f)) else O)
     FILES <= FS_MAX_FILES)%nat.
Proof.
  intros Hwf. rewrite fs_serialize_table by done. pose proof Hwf as (_ & Hw & _).
  rewrite <- length_recs_of by done.
  destruct (Nat.leb_spec (length (recs_of FILES)) FS_MAX_FILES); split; done || (simpl; lia).
Qed.

(** ** Witnesses: a two-file table, one of the files two extents long *)

Definition sample_file (name : list Z) (n : Z) (b : Z) : fs_file :=
  FsFile true (copy_cstring (zeros 32) 32 name) n
    (memcpy_at (zeros FS_MAX_FILE_SIZE) 0 (replicate (Z.to_nat n) b)).

Definition sample_files : list fs_file :=
  [sample_file (cs "a.txt") 3 65; zero_file; sample_file (cs "big.bin") 1500 66]
  ++ replicate 29 zero_file.

Definition file_wfb (f : fs_file) : bool :=
  (length (fname f) =? 32)%nat && bool_decide (is_terminated (fname f)) && bytes_okb (fname f) &&
  (0 <=? fsize f) && (fsize f <? FS_MAX_FILE_SIZE) &&
  (Z.of_nat (length (fdata f)) =? FS_MAX_FILE_SIZE) && bytes_okb (fdata f).

Lemma file_wfb_true f : file_wfb f = true -> file_wf f.
Proof.
  unfold file_wfb, file_wf. intros H. bdestr_hyps.
  repeat match goal with
  | H : bytes_okb _ = true |- _ => apply bytes_okb_true in H
  | H : bool_decide _ = true |- _ => apply bool_decide_eq_true in H
  | H : (_ =? _)%nat = true |- _ => apply Nat.eqb_eq in H
  end.
  split_and!; try done. lia.
Qed.

Definition files_wfb (FILES : list fs_file) : bool :=
  (length FILES =? 32)%nat && forallb file_wfb FILES &&
  forallb (fun f => negb (in_use f) || fs_is_valid_name (Some (fname f))) FILES &&
  bool_decide (NoDup (map fst (live FILES))).

Lemma files_wfb_true FILES : files_wfb FILES = true -> files_wf FILES.
Proof.
  unfold files_wfb, files_wf. intros H. bdestr_hyps.
  repeat match goal with
  | H : bool_decide _ = true |- _ => apply bool_decide_eq_true in H
  | H : (_ =? _)%nat = true |- _ => apply Nat.eqb_eq in H
  | H : forallb _ _ = true |- _ => rewrite forallb_forall in H
  end.
  split_and!; try done; apply Forall_forall; intros f Hf%list_elem_of_In.
  - by apply file_wfb_true; auto.
  - intros Hu. match goal with
    | H : forall x, In x FILES -> _ || _ = true |- _ => specialize (H f Hf); by rewrite Hu in H
    end.
Qed.

Lemma sample_files_wf : files_wf sample_files.
Proof. apply files_wfb_true. vm_compute. reflexivity. Qed.

Lemma zero_slots_wf : Forall slot_wf (replicate FS_MAX_FILES zero_file).
Proof. apply Forall_replicate, file_wf_slot, file_wfb_true. vm_compute. reflexivity. Qed.

Lemma fs_serialize_roundtrip_witness :
  exists FILES',
    fs_deserialize_current (decode_table (encode_table (fs_serialize sample_files).2))
      (replicate FS_MAX_FILES zero_file) = Some FILES' /\
    live FILES' = [(cs "a.txt", replicate 3 65); (cs "big.bin", replicate (Z.to_nat 1500) 66)].
Proof.
  destruct (fs_serialize_roundtrip sample_files (replicate FS_MAX_FILES zero_file)
              (fs_serialize sample_files).2) as (FILES' & HE & HL & _).
  - exact sample_files_wf.
  - reflexivity.
  - exact zero_slots_wf.
  - vm_compute. reflexivity.
  - exists FILES'. split; [exact HE|]. rewrite HL. vm_compute. reflexivity.
Defined.

Lemma fs_serialize_capacity_witness :
  (fs_serialize sample_files).1 = true /\
  (fs_serialize (replicate 32 (sample_file (cs "x") 1025 1))).1 = false.
Proof.
  split; [|vm_compute; reflexivity].
  apply (fs_serialize_capacity sample_files); [exact sample_files_wf | vm_compute; lia].
Defined.
