(* ===== verification/FsStore.v ===== *)
(** * kernel/fs.c, part 4: the mounted filesystem and its two disk slots

    [fs_state] holds the globals of the source and the block device; the
    kernel log is part of the device state because the driver logs too.
    Functions are state-passing computations.  A sector buffer on the C stack
    starts as zeros: it is always overwritten before it is read. *)

From S2P Require Import Prelude Syslog Ata BlockDev FsFormat.

Open Scope st_scope.

Inductive fs_backend_status_t :=
| FS_BACKEND_UNINITIALIZED
| FS_BACKEND_PERSISTENT
| FS_BACKEND_VOLATILE_NO_DRIVE
| FS_BACKEND_VOLATILE_CORRUPT
| FS_BACKEND_VOLATILE_IO_ERROR.

Inductive fs_legacy_upgrade_status_t :=
| FS_LEGACY_UPGRADE_UNAVAILABLE
| FS_LEGACY_UPGRADE_AVAILABLE
| FS_LEGACY_UPGRADE_OUTCOME_UNCERTAIN.

Inductive fs_disk_load_result :=
| FS_DISK_LOADED | FS_DISK_LOADED_IO_ERROR | FS_DISK_LOADED_CORRUPT
| FS_DISK_NO_DRIVE | FS_DISK_BLANK | FS_DISK_CORRUPT | FS_DISK_IO_ERROR.

Inductive fs_slot_load_result := FS_SLOT_LOADED | FS_SLOT_CORRUPT | FS_SLOT_IO_ERROR.
Inductive fs_sync_result := FS_SYNC_COMMITTED | FS_SYNC_FAILED | FS_SYNC_UNCERTAIN.
Inductive fs_reconcile_result := FS_RECONCILE_MATCH | FS_RECONCILE_MISMATCH | FS_RECONCILE_IO_ERROR.
Inductive fs_compare_result := FS_COMPARE_EQUAL | FS_COMPARE_DIFFERENT | FS_COMPARE_IO_ERROR.

#[export] Instance fs_backend_status_eq : EqDecision fs_backend_status_t.
Proof. solve_decision. Defined.
#[export] Instance fs_legacy_upgrade_status_eq : EqDecision fs_legacy_upgrade_status_t.
Proof. solve_decision. Defined.
#[export] Instance fs_disk_load_result_eq : EqDecision fs_disk_load_result.
Proof. solve_decision. Defined.
#[export] Instance fs_sync_result_eq : EqDecision fs_sync_result.
Proof. solve_decision. Defined.

Record fs_state (D : Type) := FsState {
  FILES : list fs_file;
  g_disk_table : fs_disk_table;
  g_mutation_backup : fs_file;
  g_active_slot : Z;
  g_active_generation : Z;
  g_loaded_version : Z;
  g_backend_status : fs_backend_status_t;
  g_legacy_upgrade_status : fs_legacy_upgrade_status_t;
  g_self_test_active : bool;
  g_virtual_system_log : fs_file;
  g_system_log_is_virtual : bool;
  dev : D;
}.
Arguments FsState {D} _ _ _ _ _ _ _ _ _ _ _ _.
Arguments FILES {D} _.
Arguments g_disk_table {D} _.
Arguments g_mutation_backup {D} _.
Arguments g_active_slot {D} _.
Arguments g_active_generation {D} _.
Arguments g_loaded_version {D} _.
Arguments g_backend_status {D} _.
Arguments g_legacy_upgrade_status {D} _.
Arguments g_self_test_active {D} _.
Arguments g_virtual_system_log {D} _.
Arguments g_system_log_is_virtual {D} _.
Arguments dev {D} _.

(** ** Assignments to the globals *)

Section Assign.
Context {D : Type}.
Definition set_FILES (x : list fs_file) (s : fs_state D) : fs_state D :=
  FsState x (g_disk_table s) (g_mutation_backup s) (g_active_slot s) (g_active_generation s) (g_loaded_version s) (g_backend_status s) (g_legacy_upgrade_status s) (g_self_test_active s) (g_virtual_system_log s) (g_system_log_is_virtual s) (dev s).
Definition set_g_disk_table (x : fs_disk_table) (s : fs_state D) : fs_state D :=
  FsState (FILES s) x (g_mutation_backup s) (g_active_slot s) (g_active_generation s) (g_loaded_version s) (g_backend_status s) (g_legacy_upgrade_status s) (g_self_test_active s) (g_virtual_system_log s) (g_system_log_is_virtual s) (dev s).
Definition set_g_mutation_backup (x : fs_file) (s : fs_state D) : fs_state D :=
  FsState (FILES s) (g_disk_table s) x (g_active_slot s) (g_active_generation s) (g_loaded_version s) (g_backend_status s) (g_legacy_upgrade_status s) (g_self_test_active s) (g_virtual_system_log s) (g_system_log_is_virtual s) (dev s).
Definition set_g_active_slot (x : Z) (s : fs_state D) : fs_state D :=
  FsState (FILES s) (g_disk_table s) (g_mutation_backup s) x (g_active_generation s) (g_loaded_version s) (g_backend_status s) (g_legacy_upgrade_status s) (g_self_test_active s) (g_virtual_system_log s) (g_system_log_is_virtual s) (dev s).
Definition set_g_active_generation (x : Z) (s : fs_state D) : fs_state D :=
  FsState (FILES s) (g_disk_table s) (g_mutation_backup s) (g_active_slot s) x (g_loaded_version s) (g_backend_status s) (g_legacy_upgrade_status s) (g_self_test_active s) (g_virtual_system_log s) (g_system_log_is_virtual s) (dev s).
Definition set_g_loaded_version (x : Z) (s : fs_state D) : fs_state D :=
  FsState (FILES s) (g_disk_table s) (g_mutation_backup s) (g_active_slot s) (g_active_generation s) x (g_backend_status s) (g_legacy_upgrade_status s) (g_self_test_active s) (g_virtual_system_log s) (g_system_log_is_virtual s) (dev s).
Definition set_g_backend_status (x : fs_backend_status_t) (s : fs_state D) : fs_state D :=
  FsState (FILES s) (g_disk_table s) (g_mutation_backup s) (g_active_slot s) (g_active_generation s) (g_loaded_version s) x (g_legacy_upgrade_status s) (g_self_test_active s) (g_virtual_system_log s) (g_system_log_is_virtual s) (dev s).
Definition set_g_legacy_upgrade_status (x : fs_legacy_upgrade_status_t) (s : fs_state D) : fs_state D :=
  FsState (FILES s) (g_disk_table s) (g_mutation_backup s) (g_active_slot s) (g_active_generation s) (g_loaded_version s) (g_backend_status s) x (g_self_test_active s) (g_virtual_system_log s) (g_system_log_is_virtual s) (dev s).
Definition set_g_self_test_active (x : bool) (s : fs_state D) : fs_state D :=
  FsState (FILES s) (g_disk_table s) (g_mutation_backup s) (g_active_slot s) (g_active_generation s) (g_loaded_version s) (g_backend_status s) (g_legacy_upgrade_status s) x (g_virtual_system_log s) (g_system_log_is_virtual s) (dev s).
Definition set_g_virtual_system_log (x : fs_file) (s : fs_state D) : fs_state D :=
  FsState (FILES s) (g_disk_table s) (g_mutation_backup s) (g_active_slot s) (g_active_generation s) (g_loaded_version s) (g_backend_status s) (g_legacy_upgrade_status s) (g_self_test_active s) x (g_system_log_is_virtual s) (dev s).
Definition set_g_system_log_is_virtual (x : bool) (s : fs_state D) : fs_state D :=
  FsState (FILES s) (g_disk_table s) (g_mutation_backup s) (g_active_slot s) (g_active_generation s) (g_loaded_version s) (g_backend_status s) (g_legacy_upgrade_status s) (g_self_test_active s) (g_virtual_system_log s) x (dev s).
Definition set_dev (x : D) (s : fs_state D) : fs_state D :=
  FsState (FILES s) (g_disk_table s) (g_mutation_backup s) (g_active_slot s) (g_active_generation s) (g_loaded_version s) (g_backend_status s) (g_legacy_upgrade_status s) (g_self_test_active s) (g_virtual_system_log s) (g_system_log_is_virtual s) x.
End Assign.

(** ** Disk access *)

Section Store.
Context {D : Type} `{BlockDevice D}.
Abbreviation M := (ST (fs_state D)).

Definition on_dev {A} (m : ST D A) : M A := fun s =>
  let '(a, d) := m (dev s) in (a, set_dev d s).

Definition log (message : list Z) : M unit :=
  st_mod (fun s => set_dev (bd_log message (dev s)) s).

(** [ata_read] of a whole table into [g_disk_table]. *)
Definition read_table (lba : Z) : M bool :=
  let! t := st_get g_disk_table in
  let! r := on_dev (bd_read lba FS_DISK_TABLE_SECTORS (encode_table t)) in
  do! st_mod (set_g_disk_table (decode_table r.2)) in
  st_ret r.1.

Definition fs_loaded_result (saw_io_error saw_corruption : bool) : fs_disk_load_result :=
  if saw_io_error then FS_DISK_LOADED_IO_ERROR
  else if saw_corruption then FS_DISK_LOADED_CORRUPT
  else FS_DISK_LOADED.

Definition fs_load_slot (slot : Z) (header : fs_disk_header) : M fs_slot_load_result :=
  let header_lba := fs_slot_header_lba slot in
  let! ok := read_table (header_lba + 1) in
  if negb ok then st_ret FS_SLOT_IO_ERROR
  else
    let! table := st_get g_disk_table in
    if negb (checksum header =? fs_checksum (encode_table table)) then
      do! log (cs "FS: rejected slot with corrupt checksum") in
      st_ret FS_SLOT_CORRUPT
    else
      let! files := st_get FILES in
      match (if FS_DISK_VERSION <=? version header
             then fs_deserialize_current table files
             else fs_deserialize_legacy table files) with
      | None =>
          do! log (cs "FS: rejected slot with invalid records") in
          st_ret FS_SLOT_CORRUPT
      | Some files' =>
          do! st_mod (set_FILES files') in
          do! st_mod (set_g_active_slot slot) in
          do! st_mod (set_g_active_generation (fs_header_generation header)) in
          do! st_mod (set_g_loaded_version (version header)) in
          st_ret FS_SLOT_LOADED
      end.

(** The sector loop of [fs_reconcile_table]: [n] sectors left, next [i]. *)
Fixpoint reconcile_sectors (n i : nat) (target_lba : Z) : M fs_reconcile_result :=
  match n with
  | O => st_ret FS_RECONCILE_MATCH
  | S n' =>
      let! r := on_dev (bd_read (target_lba + 1 + Z.of_nat i) 1 (zeros 512)) in
      if negb r.1 then st_ret FS_RECONCILE_IO_ERROR
      else
        let! table := st_get g_disk_table in
        if negb (fs_bytes_equal r.2 (slice (encode_table table) (i * 512) 512))
        then st_ret FS_RECONCILE_MISMATCH
        else reconcile_sectors n' (i + 1) target_lba
  end.

Definition fs_reconcile_table (target_lba : Z) : M fs_reconcile_result :=
  reconcile_sectors (Z.to_nat FS_DISK_TABLE_SECTORS) 0 target_lba.

Definition fs_reconcile_slot (target_lba : Z) (expected_header : fs_disk_header)
    : M fs_reconcile_result :=
  let! r := on_dev (bd_read target_lba 1 (zeros 512)) in
  if negb r.1 then st_ret FS_RECONCILE_IO_ERROR
  else if negb (fs_bytes_equal r.2 (encode_header expected_header))
  then st_ret FS_RECONCILE_MISMATCH
  else fs_reconcile_table target_lba.

Fixpoint compare_sectors (n i : nat) (first_lba second_lba : Z) : M fs_compare_result :=
  match n with
  | O => st_ret FS_COMPARE_EQUAL
  | S n' =>
      let! a := on_dev (bd_read (first_lba + Z.of_nat i) 1 (zeros 512)) in
      if negb a.1 then st_ret FS_COMPARE_IO_ERROR
      else
        let! b := on_dev (bd_read (second_lba + Z.of_nat i) 1 (zeros 512)) in
        if negb b.1 then st_ret FS_COMPARE_IO_ERROR
        else if negb (fs_bytes_equal a.2 b.2) then st_ret FS_COMPARE_DIFFERENT
        else compare_sectors n' (i + 1) first_lba second_lba
  end.

Definition fs_compare_slot_tables (first_slot second_slot : Z) : M fs_compare_result :=
  compare_sectors (Z.to_nat FS_DISK_TABLE_SECTORS) 0
    (fs_slot_header_lba first_slot + 1) (fs_slot_header_lba second_slot + 1).

Definition fs_accept_commit (target_slot next_generation : Z) : M unit :=
  do! st_mod (set_g_active_slot target_slot) in
  do! st_mod (set_g_active_generation next_generation) in
  st_mod (set_g_loaded_version FS_DISK_VERSION).

(** The commit header of a table. *)
Definition commit_header (table : fs_disk_table) (next_generation : Z) : fs_disk_header :=
  let header := FsDiskHeader FS_MAGIC_VAL FS_DISK_VERSION FS_DISK_TABLE_BYTES
                  (fs_checksum (encode_table table)) next_generation 0 (zeros 488) in
  FsDiskHeader (magic header) (version header) (table_bytes header) (checksum header)
    (generation header) (fs_header_checksum header) (reserved header).

(** Second half of [fs_sync_to_disk_verified]: write and check the commit
    header, then switch to the new slot. *)
Definition sync_header (require_verified_readback : bool)
    (target_slot target_lba next_generation : Z) : M fs_sync_result :=
  let! table := st_get g_disk_table in
  let header := commit_header table next_generation in
  let! header_write := on_dev (bd_write target_lba 1 (encode_header header)) in
  if bool_decide (header_write = ATA_WRITE_FAILED) then
    do! log (cs "FS: Disk sync failed (commit header)") in
    st_ret FS_SYNC_FAILED
  else
    let accept :=
      do! fs_accept_commit target_slot next_generation in
      st_ret FS_SYNC_COMMITTED in
    if bool_decide (header_write = ATA_WRITE_UNCERTAIN) || require_verified_readback then
      let! reconciliation := fs_reconcile_slot target_lba header in
      match reconciliation with
      | FS_RECONCILE_IO_ERROR =>
          do! log (cs "FS: commit status is uncertain and read-back failed") in
          st_ret FS_SYNC_UNCERTAIN
      | FS_RECONCILE_MISMATCH =>
          do! log (cs "FS: Disk sync failed (commit read-back mismatch)") in
          st_ret FS_SYNC_FAILED
      | FS_RECONCILE_MATCH =>
          do! (if bool_decide (header_write = ATA_WRITE_UNCERTAIN)
               then log (cs "FS: reconciled uncertain commit header") else st_ret tt) in
          accept
      end
    else accept.

Definition fs_sync_to_disk_verified (require_verified_readback : bool) : M fs_sync_result :=
  let! init_result := on_dev bd_init in
  if negb (bool_decide (init_result = ATA_INIT_READY)) then
    do! log (if bool_decide (init_result = ATA_INIT_NO_DEVICE)
             then cs "FS: Disk sync failed (no ATA drive)"
             else cs "FS: Disk sync failed (ATA initialization error)") in
    st_ret FS_SYNC_FAILED
  else
    let! active := st_get g_active_slot in
    let! active_generation := st_get g_active_generation in
    let target_slot := if active <? FS_SLOT_COUNT then u8 (Z.lxor active 1) else 0 in
    let target_lba := fs_slot_header_lba target_slot in
    let next_generation := u32 (active_generation + 1) in
    let! files := st_get FILES in
    do! st_mod (set_g_disk_table (fs_serialize files).2) in
    if negb (fs_serialize files).1 then
      do! log (cs "FS: Disk sync failed (record table full)") in
      st_ret FS_SYNC_FAILED
    else
      let! table := st_get g_disk_table in
      let! table_write :=
        on_dev (bd_write (target_lba + 1) FS_DISK_TABLE_SECTORS (encode_table table)) in
      if bool_decide (table_write = ATA_WRITE_FAILED) then
        do! log (cs "FS: Disk sync failed (write data)") in
        st_ret FS_SYNC_FAILED
      else
        let commit :=
          sync_header require_verified_readback target_slot target_lba next_generation in
        if bool_decide (table_write = ATA_WRITE_UNCERTAIN) || require_verified_readback then
          let! reconciliation := fs_reconcile_table target_lba in
          match reconciliation with
          | FS_RECONCILE_IO_ERROR =>
              do! log (cs "FS: data write status is uncertain and read-back failed") in
              st_ret FS_SYNC_UNCERTAIN
          | FS_RECONCILE_MISMATCH =>
              do! log (cs "FS: Disk sync failed (data read-back mismatch)") in
              st_ret FS_SYNC_FAILED
          | FS_RECONCILE_MATCH =>
              do! (if bool_decide (table_write = ATA_WRITE_UNCERTAIN)
                   then log (cs "FS: reconciled uncertain data write") else st_ret tt) in
              commit
          end
        else commit.

Definition fs_sync_to_disk : M fs_sync_result := fs_sync_to_disk_verified false.

(** ** Mounting *)

(** One iteration of the header scan: the header, whether it is valid,
    whether it is invalid and not blank, and whether the read failed. *)
Definition scan_header (slot : Z) : M (fs_disk_header * bool * bool * bool) :=
  let! r := on_dev (bd_read (fs_slot_header_lba slot) 1 (zeros 512)) in
  let header := decode_header r.2 in
  if r.1 then
    let valid := fs_header_is_valid header in
    st_ret (header, valid, negb valid && negb (fs_header_is_blank header), false)
  else st_ret (header, false, false, true).

Definition is_protected (valid : bool) (h : fs_disk_header) : bool :=
  valid && (FS_INTEGRITY_DISK_VERSION <=? version h).

(** Should slot 1 be tried before slot 0? *)
Definition second_first (valid0 valid1 : bool) (h0 h1 : fs_disk_header) : bool :=
  let p0 := is_protected valid0 h0 in
  let p1 := is_protected valid1 h1 in
  valid1 &&
  (negb valid0 || (p1 && negb p0) ||
   (eqb p1 p0 && fs_generation_is_newer (fs_header_generation h1) (fs_header_generation h0))).

(** The table scan that decides whether the medium is blank: 
    [(saw_blank_table_io_error, saw_nonblank_table)] over the slots. *)
Definition scan_blank_table (slot : Z) (acc : bool * bool) : M (bool * bool) :=
  let! ok := read_table (fs_slot_header_lba slot + 1) in
  if negb ok then st_ret (true, acc.2)
  else
    let! table := st_get g_disk_table in
    st_ret (acc.1, acc.2 || negb (fs_bytes_are_blank (encode_table table))).

(** The slot attempts and the blank check at the end of
    [fs_load_from_disk]. *)
Definition load_blank_check : M fs_disk_load_result :=
  let! acc := scan_blank_table 0 (false, false) in
  let! acc := scan_blank_table 1 acc in
  st_ret (if acc.1 : bool then FS_DISK_IO_ERROR
          else if acc.2 : bool then FS_DISK_CORRUPT else FS_DISK_BLANK).

Definition try_slot (valid : bool) (slot : Z) (h : fs_disk_header) : M (option fs_slot_load_result) :=
  if valid then let! r := fs_load_slot slot h in st_ret (Some r) else st_ret None.

Definition slot_failed_io (r : option fs_slot_load_result) : bool :=
  match r with Some FS_SLOT_IO_ERROR => true | _ => false end.
Definition slot_failed_corrupt (r : option fs_slot_load_result) : bool :=
  match r with Some FS_SLOT_CORRUPT => true | _ => false end.

Definition offer_upgrade (legacy_order_is_ambiguous : bool) : M unit :=
  if legacy_order_is_ambiguous
  then st_mod (set_g_legacy_upgrade_status FS_LEGACY_UPGRADE_AVAILABLE)
  else st_ret tt.

Definition load_slots (h0 h1 : fs_disk_header) (valid0 valid1 : bool)
    (saw_nonblank_invalid_header saw_io_error legacy_amb protected_amb : bool)
    : M fs_disk_load_result :=
  let swap := second_first valid0 valid1 h0 h1 in
  let '(first, second) := if swap then (1, 0) else (0, 1) in
  let '(hf, hs) := if swap then (h1, h0) else (h0, h1) in
  let '(vf, vs) := if swap then (valid1, valid0) else (valid0, valid1) in
  let! r1 := try_slot vf first hf in
  if (match r1 with Some FS_SLOT_LOADED => true | _ => false end) then
    do! offer_upgrade legacy_amb in
    st_ret (fs_loaded_result saw_io_error
              (saw_nonblank_invalid_header || (legacy_amb || protected_amb)))
  else
    let saw_corrupt_slot := slot_failed_corrupt r1 in
    let saw_io_error := saw_io_error || slot_failed_io r1 in
    let! r2 := try_slot vs second hs in
    if (match r2 with Some FS_SLOT_LOADED => true | _ => false end) then
      do! log (cs "FS: recovered previous committed slot") in
      do! offer_upgrade legacy_amb in
      st_ret (fs_loaded_result saw_io_error
                (saw_corrupt_slot || saw_nonblank_invalid_header ||
                 (legacy_amb || protected_amb)))
    else
      let saw_corrupt_slot := saw_corrupt_slot || slot_failed_corrupt r2 in
      let saw_io_error := saw_io_error || slot_failed_io r2 in
      if saw_io_error then st_ret FS_DISK_IO_ERROR
      else if saw_corrupt_slot || saw_nonblank_invalid_header then st_ret FS_DISK_CORRUPT
      else load_blank_check.

Definition fs_load_from_disk : M fs_disk_load_result :=
  do! st_mod (set_g_legacy_upgrade_status FS_LEGACY_UPGRADE_UNAVAILABLE) in
  let! init_result := on_dev bd_init in
  if bool_decide (init_result = ATA_INIT_NO_DEVICE) then st_ret FS_DISK_NO_DRIVE
  else if negb (bool_decide (init_result = ATA_INIT_READY)) then st_ret FS_DISK_IO_ERROR
  else
    do! st_mod (set_g_active_slot FS_SLOT_COUNT) in
    do! st_mod (set_g_active_generation 0) in
    do! st_mod (set_g_loaded_version 0) in
    let! s0 := scan_header 0 in
    let! s1 := scan_header 1 in
    let '(h0, valid0, bad0, io0) := s0 in
    let '(h1, valid1, bad1, io1) := s1 in
    let saw_nonblank_invalid_header := bad0 || bad1 in
    let saw_io_error := io0 || io1 in
    let both_legacy := valid0 && valid1 &&
      (version h0 <? FS_INTEGRITY_DISK_VERSION) && (version h1 <? FS_INTEGRITY_DISK_VERSION) in
    let both_integrity_protected := valid0 && valid1 &&
      (FS_INTEGRITY_DISK_VERSION <=? version h0) && (FS_INTEGRITY_DISK_VERSION <=? version h1) in
    let first_generation := if valid0 then fs_header_generation h0 else 0 in
    let second_generation := if valid1 then fs_header_generation h1 else 0 in
    let! cmp :=
      (if both_legacy || (both_integrity_protected && (first_generation =? second_generation))
       then let! c := fs_compare_slot_tables 0 1 in st_ret (Some c)
       else st_ret None) in
    let saw_io_error := saw_io_error ||
      (match cmp with Some FS_COMPARE_IO_ERROR => true | _ => false end) in
    let different := match cmp with Some FS_COMPARE_DIFFERENT => true | _ => false end in
    let legacy_amb := different && both_legacy in
    let equal_gen_amb := different && negb both_legacy in
    do! (if legacy_amb
         then log (cs "FS: legacy snapshots differ; generation order is untrusted")
         else if equal_gen_amb
         then log (cs "FS: equal integrity-protected generations differ")
         else st_ret tt) in
    let half_amb := both_integrity_protected &&
      (u32 (first_generation - second_generation) =? 0x80000000) in
    do! (if half_amb then log (cs "FS: integrity-protected generation order is ambiguous")
         else st_ret tt) in
    load_slots h0 h1 valid0 valid1 saw_nonblank_invalid_header saw_io_error
      legacy_amb (equal_gen_amb || half_amb).

(** ** Committing a mutation *)

Definition fs_commit_changes : M bool :=
  let! files := st_get FILES in
  do! st_mod (set_g_disk_table (fs_serialize files).2) in
  if negb (fs_serialize files).1 then st_ret false
  else
    let! status := st_get g_backend_status in
    if negb (bool_decide (status = FS_BACKEND_PERSISTENT)) then st_ret true
    else
      let! result := fs_sync_to_disk in
      if bool_decide (result = FS_SYNC_COMMITTED) then st_ret true
      else
        do! st_mod (set_g_backend_status FS_BACKEND_VOLATILE_IO_ERROR) in
        if bool_decide (result = FS_SYNC_UNCERTAIN) then
          do! log (cs "FS: commit outcome uncertain; mutation retained on a volatile volume") in
          st_ret true
        else
          do! log (cs "FS: persistence failed; continuing on a volatile volume") in
          st_ret false.
End Store.

(** ** What the disk functions leave alone

    [keeps s s']: the files, the rollback copy, the self-test flag and the
    virtual log of [s'] are those of [s].  [frame m]: running [m] keeps them,
    on every device. *)

Definition keeps {D} (s s' : fs_state D) : Prop :=
  FILES s' = FILES s /\ g_mutation_backup s' = g_mutation_backup s /\
  g_self_test_active s' = g_self_test_active s /\
  g_virtual_system_log s' = g_virtual_system_log s /\
  g_system_log_is_virtual s' = g_system_log_is_virtual s.

#[export] Instance keeps_preorder {D} : PreOrder (@keeps D).
Proof.
  split; [done|]. intros a b c (?&?&?&?&?) (?&?&?&?&?). unfold keeps.
  split_and!; congruence.
Qed.

Definition frame {D A} (m : ST (fs_state D) A) : Prop := forall s, keeps s (m s).2.

Section Frame.
Context {D : Type} `{BlockDevice D}.
Abbreviation M := (ST (fs_state D)).

Lemma frame_ret {A} (a : A) : frame (D := D) (st_ret a).
Proof. done. Qed.

Lemma frame_get {A} (f : fs_state D -> A) : frame (st_get f).
Proof. done. Qed.

Lemma frame_bind {A B} (m : M A) (k : A -> M B) :
  frame m -> (forall a, frame (k a)) -> frame (st_bind m k).
Proof.
  intros Hm Hk s. specialize (Hm s). unfold st_bind. destruct (m s) as [a s1]; simpl in *.
  transitivity s1; [done | apply Hk].
Qed.

Lemma frame_if {A} (b : bool) (m1 m2 : M A) : frame m1 -> frame m2 -> frame (if b then m1 else m2).
Proof. by destruct b. Qed.

Lemma frame_on_dev {A} (m : ST D A) : frame (on_dev m).
Proof. intros s. unfold on_dev. by destruct (m (dev s)). Qed.

Lemma frame_log msg : frame (D := D) (log msg).
Proof. done. Qed.

Lemma frame_table t : frame (D := D) (st_mod (set_g_disk_table t)).
Proof. done. Qed.
Lemma frame_slot x : frame (D := D) (st_mod (set_g_active_slot x)).
Proof. done. Qed.
Lemma frame_generation x : frame (D := D) (st_mod (set_g_active_generation x)).
Proof. done. Qed.
Lemma frame_version x : frame (D := D) (st_mod (set_g_loaded_version x)).
Proof. done. Qed.
Lemma frame_backend x : frame (D := D) (st_mod (set_g_backend_status x)).
Proof. done. Qed.

Ltac frame_step :=
  lazymatch goal with
  | |- frame (st_bind _ _) => apply frame_bind; [|intro]
  | |- frame (if _ then _ else _) => apply frame_if
  | |- frame (st_ret _) => apply frame_ret
  | |- frame (st_get _) => apply frame_get
  | |- frame (on_dev _) => apply frame_on_dev
  | |- frame (log _) => apply frame_log
  | |- frame (st_mod (set_g_disk_table _)) => apply frame_table
  | |- frame (st_mod (set_g_active_slot _)) => apply frame_slot
  | |- frame (st_mod (set_g_active_generation _)) => apply frame_generation
  | |- frame (st_mod (set_g_loaded_version _)) => apply frame_version
  | |- frame (st_mod (set_g_backend_status _)) => apply frame_backend
  | |- frame (match ?x with _ => _ end) => destruct x
  end.

Lemma frame_reconcile_table lba : frame (D := D) (fs_reconcile_table lba).
Proof.
  unfold fs_reconcile_table. generalize (Z.to_nat FS_DISK_TABLE_SECTORS) O.
  induction n as [|n IH]; intros i; cbn [reconcile_sectors]; repeat frame_step; apply IH.
Qed.

Lemma frame_reconcile_slot lba h : frame (D := D) (fs_reconcile_slot lba h).
Proof. unfold fs_reconcile_slot. repeat frame_step. apply frame_reconcile_table. Qed.

Lemma frame_sync_header v a b c : frame (D := D) (sync_header v a b c).
Proof.
  unfold sync_header, fs_accept_commit. repeat frame_step. apply frame_reconcile_slot.
Qed.

Lemma frame_sync v : frame (D := D) (fs_sync_to_disk_verified v).
Proof.
  unfold fs_sync_to_disk_verified.
  repeat frame_step; auto using frame_reconcile_table, frame_sync_header.
Qed.

Lemma frame_commit : frame (D := D) fs_commit_changes.
Proof. unfold fs_commit_changes, fs_sync_to_disk. repeat frame_step. apply frame_sync. Qed.
End Frame.
