(* ===== verification/FsDurable.v ===== *)
(** * kernel/fs.c, part 5: commits, crashes and mounting

    Against every device that obeys [DiskLaws]: a commit leaves the slot it
    started from untouched and is visible to the next mount exactly when it
    is reported; a crash before the commit header is written loses nothing. *)

From stdpp Require Import gmap.
From S2P Require Import Prelude Syslog Ata BlockDev FsFormat FsCodec FsRoundtrip FsStore.

Open Scope st_scope.

(** ** Where the slots are *)

Definition in_table (slot l : Z) : Prop :=
  fs_slot_header_lba slot + 1 <= l < fs_slot_header_lba slot + 1 + FS_DISK_TABLE_SECTORS.

Ltac slot_lia :=
  unfold in_table, fs_slot_header_lba, FS_SLOT_SECTORS, FS_STORAGE_LBA in *;
  rewrite ?FS_DISK_TABLE_SECTORS_eq in *; lia.

(** ** What is on the disk *)

Section Disk.
Context {D : Type} `{DiskLaws D}.

Definition slot_header (d : D) (slot : Z) : fs_disk_header :=
  decode_header (sector d (fs_slot_header_lba slot)).

Definition slot_bytes (d : D) (slot : Z) : list Z :=
  sectors_at (sector d) (fs_slot_header_lba slot + 1) (Z.to_nat FS_DISK_TABLE_SECTORS).

(** The medium of [d'] is the medium of [d]. *)
Definition same_disk (d d' : D) : Prop := forall l, sector d' l = sector d l.

(** Only the device changed, and its medium did not. *)
Definition dev_only (s s' : fs_state D) : Prop :=
  s' = set_dev (dev s') s /\ same_disk (dev s) (dev s').

Lemma dev_only_refl s : dev_only s s.
Proof. split; [by destruct s | done]. Qed.

Lemma dev_only_trans s1 s2 s3 : dev_only s1 s2 -> dev_only s2 s3 -> dev_only s1 s3.
Proof.
  intros [E1 S1] [E2 S2]. split; [rewrite E2, E1; by destruct s1|].
  intros l. by rewrite S2, S1.
Qed.

Lemma dev_only_set d s : same_disk (dev s) d -> dev_only s (set_dev d s).
Proof. intros Hd. split; [by destruct s | by destruct s]. Qed.

#[export] Instance dev_only_preorder : PreOrder dev_only.
Proof. split; [exact dev_only_refl | exact dev_only_trans]. Qed.

(** *** Rules for the primitives *)

Lemma wp_log msg (Q : unit -> fs_state D -> Prop) s :
  (forall s', dev_only s s' -> Q tt s') -> wp (log msg) Q s.
Proof. intros HQ. apply wp_mod, HQ, dev_only_set. intros l. apply log_sector. Qed.

Lemma wp_on_init (Q : ata_init_result_t -> fs_state D -> Prop) s :
  (forall r s', r = (bd_init (dev s)).1 -> dev_only s s' -> dev s' = (bd_init (dev s)).2 -> Q r s') ->
  wp (on_dev bd_init) Q s.
Proof.
  intros HQ. unfold wp, on_dev. pose proof (init_sector (dev s)) as Hs.
  destruct (bd_init (dev s)) as [r d] eqn:E; simpl in *.
  apply HQ; [done | by apply dev_only_set | by destruct s].
Qed.

Lemma wp_on_read lba count buf (Q : bool * list Z -> fs_state D -> Prop) s :
  length buf = Z.to_nat (count * 512) ->
  (forall r s', r.1 = (bd_read lba count buf (dev s)).1.1 ->
     dev_only s s' -> dev s' = (bd_read lba count buf (dev s)).2 ->
     (r.1 = true -> r.2 = sectors_at (sector (dev s)) lba (Z.to_nat count)) -> Q r s') ->
  wp (on_dev (bd_read lba count buf)) Q s.
Proof.
  intros Hlen HQ. unfold wp, on_dev. pose proof (read_sector (dev s) lba count buf) as Hs.
  pose proof (read_data (dev s) lba count buf Hlen) as Hd.
  destruct (bd_read lba count buf (dev s)) as [r d] eqn:E; simpl in *.
  apply HQ; [done | by apply dev_only_set | by destruct s | done].
Qed.

(** A write: outside the range the medium is the old one. *)
Lemma wp_on_write lba count buf (Q : ata_write_result_t -> fs_state D -> Prop) s :
  0 <= count -> length buf = Z.to_nat (count * 512) -> bytes_ok buf ->
  (forall r s', s' = set_dev (dev s') s ->
     (forall l, ~ (lba <= l < lba + count) -> sector (dev s') l = sector (dev s) l) ->
     (r = ATA_WRITE_FAILED -> same_disk (dev s) (dev s')) ->
     (r = ATA_WRITE_COMPLETE -> sectors_at (sector (dev s')) lba (Z.to_nat count) = buf) ->
     Q r s') ->
  wp (on_dev (bd_write lba count buf)) Q s.
Proof.
  intros Hc Hlen Hb HQ. unfold wp, on_dev.
  pose proof (write_outside (dev s) lba count buf) as Ho.
  pose proof (write_failed (dev s) lba count buf) as Hf.
  pose proof (write_complete (dev s) lba count buf Hc Hlen Hb) as Hk.
  destruct (bd_write lba count buf (dev s)) as [r d] eqn:E; simpl in *.
  apply HQ; [by destruct s | by destruct s | | by destruct s].
  intros Hr l. destruct s; simpl in *. by apply Hf.
Qed.

(** A one-sector write leaves the old or the new sector. *)
Lemma wp_on_write_one lba buf (Q : ata_write_result_t -> fs_state D -> Prop) s :
  length buf = 512%nat -> bytes_ok buf ->
  (forall r s', s' = set_dev (dev s') s ->
     (forall l, l <> lba -> sector (dev s') l = sector (dev s) l) ->
     (sector (dev s') lba = sector (dev s) lba \/ sector (dev s') lba = buf) ->
     (r = ATA_WRITE_FAILED -> same_disk (dev s) (dev s')) ->
     (r = ATA_WRITE_COMPLETE -> sector (dev s') lba = buf) ->
     Q r s') ->
  wp (on_dev (bd_write lba 1 buf)) Q s.
Proof.
  intros Hlen Hb HQ. unfold wp, on_dev.
  pose proof (write_outside (dev s) lba 1 buf) as Ho.
  pose proof (write_failed (dev s) lba 1 buf) as Hf.
  pose proof (write_complete (dev s) lba 1 buf ltac:(lia) Hlen Hb) as Hk.
  pose proof (write_atomic (dev s) lba buf Hlen Hb) as Ha.
  change (Z.to_nat 1) with 1%nat in Hk. cbn [sectors_at] in Hk. rewrite app_nil_r in Hk.
  destruct (bd_write lba 1 buf (dev s)) as [r d] eqn:E; destruct s; simpl in *.
  apply HQ; try done; [intros l Hl; apply Ho; lia|]. intros Hr l. by apply Hf.
Qed.

Lemma fs_bytes_equal_eq a b : fs_bytes_equal a b = true <-> a = b.
Proof.
  revert b. induction a as [|x a IH]; intros [|y b]; simpl; try done.
  destruct (Z.eqb_spec x y) as [->|Hne].
  - rewrite IH. split; [by intros -> | by intros [= ->]].
  - split; [done | by intros [= -> _]].
Qed.

Lemma wp_reconcile_sectors n i lba t s (Q : fs_reconcile_result -> fs_state D -> Prop) :
  g_disk_table s = t ->
  (forall r s', dev_only s s' ->
     (r = FS_RECONCILE_MATCH -> forall j, (i <= j < i + n)%nat ->
        sector (dev s) (lba + 1 + Z.of_nat j) = slice (encode_table t) (j * 512) 512) ->
     Q r s') ->
  wp (reconcile_sectors n i lba) Q s.
Proof.
  revert i s Q. induction n as [|n IH]; intros i s Q Ht HQ; cbn [reconcile_sectors].
  { apply wp_ret, HQ; [reflexivity|]. intros _ j Hj. lia. }
  apply wp_bind, wp_on_read; [done|]. intros r s1 _ H1 _ Hr.
  apply wp_if; intros Hok; [by apply wp_ret, HQ|]. apply negb_false_iff in Hok.
  apply wp_bind, wp_get. apply wp_if; intros Heq; [by apply wp_ret, HQ|].
  apply negb_false_iff, fs_bytes_equal_eq in Heq.
  assert (Ht1 : g_disk_table s1 = t) by (destruct H1 as [-> _]; done).
  rewrite Hr, Ht1 in Heq by done. apply IH; [done|].
  intros r' s2 H2 Hall. apply HQ; [by transitivity s1|].
  intros Hm j Hj. destruct (decide (j = i)) as [->|Hne].
  - rewrite <- Heq. change (Z.to_nat 1) with 1%nat. cbn [sectors_at]. by rewrite app_nil_r.
  - destruct H1 as [_ Hsame]. rewrite <- Hsame. apply Hall; [done|lia].
Qed.

(** Sector-wise equality gives the whole run. *)
Lemma sectors_at_table (sec : Z -> list Z) lba t n :
  table_wf t -> n = Z.to_nat FS_DISK_TABLE_SECTORS ->
  (forall j, (j < n)%nat -> sec (lba + Z.of_nat j) = slice (encode_table t) (j * 512) 512) ->
  sectors_at sec lba n = encode_table t.
Proof.
  intros Hwf Hn Hall. pose proof (length_encode_table t Hwf) as Hlen.
  assert (Hgen : forall k, (k <= n)%nat ->
    sectors_at sec (lba + Z.of_nat (n - k)) k = drop ((n - k) * 512) (encode_table t)).
  { induction k as [|k IH]; intros Hk.
    { simpl. symmetry. apply drop_ge. rewrite Hlen. fs_consts. lia. }
    cbn [sectors_at]. rewrite Hall by lia.
    replace (lba + Z.of_nat (n - S k) + 1) with (lba + Z.of_nat (n - k)) by lia.
    rewrite IH by lia. unfold slice.
    replace ((n - k) * 512)%nat with ((n - S k) * 512 + 512)%nat by lia.
    rewrite <- drop_drop. apply take_drop. }
  specialize (Hgen n ltac:(lia)). rewrite Nat.sub_diag in Hgen. simpl in Hgen.
  by rewrite Z.add_0_r, drop_0 in Hgen.
Qed.

(** *** The commit header *)

Lemma commit_header_wf t g : u32_ok g -> header_wf (commit_header t g).
Proof.
  intros Hg. unfold commit_header, header_wf; fs_proj. pose proof (fs_checksum_u32 (encode_table t)).
  assert (forall h, u32_ok (fs_header_checksum h)) by (intros; apply fs_checksum_u32).
  unfold FS_MAGIC_VAL, FS_DISK_VERSION. fs_consts. split_and!; auto with nos; unfold u32_ok; lia.
Qed.

(** The header checksum does not depend on the field that stores it. *)
Lemma fs_header_checksum_field m v n c g k k' r :
  fs_header_checksum (FsDiskHeader m v n c g k r) = fs_header_checksum (FsDiskHeader m v n c g k' r).
Proof.
  unfold fs_header_checksum, encode_header; fs_proj.
  set (p := le_bytes 4 m ++ le_bytes 4 v ++ le_bytes 4 n ++ le_bytes 4 c ++ le_bytes 4 g).
  assert (Hl : length p = 20%nat) by (subst p; rewrite !length_app, !length_le_bytes; lia).
  assert (Hp : forall x, le_bytes 4 m ++ le_bytes 4 v ++ le_bytes 4 n ++ le_bytes 4 c ++
      le_bytes 4 g ++ le_bytes 4 x ++ r = p ++ le_bytes 4 x ++ r).
  { intros. unfold p. by rewrite <- !app_assoc. }
  rewrite !Hp. unfold memcpy_at. rewrite !take_app_length' by done.
  by rewrite !(drop_app_ge p), Hl, !length_app, !length_le_bytes by (rewrite Hl; simpl; lia).
Qed.

Lemma commit_header_checksum t g :
  header_checksum (commit_header t g) = fs_header_checksum (commit_header t g).
Proof.
  unfold commit_header; fs_proj. generalize (fs_checksum (encode_table t)) (zeros 488).
  intros c r. apply fs_header_checksum_field.
Qed.

Lemma commit_header_valid t g : fs_header_is_valid (commit_header t g) = true.
Proof.
  unfold fs_header_is_valid. rewrite <- commit_header_checksum.
  unfold commit_header; fs_proj. by rewrite !Z.eqb_refl.
Qed.

(** ** Snapshots on the medium *)

(** Slot [slot] holds a complete snapshot of [files] under generation [g]. *)
Definition committed (d : D) (slot g : Z) (files : list (list Z * list Z)) : Prop :=
  let h := slot_header d slot in
  fs_header_is_valid h = true /\ version h = FS_DISK_VERSION /\ generation h = g /\
  exists t, table_wf t /\ slot_bytes d slot = encode_table t /\
    checksum h = fs_checksum (encode_table t) /\
    forall slots, length slots = FS_MAX_FILES -> Forall slot_wf slots ->
      exists F, fs_deserialize_current t slots = Some F /\ files_wf F /\ live F = files.

(** Slot [slot] cannot win against generation [g]: its header is not valid,
    is of a version without integrity protection, or is older. *)
Definition stale (d : D) (slot g : Z) : Prop :=
  let h := slot_header d slot in
  fs_header_is_valid h = true -> FS_INTEGRITY_DISK_VERSION <= version h ->
  fs_generation_is_newer g (generation h) = true.

(** The newest snapshot of the medium is [files], in [slot]. *)
Definition current (d : D) (slot g : Z) (files : list (list Z * list Z)) : Prop :=
  (slot = 0 \/ slot = 1) /\ committed d slot g files /\ stale d (1 - slot) g.

(** Overwriting the table of the other slot loses nothing. *)
Lemma current_keep d d' a g files :
  current d a g files -> (forall l, ~ in_table (1 - a) l -> sector d' l = sector d l) ->
  current d' a g files.
Proof.
  intros (Ha & Hc & Hs) Hout. unfold current, committed, stale, slot_header, slot_bytes in *.
  rewrite !Hout by (destruct Ha; subst a; slot_lia).
  rewrite (sectors_at_ext (sector d') (sector d)); [done|].
  intros l Hl. apply Hout. destruct Ha; subst a; slot_lia.
Qed.

Lemma next_is_newer g : fs_generation_is_newer (u32 (g + 1)) g = true.
Proof.
  unfold fs_generation_is_newer. rewrite !u32_mod, Zminus_mod_idemp_l.
  by replace (g + 1 - g) with 1 by lia.
Qed.

(** A table and its commit header in place make a snapshot. *)
Lemma committed_intro d b g F t :
  u32_ok g -> files_wf F -> fs_serialize F = (true, t) ->
  slot_bytes d b = encode_table t ->
  sector d (fs_slot_header_lba b) = encode_header (commit_header t g) ->
  committed d b g (live F).
Proof.
  intros Hg Hwf Hser Htab Hhdr.
  assert (Hh : slot_header d b = commit_header t g).
  { unfold slot_header. rewrite Hhdr. by apply decode_encode_header, commit_header_wf. }
  unfold committed. rewrite Hh.
  split; [apply commit_header_valid|]. split; [done|]. split; [done|].
  exists t. split; [by eapply serialized_table_wf|]. split; [done|]. split; [done|].
  intros slots Hl Hs. destruct (deserialize_serialized F slots t) as (F' & ? & ? & ?); eauto.
Qed.

Lemma current_commit d a g files F t :
  (a = 0 \/ a = 1) -> committed d a g files -> files_wf F -> fs_serialize F = (true, t) ->
  slot_bytes d (1 - a) = encode_table t ->
  sector d (fs_slot_header_lba (1 - a)) = encode_header (commit_header t (u32 (g + 1))) ->
  current d (1 - a) (u32 (g + 1)) (live F).
Proof.
  intros Ha (Hv & Hver & Hg & _) Hwf Hser Htab Hhdr.
  unfold current. split; [lia|]. replace (1 - (1 - a)) with a by lia. split.
  - eapply committed_intro; eauto using u32_range.
  - unfold stale. rewrite Hg. intros. apply next_is_newer.
Qed.

(** ** Commit *)

Definition same_active (s s' : fs_state D) : Prop :=
  g_active_slot s' = g_active_slot s /\ g_active_generation s' = g_active_generation s /\
  g_loaded_version s' = g_loaded_version s.

Lemma dev_only_active s s' : dev_only s s' -> same_active s s'.
Proof. by intros [-> _]. Qed.

Lemma dev_only_table s s' : dev_only s s' -> g_disk_table s' = g_disk_table s.
Proof. by intros [-> _]. Qed.

Lemma dev_only_disk s s' : dev_only s s' -> same_disk (dev s) (dev s').
Proof. by intros [_ ?]. Qed.

Lemma wp_reconcile_slot lba h t s (Q : fs_reconcile_result -> fs_state D -> Prop) :
  g_disk_table s = t ->
  (forall r s', dev_only s s' ->
     (r = FS_RECONCILE_MATCH -> sector (dev s) lba = encode_header h) -> Q r s') ->
  wp (fs_reconcile_slot lba h) Q s.
Proof.
  intros Ht HQ. unfold fs_reconcile_slot.
  apply wp_bind, wp_on_read; [done|]. intros r s1 _ H1 _ Hr.
  apply wp_if; intros Hok; [by apply wp_ret, HQ|]. apply negb_false_iff in Hok.
  apply wp_if; intros Heq; [by apply wp_ret, HQ|].
  apply negb_false_iff, fs_bytes_equal_eq in Heq. rewrite Hr in Heq by done.
  change (Z.to_nat 1) with 1%nat in Heq. cbn [sectors_at] in Heq. rewrite app_nil_r in Heq.
  eapply wp_reconcile_sectors; [done|]. intros r' s2 H2 _.
  apply HQ; [by transitivity s1 | done].
Qed.

(** The header half of a commit: only the header sector may change, to the
    new header; [COMMITTED] means it did. *)
Definition header_post (slot g : Z) (t : fs_disk_table) (s : fs_state D)
    (r : fs_sync_result) (s' : fs_state D) : Prop :=
  let lba := fs_slot_header_lba slot in
  let new := encode_header (commit_header t g) in
  (forall l, l <> lba -> sector (dev s') l = sector (dev s) l) /\
  (sector (dev s') lba = sector (dev s) lba \/ sector (dev s') lba = new) /\
  match r with
  | FS_SYNC_COMMITTED =>
      sector (dev s') lba = new /\ g_active_slot s' = slot /\ g_active_generation s' = g /\
      g_loaded_version s' = FS_DISK_VERSION
  | _ => same_active s s'
  end.

Lemma header_post_dev slot g t s s1 s2 r :
  dev_only s1 s2 -> same_active s s1 ->
  (forall l, l <> fs_slot_header_lba slot -> sector (dev s1) l = sector (dev s) l) ->
  (sector (dev s1) (fs_slot_header_lba slot) = sector (dev s) (fs_slot_header_lba slot) \/
   sector (dev s1) (fs_slot_header_lba slot) = encode_header (commit_header t g)) ->
  r <> FS_SYNC_COMMITTED -> header_post slot g t s r s2.
Proof.
  intros H12 Ha Hout Hsec Hr. pose proof (dev_only_disk _ _ H12) as Hd.
  pose proof (dev_only_active _ _ H12) as (?&?&?). destruct Ha as (?&?&?).
  unfold header_post. split; [intros l Hl; rewrite Hd; auto|].
  split; [by rewrite !Hd|]. destruct r; [done|..]; unfold same_active; split_and!; congruence.
Qed.

Lemma header_post_accept slot g t s s1 :
  (forall l, l <> fs_slot_header_lba slot -> sector (dev s1) l = sector (dev s) l) ->
  sector (dev s1) (fs_slot_header_lba slot) = encode_header (commit_header t g) ->
  wp (do! fs_accept_commit slot g in st_ret FS_SYNC_COMMITTED) (header_post slot g t s) s1.
Proof.
  intros Hout Hnew. unfold fs_accept_commit. wp_steps. unfold header_post. destruct s1; simpl in *.
  split_and!; auto.
Qed.

Lemma wp_sync_header v slot g t s :
  g_disk_table s = t -> u32_ok g ->
  wp (sync_header v slot (fs_slot_header_lba slot) g) (header_post slot g t s) s.
Proof.
  intros Ht Hg. pose proof (commit_header_wf t g Hg) as Hhw. unfold sync_header.
  apply wp_bind, wp_get. rewrite Ht.
  apply wp_bind, wp_on_write_one; [by apply length_encode_header | by apply encode_header_bytes_ok |].
  intros r s1 Hs1 Hout Hsec Hfail Hcomp.
  assert (Hact : same_active s s1) by (rewrite Hs1; done).
  assert (Ht1 : g_disk_table s1 = t) by (rewrite Hs1; done).
  apply wp_if; intros Hb; [apply bool_decide_eq_true in Hb|apply bool_decide_eq_false in Hb].
  { apply wp_bind, wp_log. intros s2 H2. apply wp_ret. by eapply header_post_dev. }
  apply wp_if; intros Hv.
  2: { apply orb_false_iff in Hv as [Hu _]. apply bool_decide_eq_false in Hu.
       apply header_post_accept; [done|]. apply Hcomp. by destruct r. }
  apply wp_bind. apply wp_reconcile_slot with t; [done|]. intros r2 s2 H2 Hm.
  assert (Hact2 : same_active s s2).
  { pose proof (dev_only_active _ _ H2) as (?&?&?). destruct Hact as (?&?&?).
    split_and!; congruence. }
  destruct r2.
  - specialize (Hm eq_refl). pose proof (dev_only_disk _ _ H2) as Hd2.
    apply wp_bind, wp_if; intros _; [apply wp_log|apply wp_ret].
    + intros s3 H3. pose proof (dev_only_disk _ _ H3) as Hd3.
      apply header_post_accept; [intros l Hl|]; rewrite Hd3, Hd2; auto.
    + apply header_post_accept; [intros l Hl|]; rewrite Hd2; auto.
  - apply wp_bind, wp_log. intros s3 H3. apply wp_ret.
    eapply header_post_dev; [|exact Hact|..]; eauto. by transitivity s2.
  - apply wp_bind, wp_log. intros s3 H3. apply wp_ret.
    eapply header_post_dev; [|exact Hact|..]; eauto. by transitivity s2.
Qed.

Lemma other_slot a : a = 0 \/ a = 1 -> u8 (Z.lxor a 1) = 1 - a /\ (a <? FS_SLOT_COUNT) = true.
Proof. by intros [-> | ->]. Qed.

(** What a commit from slot [a], generation [g], may leave behind. *)
Definition sync_post (a g : Z) (old : list (list Z * list Z)) (s : fs_state D)
    (r : fs_sync_result) (s' : fs_state D) : Prop :=
  let g' := u32 (g + 1) in
  (current (dev s') a g old \/ current (dev s') (1 - a) g' (live (FILES s))) /\
  match r with
  | FS_SYNC_COMMITTED =>
      current (dev s') (1 - a) g' (live (FILES s)) /\ g_active_slot s' = 1 - a /\
      g_active_generation s' = g' /\ g_loaded_version s' = FS_DISK_VERSION
  | _ => same_active s s'
  end.

Lemma sync_post_dev a g old s s1 s2 r :
  dev_only s1 s2 -> same_active s s1 -> current (dev s1) a g old -> r <> FS_SYNC_COMMITTED ->
  sync_post a g old s r s2.
Proof.
  intros H12 Ha Hc Hr. pose proof (dev_only_disk _ _ H12) as Hd.
  pose proof (dev_only_active _ _ H12) as (?&?&?). destruct Ha as (?&?&?).
  split; [left; by eapply current_keep|].
  destruct r; [done|..]; unfold same_active; split_and!; congruence.
Qed.

(** Once the whole table is in place, the header decides. *)
Lemma sync_post_header a g old s s1 t r s' :
  (a = 0 \/ a = 1) -> files_wf (FILES s) -> fs_serialize (FILES s) = (true, t) ->
  same_active s s1 -> current (dev s1) a g old -> slot_bytes (dev s1) (1 - a) = encode_table t ->
  header_post (1 - a) (u32 (g + 1)) t s1 r s' -> sync_post a g old s r s'.
Proof.
  intros Ha Hwf Hser Hact Hcur Htab (Hout & Hsec & Hr).
  assert (Hnew : sector (dev s') (fs_slot_header_lba (1 - a)) =
                   encode_header (commit_header t (u32 (g + 1))) ->
                 current (dev s') (1 - a) (u32 (g + 1)) (live (FILES s))).
  { intros Hn. eapply current_commit with (files := old); eauto.
    - destruct Hcur as (_ & Hc & _). unfold committed, slot_header, slot_bytes in *.
      rewrite Hout by slot_lia. rewrite (sectors_at_ext (sector (dev s')) (sector (dev s1))); [done|].
      intros l Hl. apply Hout. destruct Ha; subst a; slot_lia.
    - unfold slot_bytes in *. rewrite <- Htab. apply sectors_at_ext.
      intros l Hl. apply Hout. slot_lia. }
  split.
  - destruct Hsec as [Hsame|Hn]; [left|right; auto].
    eapply current_keep; [exact Hcur|]. intros l Hl.
    destruct (decide (l = fs_slot_header_lba (1 - a))) as [->|]; auto.
  - destruct r; [destruct Hr as (? & ? & ? & ?); split_and!; auto|..];
      destruct Hact as (?&?&?); destruct Hr as (?&?&?); unfold same_active; split_and!; congruence.
Qed.

Lemma wp_sync v s a g old :
  files_wf (FILES s) -> g_active_slot s = a -> g_active_generation s = g ->
  current (dev s) a g old ->
  wp (fs_sync_to_disk_verified v) (sync_post a g old s) s.
Proof.
  intros Hwf Ha Hg Hcur. pose proof Hcur as (H01 & _). destruct (other_slot a H01) as [Ht Hlt].
  unfold fs_sync_to_disk_verified. apply wp_bind, wp_on_init. intros r s1 _ H1 _.
  assert (Hcur1 : current (dev s1) a g old)
    by (eapply current_keep; [exact Hcur | intros; by apply dev_only_disk]).
  assert (Hact1 : same_active s s1) by (by apply dev_only_active).
  assert (HF1 : FILES s1 = FILES s) by (by destruct H1 as [-> _]).
  apply wp_if; intros _.
  { apply wp_bind, wp_log. intros s2 H2. apply wp_ret. by eapply sync_post_dev. }
  apply wp_bind, wp_get, wp_bind, wp_get, wp_bind, wp_get, wp_bind, wp_mod.
  destruct Hact1 as (E1 & E2 & E3). rewrite E1, E2, Ha, Hg, Hlt, Ht, HF1.
  destruct (fs_serialize (FILES s)) as [ok t] eqn:Hser; cbn [fst snd].
  set (s2 := set_g_disk_table t s1).
  assert (Hact2 : same_active s s2) by (unfold same_active; by rewrite <- E1, <- E2, <- E3).
  destruct ok; cbn [negb]; cbv iota.
  2: { apply wp_bind, wp_log. intros s3 H3. apply wp_ret. by eapply sync_post_dev. }
  apply wp_bind, wp_get. change (g_disk_table s2) with t.
  pose proof (serialized_table_wf _ _ Hwf Hser) as Htw.
  apply wp_bind, wp_on_write; [done | by apply length_encode_table | by apply encode_table_bytes_ok |].
  intros tw s3 Hs3 Hout Hfail Hcomp.
  assert (Hact3 : same_active s s3) by (rewrite Hs3; exact Hact2).
  assert (Ht3 : g_disk_table s3 = t) by (by rewrite Hs3).
  assert (Hcur3 : current (dev s3) a g old).
  { eapply current_keep; [exact Hcur1|]. intros l Hl. by apply Hout. }
  apply wp_if; intros Hb; [|apply bool_decide_eq_false in Hb].
  { apply wp_bind, wp_log. intros s4 H4. apply wp_ret. by eapply sync_post_dev. }
  assert (Hcommit : forall s4, dev_only s3 s4 -> slot_bytes (dev s3) (1 - a) = encode_table t ->
    wp (sync_header v (1 - a) (fs_slot_header_lba (1 - a)) (u32 (g + 1))) (sync_post a g old s) s4).
  { intros s4 H4 Htab. pose proof (dev_only_disk _ _ H4) as Hd.
    eapply wp_mono; [eapply wp_sync_header with (t := t); [|apply u32_range]|].
    { by rewrite (dev_only_table _ _ H4). }
    intros r' s' Hp. apply sync_post_header with s4 t; auto.
    - destruct (dev_only_active _ _ H4) as (?&?&?), Hact3 as (?&?&?).
      unfold same_active. split_and!; congruence.
    - eapply current_keep; [exact Hcur3|]. intros; apply Hd.
    - rewrite <- Htab. apply sectors_at_ext. intros; apply Hd. }
  apply wp_if; intros Hv.
  2: { apply orb_false_iff in Hv as [Hu _]. apply bool_decide_eq_false in Hu.
       apply Hcommit; [reflexivity|]. apply Hcomp. by destruct tw. }
  apply wp_bind, wp_reconcile_sectors with t; [done|]. intros r4 s4 H4 Hm. destruct r4.
  - assert (Htab : slot_bytes (dev s3) (1 - a) = encode_table t).
    { apply sectors_at_table; [done|done|]. intros j Hj. apply Hm; [done|lia]. }
    apply wp_bind, wp_if; intros _; [apply wp_log; intros s5 H5 | apply wp_ret];
      apply Hcommit; auto. by transitivity s4.
  - apply wp_bind, wp_log. intros s5 H5. apply wp_ret.
    eapply sync_post_dev; [|exact Hact3|exact Hcur3|done]. by transitivity s4.
  - apply wp_bind, wp_log. intros s5 H5. apply wp_ret.
    eapply sync_post_dev; [|exact Hact3|exact Hcur3|done]. by transitivity s4.
Qed.

(** ** Mounting on a device that answers *)

Lemma wp_read_reliable lba count buf (Q : bool * list Z -> fs_state D -> Prop) s :
  reliable (dev s) -> length buf = Z.to_nat (count * 512) ->
  (forall s', dev_only s s' -> reliable (dev s') ->
     Q (true, sectors_at (sector (dev s)) lba (Z.to_nat count)) s') ->
  wp (on_dev (bd_read lba count buf)) Q s.
Proof.
  intros Hrel Hlen HQ. destruct (reliable_read (dev s) lba count buf Hrel) as [Hok Hrel'].
  apply wp_on_read; [done|]. intros [ok bs] s' Hr Hd Hdev Hdata. simpl in *.
  rewrite Hok in Hr. subst ok. rewrite Hdata by done. apply HQ; [done | by rewrite Hdev].
Qed.

Lemma wp_scan_header slot (Q : fs_disk_header * bool * bool * bool -> fs_state D -> Prop) s :
  reliable (dev s) ->
  (forall s', dev_only s s' -> reliable (dev s') ->
     let h := slot_header (dev s) slot in
     let valid := fs_header_is_valid h in
     Q (h, valid, negb valid && negb (fs_header_is_blank h), false) s') ->
  wp (scan_header slot) Q s.
Proof.
  intros Hrel HQ. unfold scan_header. apply wp_bind, wp_read_reliable; [done|done|].
  intros s' Hd Hr. change (Z.to_nat 1) with 1%nat. cbn [sectors_at fst snd]. rewrite app_nil_r.
  by apply wp_ret, HQ.
Qed.

Lemma wp_read_table lba (Q : bool -> fs_state D -> Prop) s :
  reliable (dev s) -> length (encode_table (g_disk_table s)) = Z.to_nat (FS_DISK_TABLE_SECTORS * 512) ->
  (forall d, same_disk (dev s) d -> reliable d ->
     Q true (set_dev d (set_g_disk_table
       (decode_table (sectors_at (sector (dev s)) lba (Z.to_nat FS_DISK_TABLE_SECTORS))) s))) ->
  wp (read_table lba) Q s.
Proof.
  intros Hrel Hlen HQ. unfold read_table. apply wp_bind, wp_get, wp_bind, wp_read_reliable; [done|done|].
  intros s' [Hs Hd] Hr. apply wp_bind, wp_mod, wp_ret. cbn [fst snd].
  rewrite Hs. by apply HQ.
Qed.

(** Loading the slot that holds a snapshot. *)
Lemma wp_load_slot slot g files h (Q : fs_slot_load_result -> fs_state D -> Prop) s :
  reliable (dev s) -> length (encode_table (g_disk_table s)) = Z.to_nat (FS_DISK_TABLE_SECTORS * 512) ->
  length (FILES s) = FS_MAX_FILES -> Forall slot_wf (FILES s) ->
  committed (dev s) slot g files -> h = slot_header (dev s) slot ->
  (forall s', same_disk (dev s) (dev s') -> reliable (dev s') ->
     files_wf (FILES s') -> live (FILES s') = files -> g_active_slot s' = slot ->
     g_active_generation s' = g -> g_loaded_version s' = FS_DISK_VERSION ->
     g_disk_table s' = decode_table (slot_bytes (dev s) slot) ->
     g_legacy_upgrade_status s' = g_legacy_upgrade_status s -> Q FS_SLOT_LOADED s') ->
  wp (fs_load_slot slot h) Q s.
Proof.
  intros Hrel Hlen HlF HF (Hv & Hver & Hg & t & Htw & Htab & Hck & Hdes) -> HQ.
  unfold fs_load_slot. apply wp_bind, wp_read_table; [done|done|]. intros d Hd Hr.
  fold (slot_bytes (dev s) slot). rewrite Htab, decode_encode_table by done. cbn [negb]. cbv iota.
  apply wp_bind, wp_get. cbn [g_disk_table set_dev set_g_disk_table].
  rewrite Hck, Z.eqb_refl. cbn [negb]. cbv iota.
  apply wp_bind, wp_get. cbn [FILES set_dev set_g_disk_table].
  rewrite Hver. change (FS_DISK_VERSION <=? FS_DISK_VERSION) with true. cbv iota.
  destruct (Hdes (FILES s) HlF HF) as (F & -> & HFw & HFl).
  wp_steps. apply HQ; try done.
  - unfold fs_header_generation. rewrite Hver, Hg. done.
  - cbn. by rewrite Htab, decode_encode_table.
Qed.

Lemma newer_facts x y :
  fs_generation_is_newer x y = true ->
  x <> y /\ u32 (x - y) <> 0x80000000 /\ u32 (y - x) <> 0x80000000 /\
  fs_generation_is_newer y x = false.
Proof.
  unfold fs_generation_is_newer. intros [Hn1 Hn2]%andb_true_iff.
  apply negb_true_iff, Z.eqb_neq in Hn1. apply Z.ltb_lt in Hn2.
  pose proof (u32_range (x - y)) as Hr. unfold u32_ok in Hr.
  assert (Hopp : u32 (y - x) = 2 ^ 32 - u32 (x - y)).
  { rewrite !u32_mod in *. replace (y - x) with (- (x - y)) by lia. apply Z.mod_opp_l_nz; [lia|exact Hn1]. }
  split. { intros ->. apply Hn1. by rewrite Z.sub_diag. }
  rewrite Hopp. split_and!; lia.
Qed.

(** With one slot current, the mount order is not ambiguous. *)
Definition order_clear (h0 h1 : fs_disk_header) : Prop :=
  let v0 := fs_header_is_valid h0 in
  let v1 := fs_header_is_valid h1 in
  let g0 := if v0 then fs_header_generation h0 else 0 in
  let g1 := if v1 then fs_header_generation h1 else 0 in
  let both_protected := v0 && v1 && (FS_INTEGRITY_DISK_VERSION <=? version h0) &&
                        (FS_INTEGRITY_DISK_VERSION <=? version h1) in
  v0 && v1 && (version h0 <? FS_INTEGRITY_DISK_VERSION) && (version h1 <? FS_INTEGRITY_DISK_VERSION)
    = false /\
  both_protected && (g0 =? g1) = false /\
  both_protected && (u32 (g0 - g1) =? 0x80000000) = false.

Lemma generation_protected h :
  FS_INTEGRITY_DISK_VERSION <= version h -> fs_header_generation h = generation h.
Proof.
  unfold fs_header_generation, FS_INTEGRITY_DISK_VERSION, FS_LEGACY_DISK_VERSION.
  intros. by destruct (Z.eqb_spec (version h) 1); [lia|].
Qed.

Lemma order_current_0 h0 h1 :
  fs_header_is_valid h0 = true -> version h0 = FS_DISK_VERSION ->
  (fs_header_is_valid h1 = true -> FS_INTEGRITY_DISK_VERSION <= version h1 ->
   fs_generation_is_newer (generation h0) (generation h1) = true) ->
  order_clear h0 h1 /\ second_first (fs_header_is_valid h0) (fs_header_is_valid h1) h0 h1 = false.
Proof.
  intros Hv Hver Hst. unfold order_clear, second_first, is_protected. rewrite Hv, Hver.
  rewrite (generation_protected h0) by (by rewrite Hver).
  destruct (fs_header_is_valid h1); [|done]. specialize (Hst eq_refl).
  destruct (Z.leb_spec FS_INTEGRITY_DISK_VERSION (version h1)) as [Hle|Hgt]; [|done].
  rewrite (generation_protected h1) by done.
  destruct (newer_facts _ _ (Hst Hle)) as (N1 & N2 & N3 & N4). rewrite N4.
  split_and!; try done; simpl; by apply Z.eqb_neq.
Qed.

Lemma order_current_1 h0 h1 :
  fs_header_is_valid h1 = true -> version h1 = FS_DISK_VERSION ->
  (fs_header_is_valid h0 = true -> FS_INTEGRITY_DISK_VERSION <= version h0 ->
   fs_generation_is_newer (generation h1) (generation h0) = true) ->
  order_clear h0 h1 /\ second_first (fs_header_is_valid h0) (fs_header_is_valid h1) h0 h1 = true.
Proof.
  intros Hv Hver Hst. unfold order_clear, second_first, is_protected. rewrite Hv, Hver.
  rewrite (generation_protected h1) by (by rewrite Hver).
  destruct (fs_header_is_valid h0); [|done]. specialize (Hst eq_refl).
  destruct (Z.leb_spec FS_INTEGRITY_DISK_VERSION (version h0)) as [Hle|Hgt].
  - rewrite (generation_protected h0) by done.
    destruct (newer_facts _ _ (Hst Hle)) as (N1 & N2 & N3 & N4). rewrite (Hst Hle).
    split_and!; simpl; rewrite ?andb_false_r; try done; apply Z.eqb_neq; auto.
  - split_and!; try done; simpl. by rewrite andb_false_r.
Qed.

(** What mounting a medium with a current snapshot delivers. *)
Definition mounted (a g : Z) (files : list (list Z * list Z)) (s : fs_state D)
    (r : fs_disk_load_result) (s' : fs_state D) : Prop :=
  let h := slot_header (dev s) (1 - a) in
  r = fs_loaded_result false (negb (fs_header_is_valid h) && negb (fs_header_is_blank h)) /\
  same_disk (dev s) (dev s') /\ reliable (dev s') /\
  files_wf (FILES s') /\ live (FILES s') = files /\
  g_active_slot s' = a /\ g_active_generation s' = g /\ g_loaded_version s' = FS_DISK_VERSION /\
  g_legacy_upgrade_status s' = FS_LEGACY_UPGRADE_UNAVAILABLE /\
  table_wf (g_disk_table s').

(** The slot attempts, once the order is settled. *)
Lemma wp_load_slots s0 s a g files :
  current (dev s0) a g files -> same_disk (dev s0) (dev s) -> reliable (dev s) ->
  length (encode_table (g_disk_table s)) = Z.to_nat (FS_DISK_TABLE_SECTORS * 512) ->
  length (FILES s) = FS_MAX_FILES -> Forall slot_wf (FILES s) ->
  g_legacy_upgrade_status s = FS_LEGACY_UPGRADE_UNAVAILABLE ->
  let h0 := slot_header (dev s0) 0 in
  let h1 := slot_header (dev s0) 1 in
  let v0 := fs_header_is_valid h0 in
  let v1 := fs_header_is_valid h1 in
  second_first v0 v1 h0 h1 = (a =? 1) ->
  wp (load_slots h0 h1 v0 v1 (negb v0 && negb (fs_header_is_blank h0) ||
                              negb v1 && negb (fs_header_is_blank h1)) false false false)
    (mounted a g files s0) s.
Proof.
  intros Hcur Hd Hrel Hlen HlF HF Hup h0 h1 v0 v1 Hsf. pose proof Hcur as (H01 & Hc & _).
  assert (Hcs : committed (dev s) a g files).
  { eapply (current_keep _ (dev s)) in Hcur as (_ & ? & _); [done|]. auto. }
  assert (Hh : forall x, slot_header (dev s0) x = slot_header (dev s) x)
    by (intros; unfold slot_header; by rewrite Hd).
  pose proof Hc as (Hv & _ & _ & t & Htw & Htab & _).
  unfold load_slots. rewrite Hsf. subst h0 h1 v0 v1. unfold try_slot.
  assert (Hpost : forall s' x, same_disk (dev s) (dev s') -> reliable (dev s') ->
     files_wf (FILES s') -> live (FILES s') = files -> g_active_slot s' = a ->
     g_active_generation s' = g -> g_loaded_version s' = FS_DISK_VERSION ->
     g_disk_table s' = decode_table (slot_bytes (dev s) a) ->
     g_legacy_upgrade_status s' = g_legacy_upgrade_status s ->
     x = negb (fs_header_is_valid (slot_header (dev s0) (1 - a))) &&
         negb (fs_header_is_blank (slot_header (dev s0) (1 - a))) ->
     mounted a g files s0 (fs_loaded_result false x) s').
  { intros s' x S1 S2 S3 S4 S5 S6 S7 S8 S9 ->. unfold mounted.
    split_and!; auto; [intros l; by rewrite S1, Hd | by rewrite S9|].
    rewrite S8. replace (slot_bytes (dev s) a) with (encode_table t);
      [by rewrite decode_encode_table|].
    rewrite <- Htab. apply sectors_at_ext. intros; by rewrite Hd. }
  destruct H01 as [-> | ->];
    [change (0 =? 1) with false | change (1 =? 1) with true]; cbv beta iota zeta; rewrite Hv; cbv iota;
    apply wp_bind, wp_bind; eapply wp_load_slot; eauto;
    intros s' S1 S2 S3 S4 S5 S6 S7 S8 S9; apply wp_ret; cbv iota;
    apply wp_bind; apply wp_ret, wp_ret; apply Hpost; auto; simpl;
    by rewrite ?orb_false_r.
Qed.

Lemma wp_load s a g files :
  reliable (dev s) -> length (encode_table (g_disk_table s)) = Z.to_nat (FS_DISK_TABLE_SECTORS * 512) ->
  length (FILES s) = FS_MAX_FILES -> Forall slot_wf (FILES s) ->
  current (dev s) a g files -> wp fs_load_from_disk (mounted a g files s) s.
Proof.
  intros Hrel Hlen HlF HF Hcur. pose proof Hcur as (H01 & (Hv & Hver & Hg & _) & Hst).
  set (h0 := slot_header (dev s) 0). set (h1 := slot_header (dev s) 1).
  assert (order_clear h0 h1 /\
    second_first (fs_header_is_valid h0) (fs_header_is_valid h1) h0 h1 = (a =? 1))
    as [(O1 & O2 & O3) Hsf].
  { destruct H01 as [-> | ->]; [apply order_current_0 | apply order_current_1]; auto;
      rewrite <- Hg in Hst; exact Hst. }
  unfold fs_load_from_disk. apply wp_bind, wp_mod, wp_bind, wp_on_init. intros r s1 Hr H1 Hd1.
  destruct (reliable_init (dev s) Hrel) as [Hi Hrel1].
  change (dev (set_g_legacy_upgrade_status FS_LEGACY_UPGRADE_UNAVAILABLE s)) with (dev s) in *.
  rewrite Hi in Hr. subst r. rewrite <- Hd1 in Hrel1. cbn [bool_decide]. cbv iota.
  apply wp_bind, wp_mod, wp_bind, wp_mod, wp_bind, wp_mod.
  set (s2 := set_g_loaded_version 0 (set_g_active_generation 0 (set_g_active_slot FS_SLOT_COUNT s1))).
  assert (E2 : same_disk (dev s) (dev s2)) by (apply (dev_only_disk _ _ H1)).
  assert (HE : forall x, slot_header (dev s2) x = slot_header (dev s) x)
    by (intros; unfold slot_header; by rewrite E2).
  apply wp_bind, wp_scan_header; [done|]. intros s3 H3 Hrel3. rewrite HE. cbv zeta.
  assert (E3 : same_disk (dev s) (dev s3)).
  { intros l. by rewrite (dev_only_disk _ _ H3), E2. }
  assert (HE3 : forall x, slot_header (dev s3) x = slot_header (dev s) x)
    by (intros; unfold slot_header; by rewrite E3).
  apply wp_bind, wp_scan_header; [done|]. intros s4 H4 Hrel4. rewrite HE3. cbv zeta.
  fold h0 h1. rewrite O1, O2. cbn [orb]. cbv iota zeta.
  apply wp_bind, wp_ret. cbn [andb orb]. apply wp_bind, wp_ret. rewrite O3.
  apply wp_bind, wp_ret.
  assert (H24 : dev_only s2 s4) by (by transitivity s3).
  assert (Hs4 : s4 = set_dev (dev s4) s2) by apply H24.
  assert (Hs1 : s1 = set_dev (dev s1) (set_g_legacy_upgrade_status FS_LEGACY_UPGRADE_UNAVAILABLE s))
    by apply H1.
  apply wp_load_slots; auto.
  - intros l. by rewrite (dev_only_disk _ _ H24), E2.
  - rewrite Hs4. unfold s2. rewrite Hs1. exact Hlen.
  - rewrite Hs4. unfold s2. rewrite Hs1. exact HlF.
  - rewrite Hs4. unfold s2. rewrite Hs1. exact HF.
  - rewrite Hs4. unfold s2. by rewrite Hs1.
Qed.

(** ** Main theorems *)

(** A commit is atomic on every device that obeys the laws, with
    any pattern of failing, partial or interrupted transfers.  Afterwards the
    newest complete snapshot of the medium is the old one in its untouched
    slot or the new one in the other slot, never a mixture; [COMMITTED] is
    returned only for the new one, and only then does the filesystem switch
    its active slot and generation. *)
Theorem fs_sync_atomic (v : bool) (s : fs_state D) (a g : Z) (old : list (list Z * list Z))
    (r : fs_sync_result) (s' : fs_state D) :
  files_wf (FILES s) -> g_active_slot s = a -> g_active_generation s = g ->
  current (dev s) a g old -> fs_sync_to_disk_verified v s = (r, s') ->
  FILES s' = FILES s /\
  (current (dev s') a g old \/ current (dev s') (1 - a) (u32 (g + 1)) (live (FILES s))) /\
  match r with
  | FS_SYNC_COMMITTED =>
      current (dev s') (1 - a) (u32 (g + 1)) (live (FILES s)) /\
      g_active_slot s' = 1 - a /\ g_active_generation s' = u32 (g + 1)
  | _ => g_active_slot s' = a /\ g_active_generation s' = g
  end.
Proof.
  intros Hwf Ha Hg Hcur Hrun. pose proof (wp_sync v s a g old Hwf Ha Hg Hcur) as Hw.
  pose proof (frame_sync v s) as (HF & _). unfold wp in Hw. rewrite Hrun in Hw, HF. simpl in *.
  destruct Hw as [Hc Hr]. split; [done|]. split; [done|].
  destruct r; [by destruct Hr as (? & ? & ? & _)|..]; destruct Hr as (-> & -> & _); auto.
Qed.

(** C1: run a commit on a device that may fail at any transfer,
    cut the power, and mount the medium on a device that answers: the mount
    succeeds and delivers exactly the files from before the commit or exactly
    the files of the commit; after [COMMITTED] it is always the latter. *)
Theorem fs_sync_survives_power_cycle (v : bool) (s s' m m' : fs_state D) (a g : Z)
    (old : list (list Z * list Z)) (r : fs_sync_result) (res : fs_disk_load_result) :
  files_wf (FILES s) -> g_active_slot s = a -> g_active_generation s = g ->
  current (dev s) a g old -> fs_sync_to_disk_verified v s = (r, s') ->
  reliable (dev m) -> same_disk (dev s') (dev m) -> table_wf (g_disk_table m) ->
  length (FILES m) = FS_MAX_FILES -> Forall slot_wf (FILES m) ->
  fs_load_from_disk m = (res, m') ->
  (res = FS_DISK_LOADED \/ res = FS_DISK_LOADED_CORRUPT) /\ files_wf (FILES m') /\
  (live (FILES m') = old \/ live (FILES m') = live (FILES s)) /\
  (r = FS_SYNC_COMMITTED -> live (FILES m') = live (FILES s)).
Proof.
  intros Hwf Ha Hg Hcur Hrun Hrel Hsame Htw Hl HF Hload.
  pose proof (wp_sync v s a g old Hwf Ha Hg Hcur) as Hw. unfold wp in Hw. rewrite Hrun in Hw.
  destruct Hw as [Hc Hr]. cbn [fst snd] in *.
  assert (Hmount : forall a' g' files, current (dev s') a' g' files ->
    (res = FS_DISK_LOADED \/ res = FS_DISK_LOADED_CORRUPT) /\ files_wf (FILES m') /\
    live (FILES m') = files).
  { intros a' g' files Hc'. eapply (current_keep _ (dev m)) in Hc'; [|auto].
    pose proof (wp_load m a' g' files Hrel (length_encode_table _ Htw) Hl HF Hc') as Hm.
    unfold wp in Hm. rewrite Hload in Hm. cbn [fst snd] in Hm. destruct Hm as (-> & _ & _ & ? & ? & _).
    split; [|done]. simpl. destruct (_ && _); simpl; auto. }
  split; [destruct Hc as [Hc|Hc]; by eapply Hmount|].
  split; [destruct Hc as [Hc|Hc]; by eapply Hmount|].
  split; [destruct Hc as [Hc|Hc]; [left|right]; by eapply Hmount|].
  intros ->. destruct Hr as (Hc' & _). by eapply Hmount.
Qed.

(** Mounting a medium whose newest snapshot is complete loads that
    snapshot, its slot and its generation, writes nothing, and reports the
    volume as cleanly loaded exactly when the header of the other slot is
    valid or blank. *)
Theorem fs_mount_loads_newest (s s' : fs_state D) (a g : Z) (files : list (list Z * list Z))
    (r : fs_disk_load_result) :
  reliable (dev s) -> table_wf (g_disk_table s) ->
  length (FILES s) = FS_MAX_FILES -> Forall slot_wf (FILES s) ->
  current (dev s) a g files -> fs_load_from_disk s = (r, s') ->
  live (FILES s') = files /\ files_wf (FILES s') /\
  g_active_slot s' = a /\ g_active_generation s' = g /\ g_loaded_version s' = FS_DISK_VERSION /\
  (forall lba, sector (dev s') lba = sector (dev s) lba) /\
  r = (let h := slot_header (dev s) (1 - a) in
       if fs_header_is_valid h || fs_header_is_blank h
       then FS_DISK_LOADED else FS_DISK_LOADED_CORRUPT).
Proof.
  intros Hrel Htw Hl HF Hcur Hload.
  pose proof (wp_load s a g files Hrel (length_encode_table _ Htw) Hl HF Hcur) as Hm.
  unfold wp in Hm. rewrite Hload in Hm.
  destruct Hm as (Hr & Hd & _ & Hw & Hlive & Hsl & Hgen & Hver & _). simpl in *.
  split_and!; auto. rewrite Hr. unfold fs_loaded_result.
  by destruct (fs_header_is_valid _), (fs_header_is_blank _).
Qed.
End Disk.

(** ** Witnesses: a medium in memory with one committed snapshot *)

Definition formatted_sectors (F : list fs_file) (g : Z) : gmap Z (list Z) :=
  let t := (fs_serialize F).2 in
  put_sectors (put_sectors ∅ (fs_slot_header_lba 0 + 1) 67 (encode_table t))
    (fs_slot_header_lba 0) 1 (encode_header (commit_header t g)).

Definition boot_state (d : sim_disk) : fs_state sim_disk :=
  FsState (replicate FS_MAX_FILES zero_file) zero_table zero_file FS_SLOT_COUNT 0 0
    FS_BACKEND_UNINITIALIZED FS_LEGACY_UPGRADE_UNAVAILABLE false zero_file false d.

Lemma boot_dev d : dev (boot_state d) = d.
Proof. done. Qed.

(** The mounted state: [sample_files] committed as generation 7 in slot 0,
    then the first file deleted in memory. *)
Definition edited_files : list fs_file := alter fs_clear 0%nat sample_files.
Definition faulty_disk : sim_disk :=
  SimDisk true (formatted_sectors sample_files 7) [NoFault; FaultAfter 3] syslog_boot.
Definition edited_state (d : sim_disk) : fs_state sim_disk :=
  FsState edited_files zero_table zero_file 0 7 5 FS_BACKEND_PERSISTENT
    FS_LEGACY_UPGRADE_UNAVAILABLE false zero_file false d.

Lemma zero_table_wf : table_wf zero_table.
Proof.
  unfold table_wf, zero_table; fs_proj. split; [done|].
  split; [apply Forall_replicate, zero_record_wf|]. split; [done|apply bytes_ok_zeros].
Qed.

Lemma sample_current (d : sim_disk) :
  sim_sectors d = formatted_sectors sample_files 7 -> current d 0 7 (live sample_files).
Proof.
  intros Hd. split; [auto|]. split.
  - apply (committed_intro d 0 7 sample_files (fs_serialize sample_files).2);
      [unfold u32_ok; lia | exact sample_files_wf | | |].
    + apply pair_of_fst. vm_compute. reflexivity.
    + unfold slot_bytes. rewrite (sectors_at_ext _ (map_sector (formatted_sectors sample_files 7)))
        by (intros; simpl; by rewrite sim_sector_map, Hd).
      apply fs_bytes_equal_eq. vm_compute. reflexivity.
    + simpl. rewrite sim_sector_map, Hd. apply fs_bytes_equal_eq. vm_compute. reflexivity.
  - assert (Hs : sim_sector d (fs_slot_header_lba 1) = zeros 512).
    { rewrite sim_sector_map, Hd. apply fs_bytes_equal_eq. vm_compute. reflexivity. }
    unfold stale, slot_header. change (1 - 0) with 1. simpl sector. rewrite Hs. by vm_compute.
Qed.

Lemma edited_files_wf : files_wf edited_files.
Proof. apply files_wfb_true. vm_compute. reflexivity. Qed.

(** A commit whose table write breaks after three sectors, and the read-back
    of which fails as well. *)
Lemma fs_sync_atomic_witness :
  let d := SimDisk true (formatted_sectors sample_files 7) [NoFault; FaultAfter 3; FaultAfter 0] syslog_boot in
  let s' := (fs_sync_to_disk_verified false (edited_state d)).2 in
  (fs_sync_to_disk_verified false (edited_state d)).1 = FS_SYNC_UNCERTAIN /\
  g_active_slot s' = 0 /\ g_active_generation s' = 7.
Proof.
  intros d s'. split; [vm_compute; reflexivity|].
  pose proof (fs_sync_atomic false (edited_state d) 0 7 (live sample_files) FS_SYNC_UNCERTAIN s'
    edited_files_wf eq_refl eq_refl (sample_current d eq_refl)) as Hw.
  assert (Hrun : fs_sync_to_disk_verified false (edited_state d) = (FS_SYNC_UNCERTAIN, s')).
  { apply pair_of_fst. vm_compute. reflexivity. }
  destruct (Hw Hrun) as (_ & _ & H). exact H.
Defined.

(** A commit without faults, then a mount of the same medium. *)
Lemma fs_sync_survives_power_cycle_witness :
  let d := SimDisk true (formatted_sectors sample_files 7) [] syslog_boot in
  let s' := (fs_sync_to_disk_verified false (edited_state d)).2 in
  let m' := (fs_load_from_disk (boot_state (dev s'))).2 in
  live (FILES m') = [(cs "big.bin", replicate (Z.to_nat 1500) 66)].
Proof.
  intros d s' m'.
  assert (Hrun : fs_sync_to_disk_verified false (edited_state d) = (FS_SYNC_COMMITTED, s')).
  { apply pair_of_fst. vm_compute. reflexivity. }
  destruct (fs_sync_survives_power_cycle false (edited_state d) s' (boot_state (dev s')) m' 0 7
    (live sample_files) FS_SYNC_COMMITTED (fs_load_from_disk (boot_state (dev s'))).1
    edited_files_wf eq_refl eq_refl (sample_current d eq_refl) Hrun) as (_ & _ & _ & H).
  - apply sim_reliable; vm_compute; reflexivity.
  - intros l. by rewrite boot_dev.
  - exact zero_table_wf.
  - reflexivity.
  - exact zero_slots_wf.
  - apply surjective_pairing.
  - rewrite H by reflexivity. vm_compute. reflexivity.
Defined.

Lemma fs_mount_loads_newest_witness :
  let d := SimDisk true (formatted_sectors sample_files 7) [] syslog_boot in
  let s' := (fs_load_from_disk (boot_state d)).2 in
  live (FILES s') = live sample_files /\ g_active_slot s' = 0 /\ g_active_generation s' = 7.
Proof.
  intros d s'.
  destruct (fs_mount_loads_newest (boot_state d) s' 0 7 (live sample_files)
    (fs_load_from_disk (boot_state d)).1) as (H1 & _ & H2 & H3 & _).
  - apply sim_reliable; reflexivity.
  - exact zero_table_wf.
  - reflexivity.
  - exact zero_slots_wf.
  - exact (sample_current d eq_refl).
  - apply surjective_pairing.
  - auto.
Defined.
