(* ===== verification/FsOps.v ===== *)
(** * kernel/fs.c, part 6: the operations on files

    A [struct fs_file *] into [FILES] is an index, [None] the null pointer;
    a [const char *] argument is an optional byte string.  [upd i f] stores
    through such a pointer.  Each operation ends in [fs_commit_changes] and
    undoes its stores when that reports failure. *)

From S2P Require Import Prelude CString Syslog Ata BlockDev FsFormat FsStore.

Open Scope st_scope.

(** ** Names the kernel reserves *)

Definition system_names : list (list Z) :=
  [cs "hello.elf"; cs "fault-probe.elf"; cs "hang-probe.elf"; cs "rflags-probe.elf";
   cs "stack-probe.elf"; cs "calculator.elf"; cs "notepad.elf"; cs "image-viewer.elf";
   cs "ai-assistant.elf"; cs "browser.elf"; cs "system-apps.db"].

Definition fs_name_is_system_managed (name : option (list Z)) : bool :=
  match name with
  | None => false
  | Some n => existsb (fun m => kstrcmp n m =? 0) system_names
  end.

Definition fs_name_is_system_log (name : option (list Z)) : bool :=
  match name with
  | None => false
  | Some n => kstrcmp n (cs "system.log") =? 0
  end.

Definition fs_name_is_self_test_file (name : option (list Z)) : bool :=
  match name with
  | None => false
  | Some n => (kstrcmp n (cs "__fs_self_test__") =? 0) ||
              (kstrcmp n (cs "__fs_self_renamed__") =? 0)
  end.

Definition FS_SELF_TEST_PAYLOAD : list Z := [0x42; 0x00; 0x4D; 0xFF].

Definition fs_file_is_self_test_artifact (file : option fs_file) : bool :=
  match file with
  | None => false
  | Some f =>
      if negb (in_use f) || negb (fs_name_is_self_test_file (Some (fname f))) ||
         negb (fsize f =? Z.of_nat (length FS_SELF_TEST_PAYLOAD))
      then false
      else fs_bytes_equal (take (length FS_SELF_TEST_PAYLOAD) (fdata f)) FS_SELF_TEST_PAYLOAD
  end.

(** ** Searching the file table *)

Fixpoint find_first (p : fs_file -> bool) (FILES : list fs_file) : option nat :=
  match FILES with
  | [] => None
  | f :: FILES' => if p f then Some O else option_map S (find_first p FILES')
  end.

Definition fs_find_mutable (FILES : list fs_file) (name : option (list Z)) : option nat :=
  match name with
  | None => None
  | Some n => find_first (fun f => in_use f && (kstrcmp (fname f) n =? 0)) FILES
  end.

Definition fs_allocate_slot (FILES : list fs_file) : option nat :=
  find_first (fun f => negb (in_use f)) FILES.

(** ** Stores into a file *)

Definition fs_copy_file (destination source : fs_file) : fs_file :=
  FsFile (in_use source) (memcpy_at (fname destination) 0 (take 32 (fname source))) (fsize source)
    (memcpy_at (fdata destination) 0 (take (Z.to_nat FS_MAX_FILE_SIZE) (fdata source))).

Definition set_in_use (b : bool) (f : fs_file) : fs_file :=
  FsFile b (fname f) (fsize f) (fdata f).
Definition set_empty (f : fs_file) : fs_file :=
  FsFile (in_use f) (fname f) 0 (<[O := 0]> (fdata f)).

(** [data[i] = bytes[i]] for [i < length], the terminator and the size. *)
Definition store_contents (bytes : list Z) (length : Z) (f : fs_file) : fs_file :=
  let data := memcpy_at (fdata f) 0 (take (Z.to_nat length) bytes) in
  FsFile (in_use f) (fname f) length (<[Z.to_nat length := 0]> data).

(** The same behind the current contents. *)
Definition append_contents (bytes : list Z) (length : Z) (f : fs_file) : fs_file :=
  let data := memcpy_at (fdata f) (Z.to_nat (fsize f)) (take (Z.to_nat length) bytes) in
  let size := fsize f + length in
  FsFile (in_use f) (fname f) size (<[Z.to_nat size := 0]> data).

(** A fresh slot under a name: clear, mark used, copy the name. *)
Definition claim_slot (name : list Z) (f : fs_file) : fs_file :=
  fs_copy_name (set_in_use true (fs_clear f)) name.

Section Ops.
Context {D : Type} `{BlockDevice D}.
Abbreviation M := (ST (fs_state D)).

Definition upd (i : nat) (f : fs_file -> fs_file) : M unit :=
  st_mod (fun s => set_FILES (alter f i (FILES s)) s).

Definition file_at (i : nat) : M fs_file :=
  st_get (fun s => default zero_file (FILES s !! i)).

(** [fs_copy_file(&g_mutation_backup, file)] and back. *)
Definition save_backup (i : nat) : M unit :=
  let! f := file_at i in
  st_mod (fun s => set_g_mutation_backup (fs_copy_file (g_mutation_backup s) f) s).
Definition restore_backup (i : nat) : M unit :=
  let! b := st_get g_mutation_backup in
  upd i (fun f => fs_copy_file f b).

(** Commit, undoing the mutation with [undo] when that fails. *)
Definition commit_or (undo : M unit) : M bool :=
  let! ok := fs_commit_changes in
  if negb ok then do! undo in st_ret false else st_ret true.

Definition fs_touch (name : option (list Z)) : M bool :=
  if fs_name_is_system_log name || fs_name_is_system_managed name then st_ret false
  else
    let! active := st_get g_self_test_active in
    if negb (fs_is_valid_name name) || (fs_name_is_self_test_file name && negb active)
    then st_ret false
    else
      let! files := st_get FILES in
      match fs_find_mutable files name with
      | Some _ => st_ret true
      | None =>
          match fs_allocate_slot files with
          | None => st_ret false
          | Some slot =>
              do! upd slot (fun f =>
                    set_empty (fs_copy_name (set_in_use true f) (default [] name))) in
              commit_or (upd slot fs_clear)
          end
      end.

(** Find the file (saving it for rollback) or claim a slot for it; [None]
    when the table is full.  The flag is [existed]. *)
Definition open_for_write (name : option (list Z)) : M (option (nat * bool)) :=
  let! files := st_get FILES in
  match fs_find_mutable files name with
  | Some i => do! save_backup i in st_ret (Some (i, true))
  | None =>
      match fs_allocate_slot files with
      | None => st_ret None
      | Some i => do! upd i (claim_slot (default [] name)) in st_ret (Some (i, false))
      end
  end.

Definition undo_write (i : nat) (existed : bool) : M unit :=
  if existed then restore_backup i else upd i fs_clear.

Definition fs_write_bytes_internal (name contents : option (list Z)) (length : Z)
    (allow_system : bool) : M bool :=
  let! active := st_get g_self_test_active in
  if negb (fs_is_valid_name name) || fs_name_is_system_log name ||
     (negb allow_system && fs_name_is_system_managed name) ||
     (fs_name_is_self_test_file name && negb active) ||
     (negb (bool_decide (is_Some contents)) && negb (length =? 0)) ||
     (FS_MAX_FILE_SIZE <=? length)
  then st_ret false
  else
    let! opened := open_for_write name in
    match opened with
    | None => st_ret false
    | Some (i, existed) =>
        do! upd i (store_contents (default [] contents) length) in
        commit_or (undo_write i existed)
    end.

Definition fs_write_bytes (name contents : option (list Z)) (length : Z) : M bool :=
  fs_write_bytes_internal name contents length false.

Definition fs_system_write_bytes (name contents : option (list Z)) (length : Z) : M bool :=
  if negb (fs_name_is_system_managed name) then st_ret false
  else fs_write_bytes_internal name contents length true.

Definition fs_write (name contents : option (list Z)) : M bool :=
  match contents with
  | None => st_ret false
  | Some c => fs_write_bytes name (Some c) (kstrlen c)
  end.

Definition fs_append (name contents : option (list Z)) : M bool :=
  let! active := st_get g_self_test_active in
  if negb (fs_is_valid_name name) || fs_name_is_system_log name ||
     fs_name_is_system_managed name ||
     (fs_name_is_self_test_file name && negb active) ||
     negb (bool_decide (is_Some contents))
  then st_ret false
  else
    let contents := default [] contents in
    let length := kstrlen contents in
    if FS_MAX_FILE_SIZE <=? length then st_ret false
    else
      let! opened := open_for_write name in
      match opened with
      | None => st_ret false
      | Some (i, existed) =>
          let! file := file_at i in
          if (FS_MAX_FILE_SIZE - 1) - fsize file <? length then
            do! (if negb existed then upd i fs_clear else st_ret tt) in
            st_ret false
          else
            do! upd i (append_contents contents length) in
            commit_or (undo_write i existed)
      end.

Definition fs_rename_internal (old_name new_name : option (list Z)) (allow_system : bool)
    : M bool :=
  let! active := st_get g_self_test_active in
  if negb (fs_is_valid_name old_name) || negb (fs_is_valid_name new_name) then st_ret false
  else if fs_name_is_system_log old_name || fs_name_is_system_log new_name then st_ret false
  else if negb allow_system &&
          (fs_name_is_system_managed old_name || fs_name_is_system_managed new_name)
  then st_ret false
  else if fs_name_is_self_test_file new_name && negb active then st_ret false
  else
    let! files := st_get FILES in
    match fs_find_mutable files old_name with
    | None => st_ret false
    | Some i =>
        let! file := file_at i in
        if fs_name_is_self_test_file old_name && negb active &&
           fs_file_is_self_test_artifact (Some file) then st_ret false
        else if kstrcmp (default [] old_name) (default [] new_name) =? 0 then st_ret true
        else if bool_decide (is_Some (fs_find_mutable files new_name)) then st_ret false
        else
          let previous_name := copy_cstring (zeros 32) 32 (fname file) in
          do! upd i (fun f => fs_copy_name f (default [] new_name)) in
          commit_or (upd i (fun f => fs_copy_name f previous_name))
    end.

Definition fs_rename (old_name new_name : option (list Z)) : M bool :=
  fs_rename_internal old_name new_name false.

Definition fs_system_rename (old_name new_name : option (list Z)) : M bool :=
  if negb (fs_name_is_system_managed old_name) || fs_name_is_system_managed new_name
  then st_ret false
  else fs_rename_internal old_name new_name true.

Definition fs_remove_internal (name : option (list Z)) (allow_system : bool) : M bool :=
  if fs_name_is_system_log name then st_ret false
  else if negb allow_system && fs_name_is_system_managed name then st_ret false
  else
    let! files := st_get FILES in
    match fs_find_mutable files name with
    | None => st_ret false
    | Some i =>
        let! active := st_get g_self_test_active in
        let! file := file_at i in
        if fs_name_is_self_test_file name && negb active &&
           fs_file_is_self_test_artifact (Some file) then st_ret false
        else
          do! save_backup i in
          do! upd i fs_clear in
          commit_or (restore_backup i)
    end.

Definition fs_remove (name : option (list Z)) : M bool := fs_remove_internal name false.

Definition fs_system_remove (name : option (list Z)) : M bool :=
  if negb (fs_name_is_system_managed name) then st_ret false
  else fs_remove_internal name true.

(** ** Reading *)

Definition hidden (log_is_virtual : bool) (f : fs_file) : bool :=
  negb (in_use f) || fs_file_is_self_test_artifact (Some f) ||
  (log_is_virtual && fs_name_is_system_log (Some (fname f))).

Definition fs_file_count : M Z :=
  let! files := st_get FILES in
  let! v := st_get g_system_log_is_virtual in
  let count := Z.of_nat (length (List.filter (fun f => negb (hidden v f)) files)) in
  st_ret (if v : bool then count + 1 else count).

Definition fs_refresh_system_log : M unit :=
  let! v := st_get g_system_log_is_virtual in
  if negb v then st_ret tt
  else st_mod (fun s =>
    let f := g_virtual_system_log s in
    let '(data, size) :=
      syslog_copy_text (bd_syslog (dev s)) (fdata f) (Z.to_nat FS_MAX_FILE_SIZE) in
    set_g_virtual_system_log (FsFile (in_use f) (fname f) (Z.of_nat size) data) s).

(** The visible entry at [index], counting visible slots before it. *)
Fixpoint visible_at (v : bool) (files : list fs_file) (seen index : Z) : fs_file + Z :=
  match files with
  | [] => inr seen
  | f :: files' =>
      if hidden v f then visible_at v files' seen index
      else if seen =? index then inl f
      else visible_at v files' (seen + 1) index
  end.

Definition fs_file_at (index : Z) : M (option fs_file) :=
  let! files := st_get FILES in
  let! v := st_get g_system_log_is_virtual in
  match visible_at v files 0 index with
  | inl f => st_ret (Some f)
  | inr seen =>
      if v && (seen =? index) then
        do! fs_refresh_system_log in
        let! f := st_get g_virtual_system_log in
        st_ret (Some f)
      else st_ret None
  end.

Definition fs_find (name : option (list Z)) : M (option fs_file) :=
  let! v := st_get g_system_log_is_virtual in
  if fs_name_is_system_log name && v then
    do! fs_refresh_system_log in
    let! f := st_get g_virtual_system_log in
    st_ret (Some f)
  else
    let! files := st_get FILES in
    let file := match fs_find_mutable files name with
                | Some i => files !! i
                | None => None
                end in
    st_ret (if fs_file_is_self_test_artifact file then None else file).
End Ops.
