(* ===== verification/FsSpec.v ===== *)
(** * kernel/fs.c, part 7: what the operations promise

    The abstract filesystem is a finite map from names to contents.  Every
    operation is proved to implement its map operation when it returns [true]
    and to change nothing when it returns [false].  The proofs use the
    commit routine only through [CommitContract]; it is discharged for every
    device with a trivial contract, and for devices that obey [DiskLaws] with
    the durability contract of [FsDurable.v]. *)

From stdpp Require Import gmap.
From S2P Require Import Prelude CString Syslog Ata BlockDev FsFormat FsCodec FsRoundtrip FsStore FsDurable FsOps.

Open Scope st_scope.

(** ** The abstract filesystem *)

Abbreviation fsmap := (gmap (list Z) (list Z)).

Definition as_map (FILES : list fs_file) : fsmap := list_to_map (live FILES).

Definition fs_inv {D} (s : fs_state D) : Prop :=
  files_wf (FILES s) /\ slot_wf (g_mutation_backup s).

(** ** The interface to the commit routine

    [J s files]: the device side of [s] agrees with [files]. *)
Class CommitContract {D} `{BlockDevice D} (J : fs_state D -> list (list Z * list Z) -> Prop) := {
  contract_files : forall F s files, J s files -> J (set_FILES F s) files;
  contract_backup : forall b s files, J s files -> J (set_g_mutation_backup b s) files;
  contract_commit : forall s old, files_wf (FILES s) -> J s old ->
    wp fs_commit_changes (fun ok s' => J s' (if ok then live (FILES s) else old)) s;
}.

(** ** Updating one slot of the file table *)

Lemma find_first_Some p F i :
  find_first p F = Some i -> exists A f B, F = A ++ f :: B /\ length A = i /\ p f = true /\
    Forall (fun f => p f = false) A.
Proof.
  revert i. induction F as [|f F IH]; intros i; simpl; [done|].
  destruct (p f) eqn:Hp; [intros [= <-]; by exists [], f, F|].
  destruct (find_first p F) as [j|]; [|done]. intros [= <-].
  destruct (IH j eq_refl) as (A & f' & B & -> & <- & ? & ?).
  exists (f :: A), f', B. split_and!; auto.
Qed.

Lemma find_first_None p F : find_first p F = None -> Forall (fun f => p f = false) F.
Proof.
  induction F as [|f F IH]; simpl; [constructor|].
  destruct (p f) eqn:Hp; [done|]. destruct (find_first p F); [done|]. auto.
Qed.

Lemma alter_mid {A} (g : A -> A) pre x post :
  alter g (length pre) (pre ++ x :: post) = pre ++ g x :: post.
Proof. induction pre as [|y pre IH]; [done|]. simpl. f_equal. apply IH. Qed.

Lemma lookup_mid {A} (pre : list A) x post : (pre ++ x :: post) !! length pre = Some x.
Proof. by apply list_lookup_middle. Qed.

Lemma live_mid A f B :
  live (A ++ f :: B) = live A ++ (if in_use f then [view f] else []) ++ live B.
Proof. rewrite live_app. simpl. by destruct (in_use f). Qed.

(** Names and contents of the other slots. *)
Definition others (A B : list fs_file) : list (list Z * list Z) := live A ++ live B.

Lemma live_mid_perm A f B :
  live (A ++ f :: B) ≡ₚ (if in_use f then [view f] else []) ++ others A B.
Proof. rewrite live_mid. unfold others. rewrite !app_assoc. f_equiv. apply Permutation_app_comm. Qed.

Lemma files_wf_mid A f B :
  files_wf (A ++ f :: B) <->
  (length A + S (length B) = FS_MAX_FILES)%nat /\ Forall file_ok A /\ file_ok f /\ Forall file_ok B /\
  NoDup (map fst (others A B)) /\ (in_use f = true -> cstr (fname f) ∉ map fst (others A B)).
Proof.
  assert (Hnd : NoDup (map fst (live (A ++ f :: B))) <->
    NoDup (map fst (others A B)) /\ (in_use f = true -> cstr (fname f) ∉ map fst (others A B))).
  { rewrite (live_mid_perm A f B). destruct (in_use f); simpl; [rewrite NoDup_cons|]; intuition done. }
  split.
  - intros Hwf. pose proof (files_wf_ok _ Hwf) as Hok. destruct Hwf as (Hl & _ & _ & Hn).
    rewrite length_app in Hl. simpl in Hl. apply Forall_app in Hok as [? [? ?]%Forall_cons].
    apply Hnd in Hn as [? ?]. split_and!; auto.
  - intros (Hl & HA & Hf & HB & H1 & H2). apply files_wf_intro.
    + rewrite length_app. simpl. lia.
    + apply Forall_app_2; [done|]. by constructor.
    + by apply Hnd.
Qed.

(** Exchanging one slot for another acceptable one. *)
Lemma files_wf_replace A f B f' :
  files_wf (A ++ f :: B) -> file_ok f' ->
  (in_use f' = true -> cstr (fname f') ∉ map fst (others A B)) ->
  files_wf (A ++ f' :: B).
Proof. rewrite !files_wf_mid. tauto. Qed.

Lemma as_map_unused A f B :
  files_wf (A ++ f :: B) -> in_use f = false -> as_map (A ++ f :: B) = list_to_map (others A B).
Proof. intros _ Hu. unfold as_map. rewrite live_mid, Hu. done. Qed.

Lemma as_map_used A f B :
  files_wf (A ++ f :: B) -> in_use f = true ->
  as_map (A ++ f :: B) = <[cstr (fname f) := (view f).2]> (list_to_map (others A B)).
Proof.
  intros (_ & _ & _ & Hnd) Hu. unfold as_map.
  rewrite (list_to_map_proper (live (A ++ f :: B)) (view f :: others A B)).
  - done.
  - done.
  - rewrite live_mid_perm, Hu. done.
Qed.

Lemma others_fresh A f B :
  files_wf (A ++ f :: B) -> in_use f = true ->
  (list_to_map (others A B) : fsmap) !! cstr (fname f) = None.
Proof. intros (_ & _ & _ & _ & _ & H)%files_wf_mid Hu. by apply not_elem_of_list_to_map_1, H. Qed.

(** ** Searching by name *)

Lemma find_mutable_Some F n i :
  fs_find_mutable F (Some n) = Some i ->
  exists A f B, F = A ++ f :: B /\ length A = i /\ in_use f = true /\ cstr (fname f) = cstr n.
Proof.
  intros (A & f & B & -> & <- & Hp & _)%find_first_Some. exists A, f, B.
  apply andb_true_iff in Hp as [Hu Hc]. by apply Z.eqb_eq, kstrcmp_cstr in Hc.
Qed.

Lemma find_mutable_None F n :
  fs_find_mutable F (Some n) = None -> cstr n ∉ map fst (live F).
Proof.
  intros Hf%find_first_None. induction Hf as [|f F Hp Hf IH]; simpl; [by intros ?%elem_of_nil|].
  destruct (in_use f) eqn:Hu; [|done]. simpl in *. rewrite elem_of_cons. intros [Heq|?]; [|done].
  apply Z.eqb_neq in Hp. apply Hp. by apply kstrcmp_cstr.
Qed.

Lemma find_mutable_map F n :
  files_wf F ->
  is_Some (fs_find_mutable F (Some n)) <-> is_Some (as_map F !! cstr n).
Proof.
  intros Hwf. split.
  - intros [i (A & f & B & -> & _ & Hu & <-)%find_mutable_Some].
    rewrite as_map_used, lookup_insert_eq by done. done.
  - intros [c Hc]. destruct (fs_find_mutable F (Some n)) eqn:E; [done|].
    apply find_mutable_None in E. unfold as_map in Hc.
    by rewrite not_elem_of_list_to_map_1 in Hc.
Qed.

Lemma allocate_Some F i :
  fs_allocate_slot F = Some i -> exists A f B, F = A ++ f :: B /\ length A = i /\ in_use f = false.
Proof.
  intros (A & f & B & -> & <- & Hp & _)%find_first_Some. exists A, f, B.
  by apply negb_true_iff in Hp.
Qed.

(** ** The stores into a slot *)

Lemma valid_name_length n : fs_is_valid_name (Some n) = true -> (length (cstr n) <= 31)%nat.
Proof.
  unfold fs_is_valid_name. destruct (hd0 n =? 0); [done|]. rewrite <- valid_name_loop_cstr.
  assert (Hgen : forall s k, Forall (fun c => c <> 0) s -> (k <= 31)%nat ->
            valid_name_loop s k = true -> (length s + k <= 31)%nat).
  { intros s k Hs. revert k. induction Hs as [|c s Hc Hs IH]; intros k Hk; cbn [valid_name_loop length]; [lia|].
    destruct (Z.eqb_spec c 0); [done|]. destruct (_ || _ || _ || _); [done|].
    destruct (Nat.leb_spec FS_MAX_FILENAME (S k)) as [|Hlt]; [done|].
    rewrite FS_MAX_FILENAME_eq in Hlt. intros Hv%IH; lia. }
  intros Hv%Hgen; [lia | apply cstr_nonzero | lia].
Qed.

Lemma copy_name_wf n f :
  bytes_ok n -> (length (cstr n) <= 31)%nat -> slot_wf f -> 0 <= fsize f < FS_MAX_FILE_SIZE ->
  file_wf (fs_copy_name f n) /\ cstr (fname (fs_copy_name f n)) = cstr n.
Proof.
  intros Hb Hl (Hn & Hnb & Hd & Hdb) Hs. unfold file_wf, fs_copy_name; fs_proj.
  rewrite length_copy_cstring, FS_MAX_FILENAME_eq.
  split; [|rewrite cstr_copy_cstring, take_ge by lia; done].
  split_and!; auto with nos lia; try lia.
Qed.

Lemma claim_slot_ok n f :
  bytes_ok n -> fs_is_valid_name (Some n) = true -> slot_wf f ->
  let f' := claim_slot n f in
  file_ok f' /\ in_use f' = true /\ cstr (fname f') = cstr n /\ fsize f' = 0 /\ (view f').2 = [].
Proof.
  intros Hb Hv Hs f'. pose proof (valid_name_length n Hv) as Hl.
  destruct (fs_clear_wf f Hs) as [(Hn & _ & Hnb & _ & Hd & Hdb) _].
  destruct (copy_name_wf n (set_in_use true (fs_clear f))) as [Hw Hc];
    [done | done | by unfold slot_wf | simpl; fs_consts; lia |].
  split_and!; try done. split; [done|]. intros _. by rewrite (fs_is_valid_name_cstr _ n).
Qed.

Lemma touch_slot_ok n f :
  bytes_ok n -> fs_is_valid_name (Some n) = true -> slot_wf f ->
  let f' := set_empty (fs_copy_name (set_in_use true f) n) in
  file_ok f' /\ in_use f' = true /\ cstr (fname f') = cstr n /\ (view f').2 = [].
Proof.
  intros Hb Hv (Hn & Hnb & Hd & Hdb) f'. pose proof (valid_name_length n Hv) as Hl.
  destruct (copy_name_wf n (FsFile true (fname f) 0 (<[O := 0]> (fdata f)))) as [Hw Hc];
    [done | done | | simpl; fs_consts; lia |].
  { unfold slot_wf; fs_proj. rewrite length_insert. split_and!; auto.
    apply Forall_insert; [done | unfold byte_ok; lia]. }
  split_and!; try done. split; [exact Hw|]. intros _. by rewrite (fs_is_valid_name_cstr _ n).
Qed.

(** Writing [bytes] at the end of the first [n] bytes, then the terminator. *)
Lemma store_at_view data n bytes :
  (n + length bytes < length data)%nat ->
  take (n + length bytes) (<[(n + length bytes)%nat := 0]> (memcpy_at data n bytes)) =
  take n data ++ bytes.
Proof. intros H. rewrite take_insert_ge by lia. by apply take_memcpy; lia. Qed.

Lemma store_at_wf data n bytes k :
  bytes_ok data -> bytes_ok bytes -> (n <= length data)%nat ->
  length (<[k := 0]> (memcpy_at data n bytes)) = length data /\
  bytes_ok (<[k := 0]> (memcpy_at data n bytes)).
Proof.
  intros Hd Hb Hn. split; [by rewrite length_insert, length_memcpy_at|].
  apply Forall_insert; [by apply memcpy_at_Forall | unfold byte_ok; lia].
Qed.

Lemma append_contents_ok bytes len f :
  file_ok f -> bytes_ok bytes -> 0 <= len <= Z.of_nat (length bytes) ->
  fsize f + len < FS_MAX_FILE_SIZE ->
  let f' := append_contents bytes len f in
  file_ok f' /\ in_use f' = in_use f /\ fname f' = fname f /\
  (view f').2 = (view f).2 ++ take (Z.to_nat len) bytes.
Proof.
  intros [(Hn & Ht & Hnb & Hs & Hd & Hdb) Hv] Hb Hlen Hmax f'.
  set (k := take (Z.to_nat len) bytes).
  assert (Hk : length k = Z.to_nat len) by (unfold k; rewrite length_take; lia).
  assert (Hpos : Z.to_nat (fsize f + len) = (Z.to_nat (fsize f) + length k)%nat) by lia.
  destruct (store_at_wf (fdata f) (Z.to_nat (fsize f)) k (Z.to_nat (fsize f + len)))
    as [Hwl Hwb]; [done | by apply Forall_take | fs_consts; lia |].
  unfold f', append_contents, file_ok, file_wf, view; fs_proj. fold k.
  rewrite Hwl. split_and!; auto; try lia.
  rewrite Hpos. apply store_at_view. fs_consts. lia.
Qed.

Lemma store_contents_ok bytes len f :
  file_ok f -> bytes_ok bytes -> 0 <= len <= Z.of_nat (length bytes) -> len < FS_MAX_FILE_SIZE ->
  let f' := store_contents bytes len f in
  file_ok f' /\ in_use f' = in_use f /\ fname f' = fname f /\ (view f').2 = take (Z.to_nat len) bytes.
Proof.
  intros [(Hn & Ht & Hnb & Hs & Hd & Hdb) Hv] Hb Hlen Hmax.
  apply (append_contents_ok bytes len (FsFile (in_use f) (fname f) 0 (fdata f))); auto.
  split; [|done]. unfold file_wf; fs_proj. split_and!; auto; fs_consts; lia.
Qed.

Lemma fs_copy_file_eq d f : slot_wf d -> slot_wf f -> fs_copy_file d f = f.
Proof.
  intros (Hn & _ & Hd & _) (Hn' & _ & Hd' & _). unfold fs_copy_file.
  rewrite !take_ge by lia. unfold memcpy_at. rewrite !Nat.sub_0_r, !Nat.add_0_l, !take_0.
  rewrite !take_ge, !drop_ge by lia. rewrite !app_nil_r. by destruct f.
Qed.

Lemma file_ok_slot f : file_ok f -> slot_wf f.
Proof. intros [? _]. by apply file_wf_slot. Qed.

Lemma file_ok_clear f : slot_wf f -> file_ok (fs_clear f) /\ in_use (fs_clear f) = false.
Proof. intros Hs. destruct (fs_clear_wf f Hs) as [? Hu]. split; [|done]. split; [done|]. by rewrite Hu. Qed.

(** ** Operations against the commit contract *)

Section Contract.
Context {D : Type} {HBD : BlockDevice D} (J : fs_state D -> list (list Z * list Z) -> Prop).
Context {HJ : CommitContract J}.

(** The result of an operation on [s]: [G] on success, nothing on failure. *)
Definition op_post (s : fs_state D) (G : fsmap) (r : bool) (s' : fs_state D) : Prop :=
  fs_inv s' /\ J s' (live (FILES s')) /\
  g_self_test_active s' = g_self_test_active s /\
  (if r then as_map (FILES s') = G else live (FILES s') = live (FILES s)).

Lemma op_post_refuse s G : fs_inv s -> J s (live (FILES s)) -> op_post s G false s.
Proof. done. Qed.

(** Commit of a changed slot with rollback. *)
Lemma wp_commit_or s s1 A f B f' f0 undo G :
  FILES s = A ++ f :: B -> FILES s1 = A ++ f' :: B -> fs_inv s -> slot_wf (g_mutation_backup s1) ->
  g_self_test_active s1 = g_self_test_active s -> J s1 (live (FILES s)) ->
  file_ok f' -> (in_use f' = true -> cstr (fname f') ∉ map fst (others A B)) ->
  file_ok f0 -> in_use f0 = in_use f -> (in_use f = true -> view f0 = view f) ->
  as_map (A ++ f' :: B) = G ->
  (forall s2, keeps s1 s2 -> wp undo (fun _ s3 => s3 = set_FILES (A ++ f0 :: B) s2) s2) ->
  wp (commit_or undo) (op_post s G) s1.
Proof.
  intros HF HF1 [Hwf _] Hbk Hst HJ1 Hok' Hnew Hok0 Hu0 Hv0 HG Hundo.
  rewrite HF in Hwf. pose proof (files_wf_replace A f B f' Hwf Hok' Hnew) as Hwf'.
  assert (Hlive : live (A ++ f0 :: B) = live (FILES s)).
  { rewrite HF, !live_mid, Hu0. destruct (in_use f); [|done]. by rewrite Hv0. }
  unfold commit_or. apply wp_bind.
  eapply wp_mono.
  { apply wp_intro. intros ok s2 Hrun. pose proof (frame_commit s1) as Hk.
    pose proof (contract_commit s1 (live (FILES s))) as Hc. unfold wp in Hc.
    rewrite Hrun in Hk, Hc. rewrite HF1 in Hc. simpl in Hk, Hc.
    exact (conj Hk (Hc Hwf' HJ1)). }
  intros ok s2 [Hk HJ2]. pose proof Hk as (K1 & K2 & K3 & _).
  apply wp_if; intros Hok; [apply negb_true_iff in Hok | apply negb_false_iff in Hok]; subst ok.
  - apply wp_bind. eapply wp_mono; [by apply Hundo|]. intros _ s3 ->. apply wp_ret.
    unfold op_post, fs_inv; simpl. rewrite Hlive. split_and!; try done.
    + apply (files_wf_replace A f B f0 Hwf Hok0). rewrite Hu0. intros Hu.
      specialize (Hv0 Hu). injection Hv0 as -> _. apply files_wf_mid in Hwf. tauto.
    + by rewrite K2.
    + by apply contract_files.
    + by rewrite K3.
  - apply wp_ret. unfold op_post, fs_inv. rewrite K1, HF1, K2, K3. split_and!; try done.
Qed.

Lemma wp_upd A f B g (s : fs_state D) (Q : unit -> fs_state D -> Prop) :
  FILES s = A ++ f :: B -> Q tt (set_FILES (A ++ g f :: B) s) -> wp (upd (length A) g) Q s.
Proof. intros HF HQ. apply wp_mod. by rewrite HF, alter_mid. Qed.

Lemma wp_file_at A f B (s : fs_state D) (Q : fs_file -> fs_state D -> Prop) :
  FILES s = A ++ f :: B -> Q f s -> wp (file_at (length A)) Q s.
Proof. intros HF HQ. apply wp_get. by rewrite HF, lookup_mid. Qed.

Lemma wp_save_backup A f B (s : fs_state D) (Q : unit -> fs_state D -> Prop) :
  FILES s = A ++ f :: B -> slot_wf (g_mutation_backup s) -> slot_wf f ->
  Q tt (set_g_mutation_backup f s) -> wp (save_backup (length A)) Q s.
Proof.
  intros HF Hb Hf HQ. apply wp_bind, (wp_file_at A f B); [done|]. apply wp_mod.
  by rewrite fs_copy_file_eq.
Qed.

Lemma wp_restore_backup A f' B f (s : fs_state D) :
  FILES s = A ++ f' :: B -> g_mutation_backup s = f -> slot_wf f' -> slot_wf f ->
  wp (restore_backup (length A)) (fun _ s' => s' = set_FILES (A ++ f :: B) s) s.
Proof.
  intros HF Hb Hf' Hf. apply wp_bind, wp_get. rewrite Hb.
  eapply wp_upd; [done|]. by rewrite fs_copy_file_eq.
Qed.

Lemma mid_ok (s : fs_state D) A f B : fs_inv s -> FILES s = A ++ f :: B -> file_ok f.
Proof. intros [Hwf _] HF. rewrite HF in Hwf. apply files_wf_mid in Hwf. tauto. Qed.

(** [others A B] is what is left of the map without the slot in between. *)
Lemma mid_fresh (s : fs_state D) A f B :
  fs_inv s -> FILES s = A ++ f :: B -> in_use f = true -> cstr (fname f) ∉ map fst (others A B).
Proof. intros [Hwf _] HF. rewrite HF in Hwf. apply files_wf_mid in Hwf. tauto. Qed.

Lemma wp_open_for_write s n (Q : option (nat * bool) -> fs_state D -> Prop) :
  fs_inv s ->
  (fs_find_mutable (FILES s) (Some n) = None -> fs_allocate_slot (FILES s) = None -> Q None s) ->
  (forall A f B, FILES s = A ++ f :: B -> in_use f = true -> cstr (fname f) = cstr n ->
     Q (Some (length A, true)) (set_g_mutation_backup f s)) ->
  (forall A f B, FILES s = A ++ f :: B -> in_use f = false ->
     fs_find_mutable (FILES s) (Some n) = None -> fs_allocate_slot (FILES s) = Some (length A) ->
     Q (Some (length A, false)) (set_FILES (A ++ claim_slot n f :: B) s)) ->
  wp (open_for_write (Some n)) Q s.
Proof.
  intros Hinv Hfull Hold Hnew. unfold open_for_write. apply wp_bind, wp_get.
  destruct (fs_find_mutable (FILES s) (Some n)) as [i|] eqn:Hf.
  - destruct (find_mutable_Some _ _ _ Hf) as (A & f & B & HF & <- & Hu & Hn).
    pose proof (mid_ok s A f B Hinv HF) as Hok. destruct Hinv as [_ Hb].
    apply wp_bind, (wp_save_backup A f B); [done | done | by apply file_ok_slot |].
    apply wp_ret. by apply (Hold A f B).
  - destruct (fs_allocate_slot (FILES s)) as [i|] eqn:Ha; [|apply wp_ret; by apply Hfull].
    destruct (allocate_Some _ _ Ha) as (A & f & B & HF & <- & Hu).
    apply wp_bind, (wp_upd A f B); [done|]. apply wp_ret. by apply (Hnew A f B).
Qed.

(** A change of an existing file, committed or undone from the backup. *)
Lemma wp_finish_existing s A f B g n c :
  fs_inv s -> J s (live (FILES s)) -> FILES s = A ++ f :: B -> in_use f = true ->
  cstr (fname f) = cstr n ->
  file_ok (g f) -> in_use (g f) = in_use f -> fname (g f) = fname f -> (view (g f)).2 = c ->
  wp (do! upd (length A) g in commit_or (undo_write (length A) true))
    (op_post s (<[cstr n := c]> (as_map (FILES s)))) (set_g_mutation_backup f s).
Proof.
  intros Hinv HJs HF Hu Hn Hok Hu' Hn' Hc. pose proof (mid_ok s A f B Hinv HF) as Hokf.
  pose proof (mid_fresh s A f B Hinv HF Hu) as Hfr. pose proof Hinv as [Hwf _].
  assert (Hnew : cstr (fname (g f)) ∉ map fst (others A B)) by (by rewrite Hn').
  apply wp_bind, (wp_upd A f B); [done|].
  eapply wp_commit_or with (f' := g f) (f0 := f); try done.
  - by apply file_ok_slot.
  - by apply contract_files, contract_backup.
  - rewrite HF in Hwf. pose proof (files_wf_replace A f B (g f) Hwf Hok ltac:(done)) as Hwf'.
    rewrite as_map_used, HF, as_map_used, Hc, Hn', Hn, insert_insert_eq by (done || congruence). done.
  - intros s2 (K1 & K2 & _).
    apply wp_restore_backup with (g f); [exact K1 | exact K2 | by apply file_ok_slot..].
Qed.

(** A new file in a claimed slot, committed or cleared again. *)
Lemma wp_finish_new s A f B g n c :
  fs_inv s -> J s (live (FILES s)) -> FILES s = A ++ f :: B -> in_use f = false ->
  fs_find_mutable (FILES s) (Some n) = None ->
  let f1 := claim_slot n f in
  file_ok (g f1) -> in_use (g f1) = true -> cstr (fname (g f1)) = cstr n -> (view (g f1)).2 = c ->
  wp (do! upd (length A) g in commit_or (undo_write (length A) false))
    (op_post s (<[cstr n := c]> (as_map (FILES s)))) (set_FILES (A ++ f1 :: B) s).
Proof.
  intros Hinv HJs HF Hu Hnf f1 Hok Hu' Hn Hc. pose proof Hinv as [Hwf Hb].
  destruct (file_ok_clear (g f1) (file_ok_slot _ Hok)) as [Hok0 Hu0].
  assert (Hnew : cstr (fname (g f1)) ∉ map fst (others A B)).
  { apply find_mutable_None in Hnf. rewrite HF, live_mid, Hu in Hnf. by rewrite Hn. }
  apply wp_bind, (wp_upd A f1 B); [done|].
  eapply wp_commit_or with (f' := g f1) (f0 := fs_clear (g f1)); try done.
  - by apply contract_files, contract_files.
  - by rewrite Hu.
  - rewrite HF in Hwf |- *. pose proof (files_wf_replace A f B (g f1) Hwf Hok ltac:(done)) as Hwf'.
    rewrite as_map_used, as_map_unused, Hc, Hn by done. done.
  - intros s2 (K1 & _). apply (wp_upd A (g f1) B); [exact K1 | done].
Qed.

(** *** Write *)

Lemma wp_write_bytes s name contents len allow :
  fs_inv s -> J s (live (FILES s)) -> bytes_ok (default [] name) -> bytes_ok (default [] contents) ->
  0 <= len <= Z.of_nat (length (default [] contents)) ->
  wp (fs_write_bytes_internal name contents len allow)
    (op_post s (<[cstr (default [] name) := take (Z.to_nat len) (default [] contents)]>
                  (as_map (FILES s)))) s.
Proof.
  intros Hinv HJs Hnb Hcb Hlen. unfold fs_write_bytes_internal. apply wp_bind, wp_get.
  apply wp_if; intros Hg; [by apply wp_ret, op_post_refuse|].
  repeat (apply orb_false_iff in Hg as [Hg ?]). apply negb_false_iff in Hg.
  destruct name as [n|]; [|done]. cbn [from_option id] in *. bdestr_hyps.
  apply wp_bind, wp_open_for_write; [done|..].
  - intros _ _. by apply wp_ret, op_post_refuse.
  - intros A f B HF Hu Hn. pose proof (mid_ok s A f B Hinv HF) as Hok.
    destruct (store_contents_ok (default [] contents) len f) as (? & ? & ? & ?); try done.
    by apply (wp_finish_existing s A f B).
  - intros A f B HF Hu Hnf Hal. pose proof (mid_ok s A f B Hinv HF) as Hok.
    destruct (claim_slot_ok n f) as (C1 & C2 & C3 & C4 & C5); [done | done | by apply file_ok_slot |].
    destruct (store_contents_ok (default [] contents) len (claim_slot n f)) as (E1 & E2 & E3 & E4);
      try done.
    by apply (wp_finish_new s A f B).
Qed.

(** *** Append *)

Definition contents_of (m : fsmap) (n : list Z) : list Z := default [] (m !! cstr n).

Lemma length_view f : file_ok f -> Z.of_nat (length (view f).2) = fsize f.
Proof.
  intros [(_ & _ & _ & Hs & Hd & _) _]. simpl. rewrite length_take, Hd. fs_consts. lia.
Qed.

Lemma wp_append s name contents :
  fs_inv s -> J s (live (FILES s)) -> bytes_ok (default [] name) -> bytes_ok (default [] contents) ->
  wp (fs_append name contents)
    (op_post s (<[cstr (default [] name) :=
        contents_of (as_map (FILES s)) (default [] name) ++ cstr (default [] contents)]>
          (as_map (FILES s)))) s.
Proof.
  intros Hinv HJs Hnb Hcb. unfold fs_append. apply wp_bind, wp_get.
  apply wp_if; intros Hg; [by apply wp_ret, op_post_refuse|].
  repeat (apply orb_false_iff in Hg as [Hg ?]). apply negb_false_iff in Hg.
  destruct name as [n|]; [|done]. cbn [from_option id] in *.
  set (c := default [] contents) in *.
  assert (Hlen : 0 <= kstrlen c <= Z.of_nat (length c)).
  { rewrite kstrlen_cstr. pose proof (length_cstr c). lia. }
  assert (Htake : take (Z.to_nat (kstrlen c)) c = cstr c).
  { rewrite kstrlen_cstr, Nat2Z.id. apply take_cstr. }
  apply wp_if; intros Hmax; [by apply wp_ret, op_post_refuse|]. apply Z.leb_gt in Hmax.
  apply wp_bind, wp_open_for_write; [done|..].
  - intros _ _. by apply wp_ret, op_post_refuse.
  - intros A f B HF Hu Hn. pose proof (mid_ok s A f B Hinv HF) as Hok. pose proof Hinv as [Hwf Hb].
    apply wp_bind, (wp_file_at A f B); [done|]. apply wp_if; intros Hroom.
    { apply wp_bind, wp_ret, wp_ret. split_and!; try done.
      - split; [done | by apply file_ok_slot].
      - by apply contract_backup. }
    apply Z.ltb_ge in Hroom.
    destruct (append_contents_ok c (kstrlen c) f) as (? & ? & ? & E); try done; [lia|].
    apply (wp_finish_existing s A f B); try done. rewrite E, Htake. f_equal.
    unfold contents_of. rewrite HF in Hwf |- *. by rewrite as_map_used, Hn, lookup_insert_eq.
  - intros A f B HF Hu Hnf Hal. pose proof (mid_ok s A f B Hinv HF) as Hok. pose proof Hinv as [Hwf Hb].
    destruct (claim_slot_ok n f) as (C1 & C2 & C3 & C4 & C5); [done | done | by apply file_ok_slot |].
    apply wp_bind, (wp_file_at A (claim_slot n f) B); [done|]. rewrite C4.
    apply wp_if; intros Hroom; [apply Z.ltb_lt in Hroom; lia|].
    destruct (append_contents_ok c (kstrlen c) (claim_slot n f)) as (E1 & E2 & E3 & E4);
      [done | done | done | rewrite C4; lia |].
    apply (wp_finish_new s A f B); try done.
    rewrite E4, C5, Htake. f_equal. unfold contents_of, as_map.
    by rewrite not_elem_of_list_to_map_1 by (by apply find_mutable_None).
Qed.

(** *** Touch *)

Definition touch_map (m : fsmap) (n : list Z) : fsmap :=
  match m !! cstr n with Some _ => m | None => <[cstr n := []]> m end.

Lemma wp_touch s name :
  fs_inv s -> J s (live (FILES s)) -> bytes_ok (default [] name) ->
  wp (fs_touch name) (op_post s (touch_map (as_map (FILES s)) (default [] name))) s.
Proof.
  intros Hinv HJs Hnb. unfold fs_touch. apply wp_if; intros Hr; [by apply wp_ret, op_post_refuse|].
  apply wp_bind, wp_get. apply wp_if; intros Hg; [by apply wp_ret, op_post_refuse|].
  apply orb_false_iff in Hg as [Hg _]. apply negb_false_iff in Hg.
  destruct name as [n|]; [|done]. cbn [from_option id] in *. apply wp_bind, wp_get.
  pose proof Hinv as [Hwf Hb]. pose proof (find_mutable_map (FILES s) n Hwf) as Hm. unfold touch_map.
  destruct (fs_find_mutable (FILES s) (Some n)) as [i|] eqn:Hf.
  { apply wp_ret. destruct (proj1 Hm ltac:(done)) as [c ->]. done. }
  destruct (fs_allocate_slot (FILES s)) as [i|] eqn:Ha; [|by apply wp_ret, op_post_refuse].
  destruct (allocate_Some _ _ Ha) as (A & f & B & HF & <- & Hu).
  pose proof (mid_ok s A f B Hinv HF) as Hok.
  destruct (touch_slot_ok n f) as (C1 & C2 & C3 & C4); [done | done | by apply file_ok_slot |].
  set (f1 := set_empty (fs_copy_name (set_in_use true f) n)) in *.
  destruct (file_ok_clear f1 (file_ok_slot _ C1)) as [Hok0 Hu0].
  apply find_mutable_None in Hf.
  assert (Hnew : cstr (fname f1) ∉ map fst (others A B)).
  { rewrite HF, live_mid, Hu in Hf. by rewrite C3. }
  apply wp_bind, (wp_upd A f B); [done|].
  eapply wp_commit_or with (f' := f1) (f0 := fs_clear f1); try done.
  - by apply contract_files.
  - by rewrite Hu.
  - replace (as_map (FILES s) !! cstr n) with (@None (list Z))
      by (symmetry; by apply not_elem_of_list_to_map_1).
    rewrite HF in Hwf |- *. pose proof (files_wf_replace A f B f1 Hwf C1 ltac:(done)).
    by rewrite as_map_used, as_map_unused, C4, C3.
  - intros s2 (K1 & _). apply (wp_upd A f1 B); [exact K1 | done].
Qed.

(** *** Rename *)

Definition rename_map (m : fsmap) (old new : list Z) : fsmap :=
  if decide (cstr old = cstr new) then m
  else <[cstr new := contents_of m old]> (delete (cstr old) m).

Lemma copy_name_ok n f :
  bytes_ok n -> fs_is_valid_name (Some n) = true -> file_ok f ->
  let f' := fs_copy_name f n in
  file_ok f' /\ in_use f' = in_use f /\ cstr (fname f') = cstr n /\ (view f').2 = (view f).2.
Proof.
  intros Hb Hv [Hw _] f'. pose proof (valid_name_length n Hv) as Hl.
  destruct (copy_name_wf n f) as [Hw' Hc];
    [done | done | by apply file_wf_slot | by destruct Hw as (_ & _ & _ & ? & _)|].
  split_and!; try done. split; [done|]. intros _. by rewrite (fs_is_valid_name_cstr _ n).
Qed.

Lemma cstr_previous f :
  file_wf f -> cstr (copy_cstring (zeros 32) 32 (fname f)) = cstr (fname f) /\
  bytes_ok (copy_cstring (zeros 32) 32 (fname f)).
Proof.
  intros Hw. pose proof (length_cstr_fname f Hw) as Hl. destruct Hw as (Hn & Ht & Hb & _).
  split; [|auto with nos]. rewrite cstr_copy_cstring by (rewrite ?length_zeros; lia).
  apply take_ge. lia.
Qed.

Lemma wp_rename s old new allow :
  fs_inv s -> J s (live (FILES s)) -> bytes_ok (default [] old) -> bytes_ok (default [] new) ->
  wp (fs_rename_internal old new allow)
    (op_post s (rename_map (as_map (FILES s)) (default [] old) (default [] new))) s.
Proof.
  intros Hinv HJs Hob Hnb. unfold fs_rename_internal. apply wp_bind, wp_get.
  apply wp_if; intros Hv; [by apply wp_ret, op_post_refuse|].
  do 3 (apply wp_if; intros ?; [by apply wp_ret, op_post_refuse|]).
  apply orb_false_iff in Hv as [Hvo Hvn]. apply negb_false_iff in Hvo, Hvn.
  destruct old as [o|]; [|done]. destruct new as [n|]; [|done]. cbn [from_option id] in *.
  apply wp_bind, wp_get. destruct (fs_find_mutable (FILES s) (Some o)) as [i|] eqn:Hf;
    [|by apply wp_ret, op_post_refuse].
  destruct (find_mutable_Some _ _ _ Hf) as (A & f & B & HF & <- & Hu & Hn).
  pose proof (mid_ok s A f B Hinv HF) as Hok. pose proof Hinv as [Hwf Hb].
  apply wp_bind, (wp_file_at A f B); [done|].
  apply wp_if; intros _; [by apply wp_ret, op_post_refuse|].
  unfold rename_map. apply wp_if; intros Hcmp.
  { apply Z.eqb_eq, kstrcmp_cstr in Hcmp. apply wp_ret. rewrite decide_True by done. done. }
  apply wp_if; intros Hfn; [by apply wp_ret, op_post_refuse|].
  apply bool_decide_eq_false in Hfn. apply eq_None_not_Some, find_mutable_None in Hfn.
  rewrite decide_False by (intros ?%kstrcmp_cstr; apply Z.eqb_neq in Hcmp; done).
  destruct (copy_name_ok n f) as (C1 & C2 & C3 & C4); try done.
  destruct (cstr_previous f (proj1 Hok)) as [P1 P2].
  set (prev := copy_cstring (zeros 32) 32 (fname f)) in *.
  assert (Hvp : fs_is_valid_name (Some prev) = true).
  { rewrite (fs_is_valid_name_cstr _ (fname f)) by done. by apply Hok. }
  destruct (copy_name_ok prev (fs_copy_name f n)) as (E1 & E2 & E3 & E4); try done.
  apply wp_bind, (wp_upd A f B); [done|].
  assert (Hnew : cstr (fname (fs_copy_name f n)) ∉ map fst (others A B)).
  { rewrite C3. intros Hin. apply Hfn. rewrite HF, live_mid, !fmap_app. unfold others in Hin.
    rewrite fmap_app in Hin. apply elem_of_app in Hin as [?|?]; apply elem_of_app; [by left|right; apply elem_of_app; by right]. }
  eapply wp_commit_or with (f' := fs_copy_name f n) (f0 := fs_copy_name (fs_copy_name f n) prev);
    try done.
  - by apply contract_files.
  - intros _. unfold view in *. cbn [fst snd] in *. by rewrite E3, P1, E4, C4.
  - unfold contents_of. rewrite HF in Hwf |- *.
    pose proof (files_wf_replace A f B (fs_copy_name f n) Hwf C1 ltac:(done)) as Hwf'.
    rewrite as_map_used, (as_map_used A f B), C3, C4, Hn by (done || by rewrite C2).
    rewrite lookup_insert_eq, delete_insert_id; [done|]. rewrite <- Hn. by apply others_fresh.
  - intros s2 (K1 & _). apply (wp_upd A (fs_copy_name f n) B); [exact K1 | done].
Qed.

(** *** Remove *)

Lemma wp_remove s name allow :
  fs_inv s -> J s (live (FILES s)) ->
  wp (fs_remove_internal name allow)
    (op_post s (delete (cstr (default [] name)) (as_map (FILES s)))) s.
Proof.
  intros Hinv HJs. unfold fs_remove_internal.
  do 2 (apply wp_if; intros ?; [by apply wp_ret, op_post_refuse|]).
  apply wp_bind, wp_get. destruct name as [n|]; [|by apply wp_ret, op_post_refuse].
  destruct (fs_find_mutable (FILES s) (Some n)) as [i|] eqn:Hf; [|by apply wp_ret, op_post_refuse].
  destruct (find_mutable_Some _ _ _ Hf) as (A & f & B & HF & <- & Hu & Hn).
  pose proof (mid_ok s A f B Hinv HF) as Hok. pose proof Hinv as [Hwf Hb].
  apply wp_bind, wp_get, wp_bind, (wp_file_at A f B); [done|].
  apply wp_if; intros _; [by apply wp_ret, op_post_refuse|].
  pose proof (file_ok_slot _ Hok) as Hs. destruct (file_ok_clear f Hs) as [Hok0 Hu0].
  apply wp_bind, (wp_save_backup A f B); [done | done | done |].
  apply wp_bind, (wp_upd A f B); [done|].
  eapply wp_commit_or with (f' := fs_clear f) (f0 := f); try done.
  - by apply contract_files, contract_backup.
  - rewrite HF in Hwf |- *.
    pose proof (files_wf_replace A f B (fs_clear f) Hwf Hok0 ltac:(by rewrite Hu0)) as Hwf'.
    rewrite (as_map_used A f B), as_map_unused, Hn by done. cbn [from_option id].
    rewrite delete_insert_id; [done|]. rewrite <- Hn. by apply others_fresh.
  - intros s2 (K1 & K2 & _).
    apply wp_restore_backup with (fs_clear f); [exact K1 | exact K2 | by apply file_ok_slot | done].
Qed.
End Contract.
