(* ===== verification/FsRefine.v ===== *)
(** * kernel/fs.c, part 8: histories of requests

    The public calls that change the filesystem are the constructors of
    [fs_request]; a history is a list of them.  Every history is simulated by
    the abstract map, keeps the table well formed, cannot touch reserved
    names without the system entry points, and, on a persistent mount, is on
    the disk when it is over. *)

From stdpp Require Import gmap.
From S2P Require Import Prelude CString Syslog Ata BlockDev FsFormat FsCodec FsRoundtrip FsStore FsDurable FsOps FsSpec.

Open Scope st_scope.

Inductive fs_request :=
| Touch (name : option (list Z))
| WriteBytes (name contents : option (list Z)) (length : Z)
| WriteText (name contents : option (list Z))
| SystemWriteBytes (name contents : option (list Z)) (length : Z)
| Append (name contents : option (list Z))
| Rename (old_name new_name : option (list Z))
| SystemRename (old_name new_name : option (list Z))
| Remove (name : option (list Z))
| SystemRemove (name : option (list Z)).

Abbreviation str := (default (@nil Z)).

(** Arguments are C objects: byte strings, and a length inside its buffer. *)
Definition request_ok (q : fs_request) : Prop :=
  match q with
  | Touch n | Remove n | SystemRemove n => bytes_ok (str n)
  | WriteBytes n c len | SystemWriteBytes n c len =>
      bytes_ok (str n) /\ bytes_ok (str c) /\ 0 <= len <= Z.of_nat (length (str c))
  | WriteText n c | Append n c | Rename n c | SystemRename n c =>
      bytes_ok (str n) /\ bytes_ok (str c)
  end.

Definition run_request {D} `{BlockDevice D} (q : fs_request) : ST (fs_state D) bool :=
  match q with
  | Touch n => fs_touch n
  | WriteBytes n c len => fs_write_bytes n c len
  | WriteText n c => fs_write n c
  | SystemWriteBytes n c len => fs_system_write_bytes n c len
  | Append n c => fs_append n c
  | Rename o n => fs_rename o n
  | SystemRename o n => fs_system_rename o n
  | Remove n => fs_remove n
  | SystemRemove n => fs_system_remove n
  end.

Fixpoint run_requests {D} `{BlockDevice D} (qs : list fs_request) : ST (fs_state D) (list bool) :=
  match qs with
  | [] => st_ret []
  | q :: qs =>
      let! r := run_request q in
      let! rs := run_requests qs in
      st_ret (r :: rs)
  end.

(** ** The abstract machine *)

Definition spec_request (q : fs_request) (m : fsmap) : fsmap :=
  match q with
  | Touch n => touch_map m (str n)
  | WriteBytes n c len | SystemWriteBytes n c len => <[cstr (str n) := take (Z.to_nat len) (str c)]> m
  | WriteText n c => <[cstr (str n) := cstr (str c)]> m
  | Append n c => <[cstr (str n) := contents_of m (str n) ++ cstr (str c)]> m
  | Rename o n | SystemRename o n => rename_map m (str o) (str n)
  | Remove n | SystemRemove n => delete (cstr (str n)) m
  end.

Fixpoint spec_requests (qs : list fs_request) (rs : list bool) (m : fsmap) : fsmap :=
  match qs, rs with
  | q :: qs, r :: rs => spec_requests qs rs (if r : bool then spec_request q m else m)
  | _, _ => m
  end.

(** ** Commit contracts *)

#[export] Instance any_device_contract {D} `{BlockDevice D} : CommitContract (fun (_ : fs_state D) _ => True).
Proof. split; done. Qed.

(** On a persistent mount the newest snapshot on the medium is [files]. *)
Definition durable {D} `{DiskLaws D} (s : fs_state D) (files : list (list Z * list Z)) : Prop :=
  g_backend_status s = FS_BACKEND_PERSISTENT ->
  current (dev s) (g_active_slot s) (g_active_generation s) files.

Lemma wp_commit_durable {D} `{DiskLaws D} (s : fs_state D) old :
  files_wf (FILES s) -> durable s old ->
  wp fs_commit_changes (fun ok s' => durable s' (if ok then live (FILES s) else old)) s.
Proof.
  intros Hwf Hd. unfold fs_commit_changes. apply wp_bind, wp_get, wp_bind, wp_mod.
  destruct (fs_serialize (FILES s)) as [ok t] eqn:Hser; cbn [fst snd].
  apply wp_if; intros _; [by apply wp_ret|].
  apply wp_bind, wp_get. cbn [g_backend_status set_g_disk_table].
  apply wp_if; intros Hst.
  { apply wp_ret. intros Hp. simpl in Hp. rewrite Hp in Hst. done. }
  apply negb_false_iff, bool_decide_eq_true in Hst.
  apply wp_bind. eapply wp_mono.
  { apply (wp_sync false (set_g_disk_table t s)); [exact Hwf | reflexivity | reflexivity |].
    exact (Hd Hst). }
  intros r s' [_ Hr]. apply wp_if; intros Hc.
  - apply wp_ret. apply bool_decide_eq_true in Hc as ->. destruct Hr as (Hc & E1 & E2 & _).
    intros _. by rewrite E1, E2.
  - apply wp_bind, wp_mod, wp_if; intros _; apply wp_bind, wp_log; intros s2 H2; apply wp_ret;
      intros Hp; destruct H2 as [E _]; rewrite E in Hp; done.
Qed.

#[export] Instance durable_contract {D} `{DiskLaws D} : CommitContract (D := D) durable.
Proof. split; [done | done | exact wp_commit_durable]. Qed.

(** ** One request *)

Section Requests.
Context {D : Type} {HBD : BlockDevice D} (J : fs_state D -> list (list Z * list Z) -> Prop).
Context {HJ : CommitContract J}.

Lemma wp_request q s :
  request_ok q -> fs_inv s -> J s (live (FILES s)) ->
  wp (run_request q) (op_post J s (spec_request q (as_map (FILES s)))) s.
Proof.
  intros Hok Hinv HJs. destruct q; simpl in *.
  - by apply wp_touch.
  - destruct Hok as (? & ? & ?). by apply wp_write_bytes.
  - destruct Hok as [? ?]. destruct contents as [c|]; [|by apply wp_ret, op_post_refuse].
    unfold fs_write, fs_write_bytes. simpl.
    pose proof (length_cstr c) as Hl.
    assert (E : cstr c = take (Z.to_nat (kstrlen c)) (str (Some c)))
      by (rewrite kstrlen_cstr, Nat2Z.id; symmetry; apply take_cstr).
    rewrite E. apply wp_write_bytes; try done. rewrite kstrlen_cstr. simpl. lia.
  - destruct Hok as (? & ? & ?). unfold fs_system_write_bytes.
    apply wp_if; intros _; [by apply wp_ret, op_post_refuse|]. by apply wp_write_bytes.
  - destruct Hok as [? ?]. by apply wp_append.
  - destruct Hok as [? ?]. by apply wp_rename.
  - destruct Hok as [? ?]. unfold fs_system_rename.
    apply wp_if; intros _; [by apply wp_ret, op_post_refuse|]. by apply wp_rename.
  - by apply wp_remove.
  - unfold fs_system_remove.
    apply wp_if; intros _; [by apply wp_ret, op_post_refuse|]. by apply wp_remove.
Qed.

Lemma wp_requests qs s :
  Forall request_ok qs -> fs_inv s -> J s (live (FILES s)) ->
  wp (run_requests qs) (fun rs s' =>
    fs_inv s' /\ J s' (live (FILES s')) /\ g_self_test_active s' = g_self_test_active s /\
    as_map (FILES s') = spec_requests qs rs (as_map (FILES s))) s.
Proof.
  intros Hok. revert s. induction Hok as [|q qs Hq Hqs IH]; intros s Hinv HJs; cbn [run_requests].
  { by apply wp_ret. }
  apply wp_bind. eapply wp_mono; [by apply wp_request|]. intros r s1 (I1 & J1 & A1 & Hr).
  apply wp_bind. eapply wp_mono; [by apply IH|]. intros rs s2 (I2 & J2 & A2 & Hm).
  apply wp_ret. split_and!; try done; [congruence|]. rewrite Hm. simpl. f_equal.
  destruct r; [done|]. unfold as_map. by rewrite Hr.
Qed.
End Requests.

(** ** Reserved names *)

Definition is_user_request (q : fs_request) : bool :=
  match q with
  | SystemWriteBytes _ _ _ | SystemRename _ _ | SystemRemove _ => false
  | _ => true
  end.

(** The names the public calls refuse. *)
Definition reserved_names : list (list Z) := cs "system.log" :: system_names.

(** The names a request mentions. *)
Definition request_names (q : fs_request) : list (option (list Z)) :=
  match q with
  | Touch n | Remove n | SystemRemove n => [n]
  | WriteBytes n _ _ | SystemWriteBytes n _ _ | WriteText n _ | Append n _ => [n]
  | Rename o n | SystemRename o n => [o; n]
  end.

Definition is_reserved (name : option (list Z)) : bool :=
  fs_name_is_system_log name || fs_name_is_system_managed name.

Lemma reserved_names_reflect n : cstr n ∈ reserved_names -> is_reserved (Some n) = true.
Proof.
  intros Hin. unfold is_reserved, reserved_names in *. apply elem_of_cons in Hin as [Hl|Hs].
  - apply orb_true_iff. left. apply Z.eqb_eq, kstrcmp_cstr. rewrite Hl. done.
  - apply orb_true_iff. right. apply existsb_exists. exists (cstr n).
    split; [by apply list_elem_of_In|]. apply Z.eqb_eq, kstrcmp_cstr. by rewrite cstr_cstr.
Qed.

Ltac guard_true Hr :=
  destruct Hr as [-> | ->]; cbn [negb andb orb]; rewrite ?orb_true_r; cbn [orb];
  rewrite ?orb_true_r; reflexivity.

(** A guard that refuses a reserved name. *)
Lemma user_request_refused {D} `{BlockDevice D} q name (s : fs_state D) :
  is_user_request q = true -> name ∈ request_names q -> is_reserved name = true ->
  (run_request q s).1 = false.
Proof.
  unfold is_reserved. intros Hu Hin Hr. apply orb_true_iff in Hr.
  destruct q; try done; simpl in Hin;
    repeat (apply elem_of_cons in Hin as [<-|Hin]); try by apply elem_of_nil in Hin.
  - unfold run_request, fs_touch.
    by replace (_ || _) with true by (symmetry; by apply orb_true_iff).
  - unfold run_request, fs_write_bytes, fs_write_bytes_internal, st_bind, st_get. guard_true Hr.
  - unfold run_request, fs_write, fs_write_bytes, fs_write_bytes_internal, st_bind, st_get.
    destruct contents; [guard_true Hr | done].
  - unfold run_request, fs_append, st_bind, st_get. guard_true Hr.
  - unfold run_request, fs_rename, fs_rename_internal, st_bind, st_get. destruct (_ || _); [done|].
    destruct Hr as [-> | ->]; [done|]. cbn [negb andb orb]. by destruct (_ || _).
  - unfold run_request, fs_rename, fs_rename_internal, st_bind, st_get. destruct (_ || _); [done|].
    destruct Hr as [-> | ->]; rewrite ?orb_true_r; [done|]. cbn [negb andb orb]. by destruct (_ || _).
  - unfold run_request, fs_remove, fs_remove_internal.
    destruct Hr as [-> | ->]; [done|]. by destruct (fs_name_is_system_log _).
Qed.

Lemma spec_request_other q m n :
  (forall name, name ∈ request_names q -> cstr (str name) <> n) -> spec_request q m !! n = m !! n.
Proof.
  intros Hn.
  destruct q; simpl in *; unfold touch_map, rename_map;
    try (rewrite lookup_insert_ne by (apply Hn; by apply elem_of_cons; left)); try done.
  - destruct (m !! cstr _); [done|]. apply lookup_insert_ne, Hn. by left.
  - case_decide; [done|]. rewrite lookup_insert_ne by (apply Hn; right; by left).
    apply lookup_delete_ne, Hn. by left.
  - case_decide; [done|]. rewrite lookup_insert_ne by (apply Hn; right; by left).
    apply lookup_delete_ne, Hn. by left.
  - apply lookup_delete_ne, Hn. by left.
  - apply lookup_delete_ne, Hn. by left.
Qed.

Lemma reserved_nonempty n : n ∈ reserved_names -> n <> [].
Proof.
  assert (Hall : Forall (fun n => n <> []) reserved_names) by (repeat constructor; done).
  rewrite Forall_forall in Hall. apply Hall.
Qed.

Lemma wp_user_request {D} `{BlockDevice D} q (s : fs_state D) n :
  request_ok q -> is_user_request q = true -> fs_inv s -> n ∈ reserved_names ->
  wp (run_request q) (fun _ s' => fs_inv s' /\ as_map (FILES s') !! n = as_map (FILES s) !! n) s.
Proof.
  intros Hok Hu Hinv Hn.
  pose proof (wp_request (fun _ _ => True) q s Hok Hinv I) as (Hinv' & _ & _ & Hr).
  unfold wp. split; [done|]. destruct (run_request q s).1 eqn:E.
  - rewrite Hr. apply spec_request_other. intros [nm|] Hin Heq; simpl in Heq.
    + assert (Hres : is_reserved (Some nm) = true) by (apply reserved_names_reflect; by rewrite Heq).
      by rewrite (user_request_refused q (Some nm) s Hu Hin Hres) in E.
    + by apply (reserved_nonempty n Hn).
  - unfold as_map. by rewrite Hr.
Qed.

(** ** Main theorems *)

(** C3: on every device, whatever its transfers report, a history of
    public filesystem calls keeps the file table well formed and refines the
    abstract map from names to contents: each call that returned [true] had
    exactly its map effect (create, replace, extend, move, delete), each call
    that returned [false] had none. *)
Theorem fs_requests_refine_map {D} `{BlockDevice D} (qs : list fs_request) (s s' : fs_state D)
    (rs : list bool) :
  Forall request_ok qs -> fs_inv s -> run_requests qs s = (rs, s') ->
  fs_inv s' /\ length rs = length qs /\
  as_map (FILES s') = spec_requests qs rs (as_map (FILES s)).
Proof.
  intros Hok Hinv Hrun. pose proof (wp_requests (fun _ _ => True) qs s Hok Hinv I) as Hw.
  unfold wp in Hw. rewrite Hrun in Hw. destruct Hw as (? & _ & _ & ?). split_and!; try done.
  clear -Hrun. revert s rs s' Hrun. induction qs as [|q qs IH]; intros s rs s'; simpl.
  { by intros [= <- <-]. }
  unfold st_bind. destruct (run_request q s) as [r s1].
  destruct (run_requests qs s1) as [rs' s2] eqn:E. intros [= <- <-]. simpl. f_equal. by eapply IH.
Qed.

(** C6: on every device, a call that returns [false] leaves the files
    exactly as they were: same names, same contents, same order, even when
    the failure came after the table was already changed in memory. *)
Theorem fs_failed_request_changes_nothing {D} `{BlockDevice D} (q : fs_request) (s s' : fs_state D) :
  request_ok q -> fs_inv s -> run_request q s = (false, s') ->
  live (FILES s') = live (FILES s) /\ fs_inv s'.
Proof.
  intros Hok Hinv Hrun. pose proof (wp_request (fun _ _ => True) q s Hok Hinv I) as Hw.
  unfold wp in Hw. rewrite Hrun in Hw. by destruct Hw as (? & _ & _ & ?).
Qed.

(** no history of calls outside the three system entry points
    creates, changes or deletes [system.log] or any of the eleven
    system-managed names. *)
Theorem fs_reserved_names_protected {D} `{BlockDevice D} (qs : list fs_request) (s s' : fs_state D)
    (rs : list bool) (n : list Z) :
  Forall request_ok qs -> Forall (fun q => is_user_request q = true) qs -> fs_inv s ->
  n ∈ reserved_names -> run_requests qs s = (rs, s') ->
  as_map (FILES s') !! n = as_map (FILES s) !! n.
Proof.
  intros Hok. revert s rs. induction Hok as [|q qs Hq Hqs IH]; intros s rs Hus Hinv Hn Hrun.
  { by injection Hrun as <- <-. }
  apply Forall_cons in Hus as [Hu Hus]. cbn [run_requests] in Hrun. unfold st_bind in Hrun.
  pose proof (wp_user_request q s n Hq Hu Hinv Hn) as [Hinv1 Hm1].
  destruct (run_request q s) as [r s1]. destruct (run_requests qs s1) as [rs' s2] eqn:E.
  injection Hrun as <- <-. simpl in *. by rewrite (IH s1 rs').
Qed.

(** C2: start from a mount whose files are the newest snapshot on the
    medium and run any history of calls on a device that obeys the laws.  If
    the volume still calls itself persistent at the end, a later mount of the
    same medium delivers exactly the files in memory: every call that
    returned [true] is on the disk, in order, and nothing else is. *)
Theorem fs_requests_durable {D} `{DiskLaws D} (qs : list fs_request) (s s' m m' : fs_state D)
    (rs : list bool) (res : fs_disk_load_result) :
  Forall request_ok qs -> fs_inv s -> durable s (live (FILES s)) ->
  run_requests qs s = (rs, s') -> g_backend_status s' = FS_BACKEND_PERSISTENT ->
  reliable (dev m) -> same_disk (dev s') (dev m) -> table_wf (g_disk_table m) ->
  length (FILES m) = FS_MAX_FILES -> Forall slot_wf (FILES m) ->
  fs_load_from_disk m = (res, m') ->
  live (FILES m') = live (FILES s') /\
  as_map (FILES m') = spec_requests qs rs (as_map (FILES s)).
Proof.
  intros Hok Hinv Hd Hrun Hp Hrel Hsame Htw Hl HF Hload.
  pose proof (wp_requests durable qs s Hok Hinv Hd) as Hw. unfold wp in Hw. rewrite Hrun in Hw.
  destruct Hw as (_ & Hd' & _ & Hm). cbn [fst snd] in *.
  specialize (Hd' Hp). eapply (current_keep _ (dev m)) in Hd'; [|auto].
  pose proof (wp_load m _ _ _ Hrel (length_encode_table _ Htw) Hl HF Hd') as Hld.
  unfold wp in Hld. rewrite Hload in Hld. destruct Hld as (_ & _ & _ & _ & Hlive & _).
  simpl in Hlive. split; [done|]. rewrite <- Hm. unfold as_map. by rewrite Hlive.
Qed.

(** ** When a write succeeds *)

(** Disk records a set of files needs. *)
Definition records_used (m : fsmap) : nat :=
  sum_list_with (fun e => Z.to_nat (fs_disk_records_needed (Z.of_nat (length e.2)))) (map_to_list m).

Lemma sum_list_with_perm {A} (f : A -> nat) l k : l ≡ₚ k -> sum_list_with f l = sum_list_with f k.
Proof. induction 1; simpl; lia. Qed.

Lemma records_used_live F :
  files_wf F -> records_used (as_map F) = length (recs_of F).
Proof.
  intros Hwf. pose proof Hwf as (_ & Hw & _ & Hnd). unfold records_used, as_map.
  rewrite (sum_list_with_perm _ _ (live F)) by (by apply map_to_list_to_map).
  rewrite length_recs_of by done.
  clear Hnd. pose proof (files_wf_ok _ Hwf) as Hok. clear Hwf.
  induction Hw as [|f F Hf Hw IH]; [done|]. apply Forall_cons in Hok as [Hfo Hok].
  cbn [live sum_list_with]. destruct (in_use f); cbn [sum_list_with]; rewrite IH by done; [|done].
  by rewrite length_view.
Qed.

Lemma serialize_fits F :
  files_wf F -> (fs_serialize F).1 = bool_decide (records_used (as_map F) <= 32)%nat.
Proof.
  intros Hwf. rewrite records_used_live, fs_serialize_table by done. rewrite FS_MAX_FILES_eq.
  destruct (Nat.leb_spec (length (recs_of F)) 32); [by rewrite bool_decide_true|].
  by rewrite bool_decide_false by lia.
Qed.

Lemma records_used_size m : (size m <= records_used m)%nat.
Proof.
  unfold records_used. rewrite <- length_map_to_list.
  induction (map_to_list m) as [|[k c] l IH]; simpl; [lia|].
  pose proof (needed_parts (Z.of_nat (length c)) ltac:(lia)) as Hn.
  pose proof (chunk_of_range (Z.of_nat (length c)) ltac:(lia)).
  pose proof (parts_nonneg (Z.of_nat (length c)) (chunk_of (Z.of_nat (length c))) ltac:(lia)). lia.
Qed.

Section Progress.
Context {D : Type} {HBD : BlockDevice D}.

Lemma wp_on_dev {A} (m : ST D A) (Q : A -> fs_state D -> Prop) s :
  Q (m (dev s)).1 (set_dev (m (dev s)).2 s) -> wp (on_dev m) Q s.
Proof. unfold wp, on_dev. by destruct (m (dev s)). Qed.

(** A device that answers commits whatever fits. *)
Lemma wp_sync_reliable s :
  reliable (dev s) -> (fs_serialize (FILES s)).1 = true ->
  wp (fs_sync_to_disk_verified false) (fun r _ => r = FS_SYNC_COMMITTED) s.
Proof.
  intros Hrel Hser. destruct (reliable_init (dev s) Hrel) as [Hi Hr1].
  unfold fs_sync_to_disk_verified. apply wp_bind, wp_on_dev. rewrite Hi. cbn [negb bool_decide].
  cbv iota. do 3 apply wp_bind, wp_get. apply wp_bind, wp_mod.
  cbn [FILES set_dev g_active_slot g_active_generation]. rewrite Hser. cbn [negb]. cbv iota.
  apply wp_bind, wp_get, wp_bind, wp_on_dev. cbn [dev set_g_disk_table set_dev].
  match goal with |- context [bd_write ?a ?b ?c ?d] =>
    destruct (reliable_write d a b c Hr1) as [-> Hr2] end.
  cbn [bool_decide orb]. cbv iota. unfold sync_header. apply wp_bind, wp_get, wp_bind, wp_on_dev.
  cbn [dev set_dev].
  match goal with |- context [bd_write ?a ?b ?c ?d] =>
    destruct (reliable_write d a b c Hr2) as [-> _] end.
  cbn [bool_decide orb]. cbv iota. by unfold fs_accept_commit; wp_steps.
Qed.

Definition answers (s : fs_state D) : Prop :=
  g_backend_status s <> FS_BACKEND_PERSISTENT \/ reliable (dev s).

Lemma wp_commit_result s :
  answers s -> files_wf (FILES s) ->
  wp fs_commit_changes (fun ok _ =>
    ok = bool_decide (records_used (as_map (FILES s)) <= 32)%nat) s.
Proof.
  intros Ha Hwf. rewrite <- serialize_fits by done. unfold fs_commit_changes.
  apply wp_bind, wp_get, wp_bind, wp_mod. apply wp_if; intros Hser.
  { apply wp_ret. by apply negb_true_iff in Hser. }
  apply negb_false_iff in Hser. rewrite Hser. apply wp_bind, wp_get. apply wp_if; intros Hst.
  { by apply wp_ret. }
  apply negb_false_iff, bool_decide_eq_true in Hst. destruct Ha as [Hne|Hrel]; [done|].
  apply wp_bind. eapply wp_mono; [by apply wp_sync_reliable|]. intros r s' ->. by apply wp_ret.
Qed.

Lemma wp_commit_or_result s undo :
  answers s -> files_wf (FILES s) ->
  wp (commit_or undo) (fun ok _ =>
    ok = bool_decide (records_used (as_map (FILES s)) <= 32)%nat) s.
Proof.
  intros Ha Hwf. apply wp_bind. eapply wp_mono; [by apply wp_commit_result|].
  intros ok s' ->. destruct (bool_decide _); [by apply wp_ret|]. apply wp_bind, wp_intro.
  intros [] s2 _. by apply wp_ret.
Qed.
End Progress.

(** The conditions under which the public write call accepts a request. *)
Definition write_allowed (name : option (list Z)) (length : Z) (self_test : bool) : bool :=
  fs_is_valid_name name && negb (is_reserved name) &&
  (negb (fs_name_is_self_test_file name) || self_test) && (length <? FS_MAX_FILE_SIZE).

Lemma full_table F n :
  files_wf F -> fs_find_mutable F (Some n) = None -> fs_allocate_slot F = None ->
  forall c, (32 < records_used (<[cstr n := c]> (as_map F)))%nat.
Proof.
  intros Hwf Hf Ha c. pose proof Hwf as (Hl & _ & _ & Hnd).
  assert (Hnone : as_map F !! cstr n = None).
  { by apply not_elem_of_list_to_map_1, find_mutable_None. }
  assert (Hsize : size (as_map F) = 32%nat).
  { unfold as_map. rewrite <- length_map_to_list.
    rewrite (Permutation_length (map_to_list_to_map _ Hnd)).
    rewrite FS_MAX_FILES_eq in Hl. rewrite <- Hl. apply find_first_None in Ha. clear -Ha.
    induction Ha as [|f F Hu Ha IH]; [done|]. apply negb_false_iff in Hu. simpl. rewrite Hu. simpl. lia. }
  pose proof (records_used_size (<[cstr n := c]> (as_map F))) as Hs.
  rewrite map_size_insert_None in Hs by done. lia.
Qed.

Lemma wp_write_result {D} `{BlockDevice D} (s : fs_state D) n c len :
  fs_inv s -> answers s -> bytes_ok n -> bytes_ok c -> 0 <= len <= Z.of_nat (length c) ->
  wp (fs_write_bytes (Some n) (Some c) len) (fun r _ =>
    r = write_allowed (Some n) len (g_self_test_active s) &&
        bool_decide (records_used (<[cstr n := take (Z.to_nat len) c]> (as_map (FILES s))) <= 32)%nat) s.
Proof.
  intros Hinv Ha Hnb Hcb Hlen. pose proof Hinv as [Hwf Hb].
  unfold fs_write_bytes, fs_write_bytes_internal, write_allowed, is_reserved.
  apply wp_bind, wp_get. rewrite bool_decide_true by done. cbn [negb andb].
  destruct (fs_is_valid_name (Some n)) eqn:Hv; cbn [negb orb andb]; [|by apply wp_ret].
  destruct (fs_name_is_system_log (Some n)); cbn [negb orb andb]; [by apply wp_ret|].
  destruct (fs_name_is_system_managed (Some n)); cbn [negb orb andb]; [by apply wp_ret|].
  rewrite orb_false_r.
  destruct (fs_name_is_self_test_file (Some n) && negb (g_self_test_active s)) eqn:Hst.
  { replace (negb (fs_name_is_self_test_file (Some n)) || g_self_test_active s) with false;
      [by apply wp_ret|]. by destruct (fs_name_is_self_test_file (Some n)), (g_self_test_active s). }
  replace (negb (fs_name_is_self_test_file (Some n)) || g_self_test_active s) with true
    by (by destruct (fs_name_is_self_test_file (Some n)), (g_self_test_active s)).
  cbn [orb andb]. rewrite Z.leb_antisym.
  destruct (len <? FS_MAX_FILE_SIZE) eqn:Hm; cbn [negb andb]; [|by apply wp_ret].
  apply Z.ltb_lt in Hm. apply wp_bind, wp_open_for_write; [done|..].
  - intros Hf Hal. apply wp_ret. symmetry. apply bool_decide_eq_false.
    pose proof (full_table (FILES s) n Hwf Hf Hal (take (Z.to_nat len) c)). lia.
  - intros A f B HF Hu Hn. pose proof (mid_ok s A f B Hinv HF) as Hok.
    destruct (store_contents_ok c len f) as (E1 & E2 & E3 & E4); try done.
    apply wp_bind, (wp_upd A f B); [done|].
    pose proof (mid_fresh s A f B Hinv HF Hu) as Hfr. rewrite HF in Hwf |- *.
    pose proof (files_wf_replace A f B (store_contents c len f) Hwf E1 ltac:(by rewrite E3)) as Hwf'.
    eapply wp_mono; [by apply wp_commit_or_result|]. intros ok s' ->. cbn [FILES set_FILES].
    change (str (Some c)) with c.     rewrite (as_map_used A (store_contents c len f) B Hwf') by (by rewrite E2).
    by rewrite (as_map_used A f B), E3, E4, Hn, insert_insert_eq by done.
  - intros A f B HF Hu Hnf Hal. pose proof (mid_ok s A f B Hinv HF) as Hok.
    destruct (claim_slot_ok n f) as (C1 & C2 & C3 & C4 & C5); [done | done | by apply file_ok_slot |].
    destruct (store_contents_ok c len (claim_slot n f)) as (E1 & E2 & E3 & E4); try done.
    apply wp_bind, (wp_upd A (claim_slot n f) B); [done|].
    apply find_mutable_None in Hnf. rewrite HF in Hwf, Hnf |- *. rewrite live_mid, Hu in Hnf.
    pose proof (files_wf_replace A f B (store_contents c len (claim_slot n f)) Hwf E1
      ltac:(by rewrite E3, C3)) as Hwf'.
    eapply wp_mono; [by apply wp_commit_or_result|]. intros ok s' ->. cbn [FILES set_FILES].
    change (str (Some c)) with c.
    rewrite (as_map_used A (store_contents c len (claim_slot n f)) B Hwf') by (by rewrite E2).
    by rewrite (as_map_unused A f B), E3, E4, C3 by done.
Qed.

(** on a volatile volume, and on a device that answers, the public
    write call returns [true] exactly when the name is valid and not reserved,
    the data is shorter than 8,192 bytes, and the records of all files
    including the new one fit the 32-record table; it then stores exactly the
    given bytes under the name and changes no other file. *)
Theorem fs_write_bytes_exact {D} `{BlockDevice D} (s s' : fs_state D) (n c : list Z) (r : bool) :
  fs_inv s -> answers s -> bytes_ok n -> bytes_ok c ->
  fs_write_bytes (Some n) (Some c) (Z.of_nat (length c)) s = (r, s') ->
  r = write_allowed (Some n) (Z.of_nat (length c)) (g_self_test_active s) &&
      bool_decide (records_used (<[cstr n := c]> (as_map (FILES s))) <= 32)%nat /\
  as_map (FILES s') = if r then <[cstr n := c]> (as_map (FILES s)) else as_map (FILES s).
Proof.
  intros Hinv Ha Hnb Hcb Hrun. assert (Hlen : 0 <= Z.of_nat (length c) <= Z.of_nat (length c)) by lia.
  pose proof (wp_write_result s n c _ Hinv Ha Hnb Hcb Hlen) as Hr.
  pose proof (wp_write_bytes (fun _ _ => True) s (Some n) (Some c) _ false Hinv I Hnb Hcb Hlen) as Hw.
  unfold wp in Hr, Hw. unfold fs_write_bytes in *. rewrite Hrun in Hr, Hw. simpl in Hr, Hw.
  rewrite Nat2Z.id, take_ge in Hr by done. rewrite Nat2Z.id, take_ge in Hw by done.
  split; [done|]. destruct Hw as (_ & _ & _ & Hw). destruct r; [done|]. unfold as_map. by rewrite Hw.
Qed.

(** ** Witnesses *)

Definition mounted_state (d : sim_disk) : fs_state sim_disk :=
  FsState sample_files zero_table zero_file 0 7 5 FS_BACKEND_PERSISTENT
    FS_LEGACY_UPGRADE_UNAVAILABLE false zero_file false d.

Definition sound_disk : sim_disk := SimDisk true (formatted_sectors sample_files 7) [] syslog_boot.

Lemma mounted_state_inv d : fs_inv (mounted_state d).
Proof.
  split; [exact sample_files_wf|]. apply file_wf_slot, file_wfb_true. vm_compute. reflexivity.
Qed.

Lemma mounted_state_durable :
  durable (mounted_state sound_disk) (live (FILES (mounted_state sound_disk))).
Proof. intros _. exact (sample_current sound_disk eq_refl). Qed.

Definition sample_history : list fs_request :=
  [WriteBytes (Some (cs "n.bin")) (Some [1; 0; 3]) 3;
   Append (Some (cs "a.txt")) (Some (cs "xy"));
   Rename (Some (cs "a.txt")) (Some (cs "b.txt"));
   Remove (Some (cs "big.bin"));
   Remove (Some (cs "browser.elf"))].

Lemma sample_history_ok : Forall request_ok sample_history.
Proof.
  repeat constructor; simpl; try lia; try (apply cs_bytes_ok);
    apply bytes_okb_true; reflexivity.
Qed.

Lemma sample_history_run :
  (run_requests sample_history (mounted_state sound_disk)).1 = [true; true; true; true; false].
Proof. vm_compute. reflexivity. Qed.

Definition after_history : fs_state sim_disk :=
  (run_requests sample_history (mounted_state sound_disk)).2.

Lemma fs_requests_refine_map_witness :
  as_map (FILES after_history) = {[ cs "n.bin" := [1; 0; 3]; cs "b.txt" := [65; 65; 65; 120; 121] ]}.
Proof.
  destruct (fs_requests_refine_map sample_history (mounted_state sound_disk) after_history
    (run_requests sample_history (mounted_state sound_disk)).1 sample_history_ok
    (mounted_state_inv _) (surjective_pairing _)) as (_ & _ & Hm).
  rewrite Hm, sample_history_run. apply (bool_decide_eq_true_1 _). vm_compute. reflexivity.
Defined.

(** The table write of a new file fails outright: the call reports it. *)
Lemma fs_failed_request_changes_nothing_witness :
  let d := SimDisk true (formatted_sectors sample_files 7) [NoFault; FaultAfter 0] syslog_boot in
  live (FILES (run_request (WriteText (Some (cs "x")) (Some (cs "y"))) (mounted_state d)).2) =
  live sample_files.
Proof.
  intros d.
  destruct (fs_failed_request_changes_nothing (WriteText (Some (cs "x")) (Some (cs "y")))
    (mounted_state d) (run_request (WriteText (Some (cs "x")) (Some (cs "y"))) (mounted_state d)).2)
    as [Hl _].
  - split; apply cs_bytes_ok.
  - apply mounted_state_inv.
  - apply pair_of_fst. vm_compute. reflexivity.
  - exact Hl.
Defined.

Lemma fs_reserved_names_protected_witness :
  as_map (FILES after_history) !! cs "browser.elf" = None.
Proof.
  etransitivity; [apply (fs_reserved_names_protected sample_history (mounted_state sound_disk)
    after_history (run_requests sample_history (mounted_state sound_disk)).1 (cs "browser.elf"))|].
  - exact sample_history_ok.
  - repeat constructor.
  - apply mounted_state_inv.
  - apply (bool_decide_eq_true_1 _). vm_compute. reflexivity.
  - apply surjective_pairing.
  - vm_compute. reflexivity.
Defined.

Lemma fs_requests_durable_witness :
  let m' := (fs_load_from_disk (boot_state (dev after_history))).2 in
  as_map (FILES m') = {[ cs "n.bin" := [1; 0; 3]; cs "b.txt" := [65; 65; 65; 120; 121] ]}.
Proof.
  intros m'.
  destruct (fs_requests_durable sample_history (mounted_state sound_disk) after_history
    (boot_state (dev after_history)) m'
    (run_requests sample_history (mounted_state sound_disk)).1
    (fs_load_from_disk (boot_state (dev after_history))).1) as [_ Hm].
  - exact sample_history_ok.
  - apply mounted_state_inv.
  - exact mounted_state_durable.
  - apply surjective_pairing.
  - vm_compute. reflexivity.
  - rewrite boot_dev. apply sim_reliable; vm_compute; reflexivity.
  - intros l. by rewrite boot_dev.
  - exact zero_table_wf.
  - reflexivity.
  - exact zero_slots_wf.
  - apply surjective_pairing.
  - rewrite Hm, sample_history_run. apply (bool_decide_eq_true_1 _). vm_compute. reflexivity.
Defined.

Lemma fs_write_bytes_exact_witness :
  let r := fs_write_bytes (Some (cs "x")) (Some [7]) 1 (mounted_state sound_disk) in
  r.1 = true /\ as_map (FILES r.2) = <[cs "x" := [7]]> (as_map sample_files).
Proof.
  intros r. destruct (fs_write_bytes_exact (mounted_state sound_disk) r.2 (cs "x") [7] r.1)
    as [Hr Hm].
  - apply mounted_state_inv.
  - right. apply sim_reliable; reflexivity.
  - apply cs_bytes_ok.
  - apply bytes_okb_true. reflexivity.
  - apply surjective_pairing.
  - assert (E : r.1 = true) by (rewrite Hr; vm_compute; reflexivity).
    split; [exact E|]. rewrite Hm, E. reflexivity.
Defined.
