(* ===== verification/FsInit.v ===== *)
(** * kernel/fs.c, part 9: mounting, seeding, recovery and the self-test

    [fs_init] with everything it calls, the legacy upgrade, and the status
    queries.  The theorems say which media [fs_init] may write to. *)

From stdpp Require Import gmap.
From S2P Require Import Prelude CString Syslog Ata BlockDev FsFormat FsCodec FsRoundtrip FsStore FsDurable FsOps FsSpec FsRefine.

Open Scope st_scope.

(** ** Recovery names *)

(** [fs_recovered_self_test_name] and [fs_recovered_log_name] differ only in
    their literals. *)
Definition recovered_name (first base suffix : list Z) (attempt : nat) : list Z :=
  let out := take (FS_MAX_FILENAME - 1) (if (attempt =? 0)%nat then first else base) in
  let out :=
    if (attempt =? 0)%nat then out
    else
      let a := Z.of_nat attempt in
      let out := if 10 <=? a then out ++ [48 + (a / 10) mod 10] else out in
      let out := out ++ [48 + a mod 10] in
      out ++ take (FS_MAX_FILENAME - 1 - length out) suffix in
  out ++ [0].

Definition fs_recovered_self_test_name : nat -> list Z :=
  recovered_name (cs "recovered-fs-test.bin") (cs "recovered-fs-test-") (cs ".bin").

Definition fs_recovered_log_name : nat -> list Z :=
  recovered_name (cs "recovered-system-log.txt") (cs "recovered-system-log-") (cs ".txt").

(** The first candidate no file has, over attempts [attempt .. attempt+n-1]. *)
Fixpoint free_name (names : nat -> list Z) (n attempt : nat) (files : list fs_file)
    : option (list Z) :=
  match n with
  | O => None
  | S n' =>
      let candidate := names attempt in
      match fs_find_mutable files (Some candidate) with
      | None => Some candidate
      | Some _ => free_name names n' (attempt + 1) files
      end
  end.

(** ** Seeded files *)

Definition write_u16_le (b : list Z) (off : nat) (value : Z) : list Z :=
  memcpy_at b off [u8 value; u8 (Z.shiftr value 8)].

Definition write_u32_le (b : list Z) (off : nat) (value : Z) : list Z :=
  memcpy_at b off [u8 value; u8 (Z.shiftr value 8); u8 (Z.shiftr value 16); u8 (Z.shiftr value 24)].

Definition DEFAULT_BMP_WIDTH : Z := 17.
Definition DEFAULT_BMP_HEIGHT : Z := 17.
Definition DEFAULT_BMP_ROW_STRIDE : Z := 52.
Definition DEFAULT_BMP_PIXEL_OFFSET : Z := 54.
Definition DEFAULT_BMP_SIZE : Z :=
  DEFAULT_BMP_PIXEL_OFFSET + DEFAULT_BMP_ROW_STRIDE * DEFAULT_BMP_HEIGHT.

(** Blue, green and red of the default image at [x], [y]. *)
Definition default_pixel (x y : Z) : list Z :=
  let red := u8 (12 + x * 3) in
  let green := u8 (28 + y * 4) in
  let blue := u8 (58 + (x + y) * 2) in
  let logo := (2 <=? y) && (y <=? 14) &&
              ((x =? 3) || (x =? 13) || ((y <=? x + 1) && (x <=? y + 1))) in
  let border := (x =? 0) || (x =? DEFAULT_BMP_WIDTH - 1) ||
                (y =? 0) || (y =? DEFAULT_BMP_HEIGHT - 1) in
  if logo then [196; 238; 86] else if border then [148; 126; 36] else [blue; green; red].

Definition default_bmp_header : list Z :=
  let bmp := zeros DEFAULT_BMP_SIZE in
  let bmp := <[0%nat := 66]> bmp in
  let bmp := <[1%nat := 77]> bmp in
  let bmp := write_u32_le bmp 2 DEFAULT_BMP_SIZE in
  let bmp := write_u32_le bmp 10 DEFAULT_BMP_PIXEL_OFFSET in
  let bmp := write_u32_le bmp 14 40 in
  let bmp := write_u32_le bmp 18 DEFAULT_BMP_WIDTH in
  let bmp := write_u32_le bmp 22 DEFAULT_BMP_HEIGHT in
  let bmp := write_u16_le bmp 26 1 in
  let bmp := write_u16_le bmp 28 24 in
  let bmp := write_u32_le bmp 34 (DEFAULT_BMP_ROW_STRIDE * DEFAULT_BMP_HEIGHT) in
  let bmp := write_u32_le bmp 38 2835 in
  write_u32_le bmp 42 2835.

Definition default_bmp_row (bmp : list Z) (y : Z) : list Z :=
  let file_row := DEFAULT_BMP_HEIGHT - 1 - y in
  let row := DEFAULT_BMP_PIXEL_OFFSET + file_row * DEFAULT_BMP_ROW_STRIDE in
  fold_left (fun bmp x => memcpy_at bmp (Z.to_nat (row + x * 3)) (default_pixel x y))
    (seqZ 0 DEFAULT_BMP_WIDTH) bmp.

Definition default_bmp : list Z :=
  fold_left default_bmp_row (seqZ 0 DEFAULT_BMP_HEIGHT) default_bmp_header.

Definition fs_seed_bytes (files : list fs_file) (name contents : option (list Z)) (length : Z)
    : bool * list fs_file :=
  if negb (fs_is_valid_name name) || (negb (bool_decide (is_Some contents)) && negb (length =? 0)) ||
     (FS_MAX_FILE_SIZE <=? length)
  then (false, files)
  else
    match fs_find_mutable files name with
    | Some i => (true, alter (store_contents (default [] contents) length) i files)
    | None =>
        match fs_allocate_slot files with
        | None => (false, files)
        | Some i =>
            (true, alter (fun f => store_contents (default [] contents) length
                            (fs_copy_name (set_in_use true f) (default [] name))) i files)
        end
    end.

Definition fs_seed_file (files : list fs_file) (name contents : option (list Z))
    : bool * list fs_file :=
  match contents with
  | None => (false, files)
  | Some c => fs_seed_bytes files name (Some c) (kstrlen c)
  end.

Definition fs_seed_default_bmp (files : list fs_file) : bool * list fs_file :=
  fs_seed_bytes files (Some (cs "nostalux.bmp")) (Some default_bmp) DEFAULT_BMP_SIZE.

Definition readme_text : list Z :=
  cs "NostaluxOS is a retro-themed playground kernel." ++ [10] ++
  cs "Use 'help' to explore the built-in utilities." ++ [10].
Definition motd_text : list Z :=
  cs "Hold fast to curiosity and keep building!" ++ [10] ++
  cs "Type 'history' to revisit previous commands." ++ [10].
Definition colors_text : list Z :=
  cs "Color IDs 0-15 follow the standard IBM PC palette." ++ [10] ++
  cs "Run 'palette' to preview swatches." ++ [10].

(** The clean in-memory volume. *)
Definition seed_volume (files : list fs_file) : list fs_file :=
  let files := map fs_clear files in
  let files := (fs_seed_file files (Some (cs "readme.txt")) (Some readme_text)).2 in
  let files := (fs_seed_file files (Some (cs "motd.txt")) (Some motd_text)).2 in
  let files := (fs_seed_file files (Some (cs "colors.map")) (Some colors_text)).2 in
  (fs_seed_default_bmp files).2.

Section Init.
Context {D : Type} `{BlockDevice D}.
Abbreviation M := (ST (fs_state D)).

Definition fs_backend_status : M fs_backend_status_t := st_get g_backend_status.
Definition fs_backend_is_persistent : M bool :=
  st_get (fun s => bool_decide (g_backend_status s = FS_BACKEND_PERSISTENT)).
Definition fs_legacy_upgrade_status : M fs_legacy_upgrade_status_t := st_get g_legacy_upgrade_status.

Definition fs_backend_status_text (s : fs_state D) : list Z :=
  match g_backend_status s with
  | FS_BACKEND_PERSISTENT => cs "Persistent ATA storage"
  | FS_BACKEND_VOLATILE_NO_DRIVE => cs "Volatile memory (no ATA drive)"
  | FS_BACKEND_VOLATILE_CORRUPT =>
      match g_legacy_upgrade_status s with
      | FS_LEGACY_UPGRADE_AVAILABLE =>
          cs "Volatile memory (legacy snapshots differ; run fsupgrade)"
      | FS_LEGACY_UPGRADE_OUTCOME_UNCERTAIN =>
          cs "Volatile memory (legacy upgrade unverified; reboot)"
      | FS_LEGACY_UPGRADE_UNAVAILABLE => cs "Volatile memory (corrupt disk preserved)"
      end
  | FS_BACKEND_VOLATILE_IO_ERROR => cs "Volatile memory (storage I/O error)"
  | FS_BACKEND_UNINITIALIZED => cs "Filesystem not initialized"
  end.

Definition fs_legacy_upgrade_status_text (s : fs_state D) : list Z :=
  match g_legacy_upgrade_status s with
  | FS_LEGACY_UPGRADE_AVAILABLE =>
      cs "Legacy snapshots differ; explicit recovery upgrade available"
  | FS_LEGACY_UPGRADE_OUTCOME_UNCERTAIN =>
      cs "Legacy upgrade outcome is unverified; reboot before retrying"
  | FS_LEGACY_UPGRADE_UNAVAILABLE => cs "No legacy recovery upgrade is available"
  end.

(** ** Recovery of reserved names *)

Definition fs_clear_self_test_artifacts : M bool :=
  let! files := st_get FILES in
  let hit f := fs_file_is_self_test_artifact (Some f) in
  do! st_mod (set_FILES (map (fun f => if hit f then fs_clear f else f) files)) in
  st_ret (existsb hit files).

(** The outer loop of [fs_quarantine_self_test_artifacts], slots [i ..]. *)
Fixpoint quarantine_slots (n i : nat) (changed : bool) : M bool :=
  match n with
  | O => st_ret changed
  | S n' =>
      let! files := st_get FILES in
      let! file := file_at i in
      if negb (fs_file_is_self_test_artifact (Some file)) then quarantine_slots n' (i + 1) changed
      else
        match free_name fs_recovered_self_test_name (FS_MAX_FILES + 1) 0 files with
        | None => quarantine_slots n' (i + 1) changed
        | Some candidate =>
            do! upd i (fun f => fs_copy_name f candidate) in
            quarantine_slots n' (i + 1) true
        end
  end.

Definition fs_quarantine_self_test_artifacts : M bool := quarantine_slots FS_MAX_FILES 0 false.

Definition fs_activate_virtual_system_log : M unit :=
  do! st_mod (fun s => set_g_virtual_system_log
        (fs_copy_name (set_in_use true (fs_clear (g_virtual_system_log s))) (cs "system.log")) s) in
  st_mod (set_g_system_log_is_virtual true).

Definition fs_quarantine_physical_system_log : M bool :=
  let! files := st_get FILES in
  match fs_find_mutable files (Some (cs "system.log")) with
  | None => st_ret false
  | Some physical =>
      match free_name fs_recovered_log_name (FS_MAX_FILES + 1) 0 files with
      | None => st_ret false
      | Some candidate =>
          do! upd physical (fun f => fs_copy_name f candidate) in
          st_ret true
      end
  end.

(** ** Self-test *)

Definition fs_self_test_fail (message : list Z) : M unit :=
  do! st_mod (set_g_backend_status FS_BACKEND_VOLATILE_IO_ERROR) in
  do! fs_clear_self_test_artifacts in
  do! st_mod (set_g_self_test_active false) in
  log message.

Definition fs_self_test_reload (failure_message : list Z) : M bool :=
  let! result := fs_load_from_disk in
  if bool_decide (result = FS_DISK_LOADED) then
    do! st_mod (set_g_backend_status FS_BACKEND_PERSISTENT) in
    st_ret true
  else
    do! st_mod (set_g_backend_status
          (match result with
           | FS_DISK_NO_DRIVE => FS_BACKEND_VOLATILE_NO_DRIVE
           | FS_DISK_CORRUPT | FS_DISK_LOADED_CORRUPT => FS_BACKEND_VOLATILE_CORRUPT
           | _ => FS_BACKEND_VOLATILE_IO_ERROR
           end)) in
    do! fs_clear_self_test_artifacts in
    do! st_mod (set_g_self_test_active false) in
    do! log failure_message in
    st_ret false.

Definition exists_file (name : list Z) : M bool :=
  st_get (fun s => bool_decide (is_Some (fs_find_mutable (FILES s) (Some name)))).

(** [fs_file_is_self_test_artifact(fs_find_mutable(name))] *)
Definition artifact_at (name : list Z) : M bool :=
  st_get (fun s => fs_file_is_self_test_artifact
    (match fs_find_mutable (FILES s) (Some name) with
     | Some i => FILES s !! i
     | None => None
     end)).

Definition scratch : list Z := cs "__fs_self_test__".
Definition renamed : list Z := cs "__fs_self_renamed__".

(** The three phases of [fs_self_test]; each returns whether to go on. *)
Definition self_test_write : M bool :=
  do! st_mod (set_g_self_test_active true) in
  do! fs_clear_self_test_artifacts in
  let! ok := fs_write_bytes (Some scratch) (Some FS_SELF_TEST_PAYLOAD)
               (Z.of_nat (length FS_SELF_TEST_PAYLOAD)) in
  if negb ok then
    do! fs_self_test_fail (cs "FS: self-test (binary write) failed") in st_ret false
  else
    let! ok := fs_self_test_reload (cs "FS: self-test (binary persistence reload) failed") in
    if negb ok then st_ret false
    else
      let! ok := artifact_at scratch in
      if negb ok then
        do! fs_self_test_fail (cs "FS: self-test (persisted binary read) failed") in st_ret false
      else st_ret true.

Definition self_test_rename : M bool :=
  let! ok := fs_rename (Some scratch) (Some renamed) in
  let! still := exists_file scratch in
  if negb ok || still then
    do! fs_self_test_fail (cs "FS: self-test (rename) failed") in st_ret false
  else
    let! ok := fs_self_test_reload (cs "FS: self-test (rename persistence reload) failed") in
    if negb ok then st_ret false
    else
      let! still := exists_file scratch in
      if still : bool then
        do! fs_self_test_fail (cs "FS: self-test (old name persisted) failed") in st_ret false
      else
        let! ok := artifact_at renamed in
        if negb ok then
          do! fs_self_test_fail (cs "FS: self-test (renamed read) failed") in st_ret false
        else st_ret true.

Definition self_test_remove : M unit :=
  let! ok := fs_remove (Some renamed) in
  if negb ok then fs_self_test_fail (cs "FS: self-test (remove) failed")
  else
    let! ok := fs_self_test_reload (cs "FS: self-test (remove persistence reload) failed") in
    if negb ok then st_ret tt
    else
      let! a := exists_file scratch in
      let! b := exists_file renamed in
      if a || b then fs_self_test_fail (cs "FS: self-test (persisted remove) failed")
      else
        do! st_mod (set_g_self_test_active false) in
        log (cs "FS: persistent reload sequence complete").

Definition fs_self_test : M unit :=
  let! go := self_test_write in
  if negb go then st_ret tt
  else
    let! go := self_test_rename in
    if negb go then st_ret tt else self_test_remove.

(** ** fs_init *)

Definition say (b : bool) (message : list Z) : M unit := if b then log message else st_ret tt.

(** The branch of [fs_init] for a volume that loaded. *)
Definition init_loaded (load_result : fs_disk_load_result) : M unit :=
  let trusted := bool_decide (load_result = FS_DISK_LOADED) in
  let recovered_corrupt := bool_decide (load_result = FS_DISK_LOADED_CORRUPT) in
  let! mounted_version := st_get g_loaded_version in
  do! st_mod (set_g_backend_status
        (if trusted then FS_BACKEND_PERSISTENT
         else if recovered_corrupt then FS_BACKEND_VOLATILE_CORRUPT
         else FS_BACKEND_VOLATILE_IO_ERROR)) in
  do! log (if trusted then cs "FS: loaded from persistent storage"
           else if recovered_corrupt
           then cs "FS: recovered a volume while preserving corrupt storage"
           else cs "FS: recovered a volume with incomplete header reads") in
  let! quarantined_test_files := fs_quarantine_self_test_artifacts in
  let! had_physical_system_log := exists_file (cs "system.log") in
  let! quarantined_system_log :=
    (if had_physical_system_log : bool then fs_quarantine_physical_system_log else st_ret false) in
  do! say (had_physical_system_log && negb quarantined_system_log)
        (cs "FS: could not preserve the legacy physical system.log name") in
  let! has_bmp := exists_file (cs "nostalux.bmp") in
  let! added_default_bmp :=
    (if trusted && (mounted_version <? FS_CONTENT_DISK_VERSION) && negb has_bmp then
       let! files := st_get FILES in
       let '(ok, files) := fs_seed_default_bmp files in
       do! st_mod (set_FILES files) in
       st_ret ok
     else st_ret false) in
  let needs_integrity_protected_header := trusted && (mounted_version <? FS_DISK_VERSION) in
  let metadata_changed := quarantined_test_files || quarantined_system_log ||
    added_default_bmp || needs_integrity_protected_header in
  if trusted && metadata_changed then
    let! ok := fs_commit_changes in
    if ok : bool then
      do! say quarantined_test_files
            (cs "FS: preserved stale self-test data under a recovery name") in
      do! say quarantined_system_log
            (cs "FS: preserved legacy system.log under a recovery name") in
      do! say added_default_bmp (cs "FS: installed default BMP image") in
      let! persistent := fs_backend_is_persistent in
      say (needs_integrity_protected_header && persistent)
        (cs "FS: upgraded to integrity-protected commit metadata")
    else
      do! (if added_default_bmp : bool then
             let! files := st_get FILES in
             match fs_find_mutable files (Some (cs "nostalux.bmp")) with
             | Some image => upd image fs_clear
             | None => st_ret tt
             end
           else st_ret tt) in
      log (cs "FS: metadata recovery is available for this session only")
  else if negb trusted then
    let! upgrade := st_get g_legacy_upgrade_status in
    do! say (bool_decide (upgrade = FS_LEGACY_UPGRADE_AVAILABLE))
          (cs "FS: explicit legacy snapshot upgrade available; run fsupgrade for details") in
    do! say quarantined_test_files (cs "FS: self-test recovery name is session-only") in
    say quarantined_system_log (cs "FS: legacy system.log recovery name is session-only")
  else st_ret tt.

(** The branch for a volume that did not load. *)
Definition init_fresh (load_result : fs_disk_load_result) : M unit :=
  do! st_mod (fun s => set_FILES (seed_volume (FILES s)) s) in
  match load_result with
  | FS_DISK_BLANK =>
      do! log (cs "FS: blank storage detected; mounted fresh volume") in
      let! format_result := fs_sync_to_disk in
      if bool_decide (format_result = FS_SYNC_COMMITTED) then
        do! st_mod (set_g_backend_status FS_BACKEND_PERSISTENT) in
        do! log (cs "FS: filesystem formatted and saved") in
        fs_self_test
      else
        do! st_mod (set_g_backend_status FS_BACKEND_VOLATILE_IO_ERROR) in
        log (if bool_decide (format_result = FS_SYNC_UNCERTAIN)
             then cs "FS: format outcome uncertain; continuing on a volatile volume"
             else cs "FS: format failed; continuing on a volatile volume")
  | FS_DISK_NO_DRIVE =>
      do! st_mod (set_g_backend_status FS_BACKEND_VOLATILE_NO_DRIVE) in
      log (cs "FS: no ATA drive; mounted a volatile volume")
  | FS_DISK_CORRUPT =>
      do! st_mod (set_g_backend_status FS_BACKEND_VOLATILE_CORRUPT) in
      log (cs "FS: corrupt storage preserved; mounted a volatile volume")
  | _ =>
      do! st_mod (set_g_backend_status FS_BACKEND_VOLATILE_IO_ERROR) in
      log (cs "FS: storage I/O error; mounted a volatile volume without writes")
  end.

Definition did_load (r : fs_disk_load_result) : bool :=
  match r with
  | FS_DISK_LOADED | FS_DISK_LOADED_IO_ERROR | FS_DISK_LOADED_CORRUPT => true
  | _ => false
  end.

Definition fs_init : M unit :=
  do! fs_activate_virtual_system_log in
  let! load_result := fs_load_from_disk in
  if did_load load_result then init_loaded load_result else init_fresh load_result.

(** ** The explicit legacy upgrade *)

Inductive fs_legacy_upgrade_result_t :=
| FS_LEGACY_UPGRADE_SUCCEEDED
| FS_LEGACY_UPGRADE_NOT_AVAILABLE
| FS_LEGACY_UPGRADE_CONFIRMATION_REQUIRED
| FS_LEGACY_UPGRADE_FAILED
| FS_LEGACY_UPGRADE_UNCERTAIN.

Definition FS_LEGACY_UPGRADE_CONFIRMATION : list Z := cs "CONFIRM-LEGACY-SNAPSHOT".

Definition upgrade_offered (s : fs_state D) : bool :=
  bool_decide (g_legacy_upgrade_status s = FS_LEGACY_UPGRADE_AVAILABLE) &&
  bool_decide (g_backend_status s = FS_BACKEND_VOLATILE_CORRUPT) &&
  (g_active_slot s <? FS_SLOT_COUNT) && (g_loaded_version s <? FS_DISK_VERSION).

Definition confirmed (confirmation : option (list Z)) : bool :=
  match confirmation with
  | None => false
  | Some c => kstrcmp c FS_LEGACY_UPGRADE_CONFIRMATION =? 0
  end.

Definition fs_upgrade_legacy_snapshot (confirmation : option (list Z))
    : M fs_legacy_upgrade_result_t :=
  let! offered := st_get upgrade_offered in
  if negb offered then st_ret FS_LEGACY_UPGRADE_NOT_AVAILABLE
  else if negb (confirmed confirmation) then st_ret FS_LEGACY_UPGRADE_CONFIRMATION_REQUIRED
  else
    let! result := fs_sync_to_disk_verified true in
    match result with
    | FS_SYNC_COMMITTED =>
        do! st_mod (set_g_backend_status FS_BACKEND_PERSISTENT) in
        do! st_mod (set_g_legacy_upgrade_status FS_LEGACY_UPGRADE_UNAVAILABLE) in
        do! log (cs "FS: explicitly upgraded recovered legacy snapshot to verified v5 metadata") in
        st_ret FS_LEGACY_UPGRADE_SUCCEEDED
    | FS_SYNC_UNCERTAIN =>
        do! st_mod (set_g_legacy_upgrade_status FS_LEGACY_UPGRADE_OUTCOME_UNCERTAIN) in
        do! log (cs "FS: legacy upgrade outcome could not be verified; reboot required") in
        st_ret FS_LEGACY_UPGRADE_UNCERTAIN
    | FS_SYNC_FAILED =>
        do! log (cs "FS: legacy upgrade failed; selected legacy snapshot remains mounted read-only") in
        st_ret FS_LEGACY_UPGRADE_FAILED
    end.
End Init.

(** ** What may be written *)

(** [disk_kept m]: [m] writes nothing to the medium. *)
Definition disk_kept {D} `{DiskLaws D} {A} (m : ST (fs_state D) A) : Prop :=
  forall s, same_disk (dev s) (dev (m s).2).

Section Kept.
Context {D : Type} `{DiskLaws D}.
Abbreviation M := (ST (fs_state D)).

Lemma kept_ret {A} (a : A) : disk_kept (D := D) (st_ret a).
Proof. done. Qed.
Lemma kept_get {A} (f : fs_state D -> A) : disk_kept (st_get f).
Proof. done. Qed.
Lemma kept_bind {A B} (m : M A) (k : A -> M B) :
  disk_kept m -> (forall a, disk_kept (k a)) -> disk_kept (st_bind m k).
Proof.
  intros Hm Hk s l. specialize (Hm s l). unfold st_bind. destruct (m s) as [a s1]; simpl in *.
  by rewrite Hk, Hm.
Qed.
Lemma kept_if {A} (b : bool) (m1 m2 : M A) :
  disk_kept m1 -> disk_kept m2 -> disk_kept (if b then m1 else m2).
Proof. by destruct b. Qed.
Lemma kept_mod (f : fs_state D -> fs_state D) :
  (forall s, dev (f s) = dev s) -> disk_kept (st_mod f).
Proof. intros Hf s l. simpl. by rewrite Hf. Qed.
Lemma kept_log msg : disk_kept (D := D) (log msg).
Proof. intros s l. simpl. apply log_sector. Qed.
Lemma kept_init : disk_kept (D := D) (on_dev bd_init).
Proof.
  intros s l. unfold on_dev. pose proof (init_sector (dev s) l). by destruct (bd_init (dev s)).
Qed.
Lemma kept_read lba count buf : disk_kept (D := D) (on_dev (bd_read lba count buf)).
Proof.
  intros s l. unfold on_dev. pose proof (read_sector (dev s) lba count buf l).
  by destruct (bd_read lba count buf (dev s)).
Qed.

Ltac kept_step :=
  lazymatch goal with
  | |- disk_kept (st_bind _ _) => apply kept_bind; [|intro]
  | |- disk_kept (if _ then _ else _) => apply kept_if
  | |- disk_kept (st_ret _) => apply kept_ret
  | |- disk_kept (st_get _) => apply kept_get
  | |- disk_kept (st_mod _) => apply kept_mod; reflexivity
  | |- disk_kept (log _) => apply kept_log
  | |- disk_kept (upd _ _) => apply kept_mod; reflexivity
  | |- disk_kept (file_at _) => apply kept_get
  | |- disk_kept (exists_file _) => apply kept_get
  | |- disk_kept (say _ _) => unfold say
  | |- disk_kept (on_dev bd_init) => apply kept_init
  | |- disk_kept (on_dev (bd_read _ _ _)) => apply kept_read
  | |- disk_kept (match ?x with _ => _ end) => destruct x
  end.
Ltac kept := repeat (cbv beta zeta; kept_step).

Lemma kept_compare a b : disk_kept (D := D) (fs_compare_slot_tables a b).
Proof.
  unfold fs_compare_slot_tables. generalize (Z.to_nat FS_DISK_TABLE_SECTORS) O.
  induction n as [|n IH]; intros i; cbn [compare_sectors]; kept. apply IH.
Qed.

Lemma kept_load_slot slot h : disk_kept (D := D) (fs_load_slot slot h).
Proof. unfold fs_load_slot, read_table. kept. Qed.

Lemma kept_load_slots h0 h1 v0 v1 a b c d : disk_kept (D := D) (load_slots h0 h1 v0 v1 a b c d).
Proof.
  unfold load_slots, try_slot, offer_upgrade, load_blank_check, scan_blank_table, read_table.
  kept; apply kept_load_slot.
Qed.

(** Mounting never writes, on any device and whatever it finds. *)
Lemma kept_load : disk_kept (D := D) fs_load_from_disk.
Proof.
  unfold fs_load_from_disk, scan_header. kept; auto using kept_compare, kept_load_slots.
Qed.

Lemma kept_quarantine n i c : disk_kept (D := D) (quarantine_slots n i c).
Proof. revert i c. induction n as [|n IH]; intros i c; cbn [quarantine_slots]; kept; apply IH. Qed.

(** A volume that loaded but is not trusted is not written either. *)
Lemma kept_init_loaded r : r <> FS_DISK_LOADED -> disk_kept (D := D) (init_loaded r).
Proof.
  intros Hr. unfold init_loaded. rewrite !(bool_decide_false (r = FS_DISK_LOADED)) by done.
  cbn [andb negb]. cbv iota. unfold fs_quarantine_physical_system_log.
  kept. apply kept_quarantine.
Qed.

Lemma kept_init_fresh r : r <> FS_DISK_BLANK -> disk_kept (D := D) (init_fresh r).
Proof. intros Hr. unfold init_fresh. destruct r; try done; kept. Qed.
End Kept.

(** *** Only a blank medium is formatted *)

(** Both slots, headers and tables, are zero. *)
Definition slots_blank {D} `{DiskLaws D} (d : D) : Prop :=
  forall l, FS_STORAGE_LBA <= l < FS_STORAGE_LBA + 2 * FS_SLOT_SECTORS -> sector d l = zeros 512.

Section Blank.
Context {D : Type} `{DiskLaws D}.

Lemma blank_zeros bs n : length bs = Z.to_nat n -> fs_bytes_are_blank bs = true -> bs = zeros n.
Proof.
  unfold zeros. intros <-. unfold fs_bytes_are_blank.
  induction bs as [|b bs IH]; [done|]. simpl. intros [->%Z.eqb_eq Hb]%andb_true_iff. by rewrite <- IH.
Qed.

Lemma header_blank_sector (d : D) slot :
  fs_header_is_blank (slot_header d slot) = true -> sector d (fs_slot_header_lba slot) = zeros 512.
Proof.
  unfold fs_header_is_blank, slot_header.
  rewrite encode_decode_header by (apply sector_length || apply sector_bytes).
  apply blank_zeros. by rewrite sector_length.
Qed.

Lemma table_blank_sectors (d : D) slot l :
  fs_bytes_are_blank (slot_bytes d slot) = true -> in_table slot l -> sector d l = zeros 512.
Proof.
  intros Hb Hl. unfold slot_bytes in Hb.
  assert (Hz : sectors_at (sector d) (fs_slot_header_lba slot + 1) (Z.to_nat FS_DISK_TABLE_SECTORS)
               = zeros (FS_DISK_TABLE_SECTORS * 512)).
  { apply blank_zeros; [|done]. rewrite length_sectors_at by apply sector_length. fs_consts. lia. }
  set (i := Z.to_nat (l - (fs_slot_header_lba slot + 1))).
  assert (Hi : (i < Z.to_nat FS_DISK_TABLE_SECTORS)%nat)
    by (unfold i, in_table in *; fs_consts; lia).
  pose proof (sectors_at_slice (sector d) (fs_slot_header_lba slot + 1)
    (Z.to_nat FS_DISK_TABLE_SECTORS) i (sector_length d) Hi) as Hs.
  rewrite Hz in Hs. replace (fs_slot_header_lba slot + 1 + Z.of_nat i) with l in Hs
    by (unfold i, in_table in *; lia).
  rewrite <- Hs. unfold slice, zeros. rewrite drop_replicate, take_replicate. f_equal. fs_consts. lia.
Qed.

(** What a header scan can report, on any device. *)
Lemma wp_scan_header_any slot (Q : fs_disk_header * bool * bool * bool -> fs_state D -> Prop) s :
  (forall h valid bad io s', dev_only s s' ->
     (valid = false -> bad = false -> io = false ->
      sector (dev s) (fs_slot_header_lba slot) = zeros 512) -> Q (h, valid, bad, io) s') ->
  wp (scan_header slot) Q s.
Proof.
  intros HQ. unfold scan_header. apply wp_bind, wp_on_read; [done|]. intros r s' _ Hd _ Hr.
  apply wp_if; intros Hok; apply wp_ret, HQ; try done.
  intros Hv Hb _. rewrite Hv in Hb. simpl in Hb. apply negb_false_iff in Hb.
  apply header_blank_sector. unfold slot_header. rewrite Hr in Hb by done.
  change (Z.to_nat 1) with 1%nat in Hb. cbn [sectors_at] in Hb. by rewrite app_nil_r in Hb.
Qed.

Lemma wp_scan_blank slot acc (Q : bool * bool -> fs_state D -> Prop) s :
  table_wf (g_disk_table s) ->
  (forall acc' s', same_disk (dev s) (dev s') ->
     (acc'.1 = false -> table_wf (g_disk_table s')) ->
     (acc' = (false, false) -> acc = (false, false) /\ fs_bytes_are_blank (slot_bytes (dev s) slot) = true) ->
     Q acc' s') ->
  wp (scan_blank_table slot acc) Q s.
Proof.
  intros Htw HQ. unfold scan_blank_table, read_table.
  apply wp_bind, wp_bind, wp_get, wp_bind, wp_on_read; [by apply length_encode_table|].
  intros r s' _ [Hs' Hd] _ Hr. apply wp_bind, wp_mod, wp_ret. apply wp_if; intros Hok.
  { apply wp_ret, HQ; try done. }
  apply negb_false_iff in Hok. rewrite Hr by done.
  destruct (encode_decode_table (slot_bytes (dev s) slot)) as [E W].
  { unfold slot_bytes. rewrite length_sectors_at by apply sector_length. fs_consts. lia. }
  { apply sectors_at_bytes, sector_bytes. }
  apply wp_bind, wp_get, wp_ret. cbn [g_disk_table set_g_disk_table].
  fold (slot_bytes (dev s) slot). rewrite E. apply HQ; [done | done |].
  intros [= E1 E2]. apply orb_false_iff in E2 as [E2 E3]. apply negb_false_iff in E3.
  split; [by destruct acc; simpl in *; subst | done].
Qed.

Lemma wp_load_blank_check s0 s :
  table_wf (g_disk_table s) -> same_disk (dev s0) (dev s) ->
  wp load_blank_check (fun r _ => r = FS_DISK_BLANK ->
    fs_bytes_are_blank (slot_bytes (dev s0) 0) = true /\
    fs_bytes_are_blank (slot_bytes (dev s0) 1) = true) s.
Proof.
  intros Htw Hd. unfold load_blank_check.
  assert (HS : forall (d : D) x, same_disk (dev s0) d -> slot_bytes d x = slot_bytes (dev s0) x)
    by (intros d x Hx; apply sectors_at_ext; intros; apply Hx).
  apply wp_bind, wp_scan_blank; [done|]. intros [io1 nb1] s1 D1 W1 B1.
  destruct io1.
  { apply wp_bind. unfold scan_blank_table. apply wp_bind, wp_intro. intros ok s2 _.
    apply wp_if; intros _; [|apply wp_bind, wp_get]; by apply wp_ret, wp_ret. }
  apply wp_bind, wp_scan_blank; [by apply W1|]. intros [io2 nb2] s2 D2 _ B2.
  apply wp_ret. cbn [fst snd]. destruct io2, nb2; try done. intros _.
  destruct (B2 eq_refl) as [E2 T2]. destruct (B1 E2) as [_ T1].
  rewrite (HS (dev s)) in T1 by done. split; [done|].
  rewrite (HS (dev s1)) in T2; [done|]. intros l. by rewrite D1, Hd.
Qed.

(** With a valid header the answer is never "blank". *)
Lemma wp_load_slots_valid h0 h1 v0 v1 bad io a b (s : fs_state D) :
  v0 || v1 = true ->
  wp (load_slots h0 h1 v0 v1 bad io a b) (fun r _ => r <> FS_DISK_BLANK) s.
Proof.
  intros Hv. unfold load_slots.
  assert (Hvf : (if second_first v0 v1 h0 h1 then v1 else v0) = true)
    by (by destruct v0, v1; try done; destruct (second_first _ _ h0 h1)).
  assert (Hloaded : forall x y, fs_loaded_result x y <> FS_DISK_BLANK) by (by intros [] []).
  assert (Hgen : forall first second hf hs vs s,
    wp (let! r1 := try_slot true first hf in
        if (match r1 with Some FS_SLOT_LOADED => true | _ => false end) then
          do! offer_upgrade a in st_ret (fs_loaded_result io (bad || (a || b)))
        else
          let! r2 := try_slot vs second hs in
          if (match r2 with Some FS_SLOT_LOADED => true | _ => false end) then
            do! log (cs "FS: recovered previous committed slot") in
            do! offer_upgrade a in
            st_ret (fs_loaded_result (io || slot_failed_io r1)
                      (slot_failed_corrupt r1 || bad || (a || b)))
          else
            if io || slot_failed_io r1 || slot_failed_io r2 then st_ret FS_DISK_IO_ERROR
            else if slot_failed_corrupt r1 || slot_failed_corrupt r2 || bad
            then st_ret FS_DISK_CORRUPT else load_blank_check)
      (fun r _ => r <> FS_DISK_BLANK) s).
  { intros. apply wp_bind, wp_bind, wp_intro. intros r1 s1 _. apply wp_ret.
    apply wp_if; intros H1; [by apply wp_bind, wp_intro; intros; apply wp_ret|].
    apply wp_bind, wp_intro. intros r2 s2 _.
    apply wp_if; intros H2.
    { apply wp_bind, wp_mod, wp_bind, wp_intro. intros. by apply wp_ret. }
    destruct r1; try done; simpl; rewrite ?orb_true_r; [|by apply wp_ret].
    apply wp_if; intros _; by apply wp_ret. }
  destruct (second_first v0 v1 h0 h1); cbv beta iota zeta; rewrite Hvf; apply Hgen.
Qed.

Lemma wp_load_blank s :
  table_wf (g_disk_table s) ->
  wp fs_load_from_disk (fun r _ => r = FS_DISK_BLANK -> slots_blank (dev s)) s.
Proof.
  intros Htw. unfold fs_load_from_disk. apply wp_bind, wp_mod, wp_bind, wp_on_init.
  intros r s1 _ H1 _. apply wp_if; intros _; [by apply wp_ret|].
  apply wp_if; intros _; [by apply wp_ret|].
  apply wp_bind, wp_mod, wp_bind, wp_mod, wp_bind, wp_mod.
  set (s2 := set_g_loaded_version 0 (set_g_active_generation 0 (set_g_active_slot FS_SLOT_COUNT s1))).
  assert (E2 : same_disk (dev s) (dev s2)) by (apply (dev_only_disk _ _ H1)).
  assert (T2 : g_disk_table s2 = g_disk_table s) by (by rewrite (dev_only_table _ _ H1 : g_disk_table s2 = _)).
  apply wp_bind, wp_scan_header_any. intros h0 v0 bad0 io0 s3 H3 Z0.
  apply wp_bind, wp_scan_header_any. intros h1 v1 bad1 io1 s4 H4 Z1.
  destruct (v0 || v1) eqn:Hv.
  { apply wp_bind, wp_intro. intros c s5 _. apply wp_bind, wp_intro. intros [] s6 _.
    apply wp_bind, wp_intro. intros [] s7 _.
    eapply wp_mono; [by apply wp_load_slots_valid|]. intros r0 s8 Hr Hb. by destruct (Hr Hb). }
  apply orb_false_iff in Hv as [-> ->]. cbn [andb orb]. cbv iota.
  apply wp_bind, wp_ret, wp_bind, wp_ret, wp_bind, wp_ret. unfold load_slots, second_first.
  cbn [andb]. cbv beta iota zeta. unfold try_slot. apply wp_bind, wp_ret. cbv iota.
  apply wp_bind, wp_ret. cbv iota. cbn [slot_failed_io slot_failed_corrupt orb]. rewrite !orb_false_r.
  apply wp_if; intros Hio; [by apply wp_ret|]. apply wp_if; intros Hbad; [by apply wp_ret|].
  apply orb_false_iff in Hio as [-> ->]. apply orb_false_iff in Hbad as [-> ->].
  pose proof (dev_only_trans _ _ _ H3 H4) as H24. pose proof (dev_only_disk _ _ H24) as E4.
  eapply wp_mono; [apply (wp_load_blank_check s)|].
  - by rewrite (dev_only_table _ _ H24), T2.
  - intros l. by rewrite E4, E2.
  - intros r0 s' Hr Hb. destruct (Hr Hb) as [B0 B1]. clear Hr Hb.
    specialize (Z0 eq_refl eq_refl eq_refl). specialize (Z1 eq_refl eq_refl eq_refl).
    rewrite E2 in Z0. rewrite (dev_only_disk _ _ H3), E2 in Z1.
    intros l Hl.
    destruct (decide (l = fs_slot_header_lba 0)) as [->|N0]; [done|].
    destruct (decide (l = fs_slot_header_lba 1)) as [->|N1]; [done|].
    destruct (decide (l < fs_slot_header_lba 1)).
    + apply (table_blank_sectors (dev s) 0); [done | slot_lia].
    + apply (table_blank_sectors (dev s) 1); [done | slot_lia].
Qed.
End Blank.

(** *** Mounting a clean volume *)

(** A loaded volume that holds nothing to recover. *)
Definition clean_volume (files : list (list Z * list Z)) : Prop :=
  forall n c, (n, c) ∈ files ->
    n <> cs "system.log" /\ n <> cs "__fs_self_test__" /\ n <> cs "__fs_self_renamed__".

Section Clean.
Context {D : Type} `{DiskLaws D}.

Lemma live_elem F f : f ∈ F -> in_use f = true -> view f ∈ live F.
Proof.
  intros Hf Hu. induction F as [|g F IH]; [by apply elem_of_nil in Hf|].
  apply elem_of_cons in Hf as [->|Hf]; simpl; [rewrite Hu; by left|].
  destruct (in_use g); [right|]; auto.
Qed.

Lemma clean_no_artifact F :
  clean_volume (live F) -> Forall (fun f => fs_file_is_self_test_artifact (Some f) = false) F.
Proof.
  intros Hc. apply Forall_forall. intros f Hf. unfold fs_file_is_self_test_artifact.
  destruct (in_use f) eqn:Hu; [|done]. cbn [negb].
  destruct (Hc _ _ (live_elem F f Hf Hu)) as (_ & H1 & H2). unfold fs_name_is_self_test_file.
  destruct (Z.eqb_spec (kstrcmp (fname f) (cs "__fs_self_test__")) 0) as [E|_];
    [apply kstrcmp_cstr in E; by destruct (H1 E)|].
  destruct (Z.eqb_spec (kstrcmp (fname f) (cs "__fs_self_renamed__")) 0) as [E|_];
    [apply kstrcmp_cstr in E; by destruct (H2 E)|]. done.
Qed.

Lemma quarantine_clean n i c (s : fs_state D) :
  Forall (fun f => fs_file_is_self_test_artifact (Some f) = false) (FILES s) ->
  quarantine_slots n i c s = (c, s).
Proof.
  intros Hf. revert i. induction n as [|n IH]; intros i; [done|].
  cbn [quarantine_slots]. unfold st_bind, file_at, st_get.
  replace (fs_file_is_self_test_artifact (Some (default zero_file (FILES s !! i)))) with false;
    [apply IH|].
  symmetry. destruct (FILES s !! i) as [f|] eqn:E; simpl; [|done].
  rewrite Forall_forall in Hf. apply Hf. by eapply list_elem_of_lookup_2.
Qed.

Lemma wp_quarantine_clean (Q : bool -> fs_state D -> Prop) s :
  Forall (fun f => fs_file_is_self_test_artifact (Some f) = false) (FILES s) ->
  Q false s -> wp fs_quarantine_self_test_artifacts Q s.
Proof.
  intros Hf HQ. unfold fs_quarantine_self_test_artifacts, wp. generalize FS_MAX_FILES.
  intros n. by rewrite quarantine_clean.
Qed.

Lemma clean_no_log F :
  files_wf F -> clean_volume (live F) -> fs_find_mutable F (Some (cs "system.log")) = None.
Proof.
  intros Hwf Hc. destruct (fs_find_mutable F (Some (cs "system.log"))) as [i|] eqn:E; [|done].
  apply find_mutable_Some in E as (A & f & B & HF & _ & Hu & Hn).
  assert (Hin : f ∈ F) by (rewrite HF; apply elem_of_app; right; left).
  by destruct (Hc _ _ (live_elem F f Hin Hu)) as (Hl & _).
Qed.

(** The loaded branch does nothing to a clean volume of the current version. *)
Lemma wp_init_loaded_clean s :
  files_wf (FILES s) -> clean_volume (live (FILES s)) -> g_loaded_version s = FS_DISK_VERSION ->
  wp (init_loaded FS_DISK_LOADED) (fun _ s' =>
    FILES s' = FILES s /\ g_backend_status s' = FS_BACKEND_PERSISTENT /\
    g_active_slot s' = g_active_slot s /\ g_active_generation s' = g_active_generation s /\
    g_mutation_backup s' = g_mutation_backup s /\
    g_self_test_active s' = g_self_test_active s /\ same_disk (dev s) (dev s')) s.
Proof.
  intros Hwf Hc Hv. unfold init_loaded. rewrite !bool_decide_true by done.
  apply wp_bind, wp_get. rewrite Hv. apply wp_bind, wp_mod, wp_bind, wp_log. intros s1 [E1 D1].
  assert (HF : FILES s1 = FILES s) by (by rewrite E1).
  apply wp_bind, wp_quarantine_clean; [rewrite HF; by apply clean_no_artifact|].
  apply wp_bind, wp_get. rewrite HF, clean_no_log by done.
  rewrite bool_decide_false by (by intros [? ?]). cbv iota.
  apply wp_bind, wp_ret, wp_bind. apply wp_ret, wp_bind, wp_get.
  change (FS_DISK_VERSION <? FS_CONTENT_DISK_VERSION) with false.
  change (FS_DISK_VERSION <? FS_DISK_VERSION) with false. cbn [andb orb negb]. cbv iota.
  apply wp_bind, wp_ret. cbn [andb orb]. cbv iota. apply wp_ret.
  rewrite E1. split_and!; try done.
Qed.
End Clean.

(** *** Which branches end in a persistent volume *)

(** [keeps_field get m]: [m] leaves the field [get] alone. *)
Definition keeps_field {D A B} (get : fs_state D -> B) (m : ST (fs_state D) A) : Prop :=
  forall s, get (m s).2 = get s.

Section Fields.
Context {D B : Type} `{BlockDevice D} (get : fs_state D -> B).
Abbreviation M := (ST (fs_state D)).

Lemma field_bind {A C} (m : M A) (k : A -> M C) :
  keeps_field get m -> (forall a, keeps_field get (k a)) -> keeps_field get (st_bind m k).
Proof.
  intros Hm Hk s. specialize (Hm s). unfold st_bind. destruct (m s) as [a s1]; simpl in *.
  by rewrite Hk.
Qed.
Lemma field_mod (f : fs_state D -> fs_state D) :
  (forall s, get (f s) = get s) -> keeps_field get (st_mod f).
Proof. done. Qed.
Lemma field_pure {A} (a : A) : keeps_field get (st_ret a).
Proof. done. Qed.
Lemma field_get {A} (f : fs_state D -> A) : keeps_field get (st_get f).
Proof. done. Qed.
Lemma field_dev {A} (m : ST D A) :
  (forall d s, get (set_dev d s) = get s) -> keeps_field get (on_dev m).
Proof. intros Hg s. unfold on_dev. destruct (m (dev s)). apply Hg. Qed.
End Fields.

Ltac field_step :=
  lazymatch goal with
  | |- keeps_field _ (st_bind _ _) => apply field_bind; [|intro]
  | |- keeps_field _ (st_ret _) => apply field_pure
  | |- keeps_field _ (st_get _) => apply field_get
  | |- keeps_field _ (st_mod _) => apply field_mod; reflexivity
  | |- keeps_field _ (log _) => apply field_mod; reflexivity
  | |- keeps_field _ (upd _ _) => apply field_mod; reflexivity
  | |- keeps_field _ (on_dev _) => apply field_dev; reflexivity
  | |- keeps_field _ (file_at _) => apply field_get
  | |- keeps_field _ (exists_file _) => apply field_get
  | |- keeps_field _ (say _ _) => unfold say
  | |- keeps_field _ (match ?x with _ => _ end) => destruct x
  end.
Ltac field := repeat (cbv beta zeta; field_step).

Section Volatile.
Context {D : Type} `{BlockDevice D}.
Abbreviation M := (ST (fs_state D)).

Lemma load_backup : keeps_field (D := D) g_mutation_backup fs_load_from_disk.
Proof.
  unfold fs_load_from_disk, scan_header, load_slots, try_slot, offer_upgrade, load_blank_check,
    scan_blank_table, fs_load_slot, read_table, fs_compare_slot_tables.
  assert (Hc : forall n i a b, keeps_field (D := D) g_mutation_backup (compare_sectors n i a b)).
  { induction n as [|n IH]; intros i a b; cbn [compare_sectors]; field. apply IH. }
  field; apply Hc.
Qed.

Lemma status_quarantine n i c : keeps_field (D := D) g_backend_status (quarantine_slots n i c).
Proof. revert i c. induction n as [|n IH]; intros i c; cbn [quarantine_slots]; field; apply IH. Qed.

Lemma status_after_set x {A} (m : unit -> M A) s :
  (forall u, keeps_field g_backend_status (m u)) ->
  g_backend_status (st_bind (st_mod (set_g_backend_status x)) m s).2 = x.
Proof. intros Hm. unfold st_bind, st_mod. by rewrite Hm. Qed.

Lemma volatile_init_loaded r (s : fs_state D) :
  r <> FS_DISK_LOADED -> g_backend_status (init_loaded r s).2 <> FS_BACKEND_PERSISTENT.
Proof.
  intros Hr. unfold init_loaded. rewrite !(bool_decide_false (r = FS_DISK_LOADED)) by done.
  cbn [andb negb]. cbv iota zeta. unfold st_bind at 1, st_get at 1. rewrite status_after_set.
  - by destruct (bool_decide _).
  - intros _. unfold fs_quarantine_physical_system_log, fs_quarantine_self_test_artifacts.
    field. apply status_quarantine.
Qed.

Lemma volatile_init_fresh r (s : fs_state D) :
  did_load r = false -> r <> FS_DISK_BLANK ->
  g_backend_status (init_fresh r s).2 <> FS_BACKEND_PERSISTENT.
Proof.
  intros Hd Hr. unfold init_fresh. unfold st_bind at 1, st_mod at 1.
  destruct r; try done; rewrite status_after_set; try done; intros; field.
Qed.

Lemma fs_init_run (s : fs_state D) :
  (fs_init s).2 =
  (let '(r, s2) := fs_load_from_disk (fs_activate_virtual_system_log s).2 in
   (if did_load r then init_loaded r else init_fresh r) s2).2.
Proof.
  unfold fs_init. rewrite !st_bind_run.
  by destruct (fs_load_from_disk (fs_activate_virtual_system_log s).2).
Qed.
End Volatile.

(** ** Main theorems *)

(** C4: mounting can only change the medium, and can only end in a
    persistent volume, in two cases: the volume was loaded without a single
    read error, invalid header or ambiguity, or both slots were completely
    zero.  Damaged, ambiguous or unreadable media are never written. *)
Theorem fs_init_preserves_untrusted_media {D} `{DiskLaws D} (s : fs_state D) (lba : Z) :
  table_wf (g_disk_table s) ->
  sector (dev (fs_init s).2) lba <> sector (dev s) lba \/
    g_backend_status (fs_init s).2 = FS_BACKEND_PERSISTENT ->
  (fs_load_from_disk (fs_activate_virtual_system_log s).2).1 = FS_DISK_LOADED \/
  slots_blank (dev s).
Proof.
  intros Htw Hch.
  set (s1 := (fs_activate_virtual_system_log s).2) in *.
  pose proof (wp_load_blank s1 Htw) as Hb. pose proof (kept_load s1) as Hk. unfold wp in Hb.
  change (dev s1) with (dev s) in Hb, Hk. rewrite fs_init_run in Hch. fold s1 in Hch.
  destruct (fs_load_from_disk s1) as [r s2]. cbn [fst snd] in *.
  destruct (decide (r = FS_DISK_LOADED)) as [|Hl]; [by left|].
  destruct (decide (r = FS_DISK_BLANK)) as [|Hbl]; [right; auto|]. exfalso.
  destruct (did_load r) eqn:Hd; destruct Hch as [Hch|Hch].
  - apply Hch. rewrite <- Hk. by apply kept_init_loaded.
  - by apply volatile_init_loaded in Hch.
  - apply Hch. rewrite <- Hk. by apply kept_init_fresh.
  - by apply volatile_init_fresh in Hch.
Qed.

(** C7: mounting a clean medium yields a persistent volume with exactly the
    files of its newest snapshot and writes nothing.  Clean means: the device
    answers every transfer; one slot holds a complete snapshot of the current
    format that the other slot does not supersede; the header of the other
    slot is valid or blank; and the snapshot holds none of the names that the
    kernel recovers at mount time (the system log and the two of the self
    test).  Otherwise the volume may end volatile, or such files are renamed
    and the medium is written: this theorem says nothing of those media.  The
    result is the starting point of the durability theorem. *)
Theorem fs_init_mounts_newest {D} `{DiskLaws D} (s : fs_state D) (a g : Z)
    (files : list (list Z * list Z)) :
  reliable (dev s) -> table_wf (g_disk_table s) -> length (FILES s) = FS_MAX_FILES ->
  Forall slot_wf (FILES s) -> slot_wf (g_mutation_backup s) ->
  current (dev s) a g files -> clean_volume files ->
  fs_header_is_valid (slot_header (dev s) (1 - a)) ||
    fs_header_is_blank (slot_header (dev s) (1 - a)) = true ->
  let s' := (fs_init s).2 in
  g_backend_status s' = FS_BACKEND_PERSISTENT /\ live (FILES s') = files /\ fs_inv s' /\
  durable s' (live (FILES s')) /\ (forall lba, sector (dev s') lba = sector (dev s) lba).
Proof.
  intros Hrel Htw Hl HF Hbk Hcur Hclean Hother. rewrite fs_init_run.
  set (s1 := (fs_activate_virtual_system_log s).2).
  pose proof (wp_load s1 a g files Hrel (length_encode_table _ Htw) Hl HF Hcur) as Hld.
  pose proof (load_backup s1) as Hb1. unfold wp in Hld.
  destruct (fs_load_from_disk s1) as [r s2]. cbn [fst snd] in *.
  destruct Hld as (Hr & Hd & _ & Hw & Hlive & Hsl & Hgen & Hver & _).
  assert (r = FS_DISK_LOADED) as ->.
  { rewrite Hr. change (dev s1) with (dev s).
    destruct (fs_header_is_valid _); [done|]. simpl in Hother. by rewrite Hother. }
  cbn [did_load]. cbv iota. rewrite <- Hlive in Hclean.
  pose proof (wp_init_loaded_clean s2 Hw Hclean Hver) as (E1 & E2 & E3 & E4 & E5 & _ & E6).
  assert (Hsame : same_disk (dev s) (dev (init_loaded FS_DISK_LOADED s2).2)).
  { intros l. rewrite E6, Hd. done. }
  split_and!; try done; [by rewrite E1 | | ].
  - split; [by rewrite E1 | by rewrite E5, Hb1].
  - intros _. rewrite E1, E3, E4, Hsl, Hgen, Hlive. eapply current_keep; [exact Hcur | auto].
Qed.

(** ** Witnesses *)

Lemma clean_volume_check files :
  forallb (fun e => bool_decide (e.1 <> cs "system.log") &&
    bool_decide (e.1 <> cs "__fs_self_test__") && bool_decide (e.1 <> cs "__fs_self_renamed__"))
    files = true -> clean_volume files.
Proof.
  intros Hf n c Hin. rewrite forallb_forall in Hf. specialize (Hf (n, c)).
  rewrite <- list_elem_of_In in Hf. specialize (Hf Hin). simpl in Hf. bdestr_hyps.
  repeat match goal with H : bool_decide _ = true |- _ => apply bool_decide_eq_true in H end. done.
Qed.

Lemma fs_init_preserves_untrusted_media_witness :
  (fs_load_from_disk (fs_activate_virtual_system_log (boot_state sound_disk)).2).1 = FS_DISK_LOADED \/
  slots_blank sound_disk.
Proof.
  apply (fs_init_preserves_untrusted_media (boot_state sound_disk) 0).
  - exact zero_table_wf.
  - right. vm_compute. reflexivity.
Defined.

Lemma fs_init_mounts_newest_witness :
  live (FILES (fs_init (boot_state sound_disk)).2) = live sample_files.
Proof.
  apply (fs_init_mounts_newest (boot_state sound_disk) 0 7 (live sample_files)).
  - apply sim_reliable; reflexivity.
  - exact zero_table_wf.
  - reflexivity.
  - exact zero_slots_wf.
  - apply (mounted_state_inv sound_disk).
  - exact (sample_current sound_disk eq_refl).
  - apply clean_volume_check. vm_compute. reflexivity.
  - vm_compute. reflexivity.
Defined.

(** A blank medium is formatted, tested and mounted persistent with the four
    seeded files. *)
Example fs_init_formats_blank :
  let s := (fs_init (boot_state (SimDisk true ∅ [] syslog_boot))).2 in
  g_backend_status s = FS_BACKEND_PERSISTENT /\ g_self_test_active s = false /\
  map fst (live (FILES s)) = [cs "readme.txt"; cs "motd.txt"; cs "colors.map"; cs "nostalux.bmp"].
Proof. vm_compute. auto. Qed.
