(* ===== verification/Elf.v ===== *)
(** * kernel/elf64_loader.c: inspecting and loading executables

    An image is the list of its bytes.  Every read and every copy goes through
    a checked access: [None] is an access outside the object, so a result
    [Some _] says that the run stayed inside its buffers.  [inl] is an error
    code, [inr] the plan of [ELF64_LOAD_OK]. *)

From S2P Require Import Prelude.

Definition ELF64_HEADER_SIZE : Z := 64.
Definition ELF64_PROGRAM_HEADER_SIZE : Z := 56.
Definition ELF64_CLASS : Z := 2.
Definition ELF64_DATA_LITTLE_ENDIAN : Z := 1.
Definition ELF64_VERSION_CURRENT : Z := 1.
Definition ELF64_TYPE_EXECUTABLE : Z := 2.
Definition ELF64_MACHINE_X86_64 : Z := 62.
Definition ELF64_PT_LOAD : Z := 1.
Definition ELF64_PT_DYNAMIC : Z := 2.
Definition ELF64_PT_INTERP : Z := 3.
Definition ELF64_PT_TLS : Z := 7.
Definition ELF64_PAGE_SIZE : Z := 4096.

Definition ELF64_LOADER_MAX_PROGRAM_HEADERS : Z := 32.
Definition ELF64_LOADER_MAX_LOAD_SEGMENTS : nat := 16.
Definition ELF64_LOADER_MAX_IMAGE_SPAN : Z := 16 * 1024 * 1024.
Definition ELF64_LOADER_MIN_USER_VADDR : Z := 0x0000010000000000.
Definition ELF64_LOADER_MAX_USER_VADDR : Z := 0x000001ffffffffff.

#[global] Arguments ELF64_LOADER_MAX_LOAD_SEGMENTS : simpl never.

Definition ELF64_SEGMENT_EXECUTE : Z := 1.
Definition ELF64_SEGMENT_WRITE : Z := 2.
Definition ELF64_SEGMENT_READ : Z := 4.

Inductive elf64_load_result :=
| ELF64_LOAD_OK
| ELF64_LOAD_INVALID_ARGUMENT
| ELF64_LOAD_TRUNCATED
| ELF64_LOAD_BAD_MAGIC
| ELF64_LOAD_UNSUPPORTED_FORMAT
| ELF64_LOAD_UNSUPPORTED_ARCHITECTURE
| ELF64_LOAD_UNSUPPORTED_FEATURE
| ELF64_LOAD_TOO_MANY_HEADERS
| ELF64_LOAD_TOO_MANY_SEGMENTS
| ELF64_LOAD_INVALID_SEGMENT
| ELF64_LOAD_SEGMENT_OUT_OF_RANGE
| ELF64_LOAD_SEGMENT_OVERLAP
| ELF64_LOAD_WRITABLE_CODE
| ELF64_LOAD_INVALID_ENTRY_POINT
| ELF64_LOAD_IMAGE_TOO_LARGE
| ELF64_LOAD_DESTINATION_TOO_SMALL
| ELF64_LOAD_BUFFER_OVERLAP.

Record elf64_load_segment := ElfSegment {
  virtual_address : Z;
  memory_size : Z;
  file_size : Z;
  file_offset : Z;
  alignment : Z;
  flags : Z;
}.

(** [segment_count] is the length of [segments]. *)
Record elf64_image_plan := ElfPlan {
  entry_point : Z;
  virtual_base : Z;
  virtual_end : Z;
  image_span : Z;
  segments : list elf64_load_segment;
}.

(** ** Reading the image *)

Definition read_u16_le (bytes : list Z) (p : Z) : option Z :=
  b0 ← rd bytes p;
  b1 ← rd bytes (p + 1);
  Some (Z.lor b0 (Z.shiftl b1 8)).

Definition read_u32_le (bytes : list Z) (p : Z) : option Z :=
  b0 ← rd bytes p;
  b1 ← rd bytes (p + 1);
  b2 ← rd bytes (p + 2);
  b3 ← rd bytes (p + 3);
  Some (Z.lor (Z.lor (Z.lor b0 (Z.shiftl b1 8)) (Z.shiftl b2 16)) (Z.shiftl b3 24)).

Definition read_u64_le (bytes : list Z) (p : Z) : option Z :=
  lo ← read_u32_le bytes p;
  hi ← read_u32_le bytes (p + 4);
  Some (Z.lor lo (Z.shiftl hi 32)).

(** ** Checks *)

Definition range_fits_size (offset length container_size : Z) : bool :=
  (offset <=? container_size) && (length <=? container_size - offset).

Definition is_power_of_two (value : Z) : bool :=
  negb (value =? 0) && (Z.land value (value - 1) =? 0).

Definition virtual_ranges_overlap (first_start first_end second_start second_end : Z) : bool :=
  (first_start <? second_end) && (second_start <? first_end).

(** Pointers are addresses here. *)
Definition host_ranges_overlap (first first_size second second_size : Z) : bool :=
  if (first_size =? 0) || (second_size =? 0) then false
  else if (UINT64_MAX - first_size <? first) || (UINT64_MAX - second_size <? second) then true
  else (first <? second + second_size) && (second <? first + first_size).

Definition has (fl bit : Z) : bool := negb (Z.land fl bit =? 0).

(** Page bounds of [start .. end). *)
Definition page_start (a : Z) : Z := Z.ldiff a (ELF64_PAGE_SIZE - 1).
Definition page_end (a : Z) : Z := Z.ldiff (u64 (a + ELF64_PAGE_SIZE - 1)) (ELF64_PAGE_SIZE - 1).

(** The loop over the segments accepted so far. *)
Fixpoint check_existing (va vend fl : Z) (existing : list elf64_load_segment)
    : option elf64_load_result :=
  match existing with
  | [] => None
  | e :: existing' =>
      let existing_end := u64 (virtual_address e + memory_size e) in
      if virtual_ranges_overlap va vend (virtual_address e) existing_end
      then Some ELF64_LOAD_SEGMENT_OVERLAP
      else
        let combined_flags := Z.lor fl (flags e) in
        if virtual_ranges_overlap (page_start va) (page_end vend)
             (page_start (virtual_address e)) (page_end existing_end) &&
           has combined_flags ELF64_SEGMENT_WRITE && has combined_flags ELF64_SEGMENT_EXECUTE
        then Some ELF64_LOAD_WRITABLE_CODE
        else check_existing va vend fl existing'
  end.

(** [inspect_load_segment] on the program header at [p]; [inr] carries the
    new plan and the new [entry_is_executable]. *)
Definition inspect_load_segment (bytes : list Z) (p image_size : Z) (plan : elf64_image_plan)
    (entry_is_executable : bool) : option (elf64_load_result + elf64_image_plan * bool) :=
  fl ← read_u32_le bytes (p + 4);
  off ← read_u64_le bytes (p + 8);
  va ← read_u64_le bytes (p + 16);
  fsz ← read_u64_le bytes (p + 32);
  msz ← read_u64_le bytes (p + 40);
  align ← read_u64_le bytes (p + 48);
  Some (
    if negb (Z.ldiff fl (Z.lor (Z.lor ELF64_SEGMENT_READ ELF64_SEGMENT_WRITE)
                                ELF64_SEGMENT_EXECUTE) =? 0) ||
       (msz =? 0) || (msz <? fsz)
    then inl ELF64_LOAD_INVALID_SEGMENT
    else if has fl ELF64_SEGMENT_WRITE && has fl ELF64_SEGMENT_EXECUTE
    then inl ELF64_LOAD_WRITABLE_CODE
    else if negb (range_fits_size off fsz image_size)
    then inl ELF64_LOAD_SEGMENT_OUT_OF_RANGE
    else if (va <? ELF64_LOADER_MIN_USER_VADDR) || (ELF64_LOADER_MAX_USER_VADDR <? va) ||
            (ELF64_LOADER_MAX_USER_VADDR - va <? msz - 1)
    then inl ELF64_LOAD_SEGMENT_OUT_OF_RANGE
    else if (1 <? align) &&
            (negb (is_power_of_two align) ||
             negb (Z.land va (align - 1) =? Z.land off (align - 1)))
    then inl ELF64_LOAD_INVALID_SEGMENT
    else if (ELF64_LOADER_MAX_LOAD_SEGMENTS <=? length (segments plan))%nat
    then inl ELF64_LOAD_TOO_MANY_SEGMENTS
    else
      let vend := u64 (va + msz) in
      match check_existing va vend fl (segments plan) with
      | Some error => inl error
      | None =>
          let segment := ElfSegment va msz fsz off align fl in
          let base := if (virtual_base plan =? UINT64_MAX) || (va <? virtual_base plan)
                      then va else virtual_base plan in
          let end_ := if virtual_end plan <? vend then vend else virtual_end plan in
          let plan' := ElfPlan (entry_point plan) base end_ (image_span plan)
                         (segments plan ++ [segment]) in
          let hit := has fl ELF64_SEGMENT_EXECUTE && (va <=? entry_point plan) &&
                     (entry_point plan - va <? fsz) in
          inr (plan', if hit then true else entry_is_executable)
      end).

(** The program-header loop: [n] headers left, the next one at [p]. *)
Fixpoint inspect_headers (n : nat) (bytes : list Z) (p image_size : Z)
    (plan : elf64_image_plan) (entry_is_executable : bool)
    : option (elf64_load_result + elf64_image_plan * bool) :=
  match n with
  | O => Some (inr (plan, entry_is_executable))
  | S n' =>
      type ← read_u32_le bytes p;
      if (type =? ELF64_PT_DYNAMIC) || (type =? ELF64_PT_INTERP) || (type =? ELF64_PT_TLS)
      then Some (inl ELF64_LOAD_UNSUPPORTED_FEATURE)
      else if negb (type =? ELF64_PT_LOAD)
      then inspect_headers n' bytes (p + ELF64_PROGRAM_HEADER_SIZE) image_size plan
             entry_is_executable
      else
        r ← inspect_load_segment bytes p image_size plan entry_is_executable;
        match r with
        | inl error => Some (inl error)
        | inr (plan', e') =>
            inspect_headers n' bytes (p + ELF64_PROGRAM_HEADER_SIZE) image_size plan' e'
        end
  end.

(** The checks after the loop. *)
Definition finish_plan (plan : elf64_image_plan) (entry_is_executable : bool)
    : elf64_load_result + elf64_image_plan :=
  if (length (segments plan) =? 0)%nat then inl ELF64_LOAD_INVALID_SEGMENT
  else if negb entry_is_executable then inl ELF64_LOAD_INVALID_ENTRY_POINT
  else
    let span := u64 (virtual_end plan - virtual_base plan) in
    if (span =? 0) || (ELF64_LOADER_MAX_IMAGE_SPAN <? span) || (SIZE_MAX <? span)
    then inl ELF64_LOAD_IMAGE_TOO_LARGE
    else inr (ElfPlan (entry_point plan) (virtual_base plan) (virtual_end plan) span (segments plan)).

Definition elf64_inspect (image : option (list Z)) (image_size : Z) (out_plan_is_null : bool)
    : option (elf64_load_result + elf64_image_plan) :=
  match image with
  | None => Some (inl ELF64_LOAD_INVALID_ARGUMENT)
  | Some bytes =>
      if out_plan_is_null then Some (inl ELF64_LOAD_INVALID_ARGUMENT)
      else if image_size <? ELF64_HEADER_SIZE then Some (inl ELF64_LOAD_TRUNCATED)
      else
        b0 ← rd bytes 0; b1 ← rd bytes 1; b2 ← rd bytes 2; b3 ← rd bytes 3;
        if negb (b0 =? 0x7f) || negb (b1 =? 69) || negb (b2 =? 76) || negb (b3 =? 70)
        then Some (inl ELF64_LOAD_BAD_MAGIC)
        else
          b4 ← rd bytes 4; b5 ← rd bytes 5; b6 ← rd bytes 6;
          file_version ← read_u32_le bytes 20;
          file_type ← read_u16_le bytes 16;
          header_size ← read_u16_le bytes 52;
          entry_size ← read_u16_le bytes 54;
          if negb (b4 =? ELF64_CLASS) || negb (b5 =? ELF64_DATA_LITTLE_ENDIAN) ||
             negb (b6 =? ELF64_VERSION_CURRENT) || negb (file_version =? ELF64_VERSION_CURRENT) ||
             negb (file_type =? ELF64_TYPE_EXECUTABLE) ||
             negb (header_size =? ELF64_HEADER_SIZE) ||
             negb (entry_size =? ELF64_PROGRAM_HEADER_SIZE)
          then Some (inl ELF64_LOAD_UNSUPPORTED_FORMAT)
          else
            machine ← read_u16_le bytes 18;
            if negb (machine =? ELF64_MACHINE_X86_64)
            then Some (inl ELF64_LOAD_UNSUPPORTED_ARCHITECTURE)
            else
              program_offset ← read_u64_le bytes 32;
              program_count ← read_u16_le bytes 56;
              if (program_count =? 0) || (ELF64_LOADER_MAX_PROGRAM_HEADERS <? program_count)
              then Some (inl ELF64_LOAD_TOO_MANY_HEADERS)
              else if (program_offset <? ELF64_HEADER_SIZE) ||
                      negb (range_fits_size program_offset
                              (program_count * ELF64_PROGRAM_HEADER_SIZE) image_size)
              then Some (inl ELF64_LOAD_TRUNCATED)
              else
                entry ← read_u64_le bytes 24;
                let plan := ElfPlan entry UINT64_MAX 0 0 [] in
                r ← inspect_headers (Z.to_nat program_count) bytes program_offset image_size
                      plan false;
                Some (match r with
                      | inl error => inl error
                      | inr (plan, e) => finish_plan plan e
                      end)
  end.

(** ** Loading *)

Fixpoint copy_segments (base : Z) (source : list Z) (segs : list elf64_load_segment)
    (loaded : list Z) : option (list Z) :=
  match segs with
  | [] => Some loaded
  | g :: segs' =>
      loaded' ← copy_checked loaded source (u64 (virtual_address g - base)) (file_offset g)
                  (file_size g);
      copy_segments base source segs' loaded'
  end.

(** The destination object is [destination] at address [destination_at]; the
    result carries its contents afterwards and the plan. *)
Definition elf64_load_contiguous (image : option (list Z)) (image_at image_size : Z)
    (destination : option (list Z)) (destination_at destination_size : Z)
    : option (elf64_load_result * list Z * option elf64_image_plan) :=
  match image, destination with
  | Some bytes, Some dest =>
      r ← elf64_inspect image image_size false;
      match r with
      | inl error => Some (error, dest, None)
      | inr plan =>
          if destination_size <? image_span plan
          then Some (ELF64_LOAD_DESTINATION_TOO_SMALL, dest, None)
          else if host_ranges_overlap image_at image_size destination_at (image_span plan)
          then Some (ELF64_LOAD_BUFFER_OVERLAP, dest, None)
          else
            cleared ← copy_checked dest (zeros (image_span plan)) 0 0 (image_span plan);
            loaded ← copy_segments (virtual_base plan) bytes (segments plan) cleared;
            Some (ELF64_LOAD_OK, loaded, Some plan)
      end
  | _, _ => Some (ELF64_LOAD_INVALID_ARGUMENT, default [] destination, None)
  end.

Definition elf64_load_result_text (result : elf64_load_result) : list Z :=
  match result with
  | ELF64_LOAD_OK => cs "ok"
  | ELF64_LOAD_INVALID_ARGUMENT => cs "invalid argument"
  | ELF64_LOAD_TRUNCATED => cs "truncated ELF image"
  | ELF64_LOAD_BAD_MAGIC => cs "not an ELF image"
  | ELF64_LOAD_UNSUPPORTED_FORMAT => cs "unsupported ELF format"
  | ELF64_LOAD_UNSUPPORTED_ARCHITECTURE => cs "ELF is not x86-64"
  | ELF64_LOAD_UNSUPPORTED_FEATURE => cs "ELF uses an unsupported runtime feature"
  | ELF64_LOAD_TOO_MANY_HEADERS => cs "too many ELF program headers"
  | ELF64_LOAD_TOO_MANY_SEGMENTS => cs "too many loadable ELF segments"
  | ELF64_LOAD_INVALID_SEGMENT => cs "invalid ELF load segment"
  | ELF64_LOAD_SEGMENT_OUT_OF_RANGE => cs "ELF load segment is out of range"
  | ELF64_LOAD_SEGMENT_OVERLAP => cs "ELF load segments overlap"
  | ELF64_LOAD_WRITABLE_CODE => cs "ELF contains writable executable memory"
  | ELF64_LOAD_INVALID_ENTRY_POINT => cs "ELF entry point is not executable file data"
  | ELF64_LOAD_IMAGE_TOO_LARGE => cs "ELF virtual image is too large"
  | ELF64_LOAD_DESTINATION_TOO_SMALL => cs "ELF destination buffer is too small"
  | ELF64_LOAD_BUFFER_OVERLAP => cs "ELF source and destination overlap"
  end.
