(* ===== verification/ElfSpec.v ===== *)
(** * kernel/elf64_loader.c: what an accepted image guarantees *)

From S2P Require Import Prelude FsCodec Elf.

#[local] Arguments Nat.leb : simpl never.

(** ** Properties of plans *)

(** [seg_addr g a]: address [a] belongs to segment [g]. *)
Definition seg_addr (g : elf64_load_segment) (a : Z) : Prop :=
  virtual_address g <= a < virtual_address g + memory_size g.

Definition writable (g : elf64_load_segment) : bool := has (flags g) ELF64_SEGMENT_WRITE.
Definition executable (g : elf64_load_segment) : bool := has (flags g) ELF64_SEGMENT_EXECUTE.

(** A segment on its own: file range inside the image, memory range inside
    the user half, not writable code, no flag but read, write and execute. *)
Definition seg_wf (image_size : Z) (g : elf64_load_segment) : Prop :=
  0 <= file_offset g /\ 0 <= file_size g <= memory_size g /\
  file_offset g + file_size g <= image_size /\ 1 <= memory_size g /\
  ELF64_LOADER_MIN_USER_VADDR <= virtual_address g /\
  virtual_address g + memory_size g - 1 <= ELF64_LOADER_MAX_USER_VADDR /\
  writable g && executable g = false /\ Z.ldiff (flags g) 7 = 0.

(** Two segments: disjoint, and no page carries both permissions. *)
Definition compatible (g h : elf64_load_segment) : Prop :=
  (forall a, seg_addr g a -> seg_addr h a -> False) /\
  (forall a b, seg_addr g a -> seg_addr h b -> a / ELF64_PAGE_SIZE = b / ELF64_PAGE_SIZE ->
     (writable g || writable h) && (executable g || executable h) = false).

Definition pairwise (segs : list elf64_load_segment) : Prop :=
  forall i j g h, segs !! i = Some g -> segs !! j = Some h -> (i < j)%nat -> compatible h g.

(** Base and end are the hull of the segments. *)
Definition hull (p : elf64_image_plan) : Prop :=
  match segments p with
  | [] => virtual_base p = UINT64_MAX /\ virtual_end p = 0
  | segs =>
      Forall (fun g => virtual_base p <= virtual_address g /\
                       virtual_address g + memory_size g <= virtual_end p) segs /\
      ELF64_LOADER_MIN_USER_VADDR <= virtual_base p < virtual_end p /\
      virtual_end p <= ELF64_LOADER_MAX_USER_VADDR + 1
  end.

(** The entry point is executable file data. *)
Definition entry_ok (p : elf64_image_plan) : Prop :=
  exists g, g ∈ segments p /\ executable g = true /\
    virtual_address g <= entry_point p < virtual_address g + file_size g.

Definition plan_inv (image_size : Z) (p : elf64_image_plan) (e : bool) : Prop :=
  Forall (seg_wf image_size) (segments p) /\ pairwise (segments p) /\
  (length (segments p) <= ELF64_LOADER_MAX_LOAD_SEGMENTS)%nat /\ hull p /\
  (e = true -> entry_ok p).

(** ** Reads *)

Lemma read_u16_Some bytes p : 0 <= p -> p + 2 <= Z.of_nat (length bytes) -> is_Some (read_u16_le bytes p).
Proof. intros. unfold read_u16_le. read_all. done. Qed.

Lemma read_u32_Some bytes p : 0 <= p -> p + 4 <= Z.of_nat (length bytes) -> is_Some (read_u32_le bytes p).
Proof. intros. unfold read_u32_le. read_all. done. Qed.

Lemma read_u64_Some bytes p : 0 <= p -> p + 8 <= Z.of_nat (length bytes) -> is_Some (read_u64_le bytes p).
Proof.
  intros. unfold read_u64_le. destruct (read_u32_Some bytes p) as [? ->]; [lia..|]. simpl.
  destruct (read_u32_Some bytes (p + 4)) as [? ->]; [lia..|]. done.
Qed.

Lemma lor_range w a b : 0 <= w -> 0 <= a < 2 ^ w -> 0 <= b < 2 ^ w -> 0 <= Z.lor a b < 2 ^ w.
Proof.
  intros Hw Ha Hb. assert (H0 : 0 <= Z.lor a b) by (apply Z.lor_nonneg; lia). split; [done|].
  destruct (Z.eq_dec (Z.lor a b) 0) as [->|Hne]; [apply Z.pow_pos_nonneg; lia|].
  apply Z.log2_lt_pow2; [lia|]. rewrite Z.log2_lor by lia. apply Z.max_lub_lt.
  - destruct (Z.eq_dec a 0) as [->|]; [rewrite Z.log2_nonpos by lia|apply Z.log2_lt_pow2; lia].
    destruct (Z.eq_dec w 0) as [->|]; [|lia]. simpl in *.
    assert (b = 0) by (change (2 ^ 0) with 1 in Hb; lia). by subst.
  - destruct (Z.eq_dec b 0) as [->|]; [rewrite Z.log2_nonpos by lia|apply Z.log2_lt_pow2; lia].
    destruct (Z.eq_dec w 0) as [->|]; [|lia]. simpl in *.
    assert (a = 0) by (change (2 ^ 0) with 1 in Ha; lia). by subst.
Qed.

Lemma shiftl_range w k a : 0 <= w -> 0 <= k -> 0 <= a < 2 ^ w -> 0 <= Z.shiftl a k < 2 ^ (w + k).
Proof.
  intros Hw Hk Ha. rewrite Z.shiftl_mul_pow2, Z.pow_add_r by lia.
  pose proof (Z.pow_pos_nonneg 2 k). nia.
Qed.

Lemma pow2_mono a w v : 0 <= a < 2 ^ w -> 0 <= w <= v -> 0 <= a < 2 ^ v.
Proof. intros Ha Hw. pose proof (Z.pow_le_mono_r 2 w v). lia. Qed.

Lemma read_u32_range bytes p v : bytes_ok bytes -> read_u32_le bytes p = Some v -> u32_ok v.
Proof.
  intros Hb. unfold read_u32_le.
  destruct (rd bytes p) as [b0|] eqn:E0; [|done]. simpl.
  destruct (rd bytes (p + 1)) as [b1|] eqn:E1; [|done]. simpl.
  destruct (rd bytes (p + 2)) as [b2|] eqn:E2; [|done]. simpl.
  destruct (rd bytes (p + 3)) as [b3|] eqn:E3; [|done]. simpl. intros [= <-].
  apply rd_byte in E0, E1, E2, E3; [|done..]. unfold byte_ok in *. unfold u32_ok.
  assert (Hs : forall b k, 0 <= b < 256 -> 0 <= k <= 24 -> 0 <= Z.shiftl b k < 2 ^ 32).
  { intros b k Hb' Hk. apply pow2_mono with (8 + k); [|lia]. apply shiftl_range; lia. }
  repeat apply lor_range; try lia; apply Hs; lia.
Qed.

Lemma read_u64_range bytes p v : bytes_ok bytes -> read_u64_le bytes p = Some v -> u64_ok v.
Proof.
  intros Hb. unfold read_u64_le.
  destruct (read_u32_le bytes p) as [lo|] eqn:E0; [|done]. simpl.
  destruct (read_u32_le bytes (p + 4)) as [hi|] eqn:E1; [|done]. simpl. intros [= <-].
  apply read_u32_range in E0, E1; [|done..]. unfold u32_ok, u64_ok in *.
  apply lor_range; [lia | apply pow2_mono with 32; lia |].
  apply (shiftl_range 32 32); lia.
Qed.

(** ** Pages *)

Lemma ldiff_page a : Z.ldiff a (ELF64_PAGE_SIZE - 1) = a / 4096 * 4096.
Proof.
  change (ELF64_PAGE_SIZE - 1) with (Z.ones 12). rewrite Z.ldiff_ones_r by lia.
  rewrite Z.shiftl_mul_pow2, Z.shiftr_div_pow2 by lia. done.
Qed.

Lemma page_start_le a x : a <= x -> page_start a <= x / 4096 * 4096.
Proof. intros H. unfold page_start. rewrite ldiff_page. pose proof (Z.div_le_mono a x 4096). lia. Qed.

Lemma page_end_gt b x : 0 <= b <= 2 ^ 48 -> x < b -> x / 4096 * 4096 < page_end b.
Proof.
  intros Hb H. unfold page_end. rewrite ldiff_page, u64_small by (unfold u64_ok, ELF64_PAGE_SIZE; lia).
  unfold ELF64_PAGE_SIZE.
  replace (b + 4096 - 1) with ((b - 1) + 1 * 4096) by lia. rewrite Z.div_add by lia.
  pose proof (Z.div_le_mono x (b - 1) 4096). lia.
Qed.

Lemma has_lor a b bit : has (Z.lor a b) bit = has a bit || has b bit.
Proof.
  unfold has. rewrite Z.land_lor_distr_l.
  destruct (Z.eqb_spec (Z.land a bit) 0) as [->|Ha]; simpl; [by rewrite Z.lor_0_l|].
  destruct (Z.eqb_spec (Z.lor (Z.land a bit) (Z.land b bit)) 0) as [Hz|]; [|done].
  apply Z.lor_eq_0_iff in Hz as [? _]. done.
Qed.

(** The loop over the accepted segments lets only compatible ones through. *)
Lemma check_existing_ok n g existing :
  seg_wf n g -> Forall (seg_wf n) existing ->
  check_existing (virtual_address g) (virtual_address g + memory_size g) (flags g) existing = None ->
  Forall (compatible g) existing.
Proof.
  intros Hg He. induction He as [|e existing Hwf He IH]; intros Hc; [constructor|].
  pose proof Hg as (_ & _ & _ & Hm & Hlo & Hhi & _).
  pose proof Hwf as (_ & _ & _ & Hm' & Hlo' & Hhi' & _).
  unfold ELF64_LOADER_MIN_USER_VADDR, ELF64_LOADER_MAX_USER_VADDR in *.
  cbn [check_existing] in Hc. rewrite u64_small in Hc by (unfold u64_ok; lia).
  destruct (virtual_ranges_overlap (virtual_address g) _ _ _) eqn:Hov; [done|].
  destruct (_ && _ && _) eqn:Hpg; [done|]. constructor; [|by apply IH].
  unfold virtual_ranges_overlap in Hov. rewrite !has_lor in Hpg. split.
  - intros a Ha Hb. unfold seg_addr in *. lia.
  - intros a b Ha Hb Hpage. unfold seg_addr, ELF64_PAGE_SIZE in *. unfold writable, executable.
    rewrite <- andb_assoc in Hpg. apply andb_false_iff in Hpg as [Hpg|Hpg]; [|done].
    exfalso. unfold virtual_ranges_overlap in Hpg.
    pose proof (page_start_le (virtual_address g) a). pose proof (page_start_le (virtual_address e) b).
    pose proof (page_end_gt (virtual_address g + memory_size g) a).
    pose proof (page_end_gt (virtual_address e + memory_size e) b). lia.
Qed.

(** ** Inspection keeps the invariant *)

Lemma pairwise_snoc segs g :
  pairwise segs -> Forall (compatible g) segs -> pairwise (segs ++ [g]).
Proof.
  intros Hp Hg i j x y Hi Hj Hij. apply lookup_app_Some in Hj as [Hj|[Hlen Hj]].
  - rewrite lookup_app_l in Hi by (apply lookup_lt_Some in Hj; lia). by eapply Hp.
  - apply list_lookup_singleton_Some in Hj as [Hj <-].
    rewrite lookup_app_l in Hi by lia. rewrite Forall_forall in Hg.
    by apply Hg, list_elem_of_lookup_2 with i.
Qed.

Lemma hull_snoc p g base end_ :
  hull p -> 1 <= memory_size g -> ELF64_LOADER_MIN_USER_VADDR <= virtual_address g ->
  virtual_address g + memory_size g - 1 <= ELF64_LOADER_MAX_USER_VADDR ->
  base = (if (virtual_base p =? UINT64_MAX) || (virtual_address g <? virtual_base p)
          then virtual_address g else virtual_base p) ->
  end_ = (if virtual_end p <? virtual_address g + memory_size g
          then virtual_address g + memory_size g else virtual_end p) ->
  hull (ElfPlan (entry_point p) base end_ (image_span p) (segments p ++ [g])).
Proof.
  unfold hull. cbn [segments virtual_base virtual_end]. intros Hh Hm Hlo Hhi -> ->.
  unfold ELF64_LOADER_MIN_USER_VADDR, ELF64_LOADER_MAX_USER_VADDR, UINT64_MAX in *.
  destruct (segments p) as [|s segs]; cbn [app].
  - destruct Hh as [-> ->]. change (2 ^ 64 - 1 =? 2 ^ 64 - 1) with true. cbn [orb]. cbv iota.
    destruct (Z.ltb_spec 0 (virtual_address g + memory_size g)); [|lia].
    split_and!; try lia. constructor; [lia|constructor].
  - destruct Hh as (HF & Hb & He).
    destruct (Z.eqb_spec (virtual_base p) (2 ^ 64 - 1)); [lia|]. cbn [orb].
    destruct (Z.ltb_spec (virtual_address g) (virtual_base p)),
      (Z.ltb_spec (virtual_end p) (virtual_address g + memory_size g));
      (split; [|lia]); change (s :: segs ++ [g]) with ((s :: segs) ++ [g]);
      apply Forall_app_2; (eapply Forall_impl; [exact HF|]; simpl; intros; lia) ||
        (constructor; [lia|constructor]).
Qed.

(** What one accepted load segment satisfies. *)
Lemma inspect_load_segment_ok bytes p n plan e plan' e' :
  bytes_ok bytes -> plan_inv n plan e ->
  inspect_load_segment bytes p n plan e = Some (inr (plan', e')) ->
  plan_inv n plan' e' /\ entry_point plan' = entry_point plan.
Proof.
  intros Hb (Hwf & Hpw & Hlen & Hh & He). unfold inspect_load_segment.
  destruct (read_u32_le bytes (p + 4)) as [fl|]; [|done]. simpl.
  destruct (read_u64_le bytes (p + 8)) as [off|] eqn:Eo; [|done]. simpl.
  destruct (read_u64_le bytes (p + 16)) as [va|]; [|done]. simpl.
  destruct (read_u64_le bytes (p + 32)) as [fsz|] eqn:Ef; [|done]. simpl.
  destruct (read_u64_le bytes (p + 40)) as [msz|] eqn:Em; [|done]. simpl.
  destruct (read_u64_le bytes (p + 48)) as [al|]; [|done]. simpl.
  apply read_u64_range in Eo, Ef, Em; [|done..]. unfold u64_ok in *.
  destruct (_ || _ || (msz <? fsz)) eqn:C1; [done|].
  destruct (has fl ELF64_SEGMENT_WRITE && _) eqn:C2; [done|].
  destruct (negb (range_fits_size off fsz n)) eqn:C3; [done|].
  destruct (_ || _ || (_ <? msz - 1)) eqn:C4; [done|].
  destruct ((1 <? al) && _) eqn:C5; [done|].
  destruct (Nat.leb_spec ELF64_LOADER_MAX_LOAD_SEGMENTS (length (segments plan))) as [|Hroom]; [done|].
  unfold range_fits_size in C3. clear C5. bdestr_hyps.
  unfold ELF64_LOADER_MIN_USER_VADDR, ELF64_LOADER_MAX_USER_VADDR in *.
  rewrite u64_small by (unfold u64_ok; lia).
  set (g := ElfSegment va msz fsz off al fl).
  assert (Hg : seg_wf n g).
  { unfold seg_wf, writable, executable, g; cbn [file_offset file_size memory_size virtual_address flags].
    unfold ELF64_LOADER_MIN_USER_VADDR, ELF64_LOADER_MAX_USER_VADDR. split_and!; try lia; done. }
  pose proof (check_existing_ok n g (segments plan) Hg Hwf) as Hck. simpl in Hck.
  destruct (check_existing va (va + msz) fl (segments plan)); [done|].
  specialize (Hck eq_refl). intros [= <- <-]. split; [|done].
  unfold plan_inv; cbn [segments]. split_and!.
  - apply Forall_app_2; [done|]. by constructor.
  - by apply pairwise_snoc.
  - rewrite length_app. simpl. lia.
  - eapply hull_snoc; try done; unfold g; simpl;
      unfold ELF64_LOADER_MIN_USER_VADDR, ELF64_LOADER_MAX_USER_VADDR; lia.
  - unfold entry_ok; cbn [segments entry_point]. intros Hex.
    destruct (has fl ELF64_SEGMENT_EXECUTE && (va <=? entry_point plan) && _) eqn:Hhit.
    + bdestr_hyps. exists g. split; [apply elem_of_app; right; by apply list_elem_of_singleton|].
      unfold executable, g; cbn [virtual_address file_size flags]. split; [done|lia].
    + destruct (He Hex) as (h & Hin & ? & ?). exists h. split; [apply elem_of_app; by left|done].
Qed.

Lemma inspect_headers_ok k bytes p n plan e plan' e' :
  bytes_ok bytes -> plan_inv n plan e ->
  inspect_headers k bytes p n plan e = Some (inr (plan', e')) ->
  plan_inv n plan' e' /\ entry_point plan' = entry_point plan.
Proof.
  intros Hb. revert p plan e. induction k as [|k IH]; intros p plan e Hinv; cbn [inspect_headers].
  { by intros [= <- <-]. }
  destruct (read_u32_le bytes p) as [type|]; [|done]. simpl.
  destruct (_ || _ || _); [done|]. destruct (negb _); [by apply IH|].
  destruct (inspect_load_segment bytes p n plan e) as [[er|[plan1 e1]]|] eqn:E; try done. simpl.
  apply inspect_load_segment_ok in E as [Hinv1 Hep]; [|done..]. intros Hrec.
  destruct (IH _ _ _ Hinv1 Hrec) as [? ?]. split; [done|congruence].
Qed.

(** ** Inspection stays inside the image *)

Lemma inspect_load_segment_safe bytes p n plan e :
  0 <= p -> p + 56 <= Z.of_nat (length bytes) -> is_Some (inspect_load_segment bytes p n plan e).
Proof.
  intros H0 H1. unfold inspect_load_segment.
  destruct (read_u32_Some bytes (p + 4)) as [? ->]; [lia..|]. simpl.
  destruct (read_u64_Some bytes (p + 8)) as [? ->]; [lia..|]. simpl.
  destruct (read_u64_Some bytes (p + 16)) as [? ->]; [lia..|]. simpl.
  destruct (read_u64_Some bytes (p + 32)) as [? ->]; [lia..|]. simpl.
  destruct (read_u64_Some bytes (p + 40)) as [? ->]; [lia..|]. simpl.
  destruct (read_u64_Some bytes (p + 48)) as [? ->]; [lia..|]. simpl. done.
Qed.

Lemma inspect_headers_safe k bytes p n plan e :
  0 <= p -> p + Z.of_nat k * 56 <= Z.of_nat (length bytes) ->
  is_Some (inspect_headers k bytes p n plan e).
Proof.
  revert p plan e. induction k as [|k IH]; intros p plan e H0 H1; cbn [inspect_headers]; [done|].
  unfold ELF64_PROGRAM_HEADER_SIZE in *.
  destruct (read_u32_Some bytes p) as [type ->]; [lia..|]. simpl.
  destruct (_ || _ || _); [done|]. destruct (negb _); [apply IH; lia|].
  destruct (inspect_load_segment_safe bytes p n plan e) as [r ->]; [lia..|]. simpl.
  destruct r as [?|[? ?]]; [done|]. apply IH; lia.
Qed.

(** ** Results of inspection *)

Lemma inspect_Some bytes : is_Some (elf64_inspect (Some bytes) (Z.of_nat (length bytes)) false).
Proof.
  unfold elf64_inspect. destruct (Z.ltb_spec (Z.of_nat (length bytes)) ELF64_HEADER_SIZE) as [|Hl]; [done|].
  unfold ELF64_HEADER_SIZE in *. read_all. destruct (_ || _ || _ || _); [done|].
  destruct (read_u32_Some bytes 20) as [? ->]; [lia..|]. simpl.
  destruct (read_u16_Some bytes 16) as [? ->]; [lia..|]. simpl.
  destruct (read_u16_Some bytes 52) as [? ->]; [lia..|]. simpl.
  destruct (read_u16_Some bytes 54) as [? ->]; [lia..|]. simpl. destruct (_ || _); [done|].
  destruct (read_u16_Some bytes 18) as [? ->]; [lia..|]. simpl. destruct (negb _); [done|].
  destruct (read_u64_Some bytes 32) as [off ->]; [lia..|]. simpl.
  destruct (read_u16_Some bytes 56) as [count ->]; [lia..|]. simpl.
  destruct ((count =? 0) || _) eqn:C1; [done|]. destruct ((off <? 64) || _) eqn:C2; [done|].
  unfold range_fits_size, ELF64_PROGRAM_HEADER_SIZE in C2. bdestr_hyps.
  destruct (read_u64_Some bytes 24) as [entry ->]; [lia..|]. simpl.
  destruct (inspect_headers_safe (Z.to_nat count) bytes off (Z.of_nat (length bytes))
    (ElfPlan entry UINT64_MAX 0 0 []) false) as [r ->]; [lia..|]. done.
Qed.

Lemma check_existing_error va vend fl l : check_existing va vend fl l <> Some ELF64_LOAD_OK.
Proof.
  induction l as [|e l IH]; simpl; [done|].
  destruct (virtual_ranges_overlap va vend _ _); [done|]. by destruct (_ && _ && _).
Qed.

Lemma inspect_load_segment_error bytes p n plan e :
  inspect_load_segment bytes p n plan e <> Some (inl ELF64_LOAD_OK).
Proof.
  unfold inspect_load_segment. intros E.
  repeat (apply bind_Some in E as (? & _ & E)). injection E as E.
  repeat match type of E with (if ?b then _ else _) = _ => destruct b; [done|] end.
  destruct (check_existing _ _ _ _) as [r|] eqn:Ec; [|done].
  injection E as ->. by apply check_existing_error in Ec.
Qed.

Lemma inspect_headers_error k bytes p n plan e :
  inspect_headers k bytes p n plan e <> Some (inl ELF64_LOAD_OK).
Proof.
  revert p plan e. induction k as [|k IH]; intros p plan e; cbn [inspect_headers]; [done|].
  intros E. apply bind_Some in E as (type & _ & E).
  destruct (_ || _ || _); [done|]. destruct (negb _); [by apply IH in E|].
  apply bind_Some in E as (r & Er & E). destruct r as [er|[pl e2]]; [|by apply IH in E].
  injection E as ->. by apply inspect_load_segment_error in Er.
Qed.

(** An error of inspection is never [ELF64_LOAD_OK]. *)
Lemma inspect_not_ok bytes n : elf64_inspect (Some bytes) n false <> Some (inl ELF64_LOAD_OK).
Proof.
  unfold elf64_inspect. destruct (n <? ELF64_HEADER_SIZE); [done|].
  repeat match goal with
  | |- (_ ≫= _) <> _ => let E := fresh "E" in
      intros E; apply bind_Some in E as (? & _ & E); revert E
  | |- (_ ≫= _) = _ -> False => let E := fresh "E" in
      intros E; apply bind_Some in E as (? & ? & E); revert E
  | |- (if ?b then _ else _) = _ -> False => destruct b; [done|]
  end.
  intros [= E]. match type of E with context [match ?r with _ => _ end] => destruct r as [er|[pl e]] end.
  - injection E as ->. by eapply inspect_headers_error.
  - unfold finish_plan in E.
    repeat match type of E with (if ?b then _ else _) = _ => destruct b; [done|] end. done.
Qed.

(** ** Acceptance *)

Lemma inspect_accepted bytes n p :
  bytes_ok bytes -> elf64_inspect (Some bytes) n false = Some (inr p) ->
  plan_inv n p true /\ segments p <> [] /\
  image_span p = virtual_end p - virtual_base p /\ 0 < image_span p <= ELF64_LOADER_MAX_IMAGE_SPAN.
Proof.
  intros Hb. unfold elf64_inspect. destruct (n <? ELF64_HEADER_SIZE); [done|].
  repeat match goal with
  | |- (_ ≫= _) = _ -> _ => let E := fresh "E" in
      intros E; apply bind_Some in E as (? & ? & E); revert E
  | |- (if ?b then _ else _) = _ -> _ => destruct b; [done|]
  end.
  intros E. injection E as E.
  match goal with H : inspect_headers _ _ _ _ _ _ = Some ?r |- _ => rename H into Er; destruct r as [?|[q e]]; [done|] end.
  apply inspect_headers_ok in Er as [Hinv Hep]; [|done|].
  2: { unfold plan_inv, pairwise, hull; cbn [segments virtual_base virtual_end].
       split_and!; try done. unfold ELF64_LOADER_MAX_LOAD_SEGMENTS. simpl. lia. }
  unfold finish_plan in E. destruct (Nat.eqb_spec (length (segments q)) 0) as [|Hne]; [done|].
  destruct e; [|done]. cbn [negb] in E.
  assert (Hsp : u64 (virtual_end q - virtual_base q) = virtual_end q - virtual_base q).
  { destruct Hinv as (_ & _ & _ & Hh & _). unfold hull in Hh. destruct (segments q); [done|].
    unfold ELF64_LOADER_MIN_USER_VADDR, ELF64_LOADER_MAX_USER_VADDR in Hh.
    apply u64_small. unfold u64_ok. lia. }
  rewrite Hsp in E. destruct (_ || _ || _) eqn:C; [done|]. injection E as <-.
  destruct Hinv as (Hw & Hpw & Hlen & Hh & He). cbn [segments image_span virtual_base virtual_end].
  split; [by unfold plan_inv, hull, entry_ok in *|].
  split; [by destruct (segments q)|]. split; [done|].
  bdestr_hyps. unfold hull in Hh. destruct (segments q); [done|]. lia.
Qed.

(** No page is writable through one segment and executable through another. *)
Lemma plan_pages n p e g h a b :
  plan_inv n p e -> g ∈ segments p -> h ∈ segments p -> seg_addr g a -> seg_addr h b ->
  a / ELF64_PAGE_SIZE = b / ELF64_PAGE_SIZE -> writable g = true -> executable h = true -> False.
Proof.
  intros (Hwf & Hpw & _) Hg Hh Ha Hb Hpage Hw Hx.
  apply list_elem_of_lookup in Hg as [i Hi]. apply list_elem_of_lookup in Hh as [j Hj].
  destruct (Nat.lt_trichotomy i j) as [Hij|[->|Hij]].
  - destruct (Hpw i j g h Hi Hj Hij) as [_ Hp]. specialize (Hp b a Hb Ha (eq_sym Hpage)).
    rewrite Hw, Hx in Hp. by rewrite orb_true_r in Hp.
  - assert (g = h) as -> by congruence. rewrite Forall_forall in Hwf.
    destruct (Hwf h) as (_ & _ & _ & _ & _ & _ & Hn & _); [by apply list_elem_of_lookup_2 with j|].
    by rewrite Hw, Hx in Hn.
  - destruct (Hpw j i h g Hj Hi Hij) as [_ Hp]. specialize (Hp a b Ha Hb Hpage).
    rewrite Hw, Hx in Hp. by rewrite orb_true_r in Hp.
Qed.

(** ** Loading *)

Definition file_backed (g : elf64_load_segment) (a : Z) : Prop :=
  virtual_address g <= a < virtual_address g + file_size g.

Lemma copy_segments_ok base span source segs loaded :
  Forall (seg_wf (Z.of_nat (length source))) segs -> pairwise segs ->
  Forall (fun g => base <= virtual_address g /\ virtual_address g + memory_size g <= base + span) segs ->
  0 <= base -> span <= Z.of_nat (length loaded) ->
  exists out, copy_segments base source segs loaded = Some out /\ length out = length loaded /\
    (forall g k, g ∈ segs -> 0 <= k < file_size g ->
       out !! Z.to_nat (virtual_address g - base + k) = source !! Z.to_nat (file_offset g + k)) /\
    (forall i, 0 <= i -> (forall g, g ∈ segs -> ~ file_backed g (base + i)) ->
       out !! Z.to_nat i = loaded !! Z.to_nat i).
Proof.
  intros Hwf. revert loaded. induction Hwf as [|g segs Hg Hwf IH]; intros loaded Hpw Hin Hb Hspan.
  { exists loaded. split_and!; try done. by intros g k ?%elem_of_nil. }
  apply Forall_cons in Hin as [[Hlo Hhi] Hin]. cbn [copy_segments].
  destruct Hg as (G1 & G2 & G3 & G4 & G5 & G6 & _).
  unfold ELF64_LOADER_MIN_USER_VADDR, ELF64_LOADER_MAX_USER_VADDR in *.
  rewrite u64_small by (unfold u64_ok; lia).
  destruct (copy_checked_Some loaded source (virtual_address g - base) (file_offset g) (file_size g))
    as (l1 & -> & Hl1 & Hcopy & Hrest); [lia..|]. simpl.
  assert (Hpw' : pairwise segs) by (intros i j x y Hi Hj Hij; apply (Hpw (S i) (S j)); simpl; auto; lia).
  destruct (IH l1 Hpw' Hin Hb) as (out & -> & Hlo' & Hfile & Hother); [lia|].
  exists out. split; [done|]. split; [lia|]. split.
  - intros x k [->|Hx]%elem_of_cons Hk; [|by apply Hfile].
    rewrite Hother; [by apply Hcopy | lia |]. intros y Hy. unfold file_backed.
    apply list_elem_of_lookup in Hy as [j Hj].
    destruct (Hpw O (S j) g y eq_refl Hj ltac:(lia)) as [Hdis _]. intros Hya.
    rewrite Forall_forall in Hwf. destruct (Hwf y) as (_ & Y2 & _);
      [by apply list_elem_of_lookup_2 with j|].
    apply (Hdis (base + (virtual_address g - base + k))); unfold seg_addr; lia.
  - intros i Hi Hno. rewrite Hother by (try done; intros y Hy; apply Hno; by right).
    apply Hrest; [done|]. intros Hr. apply (Hno g); [by left|]. unfold file_backed. lia.
Qed.

Lemma hull_bounds p g :
  hull p -> g ∈ segments p ->
  virtual_base p <= virtual_address g /\ virtual_address g + memory_size g <= virtual_end p /\
  0 <= virtual_base p.
Proof.
  unfold hull. destruct (segments p) as [|s segs]; [by intros _ ?%elem_of_nil|].
  intros (HF & Hb & _) Hg. rewrite Forall_forall in HF. specialize (HF g Hg).
  unfold ELF64_LOADER_MIN_USER_VADDR in Hb. lia.
Qed.

(** ** Main theorems *)

(** inspection of any byte string, well formed or hostile, never
    reads outside it: every access the code makes is inside the image. *)
Theorem elf64_inspect_memory_safe (bytes : list Z) :
  is_Some (elf64_inspect (Some bytes) (Z.of_nat (length bytes)) false).
Proof. apply inspect_Some. Qed.

(** C38: an accepted image has between one and sixteen segments; each
    lies inside the user half and is backed by bytes of the image; no two
    share an address; no page is both writable and executable, whichever
    segments touch it; the entry point is executable file data; base and end
    enclose all segments and the span is at most 16 MiB. *)
Theorem elf64_inspect_sound (bytes : list Z) (n : Z) (p : elf64_image_plan) :
  bytes_ok bytes -> elf64_inspect (Some bytes) n false = Some (inr p) ->
  (1 <= length (segments p) <= 16)%nat /\ Forall (seg_wf n) (segments p) /\
  (forall i j g h a, segments p !! i = Some g -> segments p !! j = Some h -> i <> j ->
     seg_addr g a -> ~ seg_addr h a) /\
  (forall g h a b, g ∈ segments p -> h ∈ segments p -> seg_addr g a -> seg_addr h b ->
     a / ELF64_PAGE_SIZE = b / ELF64_PAGE_SIZE -> ~ (writable g = true /\ executable h = true)) /\
  entry_ok p /\
  (forall g a, g ∈ segments p -> seg_addr g a -> virtual_base p <= a < virtual_end p) /\
  image_span p = virtual_end p - virtual_base p /\ image_span p <= ELF64_LOADER_MAX_IMAGE_SPAN.
Proof.
  intros Hb Hi. destruct (inspect_accepted bytes n p Hb Hi) as (Hinv & Hne & Hsp & Hmax).
  pose proof Hinv as (Hwf & Hpw & Hlen & Hh & He).
  split. { unfold ELF64_LOADER_MAX_LOAD_SEGMENTS in Hlen. destruct (segments p); simpl in *; [done|lia]. }
  split; [done|]. split.
  { intros i j g h a Hgi Hhj Hij Ha Hha. destruct (Nat.lt_total i j) as [Hlt|[?|Hlt]]; [|done|].
    - destruct (Hpw i j g h Hgi Hhj Hlt) as [Hd _]. exact (Hd a Hha Ha).
    - destruct (Hpw j i h g Hhj Hgi Hlt) as [Hd _]. exact (Hd a Ha Hha). }
  split. { intros g h a b Hg Hh' Ha Hb' Hpg [Hw Hx]. by apply (plan_pages n p true g h a b). }
  split; [by apply He|]. split; [|lia].
  intros g a Hg Ha. destruct (hull_bounds p g Hh Hg) as (? & ? & _). unfold seg_addr in Ha. lia.
Qed.

(** loading into a buffer of the stated size never touches memory
    outside the image and the buffer, and on success the buffer holds, at
    every address of the span, the image byte of the segment that backs it
    and zero elsewhere; the rest of the buffer is unchanged. *)
Theorem elf64_load_contiguous_correct (bytes dest : list Z) (image_at dest_at : Z) :
  bytes_ok bytes ->
  let n := Z.of_nat (length bytes) in
  let m := Z.of_nat (length dest) in
  exists r out op, elf64_load_contiguous (Some bytes) image_at n (Some dest) dest_at m = Some (r, out, op) /\
  (r <> ELF64_LOAD_OK -> out = dest /\ op = None) /\
  (r = ELF64_LOAD_OK -> exists p, op = Some p /\
     elf64_inspect (Some bytes) n false = Some (inr p) /\ length out = length dest /\
     (forall g k, g ∈ segments p -> 0 <= k < file_size g ->
        out !! Z.to_nat (virtual_address g - virtual_base p + k) =
        bytes !! Z.to_nat (file_offset g + k)) /\
     (forall i, 0 <= i < image_span p ->
        (forall g, g ∈ segments p -> ~ file_backed g (virtual_base p + i)) ->
        out !! Z.to_nat i = Some 0) /\
     (forall i, image_span p <= i -> out !! Z.to_nat i = dest !! Z.to_nat i)).
Proof.
  intros Hb n m. destruct (inspect_Some bytes) as [[er|p] Hr]; fold n in Hr.
  { exists er, dest, None. unfold elf64_load_contiguous. rewrite Hr. simpl.
    split; [done|]. split; [done|]. intros ->. exfalso. by apply inspect_not_ok in Hr. }
  destruct (inspect_accepted bytes n p Hb Hr) as ((Hwf & Hpw & _ & Hh & _) & Hne & Hsp & Hmax).
  unfold elf64_load_contiguous. rewrite Hr. simpl.
  destruct (Z.ltb_spec m (image_span p)) as [|Hfit]; [by eexists _, _, _|].
  destruct (host_ranges_overlap _ _ _ _); [by eexists _, _, _|].
  assert (Hz : length (zeros (image_span p)) = Z.to_nat (image_span p)) by (apply length_zeros; lia).
  destruct (copy_checked_Some dest (zeros (image_span p)) 0 0 (image_span p))
    as (cleared & -> & Hcl & Hc0 & Hc1); [lia..|]. simpl.
  destruct (copy_segments_ok (virtual_base p) (image_span p) bytes (segments p) cleared)
    as (out & -> & Hlo & Hfile & Hother); try done.
  { apply Forall_forall. intros g Hg. destruct (hull_bounds p g Hh Hg) as (? & ? & ?). lia. }
  { destruct (segments p) as [|g segs] eqn:E; [done|].
    apply (hull_bounds p g Hh). rewrite E. by left. }
  { lia. }
  simpl. exists ELF64_LOAD_OK, out, (Some p). split; [done|]. split; [done|]. intros _.
  exists p. split_and!; try done; [lia| |].
  - intros i Hi Hno. rewrite Hother by (lia || done).
    rewrite <- (Z.add_0_l i), Hc0, Z.add_0_l by lia. unfold zeros.
    apply lookup_replicate_2. lia.
  - intros i Hi. rewrite Hother; [by rewrite Hc1 by lia | lia |].
    intros g Hg Hf. destruct (hull_bounds p g Hh Hg) as (? & ? & ?).
    rewrite Forall_forall in Hwf. destruct (Hwf g Hg) as (_ & ? & _). unfold file_backed in Hf. lia.
Qed.

(** ** Witnesses: a small executable with a code and a data segment *)

Definition le (n : nat) (v : Z) : list Z := le_bytes n v.

Definition phdr (fl off va fsz msz : Z) : list Z :=
  le 4 ELF64_PT_LOAD ++ le 4 fl ++ le 8 off ++ le 8 va ++ le 8 va ++ le 8 fsz ++ le 8 msz ++ le 8 1.

Definition sample_elf : list Z :=
  [0x7f; 69; 76; 70; 2; 1; 1; 0] ++ zeros 8 ++ le 2 2 ++ le 2 62 ++ le 4 1 ++
  le 8 0x10000000002 ++ le 8 64 ++ le 8 0 ++ le 4 0 ++ le 2 64 ++ le 2 56 ++ le 2 2 ++ zeros 6 ++
  phdr 5 176 0x10000000000 4 4 ++ phdr 6 180 0x10000001000 2 16 ++ [1; 2; 3; 4; 5; 6].

Lemma sample_elf_ok : bytes_ok sample_elf.
Proof. apply bytes_okb_true. vm_compute. reflexivity. Qed.

Definition sample_plan : elf64_image_plan :=
  ElfPlan 0x10000000002 0x10000000000 0x10000001010 0x1010
    [ElfSegment 0x10000000000 4 4 176 1 5; ElfSegment 0x10000001000 16 2 180 1 6].

Lemma sample_accepted : elf64_inspect (Some sample_elf) 182 false = Some (inr sample_plan).
Proof. vm_compute. reflexivity. Qed.

Lemma elf64_inspect_sound_witness : entry_ok sample_plan.
Proof.
  destruct (elf64_inspect_sound sample_elf 182 sample_plan sample_elf_ok sample_accepted)
    as (_ & _ & _ & _ & H & _). exact H.
Defined.

Lemma elf64_load_contiguous_correct_witness :
  exists out, elf64_load_contiguous (Some sample_elf) 0 182 (Some (replicate 4200 9)) 10000 4200 =
    Some (ELF64_LOAD_OK, out, Some sample_plan) /\
  out !! 4097%nat = Some 6 /\ out !! 4111%nat = Some 0.
Proof.
  destruct (elf64_load_contiguous_correct sample_elf (replicate 4200 9) 0 10000 sample_elf_ok)
    as (r & out & op & Hrun & _ & Hok).
  change (Z.of_nat (length sample_elf)) with 182 in *.
  change (Z.of_nat (length (replicate 4200 9))) with 4200 in *.
  assert (Hr : r = ELF64_LOAD_OK).
  { apply (f_equal (option_map (fun x => x.1.1))) in Hrun. vm_compute in Hrun. congruence. }
  subst r. destruct (Hok eq_refl) as (p & -> & Hp & _ & Hfile & Hzero & _).
  rewrite sample_accepted in Hp. injection Hp as <-. exists out. split; [exact Hrun|]. split.
  - specialize (Hfile (ElfSegment 0x10000001000 16 2 180 1 6) 1). apply Hfile; [right; by left | simpl; lia].
  - apply (Hzero 4111); [vm_compute; split; congruence|].
    intros g Hg. apply elem_of_cons in Hg as [->|Hg]; [unfold file_backed; simpl; lia|].
    apply list_elem_of_singleton in Hg as ->. unfold file_backed; simpl; lia.
Defined.
