(* ===== verification/Manifest.v ===== *)
(** * kernel/app_manifest.c: application manifests and their registry

    The fixed [char] arrays of [struct app_manifest] are lists of exactly
    their capacity.  The registry is its array of 32 manifests and its count. *)

From S2P Require Import Prelude CString.

Definition NOSTALUX_APP_MANIFEST_VERSION : Z := 1.
Definition NOSTALUX_APP_ABI_VERSION : Z := 1.
Definition APP_ID_CAPACITY : nat := 32.
Definition APP_DISPLAY_CAPACITY : nat := 48.
Definition APP_EXECUTABLE_CAPACITY : nat := 32.
Definition APP_DESCRIPTION_CAPACITY : nat := 96.
Definition APP_REGISTRY_CAPACITY : nat := 32.
Definition APP_CAPABILITY_ALL : Z := 0xFF.
#[global] Arguments APP_ID_CAPACITY : simpl never.
#[global] Arguments APP_DISPLAY_CAPACITY : simpl never.
#[global] Arguments APP_EXECUTABLE_CAPACITY : simpl never.
#[global] Arguments APP_DESCRIPTION_CAPACITY : simpl never.
#[global] Arguments APP_REGISTRY_CAPACITY : simpl never.

Record app_manifest := AppManifest {
  manifest_version : Z;
  abi_version : Z;
  capabilities : Z;
  id : list Z;
  display_name : list Z;
  executable : list Z;
  description : list Z;
}.

Inductive app_manifest_result :=
| APP_MANIFEST_OK
| APP_MANIFEST_INVALID_ARGUMENT
| APP_MANIFEST_UNSUPPORTED_VERSION
| APP_MANIFEST_UNSUPPORTED_ABI
| APP_MANIFEST_INVALID_CAPABILITY
| APP_MANIFEST_INVALID_ID
| APP_MANIFEST_INVALID_DISPLAY_NAME
| APP_MANIFEST_INVALID_EXECUTABLE
| APP_MANIFEST_INVALID_DESCRIPTION
| APP_MANIFEST_DUPLICATE_ID
| APP_MANIFEST_DUPLICATE_EXECUTABLE
| APP_MANIFEST_REGISTRY_FULL.

#[export] Instance app_manifest_result_eq : EqDecision app_manifest_result.
Proof. solve_decision. Defined.

(** ** Strings in fixed arrays *)

(** [string_is_terminated]: the length, when a NUL is within [capacity]. *)
Fixpoint string_is_terminated (text : list Z) (capacity : nat) : option nat :=
  match capacity, text with
  | S capacity', c :: text' =>
      if c =? 0 then Some O else option_map S (string_is_terminated text' capacity')
  | _, _ => None
  end.

Fixpoint strings_equal_bounded (first second : list Z) (capacity : nat) : bool :=
  match capacity, first, second with
  | S capacity', a :: first', b :: second' =>
      if negb (a =? b) then false
      else if a =? 0 then true
      else strings_equal_bounded first' second' capacity'
  | _, _, _ => false
  end.

Definition is_lower_letter (v : Z) : bool := (97 <=? v) && (v <=? 122).
Definition is_digit (v : Z) : bool := (48 <=? v) && (v <=? 57).
Definition is_printable_ascii (v : Z) : bool := (0x20 <=? v) && (v <=? 0x7e).

Definition id_char (v : Z) : bool := is_lower_letter v || is_digit v || (v =? 45) || (v =? 95).

Definition id_is_valid (s : list Z) : bool :=
  match string_is_terminated s APP_ID_CAPACITY with
  | None => false
  | Some length =>
      if (length =? 0)%nat || negb (is_lower_letter (znth s 0)) then false
      else forallb id_char (slice s 1 (length - 1))
  end.

Definition display_name_is_valid (s : list Z) : bool :=
  match string_is_terminated s APP_DISPLAY_CAPACITY with
  | None => false
  | Some length =>
      if (length =? 0)%nat || (znth s 0 =? 32) || (znth s (Z.of_nat length - 1) =? 32) then false
      else forallb is_printable_ascii (take length s)
  end.

Definition executable_is_valid (s : list Z) : bool :=
  match string_is_terminated s APP_EXECUTABLE_CAPACITY with
  | None => false
  | Some length =>
      if (length <=? 4)%nat then false
      else if negb (forallb (fun v => id_char v || (v =? 46)) (take length s)) then false
      else
        let l := Z.of_nat length in
        (znth s (l - 4) =? 46) && (znth s (l - 3) =? 101) && (znth s (l - 2) =? 108) &&
        (znth s (l - 1) =? 102)
  end.

Definition description_is_valid (s : list Z) : bool :=
  match string_is_terminated s APP_DESCRIPTION_CAPACITY with
  | None => false
  | Some length => forallb is_printable_ascii (take length s)
  end.

Definition app_manifest_validate (manifest : option app_manifest) : app_manifest_result :=
  match manifest with
  | None => APP_MANIFEST_INVALID_ARGUMENT
  | Some m =>
      if negb (manifest_version m =? NOSTALUX_APP_MANIFEST_VERSION)
      then APP_MANIFEST_UNSUPPORTED_VERSION
      else if negb (abi_version m =? NOSTALUX_APP_ABI_VERSION) then APP_MANIFEST_UNSUPPORTED_ABI
      else if negb (Z.ldiff (capabilities m) APP_CAPABILITY_ALL =? 0)
      then APP_MANIFEST_INVALID_CAPABILITY
      else if negb (id_is_valid (id m)) then APP_MANIFEST_INVALID_ID
      else if negb (display_name_is_valid (display_name m)) then APP_MANIFEST_INVALID_DISPLAY_NAME
      else if negb (executable_is_valid (executable m)) then APP_MANIFEST_INVALID_EXECUTABLE
      else if negb (description_is_valid (description m)) then APP_MANIFEST_INVALID_DESCRIPTION
      else APP_MANIFEST_OK
  end.

(** ** The registry *)

Record registry := Registry {
  g_registry : list app_manifest;
  g_registry_count : nat;
}.

Definition app_registry_reset (r : registry) : registry :=
  Registry (map (fun m => AppManifest (manifest_version m) (abi_version m) (capabilities m)
                            (<[O := 0]> (id m)) (display_name m) (executable m) (description m))
              (g_registry r)) O.

(** The duplicate scan over the registered manifests. *)
Fixpoint find_duplicate (m : app_manifest) (registered : list app_manifest)
    : option app_manifest_result :=
  match registered with
  | [] => None
  | e :: registered' =>
      if strings_equal_bounded (id e) (id m) APP_ID_CAPACITY then Some APP_MANIFEST_DUPLICATE_ID
      else if strings_equal_bounded (executable e) (executable m) APP_EXECUTABLE_CAPACITY
      then Some APP_MANIFEST_DUPLICATE_EXECUTABLE
      else find_duplicate m registered'
  end.

Definition registered (r : registry) : list app_manifest := take (g_registry_count r) (g_registry r).

Definition app_registry_register (manifest : option app_manifest) (r : registry)
    : app_manifest_result * registry :=
  let result := app_manifest_validate manifest in
  match manifest with
  | None => (result, r)
  | Some m =>
      if negb (bool_decide (result = APP_MANIFEST_OK)) then (result, r)
      else
        match find_duplicate m (registered r) with
        | Some error => (error, r)
        | None =>
            if (APP_REGISTRY_CAPACITY <=? g_registry_count r)%nat
            then (APP_MANIFEST_REGISTRY_FULL, r)
            else (APP_MANIFEST_OK,
                  Registry (<[g_registry_count r := m]> (g_registry r)) (g_registry_count r + 1))
        end
  end.

Definition app_registry_count (r : registry) : nat := g_registry_count r.

Definition app_registry_at (index : nat) (r : registry) : option app_manifest :=
  if (g_registry_count r <=? index)%nat then None else g_registry r !! index.

Definition app_registry_find_id (name : option (list Z)) (r : registry) : option app_manifest :=
  match name with
  | None => None
  | Some n => List.find (fun e => strings_equal_bounded (id e) n APP_ID_CAPACITY) (registered r)
  end.

Definition app_registry_find_executable (name : option (list Z)) (r : registry)
    : option app_manifest :=
  match name with
  | None => None
  | Some n =>
      List.find (fun e => strings_equal_bounded (executable e) n APP_EXECUTABLE_CAPACITY) (registered r)
  end.

Definition app_manifest_result_text (result : app_manifest_result) : list Z :=
  match result with
  | APP_MANIFEST_OK => cs "ok"
  | APP_MANIFEST_INVALID_ARGUMENT => cs "invalid argument"
  | APP_MANIFEST_UNSUPPORTED_VERSION => cs "unsupported manifest version"
  | APP_MANIFEST_UNSUPPORTED_ABI => cs "unsupported application ABI"
  | APP_MANIFEST_INVALID_CAPABILITY => cs "manifest requests an unknown capability"
  | APP_MANIFEST_INVALID_ID => cs "invalid application id"
  | APP_MANIFEST_INVALID_DISPLAY_NAME => cs "invalid application display name"
  | APP_MANIFEST_INVALID_EXECUTABLE => cs "invalid application executable"
  | APP_MANIFEST_INVALID_DESCRIPTION => cs "invalid application description"
  | APP_MANIFEST_DUPLICATE_ID => cs "application id is already registered"
  | APP_MANIFEST_DUPLICATE_EXECUTABLE => cs "application executable is already registered"
  | APP_MANIFEST_REGISTRY_FULL => cs "application registry is full"
  end.

(** ** Specification of a valid manifest *)

Definition manifest_wf (m : app_manifest) : Prop :=
  length (id m) = APP_ID_CAPACITY /\ length (display_name m) = APP_DISPLAY_CAPACITY /\
  length (executable m) = APP_EXECUTABLE_CAPACITY /\
  length (description m) = APP_DESCRIPTION_CAPACITY /\ u64_ok (capabilities m).

(** Stated on the strings themselves: an identifier, a printable trimmed
    name, a [*.elf] file name, a printable text, each inside its array. *)
Definition valid_manifest (m : app_manifest) : Prop :=
  manifest_version m = 1 /\ abi_version m = 1 /\ capabilities m < 256 /\
  (is_terminated (id m) /\ exists c t, cstr (id m) = c :: t /\ is_lower_letter c = true /\
     Forall (fun v => id_char v = true) t) /\
  (is_terminated (display_name m) /\ Forall (fun v => is_printable_ascii v = true) (cstr (display_name m)) /\
     exists c, head (cstr (display_name m)) = Some c /\ c <> 32 /\ last (cstr (display_name m)) <> Some 32) /\
  (is_terminated (executable m) /\ exists stem, stem <> [] /\ cstr (executable m) = stem ++ cs ".elf" /\
     Forall (fun v => id_char v || (v =? 46) = true) stem) /\
  (is_terminated (description m) /\ Forall (fun v => is_printable_ascii v = true) (cstr (description m))).

Definition registry_inv (r : registry) : Prop :=
  length (g_registry r) = APP_REGISTRY_CAPACITY /\ (g_registry_count r <= APP_REGISTRY_CAPACITY)%nat /\
  Forall manifest_wf (registered r) /\
  Forall (fun m => app_manifest_validate (Some m) = APP_MANIFEST_OK) (registered r) /\
  NoDup (map (fun m => cstr (id m)) (registered r)) /\
  NoDup (map (fun m => cstr (executable m)) (registered r)).

(** ** Lemmas *)

Lemma string_is_terminated_spec s n :
  length s = n -> string_is_terminated s n =
    if decide (is_terminated s) then Some (length (cstr s)) else None.
Proof.
  intros <-. induction s as [|c s IH].
  { destruct (decide (is_terminated [])) as [H|_]; [|done]. by apply elem_of_nil in H. }
  cbn [string_is_terminated length cstr]. destruct (Z.eqb_spec c 0) as [->|Hc].
  - rewrite decide_True by (by left). done.
  - rewrite IH. destruct (decide (is_terminated s)) as [H|H].
    + rewrite decide_True by (by right). done.
    + rewrite decide_False by (intros [?|?]%elem_of_cons; [lia|done]). done.
Qed.

Lemma strings_equal_spec a b n :
  length a = n -> is_terminated a -> strings_equal_bounded a b n = true <->
    cstr a = cstr b /\ is_terminated b.
Proof.
  intros <-. revert b. unfold is_terminated. induction a as [|x a IH]; intros b Ha; [by apply elem_of_nil in Ha|].
  cbn [length strings_equal_bounded]. destruct b as [|y b].
  { split; [done|]. intros [_ H%elem_of_nil]. done. }
  cbn [cstr]. destruct (Z.eqb_spec x y) as [<-|Hxy]; cbn [negb].
  - destruct (Z.eqb_spec x 0) as [->|Hx]; [split; [intros _; split; [done|by left]|done]|].
    assert (Ha' : 0 ∈ a) by (apply elem_of_cons in Ha as [?|?]; [lia|done]).
    rewrite (IH b Ha'). split; intros [E T]; (split; [congruence|]).
    + by right.
    + apply elem_of_cons in T as [?|?]; [lia|done].
  - split; [done|]. intros [E _]. destruct (Z.eqb_spec x 0), (Z.eqb_spec y 0); congruence.
Qed.

Lemma take_cstr_length s : take (length (cstr s)) s = cstr s.
Proof. apply take_cstr. Qed.

Lemma znth_cstr s i : (i < length (cstr s))%nat -> (cstr s) !! i = Some (znth s (Z.of_nat i)).
Proof.
  intros Hi. unfold znth. rewrite Nat2Z.id. rewrite <- (take_cstr s) in Hi |- * at 1.
  rewrite length_take in Hi. rewrite lookup_take_lt by lia.
  destruct (s !! i) eqn:E; [done|]. apply lookup_ge_None in E. lia.
Qed.

Lemma forallb_Forall_true {A} (p : A -> bool) l : forallb p l = true <-> Forall (fun x => p x = true) l.
Proof.
  rewrite forallb_forall, Forall_forall. split; intros H x Hx; apply H; by apply list_elem_of_In.
Qed.

Lemma id_is_valid_spec s :
  length s = APP_ID_CAPACITY ->
  id_is_valid s = true <->
  is_terminated s /\ exists c t, cstr s = c :: t /\ is_lower_letter c = true /\
    Forall (fun v => id_char v = true) t.
Proof.
  intros Hl. unfold id_is_valid. rewrite (string_is_terminated_spec s _ Hl).
  case_decide as Ht; [|split; [done|by intros [? _]]].
  pose proof (take_cstr s) as Htake. destruct (cstr s) as [|c t] eqn:E.
  { split; [done|]. by intros (_ & ? & ? & ? & _). }
  cbn [length Nat.eqb orb]. destruct s as [|x s]; [done|]. simpl in Htake. injection Htake as -> Htake.
  change (znth (c :: s) 0) with c. rewrite slice_cons. unfold slice.
  replace (S (length t) - 1)%nat with (length t) by lia. rewrite drop_0, Htake.
  destruct (is_lower_letter c) eqn:Hc; cbn [negb].
  - rewrite forallb_Forall_true. split; [intros H; split; [done|by exists c, t]|].
    by intros (_ & c' & t' & [= <- <-] & _ & ?).
  - split; [done|]. intros (_ & c' & t' & [= <- <-] & ? & _). congruence.
Qed.


Lemma display_name_is_valid_spec s :
  length s = APP_DISPLAY_CAPACITY ->
  display_name_is_valid s = true <->
  is_terminated s /\ Forall (fun v => is_printable_ascii v = true) (cstr s) /\
    exists c, head (cstr s) = Some c /\ c <> 32 /\ last (cstr s) <> Some 32.
Proof.
  intros Hl. unfold display_name_is_valid. rewrite (string_is_terminated_spec s _ Hl).
  case_decide as Ht; [|split; [done|by intros [? _]]].
  rewrite take_cstr_length. destruct (Nat.eqb_spec (length (cstr s)) 0) as [E0|E0].
  { apply length_zero_iff_nil in E0. rewrite E0. split; [done|]. by intros (_ & _ & ? & ? & _). }
  assert (Hh : head (cstr s) = Some (znth s 0)).
  { rewrite head_lookup. apply (znth_cstr s 0). lia. }
  assert (Hla : last (cstr s) = Some (znth s (Z.of_nat (length (cstr s)) - 1))).
  { rewrite last_lookup. rewrite znth_cstr by lia. do 2 f_equal. lia. }
  rewrite Hh, Hla. cbn [orb].
  destruct (Z.eqb_spec (znth s 0) 32) as [E1|E1]; cbn [orb].
  { split; [done|]. intros (_ & _ & c & [= <-] & ? & _). done. }
  destruct (Z.eqb_spec (znth s (Z.of_nat (length (cstr s)) - 1)) 32) as [E2|E2].
  { split; [done|]. intros (_ & _ & c & _ & _ & H). congruence. }
  rewrite forallb_Forall_true. split.
  - intros H. split; [done|]. split; [done|]. eexists. split; [done|]. split; congruence.
  - by intros (_ & H & _).
Qed.

Lemma drop_four_chars (l : list Z) (n : nat) a b c d :
  length l = (n + 4)%nat -> l !! n = Some a -> l !! (n + 1)%nat = Some b ->
  l !! (n + 2)%nat = Some c -> l !! (n + 3)%nat = Some d ->
  drop n l = [a; b; c; d].
Proof.
  intros Hl Ha Hb Hc Hd. rewrite (drop_S l a n Ha).
  rewrite (drop_S l b (S n)) by (rewrite <- Hb; f_equal; lia).
  rewrite (drop_S l c (S (S n))) by (rewrite <- Hc; f_equal; lia).
  rewrite (drop_S l d (S (S (S n)))) by (rewrite <- Hd; f_equal; lia).
  rewrite drop_ge by lia. done.
Qed.

Lemma executable_is_valid_spec s :
  length s = APP_EXECUTABLE_CAPACITY ->
  executable_is_valid s = true <->
  is_terminated s /\ exists stem, stem <> [] /\ cstr s = stem ++ cs ".elf" /\
    Forall (fun v => id_char v || (v =? 46) = true) stem.
Proof.
  intros Hl. unfold executable_is_valid. rewrite (string_is_terminated_spec s _ Hl).
  case_decide as Ht; [|split; [done|by intros [? _]]].
  rewrite take_cstr_length.
  destruct (Nat.leb_spec (length (cstr s)) 4) as [E|E].
  { split; [done|]. intros (_ & stem & Hn & Hs & _). rewrite Hs, length_app in E.
    change (length (cs ".elf")) with 4%nat in E. destruct stem; [done|]. cbn [length] in E. lia. }
  set (n := (length (cstr s) - 4)%nat).
  assert (Hlook : forall k, (k < 4)%nat ->
            cstr s !! (n + k)%nat = Some (znth s (Z.of_nat (length (cstr s)) - Z.of_nat (4 - k)))).
  { intros k Hk. rewrite znth_cstr by (unfold n; lia). do 2 f_equal. unfold n. lia. }
  pose proof (Hlook 0%nat ltac:(lia)) as H0. pose proof (Hlook 1%nat ltac:(lia)) as H1.
  pose proof (Hlook 2%nat ltac:(lia)) as H2. pose proof (Hlook 3%nat ltac:(lia)) as H3. clear Hlook.
  change (Z.of_nat (4 - 0)) with 4 in H0. change (Z.of_nat (4 - 1)) with 3 in H1.
  change (Z.of_nat (4 - 2)) with 2 in H2. change (Z.of_nat (4 - 3)) with 1 in H3.
  rewrite Nat.add_0_r in H0.
  split.
  - destruct (forallb _ _) eqn:F; cbn [negb]; [|done]. apply forallb_Forall_true in F.
    intros HE. rewrite !andb_true_iff, !Z.eqb_eq in HE. destruct HE as [[[Ea Eb] Ec] Ed].
    rewrite Ea in H0. rewrite Eb in H1. rewrite Ec in H2. rewrite Ed in H3.
    split; [done|]. exists (take n (cstr s)).
    pose proof (drop_four_chars (cstr s) n 46 101 108 102 ltac:(unfold n; lia) H0 H1 H2 H3) as Hd.
    split; [|split].
    + intros Hnil. apply (f_equal length) in Hnil. rewrite length_take in Hnil. cbn [length] in Hnil.
      unfold n in Hnil. lia.
    + rewrite <- (take_drop n (cstr s)) at 1. by rewrite Hd.
    + by apply Forall_take.
  - intros (_ & stem & Hne & Hs & Hall).
    assert (Hn : n = length stem).
    { unfold n. rewrite Hs, length_app. change (length (cs ".elf")) with 4%nat. lia. }
    rewrite (proj2 (forallb_Forall_true _ _)); cbn [negb].
    2: { rewrite Hs. apply Forall_app. split; [done|]. by repeat constructor. }
    clearbody n. clear E.
    revert H0 H1 H2 H3. generalize (znth s (Z.of_nat (length (cstr s)) - 4)),
      (znth s (Z.of_nat (length (cstr s)) - 3)), (znth s (Z.of_nat (length (cstr s)) - 2)),
      (znth s (Z.of_nat (length (cstr s)) - 1)).
    intros z0 z1 z2 z3 H0 H1 H2 H3. rewrite Hs in H0, H1, H2, H3.
    rewrite lookup_app_r in H0, H1, H2, H3 by lia.
    replace (n - length stem)%nat with 0%nat in H0 by lia.
    replace (n + 1 - length stem)%nat with 1%nat in H1 by lia.
    replace (n + 2 - length stem)%nat with 2%nat in H2 by lia.
    replace (n + 3 - length stem)%nat with 3%nat in H3 by lia.
    injection H0 as <-. injection H1 as <-. injection H2 as <-. by injection H3 as <-.
Qed.

Lemma description_is_valid_spec s :
  length s = APP_DESCRIPTION_CAPACITY ->
  description_is_valid s = true <->
  is_terminated s /\ Forall (fun v => is_printable_ascii v = true) (cstr s).
Proof.
  intros Hl. unfold description_is_valid. rewrite (string_is_terminated_spec s _ Hl).
  case_decide as Ht; [|split; [done|by intros [? _]]].
  rewrite take_cstr_length, forallb_Forall_true. by split; [split|intros [_ ?]].
Qed.

Lemma capabilities_known c :
  0 <= c -> Z.ldiff c APP_CAPABILITY_ALL = 0 <-> c < 256.
Proof.
  intros Hc. change APP_CAPABILITY_ALL with (Z.ones 8).
  rewrite Z.ldiff_ones_r by lia. rewrite Z.shiftl_mul_pow2, Z.shiftr_div_pow2 by lia.
  change (2 ^ 8) with 256. pose proof (Z.div_pos c 256). pose proof (Z.div_mod c 256).
  pose proof (Z.mod_pos_bound c 256). split; intros; nia.
Qed.

Lemma validate_ok m :
  manifest_wf m -> app_manifest_validate (Some m) = APP_MANIFEST_OK <-> valid_manifest m.
Proof.
  intros (Li & Ln & Le & Ld & Hc). unfold valid_manifest, app_manifest_validate.
  rewrite <- (id_is_valid_spec _ Li), <- (display_name_is_valid_spec _ Ln),
    <- (executable_is_valid_spec _ Le), <- (description_is_valid_spec _ Ld).
  rewrite <- (capabilities_known (capabilities m)) by apply Hc.
  change NOSTALUX_APP_MANIFEST_VERSION with 1. change NOSTALUX_APP_ABI_VERSION with 1.
  destruct (Z.eqb_spec (manifest_version m) 1); cbn [negb]; [|split; [done|intros H; destruct_and!; done]].
  destruct (Z.eqb_spec (abi_version m) 1); cbn [negb]; [|split; [done|intros H; destruct_and!; done]].
  destruct (Z.eqb_spec (Z.ldiff (capabilities m) APP_CAPABILITY_ALL) 0); cbn [negb];
    [|split; [done|intros H; destruct_and!; done]].
  destruct (id_is_valid _), (display_name_is_valid _), (executable_is_valid _),
    (description_is_valid _); cbn [negb];
    (split; [try done; intros _; repeat (split; [done|]); done | intros H; destruct_and!; done]).
Qed.

Lemma valid_terminated m :
  valid_manifest m -> is_terminated (id m) /\ is_terminated (executable m).
Proof. unfold valid_manifest. tauto. Qed.

Lemma id_match e n :
  manifest_wf e -> valid_manifest e ->
  strings_equal_bounded (id e) n APP_ID_CAPACITY = true <-> cstr (id e) = cstr n /\ is_terminated n.
Proof. intros We Ve. apply strings_equal_spec; [apply We|apply (valid_terminated _ Ve)]. Qed.

Lemma executable_match e n :
  manifest_wf e -> valid_manifest e ->
  strings_equal_bounded (executable e) n APP_EXECUTABLE_CAPACITY = true <->
    cstr (executable e) = cstr n /\ is_terminated n.
Proof. intros We Ve. apply strings_equal_spec; [apply We|apply (valid_terminated _ Ve)]. Qed.

(** The duplicate scan finds nothing exactly when both names are new. *)
Lemma find_duplicate_None m l :
  valid_manifest m -> Forall manifest_wf l -> Forall valid_manifest l ->
  find_duplicate m l = None <->
  cstr (id m) ∉ map (fun e => cstr (id e)) l /\
  cstr (executable m) ∉ map (fun e => cstr (executable e)) l.
Proof.
  intros Vm. destruct (valid_terminated _ Vm) as [Ti Te].
  induction l as [|e l IH]; intros Hw Hv; cbn [find_duplicate map].
  { split; [|done]. intros _. split; apply not_elem_of_nil. }
  apply Forall_cons in Hw as [We Hw]. apply Forall_cons in Hv as [Ve Hv].
  rewrite !not_elem_of_cons. specialize (IH Hw Hv).
  destruct (strings_equal_bounded (id e) _ _) eqn:E1.
  { apply (id_match _ _ We Ve) in E1 as [E1 _]. split; [done|]. intros [[? _] _]. congruence. }
  destruct (strings_equal_bounded (executable e) _ _) eqn:E2.
  { apply (executable_match _ _ We Ve) in E2 as [E2 _]. split; [done|]. intros [_ [? _]]. congruence. }
  assert (N1 : cstr (id m) <> cstr (id e)).
  { intros E. apply not_true_iff_false in E1. apply E1. by apply id_match. }
  assert (N2 : cstr (executable m) <> cstr (executable e)).
  { intros E. apply not_true_iff_false in E2. apply E2. by apply executable_match. }
  rewrite IH. tauto.
Qed.

Lemma registry_valid r : registry_inv r -> Forall valid_manifest (registered r).
Proof.
  intros (_ & _ & Hw & Hv & _). rewrite Forall_forall in *. intros m Hm.
  apply validate_ok; [by apply Hw|by apply Hv].
Qed.

(** A scan that finds nothing in the old entries finds the new one. *)
Lemma find_app_last {A} (p : A -> bool) l x :
  Forall (fun e => p e = false) l -> p x = true -> List.find p (l ++ [x]) = Some x.
Proof. induction 1 as [|e l He _ IH]; intros Hx; cbn [app List.find]; [by rewrite Hx|rewrite He; by apply IH]. Qed.

Lemma find_app_first {A} (p : A -> bool) l k x :
  List.find p l = Some x -> List.find p (l ++ k) = Some x.
Proof. induction l as [|e l IH]; cbn [app List.find]; [done|]. by destruct (p e). Qed.

Lemma registered_insert r m :
  registry_inv r -> (g_registry_count r < APP_REGISTRY_CAPACITY)%nat ->
  registered (Registry (<[g_registry_count r := m]> (g_registry r)) (g_registry_count r + 1))
    = registered r ++ [m].
Proof.
  intros (Hl & _) Hc. unfold registered. cbn [g_registry g_registry_count].
  rewrite Nat.add_1_r.
  rewrite (take_S_r _ _ m) by (apply list_lookup_insert_eq; lia).
  by rewrite take_insert_ge by lia.
Qed.

Lemma registry_inv_insert r m :
  registry_inv r -> manifest_wf m -> valid_manifest m ->
  (g_registry_count r < APP_REGISTRY_CAPACITY)%nat ->
  find_duplicate m (registered r) = None ->
  registry_inv (Registry (<[g_registry_count r := m]> (g_registry r)) (g_registry_count r + 1)).
Proof.
  intros Hr Wm Vm Hc Hd. pose proof Hr as (Hl & _ & Hw & Hv & Hi & He).
  apply (find_duplicate_None m _ Vm Hw (registry_valid r Hr)) in Hd as [Di De].
  unfold registry_inv. rewrite (registered_insert r m Hr Hc). cbn [g_registry g_registry_count].
  rewrite length_insert. split; [done|]. split; [lia|].
  rewrite !map_app, !Forall_app, !NoDup_app, !Forall_singleton. cbn [map].
  split; [done|].
  split; [split; [done|]; by apply validate_ok|].
  split.
  - split; [done|]. split; [|apply NoDup_singleton]. intros x Hx ->%list_elem_of_singleton. done.
  - split; [done|]. split; [|apply NoDup_singleton]. intros x Hx ->%list_elem_of_singleton. done.
Qed.

(** ** Claims *)

(** For a manifest in its fixed arrays, [app_manifest_validate]
    accepts exactly the valid ones: right versions, no capability outside the
    eight known bits, an identifier that starts with a lower-case letter, a
    printable trimmed name, a file name [stem.elf] and a printable description,
    each terminated inside its array. *)
Theorem app_manifest_validate_exact m :
  manifest_wf m -> app_manifest_validate (Some m) = APP_MANIFEST_OK <-> valid_manifest m.
Proof. apply validate_ok. Qed.

Definition pad (s : list Z) (n : nat) : list Z := s ++ replicate (n - length s) 0.

Definition sample_manifest : app_manifest :=
  AppManifest 1 1 3 (pad (cs "clock") 32) (pad (cs "Clock") 48) (pad (cs "clock.elf") 32)
    (pad (cs "Shows the time") 96).

Definition empty_registry : registry :=
  Registry (replicate 32 (AppManifest 0 0 0 (pad [] 32) (pad [] 48) (pad [] 32) (pad [] 96))) 0.

Lemma sample_manifest_wf : manifest_wf sample_manifest.
Proof. repeat (split; [reflexivity|]). split; vm_compute; congruence. Defined.

Lemma app_manifest_validate_exact_witness : valid_manifest sample_manifest.
Proof.
  apply (proj1 (app_manifest_validate_exact sample_manifest sample_manifest_wf)). reflexivity.
Defined.

(** on a registry in its invariant, [app_registry_register] of a
    manifest keeps the invariant (unique ids and executables, all entries valid,
    count in range).  It succeeds exactly when the manifest is valid, both its
    names are new and there is room; it then appends the manifest, which both
    lookups return under its names; otherwise nothing changes.  No earlier
    lookup result is disturbed. *)
Theorem app_registry_register_exact r m :
  registry_inv r -> manifest_wf m ->
  let result := (app_registry_register (Some m) r).1 in
  let r' := (app_registry_register (Some m) r).2 in
  registry_inv r' /\
  (result = APP_MANIFEST_OK <->
     valid_manifest m /\ cstr (id m) ∉ map (fun e => cstr (id e)) (registered r) /\
     cstr (executable m) ∉ map (fun e => cstr (executable e)) (registered r) /\
     (app_registry_count r < 32)%nat) /\
  (result = APP_MANIFEST_OK ->
     registered r' = registered r ++ [m] /\ app_registry_find_id (Some (id m)) r' = Some m /\
     app_registry_find_executable (Some (executable m)) r' = Some m) /\
  (result <> APP_MANIFEST_OK -> r' = r) /\
  (forall n e, app_registry_find_id n r = Some e -> app_registry_find_id n r' = Some e) /\
  (forall n e, app_registry_find_executable n r = Some e ->
               app_registry_find_executable n r' = Some e).
Proof.
  intros Hr Wm. cbn zeta. unfold app_registry_register, app_registry_count.
  pose proof (validate_ok m Wm) as Hok.
  destruct (bool_decide_reflect (app_manifest_validate (Some m) = APP_MANIFEST_OK)) as [E|E];
    cbn [negb fst snd].
  2: { split; [done|]. split; [split; [done|intros (V & _); exfalso; by apply E, Hok]|].
       by split; [|split; [|split]]. }
  apply Hok in E. pose proof Hr as (Hl & _ & Hw & _).
  pose proof (find_duplicate_None m _ E Hw (registry_valid r Hr)) as Hd.
  destruct (find_duplicate m (registered r)) as [err|] eqn:D; cbn [fst snd].
  { assert (Herr : err <> APP_MANIFEST_OK).
    { clear -D. induction (registered r) as [|e l IH]; cbn [find_duplicate] in D; [done|].
      destruct (strings_equal_bounded _ _ _); [congruence|].
      destruct (strings_equal_bounded _ _ _); [congruence|]. by apply IH. }
    split; [done|]. split; [split; [done|]; intros (_ & ? & ? & _); by destruct Hd as [_ Hd]; discriminate Hd|].
    by split; [|split; [|split]]. }
  pose proof (proj1 Hd eq_refl) as [Fi Fe].
  destruct (Nat.leb_spec APP_REGISTRY_CAPACITY (g_registry_count r)) as [Hc|Hc]; cbn [fst snd].
  { split; [done|]. split; [split; [done|]; intros (_ & _ & _ & ?); unfold APP_REGISTRY_CAPACITY in Hc; lia|].
    by split; [|split; [|split]]. }
  pose proof (registered_insert r m Hr Hc) as Hins.
  split; [by apply registry_inv_insert|].
  split; [split; [intros _; by repeat (split; [done|])|done]|].
  unfold app_registry_find_id, app_registry_find_executable. rewrite Hins.
  destruct (valid_terminated _ E) as [Ti Te]. pose proof (registry_valid r Hr) as Hv.
  rewrite Forall_forall in Hw, Hv.
  split; [intros _; split; [done|split]; (apply find_app_last; [apply Forall_forall; intros e He;
    apply not_true_iff_false; intros M|])|].
  - apply (id_match e _ (Hw e He) (Hv e He)) in M as [M _]. apply Fi. rewrite <- M.
    by apply (list_elem_of_fmap_2 (fun e => cstr (id e))).
  - by apply id_match.
  - apply (executable_match e _ (Hw e He) (Hv e He)) in M as [M _]. apply Fe. rewrite <- M.
    by apply (list_elem_of_fmap_2 (fun e => cstr (executable e))).
  - by apply executable_match.
  - split; [done|]. split; intros [n|] e; try done; apply find_app_first.
Qed.

Lemma empty_registry_inv : registry_inv empty_registry.
Proof.
  split; [reflexivity|]. split; [apply Nat.le_0_l|].
  split; [constructor|]. split; [constructor|]. split; constructor.
Defined.

Lemma app_registry_register_exact_witness :
  app_registry_find_id (Some (pad (cs "clock") 32))
    (app_registry_register (Some sample_manifest) empty_registry).2 = Some sample_manifest.
Proof.
  refine (proj1 (proj2 (proj1 (proj2 (proj2
    (app_registry_register_exact empty_registry sample_manifest empty_registry_inv
       sample_manifest_wf))) _))).
  reflexivity.
Defined.
