(* ===== verification/AppProcess.v ===== *)
(** * kernel/app_process.c: the table of application processes

    The table is the array of 16 [struct app_process_info], the count and the
    next id; the fixed [char] arrays are lists of their capacity.  A pointer to
    an entry is its index.  [app_services_release_process] works on the tables
    of app_services.c and never calls back: the calls are recorded, in order,
    in [released]. *)

From S2P Require Import Prelude CString Elf Manifest.

Definition APP_PROCESS_CAPACITY : nat := 16.
Definition APP_STARTUP_ARGUMENT_MAX : nat := 255.
#[global] Arguments APP_PROCESS_CAPACITY : simpl never.
#[global] Arguments APP_STARTUP_ARGUMENT_MAX : simpl never.

Inductive app_process_state :=
| APP_PROCESS_UNUSED
| APP_PROCESS_LOADED
| APP_PROCESS_STARTING
| APP_PROCESS_RUNNING
| APP_PROCESS_EXITED
| APP_PROCESS_FAULTED.

#[export] Instance app_process_state_eq : EqDecision app_process_state.
Proof. solve_decision. Defined.

Record app_fault_record := AppFault {
  fault_vector : Z;
  has_error_code : bool;
  error_code : Z;
  instruction_pointer : Z;
  stack_pointer : Z;
  fault_address : Z;
}.

Record app_process_info := AppProcess {
  process_id : Z;
  app_id : list Z;
  app_display_name : list Z;
  startup_argument : list Z;
  state : app_process_state;
  exit_code : Z;
  app_capabilities : Z;
  image_virtual_base : Z;
  image_virtual_end : Z;
  app_entry_point : Z;
  fault : app_fault_record;
}.

Inductive app_process_result :=
| APP_PROCESS_OK
| APP_PROCESS_INVALID_ARGUMENT
| APP_PROCESS_TABLE_FULL
| APP_PROCESS_ID_EXHAUSTED
| APP_PROCESS_NOT_FOUND
| APP_PROCESS_INVALID_TRANSITION.

#[export] Instance app_process_result_eq : EqDecision app_process_result.
Proof. solve_decision. Defined.

Record process_table := ProcessTable {
  g_processes : list app_process_info;
  g_process_count : Z;
  g_next_process_id : Z;
  released : list Z;
}.

(** ** Helpers *)

(** An entry after [clear_bytes]. *)
Definition zero_process : app_process_info :=
  AppProcess 0 (replicate APP_ID_CAPACITY 0) (replicate APP_DISPLAY_CAPACITY 0)
    (replicate (APP_STARTUP_ARGUMENT_MAX + 1) 0) APP_PROCESS_UNUSED 0 0 0 0 0
    (AppFault 0 false 0 0 0 0).

Fixpoint copy_string_from (destination : list Z) (capacity : nat) (source : list Z) : list Z :=
  match capacity, destination with
  | S capacity', _ :: destination' =>
      match source with
      | c :: source' =>
          if (c =? 0) || (capacity' =? 0)%nat then 0 :: destination'
          else c :: copy_string_from destination' capacity' source'
      | [] => 0 :: destination'
      end
  | _, _ => destination
  end.

Definition copy_string (destination : list Z) (capacity : nat) (source : option (list Z)) : list Z :=
  copy_string_from destination capacity (default [] source).

Definition used (p : app_process_info) : bool := negb (bool_decide (state p = APP_PROCESS_UNUSED)).

Definition terminal (p : app_process_info) : bool :=
  bool_decide (state p = APP_PROCESS_EXITED) || bool_decide (state p = APP_PROCESS_FAULTED).

(** Index of the first entry that satisfies [f]. *)
Fixpoint first_index (f : app_process_info -> bool) (l : list app_process_info) : option nat :=
  match l with
  | [] => None
  | p :: l' => if f p then Some O else option_map S (first_index f l')
  end.

Definition find_process (id : Z) (t : process_table) : option nat :=
  if id =? 0 then None
  else first_index (fun p => used p && (process_id p =? id)) (g_processes t).

Definition find_free_slot (t : process_table) : option nat :=
  first_index (fun p => negb (used p)) (g_processes t).

(** The loop of [find_oldest_terminal_slot] from slot [index] on. *)
Fixpoint oldest_terminal (l : list app_process_info) (index : nat) (oldest : option (nat * Z))
    : option (nat * Z) :=
  match l with
  | [] => oldest
  | p :: l' =>
      let oldest' :=
        if negb (terminal p) then oldest
        else match oldest with
             | None => Some (index, process_id p)
             | Some (_, id) => if process_id p <? id then Some (index, process_id p) else oldest
             end in
      oldest_terminal l' (S index) oldest'
  end.

Definition find_oldest_terminal_slot (t : process_table) : option nat :=
  option_map fst (oldest_terminal (g_processes t) 0 None).

(** ** The plan check *)

Definition segment_end (g : elf64_load_segment) : Z := u64 (virtual_address g + memory_size g).

(** The checks on one segment: its own fields, then each earlier segment. *)
Definition segment_consistent (image : elf64_image_plan) (earlier : list elf64_load_segment)
    (g : elf64_load_segment) : bool :=
  negb ((memory_size g =? 0) || (memory_size g <? file_size g) ||
        (virtual_address g <? virtual_base image) || (virtual_end image <=? virtual_address g) ||
        (u64 (virtual_end image - virtual_address g) <? memory_size g) ||
        negb (Z.ldiff (flags g) (Z.lor (Z.lor ELF64_SEGMENT_READ ELF64_SEGMENT_WRITE)
                                       ELF64_SEGMENT_EXECUTE) =? 0) ||
        (has (flags g) ELF64_SEGMENT_WRITE && has (flags g) ELF64_SEGMENT_EXECUTE)) &&
  forallb (fun o => negb ((virtual_address g <? segment_end o) &&
                          (virtual_address o <? segment_end g))) earlier.

Definition segment_has_entry (image : elf64_image_plan) (g : elf64_load_segment) : bool :=
  has (flags g) ELF64_SEGMENT_EXECUTE && (virtual_address g <=? entry_point image) &&
  (u64 (entry_point image - virtual_address g) <? file_size g).

Fixpoint segments_consistent (image : elf64_image_plan) (earlier rest : list elf64_load_segment)
    (executable_entry : bool) : bool :=
  match rest with
  | [] => executable_entry
  | g :: rest' =>
      if negb (segment_consistent image earlier g) then false
      else segments_consistent image (earlier ++ [g]) rest'
             (if segment_has_entry image g then true else executable_entry)
  end.

Definition plan_is_consistent (image : option elf64_image_plan) : bool :=
  match image with
  | None => false
  | Some p =>
      if (length (segments p) =? 0)%nat ||
         (ELF64_LOADER_MAX_LOAD_SEGMENTS <? length (segments p))%nat ||
         (virtual_base p <? ELF64_LOADER_MIN_USER_VADDR) ||
         (virtual_end p <=? virtual_base p) ||
         (ELF64_LOADER_MAX_USER_VADDR <? u64 (virtual_end p - 1)) ||
         negb (u64 (virtual_end p - virtual_base p) =? image_span p) ||
         (ELF64_LOADER_MAX_IMAGE_SPAN <? image_span p) ||
         (entry_point p <? virtual_base p) || (virtual_end p <=? entry_point p)
      then false
      else segments_consistent p [] (segments p) false
  end.

(** ** Operations *)

Definition set_process (index : nat) (p : app_process_info) (t : process_table) : process_table :=
  ProcessTable (<[index := p]> (g_processes t)) (g_process_count t) (g_next_process_id t) (released t).

Definition set_state (p : app_process_info) (s : app_process_state) : app_process_info :=
  AppProcess (process_id p) (app_id p) (app_display_name p) (startup_argument p) s (exit_code p)
    (app_capabilities p) (image_virtual_base p) (image_virtual_end p) (app_entry_point p) (fault p).

Definition app_services_release_process (id : Z) (t : process_table) : process_table :=
  ProcessTable (g_processes t) (g_process_count t) (g_next_process_id t) (released t ++ [id]).

Definition app_process_table_reset (t : process_table) : process_table :=
  ProcessTable (replicate APP_PROCESS_CAPACITY zero_process) 0 1
    (released t ++ map process_id (filter (fun p => Is_true (used p)) (g_processes t))).

Definition UINT64_MAX_id : Z := 2 ^ 64 - 1.

(** The slot for a new entry: a free one, else the oldest terminal one, which
    is cleared and no longer counted. *)
Definition claim_slot (t : process_table) : option (nat * process_table) :=
  match find_free_slot t with
  | Some index => Some (index, t)
  | None =>
      index ← find_oldest_terminal_slot t;
      Some (index, ProcessTable (<[index := zero_process]> (g_processes t))
                     (u64 (g_process_count t - 1)) (g_next_process_id t) (released t))
  end.

Definition loaded_process (id_ : Z) (m : app_manifest) (image : elf64_image_plan) : app_process_info :=
  AppProcess id_
    (copy_string (app_id zero_process) APP_ID_CAPACITY (Some (id m)))
    (copy_string (app_display_name zero_process) APP_DISPLAY_CAPACITY (Some (display_name m)))
    (startup_argument zero_process) APP_PROCESS_LOADED 0 (capabilities m) (virtual_base image)
    (virtual_end image) (entry_point image) (fault zero_process).

(** The written [*out_process_id] comes with the result. *)
Definition app_process_track_loaded (manifest : option app_manifest) (image : option elf64_image_plan)
    (has_out : bool) (t : process_table) : app_process_result * option Z * process_table :=
  match manifest, image with
  | Some m, Some p =>
      if negb has_out || negb (bool_decide (app_manifest_validate (Some m) = APP_MANIFEST_OK)) ||
         negb (plan_is_consistent (Some p))
      then (APP_PROCESS_INVALID_ARGUMENT, None, t)
      else if g_next_process_id t =? 0 then (APP_PROCESS_ID_EXHAUSTED, None, t)
      else
        match claim_slot t with
        | None => (APP_PROCESS_TABLE_FULL, None, t)
        | Some (index, t1) =>
            let new_id := g_next_process_id t1 in
            let next := if new_id =? UINT64_MAX_id then 0 else u64 (new_id + 1) in
            (APP_PROCESS_OK, Some new_id,
             ProcessTable (<[index := loaded_process new_id m p]> (g_processes t1))
               (u64 (g_process_count t1 + 1)) next (released t1))
        end
  | _, _ => (APP_PROCESS_INVALID_ARGUMENT, None, t)
  end.

(** [with_process]: the entry of a used id, or the not-found result. *)
Definition with_process (id : Z) (t : process_table)
    (k : nat -> app_process_info -> app_process_result * process_table)
    : app_process_result * process_table :=
  match find_process id t with
  | None => (APP_PROCESS_NOT_FOUND, t)
  | Some index =>
      match g_processes t !! index with
      | None => (APP_PROCESS_NOT_FOUND, t)
      | Some p => k index p
      end
  end.

Definition app_process_mark_starting (id : Z) (t : process_table) : app_process_result * process_table :=
  with_process id t (fun index p =>
    if negb (bool_decide (state p = APP_PROCESS_LOADED)) then (APP_PROCESS_INVALID_TRANSITION, t)
    else (APP_PROCESS_OK, set_process index (set_state p APP_PROCESS_STARTING) t)).

(** The scan of the argument from [length] on: [inl] when a byte is not
    printable ASCII, [inr] the final [length]. *)
Fixpoint argument_scan (argument : list Z) (length : nat) : unit + nat :=
  match argument with
  | [] => inr length
  | c :: argument' =>
      if negb (negb (c =? 0) && (length <=? APP_STARTUP_ARGUMENT_MAX)%nat) then inr length
      else if (c <? 32) || (126 <? c) then inl tt
      else argument_scan argument' (S length)
  end.

Definition set_argument (p : app_process_info) (a : list Z) : app_process_info :=
  AppProcess (process_id p) (app_id p) (app_display_name p) a (state p) (exit_code p)
    (app_capabilities p) (image_virtual_base p) (image_virtual_end p) (app_entry_point p) (fault p).

Definition app_process_set_startup_argument (id : Z) (argument : option (list Z)) (t : process_table)
    : app_process_result * process_table :=
  with_process id t (fun index p =>
    if negb (bool_decide (state p = APP_PROCESS_LOADED)) then (APP_PROCESS_INVALID_TRANSITION, t)
    else
      let ok := match argument with
                | None => true
                | Some a => match argument_scan a 0 with
                            | inl _ => false
                            | inr length => negb (APP_STARTUP_ARGUMENT_MAX <? length)%nat
                            end
                end in
      if negb ok then (APP_PROCESS_INVALID_ARGUMENT, t)
      else (APP_PROCESS_OK,
            set_process index
              (set_argument p (copy_string (startup_argument p) (APP_STARTUP_ARGUMENT_MAX + 1)
                                 argument)) t)).

Definition app_process_mark_running (id : Z) (t : process_table) : app_process_result * process_table :=
  with_process id t (fun index p =>
    if negb (bool_decide (state p = APP_PROCESS_STARTING)) then (APP_PROCESS_INVALID_TRANSITION, t)
    else (APP_PROCESS_OK, set_process index (set_state p APP_PROCESS_RUNNING) t)).

Definition executing (p : app_process_info) : bool :=
  bool_decide (state p = APP_PROCESS_STARTING) || bool_decide (state p = APP_PROCESS_RUNNING).

Definition set_exited (p : app_process_info) (code : Z) : app_process_info :=
  AppProcess (process_id p) (app_id p) (app_display_name p) (startup_argument p) APP_PROCESS_EXITED
    code (app_capabilities p) (image_virtual_base p) (image_virtual_end p) (app_entry_point p) (fault p).

Definition app_process_mark_exited (id code : Z) (t : process_table)
    : app_process_result * process_table :=
  with_process id t (fun index p =>
    if negb (executing p) then (APP_PROCESS_INVALID_TRANSITION, t)
    else (APP_PROCESS_OK,
          app_services_release_process id (set_process index (set_exited p code) t))).

Definition set_faulted (p : app_process_info) (f : app_fault_record) : app_process_info :=
  AppProcess (process_id p) (app_id p) (app_display_name p) (startup_argument p) APP_PROCESS_FAULTED
    (exit_code p) (app_capabilities p) (image_virtual_base p) (image_virtual_end p)
    (app_entry_point p) f.

Definition app_process_record_fault (id : Z) (record : option app_fault_record) (t : process_table)
    : app_process_result * process_table :=
  match record with
  | None => (APP_PROCESS_INVALID_ARGUMENT, t)
  | Some f =>
      with_process id t (fun index p =>
        if negb (executing p) then (APP_PROCESS_INVALID_TRANSITION, t)
        else (APP_PROCESS_OK,
              app_services_release_process id (set_process index (set_faulted p f) t)))
  end.

Definition app_process_release (id : Z) (t : process_table) : app_process_result * process_table :=
  with_process id t (fun index p =>
    if negb (bool_decide (state p = APP_PROCESS_LOADED) || terminal p)
    then (APP_PROCESS_INVALID_TRANSITION, t)
    else
      let t1 := app_services_release_process id t in
      (APP_PROCESS_OK,
       ProcessTable (<[index := zero_process]> (g_processes t1)) (u64 (g_process_count t1 - 1))
         (g_next_process_id t1) (released t1))).

(** ** Queries *)

Definition app_process_count (t : process_table) : Z := g_process_count t.

(** The inner loop of the snapshot: the used entry of least id above [previous]. *)
Fixpoint next_process (l : list app_process_info) (previous : Z) (next : option app_process_info)
    : option app_process_info :=
  match l with
  | [] => next
  | candidate :: l' =>
      let next' :=
        if negb (used candidate) || (process_id candidate <=? previous) then next
        else match next with
             | None => Some candidate
             | Some n => if process_id candidate <? process_id n then Some candidate else next
             end in
      next_process l' previous next'
  end.

(** The outer loop with [visible] rounds left before the last. *)
Fixpoint snapshot_from (t : process_table) (previous : Z) (visible : nat) : option app_process_info :=
  match next_process (g_processes t) previous None with
  | None => None
  | Some next =>
      match visible with
      | O => Some next
      | S visible' => snapshot_from t (process_id next) visible'
      end
  end.

Definition app_process_snapshot (index : nat) (has_out : bool) (t : process_table)
    : option app_process_info :=
  if negb has_out || (g_process_count t <=? Z.of_nat index) then None
  else snapshot_from t 0 index.

Definition app_process_find (id : Z) (has_out : bool) (t : process_table) : option app_process_info :=
  if negb has_out then None
  else index ← find_process id t; g_processes t !! index.

(** [None] is false; [Some (out, length)] the caller's buffer and the length. *)
Definition app_process_get_startup_argument (id : Z) (out : option (list Z)) (capacity : nat)
    (has_length : bool) (t : process_table) : option (list Z * nat) :=
  match out with
  | None => None
  | Some out =>
      if (capacity =? 0)%nat || negb has_length then None
      else
        index ← find_process id t;
        p ← g_processes t !! index;
        let length := length (cstr (startup_argument p)) in
        if (capacity <? length + 1)%nat then None
        else Some (copy_string out capacity (Some (startup_argument p)), length)
  end.

Definition app_runtime_features : Z := Z.lor (Z.lor (Z.lor (Z.lor (Z.lor 1 2) 4) 8) 16) 32.

Definition app_runtime_execution_implemented : bool := negb (Z.land app_runtime_features 8 =? 0).

Definition app_process_result_text (result : app_process_result) : list Z :=
  match result with
  | APP_PROCESS_OK => cs "ok"
  | APP_PROCESS_INVALID_ARGUMENT => cs "invalid argument"
  | APP_PROCESS_TABLE_FULL => cs "application process table is full"
  | APP_PROCESS_ID_EXHAUSTED => cs "application process ids are exhausted"
  | APP_PROCESS_NOT_FOUND => cs "application process not found"
  | APP_PROCESS_INVALID_TRANSITION => cs "invalid application process state transition"
  end.
