(* ===== verification/AppProcessSpec.v ===== *)
(** * kernel/app_process.c: invariant, life cycle and history of the table *)

From S2P Require Import Prelude CString FsCodec Manifest Elf ElfSpec AppProcess.

(** ** Specification *)

(** Ids handed out since the last reset. *)
Definition issued (id : Z) (next : Z) : Prop := 0 < id < 2 ^ 64 /\ (next = 0 \/ id < next).

Definition used_count (l : list app_process_info) : nat := length (List.filter used l).

(** Ids of used slots are issued and distinct. *)
Definition slots_ok (l : list app_process_info) (next : Z) : Prop :=
  length l = APP_PROCESS_CAPACITY /\
  (forall i p, l !! i = Some p -> used p = true -> issued (process_id p) next) /\
  (forall i j p q, l !! i = Some p -> l !! j = Some q -> used p = true -> used q = true ->
     process_id p = process_id q -> i = j) /\
  Forall (fun p => length (startup_argument p) = (APP_STARTUP_ARGUMENT_MAX + 1)%nat /\
                   is_terminated (startup_argument p)) l.

Definition table_inv (t : process_table) : Prop :=
  slots_ok (g_processes t) (g_next_process_id t) /\
  g_process_count t = Z.of_nat (used_count (g_processes t)) /\
  0 <= g_next_process_id t < 2 ^ 64.

Definition status (t : process_table) (id : Z) : option app_process_state :=
  option_map state (app_process_find id true t).

Definition live (s : app_process_state) : Prop :=
  s = APP_PROCESS_LOADED \/ s = APP_PROCESS_STARTING \/ s = APP_PROCESS_RUNNING.

(** The moves of one id; [None] is an id that is not in the table. *)
Inductive lifecycle : option app_process_state -> option app_process_state -> Prop :=
| life_same s : lifecycle s s
| life_load : lifecycle None (Some APP_PROCESS_LOADED)
| life_start : lifecycle (Some APP_PROCESS_LOADED) (Some APP_PROCESS_STARTING)
| life_run : lifecycle (Some APP_PROCESS_STARTING) (Some APP_PROCESS_RUNNING)
| life_exit_early : lifecycle (Some APP_PROCESS_STARTING) (Some APP_PROCESS_EXITED)
| life_exit : lifecycle (Some APP_PROCESS_RUNNING) (Some APP_PROCESS_EXITED)
| life_fault_early : lifecycle (Some APP_PROCESS_STARTING) (Some APP_PROCESS_FAULTED)
| life_fault : lifecycle (Some APP_PROCESS_RUNNING) (Some APP_PROCESS_FAULTED)
| life_unload : lifecycle (Some APP_PROCESS_LOADED) None
| life_forget_exited : lifecycle (Some APP_PROCESS_EXITED) None
| life_forget_faulted : lifecycle (Some APP_PROCESS_FAULTED) None.

Inductive process_request :=
| ReqTrack (m : option app_manifest) (image : option elf64_image_plan) (has_out : bool)
| ReqStarting (id : Z)
| ReqArgument (id : Z) (argument : option (list Z))
| ReqRunning (id : Z)
| ReqExited (id code : Z)
| ReqFault (id : Z) (record : option app_fault_record)
| ReqRelease (id : Z)
| ReqReset.

Definition run_request (q : process_request) (t : process_table) : app_process_result * process_table :=
  match q with
  | ReqTrack m image has_out =>
      let '(r, _, t') := app_process_track_loaded m image has_out t in (r, t')
  | ReqStarting id => app_process_mark_starting id t
  | ReqArgument id argument => app_process_set_startup_argument id argument t
  | ReqRunning id => app_process_mark_running id t
  | ReqExited id code => app_process_mark_exited id code t
  | ReqFault id record => app_process_record_fault id record t
  | ReqRelease id => app_process_release id t
  | ReqReset => (APP_PROCESS_OK, app_process_table_reset t)
  end.

Definition run_requests (qs : list process_request) (t : process_table) : process_table :=
  fold_left (fun t q => (run_request q t).2) qs t.

(** The table of a kernel that has just started. *)
Definition boot_table : process_table :=
  ProcessTable (replicate APP_PROCESS_CAPACITY zero_process) 0 1 [].

(** ** Slots *)

Lemma used_count_insert l i p p' :
  l !! i = Some p ->
  (used_count (<[i := p']> l) + Nat.b2n (used p) = used_count l + Nat.b2n (used p'))%nat.
Proof.
  unfold used_count. revert i. induction l as [|x l IH]; intros [|i] H; try done.
  - injection H as ->. cbn [insert list_insert List.filter].
    destruct (used p), (used p'); cbn [length Nat.b2n]; lia.
  - cbn [insert list_insert List.filter]. specialize (IH i H).
    destruct (used x); cbn [length Nat.add]; [f_equal|]; exact IH.
Qed.

Lemma used_count_le l : (used_count l <= length l)%nat.
Proof. unfold used_count. induction l as [|x l IH]; cbn [List.filter length]; [done|]. destruct (used x); cbn [length]; lia. Qed.

Lemma first_index_Some f l i :
  first_index f l = Some i ->
  exists p, l !! i = Some p /\ f p = true /\ forall j q, (j < i)%nat -> l !! j = Some q -> f q = false.
Proof.
  revert i. induction l as [|x l IH]; intros i; cbn [first_index]; [done|].
  destruct (f x) eqn:F.
  - intros [= <-]. exists x. split; [done|]. split; [done|]. lia.
  - destruct (first_index f l) as [k|]; [|done]. intros [= <-].
    destruct (IH k eq_refl) as (p & Hp & Hf & Hno). exists p. split; [done|]. split; [done|].
    intros [|j] q Hj; [by intros [= <-]|]. apply Hno. lia.
Qed.

Lemma first_index_None f l : first_index f l = None <-> Forall (fun p => f p = false) l.
Proof.
  induction l as [|x l IH]; cbn [first_index]; [split; [constructor|done]|].
  rewrite Forall_cons. destruct (f x); [split; [done|by intros [? _]]|].
  rewrite <- IH. destruct (first_index f l); split; try done. by intros [_ ?].
Qed.

(** What [find_process] finds. *)
Lemma find_process_spec t next id i :
  slots_ok (g_processes t) next ->
  find_process id t = Some i <->
  id <> 0 /\ exists p, g_processes t !! i = Some p /\ used p = true /\ process_id p = id.
Proof.
  intros (_ & _ & Huniq & _). unfold find_process. destruct (Z.eqb_spec id 0) as [->|Hid].
  { split; [done|]. by intros [? _]. }
  split.
  - intros (p & Hp & Hf & _)%first_index_Some. bdestr_hyps. split; [done|]. by exists p.
  - intros (_ & p & Hp & Hu & Hi). destruct (first_index _ _) as [k|] eqn:E.
    + apply first_index_Some in E as (q & Hq & Hf & _). bdestr_hyps. f_equal.
      apply (Huniq k i q p); congruence.
    + apply first_index_None in E. rewrite Forall_forall in E.
      specialize (E p (list_elem_of_lookup_2 _ _ _ Hp)). simpl in E. rewrite Hu, Hi, Z.eqb_refl in E. done.
Qed.

Lemma find_spec t next id p :
  slots_ok (g_processes t) next ->
  app_process_find id true t = Some p <->
  id <> 0 /\ used p = true /\ process_id p = id /\ exists i, g_processes t !! i = Some p.
Proof.
  intros Hs. unfold app_process_find. cbn [negb]. split.
  - intros (i & Hi & Hp)%bind_Some. apply (find_process_spec t next id i Hs) in Hi as (Hid & q & Hq & ? & ?).
    assert (q = p) as -> by congruence. split; [done|]. split; [done|]. split; [done|]. by exists i.
  - intros (Hid & Hu & Hpid & i & Hi).
    assert (E : find_process id t = Some i) by (apply (find_process_spec t next id i Hs); eauto).
    rewrite E. done.
Qed.

Lemma slots_insert l next next' i p' :
  slots_ok l next -> (forall id, issued id next -> issued id next') ->
  length (startup_argument p') = (APP_STARTUP_ARGUMENT_MAX + 1)%nat -> is_terminated (startup_argument p') ->
  (used p' = true -> issued (process_id p') next' /\
     forall j q, j <> i -> l !! j = Some q -> used q = true -> process_id q <> process_id p') ->
  slots_ok (<[i := p']> l) next'.
Proof.
  intros (Hl & Hid & Huniq & Hstr) Hmono Hsl Hst Hnew. split; [by rewrite length_insert|].
  split; [|split].
  - intros j p Hj Hu. apply list_lookup_insert_Some in Hj as [(-> & <- & _)|[_ Hj]];
      [by apply Hnew|]. apply Hmono. by apply (Hid j).
  - intros j k p q Hj Hk Hup Huq E.
    apply list_lookup_insert_Some in Hj as [(<- & <- & _)|[Hij Hj]],
      Hk as [(<- & <- & _)|[Hik Hk]]; try done.
    + exfalso. apply (proj2 (Hnew Hup) k q); try done; congruence.
    + exfalso. apply (proj2 (Hnew Huq) j p); try done; congruence.
    + by apply (Huniq j k p q).
  - apply Forall_forall. intros x Hx. apply list_elem_of_lookup in Hx as [j Hj].
    apply list_lookup_insert_Some in Hj as [(_ & <- & _)|[_ Hj]]; [done|].
    rewrite Forall_forall in Hstr. by apply Hstr, list_elem_of_lookup_2 with j.
Qed.

(** ** Every request is one abstract step *)

Definition argument_ok (p : app_process_info) : Prop :=
  length (startup_argument p) = (APP_STARTUP_ARGUMENT_MAX + 1)%nat /\ is_terminated (startup_argument p).

Definition next_id (id : Z) : Z := if id =? UINT64_MAX_id then 0 else u64 (id + 1).

Inductive table_step (t : process_table) : process_table -> Prop :=
| step_none : table_step t t
| step_update i p p' r :
    g_processes t !! i = Some p -> used p = true -> used p' = true ->
    process_id p' = process_id p -> argument_ok p' ->
    lifecycle (Some (state p)) (Some (state p')) ->
    (r = [] /\ (live (state p') \/ state p' = state p) \/ r = [process_id p] /\ ~ live (state p')) ->
    table_step t (ProcessTable (<[i := p']> (g_processes t)) (g_process_count t)
                    (g_next_process_id t) (released t ++ r))
| step_free i p :
    g_processes t !! i = Some p -> lifecycle (Some (state p)) None ->
    table_step t (ProcessTable (<[i := zero_process]> (g_processes t)) (u64 (g_process_count t - 1))
                    (g_next_process_id t) (released t ++ [process_id p]))
| step_load i p p' n :
    g_processes t !! i = Some p ->
    (used p = false /\ n = g_process_count t \/
     used p = true /\ ~ live (state p) /\ lifecycle (Some (state p)) None /\
       n = u64 (g_process_count t - 1)) ->
    g_next_process_id t <> 0 -> process_id p' = g_next_process_id t ->
    state p' = APP_PROCESS_LOADED -> argument_ok p' ->
    table_step t (ProcessTable (<[i := p']> (g_processes t)) (u64 (n + 1))
                    (next_id (g_next_process_id t)) (released t)).

Lemma with_process_cases id t k next :
  slots_ok (g_processes t) next ->
  with_process id t k = (APP_PROCESS_NOT_FOUND, t) \/
  exists i p, g_processes t !! i = Some p /\ used p = true /\ process_id p = id /\ argument_ok p /\
    with_process id t k = k i p.
Proof.
  intros Hs. unfold with_process. destruct (find_process id t) as [i|] eqn:E; [|by left].
  apply (find_process_spec t next id i Hs) in E as (_ & p & Hp & Hu & Hid). right. exists i, p.
  rewrite Hp. destruct Hs as (_ & _ & _ & Hstr). rewrite Forall_forall in Hstr.
  repeat (split; [done|]). split; [|done]. by apply Hstr, list_elem_of_lookup_2 with i.
Qed.

Lemma argument_ok_zero : argument_ok zero_process.
Proof. split; [by vm_compute|]. apply list_elem_of_lookup. by exists O. Qed.

(** [copy_string] keeps the size of its destination and terminates it. *)
Lemma copy_string_ok d n s :
  (0 < n)%nat -> length d = n ->
  length (copy_string d n s) = n /\ is_terminated (copy_string d n s).
Proof.
  intros Hn <-. unfold copy_string. generalize (default [] s) as a. clear s.
  unfold is_terminated. induction d as [|x d IH]; intros a; cbn [length copy_string_from]; [simpl in Hn; lia|].
  destruct a as [|c a]; [cbn [length]; split; [done|by left]|].
  destruct (Z.eqb_spec c 0), (Nat.eqb_spec (length d) 0); cbn [orb length];
    try (split; [done|by left]).
  destruct (IH ltac:(lia) a) as [-> ?]. split; [done|by right].
Qed.

Lemma used_set_state p s : s <> APP_PROCESS_UNUSED -> used (set_state p s) = true.
Proof. intros. unfold used. cbn [state set_state]. by rewrite bool_decide_false. Qed.

Lemma used_state p s : state p = s -> s <> APP_PROCESS_UNUSED -> used p = true.
Proof. intros <- ?. unfold used. by rewrite bool_decide_false. Qed.

Lemma zero_unused : used zero_process = false.
Proof. reflexivity. Qed.

Lemma terminal_spec p :
  terminal p = true <-> state p = APP_PROCESS_EXITED \/ state p = APP_PROCESS_FAULTED.
Proof. unfold terminal. rewrite orb_true_iff, !bool_decide_eq_true. done. Qed.

Lemma executing_spec p :
  executing p = true <-> state p = APP_PROCESS_STARTING \/ state p = APP_PROCESS_RUNNING.
Proof. unfold executing. rewrite orb_true_iff, !bool_decide_eq_true. done. Qed.

Ltac guard_state :=
  match goal with
  | |- context [negb (bool_decide (state ?p = ?s))] =>
      destruct (bool_decide_reflect (state p = s)); cbn [negb snd]; [|apply step_none]
  end.

(** Opens the entry a request works on; the first goal is the not-found case. *)
Ltac open_process Hs i p Hp Hu Hid Ha :=
  match goal with |- context [with_process ?id ?t ?k] =>
    destruct (with_process_cases id t k _ Hs) as [-> | (i & p & Hp & Hu & Hid & Ha & ->)]
  end.

Lemma mark_starting_step id t next :
  slots_ok (g_processes t) next -> table_step t (app_process_mark_starting id t).2.
Proof.
  intros Hs. unfold app_process_mark_starting.
  open_process Hs i p Hp Hu Hid Ha; [apply step_none|]. guard_state. unfold set_process.
  rewrite <- (app_nil_r (released t)). apply step_update with p; try done.
  - rewrite e. apply life_start.
  - left. split; [done|]. left. right. by left.
Qed.

Lemma mark_running_step id t next :
  slots_ok (g_processes t) next -> table_step t (app_process_mark_running id t).2.
Proof.
  intros Hs. unfold app_process_mark_running.
  open_process Hs i p Hp Hu Hid Ha; [apply step_none|]. guard_state. unfold set_process.
  rewrite <- (app_nil_r (released t)). apply step_update with p; try done.
  - rewrite e. apply life_run.
  - left. split; [done|]. left. right. by right.
Qed.

Lemma set_argument_step id a t next :
  slots_ok (g_processes t) next -> table_step t (app_process_set_startup_argument id a t).2.
Proof.
  intros Hs. unfold app_process_set_startup_argument.
  open_process Hs i p Hp Hu Hid Ha; [apply step_none|]. guard_state. destruct (negb _); [apply step_none|]. unfold set_process.
  rewrite <- (app_nil_r (released t)). apply step_update with p; try done.
  - apply copy_string_ok; [lia|]. apply Ha.
  - apply life_same.
  - left. split; [done|]. by right.
Qed.

Lemma mark_exited_step id code t next :
  slots_ok (g_processes t) next -> table_step t (app_process_mark_exited id code t).2.
Proof.
  intros Hs. unfold app_process_mark_exited.
  open_process Hs i p Hp Hu Hid Ha; [apply step_none|]. destruct (executing p) eqn:E; [|apply step_none]. cbn [negb snd].
  apply executing_spec in E. rewrite <- Hid.
  apply (step_update t i p (set_exited p code)); try done.
  - destruct E as [-> | ->]; constructor.
  - right. split; [done|]. by intros [?|[?|?]].
Qed.

Lemma record_fault_step id f t next :
  slots_ok (g_processes t) next -> table_step t (app_process_record_fault id f t).2.
Proof.
  intros Hs. unfold app_process_record_fault. destruct f as [f|]; [|apply step_none].
  open_process Hs i p Hp Hu Hid Ha; [apply step_none|]. destruct (executing p) eqn:E; [|apply step_none]. cbn [negb snd].
  apply executing_spec in E. rewrite <- Hid.
  apply (step_update t i p (set_faulted p f)); try done.
  - destruct E as [-> | ->]; constructor.
  - right. split; [done|]. by intros [?|[?|?]].
Qed.

Lemma release_step id t next :
  slots_ok (g_processes t) next -> table_step t (app_process_release id t).2.
Proof.
  intros Hs. unfold app_process_release.
  open_process Hs i p Hp Hu Hid Ha; [apply step_none|].
  destruct (bool_decide_reflect (state p = APP_PROCESS_LOADED)) as [E|_]; cbn [orb negb snd].
  - rewrite <- Hid. apply (step_free t i p Hp). rewrite E. constructor.
  - destruct (terminal p) eqn:E; cbn [negb snd]; [|apply step_none]. apply terminal_spec in E.
    rewrite <- Hid. apply (step_free t i p Hp). destruct E as [-> | ->]; constructor.
Qed.

(** The scan returns the terminal entry of least id. *)
Lemma oldest_terminal_spec l k o :
  match oldest_terminal l k o with
  | None => o = None /\ Forall (fun p => terminal p = false) l
  | Some (i, id) =>
      (o = Some (i, id) \/
       exists j p, l !! j = Some p /\ terminal p = true /\ i = (k + j)%nat /\ process_id p = id) /\
      (forall i' id', o = Some (i', id') -> id <= id') /\
      (forall p, p ∈ l -> terminal p = true -> id <= process_id p)
  end.
Proof.
  revert k o. induction l as [|x l IH]; intros k o; cbn [oldest_terminal].
  { destruct o as [[i id]|]; [|done]. split; [by left|]. split; [intros ? ? [= <- <-]; lia|].
    intros p ?%elem_of_nil. done. }
  set (o' := if negb (terminal x) then o else _).
  assert (Ho : match o' with
               | None => o = None /\ terminal x = false
               | Some (i, id) => (o = Some (i, id) \/ terminal x = true /\ i = k /\ process_id x = id) /\
                   (forall i' id', o = Some (i', id') -> id <= id') /\
                   (terminal x = true -> id <= process_id x)
               end).
  { unfold o'. destruct (terminal x) eqn:T; cbn [negb].
    - destruct o as [[i id]|].
      + destruct (Z.ltb_spec (process_id x) id).
        * split; [by right|]. split; [intros ? ? [= <- <-]; lia|lia].
        * split; [by left|]. split; [intros ? ? [= <- <-]; lia|lia].
      + split; [by right|]. split; [done|lia].
    - destruct o as [[i id]|]; [|done]. split; [by left|]. split; [intros ? ? [= <- <-]; lia|done]. }
  clearbody o'. specialize (IH (S k) o'). destruct (oldest_terminal l (S k) o') as [[i id]|].
  - destruct IH as (Hin & Hle & Hall). destruct o' as [[i1 id1]|].
    + destruct Ho as (Hin1 & Hle1 & Hx). specialize (Hle i1 id1 eq_refl).
      split; [|split].
      * destruct Hin as [[= -> ->]|(j & p & Hj & Ht & -> & Hid)].
        -- destruct Hin1 as [->|(Ht & -> & Hid)]; [by left|]. right. exists O, x.
           split; [done|]. split; [done|]. split; [lia|done].
        -- right. exists (S j), p. split; [done|]. split; [done|]. split; [lia|done].
      * intros i' id' E. specialize (Hle1 i' id' E). lia.
      * intros p [->|Hp]%elem_of_cons Ht; [specialize (Hx Ht); lia|by apply Hall].
    + destruct Ho as [-> Hx]. split; [|split; [done|]].
      * destruct Hin as [?|(j & p & Hj & Ht & -> & Hid)]; [done|].
        right. exists (S j), p. split; [done|]. split; [done|]. split; [lia|done].
      * intros p [->|Hp]%elem_of_cons Ht; [congruence|by apply Hall].
  - destruct IH as [-> Hl]. destruct Ho as [-> Hx]. split; [done|]. by constructor.
Qed.

(** What [claim_slot] hands out. *)
Lemma claim_slot_spec t :
  match claim_slot t with
  | None => Forall (fun p => used p = true /\ terminal p = false) (g_processes t)
  | Some (i, t1) =>
      exists p, g_processes t !! i = Some p /\
      (used p = false /\ t1 = t \/
       Forall (fun p => used p = true) (g_processes t) /\ terminal p = true /\
       (forall q, q ∈ g_processes t -> terminal q = true -> process_id p <= process_id q) /\
       t1 = ProcessTable (<[i := zero_process]> (g_processes t)) (u64 (g_process_count t - 1))
              (g_next_process_id t) (released t))
  end.
Proof.
  unfold claim_slot, find_free_slot. destruct (first_index _ _) as [i|] eqn:F.
  { apply first_index_Some in F as (p & Hp & Hf & _). exists p. split; [done|]. left.
    by apply negb_true_iff in Hf. }
  apply first_index_None in F. unfold find_oldest_terminal_slot.
  assert (HF : Forall (fun p => used p = true) (g_processes t)).
  { eapply Forall_impl; [exact F|]. simpl. intros x Hx. by apply negb_false_iff in Hx. }
  pose proof (oldest_terminal_spec (g_processes t) 0 None) as Ho.
  destruct (oldest_terminal _ _ _) as [[i id]|]; simpl.
  - destruct Ho as ([?|(j & p & Hj & Ht & -> & Hid)] & _ & Hmin); [done|].
    exists p. split; [done|]. right. split; [done|]. split; [done|]. split; [|done].
    intros q Hq Htq. rewrite Hid. by apply Hmin.
  - destruct Ho as [_ Ho]. apply Forall_and. done.
Qed.

Lemma loaded_ok id m image : argument_ok (loaded_process id m image).
Proof. split; [by vm_compute|]. apply list_elem_of_lookup. by exists O. Qed.

Lemma track_step m image out t :
  table_step t (app_process_track_loaded m image out t).2.
Proof.
  unfold app_process_track_loaded. destruct m as [m|], image as [image|]; try apply step_none.
  destruct (_ || _ || _); [apply step_none|].
  destruct (Z.eqb_spec (g_next_process_id t) 0) as [|Hnext]; [apply step_none|].
  pose proof (claim_slot_spec t) as Hc. destruct (claim_slot t) as [[i t1]|]; [|apply step_none].
  destruct Hc as (p & Hp & [[Hu ->]|(Hall & Ht & _ & ->)]); cbn [snd].
  - apply (step_load t i p (loaded_process _ m image) (g_process_count t)); try done; [by left|].
    apply loaded_ok.
  - cbn [g_processes g_process_count g_next_process_id released]. rewrite list_insert_insert_eq.
    rewrite Forall_forall in Hall.
    apply (step_load t i p (loaded_process _ m image) (u64 (g_process_count t - 1))); try done;
      [|apply loaded_ok].
    right. split; [by apply Hall, list_elem_of_lookup_2 with i|]. apply terminal_spec in Ht.
    split; [|split; [|done]].
    + destruct Ht as [-> | ->]; by intros [?|[?|?]].
    + destruct Ht as [-> | ->]; constructor.
Qed.

(** The refinement of the handlers by the abstract steps. *)
Lemma request_step q t :
  table_inv t -> q <> ReqReset -> table_step t (run_request q t).2.
Proof.
  intros (Hs & _) Hq. destruct q; cbn [run_request].
  - pose proof (track_step m image has_out t). by destruct (app_process_track_loaded _ _ _ _) as [[r o] t'].
  - by eapply mark_starting_step.
  - by eapply set_argument_step.
  - by eapply mark_running_step.
  - by eapply mark_exited_step.
  - by eapply record_fault_step.
  - by eapply release_step.
  - done.
Qed.

(** ** What a step preserves and changes *)

(** Lookups after one slot was replaced. *)
Lemma find_insert t t' next next' i p p' id :
  slots_ok (g_processes t) next -> slots_ok (g_processes t') next' ->
  g_processes t !! i = Some p -> g_processes t' = <[i := p']> (g_processes t) ->
  app_process_find id true t' =
    if used p' && (process_id p' =? id) then Some p'
    else if used p && (process_id p =? id) then None
    else app_process_find id true t.
Proof.
  intros Hs Hs' Hp Ht'. pose proof (lookup_lt_Some _ _ _ Hp) as Hlt.
  assert (Hi : g_processes t' !! i = Some p') by (rewrite Ht'; by apply list_lookup_insert_eq).
  destruct (used p' && (process_id p' =? id)) eqn:E1.
  { bdestr_hyps. apply (find_spec t' next' id p' Hs'). split; [|by eauto].
    destruct Hs' as (_ & Hid & _). destruct (Hid i p' Hi) as [? _]; [done|]. lia. }
  assert (Hne : forall x, app_process_find id true t' = Some x ->
            exists j, j <> i /\ g_processes t !! j = Some x /\ used x = true /\ process_id x = id /\ id <> 0).
  { intros x (Hid0 & Hu & Hid & j & Hj)%(find_spec t' next' id x Hs').
    rewrite Ht' in Hj. apply list_lookup_insert_Some in Hj as [(-> & <- & _)|[Hji Hj]].
    - rewrite Hu, Hid, Z.eqb_refl in E1. done.
    - exists j. by split_and!. }
  destruct (used p && (process_id p =? id)) eqn:E2.
  - destruct (app_process_find id true t') as [x|] eqn:F; [|done].
    destruct (Hne x eq_refl) as (j & Hji & Hj & Hu & Hid & _). bdestr_hyps.
    exfalso. apply Hji. destruct Hs as (_ & _ & Huniq & _). apply (Huniq j i x p); congruence.
  - apply option_eq. intros x. split.
    + intros F. destruct (Hne x F) as (j & Hji & Hj & Hu & Hid & Hid0).
      apply (find_spec t next id x Hs). by eauto.
    + intros (Hid0 & Hu & Hid & j & Hj)%(find_spec t next id x Hs).
      apply (find_spec t' next' id x Hs'). split; [done|]. split; [done|]. split; [done|].
      exists j. rewrite Ht', list_lookup_insert_ne; [done|]. intros <-.
      assert (x = p) as -> by congruence. rewrite Hu, Hid, Z.eqb_refl in E2. done.
Qed.

Lemma lifecycle_used p s : lifecycle (Some (state p)) s -> s <> Some (state p) -> used p = true.
Proof.
  intros H Hs. unfold used. destruct (bool_decide_reflect (state p = APP_PROCESS_UNUSED)) as [E|]; [|done].
  rewrite E in *. inversion H; subst; done.
Qed.

Lemma issued_next id n : 0 <= n < 2 ^ 64 -> n <> 0 -> issued id n -> issued id (next_id n).
Proof.
  intros Hn Hn0 [Hid [|Hlt]]; [done|]. split; [done|]. unfold next_id, UINT64_MAX_id.
  destruct (Z.eqb_spec n (2 ^ 64 - 1)); [by left|]. right. rewrite u64_small by (unfold u64_ok; lia). lia.
Qed.

Lemma next_id_range n : 0 <= next_id n < 2 ^ 64.
Proof. unfold next_id. destruct (_ =? _); [lia|]. rewrite u64_mod. apply Z.mod_pos_bound. lia. Qed.

Lemma next_issued n : 0 <= n < 2 ^ 64 -> n <> 0 -> issued n (next_id n).
Proof.
  intros Hn Hn0. split; [lia|]. unfold next_id, UINT64_MAX_id.
  destruct (Z.eqb_spec n (2 ^ 64 - 1)); [by left|]. right. rewrite u64_small by (unfold u64_ok; lia). lia.
Qed.

Lemma not_issued_next n : ~ issued n n.
Proof. intros [? [?|?]]; lia. Qed.

Lemma used_of_state p s : state p = s -> used p = negb (bool_decide (s = APP_PROCESS_UNUSED)).
Proof. by intros <-. Qed.

Lemma step_inv t t' : table_inv t -> table_step t t' -> table_inv t'.
Proof.
  intros (Hs & Hc & Hn) Hstep. pose proof Hs as (Hl & Hid & Huniq & _).
  pose proof (used_count_le (g_processes t)) as Hle. rewrite Hl in Hle. unfold APP_PROCESS_CAPACITY in Hle.
  destruct Hstep as [|i p p' r Hp Hu Hu' Hpid [Ha Ha'] _ _|i p Hp Hlife|i p p' n Hp Hn' Hnext Hpid Hst [Ha Ha']];
    [done| | |]; unfold table_inv; cbn [g_processes g_process_count g_next_process_id].
  - pose proof (used_count_insert _ i p p' Hp). rewrite Hu, Hu' in *. cbn [Nat.b2n] in *.
    split; [|split; [lia|done]]. apply (slots_insert _ _ _ _ _ Hs); try done. intros _. split.
    + rewrite Hpid. by apply (Hid i).
    + intros j q Hji Hj Hq E. apply Hji. apply (Huniq j i q p); congruence.
  - assert (Hu : used p = true) by (by apply (lifecycle_used p None)).
    pose proof (used_count_insert _ i p zero_process Hp). rewrite Hu, zero_unused in *.
    cbn [Nat.b2n] in *. rewrite u64_small by (unfold u64_ok; lia).
    split; [|split; [lia|done]]. destruct argument_ok_zero.
    by apply (slots_insert _ _ _ _ _ Hs).
  - assert (Hu' : used p' = true) by (by rewrite (used_of_state p' _ Hst)).
    pose proof (used_count_insert _ i p p' Hp) as Hcnt. rewrite Hu' in *.
    pose proof (used_count_le (<[i:=p']> (g_processes t))) as Hle'.
    rewrite length_insert, Hl in Hle'. unfold APP_PROCESS_CAPACITY in Hle'.
    assert (Hn1 : n = Z.of_nat (used_count (<[i:=p']> (g_processes t))) - 1).
    { destruct Hn' as [[Hu ->]|(Hu & _ & _ & ->)]; rewrite Hu in Hcnt; cbn [Nat.b2n] in Hcnt; [lia|].
      pose proof (used_count_insert _ i p zero_process Hp) as Hz. rewrite Hu, zero_unused in Hz.
      cbn [Nat.b2n] in Hz. rewrite u64_small by (unfold u64_ok; lia). lia. }
    split; [|split; [|apply next_id_range]].
    + apply (slots_insert _ _ _ _ _ Hs); try done; [by intros; apply issued_next|].
      intros _. rewrite Hpid. split; [by apply next_issued|].
      intros j q _ Hj Hq E. apply (not_issued_next (process_id q)). rewrite E at 2. by apply (Hid j).
    + rewrite Hn1, u64_small by (unfold u64_ok; lia). lia.
Qed.

(** The effect of a step on every id. *)
Lemma step_status t t' id :
  table_inv t -> table_step t t' ->
  lifecycle (status t id) (status t' id) /\
  (status t id = None -> status t' id <> None ->
     id = g_next_process_id t /\ ~ issued id (g_next_process_id t)) /\
  (issued id (g_next_process_id t) -> issued id (g_next_process_id t')) /\
  (issued id (g_next_process_id t') -> issued id (g_next_process_id t) \/ status t' id = Some APP_PROCESS_LOADED) /\
  (forall s, status t id = Some s -> live s ->
     (exists s', status t' id = Some s' /\ live s') \/ id ∈ released t') /\
  (exists r, released t' = released t ++ r /\
     (id ∈ r -> forall s, status t' id = Some s -> ~ live s)).
Proof.
  intros Hinv Hstep. pose proof (step_inv t t' Hinv Hstep) as (Hs' & _).
  destruct Hinv as (Hs & _ & Hn). unfold status in *. pose proof Hs as (_ & Hid & _).
  destruct Hstep as [|i p p' r Hp Hu Hu' Hpid _ Hlife Hr|i p Hp Hlife|i p p' n Hp Hn' Hnext Hpid Hst _].
  - split; [apply life_same|]. split; [done|]. split; [done|]. split; [by left|].
    split; [intros s -> ?; left; by eauto|]. exists []. split; [by rewrite app_nil_r|by intros ?%elem_of_nil].
  - assert (Hf : app_process_find (process_id p) true t = Some p).
    { apply (find_spec t _ _ p Hs). destruct (Hid i p Hp Hu) as [? _]. split; [lia|]. by eauto. }
    rewrite (find_insert t _ _ _ i p p' id Hs Hs' Hp eq_refl), Hu, Hu', Hpid.
    cbn [andb g_next_process_id released].
    destruct (Z.eqb_spec (process_id p) id) as [<-|Hne].
    + rewrite Hf. cbn [option_map]. split; [done|]. split; [done|]. split; [done|]. split; [by left|].
      split.
      * intros s [= <-] Hl. destruct Hr as [(-> & [?|E])|(-> & Hnl)].
        -- left. by eauto.
        -- left. rewrite E. by eauto.
        -- right. apply elem_of_app. right. by left.
      * exists r. split; [done|]. intros Hin s [= <-]. destruct Hr as [[-> _]|[_ ?]]; [|done].
        by apply elem_of_nil in Hin.
    + split; [apply life_same|]. split; [done|]. split; [done|]. split; [by left|].
      split; [intros s -> ?; left; by eauto|]. exists r. split; [done|]. intros Hin.
      destruct Hr as [[-> _]|[-> _]]; [by apply elem_of_nil in Hin|].
      by apply list_elem_of_singleton in Hin.
  - assert (Hu : used p = true) by (by apply (lifecycle_used p None)).
    assert (Hf : app_process_find (process_id p) true t = Some p).
    { apply (find_spec t _ _ p Hs). destruct (Hid i p Hp Hu) as [? _]. split; [lia|]. by eauto. }
    rewrite (find_insert t _ _ _ i p zero_process id Hs Hs' Hp eq_refl), Hu, zero_unused.
    cbn [andb g_next_process_id released].
    destruct (Z.eqb_spec (process_id p) id) as [<-|Hne].
    + rewrite Hf. cbn [option_map]. split; [done|]. split; [done|]. split; [done|]. split; [by left|].
      split; [intros s _ _; right; apply elem_of_app; right; by left|]. exists [process_id p]. done.
    + split; [apply life_same|]. split; [done|]. split; [done|]. split; [by left|].
      split; [intros s -> ?; left; by eauto|]. exists [process_id p]. split; [done|].
      by intros ?%list_elem_of_singleton.
  - assert (Hu' : used p' = true) by (by rewrite (used_of_state p' _ Hst)).
    assert (Hnone : app_process_find (g_next_process_id t) true t = None).
    { destruct (app_process_find _ true t) as [x|] eqn:F; [|done].
      apply (find_spec t _ _ x Hs) in F as (_ & Hux & Hidx & j & Hj).
      exfalso. apply (not_issued_next (g_next_process_id t)). rewrite <- Hidx at 1. by apply (Hid j). }
    rewrite (find_insert t _ _ _ i p p' id Hs Hs' Hp eq_refl), Hu', Hpid.
    cbn [andb g_next_process_id released].
    destruct (Z.eqb_spec (g_next_process_id t) id) as [<-|Hne].
    + rewrite Hnone. cbn [option_map]. rewrite Hst. split; [apply life_load|].
      split; [intros _ _; split; [done|apply not_issued_next]|].
      split; [by intros ?%not_issued_next|]. split; [by right|]. split; [done|].
      exists []. split; [by rewrite app_nil_r|by intros ?%elem_of_nil].
    + assert (Hiss : issued id (next_id (g_next_process_id t)) -> issued id (g_next_process_id t)).
      { intros [? Hor]. split; [done|]. right. unfold next_id, UINT64_MAX_id in Hor.
        destruct (Z.eqb_spec (g_next_process_id t) (2 ^ 64 - 1)); [lia|].
        rewrite u64_small in Hor by (unfold u64_ok; lia). lia. }
      assert (Hmono : issued id (g_next_process_id t) -> issued id (next_id (g_next_process_id t)))
        by (by apply issued_next).
      destruct (used p && (process_id p =? id)) eqn:E.
      * bdestr_hyps. subst id.
        assert (Hf : app_process_find (process_id p) true t = Some p).
        { apply (find_spec t _ _ p Hs). destruct (Hid i p Hp) as [? _]; [done|]. split; [lia|]. by eauto. }
        rewrite Hf. cbn [option_map]. destruct Hn' as [[? _]|(_ & Hnl & Hlife & _)]; [congruence|].
        split; [done|]. split; [done|]. split; [done|]. split; [by left; apply Hiss|].
        split; [by intros s [= <-]|]. exists []. split; [by rewrite app_nil_r|by intros ?%elem_of_nil].
      * split; [apply life_same|]. split; [done|]. split; [done|]. split; [by left; apply Hiss|].
        split; [intros s -> ?; left; by eauto|]. exists []. split; [by rewrite app_nil_r|by intros ?%elem_of_nil].
Qed.

(** ** Chronological enumeration *)

Definition ids (l : list app_process_info) : list Z := map process_id (List.filter used l).

Definition above (previous : Z) (l : list app_process_info) : list Z :=
  List.filter (fun x => previous <? x) (ids l).

Lemma elem_of_ids l x : x ∈ ids l <-> exists p, p ∈ l /\ used p = true /\ process_id p = x.
Proof.
  unfold ids. rewrite list_elem_of_In, in_map_iff. split.
  - intros (p & <- & Hp). apply filter_In in Hp as [Hp Hu]. exists p. by rewrite list_elem_of_In.
  - intros (p & Hp & Hu & <-). exists p. split; [done|]. apply filter_In. by rewrite <- list_elem_of_In.
Qed.

Lemma elem_of_above l previous x : x ∈ above previous l <-> previous < x /\ x ∈ ids l.
Proof.
  unfold above. rewrite !list_elem_of_In, filter_In, Z.ltb_lt. tauto.
Qed.

Lemma ids_NoDup l :
  (forall i j p q, l !! i = Some p -> l !! j = Some q -> used p = true -> used q = true ->
     process_id p = process_id q -> i = j) -> NoDup (ids l).
Proof.
  induction l as [|x l IH]; intros H; [constructor|].
  assert (IH' : NoDup (ids l)).
  { apply IH. intros i j p q Hi Hj Hp Hq E. specialize (H (S i) (S j) p q Hi Hj Hp Hq E). lia. }
  unfold ids in *. cbn [List.filter]. destruct (used x) eqn:Hx; [|done]. cbn [map].
  constructor; [|done]. intros Hin. apply (elem_of_ids l) in Hin as (p & Hp & Hu & E).
  apply list_elem_of_lookup in Hp as [j Hj].
  specialize (H O (S j) x p eq_refl Hj Hx Hu (eq_sym E)). lia.
Qed.

Lemma above_NoDup previous l : NoDup (ids l) -> NoDup (above previous l).
Proof. intros H. unfold above. apply NoDup_ListNoDup. apply List.NoDup_filter. by apply NoDup_ListNoDup. Qed.

(** The inner loop returns the used entry of least id above [previous]. *)
Lemma next_process_spec l previous o :
  match next_process l previous o with
  | None => o = None /\ forall p, p ∈ l -> used p = true -> process_id p <= previous
  | Some n =>
      (o = Some n \/ n ∈ l /\ used n = true /\ previous < process_id n) /\
      (forall n', o = Some n' -> process_id n <= process_id n') /\
      (forall p, p ∈ l -> used p = true -> previous < process_id p -> process_id n <= process_id p)
  end.
Proof.
  revert o. induction l as [|x l IH]; intros o; cbn [next_process].
  { destruct o as [n|]; [|by split; [|intros p ?%elem_of_nil]].
    split; [by left|]. split; [by intros ? [= <-]|]. by intros p ?%elem_of_nil. }
  destruct (negb (used x) || (process_id x <=? previous)) eqn:C.
  - assert (Hx : used x = true -> process_id x <= previous)
      by (intros Hu; rewrite Hu in C; simpl in C; lia).
    specialize (IH o). destruct (next_process l previous o) as [n|].
    + destruct IH as (Hin & Hle & Hall). split; [|split; [done|]].
      * destruct Hin as [?|(? & ? & ?)]; [by left|]. right. split; [by right|done].
      * intros p [->|Hp]%elem_of_cons Hu Hpp; [specialize (Hx Hu); lia|by apply Hall].
    + destruct IH as [-> Hl]. split; [done|]. intros p [->|Hp]%elem_of_cons Hu; [by apply Hx|by apply Hl].
  - bdestr_hyps. destruct o as [n0|].
    + destruct (Z.ltb_spec (process_id x) (process_id n0)).
      * specialize (IH (Some x)). destruct (next_process l previous (Some x)) as [n|]; [|by destruct IH].
        destruct IH as (Hin & Hle & Hall). specialize (Hle x eq_refl). split; [|split].
        -- right. destruct Hin as [[= ->]|(? & ? & ?)]; [split; [by left|done]|split; [by right|done]].
        -- intros n' [= <-]. lia.
        -- intros p [->|Hp]%elem_of_cons Hu Hpp; [lia|by apply Hall].
      * specialize (IH (Some n0)). destruct (next_process l previous (Some n0)) as [n|]; [|by destruct IH].
        destruct IH as (Hin & Hle & Hall). specialize (Hle n0 eq_refl). split; [|split].
        -- destruct Hin as [?|(? & ? & ?)]; [by left|]. right. split; [by right|done].
        -- intros n' [= <-]. lia.
        -- intros p [->|Hp]%elem_of_cons Hu Hpp; [lia|by apply Hall].
    + specialize (IH (Some x)). destruct (next_process l previous (Some x)) as [n|]; [|by destruct IH].
      destruct IH as (Hin & Hle & Hall). specialize (Hle x eq_refl). split; [|split; [done|]].
      -- right. destruct Hin as [[= ->]|(? & ? & ?)]; [split; [by left|done]|split; [by right|done]].
      -- intros p [->|Hp]%elem_of_cons Hu Hpp; [lia|by apply Hall].
Qed.

(** One round: the rest of the enumeration is what lies above the entry found. *)
Lemma next_process_above l previous :
  NoDup (ids l) ->
  match next_process l previous None with
  | None => above previous l = []
  | Some n => n ∈ l /\ used n = true /\ previous < process_id n /\
              above previous l ≡ₚ process_id n :: above (process_id n) l
  end.
Proof.
  intros Hnd. pose proof (next_process_spec l previous None) as Hn.
  destruct (next_process l previous None) as [n|].
  - destruct Hn as ([?|(Hin & Hu & Hlt)] & _ & Hmin); [done|]. repeat (split; [done|]).
    apply NoDup_Permutation; [by apply above_NoDup| |].
    + constructor; [|by apply above_NoDup]. rewrite elem_of_above. lia.
    + intros x. rewrite elem_of_cons, !elem_of_above. split.
      * intros [Hx Hxin]. pose proof Hxin as (p & Hp & Hup & <-)%elem_of_ids.
        specialize (Hmin p Hp Hup Hx). destruct (Z.eq_dec (process_id p) (process_id n)); [by left|].
        right. split; [lia|done].
      * intros [->|[Hx Hxin]]; [|split; [lia|done]]. split; [done|]. apply elem_of_ids. by exists n.
  - destruct Hn as [_ Hall]. destruct (above previous l) as [|x xs] eqn:E; [done|].
    assert (Hx : x ∈ above previous l) by (rewrite E; by left).
    apply elem_of_above in Hx as [Hx (p & Hp & Hu & <-)%elem_of_ids]. specialize (Hall p Hp Hu). lia.
Qed.

Lemma snapshot_from_spec t previous k :
  NoDup (ids (g_processes t)) ->
  match snapshot_from t previous k with
  | None => (length (above previous (g_processes t)) <= k)%nat
  | Some p => (k < length (above previous (g_processes t)))%nat /\ p ∈ g_processes t /\
              used p = true /\ previous < process_id p
  end.
Proof.
  intros Hnd. revert previous. induction k as [|k IH]; intros previous; cbn [snapshot_from];
    pose proof (next_process_above (g_processes t) previous Hnd) as Hn;
    destruct (next_process _ _ _) as [n|]; try (rewrite Hn; cbn [length]; lia).
  - destruct Hn as (? & ? & ? & Hperm). apply Permutation_length in Hperm. cbn [length] in Hperm.
    rewrite Hperm. split; [lia|done].
  - destruct Hn as (? & ? & ? & Hperm). apply Permutation_length in Hperm. cbn [length] in Hperm.
    rewrite Hperm. specialize (IH (process_id n)).
    destruct (snapshot_from _ _ _) as [p|]; [|lia]. destruct IH as (? & ? & ? & ?).
    split; [lia|]. split; [done|]. split; [done|]. lia.
Qed.

Lemma snapshot_from_increasing t previous i j p q :
  NoDup (ids (g_processes t)) -> (i < j)%nat ->
  snapshot_from t previous i = Some p -> snapshot_from t previous j = Some q ->
  process_id p < process_id q.
Proof.
  intros Hnd. revert previous j. induction i as [|i IH]; intros previous [|j] Hij; try lia;
    cbn [snapshot_from]; destruct (next_process _ _ _) as [n|]; try done.
  - intros [= <-] Hq. pose proof (snapshot_from_spec t (process_id n) j Hnd) as Hs.
    rewrite Hq in Hs. by destruct Hs as (_ & _ & _ & ?).
  - apply IH. lia.
Qed.

Lemma snapshot_from_complete t previous p :
  NoDup (ids (g_processes t)) -> p ∈ g_processes t -> used p = true -> previous < process_id p ->
  exists k, option_map process_id (snapshot_from t previous k) = Some (process_id p).
Proof.
  intros Hnd Hp Hu. remember (length (above previous (g_processes t))) as m eqn:Hm.
  revert previous Hm. induction m as [m IH] using lt_wf_ind; intros previous Hm Hlt.
  pose proof (next_process_above (g_processes t) previous Hnd) as Hn.
  destruct (next_process (g_processes t) previous None) as [n|] eqn:E.
  - destruct Hn as (Hnin & Hnu & Hnlt & Hperm). rewrite Hperm in Hm. cbn [length] in Hm.
    assert (Hpin : process_id p ∈ above previous (g_processes t)).
    { apply elem_of_above. split; [done|]. apply elem_of_ids. by exists p. }
    rewrite Hperm in Hpin. apply elem_of_cons in Hpin as [Heq|Hpin].
    + exists O. cbn [snapshot_from]. rewrite E. simpl. congruence.
    + apply elem_of_above in Hpin as [Hpn _].
      destruct (IH (length (above (process_id n) (g_processes t))) ltac:(lia) (process_id n) eq_refl Hpn)
        as [k Hk]. exists (S k). cbn [snapshot_from]. by rewrite E.
  - assert (Hpin : process_id p ∈ above previous (g_processes t)).
    { apply elem_of_above. split; [done|]. apply elem_of_ids. by exists p. }
    rewrite Hn in Hpin. by apply elem_of_nil in Hpin.
Qed.

(** ** The plan check *)

(** The fields have their machine width. *)
Definition plan_u64 (p : elf64_image_plan) : Prop :=
  u64_ok (virtual_base p) /\ u64_ok (virtual_end p) /\ u64_ok (entry_point p) /\ u64_ok (image_span p) /\
  Forall (fun g => u64_ok (virtual_address g) /\ u64_ok (memory_size g) /\ u64_ok (file_size g)) (segments p).

Definition segment_ok (p : elf64_image_plan) (g : elf64_load_segment) : Prop :=
  0 < memory_size g /\ file_size g <= memory_size g /\ virtual_base p <= virtual_address g /\
  virtual_address g + memory_size g <= virtual_end p /\ Z.ldiff (flags g) 7 = 0 /\
  writable g && executable g = false.

Definition plan_ok (p : elf64_image_plan) : Prop :=
  (1 <= length (segments p) <= 16)%nat /\
  ELF64_LOADER_MIN_USER_VADDR <= virtual_base p < virtual_end p /\
  virtual_end p <= ELF64_LOADER_MAX_USER_VADDR + 1 /\
  image_span p = virtual_end p - virtual_base p /\ image_span p <= ELF64_LOADER_MAX_IMAGE_SPAN /\
  Forall (segment_ok p) (segments p) /\
  (forall i j g h a, segments p !! i = Some g -> segments p !! j = Some h -> i <> j ->
     seg_addr g a -> ~ seg_addr h a) /\
  entry_ok p.

Lemma segment_consistent_spec p earlier g :
  u64_ok (virtual_base p) -> u64_ok (virtual_end p) -> u64_ok (virtual_address g) ->
  u64_ok (memory_size g) -> Forall (segment_ok p) earlier ->
  segment_consistent p earlier g = true <->
  segment_ok p g /\ Forall (fun o => forall a, seg_addr g a -> seg_addr o a -> False) earlier.
Proof.
  intros Hb He Hv Hm Hear. unfold u64_ok in *. unfold segment_consistent. rewrite andb_true_iff, forallb_Forall_true.
  change (Z.lor (Z.lor ELF64_SEGMENT_READ ELF64_SEGMENT_WRITE) ELF64_SEGMENT_EXECUTE) with 7.
  unfold segment_ok, writable, executable.
  assert (Hgo : segment_ok p g ->
    Forall (fun o => negb ((virtual_address g <? segment_end o) && (virtual_address o <? segment_end g)) = true)
      earlier <-> Forall (fun o => forall a, seg_addr g a -> seg_addr o a -> False) earlier).
  { intros (G1 & G2 & G3 & G4 & _). rewrite !Forall_forall. rewrite Forall_forall in Hear.
    split; intros H o Ho; specialize (H o Ho); destruct (Hear o Ho) as (O1 & O2 & O3 & O4 & _);
      unfold segment_end, seg_addr in *; rewrite ?u64_small in * by (unfold u64_ok; lia).
    - intros a Ha Hb'. rewrite negb_true_iff, andb_false_iff in H. destruct H as [H|H]; lia.
    - rewrite negb_true_iff, andb_false_iff.
      destruct (Z.ltb_spec (virtual_address g) (virtual_address o + memory_size o)); [|by left].
      destruct (Z.ltb_spec (virtual_address o) (virtual_address g + memory_size g)); [|by right].
      exfalso. apply (H (Z.max (virtual_address g) (virtual_address o))); lia. }
  split.
  - intros [Hown Hdis]. rewrite negb_true_iff in Hown. bdestr_hyps.
    rewrite u64_small in * by (unfold u64_ok; lia).
    assert (Hg : segment_ok p g) by (unfold segment_ok, writable, executable; split_and!; try lia; done).
    split; [exact Hg|]. by apply Hgo.
  - intros [Hg Hdis]. split; [|by apply Hgo]. destruct Hg as (G1 & G2 & G3 & G4 & G5 & G6).
    rewrite u64_small by (unfold u64_ok; lia). rewrite G5, G6. cbn [negb Z.eqb orb]. lia.
Qed.

Lemma entry_hit p g :
  u64_ok (entry_point p) -> u64_ok (virtual_address g) ->
  segment_has_entry p g = true <->
  executable g = true /\ virtual_address g <= entry_point p < virtual_address g + file_size g.
Proof.
  unfold u64_ok. intros He Hv. unfold segment_has_entry, executable.
  rewrite !andb_true_iff, Z.leb_le, Z.ltb_lt. split.
  - intros [[H1 H2] H3]. rewrite u64_small in H3 by (unfold u64_ok; lia). split; [done|lia].
  - intros [H1 H2]. rewrite u64_small by (unfold u64_ok; lia). split; [split; [done|lia]|lia].
Qed.

(** The loop over the segments. *)
Lemma segments_consistent_spec p earlier rest e :
  plan_u64 p -> Forall (segment_ok p) earlier ->
  Forall (fun g => u64_ok (virtual_address g) /\ u64_ok (memory_size g) /\ u64_ok (file_size g)) rest ->
  segments_consistent p earlier rest e = true <->
  Forall (segment_ok p) rest /\
  (forall i j g h, (earlier ++ rest) !! i = Some g -> rest !! j = Some h -> (i < length earlier + j)%nat ->
     forall a, seg_addr h a -> seg_addr g a -> False) /\
  (e = true \/ Exists (fun g => segment_has_entry p g = true) rest).
Proof.
  intros Hp. pose proof Hp as (Hb & Hv & He & _). revert earlier e.
  induction rest as [|x rest IH]; intros earlier e Hear Hw; cbn [segments_consistent].
  { split; [|by intros (_ & _ & [?|?%Exists_nil])].
    intros ->. split; [done|]. split; [|by left]. intros ? ? ? ? _ Hj. by rewrite lookup_nil in Hj. }
  apply Forall_cons in Hw as [(X1 & X2 & X3) Hw].
  pose proof (segment_consistent_spec p earlier x Hb Hv X1 X2 Hear) as Hx.
  destruct (segment_consistent p earlier x) eqn:C; cbn [negb].
  - apply proj1 in Hx. specialize (Hx eq_refl) as [Hxo Hxd].
    rewrite (IH (earlier ++ [x])); [|apply Forall_app_2; [done|by constructor]|done].
    rewrite <- app_assoc. cbn [app]. rewrite length_app, Forall_cons, Exists_cons. cbn [length].
    rewrite Forall_forall in Hxd.
    assert (Hpair : (forall i j g h, (earlier ++ x :: rest) !! i = Some g -> rest !! j = Some h ->
              (i < length earlier + 1 + j)%nat -> forall a, seg_addr h a -> seg_addr g a -> False) <->
            (forall i j g h, (earlier ++ x :: rest) !! i = Some g -> (x :: rest) !! j = Some h ->
              (i < length earlier + j)%nat -> forall a, seg_addr h a -> seg_addr g a -> False)).
    { split; intros H i.
      - intros [|j] g h Hi Hj Hij; [|apply (H i j g h Hi Hj); lia]. injection Hj as <-.
        rewrite lookup_app_l in Hi by lia. intros a Ha Hg. apply (Hxd g) with a; try done.
        by apply list_elem_of_lookup_2 with i.
      - intros j g h Hi Hj Hij. apply (H i (S j) g h Hi Hj). lia. }
    rewrite Hpair. destruct (segment_has_entry p x); intuition congruence.
  - split; [done|]. intros (Hso & Hpair & _). apply Forall_cons in Hso as [Hxo _].
    apply Hx. split; [done|]. apply Forall_forall. intros o Ho a Hxa Hoa.
    apply list_elem_of_lookup in Ho as [i Hi]. pose proof (lookup_lt_Some _ _ _ Hi).
    apply (Hpair i O o x) with a; try done; [by apply lookup_app_l_Some|lia].
Qed.

Lemma plan_consistent_spec p : plan_u64 p -> plan_is_consistent (Some p) = true <-> plan_ok p.
Proof.
  intros Hp. pose proof Hp as (Hb & Hv & He & Hi & Hw). unfold plan_is_consistent.
  unfold plan_ok, ELF64_LOADER_MAX_LOAD_SEGMENTS, u64_ok,
    ELF64_LOADER_MIN_USER_VADDR, ELF64_LOADER_MAX_USER_VADDR in *.
  assert (Hent : Exists (fun g => segment_has_entry p g = true) (segments p) <-> entry_ok p).
  { rewrite Exists_exists. unfold entry_ok. rewrite Forall_forall in Hw.
    split; intros (g & Hg & H); exists g; (split; [done|]); apply (entry_hit p g He (proj1 (Hw g Hg))); done. }
  assert (Hdis : (forall i j g h, segments p !! i = Some g -> segments p !! j = Some h -> (i < 0 + j)%nat ->
            forall a, seg_addr h a -> seg_addr g a -> False) <->
          (forall i j g h a, segments p !! i = Some g -> segments p !! j = Some h -> i <> j ->
            seg_addr g a -> ~ seg_addr h a)).
  { split.
    - intros H i j g h a Hgi Hhj Hij Ha Ha'. destruct (Nat.lt_trichotomy i j) as [?|[?|?]]; [|done|].
      + by apply (H i j g h Hgi Hhj ltac:(lia) a).
      + by apply (H j i h g Hhj Hgi ltac:(lia) a).
    - intros H i j g h Hgi Hhj Hij a Ha Ha'. apply (H i j g h a Hgi Hhj); try done. lia. }
  destruct (_ || _) eqn:C.
  - split; [done|]. intros (Hl & Hbv & Hve & Hsp & Hmax & Hso & _ & (g & Hg & _ & Hen)).
    exfalso. rewrite Forall_forall in Hso. destruct (Hso g Hg) as (? & ? & ? & ? & _).
    rewrite !u64_small in C by (unfold u64_ok; lia). clear -C Hl Hbv Hve Hsp Hmax Hen H H0 H1 H2.
    repeat (apply orb_true_iff in C as [C|C]);
      lia || (apply Nat.eqb_eq in C; lia) || (apply Nat.ltb_lt in C; lia).
  - bdestr_hyps. pose proof (segments_consistent_spec p [] (segments p) false Hp (Forall_nil_2 _) Hw) as Hsc.
    cbn [app length] in Hsc. rewrite Hsc, Hdis, Hent.
    rewrite !u64_small in * by (unfold u64_ok; lia). split.
    + intros (Hso & Hd & [?|Hx]); [done|].
      match goal with E : (length _ =? 0)%nat = false |- _ => apply Nat.eqb_neq in E end.
      match goal with E : (16 <? _)%nat = false |- _ => apply Nat.ltb_ge in E end.
      split_and!; try done; try lia.
    + intros (_ & _ & _ & _ & _ & Hso & Hd & Hx). split; [done|]. split; [done|]. by right.
Qed.

Lemma inspected_plan_ok bytes n p :
  bytes_ok bytes -> elf64_inspect (Some bytes) n false = Some (inr p) -> plan_u64 p /\ plan_ok p.
Proof.
  intros Hb Hi. destruct (inspect_accepted bytes n p Hb Hi) as ((Hwf & Hpw & Hlen & Hh & He) & Hne & Hsp & Hmax).
  specialize (He eq_refl). pose proof He as (g & Hg & _ & Hen).
  pose proof Hwf as Hwf'. rewrite Forall_forall in Hwf'.
  assert (Hbase : ELF64_LOADER_MIN_USER_VADDR <= virtual_base p < virtual_end p /\
                  virtual_end p <= ELF64_LOADER_MAX_USER_VADDR + 1).
  { unfold hull in Hh. destruct (segments p); [done|]. by destruct Hh as (_ & ? & ?). }
  destruct (hull_bounds p g Hh Hg) as (G1 & G2 & _). destruct (Hwf' g Hg) as (_ & G3 & _).
  assert (Hseg : forall x, x ∈ segments p -> segment_ok p x).
  { intros x Hx. destruct (hull_bounds p x Hh Hx) as (? & ? & _).
    destruct (Hwf' x Hx) as (? & ? & ? & ? & ? & ? & ? & ?). unfold segment_ok. split_and!; try lia; done. }
  unfold ELF64_LOADER_MIN_USER_VADDR, ELF64_LOADER_MAX_USER_VADDR in *.
  split.
  - unfold plan_u64, u64_ok. split_and!; try lia. apply Forall_forall. intros x Hx.
    destruct (Hseg x Hx) as (? & ? & ? & ? & _). destruct (Hwf' x Hx) as (_ & ? & _). lia.
  - unfold plan_ok, ELF64_LOADER_MIN_USER_VADDR, ELF64_LOADER_MAX_USER_VADDR. split_and!; try lia.
    + destruct (segments p); [done|cbn [length]; lia].
    + exact Hlen.
    + by apply Forall_forall.
    + intros i j x y a Hx Hy Hij Ha Ha'. destruct (Nat.lt_trichotomy i j) as [?|[?|?]]; [|done|].
      * by apply (proj1 (Hpw i j x y Hx Hy ltac:(done)) a).
      * by apply (proj1 (Hpw j i y x Hy Hx ltac:(done)) a).
    + done.
Qed.

(** ** Histories *)

Lemma boot_table_inv : table_inv boot_table.
Proof.
  assert (Hz : forall i p, replicate APP_PROCESS_CAPACITY zero_process !! i = Some p -> p = zero_process)
    by (intros i p [-> _]%lookup_replicate; done).
  split; [|split; [reflexivity|by vm_compute]]. split; [reflexivity|]. split; [|split].
  - intros i p Hp%Hz Hu. by subst p.
  - intros i j p q Hp%Hz _ Hu. by subst p.
  - apply Forall_replicate. apply argument_ok_zero.
Qed.

Lemma reset_inv t : table_inv (app_process_table_reset t).
Proof. destruct boot_table_inv as (? & ? & ?). by split. Qed.

Lemma request_inv q t : table_inv t -> table_inv (run_request q t).2.
Proof.
  intros H. destruct q; try (apply (step_inv t); [done|apply request_step; done]). apply reset_inv.
Qed.

Lemma requests_inv qs t : table_inv t -> table_inv (run_requests qs t).
Proof. revert t. induction qs as [|q qs IH]; intros t H; [done|]. apply IH, request_inv, H. Qed.

Lemma requests_app qs1 qs2 t : run_requests (qs1 ++ qs2) t = run_requests qs2 (run_requests qs1 t).
Proof. apply fold_left_app. Qed.

Lemma reset_status t id : status (app_process_table_reset t) id = None.
Proof.
  unfold status. destruct (app_process_find _ _ _) as [p|] eqn:F; [|done].
  apply (find_spec _ _ _ _ (proj1 (reset_inv t))) in F as (_ & Hu & _ & i & Hi).
  apply lookup_replicate in Hi as [-> _]. done.
Qed.

Lemma in_table_of_status t id s :
  table_inv t -> status t id = Some s -> exists p, p ∈ g_processes t /\ used p = true /\ process_id p = id.
Proof.
  intros (Hs & _). unfold status. destruct (app_process_find id true t) as [p|] eqn:F; [|done].
  apply (find_spec _ _ _ _ Hs) in F as (_ & Hu & Hid & i & Hi). intros _. exists p.
  split; [by apply list_elem_of_lookup_2 with i|done].
Qed.

Lemma reset_or_not q : q = ReqReset \/ q <> ReqReset.
Proof. destruct q; auto; by right. Qed.

(** The release record along a history. *)
Lemma release_inv qs id :
  let t := run_requests qs boot_table in
  issued id (g_next_process_id t) ->
  (exists s, status t id = Some s /\ live s) \/ id ∈ released t.
Proof.
  induction qs as [|q qs IH] using rev_ind; cbn zeta.
  { intros [? [?|?]]; cbn in *; lia. }
  rewrite requests_app. cbn [run_requests fold_left]. fold (run_requests qs boot_table).
  set (t := run_requests qs boot_table) in *.
  assert (Ht : table_inv t) by apply requests_inv, boot_table_inv.
  destruct (reset_or_not q) as [->|Hq].
  { cbn [run_request snd app_process_table_reset g_next_process_id]. intros [? [?|?]]; lia. }
  destruct (step_status t (run_request q t).2 id Ht (request_step q t Ht Hq))
    as (_ & _ & _ & Hiss & Hlive & (r & Hr & _)).
  intros Hid. destruct (Hiss Hid) as [Hold|Hnew].
  - destruct (IH Hold) as [(s & Hs & Hl)|Hin]; [by apply (Hlive s)|].
    right. rewrite Hr. apply elem_of_app. by left.
  - left. eexists. split; [exact Hnew|]. by left.
Qed.

(** Without a reset an id that was handed out and left the table stays out. *)
Lemma gone_stays qs t id :
  table_inv t -> Forall (fun q => q <> ReqReset) qs -> issued id (g_next_process_id t) ->
  status t id = None -> status (run_requests qs t) id = None.
Proof.
  revert t. induction qs as [|q qs IH]; intros t Ht Hqs Hid Hs; [done|].
  apply Forall_cons in Hqs as [Hq Hqs]. cbn [run_requests fold_left].
  pose proof (request_step q t Ht Hq) as Hstep.
  destruct (step_status t _ id Ht Hstep) as (_ & Hnew & Hmono & _).
  apply IH; [by apply request_inv|done|by apply Hmono|].
  destruct (status (run_request q t).2 id) eqn:E; [|done].
  destruct (Hnew Hs) as [_ Hni]; [congruence|]. by destruct Hni.
Qed.

Lemma find_loaded t t' next next' i q new m p id :
  slots_ok (g_processes t) next -> slots_ok (g_processes t') next' -> g_processes t !! i = Some q ->
  g_processes t' = <[i := loaded_process new m p]> (g_processes t) ->
  app_process_find id true t' =
    if new =? id then Some (loaded_process new m p)
    else if used q && (process_id q =? id) then None else app_process_find id true t.
Proof. intros Hs Hs' Hq E. by rewrite (find_insert t t' _ _ i q (loaded_process new m p) id Hs Hs' Hq E). Qed.

(** ** Claims *)

(** C39: in every history of the table since boot, a request other than a
    reset moves every process id along its life cycle (absent, loaded, starting,
    running, exited or faulted, absent again) or leaves it where it is: no stage
    is skipped, and a starting or running process never disappears, not even
    when the table is full.  The table keeps its invariant: 16 slots, distinct
    issued ids, an exact count. *)
Theorem app_process_lifecycle qs q id :
  q <> ReqReset ->
  let t := run_requests qs boot_table in
  let t' := (run_request q t).2 in
  table_inv t /\ table_inv t' /\ lifecycle (status t id) (status t' id).
Proof.
  intros Hq. cbn zeta. pose proof (requests_inv qs _ boot_table_inv) as Ht.
  split; [done|]. split; [by apply request_inv|].
  by apply step_status; [|apply request_step].
Qed.

Definition sample_image : elf64_image_plan :=
  ElfPlan 0x10000001000 0x10000000000 0x10000002000 0x2000
    [ElfSegment 0x10000000000 0x1000 0x800 0 1 4; ElfSegment 0x10000001000 0x1000 0x10 0x800 1 5].

Definition sample_track : process_request := ReqTrack (Some sample_manifest) (Some sample_image) true.

Lemma app_process_lifecycle_witness :
  lifecycle (Some APP_PROCESS_STARTING) (Some APP_PROCESS_RUNNING).
Proof.
  destruct (app_process_lifecycle [sample_track; ReqStarting 1] (ReqRunning 1) 1 ltac:(discriminate))
    as (_ & _ & H).
  vm_compute in H. exact H.
Defined.

(** an id is never reused.  In every history, a request that brings an
    id into the table brings exactly the next id, which was not handed out
    before; and an id that was handed out and has left the table stays out as
    long as the table is not reset. *)
Theorem app_process_ids_never_reused qs qs' id :
  Forall (fun q => q <> ReqReset) qs' ->
  let t := run_requests qs boot_table in
  issued id (g_next_process_id t) -> status t id = None ->
  status (run_requests qs' t) id = None.
Proof.
  intros Hqs. cbn zeta. intros Hid Hs. apply gone_stays; try done. apply requests_inv, boot_table_inv.
Qed.

Lemma app_process_ids_never_reused_witness :
  status (run_requests [sample_track; sample_track]
            (run_requests [sample_track; ReqRelease 1] boot_table)) 1 = None.
Proof.
  apply (app_process_ids_never_reused [sample_track; ReqRelease 1] [sample_track; sample_track] 1).
  - repeat constructor; discriminate.
  - vm_compute. split; [split; reflexivity|]. by right.
  - by vm_compute.
Defined.

(** in every history, each id handed out since the last reset is
    either live (loaded, starting or running) or its services were released:
    whichever way a process ends (exit, fault, release, reclaimed slot), its
    files, windows and memory are given back; and no request releases the
    services of an id that is still live after it. *)
Theorem app_process_services_released qs q id :
  let t := run_requests qs boot_table in
  let t' := (run_request q t).2 in
  (issued id (g_next_process_id t) ->
     (exists s, status t id = Some s /\ live s) \/ id ∈ released t) /\
  (exists r, released t' = released t ++ r /\
     (id ∈ r -> forall s, status t' id = Some s -> ~ live s)).
Proof.
  cbn zeta. split; [apply release_inv|].
  assert (Ht : table_inv (run_requests qs boot_table)) by apply requests_inv, boot_table_inv.
  destruct (reset_or_not q) as [->|Hq].
  - cbn [run_request snd]. eexists. split; [reflexivity|]. intros _ s. by rewrite reset_status.
  - destruct (step_status _ (run_request q (run_requests qs boot_table)).2 id Ht) as (_ & _ & _ & _ & _ & H);
      [by apply request_step|exact H].
Qed.

Lemma app_process_services_released_witness :
  (1 : Z) ∈ released (run_requests [sample_track; ReqStarting 1; ReqExited 1 0] boot_table).
Proof.
  destruct (app_process_services_released [sample_track; ReqStarting 1; ReqExited 1 0] ReqReset 1)
    as [[(s & Hs & Hl)|Hin] _].
  - vm_compute. split; [split; reflexivity|]. by right.
  - vm_compute in Hs. injection Hs as <-. destruct Hl as [?|[?|?]]; discriminate.
  - exact Hin.
Defined.

(** In every history, [app_process_snapshot] enumerates the table in
    launch order: index [i] yields an entry exactly when [i] is below the count,
    the entry is a used slot, ids increase with the index, and every used slot
    is enumerated. *)
Theorem app_process_snapshot_chronological qs :
  let t := run_requests qs boot_table in
  (forall i, is_Some (app_process_snapshot i true t) <-> Z.of_nat i < app_process_count t) /\
  (forall i p, app_process_snapshot i true t = Some p -> p ∈ g_processes t /\ used p = true) /\
  (forall i j p q, (i < j)%nat -> app_process_snapshot i true t = Some p ->
     app_process_snapshot j true t = Some q -> process_id p < process_id q) /\
  (forall p, p ∈ g_processes t -> used p = true ->
     exists i, app_process_snapshot i true t = Some p).
Proof.
  cbn zeta. set (t := run_requests qs boot_table).
  destruct (requests_inv qs _ boot_table_inv : table_inv t) as ((Hl & Hid & Huniq & _) & Hc & _).
  pose proof (ids_NoDup _ Huniq) as Hnd.
  assert (Hlen : length (above 0 (g_processes t)) = used_count (g_processes t)).
  { unfold above, used_count. unfold above. rewrite <- (length_map process_id). f_equal. change (List.map _ _) with (ids (g_processes t)).
    rewrite (List.forallb_filter_id). 1: done. apply forallb_Forall_true, Forall_forall.
    intros x (p & Hp & Hu & <-)%elem_of_ids. apply list_elem_of_lookup in Hp as [i Hi].
    destruct (Hid i p Hi Hu). apply Z.ltb_lt. lia. }
  assert (Hsnap : forall i, app_process_snapshot i true t = snapshot_from t 0 i).
  { intros i. unfold app_process_snapshot. cbn [negb orb].
    destruct (Z.leb_spec (g_process_count t) (Z.of_nat i)) as [Hi|]; [|done].
    pose proof (snapshot_from_spec t 0 i Hnd) as Hs. destruct (snapshot_from t 0 i); [|done]. lia. }
  split; [|split; [|split]].
  - intros i. rewrite Hsnap. unfold app_process_count. pose proof (snapshot_from_spec t 0 i Hnd) as Hs.
    destruct (snapshot_from t 0 i) as [p|]; [split; [lia|done]|]. split; [by intros [? ?]|lia].
  - intros i p. rewrite Hsnap. intros E. pose proof (snapshot_from_spec t 0 i Hnd) as Hs. rewrite E in Hs.
    by destruct Hs as (_ & ? & ? & _).
  - intros i j p q Hij. rewrite !Hsnap. by apply snapshot_from_increasing.
  - intros p Hp Hu. pose proof Hp as [i Hi]%list_elem_of_lookup. destruct (Hid i p Hi Hu) as [? _].
    destruct (snapshot_from_complete t 0 p Hnd Hp Hu ltac:(lia)) as [k Hk]. exists k. rewrite Hsnap.
    pose proof (snapshot_from_spec t 0 k Hnd) as Hs. destruct (snapshot_from t 0 k) as [q|]; [|done].
    injection Hk as Hk. destruct Hs as (_ & Hq & Huq & _). apply list_elem_of_lookup in Hq as [j Hj].
    assert (j = i) as -> by (by apply (Huniq j i q p)). congruence.
Qed.

(** Tracking a loaded image when the arguments are valid and ids
    remain: with a free slot it succeeds and nothing else is lost; with a full
    table it succeeds by forgetting exactly the oldest finished process, when
    there is one; otherwise it reports a full table and changes nothing. *)
Theorem app_process_track_loaded_policy t m p :
  table_inv t -> app_manifest_validate (Some m) = APP_MANIFEST_OK -> plan_is_consistent (Some p) = true ->
  g_next_process_id t <> 0 ->
  let '(r, out, t') := app_process_track_loaded (Some m) (Some p) true t in
  let new := g_next_process_id t in
  (r = APP_PROCESS_OK /\ out = Some new /\
     app_process_find new true t' = Some (loaded_process new m p) /\
     (used_count (g_processes t) < 16)%nat /\
     (forall id, id <> new -> app_process_find id true t' = app_process_find id true t)) \/
  (r = APP_PROCESS_OK /\ out = Some new /\
     app_process_find new true t' = Some (loaded_process new m p) /\
     used_count (g_processes t) = 16%nat /\
     exists old, old ∈ g_processes t /\ terminal old = true /\
       (forall q, q ∈ g_processes t -> terminal q = true -> process_id old <= process_id q) /\
       (forall id, id <> new -> app_process_find id true t' =
          if process_id old =? id then None else app_process_find id true t)) \/
  (r = APP_PROCESS_TABLE_FULL /\ out = None /\ t' = t /\
     (forall q, q ∈ g_processes t -> used q = true /\ terminal q = false)).
Proof.
  intros Ht Hm Hp Hnext. pose proof Ht as (Hs & _). pose proof Hs as (Hlen & _).
  pose proof (track_step (Some m) (Some p) true t) as Hstep. apply (step_inv _ _ Ht) in Hstep.
  destruct Hstep as (Hs' & _). revert Hs'.
  unfold app_process_track_loaded. rewrite Hm, Hp, bool_decide_true by done. cbn [negb orb].
  destruct (Z.eqb_spec (g_next_process_id t) 0) as [|_]; [done|].
  pose proof (claim_slot_spec t) as Hc. destruct (claim_slot t) as [[i t1]|].
  2: { intros _. right. right. rewrite Forall_forall in Hc. by split; [|split; [|split]]. }
  destruct Hc as (q & Hq & [[Hu ->]|(Hall & Hterm & Hmin & ->)]); cbn [snd]; intros Hs'.
  - left. split; [done|]. split; [done|].
    split; [erewrite find_loaded; [by rewrite Z.eqb_refl|exact Hs|exact Hs'|exact Hq|done]|]. split.
    + pose proof (used_count_insert _ i q (loaded_process (g_next_process_id t) m p) Hq) as Hcnt.
      pose proof (used_count_le (<[i := loaded_process (g_next_process_id t) m p]> (g_processes t))) as Hle.
      rewrite length_insert, Hlen, Hu in *. change (used (loaded_process _ m p)) with true in Hcnt.
      cbn [Nat.b2n] in Hcnt. unfold APP_PROCESS_CAPACITY in Hle. lia.
    + intros id Hid. erewrite find_loaded; [|exact Hs|exact Hs'|exact Hq|done]. rewrite Hu.
      destruct (Z.eqb_spec (g_next_process_id t) id); [congruence|done].
  - right. left. split; [done|]. split; [done|].
    cbn [g_processes g_process_count g_next_process_id released] in *. rewrite list_insert_insert_eq in *.
    assert (Hq' : used q = true).
    { rewrite Forall_forall in Hall. by apply Hall, list_elem_of_lookup_2 with i. }
    split; [erewrite find_loaded; [by rewrite Z.eqb_refl|exact Hs|exact Hs'|exact Hq|done]|]. split.
    + unfold used_count. rewrite forallb_filter_id; [exact Hlen|]. by apply forallb_Forall_true.
    + exists q. split; [by apply list_elem_of_lookup_2 with i|]. split; [done|]. split; [done|].
      intros id Hid. erewrite find_loaded; [|exact Hs|exact Hs'|exact Hq|done]. rewrite Hq'.
      destruct (Z.eqb_spec (g_next_process_id t) id); [congruence|done].
Qed.

Lemma app_process_track_loaded_policy_witness :
  exists out, app_process_track_loaded (Some sample_manifest) (Some sample_image) true boot_table =
    (APP_PROCESS_OK, Some 1, out) /\
  option_map process_id (app_process_find 1 true out) = Some 1.
Proof.
  pose proof (app_process_track_loaded_policy boot_table sample_manifest sample_image boot_table_inv
    eq_refl eq_refl ltac:(discriminate)) as H.
  destruct (app_process_track_loaded (Some sample_manifest) (Some sample_image) true boot_table)
    as [[r o] t'] eqn:E.
  destruct H as [(-> & -> & Hf & _)|[(-> & -> & Hf & _)|(-> & _)]].
  - exists t'. split; [done|]. cbn [g_next_process_id boot_table] in Hf. by rewrite Hf.
  - exists t'. split; [done|]. cbn [g_next_process_id boot_table] in Hf. by rewrite Hf.
  - vm_compute in E. discriminate.
Defined.

(** [plan_is_consistent] accepts exactly the consistent plans (for
    fields of their machine width): one to sixteen pairwise disjoint segments
    inside the image and the user half, none writable and executable, the span
    exact and at most 16 MiB, the entry point in executable file data. *)
Theorem plan_is_consistent_exact p :
  plan_u64 p -> plan_is_consistent (Some p) = true <-> plan_ok p.
Proof. apply plan_consistent_spec. Qed.

Lemma sample_plan_u64 : plan_u64 sample_image.
Proof.
  unfold plan_u64, u64_ok, sample_image.
  cbn [virtual_base virtual_end entry_point image_span segments]. split_and!; try lia.
  repeat (apply Forall_cons_2; [cbn [virtual_address memory_size file_size]; lia|]). constructor.
Defined.

Lemma plan_is_consistent_exact_witness : plan_ok sample_image.
Proof. apply (proj1 (plan_is_consistent_exact sample_image sample_plan_u64)). by vm_compute. Defined.

(** the process table accepts every plan the ELF loader
    produces: no image that [elf64_inspect] accepts is refused by
    [plan_is_consistent]. *)
Theorem inspected_plan_is_consistent bytes n p :
  bytes_ok bytes -> elf64_inspect (Some bytes) n false = Some (inr p) ->
  plan_is_consistent (Some p) = true.
Proof.
  intros Hb Hi. destruct (inspected_plan_ok bytes n p Hb Hi) as [Hu Hok]. by apply plan_consistent_spec.
Qed.

Lemma inspected_plan_is_consistent_witness : plan_is_consistent (Some sample_plan) = true.
Proof. exact (inspected_plan_is_consistent sample_elf 182 sample_plan sample_elf_ok sample_accepted). Defined.
