(* ===== verification/Heap.v ===== *)
(** * kernel/heap.c: the kernel allocator

    The memory the allocator owns is the map from addresses to the block
    headers it has written; payloads are never read or written here.  A header
    read outside the map is [None], and so is a loop that exceeds its fuel, the
    number of headers: a result [Some _] says that the run stayed on headers
    and ended.  Messages go to the kernel log of Syslog.v. *)

From stdpp Require Import gmap.
From S2P Require Import Prelude CString Syslog.

Definition NULL : Z := 0.

(** [x] rounded up to a multiple of [a]. *)
Definition align_up (x a : Z) : Z := (x + a - 1) / a * a.

(** Layout of [struct heap_block]: an 8-byte size, a bool, a pointer, 15 bytes
    of padding, the whole aligned to 16. *)
Definition sizeof_heap_block : Z := align_up (align_up (8 + 1) 8 + 8 + 15) 16.

Record heap_block := HeapBlock {
  hsize : Z;
  is_free : bool;
  next : Z;
}.

Record heap := Heap {
  headers : gmap Z heap_block;
  g_head : Z;
  g_heap_total_size : Z;
  g_heap_used_size : Z;
  g_heap_start : Z;
  g_heap_end : Z;
  klog : syslog;
}.

Definition heap_log (message : list Z) (h : heap) : heap :=
  Heap (headers h) (g_head h) (g_heap_total_size h) (g_heap_used_size h) (g_heap_start h)
    (g_heap_end h) (syslog_write message (klog h)).

(** The region that [heap_init] uses, after the alignment of its start; [None]
    when alignment leaves nothing. *)
Definition heap_region (start_addr size_bytes : Z) : option (Z * Z) :=
  let misalignment := start_addr mod 16 in
  if negb (misalignment =? 0) then
    let adjustment := 16 - misalignment in
    if size_bytes <=? adjustment then None
    else Some (u64 (start_addr + adjustment), size_bytes - adjustment)
  else Some (start_addr, size_bytes).

Definition heap_init (start_addr size_bytes : Z) (h : heap) : heap :=
  let h0 := Heap (headers h) NULL 0 0 0 0 (klog h) in
  match heap_region start_addr size_bytes with
  | None => h0
  | Some (start, size) =>
      if size <? sizeof_heap_block then heap_log (cs "Heap: Too small to initialize") h0
      else
        heap_log (cs "Heap: Initialized (16-byte aligned)")
          (Heap (<[start := HeapBlock (size - sizeof_heap_block) true NULL]> (headers h)) start size 0
             start (u64 (start + size)) (klog h))
  end.

(** ** Allocation *)

Definition align_request (n : Z) : Z := Z.ldiff (u64 (n + 15)) 15.

(** The scan of [kmalloc]: the first free block that fits, or [NULL]. *)
Fixpoint find_fit (fuel : nat) (m : gmap Z heap_block) (aligned_size curr : Z) : option Z :=
  match fuel with
  | O => None
  | S fuel' =>
      if curr =? NULL then Some NULL
      else
        b ← m !! curr;
        if is_free b && (aligned_size <=? hsize b) then Some curr
        else find_fit fuel' m aligned_size (next b)
  end.

(** Split [curr] when the rest holds a header and 16 bytes. *)
Definition split_block (m : gmap Z heap_block) (curr aligned_size : Z) (b : heap_block)
    : gmap Z heap_block * heap_block :=
  if u64 (u64 (aligned_size + sizeof_heap_block) + 16) <=? hsize b then
    let new_block := u64 (u64 (curr + sizeof_heap_block) + aligned_size) in
    let rest := u64 (u64 (hsize b - aligned_size) - sizeof_heap_block) in
    (<[new_block := HeapBlock rest true (next b)]> m,
     HeapBlock aligned_size (is_free b) new_block)
  else (m, b).

Definition loop_fuel (m : gmap Z heap_block) : nat := S (size m).

(** The pointer returned, [NULL] on failure, and the heap after. *)
Definition kmalloc (n : Z) (h : heap) : option (Z * heap) :=
  if (n =? 0) || (g_head h =? NULL) then Some (NULL, h)
  else if SIZE_MAX - 15 <? n then Some (NULL, heap_log (cs "Heap: allocation size overflow") h)
  else
    let aligned_size := align_request n in
    curr ← find_fit (loop_fuel (headers h)) (headers h) aligned_size (g_head h);
    if curr =? NULL then Some (NULL, heap_log (cs "Heap: Out of memory") h)
    else
      b ← headers h !! curr;
      let '(m, b') := split_block (headers h) curr aligned_size b in
      Some (u64 (curr + sizeof_heap_block),
            Heap (<[curr := HeapBlock (hsize b') false (next b')]> m) (g_head h)
              (g_heap_total_size h) (u64 (g_heap_used_size h + hsize b')) (g_heap_start h)
              (g_heap_end h) (klog h)).

(** ** Release *)

(** The block whose payload is at [ptr], or [NULL]. *)
Fixpoint find_payload (fuel : nat) (m : gmap Z heap_block) (ptr curr : Z) : option Z :=
  match fuel with
  | O => None
  | S fuel' =>
      if curr =? NULL then Some NULL
      else if u64 (curr + sizeof_heap_block) =? ptr then Some curr
      else b ← m !! curr; find_payload fuel' m ptr (next b)
  end.

(** Merge the block at [curr] with its successor [n]. *)
Definition absorb (b n : heap_block) : heap_block :=
  HeapBlock (u64 (hsize b + u64 (sizeof_heap_block + hsize n))) (is_free b) (next n).

Fixpoint merge_pass (fuel : nat) (m : gmap Z heap_block) (curr : Z) : option (gmap Z heap_block) :=
  match fuel with
  | O => None
  | S fuel' =>
      if curr =? NULL then Some m
      else
        b ← m !! curr;
        if next b =? NULL then Some m
        else if is_free b then
          n ← m !! next b;
          if is_free n then merge_pass fuel' (<[curr := absorb b n]> m) curr
          else merge_pass fuel' m (next b)
        else merge_pass fuel' m (next b)
  end.

(** The merge of a freed block with its free successor. *)
Definition merge_next (m : gmap Z heap_block) (block : Z) : option (gmap Z heap_block) :=
  b ← m !! block;
  if next b =? NULL then Some m
  else
    n ← m !! next b;
    Some (if is_free n then <[block := absorb b n]> m else m).

Definition kfree (ptr : Z) (h : heap) : option heap :=
  if ptr =? NULL then Some h
  else if (ptr <? u64 (g_heap_start h + sizeof_heap_block)) || (g_heap_end h <=? ptr) ||
          negb (Z.land ptr 0xF =? 0)
  then Some (heap_log (cs "Heap: rejected invalid free") h)
  else
    block ← find_payload (loop_fuel (headers h)) (headers h) ptr (g_head h);
    let rejected := heap_log (cs "Heap: rejected invalid or duplicate free") h in
    if block =? NULL then Some rejected
    else
      b ← headers h !! block;
      if is_free b then Some rejected
      else
        let h1 :=
          if hsize b <=? g_heap_used_size h
          then Heap (headers h) (g_head h) (g_heap_total_size h) (u64 (g_heap_used_size h - hsize b))
                 (g_heap_start h) (g_heap_end h) (klog h)
          else heap_log (cs "Heap: allocation accounting recovered")
                 (Heap (headers h) (g_head h) (g_heap_total_size h) 0 (g_heap_start h) (g_heap_end h)
                    (klog h)) in
        m1 ← merge_next (<[block := HeapBlock (hsize b) true (next b)]> (headers h)) block;
        m2 ← merge_pass (loop_fuel m1) m1 (g_head h);
        Some (Heap m2 (g_head h1) (g_heap_total_size h1) (g_heap_used_size h1) (g_heap_start h1)
                (g_heap_end h1) (klog h1)).

(** ** Accounting *)

Fixpoint free_total (fuel : nat) (m : gmap Z heap_block) (curr total : Z) : option Z :=
  match fuel with
  | O => None
  | S fuel' =>
      if curr =? NULL then Some total
      else
        b ← m !! curr;
        free_total fuel' m (next b) (if is_free b then u64 (total + hsize b) else total)
  end.

Definition heap_free_space (h : heap) : option Z :=
  free_total (loop_fuel (headers h)) (headers h) (g_head h) 0.

Definition heap_used_space (h : heap) : Z := g_heap_used_size h.
