(* ===== verification/HeapSpec.v ===== *)
(** * kernel/heap.c: the free list tiles the heap, allocations are disjoint *)

From stdpp Require Import gmap.
From S2P Require Import Prelude CString Syslog Heap.

(** ** The abstract heap: the list of its blocks *)

Record block := Block { baddr : Z; bsize : Z; bfree : bool }.

(** [lseg m a l b]: the chain of headers from [a] to the pointer [b] is [l]. *)
Fixpoint lseg (m : gmap Z heap_block) (a : Z) (l : list block) (b : Z) : Prop :=
  match l with
  | [] => a = b
  | k :: l' => a = baddr k /\ exists n, m !! baddr k = Some (HeapBlock (bsize k) (bfree k) n) /\ lseg m n l' b
  end.

(** [tiles a l b]: the blocks of [l] lie back to back from [a] to [b]. *)
Fixpoint tiles (a : Z) (l : list block) (b : Z) : Prop :=
  match l with
  | [] => a = b
  | k :: l' => baddr k = a /\ (16 | a) /\ 0 <= bsize k /\ tiles (a + 48 + bsize k) l' b
  end.

Fixpoint no_adjacent_free (l : list block) : Prop :=
  match l with
  | a :: l' => match l' with b :: _ => bfree a && bfree b = false | [] => True end /\ no_adjacent_free l'
  | [] => True
  end.

(** The allocated payloads: address and size. *)
Definition allocated (l : list block) : list (Z * Z) :=
  map (fun k => (baddr k + 48, bsize k)) (List.filter (fun k => negb (bfree k)) l).

Definition total_of (l : list (Z * Z)) : Z := fold_right (fun p s => p.2 + s) 0 l.

Definition heap_inv (h : heap) (l : list block) : Prop :=
  l <> [] /\ g_head h = g_heap_start h /\ 16 <= g_heap_start h /\ g_heap_end h < 2 ^ 64 /\
  lseg (headers h) (g_head h) l NULL /\ tiles (g_heap_start h) l (g_heap_end h) /\
  no_adjacent_free l /\ g_heap_used_size h = total_of (allocated l) /\
  g_heap_total_size h = g_heap_end h - g_heap_start h /\
  Forall (fun p => 0 < p.2) (allocated l).

(** ** Chains and tilings *)

Lemma sizeof_is_48 : sizeof_heap_block = 48.
Proof. reflexivity. Qed.

Lemma lseg_app m a l1 l2 b : lseg m a (l1 ++ l2) b <-> exists c, lseg m a l1 c /\ lseg m c l2 b.
Proof.
  revert a. induction l1 as [|k l1 IH]; intros a; cbn [app lseg].
  - split; [intros H; by exists a|]. by intros (c & -> & ?).
  - split.
    + intros (-> & n & Hk & H). apply IH in H as (c & ? & ?). exists c. split; [|done].
      split; [done|]. by exists n.
    + intros (c & (-> & n & Hk & H) & H2). split; [done|]. exists n. split; [done|]. apply IH. by exists c.
Qed.

Lemma lseg_insert m a l b x v : x ∉ map baddr l -> lseg m a l b -> lseg (<[x := v]> m) a l b.
Proof.
  revert a. induction l as [|k l IH]; intros a; cbn [map lseg]; [done|].
  rewrite not_elem_of_cons. intros [Hx Hl] (-> & n & Hk & H). split; [done|]. exists n.
  split; [by rewrite lookup_insert_ne by done|]. by apply IH.
Qed.

Lemma tiles_app a l1 l2 b : tiles a (l1 ++ l2) b <-> exists c, tiles a l1 c /\ tiles c l2 b.
Proof.
  revert a. induction l1 as [|k l1 IH]; intros a; cbn [app tiles].
  - split; [intros H; by exists a|]. by intros (c & -> & ?).
  - split.
    + intros (-> & ? & ? & H). apply IH in H as (c & ? & ?). by exists c.
    + intros (c & (-> & ? & ? & H) & H2). split; [done|]. split; [done|]. split; [done|].
      apply IH. by exists c.
Qed.

Lemma tiles_le a l b : tiles a l b -> a <= b.
Proof. revert a. induction l as [|k l IH]; intros a; cbn [tiles]; [lia|]. intros (_ & _ & ? & H%IH). lia. Qed.

(** Every block lies inside the tiled range. *)
Lemma tiles_in a l b k : tiles a l b -> k ∈ l ->
  a <= baddr k /\ baddr k + 48 + bsize k <= b /\ 0 <= bsize k /\ (16 | baddr k).
Proof.
  revert a. induction l as [|x l IH]; intros a; [by intros _ ?%elem_of_nil|].
  cbn [tiles]. intros (Hx & Ha & Hs & H) [->|Hk]%elem_of_cons.
  - apply tiles_le in H. rewrite Hx. split; [lia|]. split; [lia|]. by split.
  - destruct (IH _ H Hk) as (? & ? & ? & ?). split; [lia|]. by split.
Qed.

Lemma tiles_addr a l b x : tiles a l b -> x ∈ map baddr l -> a <= x /\ x + 48 <= b.
Proof.
  intros Ht Hx. apply list_elem_of_In, in_map_iff in Hx as (k & <- & Hk). apply list_elem_of_In in Hk.
  pose proof (tiles_in a l b k Ht Hk). lia.
Qed.

Lemma tiles_NoDup a l b : tiles a l b -> NoDup (map baddr l).
Proof.
  revert a. induction l as [|k l IH]; intros a; cbn [tiles map]; [constructor|].
  intros (Hk & _ & Hs & H). constructor; [|by apply (IH _ H)].
  intros Hin. pose proof (tiles_addr _ _ _ _ H Hin). lia.
Qed.

(** A header outside a tiled range is not in it. *)
Lemma tiles_not_in a l b x : tiles a l b -> x < a \/ b <= x -> x ∉ map baddr l.
Proof. intros Ht Hx Hin. pose proof (tiles_addr _ _ _ _ Ht Hin). lia. Qed.

Lemma lseg_dom m a l b : lseg m a l b -> forall x, x ∈ map baddr l -> x ∈ dom m.
Proof.
  revert a. induction l as [|k l IH]; intros a; cbn [map lseg]; [by intros _ x ?%elem_of_nil|].
  intros (_ & n & Hk & H) x [->|Hx]%elem_of_cons; [by apply elem_of_dom_2 in Hk|]. by apply (IH n).
Qed.

(** The fuel covers every chain of distinct headers. *)
Lemma fuel_enough m a l b s e : lseg m a l b -> tiles s l e -> (length l < loop_fuel m)%nat.
Proof.
  intros Hl Ht. unfold loop_fuel. rewrite <- size_dom, <- (length_map baddr l).
  apply Nat.lt_succ_r. rewrite <- (size_list_to_set (C := gset Z)) by (by apply (tiles_NoDup s l e)).
  apply subseteq_size. intros x. rewrite elem_of_list_to_set. by apply (lseg_dom m a l b).
Qed.

Lemma lseg_head m a l b : lseg m a l b -> a = match l with [] => b | k :: _ => baddr k end.
Proof. destruct l; cbn [lseg]; [done|]. by intros [-> _]. Qed.

(** ** The allocated list *)

Lemma allocated_app l1 l2 : allocated (l1 ++ l2) = allocated l1 ++ allocated l2.
Proof. unfold allocated. by rewrite List.filter_app, map_app. Qed.

Lemma allocated_cons k l :
  allocated (k :: l) = (if bfree k then [] else [(baddr k + 48, bsize k)]) ++ allocated l.
Proof. unfold allocated. cbn [List.filter]. by destruct (bfree k). Qed.

Lemma total_of_app l1 l2 : total_of (l1 ++ l2) = total_of l1 + total_of l2.
Proof. unfold total_of. induction l1 as [|x l1 IH]; cbn [app fold_right]; [lia|]. rewrite IH. lia. Qed.

Lemma total_of_perm l1 l2 : l1 ≡ₚ l2 -> total_of l1 = total_of l2.
Proof. unfold total_of. induction 1; cbn [fold_right]; lia. Qed.

Lemma total_bounds a l b : tiles a l b -> 0 <= total_of (allocated l) <= b - a.
Proof.
  revert a. induction l as [|k l IH]; intros a; cbn [tiles]; [intros ->; simpl; lia|].
  intros (_ & _ & Hs & H). specialize (IH _ H). rewrite allocated_cons, total_of_app.
  destruct (bfree k); cbn [total_of fold_right snd]; lia.
Qed.

(** Payloads of different blocks do not overlap. *)
Lemma tiles_disjoint a l b i j k1 k2 x :
  tiles a l b -> l !! i = Some k1 -> l !! j = Some k2 -> (i < j)%nat ->
  baddr k1 <= x < baddr k1 + 48 + bsize k1 -> baddr k2 <= x < baddr k2 + 48 + bsize k2 -> False.
Proof.
  revert a i j. induction l as [|k l IH]; intros a i j; [done|]. cbn [tiles].
  intros (Hk & _ & Hs & H). destruct i as [|i], j as [|j]; try lia.
  - intros [= ->] Hj _ H1 H2.
    pose proof (tiles_in _ _ _ _ H (list_elem_of_lookup_2 l j k2 Hj)). lia.
  - intros Hi Hj Hij. apply (IH _ i j H Hi Hj). lia.
Qed.

(** ** Allocation *)

Lemma align_request_spec n :
  0 < n -> n <= SIZE_MAX - 15 -> n <= align_request n /\ (16 | align_request n) /\ align_request n < n + 16.
Proof.
  unfold SIZE_MAX. intros H0 H1. unfold align_request. rewrite u64_small by (unfold u64_ok; lia).
  assert (E : Z.ldiff (n + 15) 15 = (n + 15) / 16 * 16).
  { change 15 with (Z.ones 4) at 2. rewrite Z.ldiff_ones_r by lia.
    by rewrite Z.shiftl_mul_pow2, Z.shiftr_div_pow2 by lia. }
  rewrite E.
  pose proof (Z.div_mod (n + 15) 16 ltac:(lia)). pose proof (Z.mod_pos_bound (n + 15) 16 ltac:(lia)).
  split; [lia|]. split; [|lia]. by exists ((n + 15) / 16).
Qed.

(** The scan finds the first free block that is large enough. *)
Lemma find_fit_spec fuel m req a l :
  lseg m a l NULL -> Forall (fun k => baddr k <> NULL) l -> (length l < fuel)%nat ->
  (find_fit fuel m req a = Some NULL /\ Forall (fun k => bfree k = true -> bsize k < req) l) \/
  exists l1 k l2, l = l1 ++ k :: l2 /\ bfree k = true /\ req <= bsize k /\
    find_fit fuel m req a = Some (baddr k).
Proof.
  revert a l. induction fuel as [|fuel IH]; intros a l Hl Hnn Hf; [lia|]. cbn [find_fit].
  destruct l as [|k l]; cbn [lseg] in Hl.
  { left. subst a. rewrite Z.eqb_refl. split; [done|constructor]. }
  destruct Hl as (-> & n & Hk & Hl). apply Forall_cons in Hnn as [Hk0 Hnn].
  rewrite (proj2 (Z.eqb_neq _ _)) by done. rewrite Hk. cbn [mbind option_bind is_free hsize next].
  destruct (bfree k && (req <=? bsize k)) eqn:C.
  - bdestr_hyps. right. exists [], k, l. by split_and!.
  - cbn [length] in Hf. destruct (IH n l Hl Hnn ltac:(lia)) as [[-> Hall]|(l1 & k' & l2 & -> & ? & ? & ->)].
    + left. split; [done|]. constructor; [|done]. intros F. rewrite F in C. simpl in C. lia.
    + right. exists (k :: l1), k', l2. by split_and!.
Qed.

Lemma no_adjacent_app l1 k l2 :
  no_adjacent_free (l1 ++ k :: l2) <->
  no_adjacent_free (l1 ++ [k]) /\ no_adjacent_free (k :: l2).
Proof.
  induction l1 as [|x l1 IH]; [cbn [app no_adjacent_free]; tauto|].
  cbn [app no_adjacent_free]. rewrite IH. destruct l1; cbn [app no_adjacent_free]; tauto.
Qed.

(** Marking a block allocated keeps free blocks apart. *)
Lemma no_adjacent_allocate l1 k l2 k' :
  no_adjacent_free (l1 ++ k :: l2) -> bfree k' = false -> no_adjacent_free (l1 ++ k' :: l2).
Proof.
  intros H Hk'. apply no_adjacent_app in H as [H1 H2]. apply no_adjacent_app. split.
  - clear H2. induction l1 as [|x l1 IH]; [done|]. cbn [app no_adjacent_free] in *.
    destruct H1 as [Hx H1]. split; [|by apply IH].
    destruct l1; cbn [app] in *; [by rewrite Hk', andb_false_r|done].
  - cbn [no_adjacent_free] in *. destruct H2 as [_ H2]. split; [|done]. destruct l2; [done|]. by rewrite Hk'.
Qed.

(** What [split_block] does to the chain: the block becomes an allocated one,
    followed by a free rest when there is room for it. *)
Lemma split_block_spec m a l1 k l2 req s e :
  lseg m a (l1 ++ k :: l2) NULL -> tiles s (l1 ++ k :: l2) e -> 16 <= s -> e < 2 ^ 64 ->
  bfree k = true -> 0 < req <= bsize k -> (16 | req) -> no_adjacent_free (l1 ++ k :: l2) ->
  exists n size rest,
    m !! baddr k = Some (HeapBlock (bsize k) true n) /\
    (let '(m1, b1) := split_block m (baddr k) req (HeapBlock (bsize k) true n) in
     hsize b1 = size /\
     lseg (<[baddr k := HeapBlock size false (next b1)]> m1) a
       (l1 ++ Block (baddr k) size false :: rest ++ l2) NULL) /\
    req <= size /\ allocated rest = [] /\
    tiles s (l1 ++ Block (baddr k) size false :: rest ++ l2) e /\
    no_adjacent_free (l1 ++ Block (baddr k) size false :: rest ++ l2).
Proof.
  intros Hl Ht Hs He Hfree Hreq Hdiv Hna.
  apply lseg_app in Hl as (c & Hl1 & Hc). cbn [lseg] in Hc. destruct Hc as (-> & n & Hk & Hl2).
  rewrite Hfree in Hk. apply tiles_app in Ht as (c & Ht1 & Ht2). pose proof Ht2 as Ht2'.
  cbn [tiles] in Ht2. destruct Ht2 as (<- & Hal & Hsz & Ht3).
  pose proof (tiles_le _ _ _ Ht1). pose proof (tiles_le _ _ _ Ht3).
  assert (N1 : baddr k ∉ map baddr l1) by (apply (tiles_not_in _ _ _ _ Ht1); lia).
  assert (N2 : baddr k ∉ map baddr l2) by (apply (tiles_not_in _ _ _ _ Ht3); lia).
  exists n. unfold split_block. rewrite sizeof_is_48. cbn [hsize next is_free].
  rewrite (u64_small (req + 48)), (u64_small (req + 48 + 16)) by (unfold u64_ok; lia).
  destruct (Z.leb_spec (req + 48 + 16) (bsize k)) as [Hroom|Hroom].
  - rewrite (u64_small (baddr k + 48)), (u64_small (baddr k + 48 + req)),
      (u64_small (bsize k - req)), (u64_small (bsize k - req - 48)) by (unfold u64_ok; lia).
    set (x := baddr k + 48 + req).
    exists req, [Block x (bsize k - req - 48) true]. cbn [hsize next is_free app].
    assert (N3 : x ∉ map baddr l1) by (apply (tiles_not_in _ _ _ _ Ht1); unfold x; lia).
    assert (N4 : x ∉ map baddr l2) by (apply (tiles_not_in _ _ _ _ Ht3); unfold x; lia).
    split; [done|]. split; [split; [done|]|].
    { apply lseg_app. exists (baddr k). split; [by apply lseg_insert, lseg_insert|].
      cbn [lseg baddr bsize bfree]. split; [done|]. exists x. split; [apply lookup_insert_eq|].
      split; [done|]. exists n. split.
      { rewrite lookup_insert_ne by (unfold x; lia). apply lookup_insert_eq. }
      by apply lseg_insert, lseg_insert. }
    split; [lia|]. split; [done|]. split.
    + apply tiles_app. exists (baddr k). split; [done|]. cbn [tiles baddr bsize].
      split; [done|]. split; [done|]. split; [lia|]. split; [done|]. unfold x. split.
      { apply Z.divide_add_r; [apply Z.divide_add_r; [done|by exists 3]|done]. }
      split; [lia|]. replace (baddr k + 48 + req + 48 + (bsize k - req - 48)) with (baddr k + 48 + bsize k) by lia.
      done.
    + apply no_adjacent_app in Hna as [Hna1 [Hna2 Hna3]]. apply no_adjacent_app.
      split; [by apply (no_adjacent_allocate l1 k [])|]. cbn [no_adjacent_free bfree andb].
      split; [done|]. split; [|done]. destruct l2; [done|]. by rewrite Hfree in Hna2.
  - exists (bsize k), []. cbn [hsize next is_free app]. split; [done|]. split; [split; [done|]|].
    { apply lseg_app. exists (baddr k). split; [by apply lseg_insert|].
      cbn [lseg baddr bsize bfree]. split; [done|]. exists n. split; [apply lookup_insert_eq|].
      by apply lseg_insert. }
    split; [lia|]. split; [done|]. split.
    + apply tiles_app. exists (baddr k). split; [done|]. cbn [tiles baddr bsize]. by split_and!.
    + by apply (no_adjacent_allocate l1 k).
Qed.

Lemma heap_inv_log h l msg : heap_inv h l -> heap_inv (heap_log msg h) l.
Proof. done. Qed.

Lemma heap_inv_nonnull h l : heap_inv h l -> Forall (fun k => baddr k <> NULL) l.
Proof.
  intros (_ & _ & Hs & _ & _ & Ht & _). apply Forall_forall. intros k Hk.
  destruct (tiles_in _ _ _ _ Ht Hk). unfold NULL. lia.
Qed.

Lemma kmalloc_spec h l n :
  heap_inv h l -> 0 <= n < 2 ^ 64 ->
  exists p h', kmalloc n h = Some (p, h') /\
  ((p = NULL /\ headers h' = headers h /\ heap_inv h' l /\
    (0 < n <= SIZE_MAX - 15 -> Forall (fun k => bfree k = true -> bsize k < align_request n) l)) \/
   (exists l' size, heap_inv h' l' /\ allocated l' ≡ₚ (p, size) :: allocated l /\ 0 < n <= size)).
Proof.
  intros Hinv Hn. pose proof Hinv as (Hne & Hhead & Hs & He & Hl & Ht & Hna & Hused & Htot & Hpos).
  unfold kmalloc. destruct (Z.eqb_spec n 0) as [->|Hn0]; cbn [orb].
  { exists NULL, h. split; [done|]. left. split; [done|]. split; [done|]. split; [done|lia]. }
  destruct (Z.eqb_spec (g_head h) NULL) as [E|_]; [unfold NULL in E; lia|].
  destruct (Z.ltb_spec (SIZE_MAX - 15) n).
  { eexists NULL, _. split; [reflexivity|]. left. split; [done|]. split; [done|].
    split; [by apply heap_inv_log|lia]. }
  destruct (align_request_spec n ltac:(lia) ltac:(lia)) as (Hge & Hdiv & _).
  destruct (find_fit_spec (loop_fuel (headers h)) (headers h) (align_request n) (g_head h) l Hl
    (heap_inv_nonnull h l Hinv) (fuel_enough _ _ _ _ _ _ Hl Ht))
    as [[-> Hall]|(l1 & k & l2 & -> & Hfree & Hfit & ->)]; cbn [mbind option_bind].
  { rewrite Z.eqb_refl. eexists NULL, _. split; [reflexivity|]. left. split; [done|]. split; [done|].
    split; [by apply heap_inv_log|done]. }
  pose proof (heap_inv_nonnull _ _ Hinv) as Hnn. apply Forall_app in Hnn as [_ [Hk0 _]%Forall_cons].
  rewrite (proj2 (Z.eqb_neq _ _)) by done.
  destruct (split_block_spec _ _ l1 k l2 (align_request n) _ _ Hl Ht Hs He Hfree ltac:(lia) Hdiv Hna)
    as (nx & size & rest & Hk & Hsplit & Hsz & Hrest & Ht' & Hna').
  rewrite Hk. cbn [mbind option_bind].
  destruct (split_block (headers h) (baddr k) (align_request n) _) as [m1 b1].
  destruct Hsplit as [Hb1 Hl'].
  destruct (tiles_in _ _ _ k Ht) as (Hk1 & Hk2 & Hk3 & Hk4); [apply elem_of_app; right; by left|].
  set (l' := l1 ++ Block (baddr k) size false :: rest ++ l2) in *.
  assert (Hperm : allocated l' ≡ₚ (baddr k + 48, size) :: allocated (l1 ++ k :: l2)).
  { unfold l'. rewrite !allocated_app, !allocated_cons, Hfree, allocated_app, Hrest. cbn [bfree app baddr bsize].
    symmetry. apply Permutation_middle. }
  pose proof (total_of_perm _ _ Hperm) as Htp. cbn [total_of fold_right snd] in Htp.
  fold (total_of (allocated (l1 ++ k :: l2))) in Htp.
  pose proof (total_bounds _ _ _ Ht') as Hb.
  eexists _, _. split; [reflexivity|]. right. exists l', size.
  rewrite sizeof_is_48, (u64_small (baddr k + 48)) by (unfold u64_ok; lia). split; [|split; [done|lia]].
  unfold heap_inv. cbn [headers g_head g_heap_start g_heap_end g_heap_used_size g_heap_total_size].
  rewrite Hb1. split; [unfold l'; by destruct l1|].
  split; [done|]. split; [done|]. split; [done|]. split; [exact Hl'|]. split; [done|]. split; [done|].
  split; [|split; [done|rewrite Hperm; constructor; [simpl; lia|done]]].
  pose proof (total_bounds _ _ _ Ht). rewrite Hused, u64_small by (unfold u64_ok; lia). lia.
Qed.

(** ** Release *)

(** The merge pass on the abstract list. *)
Fixpoint coalesce (k : block) (l : list block) : list block :=
  match l with
  | [] => [k]
  | k' :: l' =>
      if bfree k && bfree k' then coalesce (Block (baddr k) (bsize k + 48 + bsize k') true) l'
      else k :: coalesce k' l'
  end.

Lemma coalesce_tiles k l a b : tiles a (k :: l) b -> tiles a (coalesce k l) b.
Proof.
  revert k a. induction l as [|k' l IH]; intros k a; [done|]. cbn [coalesce].
  intros (Hk & Hd & Hs & Hk' & Hd' & Hs' & H). destruct (bfree k && bfree k').
  - apply IH. cbn [tiles baddr bsize]. split; [done|]. split; [done|]. split; [lia|].
    by replace (a + 48 + (bsize k + 48 + bsize k')) with (a + 48 + bsize k + 48 + bsize k') by lia.
  - cbn [tiles]. split; [done|]. split; [done|]. split; [done|]. apply IH. by split_and!.
Qed.

Lemma coalesce_head k l : exists s r, coalesce k l = Block (baddr k) s (bfree k) :: r.
Proof.
  revert k. induction l as [|k' l IH]; intros [x s f]; [by eexists _, _|]. cbn [coalesce bfree baddr bsize].
  destruct f; cbn [andb]; [|by eexists _, _].
  destruct (bfree k'); [|by eexists _, _]. destruct (IH (Block x (s + 48 + bsize k') true)) as (s' & r & ->).
  by eexists _, _.
Qed.

Lemma coalesce_no_adjacent k l : no_adjacent_free (coalesce k l).
Proof.
  revert k. induction l as [|k' l IH]; intros k; [done|]. cbn [coalesce].
  destruct (bfree k && bfree k') eqn:C; [apply IH|]. cbn [no_adjacent_free]. split; [|apply IH].
  destruct (coalesce_head k' l) as (s & r & ->). by cbn [bfree].
Qed.

Lemma coalesce_allocated k l : allocated (coalesce k l) = allocated (k :: l).
Proof.
  revert k. induction l as [|k' l IH]; intros k; [done|]. cbn [coalesce].
  destruct (bfree k && bfree k') eqn:C.
  - bdestr_hyps. rewrite IH, !allocated_cons. cbn [bfree].
    by rewrite H, H0.
  - by rewrite (allocated_cons k (coalesce k' l)), IH, (allocated_cons k (k' :: l)).
Qed.

Lemma absorb_spec s f n s' f' n' :
  0 <= s -> 0 <= s' -> s + 48 + s' < 2 ^ 64 ->
  absorb (HeapBlock s f n) (HeapBlock s' f' n') = HeapBlock (s + 48 + s') f n'.
Proof.
  intros. unfold absorb. cbn [hsize is_free next]. rewrite sizeof_is_48.
  rewrite (u64_small (48 + s')), u64_small by (unfold u64_ok; lia). f_equal. lia.
Qed.

(** The loop of [kfree] computes [coalesce] and leaves other headers alone. *)
Lemma merge_pass_spec fuel m k l a b :
  lseg m (baddr k) (k :: l) NULL -> tiles a (k :: l) b -> 16 <= a -> b < 2 ^ 64 ->
  (length (k :: l) <= fuel)%nat ->
  exists m', merge_pass fuel m (baddr k) = Some m' /\ lseg m' (baddr k) (coalesce k l) NULL.
Proof.
  assert (Hgen : forall fuel m k l a b,
    lseg m (baddr k) (k :: l) NULL -> tiles a (k :: l) b -> 16 <= a -> b < 2 ^ 64 ->
    (length (k :: l) <= fuel)%nat ->
    exists m', merge_pass fuel m (baddr k) = Some m' /\ lseg m' (baddr k) (coalesce k l) NULL /\
      (forall x, x < a -> m' !! x = m !! x)).
  2: { intros H1 H2 H3 H4 H5. destruct (Hgen fuel m k l a b H1 H2 H3 H4 H5) as (m' & ? & ? & _). by exists m'. }
  clear. induction fuel as [|fuel IH]; intros m k l a b Hl Ht Ha Hb Hf; [cbn [length] in Hf; lia|].
  cbn [merge_pass]. cbn [lseg] in Hl. destruct Hl as (_ & n & Hk & Hl).
  pose proof Ht as (Hka & Hd & Hs & Ht'). cbn [tiles] in Ht.
  rewrite (proj2 (Z.eqb_neq _ _)) by (unfold NULL; lia). rewrite Hk. cbn [mbind option_bind next is_free].
  destruct l as [|k' l].
  { cbn [lseg] in Hl. rewrite Hl, Z.eqb_refl. exists m. split; [done|]. split; [|done].
    cbn [coalesce lseg]. split; [done|]. exists n. split; [exact Hk|exact Hl]. }
  pose proof Hl as Hl'. cbn [lseg] in Hl. destruct Hl as (-> & n' & Hk' & Hl).
  pose proof Ht' as (Hka' & Hd' & Hs' & Ht''). pose proof (tiles_le _ _ _ Ht'').
  rewrite (proj2 (Z.eqb_neq _ _)) by (unfold NULL; lia).
  cbn [coalesce]. destruct (bfree k) eqn:Fk; cbn [andb].
  - rewrite Hk'. cbn [mbind option_bind is_free]. destruct (bfree k') eqn:Fk'.
    + rewrite absorb_spec by lia.
      set (m1 := <[baddr k := _]> m).
      destruct (IH m1 (Block (baddr k) (bsize k + 48 + bsize k') true) l a b) as (m' & E & Hm' & Hout);
        [| |lia|lia|cbn [length] in *; lia|].
      * cbn [lseg baddr bsize bfree]. split; [done|]. exists n'. split; [apply lookup_insert_eq|].
        apply lseg_insert; [|done]. apply (tiles_not_in _ _ _ _ Ht''). lia.
      * cbn [tiles baddr bsize]. split; [done|]. split; [done|]. split; [lia|].
        by replace (a + 48 + (bsize k + 48 + bsize k')) with (a + 48 + bsize k + 48 + bsize k') by lia.
      * exists m'. split; [exact E|]. split; [done|]. intros x Hx. rewrite Hout by done.
        unfold m1. apply lookup_insert_ne. lia.
    + destruct (IH m k' l (a + 48 + bsize k) b) as (m' & E & Hm' & Hout);
        [done|done|lia|lia|cbn [length] in *; lia|].
      exists m'. split; [exact E|]. split; [|intros x Hx; apply Hout; lia].
      cbn [lseg]. split; [done|]. exists (baddr k'). split; [|done]. rewrite Hout by lia. by rewrite Hk, Fk.
  - destruct (IH m k' l (a + 48 + bsize k) b) as (m' & E & Hm' & Hout);
      [done|done|lia|lia|cbn [length] in *; lia|].
    exists m'. split; [exact E|]. split; [|intros x Hx; apply Hout; lia].
    cbn [lseg]. split; [done|]. exists (baddr k'). split; [|done]. rewrite Hout by lia. by rewrite Hk, Fk.
Qed.

(** The search for the block of a payload pointer. *)
Lemma find_payload_spec fuel m ptr a l s e :
  lseg m a l NULL -> tiles s l e -> 16 <= s -> e < 2 ^ 64 -> (length l < fuel)%nat ->
  (find_payload fuel m ptr a = Some NULL /\ Forall (fun k => baddr k + 48 <> ptr) l) \/
  exists l1 k l2, l = l1 ++ k :: l2 /\ baddr k + 48 = ptr /\ find_payload fuel m ptr a = Some (baddr k).
Proof.
  revert a l s. induction fuel as [|fuel IH]; intros a l s Hl Ht Hs He Hf; [lia|]. cbn [find_payload].
  destruct l as [|k l]; cbn [lseg] in Hl.
  { left. subst a. rewrite Z.eqb_refl. split; [done|constructor]. }
  destruct Hl as (-> & n & Hk & Hl). destruct Ht as (Hka & Hd & Hsz & Ht). pose proof (tiles_le _ _ _ Ht).
  rewrite (proj2 (Z.eqb_neq _ _)) by (unfold NULL; lia).
  rewrite sizeof_is_48, u64_small by (unfold u64_ok; lia).
  destruct (Z.eqb_spec (baddr k + 48) ptr) as [E|E].
  - right. by exists [], k, l.
  - rewrite Hk. cbn [mbind option_bind next]. cbn [length] in Hf.
    destruct (IH n l _ Hl Ht ltac:(lia) He ltac:(lia)) as [[-> Hall]|(l1 & k' & l2 & -> & ? & ->)].
    + left. split; [done|]. by constructor.
    + right. by exists (k :: l1), k', l2.
Qed.

(** The merge with the successor keeps the chain, the tiling and the allocations. *)
Lemma merge_next_spec m a l1 k l2 s e :
  lseg m a (l1 ++ k :: l2) NULL -> tiles s (l1 ++ k :: l2) e -> 16 <= s -> e < 2 ^ 64 ->
  bfree k = true ->
  exists m' l', merge_next m (baddr k) = Some m' /\ lseg m' a (l1 ++ l') NULL /\
    tiles s (l1 ++ l') e /\ allocated (l1 ++ l') = allocated (l1 ++ k :: l2) /\ l1 ++ l' <> [].
Proof.
  intros Hl Ht Hs He Hfree. apply lseg_app in Hl as (c & Hl1 & Hc). cbn [lseg] in Hc.
  destruct Hc as (-> & n & Hk & Hl2). apply tiles_app in Ht as (c & Ht1 & Ht2). pose proof Ht2 as Ht2'.
  cbn [tiles] in Ht2. destruct Ht2 as (<- & Hd & Hsz & Ht3). pose proof (tiles_le _ _ _ Ht1).
  assert (Hsame : forall m' : gmap Z heap_block, m' = m -> lseg m' a (l1 ++ k :: l2) NULL).
  { intros ? ->. apply lseg_app. exists (baddr k). split; [done|]. cbn [lseg]. split; [done|]. by exists n. }
  assert (Htsame : tiles s (l1 ++ k :: l2) e) by (apply tiles_app; by exists (baddr k)).
  unfold merge_next. rewrite Hk. cbn [mbind option_bind next is_free].
  destruct l2 as [|y l2]; cbn [lseg] in Hl2.
  { rewrite Hl2, Z.eqb_refl. exists m, [k]. split_and!; try done; [by apply Hsame|by destruct l1]. }
  destruct Hl2 as (-> & n' & Hy & Hl2). pose proof Ht3 as (Hya & Hdy & Hsy & Ht4).
  pose proof (tiles_le _ _ _ Ht4).
  rewrite (proj2 (Z.eqb_neq _ _)) by (unfold NULL; lia). rewrite Hy. cbn [mbind option_bind is_free].
  destruct (bfree y) eqn:Fy.
  - rewrite absorb_spec by lia.
    exists (<[baddr k := HeapBlock (bsize k + 48 + bsize y) (bfree k) n']> m),
      (Block (baddr k) (bsize k + 48 + bsize y) true :: l2).
    split; [done|]. split; [|split; [|split]].
    + apply lseg_app. exists (baddr k). split; [apply lseg_insert; [|done]; apply (tiles_not_in _ _ _ _ Ht1); lia|].
      cbn [lseg baddr bsize bfree]. split; [done|]. exists n'. rewrite Hfree.
      split; [apply lookup_insert_eq|]. apply lseg_insert; [|done]. apply (tiles_not_in _ _ _ _ Ht4). lia.
    + apply tiles_app. exists (baddr k). split; [done|]. cbn [tiles baddr bsize].
      split; [done|]. split; [done|]. split; [lia|].
      by replace (baddr k + 48 + (bsize k + 48 + bsize y)) with (baddr k + 48 + bsize k + 48 + bsize y) by lia.
    + rewrite !allocated_app, !allocated_cons, Hfree, Fy. done.
    + by destruct l1.
  - exists m, (k :: y :: l2). split_and!; try done; [|by destruct l1].
    apply Hsame. done.
Qed.

Lemma elem_of_allocated l p : p ∈ allocated l <->
  exists k, k ∈ l /\ bfree k = false /\ p = (baddr k + 48, bsize k).
Proof.
  unfold allocated. rewrite list_elem_of_In, in_map_iff. split.
  - intros (k & <- & Hk). apply filter_In in Hk as [Hk Hf]. exists k. rewrite list_elem_of_In.
    by apply negb_true_iff in Hf.
  - intros (k & Hk & Hf & ->). exists k. split; [done|]. apply filter_In.
    rewrite <- list_elem_of_In. by rewrite Hf.
Qed.

Lemma payload_aligned a : (16 | a) -> Z.land (a + 48) 0xF = 0.
Proof.
  intros [q ->]. change 0xF with (Z.ones 4). rewrite Z.land_ones by lia. change (2 ^ 4) with 16.
  replace (q * 16 + 48) with ((q + 3) * 16) by lia. apply Z.mod_mul. lia.
Qed.

Lemma kfree_spec h l ptr :
  heap_inv h l ->
  exists h' l', kfree ptr h = Some h' /\ heap_inv h' l' /\
  ((exists s, allocated l ≡ₚ (ptr, s) :: allocated l') \/
   ((forall s, (ptr, s) ∉ allocated l) /\ l' = l /\ headers h' = headers h)).
Proof.
  intros Hinv. pose proof Hinv as (Hne & Hhead & Hs & He & Hl & Ht & Hna & Hused & Htot & Hpos).
  pose proof (tiles_le _ _ _ Ht) as Hle.
  unfold kfree. destruct (Z.eqb_spec ptr NULL) as [->|Hp0].
  { exists h, l. split; [done|]. split; [done|]. right. split; [|done].
    intros s (k & Hk & _ & [= E _])%elem_of_allocated. destruct (tiles_in _ _ _ _ Ht Hk). unfold NULL in E. lia. }
  rewrite sizeof_is_48. destruct (_ || _ || _) eqn:G.
  { eexists _, l. split; [reflexivity|]. split; [by apply heap_inv_log|]. right. split; [|done].
    intros s Hin. rewrite Forall_forall in Hpos. pose proof (Hpos _ Hin) as Hps. cbn [snd] in Hps.
    apply elem_of_allocated in Hin as (k & Hk & _ & [= -> ->]).
    destruct (tiles_in _ _ _ _ Ht Hk) as (? & ? & ? & Hd). rewrite payload_aligned in G by done.
    rewrite u64_small in G by (unfold u64_ok; lia). cbn [negb Z.eqb] in G. lia. }
  destruct (find_payload_spec (loop_fuel (headers h)) (headers h) ptr (g_head h) l _ _ Hl Ht Hs He
    (fuel_enough _ _ _ _ _ _ Hl Ht)) as [[-> Hno]|(l1 & k & l2 & -> & Hptr & ->)]; cbn [mbind option_bind].
  { rewrite Z.eqb_refl. eexists _, l. split; [reflexivity|]. split; [by apply heap_inv_log|]. right.
    split; [|done]. intros s (k & Hk & _ & [= E _])%elem_of_allocated. rewrite Forall_forall in Hno.
    by apply (Hno k). }
  destruct (tiles_in _ _ _ k Ht) as (Hk1 & Hk2 & Hk3 & Hk4); [apply elem_of_app; right; by left|].
  rewrite (proj2 (Z.eqb_neq _ _)) by (unfold NULL; lia).
  pose proof Hl as Hl'. apply lseg_app in Hl' as (c & Hl1 & Hc). cbn [lseg] in Hc.
  destruct Hc as (-> & n & Hk & Hl2). rewrite Hk. cbn [mbind option_bind is_free].
  destruct (bfree k) eqn:Hf.
  { eexists _, _. split; [reflexivity|]. split; [by apply heap_inv_log|]. right. split; [|done].
    intros s (k' & Hk' & Hf' & [= E _])%elem_of_allocated.
    assert (Hnd := tiles_NoDup _ _ _ Ht). apply list_elem_of_lookup in Hk' as [i Hi].
    assert (Hik : (l1 ++ k :: l2) !! length l1 = Some k) by (apply list_lookup_middle; done).
    assert (i = length l1) as ->; [|congruence].
    apply (NoDup_lookup _ i (length l1) (baddr k) Hnd).
    - rewrite list_lookup_fmap, Hi. simpl. f_equal. lia.
    - by rewrite list_lookup_fmap, Hik. }
  set (k' := Block (baddr k) (bsize k) true).
  set (m0 := <[baddr k := _]> (headers h)).
  apply tiles_app in Ht as Ht'. destruct Ht' as (c & Ht1 & Ht2). cbn [tiles] in Ht2.
  destruct Ht2 as (<- & Hd & Hsz & Ht3).
  assert (Hl0 : lseg m0 (g_head h) (l1 ++ k' :: l2) NULL).
  { apply lseg_app. exists (baddr k). split; [apply lseg_insert; [|done]; apply (tiles_not_in _ _ _ _ Ht1); lia|].
    cbn [lseg k' baddr bsize bfree]. split; [done|]. exists n. split; [apply lookup_insert_eq|].
    apply lseg_insert; [|done]. apply (tiles_not_in _ _ _ _ Ht3). lia. }
  assert (Ht0 : tiles (g_heap_start h) (l1 ++ k' :: l2) (g_heap_end h)).
  { apply tiles_app. exists (baddr k). by split. }
  destruct (merge_next_spec m0 _ l1 k' l2 _ _ Hl0 Ht0 Hs He eq_refl) as (m1 & l3 & E1 & Hl3 & Ht3' & Hal3 & Hne3).
  change (baddr k') with (baddr k) in E1. rewrite E1. cbn [mbind option_bind].
  destruct (l1 ++ l3) as [|x l4] eqn:E3; [done|].
  pose proof (lseg_head _ _ _ _ Hl3) as Hx. simpl in Hx. rewrite Hx in Hl3 |- *.
  destruct (merge_pass_spec (loop_fuel m1) m1 x l4 _ _ Hl3 Ht3' Hs He) as (m2 & E2 & Hl4).
  { pose proof (fuel_enough _ _ _ _ _ _ Hl3 Ht3'). lia. }
  rewrite E2. cbn [mbind option_bind]. apply coalesce_tiles in Ht3'.
  assert (Hal : allocated (l1 ++ k :: l2) ≡ₚ (ptr, bsize k) :: allocated (coalesce x l4)).
  { rewrite coalesce_allocated, Hal3, !allocated_app, !allocated_cons, Hf. cbn [k' bfree app].
    rewrite Hptr. symmetry. apply Permutation_middle. }
  pose proof (total_of_perm _ _ Hal) as Htp. cbn [total_of fold_right snd] in Htp.
  fold (total_of (allocated (coalesce x l4))) in Htp.
  pose proof (total_bounds _ _ _ Ht3') as Hb. pose proof (total_bounds _ _ _ Ht) as Hb0.
  change (hsize _) with (bsize k). rewrite Hused.
  rewrite (proj2 (Z.leb_le _ _)) by lia.
  eexists _, (coalesce x l4). split; [reflexivity|]. split; [|left; by exists (bsize k)].
  unfold heap_inv. cbn [headers g_head g_heap_start g_heap_end g_heap_used_size g_heap_total_size].
  split; [destruct (coalesce_head x l4) as (? & ? & ->); done|].
  split; [congruence|]. split; [done|]. split; [done|]. split; [congruence || (rewrite ?Hx; done)|]. split; [done|].
  split; [apply coalesce_no_adjacent|]. split; [rewrite u64_small by (unfold u64_ok; lia); lia|].
  split; [done|]. rewrite Hal in Hpos. by apply Forall_cons in Hpos as [_ Hpos].
Qed.

(** ** Consequences of the invariant *)

Lemma allocated_NoDup a l b : tiles a l b -> NoDup (map fst (allocated l)).
Proof.
  revert a. induction l as [|k l IH]; intros a; cbn [tiles]; [constructor|].
  intros (Hk & _ & Hs & H). rewrite allocated_cons. destruct (bfree k); [by apply (IH _ H)|].
  cbn [app map fst]. constructor; [|by apply (IH _ H)]. intros Hin.
  apply list_elem_of_In, in_map_iff in Hin as (p & E & Hp). apply list_elem_of_In in Hp.
  apply elem_of_allocated in Hp as (k' & Hk' & _ & ->). cbn [fst] in E.
  pose proof (tiles_in _ _ _ _ H Hk'). lia.
Qed.

(** Two allocations with different addresses share no byte. *)
Lemma allocated_disjoint a l b p s q t x :
  tiles a l b -> (p, s) ∈ allocated l -> (q, t) ∈ allocated l -> p <> q ->
  p <= x < p + s -> q <= x < q + t -> False.
Proof.
  intros Ht (k1 & H1 & _ & [= -> ->])%elem_of_allocated (k2 & H2 & _ & [= -> ->])%elem_of_allocated Hne Hx Hy.
  apply list_elem_of_lookup in H1 as [i Hi]. apply list_elem_of_lookup in H2 as [j Hj].
  destruct (Nat.lt_trichotomy i j) as [?|[->|?]].
  - apply (tiles_disjoint a l b i j k1 k2 x Ht Hi Hj); lia.
  - congruence.
  - apply (tiles_disjoint a l b j i k2 k1 x Ht Hj Hi); lia.
Qed.

Definition free_size (l : list block) : Z := total_of (map (fun k => (baddr k, bsize k)) (List.filter bfree l)).

Lemma sizes_add_up a l b :
  tiles a l b -> total_of (allocated l) + free_size l + 48 * Z.of_nat (length l) = b - a /\ 0 <= free_size l.
Proof.
  revert a. unfold free_size. induction l as [|k l IH]; intros a; cbn [tiles].
  { intros ->. simpl. lia. }
  intros (_ & _ & Hs & H). specialize (IH _ H). rewrite allocated_cons, total_of_app.
  cbn [List.filter length]. destruct (bfree k); cbn [map total_of fold_right snd app];
    fold (total_of (allocated l));
    fold (total_of (map (fun k => (baddr k, bsize k)) (List.filter bfree l))); lia.
Qed.

Lemma free_total_spec fuel m a l s e acc :
  lseg m a l NULL -> tiles s l e -> 16 <= s -> e < 2 ^ 64 -> (length l < fuel)%nat ->
  0 <= acc -> acc + free_size l < 2 ^ 64 ->
  free_total fuel m a acc = Some (acc + free_size l).
Proof.
  revert a l s acc. induction fuel as [|fuel IH]; intros a l s acc Hl Ht Hs He Hf Hacc Hsum; [lia|].
  cbn [free_total]. destruct l as [|k l]; cbn [lseg] in Hl.
  { subst a. rewrite Z.eqb_refl. f_equal. unfold free_size. simpl. lia. }
  destruct Hl as (-> & n & Hk & Hl). destruct Ht as (Hka & Hd & Hsz & Ht).
  rewrite (proj2 (Z.eqb_neq _ _)) by (unfold NULL; lia). rewrite Hk.
  cbn [mbind option_bind is_free hsize next]. cbn [length] in Hf.
  pose proof (sizes_add_up _ _ _ Ht) as [_ Hnn].
  assert (E : free_size (k :: l) = (if bfree k then bsize k else 0) + free_size l).
  { unfold free_size. cbn [List.filter]. by destruct (bfree k). }
  rewrite E in Hsum. destruct (bfree k).
  - rewrite u64_small by (unfold u64_ok; lia). rewrite (IH _ l _ _ Hl Ht) by lia. f_equal. lia.
  - rewrite (IH _ l _ _ Hl Ht) by lia. f_equal. lia.
Qed.

Lemma heap_free_space_spec h l : heap_inv h l -> heap_free_space h = Some (free_size l).
Proof.
  intros (Hne & Hhead & Hs & He & Hl & Ht & _). unfold heap_free_space.
  pose proof (sizes_add_up _ _ _ Ht) as [Hsum Hnn]. pose proof (total_bounds _ _ _ Ht).
  rewrite (free_total_spec _ _ _ l _ _ 0 Hl Ht Hs He); [done|by apply (fuel_enough _ _ _ _ _ _ Hl Ht)|lia|lia].
Qed.

Lemma all_free_single l : allocated l = [] -> no_adjacent_free l -> (length l <= 1)%nat.
Proof.
  destruct l as [|a [|b l]]; cbn [length]; try lia. rewrite !allocated_cons.
  destruct (bfree a) eqn:Fa; [|done]. destruct (bfree b) eqn:Fb; [|done].
  cbn [no_adjacent_free]. rewrite Fa, Fb. by intros _ [? _].
Qed.

(** ** Initialisation and histories *)

Lemma heap_init_spec start n s size h :
  0 < start -> 0 <= n -> start + n < 2 ^ 64 -> heap_region start n = Some (s, size) -> 48 <= size ->
  heap_inv (heap_init start n h) [Block s (size - 48) true].
Proof.
  intros H0 Hn H1 Hr Hsz. unfold heap_init. rewrite Hr, sizeof_is_48.
  assert (Hal : (16 | s) /\ 16 <= s /\ s + size < 2 ^ 64).
  { unfold heap_region in Hr. pose proof (Z.div_mod start 16 ltac:(lia)).
    pose proof (Z.mod_pos_bound start 16 ltac:(lia)).
    destruct (Z.eqb_spec (start mod 16) 0) as [E|E]; cbn [negb] in Hr.
    - injection Hr as <- <-. split; [exists (start / 16); lia|]. lia.
    - destruct (Z.leb_spec n (16 - start mod 16)); [done|]. injection Hr as <- <-.
      rewrite u64_small by (unfold u64_ok; lia). split; [exists (start / 16 + 1); lia|]. lia. }
  destruct Hal as (Hd & Hs & He). rewrite (proj2 (Z.ltb_ge _ _)) by lia.
  unfold heap_inv, heap_log. cbn [headers g_head g_heap_start g_heap_end g_heap_used_size g_heap_total_size].
  rewrite u64_small by (unfold u64_ok; lia).
  split; [done|]. split; [done|]. split; [done|]. split; [lia|]. split.
  { cbn [lseg baddr bsize bfree]. split; [done|]. exists NULL. split; [apply lookup_insert_eq|done]. }
  split; [cbn [tiles baddr bsize]; split_and!; [done|done|lia|lia]|].
  split; [done|]. split; [done|]. split; [lia|constructor].
Qed.

Inductive heap_request := Malloc (n : Z) | Free (ptr : Z).

(** A history of allocator calls; the answers of the allocations, newest first. *)
Fixpoint run_heap (qs : list heap_request) (h : heap) : option (list Z * heap) :=
  match qs with
  | [] => Some ([], h)
  | Malloc n :: qs' => '(p, h1) ← kmalloc n h; '(out, h2) ← run_heap qs' h1; Some (out ++ [p], h2)
  | Free ptr :: qs' => h1 ← kfree ptr h; run_heap qs' h1
  end.

Definition request_u64 (q : heap_request) : Prop :=
  match q with Malloc n => u64_ok n | Free ptr => u64_ok ptr end.

Lemma kmalloc_bounds n h p h' : kmalloc n h = Some (p, h') ->
  g_heap_start h' = g_heap_start h /\ g_heap_end h' = g_heap_end h.
Proof.
  unfold kmalloc. destruct (_ || _); [by intros [= <- <-]|]. destruct (_ <? _); [by intros [= <- <-]|].
  destruct (find_fit _ _ _ _) as [c|]; [|done]. cbn [mbind option_bind]. destruct (c =? NULL); [by intros [= <- <-]|].
  destruct (headers h !! c); [|done]. cbn [mbind option_bind]. destruct (split_block _ _ _ _).
  by intros [= <- <-].
Qed.

Lemma kfree_bounds ptr h h' : kfree ptr h = Some h' ->
  g_heap_start h' = g_heap_start h /\ g_heap_end h' = g_heap_end h.
Proof.
  unfold kfree. destruct (ptr =? NULL); [by intros [= <-]|]. destruct (_ || _); [by intros [= <-]|].
  destruct (find_payload _ _ _ _) as [c|]; [|done]. cbn [mbind option_bind]. destruct (c =? NULL); [by intros [= <-]|].
  destruct (headers h !! c) as [b|]; [|done]. cbn [mbind option_bind]. destruct (is_free b); [by intros [= <-]|].
  destruct (merge_next _ _); [|done]. cbn [mbind option_bind]. destruct (merge_pass _ _ _); [|done].
  cbn [mbind option_bind]. destruct (_ <=? _); by intros [= <-].
Qed.

Lemma run_heap_spec qs h l :
  heap_inv h l -> Forall request_u64 qs ->
  exists out h' l', run_heap qs h = Some (out, h') /\ heap_inv h' l' /\
    g_heap_start h' = g_heap_start h /\ g_heap_end h' = g_heap_end h.
Proof.
  revert h l. induction qs as [|q qs IH]; intros h l Hinv Hq; cbn [run_heap]; [by exists [], h, l|].
  apply Forall_cons in Hq as [Hq Hqs]. destruct q as [n|ptr]; cbn [request_u64] in Hq.
  - destruct (kmalloc_spec h l n Hinv Hq) as (p & h1 & E & H1). rewrite E. cbn [mbind option_bind].
    apply kmalloc_bounds in E as [E1 E2].
    assert (exists l1, heap_inv h1 l1) as [l1 Hinv1]
      by (destruct H1 as [(_ & _ & ? & _)|(l1 & _ & ? & _)]; by eexists).
    destruct (IH h1 l1 Hinv1 Hqs) as (out & h' & l' & -> & ? & ? & ?). cbn [mbind option_bind].
    exists (out ++ [p]), h', l'. split; [done|]. split; [done|]. split; congruence.
  - destruct (kfree_spec h l ptr Hinv) as (h1 & l1 & E & Hinv1 & _). rewrite E. cbn [mbind option_bind].
    apply kfree_bounds in E as [E1 E2].
    destruct (IH h1 l1 Hinv1 Hqs) as (out & h' & l' & -> & ? & ? & ?).
    exists out, h', l'. split; [done|]. split; [done|]. split; congruence.
Qed.

(** ** Claims *)

(** on a sound heap [kmalloc] ends, stays on its headers and keeps the
    heap sound.  Either it returns a 16-byte aligned payload of at least the
    requested size, inside the heap, that shares no byte with any live
    allocation, all of which are untouched; or it returns NULL, changes no
    block, and (for a request that can be rounded up) no free block would have
    fitted. *)
Theorem kmalloc_sound h l n :
  heap_inv h l -> u64_ok n ->
  exists p h', kmalloc n h = Some (p, h') /\
  ((p = NULL /\ headers h' = headers h /\ heap_inv h' l /\
    (0 < n <= SIZE_MAX - 15 -> Forall (fun k => bfree k = true -> bsize k < align_request n) l)) \/
   (exists l' size, heap_inv h' l' /\ allocated l' ≡ₚ (p, size) :: allocated l /\ 0 < n <= size /\
      (16 | p) /\ g_heap_start h <= p /\ p + size <= g_heap_end h /\
      (forall q t x, (q, t) ∈ allocated l -> p <= x < p + size -> q <= x < q + t -> False))).
Proof.
  intros Hinv Hn. destruct (kmalloc_spec h l n Hinv Hn) as (p & h' & E & H). exists p, h'.
  split; [done|]. destruct H as [H|(l' & size & Hinv' & Hperm & Hsz)]; [by left|right].
  exists l', size. split; [done|]. split; [done|]. split; [done|].
  apply kmalloc_bounds in E as [E1 E2]. rewrite <- E1, <- E2.
  pose proof Hinv' as (_ & _ & _ & _ & _ & Ht & _).
  assert (Hin : (p, size) ∈ allocated l') by (rewrite Hperm; by left).
  pose proof Hin as (k & Hk & _ & [= -> ->])%elem_of_allocated.
  destruct (tiles_in _ _ _ _ Ht Hk) as (? & ? & ? & [c Hc]).
  split; [exists (c + 3); lia|]. split; [lia|]. split; [lia|].
  intros q t x Hq. apply (allocated_disjoint _ _ _ _ _ _ _ x Ht Hin); [rewrite Hperm; by right|].
  intros <-. pose proof (allocated_NoDup _ _ _ Ht) as Hnd.
  apply (Permutation_map fst) in Hperm. rewrite Hperm in Hnd. cbn [map fst] in Hnd.
  apply NoDup_cons in Hnd as [Hni _]. apply Hni. apply list_elem_of_In, in_map_iff.
  exists (baddr k + 48, t). split; [done|]. by apply list_elem_of_In.
Qed.

Definition sample_heap : heap := heap_init 0x100008 1000 (Heap ∅ 0 0 0 0 0 syslog_boot).

Lemma sample_heap_inv : heap_inv sample_heap [Block 0x100010 944 true].
Proof. apply (heap_init_spec 0x100008 1000 0x100010 992); [lia|lia|lia|by vm_compute|lia]. Defined.

Lemma kmalloc_sound_witness :
  exists p h' l', kmalloc 100 sample_heap = Some (p, h') /\ heap_inv h' l'.
Proof.
  destruct (kmalloc_sound sample_heap _ 100 sample_heap_inv ltac:(split; lia)) as (p & h' & E & H).
  destruct H as [(_ & _ & Hi & _)|(l' & size & Hi & _)]; by eexists p, h', _.
Defined.

(** on a sound heap [kfree] of any pointer whatsoever ends, stays on its
    headers and keeps the heap sound.  A pointer to a live allocation releases
    exactly that allocation; any other pointer, a stale or interior one
    included, changes no block. *)
Theorem kfree_sound h l ptr :
  heap_inv h l ->
  exists h' l', kfree ptr h = Some h' /\ heap_inv h' l' /\
  ((exists s, allocated l ≡ₚ (ptr, s) :: allocated l') \/
   ((forall s, (ptr, s) ∉ allocated l) /\ l' = l /\ headers h' = headers h)).
Proof. apply kfree_spec. Qed.

Lemma kfree_sound_witness :
  exists h' l', kfree 0x100040 sample_heap = Some h' /\ heap_inv h' l'.
Proof.
  destruct (kfree_sound sample_heap _ 0x100040 sample_heap_inv) as (h' & l' & E & Hi & _).
  by exists h', l'.
Defined.

(** C40: after [heap_init] on a region that leaves room for a header, any
    history of [kmalloc] and [kfree] calls with any arguments ends without
    leaving the headers, in a sound heap over the same region: used bytes, free
    bytes and 48 bytes of header per block add up to it, the counters report
    them exactly, and once nothing is allocated the heap is a single free block
    again. *)
Theorem heap_histories_sound start n s size h qs :
  0 < start -> 0 <= n -> start + n < 2 ^ 64 -> heap_region start n = Some (s, size) -> 48 <= size ->
  Forall request_u64 qs ->
  exists out h' l, run_heap qs (heap_init start n h) = Some (out, h') /\ heap_inv h' l /\
    heap_used_space h' = total_of (allocated l) /\ heap_free_space h' = Some (free_size l) /\
    total_of (allocated l) + free_size l + 48 * Z.of_nat (length l) = size /\
    (allocated l = [] -> l = [Block s (size - 48) true]).
Proof.
  intros H0 Hn H1 Hr Hsz Hqs. pose proof (heap_init_spec start n s size h H0 Hn H1 Hr Hsz) as Hinv.
  destruct (run_heap_spec qs _ _ Hinv Hqs) as (out & h' & l & E & Hinv' & Es & Ee).
  exists out, h', l. split; [done|]. split; [done|].
  pose proof Hinv' as (Hne & _ & _ & _ & _ & Ht & Hna & Hused & _).
  destruct Hinv as (_ & Hhead & _ & _ & _ & Ht0 & _). cbn [tiles baddr bsize] in Ht0.
  destruct Ht0 as (Hb & _ & _ & Hend). rewrite Es, Ee in Ht. rewrite <- Hb, <- Hend, <- Hb in Ht.
  pose proof (sizes_add_up _ _ _ Ht) as [Hsum _].
  split; [done|]. split; [by apply heap_free_space_spec|]. split; [lia|].
  intros Hnil. pose proof (all_free_single l Hnil Hna) as Hlen.
  destruct l as [|[a z f] [|? ?]]; [done| |cbn [length] in Hlen; lia].
  cbn [tiles baddr bsize] in Ht. destruct Ht as (-> & _ & _ & Hz).
  unfold allocated in Hnil. cbn [List.filter] in Hnil. destruct f; [|done].
  repeat f_equal. lia.
Qed.

Lemma heap_histories_sound_witness :
  exists out h', run_heap [Malloc 100; Malloc 7; Free 0x100040; Free 0x100041; Free 0x100040] sample_heap = Some (out, h') /\
    heap_used_space h' = 16.
Proof.
  destruct (heap_histories_sound 0x100008 1000 0x100010 992 (Heap ∅ 0 0 0 0 0 syslog_boot)
    [Malloc 100; Malloc 7; Free 0x100040; Free 0x100041; Free 0x100040])
    as (out & h' & l & E & _); [lia|lia|lia|by vm_compute|lia|repeat constructor; lia|].
  exists out, h'. split; [exact E|]. fold sample_heap in E.
  assert (E' : Some 16 = option_map (fun x => heap_used_space x.2) (Some (out, h')))
    by (rewrite <- E; by vm_compute).
  by injection E'.
Defined.
