(* ===== verification/IrqRegistry.v ===== *)
(** * kernel/irq_registry.c: shared interrupt lines

    A slot is a pair of a handler and its context, both addresses; the handler
    0 is NULL.  A registry is 16 lines of 4 slots, [None] a null registry
    pointer.  What a handler does when it is called, to the registry or to the
    rest of the machine, is the argument [call] of the dispatcher. *)

From S2P Require Import Prelude.

Definition IRQ_REGISTRY_LINE_COUNT : Z := 16.
Definition IRQ_REGISTRY_HANDLERS_PER_LINE : nat := 4.
#[global] Arguments IRQ_REGISTRY_HANDLERS_PER_LINE : simpl never.

Record irq_registry_slot := IrqSlot { handler : Z; context : Z }.

#[export] Instance irq_registry_slot_eq : EqDecision irq_registry_slot.
Proof. solve_decision. Defined.

Abbreviation irq_line := (list irq_registry_slot).
Abbreviation irq_registry := (list (list irq_registry_slot)).

Definition empty_slot : irq_registry_slot := IrqSlot 0 0.

Definition irq_registry_init (registry : option irq_registry) : option irq_registry :=
  option_map (map (map (fun _ => empty_slot))) registry.

Definition line_of (registry : irq_registry) (irq : Z) : irq_line :=
  default [] (registry !! Z.to_nat irq).

Definition set_line (registry : irq_registry) (irq : Z) (line : irq_line) : irq_registry :=
  <[Z.to_nat irq := line]> registry.

(** The loop of [irq_registry_register] from [slot] on: [None] when the pair is
    there already, otherwise the first free slot. *)
Fixpoint register_scan (line : irq_line) (slot free_slot : nat) (h c : Z) : option nat :=
  match line with
  | [] => Some free_slot
  | entry :: line' =>
      if (handler entry =? h) && (context entry =? c) then None
      else
        let free_slot' :=
          if (handler entry =? 0) && (free_slot =? IRQ_REGISTRY_HANDLERS_PER_LINE)%nat
          then slot else free_slot in
        register_scan line' (S slot) free_slot' h c
  end.

Definition irq_registry_register (registry : option irq_registry) (irq h c : Z)
    : bool * option irq_registry :=
  match registry with
  | None => (false, None)
  | Some r =>
      if (IRQ_REGISTRY_LINE_COUNT <=? irq) || (h =? 0) then (false, Some r)
      else
        match register_scan (line_of r irq) 0 IRQ_REGISTRY_HANDLERS_PER_LINE h c with
        | None => (true, Some r)
        | Some free_slot =>
            if (free_slot =? IRQ_REGISTRY_HANDLERS_PER_LINE)%nat then (false, Some r)
            else (true, Some (set_line r irq (<[free_slot := IrqSlot h c]> (line_of r irq))))
        end
  end.

(** The loop of [irq_registry_unregister]: the slot that holds the pair. *)
Fixpoint unregister_scan (line : irq_line) (slot : nat) (h c : Z) : option nat :=
  match line with
  | [] => None
  | entry :: line' =>
      if negb (handler entry =? h) || negb (context entry =? c) then unregister_scan line' (S slot) h c
      else Some slot
  end.

Definition irq_registry_unregister (registry : option irq_registry) (irq h c : Z)
    : bool * option irq_registry :=
  match registry with
  | None => (false, None)
  | Some r =>
      if (IRQ_REGISTRY_LINE_COUNT <=? irq) || (h =? 0) then (false, Some r)
      else
        match unregister_scan (line_of r irq) 0 h c with
        | None => (false, Some r)
        | Some slot => (true, Some (set_line r irq (<[slot := empty_slot]> (line_of r irq))))
        end
  end.

Section dispatch.
Context {W : Type} (call : Z -> Z -> Z -> irq_registry * W -> bool * (irq_registry * W)).

(** The dispatch loop with [n] slots left, the next one [slot]. *)
Fixpoint dispatch_loop (n slot : nat) (irq : Z) (claimed : bool) (s : irq_registry * W)
    : bool * (irq_registry * W) :=
  match n with
  | O => (claimed, s)
  | S n' =>
      let entry := default empty_slot (line_of s.1 irq !! slot) in
      if negb (handler entry =? 0) then
        let '(r, s') := call (handler entry) irq (context entry) s in
        dispatch_loop n' (S slot) irq (if r then true else claimed) s'
      else dispatch_loop n' (S slot) irq claimed s
  end.

Definition irq_registry_dispatch (irq : Z) (s : option irq_registry * W)
    : bool * (option irq_registry * W) :=
  match s with
  | (None, w) => (false, (None, w))
  | (Some r, w) =>
      if IRQ_REGISTRY_LINE_COUNT <=? irq then (false, (Some r, w))
      else
        let '(claimed, (r', w')) :=
          dispatch_loop IRQ_REGISTRY_HANDLERS_PER_LINE 0 irq false (r, w) in
        (claimed, (Some r', w'))
  end.
End dispatch.

Definition irq_registry_count (registry : option irq_registry) (irq : Z) : nat :=
  match registry with
  | None => O
  | Some r =>
      if IRQ_REGISTRY_LINE_COUNT <=? irq then O
      else length (List.filter (fun entry => negb (handler entry =? 0)) (line_of r irq))
  end.

(** ** Specification *)

(** The handlers of a line, in slot order. *)
Definition handlers (line : irq_line) : list irq_registry_slot :=
  List.filter (fun entry => negb (handler entry =? 0)) line.

Definition registry_ok (r : irq_registry) : Prop :=
  length r = 16%nat /\
  Forall (fun line => length line = IRQ_REGISTRY_HANDLERS_PER_LINE /\ NoDup (handlers line)) r.

(** Handlers that answer by [claims] and remove themselves by [leaves]; the
    world is the list of the calls made. *)
Definition self_removing (claims leaves : irq_registry_slot -> bool) (h irq c : Z)
    (s : irq_registry * list irq_registry_slot) : bool * (irq_registry * list irq_registry_slot) :=
  let entry := IrqSlot h c in
  let r := if leaves entry then default s.1 (irq_registry_unregister (Some s.1) irq h c).2 else s.1 in
  (claims entry, (r, s.2 ++ [entry])).

(** ** Lemmas *)

Lemma handlers_app l1 l2 : handlers (l1 ++ l2) = handlers l1 ++ handlers l2.
Proof. apply List.filter_app. Qed.

Lemma handlers_cons e l : handlers (e :: l) = (if handler e =? 0 then [] else [e]) ++ handlers l.
Proof. unfold handlers. cbn [List.filter]. by destruct (handler e =? 0). Qed.

Lemma elem_of_handlers l e : e ∈ handlers l <-> e ∈ l /\ handler e <> 0.
Proof.
  unfold handlers. rewrite !list_elem_of_In, filter_In, negb_true_iff, Z.eqb_neq. done.
Qed.

Lemma slot_eta e h c : handler e = h -> context e = c -> e = IrqSlot h c.
Proof. destruct e. simpl. congruence. Qed.

Lemma register_scan_spec (line : list irq_registry_slot) slot h c :
  match register_scan line slot 4 h c with
  | None => IrqSlot h c ∈ line
  | Some free => (IrqSlot h c ∉ line) /\
      (free = 4%nat /\ (forall i e, line !! i = Some e -> (slot + i)%nat <> 4%nat -> handler e <> 0) \/
       exists i, free = (slot + i)%nat /\ exists e, line !! i = Some e /\ handler e = 0)
  end.
Proof.
  assert (Hfound : forall line slot free, free <> 4%nat ->
            match register_scan line slot free h c with
            | None => IrqSlot h c ∈ line
            | Some f => f = free /\ IrqSlot h c ∉ line
            end).
  { clear. induction line as [|e line IH]; intros slot free Hf; cbn [register_scan].
    { split; [done|apply not_elem_of_nil]. }
    destruct ((handler e =? h) && (context e =? c)) eqn:C.
    - bdestr_hyps. apply elem_of_cons. left. symmetry. by apply slot_eta.
    - rewrite (proj2 (Nat.eqb_neq free IRQ_REGISTRY_HANDLERS_PER_LINE)) by done. rewrite andb_false_r.
      specialize (IH (S slot) free Hf). destruct (register_scan _ _ _ _ _) as [f|]; [|by right].
      destruct IH as [-> Hni]. split; [done|]. rewrite not_elem_of_cons. split; [|done].
      intros <-. simpl in C. by rewrite !Z.eqb_refl in C. }
  revert slot. induction line as [|e line IH]; intros slot; cbn [register_scan].
  { split; [apply not_elem_of_nil|]. left. split; [done|]. intros i e He. discriminate He. }
  destruct ((handler e =? h) && (context e =? c)) eqn:C.
  { bdestr_hyps. apply elem_of_cons. left. symmetry. by apply slot_eta. }
  assert (Hne : IrqSlot h c <> e) by (intros <-; simpl in C; by rewrite !Z.eqb_refl in C).
  destruct (Z.eqb_spec (handler e) 0) as [Hz|Hz]; cbn [andb].
  - change (4 =? IRQ_REGISTRY_HANDLERS_PER_LINE)%nat with true. cbv iota.
    destruct (Nat.eq_dec slot 4%nat) as [->|Hs].
    + specialize (IH 5%nat). destruct (register_scan line 5%nat 4%nat h c) as [f|]; [|by right].
      destruct IH as [Hni Hf]. split; [rewrite not_elem_of_cons; done|].
      destruct Hf as [[-> Hall]|(i & -> & x & Hx & Hx0)].
      * left. split; [done|]. intros [|i] x; cbn [lookup list_lookup]; [lia|].
        intros Hx _. apply (Hall i x Hx). lia.
      * right. exists (S i). split; [lia|]. by exists x.
    + pose proof (Hfound line (S slot) slot Hs) as Hr.
      destruct (register_scan line (S slot) slot h c) as [f|]; [|by right].
      destruct Hr as [-> Hni]. split; [rewrite not_elem_of_cons; done|].
      right. exists O. split; [lia|]. by exists e.
  - specialize (IH (S slot)). destruct (register_scan line (S slot) 4%nat h c) as [f|]; [|by right].
    destruct IH as [Hni Hf]. split; [rewrite not_elem_of_cons; done|].
    destruct Hf as [[-> Hall]|(i & -> & x & Hx & Hx0)].
    + left. split; [done|]. intros [|i] x; [by intros [= <-]|]. intros Hx Hs. apply (Hall i x Hx). lia.
    + right. exists (S i). split; [lia|]. by exists x.
Qed.

Lemma unregister_scan_spec (line : list irq_registry_slot) slot h c :
  match unregister_scan line slot h c with
  | None => IrqSlot h c ∉ line
  | Some k => exists i, k = (slot + i)%nat /\ line !! i = Some (IrqSlot h c)
  end.
Proof.
  revert slot. induction line as [|e line IH]; intros slot; cbn [unregister_scan]; [apply not_elem_of_nil|].
  destruct (negb (handler e =? h) || negb (context e =? c)) eqn:C.
  - specialize (IH (S slot)). destruct (unregister_scan line (S slot) h c) as [k|].
    + destruct IH as (i & -> & Hi). exists (S i). split; [lia|done].
    + rewrite not_elem_of_cons. split; [|done]. intros <-. simpl in C. by rewrite !Z.eqb_refl in C.
  - bdestr_hyps. exists O. split; [lia|]. simpl. f_equal. by apply slot_eta.
Qed.

Lemma line_of_ok r irq : registry_ok r -> 0 <= irq < 16 ->
  length (line_of r irq) = IRQ_REGISTRY_HANDLERS_PER_LINE /\ NoDup (handlers (line_of r irq)).
Proof.
  intros [Hl HF] Hi. unfold line_of. destruct (r !! Z.to_nat irq) as [line|] eqn:E.
  - rewrite Forall_forall in HF. by apply HF, list_elem_of_lookup_2 with (Z.to_nat irq).
  - apply lookup_ge_None in E. lia.
Qed.

Lemma line_of_set r irq line irq' : registry_ok r -> 0 <= irq < 16 -> 0 <= irq' ->
  line_of (set_line r irq line) irq' = if irq' =? irq then line else line_of r irq'.
Proof.
  intros [Hl _] Hi Hi'. unfold line_of, set_line. destruct (Z.eqb_spec irq' irq) as [->|Hne].
  - by rewrite list_lookup_insert_eq by lia.
  - rewrite list_lookup_insert_ne by lia. done.
Qed.

Lemma set_line_ok r irq line : registry_ok r ->
  length line = IRQ_REGISTRY_HANDLERS_PER_LINE -> NoDup (handlers line) -> registry_ok (set_line r irq line).
Proof.
  intros [Hl HF] Hll Hnd. split; [unfold set_line; by rewrite length_insert|].
  unfold set_line. by apply Forall_insert.
Qed.

(** Replacing slot [i] of a line, seen on its handlers. *)
Lemma handlers_insert (line : list irq_registry_slot) i e e' :
  line !! i = Some e ->
  exists a b, line = a ++ e :: b /\ length a = i /\ <[i := e']> line = a ++ e' :: b.
Proof.
  intros He. exists (take i line), (drop (S i) line). pose proof (lookup_lt_Some _ _ _ He).
  split; [by rewrite take_drop_middle|]. split; [rewrite length_take; lia|].
  apply insert_take_drop. lia.
Qed.

Lemma handlers_one e : handler e <> 0 -> handlers [e] = [e].
Proof. intros H. unfold handlers. cbn [List.filter]. by rewrite (proj2 (Z.eqb_neq _ _)). Qed.

Lemma handlers_none e : handler e = 0 -> handlers [e] = [].
Proof. intros H. unfold handlers. cbn [List.filter]. by rewrite H. Qed.

Lemma handlers_cons_app e l : handlers (e :: l) = handlers [e] ++ handlers l.
Proof. apply (handlers_app [e] l). Qed.

Lemma register_cases r irq h c :
  registry_ok r -> 0 <= irq < 16 -> h <> 0 ->
  ((IrqSlot h c ∈ line_of r irq) /\ irq_registry_register (Some r) irq h c = (true, Some r)) \/
  ((IrqSlot h c ∉ line_of r irq) /\ length (handlers (line_of r irq)) = 4%nat /\
     irq_registry_register (Some r) irq h c = (false, Some r)) \/
  ((IrqSlot h c ∉ line_of r irq) /\ exists a e b, line_of r irq = a ++ e :: b /\ handler e = 0 /\
     irq_registry_register (Some r) irq h c =
       (true, Some (set_line r irq (a ++ IrqSlot h c :: b)))).
Proof.
  intros Hr Hi Hh. unfold irq_registry_register, IRQ_REGISTRY_LINE_COUNT.
  rewrite (proj2 (Z.leb_gt _ _)), (proj2 (Z.eqb_neq _ _)) by lia. cbn [orb].
  destruct (line_of_ok r irq Hr Hi) as [Hlen _]. change IRQ_REGISTRY_HANDLERS_PER_LINE with 4%nat in *.
  pose proof (register_scan_spec (line_of r irq) 0 h c) as Hs.
  destruct (register_scan _ _ _ _ _) as [f|]; [|by left]. right.
  destruct Hs as [Hni [[-> Hall]|(i & -> & e & He & Hz)]].
  - left. split; [done|]. split; [|done]. rewrite <- Hlen. f_equal. apply forallb_filter_id.
    apply forallb_forall. intros e He. apply list_elem_of_In, list_elem_of_lookup in He as [i He].
    pose proof (lookup_lt_Some _ _ _ He). apply negb_true_iff, Z.eqb_neq. apply (Hall i e He). lia.
  - right. split; [done|]. pose proof (lookup_lt_Some _ _ _ He).
    rewrite (proj2 (Nat.eqb_neq _ _)) by lia. cbn [Nat.add].
    destruct (handlers_insert _ _ _ (IrqSlot h c) He) as (a & b & E & _ & ->).
    by exists a, e, b.
Qed.

(** ** Dispatch with self-removing handlers *)

(** What a line looks like after the slots of [todo] have been visited. *)
Definition visited (leaves : irq_registry_slot -> bool) (todo : list irq_registry_slot) :=
  map (fun e => if negb (handler e =? 0) && leaves e then empty_slot else e) todo.

Lemma visited_handlers leaves l :
  handlers (visited leaves l) = List.filter (fun e => negb (leaves e)) (handlers l).
Proof.
  induction l as [|e l IH]; [done|]. unfold visited in *. cbn [map].
  rewrite (handlers_cons_app e l), List.filter_app, <- IH, handlers_cons_app. f_equal.
  destruct (Z.eqb_spec (handler e) 0) as [Hz|Hz]; cbn [negb andb].
  - by rewrite handlers_none.
  - rewrite (handlers_one e Hz). cbn [List.filter]. destruct (leaves e); [done|].
    by rewrite handlers_one.
Qed.

Lemma unregister_at r irq a e b :
  registry_ok r -> 0 <= irq < 16 -> line_of r irq = a ++ e :: b -> handler e <> 0 -> e ∉ a ->
  irq_registry_unregister (Some r) irq (handler e) (context e) =
    (true, Some (set_line r irq (a ++ empty_slot :: b))).
Proof.
  intros Hr Hi E Hh Hni. unfold irq_registry_unregister, IRQ_REGISTRY_LINE_COUNT.
  rewrite (proj2 (Z.leb_gt _ _)), (proj2 (Z.eqb_neq _ _)) by lia. cbn [orb]. rewrite E.
  assert (Hs : forall slot, unregister_scan (a ++ e :: b) slot (handler e) (context e) =
            Some (slot + length a)%nat).
  { clear E. induction a as [|x a IH]; intros slot; cbn [app unregister_scan length].
    - rewrite !Z.eqb_refl. cbn [negb orb]. f_equal. lia.
    - apply not_elem_of_cons in Hni as [Hx Hni].
      destruct (negb (handler x =? handler e) || negb (context x =? context e)) eqn:C.
      + rewrite (IH Hni). f_equal. lia.
      + bdestr_hyps. exfalso. apply Hx. destruct e, x. simpl in *. congruence. }
  rewrite (Hs O). cbn [Nat.add]. do 3 f_equal.
  rewrite insert_app_r_alt by lia. by rewrite Nat.sub_diag.
Qed.

Section self_removing.
Context (claims leaves : irq_registry_slot -> bool) (irq : Z) (Hirq : 0 <= irq < 16).

(** The loop with the slots [done_] visited and [todo] left. *)
Lemma dispatch_loop_spec (todo done_ : list irq_registry_slot) claimed r log :
  registry_ok r -> line_of r irq = visited leaves done_ ++ todo ->
  NoDup (handlers (done_ ++ todo)) ->
  exists r', dispatch_loop (self_removing claims leaves) (length todo) (length done_) irq claimed (r, log) =
    (claimed || existsb claims (handlers todo), (r', log ++ handlers todo)) /\
    registry_ok r' /\ line_of r' irq = visited leaves (done_ ++ todo) /\
    (forall irq', 0 <= irq' -> irq' <> irq -> line_of r' irq' = line_of r irq').
Proof.
  revert done_ claimed r log. induction todo as [|e todo IH]; intros done_ claimed r log Hr E Hnd.
  { exists r. cbn [length dispatch_loop handlers List.filter existsb].
    rewrite orb_false_r, !app_nil_r in *. by split_and!. }
  cbn [length dispatch_loop fst].
  assert (Hlen : length (visited leaves done_) = length done_) by apply length_map.
  assert (He : line_of r irq !! length done_ = Some e)
    by (rewrite E, lookup_app_r, Hlen, Nat.sub_diag by lia; done).
  rewrite He. cbn [from_option id].
  replace (done_ ++ e :: todo) with ((done_ ++ [e]) ++ todo) in * by (by rewrite <- app_assoc).
  replace (S (length done_)) with (length (done_ ++ [e])) by (rewrite length_app; simpl; lia).
  rewrite (handlers_cons_app e todo).
  assert (Hvis : visited leaves (done_ ++ [e]) = visited leaves done_ ++ visited leaves [e])
    by apply map_app.
  destruct (Z.eqb_spec (handler e) 0) as [Hz|Hz]; cbn [negb].
  - rewrite (handlers_none e Hz). cbn [app]. apply IH; try done.
    assert (Hve : visited leaves [e] = [e]) by (unfold visited; cbn [map]; by rewrite Hz).
    by rewrite Hvis, Hve, E, <- app_assoc.
  - rewrite (handlers_one e Hz). unfold self_removing at 1. cbn [fst snd].
    replace (IrqSlot (handler e) (context e)) with e by (by destruct e).
    assert (Hni : e ∉ visited leaves done_).
    { intros Hin. rewrite !handlers_app, (handlers_one e Hz) in Hnd.
      apply NoDup_app in Hnd as [Hnd _]. apply NoDup_app in Hnd as (_ & Hdis & _).
      apply (Hdis e); [|by apply list_elem_of_singleton].
      assert (Hh : e ∈ handlers (visited leaves done_)) by (by apply elem_of_handlers).
      rewrite visited_handlers in Hh. apply list_elem_of_In, filter_In in Hh as [Hh _].
      by apply list_elem_of_In. }
    set (r1 := if leaves e then _ else r).
    assert (Hr1 : registry_ok r1 /\ line_of r1 irq = visited leaves (done_ ++ [e]) ++ todo /\
              forall irq', 0 <= irq' -> irq' <> irq -> line_of r1 irq' = line_of r irq').
    { assert (Hve : visited leaves [e] = [if leaves e then empty_slot else e])
        by (unfold visited; cbn [map]; by rewrite (proj2 (Z.eqb_neq _ _) Hz)).
      rewrite Hvis, Hve, <- app_assoc. unfold r1. cbn [app].
      destruct (leaves e); [|by split].
      rewrite (unregister_at r irq _ e todo Hr Hirq E Hz Hni). cbn [snd from_option id].
      destruct (line_of_ok r irq Hr Hirq) as [Hll Hln]. rewrite E in Hll, Hln.
      split; [apply set_line_ok; [done| |]|split].
      - rewrite <- Hll, !length_app. done.
      - rewrite handlers_app, (handlers_cons_app empty_slot). rewrite handlers_app, (handlers_cons_app e) in Hln.
        rewrite (handlers_one e Hz) in Hln. change (handlers [empty_slot]) with (@nil irq_registry_slot).
        apply NoDup_app in Hln as (H1 & H2 & H3). apply NoDup_app. split; [done|].
        split; [|by apply NoDup_cons in H3 as [_ ?]]. intros x Hx1 Hx2. apply (H2 x Hx1). by right.
      - rewrite line_of_set by (done || lia). by rewrite Z.eqb_refl.
      - intros irq' H0 Hne. rewrite line_of_set by (done || lia). by rewrite (proj2 (Z.eqb_neq _ _)). }
    destruct Hr1 as (Hok1 & E1 & Hother1).
    destruct (IH (done_ ++ [e]) (if claims e then true else claimed) r1 (log ++ [e]) Hok1 E1 Hnd)
      as (r' & -> & Hok' & E' & Hother').
    exists r'. split; [|split; [done|split; [done|]]].
    + cbn [app existsb]. rewrite <- (app_assoc log). cbn [app]. f_equal. by destruct (claims e), claimed.
    + intros irq' H0 Hne. by rewrite Hother', Hother1.
Qed.
End self_removing.

Lemma handlers_replace_NoDup (a b : list irq_registry_slot) e e' :
  handler e = 0 -> e' ∉ a ++ e :: b -> NoDup (handlers (a ++ e :: b)) -> NoDup (handlers (a ++ e' :: b)).
Proof.
  intros Hz Hni. rewrite !handlers_app, (handlers_cons_app e), (handlers_cons_app e'), (handlers_none e Hz).
  rewrite not_elem_of_app, not_elem_of_cons in Hni. destruct Hni as (Ha & _ & Hb). cbn [app].
  intros (H1 & H2 & H3)%NoDup_app. apply NoDup_app. split; [done|].
  destruct (Z.eqb_spec (handler e') 0) as [Hz'|Hz']; [by rewrite (handlers_none e' Hz')|].
  rewrite (handlers_one e' Hz'). split.
  - intros x Hx [->|Hx']%elem_of_cons; [|by apply (H2 x)]. apply elem_of_handlers in Hx as [? _]. done.
  - cbn [app]. constructor; [|done]. intros [? _]%elem_of_handlers. done.
Qed.

(** ** Claims *)

(** A line is a bounded set of (handler, context) pairs.  Registering a
    non-null handler succeeds exactly when the pair is there or one of the four
    slots is free, and then adds just that pair; unregistering succeeds exactly
    when the pair is there, and removes just that pair.  Both keep the lines
    free of duplicates and leave the other lines alone. *)
Theorem irq_registry_set_semantics r irq h c :
  registry_ok r -> 0 <= irq < 16 -> h <> 0 ->
  (exists ok r', irq_registry_register (Some r) irq h c = (ok, Some r') /\ registry_ok r' /\
     (ok = true <-> IrqSlot h c ∈ line_of r irq \/ (irq_registry_count (Some r) irq < 4)%nat) /\
     (forall e, e ∈ handlers (line_of r' irq) <->
        e ∈ handlers (line_of r irq) \/ (ok = true /\ e = IrqSlot h c)) /\
     (forall irq', 0 <= irq' -> irq' <> irq -> line_of r' irq' = line_of r irq')) /\
  (exists ok r', irq_registry_unregister (Some r) irq h c = (ok, Some r') /\ registry_ok r' /\
     (ok = true <-> IrqSlot h c ∈ line_of r irq) /\
     (forall e, e ∈ handlers (line_of r' irq) <-> e ∈ handlers (line_of r irq) /\ e <> IrqSlot h c) /\
     (forall irq', 0 <= irq' -> irq' <> irq -> line_of r' irq' = line_of r irq')).
Proof.
  intros Hr Hi Hh. destruct (line_of_ok r irq Hr Hi) as [Hlen Hnd].
  assert (Hcount : irq_registry_count (Some r) irq = length (handlers (line_of r irq))).
  { unfold irq_registry_count, IRQ_REGISTRY_LINE_COUNT. by rewrite (proj2 (Z.leb_gt _ _)) by lia. }
  rewrite Hcount. split.
  - destruct (register_cases r irq h c Hr Hi Hh) as [[Hin ->]|[(Hni & Hfull & ->)|(Hni & a & e & b & E & Hz & ->)]].
    + exists true, r. split; [done|]. split; [done|]. split; [by split; [left|]|]. split; [|done].
      intros x. split; [by left|]. intros [?|[_ ->]]; [done|]. by apply elem_of_handlers.
    + exists false, r. split; [done|]. split; [done|]. split; [split; [done|intros [?|?]; [done|lia]]|].
      split; [|done]. intros x. split; [by left|]. by intros [?|[? _]].
    + exists true, (set_line r irq (a ++ IrqSlot h c :: b)). rewrite E in *. split; [done|].
      split; [apply set_line_ok; [done| |]|split; [|split]].
      * rewrite <- Hlen, !length_app. done.
      * by apply (handlers_replace_NoDup a b e).
      * split; [|done]. intros _. right. rewrite handlers_app, (handlers_cons_app e), (handlers_none e Hz).
        cbn [app]. rewrite length_app in *. cbn [length] in Hlen. unfold IRQ_REGISTRY_HANDLERS_PER_LINE in Hlen.
        pose proof (List.filter_length_le (fun e => negb (handler e =? 0)) a).
        pose proof (List.filter_length_le (fun e => negb (handler e =? 0)) b). unfold handlers. lia.
      * intros x. rewrite line_of_set by (done || lia). rewrite Z.eqb_refl.
        rewrite !elem_of_handlers, !elem_of_app, !elem_of_cons. split.
        -- intros [[?|[->|?]] ?]; [left; split; [by left|done]|by right|left; split; [by right; right|done]].
        -- intros [[[?|[->|?]] ?]|[_ ->]]; [split; [by left|done]|done|split; [by right; right|done]|].
           split; [by right; left|done].
      * intros irq' H0 Hne. rewrite line_of_set by (done || lia). by rewrite (proj2 (Z.eqb_neq _ _)).
  - unfold irq_registry_unregister, IRQ_REGISTRY_LINE_COUNT.
    rewrite (proj2 (Z.leb_gt _ _)), (proj2 (Z.eqb_neq _ _)) by lia. cbn [orb].
    pose proof (unregister_scan_spec (line_of r irq) 0 h c) as Hs.
    destruct (unregister_scan _ _ _ _) as [k|].
    + destruct Hs as (i & -> & He). cbn [Nat.add].
      destruct (handlers_insert _ _ _ empty_slot He) as (a & b & E & Hla & ->).
      exists true, (set_line r irq (a ++ empty_slot :: b)). split; [done|]. rewrite E in *.
      rewrite handlers_app, (handlers_cons_app (IrqSlot h c)), (handlers_one (IrqSlot h c) Hh) in Hnd.
      apply NoDup_app in Hnd as (H1 & H2 & H3). cbn [app] in *. apply NoDup_cons in H3 as [H3 H4].
      split; [apply set_line_ok; [done| |]|split; [|split]].
      * rewrite <- Hlen, !length_app. done.
      * rewrite handlers_app, (handlers_cons_app empty_slot). apply NoDup_app. split; [done|].
        split; [|done]. intros x Hx Hx'. apply (H2 x Hx). by right.
      * split; [|done]. intros _. apply elem_of_app. right. by left.
      * intros x. rewrite line_of_set by (done || lia). rewrite Z.eqb_refl.
        rewrite !handlers_app, (handlers_cons_app empty_slot), (handlers_cons_app (IrqSlot h c)),
          (handlers_one (IrqSlot h c) Hh). change (handlers [empty_slot]) with (@nil irq_registry_slot).
        cbn [app]. rewrite !elem_of_app, elem_of_cons. split.
        -- intros [Hx|Hx]; (split; [tauto|]); intros ->; [apply (H2 _ Hx); by left|done].
        -- intros [[?|[->|?]] ?]; [by left|done|by right].
      * intros irq' H0 Hne. rewrite line_of_set by (done || lia). by rewrite (proj2 (Z.eqb_neq _ _)).
    + exists false, r. split; [done|]. split; [done|]. split; [by split|]. split; [|done].
      intros x. split; [|by intros [? _]]. intros Hx. split; [done|]. intros ->.
      by apply elem_of_handlers in Hx as [? _].
Qed.

Definition sample_irqs : irq_registry :=
  [IrqSlot 7 1; IrqSlot 0 0; IrqSlot 8 2; IrqSlot 0 0] :: replicate 15 (replicate 4 empty_slot).

Lemma sample_irqs_ok : registry_ok sample_irqs.
Proof.
  split; [reflexivity|]. constructor.
  - split; [reflexivity|]. apply (bool_decide_eq_true_1 (NoDup _)). by vm_compute.
  - apply Forall_replicate. split; [reflexivity|]. constructor.
Defined.

Lemma irq_registry_set_semantics_witness :
  exists r', irq_registry_register (Some sample_irqs) 0 9 3 = (true, Some r') /\ registry_ok r'.
Proof.
  destruct (irq_registry_set_semantics sample_irqs 0 9 3 sample_irqs_ok ltac:(lia) ltac:(lia))
    as [(ok & r' & E & Hok & _) _].
  exists r'. split; [|exact Hok]. rewrite E. f_equal.
  apply (f_equal fst) in E. vm_compute in E. congruence.
Defined.

(** dispatching a line calls every handler registered on it exactly
    once, in slot order, also when handlers unregister themselves from inside
    the call; the interrupt is claimed when some handler claims it; afterwards
    the line holds exactly the handlers that stayed, and the other lines are as
    before. *)
Theorem irq_registry_dispatch_each_once claims leaves r irq log :
  registry_ok r -> 0 <= irq < 16 ->
  exists r', irq_registry_dispatch (self_removing claims leaves) irq (Some r, log) =
    (existsb claims (handlers (line_of r irq)), (Some r', log ++ handlers (line_of r irq))) /\
  registry_ok r' /\
  handlers (line_of r' irq) = List.filter (fun e => negb (leaves e)) (handlers (line_of r irq)) /\
  (forall irq', 0 <= irq' -> irq' <> irq -> line_of r' irq' = line_of r irq').
Proof.
  intros Hr Hi. destruct (line_of_ok r irq Hr Hi) as [Hlen Hnd].
  destruct (dispatch_loop_spec claims leaves irq Hi (line_of r irq) [] false r log Hr eq_refl Hnd)
    as (r' & E & Hok & Hl & Hother).
  rewrite Hlen in E. exists r'. unfold irq_registry_dispatch, IRQ_REGISTRY_LINE_COUNT.
  rewrite (proj2 (Z.leb_gt _ _)) by lia. cbn [length] in E. rewrite E.
  split; [done|]. split; [done|]. split; [|done]. rewrite Hl. apply visited_handlers.
Qed.

Lemma irq_registry_dispatch_each_once_witness :
  exists r', irq_registry_dispatch (self_removing (fun e => handler e =? 8) (fun e => handler e =? 7)) 0
    (Some sample_irqs, []) = (true, (Some r', [IrqSlot 7 1; IrqSlot 8 2])) /\
  handlers (line_of r' 0) = [IrqSlot 8 2].
Proof.
  destruct (irq_registry_dispatch_each_once (fun e => handler e =? 8) (fun e => handler e =? 7)
    sample_irqs 0 [] sample_irqs_ok ltac:(lia)) as (r' & E & _ & Hl & _).
  exists r'. split; [exact E|exact Hl].
Defined.
