(* ===== verification/Bmp.v ===== *)
(** * kernel/bmp.c: reading and writing 24-bit bitmaps

    A buffer is the list of its bytes, a pixel array the list of its 32-bit
    words.  Reads and writes are checked: [None] is an access outside the
    object.  [Some None] and [Some (false, ...)] are the function's [false].

    Then the bounds of accepted images and the round trip. *)

From S2P Require Import Prelude Elf ElfSpec FsInit.

Definition BMP_FILE_HEADER_SIZE : Z := 14.
Definition BMP_INFO_HEADER_SIZE : Z := 40.
Definition BMP_MINIMUM_SIZE : Z := BMP_FILE_HEADER_SIZE + BMP_INFO_HEADER_SIZE.
Definition BMP_PIXEL_FORMAT_24 : Z := 24.
Definition BMP_COMPRESSION_RGB : Z := 0.
Definition INT32_MIN : Z := - 2 ^ 31.
Definition INT32_MAX : Z := 2 ^ 31 - 1.

(** [image_data] with its length [data_size] stands for the pointer. *)
Record bmp_image := BmpImage {
  image_data : list Z;
  data_size : Z;
  width : Z;
  height : Z;
  pixel_offset : Z;
  row_stride : Z;
  top_down : bool;
}.

(** ** Bytes *)

Definition read_u16_le (bytes : list Z) (p : Z) : option Z :=
  b0 ← rd bytes p; b1 ← rd bytes (p + 1); Some (Z.lor b0 (u16 (Z.shiftl b1 8))).

Definition read_u32_le (bytes : list Z) (p : Z) : option Z :=
  b0 ← rd bytes p; b1 ← rd bytes (p + 1); b2 ← rd bytes (p + 2); b3 ← rd bytes (p + 3);
  Some (Z.lor (Z.lor (Z.lor b0 (u32 (Z.shiftl b1 8))) (u32 (Z.shiftl b2 16))) (u32 (Z.shiftl b3 24))).

Definition read_i32_le (bytes : list Z) (p : Z) : option Z := option_map i32 (read_u32_le bytes p).

Definition write_u16_le (bytes : list Z) (p value : Z) : option (list Z) :=
  bytes ← wr bytes p value; wr bytes (p + 1) (Z.shiftr value 8).

Definition write_u32_le (bytes : list Z) (p value : Z) : option (list Z) :=
  bytes ← wr bytes p value; bytes ← wr bytes (p + 1) (Z.shiftr value 8);
  bytes ← wr bytes (p + 2) (Z.shiftr value 16); wr bytes (p + 3) (Z.shiftr value 24).

(** ** Opening *)

Definition padded_row (w : Z) : Z := Z.ldiff (u64 (u64 (w * 3) + 3)) 3.

(** The checks on the DIB header, whose fields were read. *)
Definition open_checked (bytes : list Z) (size declared_size pixel_offset_ signed_width signed_height
    planes bits_per_pixel compression : Z) : option bmp_image :=
  if (signed_width <=? 0) || (signed_height =? 0) || (signed_height =? INT32_MIN) ||
     negb (planes =? 1) || negb (bits_per_pixel =? BMP_PIXEL_FORMAT_24) ||
     negb (compression =? BMP_COMPRESSION_RGB)
  then None
  else
    let w := u32 signed_width in
    let h := if signed_height <? 0 then u32 (- signed_height) else u32 signed_height in
    let stride := padded_row w in
    if UINT32_MAX <? stride then None
    else
      let pixel_bytes := u64 (stride * h) in
      let required_size := u64 (pixel_offset_ + pixel_bytes) in
      if (declared_size <? required_size) || (size <? required_size) then None
      else Some (BmpImage bytes declared_size w h pixel_offset_ (u32 stride) (signed_height <? 0)).

Definition bmp_open (data : option (list Z)) (size : Z) (image_is_null : bool) : option (option bmp_image) :=
  if image_is_null then Some None
  else
    match data with
    | None => Some None
    | Some bytes =>
        if size <? BMP_MINIMUM_SIZE then Some None
        else
          b0 ← rd bytes 0;
          b1 ← (if b0 =? 66 then rd bytes 1 else Some 0);
          if negb (b0 =? 66) || negb (b1 =? 77) then Some None
          else
            declared_size ← read_u32_le bytes 2;
            pixel_offset_ ← read_u32_le bytes 10;
            dib_size ← read_u32_le bytes 14;
            if (declared_size <? BMP_MINIMUM_SIZE) || (size <? declared_size) ||
               (dib_size <? BMP_INFO_HEADER_SIZE)
            then Some None
            else
              let header_end := u64 (BMP_FILE_HEADER_SIZE + dib_size) in
              if (declared_size <? header_end) || (pixel_offset_ <? header_end) ||
                 (declared_size <? pixel_offset_)
              then Some None
              else
                signed_width ← read_i32_le bytes 18;
                signed_height ← read_i32_le bytes 22;
                planes ← read_u16_le bytes 26;
                bits_per_pixel ← read_u16_le bytes 28;
                compression ← read_u32_le bytes 30;
                Some (open_checked bytes size declared_size pixel_offset_ signed_width signed_height
                        planes bits_per_pixel compression)
    end.

Definition bmp_get_pixel (image : option bmp_image) (x y : Z) (color_is_null : bool) : option (option Z) :=
  match image with
  | None => Some None
  | Some im =>
      if color_is_null || (width im <=? x) || (height im <=? y) then Some None
      else
        let source_row := if top_down im then y else u32 (u32 (height im - 1) - y) in
        let offset := u64 (u64 (pixel_offset im + u64 (source_row * row_stride im)) + u64 (x * 3)) in
        if data_size im <? u64 (offset + 3) then Some None
        else
          blue ← rd (image_data im) offset;
          green ← rd (image_data im) (offset + 1);
          red ← rd (image_data im) (offset + 2);
          Some (Some (Z.lor (Z.lor (Z.lor 0xFF000000 (u32 (Z.shiftl red 16))) (u32 (Z.shiftl green 8))) blue))
  end.

(** ** Encoding *)

(** [n] pixels of a row left, the next one [x]. *)
Fixpoint encode_row (n : nat) (x : Z) (pixels : list Z) (source_row destination_row : Z) (bytes : list Z)
    : option (list Z) :=
  match n with
  | O => Some bytes
  | S n' =>
      color ← rd pixels (source_row + x);
      bytes ← wr bytes (destination_row + x * 3) color;
      bytes ← wr bytes (destination_row + (x * 3 + 1)) (Z.shiftr color 8);
      bytes ← wr bytes (destination_row + (x * 3 + 2)) (Z.shiftr color 16);
      encode_row n' (x + 1) pixels source_row destination_row bytes
  end.

(** [n] rows left, the next one [file_row]. *)
Fixpoint encode_rows (n : nat) (file_row : Z) (pixels : list Z) (w h source_stride row_stride : Z)
    (bytes : list Z) : option (list Z) :=
  match n with
  | O => Some bytes
  | S n' =>
      let source_y := u32 (u32 (h - 1) - file_row) in
      bytes ← encode_row (Z.to_nat w) 0 pixels (u64 (source_y * source_stride))
                (BMP_MINIMUM_SIZE + u64 (file_row * row_stride)) bytes;
      encode_rows n' (file_row + 1) pixels w h source_stride row_stride bytes
  end.

Definition write_header (w h total_size pixel_bytes : Z) (bytes : list Z) : option (list Z) :=
  bytes ← wr bytes 0 66;
  bytes ← wr bytes 1 77;
  bytes ← write_u32_le bytes 2 (u32 total_size);
  bytes ← write_u32_le bytes 10 BMP_MINIMUM_SIZE;
  bytes ← write_u32_le bytes 14 BMP_INFO_HEADER_SIZE;
  bytes ← write_u32_le bytes 18 w;
  bytes ← write_u32_le bytes 22 h;
  bytes ← write_u16_le bytes 26 1;
  bytes ← write_u16_le bytes 28 BMP_PIXEL_FORMAT_24;
  bytes ← write_u32_le bytes 30 BMP_COMPRESSION_RGB;
  write_u32_le bytes 34 (u32 pixel_bytes).

(** The size checks on the source span; [None] when it cannot be represented. *)
Definition source_span (w h source_stride : Z) : option Z :=
  let count :=
    if 1 <? h then
      let preceding_rows := h - 1 in
      if (SIZE_MAX - w) / preceding_rows <? source_stride then None
      else Some (u64 (w + u64 (preceding_rows * source_stride)))
    else Some w in
  count ← count;
  if SIZE_MAX / 4 <? count then None else Some count.

(** The result, the output buffer after the call and [*encoded_size]. *)
Definition bmp_encode_rgb24 (pixels : option (list Z)) (w h source_stride : Z) (output : option (list Z))
    (output_capacity : Z) (encoded_size_is_null : bool) : option (bool * option (list Z) * Z) :=
  if encoded_size_is_null then Some (false, output, 0)
  else
    match pixels, output with
    | Some px, Some out =>
        if (w =? 0) || (h =? 0) || (INT32_MAX <? w) || (INT32_MAX <? h) || (source_stride <? w)
        then Some (false, output, 0)
        else
          match source_span w h source_stride with
          | None => Some (false, output, 0)
          | Some _ =>
              let stride := padded_row w in
              let pixel_bytes := u64 (stride * h) in
              let total_size := u64 (BMP_MINIMUM_SIZE + pixel_bytes) in
              if (UINT32_MAX <? stride) || (UINT32_MAX <? pixel_bytes) || (UINT32_MAX <? total_size) ||
                 (SIZE_MAX <? total_size) || (output_capacity <? total_size)
              then Some (false, output, 0)
              else if (Z.of_nat (length out) <? total_size) then None
              else
                bytes ← write_header w h total_size pixel_bytes
                          (replicate (Z.to_nat total_size) 0 ++ drop (Z.to_nat total_size) out);
                bytes ← encode_rows (Z.to_nat h) 0 px w h source_stride stride bytes;
                Some (true, Some bytes, total_size)
          end
    | _, _ => Some (false, output, 0)
    end.

(** * kernel/bmp.c: bounds of accepted images and the encode/open round trip *)

#[local] Arguments Nat.leb : simpl never.

(** ** Bytes *)

Lemma shifted_byte b k w : 0 <= b < 256 -> 0 <= k -> k + 8 <= w -> Z.land (Z.shiftl b k) (Z.ones w) = Z.shiftl b k.
Proof.
  intros Hb Hk Hw. rewrite Z.land_ones by lia. apply Z.mod_small. rewrite Z.shiftl_mul_pow2 by lia.
  pose proof (Z.pow_pos_nonneg 2 k). split; [nia|].
  apply Z.lt_le_trans with (2 ^ (8 + k)); [rewrite Z.pow_add_r by lia; nia|].
  apply Z.pow_le_mono_r; lia.
Qed.

(** The four bytes of a word put together again. *)
Lemma u32_of_bytes v :
  u32_ok v ->
  Z.lor (Z.lor (Z.lor (u8 v) (u32 (Z.shiftl (u8 (Z.shiftr v 8)) 8))) (u32 (Z.shiftl (u8 (Z.shiftr v 16)) 16)))
    (u32 (Z.shiftl (u8 (Z.shiftr v 24)) 24)) = v.
Proof.
  intros Hv. unfold u32. change 0xFFFFFFFF with (Z.ones 32).
  rewrite !shifted_byte by (apply u8_range || lia). unfold u8. change 0xFF with (Z.ones 8).
  apply Z.bits_inj'. intros i Hi.
  rewrite !Z.lor_spec, !Z.shiftl_spec by lia. rewrite !Z.land_spec.
  assert (Hhigh : 32 <= i -> Z.testbit v i = false).
  { intros. destruct (Z.eq_dec v 0) as [->|]; [apply Z.bits_0|]. apply Z.bits_above_log2; [apply Hv|].
    apply Z.log2_lt_pow2; [unfold u32_ok in Hv; lia|]. apply Z.lt_le_trans with (2 ^ 32); [apply Hv|].
    apply Z.pow_le_mono_r; lia. }
  assert (Hones : forall j, Z.testbit (Z.ones 8) j = (0 <=? j) && (j <? 8)).
  { intros j. destruct (Z.leb_spec 0 j); [|by rewrite Z.testbit_neg_r by lia].
    destruct (Z.ltb_spec j 8); [rewrite Z.ones_spec_low by lia|rewrite Z.ones_spec_high by lia]; done. }
  rewrite !Hones.
  destruct (Z_lt_le_dec i 8); [|destruct (Z_lt_le_dec i 16); [|destruct (Z_lt_le_dec i 24); [|destruct (Z_lt_le_dec i 32)]]];
    repeat match goal with
    | |- context [(?a <=? ?b)] => first [rewrite (proj2 (Z.leb_le a b)) by lia | rewrite (proj2 (Z.leb_gt a b)) by lia]
    | |- context [(?a <? ?b)] => first [rewrite (proj2 (Z.ltb_lt a b)) by lia | rewrite (proj2 (Z.ltb_ge a b)) by lia]
    end;
    cbn [andb]; rewrite ?andb_true_r, ?andb_false_r, ?orb_false_r, ?orb_false_l; cbn [orb];
    rewrite ?Z.shiftr_spec by lia; rewrite ?Hhigh by lia; try done; f_equal; lia.
Qed.

Lemma bread_u32_Some bytes p : 0 <= p -> p + 4 <= Z.of_nat (length bytes) -> is_Some (Bmp.read_u32_le bytes p).
Proof. intros. unfold Bmp.read_u32_le. read_all. done. Qed.

Lemma bread_u16_Some bytes p : 0 <= p -> p + 2 <= Z.of_nat (length bytes) -> is_Some (Bmp.read_u16_le bytes p).
Proof. intros. unfold Bmp.read_u16_le. read_all. done. Qed.

Lemma bread_u32_range bytes p v : bytes_ok bytes -> Bmp.read_u32_le bytes p = Some v -> u32_ok v.
Proof.
  intros Hb. unfold Bmp.read_u32_le.
  destruct (rd bytes p) as [b0|] eqn:E0; [|done]. destruct (rd bytes (p + 1)) as [b1|]; [|done].
  destruct (rd bytes (p + 2)) as [b2|]; [|done]. destruct (rd bytes (p + 3)) as [b3|]; [|done].
  cbn [mbind option_bind]. intros [= <-]. apply rd_byte in E0; [|done]. unfold byte_ok in E0.
  repeat apply lor_u32; try apply u32_range. unfold u32_ok. lia.
Qed.

(** ** Accepted images *)

Lemma padded_row_spec w : 0 <= w < 2 ^ 32 ->
  3 * w <= padded_row w <= 3 * w + 3 /\ padded_row w mod 4 = 0.
Proof.
  intros Hw. unfold padded_row. rewrite (u64_small (w * 3)) by (unfold u64_ok; lia).
  rewrite u64_small by (unfold u64_ok; lia).
  assert (E : forall a, Z.ldiff a (Z.ones 2) = a / 4 * 4).
  { intros a. rewrite Z.ldiff_ones_r by lia. by rewrite Z.shiftl_mul_pow2, Z.shiftr_div_pow2 by lia. }
  change (Z.ldiff (w * 3 + 3) 3) with (Z.ldiff (w * 3 + 3) (Z.ones 2)). rewrite !E.
  pose proof (Z.div_mod (w * 3 + 3) 4 ltac:(lia)). pose proof (Z.mod_pos_bound (w * 3 + 3) 4 ltac:(lia)).
  split; [lia|]. apply Z.mod_mul. lia.
Qed.

Definition image_ok (im : bmp_image) : Prop :=
  data_size im <= Z.of_nat (length (image_data im)) /\ data_size im < 2 ^ 32 /\
  0 < width im < 2 ^ 31 /\ 0 < height im < 2 ^ 31 /\ 54 <= pixel_offset im /\
  3 * width im <= row_stride im < 2 ^ 32 /\
  pixel_offset im + row_stride im * height im <= data_size im.

Lemma open_checked_ok bytes size ds po sw sh pl bpp comp im :
  ds <= size -> size <= Z.of_nat (length bytes) -> u32_ok ds -> u32_ok po -> 54 <= po ->
  - 2 ^ 31 <= sw < 2 ^ 31 -> - 2 ^ 31 <= sh < 2 ^ 31 ->
  open_checked bytes size ds po sw sh pl bpp comp = Some im -> image_ok im.
Proof.
  unfold u32_ok. intros Hds Hsz Hd Hp Hpo Hsw Hsh. unfold open_checked, INT32_MIN.
  destruct (_ || _ || _ || _ || _ || _) eqn:C; [done|].
  do 3 (apply orb_false_iff in C as [C _]). bdestr_hyps.
  set (h := if sh <? 0 then u32 (- sh) else u32 sh).
  assert (Hh : 0 < h < 2 ^ 31).
  { unfold h. destruct (Z.ltb_spec sh 0); rewrite u32_small by (unfold u32_ok; lia); lia. }
  rewrite (u32_small sw) by (unfold u32_ok; lia).
  destruct (padded_row_spec sw ltac:(lia)) as [Hrow _].
  destruct (Z.ltb_spec UINT32_MAX (padded_row sw)) as [|Hst]; [done|]. unfold UINT32_MAX in Hst.
  rewrite (u64_small (padded_row sw * h)) by (unfold u64_ok; nia).
  rewrite (u64_small (po + padded_row sw * h)) by (unfold u64_ok; nia).
  destruct (_ || _) eqn:C2; [done|]. bdestr_hyps. intros [= <-].
  rewrite (u32_small (padded_row sw)) by (unfold u32_ok; lia).
  unfold image_ok. cbn [data_size image_data width height pixel_offset row_stride]. split_and!; lia.
Qed.

Lemma i32_range z : - 2 ^ 31 <= i32 z < 2 ^ 31.
Proof. unfold i32. pose proof (Z.mod_pos_bound (z + 2 ^ 31) (2 ^ 32)). lia. Qed.

Ltac refused := exists None; split; [done|by intros ? [=]].

Lemma bmp_open_run bytes :
  bytes_ok bytes ->
  exists r, bmp_open (Some bytes) (Z.of_nat (length bytes)) false = Some r /\
    (forall im, r = Some im -> image_ok im /\ image_data im = bytes).
Proof.
  intros Hb. unfold bmp_open, BMP_MINIMUM_SIZE, BMP_FILE_HEADER_SIZE, BMP_INFO_HEADER_SIZE.
  destruct (Z.ltb_spec (Z.of_nat (length bytes)) (14 + 40)); [refused|].
  destruct (rd_Some bytes 0) as [b0 ->]; [lia|]. cbn [mbind option_bind].
  assert (exists b1, (if b0 =? 66 then rd bytes 1 else Some 0) = Some b1) as [b1 ->].
  { destruct (b0 =? 66); [apply rd_Some; lia|by exists 0]. }
  cbn [mbind option_bind]. destruct (_ || _); [refused|].
  destruct (bread_u32_Some bytes 2) as [ds Eds]; [lia..|]. rewrite Eds. cbn [mbind option_bind].
  destruct (bread_u32_Some bytes 10) as [po Epo]; [lia..|]. rewrite Epo. cbn [mbind option_bind].
  destruct (bread_u32_Some bytes 14) as [dib Edib]; [lia..|]. rewrite Edib. cbn [mbind option_bind].
  apply bread_u32_range in Eds, Epo, Edib; [|done..]. unfold u32_ok in *.
  destruct ((ds <? _) || _ || _) eqn:C1; [refused|]. bdestr_hyps.
  rewrite (u64_small (14 + dib)) by (unfold u64_ok; lia).
  destruct ((ds <? _) || _ || _) eqn:C2; [refused|]. bdestr_hyps.
  unfold read_i32_le.
  destruct (bread_u32_Some bytes 18) as [sw ->]; [lia..|]. destruct (bread_u32_Some bytes 22) as [sh ->]; [lia..|].
  destruct (bread_u16_Some bytes 26) as [pl ->]; [lia..|]. destruct (bread_u16_Some bytes 28) as [bpp ->]; [lia..|].
  destruct (bread_u32_Some bytes 30) as [comp ->]; [lia..|]. cbn [mbind option_bind option_map].
  eexists. split; [reflexivity|]. intros im E. split.
  - revert E. apply open_checked_ok; try done; try lia; apply i32_range.
  - revert E. unfold open_checked. repeat (case_match; try done); by intros [= <-].
Qed.

(** Every pixel of an accepted image lies inside its data. *)
Lemma get_pixel_run im x y :
  image_ok im -> 0 <= x < width im -> 0 <= y < height im ->
  let row := if top_down im then y else height im - 1 - y in
  let offset := pixel_offset im + row * row_stride im + x * 3 in
  0 <= offset /\ offset + 3 <= data_size im /\
  exists b g r, rd (image_data im) offset = Some b /\ rd (image_data im) (offset + 1) = Some g /\
    rd (image_data im) (offset + 2) = Some r /\
    bmp_get_pixel (Some im) x y false =
      Some (Some (Z.lor (Z.lor (Z.lor 0xFF000000 (u32 (Z.shiftl r 16))) (u32 (Z.shiftl g 8))) b)).
Proof.
  intros (Hd & Hd' & Hw & Hh & Hpo & Hst & Hsum) Hx Hy. cbn zeta.
  set (row := if top_down im then y else height im - 1 - y).
  assert (Hrow : 0 <= row < height im) by (unfold row; destruct (top_down im); lia).
  assert (Hmul : row * row_stride im + row_stride im <= row_stride im * height im) by nia.
  assert (H0 : 0 <= row * row_stride im) by nia.
  split; [lia|]. split; [lia|]. unfold bmp_get_pixel. cbn [orb].
  rewrite (proj2 (Z.leb_gt (width im) x)), (proj2 (Z.leb_gt (height im) y)) by lia. cbn [orb].
  assert (E : (if top_down im then y else u32 (u32 (height im - 1) - y)) = row).
  { unfold row. destruct (top_down im); [done|].
    rewrite (u32_small (height im - 1)), u32_small by (unfold u32_ok; lia). done. }
  rewrite E, (u64_small (row * row_stride im)) by (unfold u64_ok; lia).
  rewrite (u64_small (pixel_offset im + row * row_stride im)) by (unfold u64_ok; lia).
  rewrite (u64_small (x * 3)) by (unfold u64_ok; lia).
  rewrite (u64_small (pixel_offset im + row * row_stride im + x * 3)) by (unfold u64_ok; lia).
  rewrite u64_small by (unfold u64_ok; lia).
  rewrite (proj2 (Z.ltb_ge _ _)) by lia.
  set (o := pixel_offset im + row * row_stride im + x * 3) in *.
  destruct (rd_Some (image_data im) o) as [b ->]; [lia|].
  destruct (rd_Some (image_data im) (o + 1)) as [g ->]; [lia|].
  destruct (rd_Some (image_data im) (o + 2)) as [r ->]; [lia|]. by exists b, g, r.
Qed.

(** ** The encoder *)

Definition header_bytes (w h T P : Z) : list Z :=
  let le32 v := [u8 v; u8 (Z.shiftr v 8); u8 (Z.shiftr v 16); u8 (Z.shiftr v 24)] in
  [66; 77] ++ le32 (u32 T) ++ [0; 0; 0; 0] ++ le32 54 ++ le32 40 ++ le32 w ++ le32 h ++ [1; 0; 24; 0] ++
  [0; 0; 0; 0] ++ le32 (u32 P) ++ replicate 16 0.

Lemma write_header_spec w h T P rest :
  write_header w h T P (replicate 54 0 ++ rest) = Some (header_bytes w h T P ++ rest).
Proof.
  unfold write_header, write_u32_le, write_u16_le.
  assert (Hl : length (replicate 54 0) = 54%nat) by reflexivity.
  repeat (rewrite wr_app by (rewrite ?length_insert, Hl; lia); cbn [mbind option_bind]).
  reflexivity.
Qed.

(** Reading the header back. *)
Lemma open_header w h T P rest :
  0 < w < 2 ^ 31 -> 0 < h < 2 ^ 31 -> T = 54 + padded_row w * h -> T < 2 ^ 32 ->
  T <= 54 + Z.of_nat (length rest) ->
  let bytes := header_bytes w h T P ++ rest in
  bmp_open (Some bytes) (Z.of_nat (length bytes)) false =
    Some (Some (BmpImage bytes T w h 54 (padded_row w) false)).
Proof.
  intros Hw Hh HT HT32 Hlen. cbn zeta. set (bytes := header_bytes w h T P ++ rest).
  assert (Hl : Z.of_nat (length bytes) = 54 + Z.of_nat (length rest)).
  { unfold bytes. rewrite length_app. change (length (header_bytes w h T P)) with 54%nat. lia. }
  assert (Hrd : forall p, 0 <= p < 54 -> rd bytes p = header_bytes w h T P !! Z.to_nat p).
  { intros p Hp. apply rd_app_l. change (length (header_bytes w h T P)) with 54%nat. lia. }
  assert (H32 : forall p v, 0 <= p -> p + 4 <= 54 -> u32_ok v ->
            header_bytes w h T P !! Z.to_nat p = Some (u8 v) ->
            header_bytes w h T P !! Z.to_nat (p + 1) = Some (u8 (Z.shiftr v 8)) ->
            header_bytes w h T P !! Z.to_nat (p + 2) = Some (u8 (Z.shiftr v 16)) ->
            header_bytes w h T P !! Z.to_nat (p + 3) = Some (u8 (Z.shiftr v 24)) ->
            Bmp.read_u32_le bytes p = Some v).
  { intros p v H0 H1 Hv E0 E1 E2 E3. unfold Bmp.read_u32_le.
    rewrite !Hrd by lia. rewrite E0, E1, E2, E3. cbn [mbind option_bind]. by rewrite u32_of_bytes. }
  destruct (padded_row_spec w ltac:(lia)) as [Hrow _].
  assert (Hb : padded_row w * h < 2 ^ 32) by lia.
  assert (HwT : padded_row w < 2 ^ 32) by nia.
  assert (Hpos : 0 <= padded_row w * h) by nia.
  pose proof (H32 2 (u32 T) ltac:(lia) ltac:(lia) (u32_range T) eq_refl eq_refl eq_refl eq_refl) as E2.
  rewrite (u32_small T) in E2 by (unfold u32_ok; lia).
  pose proof (H32 10 54 ltac:(lia) ltac:(lia) ltac:(unfold u32_ok; lia) eq_refl eq_refl eq_refl eq_refl) as E10.
  pose proof (H32 14 40 ltac:(lia) ltac:(lia) ltac:(unfold u32_ok; lia) eq_refl eq_refl eq_refl eq_refl) as E14.
  pose proof (H32 18 w ltac:(lia) ltac:(lia) ltac:(unfold u32_ok; lia) eq_refl eq_refl eq_refl eq_refl) as E18.
  pose proof (H32 22 h ltac:(lia) ltac:(lia) ltac:(unfold u32_ok; lia) eq_refl eq_refl eq_refl eq_refl) as E22.
  pose proof (H32 30 0 ltac:(lia) ltac:(lia) ltac:(unfold u32_ok; lia) eq_refl eq_refl eq_refl eq_refl) as E30.
  unfold bmp_open, BMP_MINIMUM_SIZE, BMP_FILE_HEADER_SIZE, BMP_INFO_HEADER_SIZE.
  rewrite (proj2 (Z.ltb_ge _ _)) by lia. rewrite (Hrd 0) by lia.
  change (header_bytes w h T P !! Z.to_nat 0) with (Some 66). cbn [mbind option_bind].
  change (66 =? 66) with true. cbv iota. rewrite (Hrd 1) by lia.
  change (header_bytes w h T P !! Z.to_nat 1) with (Some 77). cbn [mbind option_bind].
  change (77 =? 77) with true. cbn [negb orb]. rewrite E2, E10, E14. cbn [mbind option_bind].
  rewrite (proj2 (Z.ltb_ge T (14 + 40))), (proj2 (Z.ltb_ge (Z.of_nat (length bytes)) T)) by lia.
  change (40 <? 40) with false. cbn [orb]. change (u64 (14 + 40)) with 54.
  rewrite (proj2 (Z.ltb_ge T 54)) by lia. change (54 <? 54) with false. cbn [orb].
  unfold read_i32_le. rewrite E18, E22. cbn [option_map mbind option_bind].
  unfold Bmp.read_u16_le. rewrite !(Hrd (26 + 1)), !(Hrd (28 + 1)), (Hrd 26), (Hrd 28) by lia.
  change (header_bytes w h T P !! Z.to_nat 26) with (Some 1).
  change (header_bytes w h T P !! Z.to_nat (26 + 1)) with (Some 0).
  change (header_bytes w h T P !! Z.to_nat 28) with (Some 24).
  change (header_bytes w h T P !! Z.to_nat (28 + 1)) with (Some 0). cbn [mbind option_bind].
  rewrite E30. cbn [mbind option_bind].
  assert (Hi32 : forall v, 0 < v < 2 ^ 31 -> i32 v = v).
  { intros v Hv. unfold i32. rewrite Z.mod_small by lia. lia. }
  rewrite !Hi32 by lia. unfold open_checked, INT32_MIN.
  change (Z.lor 1 (u16 (Z.shiftl 0 8))) with 1. change (Z.lor 24 (u16 (Z.shiftl 0 8))) with 24.
  change (negb (1 =? 1)) with false. change (negb (24 =? BMP_PIXEL_FORMAT_24)) with false.
  change (negb (0 =? BMP_COMPRESSION_RGB)) with false.
  rewrite (proj2 (Z.leb_gt w 0)), (proj2 (Z.eqb_neq h 0)), (proj2 (Z.eqb_neq h (- 2 ^ 31))) by lia.
  cbn [orb]. rewrite (proj2 (Z.ltb_ge h 0)) by lia.
  rewrite (u32_small w), (u32_small h) by (unfold u32_ok; lia).
  unfold UINT32_MAX. rewrite (proj2 (Z.ltb_ge _ (padded_row w))) by lia.
  rewrite (u64_small (padded_row w * h)) by (unfold u64_ok; nia).
  rewrite (u64_small (54 + padded_row w * h)) by (unfold u64_ok; nia).
  rewrite (proj2 (Z.ltb_ge T _)), (proj2 (Z.ltb_ge (Z.of_nat (length bytes)) _)) by lia. cbn [orb].
  by rewrite (u32_small (padded_row w)) by (unfold u32_ok; nia).
Qed.

(** The three bytes of color [c] at [p]. *)
Definition pixel_at (out : list Z) (p c : Z) : Prop :=
  rd out p = Some (u8 c) /\ rd out (p + 1) = Some (u8 (Z.shiftr c 8)) /\
  rd out (p + 2) = Some (u8 (Z.shiftr c 16)).

Lemma encode_row_spec n x pixels src dst bytes :
  0 <= x -> 0 <= src -> 0 <= dst -> src + x + Z.of_nat n <= Z.of_nat (length pixels) ->
  dst + 3 * (x + Z.of_nat n) <= Z.of_nat (length bytes) ->
  exists out, encode_row n x pixels src dst bytes = Some out /\ length out = length bytes /\
    (forall j, j < dst + 3 * x \/ dst + 3 * (x + Z.of_nat n) <= j -> rd out j = rd bytes j) /\
    (forall i, x <= i < x + Z.of_nat n ->
       exists c, rd pixels (src + i) = Some c /\ pixel_at out (dst + 3 * i) c).
Proof.
  revert x bytes. induction n as [|n IH]; intros x bytes Hx Hs Hd Hp Hb; cbn [encode_row].
  { exists bytes. split; [done|]. split; [done|]. split; [done|lia]. }
  destruct (rd_Some pixels (src + x)) as [c Hc]; [lia|]. rewrite Hc. cbn [mbind option_bind].
  rewrite wr_Some by lia. cbn [mbind option_bind].
  rewrite wr_Some by (rewrite length_insert; lia). cbn [mbind option_bind].
  rewrite wr_Some by (rewrite !length_insert; lia). cbn [mbind option_bind].
  set (b3 := <[_ := _]> (<[_ := _]> (<[_ := _]> bytes))).
  assert (Hl3 : length b3 = length bytes) by (unfold b3; by rewrite !length_insert).
  assert (Hpix : pixel_at b3 (dst + 3 * x) c).
  { unfold pixel_at, b3. replace (dst + 3 * x) with (dst + x * 3) by lia.
    replace (dst + x * 3 + 1) with (dst + (x * 3 + 1)) by lia.
    replace (dst + x * 3 + 2) with (dst + (x * 3 + 2)) by lia. split; [|split].
    - rewrite rd_insert_ne, rd_insert_ne, rd_insert_eq by lia. done.
    - rewrite rd_insert_ne, rd_insert_eq by (rewrite ?length_insert; lia). done.
    - rewrite rd_insert_eq by (rewrite ?length_insert; lia). done. }
  assert (Hout3 : forall j, j < dst + 3 * x \/ dst + 3 * (x + 1) <= j -> rd b3 j = rd bytes j).
  { intros j Hj. unfold b3. rewrite !rd_insert_ne by lia. done. }
  destruct (IH (x + 1) b3) as (out & -> & Hlo & Hother & Hpx); [lia|lia|lia|lia|lia|].
  exists out. split; [done|]. split; [lia|]. split.
  - intros j Hj. rewrite Hother by lia. apply Hout3. lia.
  - intros i Hi. destruct (Z.eq_dec i x) as [->|Hne]; [|apply Hpx; lia].
    exists c. split; [done|]. unfold pixel_at in *. rewrite !Hother by lia. done.
Qed.

Lemma encode_rows_spec n row pixels w h ss rs bytes :
  0 <= row -> row + Z.of_nat n = h -> 0 < w -> h < 2 ^ 31 -> 3 * w <= rs -> w <= ss ->
  (h - 1) * ss + w <= Z.of_nat (length pixels) -> Z.of_nat (length pixels) < 2 ^ 62 ->
  54 + rs * h <= Z.of_nat (length bytes) -> 54 + rs * h < 2 ^ 32 ->
  exists out, encode_rows n row pixels w h ss rs bytes = Some out /\ length out = length bytes /\
    (forall j, j < 54 + row * rs \/ 54 + rs * h <= j -> rd out j = rd bytes j) /\
    (forall fr x, row <= fr < h -> 0 <= x < w ->
       exists c, rd pixels ((h - 1 - fr) * ss + x) = Some c /\ pixel_at out (54 + fr * rs + 3 * x) c).
Proof.
  revert row bytes. induction n as [|n IH]; intros row bytes Hr Hn Hw Hh Hrs Hss Hp Hp' Hb Hb'; cbn [encode_rows].
  { exists bytes. split; [done|]. split; [done|]. split; [done|lia]. }
  assert (Hsy : 0 <= (h - 1 - row) * ss <= (h - 1) * ss) by nia.
  assert (Hrow : 0 <= row * rs /\ row * rs + rs <= rs * h) by nia.
  rewrite (u32_small (h - 1)), (u32_small (h - 1 - row)) by (unfold u32_ok; lia).
  rewrite (u64_small ((h - 1 - row) * ss)), (u64_small (row * rs)) by (unfold u64_ok; lia).
  change BMP_MINIMUM_SIZE with 54.
  destruct (encode_row_spec (Z.to_nat w) 0 pixels ((h - 1 - row) * ss) (54 + row * rs) bytes)
    as (b1 & -> & Hl1 & Hother1 & Hpx1); [lia..|]. cbn [mbind option_bind].
  rewrite Z2Nat.id in Hother1, Hpx1 by lia.
  destruct (IH (row + 1) b1) as (out & -> & Hlo & Hother & Hpx); [lia|lia|lia|lia|lia|lia|lia|lia|lia|lia|].
  exists out. split; [done|]. split; [lia|]. split.
  - intros j Hj. rewrite Hother by lia. apply Hother1. lia.
  - intros fr x Hfr Hx. destruct (Z.eq_dec fr row) as [->|Hne]; [|apply Hpx; lia].
    destruct (Hpx1 x ltac:(lia)) as (c & Hc & Hpix). exists c. split; [done|].
    unfold pixel_at in *. rewrite !Hother by lia. done.
Qed.

(** The color that the three stored bytes stand for. *)
Lemma color_of_bytes c :
  u32_ok c ->
  Z.lor (Z.lor (Z.lor 0xFF000000 (u32 (Z.shiftl (u8 (Z.shiftr c 16)) 16))) (u32 (Z.shiftl (u8 (Z.shiftr c 8)) 8)))
    (u8 c) = Z.lor 0xFF000000 (Z.land c 0xFFFFFF).
Proof.
  intros Hc. unfold u32. change 0xFFFFFFFF with (Z.ones 32).
  rewrite !shifted_byte by (apply u8_range || lia). rewrite <- !Z.lor_assoc. f_equal.
  unfold u8. change 0xFF with (Z.ones 8). change 0xFFFFFF with (Z.ones 24).
  apply Z.bits_inj'. intros i Hi.
  rewrite !Z.lor_spec, !Z.shiftl_spec by lia. rewrite !Z.land_spec.
  assert (Hones : forall k j, 0 <= k -> Z.testbit (Z.ones k) j = (0 <=? j) && (j <? k)).
  { intros k j Hk. destruct (Z.leb_spec 0 j); [|by rewrite Z.testbit_neg_r by lia].
    destruct (Z.ltb_spec j k); [rewrite Z.ones_spec_low by lia|rewrite Z.ones_spec_high by lia]; done. }
  rewrite !Hones by lia.
  destruct (Z_lt_le_dec i 8); [|destruct (Z_lt_le_dec i 16); [|destruct (Z_lt_le_dec i 24)]];
    repeat match goal with
    | |- context [(?a <=? ?b)] => first [rewrite (proj2 (Z.leb_le a b)) by lia | rewrite (proj2 (Z.leb_gt a b)) by lia]
    | |- context [(?a <? ?b)] => first [rewrite (proj2 (Z.ltb_lt a b)) by lia | rewrite (proj2 (Z.ltb_ge a b)) by lia]
    end;
    cbn [andb]; rewrite ?andb_true_r, ?andb_false_r, ?orb_false_r, ?orb_false_l; cbn [orb];
    rewrite ?Z.shiftr_spec by lia; try done; f_equal; lia.
Qed.

(** ** Claims *)

(** opening any byte string as a bitmap, hostile ones included, never
    reads outside it; and every pixel of an image that was accepted can be
    fetched, without a read outside the data and without overflow, while
    coordinates outside the image are refused. *)
Theorem bmp_open_and_pixels_safe bytes :
  bytes_ok bytes ->
  exists r, bmp_open (Some bytes) (Z.of_nat (length bytes)) false = Some r /\
  (forall im, r = Some im ->
     (forall x y, 0 <= x < width im -> 0 <= y < height im ->
        exists c, bmp_get_pixel (Some im) x y false = Some (Some c)) /\
     (forall x y, width im <= x \/ height im <= y -> bmp_get_pixel (Some im) x y false = Some None)).
Proof.
  intros Hb. destruct (bmp_open_run bytes Hb) as (r & E & H). exists r. split; [done|].
  intros im Him. destruct (H im Him) as [Hok _]. split.
  - intros x y Hx Hy. destruct (get_pixel_run im x y Hok Hx Hy) as (_ & _ & b & g & rr & _ & _ & _ & Hp).
    by eexists.
  - intros x y Hxy. unfold bmp_get_pixel. cbn [orb].
    destruct Hxy as [Hx|Hy]; [rewrite (proj2 (Z.leb_le _ _)) by done; done|].
    rewrite (proj2 (Z.leb_le (height im) y)) by done. by rewrite orb_true_r.
Qed.

Lemma default_bmp_bytes : bytes_ok default_bmp.
Proof. apply bytes_okb_true. vm_compute. reflexivity. Qed.

(** The image that the filesystem seeds on a new volume. *)
Lemma bmp_open_and_pixels_safe_witness :
  exists r, bmp_open (Some default_bmp) (Z.of_nat (length default_bmp)) false = Some r.
Proof.
  destruct (bmp_open_and_pixels_safe default_bmp default_bmp_bytes) as (r & E & _). by exists r.
Defined.

(** whatever the encoder writes, the reader reads back.  For every
    source picture that fits its array and every buffer with room for the file,
    [bmp_encode_rgb24] succeeds with the exact size, leaves the buffer behind
    the file alone, and the file opens as an image of the same dimensions with
    the same colors at every position (alpha forced to opaque). *)
Theorem bmp_encode_open_roundtrip pixels w h stride out :
  0 < w -> 0 < h -> w <= stride -> (h - 1) * stride + w <= Z.of_nat (length pixels) ->
  Forall u32_ok pixels -> Z.of_nat (length pixels) < 2 ^ 62 ->
  let T := 54 + padded_row w * h in
  w < 2 ^ 31 -> h < 2 ^ 31 -> T < 2 ^ 32 -> T <= Z.of_nat (length out) ->
  exists out' im, bmp_encode_rgb24 (Some pixels) w h stride (Some out) (Z.of_nat (length out)) false =
      Some (true, Some out', T) /\
    length out' = length out /\ drop (Z.to_nat T) out' = drop (Z.to_nat T) out /\
    bmp_open (Some out') (Z.of_nat (length out')) false = Some (Some im) /\ width im = w /\ height im = h /\
    (forall x y, 0 <= x < w -> 0 <= y < h ->
       exists c, pixels !! Z.to_nat (y * stride + x) = Some c /\
         bmp_get_pixel (Some im) x y false = Some (Some (Z.lor 0xFF000000 (Z.land c 0xFFFFFF)))).
Proof.
  intros Hw Hh Hs Hp H32 Hp' T Hw31 Hh31 HT Hout.
  destruct (padded_row_spec w ltac:(lia)) as [Hrow _].
  assert (HP : 0 <= padded_row w * h) by nia. assert (Hst : padded_row w <= padded_row w * h) by nia.
  assert (Hspan : source_span w h stride = Some (w + (h - 1) * stride)).
  { unfold source_span, SIZE_MAX. destruct (Z.ltb_spec 1 h) as [Hh1|Hh1].
    - rewrite (proj2 (Z.ltb_ge _ _)) by (apply Z.div_le_lower_bound; lia).
      rewrite (u64_small ((h - 1) * stride)), u64_small by (unfold u64_ok; nia). cbn [mbind option_bind].
      rewrite (proj2 (Z.ltb_ge _ _)) by (apply Z.div_le_lower_bound; lia). done.
    - cbn [mbind option_bind]. rewrite (proj2 (Z.ltb_ge _ _)) by (apply Z.div_le_lower_bound; lia).
      f_equal. assert (h = 1) by lia. nia. }
  set (rest := replicate (Z.to_nat T - 54) 0 ++ drop (Z.to_nat T) out).
  assert (Hrest : replicate (Z.to_nat T) 0 ++ drop (Z.to_nat T) out = replicate 54 0 ++ rest).
  { unfold rest. rewrite (app_assoc (replicate 54 0)), <- replicate_add. do 2 f_equal. unfold T. lia. }
  assert (Hlr : Z.of_nat (length rest) = Z.of_nat (length out) - 54).
  { unfold rest. rewrite length_app, length_replicate, length_drop. unfold T in *. lia. }
  set (b0 := header_bytes w h T (padded_row w * h) ++ rest).
  assert (Hlb0 : length b0 = length out).
  { unfold b0. rewrite length_app. change (length (header_bytes _ _ _ _)) with 54%nat. lia. }
  destruct (encode_rows_spec (Z.to_nat h) 0 pixels w h stride (padded_row w) b0)
    as (out' & Erows & Hlo & Hother & Hpx); [lia|lia|lia|lia|lia|lia|lia|lia|unfold T in *; lia|unfold T in *; lia|].
  assert (Hsplit : exists rest', out' = header_bytes w h T (padded_row w * h) ++ rest' /\
            length rest' = length rest).
  { exists (drop 54 out'). split.
    - rewrite <- (take_drop 54 out') at 1. f_equal.
      assert (Htb : take 54 b0 = header_bytes w h T (padded_row w * h)) by reflexivity.
      rewrite <- Htb. apply list_eq. intros i. destruct (Nat.lt_ge_cases i 54) as [Hi|Hi].
      + rewrite !lookup_take_lt by done. specialize (Hother (Z.of_nat i) ltac:(lia)).
        unfold rd in Hother. rewrite (proj2 (Z.leb_le _ _)), Nat2Z.id in Hother by lia. done.
      + rewrite !lookup_take_ge by done. done.
    - rewrite length_drop. lia. }
  destruct Hsplit as (rest' & Eout & Hlr').
  pose proof (open_header w h T (padded_row w * h) rest' ltac:(lia) ltac:(lia) eq_refl HT ltac:(lia)) as Eopen.
  cbn zeta in Eopen. rewrite <- Eout in Eopen.
  exists out', (BmpImage out' T w h 54 (padded_row w) false).
  assert (Henc : bmp_encode_rgb24 (Some pixels) w h stride (Some out) (Z.of_nat (length out)) false =
      Some (true, Some out', T)).
  { unfold bmp_encode_rgb24, INT32_MAX, UINT32_MAX, SIZE_MAX.
    rewrite (proj2 (Z.eqb_neq w 0)), (proj2 (Z.eqb_neq h 0)), (proj2 (Z.ltb_ge _ w)), (proj2 (Z.ltb_ge _ h)),
      (proj2 (Z.ltb_ge stride w)) by lia. cbn [orb]. rewrite Hspan.
    change BMP_MINIMUM_SIZE with 54.
    rewrite (u64_small (padded_row w * h)), (u64_small (54 + padded_row w * h)) by (unfold u64_ok, T in *; lia).
    fold T. rewrite (proj2 (Z.ltb_ge _ (padded_row w))), (proj2 (Z.ltb_ge _ (padded_row w * h))),
      (proj2 (Z.ltb_ge (2 ^ 32 - 1) T)), (proj2 (Z.ltb_ge (2 ^ 64 - 1) T)),
      (proj2 (Z.ltb_ge (Z.of_nat (length out)) T)) by (unfold T in *; lia). cbn [orb].
    rewrite Hrest, write_header_spec. cbn [mbind option_bind]. fold b0. by rewrite Erows. }
  split; [exact Henc|]. split; [lia|]. split.
  { apply list_eq. intros i. rewrite !lookup_drop.
    specialize (Hother (T + Z.of_nat i) ltac:(unfold T; lia)). unfold rd in Hother.
    rewrite (proj2 (Z.leb_le _ _)) in Hother by (unfold T; lia).
    replace (Z.to_nat (T + Z.of_nat i)) with (Z.to_nat T + i)%nat in Hother by (unfold T; lia).
    rewrite Hother. unfold b0, rest. rewrite lookup_app_r by (change (length (header_bytes _ _ _ _)) with 54%nat; unfold T; lia).
    change (length (header_bytes _ _ _ _)) with 54%nat.
    rewrite lookup_app_r by (rewrite length_replicate; unfold T; lia). rewrite length_replicate, lookup_drop.
    f_equal. unfold T. lia. }
  split; [exact Eopen|]. split; [done|]. split; [done|].
  intros x y Hx Hy.
  assert (Hok : image_ok (BmpImage out' T w h 54 (padded_row w) false)).
  { unfold image_ok. cbn [data_size image_data width height pixel_offset row_stride]. unfold T in *. lia. }
  destruct (get_pixel_run _ x y Hok Hx Hy) as (_ & _ & b & g & r & Eb & Eg & Er & ->).
  cbn [top_down height image_data row_stride pixel_offset] in *.
  destruct (Hpx (h - 1 - y) x ltac:(lia) Hx) as (c & Hc & P0 & P1 & P2).
  replace (h - 1 - (h - 1 - y)) with y in Hc by lia.
  replace (54 + (h - 1 - y) * padded_row w + 3 * x) with (54 + (h - 1 - y) * padded_row w + x * 3) in * by lia.
  rewrite P0 in Eb. rewrite P1 in Eg. rewrite P2 in Er. injection Eb as <-. injection Eg as <-. injection Er as <-.
  exists c. unfold rd in Hc. rewrite (proj2 (Z.leb_le _ _)) in Hc by nia. split; [done|].
  rewrite color_of_bytes; [done|]. rewrite Forall_forall in H32. by apply H32, list_elem_of_lookup_2 with (Z.to_nat (y * stride + x)).
Qed.

Lemma bmp_encode_open_roundtrip_witness :
  exists out' im, bmp_encode_rgb24 (Some [1; 0xFF00FF00; 9; 0x12345678; 5]) 2 2 3 (Some (replicate 80 7)) 80 false =
      Some (true, Some out', 70) /\
    bmp_open (Some out') 80 false = Some (Some im) /\
    bmp_get_pixel (Some im) 0 1 false = Some (Some 0xFF345678).
Proof.
  destruct (bmp_encode_open_roundtrip [1; 0xFF00FF00; 9; 0x12345678; 5] 2 2 3 (replicate 80 7))
    as (out' & im & E & Hl & _ & Ho & _ & _ & Hpix);
    [lia|lia|lia|vm_compute; congruence|repeat constructor; unfold u32_ok; lia|vm_compute; reflexivity|lia|lia
    |vm_compute; reflexivity|vm_compute; congruence|].
  exists out', im. split; [exact E|]. rewrite Hl in Ho. split; [exact Ho|].
  destruct (Hpix 0 1 ltac:(lia) ltac:(lia)) as (c & Hc & Hp). vm_compute in Hc. injection Hc as <-. exact Hp.
Defined.
