(* ===== verification/TcpState.v ===== *)
(** * kernel/tcp_client.c: the state of a connection

    [struct tcp_client] field by field.  The three function pointers of
    [struct tcp_client_io] are booleans here (true: not NULL); what they do is
    an argument of the operations in TcpClient.v. *)

From S2P Require Import Prelude.

Definition TCP_CLIENT_IPV4_PROTOCOL : Z := 6.
Definition TCP_CLIENT_MAX_SEGMENT_DATA : Z := 536.
Definition TCP_CLIENT_DEFAULT_RETRANSMIT_MS : Z := 250.
Definition TCP_CLIENT_DEFAULT_OPERATION_TIMEOUT_MS : Z := 5000.
Definition TCP_CLIENT_DEFAULT_MAX_RETRIES : Z := 4.
Definition TCP_CLIENT_CLOCK_STALL_SERVICE_LIMIT : Z := 1000000.

Inductive tcp_client_state :=
| TCP_CLIENT_CLOSED
| TCP_CLIENT_SYN_SENT
| TCP_CLIENT_ESTABLISHED
| TCP_CLIENT_FIN_WAIT_1
| TCP_CLIENT_FIN_WAIT_2
| TCP_CLIENT_CLOSING
| TCP_CLIENT_CLOSE_WAIT
| TCP_CLIENT_LAST_ACK
| TCP_CLIENT_FAILED.

Inductive tcp_client_error :=
| TCP_CLIENT_ERROR_NONE
| TCP_CLIENT_ERROR_INVALID_ARGUMENT
| TCP_CLIENT_ERROR_BUSY
| TCP_CLIENT_ERROR_NOT_CONNECTED
| TCP_CLIENT_ERROR_SEND_FAILED
| TCP_CLIENT_ERROR_TIMEOUT
| TCP_CLIENT_ERROR_RETRIES_EXHAUSTED
| TCP_CLIENT_ERROR_CLOCK_MOVED_BACKWARD
| TCP_CLIENT_ERROR_CLOCK_STALLED
| TCP_CLIENT_ERROR_RESET
| TCP_CLIENT_ERROR_RESPONSE_TOO_LARGE
| TCP_CLIENT_ERROR_PROTOCOL.

Inductive tcp_client_receive_result :=
| TCP_CLIENT_RECEIVE_IGNORED
| TCP_CLIENT_RECEIVE_ACCEPTED
| TCP_CLIENT_RECEIVE_BAD_CHECKSUM
| TCP_CLIENT_RECEIVE_MALFORMED
| TCP_CLIENT_RECEIVE_RESPONSE_TOO_LARGE.

Inductive tcp_client_operation :=
| TCP_CLIENT_OPERATION_NONE
| TCP_CLIENT_OPERATION_CONNECT
| TCP_CLIENT_OPERATION_SEND
| TCP_CLIENT_OPERATION_WAIT_FOR_PEER_CLOSE
| TCP_CLIENT_OPERATION_CLOSE.

Inductive tcp_client_step_result :=
| TCP_CLIENT_STEP_PENDING
| TCP_CLIENT_STEP_COMPLETE
| TCP_CLIENT_STEP_FAILED.

#[export] Instance tcp_client_state_eq : EqDecision tcp_client_state.
Proof. solve_decision. Defined.
#[export] Instance tcp_client_error_eq : EqDecision tcp_client_error.
Proof. solve_decision. Defined.
#[export] Instance tcp_client_operation_eq : EqDecision tcp_client_operation.
Proof. solve_decision. Defined.
#[export] Instance tcp_client_step_result_eq : EqDecision tcp_client_step_result.
Proof. solve_decision. Defined.

Record tcp_client := TcpClient {
  has_send : bool;
  has_now : bool;
  has_poll : bool;
  state : tcp_client_state;
  error : tcp_client_error;
  local_ip : Z;
  remote_ip : Z;
  local_port : Z;
  remote_port : Z;
  send_unacknowledged : Z;
  send_next : Z;
  receive_next : Z;
  receive_buffer : option (list Z);
  receive_capacity : Z;
  receive_length : Z;
  retransmit_ms : Z;
  operation_timeout_ms : Z;
  max_retries : Z;
  operation : tcp_client_operation;
  step_result : tcp_client_step_result;
  operation_started_at_ms : Z;
  operation_previous_now_ms : Z;
  operation_stalled_services : Z;
  pending_active : bool;
  pending_flags : Z;
  pending_sequence : Z;
  pending_end : Z;
  pending_length : Z;
  pending_data : list Z;
  pending_sent_at_ms : Z;
  pending_retries : Z;
  bad_checksum_count : Z;
  malformed_segment_count : Z;
}.

(** Assignments to one field. *)

Definition set_state (v : tcp_client_state) (c : tcp_client) : tcp_client :=
    TcpClient (has_send c) (has_now c) (has_poll c) v (error c) (local_ip c) (remote_ip c) (local_port c)
    (remote_port c) (send_unacknowledged c) (send_next c) (receive_next c) (receive_buffer c)
    (receive_capacity c) (receive_length c) (retransmit_ms c) (operation_timeout_ms c) (max_retries c)
    (operation c) (step_result c) (operation_started_at_ms c) (operation_previous_now_ms c)
    (operation_stalled_services c) (pending_active c) (pending_flags c) (pending_sequence c) (pending_end c)
    (pending_length c) (pending_data c) (pending_sent_at_ms c) (pending_retries c) (bad_checksum_count c)
    (malformed_segment_count c).
Definition set_error (v : tcp_client_error) (c : tcp_client) : tcp_client :=
    TcpClient (has_send c) (has_now c) (has_poll c) (state c) v (local_ip c) (remote_ip c) (local_port c)
    (remote_port c) (send_unacknowledged c) (send_next c) (receive_next c) (receive_buffer c)
    (receive_capacity c) (receive_length c) (retransmit_ms c) (operation_timeout_ms c) (max_retries c)
    (operation c) (step_result c) (operation_started_at_ms c) (operation_previous_now_ms c)
    (operation_stalled_services c) (pending_active c) (pending_flags c) (pending_sequence c) (pending_end c)
    (pending_length c) (pending_data c) (pending_sent_at_ms c) (pending_retries c) (bad_checksum_count c)
    (malformed_segment_count c).
Definition set_remote_ip (v : Z) (c : tcp_client) : tcp_client :=
    TcpClient (has_send c) (has_now c) (has_poll c) (state c) (error c) (local_ip c) v (local_port c)
    (remote_port c) (send_unacknowledged c) (send_next c) (receive_next c) (receive_buffer c)
    (receive_capacity c) (receive_length c) (retransmit_ms c) (operation_timeout_ms c) (max_retries c)
    (operation c) (step_result c) (operation_started_at_ms c) (operation_previous_now_ms c)
    (operation_stalled_services c) (pending_active c) (pending_flags c) (pending_sequence c) (pending_end c)
    (pending_length c) (pending_data c) (pending_sent_at_ms c) (pending_retries c) (bad_checksum_count c)
    (malformed_segment_count c).
Definition set_remote_port (v : Z) (c : tcp_client) : tcp_client :=
    TcpClient (has_send c) (has_now c) (has_poll c) (state c) (error c) (local_ip c) (remote_ip c)
    (local_port c) v (send_unacknowledged c) (send_next c) (receive_next c) (receive_buffer c)
    (receive_capacity c) (receive_length c) (retransmit_ms c) (operation_timeout_ms c) (max_retries c)
    (operation c) (step_result c) (operation_started_at_ms c) (operation_previous_now_ms c)
    (operation_stalled_services c) (pending_active c) (pending_flags c) (pending_sequence c) (pending_end c)
    (pending_length c) (pending_data c) (pending_sent_at_ms c) (pending_retries c) (bad_checksum_count c)
    (malformed_segment_count c).
Definition set_send_unacknowledged (v : Z) (c : tcp_client) : tcp_client :=
    TcpClient (has_send c) (has_now c) (has_poll c) (state c) (error c) (local_ip c) (remote_ip c)
    (local_port c) (remote_port c) v (send_next c) (receive_next c) (receive_buffer c) (receive_capacity c)
    (receive_length c) (retransmit_ms c) (operation_timeout_ms c) (max_retries c) (operation c) (step_result
    c) (operation_started_at_ms c) (operation_previous_now_ms c) (operation_stalled_services c)
    (pending_active c) (pending_flags c) (pending_sequence c) (pending_end c) (pending_length c)
    (pending_data c) (pending_sent_at_ms c) (pending_retries c) (bad_checksum_count c)
    (malformed_segment_count c).
Definition set_send_next (v : Z) (c : tcp_client) : tcp_client :=
    TcpClient (has_send c) (has_now c) (has_poll c) (state c) (error c) (local_ip c) (remote_ip c)
    (local_port c) (remote_port c) (send_unacknowledged c) v (receive_next c) (receive_buffer c)
    (receive_capacity c) (receive_length c) (retransmit_ms c) (operation_timeout_ms c) (max_retries c)
    (operation c) (step_result c) (operation_started_at_ms c) (operation_previous_now_ms c)
    (operation_stalled_services c) (pending_active c) (pending_flags c) (pending_sequence c) (pending_end c)
    (pending_length c) (pending_data c) (pending_sent_at_ms c) (pending_retries c) (bad_checksum_count c)
    (malformed_segment_count c).
Definition set_receive_next (v : Z) (c : tcp_client) : tcp_client :=
    TcpClient (has_send c) (has_now c) (has_poll c) (state c) (error c) (local_ip c) (remote_ip c)
    (local_port c) (remote_port c) (send_unacknowledged c) (send_next c) v (receive_buffer c)
    (receive_capacity c) (receive_length c) (retransmit_ms c) (operation_timeout_ms c) (max_retries c)
    (operation c) (step_result c) (operation_started_at_ms c) (operation_previous_now_ms c)
    (operation_stalled_services c) (pending_active c) (pending_flags c) (pending_sequence c) (pending_end c)
    (pending_length c) (pending_data c) (pending_sent_at_ms c) (pending_retries c) (bad_checksum_count c)
    (malformed_segment_count c).
Definition set_receive_buffer (v : option (list Z)) (c : tcp_client) : tcp_client :=
    TcpClient (has_send c) (has_now c) (has_poll c) (state c) (error c) (local_ip c) (remote_ip c)
    (local_port c) (remote_port c) (send_unacknowledged c) (send_next c) (receive_next c) v
    (receive_capacity c) (receive_length c) (retransmit_ms c) (operation_timeout_ms c) (max_retries c)
    (operation c) (step_result c) (operation_started_at_ms c) (operation_previous_now_ms c)
    (operation_stalled_services c) (pending_active c) (pending_flags c) (pending_sequence c) (pending_end c)
    (pending_length c) (pending_data c) (pending_sent_at_ms c) (pending_retries c) (bad_checksum_count c)
    (malformed_segment_count c).
Definition set_receive_length (v : Z) (c : tcp_client) : tcp_client :=
    TcpClient (has_send c) (has_now c) (has_poll c) (state c) (error c) (local_ip c) (remote_ip c)
    (local_port c) (remote_port c) (send_unacknowledged c) (send_next c) (receive_next c) (receive_buffer c)
    (receive_capacity c) v (retransmit_ms c) (operation_timeout_ms c) (max_retries c) (operation c)
    (step_result c) (operation_started_at_ms c) (operation_previous_now_ms c) (operation_stalled_services c)
    (pending_active c) (pending_flags c) (pending_sequence c) (pending_end c) (pending_length c)
    (pending_data c) (pending_sent_at_ms c) (pending_retries c) (bad_checksum_count c)
    (malformed_segment_count c).
Definition set_retransmit_ms (v : Z) (c : tcp_client) : tcp_client :=
    TcpClient (has_send c) (has_now c) (has_poll c) (state c) (error c) (local_ip c) (remote_ip c)
    (local_port c) (remote_port c) (send_unacknowledged c) (send_next c) (receive_next c) (receive_buffer c)
    (receive_capacity c) (receive_length c) v (operation_timeout_ms c) (max_retries c) (operation c)
    (step_result c) (operation_started_at_ms c) (operation_previous_now_ms c) (operation_stalled_services c)
    (pending_active c) (pending_flags c) (pending_sequence c) (pending_end c) (pending_length c)
    (pending_data c) (pending_sent_at_ms c) (pending_retries c) (bad_checksum_count c)
    (malformed_segment_count c).
Definition set_operation_timeout_ms (v : Z) (c : tcp_client) : tcp_client :=
    TcpClient (has_send c) (has_now c) (has_poll c) (state c) (error c) (local_ip c) (remote_ip c)
    (local_port c) (remote_port c) (send_unacknowledged c) (send_next c) (receive_next c) (receive_buffer c)
    (receive_capacity c) (receive_length c) (retransmit_ms c) v (max_retries c) (operation c) (step_result
    c) (operation_started_at_ms c) (operation_previous_now_ms c) (operation_stalled_services c)
    (pending_active c) (pending_flags c) (pending_sequence c) (pending_end c) (pending_length c)
    (pending_data c) (pending_sent_at_ms c) (pending_retries c) (bad_checksum_count c)
    (malformed_segment_count c).
Definition set_max_retries (v : Z) (c : tcp_client) : tcp_client :=
    TcpClient (has_send c) (has_now c) (has_poll c) (state c) (error c) (local_ip c) (remote_ip c)
    (local_port c) (remote_port c) (send_unacknowledged c) (send_next c) (receive_next c) (receive_buffer c)
    (receive_capacity c) (receive_length c) (retransmit_ms c) (operation_timeout_ms c) v (operation c)
    (step_result c) (operation_started_at_ms c) (operation_previous_now_ms c) (operation_stalled_services c)
    (pending_active c) (pending_flags c) (pending_sequence c) (pending_end c) (pending_length c)
    (pending_data c) (pending_sent_at_ms c) (pending_retries c) (bad_checksum_count c)
    (malformed_segment_count c).
Definition set_operation (v : tcp_client_operation) (c : tcp_client) : tcp_client :=
    TcpClient (has_send c) (has_now c) (has_poll c) (state c) (error c) (local_ip c) (remote_ip c)
    (local_port c) (remote_port c) (send_unacknowledged c) (send_next c) (receive_next c) (receive_buffer c)
    (receive_capacity c) (receive_length c) (retransmit_ms c) (operation_timeout_ms c) (max_retries c) v
    (step_result c) (operation_started_at_ms c) (operation_previous_now_ms c) (operation_stalled_services c)
    (pending_active c) (pending_flags c) (pending_sequence c) (pending_end c) (pending_length c)
    (pending_data c) (pending_sent_at_ms c) (pending_retries c) (bad_checksum_count c)
    (malformed_segment_count c).
Definition set_step_result (v : tcp_client_step_result) (c : tcp_client) : tcp_client :=
    TcpClient (has_send c) (has_now c) (has_poll c) (state c) (error c) (local_ip c) (remote_ip c)
    (local_port c) (remote_port c) (send_unacknowledged c) (send_next c) (receive_next c) (receive_buffer c)
    (receive_capacity c) (receive_length c) (retransmit_ms c) (operation_timeout_ms c) (max_retries c)
    (operation c) v (operation_started_at_ms c) (operation_previous_now_ms c) (operation_stalled_services c)
    (pending_active c) (pending_flags c) (pending_sequence c) (pending_end c) (pending_length c)
    (pending_data c) (pending_sent_at_ms c) (pending_retries c) (bad_checksum_count c)
    (malformed_segment_count c).
Definition set_operation_started_at_ms (v : Z) (c : tcp_client) : tcp_client :=
    TcpClient (has_send c) (has_now c) (has_poll c) (state c) (error c) (local_ip c) (remote_ip c)
    (local_port c) (remote_port c) (send_unacknowledged c) (send_next c) (receive_next c) (receive_buffer c)
    (receive_capacity c) (receive_length c) (retransmit_ms c) (operation_timeout_ms c) (max_retries c)
    (operation c) (step_result c) v (operation_previous_now_ms c) (operation_stalled_services c)
    (pending_active c) (pending_flags c) (pending_sequence c) (pending_end c) (pending_length c)
    (pending_data c) (pending_sent_at_ms c) (pending_retries c) (bad_checksum_count c)
    (malformed_segment_count c).
Definition set_operation_previous_now_ms (v : Z) (c : tcp_client) : tcp_client :=
    TcpClient (has_send c) (has_now c) (has_poll c) (state c) (error c) (local_ip c) (remote_ip c)
    (local_port c) (remote_port c) (send_unacknowledged c) (send_next c) (receive_next c) (receive_buffer c)
    (receive_capacity c) (receive_length c) (retransmit_ms c) (operation_timeout_ms c) (max_retries c)
    (operation c) (step_result c) (operation_started_at_ms c) v (operation_stalled_services c)
    (pending_active c) (pending_flags c) (pending_sequence c) (pending_end c) (pending_length c)
    (pending_data c) (pending_sent_at_ms c) (pending_retries c) (bad_checksum_count c)
    (malformed_segment_count c).
Definition set_operation_stalled_services (v : Z) (c : tcp_client) : tcp_client :=
    TcpClient (has_send c) (has_now c) (has_poll c) (state c) (error c) (local_ip c) (remote_ip c)
    (local_port c) (remote_port c) (send_unacknowledged c) (send_next c) (receive_next c) (receive_buffer c)
    (receive_capacity c) (receive_length c) (retransmit_ms c) (operation_timeout_ms c) (max_retries c)
    (operation c) (step_result c) (operation_started_at_ms c) (operation_previous_now_ms c) v
    (pending_active c) (pending_flags c) (pending_sequence c) (pending_end c) (pending_length c)
    (pending_data c) (pending_sent_at_ms c) (pending_retries c) (bad_checksum_count c)
    (malformed_segment_count c).
Definition set_pending_active (v : bool) (c : tcp_client) : tcp_client :=
    TcpClient (has_send c) (has_now c) (has_poll c) (state c) (error c) (local_ip c) (remote_ip c)
    (local_port c) (remote_port c) (send_unacknowledged c) (send_next c) (receive_next c) (receive_buffer c)
    (receive_capacity c) (receive_length c) (retransmit_ms c) (operation_timeout_ms c) (max_retries c)
    (operation c) (step_result c) (operation_started_at_ms c) (operation_previous_now_ms c)
    (operation_stalled_services c) v (pending_flags c) (pending_sequence c) (pending_end c) (pending_length
    c) (pending_data c) (pending_sent_at_ms c) (pending_retries c) (bad_checksum_count c)
    (malformed_segment_count c).
Definition set_pending_flags (v : Z) (c : tcp_client) : tcp_client :=
    TcpClient (has_send c) (has_now c) (has_poll c) (state c) (error c) (local_ip c) (remote_ip c)
    (local_port c) (remote_port c) (send_unacknowledged c) (send_next c) (receive_next c) (receive_buffer c)
    (receive_capacity c) (receive_length c) (retransmit_ms c) (operation_timeout_ms c) (max_retries c)
    (operation c) (step_result c) (operation_started_at_ms c) (operation_previous_now_ms c)
    (operation_stalled_services c) (pending_active c) v (pending_sequence c) (pending_end c) (pending_length
    c) (pending_data c) (pending_sent_at_ms c) (pending_retries c) (bad_checksum_count c)
    (malformed_segment_count c).
Definition set_pending_sequence (v : Z) (c : tcp_client) : tcp_client :=
    TcpClient (has_send c) (has_now c) (has_poll c) (state c) (error c) (local_ip c) (remote_ip c)
    (local_port c) (remote_port c) (send_unacknowledged c) (send_next c) (receive_next c) (receive_buffer c)
    (receive_capacity c) (receive_length c) (retransmit_ms c) (operation_timeout_ms c) (max_retries c)
    (operation c) (step_result c) (operation_started_at_ms c) (operation_previous_now_ms c)
    (operation_stalled_services c) (pending_active c) (pending_flags c) v (pending_end c) (pending_length c)
    (pending_data c) (pending_sent_at_ms c) (pending_retries c) (bad_checksum_count c)
    (malformed_segment_count c).
Definition set_pending_end (v : Z) (c : tcp_client) : tcp_client :=
    TcpClient (has_send c) (has_now c) (has_poll c) (state c) (error c) (local_ip c) (remote_ip c)
    (local_port c) (remote_port c) (send_unacknowledged c) (send_next c) (receive_next c) (receive_buffer c)
    (receive_capacity c) (receive_length c) (retransmit_ms c) (operation_timeout_ms c) (max_retries c)
    (operation c) (step_result c) (operation_started_at_ms c) (operation_previous_now_ms c)
    (operation_stalled_services c) (pending_active c) (pending_flags c) (pending_sequence c) v
    (pending_length c) (pending_data c) (pending_sent_at_ms c) (pending_retries c) (bad_checksum_count c)
    (malformed_segment_count c).
Definition set_pending_length (v : Z) (c : tcp_client) : tcp_client :=
    TcpClient (has_send c) (has_now c) (has_poll c) (state c) (error c) (local_ip c) (remote_ip c)
    (local_port c) (remote_port c) (send_unacknowledged c) (send_next c) (receive_next c) (receive_buffer c)
    (receive_capacity c) (receive_length c) (retransmit_ms c) (operation_timeout_ms c) (max_retries c)
    (operation c) (step_result c) (operation_started_at_ms c) (operation_previous_now_ms c)
    (operation_stalled_services c) (pending_active c) (pending_flags c) (pending_sequence c) (pending_end c)
    v (pending_data c) (pending_sent_at_ms c) (pending_retries c) (bad_checksum_count c)
    (malformed_segment_count c).
Definition set_pending_data (v : list Z) (c : tcp_client) : tcp_client :=
    TcpClient (has_send c) (has_now c) (has_poll c) (state c) (error c) (local_ip c) (remote_ip c)
    (local_port c) (remote_port c) (send_unacknowledged c) (send_next c) (receive_next c) (receive_buffer c)
    (receive_capacity c) (receive_length c) (retransmit_ms c) (operation_timeout_ms c) (max_retries c)
    (operation c) (step_result c) (operation_started_at_ms c) (operation_previous_now_ms c)
    (operation_stalled_services c) (pending_active c) (pending_flags c) (pending_sequence c) (pending_end c)
    (pending_length c) v (pending_sent_at_ms c) (pending_retries c) (bad_checksum_count c)
    (malformed_segment_count c).
Definition set_pending_sent_at_ms (v : Z) (c : tcp_client) : tcp_client :=
    TcpClient (has_send c) (has_now c) (has_poll c) (state c) (error c) (local_ip c) (remote_ip c)
    (local_port c) (remote_port c) (send_unacknowledged c) (send_next c) (receive_next c) (receive_buffer c)
    (receive_capacity c) (receive_length c) (retransmit_ms c) (operation_timeout_ms c) (max_retries c)
    (operation c) (step_result c) (operation_started_at_ms c) (operation_previous_now_ms c)
    (operation_stalled_services c) (pending_active c) (pending_flags c) (pending_sequence c) (pending_end c)
    (pending_length c) (pending_data c) v (pending_retries c) (bad_checksum_count c)
    (malformed_segment_count c).
Definition set_pending_retries (v : Z) (c : tcp_client) : tcp_client :=
    TcpClient (has_send c) (has_now c) (has_poll c) (state c) (error c) (local_ip c) (remote_ip c)
    (local_port c) (remote_port c) (send_unacknowledged c) (send_next c) (receive_next c) (receive_buffer c)
    (receive_capacity c) (receive_length c) (retransmit_ms c) (operation_timeout_ms c) (max_retries c)
    (operation c) (step_result c) (operation_started_at_ms c) (operation_previous_now_ms c)
    (operation_stalled_services c) (pending_active c) (pending_flags c) (pending_sequence c) (pending_end c)
    (pending_length c) (pending_data c) (pending_sent_at_ms c) v (bad_checksum_count c)
    (malformed_segment_count c).
Definition set_bad_checksum_count (v : Z) (c : tcp_client) : tcp_client :=
    TcpClient (has_send c) (has_now c) (has_poll c) (state c) (error c) (local_ip c) (remote_ip c)
    (local_port c) (remote_port c) (send_unacknowledged c) (send_next c) (receive_next c) (receive_buffer c)
    (receive_capacity c) (receive_length c) (retransmit_ms c) (operation_timeout_ms c) (max_retries c)
    (operation c) (step_result c) (operation_started_at_ms c) (operation_previous_now_ms c)
    (operation_stalled_services c) (pending_active c) (pending_flags c) (pending_sequence c) (pending_end c)
    (pending_length c) (pending_data c) (pending_sent_at_ms c) (pending_retries c) v
    (malformed_segment_count c).
Definition set_malformed_segment_count (v : Z) (c : tcp_client) : tcp_client :=
    TcpClient (has_send c) (has_now c) (has_poll c) (state c) (error c) (local_ip c) (remote_ip c)
    (local_port c) (remote_port c) (send_unacknowledged c) (send_next c) (receive_next c) (receive_buffer c)
    (receive_capacity c) (receive_length c) (retransmit_ms c) (operation_timeout_ms c) (max_retries c)
    (operation c) (step_result c) (operation_started_at_ms c) (operation_previous_now_ms c)
    (operation_stalled_services c) (pending_active c) (pending_flags c) (pending_sequence c) (pending_end c)
    (pending_length c) (pending_data c) (pending_sent_at_ms c) (pending_retries c) (bad_checksum_count c) v.

(** Evaluates field accesses after assignments. *)
Ltac tcp_simpl :=
  cbn [has_send has_now has_poll state error local_ip remote_ip local_port remote_port send_unacknowledged
       send_next receive_next receive_buffer receive_capacity receive_length retransmit_ms operation_timeout_ms
       max_retries operation step_result operation_started_at_ms operation_previous_now_ms
       operation_stalled_services pending_active pending_flags pending_sequence pending_end pending_length
       pending_data pending_sent_at_ms pending_retries bad_checksum_count malformed_segment_count set_state
       set_error set_remote_ip set_remote_port set_send_unacknowledged set_send_next set_receive_next
       set_receive_buffer set_receive_length set_retransmit_ms set_operation_timeout_ms set_max_retries
       set_operation set_step_result set_operation_started_at_ms set_operation_previous_now_ms
       set_operation_stalled_services set_pending_active set_pending_flags set_pending_sequence set_pending_end
       set_pending_length set_pending_data set_pending_sent_at_ms set_pending_retries set_bad_checksum_count
       set_malformed_segment_count].
Tactic Notation "tcp_simpl" "in" hyp(H) :=
  cbn [has_send has_now has_poll state error local_ip remote_ip local_port remote_port send_unacknowledged
       send_next receive_next receive_buffer receive_capacity receive_length retransmit_ms operation_timeout_ms
       max_retries operation step_result operation_started_at_ms operation_previous_now_ms
       operation_stalled_services pending_active pending_flags pending_sequence pending_end pending_length
       pending_data pending_sent_at_ms pending_retries bad_checksum_count malformed_segment_count set_state
       set_error set_remote_ip set_remote_port set_send_unacknowledged set_send_next set_receive_next
       set_receive_buffer set_receive_length set_retransmit_ms set_operation_timeout_ms set_max_retries
       set_operation set_step_result set_operation_started_at_ms set_operation_previous_now_ms
       set_operation_stalled_services set_pending_active set_pending_flags set_pending_sequence set_pending_end
       set_pending_length set_pending_data set_pending_sent_at_ms set_pending_retries set_bad_checksum_count
       set_malformed_segment_count] in H.
