(* ===== verification/TcpSegment.v ===== *)
(** * kernel/tcp_client.c: segments, sequence numbers and the checksum *)

From S2P Require Import Prelude.

Definition TCP_HEADER_LENGTH : Z := 20.
Definition TCP_FLAG_FIN : Z := 0x01.
Definition TCP_FLAG_SYN : Z := 0x02.
Definition TCP_FLAG_RST : Z := 0x04.
Definition TCP_FLAG_PSH : Z := 0x08.
Definition TCP_FLAG_ACK : Z := 0x10.
Definition TCP_FLAG_URG : Z := 0x20.

(** [flag f flags]: [(flags & f) != 0]. *)
Definition flag (f flags : Z) : bool := negb (Z.land flags f =? 0).

Definition read_u16 (bytes : list Z) (p : Z) : option Z :=
  b0 ← rd bytes p; b1 ← rd bytes (p + 1); Some (Z.lor (u16 (Z.shiftl b0 8)) b1).

Definition read_u32 (bytes : list Z) (p : Z) : option Z :=
  b0 ← rd bytes p; b1 ← rd bytes (p + 1); b2 ← rd bytes (p + 2); b3 ← rd bytes (p + 3);
  Some (Z.lor (Z.lor (Z.lor (u32 (Z.shiftl b0 24)) (u32 (Z.shiftl b1 16))) (u32 (Z.shiftl b2 8))) b3).

Definition write_u16 (bytes : list Z) (p value : Z) : option (list Z) :=
  bytes ← wr bytes p (Z.shiftr value 8); wr bytes (p + 1) value.

Definition write_u32 (bytes : list Z) (p value : Z) : option (list Z) :=
  bytes ← wr bytes p (Z.shiftr value 24); bytes ← wr bytes (p + 1) (Z.shiftr value 16);
  bytes ← wr bytes (p + 2) (Z.shiftr value 8); wr bytes (p + 3) value.

Definition sequence_before (left right : Z) : bool := i32 (u32 (left - right)) <? 0.
Definition sequence_after (left right : Z) : bool := 0 <? i32 (u32 (left - right)).

(** ** The checksum *)

(** [n] 16-bit words left, the next one at [i]. *)
Fixpoint sum_words (n : nat) (i : Z) (bytes : list Z) (sum : Z) : option Z :=
  match n with
  | O => Some sum
  | S n' => word ← read_u16 bytes i; sum_words n' (i + 2) bytes (u64 (sum + word))
  end.

(** [while ((sum >> 16) != 0)]; [None] when the fuel does not suffice. *)
Fixpoint fold_carries (fuel : nat) (sum : Z) : option Z :=
  match fuel with
  | O => None
  | S fuel' =>
      if Z.shiftr sum 16 =? 0 then Some sum
      else fold_carries fuel' (u64 (Z.land sum 0xFFFF + Z.shiftr sum 16))
  end.

Definition pseudo_header (src_ip dst_ip segment_length : Z) : Z :=
  u16 (Z.shiftr src_ip 16) + u16 src_ip + u16 (Z.shiftr dst_ip 16) + u16 dst_ip + 6 + u16 segment_length.

Definition tcp_client_checksum (src_ip dst_ip : Z) (segment : option (list Z)) (segment_length : Z)
    : option Z :=
  match segment with
  | None =>
      if negb (segment_length =? 0) then Some 0
      else
        sum ← fold_carries 8 (pseudo_header src_ip dst_ip 0);
        Some (u16 (Z.lnot sum))
  | Some bytes =>
      if 65535 <? segment_length then Some 0
      else
        sum ← sum_words (Z.to_nat (segment_length / 2)) 0 bytes
                (pseudo_header src_ip dst_ip segment_length);
        sum ← (if Z.land segment_length 1 =? 0 then Some sum
               else last ← rd bytes (segment_length - 1);
                    Some (u64 (sum + u16 (Z.shiftl last 8))));
        sum ← fold_carries 8 sum;
        Some (u16 (Z.lnot sum))
  end.

(** ** Building a segment: the body of [send_segment] up to the call of the IPv4 layer *)

Definition build_packet (local_ip remote_ip local_port remote_port sequence receive_next flags window : Z)
    (data : list Z) (data_length : Z) : option (list Z) :=
  let packet_length := TCP_HEADER_LENGTH + data_length in
  packet ← write_u16 (zeros packet_length) 0 local_port;
  packet ← write_u16 packet 2 remote_port;
  packet ← write_u32 packet 4 sequence;
  packet ← (if flag TCP_FLAG_ACK flags then write_u32 packet 8 receive_next else Some packet);
  packet ← wr packet 12 (Z.shiftl 5 4);
  packet ← wr packet 13 flags;
  packet ← write_u16 packet 14 window;
  packet ← (if data_length =? 0 then Some packet
            else copy_checked packet data TCP_HEADER_LENGTH 0 data_length);
  checksum ← tcp_client_checksum local_ip remote_ip (Some packet) packet_length;
  write_u16 packet 16 checksum.

(** ** Specification of the checksum *)

(** The 16-bit big-endian words of a byte string, an odd last byte padded with zero. *)
Fixpoint words (bytes : list Z) : list Z :=
  match bytes with
  | hi :: lo :: rest => (hi * 256 + lo) :: words rest
  | [hi] => [hi * 256]
  | [] => []
  end.

Definition word_sum (bytes : list Z) : Z := fold_right Z.add 0 (words bytes).

(** One's complement value of a positive sum: its residue modulo 65535 in 1..65535. *)
Definition residue (sum : Z) : Z := (sum - 1) mod 65535 + 1.

(** ** Lemmas *)

Lemma shift16 s : 0 <= s -> Z.land s 0xFFFF + Z.shiftr s 16 = s mod 65536 + s / 65536.
Proof.
  intros. change 0xFFFF with (Z.ones 16). rewrite Z.land_ones, Z.shiftr_div_pow2 by lia. done.
Qed.

Lemma residue_fold s : 65536 <= s -> residue (s mod 65536 + s / 65536) = residue s.
Proof.
  intros Hs. unfold residue. f_equal. pose proof (Z.div_mod s 65536 ltac:(lia)).
  replace (s - 1) with (s mod 65536 + s / 65536 - 1 + s / 65536 * 65535) by lia.
  by rewrite Z.mod_add.
Qed.

Lemma residue_small s : 0 < s < 65536 -> residue s = s.
Proof. intros. unfold residue. rewrite Z.mod_small by lia. lia. Qed.

(** Folding ends with the residue; [n] rounds suffice below the bound of [n]. *)
Lemma fold_carries_spec sum : 0 < sum < 2 ^ 48 -> fold_carries 8 sum = Some (residue sum).
Proof.
  assert (Hstep : forall fuel s b, 0 < s < b -> b <= 2 ^ 48 ->
            (forall s', 0 < s' < 65536 + b / 65536 -> fold_carries fuel s' = Some (residue s')) ->
            fold_carries (S fuel) s = Some (residue s)).
  { intros fuel s b Hs Hb Hrec. cbn [fold_carries]. rewrite shift16 by lia.
    rewrite Z.shiftr_div_pow2 by lia. change (2 ^ 16) with 65536.
    destruct (Z.eqb_spec (s / 65536) 0) as [E|E].
    - apply Z.div_small_iff in E; [|lia]. destruct E as [E|E]; [|lia]. by rewrite residue_small by lia.
    - pose proof (Z.div_mod s 65536 ltac:(lia)). pose proof (Z.mod_pos_bound s 65536 ltac:(lia)).
      pose proof (Z.div_le_mono s b 65536). pose proof (Z.div_pos s 65536).
      assert (s / 65536 <= s) by (apply Z.div_le_upper_bound; lia).
      rewrite u64_small by (unfold u64_ok; lia). rewrite Hrec by lia.
      by rewrite residue_fold by nia. }
  intros Hs. apply (Hstep 7%nat sum (2 ^ 48)); [done|lia|]. intros s1 H1.
  apply (Hstep 6%nat s1 (65536 + 2 ^ 48 / 65536)); [done|vm_compute; congruence|]. intros s2 H2.
  apply (Hstep 5%nat s2 (65536 + (65536 + 2 ^ 48 / 65536) / 65536)); [done|vm_compute; congruence|]. intros s3 H3.
  change (65536 + (65536 + (65536 + 2 ^ 48 / 65536) / 65536) / 65536) with 65538 in H3.
  apply (Hstep 4%nat s3 65538); [done|lia|]. intros s4 H4. change (65536 + 65538 / 65536) with 65537 in H4.
  apply (Hstep 3%nat s4 65537); [done|lia|]. intros s5 H5. change (65536 + 65537 / 65536) with 65537 in H5.
  cbn [fold_carries]. rewrite Z.shiftr_div_pow2 by lia. change (2 ^ 16) with 65536.
  destruct (Z.eq_dec s5 65536) as [->|]; [done|].
  rewrite (Z.div_small s5) by lia. cbn [Z.eqb]. by rewrite residue_small by lia.
Qed.

Lemma words_app a b : Nat.Even (length a) -> words (a ++ b) = words a ++ words b.
Proof.
  intros [n Hn]. revert a Hn. induction n as [|n IH]; intros a Hn.
  - assert (a = []) as -> by (apply length_zero_iff_nil; lia). done.
  - destruct a as [|x [|y a]]; cbn [length] in Hn; try lia. cbn [app words]. rewrite IH by lia. done.
Qed.

Lemma word_sum_app a b : Nat.Even (length a) -> word_sum (a ++ b) = word_sum a + word_sum b.
Proof.
  intros H. unfold word_sum. rewrite words_app by done.
  induction (words a) as [|x l IH]; cbn [app fold_right]; lia.
Qed.

Lemma word_sum_range bytes : bytes_ok bytes -> 0 <= word_sum bytes <= 65535 * Z.of_nat (length bytes).
Proof.
  assert (H : forall n bytes, (length bytes <= n)%nat -> bytes_ok bytes ->
            0 <= word_sum bytes <= 65535 * Z.of_nat (length bytes)).
  { clear. induction n as [|n IH]; intros [|x [|y l]] Hl Hb; cbn [length] in *; try lia;
      unfold word_sum; cbn [words fold_right]; try lia.
    - apply Forall_cons in Hb as [Hx _]. unfold byte_ok in Hx. lia.
    - apply Forall_cons in Hb as [Hx Hb]. apply Forall_cons in Hb as [Hy Hb]. unfold byte_ok in *.
      specialize (IH l ltac:(lia) Hb). unfold word_sum in IH. lia. }
  intros Hb. by apply (H (length bytes)).
Qed.

Lemma be_word hi lo : byte_ok hi -> byte_ok lo -> Z.lor (u16 (Z.shiftl hi 8)) lo = hi * 256 + lo.
Proof.
  unfold byte_ok. intros Hh Hl. rewrite Z.shiftl_mul_pow2 by lia. change (2 ^ 8) with 256.
  rewrite u16_mod, Z.mod_small by lia. replace (hi * 256) with (Z.shiftl hi 8) by (by rewrite Z.shiftl_mul_pow2 by lia).
  assert (E : Z.land (Z.shiftl hi 8) lo = 0).
  { apply Z.bits_inj'. intros i Hi. rewrite Z.land_spec, Z.shiftl_spec, Z.bits_0 by lia.
    destruct (Z.ltb_spec i 8) as [Hi8|Hi8]; [by rewrite (Z.testbit_neg_r hi) by lia|].
    destruct (Z.eq_dec lo 0) as [->|]; [by rewrite Z.bits_0, andb_false_r|].
    rewrite (Z.bits_above_log2 lo), andb_false_r; [done|lia|].
    apply Z.lt_le_trans with 8; [apply Z.log2_lt_pow2; lia|lia]. }
  by rewrite Z.add_nocarry_lxor, Z.lxor_lor.
Qed.

Lemma rd_be bytes p : bytes_ok bytes -> 0 <= p -> p + 2 <= Z.of_nat (length bytes) ->
  exists hi lo, bytes !! Z.to_nat p = Some hi /\ bytes !! S (Z.to_nat p) = Some lo /\ byte_ok hi /\ byte_ok lo /\
    read_u16 bytes p = Some (hi * 256 + lo).
Proof.
  intros Hb H0 H1. unfold read_u16.
  destruct (rd_Some bytes p ltac:(lia)) as [hi Eh]. destruct (rd_Some bytes (p + 1) ltac:(lia)) as [lo El].
  rewrite Eh, El. cbn [mbind option_bind]. pose proof (rd_byte _ _ _ Hb Eh). pose proof (rd_byte _ _ _ Hb El).
  exists hi, lo. unfold rd in Eh, El. rewrite (proj2 (Z.leb_le 0 p)) in Eh by lia.
  rewrite (proj2 (Z.leb_le 0 (p + 1))) in El by lia.
  replace (Z.to_nat (p + 1)) with (S (Z.to_nat p)) in El by lia.
  split; [done|]. split; [done|]. split; [done|]. split; [done|]. by rewrite be_word.
Qed.

(** The loop sums the words it covers. *)
Lemma sum_words_spec n i bytes sum :
  bytes_ok bytes -> 0 <= i -> i + 2 * Z.of_nat n <= Z.of_nat (length bytes) ->
  0 <= sum -> sum + 65536 * Z.of_nat n < 2 ^ 48 ->
  sum_words n i bytes sum = Some (sum + word_sum (slice bytes (Z.to_nat i) (2 * n))).
Proof.
  intros Hb. revert i sum. induction n as [|n IH]; intros i sum Hi Hl Hs Hbound; cbn [sum_words].
  { unfold slice. cbn [Nat.mul take]. f_equal. unfold word_sum. simpl. lia. }
  destruct (rd_be bytes i Hb Hi ltac:(lia)) as (hi & lo & Eh & El & Bh & Bl & ->). cbn [mbind option_bind].
  unfold byte_ok in *. rewrite u64_small by (unfold u64_ok; lia).
  rewrite IH by lia. f_equal. replace (Z.to_nat (i + 2)) with (S (S (Z.to_nat i))) by lia.
  unfold slice. replace (2 * S n)%nat with (S (S (2 * n))) by lia.
  rewrite (drop_S _ _ _ Eh), (drop_S _ _ _ El). cbn [take]. unfold word_sum. cbn [words fold_right]. lia.
Qed.

Lemma u16_range z : 0 <= u16 z < 65536.
Proof. rewrite u16_mod. apply Z.mod_pos_bound. lia. Qed.

Lemma u16_small z : 0 <= z < 65536 -> u16 z = z.
Proof. intros. rewrite u16_mod. by apply Z.mod_small. Qed.

Lemma pseudo_header_range a b n : 6 <= pseudo_header a b n <= 5 * 65535 + 6.
Proof.
  unfold pseudo_header. pose proof (u16_range (Z.shiftr a 16)). pose proof (u16_range a).
  pose proof (u16_range (Z.shiftr b 16)). pose proof (u16_range b). pose proof (u16_range n). lia.
Qed.

Lemma residue_range s : 1 <= residue s <= 65535.
Proof. unfold residue. pose proof (Z.mod_pos_bound (s - 1) 65535). lia. Qed.

Lemma lnot_u16 s : 0 <= s <= 65535 -> u16 (Z.lnot s) = 65535 - s.
Proof.
  intros. rewrite u16_mod. change (2 ^ 16) with 65536.
  replace (Z.lnot s) with (65535 - s + (-1) * 65536) by (unfold Z.lnot; lia).
  rewrite Z.mod_add, Z.mod_small by lia. done.
Qed.

(** The value of the checksum, for even and odd lengths. *)
Lemma checksum_spec src dst bytes :
  bytes_ok bytes -> Z.of_nat (length bytes) <= 65535 ->
  tcp_client_checksum src dst (Some bytes) (Z.of_nat (length bytes)) =
    Some (65535 - residue (pseudo_header src dst (Z.of_nat (length bytes)) + word_sum bytes)).
Proof.
  intros Hb Hl. unfold tcp_client_checksum. rewrite (proj2 (Z.ltb_ge _ _)) by lia.
  set (n := Z.of_nat (length bytes)) in *.
  pose proof (pseudo_header_range src dst n) as Hp. set (P := pseudo_header src dst n) in *.
  pose proof (Z.div_mod n 2 ltac:(lia)). pose proof (Z.mod_pos_bound n 2 ltac:(lia)).
  pose proof (word_sum_range bytes Hb) as Hws. fold n in Hws.
  rewrite sum_words_spec by (done || lia). cbn [mbind option_bind Z.to_nat].
  change 1 with (Z.ones 1) at 1. rewrite Z.land_ones by lia. change (2 ^ 1) with 2.
  set (k := Z.to_nat (n / 2)). unfold slice. rewrite drop_0.
  assert (Htake : 0 <= word_sum (take (2 * k) bytes)).
  { apply word_sum_range. by apply Forall_take. }
  assert (Hsum : (if n mod 2 =? 0 then Some (P + word_sum (take (2 * k) bytes))
     else last ← rd bytes (n - 1); Some (u64 (P + word_sum (take (2 * k) bytes) + u16 (Z.shiftl last 8))))
     = Some (P + word_sum bytes)).
  { destruct (Z.eqb_spec (n mod 2) 0) as [E|E].
    - rewrite take_ge by lia. done.
    - destruct (rd_Some bytes (n - 1) ltac:(lia)) as [c Ec]. rewrite Ec. cbn [mbind option_bind].
      pose proof (rd_byte _ _ _ Hb Ec) as Bc. unfold byte_ok in Bc.
      assert (Esplit : bytes = take (2 * k) bytes ++ [c]).
      { rewrite <- (take_drop (2 * k) bytes) at 1. f_equal. unfold rd in Ec.
        rewrite (proj2 (Z.leb_le 0 (n - 1))) in Ec by lia.
        replace (Z.to_nat (n - 1)) with (2 * k)%nat in Ec by lia.
        rewrite (drop_S _ _ _ Ec). f_equal. apply drop_ge. lia. }
      assert (Ews : word_sum bytes = word_sum (take (2 * k) bytes) + c * 256).
      { rewrite Esplit at 1. rewrite word_sum_app.
        - unfold word_sum at 2. cbn [words fold_right]. lia.
        - exists k. rewrite length_take. lia. }
      rewrite Z.shiftl_mul_pow2 by lia. change (2 ^ 8) with 256.
      rewrite u16_small by lia. rewrite u64_small by (unfold u64_ok; lia). f_equal. lia. }
  rewrite Hsum. cbn [mbind option_bind]. rewrite fold_carries_spec by lia. cbn [mbind option_bind].
  pose proof (residue_range (P + word_sum bytes)). by rewrite lnot_u16 by lia.
Qed.

Lemma residue_complement x : residue (x + (65535 - residue x)) = 65535.
Proof.
  unfold residue at 2. pose proof (Z.div_mod (x - 1) 65535 ltac:(lia)).
  replace (x + (65535 - ((x - 1) mod 65535 + 1))) with (65535 + (x - 1) / 65535 * 65535) by lia.
  unfold residue. replace (65535 + (x - 1) / 65535 * 65535 - 1) with (65534 + (x - 1) / 65535 * 65535) by lia.
  rewrite Z.mod_add by lia. done.
Qed.

(** The header as bytes, with checksum [c]. *)
Definition header (local_port remote_port sequence acknowledgment flags window c : Z) : list Z :=
  let be16 v := [u8 (Z.shiftr v 8); u8 v] in
  let be32 v := [u8 (Z.shiftr v 24); u8 (Z.shiftr v 16); u8 (Z.shiftr v 8); u8 v] in
  be16 local_port ++ be16 remote_port ++ be32 sequence ++ be32 acknowledgment ++ [80; u8 flags] ++
  be16 window ++ be16 c ++ [0; 0].

Lemma header_bytes_ok lp rp s a f w c : bytes_ok (header lp rp s a f w c).
Proof.
  unfold header, bytes_ok. cbn [app].
  repeat (constructor; [first [apply u8_range | (unfold byte_ok; lia)]|]). constructor.
Qed.

Lemma be16_val v : 0 <= v < 65536 -> u8 (Z.shiftr v 8) * 256 + u8 v = v.
Proof.
  intros. rewrite !u8_mod, Z.shiftr_div_pow2 by lia. change (2 ^ 8) with 256.
  rewrite (Z.mod_small (v / 256)) by (split; [apply Z.div_pos; lia|apply Z.div_lt_upper_bound; lia]).
  pose proof (Z.div_mod v 256 ltac:(lia)). lia.
Qed.

Lemma word_sum_header lp rp s a f w c :
  0 <= c < 65536 -> word_sum (header lp rp s a f w c) = word_sum (header lp rp s a f w 0) + c.
Proof.
  intros Hc. unfold header, word_sum. cbn [app words fold_right].
  change (u8 (Z.shiftr 0 8)) with 0. change (u8 0) with 0. pose proof (be16_val c Hc). lia.
Qed.

Lemma if_Some_app {A} (b : bool) (x y r : list A) :
  (if b then Some (x ++ r) else Some (y ++ r)) = Some ((if b then x else y) ++ r).
Proof. by destruct b. Qed.

(** Reading a header back. *)
Lemma be_bytes_u16 v : 0 <= v < 2 ^ 16 -> Z.lor (u16 (Z.shiftl (u8 (Z.shiftr v 8)) 8)) (u8 v) = v.
Proof. intros. rewrite be_word by apply u8_range. apply be16_val. lia. Qed.

Lemma lor_shift a b i : 0 <= i -> 0 <= a -> 0 <= b < 2 ^ i -> Z.lor (Z.shiftl a i) b = a * 2 ^ i + b.
Proof.
  intros Hi Ha Hb. rewrite <- Z.shiftl_mul_pow2 by done.
  assert (E : Z.land (Z.shiftl a i) b = 0).
  { apply Z.bits_inj'. intros j Hj. rewrite Z.land_spec, Z.shiftl_spec, Z.bits_0 by lia.
    destruct (Z.ltb_spec j i) as [Hji|Hji]; [by rewrite (Z.testbit_neg_r a) by lia|].
    destruct (Z.eq_dec b 0) as [->|]; [by rewrite Z.bits_0, andb_false_r|].
    rewrite (Z.bits_above_log2 b), andb_false_r; [done|lia|].
    apply Z.lt_le_trans with i; [apply Z.log2_lt_pow2; lia|lia]. }
  by rewrite Z.add_nocarry_lxor, Z.lxor_lor.
Qed.

Lemma be_bytes_u32 v : u32_ok v ->
  Z.lor (Z.lor (Z.lor (u32 (Z.shiftl (u8 (Z.shiftr v 24)) 24)) (u32 (Z.shiftl (u8 (Z.shiftr v 16)) 16)))
    (u32 (Z.shiftl (u8 (Z.shiftr v 8)) 8))) (u8 v) = v.
Proof.
  unfold u32_ok. intros Hv.
  pose proof (u8_range (Z.shiftr v 24)) as R3. pose proof (u8_range (Z.shiftr v 16)) as R2.
  pose proof (u8_range (Z.shiftr v 8)) as R1. pose proof (u8_range v) as R0.
  assert (Hsum : v = u8 (Z.shiftr v 24) * 2 ^ 24 + (u8 (Z.shiftr v 16) * 2 ^ 16 + (u8 (Z.shiftr v 8) * 2 ^ 8 + u8 v))).
  { rewrite !u8_mod, !Z.shiftr_div_pow2 by lia. rewrite (Z.mod_small (v / 2 ^ 24)) by
      (split; [apply Z.div_pos; lia|apply Z.div_lt_upper_bound; lia]).
    pose proof (Z.div_mod v 256 ltac:(lia)). pose proof (Z.div_mod (v / 256) 256 ltac:(lia)).
    pose proof (Z.div_mod (v / 256 / 256) 256 ltac:(lia)).
    change (2 ^ 24) with (256 * (256 * 256)). change (2 ^ 16) with (256 * 256). change (2 ^ 8) with 256.
    rewrite <- !Z.div_div in * by lia. lia. }
  unfold byte_ok in *. rewrite !u32_small by (unfold u32_ok; rewrite Z.shiftl_mul_pow2; lia).
  rewrite <- !Z.lor_assoc. rewrite (lor_shift _ (u8 v) 8) by lia.
  rewrite (lor_shift _ _ 16) by lia. rewrite (lor_shift _ _ 24) by lia. by symmetry.
Qed.

Lemma header_u16_0 lp rp s a f w c rest : 0 <= lp < 2 ^ 16 -> read_u16 (header lp rp s a f w c ++ rest) 0 = Some lp.
Proof. intros. change (Some (Z.lor (u16 (Z.shiftl (u8 (Z.shiftr lp 8)) 8)) (u8 lp)) = Some lp). by rewrite be_bytes_u16. Qed.

Lemma header_u16_2 lp rp s a f w c rest : 0 <= rp < 2 ^ 16 -> read_u16 (header lp rp s a f w c ++ rest) 2 = Some rp.
Proof. intros. change (Some (Z.lor (u16 (Z.shiftl (u8 (Z.shiftr rp 8)) 8)) (u8 rp)) = Some rp). by rewrite be_bytes_u16. Qed.

Lemma header_u32_4 lp rp s a f w c rest : u32_ok s -> read_u32 (header lp rp s a f w c ++ rest) 4 = Some s.
Proof. intros H. rewrite <- (be_bytes_u32 s H) at 2. reflexivity. Qed.

Lemma header_u32_8 lp rp s a f w c rest : u32_ok a -> read_u32 (header lp rp s a f w c ++ rest) 8 = Some a.
Proof. intros H. rewrite <- (be_bytes_u32 a H) at 2. reflexivity. Qed.

(** What [build_packet] builds. *)
Lemma build_packet_spec lip rip lp rp s rn f w data n :
  bytes_ok data -> 0 <= n <= Z.of_nat (length data) -> n <= 65515 ->
  let a := if flag TCP_FLAG_ACK f then rn else 0 in
  let body := take (Z.to_nat n) data in
  exists c, 0 <= c < 65536 /\
    build_packet lip rip lp rp s rn f w data n = Some (header lp rp s a f w c ++ body) /\
    tcp_client_checksum lip rip (Some (header lp rp s a f w c ++ body)) (20 + n) = Some 0.
Proof.
  intros Hd Hn Hn'. cbn zeta. set (a := if flag TCP_FLAG_ACK f then rn else 0).
  set (body := take (Z.to_nat n) data).
  assert (Hbody : Z.of_nat (length body) = n) by (unfold body; rewrite length_take; lia).
  assert (Hok : forall c, bytes_ok (header lp rp s a f w c ++ body)).
  { intros c. apply Forall_app_2; [apply header_bytes_ok|by apply Forall_take]. }
  assert (Hlen : forall c, Z.of_nat (length (header lp rp s a f w c ++ body)) = 20 + n).
  { intros c. rewrite length_app. change (length (header lp rp s a f w c)) with 20%nat. lia. }
  set (c := 65535 - residue (pseudo_header lip rip (20 + n) + word_sum (header lp rp s a f w 0 ++ body))).
  assert (Hc : 0 <= c < 65536).
  { pose proof (residue_range (pseudo_header lip rip (20 + n) + word_sum (header lp rp s a f w 0 ++ body))).
    unfold c. lia. }
  exists c. split; [done|]. split.
  - unfold build_packet, TCP_HEADER_LENGTH, write_u16, write_u32.
    assert (Hz : zeros (20 + n) = zeros 20 ++ zeros n).
    { unfold zeros. by rewrite Z2Nat.inj_add, replicate_add by lia. }
    rewrite Hz. assert (Hl : length (zeros 20) = 20%nat) by reflexivity.
    repeat (rewrite wr_app by (rewrite ?length_insert, Hl; lia); cbn [mbind option_bind]).
    rewrite if_Some_app. cbn [mbind option_bind].
    set (h1 := if flag TCP_FLAG_ACK f then _ else _).
    assert (Hh1 : length h1 = 20%nat) by (unfold h1; destruct (flag TCP_FLAG_ACK f); by rewrite !length_insert).
    repeat (rewrite wr_app by (rewrite ?length_insert, Hh1; lia); cbn [mbind option_bind]).
    set (h2 := <[_ := _]> (<[_ := _]> (<[_ := _]> (<[_ := _]> h1)))).
    assert (Eh2 : h2 = header lp rp s a f w 0) by (unfold h2, h1, a; by destruct (flag TCP_FLAG_ACK f)).
    assert (Hcopy : (if n =? 0 then Some (h2 ++ zeros n) else copy_checked (h2 ++ zeros n) data 20 0 n)
              = Some (header lp rp s a f w 0 ++ body)).
    { rewrite Eh2. destruct (Z.eqb_spec n 0) as [->|Hn0]; [done|].
      assert (Hlz : length (header lp rp s a f w 0 ++ zeros n) = (20 + Z.to_nat n)%nat)
        by (rewrite length_app, length_zeros by lia; reflexivity).
      unfold copy_checked. rewrite Hlz.
      rewrite (proj2 (Z.leb_le 0 20)), (proj2 (Z.leb_le 0 0)), (proj2 (Z.leb_le 0 n)),
        (proj2 (Z.leb_le (20 + n) (Z.of_nat (20 + Z.to_nat n)))),
        (proj2 (Z.leb_le (0 + n) (Z.of_nat (length data)))) by lia.
      cbn [andb]. f_equal.
      rewrite memcpy_at_in.
      - change (Z.to_nat 0) with O. unfold slice. rewrite drop_0. fold body.
        change (Z.to_nat 20) with (length (header lp rp s a f w 0)) at 1. rewrite take_app_length.
        rewrite drop_ge, app_nil_r; [done|]. rewrite Hlz. lia.
      - unfold slice. rewrite length_take, length_drop, Hlz. lia. }
    rewrite Hcopy. cbn [mbind option_bind]. rewrite <- (Hlen 0).
    rewrite checksum_spec by (apply Hok || (rewrite Hlen; lia)). cbn [mbind option_bind].
    rewrite Hlen. fold c.
    rewrite wr_app by (change (length (header lp rp s a f w 0)) with 20%nat; lia). cbn [mbind option_bind].
    rewrite wr_app by (rewrite length_insert; change (length (header lp rp s a f w 0)) with 20%nat; lia).
    done.
  - rewrite <- (Hlen c). rewrite checksum_spec by (apply Hok || (rewrite Hlen; lia)). rewrite Hlen.
    assert (He : Nat.Even (length (header lp rp s a f w 0))) by (exists 10%nat; reflexivity).
    assert (He' : Nat.Even (length (header lp rp s a f w c))) by (exists 10%nat; reflexivity).
    rewrite (word_sum_app _ body He'), word_sum_header by done.
    assert (E : pseudo_header lip rip (20 + n) + (word_sum (header lp rp s a f w 0) + c + word_sum body)
      = pseudo_header lip rip (20 + n) + word_sum (header lp rp s a f w 0 ++ body) + c)
      by (rewrite (word_sum_app _ body He); lia).
    rewrite E. unfold c. by rewrite residue_complement.
Qed.
