(* ===== verification/TcpClient.v ===== *)
(** * kernel/tcp_client.c: the operations of a connection

    One definition per function of the file, on an explicit client state and
    an abstract world [W] behind the callbacks of [struct tcp_client_io].
    [None] is an access outside an object or a call through a NULL pointer;
    a NULL client is the argument [None] of the public functions that test
    for it.  The blocking functions take fuel for their loop. *)

From S2P Require Import Prelude TcpState TcpSegment.

(** ** Steps that only change the client *)

Definition advertised_window (client : tcp_client) : Z :=
  let remaining := u64 (receive_capacity client - receive_length client) in
  u16 (if 65535 <? remaining then 65535 else remaining).

Definition fail_client (e : tcp_client_error) (client : tcp_client) : tcp_client :=
  set_step_result TCP_CLIENT_STEP_FAILED (set_pending_active false
    (set_state TCP_CLIENT_FAILED (set_error e client))).

Definition operation_is_busy (client : tcp_client) : bool :=
  negb (bool_decide (operation client = TCP_CLIENT_OPERATION_NONE)) &&
  bool_decide (step_result client = TCP_CLIENT_STEP_PENDING).

Definition operation_goal_reached (client : tcp_client) : bool :=
  match operation client with
  | TCP_CLIENT_OPERATION_NONE => true
  | TCP_CLIENT_OPERATION_CONNECT => bool_decide (state client = TCP_CLIENT_ESTABLISHED)
  | TCP_CLIENT_OPERATION_SEND => negb (pending_active client)
  | TCP_CLIENT_OPERATION_WAIT_FOR_PEER_CLOSE =>
      bool_decide (state client = TCP_CLIENT_CLOSE_WAIT) || bool_decide (state client = TCP_CLIENT_CLOSED)
  | TCP_CLIENT_OPERATION_CLOSE => bool_decide (state client = TCP_CLIENT_CLOSED)
  end.

(** The client after the call; its [step_result] is the value returned. *)
Definition complete_if_reached (client : tcp_client) : tcp_client :=
  if bool_decide (state client = TCP_CLIENT_FAILED) then set_step_result TCP_CLIENT_STEP_FAILED client
  else if operation_goal_reached client then
    set_error TCP_CLIENT_ERROR_NONE (set_step_result TCP_CLIENT_STEP_COMPLETE client)
  else client.

(** Always returns [TCP_CLIENT_STEP_FAILED]; the client is not NULL at any call. *)
Definition reject_operation (op : tcp_client_operation) (e : tcp_client_error) (client : tcp_client)
    : tcp_client :=
  if operation_is_busy client then set_error TCP_CLIENT_ERROR_BUSY client
  else set_error e (set_step_result TCP_CLIENT_STEP_FAILED (set_operation op client)).

Definition tcp_client_init (io : option (bool * bool * bool)) (local_ip local_port : Z)
    (receive_buffer : option (list Z)) (receive_capacity : Z) : tcp_client :=
  let '(has_send, has_now, has_poll) := default (false, false, false) io in
  let client := TcpClient has_send has_now has_poll TCP_CLIENT_CLOSED TCP_CLIENT_ERROR_NONE
    local_ip 0 local_port 0 0 0 0 receive_buffer receive_capacity 0
    TCP_CLIENT_DEFAULT_RETRANSMIT_MS TCP_CLIENT_DEFAULT_OPERATION_TIMEOUT_MS TCP_CLIENT_DEFAULT_MAX_RETRIES
    TCP_CLIENT_OPERATION_NONE TCP_CLIENT_STEP_COMPLETE 0 0 0
    false 0 0 0 0 (zeros TCP_CLIENT_MAX_SEGMENT_DATA) 0 0 0 0 in
  if (negb (bool_decide (is_Some receive_buffer)) && negb (receive_capacity =? 0)) ||
     negb (bool_decide (is_Some io)) || negb has_send || negb has_now || (local_port =? 0)
  then set_error TCP_CLIENT_ERROR_INVALID_ARGUMENT client else client.

Definition tcp_client_set_timeouts (client : option tcp_client) (retransmit operation_timeout retries : Z)
    : bool * option tcp_client :=
  match client with
  | None => (false, None)
  | Some c =>
      if (retransmit =? 0) || (operation_timeout <? retransmit) then
        (false, Some (set_error TCP_CLIENT_ERROR_INVALID_ARGUMENT c))
      else if negb (bool_decide (state c = TCP_CLIENT_CLOSED)) then
        (false, Some (set_error TCP_CLIENT_ERROR_BUSY c))
      else
        (true, Some (set_error TCP_CLIENT_ERROR_NONE (set_max_retries retries
           (set_operation_timeout_ms operation_timeout (set_retransmit_ms retransmit c)))))
  end.

Definition count_malformed (client : tcp_client) : tcp_client :=
  set_malformed_segment_count (u32 (malformed_segment_count client + 1)) client.

(** [false]: the acknowledgment was refused. *)
Definition acknowledge_pending (acknowledgment : Z) (client : tcp_client) : bool * tcp_client :=
  if sequence_after acknowledgment (send_next client) then
    (false, count_malformed client)
  else if sequence_before acknowledgment (send_unacknowledged client) then (true, client)
  else
    let client := set_send_unacknowledged acknowledgment client in
    if negb (pending_active client) || negb (acknowledgment =? pending_end client) then (true, client)
    else
      let client := set_pending_active false client in
      if flag TCP_FLAG_FIN (pending_flags client) then
        (true,
         match state client with
         | TCP_CLIENT_FIN_WAIT_1 => set_state TCP_CLIENT_FIN_WAIT_2 client
         | TCP_CLIENT_CLOSING | TCP_CLIENT_LAST_ACK => set_state TCP_CLIENT_CLOSED client
         | _ => client
         end)
      else (true, client).

(** ** Getters *)

Definition tcp_client_get_state (client : option tcp_client) : tcp_client_state :=
  from_option state TCP_CLIENT_FAILED client.

Definition tcp_client_get_error (client : option tcp_client) : tcp_client_error :=
  from_option error TCP_CLIENT_ERROR_INVALID_ARGUMENT client.

Definition tcp_client_get_operation (client : option tcp_client) : tcp_client_operation :=
  from_option operation TCP_CLIENT_OPERATION_NONE client.

Definition tcp_client_get_step_result (client : option tcp_client) : tcp_client_step_result :=
  match client with
  | None => TCP_CLIENT_STEP_FAILED
  | Some c => if bool_decide (state c = TCP_CLIENT_FAILED) then TCP_CLIENT_STEP_FAILED else step_result c
  end.

Definition tcp_client_received_data (client : option tcp_client) : option (list Z) :=
  client ≫= receive_buffer.

Definition tcp_client_received_length (client : option tcp_client) : Z :=
  from_option receive_length 0 client.

Definition tcp_client_error_string (e : tcp_client_error) : string :=
  match e with
  | TCP_CLIENT_ERROR_NONE => "no error"
  | TCP_CLIENT_ERROR_INVALID_ARGUMENT => "invalid TCP client argument"
  | TCP_CLIENT_ERROR_BUSY => "TCP client already has a connection"
  | TCP_CLIENT_ERROR_NOT_CONNECTED => "TCP client is not connected"
  | TCP_CLIENT_ERROR_SEND_FAILED => "IPv4 layer rejected a TCP segment"
  | TCP_CLIENT_ERROR_TIMEOUT => "TCP operation timed out"
  | TCP_CLIENT_ERROR_RETRIES_EXHAUSTED => "TCP retransmission limit reached"
  | TCP_CLIENT_ERROR_CLOCK_MOVED_BACKWARD => "network clock moved backward"
  | TCP_CLIENT_ERROR_CLOCK_STALLED => "network clock did not advance"
  | TCP_CLIENT_ERROR_RESET => "peer reset the TCP connection"
  | TCP_CLIENT_ERROR_RESPONSE_TOO_LARGE => "TCP receive buffer is full"
  | TCP_CLIENT_ERROR_PROTOCOL => "unsupported or inconsistent TCP state"
  end%string.

(** ** Steps that call the IPv4 layer, the clock or the poll callback *)

Section Operations.
Context {W : Type}.
Variable send_ipv4 : Z -> Z -> list Z -> W -> bool * W.
Variable now_ms : W -> Z * W.
Variable poll : tcp_client -> W -> option (tcp_client * W).

#[local] Abbreviation outcome A := (option (A * tcp_client * W)).

Definition read_clock (client : tcp_client) (w : W) : option (Z * W) :=
  if has_now client then let '(now, w) := now_ms w in Some (u64 now, w) else None.

Definition send_segment (sequence flags : Z) (data : list Z) (data_length : Z) (client : tcp_client) (w : W)
    : outcome bool :=
  if TCP_CLIENT_MAX_SEGMENT_DATA <? data_length then
    Some (false, fail_client TCP_CLIENT_ERROR_INVALID_ARGUMENT client, w)
  else
    packet ← build_packet (local_ip client) (remote_ip client) (local_port client) (remote_port client)
               sequence (receive_next client) flags (advertised_window client) data data_length;
    if has_send client then
      let '(sent, w) := send_ipv4 (remote_ip client) TCP_CLIENT_IPV4_PROTOCOL packet w in
      if sent then Some (true, client, w)
      else Some (false, fail_client TCP_CLIENT_ERROR_SEND_FAILED client, w)
    else None.

Definition send_ack (client : tcp_client) (w : W) : outcome bool :=
  send_segment (send_next client) TCP_FLAG_ACK [] 0 client w.

Definition start_pending_segment (flags : Z) (data : list Z) (data_length : Z) (client : tcp_client) (w : W)
    : outcome bool :=
  if pending_active client || (TCP_CLIENT_MAX_SEGMENT_DATA <? data_length) then
    Some (false, fail_client TCP_CLIENT_ERROR_PROTOCOL client, w)
  else
    let sequence_length := u32 data_length in
    let sequence_length := if flag TCP_FLAG_SYN flags then u32 (sequence_length + 1) else sequence_length in
    let sequence_length := if flag TCP_FLAG_FIN flags then u32 (sequence_length + 1) else sequence_length in
    copied ← (if data_length =? 0 then Some (pending_data client)
              else copy_checked (pending_data client) data 0 0 data_length);
    let client := set_pending_data copied client in
    let client := set_pending_active true client in
    let client := set_pending_flags flags client in
    let client := set_pending_sequence (send_next client) client in
    let client := set_pending_end (u32 (send_next client + sequence_length)) client in
    let client := set_pending_length data_length client in
    let client := set_pending_retries 0 client in
    let client := set_pending_sent_at_ms (operation_previous_now_ms client) client in
    let client := set_send_next (pending_end client) client in
    send_segment (pending_sequence client) (pending_flags client) (pending_data client)
      (pending_length client) client w.

Definition retransmit_pending (now : Z) (client : tcp_client) (w : W) : outcome bool :=
  if negb (pending_active client) then Some (true, client, w)
  else if max_retries client <=? pending_retries client then
    Some (false, fail_client TCP_CLIENT_ERROR_RETRIES_EXHAUSTED client, w)
  else
    let client := set_pending_retries (u32 (pending_retries client + 1)) client in
    let client := set_pending_sent_at_ms now client in
    send_segment (pending_sequence client) (pending_flags client) (pending_data client)
      (pending_length client) client w.

Definition begin_operation (op : tcp_client_operation) (client : tcp_client) (w : W)
    : option (tcp_client * W) :=
  '(now, w) ← read_clock client w;
  let client := set_operation op client in
  let client := set_step_result TCP_CLIENT_STEP_PENDING client in
  let client := set_operation_started_at_ms now client in
  let client := set_operation_previous_now_ms now client in
  let client := set_operation_stalled_services 0 client in
  Some (set_error TCP_CLIENT_ERROR_NONE client, w).

(** The part of [tcp_client_service] after its early returns: the clock is read once. *)
Definition service_pending (client : tcp_client) (w : W) : outcome tcp_client_step_result :=
  '(now, w) ← read_clock client w;
  let failed e client := Some (TCP_CLIENT_STEP_FAILED, fail_client e client, w) in
  if now <? operation_previous_now_ms client then failed TCP_CLIENT_ERROR_CLOCK_MOVED_BACKWARD client
  else
    let stalled := now =? operation_previous_now_ms client in
    let client :=
      if stalled then set_operation_stalled_services (u32 (operation_stalled_services client + 1)) client
      else set_operation_previous_now_ms now (set_operation_stalled_services 0 client) in
    if stalled && (TCP_CLIENT_CLOCK_STALL_SERVICE_LIMIT <=? operation_stalled_services client) then
      failed TCP_CLIENT_ERROR_CLOCK_STALLED client
    else if operation_timeout_ms client <=? u64 (now - operation_started_at_ms client) then
      failed TCP_CLIENT_ERROR_TIMEOUT client
    else
      '(ok, client, w) ←
        (if pending_active client && (retransmit_ms client <=? u64 (now - pending_sent_at_ms client))
         then retransmit_pending now client w else Some (true, client, w));
      if (ok : bool) then
        let client := complete_if_reached client in Some (step_result client, client, w)
      else Some (TCP_CLIENT_STEP_FAILED, client, w).

Definition tcp_client_service (client : tcp_client) (w : W) : outcome tcp_client_step_result :=
  if bool_decide (state client = TCP_CLIENT_FAILED) then
    Some (TCP_CLIENT_STEP_FAILED, set_step_result TCP_CLIENT_STEP_FAILED client, w)
  else if negb (bool_decide (step_result client = TCP_CLIENT_STEP_PENDING)) then
    Some (step_result client, client, w)
  else
    let client := complete_if_reached client in
    if negb (bool_decide (step_result client = TCP_CLIENT_STEP_PENDING)) then
      Some (step_result client, client, w)
    else if bool_decide (operation client = TCP_CLIENT_OPERATION_NONE) || negb (has_now client) then
      Some (TCP_CLIENT_STEP_FAILED, fail_client TCP_CLIENT_ERROR_INVALID_ARGUMENT client, w)
    else service_pending client w.

(** The loop around [poll] and [tcp_client_service]; the outer [None] also when
    the fuel does not suffice. *)
Fixpoint drive_blocking_operation (fuel : nat) (result : tcp_client_step_result) (client : tcp_client) (w : W)
    : outcome bool :=
  if bool_decide (result = TCP_CLIENT_STEP_PENDING) then
    match fuel with
    | O => None
    | S fuel' =>
        if has_poll client then
          '(client, w) ← poll client w;
          '(result, client, w) ← tcp_client_service client w;
          drive_blocking_operation fuel' result client w
        else None
    end
  else Some (bool_decide (result = TCP_CLIENT_STEP_COMPLETE), client, w).

(** [complete_if_reached] as the end of a begin operation: [return complete_if_reached(client)]. *)
Definition finish (client : tcp_client) (w : W) : outcome tcp_client_step_result :=
  let client := complete_if_reached client in Some (step_result client, client, w).

Definition rejected (op : tcp_client_operation) (e : tcp_client_error) (client : tcp_client) (w : W)
    : outcome tcp_client_step_result :=
  Some (TCP_CLIENT_STEP_FAILED, reject_operation op e client, w).

(** What every begin operation does on a failed connection. *)
Definition already_failed (op : tcp_client_operation) (client : tcp_client) (w : W)
    : outcome tcp_client_step_result :=
  Some (TCP_CLIENT_STEP_FAILED, set_step_result TCP_CLIENT_STEP_FAILED (set_operation op client), w).

(** *** The begin operations (the client is not NULL) *)

(** What [tcp_client_begin_connect] resets for a new connection. *)
Definition connecting (ip port initial_sequence : Z) (client : tcp_client) : tcp_client :=
  let client := set_remote_port port (set_remote_ip ip client) in
  let client := set_receive_length 0 client in
  let client := set_send_unacknowledged initial_sequence client in
  let client := set_send_next initial_sequence client in
  let client := set_receive_next 0 client in
  let client := set_pending_active false client in
  set_malformed_segment_count 0 (set_bad_checksum_count 0 client).

Definition begin_connect (ip port initial_sequence : Z) (client : tcp_client) (w : W)
    : outcome tcp_client_step_result :=
  if negb (has_send client) || negb (has_now client) || (local_port client =? 0) ||
     (negb (bool_decide (is_Some (receive_buffer client))) && negb (receive_capacity client =? 0)) ||
     (ip =? 0) || (port =? 0)
  then rejected TCP_CLIENT_OPERATION_CONNECT TCP_CLIENT_ERROR_INVALID_ARGUMENT client w
  else if operation_is_busy client then rejected TCP_CLIENT_OPERATION_CONNECT TCP_CLIENT_ERROR_BUSY client w
  else
    match state client with
    | TCP_CLIENT_FAILED => already_failed TCP_CLIENT_OPERATION_CONNECT client w
    | TCP_CLIENT_CLOSED =>
        '(client, w) ← begin_operation TCP_CLIENT_OPERATION_CONNECT (connecting ip port initial_sequence client) w;
        '(ok, client, w) ← start_pending_segment TCP_FLAG_SYN [] 0 (set_state TCP_CLIENT_SYN_SENT client) w;
        if (ok : bool) then finish client w else Some (TCP_CLIENT_STEP_FAILED, client, w)
    | _ => rejected TCP_CLIENT_OPERATION_CONNECT TCP_CLIENT_ERROR_BUSY client w
    end.

(** [data]: [None] is the NULL pointer. *)
Definition begin_send (data : option (list Z)) (length : Z) (client : tcp_client) (w : W)
    : outcome tcp_client_step_result :=
  if (negb (bool_decide (is_Some data)) && negb (length =? 0)) || (TCP_CLIENT_MAX_SEGMENT_DATA <? length) then
    rejected TCP_CLIENT_OPERATION_SEND TCP_CLIENT_ERROR_INVALID_ARGUMENT client w
  else if operation_is_busy client then rejected TCP_CLIENT_OPERATION_SEND TCP_CLIENT_ERROR_BUSY client w
  else
    match state client with
    | TCP_CLIENT_FAILED => already_failed TCP_CLIENT_OPERATION_SEND client w
    | TCP_CLIENT_ESTABLISHED =>
        '(client, w) ← begin_operation TCP_CLIENT_OPERATION_SEND client w;
        if length =? 0 then finish client w
        else
          '(ok, client, w) ← start_pending_segment (Z.lor TCP_FLAG_ACK TCP_FLAG_PSH) (default [] data) length client w;
          if (ok : bool) then finish client w else Some (TCP_CLIENT_STEP_FAILED, client, w)
    | _ => rejected TCP_CLIENT_OPERATION_SEND TCP_CLIENT_ERROR_NOT_CONNECTED client w
    end.

Definition begin_wait_for_peer_close (client : tcp_client) (w : W) : outcome tcp_client_step_result :=
  let op := TCP_CLIENT_OPERATION_WAIT_FOR_PEER_CLOSE in
  if negb (has_now client) then rejected op TCP_CLIENT_ERROR_INVALID_ARGUMENT client w
  else if operation_is_busy client then rejected op TCP_CLIENT_ERROR_BUSY client w
  else
    match state client with
    | TCP_CLIENT_FAILED => already_failed op client w
    | TCP_CLIENT_CLOSE_WAIT | TCP_CLIENT_CLOSED => '(client, w) ← begin_operation op client w; finish client w
    | TCP_CLIENT_ESTABLISHED =>
        '(client, w) ← begin_operation op client w; Some (TCP_CLIENT_STEP_PENDING, client, w)
    | _ => rejected op TCP_CLIENT_ERROR_NOT_CONNECTED client w
    end.

(** The FIN of [tcp_client_begin_close], after the state has moved to [next]. *)
Definition send_fin (next : tcp_client_state) (client : tcp_client) (w : W) : outcome tcp_client_step_result :=
  '(ok, client, w) ← start_pending_segment (Z.lor TCP_FLAG_FIN TCP_FLAG_ACK) [] 0 (set_state next client) w;
  if (ok : bool) then finish client w else Some (TCP_CLIENT_STEP_FAILED, client, w).

Definition begin_close (client : tcp_client) (w : W) : outcome tcp_client_step_result :=
  let op := TCP_CLIENT_OPERATION_CLOSE in
  if negb (has_send client) || negb (has_now client) then
    rejected op TCP_CLIENT_ERROR_INVALID_ARGUMENT client w
  else if operation_is_busy client then rejected op TCP_CLIENT_ERROR_BUSY client w
  else if bool_decide (state client = TCP_CLIENT_CLOSED) then
    '(client, w) ← begin_operation op client w; finish client w
  else if bool_decide (state client = TCP_CLIENT_FAILED) then already_failed op client w
  else if pending_active client then rejected op TCP_CLIENT_ERROR_BUSY client w
  else
    '(client, w) ← begin_operation op client w;
    match state client with
    | TCP_CLIENT_ESTABLISHED => send_fin TCP_CLIENT_FIN_WAIT_1 client w
    | TCP_CLIENT_CLOSE_WAIT => send_fin TCP_CLIENT_LAST_ACK client w
    | TCP_CLIENT_FIN_WAIT_1 | TCP_CLIENT_FIN_WAIT_2 | TCP_CLIENT_CLOSING | TCP_CLIENT_LAST_ACK =>
        finish client w
    | _ =>
        Some (TCP_CLIENT_STEP_FAILED,
              set_error TCP_CLIENT_ERROR_NOT_CONNECTED (set_step_result TCP_CLIENT_STEP_FAILED client), w)
    end.

(** *** The public begin operations, with their NULL test *)

Definition on_client (operation : tcp_client -> W -> outcome tcp_client_step_result)
    (client : option tcp_client) (w : W) : option (tcp_client_step_result * option tcp_client * W) :=
  match client with
  | None => Some (TCP_CLIENT_STEP_FAILED, None, w)
  | Some client => '(result, client, w) ← operation client w; Some (result, Some client, w)
  end.

Definition tcp_client_begin_connect (client : option tcp_client) (ip port initial_sequence : Z) (w : W) :=
  on_client (begin_connect ip port initial_sequence) client w.
Definition tcp_client_begin_send (client : option tcp_client) (data : option (list Z)) (length : Z) (w : W) :=
  on_client (begin_send data length) client w.
Definition tcp_client_begin_wait_for_peer_close (client : option tcp_client) (w : W) :=
  on_client begin_wait_for_peer_close client w.
Definition tcp_client_begin_close (client : option tcp_client) (w : W) :=
  on_client begin_close client w.

(** *** The blocking operations (the client is not NULL) *)

Definition blocking (fuel : nat) (op : tcp_client_operation)
    (begin : tcp_client -> W -> outcome tcp_client_step_result) (client : tcp_client) (w : W) : outcome bool :=
  if negb (has_poll client) then
    Some (false, reject_operation op TCP_CLIENT_ERROR_INVALID_ARGUMENT client, w)
  else
    '(result, client, w) ← begin client w;
    drive_blocking_operation fuel result client w.

Definition tcp_client_connect (fuel : nat) (ip port initial_sequence : Z) : tcp_client -> W -> outcome bool :=
  blocking fuel TCP_CLIENT_OPERATION_CONNECT (begin_connect ip port initial_sequence).
Definition tcp_client_wait_for_peer_close (fuel : nat) : tcp_client -> W -> outcome bool :=
  blocking fuel TCP_CLIENT_OPERATION_WAIT_FOR_PEER_CLOSE begin_wait_for_peer_close.
Definition tcp_client_close (fuel : nat) : tcp_client -> W -> outcome bool :=
  blocking fuel TCP_CLIENT_OPERATION_CLOSE begin_close.

(** The chunk loop of [tcp_client_send]: at most [chunks] rounds, [sent] bytes sent so far. *)
Fixpoint send_chunks (fuel chunks : nat) (bytes : list Z) (length sent : Z) (client : tcp_client) (w : W)
    : outcome bool :=
  if sent <? length then
    match chunks with
    | O => None
    | S chunks' =>
        let chunk := length - sent in
        let chunk := if TCP_CLIENT_MAX_SEGMENT_DATA <? chunk then TCP_CLIENT_MAX_SEGMENT_DATA else chunk in
        '(result, client, w) ← begin_send (Some (drop (Z.to_nat sent) bytes)) chunk client w;
        '(ok, client, w) ← drive_blocking_operation fuel result client w;
        if negb ok then Some (false, client, w)
        else
          let sent := sent + chunk in
          if (sent <? length) && negb (bool_decide (state client = TCP_CLIENT_ESTABLISHED)) then
            Some (false, set_error TCP_CLIENT_ERROR_NOT_CONNECTED client, w)
          else send_chunks fuel chunks' bytes length sent client w
    end
  else Some (true, set_error TCP_CLIENT_ERROR_NONE client, w).

Definition tcp_client_send (fuel : nat) (data : option (list Z)) (length : Z) (client : tcp_client) (w : W)
    : outcome bool :=
  let refused :=
    Some (false, reject_operation TCP_CLIENT_OPERATION_SEND TCP_CLIENT_ERROR_INVALID_ARGUMENT client, w) in
  if negb (has_poll client) then refused
  else if negb (bool_decide (is_Some data)) && negb (length =? 0) then refused
  else if length =? 0 then
    '(result, client, w) ← begin_send None 0 client w;
    drive_blocking_operation fuel result client w
  else
    send_chunks fuel (Z.to_nat length) (default [] data) length 0 client w.

(** *** Receiving a segment *)

Definition receive_reset (flags sequence acknowledgment : Z) (client : tcp_client) (w : W)
    : outcome tcp_client_receive_result :=
  let acceptable_reset :=
    if bool_decide (state client = TCP_CLIENT_SYN_SENT) then
      flag TCP_FLAG_ACK flags && pending_active client && (acknowledgment =? pending_end client)
    else sequence =? receive_next client in
  if acceptable_reset then Some (TCP_CLIENT_RECEIVE_ACCEPTED, fail_client TCP_CLIENT_ERROR_RESET client, w)
  else Some (TCP_CLIENT_RECEIVE_MALFORMED, count_malformed client, w).

Definition receive_handshake (flags sequence acknowledgment data_length : Z) (client : tcp_client) (w : W)
    : outcome tcp_client_receive_result :=
  let syn_ack := Z.lor TCP_FLAG_SYN TCP_FLAG_ACK in
  if negb (Z.land flags syn_ack =? syn_ack) || flag TCP_FLAG_FIN flags || negb (data_length =? 0) ||
     negb (pending_active client) || negb (acknowledgment =? pending_end client)
  then Some (TCP_CLIENT_RECEIVE_MALFORMED, count_malformed client, w)
  else
    let client := set_send_unacknowledged acknowledgment client in
    let client := set_pending_active false client in
    let client := set_receive_next (u32 (sequence + 1)) client in
    let client := set_state TCP_CLIENT_ESTABLISHED client in
    '(_, client, w) ← send_ack client w;
    Some (TCP_CLIENT_RECEIVE_ACCEPTED, client, w).

(** The data of an acceptable segment; the result is [None] when the function goes on to the FIN. *)
Definition receive_data (packet : list Z) (flags header_length data_length : Z) (client : tcp_client) (w : W)
    : outcome (option tcp_client_receive_result) :=
  if data_length =? 0 then Some (None, client, w)
  else
    let remaining := u64 (receive_capacity client - receive_length client) in
    if remaining <? data_length then
      Some (Some TCP_CLIENT_RECEIVE_RESPONSE_TOO_LARGE,
            fail_client TCP_CLIENT_ERROR_RESPONSE_TOO_LARGE client, w)
    else if bool_decide (state client = TCP_CLIENT_CLOSE_WAIT) ||
            bool_decide (state client = TCP_CLIENT_LAST_ACK) then
      Some (Some TCP_CLIENT_RECEIVE_MALFORMED, count_malformed client, w)
    else
      buffer ← receive_buffer client;
      buffer ← copy_checked buffer packet (receive_length client) header_length data_length;
      let client := set_receive_buffer (Some buffer) client in
      let client := set_receive_length (u64 (receive_length client + data_length)) client in
      let client := set_receive_next (u32 (receive_next client + u32 data_length)) client in
      if flag TCP_FLAG_FIN flags then Some (None, client, w)
      else
        '(ok, client, w) ← send_ack client w;
        Some (if (ok : bool) then None else Some TCP_CLIENT_RECEIVE_ACCEPTED, client, w).

Definition receive_fin (flags : Z) (client : tcp_client) (w : W) : outcome tcp_client_receive_result :=
  if negb (flag TCP_FLAG_FIN flags) then Some (TCP_CLIENT_RECEIVE_ACCEPTED, client, w)
  else
    let client := set_receive_next (u32 (receive_next client + 1)) client in
    '(ok, client, w) ← send_ack client w;
    if negb ok then Some (TCP_CLIENT_RECEIVE_ACCEPTED, client, w)
    else
      Some (TCP_CLIENT_RECEIVE_ACCEPTED,
            match state client with
            | TCP_CLIENT_ESTABLISHED => set_state TCP_CLIENT_CLOSE_WAIT client
            | TCP_CLIENT_FIN_WAIT_1 => set_state TCP_CLIENT_CLOSING client
            | TCP_CLIENT_FIN_WAIT_2 => set_state TCP_CLIENT_CLOSED client
            | _ => client
            end, w).

(** Past the handshake: SYN, ACK and sequence tests, then acknowledgment, data and FIN. *)
Definition receive_synchronized (packet : list Z) (flags sequence acknowledgment header_length data_length : Z)
    (client : tcp_client) (w : W) : outcome tcp_client_receive_result :=
  if flag TCP_FLAG_SYN flags then
    '(_, client, w) ← send_ack (count_malformed client) w;
    Some (TCP_CLIENT_RECEIVE_MALFORMED, client, w)
  else if negb (flag TCP_FLAG_ACK flags) then
    Some (TCP_CLIENT_RECEIVE_MALFORMED, count_malformed client, w)
  else if negb (sequence =? receive_next client) then
    '(_, client, w) ←
      (if negb (data_length =? 0) || flag TCP_FLAG_FIN flags then send_ack client w
       else Some (true, client, w));
    Some (TCP_CLIENT_RECEIVE_ACCEPTED, client, w)
  else
    let '(acknowledged, client) := acknowledge_pending acknowledgment client in
    if negb acknowledged then
      '(_, client, w) ← send_ack client w;
      Some (TCP_CLIENT_RECEIVE_MALFORMED, client, w)
    else if bool_decide (state client = TCP_CLIENT_CLOSED) then
      Some (TCP_CLIENT_RECEIVE_ACCEPTED, client, w)
    else
      '(result, client, w) ← receive_data packet flags header_length data_length client w;
      match result with
      | Some result => Some (result, client, w)
      | None => receive_fin flags client w
      end.

(** A segment for this connection's addresses, of a possible length. *)
Definition receive_segment (src_ip dst_ip : Z) (packet : list Z) (segment_length : Z)
    (client : tcp_client) (w : W) : outcome tcp_client_receive_result :=
  source_port ← read_u16 packet 0;
  destination_port ← read_u16 packet 2;
  if negb (source_port =? remote_port client) || negb (destination_port =? local_port client) then
    Some (TCP_CLIENT_RECEIVE_IGNORED, client, w)
  else
    checksum ← tcp_client_checksum src_ip dst_ip (Some packet) segment_length;
    if negb (checksum =? 0) then
      Some (TCP_CLIENT_RECEIVE_BAD_CHECKSUM,
            set_bad_checksum_count (u32 (bad_checksum_count client + 1)) client, w)
    else
      offset ← rd packet 12;
      flags ← rd packet 13;
      let header_length := Z.shiftr offset 4 * 4 in
      if (header_length <? TCP_HEADER_LENGTH) || (segment_length <? header_length) || flag TCP_FLAG_URG flags
      then Some (TCP_CLIENT_RECEIVE_MALFORMED, count_malformed client, w)
      else
        sequence ← read_u32 packet 4;
        acknowledgment ← read_u32 packet 8;
        let data_length := segment_length - header_length in
        if flag TCP_FLAG_RST flags then receive_reset flags sequence acknowledgment client w
        else if bool_decide (state client = TCP_CLIENT_SYN_SENT) then
          receive_handshake flags sequence acknowledgment data_length client w
        else receive_synchronized packet flags sequence acknowledgment header_length data_length client w.

Definition receive (src_ip dst_ip : Z) (packet : list Z) (segment_length : Z) (client : tcp_client) (w : W)
    : outcome tcp_client_receive_result :=
  if bool_decide (state client = TCP_CLIENT_CLOSED) || bool_decide (state client = TCP_CLIENT_FAILED) ||
     negb (src_ip =? remote_ip client) || negb (dst_ip =? local_ip client) then
    Some (TCP_CLIENT_RECEIVE_IGNORED, client, w)
  else if (segment_length <? TCP_HEADER_LENGTH) || (65535 <? segment_length) then
    Some (TCP_CLIENT_RECEIVE_MALFORMED, count_malformed client, w)
  else receive_segment src_ip dst_ip packet segment_length client w.

Definition tcp_client_receive (client : option tcp_client) (src_ip dst_ip : Z) (segment : option (list Z))
    (segment_length : Z) (w : W) : option (tcp_client_receive_result * option tcp_client * W) :=
  match client, segment with
  | Some client, Some packet =>
      '(result, client, w) ← receive src_ip dst_ip packet segment_length client w; Some (result, Some client, w)
  | _, _ => Some (TCP_CLIENT_RECEIVE_MALFORMED, client, w)
  end.

End Operations.
