(* ===== verification/TcpReceive.v ===== *)
(** * The TCP client's invariant

    What holds of [struct tcp_client] between calls, and that every operation
    stays inside its buffers and preserves it.  The state of a connection moves
    only along the edges of the relation [edge].

    Then the segments received. *)

From stdpp Require Import relations.
From S2P Require Import Prelude TcpState TcpSegment TcpClient.

(** ** The connection's state machine *)

(** What moves the connection: a connect, a close, the peer's segments, or an error. *)
Inductive party := Opening | Closing | Peer | Failure.

Inductive edge : party -> tcp_client_state -> tcp_client_state -> Prop :=
| edge_connect : edge Opening TCP_CLIENT_CLOSED TCP_CLIENT_SYN_SENT
| edge_close : edge Closing TCP_CLIENT_ESTABLISHED TCP_CLIENT_FIN_WAIT_1
| edge_close_last : edge Closing TCP_CLIENT_CLOSE_WAIT TCP_CLIENT_LAST_ACK
| edge_syn_ack : edge Peer TCP_CLIENT_SYN_SENT TCP_CLIENT_ESTABLISHED
| edge_peer_fin : edge Peer TCP_CLIENT_ESTABLISHED TCP_CLIENT_CLOSE_WAIT
| edge_fin_ack : edge Peer TCP_CLIENT_FIN_WAIT_1 TCP_CLIENT_FIN_WAIT_2
| edge_simultaneous : edge Peer TCP_CLIENT_FIN_WAIT_1 TCP_CLIENT_CLOSING
| edge_fin_wait_2 : edge Peer TCP_CLIENT_FIN_WAIT_2 TCP_CLIENT_CLOSED
| edge_closing : edge Peer TCP_CLIENT_CLOSING TCP_CLIENT_CLOSED
| edge_last_ack : edge Peer TCP_CLIENT_LAST_ACK TCP_CLIENT_CLOSED
| edge_fail s : s <> TCP_CLIENT_CLOSED -> s <> TCP_CLIENT_FAILED -> edge Failure s TCP_CLIENT_FAILED.

(** The edges of [p] and failures, any number of them. *)
Definition moves (p : party) : relation tcp_client_state :=
  rtc (fun s s' => edge p s s' \/ edge Failure s s').

Definition connected (s : tcp_client_state) : Prop := s <> TCP_CLIENT_CLOSED /\ s <> TCP_CLIENT_FAILED.

(** ** The invariant *)

(** What may be in flight in each state: the SYN, one data segment, or the FIN. *)
Definition flight (s : tcp_client_state) (active : bool) (flags length : Z) : Prop :=
  match s with
  | TCP_CLIENT_CLOSED | TCP_CLIENT_FAILED | TCP_CLIENT_FIN_WAIT_2 => active = false
  | TCP_CLIENT_SYN_SENT => active = true /\ flags = TCP_FLAG_SYN /\ length = 0
  | TCP_CLIENT_ESTABLISHED | TCP_CLIENT_CLOSE_WAIT =>
      active = true -> flags = Z.lor TCP_FLAG_ACK TCP_FLAG_PSH /\ 0 < length
  | TCP_CLIENT_FIN_WAIT_1 | TCP_CLIENT_CLOSING | TCP_CLIENT_LAST_ACK =>
      active = true /\ flags = Z.lor TCP_FLAG_FIN TCP_FLAG_ACK /\ length = 0
  end.

(** Sequence numbers sent and not acknowledged. *)
Definition in_flight (c : tcp_client) : Z := u32 (send_next c - send_unacknowledged c).

(** The fields alone. *)
Record client_base (c : tcp_client) : Prop := {
  ok_una : u32_ok (send_unacknowledged c);
  ok_next : u32_ok (send_next c);
  ok_receive_next : u32_ok (receive_next c);
  ok_buffer : forall b, receive_buffer c = Some b -> Z.of_nat (length b) = receive_capacity c;
  ok_capacity : 0 <= receive_length c <= receive_capacity c /\ receive_capacity c < 2 ^ 64;
  ok_pending_data : length (pending_data c) = 536%nat /\ bytes_ok (pending_data c);
  ok_pending_length : 0 <= pending_length c <= TCP_CLIENT_MAX_SEGMENT_DATA;
  ok_clock : step_result c = TCP_CLIENT_STEP_PENDING ->
    has_now c = true /\ 0 <= operation_started_at_ms c <= operation_previous_now_ms c /\
    operation_previous_now_ms c < 2 ^ 64 /\
    0 <= operation_stalled_services c < TCP_CLIENT_CLOCK_STALL_SERVICE_LIMIT;
  ok_live : connected (state c) ->
    has_send c = true /\ has_now c = true /\ (receive_buffer c = None -> receive_capacity c = 0);
}.

(** The fields, the segment in flight, the send window, a pending connect, a pending send. *)
Record client_ok (c : tcp_client) : Prop := {
  ok_base : client_base c;
  ok_flight : flight (state c) (pending_active c) (pending_flags c) (pending_length c);
  ok_window :
    if pending_active c then pending_end c = send_next c /\ 1 <= in_flight c <= TCP_CLIENT_MAX_SEGMENT_DATA
    else connected (state c) -> send_unacknowledged c = send_next c;
  ok_connecting : step_result c = TCP_CLIENT_STEP_PENDING -> operation c = TCP_CLIENT_OPERATION_CONNECT ->
    state c = TCP_CLIENT_SYN_SENT \/ state c = TCP_CLIENT_ESTABLISHED \/ state c = TCP_CLIENT_CLOSE_WAIT;
  ok_sending : pending_active c = true ->
    state c = TCP_CLIENT_ESTABLISHED \/ state c = TCP_CLIENT_CLOSE_WAIT ->
    step_result c = TCP_CLIENT_STEP_PENDING /\ operation c = TCP_CLIENT_OPERATION_SEND;
}.

(** What no operation on a connection changes. *)
Definition setup (c : tcp_client) :=
  (has_send c, has_now c, has_poll c, local_ip c, local_port c, receive_capacity c,
   (retransmit_ms c, operation_timeout_ms c, max_retries c)).

(** The operation in progress and its clock. *)
Definition progress (c : tcp_client) :=
  (operation c, operation_started_at_ms c, operation_previous_now_ms c, operation_stalled_services c).

(** What has been received. *)
Definition received (c : tcp_client) := (receive_buffer c, receive_length c, receive_next c).

(** ** Tactics *)

Ltac tcp_case :=
  repeat match goal with
  | |- context [bool_decide ?P] => destruct (decide P); [rewrite (bool_decide_true P) by done|rewrite (bool_decide_false P) by done]
  end.

(** Prove the invariant field by field after assignments. *)
Ltac ok_fields :=
  repeat match goal with
  | H : client_ok _ |- _ => destruct H
  | H : client_base _ |- _ => destruct H
  | |- client_ok _ => constructor
  | |- client_base _ => constructor
  end; unfold in_flight in *; tcp_simpl;
  try done; try (by intros); try (intros; intuition (done || congruence)).

(** ** Steps on the client alone *)

Lemma fail_client_ok e c : client_base c -> client_ok (fail_client e c).
Proof. intros. unfold fail_client. ok_fields; by intros []. Qed.

Lemma fail_client_setup e c : setup (fail_client e c) = setup c /\ progress (fail_client e c) = progress c.
Proof. done. Qed.

Lemma count_malformed_ok c : client_ok c -> client_ok (count_malformed c).
Proof. intros. unfold count_malformed. ok_fields. Qed.

Lemma set_error_ok e c : client_ok c -> client_ok (set_error e c).
Proof. intros. ok_fields. Qed.

Lemma not_busy c :
  operation_is_busy c = false ->
  ~ (step_result c = TCP_CLIENT_STEP_PENDING /\ operation c = TCP_CLIENT_OPERATION_SEND).
Proof. unfold operation_is_busy. intros H [H1 H2]. by rewrite H1, H2 in H. Qed.

Lemma reject_operation_ok op e c : client_ok c -> client_ok (reject_operation op e c).
Proof.
  intros. unfold reject_operation. destruct (operation_is_busy c) eqn:Eb; [by apply set_error_ok|].
  apply not_busy in Eb. ok_fields.
Qed.

Lemma complete_if_reached_ok c : client_ok c -> client_ok (complete_if_reached c).
Proof.
  intros. unfold complete_if_reached. case_bool_decide; [ok_fields|].
  destruct (operation_goal_reached c) eqn:Eg; [|done]. unfold operation_goal_reached in Eg. ok_fields.
  intros Hp Hs. destruct (ok_sending0 Hp Hs) as [_ Ho]. by rewrite Ho, Hp in Eg.
Qed.

Lemma complete_if_reached_frame c :
  setup (complete_if_reached c) = setup c /\ progress (complete_if_reached c) = progress c /\
  state (complete_if_reached c) = state c.
Proof.
  unfold complete_if_reached. destruct (bool_decide _); [done|]. by destruct (operation_goal_reached c).
Qed.

Lemma set_state_base s c : client_base c -> connected (state c) -> client_base (set_state s c).
Proof. intros [] H. constructor; tcp_simpl; try done. intros _. by apply ok_live0. Qed.

(** ** The acknowledgment *)

(** Signed 32-bit differences of two numbers at most 2^31 - 1 apart. *)
Lemma i32_small z : - 2 ^ 31 <= z < 2 ^ 31 -> i32 (u32 z) = z.
Proof.
  intros. unfold i32. rewrite u32_mod, Zplus_mod_idemp_l, Z.mod_small by lia. lia.
Qed.

Lemma u32_sub_add a b : u32_ok a -> u32 (b + u32 (a - b)) = a.
Proof.
  intros. rewrite !u32_mod, Zplus_mod_idemp_r. replace (b + (a - b)) with a by lia. by apply Z.mod_small.
Qed.

Lemma u32_add_sub a d : u32_ok d -> u32 (u32 (a + d) - a) = d.
Proof.
  intros. rewrite !u32_mod, Zminus_mod_idemp_l. replace (a + d - a) with d by lia. by apply Z.mod_small.
Qed.

(** Between the oldest unacknowledged number and the next one, and nowhere else, is an
    acknowledgment accepted; [k] counts the numbers it acknowledges. *)
Lemma acknowledgment_window una next ack :
  u32_ok una -> u32_ok next -> u32_ok ack -> u32 (next - una) <= TCP_CLIENT_MAX_SEGMENT_DATA ->
  sequence_after ack next = false -> sequence_before ack una = false ->
  u32 (ack - una) + u32 (next - ack) = u32 (next - una).
Proof.
  unfold sequence_after, sequence_before, TCP_CLIENT_MAX_SEGMENT_DATA. intros Hu Hn Ha Hw H1 H2.
  apply Z.ltb_ge in H1. apply Z.ltb_ge in H2. unfold u32_ok in *. unfold i32 in *.
  rewrite !u32_mod in *. rewrite Zplus_mod_idemp_l in H1, H2.
  assert (E : forall x, - 2 ^ 32 < x < 2 ^ 32 -> x mod 2 ^ 32 = if x <? 0 then x + 2 ^ 32 else x).
  { intros x Hx. destruct (Z.ltb_spec x 0).
    - rewrite <- (Z.mod_add x 1) by lia. apply Z.mod_small. lia.
    - apply Z.mod_small. lia. }
  assert (E2 : forall x, - 2 ^ 31 <= x < 2 ^ 32 + 2 ^ 31 -> (x + 2 ^ 31) mod 2 ^ 32 =
              if x + 2 ^ 31 <? 2 ^ 32 then x + 2 ^ 31 else x + 2 ^ 31 - 2 ^ 32).
  { intros x Hx. destruct (Z.ltb_spec (x + 2 ^ 31) (2 ^ 32)).
    - apply Z.mod_small. lia.
    - rewrite <- (Z.mod_add _ (-1)) by lia. rewrite Z.mod_small by lia. lia. }
  assert (E3 : forall x, - 2 ^ 32 < x < - 2 ^ 31 -> (x + 2 ^ 31) mod 2 ^ 32 = x + 2 ^ 31 + 2 ^ 32).
  { intros x Hx. rewrite <- (Z.mod_add _ 1) by lia. rewrite Z.mod_small by lia. lia. }
  rewrite (E (next - una)) in * by lia. rewrite (E (ack - una)), (E (next - ack)) by lia.
  destruct (Z.lt_ge_cases (ack - next) (- 2 ^ 31)) as [L1|L1];
    [rewrite E3 in H1 by lia|rewrite E2 in H1 by lia];
    (destruct (Z.lt_ge_cases (ack - una) (- 2 ^ 31)) as [L2|L2];
      [rewrite E3 in H2 by lia|rewrite E2 in H2 by lia]);
    repeat match goal with
    | |- context [?a <? ?b] => destruct (Z.ltb_spec a b)
    | H : context [?a <? ?b] |- _ => destruct (Z.ltb_spec a b)
    end; lia.
Qed.

(** Nothing outstanding: only the next number is accepted. *)
Lemma u32_sub_0 a b : u32_ok a -> u32_ok b -> u32 (a - b) = 0 -> a = b.
Proof.
  intros Ha Hb H. pose proof (u32_sub_add a b Ha) as E. rewrite H, Z.add_0_r, u32_small in E by done. done.
Qed.

(** After an accepted acknowledgment the window has moved up to it. *)
Lemma acknowledgment_moves c ack :
  client_ok c -> connected (state c) -> u32_ok ack ->
  sequence_after ack (send_next c) = false -> sequence_before ack (send_unacknowledged c) = false ->
  0 <= u32 (send_next c - ack) <= TCP_CLIENT_MAX_SEGMENT_DATA /\
  (u32 (send_next c - ack) = 0 -> ack = send_next c) /\ (pending_active c = false -> ack = send_next c).
Proof.
  intros [Hb _ Hw _ _] Hl Ha E1 E2. destruct Hb as [Hu Hn _ _ _ _ _ _ _].
  assert (Hd : u32 (send_next c - send_unacknowledged c) <= TCP_CLIENT_MAX_SEGMENT_DATA /\
    (pending_active c = false -> u32 (send_next c - send_unacknowledged c) = 0)).
  { unfold in_flight in Hw. destruct (pending_active c); [split; [lia|done]|].
    rewrite (Hw Hl), Z.sub_diag. done. }
  pose proof (acknowledgment_window _ _ _ Hu Hn Ha (proj1 Hd) E1 E2) as E.
  pose proof (u32_range (ack - send_unacknowledged c)) as R1. pose proof (u32_range (send_next c - ack)) as R2.
  unfold u32_ok in R1, R2. split; [lia|].
  assert (H0 : u32 (send_next c - ack) = 0 -> ack = send_next c).
  { intros H0. symmetry. by apply u32_sub_0. }
  split; [done|]. intros Hp. apply H0. destruct Hd as [_ Hd]. specialize (Hd Hp). lia.
Qed.

(** Past the handshake the pending segment carries a FIN exactly in the closing states. *)
Lemma flight_fin s flags n :
  flight s true flags n -> s <> TCP_CLIENT_SYN_SENT ->
  flag TCP_FLAG_FIN flags =
    match s with TCP_CLIENT_FIN_WAIT_1 | TCP_CLIENT_CLOSING | TCP_CLIENT_LAST_ACK => true | _ => false end.
Proof.
  intros Hf Hs. destruct s; cbn in Hf; try done.
  - by destruct (Hf eq_refl) as [-> _].
  - by destruct Hf as (_ & -> & _).
  - by destruct Hf as (_ & -> & _).
  - by destruct (Hf eq_refl) as [-> _].
  - by destruct Hf as (_ & -> & _).
Qed.

Lemma acknowledge_pending_ok ack c b c' :
  client_ok c -> connected (state c) -> state c <> TCP_CLIENT_SYN_SENT -> u32_ok ack ->
  acknowledge_pending ack c = (b, c') ->
  client_ok c' /\ setup c' = setup c /\ progress c' = progress c /\ step_result c' = step_result c /\
  received c' = received c /\ (b = false -> c' = count_malformed c) /\
  (state c' = state c \/ edge Peer (state c) (state c')).
Proof.
  intros Hc Hl Hs Ha. unfold acknowledge_pending.
  destruct (sequence_after ack (send_next c)) eqn:E1.
  { intros [= <- <-]. split; [by apply count_malformed_ok|]. split_and!; (done || by left). }
  destruct (sequence_before ack (send_unacknowledged c)) eqn:E2.
  { intros [= <- <-]. split_and!; (done || by left). }
  destruct (acknowledgment_moves c ack Hc Hl Ha E1 E2) as (Hr & H0 & Hi).
  tcp_simpl. destruct (pending_active c) eqn:Ep; cbn [negb orb].
  - assert (Hend : pending_end c = send_next c) by (destruct Hc as [_ _ Hw _ _]; rewrite Ep in Hw; apply Hw).
    destruct (Z.eqb_spec ack (pending_end c)) as [E|E]; cbn [negb].
    + destruct Hc as [Hb Hf Hw Hcn Hsd]. rewrite Ep in *. rewrite (flight_fin _ _ _ Hf Hs).
      destruct (state c) eqn:Es; intros [= <- <-]; cbn in Hf; try (destruct Hl; done); try done;
        destruct Hb; (split; [ok_fields; rewrite ?Es in *; tcp_simpl; try done; try (intros []; done); intuition congruence|]);
        split_and!; tcp_simpl; rewrite ?Es; try done; try (by left); right; constructor.
    + intros [= <- <-]. split; [|split_and!; (done || by left)].
      destruct Hc as [Hb Hf Hw Hcn Hsd]. destruct Hb. constructor; [constructor|..]; tcp_simpl; try done.
      rewrite Ep. split; [done|]. unfold in_flight. tcp_simpl. split; [|lia].
      destruct (Z.eq_dec (u32 (send_next c - ack)) 0) as [Z0|]; [|lia]. apply H0 in Z0. congruence.
  - intros [= <- <-]. split; [|split_and!; (done || by left)].
    destruct Hc as [Hb Hf Hw Hcn Hsd]. destruct Hb. constructor; [constructor|..]; tcp_simpl; try done.
    rewrite Ep. intros _. by apply Hi.
Qed.

(** ** Steps that call the IPv4 layer or the clock *)

Section Steps.
Context {W : Type} (send_ipv4 : Z -> Z -> list Z -> W -> bool * W) (now_ms : W -> Z * W).

Lemma send_segment_total sequence flags data n c w :
  has_send c = true -> bytes_ok data -> 0 <= n <= Z.of_nat (length data) -> n <= TCP_CLIENT_MAX_SEGMENT_DATA ->
  exists (b : bool) w', send_segment send_ipv4 sequence flags data n c w =
    Some (b, if b then c else fail_client TCP_CLIENT_ERROR_SEND_FAILED c, w').
Proof.
  unfold TCP_CLIENT_MAX_SEGMENT_DATA. intros Hs Hd Hn Hn'. unfold send_segment, TCP_CLIENT_MAX_SEGMENT_DATA.
  rewrite (proj2 (Z.ltb_ge 536 n)) by lia.
  destruct (build_packet_spec (local_ip c) (remote_ip c) (local_port c) (remote_port c) sequence (receive_next c)
    flags (advertised_window c) data n Hd Hn ltac:(lia)) as (k & _ & E & _).
  rewrite E. cbn [mbind option_bind]. rewrite Hs.
  destruct (send_ipv4 _ _ _ w) as [[] w']; [by exists true, w'|by exists false, w'].
Qed.

Lemma send_ack_total c w :
  has_send c = true ->
  exists (b : bool) w', send_ack send_ipv4 c w = Some (b, if b then c else fail_client TCP_CLIENT_ERROR_SEND_FAILED c, w').
Proof. intros. apply send_segment_total; [done|constructor|done|done]. Qed.

(** The pending segment of a client can always be sent again. *)
Lemma resend_total c w :
  client_base c -> has_send c = true ->
  exists (b : bool) w', send_segment send_ipv4 (pending_sequence c) (pending_flags c) (pending_data c) (pending_length c) c w =
    Some (b, if b then c else fail_client TCP_CLIENT_ERROR_SEND_FAILED c, w').
Proof.
  intros H Hs. destruct H. destruct ok_pending_data0 as [Hl Hd].
  unfold TCP_CLIENT_MAX_SEGMENT_DATA in *. apply send_segment_total; [done|done|lia|unfold TCP_CLIENT_MAX_SEGMENT_DATA; lia].
Qed.

Lemma retransmit_pending_total now c w :
  client_ok c -> connected (state c) ->
  exists (b : bool) c' w', retransmit_pending send_ipv4 now c w = Some (b, c', w') /\ client_ok c' /\
    setup c' = setup c /\ progress c' = progress c /\ received c' = received c /\
    (if b then state c' = state c /\ step_result c' = step_result c else state c' = TCP_CLIENT_FAILED).
Proof.
  intros Hc Hl. unfold retransmit_pending.
  destruct (pending_active c) eqn:Ep; cbn [negb]; [|by exists true, c, w].
  destruct (max_retries c <=? pending_retries c).
  { exists false, (fail_client TCP_CLIENT_ERROR_RETRIES_EXHAUSTED c), w. split; [done|]. split; [by apply fail_client_ok, Hc|done]. }
  set (c1 := set_pending_sent_at_ms now _).
  assert (H1 : client_ok c1) by (unfold c1; ok_fields).
  destruct (resend_total c1 w (ok_base _ H1)) as (b & w' & E); [by apply (ok_live _ (ok_base _ Hc))|].
  exists b, (if b then c1 else fail_client TCP_CLIENT_ERROR_SEND_FAILED c1), w'. rewrite E. split; [done|].
  destruct b; [done|]. split; [by apply fail_client_ok, H1|done].
Qed.

(** Sending the SYN, data or the FIN from a client in its new state with nothing in flight. *)
Lemma start_pending_segment_total flags data n c w :
  client_base c -> pending_active c = false -> connected (state c) ->
  send_unacknowledged c = send_next c -> flight (state c) true flags n -> bytes_ok data ->
  0 <= n <= Z.of_nat (length data) -> n <= TCP_CLIENT_MAX_SEGMENT_DATA ->
  (step_result c = TCP_CLIENT_STEP_PENDING -> operation c = TCP_CLIENT_OPERATION_CONNECT ->
   state c = TCP_CLIENT_SYN_SENT) ->
  (state c = TCP_CLIENT_ESTABLISHED \/ state c = TCP_CLIENT_CLOSE_WAIT ->
   step_result c = TCP_CLIENT_STEP_PENDING /\ operation c = TCP_CLIENT_OPERATION_SEND) ->
  exists (b : bool) c' w', start_pending_segment send_ipv4 flags data n c w = Some (b, c', w') /\
    client_ok c' /\ setup c' = setup c /\ progress c' = progress c /\
    (if b then state c' = state c /\ step_result c' = step_result c else state c' = TCP_CLIENT_FAILED).
Proof.
  unfold TCP_CLIENT_MAX_SEGMENT_DATA. intros Hb Hp Hs Hu Hf Hd Hn Hn' Hc Hsd. unfold start_pending_segment.
  tcp_simpl. rewrite Hp. cbn [orb]. unfold TCP_CLIENT_MAX_SEGMENT_DATA. rewrite (proj2 (Z.ltb_ge 536 n)) by lia.
  set (copied := if n =? 0 then _ else _).
  assert (Hcopy : exists l, copied = Some l /\ length l = 536%nat /\ bytes_ok l).
  { destruct Hb. destruct ok_pending_data0 as [Hl Hl'].
    unfold copied. destruct (n =? 0); [by exists (pending_data c)|].
    destruct (copy_checked_bytes (pending_data c) data 0 0 n) as (l & E & El & Eb); [done|done|lia..|].
    exists l. by rewrite E, El. }
  destruct Hcopy as (l & -> & Hl & Hlb). cbn [mbind option_bind].
  set (k := if flag TCP_FLAG_FIN flags then _ else _).
  assert (Hk : 1 <= k <= 536).
  { unfold k. rewrite (u32_small n) by (unfold u32_ok; lia). destruct (state c); cbn in Hf; try done.
    all: try (destruct Hf as (_ & -> & ->); cbn; done).
    all: destruct (Hf eq_refl) as [-> H0]. all: change (1 <= n <= 536); lia. }
  match goal with |- context [send_segment _ _ _ _ _ ?x w] => set (c1 := x) end.
  assert (H1 : client_ok c1).
  { destruct Hb. tcp_simpl. unfold c1. constructor; [constructor|..]; unfold in_flight; tcp_simpl; try done.
    - apply u32_range.
    - unfold TCP_CLIENT_MAX_SEGMENT_DATA. lia.
    - split; [done|]. rewrite Hu, u32_add_sub by (unfold u32_ok; lia). unfold TCP_CLIENT_MAX_SEGMENT_DATA. lia.
    - intros A B. left. by apply Hc. }
  destruct (resend_total c1 w (ok_base _ H1)) as (b & w' & E).
  { by apply (ok_live _ Hb). }
  exists b, (if b then c1 else fail_client TCP_CLIENT_ERROR_SEND_FAILED c1), w'. split; [exact E|].
  destruct b; [done|]. split; [by apply fail_client_ok, H1|done].
Qed.

(** ** Begin operations *)


(** A step of party [p] that returns in bounds, keeps the invariant and the connection's
    parameters, and leaves [R] between the value returned and the client. *)
Definition step_ok {A} (p : party) (R : A -> tcp_client -> Prop) (c : tcp_client)
    (r : option (A * tcp_client * W)) : Prop :=
  exists a c' w', r = Some (a, c', w') /\ client_ok c' /\ setup c' = setup c /\
    moves p (state c) (state c') /\ R a c'.

(** What the value returned by a step of operation [op] says of the client. *)
Definition result_ok (op : tcp_client_operation) (a : tcp_client_step_result) (c : tcp_client) : Prop :=
  match a with
  | TCP_CLIENT_STEP_PENDING => operation c = op /\ step_result c = TCP_CLIENT_STEP_PENDING
  | TCP_CLIENT_STEP_COMPLETE =>
      operation c = op /\ operation_goal_reached c = true /\ error c = TCP_CLIENT_ERROR_NONE
  | TCP_CLIENT_STEP_FAILED => True
  end.

Lemma moves_refl p s : moves p s s.
Proof. apply rtc_refl. Qed.

Lemma moves_edge p s s' : edge p s s' -> moves p s s'.
Proof. intros. apply rtc_once. by left. Qed.

Lemma moves_fail p s : connected s -> moves p s TCP_CLIENT_FAILED.
Proof. intros []. apply rtc_once. right. by constructor. Qed.

Lemma moves_edge_fail p s s' : edge p s s' -> connected s' -> moves p s TCP_CLIENT_FAILED.
Proof. intros. eapply rtc_l; [left; eassumption|]. by apply moves_fail. Qed.

Definition begun (op : tcp_client_operation) (now : Z) (c : tcp_client) : tcp_client :=
  set_error TCP_CLIENT_ERROR_NONE (set_operation_stalled_services 0 (set_operation_previous_now_ms now
    (set_operation_started_at_ms now (set_step_result TCP_CLIENT_STEP_PENDING (set_operation op c))))).

Lemma begin_operation_total op c w :
  has_now c = true -> exists now w', u64_ok now /\ begin_operation now_ms op c w = Some (begun op now c, w').
Proof.
  intros H. unfold begin_operation, read_clock. rewrite H. destruct (now_ms w) as [now w'].
  exists (u64 now), w'. cbn [mbind option_bind]. split; [|done].
  rewrite u64_mod. unfold u64_ok. pose proof (Z.mod_pos_bound now (2 ^ 64)). lia.
Qed.

Lemma begun_base op now c : client_base c -> has_now c = true -> u64_ok now -> client_base (begun op now c).
Proof.
  intros H Hn Hnow. unfold begun, u64_ok in *. unfold TCP_CLIENT_CLOCK_STALL_SERVICE_LIMIT in *. ok_fields.
Qed.

Lemma begun_ok op now c :
  client_ok c -> has_now c = true -> u64_ok now -> op <> TCP_CLIENT_OPERATION_CONNECT ->
  operation_is_busy c = false -> client_ok (begun op now c).
Proof.
  intros [] ? ? ? Hb%not_busy. constructor; [by apply begun_base|done..|]. unfold begun. tcp_simpl. tauto.
Qed.

(** An established connection without an operation in progress has nothing in flight. *)
Lemma idle_not_busy c :
  client_ok c -> operation_is_busy c = false ->
  state c = TCP_CLIENT_ESTABLISHED \/ state c = TCP_CLIENT_CLOSE_WAIT -> pending_active c = false.
Proof.
  intros [] Hb%not_busy Hs. destruct (pending_active c); [|done]. exfalso. auto.
Qed.

Lemma idle_window c :
  client_ok c -> connected (state c) -> pending_active c = false -> send_unacknowledged c = send_next c.
Proof. intros [_ _ Hw _ _] Hl Hp. rewrite Hp in Hw. auto. Qed.

Lemma finish_ok p c c0 w :
  client_ok c -> setup c = setup c0 -> moves p (state c0) (state c) -> step_result c = TCP_CLIENT_STEP_PENDING ->
  step_ok p (result_ok (operation c)) c0 (finish c w).
Proof.
  intros Hc Hs Hm Hst. unfold finish, step_ok. destruct (complete_if_reached_frame c) as (E1 & _ & E3).
  eexists _, _, w. split; [done|]. split; [by apply complete_if_reached_ok|]. rewrite E1, E3.
  split; [done|]. split; [done|]. unfold complete_if_reached. case_bool_decide; [done|].
  destruct (operation_goal_reached c) eqn:Eg; cbn; [done|]. by rewrite Hst.
Qed.

Lemma rejected_ok p op op' e c w : client_ok c -> step_ok p (result_ok op') c (rejected op e c w).
Proof.
  intros Hc. unfold rejected. eexists _, _, w. split; [done|]. split; [by apply reject_operation_ok|].
  unfold reject_operation. destruct (operation_is_busy c); (split; [done|]); (split; [apply moves_refl|done]).
Qed.

Lemma already_failed_ok p op op' c w :
  client_ok c -> state c = TCP_CLIENT_FAILED -> step_ok p (result_ok op') c (already_failed op c w).
Proof.
  intros Hc Hs. unfold already_failed. eexists _, _, w. split; [done|]. split; [ok_fields|].
  split; [done|]. split; [apply moves_refl|done].
Qed.

Lemma failed_step_ok p op c c' (w : W) :
  client_ok c' -> setup c' = setup c -> moves p (state c) (state c') ->
  step_ok p (result_ok op) c (Some (TCP_CLIENT_STEP_FAILED, c', w)).
Proof. intros. by exists TCP_CLIENT_STEP_FAILED, c', w. Qed.

(** A client that starts a segment in its new state, then finishes. *)
Lemma start_then_finish p flags data n c c0 w :
  client_base c -> pending_active c = false -> connected (state c) ->
  send_unacknowledged c = send_next c -> flight (state c) true flags n -> bytes_ok data ->
  0 <= n <= Z.of_nat (length data) -> n <= TCP_CLIENT_MAX_SEGMENT_DATA ->
  step_result c = TCP_CLIENT_STEP_PENDING ->
  (operation c = TCP_CLIENT_OPERATION_CONNECT -> state c = TCP_CLIENT_SYN_SENT) ->
  (state c = TCP_CLIENT_ESTABLISHED \/ state c = TCP_CLIENT_CLOSE_WAIT ->
   operation c = TCP_CLIENT_OPERATION_SEND) ->
  setup c = setup c0 -> (state c0 = state c \/ edge p (state c0) (state c)) ->
  step_ok p (result_ok (operation c)) c0
    ('(ok, client, w) ← start_pending_segment send_ipv4 flags data n c w;
     if (ok : bool) then finish client w else Some (TCP_CLIENT_STEP_FAILED, client, w)).
Proof.
  intros Hb Hp Hs Hu Hf Hd Hn Hn' Hst Hc Hsd Hset He.
  destruct (start_pending_segment_total flags data n c w) as (b & c' & w' & E & Hok & Hset' & Hpr & Hr);
    try done; [intros; split; auto|].
  rewrite E, some_bind. cbv beta iota.
  assert (Hm : moves p (state c0) (state c')).
  { destruct b; [destruct Hr as [-> _]|rewrite Hr]; destruct He as [->|He].
    - apply moves_refl. - by apply moves_edge. - by apply moves_fail. - by apply (moves_edge_fail _ _ (state c)). }
  assert (Ho : operation c = operation c') by (unfold progress in Hpr; congruence).
  destruct b; [rewrite Ho; apply finish_ok|apply failed_step_ok]; try (done || congruence).
  destruct Hr; congruence.
Qed.

Lemma ok_live_has c : client_ok c -> connected (state c) -> has_send c = true /\ has_now c = true.
Proof. intros Hc Hl. destruct (ok_live _ (ok_base _ Hc) Hl) as (? & ? & _). done. Qed.

(** The client [begin_connect] sends the SYN from. *)
Lemma connecting_base ip port iss now c :
  client_base c -> u32_ok iss -> u64_ok now -> has_send c = true -> has_now c = true ->
  (receive_buffer c = None -> receive_capacity c = 0) ->
  client_base (set_state TCP_CLIENT_SYN_SENT (begun TCP_CLIENT_OPERATION_CONNECT now (connecting ip port iss c))).
Proof.
  unfold u64_ok. intros Hb Hi Hnow Hs Hn Hr. destruct Hb. unfold begun, connecting.
  constructor; tcp_simpl; try done.
  - lia.
  - intros _. unfold TCP_CLIENT_CLOCK_STALL_SERVICE_LIMIT. split; [done|lia].
Qed.

Lemma begin_connect_ok ip port iss c w :
  client_ok c -> u32_ok iss -> step_ok Opening (result_ok TCP_CLIENT_OPERATION_CONNECT) c (begin_connect send_ipv4 now_ms ip port iss c w).
Proof.
  intros Hc Hi. unfold begin_connect.
  destruct (_ || _) eqn:Eg; [by apply rejected_ok|].
  destruct (operation_is_busy c) eqn:Eb; [by apply rejected_ok|].
  destruct (state c) eqn:Es; try (by apply rejected_ok); [|by apply already_failed_ok].
  apply orb_false_iff in Eg as [Eg _]. apply orb_false_iff in Eg as [Eg _].
  apply orb_false_iff in Eg as [Eg Ebuf]. apply orb_false_iff in Eg as [Eg _].
  apply orb_false_iff in Eg as [Hsend%negb_false_iff Hnow%negb_false_iff].
  assert (Hr : receive_buffer c = None -> receive_capacity c = 0).
  { intros Hnone. rewrite Hnone in Ebuf. rewrite bool_decide_false in Ebuf by (by intros [? ?]).
    cbn [negb andb] in Ebuf. apply negb_false_iff, Z.eqb_eq in Ebuf. done. }
  destruct (begin_operation_total TCP_CLIENT_OPERATION_CONNECT (connecting ip port iss c) w Hnow)
    as (now & w' & Hnow' & E).
  rewrite E, some_bind. cbv beta iota.
  apply (start_then_finish Opening TCP_FLAG_SYN [] 0 (set_state TCP_CLIENT_SYN_SENT (begun _ now _))); try done.
  - apply connecting_base; (done || apply Hc).
  - constructor.
  - intros []; done.
  - right. rewrite Es. constructor.
Qed.

Lemma begin_send_ok data n c w :
  client_ok c -> 0 <= n -> (forall bytes, data = Some bytes -> bytes_ok bytes /\ n <= Z.of_nat (length bytes)) ->
  step_ok Failure (result_ok TCP_CLIENT_OPERATION_SEND) c (begin_send send_ipv4 now_ms data n c w).
Proof.
  intros Hc Hn Hd. unfold begin_send.
  destruct (_ || _) eqn:Eg; [by apply rejected_ok|].
  destruct (operation_is_busy c) eqn:Eb; [by apply rejected_ok|].
  destruct (state c) eqn:Es; try (by apply rejected_ok); [|by apply already_failed_ok].
  destruct (ok_live_has c Hc) as [Hsend Hnow]; [by rewrite Es|].
  destruct (begin_operation_total TCP_CLIENT_OPERATION_SEND c w Hnow) as (now & w' & Hnow' & E).
  rewrite E, some_bind. cbv beta iota.
  assert (Hb : client_ok (begun TCP_CLIENT_OPERATION_SEND now c)) by (by apply begun_ok).
  destruct (Z.eqb_spec n 0) as [->|Hn0].
  { by apply (finish_ok Failure (begun TCP_CLIENT_OPERATION_SEND now c)); [..|apply moves_refl|]. }
  apply orb_false_iff in Eg as [E1 E2]. apply Z.ltb_ge in E2.
  destruct data as [bytes|]; [|rewrite bool_decide_false in E1 by (by intros [? ?]); done].
  destruct (Hd bytes eq_refl) as [Hb1 Hb2].
  assert (Hp : pending_active c = false) by (apply idle_not_busy; rewrite ?Es; auto).
  assert (Es' : state (begun TCP_CLIENT_OPERATION_SEND now c) = TCP_CLIENT_ESTABLISHED) by done.
  apply (start_then_finish Failure _ bytes n (begun TCP_CLIENT_OPERATION_SEND now c)); rewrite ?Es'; try done.
  - apply Hb.
  - apply (idle_window c); (done || by rewrite Es).
  - cbn. intros _. split; [done|lia].
  - by left.
Qed.

Lemma begin_then_finish p op c w :
  client_ok c -> has_now c = true -> op <> TCP_CLIENT_OPERATION_CONNECT -> operation_is_busy c = false ->
  step_ok p (result_ok op) c ('(client, w) ← begin_operation now_ms op c w; finish client w).
Proof.
  intros Hc Hn Hop Hb. destruct (begin_operation_total op c w Hn) as (now & w' & Hnow & E).
  rewrite E, some_bind. cbv beta iota. by apply (finish_ok p (begun op now c)); [apply begun_ok|..|apply moves_refl|].
Qed.

Lemma begin_wait_for_peer_close_ok c w :
  client_ok c -> step_ok Failure (result_ok TCP_CLIENT_OPERATION_WAIT_FOR_PEER_CLOSE) c (begin_wait_for_peer_close now_ms c w).
Proof.
  intros Hc. unfold begin_wait_for_peer_close.
  destruct (has_now c) eqn:Hn; cbn [negb]; [|by apply rejected_ok].
  destruct (operation_is_busy c) eqn:Eb; [by apply rejected_ok|].
  destruct (state c) eqn:Es; try (by apply rejected_ok); try (by apply begin_then_finish);
    [|by apply already_failed_ok].
  destruct (begin_operation_total TCP_CLIENT_OPERATION_WAIT_FOR_PEER_CLOSE c w Hn) as (now & w' & Hnow & E).
  rewrite E, some_bind. cbv beta iota.
  eexists _, _, w'. split; [done|]. split; [by apply begun_ok|]. split; [done|].
  split; [apply moves_refl|done].
Qed.

Lemma send_fin_ok next now c w :
  client_ok c -> has_now c = true -> u64_ok now -> operation_is_busy c = false -> pending_active c = false ->
  edge Closing (state c) next -> connected next -> flight next true (Z.lor TCP_FLAG_FIN TCP_FLAG_ACK) 0 ->
  next <> TCP_CLIENT_ESTABLISHED -> next <> TCP_CLIENT_CLOSE_WAIT -> connected (state c) ->
  step_ok Closing (result_ok TCP_CLIENT_OPERATION_CLOSE) c (send_fin send_ipv4 next (begun TCP_CLIENT_OPERATION_CLOSE now c) w).
Proof.
  intros Hc Hn Hnow Hb Hp He Hs Hf H1 H2 Hl. unfold send_fin.
  apply (start_then_finish Closing _ [] 0 (set_state next (begun TCP_CLIENT_OPERATION_CLOSE now c))); try done.
  - apply set_state_base; [|done]. by apply begun_base; [apply Hc|..].
  - by apply (idle_window c).
  - constructor.
  - by intros [Hx|Hx].
  - by right.
Qed.

Lemma begin_close_ok c w : client_ok c -> step_ok Closing (result_ok TCP_CLIENT_OPERATION_CLOSE) c (begin_close send_ipv4 now_ms c w).
Proof.
  intros Hc. unfold begin_close.
  destruct (has_send c) eqn:Hsend; cbn [negb orb]; [|by apply rejected_ok].
  destruct (has_now c) eqn:Hn; cbn [negb]; [|by apply rejected_ok].
  destruct (operation_is_busy c) eqn:Eb; [by apply rejected_ok|].
  case_bool_decide; [by apply begin_then_finish|].
  case_bool_decide; [by apply already_failed_ok|].
  destruct (pending_active c) eqn:Ep; [by apply rejected_ok|].
  destruct (begin_operation_total TCP_CLIENT_OPERATION_CLOSE c w Hn) as (now & w' & Hnow & E).
  rewrite E, some_bind. cbv beta iota.
  assert (Hl : connected (state c)) by done.
  change (state (begun _ now c)) with (state c).
  assert (Hfin : step_ok Closing (result_ok TCP_CLIENT_OPERATION_CLOSE) c (finish (begun TCP_CLIENT_OPERATION_CLOSE now c) w')).
  { by apply (finish_ok Closing (begun TCP_CLIENT_OPERATION_CLOSE now c)); [apply begun_ok|..|apply moves_refl|]. }
  destruct (state c) eqn:Es; try done.
  - pose proof (ok_flight _ Hc) as Hf. rewrite Es in Hf. destruct Hf as [Ha _]. congruence.
  - apply send_fin_ok; rewrite ?Es; try done. constructor.
  - apply send_fin_ok; rewrite ?Es; try done. constructor.
Qed.

(** ** Service *)

(** Bounds the services left while the operation stays pending: a service either finds the clock
    advanced, towards the timeout, or counts one more stall. *)
Definition patience (c : tcp_client) : Z :=
  (operation_timeout_ms c + 1 - (operation_previous_now_ms c - operation_started_at_ms c)) *
    TCP_CLIENT_CLOCK_STALL_SERVICE_LIMIT - operation_stalled_services c.

Definition service_result (c : tcp_client) (a : tcp_client_step_result) (c' : tcp_client) : Prop :=
  result_ok (operation c) a c' /\ (a = TCP_CLIENT_STEP_PENDING -> 0 < patience c' < patience c).

Lemma fail_step_ok p (R : tcp_client_step_result -> tcp_client -> Prop) e c c0 (w : W) :
  client_base c -> setup c = setup c0 -> connected (state c0) ->
  R TCP_CLIENT_STEP_FAILED (fail_client e c) -> step_ok p R c0 (Some (TCP_CLIENT_STEP_FAILED, fail_client e c, w)).
Proof.
  intros. eexists _, _, w. split; [done|]. split; [by apply fail_client_ok|]. split; [done|].
  split; [by apply moves_fail|done].
Qed.

(** The client with the clock reading [now] recorded. *)
Definition ticked (now : Z) (c : tcp_client) : tcp_client :=
  if now =? operation_previous_now_ms c
  then set_operation_stalled_services (u32 (operation_stalled_services c + 1)) c
  else set_operation_previous_now_ms now (set_operation_stalled_services 0 c).

Lemma ticked_ok now c :
  client_ok c -> step_result c = TCP_CLIENT_STEP_PENDING -> u64_ok now -> operation_previous_now_ms c <= now ->
  (now = operation_previous_now_ms c -> u32 (operation_stalled_services c + 1) < TCP_CLIENT_CLOCK_STALL_SERVICE_LIMIT) ->
  client_ok (ticked now c) /\
  operation_previous_now_ms (ticked now c) = now /\
  patience (ticked now c) < patience c.
Proof.
  unfold u64_ok, TCP_CLIENT_CLOCK_STALL_SERVICE_LIMIT. intros Hc Hst Hnow Hle Hstall.
  destruct (ok_clock _ (ok_base _ Hc) Hst) as (_ & Hstart & _ & Hst0).
  unfold TCP_CLIENT_CLOCK_STALL_SERVICE_LIMIT in Hst0. unfold ticked.
  destruct (Z.eqb_spec now (operation_previous_now_ms c)) as [E|E].
  - rewrite u32_small in * by (unfold u32_ok; lia). specialize (Hstall E).
    split; [|split; [done|unfold patience; tcp_simpl; lia]].
    destruct Hc as [Hb ? ? ? ?]. destruct Hb. constructor; [constructor|..]; tcp_simpl; try done.
    intros _. unfold TCP_CLIENT_CLOCK_STALL_SERVICE_LIMIT. destruct (ok_clock0 Hst) as (? & ? & ? & ?).
    split_and!; (done || lia).
  - split; [|split; [done|unfold patience, TCP_CLIENT_CLOCK_STALL_SERVICE_LIMIT; tcp_simpl; lia]].
    destruct Hc as [Hb ? ? ? ?]. destruct Hb. constructor; [constructor|..]; tcp_simpl; try done.
    intros _. unfold TCP_CLIENT_CLOCK_STALL_SERVICE_LIMIT. destruct (ok_clock0 Hst) as (? & ? & ? & ?).
    split_and!; (done || lia).
Qed.

Lemma patience_frame c c' : setup c' = setup c -> progress c' = progress c -> patience c' = patience c.
Proof. unfold setup, progress, patience. intros. congruence. Qed.

Lemma ticked_frame now c :
  setup (ticked now c) = setup c /\ state (ticked now c) = state c /\ step_result (ticked now c) = step_result c /\
  operation (ticked now c) = operation c /\ operation_started_at_ms (ticked now c) = operation_started_at_ms c.
Proof. unfold ticked. by destruct (_ =? _). Qed.

(** The end of a service. *)
Lemma serviced_ok c c' (w : W) :
  client_ok c' -> setup c' = setup c -> state c' = state c -> operation c' = operation c ->
  step_result c' = TCP_CLIENT_STEP_PENDING -> 0 < patience c' < patience c ->
  step_ok Failure (service_result c) c
    (let client := complete_if_reached c' in Some (step_result client, client, w)).
Proof.
  intros Hc Hs Hst Ho Hr Hp.
  destruct (finish_ok Failure c' c w Hc Hs) as (a & c2 & w2 & E & Hok & Hset & Hm & R);
    [rewrite Hst; apply moves_refl|done|].
  unfold finish in E. cbv zeta in E |- *. injection E as <- <- <-.
  eexists _, _, _. split; [done|]. split; [done|]. split; [done|]. split; [done|].
  unfold service_result. rewrite <- Ho. split; [done|]. intros _.
  destruct (complete_if_reached_frame c') as (F1 & F2 & _). by rewrite (patience_frame _ _ F1 F2).
Qed.

Lemma fail_stalled_ok e k c : client_base c -> client_ok (fail_client e (set_operation_stalled_services k c)).
Proof. intros. unfold fail_client. ok_fields; by intros []. Qed.

Lemma complete_if_reached_cases c :
  step_result c = TCP_CLIENT_STEP_PENDING -> state c <> TCP_CLIENT_FAILED ->
  (complete_if_reached c = c /\ operation_goal_reached c = false) \/
  (complete_if_reached c = set_error TCP_CLIENT_ERROR_NONE (set_step_result TCP_CLIENT_STEP_COMPLETE c) /\
   operation_goal_reached c = true).
Proof.
  intros Hst Hf. unfold complete_if_reached. rewrite bool_decide_false by done.
  destruct (operation_goal_reached c); auto.
Qed.

Lemma service_pending_ok c w :
  client_ok c -> step_result c = TCP_CLIENT_STEP_PENDING -> connected (state c) ->
  step_ok Failure (service_result c) c (service_pending send_ipv4 now_ms c w).
Proof.
  intros Hc Hst Hl. unfold service_pending, read_clock.
  destruct (ok_live_has c Hc Hl) as [_ ->]. destruct (now_ms w) as [now0 w']. rewrite some_bind. cbv beta iota zeta.
  set (now := u64 now0).
  assert (Hnow : u64_ok now) by (unfold now, u64_ok; rewrite u64_mod; pose proof (Z.mod_pos_bound now0 (2 ^ 64)); lia).
  assert (Hfail : forall e c1, client_base c1 -> setup c1 = setup c ->
     step_ok Failure (service_result c) c (Some (TCP_CLIENT_STEP_FAILED, fail_client e c1, w'))).
  { intros. by apply fail_step_ok. }
  destruct (Z.ltb_spec now (operation_previous_now_ms c)) as [|Hle]; [by apply Hfail; [apply Hc|]|].
  fold (ticked now c).
  destruct (ticked_frame now c) as (Fs & Fst & Fr & Fo & Fb).
  destruct ((now =? operation_previous_now_ms c) && _) eqn:Estall.
  { eexists _, _, w'. split; [done|]. apply andb_true_iff in Estall as [E _]. unfold ticked. rewrite E.
    split; [apply fail_stalled_ok, Hc|]. split; [done|]. split; [by apply moves_fail|done]. }
  destruct (ticked_ok now c Hc Hst Hnow Hle) as (Ht & Hprev & Hpat).
  { intros E. apply andb_false_iff in Estall as [Estall|Estall]; [lia|].
    apply Z.leb_gt in Estall. unfold ticked in Estall. by rewrite (proj2 (Z.eqb_eq _ _) E) in Estall. }
  destruct (Z.leb_spec (operation_timeout_ms (ticked now c)) (u64 (now - operation_started_at_ms (ticked now c))))
    as [|Htime]; [by apply Hfail; [apply Ht|]|].
  assert (Hpos : 0 < patience (ticked now c)).
  { destruct (ok_clock _ (ok_base _ Ht)) as (_ & H1 & H2 & H3); [by rewrite Fr|].
    unfold u64_ok in Hnow. rewrite u64_small in Htime by (unfold u64_ok; lia).
    unfold patience. rewrite Hprev in *. unfold TCP_CLIENT_CLOCK_STALL_SERVICE_LIMIT in *. lia. }
  destruct (pending_active _ && _).
  - destruct (retransmit_pending_total now (ticked now c) w' Ht) as (b & c' & w2 & E & Hok & Hset & Hpr & _ & Hb).
    { by rewrite Fst. }
    rewrite E, some_bind. cbv beta iota. destruct b; [|].
    + destruct Hb as [Hb1 Hb2]. apply serviced_ok; try congruence; try done.
      * unfold progress in Hpr. congruence.
      * by rewrite (patience_frame _ _ Hset Hpr).
    + eexists _, _, w2. split; [done|]. split; [done|]. split; [congruence|].
      split; [rewrite Hb; by apply moves_fail|done].
  - rewrite some_bind. cbv beta iota. apply serviced_ok; try congruence; try done.
Qed.

Lemma tcp_client_service_ok c w :
  client_ok c -> step_result c = TCP_CLIENT_STEP_PENDING ->
  step_ok Failure (service_result c) c (tcp_client_service send_ipv4 now_ms c w).
Proof.
  intros Hc Hst. unfold tcp_client_service. case_bool_decide as Hf.
  { eexists _, _, w. split; [done|]. split; [ok_fields|]. split; [done|]. split; [apply moves_refl|done]. }
  rewrite Hst. rewrite bool_decide_true by done. cbn [negb].
  destruct (complete_if_reached_cases c Hst Hf) as [(E & Hg)|(E & Hg)].
  - rewrite E, Hst, bool_decide_true by done. cbn [negb].
    rewrite bool_decide_false by (intros Ho; unfold operation_goal_reached in Hg; by rewrite Ho in Hg).
    destruct (ok_clock _ (ok_base _ Hc) Hst) as [-> _]. cbn [negb orb].
    apply service_pending_ok; [done|done|]. split; [|done]. intros Hcl.
    unfold operation_goal_reached in Hg. pose proof (ok_flight _ Hc) as Hfl. pose proof (ok_connecting _ Hc Hst) as Hcn.
    rewrite Hcl in *. cbn in Hfl. destruct (operation c); try done.
    + destruct (Hcn eq_refl) as [|[|]]; done.
    + by rewrite Hfl in Hg.
  - rewrite E. cbn. eexists _, _, w. split; [done|]. split; [rewrite <- E; by apply complete_if_reached_ok|].
    split; [done|]. split; [apply moves_refl|]. split; [done|done].
Qed.
End Steps.

(** * The TCP client: receiving segments

    Every segment, well formed or not, is handled inside its bounds, keeps the
    client's invariant, and changes the received bytes only by appending its
    data when it is the next one of the peer's sequence. *)

Section Receive.
Context {W : Type} (send_ipv4 : Z -> Z -> list Z -> W -> bool * W).

(** The bytes handed to the program so far. *)
Definition received_bytes (c : tcp_client) : list Z :=
  take (Z.to_nat (receive_length c)) (default [] (receive_buffer c)).

(** What a segment with data [packet[h .. h + n)] may do to the received bytes: nothing, append all
    of its data, and count its FIN when all of it is in. *)
Definition appended (packet : list Z) (h n : Z) (fin : bool) (c c' : tcp_client) : Prop :=
  exists d f, received_bytes c' = received_bytes c ++ slice packet (Z.to_nat h) (Z.to_nat d) /\
    receive_length c' = receive_length c + d /\ receive_next c' = u32 (receive_next c + d + f) /\
    (d = 0 \/ d = n) /\ (f = 0 \/ (f = 1 /\ fin = true /\ d = n)).

(** A segment leaves the operation in progress alone, unless it fails the connection. *)
Definition undisturbed (c c' : tcp_client) : Prop :=
  progress c' = progress c /\ (step_result c' = step_result c \/ state c' = TCP_CLIENT_FAILED).

Definition receive_ok (packet : list Z) (h n : Z) (fin : bool) (c : tcp_client)
    (a : tcp_client_receive_result) (c' : tcp_client) : Prop :=
  undisturbed c c' /\ appended packet h n fin c c'.

Lemma appended_same packet h n fin c c' :
  u32_ok (receive_next c) -> received c' = received c -> appended packet h n fin c c'.
Proof.
  unfold received, received_bytes. intros Hr [= E1 E2 E3]. exists 0, 0. unfold received_bytes.
  rewrite E1, E2, E3. change (Z.to_nat 0) with 0%nat. unfold slice. cbn [take]. rewrite app_nil_r, !Z.add_0_r.
  rewrite u32_small by done. auto 10.
Qed.

(** The outcomes that leave the received bytes alone. *)
Lemma receive_same p packet h n fin a c c' (w : W) :
  client_ok c -> client_ok c' -> setup c' = setup c -> moves p (state c) (state c') -> undisturbed c c' ->
  received c' = received c -> step_ok p (receive_ok packet h n fin c) c (Some (a, c', w)).
Proof.
  intros Hc ? ? ? ? Hr. eexists _, _, w. split; [done|]. split; [done|]. split; [done|]. split; [done|].
  split; [done|]. by apply appended_same; [apply Hc|].
Qed.

Lemma undisturbed_fail e c : undisturbed c (fail_client e c).
Proof. split; [done|by right]. Qed.

Lemma receive_malformed p packet h n fin a c (w : W) :
  client_ok c -> step_ok p (receive_ok packet h n fin c) c (Some (a, count_malformed c, w)).
Proof.
  intros. apply receive_same; try done; [by apply count_malformed_ok|]. split; [done|by left].
Qed.

Lemma receive_fail p packet h n fin a e c (w : W) :
  client_ok c -> connected (state c) -> step_ok p (receive_ok packet h n fin c) c (Some (a, fail_client e c, w)).
Proof.
  intros. apply receive_same; try done; [by apply fail_client_ok, ok_base|by apply moves_fail|apply undisturbed_fail].
Qed.

Lemma receive_reset_ok packet h n fin flags sequence ack c (w : W) :
  client_ok c -> connected (state c) ->
  step_ok Peer (receive_ok packet h n fin c) c (receive_reset flags sequence ack c w).
Proof.
  intros. unfold receive_reset. cbv zeta. destruct (if bool_decide _ then _ else _).
  - by apply receive_fail. - by apply receive_malformed.
Qed.

(** A client that acknowledges and goes on. *)
Lemma acked_ok c (b : bool) :
  client_ok c -> client_ok (if b then c else fail_client TCP_CLIENT_ERROR_SEND_FAILED c).
Proof. intros. destruct b; [done|by apply fail_client_ok, ok_base]. Qed.

Lemma syn_ack_syn flags :
  Z.land flags (Z.lor TCP_FLAG_SYN TCP_FLAG_ACK) = Z.lor TCP_FLAG_SYN TCP_FLAG_ACK -> flag TCP_FLAG_SYN flags = true.
Proof.
  intros H. unfold flag. apply negb_true_iff, Z.eqb_neq. intros H0.
  apply (f_equal (fun z => Z.testbit z 1)) in H. apply (f_equal (fun z => Z.testbit z 1)) in H0.
  rewrite Z.land_spec in H, H0. change (Z.testbit TCP_FLAG_SYN 1) with true in H0.
  change (Z.testbit (Z.lor TCP_FLAG_SYN TCP_FLAG_ACK) 1) with true in H. rewrite Z.bits_0 in H0. congruence.
Qed.

(** The client after the peer's SYN+ACK. *)
Definition established (sequence ack : Z) (c : tcp_client) : tcp_client :=
  set_state TCP_CLIENT_ESTABLISHED (set_receive_next (u32 (sequence + 1)) (set_pending_active false
    (set_send_unacknowledged ack c))).

Lemma established_ok sequence ack c :
  client_ok c -> connected (state c) -> ack = send_next c -> client_ok (established sequence ack c).
Proof.
  intros [Hb ? ? ? ?] Hl ->. destruct Hb as [Bu Bn Br Bbuf Bcap Bpd Bpl Bck Blive]. unfold established.
  constructor; [constructor|..]; tcp_simpl; try done; [apply u32_range|by intros _; apply Blive|by auto].
Qed.

Lemma receive_handshake_ok flags sequence ack dl c w :
  client_ok c -> state c = TCP_CLIENT_SYN_SENT ->
  step_ok Peer (fun (_ : tcp_client_receive_result) c' => undisturbed c c' /\
      (received c' = received c \/
       (received_bytes c' = received_bytes c /\ receive_length c' = receive_length c /\
        receive_next c' = u32 (sequence + 1) /\ flag TCP_FLAG_SYN flags = true))) c
    (receive_handshake send_ipv4 flags sequence ack dl c w).
Proof.
  intros Hc Hs. unfold receive_handshake. cbv zeta. fold (established sequence ack c).
  destruct (_ || _) eqn:Eg.
  { eexists _, _, w. split; [done|]. split; [by apply count_malformed_ok|]. split; [done|]. split; [apply moves_refl|].
    split; [split; [done|by left]|by left]. }
  bdestr_hyps.
  assert (Hl : connected (state c)) by (by rewrite Hs).
  assert (Hack : ack = send_next c).
  { pose proof (ok_window _ Hc) as Hw. destruct (pending_active c); [|done]. lia. }
  assert (He : client_ok (established sequence ack c)) by (by apply established_ok).
  destruct (send_ack_total send_ipv4 (established sequence ack c) w) as (b & w' & E); [by apply (ok_live_has c)|].
  rewrite E, some_bind. cbv beta iota. eexists _, _, w'. split; [done|]. split; [by apply acked_ok|].
  split; [by destruct b|]. split.
  { rewrite Hs. destruct b; [by apply moves_edge; constructor|].
    by apply (moves_edge_fail _ _ TCP_CLIENT_ESTABLISHED); [constructor|]. }
  split; [split; [by destruct b|destruct b; [by left|by right]]|].
  right. split; [by destruct b|]. split; [by destruct b|]. split; [by destruct b|by apply syn_ack_syn].
Qed.

(** *** The data *)

Lemma set_receive_ok buffer c n :
  client_ok c -> Z.of_nat (length buffer) = receive_capacity c -> 0 <= n ->
  receive_length c + n <= receive_capacity c ->
  client_ok (set_receive_next (u32 (receive_next c + u32 n)) (set_receive_length (u64 (receive_length c + n))
    (set_receive_buffer (Some buffer) c))).
Proof.
  intros [Hb ? ? ? ?] Hl Hn Hcap. destruct Hb as [Bu Bn Br Bbuf Bcap Bpd Bpl Bck Blive]. constructor; [constructor|..]; tcp_simpl; try done.
  - apply u32_range.
  - by intros ? [= <-].
  - rewrite u64_small by (unfold u64_ok; lia). lia.
  - intros Hc. destruct (Blive Hc) as (? & ? & _). done.
Qed.

(** Bytes [d] of the data are in; the peer's sequence has advanced past them. *)
Definition grown (packet : list Z) (h d f : Z) (c c' : tcp_client) : Prop :=
  received_bytes c' = received_bytes c ++ slice packet (Z.to_nat h) (Z.to_nat d) /\
  receive_length c' = receive_length c + d /\ receive_next c' = u32 (receive_next c + d + f).

Lemma grown_0 packet h c c' : u32_ok (receive_next c) -> received c' = received c -> grown packet h 0 0 c c'.
Proof.
  unfold received, grown, received_bytes. intros Hr [= E1 E2 E3]. rewrite E1, E2, E3.
  change (Z.to_nat 0) with 0%nat. unfold slice. cbn [take]. by rewrite app_nil_r, !Z.add_0_r, u32_small.
Qed.

Lemma receive_data_ok packet flags h n c w :
  client_ok c -> connected (state c) -> 0 <= h -> 0 <= n -> h + n <= Z.of_nat (length packet) ->
  exists r c' w' d, receive_data send_ipv4 packet flags h n c w = Some (r, c', w') /\ client_ok c' /\
    setup c' = setup c /\ progress c' = progress c /\ grown packet h d 0 c c' /\ (d = 0 \/ d = n) /\
    (state c' = TCP_CLIENT_FAILED \/ (state c' = state c /\ step_result c' = step_result c)) /\
    (r = None -> d = n /\ state c' = state c).
Proof.
  intros Hc Hl Hh Hn Hlen. unfold receive_data.
  assert (Hr : u32_ok (receive_next c)) by apply Hc.
  destruct (Z.eqb_spec n 0) as [->|Hn0].
  { exists None, c, w, 0. split; [done|]. split; [done|]. split; [done|]. split; [done|].
    split; [by apply grown_0|]. split; [by left|]. split; [by right|done]. }
  cbv zeta.
  destruct (ok_capacity _ (ok_base _ Hc)) as [Hcap Hcap'].
  destruct (Z.ltb_spec (u64 (receive_capacity c - receive_length c)) n) as [|Hfit].
  { eexists _, _, w, 0. split; [done|]. split; [by apply fail_client_ok, ok_base|]. split; [done|]. split; [done|].
    split; [by apply grown_0|]. split; [by left|]. split; [by left|done]. }
  rewrite u64_small in Hfit by (unfold u64_ok; lia).
  destruct (_ || _).
  { eexists _, _, w, 0. split; [done|]. split; [by apply count_malformed_ok|]. split; [done|]. split; [done|].
    split; [by apply grown_0|]. split; [by left|]. split; [by right|done]. }
  destruct (receive_buffer c) as [buf|] eqn:Ebuf.
  2:{ destruct (ok_live _ (ok_base _ Hc) Hl) as (_ & _ & H0). specialize (H0 Ebuf). lia. }
  rewrite some_bind. pose proof (ok_buffer _ (ok_base _ Hc) _ Ebuf) as Hbuf.
  destruct (copy_checked_Some buf packet (receive_length c) h n) as (out & Eout & Elen & _); [lia..|].
  rewrite Eout, some_bind. tcp_simpl.
  set (c1 := set_receive_next _ _).
  assert (H1 : client_ok c1) by (apply set_receive_ok; (done || lia)).
  assert (Hg : forall c2, received c2 = received c1 -> grown packet h n 0 c c2).
  { unfold received, grown, received_bytes. intros c2 [= E1 E2 E3]. rewrite E1, E2, E3. unfold c1. tcp_simpl.
    rewrite u64_small by (unfold u64_ok; lia). rewrite Ebuf. cbn [default from_option id].
    rewrite (copy_checked_take _ _ _ _ _ _ Eout). split; [done|]. split; [done|].
    rewrite Z.add_0_r, !u32_mod. by rewrite Zplus_mod_idemp_r. }
  destruct (flag TCP_FLAG_FIN flags).
  { exists None, c1, w, n. split; [done|]. split; [done|]. split; [done|]. split; [done|].
    split; [by apply Hg|]. split; [by right|]. split; [by right|done]. }
  destruct (send_ack_total send_ipv4 c1 w) as (b & w' & E); [by apply (ok_live_has c)|].
  rewrite E, some_bind. cbv beta iota.
  eexists _, _, w', n. split; [done|]. split; [by apply acked_ok|]. split; [by destruct b|]. split; [by destruct b|].
  split; [apply Hg; by destruct b|]. split; [by right|]. split; [destruct b; [by right|by left]|by destruct b].
Qed.

(** *** The FIN *)

Lemma set_receive_next_ok v c : client_ok c -> u32_ok v -> client_ok (set_receive_next v c).
Proof.
  intros [Hb ? ? ? ?] Hv. destruct Hb as [Bu Bn Br Bbuf Bcap Bpd Bpl Bck Blive].
  constructor; [constructor|..]; tcp_simpl; done.
Qed.

(** The state after the peer's FIN has been acknowledged. *)
Definition after_fin (s : tcp_client_state) : tcp_client_state :=
  match s with
  | TCP_CLIENT_ESTABLISHED => TCP_CLIENT_CLOSE_WAIT
  | TCP_CLIENT_FIN_WAIT_1 => TCP_CLIENT_CLOSING
  | TCP_CLIENT_FIN_WAIT_2 => TCP_CLIENT_CLOSED
  | s => s
  end.

Lemma after_fin_edge s : after_fin s = s \/ edge Peer s (after_fin s).
Proof. destruct s; cbn; try (by left); right; constructor. Qed.

Lemma after_fin_ok c : client_ok c -> client_ok (set_state (after_fin (state c)) c).
Proof.
  intros [Hb Hf Hw Hc Hsd]. destruct Hb as [Bu Bn Br Bbuf Bcap Bpd Bpl Bck Blive].
  assert (Hl : connected (after_fin (state c)) -> connected (state c)) by (by destruct (state c); intros []).
  constructor; [constructor|..]; tcp_simpl; try done; unfold in_flight in *; tcp_simpl.
  - intros H. apply Blive, Hl, H.
  - destruct (state c); cbn in *; try done; tauto.
  - destruct (pending_active c); [done|]. intros H. apply Hw, Hl, H.
  - intros H1 H2. destruct (Hc H1 H2) as [E|[E|E]]; rewrite E; cbn; auto.
  - intros H1 H2. apply Hsd; [done|]. destruct (state c); cbn in H2; destruct H2 as [H2|H2]; try done; auto.
Qed.

Lemma receive_fin_ok packet h flags c w :
  client_ok c -> connected (state c) ->
  exists a c' w' f, receive_fin send_ipv4 flags c w = Some (a, c', w') /\ client_ok c' /\
    setup c' = setup c /\ progress c' = progress c /\ grown packet h 0 f c c' /\
    (f = 0 \/ (f = 1 /\ flag TCP_FLAG_FIN flags = true)) /\
    (state c' = TCP_CLIENT_FAILED \/
     ((state c' = state c \/ edge Peer (state c) (state c')) /\ step_result c' = step_result c)).
Proof.
  intros Hc Hl. assert (Hr : u32_ok (receive_next c)) by apply Hc. unfold receive_fin.
  destruct (flag TCP_FLAG_FIN flags) eqn:Ef; cbn [negb].
  2:{ exists TCP_CLIENT_RECEIVE_ACCEPTED, c, w, 0. split; [done|]. split; [done|]. split; [done|]. split; [done|].
      split; [by apply grown_0|]. split; [by left|]. right. split; [by left|done]. }
  cbv zeta. set (c1 := set_receive_next _ _).
  assert (H1 : client_ok c1) by (apply set_receive_next_ok; [done|apply u32_range]).
  assert (Hg : forall c2, received c2 = received c1 -> grown packet h 0 1 c c2).
  { unfold received, grown, received_bytes. intros c2 [= E1 E2 E3]. rewrite E1, E2, E3. unfold c1. tcp_simpl.
    change (Z.to_nat 0) with 0%nat. unfold slice. cbn [take]. by rewrite app_nil_r, !Z.add_0_r. }
  destruct (send_ack_total send_ipv4 c1 w) as (b & w' & E); [by apply (ok_live_has c)|].
  rewrite E, some_bind. cbv beta iota. destruct b; cbn [negb].
  - exists TCP_CLIENT_RECEIVE_ACCEPTED, (set_state (after_fin (state c)) c1), w', 1. split.
    { do 3 f_equal. change (state c1) with (state c). destruct (state c) eqn:Es; cbn [after_fin]; try done.
      all: rewrite <- Es; change (state c) with (state c1); by destruct c1. }
    split; [by apply (after_fin_ok c1)|]. split; [done|]. split; [done|]. split; [by apply Hg|]. split; [by right|].
    right. split; [|done]. apply after_fin_edge.
  - exists TCP_CLIENT_RECEIVE_ACCEPTED, (fail_client TCP_CLIENT_ERROR_SEND_FAILED c1), w', 1. split; [done|].
    split; [by apply fail_client_ok, ok_base|]. split; [done|]. split; [done|]. split; [by apply Hg|].
    split; [by right|by left].
Qed.

(** *** A segment of a synchronized connection *)

Lemma grown_appended packet h n d f fin c c1 c2 :
  grown packet h d 0 c c1 -> grown packet h 0 f c1 c2 -> (d = 0 \/ d = n) ->
  (f = 0 \/ (f = 1 /\ fin = true /\ d = n)) -> appended packet h n fin c c2.
Proof.
  unfold grown. change (Z.to_nat 0) with 0%nat. unfold slice at 2. cbn [take]. rewrite app_nil_r.
  intros (E1 & E2 & E3) (F1 & F2 & F3) Hd Hf. exists d, f. rewrite F1, F2, F3, E1, E2, E3.
  split; [done|]. split; [lia|]. split; [|done]. rewrite !Z.add_0_r, !u32_mod, Zplus_mod_idemp_l. done.
Qed.

Lemma moves_one p s s' : s' = s \/ edge p s s' -> moves p s s'.
Proof. intros [->|H]; [apply moves_refl|by apply moves_edge]. Qed.

Lemma moves_trans p s1 s2 s3 : moves p s1 s2 -> moves p s2 s3 -> moves p s1 s3.
Proof. unfold moves. intros. by etrans. Qed.

Lemma receive_synchronized_ok packet flags sequence ack h n c w :
  client_ok c -> connected (state c) -> state c <> TCP_CLIENT_SYN_SENT -> u32_ok ack ->
  0 <= h -> 0 <= n -> h + n <= Z.of_nat (length packet) ->
  step_ok Peer (fun (_ : tcp_client_receive_result) c' => undisturbed c c' /\
      (received c' = received c \/
       (flag TCP_FLAG_SYN flags = false /\ sequence = receive_next c /\
        appended packet h n (flag TCP_FLAG_FIN flags) c c'))) c
    (receive_synchronized send_ipv4 packet flags sequence ack h n c w).
Proof.
  intros Hc Hl Hs Ha Hh Hn Hlen. assert (Hr : u32_ok (receive_next c)) by apply Hc.
  destruct (ok_live_has c Hc Hl) as [Hsend _].
  assert (Hback : forall a c1 (w1 : W) (b : bool), client_ok c1 -> setup c1 = setup c -> state c1 = state c ->
     undisturbed c c1 -> received c1 = received c ->
     step_ok Peer (fun (_ : tcp_client_receive_result) c' => undisturbed c c' /\
      (received c' = received c \/
       (flag TCP_FLAG_SYN flags = false /\ sequence = receive_next c /\
        appended packet h n (flag TCP_FLAG_FIN flags) c c'))) c
      (Some (a, if b then c1 else fail_client TCP_CLIENT_ERROR_SEND_FAILED c1, w1))).
  { intros a c1 w1 b H1 H2 H3 [H4 H4'] H5. eexists _, _, w1. split; [done|]. split; [by apply acked_ok|].
    split; [by destruct b|]. split; [destruct b; [rewrite H3; apply moves_refl|by apply moves_fail]|].
    assert (Hrec : received (if b then c1 else fail_client TCP_CLIENT_ERROR_SEND_FAILED c1) = received c)
      by (by destruct b).
    split; [|by left]. split; [by destruct b|]. destruct b; [done|by right]. }
  assert (Hself : undisturbed c c) by (split; [done|by left]).
  unfold receive_synchronized.
  destruct (flag TCP_FLAG_SYN flags) eqn:Esyn.
  { destruct (send_ack_total send_ipv4 (count_malformed c) w) as (b & w' & E); [done|].
    rewrite E, some_bind. cbv beta iota. by apply Hback; [apply count_malformed_ok|..|split; [|left]|]. }
  destruct (flag TCP_FLAG_ACK flags); cbn [negb].
  2:{ by apply (Hback _ _ _ true); [apply count_malformed_ok|..|split; [|left]|]. }
  destruct (Z.eqb_spec sequence (receive_next c)) as [Eseq|Eseq]; cbn [negb].
  2:{ destruct (_ || _).
      - destruct (send_ack_total send_ipv4 c w) as (b & w' & E); [done|].
        rewrite E, some_bind. cbv beta iota. by apply Hback.
      - rewrite some_bind. cbv beta iota. by apply (Hback _ _ _ true). }
  destruct (acknowledge_pending ack c) as [b c1] eqn:Eack.
  destruct (acknowledge_pending_ok _ _ _ _ Hc Hl Hs Ha Eack) as (H1 & Hset & Hpr & Hst & Hrec & Hb & Hmove).
  destruct b; cbn [negb].
  2:{ destruct (send_ack_total send_ipv4 c1 w) as (b & w' & E).
      { unfold setup in Hset. congruence. }
      rewrite E, some_bind. cbv beta iota. by rewrite (Hb eq_refl) in *; apply Hback; [..|split; [|left]|]. }
  case_bool_decide as Ecl.
  { eexists _, c1, w. split; [done|]. split; [done|]. split; [done|]. split; [by apply moves_one|].
    split; [split; [done|by left]|by left]. }
  assert (Hl1 : connected (state c1)).
  { split; [done|]. intros Hf. destruct Hmove as [Hm|Hm]; rewrite Hf in Hm; [destruct Hl; congruence|inversion Hm]. }
  destruct (receive_data_ok packet flags h n c1 w H1 Hl1 Hh Hn Hlen)
    as (r & c2 & w2 & d & E2 & H2 & Hset2 & Hpr2 & Hg2 & Hd & Hs2 & Hr2).
  assert (Hg2' : grown packet h d 0 c c2).
  { unfold received in Hrec. injection Hrec as G1 G2 G3. unfold grown, received_bytes in *. by rewrite <- G1, <- G2, <- G3. }
  rewrite E2, some_bind. cbv beta iota. destruct r as [r|].
  { eexists _, c2, w2. split; [done|]. split; [done|]. split; [congruence|]. split.
    - destruct Hs2 as [->|[-> _]]; [by apply moves_fail|by apply moves_one].
    - split; [split; [congruence|]|].
      + destruct Hs2 as [|[_ ->]]; auto.
      + right. split; [done|]. split; [done|]. exists d, 0. destruct Hg2' as (? & ? & ?). auto 10. }
  destruct (Hr2 eq_refl) as [-> Est2].
  destruct (receive_fin_ok packet h flags c2 w2 H2) as (a & c3 & w3 & f & E3 & H3 & Hset3 & Hpr3 & Hg3 & Hf & Hs3).
  { by rewrite Est2. }
  rewrite E3. eexists _, c3, w3. split; [done|]. split; [done|]. split; [congruence|]. split.
  - destruct Hs3 as [->|[Hm _]]; [by apply moves_fail|]. rewrite Est2 in Hm.
    apply (moves_trans _ _ (state c1)); by apply moves_one.
  - split; [split; [congruence|]|].
    + destruct Hs3 as [|[_ ->]]; [by right|]. destruct Hs2 as [Hs2|[_ ->]]; [|auto].
      rewrite Est2 in Hs2. by destruct Hl1.
    + right. split; [done|]. split; [done|]. apply (grown_appended packet h n n f _ c c2 c3); (done || auto). destruct Hf as [|[]]; auto.
Qed.

(** *** Any segment *)

(** What a segment may do to the received bytes and the peer's sequence. *)
Definition delivers (packet : list Z) (n : Z) (c c' : tcp_client) : Prop :=
  received c' = received c \/
  exists offset flags sequence, rd packet 12 = Some offset /\ rd packet 13 = Some flags /\
    read_u32 packet 4 = Some sequence /\
    let h := Z.shiftr offset 4 * 4 in
    TCP_HEADER_LENGTH <= h <= n /\ connected (state c) /\
    ((state c = TCP_CLIENT_SYN_SENT /\ flag TCP_FLAG_SYN flags = true /\ received_bytes c' = received_bytes c /\
      receive_length c' = receive_length c /\ receive_next c' = u32 (sequence + 1)) \/
     (state c <> TCP_CLIENT_SYN_SENT /\ flag TCP_FLAG_SYN flags = false /\ sequence = receive_next c /\
      appended packet h (n - h) (flag TCP_FLAG_FIN flags) c c')).

Definition segment_ok (packet : list Z) (n : Z) (c : tcp_client) (_ : tcp_client_receive_result)
    (c' : tcp_client) : Prop :=
  undisturbed c c' /\ delivers packet n c c'.

Lemma read_u16_total bytes p :
  0 <= p -> p + 2 <= Z.of_nat (length bytes) -> exists v, read_u16 bytes p = Some v.
Proof.
  intros. unfold read_u16. destruct (rd_Some bytes p) as [x ->]; [lia|].
  destruct (rd_Some bytes (p + 1)) as [y ->]; [lia|]. rewrite !some_bind. by eexists.
Qed.

Lemma read_u32_total bytes p :
  bytes_ok bytes -> 0 <= p -> p + 4 <= Z.of_nat (length bytes) -> exists v, read_u32 bytes p = Some v /\ u32_ok v.
Proof.
  intros Hb H0 H1. unfold read_u32.
  destruct (rd_Some bytes p) as [x Ex]; [lia|]. destruct (rd_Some bytes (p + 1)) as [y Ey]; [lia|].
  destruct (rd_Some bytes (p + 2)) as [z Ez]; [lia|]. destruct (rd_Some bytes (p + 3)) as [t Et]; [lia|].
  pose proof (rd_byte _ _ _ Hb Et) as Bt. unfold byte_ok in Bt.
  rewrite Ex, Ey, Ez, Et, !some_bind. eexists. split; [done|].
  repeat apply lor_u32; try apply u32_range. unfold u32_ok. lia.
Qed.

Lemma segment_same a c c' packet n (w : W) :
  client_ok c' -> setup c' = setup c -> moves Peer (state c) (state c') -> undisturbed c c' ->
  received c' = received c -> step_ok Peer (segment_ok packet n c) c (Some (a, c', w)).
Proof.
  intros. eexists _, _, w. split; [done|]. split; [done|]. split; [done|]. split; [done|].
  split; [done|by left].
Qed.

Lemma receive_segment_ok src dst packet n c w :
  client_ok c -> connected (state c) -> bytes_ok packet -> TCP_HEADER_LENGTH <= n <= 65535 ->
  n = Z.of_nat (length packet) ->
  step_ok Peer (segment_ok packet n c) c (receive_segment send_ipv4 src dst packet n c w).
Proof.
  unfold TCP_HEADER_LENGTH. intros Hc Hl Hb Hn Hlen. unfold receive_segment.
  assert (Hsame : step_ok Peer (segment_ok packet n c) c (Some (TCP_CLIENT_RECEIVE_IGNORED, c, w))).
  { apply segment_same; try done. split; [done|by left]. }
  assert (Hcount : forall a, step_ok Peer (segment_ok packet n c) c (Some (a, count_malformed c, w))).
  { intros a. apply segment_same; try done; [by apply count_malformed_ok|]. split; [done|by left]. }
  destruct (read_u16_total packet 0) as [sp ->]; [lia..|]. destruct (read_u16_total packet 2) as [dp ->]; [lia..|].
  rewrite !some_bind. destruct (_ || _); [done|].
  rewrite Hlen. rewrite checksum_spec by (done || lia). rewrite <- Hlen, some_bind.
  destruct (negb _).
  { apply segment_same; try done; [ok_fields|]. split; [done|by left]. }
  destruct (rd_Some packet 12) as [offset Eo]; [lia|]. destruct (rd_Some packet 13) as [flags Ef]; [lia|].
  rewrite Eo, Ef, !some_bind. cbv zeta. unfold TCP_HEADER_LENGTH.
  destruct ((Z.shiftr offset 4 * 4 <? 20) || (n <? Z.shiftr offset 4 * 4) || flag TCP_FLAG_URG flags) eqn:Eh; [done|].
  apply orb_false_iff in Eh as [Eh _]. apply orb_false_iff in Eh as [Eh1%Z.ltb_ge Eh2%Z.ltb_ge].
  destruct (read_u32_total packet 4) as (sequence & Es & Hs); [done|lia..|].
  destruct (read_u32_total packet 8) as (ack & Ea & Ha); [done|lia..|].
  rewrite Es, Ea, !some_bind. set (h := Z.shiftr offset 4 * 4) in *.
  assert (Hfin : forall R, (forall a c', R a c' -> undisturbed c c' /\ (received c' = received c \/
      (state c = TCP_CLIENT_SYN_SENT /\ flag TCP_FLAG_SYN flags = true /\ received_bytes c' = received_bytes c /\
      receive_length c' = receive_length c /\ receive_next c' = u32 (sequence + 1)) \/
     (state c <> TCP_CLIENT_SYN_SENT /\ flag TCP_FLAG_SYN flags = false /\ sequence = receive_next c /\
      appended packet h (n - h) (flag TCP_FLAG_FIN flags) c c'))) ->
    forall r : option (tcp_client_receive_result * tcp_client * W),
      step_ok Peer R c r -> step_ok Peer (segment_ok packet n c) c r).
  { intros R HR r (a & c' & w' & -> & H1 & H2 & H3 & H4). eexists _, _, w'. split; [done|]. split; [done|].
    split; [done|]. split; [done|]. destruct (HR _ _ H4) as [H5 H6]. split; [done|].
    destruct H6 as [H6|H6]; [by left|right]. exists offset, flags, sequence. auto 10. }
  destruct (flag TCP_FLAG_RST flags).
  { unfold receive_reset. cbv zeta. destruct (if bool_decide _ then _ else _); [|done].
    apply segment_same; try done; [by apply fail_client_ok, ok_base|by apply moves_fail|apply undisturbed_fail]. }
  case_bool_decide as Hst.
  - eapply Hfin; [|by apply receive_handshake_ok]. intros a c' [H1 [H2|(H2 & H3 & H4 & H5)]]; auto 10.
  - eapply Hfin; [|apply receive_synchronized_ok; (done || lia)].
    intros a c' [H1 [H2|(H2 & H3 & H4)]]; auto 10.
Qed.

(** A segment of any length and content. *)
Lemma receive_total src dst packet c w :
  client_ok c -> bytes_ok packet ->
  step_ok Peer (segment_ok packet (Z.of_nat (length packet)) c) c
    (receive send_ipv4 src dst packet (Z.of_nat (length packet)) c w).
Proof.
  intros Hc Hb. unfold receive. destruct (_ || _) eqn:E1.
  { apply segment_same; try done. split; [done|by left]. }
  destruct ((_ <? TCP_HEADER_LENGTH) || _) eqn:E2.
  { apply segment_same; try done; [by apply count_malformed_ok|]. split; [done|by left]. }
  apply orb_false_iff in E1 as [E1 _]. apply orb_false_iff in E1 as [E1 _]. apply orb_false_iff in E1 as [E1 E3].
  apply bool_decide_eq_false in E1, E3. apply orb_false_iff in E2 as [E2%Z.ltb_ge E4%Z.ltb_ge].
  by apply receive_segment_ok.
Qed.
End Receive.
