(* ===== verification/TcpClaims.v ===== *)
(** * The TCP client: what it promises

    Runs of arbitrary calls, the state machine, delivery of the peer's bytes in
    order, segments outside the expected sequence, and the blocking operations.

    Then the properties of the client. *)

From stdpp Require Import relations.
From S2P Require Import Prelude TcpState TcpSegment TcpClient TcpReceive.

(** ** Runs *)

(** One call of the public interface on a client. *)
Inductive call :=
| Connect (ip port initial_sequence : Z)
| Send (data : option (list Z)) (length : Z)
| WaitForPeerClose
| Close
| Service
| SetTimeouts (retransmit operation_timeout retries : Z)
| Receive (src_ip dst_ip : Z) (packet : list Z).

(** Arguments a C caller can pass: numbers of their types, lengths of the objects. *)
Definition call_ok (k : call) : Prop :=
  match k with
  | Connect _ _ initial_sequence => u32_ok initial_sequence
  | Send data length =>
      0 <= length /\ forall bytes, data = Some bytes -> bytes_ok bytes /\ length <= Z.of_nat (List.length bytes)
  | Receive _ _ packet => bytes_ok packet
  | _ => True
  end.

(** Who may move the connection in a call. *)
Definition party_of (k : call) : party :=
  match k with
  | Connect _ _ _ => Opening
  | Close => Closing
  | Receive _ _ _ => Peer
  | Send _ _ | WaitForPeerClose | Service | SetTimeouts _ _ _ => Failure
  end.

Section Runs.
Context {W : Type} (send_ipv4 : Z -> Z -> list Z -> W -> bool * W) (now_ms : W -> Z * W).

(** Forget the value returned. *)
Definition after {A} (r : option (A * tcp_client * W)) : option (tcp_client * W) :=
  '(_, c, w) ← r; Some (c, w).

Definition run_call (k : call) (c : tcp_client) (w : W) : option (tcp_client * W) :=
  match k with
  | Connect ip port iss => after (begin_connect send_ipv4 now_ms ip port iss c w)
  | Send data n => after (begin_send send_ipv4 now_ms data n c w)
  | WaitForPeerClose => after (begin_wait_for_peer_close now_ms c w)
  | Close => after (begin_close send_ipv4 now_ms c w)
  | Service => after (tcp_client_service send_ipv4 now_ms c w)
  | SetTimeouts r t n => '(_, c) ← Some (tcp_client_set_timeouts (Some c) r t n); c ← c; Some (c, w)
  | Receive src dst packet => after (receive send_ipv4 src dst packet (Z.of_nat (length packet)) c w)
  end.

Fixpoint run (ks : list call) (c : tcp_client) (w : W) : option (tcp_client * W) :=
  match ks with
  | [] => Some (c, w)
  | k :: ks => '(c, w) ← run_call k c w; run ks c w
  end.

Lemma after_ok {A} p (R : A -> tcp_client -> Prop) c r :
  step_ok p R c r ->
  exists c' w', after r = Some (c', w') /\ client_ok c' /\ moves p (state c) (state c').
Proof. intros (a & c' & w' & -> & ? & _ & ? & _). by exists c', w'. Qed.

Lemma service_ok c w :
  client_ok c ->
  exists c' w', after (tcp_client_service send_ipv4 now_ms c w) = Some (c', w') /\ client_ok c' /\
    moves Failure (state c) (state c').
Proof.
  intros Hc. destruct (decide (step_result c = TCP_CLIENT_STEP_PENDING)) as [Hst|Hst].
  { eapply after_ok. by apply tcp_client_service_ok. }
  unfold tcp_client_service. case_bool_decide.
  - eexists _, w. split; [done|]. split; [ok_fields|apply moves_refl].
  - rewrite bool_decide_false by done. exists c, w. split; [done|]. split; [done|apply moves_refl].
Qed.

Lemma run_call_ok k c w :
  client_ok c -> call_ok k ->
  exists c' w', run_call k c w = Some (c', w') /\ client_ok c' /\ moves (party_of k) (state c) (state c').
Proof.
  intros Hc Hk. destruct k; cbn [run_call party_of call_ok] in *.
  - eapply after_ok. by apply begin_connect_ok.
  - destruct Hk. eapply after_ok. by apply begin_send_ok.
  - eapply after_ok. by apply begin_wait_for_peer_close_ok.
  - eapply after_ok. by apply begin_close_ok.
  - by apply service_ok.
  - unfold tcp_client_set_timeouts. destruct (_ || _); [|destruct (negb _)]; rewrite some_bind; cbv beta iota;
      rewrite some_bind; eexists _, w; (split; [done|]); (split; [ok_fields|apply moves_refl]).
  - eapply after_ok. by apply receive_total.
Qed.

Lemma moves_failed p s : moves p TCP_CLIENT_FAILED s -> s = TCP_CLIENT_FAILED.
Proof. intros H. inversion H as [|? ? ? [He|He]]; [done|inversion He..]; congruence. Qed.
End Runs.

(** ** Initialisation *)

Lemma tcp_client_init_ok io ip port buffer capacity :
  0 <= capacity < 2 ^ 64 -> (forall b, buffer = Some b -> Z.of_nat (length b) = capacity) ->
  client_ok (tcp_client_init io ip port buffer capacity).
Proof.
  intros Hcap Hb. unfold tcp_client_init. destruct (default _ io) as [[hs hn] hp].
  match goal with |- client_ok (if _ then set_error _ ?c else _) => assert (client_ok c) end.
  { constructor; [constructor|..]; tcp_simpl; try done; try lia.
    - split; [done|apply bytes_ok_zeros].
    - by intros []. }
  destruct (_ || _); [by apply set_error_ok|done].
Qed.

(** ** Delivery of the peer's bytes *)

(** [packet] is a segment of the peer whose bytes from sequence number [base] on are [S]: a SYN, or
    the bytes of [S] at its sequence number, with the FIN only at the end of [S]. *)
Definition genuine (base : Z) (S packet : list Z) : Prop :=
  forall offset flags sequence,
    rd packet 12 = Some offset -> rd packet 13 = Some flags -> read_u32 packet 4 = Some sequence ->
    flag TCP_FLAG_SYN flags = false ->
    let h := Z.shiftr offset 4 * 4 in
    let n := Z.of_nat (length packet) - h in
    0 <= n ->
    exists k, 0 <= k /\ k + n <= Z.of_nat (length S) /\ sequence = u32 (base + k) /\
      slice packet (Z.to_nat h) (Z.to_nat n) = slice S (Z.to_nat k) (Z.to_nat n) /\
      (flag TCP_FLAG_FIN flags = true -> k + n = Z.of_nat (length S)).

(** [L] bytes of [S] are in, after the bytes [old], and the FIN if [f] is 1. *)
Definition in_stream (base : Z) (S old : list Z) (c : tcp_client) : Prop :=
  exists L f, 0 <= L <= Z.of_nat (length S) /\ (f = 0 \/ (f = 1 /\ L = Z.of_nat (length S))) /\
    received_bytes c = old ++ take (Z.to_nat L) S /\ receive_next c = u32 (base + L + f).

Lemma u32_inj_add base a b : 0 <= a < 2 ^ 32 -> 0 <= b < 2 ^ 32 -> u32 (base + a) = u32 (base + b) -> a = b.
Proof.
  intros Ha Hb H. rewrite !u32_mod in H.
  pose proof (Z.div_mod (base + a) (2 ^ 32) ltac:(lia)). pose proof (Z.div_mod (base + b) (2 ^ 32) ltac:(lia)).
  assert (a - b = 2 ^ 32 * ((base + a) / 2 ^ 32 - (base + b) / 2 ^ 32)) by lia.
  assert ((base + a) / 2 ^ 32 - (base + b) / 2 ^ 32 = 0) by nia. lia.
Qed.

Lemma take_slice (S : list Z) L d :
  0 <= L -> 0 <= d -> take (Z.to_nat L) S ++ slice S (Z.to_nat L) (Z.to_nat d) = take (Z.to_nat (L + d)) S.
Proof. intros. unfold slice. rewrite Z2Nat.inj_add by done. by rewrite take_take_drop. Qed.

Lemma moves_synchronized p s s' :
  p <> Opening -> moves p s s' -> s <> TCP_CLIENT_SYN_SENT -> s' <> TCP_CLIENT_SYN_SENT.
Proof.
  intros Hp. induction 1 as [|s1 s2 s3 [He|He] _ IH]; [done|..]; intros Hs; apply IH; inversion He; congruence.
Qed.

Section Delivery.
Context {W : Type} (send_ipv4 : Z -> Z -> list Z -> W -> bool * W) (now_ms : W -> Z * W).

Lemma delivers_in_stream base S old packet c c' :
  Z.of_nat (length S) + 2 < 2 ^ 32 -> genuine base S packet -> state c <> TCP_CLIENT_SYN_SENT ->
  delivers packet (Z.of_nat (length packet)) c c' -> in_stream base S old c -> in_stream base S old c'.
Proof.
  intros Hlen Hg Hs Hd (L & f & HL & Hf & Hb & Hn).
  destruct Hd as [Hd|(offset & flags & sequence & Eo & Ef & Es & Hh & _ & [[Hs' _]|(_ & Hsyn & Hseq & Hd)])].
  - unfold received, in_stream, received_bytes in *. injection Hd as -> -> ->. by exists L, f.
  - done.
  - destruct (Hg _ _ _ Eo Ef Es Hsyn) as (k & Hk & Hkn & Hkseq & Hsl & Hfin); [lia|].
    set (h := Z.shiftr offset 4 * 4) in *. set (n := Z.of_nat (length packet) - h) in *.
    rewrite Hseq, Hn, <- Z.add_assoc in Hkseq.
    assert (HkL : L + f = k) by (apply (u32_inj_add base); [lia|lia|done]).
    destruct Hf as [->|[-> HLe]]; [|lia]. rewrite Z.add_0_r in HkL. subst k.
    destruct Hd as (d & g & E1 & E2 & E3 & Hd & Hgn).
    exists (L + d), g. rewrite E1, E3, Hn, Hb. split; [lia|]. split.
    { destruct Hgn as [->|(-> & Hflag & ->)]; [by left|right]. split; [done|by apply Hfin]. }
    split.
    + rewrite <- app_assoc. f_equal. destruct Hd as [->| ->].
      * change (Z.to_nat 0) with 0%nat. unfold slice. by rewrite app_nil_r, Z.add_0_r.
      * rewrite Hsl. apply take_slice; lia.
    + rewrite !u32_mod, Z.add_0_r. rewrite <- Z.add_assoc, Zplus_mod_idemp_l. f_equal. lia.
Qed.

(** No call but [Connect] and [Receive] touches the received bytes. *)

Definition keeps_received {A} (c : tcp_client) (r : option (A * tcp_client * W)) : Prop :=
  forall a c' w', r = Some (a, c', w') -> received c' = received c.

Lemma keeps_Some {A} (a : A) c c' (w : W) : received c' = received c -> keeps_received c (Some (a, c', w)).
Proof. intros H ? ? ? [= <- <- <-]. done. Qed.

Lemma keeps_bind {A B} c (r : option (A * tcp_client * W)) (f : A * tcp_client * W -> option (B * tcp_client * W)) :
  keeps_received c r ->
  (forall a c' w', received c' = received c -> keeps_received c (f (a, c', w'))) -> keeps_received c (r ≫= f).
Proof.
  intros Hr Hf b c' w'. destruct r as [[[a c1] w1]|]; [|done]. rewrite some_bind.
  intros H. eapply Hf; [|exact H]. by eapply Hr.
Qed.

Lemma keeps_if {A} c (b : bool) (r1 r2 : option (A * tcp_client * W)) :
  keeps_received c r1 -> keeps_received c r2 -> keeps_received c (if b then r1 else r2).
Proof. by destruct b. Qed.

Lemma send_segment_keeps sequence flags data n c c0 w :
  received c = received c0 -> keeps_received c0 (send_segment send_ipv4 sequence flags data n c w).
Proof.
  intros Hc. unfold send_segment. apply keeps_if; [by apply keeps_Some|].
  destruct (build_packet _ _ _ _ _ _ _ _ _ _); [rewrite some_bind|done].
  destruct (has_send c); [|done]. destruct (send_ipv4 _ _ _ w) as [[] w']; by apply keeps_Some.
Qed.

Lemma start_pending_segment_keeps flags data n c c0 w :
  received c = received c0 -> keeps_received c0 (start_pending_segment send_ipv4 flags data n c w).
Proof.
  intros Hc. unfold start_pending_segment. apply keeps_if; [by apply keeps_Some|]. cbv zeta.
  destruct (if n =? 0 then _ else _); [rewrite some_bind|done]. by apply send_segment_keeps.
Qed.

Lemma finish_keeps c c0 (w : W) : received c = received c0 -> keeps_received c0 (finish c w).
Proof.
  intros Hc. apply keeps_Some. unfold complete_if_reached. destruct (bool_decide _); [done|].
  by destruct (operation_goal_reached c).
Qed.

Lemma begin_keeps op c w (f : tcp_client * W -> option (tcp_client_step_result * tcp_client * W)) :
  (forall c' w', received c' = received c -> state c' = state c -> keeps_received c (f (c', w'))) ->
  keeps_received c (begin_operation now_ms op c w ≫= f).
Proof.
  intros Hf. unfold begin_operation, read_clock. destruct (has_now c); [|done].
  destruct (now_ms w) as [now w']. rewrite some_bind. by apply Hf.
Qed.

Lemma start_finish_keeps flags data n c c0 w :
  received c = received c0 ->
  keeps_received c0 ('(ok, client, w) ← start_pending_segment send_ipv4 flags data n c w;
    if (ok : bool) then finish client w else Some (TCP_CLIENT_STEP_FAILED, client, w)).
Proof.
  intros Hc. apply keeps_bind; [by apply start_pending_segment_keeps|]. intros [] c' w' H; [by apply finish_keeps|by apply keeps_Some].
Qed.

Lemma rejected_keeps op e c (w : W) : keeps_received c (rejected op e c w).
Proof. apply keeps_Some. unfold reject_operation. by destruct (operation_is_busy c). Qed.

Lemma begin_send_keeps data n c w : keeps_received c (begin_send send_ipv4 now_ms data n c w).
Proof.
  unfold begin_send. do 2 (apply keeps_if; [apply rejected_keeps|]).
  destruct (state c); try apply rejected_keeps; [|by apply keeps_Some].
  apply begin_keeps. intros c' w' H _. apply keeps_if; [by apply finish_keeps|by apply start_finish_keeps].
Qed.

Lemma begin_wait_keeps c w : keeps_received c (begin_wait_for_peer_close now_ms c w).
Proof.
  unfold begin_wait_for_peer_close. do 2 (apply keeps_if; [apply rejected_keeps|]).
  destruct (state c); try apply rejected_keeps; try by apply keeps_Some.
  all: apply begin_keeps; intros c' w' H _; (by apply finish_keeps) || (by apply keeps_Some).
Qed.

Lemma begin_close_keeps c w : keeps_received c (begin_close send_ipv4 now_ms c w).
Proof.
  unfold begin_close. do 2 (apply keeps_if; [apply rejected_keeps|]).
  apply keeps_if; [apply begin_keeps; intros; by apply finish_keeps|].
  apply keeps_if; [by apply keeps_Some|]. apply keeps_if; [apply rejected_keeps|].
  apply begin_keeps. intros c' w' H _.
  destruct (state c'); try (by apply finish_keeps); try (by apply keeps_Some); by apply start_finish_keeps.
Qed.

Lemma service_keeps c w : keeps_received c (tcp_client_service send_ipv4 now_ms c w).
Proof.
  unfold tcp_client_service. apply keeps_if; [by apply keeps_Some|]. apply keeps_if; [by apply keeps_Some|].
  assert (Hcr : received (complete_if_reached c) = received c).
  { unfold complete_if_reached. destruct (bool_decide _); [done|]. by destruct (operation_goal_reached c). }
  cbv zeta. apply keeps_if; [by apply keeps_Some|]. apply keeps_if; [by apply keeps_Some|].
  revert Hcr. generalize (complete_if_reached c). intros c1 Hc1.
  unfold service_pending, read_clock. destruct (has_now c1); [|done]. destruct (now_ms w) as [now w'].
  rewrite some_bind. cbv beta iota zeta. apply keeps_if; [by apply keeps_Some|]. fold (ticked (u64 now) c1).
  assert (Ht : received (ticked (u64 now) c1) = received c) by (unfold ticked; by destruct (_ =? _)).
  revert Ht. generalize (ticked (u64 now) c1). intros c2 Hc2.
  apply keeps_if; [by apply keeps_Some|]. apply keeps_if; [by apply keeps_Some|].
  apply keeps_bind.
  - apply keeps_if; [|by apply keeps_Some]. unfold retransmit_pending.
    apply keeps_if; [by apply keeps_Some|]. apply keeps_if; [by apply keeps_Some|]. by apply send_segment_keeps.
  - intros [] c' w2 H; [by apply finish_keeps|by apply keeps_Some].
Qed.

Lemma after_keeps {A} c (r : option (A * tcp_client * W)) c' w' :
  keeps_received c r -> after r = Some (c', w') -> received c' = received c.
Proof. intros Hk. destruct r as [[[a c1] w1]|]; [|done]. intros [= <- <-]. by eapply Hk. Qed.

Lemma run_call_keeps k c w c' w' :
  (forall ip port iss, k <> Connect ip port iss) -> (forall src dst packet, k <> Receive src dst packet) ->
  run_call send_ipv4 now_ms k c w = Some (c', w') -> received c' = received c.
Proof.
  intros Hk1 Hk2. destruct k; cbn [run_call].
  - by edestruct Hk1.
  - apply after_keeps, begin_send_keeps.
  - apply after_keeps, begin_wait_keeps.
  - apply after_keeps, begin_close_keeps.
  - apply after_keeps, service_keeps.
  - unfold tcp_client_set_timeouts. destruct (_ || _); [|destruct (negb _)];
      rewrite some_bind; cbv beta iota; rewrite some_bind; by intros [= <- <-].
  - by edestruct Hk2.
Qed.

(** The segments among the calls are the peer's, and no call connects anew. *)
Definition peer_call (base : Z) (S : list Z) (k : call) : Prop :=
  match k with
  | Connect _ _ _ => False
  | Receive _ _ packet => bytes_ok packet /\ genuine base S packet
  | _ => call_ok k
  end.

Lemma peer_call_ok base S k : peer_call base S k -> call_ok k /\ party_of k <> Opening.
Proof. destruct k; cbn; try done; intros; intuition done. Qed.

Lemma in_stream_received base S old c c' : received c' = received c -> in_stream base S old c -> in_stream base S old c'.
Proof. unfold in_stream, received, received_bytes. by intros [= -> -> ->]. Qed.

Lemma peer_call_in_stream base S old k c w c' w' :
  Z.of_nat (length S) + 2 < 2 ^ 32 -> client_ok c -> state c <> TCP_CLIENT_SYN_SENT -> peer_call base S k ->
  run_call send_ipv4 now_ms k c w = Some (c', w') -> in_stream base S old c -> in_stream base S old c'.
Proof.
  intros Hlen Hc Hs Hk E Hin. destruct k as [| | | | | |src dst packet].
  { destruct Hk. }
  all: try (by apply (in_stream_received base S old c); [eapply run_call_keeps; [..|exact E]|]).
  - destruct Hk as [Hb Hg]. cbn [run_call] in E.
    destruct (receive_total send_ipv4 src dst packet c w Hc Hb) as (a & c1 & w1 & E1 & _ & _ & _ & _ & Hd).
    rewrite E1 in E. injection E as <- <-. by eapply delivers_in_stream.
Qed.

Lemma run_in_stream base S old ks c w :
  Z.of_nat (length S) + 2 < 2 ^ 32 -> client_ok c -> state c <> TCP_CLIENT_SYN_SENT ->
  Forall (peer_call base S) ks -> in_stream base S old c ->
  exists c' w', run send_ipv4 now_ms ks c w = Some (c', w') /\ client_ok c' /\ in_stream base S old c'.
Proof.
  intros Hlen Hc Hs Hks Hin. revert c w Hc Hs Hin.
  induction Hks as [|k ks Hk _ IH]; intros c w Hc Hs Hin; cbn [run]; [by exists c, w|].
  destruct (peer_call_ok _ _ _ Hk) as [Hk' Hp].
  destruct (run_call_ok send_ipv4 now_ms k c w Hc Hk') as (c1 & w1 & E & H1 & Hm).
  rewrite E, some_bind. cbv beta iota. apply IH; [done|by eapply moves_synchronized|].
  exact (peer_call_in_stream _ _ _ _ _ _ _ _ Hlen Hc Hs Hk E Hin).
Qed.
End Delivery.

(** ** The blocking operations *)

(** What [poll] is used for: it runs the network stack, which may hand segments to the client. *)
Definition poll_ok {W} (poll : tcp_client -> W -> option (tcp_client * W)) : Prop :=
  forall c w, client_ok c -> exists c' w', poll c w = Some (c', w') /\ client_ok c' /\ setup c' = setup c /\
    undisturbed c c'.

(** Rounds the loop of a blocking operation needs at most. *)
Definition rounds (c : tcp_client) : Z := (operation_timeout_ms c + 1) * TCP_CLIENT_CLOCK_STALL_SERVICE_LIMIT + 1.

Section Blocking.
Context {W : Type} (send_ipv4 : Z -> Z -> list Z -> W -> bool * W) (now_ms : W -> Z * W).
Context (poll : tcp_client -> W -> option (tcp_client * W)) (Hpoll : poll_ok poll).

(** A blocking step that returns; [true] says that the goal of [op] is reached. *)
Definition returns (op : tcp_client_operation) (c : tcp_client) (r : option (bool * tcp_client * W)) : Prop :=
  exists b c' w', r = Some (b, c', w') /\ client_ok c' /\ setup c' = setup c /\
    (b = true -> operation c' = op /\ operation_goal_reached c' = true).

Lemma drive_returns op fuel result c w :
  client_ok c -> has_poll c = true -> result_ok op result c ->
  (result = TCP_CLIENT_STEP_PENDING -> 0 < Z.of_nat fuel /\ patience c < Z.of_nat fuel) ->
  returns op c (drive_blocking_operation send_ipv4 now_ms poll fuel result c w).
Proof.
  revert result c w. induction fuel as [|fuel IH]; intros result c w Hc Hp Hr Hfuel; cbn [drive_blocking_operation].
  - case_bool_decide as E; [destruct (Hfuel E); lia|].
    exists (bool_decide (result = TCP_CLIENT_STEP_COMPLETE)), c, w. split; [done|]. split; [done|]. split; [done|].
    intros H%bool_decide_eq_true. subst. by destruct Hr as (? & ? & _).
  - case_bool_decide as E.
    2:{ exists (bool_decide (result = TCP_CLIENT_STEP_COMPLETE)), c, w. split; [done|]. split; [done|]. split; [done|].
        intros H%bool_decide_eq_true. subst. by destruct Hr as (? & ? & _). }
    subst. destruct (Hfuel eq_refl) as [_ Hpat]. destruct Hr as [Ho Hst]. rewrite Hp.
    destruct (Hpoll c w Hc) as (c1 & w1 & E1 & H1 & Hset1 & Hpr1 & Hst1). rewrite E1, some_bind. cbv beta iota.
    assert (Ho1 : operation c1 = op) by (unfold progress in Hpr1; congruence).
    assert (Hp1 : has_poll c1 = true) by (unfold setup in Hset1; congruence).
    destruct (decide (step_result c1 = TCP_CLIENT_STEP_PENDING)) as [Hpend|Hpend].
    + destruct (tcp_client_service_ok send_ipv4 now_ms c1 w1 H1 Hpend)
        as (a & c2 & w2 & E2 & H2 & Hset2 & _ & Hr2 & Hpat2).
      rewrite E2, some_bind. cbv beta iota.
      destruct (IH a c2 w2 H2) as (b & c3 & w3 & E3 & H3 & Hset3 & H4).
      * unfold setup in Hset2. congruence.
      * by rewrite Ho1 in Hr2.
      * intros Ha. specialize (Hpat2 Ha). rewrite (patience_frame _ _ Hset1 Hpr1) in Hpat2. lia.
      * exists b, c3, w3. split; [done|]. split; [done|]. split; [congruence|done].
    + destruct Hst1 as [Hst1|Hf]; [congruence|].
      unfold tcp_client_service. rewrite bool_decide_true by done. rewrite some_bind. cbv beta iota.
      destruct fuel; cbn [drive_blocking_operation]; rewrite bool_decide_false by done;
        rewrite bool_decide_false by done; (eexists _, _, w1; split; [done|]; split; [ok_fields|]; by split).
Qed.

Lemma patience_bound c : client_ok c -> step_result c = TCP_CLIENT_STEP_PENDING -> patience c < rounds c.
Proof.
  intros Hc Hst. destruct (ok_clock _ (ok_base _ Hc) Hst) as (_ & ? & _ & ?).
  unfold patience, rounds, TCP_CLIENT_CLOCK_STALL_SERVICE_LIMIT. lia.
Qed.

Lemma rounds_frame c c' : setup c' = setup c -> rounds c' = rounds c.
Proof. unfold setup, rounds. intros. congruence. Qed.

Lemma begin_drive_returns p op fuel c r :
  has_poll c = true -> 0 < rounds c <= Z.of_nat fuel -> step_ok p (result_ok op) c r ->
  returns op c ('(result, client, w) ← r; drive_blocking_operation send_ipv4 now_ms poll fuel result client w).
Proof.
  intros Hp Hf (a & c' & w' & -> & H1 & Hset & _ & Hr). rewrite some_bind. cbv beta iota.
  destruct (drive_returns op fuel a c' w') as (b & c2 & w2 & E & H2 & Hset2 & Hb); try done.
  - unfold setup in Hset. congruence.
  - intros ->. destruct Hr as [_ Hst]. pose proof (patience_bound _ H1 Hst) as Hpt.
    rewrite (rounds_frame _ _ Hset) in Hpt. lia.
  - exists b, c2, w2. split; [done|]. split; [done|]. split; [congruence|done].
Qed.

Lemma blocking_returns p op fuel begin c w :
  client_ok c -> 0 < rounds c <= Z.of_nat fuel -> step_ok p (result_ok op) c (begin c w) ->
  returns op c (blocking send_ipv4 now_ms poll fuel op begin c w).
Proof.
  intros Hc Hf Hb. unfold blocking. destruct (has_poll c) eqn:Hp; cbn [negb].
  - by apply (begin_drive_returns p).
  - eexists _, _, w. split; [done|]. split; [by apply reject_operation_ok|]. split; [|done].
    unfold reject_operation. by destruct (operation_is_busy c).
Qed.

Lemma send_chunks_returns fuel chunks bytes n sent c w :
  client_ok c -> has_poll c = true -> 0 < rounds c <= Z.of_nat fuel -> bytes_ok bytes ->
  0 <= sent -> n <= Z.of_nat (length bytes) -> n - sent <= Z.of_nat chunks ->
  exists b c' w', send_chunks send_ipv4 now_ms poll fuel chunks bytes n sent c w = Some (b, c', w') /\
    client_ok c' /\ setup c' = setup c /\
    (b = true -> sent < n -> operation c' = TCP_CLIENT_OPERATION_SEND /\ pending_active c' = false).
Proof.
  revert sent c w. induction chunks as [|chunks IH]; intros sent c w Hc Hp Hf Hb Hs Hn Hch; cbn [send_chunks].
  { rewrite (proj2 (Z.ltb_ge sent n)) by lia. eexists _, _, w. split; [done|]. split; [by apply set_error_ok|].
    split; [done|]. intros. lia. }
  destruct (Z.ltb_spec sent n) as [Hlt|Hge].
  2:{ eexists _, _, w. split; [done|]. split; [by apply set_error_ok|]. split; [done|]. intros. lia. }
  cbv zeta. set (chunk := if _ <? n - sent then _ else _).
  assert (Hchunk : 1 <= chunk <= n - sent).
  { unfold chunk, TCP_CLIENT_MAX_SEGMENT_DATA. destruct (Z.ltb_spec 536 (n - sent)); lia. }
  assert (Hret := begin_drive_returns Failure TCP_CLIENT_OPERATION_SEND fuel c
    (begin_send send_ipv4 now_ms (Some (drop (Z.to_nat sent) bytes)) chunk c w) Hp Hf).
  destruct Hret as (ok & c1 & w1 & E & H1 & Hset & Hok).
  { apply begin_send_ok; [done|lia|]. intros ? [= <-]. split; [by apply Forall_drop|]. rewrite length_drop. lia. }
  destruct (begin_send _ _ _ _ c w) as [[[a c0] w0]|]; [|done]. rewrite some_bind in E |- *. cbv beta iota in E |- *.
  rewrite E, some_bind. cbv beta iota. destruct ok; cbn [negb].
  2:{ by exists false, c1, w1. }
  destruct (Hok eq_refl) as [Ho Hg].
  assert (Hpend : pending_active c1 = false).
  { unfold operation_goal_reached in Hg. rewrite Ho in Hg. by apply negb_true_iff. }
  destruct ((sent + chunk <? n) && _).
  { eexists _, _, w1. split; [done|]. split; [by apply set_error_ok|]. by split. }
  destruct (IH (sent + chunk) c1 w1) as (b & c2 & w2 & E2 & H2 & Hset2 & Hb2); try done; try lia.
  - unfold setup in Hset. congruence.
  - by rewrite (rounds_frame _ _ Hset).
  - exists b, c2, w2. split; [done|]. split; [done|]. split; [congruence|]. intros Hb1 _.
    destruct (Z.lt_ge_cases (sent + chunk) n) as [|Hge]; [auto|].
    destruct chunks; cbn [send_chunks] in E2; rewrite (proj2 (Z.ltb_ge (sent + chunk) n) Hge) in E2;
      injection E2 as <- <- <-; done.
Qed.

Lemma tcp_client_send_returns fuel data n c w :
  client_ok c -> 0 < rounds c <= Z.of_nat fuel -> 0 <= n ->
  (forall bytes, data = Some bytes -> bytes_ok bytes /\ n <= Z.of_nat (length bytes)) ->
  exists b c' w', tcp_client_send send_ipv4 now_ms poll fuel data n c w = Some (b, c', w') /\ client_ok c' /\
    setup c' = setup c /\ (b = true -> operation c' = TCP_CLIENT_OPERATION_SEND /\ pending_active c' = false).
Proof.
  intros Hc Hf Hn Hd. unfold tcp_client_send. cbv zeta.
  assert (Hrej : forall e, client_ok (reject_operation TCP_CLIENT_OPERATION_SEND e c) /\
            setup (reject_operation TCP_CLIENT_OPERATION_SEND e c) = setup c).
  { intros e. split; [by apply reject_operation_ok|]. unfold reject_operation. by destruct (operation_is_busy c). }
  destruct (has_poll c) eqn:Hp; cbn [negb]; [|eexists _, _, w; split; [done|]; by destruct (Hrej TCP_CLIENT_ERROR_INVALID_ARGUMENT)].
  destruct (_ && _) eqn:Enull; [eexists _, _, w; split; [done|]; by destruct (Hrej TCP_CLIENT_ERROR_INVALID_ARGUMENT)|].
  destruct (Z.eqb_spec n 0) as [->|Hn0].
  - destruct (begin_drive_returns Failure TCP_CLIENT_OPERATION_SEND fuel c (begin_send send_ipv4 now_ms None 0 c w))
      as (b & c1 & w1 & E & H1 & Hset & Hb); [done|done|by apply begin_send_ok|].
    exists b, c1, w1. split; [done|]. split; [done|]. split; [done|]. intros Hb1. destruct (Hb Hb1) as [Ho Hg].
    split; [done|]. unfold operation_goal_reached in Hg. rewrite Ho in Hg. by apply negb_true_iff.
  - destruct data as [bytes|]; [|rewrite bool_decide_false in Enull by (by intros [? ?]); done].
    destruct (Hd bytes eq_refl) as [Hb1 Hb2]. cbn [default from_option id].
    destruct (send_chunks_returns fuel (Z.to_nat n) bytes n 0 c w) as (b & c1 & w1 & E & H1 & Hset & Hb);
      try done; try lia.
    exists b, c1, w1. split; [done|]. split; [done|]. split; [done|]. intros. apply Hb; [done|lia].
Qed.
End Blocking.

(** * The TCP client: its properties

    The theorems about [kernel/tcp_client.c], each with a concrete run. *)

(** ** A concrete peer for the witnesses

    The world is the clock; every reading advances it and every segment is sent. *)

Definition demo_send (_ _ : Z) (_ : list Z) (w : Z) : bool * Z := (true, w).
Definition demo_now (w : Z) : Z * Z := (w, w + 1).
Definition demo_client : tcp_client :=
  tcp_client_init (Some (true, true, true)) 0x0A00020F 4000 (Some (zeros 16)) 16.

(** A segment of the peer at 10.0.2.2:80. *)
Definition demo_segment (sequence acknowledgment flags : Z) (data : list Z) : list Z :=
  default [] (build_packet 0x0A000202 0x0A00020F 80 4000 sequence acknowledgment flags 1000 data (Z.of_nat (length data))).
Definition demo_receive (sequence acknowledgment flags : Z) (data : list Z) : call :=
  Receive 0x0A000202 0x0A00020F (demo_segment sequence acknowledgment flags data).

(** The client after the given calls. *)
Definition demo_run (ks : list call) : tcp_client :=
  default demo_client (fst <$> run demo_send demo_now ks demo_client 7).

Definition demo_open : list call := [Connect 0x0A000202 80 100; demo_receive 500 101 0x12 []].
Definition demo_poll (c : tcp_client) (w : Z) : option (tcp_client * Z) :=
  after (receive demo_send 0x0A000202 0x0A00020F (demo_segment 500 101 0x12 [])
           (Z.of_nat (length (demo_segment 500 101 0x12 []))) c w).

Lemma demo_client_ok : client_ok demo_client.
Proof. apply tcp_client_init_ok; [lia|]. intros b [= <-]. reflexivity. Qed.

Lemma demo_segment_ok sequence acknowledgment flags data :
  bytes_okb (demo_segment sequence acknowledgment flags data) = true ->
  bytes_ok (demo_segment sequence acknowledgment flags data).
Proof. apply bytes_okb_true. Qed.

Lemma demo_run_ok ks : Forall call_ok ks -> client_ok (demo_run ks).
Proof.
  unfold demo_run. generalize demo_client_ok, 7. generalize demo_client at 1 3.
  intros c Hc w Hks. revert c w Hc. induction Hks as [|k ks Hk _ IH]; intros c w Hc; cbn [run]; [done|].
  destruct (run_call_ok demo_send demo_now k c w Hc Hk) as (c1 & w1 & -> & H1 & _).
  rewrite some_bind. by apply IH.
Qed.

Lemma demo_open_ok : Forall call_ok demo_open.
Proof.
  apply Forall_cons_2; [cbn; unfold u32_ok; lia|].
  apply Forall_cons_2; [apply demo_segment_ok; by vm_compute|constructor].
Qed.

Lemma demo_poll_ok : poll_ok demo_poll.
Proof.
  intros c w Hc. unfold demo_poll.
  destruct (receive_total demo_send 0x0A000202 0x0A00020F (demo_segment 500 101 0x12 []) c w Hc)
    as (a & c' & w' & -> & H1 & H2 & _ & H3 & _); [apply demo_segment_ok; by vm_compute|].
  by exists c', w'.
Qed.

(** ** Safety *)

(** C27: an initialised client survives any calls in any order, with any segments from the network
    and any answers of the IPv4 layer and the clock: no access leaves the receive buffer, the
    retransmission buffer or a segment, no NULL callback is called, and the client's invariant (the
    received length within the capacity, the segment in flight determined by the state, the send window
    consistent with it) holds after every call. *)
Theorem tcp_run_safe {W} (send_ipv4 : Z -> Z -> list Z -> W -> bool * W) (now_ms : W -> Z * W)
    io ip port buffer capacity ks (w : W) :
  0 <= capacity < 2 ^ 64 -> (forall b, buffer = Some b -> Z.of_nat (length b) = capacity) ->
  Forall call_ok ks ->
  exists c w', run send_ipv4 now_ms ks (tcp_client_init io ip port buffer capacity) w = Some (c, w') /\ client_ok c.
Proof.
  intros Hcap Hb Hks. pose proof (tcp_client_init_ok io ip port buffer capacity Hcap Hb) as Hc.
  revert Hc w. generalize (tcp_client_init io ip port buffer capacity).
  induction Hks as [|k ks Hk _ IH]; intros c Hc w; cbn [run]; [by exists c, w|].
  destruct (run_call_ok send_ipv4 now_ms k c w Hc Hk) as (c1 & w1 & E & H1 & _).
  rewrite E, some_bind. by apply IH.
Qed.

Lemma tcp_run_safe_witness :
  exists c w', run demo_send demo_now demo_open
    (tcp_client_init (Some (true, true, true)) 0x0A00020F 4000 (Some (zeros 16)) 16) 7 = Some (c, w') /\ client_ok c.
Proof.
  apply (tcp_run_safe demo_send demo_now); [lia|by intros b [= <-]|exact demo_open_ok].
Defined.

(** C29: the connection's state moves only along the edges of its state machine, and only the
    call an edge belongs to moves it: a connect opens, a close sends the FIN, only the peer's segments
    establish, half-close or close the connection, and every other call at most fails it. A failed
    connection stays failed. *)
Theorem tcp_state_machine {W} (send_ipv4 : Z -> Z -> list Z -> W -> bool * W) (now_ms : W -> Z * W) k c w c' w' :
  client_ok c -> call_ok k -> run_call send_ipv4 now_ms k c w = Some (c', w') ->
  moves (party_of k) (state c) (state c') /\
  (state c = TCP_CLIENT_FAILED -> state c' = TCP_CLIENT_FAILED).
Proof.
  intros Hc Hk E. destruct (run_call_ok send_ipv4 now_ms k c w Hc Hk) as (c1 & w1 & E1 & _ & Hm).
  rewrite E1 in E. injection E as <- <-. split; [done|]. intros Hf. rewrite Hf in Hm. by eapply moves_failed.
Qed.

Lemma tcp_state_machine_witness :
  moves Peer (state (demo_run [Connect 0x0A000202 80 100])) TCP_CLIENT_ESTABLISHED.
Proof.
  refine (proj1 (tcp_state_machine demo_send demo_now (demo_receive 500 101 0x12 [])
    (demo_run [Connect 0x0A000202 80 100]) 8 (demo_run demo_open) 8 _ _ _)).
  - apply demo_run_ok, Forall_cons_2; [cbn; unfold u32_ok; lia|constructor].
  - apply demo_segment_ok. by vm_compute.
  - by vm_compute.
Defined.

(** ** Delivery *)

(** C28: from a synchronized connection on, whatever segments of the peer arrive - lost,
    repeated, out of order - and whatever the program calls meanwhile short of a new connect, the bytes
    added to the receive buffer are a prefix of the peer's stream, in order and once. *)
Theorem tcp_delivers_in_order {W} (send_ipv4 : Z -> Z -> list Z -> W -> bool * W) (now_ms : W -> Z * W) S ks c w :
  client_ok c -> state c <> TCP_CLIENT_SYN_SENT -> Z.of_nat (length S) + 2 < 2 ^ 32 ->
  Forall (peer_call (receive_next c) S) ks ->
  exists c' w' L, run send_ipv4 now_ms ks c w = Some (c', w') /\ 0 <= L <= Z.of_nat (length S) /\
    received_bytes c' = received_bytes c ++ take (Z.to_nat L) S.
Proof.
  intros Hc Hs Hlen Hks.
  destruct (run_in_stream send_ipv4 now_ms (receive_next c) S (received_bytes c) ks c w Hlen Hc Hs Hks)
    as (c' & w' & E & _ & L & f & HL & _ & Hb & _).
  { exists 0, 0. change (Z.to_nat 0) with 0%nat. rewrite take_0, app_nil_r, !Z.add_0_r.
    rewrite u32_small by apply Hc. split; [lia|]. auto. }
  by exists c', w', L.
Qed.

(** Segments 2, 1, 2 of the stream [1; 2; 3; 4], the last with the FIN. *)
Definition demo_stream : list call :=
  [demo_receive 503 101 0x11 [3; 4]; demo_receive 501 101 0x10 [1; 2]; Service; demo_receive 503 101 0x11 [3; 4]].

Lemma demo_genuine k n flags :
  flags = 0x10 \/ (flags = 0x11 /\ k + n = 4) -> 0 <= k -> 0 < n -> k + n <= 4 ->
  let packet := demo_segment (501 + k) 101 flags (slice [1; 2; 3; 4] (Z.to_nat k) (Z.to_nat n)) in
  rd packet 12 = Some 80 -> rd packet 13 = Some flags -> read_u32 packet 4 = Some (501 + k) ->
  length packet = (20 + Z.to_nat n)%nat ->
  slice packet 20 (Z.to_nat n) = slice [1; 2; 3; 4] (Z.to_nat k) (Z.to_nat n) ->
  genuine 501 [1; 2; 3; 4] packet.
Proof.
  intros Hf Hk Hn Hkn packet E1 E2 E3 El Es offset flags' sequence F1 F2 F3 _. rewrite E1 in F1. rewrite E2 in F2.
  rewrite E3 in F3. injection F1 as <-. injection F2 as <-. injection F3 as <-. cbv zeta.
  change (Z.shiftr 80 4 * 4) with 20. rewrite El. replace (Z.of_nat (20 + Z.to_nat n) - 20) with n by lia. intros _.
  exists k. change (Z.of_nat (length [1; 2; 3; 4])) with 4. split; [done|]. split; [lia|].
  split; [by rewrite u32_small by (unfold u32_ok; lia)|]. split; [exact Es|].
  intros Hfin. destruct Hf as [->|[_ ?]]; [done|done].
Qed.

Lemma tcp_delivers_in_order_witness :
  exists c' w' L, run demo_send demo_now demo_stream (demo_run demo_open) 8 = Some (c', w') /\ 0 <= L <= 4 /\
    received_bytes c' = received_bytes (demo_run demo_open) ++ take (Z.to_nat L) [1; 2; 3; 4].
Proof.
  apply (tcp_delivers_in_order demo_send demo_now [1; 2; 3; 4] demo_stream (demo_run demo_open) 8).
  - apply demo_run_ok, demo_open_ok.
  - by vm_compute.
  - done.
  - assert (receive_next (demo_run demo_open) = 501) as -> by (by vm_compute).
    assert (G2 : genuine 501 [1; 2; 3; 4] (demo_segment 503 101 0x11 [3; 4])).
    { apply (demo_genuine 2 2 0x11); [by right|done|done|done|by vm_compute..]. }
    assert (G1 : genuine 501 [1; 2; 3; 4] (demo_segment 501 101 0x10 [1; 2])).
    { apply (demo_genuine 0 2 0x10); [by left|done|done|done|by vm_compute..]. }
    assert (B2 : bytes_ok (demo_segment 503 101 0x11 [3; 4])) by (apply demo_segment_ok; by vm_compute).
    assert (B1 : bytes_ok (demo_segment 501 101 0x10 [1; 2])) by (apply demo_segment_ok; by vm_compute).
    unfold demo_stream, demo_receive.
    do 2 (apply Forall_cons_2; [by split|]). apply Forall_cons_2; [done|].
    apply Forall_cons_2; [by split|constructor].
Defined.

(** The run above delivers the whole stream. *)
Example demo_stream_delivered :
  (fun c => (received_bytes c, state c)) <$> (fst <$> run demo_send demo_now demo_stream (demo_run demo_open) 8)
  = Some ([1; 2; 3; 4], TCP_CLIENT_CLOSE_WAIT).
Proof. by vm_compute. Qed.

(** ** Segments outside the expected sequence *)

(** The send window, the segment in flight, the received bytes, the state and the operation. *)
Definition stays (c c' : tcp_client) : Prop :=
  received c' = received c /\ send_unacknowledged c' = send_unacknowledged c /\ send_next c' = send_next c /\
  (state c' = state c /\ pending_active c' = pending_active c /\ step_result c' = step_result c /\
   operation_goal_reached c' = operation_goal_reached c).

Definition stays_or_fails (c c' : tcp_client) : Prop :=
  received c' = received c /\ send_unacknowledged c' = send_unacknowledged c /\ send_next c' = send_next c /\
  ((state c' = state c /\ pending_active c' = pending_active c /\ step_result c' = step_result c /\
    operation_goal_reached c' = operation_goal_reached c) \/
   (state c' = TCP_CLIENT_FAILED /\ error c' = TCP_CLIENT_ERROR_SEND_FAILED)).

Lemma stays_weaken c c' : stays c c' -> stays_or_fails c c'.
Proof. intros (? & ? & ? & ?). split; [done|]. split; [done|]. split; [done|by left]. Qed.

(** past the handshake, a segment whose sequence number is not the next one expected - a
    stale, reordered or spoofed one, a reset included - cannot complete an operation or change the
    connection: the send window, the segment in flight, the received bytes, the state and the operation
    stay as they are, unless answering it fails because the IPv4 layer refuses the ACK. *)
Theorem tcp_stale_segment {W} (send_ipv4 : Z -> Z -> list Z -> W -> bool * W) src dst packet sequence c w a c' w' :
  client_ok c -> state c <> TCP_CLIENT_SYN_SENT -> bytes_ok packet ->
  read_u32 packet 4 = Some sequence -> sequence <> receive_next c ->
  receive send_ipv4 src dst packet (Z.of_nat (length packet)) c w = Some (a, c', w') ->
  stays_or_fails c c'.
Proof.
  intros Hc Hs Hb Eseq Hseq.
  assert (Hstay : forall c1 r, stays c c1 -> Some (r, c1, w) = Some (a, c', w') -> stays_or_fails c c').
  { intros c1 r H [= <- <- <-]. by apply stays_weaken. }
  assert (Hack : forall c1 r, stays c c1 -> has_send c1 = true ->
     ('(_, client, w) ← send_ack send_ipv4 c1 w; Some (r, client, w)) = Some (a, c', w') -> stays_or_fails c c').
  { intros c1 r H1 H2. destruct (send_ack_total send_ipv4 c1 w H2) as (b & w1 & E).
    rewrite E, some_bind. intros [= <- <- <-]. destruct b; [by apply stays_weaken|].
    destruct H1 as (? & ? & ? & _). split; [done|]. split; [done|]. split; [done|by right]. }
  unfold receive.
  destruct (_ || _) eqn:E1; [by apply Hstay|].
  destruct ((_ <? TCP_HEADER_LENGTH) || _) eqn:E2; [by apply Hstay|].
  apply orb_false_iff in E1 as [E1 _]. apply orb_false_iff in E1 as [E1 _]. apply orb_false_iff in E1 as [E1 E3].
  apply bool_decide_eq_false in E1, E3. clear E2.
  assert (Hsend : has_send c = true) by (by apply ok_live_has).
  unfold receive_segment. destruct (read_u16 packet 0); [rewrite some_bind|done].
  destruct (read_u16 packet 2); [rewrite some_bind|done]. destruct (_ || _); [by apply Hstay|].
  destruct (tcp_client_checksum _ _ _ _); [rewrite some_bind|done].
  destruct (negb _); [by apply Hstay|].
  destruct (rd packet 12); [rewrite some_bind|done]. destruct (rd packet 13) as [flags|]; [rewrite some_bind|done].
  cbv zeta. destruct (_ || _ || _); [by apply Hstay|].
  rewrite Eseq, some_bind. destruct (read_u32 packet 8); [rewrite some_bind|done].
  destruct (flag TCP_FLAG_RST flags).
  { unfold receive_reset. rewrite bool_decide_false by done. cbv zeta. rewrite (proj2 (Z.eqb_neq _ _) Hseq).
    by apply Hstay. }
  rewrite bool_decide_false by done. unfold receive_synchronized.
  destruct (flag TCP_FLAG_SYN flags); [by apply Hack|].
  destruct (flag TCP_FLAG_ACK flags); cbn [negb]; [|by apply Hstay].
  rewrite (proj2 (Z.eqb_neq _ _) Hseq). cbn [negb]. destruct (_ || _); [by apply Hack|].
  rewrite some_bind. by apply Hstay.
Qed.

(** A client with data in flight, and an ACK of that data with the wrong sequence number. *)
Definition demo_sending : tcp_client := demo_run (demo_open ++ [Service; Send (Some [9; 9; 9]) 3]).

Lemma demo_sending_ok : client_ok demo_sending.
Proof.
  apply demo_run_ok, Forall_app_2; [exact demo_open_ok|]. apply Forall_cons_2; [done|]. apply Forall_cons_2; [|constructor].
  split; [done|]. intros b [= <-]. split; [by apply bytes_okb_true|done].
Qed.

Lemma tcp_stale_segment_witness :
  let packet := demo_segment 777 104 0x10 [] in
  exists a c' w', receive demo_send 0x0A000202 0x0A00020F packet (Z.of_nat (length packet)) demo_sending 9 = Some (a, c', w') /\
    pending_active demo_sending = true /\
    (pending_active c' = pending_active demo_sending \/ state c' = TCP_CLIENT_FAILED).
Proof.
  cbv zeta. set (packet := demo_segment 777 104 0x10 []).
  assert (E : exists a c' w', receive demo_send 0x0A000202 0x0A00020F packet (Z.of_nat (length packet)) demo_sending 9
                = Some (a, c', w')).
  { destruct (receive_total demo_send 0x0A000202 0x0A00020F packet demo_sending 9 demo_sending_ok)
      as (a & c' & w' & E & _); [apply demo_segment_ok; by vm_compute|]. by exists a, c', w'. }
  destruct E as (a & c' & w' & E). exists a, c', w'. split; [exact E|]. split; [by vm_compute|].
  destruct (tcp_stale_segment demo_send 0x0A000202 0x0A00020F packet 777 demo_sending 9 a c' w')
    as (_ & _ & _ & [(_ & H & _)|[H _]]); [exact demo_sending_ok|by vm_compute|apply demo_segment_ok; by vm_compute
      |by vm_compute|by vm_compute|exact E|by left|by right].
Defined.

(** ** Segments on the wire *)

(** the segment the client builds carries the fields it was built from in network order and the
    data behind a header of 20 bytes, and verifies: the checksum of the whole segment, its own checksum
    included, is zero, which is what [tcp_client_receive] tests. *)
Theorem build_packet_verifies local remote local_port remote_port sequence receive_next flags window data n :
  0 <= local_port < 2 ^ 16 -> 0 <= remote_port < 2 ^ 16 -> u32_ok sequence -> u32_ok receive_next ->
  0 <= flags < 256 -> flag TCP_FLAG_ACK flags = true ->
  bytes_ok data -> 0 <= n <= Z.of_nat (length data) -> n <= TCP_CLIENT_MAX_SEGMENT_DATA ->
  exists packet, build_packet local remote local_port remote_port sequence receive_next flags window data n =
      Some packet /\ Z.of_nat (length packet) = 20 + n /\
    tcp_client_checksum local remote (Some packet) (20 + n) = Some 0 /\
    read_u16 packet 0 = Some local_port /\ read_u16 packet 2 = Some remote_port /\
    read_u32 packet 4 = Some sequence /\ read_u32 packet 8 = Some receive_next /\
    rd packet 12 = Some 80 /\ rd packet 13 = Some flags /\ drop 20 packet = take (Z.to_nat n) data.
Proof.
  unfold TCP_CLIENT_MAX_SEGMENT_DATA. intros Hlp Hrp Hs Hr Hf Hack Hd Hn Hn'.
  destruct (build_packet_spec local remote local_port remote_port sequence receive_next flags window data n Hd Hn
    ltac:(lia)) as (k & Hk & E & Hsum). rewrite Hack in E, Hsum.
  eexists. split; [exact E|]. split; [|split; [exact Hsum|]].
  { rewrite length_app, length_take. change (length (header _ _ _ _ _ _ _)) with 20%nat. lia. }
  split; [by rewrite header_u16_0|]. split; [by rewrite header_u16_2|].
  split; [by rewrite header_u32_4|]. split; [by rewrite header_u32_8|]. split; [done|]. split; [|done].
  change (Some (u8 flags) = Some flags). rewrite u8_mod, Z.mod_small by lia. done.
Qed.

Lemma build_packet_verifies_witness :
  exists packet, build_packet 0x0A00020F 0x0A000202 4000 80 101 501 0x18 1000 [7; 8; 9] 3 = Some packet /\
    tcp_client_checksum 0x0A00020F 0x0A000202 (Some packet) (20 + 3) = Some 0.
Proof.
  destruct (build_packet_verifies 0x0A00020F 0x0A000202 4000 80 101 501 0x18 1000 [7; 8; 9] 3)
    as (packet & E & _ & H & _);
    [lia|lia|unfold u32_ok; lia|unfold u32_ok; lia|lia|reflexivity|by apply bytes_okb_true|cbn; lia
    |unfold TCP_CLIENT_MAX_SEGMENT_DATA; lia|].
  by exists packet.
Defined.

(** ** The blocking operations *)

(** C30: every blocking operation returns, whatever the clock does: each round of its loop finds
    the clock advanced towards the timeout or counts one of at most a million stalled rounds, so
    [rounds] of them are enough. And when it returns true, its goal is reached: the connection is
    established, closed, half-closed by the peer, or the last segment sent has been acknowledged. *)
Theorem tcp_blocking_returns {W} (send_ipv4 : Z -> Z -> list Z -> W -> bool * W) (now_ms : W -> Z * W) poll
    fuel ip port iss data n c w :
  poll_ok poll -> client_ok c -> 0 < rounds c <= Z.of_nat fuel -> u32_ok iss -> 0 <= n ->
  (forall bytes, data = Some bytes -> bytes_ok bytes /\ n <= Z.of_nat (length bytes)) ->
  (exists b c' w', tcp_client_connect send_ipv4 now_ms poll fuel ip port iss c w = Some (b, c', w') /\
     (b = true -> state c' = TCP_CLIENT_ESTABLISHED)) /\
  (exists b c' w', tcp_client_close send_ipv4 now_ms poll fuel c w = Some (b, c', w') /\
     (b = true -> state c' = TCP_CLIENT_CLOSED)) /\
  (exists b c' w', tcp_client_wait_for_peer_close send_ipv4 now_ms poll fuel c w = Some (b, c', w') /\
     (b = true -> state c' = TCP_CLIENT_CLOSE_WAIT \/ state c' = TCP_CLIENT_CLOSED)) /\
  (exists b c' w', tcp_client_send send_ipv4 now_ms poll fuel data n c w = Some (b, c', w') /\
     (b = true -> pending_active c' = false)).
Proof.
  intros Hpoll Hc Hf Hi Hn Hd. split; [|split; [|split]].
  - destruct (blocking_returns send_ipv4 now_ms poll Hpoll Opening TCP_CLIENT_OPERATION_CONNECT fuel
      (begin_connect send_ipv4 now_ms ip port iss) c w Hc Hf) as (b & c' & w' & E & _ & _ & Hb);
      [by apply begin_connect_ok|].
    exists b, c', w'. split; [exact E|]. intros H. destruct (Hb H) as [Ho Hg].
    unfold operation_goal_reached in Hg. rewrite Ho in Hg. by apply bool_decide_eq_true in Hg.
  - destruct (blocking_returns send_ipv4 now_ms poll Hpoll Closing TCP_CLIENT_OPERATION_CLOSE fuel
      (begin_close send_ipv4 now_ms) c w Hc Hf) as (b & c' & w' & E & _ & _ & Hb); [by apply begin_close_ok|].
    exists b, c', w'. split; [exact E|]. intros H. destruct (Hb H) as [Ho Hg].
    unfold operation_goal_reached in Hg. rewrite Ho in Hg. by apply bool_decide_eq_true in Hg.
  - destruct (blocking_returns send_ipv4 now_ms poll Hpoll Failure TCP_CLIENT_OPERATION_WAIT_FOR_PEER_CLOSE fuel
      (begin_wait_for_peer_close now_ms) c w Hc Hf) as (b & c' & w' & E & _ & _ & Hb);
      [by apply begin_wait_for_peer_close_ok|].
    exists b, c', w'. split; [exact E|]. intros H. destruct (Hb H) as [Ho Hg].
    unfold operation_goal_reached in Hg. rewrite Ho in Hg.
    apply orb_true_iff in Hg as [Hg|Hg]; apply bool_decide_eq_true in Hg; auto.
  - destruct (tcp_client_send_returns send_ipv4 now_ms poll Hpoll fuel data n c w Hc Hf Hn Hd)
      as (b & c' & w' & E & _ & _ & Hb).
    exists b, c', w'. split; [exact E|]. intros H. by apply Hb.
Qed.

Lemma tcp_blocking_returns_witness :
  exists b c' w', tcp_client_connect demo_send demo_now demo_poll (Z.to_nat (rounds demo_client)) 0x0A000202 80 100
      demo_client 7 = Some (b, c', w') /\ (b = true -> state c' = TCP_CLIENT_ESTABLISHED).
Proof.
  refine (proj1 (tcp_blocking_returns demo_send demo_now demo_poll _ 0x0A000202 80 100 None 0 demo_client 7
    demo_poll_ok demo_client_ok _ _ _ _)).
  - assert (0 < rounds demo_client) by (by vm_compute). lia.
  - unfold u32_ok. lia.
  - lia.
  - by intros ? [=].
Defined.

(** ** A connection closed by the peer before the program looks *)

(** A pending connect on a connection the peer has already half-closed. *)
Definition lost (c : tcp_client) : Prop :=
  operation c = TCP_CLIENT_OPERATION_CONNECT /\ step_result c = TCP_CLIENT_STEP_PENDING /\
  state c = TCP_CLIENT_CLOSE_WAIT.

Lemma moves_close_wait p s :
  p = Peer \/ p = Failure -> moves p TCP_CLIENT_CLOSE_WAIT s -> s = TCP_CLIENT_CLOSE_WAIT \/ s = TCP_CLIENT_FAILED.
Proof.
  intros Hp H. inversion H as [|? s1 ? [He|He] Hm]; [by left|..].
  - destruct Hp as [->| ->]; inversion He; subst. right. by eapply moves_failed.
  - inversion He; subst. right. by eapply moves_failed.
Qed.

(** C37: when the SYN+ACK and the peer's FIN both arrive before the next service, the pending
    connect can only fail: no service completes it and no segment helps, although the connection is open for
    sending; it ends in the operation's timeout (or in an error). *)
Theorem tcp_connect_after_fin_never_completes {W} (send_ipv4 : Z -> Z -> list Z -> W -> bool * W)
    (now_ms : W -> Z * W) src dst packet c w :
  client_ok c -> lost c -> bytes_ok packet ->
  (exists a c' w', tcp_client_service send_ipv4 now_ms c w = Some (a, c', w') /\
     a <> TCP_CLIENT_STEP_COMPLETE /\ (a = TCP_CLIENT_STEP_PENDING -> lost c' \/ state c' = TCP_CLIENT_FAILED)) /\
  (exists a c' w', receive send_ipv4 src dst packet (Z.of_nat (length packet)) c w = Some (a, c', w') /\
     (lost c' \/ state c' = TCP_CLIENT_FAILED)).
Proof.
  intros Hc (Ho & Hst & Hs) Hb. split.
  - destruct (tcp_client_service_ok send_ipv4 now_ms c w Hc Hst) as (a & c' & w' & E & _ & _ & Hm & Hr & _).
    exists a, c', w'. split; [exact E|]. rewrite Hs in Hm. apply moves_close_wait in Hm; [|by right].
    rewrite Ho in Hr. split.
    + intros ->. destruct Hr as (Ho' & Hg & _). unfold operation_goal_reached in Hg. rewrite Ho' in Hg.
      apply bool_decide_eq_true in Hg. destruct Hm; congruence.
    + intros ->. destruct Hr as (Ho' & Hst'). destruct Hm as [Hm|]; [left|by right]. by split_and!.
  - destruct (receive_total send_ipv4 src dst packet c w Hc Hb) as (a & c' & w' & E & _ & _ & Hm & [Hpr Hst'] & _).
    exists a, c', w'. split; [exact E|]. rewrite Hs in Hm. apply moves_close_wait in Hm; [|by left].
    destruct Hm as [Hm|]; [|by right]. destruct Hst' as [Hst'|]; [left|by right].
    unfold progress in Hpr. split_and!; congruence.
Qed.

(** Connect, then a SYN+ACK and a FIN before any service. *)
Lemma tcp_connect_after_fin_never_completes_witness :
  let c := demo_run (demo_open ++ [demo_receive 501 101 0x11 []]) in
  lost c /\ exists a c' w', tcp_client_service demo_send demo_now c 9 = Some (a, c', w') /\ a <> TCP_CLIENT_STEP_COMPLETE.
Proof.
  cbv zeta. set (c := demo_run _). assert (Hl : lost c) by (split_and!; by vm_compute). split; [exact Hl|].
  destruct (tcp_connect_after_fin_never_completes demo_send demo_now 0 0 [] c 9) as [(a & c' & w' & E & H & _) _].
  - apply demo_run_ok, Forall_app_2; [exact demo_open_ok|]. apply Forall_cons_2; [|constructor].
    apply demo_segment_ok. by vm_compute.
  - exact Hl.
  - constructor.
  - exists a, c', w'. split; [exact E|exact H].
Defined.
