(* ===== verification/HttpText.v ===== *)
(** * kernel/http_client.c: characters, spans and header lines

    The response buffer is the list of its bytes, a pointer into it an index,
    and a span (a pointer and a length) its two ends: [bytes + cursor] with
    [length] becomes [cursor] and [limit].  Reads are checked: [None] is an
    access outside the buffer, or a loop that exceeds its fuel. *)

From S2P Require Import Prelude.

Inductive http_client_error :=
| HTTP_CLIENT_ERROR_NONE
| HTTP_CLIENT_ERROR_INVALID_ARGUMENT
| HTTP_CLIENT_ERROR_INVALID_HOST
| HTTP_CLIENT_ERROR_INVALID_PATH
| HTTP_CLIENT_ERROR_REQUEST_TOO_LARGE
| HTTP_CLIENT_ERROR_TCP
| HTTP_CLIENT_ERROR_HEADER_TOO_LARGE
| HTTP_CLIENT_ERROR_MALFORMED_STATUS_LINE
| HTTP_CLIENT_ERROR_UNSUPPORTED_VERSION
| HTTP_CLIENT_ERROR_MALFORMED_HEADER
| HTTP_CLIENT_ERROR_INVALID_CONTENT_LENGTH
| HTTP_CLIENT_ERROR_CONFLICTING_FRAMING
| HTTP_CLIENT_ERROR_UNSUPPORTED_TRANSFER_ENCODING
| HTTP_CLIENT_ERROR_MALFORMED_CHUNKED_BODY
| HTTP_CLIENT_ERROR_CHUNK_METADATA_TOO_LARGE
| HTTP_CLIENT_ERROR_TRUNCATED_BODY
| HTTP_CLIENT_ERROR_UNEXPECTED_EXTRA_DATA
| HTTP_CLIENT_ERROR_REDIRECT_LOCATION_MISSING
| HTTP_CLIENT_ERROR_INVALID_REDIRECT_LOCATION
| HTTP_CLIENT_ERROR_REDIRECT_LOCATION_TOO_LARGE
| HTTP_CLIENT_ERROR_INVALID_INFORMATIONAL_FRAMING
| HTTP_CLIENT_ERROR_TOO_MANY_INFORMATIONAL_RESPONSES
| HTTP_CLIENT_ERROR_INFORMATIONAL_RESPONSE_WITHOUT_FINAL
| HTTP_CLIENT_ERROR_UNSUPPORTED_PROTOCOL_SWITCH.

#[export] Instance http_client_error_eq : EqDecision http_client_error.
Proof. solve_decision. Defined.

(** ** Characters *)

Definition in_range (lo hi c : Z) : bool := (lo <=? c) && (c <=? hi).

Definition ascii_lower (character : Z) : Z :=
  if in_range 65 90 character then u8 (character + 32) else character.

Definition alphanumeric (c : Z) : bool := in_range 97 122 c || in_range 65 90 c || in_range 48 57 c.

Definition valid_header_name_byte (character : Z) : bool :=
  alphanumeric character || existsb (Z.eqb character) (cs "!#$%&'*+-.^_`|~").

Definition uri_character_allowed (character : Z) : bool :=
  alphanumeric character || existsb (Z.eqb character) (cs "-._~:/?#[]@!$&'()*+,;=").

Definition is_space (c : Z) : bool := (c =? 32) || (c =? 9).
Definition is_control (c : Z) : bool := ((c <? 32) && negb (c =? 9)) || (c =? 0x7F).

Definition hex_digit_value (character : Z) : option Z :=
  if in_range 48 57 character then Some (u8 (character - 48))
  else
    let character := ascii_lower character in
    if in_range 97 102 character then Some (u8 (character - 97 + 10)) else None.

(** ** Loops over a span *)

(** Advance from [i] over at most [n] bytes while [p] holds. *)
Fixpoint scan (p : Z -> bool) (n : nat) (bytes : list Z) (i : Z) : option Z :=
  match n with
  | O => Some i
  | S n' => b ← rd bytes i; if p b then scan p n' bytes (i + 1) else Some i
  end.

(** Go back from [i] over at most [n] bytes while [p] holds of the byte before. *)
Fixpoint scan_back (p : Z -> bool) (n : nat) (bytes : list Z) (i : Z) : option Z :=
  match n with
  | O => Some i
  | S n' => b ← rd bytes (i - 1); if p b then scan_back p n' bytes (i - 1) else Some i
  end.

Definition scan_to (p : Z -> bool) (bytes : list Z) (i limit : Z) : option Z :=
  scan p (Z.to_nat (limit - i)) bytes i.
Definition scan_back_to (p : Z -> bool) (bytes : list Z) (i start : Z) : option Z :=
  scan_back p (Z.to_nat (i - start)) bytes i.

(** [bytes[i] == c0 && bytes[i + 1] == c1 && ...] *)
Fixpoint matches (bytes : list Z) (i : Z) (pattern : list Z) : option bool :=
  match pattern with
  | [] => Some true
  | c :: pattern => b ← rd bytes i; if b =? c then matches bytes (i + 1) pattern else Some false
  end.

(** The first of [n] positions from [i] where [pattern] starts. *)
Fixpoint find_pattern (pattern : list Z) (n : nat) (bytes : list Z) (i : Z) : option (option Z) :=
  match n with
  | O => Some None
  | S n' =>
      found ← matches bytes i pattern;
      if (found : bool) then Some (Some i) else find_pattern pattern n' bytes (i + 1)
  end.

Definition CRLF : list Z := [13; 10].

Definition find_crlf (bytes : list Z) (start limit : Z) : option (option Z) :=
  find_pattern CRLF (Z.to_nat (limit - 1 - start)) bytes start.

Definition find_header_separator (bytes : list Z) (start limit : Z) : option (option Z) :=
  find_pattern (CRLF ++ CRLF) (Z.to_nat (limit - 3 - start)) bytes start.

(** Compare a span with a text, ignoring case. *)
Fixpoint span_equals (bytes : list Z) (i : Z) (length : nat) (text : list Z) : option bool :=
  match length, text with
  | O, [] => Some true
  | O, _ :: _ | S _, [] => Some false
  | S length, t :: text =>
      b ← rd bytes i;
      if ascii_lower b =? ascii_lower t then span_equals bytes (i + 1) length text else Some false
  end.

Definition span_equals_text_ignore_case (bytes : list Z) (start limit : Z) (text : list Z) : option bool :=
  span_equals bytes start (Z.to_nat (limit - start)) text.

(** ** Values *)

(** [result] is the value of the digits before [i]; [Some None]: not a number, or too large. *)
Fixpoint content_length_digits (n : nat) (bytes : list Z) (i result : Z) : option (option Z) :=
  match n with
  | O => Some (Some result)
  | S n' =>
      b ← rd bytes i;
      if negb (in_range 48 57 b) then Some None
      else
        let digit := b - 48 in
        if (SIZE_MAX - digit) / 10 <? result then Some None
        else content_length_digits n' bytes (i + 1) (u64 (u64 (result * 10) + digit))
  end.

Definition parse_content_length (bytes : list Z) (start limit : Z) : option (option Z) :=
  if limit - start =? 0 then Some None
  else content_length_digits (Z.to_nat (limit - start)) bytes start 0.

Fixpoint has_token_from (fuel : nat) (bytes : list Z) (cursor limit : Z) (token : list Z) : option bool :=
  if cursor <? limit then
    match fuel with
    | O => None
    | S fuel' =>
        start ← scan_to (fun c => is_space c || (c =? 44)) bytes cursor limit;
        cursor ← scan_to (fun c => negb (c =? 44)) bytes start limit;
        stop ← scan_back_to is_space bytes cursor start;
        found ← span_equals_text_ignore_case bytes start stop token;
        if (found : bool) then Some true else has_token_from fuel' bytes cursor limit token
    end
  else Some false.

Definition span_has_token_ignore_case (bytes : list Z) (start limit : Z) (token : list Z) : option bool :=
  has_token_from (S (Z.to_nat (limit - start))) bytes start limit token.

(** ** Header lines *)

(** The two spans of [struct http_header_view]. *)
Record http_header_view := HttpHeaderView {
  name_start : Z;
  name_end : Z;
  value_start : Z;
  value_end : Z;
}.

(** The colon of a header line: [Some None] at a byte no name may hold. *)
Fixpoint find_colon (n : nat) (bytes : list Z) (colon : Z) : option (option Z) :=
  match n with
  | O => Some (Some colon)
  | S n' =>
      b ← rd bytes colon;
      if b =? 58 then Some (Some colon)
      else if negb (valid_header_name_byte b) then Some None
      else find_colon n' bytes (colon + 1)
  end.

(** No byte of the span is a control character. *)
Fixpoint no_control (n : nat) (bytes : list Z) (i : Z) : option bool :=
  match n with
  | O => Some true
  | S n' => b ← rd bytes i; if is_control b then Some false else no_control n' bytes (i + 1)
  end.

(** [Some None] is [HTTP_CLIENT_ERROR_MALFORMED_HEADER]. *)
Definition parse_header_view (bytes : list Z) (line limit : Z) : option (option http_header_view) :=
  found ← find_colon (Z.to_nat (limit - line)) bytes line;
  match found with
  | None => Some None
  | Some colon =>
      if (colon =? line) || (colon =? limit) then Some None
      else
        start ← scan_to is_space bytes (colon + 1) limit;
        stop ← scan_back_to is_space bytes limit start;
        printable ← no_control (Z.to_nat (stop - start)) bytes start;
        if negb printable then Some None
        else Some (Some (HttpHeaderView line colon start stop))
  end.

(** ** Tokens, quoted strings and parameters *)

Definition skip_ows (bytes : list Z) (cursor limit : Z) : option Z := scan_to is_space bytes cursor limit.

(** The end of the token at [cursor]; [Some None] when there is none. *)
Definition parse_token (bytes : list Z) (cursor limit : Z) : option (option Z) :=
  stop ← scan_to valid_header_name_byte bytes cursor limit;
  Some (if stop =? cursor then None else Some stop).

Definition quoted_pair_byte (c : Z) : bool := in_range 0x20 0x7E c || (c =? 9) || (0x80 <=? c).
Definition quoted_text_byte (c : Z) : bool :=
  (c =? 9) || (c =? 32) || (c =? 33) || in_range 0x23 0x5B c || in_range 0x5D 0x7E c || (0x80 <=? c).

(** Inside the quotes. *)
Fixpoint quoted_string_rest (fuel : nat) (bytes : list Z) (cursor limit : Z) : option (option Z) :=
  if cursor <? limit then
    match fuel with
    | O => None
    | S fuel' =>
        character ← rd bytes cursor;
        if character =? 34 then Some (Some (cursor + 1))
        else if character =? 92 then
          let cursor := cursor + 1 in
          if limit <=? cursor then Some None
          else
            character ← rd bytes cursor;
            if negb (quoted_pair_byte character) then Some None
            else quoted_string_rest fuel' bytes (cursor + 1) limit
        else if negb (quoted_text_byte character) then Some None
        else quoted_string_rest fuel' bytes (cursor + 1) limit
    end
  else Some None.

(** The position behind the quoted string at [cursor]. *)
Definition parse_quoted_string (bytes : list Z) (cursor limit : Z) : option (option Z) :=
  if limit <=? cursor then Some None
  else
    first ← rd bytes cursor;
    if negb (first =? 34) then Some None
    else quoted_string_rest (Z.to_nat (limit - cursor)) bytes (cursor + 1) limit.

(** [*cursor < length && bytes[*cursor] == c] *)
Definition next_is (c : Z) (bytes : list Z) (cursor limit : Z) : option bool :=
  if cursor <? limit then b ← rd bytes cursor; Some (b =? c) else Some false.

(** The value of a parameter or of an extension: a quoted string or a token. *)
Definition parse_value (bytes : list Z) (cursor limit : Z) : option (option Z) :=
  quoted ← next_is 34 bytes cursor limit;
  if (quoted : bool) then parse_quoted_string bytes cursor limit else parse_token bytes cursor limit.

Definition parse_required_parameter (bytes : list Z) (cursor limit : Z) : option (option Z) :=
  cursor ← skip_ows bytes cursor limit;
  token ← parse_token bytes cursor limit;
  match token with
  | None => Some None
  | Some cursor =>
      cursor ← skip_ows bytes cursor limit;
      equals ← next_is 61 bytes cursor limit;
      if negb equals then Some None
      else
        cursor ← skip_ows bytes (cursor + 1) limit;
        parse_value bytes cursor limit
  end.

(** The parameters of a transfer coding, each after a [;]: their end and whether there was one;
    [Some None] at a malformed one. *)
Fixpoint parse_parameters (fuel : nat) (bytes : list Z) (cursor limit : Z) (has_parameter : bool)
    : option (option (Z * bool)) :=
  semicolon ← next_is 59 bytes cursor limit;
  if negb semicolon then Some (Some (cursor, has_parameter))
  else
    match fuel with
    | O => None
    | S fuel' =>
        parameter ← parse_required_parameter bytes (cursor + 1) limit;
        match parameter with
        | None => Some None
        | Some cursor =>
            cursor ← skip_ows bytes cursor limit;
            parse_parameters fuel' bytes cursor limit true
        end
    end.

(** ** The Transfer-Encoding header *)

Record http_parse_context := HttpParseContext {
  transfer_encoding_seen : bool;
  chunked_seen : bool;
  identity_seen : bool;
  unsupported_transfer_coding : bool;
}.

Definition empty_context : http_parse_context := HttpParseContext false false false false.

(** One more coding of the list; [None]: malformed. *)
Definition add_coding (is_chunked is_identity has_parameter : bool) (context : http_parse_context)
    : option http_parse_context :=
  if (is_chunked || is_identity) && has_parameter then None
  else if is_chunked then
    Some (HttpParseContext true true (identity_seen context) (unsupported_transfer_coding context))
  else if is_identity then
    if unsupported_transfer_coding context || chunked_seen context then None
    else Some (HttpParseContext true (chunked_seen context) true (unsupported_transfer_coding context))
  else Some (HttpParseContext true (chunked_seen context) (identity_seen context) true).

Fixpoint parse_codings (fuel : nat) (bytes : list Z) (cursor limit : Z) (context : http_parse_context)
    : option (option http_parse_context) :=
  match fuel with
  | O => None
  | S fuel' =>
      start ← skip_ows bytes cursor limit;
      token ← parse_token bytes start limit;
      match token with
      | None => Some None
      | Some stop =>
          if chunked_seen context || identity_seen context then Some None
          else
            is_chunked ← span_equals_text_ignore_case bytes start stop (cs "chunked");
            is_identity ← span_equals_text_ignore_case bytes start stop (cs "identity");
            cursor ← skip_ows bytes stop limit;
            parameters ← parse_parameters (Z.to_nat (limit - cursor)) bytes cursor limit false;
            match parameters with
            | None => Some None
            | Some (cursor, has_parameter) =>
                match add_coding is_chunked is_identity has_parameter context with
                | None => Some None
                | Some context =>
                    cursor ← skip_ows bytes cursor limit;
                    if cursor =? limit then Some (Some context)
                    else
                      b ← rd bytes cursor;
                      if negb (b =? 44) then Some None
                      else
                        cursor ← skip_ows bytes (cursor + 1) limit;
                        if cursor =? limit then Some None else parse_codings fuel' bytes cursor limit context
                end
            end
      end
  end.

(** [Some None] is [HTTP_CLIENT_ERROR_MALFORMED_HEADER]. *)
Definition parse_transfer_encoding (bytes : list Z) (start limit : Z) (context : http_parse_context)
    : option (option http_parse_context) :=
  if limit - start =? 0 then Some None
  else parse_codings (S (Z.to_nat (limit - start))) bytes start limit context.
