(* ===== verification/HttpParse.v ===== *)
(** * kernel/http_client.c: responses and chunked bodies

    [struct http_response] holds indices into the response buffer for its
    pointers, [None] for NULL.  The functions return the error code with the
    objects they write. *)

From S2P Require Import Prelude HttpText.

Definition HTTP_CLIENT_MAX_HEADER_BYTES : Z := 8192.
Definition HTTP_CLIENT_MAX_TRAILER_BYTES : Z := 8192.
Definition HTTP_CLIENT_MAX_CHUNK_LINE_BYTES : Z := 1024.
Definition HTTP_CLIENT_MAX_CHUNK_FRAMING_BYTES : Z := 16384.
Definition HTTP_CLIENT_MAX_INFORMATIONAL_RESPONSES : Z := 8.

Record http_response := HttpResponse {
  version_major : Z;
  version_minor : Z;
  status_code : Z;
  reason_phrase : option Z;
  reason_phrase_length : Z;
  header_fields : option Z;
  header_fields_length : Z;
  body : option Z;
  body_length : Z;
  has_content_length : bool;
  content_length : Z;
  has_transfer_encoding : bool;
  chunked_transfer : bool;
  connection_close : bool;
  has_location : bool;
  location : option Z;
  location_length : Z;
}.

Definition clear_response : http_response :=
  HttpResponse 0 0 0 None 0 None 0 None 0 false 0 false false false false None 0.

(** ** Assignments to the response *)

Definition set_status (minor code : Z) (r : http_response) : http_response :=
  HttpResponse 1 minor code (reason_phrase r) (reason_phrase_length r) (header_fields r) (header_fields_length r)
    (body r) (body_length r) (has_content_length r) (content_length r) (has_transfer_encoding r)
    (chunked_transfer r) (connection_close r) (has_location r) (location r) (location_length r).
Definition set_reason (start length : Z) (r : http_response) : http_response :=
  HttpResponse (version_major r) (version_minor r) (status_code r) (Some start) length (header_fields r)
    (header_fields_length r) (body r) (body_length r) (has_content_length r) (content_length r)
    (has_transfer_encoding r) (chunked_transfer r) (connection_close r) (has_location r) (location r)
    (location_length r).
Definition set_fields (start length : Z) (r : http_response) : http_response :=
  HttpResponse (version_major r) (version_minor r) (status_code r) (reason_phrase r) (reason_phrase_length r)
    (Some start) length (body r) (body_length r) (has_content_length r) (content_length r)
    (has_transfer_encoding r) (chunked_transfer r) (connection_close r) (has_location r) (location r)
    (location_length r).
Definition set_body (start : Z) (r : http_response) : http_response :=
  HttpResponse (version_major r) (version_minor r) (status_code r) (reason_phrase r) (reason_phrase_length r)
    (header_fields r) (header_fields_length r) (Some start) (body_length r) (has_content_length r)
    (content_length r) (has_transfer_encoding r) (chunked_transfer r) (connection_close r) (has_location r)
    (location r) (location_length r).
Definition set_body_length (length : Z) (r : http_response) : http_response :=
  HttpResponse (version_major r) (version_minor r) (status_code r) (reason_phrase r) (reason_phrase_length r)
    (header_fields r) (header_fields_length r) (body r) length (has_content_length r) (content_length r)
    (has_transfer_encoding r) (chunked_transfer r) (connection_close r) (has_location r) (location r)
    (location_length r).
Definition set_content_length (length : Z) (r : http_response) : http_response :=
  HttpResponse (version_major r) (version_minor r) (status_code r) (reason_phrase r) (reason_phrase_length r)
    (header_fields r) (header_fields_length r) (body r) (body_length r) true length (has_transfer_encoding r)
    (chunked_transfer r) (connection_close r) (has_location r) (location r) (location_length r).
Definition set_has_transfer_encoding (r : http_response) : http_response :=
  HttpResponse (version_major r) (version_minor r) (status_code r) (reason_phrase r) (reason_phrase_length r)
    (header_fields r) (header_fields_length r) (body r) (body_length r) (has_content_length r)
    (content_length r) true (chunked_transfer r) (connection_close r) (has_location r) (location r)
    (location_length r).
Definition set_chunked_transfer (b : bool) (r : http_response) : http_response :=
  HttpResponse (version_major r) (version_minor r) (status_code r) (reason_phrase r) (reason_phrase_length r)
    (header_fields r) (header_fields_length r) (body r) (body_length r) (has_content_length r)
    (content_length r) (has_transfer_encoding r) b (connection_close r) (has_location r) (location r)
    (location_length r).
Definition set_connection_close (r : http_response) : http_response :=
  HttpResponse (version_major r) (version_minor r) (status_code r) (reason_phrase r) (reason_phrase_length r)
    (header_fields r) (header_fields_length r) (body r) (body_length r) (has_content_length r)
    (content_length r) (has_transfer_encoding r) (chunked_transfer r) true (has_location r) (location r)
    (location_length r).
Definition set_location (start length : Z) (r : http_response) : http_response :=
  HttpResponse (version_major r) (version_minor r) (status_code r) (reason_phrase r) (reason_phrase_length r)
    (header_fields r) (header_fields_length r) (body r) (body_length r) (has_content_length r)
    (content_length r) (has_transfer_encoding r) (chunked_transfer r) (connection_close r) true (Some start)
    length.

(** ** Header lines *)

Definition header_is (bytes : list Z) (view : http_header_view) (name : string) : option bool :=
  span_equals_text_ignore_case bytes (name_start view) (name_end view) (cs name).

Definition parse_header_line (bytes : list Z) (line limit : Z) (response : http_response)
    (context : http_parse_context) : option (http_client_error * http_response * http_parse_context) :=
  parsed ← parse_header_view bytes line limit;
  match parsed with
  | None => Some (HTTP_CLIENT_ERROR_MALFORMED_HEADER, response, context)
  | Some header =>
      let start := value_start header in
      let stop := value_end header in
      is_length ← header_is bytes header "content-length";
      if (is_length : bool) then
        parsed ← parse_content_length bytes start stop;
        match parsed with
        | None => Some (HTTP_CLIENT_ERROR_INVALID_CONTENT_LENGTH, response, context)
        | Some length =>
            if has_content_length response && negb (content_length response =? length) then
              Some (HTTP_CLIENT_ERROR_INVALID_CONTENT_LENGTH, response, context)
            else Some (HTTP_CLIENT_ERROR_NONE, set_content_length length response, context)
        end
      else
        is_encoding ← header_is bytes header "transfer-encoding";
        if (is_encoding : bool) then
          parsed ← parse_transfer_encoding bytes start stop context;
          match parsed with
          | None => Some (HTTP_CLIENT_ERROR_MALFORMED_HEADER, response, context)
          | Some context => Some (HTTP_CLIENT_ERROR_NONE, set_has_transfer_encoding response, context)
          end
        else
          is_connection ← header_is bytes header "connection";
          closes ← (if (is_connection : bool) then span_has_token_ignore_case bytes start stop (cs "close")
                    else Some false);
          if (closes : bool) then Some (HTTP_CLIENT_ERROR_NONE, set_connection_close response, context)
          else
            is_location ← header_is bytes header "location";
            if negb is_location then Some (HTTP_CLIENT_ERROR_NONE, response, context)
            else if has_location response then Some (HTTP_CLIENT_ERROR_MALFORMED_HEADER, response, context)
            else Some (HTTP_CLIENT_ERROR_NONE, set_location start (stop - start) response, context)
  end.

(** ** Chunk lines *)

(** The extensions of a chunk-size line from [cursor] on. *)
Fixpoint validate_chunk_extensions (fuel : nat) (bytes : list Z) (cursor limit : Z) : option bool :=
  if cursor <? limit then
    match fuel with
    | O => None
    | S fuel' =>
        cursor ← skip_ows bytes cursor limit;
        if cursor =? limit then Some false
        else
          b ← rd bytes cursor;
          if negb (b =? 59) then Some false
          else
            cursor ← skip_ows bytes (cursor + 1) limit;
            token ← parse_token bytes cursor limit;
            match token with
            | None => Some false
            | Some cursor =>
                cursor ← skip_ows bytes cursor limit;
                equals ← next_is 61 bytes cursor limit;
                if negb equals then validate_chunk_extensions fuel' bytes cursor limit
                else
                  cursor ← skip_ows bytes (cursor + 1) limit;
                  value ← parse_value bytes cursor limit;
                  match value with
                  | None => Some false
                  | Some cursor =>
                      cursor ← skip_ows bytes cursor limit;
                      validate_chunk_extensions fuel' bytes cursor limit
                  end
            end
    end
  else Some true.

(** The hexadecimal digits at [cursor]: their value, whether there was one, and their end;
    [Some None] when the value is too large. *)
Fixpoint chunk_size_digits (n : nat) (bytes : list Z) (cursor value : Z) (has_digit : bool)
    : option (option (Z * bool * Z)) :=
  match n with
  | O => Some (Some (value, has_digit, cursor))
  | S n' =>
      b ← rd bytes cursor;
      match hex_digit_value b with
      | None => Some (Some (value, has_digit, cursor))
      | Some digit =>
          if (SIZE_MAX - digit) / 16 <? value then Some None
          else chunk_size_digits n' bytes (cursor + 1) (u64 (u64 (value * 16) + digit)) true
      end
  end.

(** [Some None] is [HTTP_CLIENT_ERROR_MALFORMED_CHUNKED_BODY]. *)
Definition parse_chunk_size_line (bytes : list Z) (line limit : Z) : option (option Z) :=
  parsed ← chunk_size_digits (Z.to_nat (limit - line)) bytes line 0 false;
  match parsed with
  | None => Some None
  | Some (value, has_digit, cursor) =>
      if negb has_digit then Some None
      else
        valid ← validate_chunk_extensions (S (Z.to_nat (limit - cursor))) bytes cursor limit;
        Some (if (valid : bool) then Some value else None)
  end.

Definition find_chunk_line_end (bytes : list Z) (length start : Z) : option (http_client_error * Z) :=
  if length <? start then Some (HTTP_CLIENT_ERROR_TRUNCATED_BODY, 0)
  else
    let remaining := length - start in
    let limit := if HTTP_CLIENT_MAX_CHUNK_LINE_BYTES + 2 <? remaining then HTTP_CLIENT_MAX_CHUNK_LINE_BYTES + 2
                 else remaining in
    found ← find_crlf bytes start (start + limit);
    match found with
    | Some line_end =>
        if HTTP_CLIENT_MAX_CHUNK_LINE_BYTES <? line_end - start then
          Some (HTTP_CLIENT_ERROR_CHUNK_METADATA_TOO_LARGE, 0)
        else Some (HTTP_CLIENT_ERROR_NONE, line_end)
    | None =>
        if HTTP_CLIENT_MAX_CHUNK_LINE_BYTES <? remaining then Some (HTTP_CLIENT_ERROR_CHUNK_METADATA_TOO_LARGE, 0)
        else Some (HTTP_CLIENT_ERROR_TRUNCATED_BODY, 0)
    end.

(** ** Trailers *)

Definition forbidden_trailers : list string :=
  ["connection"; "content-length"; "host"; "location"; "te"; "trailer"; "transfer-encoding"; "upgrade"]%string.

Fixpoint forbidden_name (names : list string) (bytes : list Z) (view : http_header_view) : option bool :=
  match names with
  | [] => Some false
  | name :: names =>
      equal ← header_is bytes view name;
      if (equal : bool) then Some true else forbidden_name names bytes view
  end.

Definition forbidden_trailer_name : list Z -> http_header_view -> option bool := forbidden_name forbidden_trailers.

Fixpoint validate_trailers (fuel : nat) (bytes : list Z) (length start cursor : Z)
    : option (http_client_error * Z) :=
  if (length <? cursor) || (HTTP_CLIENT_MAX_TRAILER_BYTES <? cursor - start) then
    Some (HTTP_CLIENT_ERROR_CHUNK_METADATA_TOO_LARGE, 0)
  else
    match fuel with
    | O => None
    | S fuel' =>
        let search_limit :=
          if HTTP_CLIENT_MAX_TRAILER_BYTES <? length - start then start + HTTP_CLIENT_MAX_TRAILER_BYTES else length in
        found ← find_crlf bytes cursor search_limit;
        match found with
        | None =>
            Some (if HTTP_CLIENT_MAX_TRAILER_BYTES <? length - start
                  then HTTP_CLIENT_ERROR_CHUNK_METADATA_TOO_LARGE else HTTP_CLIENT_ERROR_TRUNCATED_BODY, 0)
        | Some line_end =>
            if HTTP_CLIENT_MAX_TRAILER_BYTES <? line_end + 2 - start then
              Some (HTTP_CLIENT_ERROR_CHUNK_METADATA_TOO_LARGE, 0)
            else if line_end =? cursor then Some (HTTP_CLIENT_ERROR_NONE, line_end + 2)
            else
              parsed ← parse_header_view bytes cursor line_end;
              match parsed with
              | None => Some (HTTP_CLIENT_ERROR_MALFORMED_CHUNKED_BODY, 0)
              | Some header =>
                  forbidden ← forbidden_trailer_name bytes header;
                  if (forbidden : bool) then Some (HTTP_CLIENT_ERROR_MALFORMED_CHUNKED_BODY, 0)
                  else validate_trailers fuel' bytes length start (line_end + 2)
              end
        end
    end.

(** The error and the end of the message. *)
Definition validate_chunk_trailers (bytes : list Z) (length start : Z) : option (http_client_error * Z) :=
  validate_trailers (S (Z.to_nat (length - start))) bytes length start start.

(** ** Chunked bodies *)

(** [for (i = 0; i < n; i++) bytes[to + i] = bytes[from + i]] within one buffer. *)
Fixpoint copy_within (n : nat) (bytes : list Z) (to from : Z) : option (list Z) :=
  match n with
  | O => Some bytes
  | S n' => b ← rd bytes from; bytes ← wr bytes to b; copy_within n' bytes (to + 1) (from + 1)
  end.

(** More framing than is left of the budget. *)
Definition framing_exceeded (line_bytes framing_bytes : Z) : bool :=
  HTTP_CLIENT_MAX_CHUNK_FRAMING_BYTES - framing_bytes <? line_bytes.

(** The walk over the chunks up to [limit]: the error, the buffer and the end of the decoded bytes. *)
Fixpoint walk_chunks (fuel : nat) (bytes : list Z) (limit : Z) (compact : bool)
    (read_cursor write_cursor framing_bytes : Z) : option (http_client_error * list Z * Z) :=
  match fuel with
  | O => None
  | S fuel' =>
      '(error, line_end) ← find_chunk_line_end bytes limit read_cursor;
      if negb (bool_decide (error = HTTP_CLIENT_ERROR_NONE)) then Some (error, bytes, 0)
      else
        let size_line_bytes := line_end - read_cursor + 2 in
        if framing_exceeded size_line_bytes framing_bytes then
          Some (HTTP_CLIENT_ERROR_CHUNK_METADATA_TOO_LARGE, bytes, 0)
        else
          let framing_bytes := framing_bytes + size_line_bytes in
          parsed ← parse_chunk_size_line bytes read_cursor line_end;
          match parsed with
          | None => Some (HTTP_CLIENT_ERROR_MALFORMED_CHUNKED_BODY, bytes, 0)
          | Some chunk_size =>
              let read_cursor := line_end + 2 in
              if chunk_size =? 0 then
                '(error, message_end) ← validate_chunk_trailers bytes limit read_cursor;
                if negb (bool_decide (error = HTTP_CLIENT_ERROR_NONE)) then Some (error, bytes, 0)
                else if negb (message_end =? limit) then Some (HTTP_CLIENT_ERROR_UNEXPECTED_EXTRA_DATA, bytes, 0)
                else Some (HTTP_CLIENT_ERROR_NONE, bytes, write_cursor)
              else if (limit <? read_cursor) || (limit - read_cursor <? chunk_size) then
                Some (HTTP_CLIENT_ERROR_TRUNCATED_BODY, bytes, 0)
              else if limit - read_cursor - chunk_size <? 2 then
                Some (HTTP_CLIENT_ERROR_TRUNCATED_BODY, bytes, 0)
              else
                terminated ← matches bytes (read_cursor + chunk_size) CRLF;
                if negb terminated then Some (HTTP_CLIENT_ERROR_MALFORMED_CHUNKED_BODY, bytes, 0)
                else if framing_exceeded 2 framing_bytes then
                  Some (HTTP_CLIENT_ERROR_CHUNK_METADATA_TOO_LARGE, bytes, 0)
                else
                  bytes ← (if compact then copy_within (Z.to_nat chunk_size) bytes write_cursor read_cursor
                           else Some bytes);
                  walk_chunks fuel' bytes limit compact (read_cursor + chunk_size + 2)
                    (write_cursor + chunk_size) (framing_bytes + 2)
          end
  end.

(** The body of [encoded_length] bytes at [base]; the length is 0 on an error. *)
Definition walk_chunked_body (base : Z) (bytes : list Z) (encoded_length : Z) (compact : bool)
    : option (http_client_error * list Z * Z) :=
  '(error, bytes, decoded_end) ←
    walk_chunks (S (Z.to_nat encoded_length)) bytes (base + encoded_length) compact base base 0;
  Some (error, bytes, if bool_decide (error = HTTP_CLIENT_ERROR_NONE) then decoded_end - base else 0).

(** The decoded length returned on an error is the [0] of the cleared response. *)
Definition decode_chunked_body (base : Z) (bytes : list Z) (encoded_length : Z)
    : option (http_client_error * list Z * Z) :=
  '(error, _, validated_length) ← walk_chunked_body base bytes encoded_length false;
  if negb (bool_decide (error = HTTP_CLIENT_ERROR_NONE)) then Some (error, bytes, 0)
  else
    '(error, bytes, decoded_length) ← walk_chunked_body base bytes encoded_length true;
    if negb (bool_decide (error = HTTP_CLIENT_ERROR_NONE)) || negb (decoded_length =? validated_length) then
      Some (HTTP_CLIENT_ERROR_MALFORMED_CHUNKED_BODY, bytes, decoded_length)
    else Some (HTTP_CLIENT_ERROR_NONE, bytes, decoded_length).

(** ** The head of a response *)

Definition redirect_status (status_code : Z) : bool :=
  (status_code =? 300) || (status_code =? 301) || (status_code =? 302) || (status_code =? 303) ||
  (status_code =? 307) || (status_code =? 308).

(** The characters of a URI reference from [i] on. *)
Fixpoint uri_characters (fuel : nat) (bytes : list Z) (i limit : Z) : option bool :=
  if i <? limit then
    match fuel with
    | O => None
    | S fuel' =>
        character ← rd bytes i;
        if character =? 37 then
          if limit <=? i + 2 then Some false
          else
            high ← rd bytes (i + 1);
            match hex_digit_value high with
            | None => Some false
            | Some _ =>
                low ← rd bytes (i + 2);
                match hex_digit_value low with
                | None => Some false
                | Some _ => uri_characters fuel' bytes (i + 3) limit
                end
            end
        else if negb (uri_character_allowed character) then Some false
        else uri_characters fuel' bytes (i + 1) limit
    end
  else Some true.

Definition valid_uri_reference (bytes : list Z) (location : option Z) (location_length : Z) : option bool :=
  match location with
  | None => Some false
  | Some start =>
      if location_length =? 0 then Some false
      else uri_characters (S (Z.to_nat location_length)) bytes start (start + location_length)
  end.

(** [c < '0' || c > '9'] of the byte at [i]. *)
Definition digit_at (bytes : list Z) (i : Z) : option bool := b ← rd bytes i; Some (in_range 48 57 b).

(** The conditions on a status line in the order of the source, the first failure deciding. *)
Definition status_line_ok (bytes : list Z) (message_start status_length : Z) : option bool :=
  if status_length <? 12 then Some false
  else
    prefix ← matches bytes message_start (cs "HTTP/1.");
    if negb prefix then Some false
    else
      b ← rd bytes (message_start + 8);
      if negb (b =? 32) then Some false
      else
        d1 ← digit_at bytes (message_start + 9);
        if negb d1 then Some false
        else
          d2 ← digit_at bytes (message_start + 10);
          if negb d2 then Some false
          else
            d3 ← digit_at bytes (message_start + 11);
            if negb d3 then Some false
            else if 12 <? status_length then b ← rd bytes (message_start + 12); Some (b =? 32)
            else Some true.

(** The status line up to [status_end]: the error and the response. *)
Definition parse_status_line (bytes : list Z) (message_start status_end : Z) (response : http_response)
    : option (http_client_error * http_response) :=
  let status_length := status_end - message_start in
  ok ← status_line_ok bytes message_start status_length;
  if negb ok then Some (HTTP_CLIENT_ERROR_MALFORMED_STATUS_LINE, response)
  else
    minor ← rd bytes (message_start + 7);
    if negb (minor =? 48) && negb (minor =? 49) then Some (HTTP_CLIENT_ERROR_UNSUPPORTED_VERSION, response)
    else
      printable ← no_control (Z.to_nat (status_end - (message_start + 13))) bytes (message_start + 13);
      if negb printable then Some (HTTP_CLIENT_ERROR_MALFORMED_STATUS_LINE, response)
      else
        h ← rd bytes (message_start + 9);
        t ← rd bytes (message_start + 10);
        u ← rd bytes (message_start + 11);
        let code := (h - 48) * 100 + (t - 48) * 10 + (u - 48) in
        let response := set_status (minor - 48) code response in
        if (code <? 100) || (599 <? code) then Some (HTTP_CLIENT_ERROR_MALFORMED_STATUS_LINE, response)
        else
          Some (HTTP_CLIENT_ERROR_NONE,
                if 12 <? status_length then set_reason (message_start + 13) (status_length - 13) response
                else set_reason status_end (reason_phrase_length response) response).

(** The header lines from [cursor] to [fields_end]. *)
Fixpoint parse_header_lines (fuel : nat) (bytes : list Z) (cursor fields_end : Z) (response : http_response)
    (context : http_parse_context) : option (http_client_error * http_response * http_parse_context) :=
  if cursor <? fields_end then
    match fuel with
    | O => None
    | S fuel' =>
        found ← find_crlf bytes cursor fields_end;
        let line_end := default fields_end found in
        if line_end =? cursor then Some (HTTP_CLIENT_ERROR_MALFORMED_HEADER, response, context)
        else
          '(error, response, context) ← parse_header_line bytes cursor line_end response context;
          if negb (bool_decide (error = HTTP_CLIENT_ERROR_NONE)) then Some (error, response, context)
          else
            parse_header_lines fuel' bytes (if line_end =? fields_end then fields_end else line_end + 2)
              fields_end response context
    end
  else Some (HTTP_CLIENT_ERROR_NONE, response, context).

(** The last checks of the head. *)
Definition check_framing (bytes : list Z) (response : http_response) (context : http_parse_context)
    : option (http_client_error * http_response) :=
  if has_transfer_encoding response && has_content_length response then
    Some (HTTP_CLIENT_ERROR_CONFLICTING_FRAMING, response)
  else if unsupported_transfer_coding context then
    Some (HTTP_CLIENT_ERROR_UNSUPPORTED_TRANSFER_ENCODING, response)
  else
    let response := set_chunked_transfer (chunked_seen context) response in
    if redirect_status (status_code response) && has_location response then
      valid ← valid_uri_reference bytes (location response) (location_length response);
      Some (if (valid : bool) then HTTP_CLIENT_ERROR_NONE else HTTP_CLIENT_ERROR_INVALID_REDIRECT_LOCATION, response)
    else Some (HTTP_CLIENT_ERROR_NONE, response).

(** The error, the response and [*out_body_start]. *)
Definition parse_response_head (bytes : list Z) (response_length message_start header_limit : Z)
    (response : http_response) (out_body_start : Z) : option (http_client_error * http_response * Z) :=
  let large := HTTP_CLIENT_MAX_HEADER_BYTES <=? response_length in
  if (response_length <=? message_start) || (header_limit <=? message_start) then
    Some (if large then HTTP_CLIENT_ERROR_HEADER_TOO_LARGE else HTTP_CLIENT_ERROR_MALFORMED_STATUS_LINE,
          response, out_body_start)
  else
    found ← find_crlf bytes message_start header_limit;
    match found with
    | None =>
        Some (if large then HTTP_CLIENT_ERROR_HEADER_TOO_LARGE else HTTP_CLIENT_ERROR_MALFORMED_STATUS_LINE,
              response, out_body_start)
    | Some status_end =>
        '(error, response) ← parse_status_line bytes message_start status_end response;
        if negb (bool_decide (error = HTTP_CLIENT_ERROR_NONE)) then Some (error, response, out_body_start)
        else
          found ← find_header_separator bytes status_end header_limit;
          match found with
          | None =>
              Some (if large then HTTP_CLIENT_ERROR_HEADER_TOO_LARGE else HTTP_CLIENT_ERROR_MALFORMED_HEADER,
                    response, out_body_start)
          | Some separator =>
              let body_start := separator + 4 in
              if response_length <? body_start then
                Some (HTTP_CLIENT_ERROR_MALFORMED_HEADER, response, body_start)
              else
                let fields_start := status_end + 2 in
                let fields_end := if separator <? fields_start then fields_start else separator in
                let response := set_fields fields_start (fields_end - fields_start) response in
                '(error, response, context) ←
                  parse_header_lines (S (Z.to_nat (fields_end - fields_start))) bytes fields_start fields_end
                    response empty_context;
                if negb (bool_decide (error = HTTP_CLIENT_ERROR_NONE)) then Some (error, response, body_start)
                else
                  '(error, response) ← check_framing bytes response context;
                  Some (error, response, body_start)
          end
    end.

(** ** Whole responses *)

Definition header_limit_of (response_length : Z) : Z :=
  if response_length <? HTTP_CLIENT_MAX_HEADER_BYTES then response_length else HTTP_CLIENT_MAX_HEADER_BYTES.

(** The heads from [message_start] on, informational ones skipped, up to the final one. *)
Fixpoint parse_heads (fuel : nat) (bytes : list Z) (response_length message_start body_start informational_count : Z)
    : option (http_client_error * http_response * Z) :=
  match fuel with
  | O => None
  | S fuel' =>
      '(error, response, body_start) ←
        parse_response_head bytes response_length message_start (header_limit_of response_length) clear_response
          body_start;
      if negb (bool_decide (error = HTTP_CLIENT_ERROR_NONE)) then Some (error, response, body_start)
      else if 200 <=? status_code response then Some (HTTP_CLIENT_ERROR_NONE, response, body_start)
      else if status_code response =? 101 then
        Some (HTTP_CLIENT_ERROR_UNSUPPORTED_PROTOCOL_SWITCH, response, body_start)
      else if has_content_length response || has_transfer_encoding response then
        Some (HTTP_CLIENT_ERROR_INVALID_INFORMATIONAL_FRAMING, response, body_start)
      else
        let informational_count := informational_count + 1 in
        if HTTP_CLIENT_MAX_INFORMATIONAL_RESPONSES <? informational_count then
          Some (HTTP_CLIENT_ERROR_TOO_MANY_INFORMATIONAL_RESPONSES, response, body_start)
        else if response_length <=? body_start then
          Some (HTTP_CLIENT_ERROR_INFORMATIONAL_RESPONSE_WITHOUT_FINAL, response, body_start)
        else parse_heads fuel' bytes response_length body_start body_start informational_count
  end.

(** At most eight informational heads, then one more. *)
Definition HEADS_FUEL : nat := 10.

(** The body of the final response: the error, the buffer and the response. *)
Definition parse_body (bytes : list Z) (response_length body_start : Z) (response : http_response)
    : option (http_client_error * list Z * http_response) :=
  let response := set_body body_start response in
  let available_body := response_length - body_start in
  if (status_code response =? 204) || (status_code response =? 304) then
    if negb (available_body =? 0) then Some (HTTP_CLIENT_ERROR_UNEXPECTED_EXTRA_DATA, bytes, response)
    else Some (HTTP_CLIENT_ERROR_NONE, bytes, set_body_length 0 response)
  else if chunked_transfer response then
    '(error, bytes, decoded) ← decode_chunked_body body_start bytes available_body;
    Some (error, bytes, set_body_length decoded response)
  else if has_content_length response then
    if available_body <? content_length response then Some (HTTP_CLIENT_ERROR_TRUNCATED_BODY, bytes, response)
    else if content_length response <? available_body then
      Some (HTTP_CLIENT_ERROR_UNEXPECTED_EXTRA_DATA, bytes, response)
    else Some (HTTP_CLIENT_ERROR_NONE, bytes, set_body_length (content_length response) response)
  else Some (HTTP_CLIENT_ERROR_NONE, bytes, set_body_length available_body response).

(** [response_bytes]: [None] is NULL; the response is not NULL. *)
Definition http_client_parse_response (response_bytes : option (list Z)) (response_length : Z)
    : option (http_client_error * option (list Z) * http_response) :=
  match response_bytes with
  | None => Some (HTTP_CLIENT_ERROR_INVALID_ARGUMENT, None, clear_response)
  | Some bytes =>
      if response_length =? 0 then Some (HTTP_CLIENT_ERROR_INVALID_ARGUMENT, Some bytes, clear_response)
      else
        '(error, response, body_start) ← parse_heads HEADS_FUEL bytes response_length 0 0 0;
        if negb (bool_decide (error = HTTP_CLIENT_ERROR_NONE)) then Some (error, Some bytes, response)
        else
          '(error, bytes, response) ← parse_body bytes response_length body_start response;
          Some (error, Some bytes, response)
  end.

Definition http_client_response_body_progress (response_bytes : option (list Z)) (response_length body_capacity : Z)
    : option Z :=
  match response_bytes with
  | None => Some 0
  | Some bytes =>
      if (response_length =? 0) || (body_capacity =? 0) then Some 0
      else
        '(error, response, body_start) ← parse_heads HEADS_FUEL bytes response_length 0 0 0;
        if negb (bool_decide (error = HTTP_CLIENT_ERROR_NONE)) then Some 0
        else if chunked_transfer response || (status_code response =? 204) || (status_code response =? 304) ||
                (response_length <? body_start) then Some 0
        else
          let progress := response_length - body_start in
          let progress :=
            if has_content_length response && (content_length response <? progress) then content_length response
            else progress in
          Some (if body_capacity <? progress then body_capacity else progress)
  end.
