(* ===== verification/HttpClient.v ===== *)
(** * kernel/http_client.c: requests, queries of a response, and the whole exchange *)

From S2P Require Import Prelude TcpState TcpClient HttpText HttpParse.

(** ** Building the request *)

(** The buffer and the length after appending; the boolean is [false] when there is no room. *)
Definition append_bytes (output : list Z) (capacity length : Z) (bytes : list Z) : option (bool * list Z * Z) :=
  let byte_count := Z.of_nat (List.length bytes) in
  if (capacity <? length) || (capacity - length <? byte_count) then Some (false, output, length)
  else
    output ← copy_checked output bytes length 0 byte_count;
    Some (true, output, length + byte_count).

(** The texts appended one after the other, up to the first that does not fit. *)
Fixpoint append_texts (output : list Z) (capacity length : Z) (texts : list (list Z)) : option (bool * list Z * Z) :=
  match texts with
  | [] => Some (true, output, length)
  | text :: texts =>
      '(ok, output, length) ← append_bytes output capacity length text;
      if (ok : bool) then append_texts output capacity length texts else Some (false, output, length)
  end.

Definition visible (c : Z) : bool := negb ((c <=? 32) || (0x7F <=? c)).

Definition valid_host (host : option (list Z)) : bool :=
  match host with
  | None => false
  | Some h =>
      match cstr h with
      | [] => false
      | text => forallb (fun c => visible c && negb (c =? 47)) text
      end
  end.

Definition valid_path (path : option (list Z)) : bool :=
  match path with
  | None => false
  | Some p => match cstr p with c :: rest => (c =? 47) && forallb visible (c :: rest) | [] => false end
  end.

Definition request_prefix : list Z := cs "GET ".
Definition host_prefix : list Z := cs " HTTP/1.1" ++ CRLF ++ cs "Host: ".
Definition request_suffix : list Z :=
  CRLF ++ cs "Connection: close" ++ CRLF ++ cs "User-Agent: Nostalux/1.0" ++ CRLF ++ cs "Accept: */*" ++ CRLF ++ CRLF.

(** [request_length_given]: the pointer for the length is not NULL.  The error, the buffer and the length. *)
Definition http_client_build_get (host path : option (list Z)) (request_buffer : option (list Z))
    (request_capacity : Z) (request_length_given : bool)
    : option (http_client_error * option (list Z) * Z) :=
  match request_buffer with
  | None => Some (HTTP_CLIENT_ERROR_INVALID_ARGUMENT, None, 0)
  | Some output =>
      if negb request_length_given then Some (HTTP_CLIENT_ERROR_INVALID_ARGUMENT, Some output, 0)
      else if negb (valid_host host) then Some (HTTP_CLIENT_ERROR_INVALID_HOST, Some output, 0)
      else if negb (valid_path path) then Some (HTTP_CLIENT_ERROR_INVALID_PATH, Some output, 0)
      else
        '(ok, output, length) ← append_texts output request_capacity 0
          [request_prefix; cstr (default [] path); host_prefix; cstr (default [] host); request_suffix];
        if negb ok then Some (HTTP_CLIENT_ERROR_REQUEST_TOO_LARGE, Some output, 0)
        else
          output ← (if length <? request_capacity then wr output length 0 else Some output);
          Some (HTTP_CLIENT_ERROR_NONE, Some output, length)
  end.

(** ** Queries of a response *)

(** The end of the line at [cursor]: its CRLF or the end of the fields. *)
Fixpoint field_line_end (n : nat) (bytes : list Z) (line_end fields_end : Z) : option Z :=
  match n with
  | O => Some line_end
  | S n' =>
      at_crlf ← (if line_end + 1 <? fields_end then matches bytes line_end CRLF else Some false);
      if (at_crlf : bool) then Some line_end else field_line_end n' bytes (line_end + 1) fields_end
  end.

(** The line with the given name from [cursor] on: the start and the length of its value. *)
Fixpoint find_field (fuel : nat) (bytes : list Z) (cursor fields_end : Z) (name : list Z)
    : option (option (Z * Z)) :=
  if cursor <? fields_end then
    match fuel with
    | O => None
    | S fuel' =>
        line_end ← field_line_end (Z.to_nat (fields_end - cursor)) bytes cursor fields_end;
        colon ← scan_to (fun c => negb (c =? 58)) bytes cursor line_end;
        equal ← (if colon - cursor =? Z.of_nat (length name)
                 then span_equals_text_ignore_case bytes cursor (cursor + Z.of_nat (length name)) name
                 else Some false);
        if (equal : bool) then
          start ← scan_to is_space bytes (colon + 1) line_end;
          stop ← scan_back_to is_space bytes line_end start;
          Some (Some (start, u64 (stop - start)))
        else
          find_field fuel' bytes (if line_end + 1 <? fields_end then line_end + 2 else line_end) fields_end name
    end
  else Some None.

(** The pointers for the results are not NULL. *)
Definition http_response_find_header (bytes : list Z) (response : option http_response) (name : option (list Z))
    : option (option (Z * Z)) :=
  match response, name with
  | Some r, Some n =>
      match cstr n with
      | [] => Some None
      | text =>
          match header_fields r with
          | None => if header_fields_length r =? 0 then Some None else None
          | Some start =>
              find_field (S (Z.to_nat (header_fields_length r))) bytes start (start + header_fields_length r) text
          end
      end
  | _, _ => Some None
  end.

Definition http_response_is_redirect (response : option http_response) : bool :=
  match response with Some r => redirect_status (status_code r) | None => false end.

(** The location and its length; the pointers for them are not NULL. *)
Definition http_response_redirect_location (bytes : list Z) (response : option http_response)
    : option (option (option Z * Z)) :=
  match response with
  | None => Some None
  | Some r =>
      if negb (http_response_is_redirect response) || negb (has_location r) then Some None
      else
        valid ← valid_uri_reference bytes (location r) (location_length r);
        Some (if (valid : bool) then Some (location r, location_length r) else None)
  end.

(** The error, the destination and the length; [location_length] is not NULL. *)
Definition http_response_copy_redirect_location (bytes : list Z) (response : option http_response)
    (destination : option (list Z)) (destination_capacity : Z)
    : option (http_client_error * option (list Z) * Z) :=
  destination ← (match destination with
                 | Some d => if destination_capacity =? 0 then Some (Some d)
                             else d ← wr d 0 0; Some (Some d)
                 | None => Some None
                 end);
  match response, destination with
  | Some r, Some d =>
      if destination_capacity =? 0 then Some (HTTP_CLIENT_ERROR_INVALID_ARGUMENT, Some d, 0)
      else if negb (http_response_is_redirect response) || negb (has_location r) then
        Some (HTTP_CLIENT_ERROR_REDIRECT_LOCATION_MISSING, Some d, 0)
      else
        valid ← valid_uri_reference bytes (location r) (location_length r);
        if negb valid then Some (HTTP_CLIENT_ERROR_INVALID_REDIRECT_LOCATION, Some d, 0)
        else
          found ← http_response_redirect_location bytes response;
          match found with
          | None => Some (HTTP_CLIENT_ERROR_INVALID_REDIRECT_LOCATION, Some d, 0)
          | Some (start, length) =>
              if destination_capacity <=? length then
                Some (HTTP_CLIENT_ERROR_REDIRECT_LOCATION_TOO_LARGE, Some d, 0)
              else
                start ← start;
                d ← copy_checked d bytes 0 start length;
                d ← wr d length 0;
                Some (HTTP_CLIENT_ERROR_NONE, Some d, length)
          end
  | _, _ => Some (HTTP_CLIENT_ERROR_INVALID_ARGUMENT, destination, 0)
  end.

Definition http_client_error_string (e : http_client_error) : string :=
  match e with
  | HTTP_CLIENT_ERROR_NONE => "no error"
  | HTTP_CLIENT_ERROR_INVALID_ARGUMENT => "invalid HTTP client argument"
  | HTTP_CLIENT_ERROR_INVALID_HOST => "invalid HTTP host"
  | HTTP_CLIENT_ERROR_INVALID_PATH => "invalid HTTP path"
  | HTTP_CLIENT_ERROR_REQUEST_TOO_LARGE => "HTTP request buffer is too small"
  | HTTP_CLIENT_ERROR_TCP => "TCP operation failed"
  | HTTP_CLIENT_ERROR_HEADER_TOO_LARGE => "HTTP response headers are too large"
  | HTTP_CLIENT_ERROR_MALFORMED_STATUS_LINE => "malformed HTTP status line"
  | HTTP_CLIENT_ERROR_UNSUPPORTED_VERSION => "unsupported HTTP version"
  | HTTP_CLIENT_ERROR_MALFORMED_HEADER => "malformed HTTP header"
  | HTTP_CLIENT_ERROR_INVALID_CONTENT_LENGTH => "invalid HTTP Content-Length"
  | HTTP_CLIENT_ERROR_CONFLICTING_FRAMING => "conflicting HTTP message framing"
  | HTTP_CLIENT_ERROR_UNSUPPORTED_TRANSFER_ENCODING => "unsupported HTTP Transfer-Encoding"
  | HTTP_CLIENT_ERROR_MALFORMED_CHUNKED_BODY => "malformed HTTP chunked body"
  | HTTP_CLIENT_ERROR_CHUNK_METADATA_TOO_LARGE => "HTTP chunk metadata is too large"
  | HTTP_CLIENT_ERROR_TRUNCATED_BODY => "HTTP response body is truncated"
  | HTTP_CLIENT_ERROR_UNEXPECTED_EXTRA_DATA => "HTTP response contains unexpected extra data"
  | HTTP_CLIENT_ERROR_REDIRECT_LOCATION_MISSING => "HTTP redirect has no Location"
  | HTTP_CLIENT_ERROR_INVALID_REDIRECT_LOCATION => "HTTP redirect Location is invalid"
  | HTTP_CLIENT_ERROR_REDIRECT_LOCATION_TOO_LARGE => "HTTP redirect Location is too large"
  | HTTP_CLIENT_ERROR_INVALID_INFORMATIONAL_FRAMING => "HTTP informational response has invalid framing"
  | HTTP_CLIENT_ERROR_TOO_MANY_INFORMATIONAL_RESPONSES => "too many HTTP informational responses"
  | HTTP_CLIENT_ERROR_INFORMATIONAL_RESPONSE_WITHOUT_FINAL => "HTTP informational response has no final response"
  | HTTP_CLIENT_ERROR_UNSUPPORTED_PROTOCOL_SWITCH => "HTTP protocol switching is unsupported"
  end%string.

(** ** The whole exchange *)

Section Exchange.
Context {W : Type}.
Variable send_ipv4 : Z -> Z -> list Z -> W -> bool * W.
Variable now_ms : W -> Z * W.
Variable poll : tcp_client -> W -> option (tcp_client * W).

(** [if (!step) return HTTP_CLIENT_ERROR_TCP] *)
Definition tcp_step {A} (step : tcp_client -> W -> option (bool * tcp_client * W)) (tcp : tcp_client) (w : W)
    (failed : tcp_client -> W -> A) (next : tcp_client -> W -> option A) : option A :=
  '(ok, tcp, w) ← step tcp w;
  if (ok : bool) then next tcp w else Some (failed tcp w).

(** The client and the response are not NULL; the result is the error, the response, the client (with
    the receive buffer in which a chunked body is compacted), the request buffer and the world.  [fuel]
    bounds the loops of the blocking TCP operations. *)
Definition http_client_get (fuel : nat) (tcp : tcp_client) (remote_ip remote_port initial_sequence : Z)
    (host path : option (list Z)) (request_buffer : option (list Z)) (request_capacity : Z) (w : W)
    : option (http_client_error * http_response * tcp_client * option (list Z) * W) :=
  '(error, request_buffer, request_length) ←
    http_client_build_get host path request_buffer request_capacity true;
  if negb (bool_decide (error = HTTP_CLIENT_ERROR_NONE)) then
    Some (error, clear_response, tcp, request_buffer, w)
  else
    let failed tcp w := (HTTP_CLIENT_ERROR_TCP, clear_response, tcp, request_buffer, w) in
    tcp_step (tcp_client_connect send_ipv4 now_ms poll fuel remote_ip remote_port initial_sequence) tcp w failed
      (fun tcp w =>
    tcp_step (tcp_client_send send_ipv4 now_ms poll fuel request_buffer request_length) tcp w failed
      (fun tcp w =>
    tcp_step (tcp_client_wait_for_peer_close send_ipv4 now_ms poll fuel) tcp w failed
      (fun tcp w =>
    tcp_step (tcp_client_close send_ipv4 now_ms poll fuel) tcp w failed
      (fun tcp w =>
        '(error, bytes, response) ←
          http_client_parse_response (tcp_client_received_data (Some tcp)) (tcp_client_received_length (Some tcp));
        Some (error, response, set_receive_buffer bytes tcp, request_buffer, w))))).

End Exchange.
