(* ===== verification/HttpSafe.v ===== *)
(** * kernel/http_client.c: every parser returns and stays inside the buffer

    For each function: on a span inside the buffer it returns, and the
    positions it returns are inside the span.

    Then the parsers of the head, with their bounds. *)

From S2P Require Import Prelude HttpText HttpParse.

(** [i .. limit) is a span of the buffer. *)
Definition span (bytes : list Z) (i limit : Z) : Prop := 0 <= i <= limit /\ limit <= Z.of_nat (length bytes).

(** A parser that returns the position behind what it parsed, past [i]. *)
Definition returns_past (i limit : Z) (r : option (option Z)) : Prop :=
  exists o, r = Some o /\ forall j, o = Some j -> i < j <= limit.

Lemma span_rd bytes i limit : span bytes i limit -> i < limit -> exists b, rd bytes i = Some b.
Proof. intros [] ?. apply rd_Some. lia. Qed.

Lemma span_from bytes i j limit : span bytes i limit -> i <= j <= limit -> span bytes j limit.
Proof. unfold span. lia. Qed.

Lemma span_to bytes i j limit : span bytes i limit -> i <= j <= limit -> span bytes i j.
Proof. unfold span. lia. Qed.

(** ** Loops over a span *)

Lemma scan_spec p n bytes i :
  0 <= i -> i + Z.of_nat n <= Z.of_nat (length bytes) ->
  exists j, scan p n bytes i = Some j /\ i <= j <= i + Z.of_nat n /\
    (forall k, i <= k < j -> exists b, rd bytes k = Some b /\ p b = true) /\
    (j < i + Z.of_nat n -> exists b, rd bytes j = Some b /\ p b = false).
Proof.
  revert i. induction n as [|n IH]; intros i Hi Hl; cbn [scan].
  { exists i. split; [done|]. split; [lia|]. split; [intros; lia|lia]. }
  destruct (rd_Some bytes i) as [b E]; [lia|]. rewrite E, some_bind. destruct (p b) eqn:Ep.
  - destruct (IH (i + 1)) as (j & -> & Hj & H1 & H2); [lia..|]. exists j. split; [done|]. split; [lia|]. split.
    + intros k Hk. destruct (Z.eq_dec k i) as [->|]; [by exists b|]. apply H1. lia.
    + intros. apply H2. lia.
  - exists i. split; [done|]. split; [lia|]. split; [intros; lia|]. by exists b.
Qed.

Lemma scan_back_spec p n bytes i :
  0 <= i - Z.of_nat n -> i <= Z.of_nat (length bytes) ->
  exists j, scan_back p n bytes i = Some j /\ i - Z.of_nat n <= j <= i.
Proof.
  revert i. induction n as [|n IH]; intros i Hi Hl; cbn [scan_back]; [exists i; split; [done|lia]|].
  destruct (rd_Some bytes (i - 1)) as [b E]; [lia|]. rewrite E, some_bind. destruct (p b).
  - destruct (IH (i - 1)) as (j & -> & Hj); [lia..|]. exists j. split; [done|lia].
  - exists i. split; [done|lia].
Qed.

Lemma scan_to_total p bytes i limit :
  span bytes i limit -> exists j, scan_to p bytes i limit = Some j /\ i <= j <= limit.
Proof.
  intros [H1 H2]. destruct (scan_spec p (Z.to_nat (limit - i)) bytes i) as (j & E & Hj & _); [lia..|].
  exists j. split; [exact E|lia].
Qed.

Lemma scan_back_to_total p bytes i start :
  span bytes start i -> exists j, scan_back_to p bytes i start = Some j /\ start <= j <= i.
Proof.
  intros [H1 H2]. destruct (scan_back_spec p (Z.to_nat (i - start)) bytes i) as (j & E & Hj); [lia..|].
  exists j. split; [exact E|lia].
Qed.

Lemma matches_total bytes i pattern :
  0 <= i -> i + Z.of_nat (length pattern) <= Z.of_nat (length bytes) -> exists b, matches bytes i pattern = Some b.
Proof.
  revert i. induction pattern as [|c pattern IH]; intros i Hi Hl; cbn [matches length] in *; [by exists true|].
  destruct (rd_Some bytes i) as [b E]; [lia|]. rewrite E, some_bind. destruct (b =? c); [|by exists false].
  apply IH; lia.
Qed.

Lemma find_pattern_total pattern n bytes i :
  0 <= i -> i + Z.of_nat n + Z.of_nat (length pattern) <= Z.of_nat (length bytes) + 1 ->
  exists o, find_pattern pattern n bytes i = Some o /\ forall j, o = Some j -> i <= j < i + Z.of_nat n.
Proof.
  revert i. induction n as [|n IH]; intros i Hi Hl; cbn [find_pattern]; [by exists None|].
  destruct (matches_total bytes i pattern) as [b E]; [lia..|]. rewrite E, some_bind. destruct b.
  - exists (Some i). split; [done|]. intros j [= <-]. lia.
  - destruct (IH (i + 1)) as (o & -> & H); [lia..|]. exists o. split; [done|]. intros j Hj. specialize (H j Hj). lia.
Qed.

Lemma find_crlf_total bytes start limit :
  span bytes start limit ->
  exists o, find_crlf bytes start limit = Some o /\ forall j, o = Some j -> start <= j /\ j + 2 <= limit.
Proof.
  intros [H1 H2]. unfold find_crlf. destruct (Z.lt_ge_cases (limit - 1) start) as [Hlt|Hge].
  { replace (Z.to_nat (limit - 1 - start)) with O by lia. by exists None. }
  destruct (find_pattern_total CRLF (Z.to_nat (limit - 1 - start)) bytes start) as (o & -> & H);
    [lia|unfold CRLF; cbn [length]; lia|].
  exists o. split; [done|]. intros j Hj. specialize (H j Hj). lia.
Qed.

Lemma find_header_separator_total bytes start limit :
  span bytes start limit ->
  exists o, find_header_separator bytes start limit = Some o /\ forall j, o = Some j -> start <= j /\ j + 4 <= limit.
Proof.
  intros [H1 H2]. unfold find_header_separator. destruct (Z.lt_ge_cases (limit - 3) start) as [Hlt|Hge].
  { replace (Z.to_nat (limit - 3 - start)) with O by lia. by exists None. }
  destruct (find_pattern_total (CRLF ++ CRLF) (Z.to_nat (limit - 3 - start)) bytes start) as (o & -> & H);
    [lia|unfold CRLF; cbn [length app]; lia|].
  exists o. split; [done|]. intros j Hj. specialize (H j Hj). lia.
Qed.

Lemma span_equals_total bytes i n text :
  0 <= i -> i + Z.of_nat n <= Z.of_nat (length bytes) -> exists b, span_equals bytes i n text = Some b.
Proof.
  revert i text. induction n as [|n IH]; intros i text Hi Hl; destruct text as [|t text]; cbn [span_equals];
    try (by eexists).
  destruct (rd_Some bytes i) as [b E]; [lia|]. rewrite E, some_bind. destruct (_ =? _); [|by eexists].
  apply IH; lia.
Qed.

Lemma span_equals_text_total bytes start limit text :
  span bytes start limit -> exists b, span_equals_text_ignore_case bytes start limit text = Some b.
Proof. intros []. apply span_equals_total; lia. Qed.

Lemma no_control_total n bytes i :
  0 <= i -> i + Z.of_nat n <= Z.of_nat (length bytes) -> exists b, no_control n bytes i = Some b.
Proof.
  revert i. induction n as [|n IH]; intros i Hi Hl; cbn [no_control]; [by exists true|].
  destruct (rd_Some bytes i) as [b E]; [lia|]. rewrite E, some_bind. destruct (is_control b); [by eexists|].
  apply IH; lia.
Qed.

(** ** Values *)

Lemma content_length_digits_total n bytes i result :
  0 <= i -> i + Z.of_nat n <= Z.of_nat (length bytes) -> exists o, content_length_digits n bytes i result = Some o.
Proof.
  revert i result. induction n as [|n IH]; intros i result Hi Hl; cbn [content_length_digits]; [by eexists|].
  destruct (rd_Some bytes i) as [b E]; [lia|]. rewrite E, some_bind. destruct (negb _); [by eexists|].
  cbv zeta. destruct (_ <? _); [by eexists|]. apply IH; lia.
Qed.

Lemma parse_content_length_total bytes start limit :
  span bytes start limit -> exists o, parse_content_length bytes start limit = Some o.
Proof.
  intros []. unfold parse_content_length. destruct (_ =? _); [by eexists|]. apply content_length_digits_total; lia.
Qed.

Lemma scan_to_stops p bytes i limit j :
  span bytes i limit -> scan_to p bytes i limit = Some j -> j < limit -> exists b, rd bytes j = Some b /\ p b = false.
Proof.
  intros [H1 H2] E Hj. destruct (scan_spec p (Z.to_nat (limit - i)) bytes i) as (j' & E' & _ & _ & H); [lia..|].
  unfold scan_to in E. rewrite E in E'. injection E' as <-. apply H. lia.
Qed.

Lemma scan_to_moves p bytes i limit j b :
  span bytes i limit -> i < limit -> rd bytes i = Some b -> p b = true -> scan_to p bytes i limit = Some j -> i < j.
Proof.
  intros [H1 H2] Hi Hb Hp E. destruct (scan_spec p (Z.to_nat (limit - i)) bytes i) as (j' & E' & Hj & _ & H); [lia..|].
  unfold scan_to in E. rewrite E in E'. injection E' as <-.
  destruct (Z.eq_dec j i) as [->|]; [|lia]. destruct H as (b' & Hb' & Hp'); [lia|]. congruence.
Qed.

Lemma has_token_total fuel bytes cursor limit token :
  span bytes cursor limit -> limit - cursor <= Z.of_nat fuel ->
  exists b, has_token_from fuel bytes cursor limit token = Some b.
Proof.
  revert cursor. induction fuel as [|fuel IH]; intros cursor Hs Hf; cbn [has_token_from];
    (destruct (Z.ltb_spec cursor limit); [|by eexists]); [lia|].
  destruct (scan_to_total (fun c => is_space c || (c =? 44)) bytes cursor limit Hs) as (start & E1 & H1).
  rewrite E1, some_bind. pose proof (span_from _ _ start _ Hs H1) as Hs1.
  destruct (scan_to_total (fun c => negb (c =? 44)) bytes start limit Hs1) as (c2 & E2 & H2). rewrite E2, some_bind.
  destruct (scan_back_to_total is_space bytes c2 start) as (stop & E3 & H3); [by apply (span_to _ _ _ limit)|].
  rewrite E3, some_bind.
  destruct (span_equals_text_total bytes start stop token) as [b E4]; [by apply (span_to _ _ _ limit); [|lia]|].
  rewrite E4, some_bind. destruct b; [by eexists|].
  apply IH; [by apply (span_from _ start)|].
  assert (cursor < c2); [|lia].
  destruct (span_rd bytes cursor limit Hs) as [b Eb]; [lia|].
  destruct (is_space b || (b =? 44)) eqn:Ep.
  - pose proof (scan_to_moves _ _ _ _ _ _ Hs ltac:(lia) Eb Ep E1). lia.
  - destruct (Z.eq_dec start cursor) as [->|]; [|lia].
    apply orb_false_iff in Ep as [_ Ep].
    apply (scan_to_moves (fun c => negb (c =? 44)) bytes cursor limit c2 b Hs1); [lia|exact Eb|by rewrite Ep|exact E2].
Qed.

Lemma span_has_token_total bytes start limit token :
  span bytes start limit -> exists b, span_has_token_ignore_case bytes start limit token = Some b.
Proof. intros H. apply has_token_total; [done|]. unfold span in H. lia. Qed.

(** ** Header lines, tokens, parameters *)

Lemma find_colon_total n bytes colon :
  0 <= colon -> colon + Z.of_nat n <= Z.of_nat (length bytes) ->
  exists o, find_colon n bytes colon = Some o /\ forall j, o = Some j -> colon <= j <= colon + Z.of_nat n.
Proof.
  revert colon. induction n as [|n IH]; intros c Hi Hl; cbn [find_colon].
  { exists (Some c). split; [done|]. intros j [= <-]. lia. }
  destruct (rd_Some bytes c) as [b E]; [lia|]. rewrite E, some_bind. destruct (b =? 58).
  { exists (Some c). split; [done|]. intros j [= <-]. lia. }
  destruct (negb _); [by exists None|]. destruct (IH (c + 1)) as (o & -> & H); [lia..|].
  exists o. split; [done|]. intros j Hj. specialize (H j Hj). lia.
Qed.

(** The parts of a header line are spans of it, the name not empty. *)
Definition view_in (line limit : Z) (v : http_header_view) : Prop :=
  name_start v = line /\ line < name_end v < value_start v /\ value_start v <= value_end v <= limit.

Lemma parse_header_view_total bytes line limit :
  span bytes line limit ->
  exists o, parse_header_view bytes line limit = Some o /\ forall v, o = Some v -> view_in line limit v.
Proof.
  intros Hs. pose proof Hs as [H1 H2]. unfold parse_header_view.
  destruct (find_colon_total (Z.to_nat (limit - line)) bytes line) as (o & -> & Ho); [lia..|]. rewrite some_bind.
  destruct o as [colon|]; [|by exists None]. specialize (Ho colon eq_refl).
  destruct ((colon =? line) || (colon =? limit)) eqn:Ec; [by exists None|].
  apply orb_false_iff in Ec as [Ec1%Z.eqb_neq Ec2%Z.eqb_neq].
  destruct (scan_to_total is_space bytes (colon + 1) limit) as (start & -> & Hst); [unfold span; lia|].
  rewrite some_bind.
  destruct (scan_back_to_total is_space bytes limit start) as (stop & -> & Hsp); [unfold span; lia|]. rewrite some_bind.
  destruct (no_control_total (Z.to_nat (stop - start)) bytes start) as [b ->]; [lia..|]. rewrite some_bind.
  destruct b; cbn [negb]; [|by exists None]. eexists. split; [done|]. intros v [= <-]. unfold view_in. cbn. lia.
Qed.

Lemma parse_token_total bytes cursor limit :
  span bytes cursor limit -> returns_past cursor limit (parse_token bytes cursor limit).
Proof.
  intros Hs. unfold parse_token. destruct (scan_to_total valid_header_name_byte bytes cursor limit Hs) as (j & -> & H).
  rewrite some_bind. eexists. split; [done|]. intros k. destruct (Z.eqb_spec j cursor); [done|]. intros [= <-]. lia.
Qed.

Lemma quoted_string_rest_total fuel bytes cursor limit :
  span bytes cursor limit -> limit - cursor <= Z.of_nat fuel ->
  returns_past cursor limit (quoted_string_rest fuel bytes cursor limit).
Proof.
  revert cursor. induction fuel as [|fuel IH]; intros cursor Hs Hf; cbn [quoted_string_rest];
    (destruct (Z.ltb_spec cursor limit) as [Hc|Hc]; [|by exists None]); [lia|].
  destruct (span_rd bytes cursor limit Hs Hc) as [b ->]. rewrite some_bind.
  assert (Hrec : forall c, cursor < c <= limit -> returns_past cursor limit (quoted_string_rest fuel bytes c limit)).
  { intros c Hlt. destruct (IH c) as (o & -> & H); [by apply (span_from _ cursor); [|lia]|lia|].
    exists o. split; [done|]. intros j Hj. specialize (H j Hj). lia. }
  destruct (b =? 34). { eexists. split; [done|]. intros j [= <-]. lia. }
  destruct (b =? 92).
  - cbv zeta. destruct (Z.leb_spec limit (cursor + 1)); [by exists None|].
    destruct (span_rd bytes (cursor + 1) limit) as [b2 ->]; [by apply (span_from _ cursor); [|lia]|lia|].
    rewrite some_bind. destruct (negb _); [by exists None|]. apply Hrec. lia.
  - destruct (negb _); [by exists None|]. apply Hrec. lia.
Qed.

Lemma parse_quoted_string_total bytes cursor limit :
  span bytes cursor limit -> returns_past cursor limit (parse_quoted_string bytes cursor limit).
Proof.
  intros Hs. unfold parse_quoted_string. destruct (Z.leb_spec limit cursor); [by exists None|].
  destruct (span_rd bytes cursor limit Hs) as [b ->]; [lia|]. rewrite some_bind.
  destruct (negb _); [by exists None|].
  destruct (quoted_string_rest_total (Z.to_nat (limit - cursor)) bytes (cursor + 1) limit) as (o & -> & Ho);
    [by apply (span_from _ cursor); [|lia]|lia|].
  exists o. split; [done|]. intros j Hj. specialize (Ho j Hj). lia.
Qed.

Lemma next_is_total c bytes cursor limit : span bytes cursor limit ->
  exists b, next_is c bytes cursor limit = Some b /\ (b = true -> cursor < limit).
Proof.
  intros Hs. unfold next_is. destruct (Z.ltb_spec cursor limit) as [Hc|]; [|by exists false].
  destruct (span_rd bytes cursor limit Hs Hc) as [b ->]. rewrite some_bind. by eexists.
Qed.

Lemma parse_value_total bytes cursor limit :
  span bytes cursor limit -> returns_past cursor limit (parse_value bytes cursor limit).
Proof.
  intros Hs. unfold parse_value. destruct (next_is_total 34 bytes cursor limit Hs) as (b & -> & _). rewrite some_bind.
  destruct b; [by apply parse_quoted_string_total|by apply parse_token_total].
Qed.

Lemma skip_ows_total bytes cursor limit : span bytes cursor limit ->
  exists j, skip_ows bytes cursor limit = Some j /\ cursor <= j <= limit /\ span bytes j limit.
Proof.
  intros Hs. destruct (scan_to_total is_space bytes cursor limit Hs) as (j & E & H).
  exists j. split; [exact E|]. split; [done|]. by apply (span_from _ cursor).
Qed.

Lemma parse_required_parameter_total bytes cursor limit :
  span bytes cursor limit -> returns_past cursor limit (parse_required_parameter bytes cursor limit).
Proof.
  intros Hs. unfold parse_required_parameter.
  destruct (skip_ows_total bytes cursor limit Hs) as (c1 & -> & H1 & S1). rewrite some_bind.
  destruct (parse_token_total bytes c1 limit S1) as (o & -> & Ho). rewrite some_bind.
  destruct o as [c2|]; [|by exists None]. specialize (Ho c2 eq_refl).
  destruct (skip_ows_total bytes c2 limit) as (c3 & -> & H3 & S3); [by apply (span_from _ c1); [|lia]|].
  rewrite some_bind. destruct (next_is_total 61 bytes c3 limit S3) as (b & -> & Hb). rewrite some_bind.
  destruct b; cbn [negb]; [|by exists None]. specialize (Hb eq_refl).
  destruct (skip_ows_total bytes (c3 + 1) limit) as (c4 & -> & H4 & S4); [by apply (span_from _ c3); [|lia]|].
  rewrite some_bind. destruct (parse_value_total bytes c4 limit S4) as (o & -> & Ho').
  exists o. split; [done|]. intros j Hj. specialize (Ho' j Hj). lia.
Qed.

Lemma parse_parameters_total fuel bytes cursor limit has :
  span bytes cursor limit -> limit - cursor <= Z.of_nat fuel ->
  exists o, parse_parameters fuel bytes cursor limit has = Some o /\
    forall j b, o = Some (j, b) -> cursor <= j <= limit.
Proof.
  revert cursor has. induction fuel as [|fuel IH]; intros cursor has Hs Hf; cbn [parse_parameters];
    (destruct (next_is_total 59 bytes cursor limit Hs) as (b & -> & Hb); rewrite some_bind);
    (destruct b; cbn [negb]; [|eexists; split; [done|]; intros j b [= <- <-]; unfold span in Hs; lia]);
    specialize (Hb eq_refl); [lia|].
  destruct (parse_required_parameter_total bytes (cursor + 1) limit) as (o & -> & Ho);
    [by apply (span_from _ cursor); [|lia]|]. rewrite some_bind.
  destruct o as [c2|]; [|by exists None]. specialize (Ho c2 eq_refl).
  destruct (skip_ows_total bytes c2 limit) as (c3 & -> & H3 & S3); [by apply (span_from _ cursor); [|lia]|].
  rewrite some_bind. destruct (IH c3 true S3) as (o & -> & H); [lia|].
  exists o. split; [done|]. intros j b Hj. specialize (H j b Hj). lia.
Qed.

Lemma parse_codings_total fuel bytes cursor limit context :
  span bytes cursor limit -> limit - cursor < Z.of_nat fuel ->
  exists o, parse_codings fuel bytes cursor limit context = Some o.
Proof.
  revert cursor context. induction fuel as [|fuel IH]; intros cursor context Hs Hf; cbn [parse_codings].
  { unfold span in Hs. lia. }
  destruct (skip_ows_total bytes cursor limit Hs) as (c1 & -> & H1 & S1). rewrite some_bind.
  destruct (parse_token_total bytes c1 limit S1) as (o & -> & Ho). rewrite some_bind.
  destruct o as [c2|]; [|by eexists]. specialize (Ho c2 eq_refl).
  destruct (_ || _); [by eexists|].
  assert (S12 : span bytes c1 c2) by (by apply (span_to _ _ _ limit); [|lia]).
  destruct (span_equals_text_total bytes c1 c2 (cs "chunked") S12) as [b1 ->]. rewrite some_bind.
  destruct (span_equals_text_total bytes c1 c2 (cs "identity") S12) as [b2 ->]. rewrite some_bind.
  destruct (skip_ows_total bytes c2 limit) as (c3 & -> & H3 & S3); [by apply (span_from _ c1); [|lia]|].
  rewrite some_bind.
  destruct (parse_parameters_total (Z.to_nat (limit - c3)) bytes c3 limit false S3) as (o & -> & Ho'); [lia|].
  rewrite some_bind. destruct o as [[c4 has]|]; [|by eexists]. specialize (Ho' c4 has eq_refl).
  destruct (add_coding b1 b2 has context) as [context'|]; [|by eexists].
  destruct (skip_ows_total bytes c4 limit) as (c5 & -> & H5 & S5); [by apply (span_from _ c3); [|lia]|].
  rewrite some_bind. destruct (Z.eqb_spec c5 limit); [by eexists|].
  destruct (span_rd bytes c5 limit S5) as [b ->]; [lia|]. rewrite some_bind. destruct (negb _); [by eexists|].
  destruct (skip_ows_total bytes (c5 + 1) limit) as (c6 & -> & H6 & S6); [by apply (span_from _ c5); [|lia]|].
  rewrite some_bind. destruct (_ =? _); [by eexists|]. apply IH; [done|lia].
Qed.

Lemma parse_transfer_encoding_total bytes start limit context :
  span bytes start limit -> exists o, parse_transfer_encoding bytes start limit context = Some o.
Proof.
  intros Hs. unfold parse_transfer_encoding. destruct (_ =? _); [by eexists|].
  apply parse_codings_total; [done|]. unfold span in Hs. lia.
Qed.

(** * kernel/http_client.c: the head parsers return, with every pointer inside the buffer *)

Lemma header_is_total bytes line limit v name :
  span bytes line limit -> view_in line limit v -> exists b, header_is bytes v name = Some b.
Proof.
  intros [H1 H2] (Hn & Hne & Hv). apply span_equals_text_total. unfold span. lia.
Qed.

Lemma value_span bytes line limit v :
  span bytes line limit -> view_in line limit v -> span bytes (value_start v) (value_end v).
Proof. intros [H1 H2] (Hn & Hne & Hv). unfold span. lia. Qed.

(** A pointer with its length is a span of the first [L] bytes. *)
Definition field_in (L : Z) (start : option Z) (n : Z) : Prop :=
  0 <= n /\ forall p, start = Some p -> 0 <= p /\ p + n <= L.

(** The pointers of the response are inside the buffer and its lengths not negative. *)
Definition response_in (L : Z) (r : http_response) : Prop :=
  field_in L (reason_phrase r) (reason_phrase_length r) /\
  field_in L (header_fields r) (header_fields_length r) /\
  field_in L (body r) (body_length r) /\
  field_in L (location r) (location_length r) /\
  0 <= content_length r.

Lemma field_in_Some L p n : 0 <= p -> 0 <= n -> p + n <= L -> field_in L (Some p) n.
Proof. intros. split; [done|]. by intros ? [= <-]. Qed.

Lemma clear_response_in L : response_in L clear_response.
Proof. split_and!; cbn; try lia; done. Qed.

Create HintDb http.
#[export] Hint Resolve field_in_Some clear_response_in : http.

(** Solves [response_in] of an assignment to a response that is [response_in]. *)
Ltac response_in_tac :=
  repeat match goal with H : response_in _ _ |- _ => destruct H as (? & ? & ? & ? & ?) end;
  split_and!; cbn; try assumption; try (apply field_in_Some; lia); try lia.

(** The status line is that of [r0], and the body length. *)
Definition same_status (r r0 : http_response) : Prop :=
  status_code r = status_code r0 /\ version_major r = version_major r0 /\ version_minor r = version_minor r0 /\
  body_length r = body_length r0.

Lemma same_status_refl r : same_status r r.
Proof. done. Qed.

Lemma same_status_trans a b c : same_status a b -> same_status b c -> same_status a c.
Proof. intros (? & ? & ? & ?) (? & ? & ? & ?). split_and!; congruence. Qed.
#[export] Hint Resolve same_status_refl : http.

(** Exhibits the result of a parser with the easy facts about it. *)
Ltac result_tac :=
  match goal with
  | |- exists _, _ => eexists; result_tac
  | |- _ /\ _ => split; result_tac
  | |- _ => first [reflexivity | assumption | discriminate | by auto with http]
  end.

(** A chunked coding has been seen in a Transfer-Encoding header. *)
Definition coding_ok (r : http_response) (c : http_parse_context) : Prop :=
  chunked_seen c = true -> has_transfer_encoding r = true.

(** ** One header line *)

Lemma content_length_digits_nonneg n bytes i result v :
  0 <= result -> content_length_digits n bytes i result = Some (Some v) -> 0 <= v.
Proof.
  revert i result. induction n as [|n IH]; intros i result Hr; cbn [content_length_digits]; [by intros [= <-]|].
  destruct (rd bytes i) as [b|]; [|done]. rewrite some_bind. destruct (negb _); [done|]. cbv zeta.
  destruct (_ <? _); [done|]. apply IH. pose proof (u64_range (u64 (result * 10) + (b - 48))). unfold u64_ok in *. lia.
Qed.

Lemma parse_content_length_nonneg bytes start limit v :
  parse_content_length bytes start limit = Some (Some v) -> 0 <= v.
Proof. unfold parse_content_length. destruct (_ =? _); [done|]. by apply content_length_digits_nonneg. Qed.

Lemma parse_header_line_total bytes line limit response context L :
  span bytes line limit -> limit <= L -> response_in L response ->
  exists e r c, parse_header_line bytes line limit response context = Some (e, r, c) /\ response_in L r /\
    same_status r response /\ (coding_ok response context -> coding_ok r c).
Proof.
  intros Hs HL Hr. unfold parse_header_line.
  destruct (parse_header_view_total bytes line limit Hs) as (o & -> & Ho). rewrite some_bind.
  destruct o as [v|]; [|result_tac]. specialize (Ho v eq_refl). cbv zeta.
  pose proof (value_span _ _ _ _ Hs Ho) as Hv.
  destruct (header_is_total _ _ _ _ "content-length" Hs Ho) as [b1 ->]. rewrite some_bind. destruct b1.
  { destruct (parse_content_length_total _ _ _ Hv) as [o E]. rewrite E, some_bind.
    destruct o as [n|]; [|result_tac]. destruct (_ && _); [result_tac|].
    apply parse_content_length_nonneg in E. do 3 eexists. split; [done|]. split; [response_in_tac|by split]. }
  destruct (header_is_total _ _ _ _ "transfer-encoding" Hs Ho) as [b2 ->]. rewrite some_bind. destruct b2.
  { destruct (parse_transfer_encoding_total _ _ _ context Hv) as [o ->]. rewrite some_bind.
    destruct o; [|result_tac]. do 3 eexists. split; [done|]. split; [response_in_tac|by split]. }
  destruct (header_is_total _ _ _ _ "connection" Hs Ho) as [b3 ->]. rewrite some_bind.
  assert (Hc : exists b4, (if b3 then span_has_token_ignore_case bytes (value_start v) (value_end v) (cs "close")
                           else Some false) = Some b4).
  { destruct b3; [by apply span_has_token_total|by eauto]. }
  destruct Hc as [b4 ->]. rewrite some_bind. destruct b4.
  { do 3 eexists. split; [done|]. split; [response_in_tac|by split]. }
  destruct (header_is_total _ _ _ _ "location" Hs Ho) as [b5 ->]. rewrite some_bind.
  destruct b5; cbn [negb]; [|result_tac]. destruct (has_location response); [result_tac|].
  do 3 eexists. split; [done|]. split; [|by split]. destruct Ho as (_ & Hne & Hva). destruct Hs. response_in_tac.
Qed.

Lemma parse_header_lines_total fuel bytes cursor fields_end response context L :
  span bytes cursor fields_end -> fields_end <= L -> fields_end - cursor <= Z.of_nat fuel -> response_in L response ->
  exists e r c, parse_header_lines fuel bytes cursor fields_end response context = Some (e, r, c) /\ response_in L r /\
    same_status r response /\ (coding_ok response context -> coding_ok r c).
Proof.
  revert cursor response context. induction fuel as [|fuel IH]; intros cursor response context Hs HL Hf Hr;
    cbn [parse_header_lines]; (destruct (Z.ltb_spec cursor fields_end) as [Hlt|]; [|result_tac]); [lia|].
  destruct (find_crlf_total _ _ _ Hs) as (o & -> & Ho). rewrite some_bind. cbv zeta.
  assert (Hle : cursor <= default fields_end o <= fields_end /\
                (default fields_end o <> fields_end -> default fields_end o + 2 <= fields_end)).
  { destruct o as [j|]; cbn; [specialize (Ho j eq_refl)|]; lia. }
  generalize dependent (default fields_end o). intros line_end Hle. destruct (Z.eqb_spec line_end cursor); [result_tac|].
  destruct (parse_header_line_total bytes cursor line_end response context L) as (e & r & c & -> & Hr' & Hst & Hc);
    [apply (span_to _ _ _ fields_end); [done|lia]|lia|done|]. rewrite some_bind.
  destruct (negb _); [result_tac|].
  destruct (IH (if line_end =? fields_end then fields_end else line_end + 2) r c) as (e' & r' & c' & -> & H1 & H2 & H3);
    [apply (span_from _ cursor); [done|]; destruct (Z.eqb_spec line_end fields_end); lia|done
    |destruct (Z.eqb_spec line_end fields_end); lia|done|].
  do 3 eexists. split; [done|]. split; [exact H1|]. split; [by apply (same_status_trans _ r)|]. auto.
Qed.

(** ** The head *)

Lemma status_line_ok_total bytes start stop :
  span bytes start stop -> exists b, status_line_ok bytes start (stop - start) = Some b /\
    (b = true -> start + 12 <= stop).
Proof.
  intros [H1 H2]. unfold status_line_ok. destruct (Z.ltb_spec (stop - start) 12); [by exists false|].
  assert (Hrd : forall k, 0 <= k < 12 -> exists b, rd bytes (start + k) = Some b) by (intros; apply rd_Some; lia).
  destruct (matches_total bytes start (cs "HTTP/1.")) as [p ->]; [lia|cbn; lia|]. rewrite some_bind.
  destruct p; cbn [negb]; [|by exists false].
  destruct (Hrd 8) as [b ->]; [lia|]. rewrite some_bind. destruct (b =? 32); cbn [negb]; [|by exists false].
  assert (Hd : forall k, 0 <= k < 12 -> exists d, digit_at bytes (start + k) = Some d).
  { intros k Hk. unfold digit_at. destruct (Hrd k Hk) as [c ->]. rewrite some_bind. by eexists. }
  destruct (Hd 9) as [d1 ->]; [lia|]. rewrite some_bind. destruct d1; cbn [negb]; [|by exists false].
  destruct (Hd 10) as [d2 ->]; [lia|]. rewrite some_bind. destruct d2; cbn [negb]; [|by exists false].
  destruct (Hd 11) as [d3 ->]; [lia|]. rewrite some_bind. destruct d3; cbn [negb]; [|by exists false].
  destruct (Z.ltb_spec 12 (stop - start)); [|exists true; split; [done|lia]].
  destruct (rd_Some bytes (start + 12)) as [b12 ->]; [lia|]. rewrite some_bind. eexists. split; [done|lia].
Qed.

Lemma parse_status_line_total bytes start stop response L :
  span bytes start stop -> stop <= L -> response_in L response -> reason_phrase_length response = 0 ->
  exists e r, parse_status_line bytes start stop response = Some (e, r) /\ response_in L r /\
    body_length r = body_length response /\
    (e = HTTP_CLIENT_ERROR_NONE -> 100 <= status_code r <= 599 /\ version_major r = 1 /\ 0 <= version_minor r <= 1).
Proof.
  intros Hs HL Hr Hrl. pose proof Hs as [H1 H2]. unfold parse_status_line. cbv zeta.
  destruct (status_line_ok_total bytes start stop Hs) as (b & -> & Hb). rewrite some_bind.
  destruct b; cbn [negb]; [|result_tac]. specialize (Hb eq_refl).
  assert (Hrd : forall k, 0 <= k < 12 -> exists b, rd bytes (start + k) = Some b) by (intros; apply rd_Some; lia).
  destruct (Hrd 7) as [m ->]; [lia|]. rewrite some_bind.
  destruct (negb (m =? 48) && negb (m =? 49)) eqn:Em; [result_tac|].
  assert (Hm : m = 48 \/ m = 49).
  { destruct (Z.eqb_spec m 48); [by left|]. destruct (Z.eqb_spec m 49); [by right|done]. }
  destruct (Z.le_gt_cases (start + 13) stop) as [H13|H13].
  2: { replace (Z.to_nat (stop - (start + 13))) with O by lia. cbn [no_control]. rewrite some_bind. cbn [negb].
    destruct (Hrd 9) as [h ->]; [lia|]. destruct (Hrd 10) as [t ->]; [lia|]. destruct (Hrd 11) as [u ->]; [lia|].
    rewrite !some_bind. destruct (_ || _) eqn:Ec.
    { do 2 eexists. split; [done|]. split; [response_in_tac|]. by split. }
    apply orb_false_iff in Ec as [Ec1%Z.ltb_ge Ec2%Z.ltb_ge].
    do 2 eexists. split; [done|]. rewrite (proj2 (Z.ltb_ge _ _)) by lia.
    split; [response_in_tac; rewrite Hrl; apply field_in_Some; lia|]. split; [done|]. intros _. cbn. lia. }
  destruct (no_control_total (Z.to_nat (stop - (start + 13))) bytes (start + 13)) as [p ->]; [lia..|].
  rewrite some_bind. destruct p; cbn [negb]; [|result_tac].
  destruct (Hrd 9) as [h ->]; [lia|]. destruct (Hrd 10) as [t ->]; [lia|]. destruct (Hrd 11) as [u ->]; [lia|].
  rewrite !some_bind. destruct (_ || _) eqn:Ec.
  { do 2 eexists. split; [done|]. split; [response_in_tac|]. by split. }
  apply orb_false_iff in Ec as [Ec1%Z.ltb_ge Ec2%Z.ltb_ge].
  do 2 eexists. split; [done|]. rewrite (proj2 (Z.ltb_lt _ _)) by lia.
  split; [response_in_tac|]. split; [done|]. intros _. cbn. lia.
Qed.

Lemma uri_characters_total fuel bytes i limit :
  span bytes i limit \/ limit <= i -> limit - i <= Z.of_nat fuel -> exists b, uri_characters fuel bytes i limit = Some b.
Proof.
  revert i. induction fuel as [|fuel IH]; intros i Hs Hf; cbn [uri_characters];
    (destruct (Z.ltb_spec i limit) as [Hi|]; [|by eauto]); [lia|].
  destruct Hs as [[H1 H2]|]; [|lia].
  destruct (rd_Some bytes i) as [c ->]; [lia|]. rewrite some_bind. destruct (c =? 37).
  - destruct (Z.leb_spec limit (i + 2)); [by eauto|].
    destruct (rd_Some bytes (i + 1)) as [h ->]; [lia|]. rewrite some_bind. destruct (hex_digit_value h); [|by eauto].
    destruct (rd_Some bytes (i + 2)) as [l ->]; [lia|]. rewrite some_bind. destruct (hex_digit_value l); [|by eauto].
    apply IH; [|lia]. left. unfold span. lia.
  - destruct (negb _); [by eauto|]. apply IH; [|lia]. left. unfold span. lia.
Qed.

Lemma valid_uri_reference_total bytes start n L :
  field_in L start n -> L <= Z.of_nat (length bytes) -> exists b, valid_uri_reference bytes start n = Some b.
Proof.
  intros [Hn Hp] HL. unfold valid_uri_reference. destruct start as [p|]; [|by eauto]. specialize (Hp p eq_refl).
  destruct (_ =? _); [by eauto|]. apply uri_characters_total; [left; unfold span; lia|lia].
Qed.

(** What the head leaves to the body. *)
Definition framing_ok (r : http_response) : Prop :=
  ~ (has_transfer_encoding r = true /\ has_content_length r = true) /\
  (chunked_transfer r = true -> has_transfer_encoding r = true).

Lemma check_framing_total bytes response context L :
  response_in L response -> L <= Z.of_nat (length bytes) -> coding_ok response context ->
  exists e r, check_framing bytes response context = Some (e, r) /\ response_in L r /\
    same_status r response /\
    (e = HTTP_CLIENT_ERROR_NONE -> framing_ok r).
Proof.
  intros Hr HL Hc. unfold check_framing.
  destruct (has_transfer_encoding response && has_content_length response) eqn:Ef.
  { result_tac. }
  destruct (unsupported_transfer_coding context). { result_tac. }
  assert (Hok : framing_ok (set_chunked_transfer (chunked_seen context) response)).
  { split; [|exact Hc]. cbn. intros [E1 E2]. by rewrite E1, E2 in Ef. }
  assert (Hin : response_in L (set_chunked_transfer (chunked_seen context) response)) by response_in_tac.
  cbv zeta. clear Ef. destruct (_ && _).
  - destruct (valid_uri_reference_total bytes (location response) (location_length response) L) as [b E];
      [by destruct Hr as (_ & _ & _ & ? & _)|done|]. cbn [location location_length set_chunked_transfer]. rewrite E, some_bind.
    do 2 eexists. split; [done|]. split; [exact Hin|]. by split; [repeat split|].
  - do 2 eexists. split; [done|]. split; [exact Hin|]. by split; [repeat split|].
Qed.

(** What a head that is accepted promises. *)
Definition head_ok (r : http_response) : Prop :=
  version_major r = 1 /\ 0 <= version_minor r <= 1 /\ 100 <= status_code r <= 599 /\ framing_ok r.

Lemma parse_response_head_total bytes L start limit out_body_start :
  0 <= start -> 0 <= L <= Z.of_nat (length bytes) -> limit <= L ->
  exists e r s, parse_response_head bytes L start limit clear_response out_body_start = Some (e, r, s) /\
    response_in L r /\ body_length r = 0 /\
    (e = HTTP_CLIENT_ERROR_NONE -> start < s <= L /\ head_ok r).
Proof.
  intros Hstart HL Hlim. unfold parse_response_head. cbv zeta.
  destruct ((L <=? start) || (limit <=? start)) eqn:E0; [destruct (_ <=? L); result_tac|].
  apply orb_false_iff in E0 as [E1%Z.leb_gt E2%Z.leb_gt].
  destruct (find_crlf_total bytes start limit) as (o & -> & Ho); [unfold span; lia|]. rewrite some_bind.
  destruct o as [status_end|]; [|destruct (_ <=? L); result_tac]. specialize (Ho status_end eq_refl).
  destruct (parse_status_line_total bytes start status_end clear_response L) as (e & r & -> & Hr & Hbl & Hok);
    [unfold span; lia|lia|apply clear_response_in|done|]. rewrite some_bind.
  destruct (bool_decide_reflect (e = HTTP_CLIENT_ERROR_NONE)) as [->|Hne]; cbn [negb]; [|result_tac].
  specialize (Hok eq_refl).
  destruct (find_header_separator_total bytes status_end limit) as (o & -> & Ho'); [unfold span; lia|].
  rewrite some_bind. destruct o as [sep|]; [|destruct (_ <=? L); result_tac]. specialize (Ho' sep eq_refl).
  destruct (Z.ltb_spec L (sep + 4)); [result_tac|].
  assert (Hfe : exists fe, (if sep <? status_end + 2 then status_end + 2 else sep) = fe /\ status_end + 2 <= fe <= L).
  { eexists. split; [done|]. destruct (Z.ltb_spec sep (status_end + 2)); lia. }
  destruct Hfe as (fe & -> & Hfe).
  destruct (parse_header_lines_total (S (Z.to_nat (fe - (status_end + 2)))) bytes (status_end + 2) fe
    (set_fields (status_end + 2) (fe - (status_end + 2)) r) empty_context L) as (e2 & r2 & c2 & -> & Hr2 & Hs2 & Hc2);
    [unfold span; lia|lia|lia|response_in_tac|]. rewrite some_bind.
  assert (Hs3 : same_status r2 r) by exact Hs2.
  assert (Hb2 : body_length r2 = 0) by (destruct Hs3 as (_ & _ & _ & ->); exact Hbl).
  destruct (bool_decide_reflect (e2 = HTTP_CLIENT_ERROR_NONE)) as [->|Hne]; cbn [negb]; [|result_tac].
  destruct (check_framing_total bytes r2 c2 L Hr2) as (e3 & r3 & -> & Hr3 & (Hs & Hma & Hmi & Hb) & Hf); [lia|by apply Hc2|].
  rewrite some_bind. do 3 eexists. split; [done|]. split; [done|]. split; [congruence|]. intros ->.
  split; [lia|]. specialize (Hf eq_refl). destruct Hs3 as (Hs' & Hma' & Hmi' & _). unfold head_ok.
  rewrite Hs, Hma, Hmi, Hs', Hma', Hmi'. tauto.
Qed.

(** ** All the heads *)

Lemma header_limit_of_le L : header_limit_of L <= L.
Proof. unfold header_limit_of, HTTP_CLIENT_MAX_HEADER_BYTES. destruct (Z.ltb_spec L 8192); lia. Qed.

(** At most eight informational heads are skipped, then the walk ends. *)
Lemma parse_heads_total fuel bytes L start body_start count :
  0 <= start -> 0 <= L <= Z.of_nat (length bytes) -> 0 <= count <= 8 -> 10 <= Z.of_nat fuel + count ->
  exists e r s, parse_heads fuel bytes L start body_start count = Some (e, r, s) /\
    response_in L r /\ body_length r = 0 /\
    (e = HTTP_CLIENT_ERROR_NONE -> start < s <= L /\ head_ok r /\ 200 <= status_code r).
Proof.
  revert start body_start count. induction fuel as [|fuel IH]; intros start body_start count Hs HL Hc Hf; [lia|].
  cbn [parse_heads].
  destruct (parse_response_head_total bytes L start (header_limit_of L) body_start Hs HL (header_limit_of_le L))
    as (e & r & s & -> & Hr & Hb & Hok). rewrite some_bind.
  destruct (bool_decide_reflect (e = HTTP_CLIENT_ERROR_NONE)) as [->|Hne]; cbn [negb]; [|result_tac].
  specialize (Hok eq_refl) as [Hs' Hok].
  destruct (Z.leb_spec 200 (status_code r)).
  { do 3 eexists. split; [done|]. by split_and!. }
  destruct (_ =? 101); [result_tac|]. destruct (_ || _); [result_tac|]. cbv zeta.
  unfold HTTP_CLIENT_MAX_INFORMATIONAL_RESPONSES. destruct (Z.ltb_spec 8 (count + 1)); [result_tac|].
  destruct (Z.leb_spec L s); [result_tac|].
  destruct (IH s s (count + 1)) as (e' & r' & s' & -> & Hr' & Hb' & Hok'); [lia..|].
  do 3 eexists. split; [done|]. split; [done|]. split; [done|]. intros E. destruct (Hok' E) as (? & ? & ?).
  split; [lia|]. by split.
Qed.

(** ** Progress *)

(** The body bytes a caller may show early are bytes of the body that have arrived. *)
Lemma body_progress_total bytes L capacity :
  0 <= L <= Z.of_nat (length bytes) -> 0 <= capacity ->
  exists n, http_client_response_body_progress (Some bytes) L capacity = Some n /\ 0 <= n <= capacity /\ n <= L.
Proof.
  intros HL Hc. unfold http_client_response_body_progress.
  destruct (_ || _); [exists 0; split; [done|lia]|].
  destruct (parse_heads_total HEADS_FUEL bytes L 0 0 0) as (e & r & s & -> & Hr & _ & Hok); [lia|lia|lia|done|]. rewrite some_bind.
  destruct (bool_decide_reflect (e = HTTP_CLIENT_ERROR_NONE)) as [->|Hne]; cbn [negb]; [|exists 0; split; [done|lia]].
  specialize (Hok eq_refl) as (Hs & _). destruct (_ || _); [exists 0; split; [done|lia]|]. cbv zeta.
  destruct Hr as (_ & _ & _ & _ & Hcl).
  eexists. split; [done|].
  assert (Hp : forall p b, 0 <= p <= L -> 0 <= (if b && (content_length r <? p) then content_length r else p) <= L).
  { intros p b Hp. destruct b; cbn [andb]; [|lia]. destruct (Z.ltb_spec (content_length r) p); lia. }
  specialize (Hp (L - s) (has_content_length r) ltac:(lia)).
  generalize dependent (if has_content_length r && (content_length r <? L - s) then content_length r else L - s).
  intros p Hp. destruct (Z.ltb_spec capacity p); lia.
Qed.
