(* ===== verification/HttpDecode.v ===== *)
(** * kernel/http_client.c: chunked bodies decoded in place

    The body is walked twice: once to validate it, once more while the chunks
    are moved over the framing in front of them.  The second walk reads a
    buffer the first did not see.  It reads it only from its read cursor on,
    where nothing has been written yet, so it takes the same path.

    Then the decoder as a whole. *)

From S2P Require Import Prelude HttpText HttpParse HttpSafe.

(** The buffers hold the same bytes from [c] on. *)
Definition agree (c : Z) (b1 b2 : list Z) : Prop := forall k, c <= k -> rd b1 k = rd b2 k.

Lemma agree_mono c d b1 b2 : agree c b1 b2 -> c <= d -> agree d b1 b2.
Proof. intros H Hd k Hk. apply H. lia. Qed.

Lemma agree_refl c b : agree c b b.
Proof. by intros k Hk. Qed.

(** Two equal computations that continue equally. *)
Lemma bind_agree {A B} (m1 m2 : option A) (f1 f2 : A -> option B) :
  m1 = m2 -> (forall a, m2 = Some a -> f1 a = f2 a) -> (m1 ≫= f1) = (m2 ≫= f2).
Proof. intros -> H. destruct m2 as [a|]; [|done]. cbn. by apply H. Qed.

(** ** The parsers read from their cursor on *)

Section Agree.
Context (b1 b2 : list Z).

Lemma scan_ge p n b i j : scan p n b i = Some j -> i <= j.
Proof.
  revert i. induction n as [|n IH]; intros i; cbn [scan]; [intros [= <-]; lia|].
  destruct (rd b i) as [c|]; [|done]. rewrite some_bind. destruct (p c); [|intros [= <-]; lia].
  intros H%IH. lia.
Qed.

Lemma scan_agree p n i : agree i b1 b2 -> scan p n b1 i = scan p n b2 i.
Proof.
  revert i. induction n as [|n IH]; intros i H; cbn [scan]; [done|].
  apply bind_agree; [apply H; lia|]. intros c _. destruct (p c); [|done]. apply IH. by apply (agree_mono i); [|lia].
Qed.

Lemma scan_to_agree p i limit : agree i b1 b2 -> scan_to p b1 i limit = scan_to p b2 i limit.
Proof. apply scan_agree. Qed.

Lemma scan_back_agree p n i : agree (i - Z.of_nat n) b1 b2 -> scan_back p n b1 i = scan_back p n b2 i.
Proof.
  revert i. induction n as [|n IH]; intros i H; cbn [scan_back]; [done|].
  apply bind_agree; [apply H; lia|]. intros c _. destruct (p c); [|done]. apply IH.
  apply (agree_mono _ _ _ _ H). lia.
Qed.

Lemma scan_back_to_agree p i start :
  agree start b1 b2 -> start <= i -> scan_back_to p b1 i start = scan_back_to p b2 i start.
Proof. intros H Hi. apply scan_back_agree. apply (agree_mono _ _ _ _ H). lia. Qed.

Lemma matches_agree pattern i : agree i b1 b2 -> matches b1 i pattern = matches b2 i pattern.
Proof.
  revert i. induction pattern as [|c pattern IH]; intros i H; cbn [matches]; [done|].
  apply bind_agree; [apply H; lia|]. intros b _. destruct (b =? c); [|done]. apply IH. by apply (agree_mono i); [|lia].
Qed.

Lemma find_pattern_agree pattern n i : agree i b1 b2 -> find_pattern pattern n b1 i = find_pattern pattern n b2 i.
Proof.
  revert i. induction n as [|n IH]; intros i H; cbn [find_pattern]; [done|].
  apply bind_agree; [by apply matches_agree|]. intros [] _; [done|]. apply IH. by apply (agree_mono i); [|lia].
Qed.

Lemma find_pattern_ge pattern n b i j : find_pattern pattern n b i = Some (Some j) -> i <= j.
Proof.
  revert i. induction n as [|n IH]; intros i; cbn [find_pattern]; [done|].
  destruct (matches b i pattern) as [[]|]; [intros [= <-]; lia| |done]. rewrite some_bind. intros H%IH. lia.
Qed.

Lemma find_crlf_agree i limit : agree i b1 b2 -> find_crlf b1 i limit = find_crlf b2 i limit.
Proof. apply find_pattern_agree. Qed.

Lemma span_equals_agree n text i : agree i b1 b2 -> span_equals b1 i n text = span_equals b2 i n text.
Proof.
  revert i text. induction n as [|n IH]; intros i text H; destruct text; cbn [span_equals]; try done.
  apply bind_agree; [apply H; lia|]. intros b _. destruct (_ =? _); [|done]. apply IH. by apply (agree_mono i); [|lia].
Qed.

Lemma no_control_agree n i : agree i b1 b2 -> no_control n b1 i = no_control n b2 i.
Proof.
  revert i. induction n as [|n IH]; intros i H; cbn [no_control]; [done|].
  apply bind_agree; [apply H; lia|]. intros b _. destruct (is_control b); [done|]. apply IH.
  by apply (agree_mono i); [|lia].
Qed.

Lemma find_colon_agree n i : agree i b1 b2 -> find_colon n b1 i = find_colon n b2 i.
Proof.
  revert i. induction n as [|n IH]; intros i H; cbn [find_colon]; [done|].
  apply bind_agree; [apply H; lia|]. intros b _. destruct (b =? 58); [done|]. destruct (negb _); [done|]. apply IH.
  by apply (agree_mono i); [|lia].
Qed.

Lemma find_colon_ge n b i j : find_colon n b i = Some (Some j) -> i <= j.
Proof.
  revert i. induction n as [|n IH]; intros i; cbn [find_colon]; [intros [= <-]; lia|].
  destruct (rd b i) as [c|]; [|done]. rewrite some_bind. destruct (c =? 58); [intros [= <-]; lia|].
  destruct (negb _); [done|]. intros H%IH. lia.
Qed.

Lemma parse_header_view_agree i limit : agree i b1 b2 -> parse_header_view b1 i limit = parse_header_view b2 i limit.
Proof.
  intros H. unfold parse_header_view. apply bind_agree; [by apply find_colon_agree|]. intros [colon|] E; [|done].
  apply find_colon_ge in E. destruct (_ || _) eqn:Ec; [done|]. apply orb_false_iff in Ec as [_ Ec%Z.eqb_neq].
  assert (H1 : agree (colon + 1) b1 b2) by (apply (agree_mono _ _ _ _ H); lia).
  apply bind_agree; [by apply scan_to_agree|]. intros start Es. pose proof (scan_ge _ _ _ _ _ Es).
  assert (H2 : agree start b1 b2) by (apply (agree_mono _ _ _ _ H); lia).
  destruct (Z.le_gt_cases start limit).
  - apply bind_agree; [by apply scan_back_to_agree|]. intros stop _.
    apply bind_agree; [by apply no_control_agree|]. done.
  - unfold scan_back_to. replace (Z.to_nat (limit - start)) with O by lia. cbn [scan_back]. rewrite !some_bind.
    apply bind_agree; [by apply no_control_agree|]. done.
Qed.

Lemma parse_token_agree i limit : agree i b1 b2 -> parse_token b1 i limit = parse_token b2 i limit.
Proof. intros H. unfold parse_token. by apply bind_agree; [apply scan_to_agree|]. Qed.

Lemma quoted_string_rest_agree fuel i limit :
  agree i b1 b2 -> quoted_string_rest fuel b1 i limit = quoted_string_rest fuel b2 i limit.
Proof.
  revert i. induction fuel as [|fuel IH]; intros i H; cbn [quoted_string_rest]; destruct (i <? limit); try done.
  apply bind_agree; [apply H; lia|]. intros c _. destruct (c =? 34); [done|]. destruct (c =? 92).
  - cbv zeta. destruct (_ <=? _); [done|]. apply bind_agree; [apply H; lia|]. intros d _. destruct (negb _); [done|].
    apply IH, (agree_mono _ _ _ _ H). lia.
  - destruct (negb _); [done|]. apply IH, (agree_mono _ _ _ _ H). lia.
Qed.

Lemma parse_quoted_string_agree i limit :
  agree i b1 b2 -> parse_quoted_string b1 i limit = parse_quoted_string b2 i limit.
Proof.
  intros H. unfold parse_quoted_string. destruct (_ <=? _); [done|]. apply bind_agree; [apply H; lia|].
  intros c _. destruct (negb _); [done|]. apply quoted_string_rest_agree, (agree_mono _ _ _ _ H). lia.
Qed.

Lemma next_is_agree c i limit : agree i b1 b2 -> next_is c b1 i limit = next_is c b2 i limit.
Proof. intros H. unfold next_is. destruct (i <? limit); [|done]. by apply bind_agree; [apply H; lia|]. Qed.

Lemma parse_value_agree i limit : agree i b1 b2 -> parse_value b1 i limit = parse_value b2 i limit.
Proof.
  intros H. unfold parse_value. apply bind_agree; [by apply next_is_agree|].
  intros [] _; [by apply parse_quoted_string_agree|by apply parse_token_agree].
Qed.

Lemma parse_token_ge b i limit j : parse_token b i limit = Some (Some j) -> i <= j.
Proof.
  unfold parse_token. destruct (scan_to _ b i limit) as [k|] eqn:E; [|done]. rewrite some_bind.
  destruct (_ =? _); [done|]. intros [= <-]. by apply scan_ge in E.
Qed.

Lemma quoted_string_rest_ge fuel b i limit j : quoted_string_rest fuel b i limit = Some (Some j) -> i <= j.
Proof.
  revert i. induction fuel as [|fuel IH]; intros i; cbn [quoted_string_rest]; destruct (i <? limit); try done.
  destruct (rd b i) as [c|]; [|done]. rewrite some_bind. destruct (c =? 34); [intros [= <-]; lia|].
  destruct (c =? 92); cbv zeta.
  - destruct (_ <=? _); [done|]. destruct (rd b (i + 1)) as [d|]; [|done]. rewrite some_bind.
    destruct (negb _); [done|]. intros H%IH. lia.
  - destruct (negb _); [done|]. intros H%IH. lia.
Qed.

Lemma parse_value_ge b i limit j : parse_value b i limit = Some (Some j) -> i <= j.
Proof.
  unfold parse_value. destruct (next_is 34 b i limit) as [[]|]; [|by intros ?%parse_token_ge|done].
  rewrite some_bind. unfold parse_quoted_string. destruct (_ <=? _); [done|].
  destruct (rd b i) as [c|]; [|done]. rewrite some_bind. destruct (negb _); [done|].
  intros H%quoted_string_rest_ge. lia.
Qed.

Lemma skip_ows_agree i limit : agree i b1 b2 -> skip_ows b1 i limit = skip_ows b2 i limit.
Proof. apply scan_to_agree. Qed.

Lemma skip_ows_ge b i limit j : skip_ows b i limit = Some j -> i <= j.
Proof. apply scan_ge. Qed.

(** ** Chunk lines *)

Lemma validate_chunk_extensions_agree fuel i limit :
  agree i b1 b2 -> validate_chunk_extensions fuel b1 i limit = validate_chunk_extensions fuel b2 i limit.
Proof.
  revert i. induction fuel as [|fuel IH]; intros i H; cbn [validate_chunk_extensions]; destruct (i <? limit); try done.
  apply bind_agree; [by apply skip_ows_agree|]. intros c1 E1%skip_ows_ge. destruct (_ =? _); [done|].
  apply bind_agree; [apply H; lia|]. intros d _. destruct (negb _); [done|].
  apply bind_agree; [apply skip_ows_agree, (agree_mono _ _ _ _ H); lia|]. intros c2 E2%skip_ows_ge.
  apply bind_agree; [apply parse_token_agree, (agree_mono _ _ _ _ H); lia|]. intros [c3|] E3; [|done].
  apply parse_token_ge in E3.
  apply bind_agree; [apply skip_ows_agree, (agree_mono _ _ _ _ H); lia|]. intros c4 E4%skip_ows_ge.
  apply bind_agree; [apply next_is_agree, (agree_mono _ _ _ _ H); lia|]. intros [] _; cbn [negb].
  2: { apply IH, (agree_mono _ _ _ _ H). lia. }
  apply bind_agree; [apply skip_ows_agree, (agree_mono _ _ _ _ H); lia|]. intros c5 E5%skip_ows_ge.
  apply bind_agree; [apply parse_value_agree, (agree_mono _ _ _ _ H); lia|]. intros [c6|] E6; [|done].
  apply parse_value_ge in E6.
  apply bind_agree; [apply skip_ows_agree, (agree_mono _ _ _ _ H); lia|]. intros c7 E7%skip_ows_ge.
  apply IH, (agree_mono _ _ _ _ H). lia.
Qed.

Lemma chunk_size_digits_agree n i value has :
  agree i b1 b2 -> chunk_size_digits n b1 i value has = chunk_size_digits n b2 i value has.
Proof.
  revert i value has. induction n as [|n IH]; intros i value has H; cbn [chunk_size_digits]; [done|].
  apply bind_agree; [apply H; lia|]. intros c _. destruct (hex_digit_value c); [|done].
  destruct (_ <? _); [done|]. apply IH, (agree_mono _ _ _ _ H). lia.
Qed.

Lemma chunk_size_digits_ge n b i value has v h j :
  chunk_size_digits n b i value has = Some (Some (v, h, j)) -> i <= j.
Proof.
  revert i value has. induction n as [|n IH]; intros i value has; cbn [chunk_size_digits]; [intros [= _ _ <-]; lia|].
  destruct (rd b i) as [c|]; [|done]. rewrite some_bind. destruct (hex_digit_value c); [|intros [= _ _ <-]; lia].
  destruct (_ <? _); [done|]. intros H%IH. lia.
Qed.

Lemma parse_chunk_size_line_agree i limit :
  agree i b1 b2 -> parse_chunk_size_line b1 i limit = parse_chunk_size_line b2 i limit.
Proof.
  intros H. unfold parse_chunk_size_line. apply bind_agree; [by apply chunk_size_digits_agree|].
  intros [[[v h] j]|] E; [|done]. apply chunk_size_digits_ge in E. destruct (negb _); [done|].
  by apply bind_agree; [apply validate_chunk_extensions_agree, (agree_mono _ _ _ _ H)|].
Qed.

Lemma find_chunk_line_end_agree limit i : agree i b1 b2 -> find_chunk_line_end b1 limit i = find_chunk_line_end b2 limit i.
Proof.
  intros H. unfold find_chunk_line_end. destruct (_ <? _); [done|]. cbv zeta.
  by apply bind_agree; [apply find_crlf_agree|].
Qed.

Lemma forbidden_name_agree names v :
  agree (name_start v) b1 b2 -> forbidden_name names b1 v = forbidden_name names b2 v.
Proof.
  intros H. induction names as [|name names IH]; cbn [forbidden_name]; [done|].
  apply bind_agree; [by apply span_equals_agree|]. by intros [] _.
Qed.

Lemma parse_header_view_start b i limit v : parse_header_view b i limit = Some (Some v) -> name_start v = i.
Proof.
  unfold parse_header_view. destruct (find_colon _ b i) as [[c|]|]; [|done|done]. rewrite some_bind.
  destruct (_ || _); [done|]. destruct (scan_to _ b _ limit) as [s|]; [|done]. rewrite some_bind.
  destruct (scan_back_to _ b limit s) as [t|]; [|done]. rewrite some_bind.
  destruct (no_control _ b s) as [[]|]; [|done|done]. by intros [= <-].
Qed.

Lemma validate_trailers_agree fuel length start i :
  agree i b1 b2 -> validate_trailers fuel b1 length start i = validate_trailers fuel b2 length start i.
Proof.
  revert i. induction fuel as [|fuel IH]; intros i H; cbn [validate_trailers]; destruct (_ || _); try done.
  cbv zeta. apply bind_agree; [by apply find_crlf_agree|]. intros [e|] E; [|done]. apply find_pattern_ge in E.
  destruct (_ <? _); [done|]. destruct (_ =? _); [done|].
  apply bind_agree; [by apply parse_header_view_agree|]. intros [v|] Ev; [|done].
  apply parse_header_view_start in Ev.
  apply bind_agree; [apply forbidden_name_agree; by rewrite Ev|]. intros [] _; [done|].
  apply IH, (agree_mono _ _ _ _ H). lia.
Qed.

Lemma validate_chunk_trailers_agree length start :
  agree start b1 b2 -> validate_chunk_trailers b1 length start = validate_chunk_trailers b2 length start.
Proof. apply validate_trailers_agree. Qed.

End Agree.

(** * kernel/http_client.c: the chunked decoder returns, and either decodes in place or changes nothing *)

(** ** Chunk lines *)

Lemma find_chunk_line_end_total bytes L start :
  span bytes start L ->
  exists e j, find_chunk_line_end bytes L start = Some (e, j) /\
    (e = HTTP_CLIENT_ERROR_NONE -> start <= j /\ j + 2 <= L).
Proof.
  intros Hs. pose proof Hs as [H1 H2]. unfold find_chunk_line_end. destruct (_ <? _); [result_tac|]. cbv zeta.
  assert (Hlim : exists limit, (if HTTP_CLIENT_MAX_CHUNK_LINE_BYTES + 2 <? L - start
    then HTTP_CLIENT_MAX_CHUNK_LINE_BYTES + 2 else L - start) = limit /\ 0 <= limit <= L - start).
  { eexists. split; [done|]. unfold HTTP_CLIENT_MAX_CHUNK_LINE_BYTES. destruct (Z.ltb_spec (1024 + 2) (L - start)); lia. }
  destruct Hlim as (limit & -> & Hlim).
  destruct (find_crlf_total bytes start (start + limit)) as (o & -> & Ho); [unfold span; lia|]. rewrite some_bind.
  destruct o as [j|]; [|destruct (_ <? _); result_tac]. specialize (Ho j eq_refl).
  destruct (_ <? _); [result_tac|]. do 2 eexists. split; [done|lia].
Qed.

Lemma validate_chunk_extensions_total fuel bytes cursor limit :
  span bytes cursor limit -> limit - cursor <= Z.of_nat fuel ->
  exists b, validate_chunk_extensions fuel bytes cursor limit = Some b.
Proof.
  revert cursor. induction fuel as [|fuel IH]; intros cursor Hs Hf; cbn [validate_chunk_extensions];
    (destruct (Z.ltb_spec cursor limit); [|result_tac]); [lia|].
  destruct (skip_ows_total bytes cursor limit Hs) as (c1 & -> & H1 & S1). rewrite some_bind.
  destruct (Z.eqb_spec c1 limit); [result_tac|].
  destruct (span_rd bytes c1 limit S1) as [b ->]; [lia|]. rewrite some_bind. destruct (negb _); [result_tac|].
  destruct (skip_ows_total bytes (c1 + 1) limit) as (c2 & -> & H2 & S2); [by apply (span_from _ c1); [|lia]|].
  rewrite some_bind. destruct (parse_token_total bytes c2 limit S2) as (o & -> & Ho). rewrite some_bind.
  destruct o as [c3|]; [|result_tac]. specialize (Ho c3 eq_refl).
  destruct (skip_ows_total bytes c3 limit) as (c4 & -> & H4 & S4); [by apply (span_from _ c2); [|lia]|].
  rewrite some_bind. destruct (next_is_total 61 bytes c4 limit S4) as (q & -> & Hq). rewrite some_bind.
  destruct q; cbn [negb]; [|apply IH; [done|lia]]. specialize (Hq eq_refl).
  destruct (skip_ows_total bytes (c4 + 1) limit) as (c5 & -> & H5 & S5); [by apply (span_from _ c4); [|lia]|].
  rewrite some_bind. destruct (parse_value_total bytes c5 limit S5) as (o & -> & Ho'). rewrite some_bind.
  destruct o as [c6|]; [|result_tac]. specialize (Ho' c6 eq_refl).
  destruct (skip_ows_total bytes c6 limit) as (c7 & -> & H7 & S7); [by apply (span_from _ c5); [|lia]|].
  rewrite some_bind. apply IH; [done|lia].
Qed.

Lemma chunk_size_digits_total n bytes i value has :
  0 <= i -> i + Z.of_nat n <= Z.of_nat (length bytes) -> 0 <= value ->
  exists o, chunk_size_digits n bytes i value has = Some o /\
    forall v h j, o = Some (v, h, j) -> 0 <= v /\ i <= j <= i + Z.of_nat n.
Proof.
  revert i value has. induction n as [|n IH]; intros i value has Hi Hl Hv; cbn [chunk_size_digits].
  { eexists. split; [done|]. intros v h j [= <- _ <-]. lia. }
  destruct (rd_Some bytes i) as [b ->]; [lia|]. rewrite some_bind. destruct (hex_digit_value b) as [d|].
  2: { eexists. split; [done|]. intros v h j [= <- _ <-]. lia. }
  destruct (_ <? _); [by exists None|].
  destruct (IH (i + 1) (u64 (u64 (value * 16) + d)) true) as (o & -> & Ho);
    [lia|lia|pose proof (u64_range (u64 (value * 16) + d)); unfold u64_ok in *; lia|].
  exists o. split; [done|]. intros v h j E. specialize (Ho v h j E). lia.
Qed.

Lemma parse_chunk_size_line_total bytes line limit :
  span bytes line limit ->
  exists o, parse_chunk_size_line bytes line limit = Some o /\ forall v, o = Some v -> 0 <= v.
Proof.
  intros [H1 H2]. unfold parse_chunk_size_line.
  destruct (chunk_size_digits_total (Z.to_nat (limit - line)) bytes line 0 false) as (o & -> & Ho); [lia..|].
  rewrite some_bind. destruct o as [[[v h] j]|]; [|by exists None]. specialize (Ho v h j eq_refl).
  destruct (negb h); [by exists None|].
  destruct (validate_chunk_extensions_total (S (Z.to_nat (limit - j))) bytes j limit) as [b ->]; [unfold span; lia|lia|].
  rewrite some_bind. eexists. split; [done|]. intros w. destruct b; [|done]. intros [= <-]. lia.
Qed.

Lemma forbidden_name_total names bytes line limit v :
  span bytes line limit -> view_in line limit v -> exists b, forbidden_name names bytes v = Some b.
Proof.
  intros Hs Hv. induction names as [|name names IH]; cbn [forbidden_name]; [result_tac|].
  destruct (header_is_total _ _ _ _ name Hs Hv) as [b ->]. rewrite some_bind. destruct b; [result_tac|exact IH].
Qed.

Lemma validate_trailers_total fuel bytes L start cursor :
  span bytes cursor L -> 0 <= start <= cursor -> L - cursor < Z.of_nat fuel ->
  exists e j, validate_trailers fuel bytes L start cursor = Some (e, j) /\
    (e = HTTP_CLIENT_ERROR_NONE -> cursor + 2 <= j <= L).
Proof.
  revert cursor. induction fuel as [|fuel IH]; intros cursor Hs Hc Hf; [destruct Hs; lia|].
  cbn [validate_trailers]. destruct (_ || _) eqn:E0; [result_tac|].
  apply orb_false_iff in E0 as [_ E0%Z.ltb_ge]. cbv zeta. destruct Hs as [H1 H2].
  assert (Hlim : exists limit, (if HTTP_CLIENT_MAX_TRAILER_BYTES <? L - start
    then start + HTTP_CLIENT_MAX_TRAILER_BYTES else L) = limit /\ cursor <= limit <= L).
  { eexists. split; [done|]. unfold HTTP_CLIENT_MAX_TRAILER_BYTES in *. destruct (Z.ltb_spec 8192 (L - start)); lia. }
  destruct Hlim as (limit & -> & Hlim).
  destruct (find_crlf_total bytes cursor limit) as (o & -> & Ho); [unfold span; lia|]. rewrite some_bind.
  destruct o as [e|]; [|destruct (_ <? _); result_tac]. specialize (Ho e eq_refl).
  destruct (_ <? _); [result_tac|]. destruct (Z.eqb_spec e cursor).
  { do 2 eexists. split; [done|]. lia. }
  assert (Hse : span bytes cursor e) by (unfold span; lia).
  destruct (parse_header_view_total bytes cursor e Hse) as (o & -> & Hv). rewrite some_bind.
  destruct o as [v|]; [|result_tac]. specialize (Hv v eq_refl).
  destruct (forbidden_name_total forbidden_trailers _ _ _ _ Hse Hv) as [b Eb].
  unfold forbidden_trailer_name. rewrite Eb, some_bind. destruct b; [result_tac|].
  destruct (IH (e + 2)) as (e' & j & -> & Hj); [unfold span; lia|lia|lia|].
  do 2 eexists. split; [done|]. intros E. specialize (Hj E). lia.
Qed.

Lemma validate_chunk_trailers_total bytes L start :
  span bytes start L ->
  exists e j, validate_chunk_trailers bytes L start = Some (e, j) /\ (e = HTTP_CLIENT_ERROR_NONE -> start + 2 <= j <= L).
Proof. intros Hs. pose proof Hs as []. apply validate_trailers_total; [done|lia|lia]. Qed.

(** ** Moving a chunk to the left *)

Lemma rd_wr bytes p v k :
  0 <= p < Z.of_nat (length bytes) ->
  rd (<[Z.to_nat p := u8 v]> bytes) k = if k =? p then Some (u8 v) else rd bytes k.
Proof.
  intros Hp. unfold rd. destruct (Z.leb_spec 0 k) as [Hk|Hk].
  - destruct (Z.eqb_spec k p) as [->|Hne]; [apply list_lookup_insert_eq; lia|].
    apply list_lookup_insert_ne. lia.
  - by rewrite (proj2 (Z.eqb_neq _ _)) by lia.
Qed.

Lemma rd_byte_ok bytes k b : bytes_ok bytes -> rd bytes k = Some b -> byte_ok b.
Proof. unfold rd. destruct (0 <=? k); [|done]. intros H. by apply Forall_lookup_1. Qed.

Lemma u8_byte b : byte_ok b -> u8 b = b.
Proof. intros. rewrite u8_mod. by apply Z.mod_small. Qed.

(** The forward loop is right for overlapping ranges when the target is not behind the source. *)
Lemma copy_within_spec n bytes to from :
  0 <= to <= from -> from + Z.of_nat n <= Z.of_nat (length bytes) ->
  exists moved, copy_within n bytes to from = Some moved /\ length moved = length bytes /\
    (forall k, k < to \/ to + Z.of_nat n <= k -> rd moved k = rd bytes k) /\
    (bytes_ok bytes -> bytes_ok moved /\
       forall k, to <= k < to + Z.of_nat n -> rd moved k = rd bytes (k - to + from)).
Proof.
  revert bytes to from. induction n as [|n IH]; intros bytes to from Ht Hl; cbn [copy_within].
  { exists bytes. split; [done|]. split; [done|]. split; [done|]. intros H. split; [done|intros; lia]. }
  destruct (rd_Some bytes from) as [b E]; [lia|]. rewrite E, some_bind.
  rewrite wr_Some by lia. rewrite some_bind.
  assert (Hrd := fun k => rd_wr bytes to b k ltac:(lia)).
  destruct (IH (<[Z.to_nat to := u8 b]> bytes) (to + 1) (from + 1)) as (moved & -> & Hlen & Hout & Hin);
    [lia|rewrite length_insert; lia|].
  rewrite length_insert in Hlen. exists moved. split; [done|]. split; [done|]. split.
  { intros k Hk. rewrite Hout by lia. rewrite Hrd, (proj2 (Z.eqb_neq _ _)) by lia. done. }
  intros Hok. pose proof (rd_byte_ok _ _ _ Hok E) as Hb.
  destruct Hin as [Hmok Hin]; [apply Forall_insert; [done|by rewrite u8_byte]|]. split; [done|].
  intros k Hk. destruct (Z.eq_dec k to) as [->|].
  - rewrite Hout by lia. rewrite Hrd, Z.eqb_refl, (u8_byte b Hb). replace (to - to + from) with from by lia.
    by rewrite E.
  - rewrite Hin by lia. rewrite Hrd, (proj2 (Z.eqb_neq _ _)) by lia. f_equal. lia.
Qed.

(** ** Both walks *)

(** From a state in which nothing behind the read cursor is overwritten, the compacting walk of [b2]
    ends as the validating walk of [b1]; it writes between the write cursor and the decoded end. *)
Lemma walk_both fuel b1 b2 limit r w f :
  span b1 r limit -> length b2 = length b1 -> agree r b1 b2 -> 0 <= w <= r ->
  limit - r < Z.of_nat fuel ->
  exists e d moved, walk_chunks fuel b1 limit false r w f = Some (e, b1, d) /\
    walk_chunks fuel b2 limit true r w f = Some (e, moved, d) /\ length moved = length b2 /\ (bytes_ok b2 -> bytes_ok moved) /\
    (e = HTTP_CLIENT_ERROR_NONE -> w <= d <= limit /\ forall k, k < w \/ d <= k -> rd moved k = rd b2 k).
Proof.
  revert b2 r w f. induction fuel as [|fuel IH]; intros b2 r w f Hs Hlen Ha Hw Hf; [destruct Hs; lia|].
  cbn [walk_chunks]. rewrite <- (find_chunk_line_end_agree b1 b2 limit r Ha).
  destruct (find_chunk_line_end_total b1 limit r Hs) as (e & j & -> & Hj). rewrite !some_bind.
  destruct (bool_decide_reflect (e = HTTP_CLIENT_ERROR_NONE)) as [->|Hne]; cbn [negb]; [|result_tac].
  specialize (Hj eq_refl). cbv zeta. destruct (framing_exceeded (j - r + 2) f); [result_tac|].
  rewrite <- (parse_chunk_size_line_agree b1 b2 r j Ha). pose proof Hs as [H1 H2].
  destruct (parse_chunk_size_line_total b1 r j) as (o & -> & Ho); [unfold span; lia|]. rewrite !some_bind.
  destruct o as [size|]; [|result_tac]. specialize (Ho size eq_refl).
  assert (Hs2 : span b1 (j + 2) limit) by (unfold span; lia).
  assert (Ha2 : agree (j + 2) b1 b2) by (apply (agree_mono _ _ _ _ Ha); lia).
  destruct (Z.eqb_spec size 0).
  { rewrite <- (validate_chunk_trailers_agree b1 b2 limit (j + 2) Ha2).
    destruct (validate_chunk_trailers_total b1 limit (j + 2) Hs2) as (e2 & m & -> & Hm). rewrite !some_bind.
    destruct (bool_decide_reflect (e2 = HTTP_CLIENT_ERROR_NONE)) as [->|Hne]; cbn [negb]; [|result_tac].
    destruct (negb _); [result_tac|]. do 3 eexists. do 4 (split; [done|]). intros _. split; [lia|done]. }
  destruct ((limit <? j + 2) || (limit - (j + 2) <? size)) eqn:Et; [result_tac|].
  apply orb_false_iff in Et as [_ Et%Z.ltb_ge]. destruct (Z.ltb_spec (limit - (j + 2) - size) 2); [result_tac|].
  rewrite <- (matches_agree b1 b2 CRLF (j + 2 + size)) by (apply (agree_mono _ _ _ _ Ha); lia).
  destruct (matches_total b1 (j + 2 + size) CRLF) as [t ->]; [lia|cbn [CRLF length]; lia|]. rewrite !some_bind.
  destruct t; cbn [negb]; [|result_tac]. destruct (framing_exceeded 2 _); [result_tac|].
  destruct (copy_within_spec (Z.to_nat size) b2 w (j + 2)) as (moved & -> & Hml & Hout & Hin); [lia|lia|].
  rewrite some_bind.
  destruct (IH moved (j + 2 + size + 2) (w + size) (f + (j - r + 2) + 2))
    as (e2 & d & moved' & -> & -> & Hl' & Hok' & Hd); [unfold span; lia|lia| |lia|lia|].
  { intros k Hk. rewrite Hout by lia. apply Ha. lia. }
  do 3 eexists. do 2 (split; [done|]). split; [lia|]. split; [intros Hb2; by apply Hok', Hin|].
  intros E. specialize (Hd E) as [Hd Hrd].
  split; [lia|]. intros k Hk. rewrite Hrd by lia. apply Hout. lia.
Qed.

(** The decoder on any bytes: the second walk always ends as the first. *)
Lemma decode_chunked_body_spec base bytes n :
  0 <= base -> 0 <= n -> base + n <= Z.of_nat (length bytes) ->
  exists e moved d, decode_chunked_body base bytes n = Some (e, moved, d) /\ length moved = length bytes /\
    (bytes_ok bytes -> bytes_ok moved) /\
    (e <> HTTP_CLIENT_ERROR_NONE -> moved = bytes /\ d = 0) /\
    (e = HTTP_CLIENT_ERROR_NONE -> 0 <= d <= n /\ forall k, k < base \/ base + d <= k -> rd moved k = rd bytes k).
Proof.
  intros Hb Hn Hl. unfold decode_chunked_body, walk_chunked_body.
  destruct (walk_both (S (Z.to_nat n)) bytes bytes (base + n) base base 0)
    as (e & d & moved & -> & -> & Hlen & Hok' & Hd); [unfold span; lia|done|apply agree_refl|lia|lia|].
  rewrite !some_bind.
  destruct (bool_decide_reflect (e = HTTP_CLIENT_ERROR_NONE)) as [->|Hne]; cbn [negb].
  - specialize (Hd eq_refl) as [Hd Hrd]. rewrite Z.eqb_refl. cbn [negb orb].
    do 3 eexists. split; [done|]. split; [done|]. split; [done|]. split; [by intros []|]. intros _. split; [lia|]. intros k Hk. apply Hrd. lia.
  - do 3 eexists. split; [done|]. split; [done|]. split; [done|]. by split.
Qed.
