(* ===== verification/HttpServe.v ===== *)
(** * kernel/http_client.c: the chunked transfer coding and its decoder

    The coding as RFC 9112 gives it: each chunk is its size in hexadecimal,
    CRLF, its bytes, CRLF; the last chunk has size 0 and is followed by the
    empty trailer.

    Then the plain responses of a server. *)

From S2P Require Import Prelude HttpText HttpParse HttpSafe HttpDecode.

(** ** The coding *)

Definition hex_letters : list Z := cs "0123456789abcdef".

Fixpoint print_hex (fuel : nat) (v : Z) : list Z :=
  match fuel with
  | O => []
  | S fuel' => (if v <? 16 then [] else print_hex fuel' (v / 16)) ++ [znth hex_letters (v mod 16)]
  end.

(** Sixteen digits hold every [size_t]. *)
Definition size_line (v : Z) : list Z := print_hex 16 v ++ CRLF.

Definition encode_chunk (data : list Z) : list Z := size_line (Z.of_nat (length data)) ++ data ++ CRLF.

Definition encode_chunked (chunks : list (list Z)) : list Z :=
  concat (map encode_chunk chunks) ++ size_line 0 ++ CRLF.

(** The bytes that are not data, without the empty trailer. *)
Definition framing_bytes (chunks : list (list Z)) : Z :=
  Z.of_nat (length (encode_chunked chunks)) - Z.of_nat (length (concat chunks)) - 2.

(** ** Bytes at a position *)

Definition at_ (bytes : list Z) (p : Z) (l : list Z) : Prop :=
  forall i b, l !! i = Some b -> rd bytes (p + Z.of_nat i) = Some b.

Lemma at_app bytes p l1 l2 : at_ bytes p (l1 ++ l2) <-> at_ bytes p l1 /\ at_ bytes (p + Z.of_nat (length l1)) l2.
Proof.
  split.
  - intros H. split; intros i b Hi.
    + apply H. by apply lookup_app_l_Some.
    + specialize (H (length l1 + i)%nat b). rewrite lookup_app_r in H by lia.
      replace (length l1 + i - length l1)%nat with i in H by lia. rewrite <- (H Hi). f_equal. lia.
  - intros [H1 H2] i b [Hi|[Hle Hi]]%lookup_app_Some; [by apply H1|]. rewrite <- (H2 _ _ Hi). f_equal. lia.
Qed.

Lemma at_cons bytes p c l : at_ bytes p (c :: l) <-> rd bytes p = Some c /\ at_ bytes (p + 1) l.
Proof.
  split.
  - intros H. split; [rewrite <- (H O c eq_refl); f_equal; lia|].
    intros i b Hi. rewrite <- (H (S i) b Hi). f_equal. lia.
  - intros [H1 H2] [|i] b; cbn; [intros [= <-]; rewrite <- H1; f_equal; lia|].
    intros Hi. rewrite <- (H2 i b Hi). f_equal. lia.
Qed.

Lemma at_agree b1 b2 p l : at_ b1 p l -> agree p b1 b2 -> at_ b2 p l.
Proof. intros H Ha i b Hi. rewrite <- (H i b Hi). symmetry. apply Ha. lia. Qed.

Lemma at_here pre l post : at_ (pre ++ l ++ post) (Z.of_nat (length pre)) l.
Proof.
  intros i b Hi. unfold rd. rewrite (proj2 (Z.leb_le _ _)) by lia.
  rewrite lookup_app_r by lia. apply lookup_app_l_Some. rewrite <- Hi. f_equal. lia.
Qed.

Lemma matches_at bytes p l : at_ bytes p l -> matches bytes p l = Some true.
Proof.
  revert p. induction l as [|c l IH]; intros p H; cbn [matches]; [done|].
  apply at_cons in H as [-> H]. rewrite some_bind, Z.eqb_refl. by apply IH.
Qed.

(** The first line break is behind a line without a carriage return. *)
Lemma find_pattern_at n bytes p line :
  at_ bytes p (line ++ CRLF) -> Forall (fun c => c <> 13) line -> (length line < n)%nat ->
  find_pattern CRLF n bytes p = Some (Some (p + Z.of_nat (length line))).
Proof.
  revert n p. induction line as [|c line IH]; intros n p H Hne Hn; (destruct n as [|n]; [cbn in Hn; lia|]);
    cbn [find_pattern app] in *.
  - rewrite matches_at by exact H. rewrite some_bind. do 2 f_equal. cbn. lia.
  - apply Forall_cons in Hne as [Hc Hne]. apply at_cons in H as [Hr H]. cbn [matches CRLF].
    rewrite Hr, some_bind, (proj2 (Z.eqb_neq c 13)) by done. rewrite some_bind.
    rewrite IH; [do 2 f_equal; cbn [length]; lia|done|done|cbn in Hn; lia].
Qed.

Lemma find_crlf_at bytes p limit line :
  at_ bytes p (line ++ CRLF) -> Forall (fun c => c <> 13) line -> p + Z.of_nat (length line) + 2 <= limit ->
  find_crlf bytes p limit = Some (Some (p + Z.of_nat (length line))).
Proof. intros H Hne Hl. apply find_pattern_at; [done|done|lia]. Qed.

(** ** Size lines *)

Fixpoint hex_number (value : Z) (digits : list Z) : option Z :=
  match digits with
  | [] => Some value
  | c :: digits => d ← hex_digit_value c; hex_number (value * 16 + d) digits
  end.

Lemma hex_number_snoc value digits c :
  hex_number value (digits ++ [c]) = (v ← hex_number value digits; d ← hex_digit_value c; Some (v * 16 + d)).
Proof.
  revert value. induction digits as [|d digits IH]; intros value; cbn [hex_number app].
  { by rewrite some_bind. }
  destruct (hex_digit_value d); [|done]. rewrite !some_bind. apply IH.
Qed.

Lemma hex_letter_ok v : 0 <= v < 16 -> hex_digit_value (znth hex_letters v) = Some v.
Proof.
  intros H. assert (Hall : forallb (fun n => match hex_digit_value (znth hex_letters (Z.of_nat n)) with
    | Some d => d =? Z.of_nat n | None => false end) (seq 0 16) = true) by by vm_compute.
  rewrite forallb_forall in Hall. specialize (Hall (Z.to_nat v)). rewrite in_seq, Z2Nat.id in Hall by lia.
  specialize (Hall ltac:(lia)). destruct (hex_digit_value _) as [d|]; [|done]. by apply Z.eqb_eq in Hall as ->.
Qed.

Lemma hex_letter_byte v : 0 <= v < 16 -> znth hex_letters v <> 13.
Proof. intros H E. pose proof (hex_letter_ok v H) as Hv. by rewrite E in Hv. Qed.

Lemma print_hex_spec fuel v :
  0 <= v < 16 ^ Z.of_nat fuel -> (0 < fuel)%nat ->
  hex_number 0 (print_hex fuel v) = Some v /\ Forall (fun c => c <> 13) (print_hex fuel v) /\
  (0 < length (print_hex fuel v) <= fuel)%nat.
Proof.
  revert v. induction fuel as [|fuel IH]; intros v Hv Hf; [lia|]. cbn [print_hex].
  rewrite Nat2Z.inj_succ, Z.pow_succ_r in Hv by lia.
  assert (Hm : 0 <= v mod 16 < 16) by (apply Z.mod_pos_bound; lia).
  rewrite hex_number_snoc, Forall_app, length_app. cbn [length].
  destruct (Z.ltb_spec v 16) as [Hlt|Hge].
  - cbn [hex_number length]. rewrite some_bind, hex_letter_ok by done. rewrite some_bind.
    split; [f_equal; rewrite Z.mod_small; lia|]. split; [|lia]. split; [done|].
    by apply Forall_singleton, hex_letter_byte.
  - destruct fuel as [|fuel]; [change (16 ^ Z.of_nat 0) with 1 in Hv; lia|].
    destruct (IH (v / 16)) as (-> & Hne & Hl); [|lia|].
    { split; [apply Z.div_pos; lia|]. apply Z.div_lt_upper_bound; lia. }
    rewrite some_bind, hex_letter_ok by done. rewrite some_bind. split; [f_equal; pose proof (Z.div_mod v 16); lia|].
    split; [|lia]. split; [done|]. by apply Forall_singleton, hex_letter_byte.
Qed.

Lemma hex_number_mono value digits v : 0 <= value -> hex_number value digits = Some v -> value <= v.
Proof.
  revert value. induction digits as [|c digits IH]; intros value Hv; cbn [hex_number]; [intros [= <-]; lia|].
  destruct (hex_digit_value c) as [d|] eqn:E; [|done]. rewrite some_bind.
  assert (0 <= d).
  { unfold hex_digit_value in E. destruct (in_range _ _ _); [|cbv zeta in E; destruct (in_range _ _ _); [|done]];
      injection E as <-; apply u8_range. }
  intros E2%IH; lia.
Qed.

Lemma chunk_size_digits_at digits bytes p value has v :
  at_ bytes p digits -> 0 <= value -> hex_number value digits = Some v -> v <= SIZE_MAX ->
  chunk_size_digits (length digits) bytes p value has
    = Some (Some (v, match digits with [] => has | _ => true end, p + Z.of_nat (length digits))).
Proof.
  revert p value has. induction digits as [|c digits IH]; intros p value has H Hv; cbn [chunk_size_digits hex_number length].
  { intros [= <-] _. do 2 f_equal. f_equal. lia. }
  apply at_cons in H as [-> H]. rewrite some_bind.
  assert (Hd : forall d, hex_digit_value c = Some d -> 0 <= d < 16).
  { intros d. unfold hex_digit_value. unfold in_range. cbv zeta.
    destruct ((48 <=? c) && (c <=? 57)) eqn:E1; [|destruct ((97 <=? ascii_lower c) && (ascii_lower c <=? 102)) eqn:E2; [|done]];
      intros [= <-]; rewrite u8_mod;
      [apply andb_true_iff in E1 as [?%Z.leb_le ?%Z.leb_le]|apply andb_true_iff in E2 as [?%Z.leb_le ?%Z.leb_le]];
      rewrite Z.mod_small; lia. }
  destruct (hex_digit_value c) as [d|]; [|done]. specialize (Hd d eq_refl). rewrite some_bind. intros Hn Hmax.
  pose proof (hex_number_mono (value * 16 + d) digits v ltac:(lia) Hn).
  assert (Hq : value <= (SIZE_MAX - d) / 16) by (apply Z.div_le_lower_bound; lia).
  rewrite (proj2 (Z.ltb_ge _ _)) by exact Hq. unfold SIZE_MAX in *.
  rewrite (u64_small (value * 16)) by (unfold u64_ok; lia). rewrite u64_small by (unfold u64_ok; lia).
  rewrite (IH (p + 1) (value * 16 + d) true H) by (lia || done). do 2 f_equal. f_equal; [|cbn [length]; lia].
  by destruct digits.
Qed.

Lemma size_line_parse bytes p v :
  0 <= v <= SIZE_MAX -> at_ bytes p (size_line v) ->
  parse_chunk_size_line bytes p (p + Z.of_nat (length (print_hex 16 v))) = Some (Some v).
Proof.
  intros Hv H. apply at_app in H as [H _].
  destruct (print_hex_spec 16 v) as (Hn & _ & Hl); [unfold SIZE_MAX in Hv; lia|lia|].
  unfold parse_chunk_size_line.
  replace (Z.to_nat _) with (length (print_hex 16 v)) by lia.
  rewrite (chunk_size_digits_at _ _ _ _ _ v) by (done || lia). rewrite some_bind.
  destruct (print_hex 16 v) as [|c l] eqn:E; [cbn in Hl; lia|]. cbn [negb].
  cbn [validate_chunk_extensions]. rewrite Z.sub_diag. by rewrite (proj2 (Z.ltb_ge _ _)) by lia.
Qed.

(** ** The decoder on the coding *)

Lemma size_line_end bytes p v limit :
  0 <= v <= SIZE_MAX -> at_ bytes p (size_line v) -> p + Z.of_nat (length (size_line v)) <= limit ->
  find_chunk_line_end bytes limit p = Some (HTTP_CLIENT_ERROR_NONE, p + Z.of_nat (length (print_hex 16 v))).
Proof.
  intros Hv H Hl. destruct (print_hex_spec 16 v) as (_ & Hne & Hlen); [unfold SIZE_MAX in Hv; lia|lia|].
  unfold size_line in Hl. rewrite length_app in Hl. cbn [CRLF length] in Hl. unfold find_chunk_line_end.
  rewrite (proj2 (Z.ltb_ge limit p)) by lia. cbv zeta. unfold HTTP_CLIENT_MAX_CHUNK_LINE_BYTES.
  rewrite (find_crlf_at _ _ _ (print_hex 16 v)); [|exact H|done|destruct (Z.ltb_spec (1024 + 2) (limit - p)); lia].
  rewrite some_bind. by rewrite (proj2 (Z.ltb_ge _ _)) by lia.
Qed.

(** What the walks need of a list of chunks: no empty one, sizes that fit, framing within the budget [f]. *)
Definition chunks_ok (chunks : list (list Z)) : Prop :=
  Forall (fun d => d <> []) chunks /\ Z.of_nat (length (encode_chunked chunks)) <= SIZE_MAX.

Lemma encode_chunked_cons d chunks :
  encode_chunked (d :: chunks) = size_line (Z.of_nat (length d)) ++ d ++ CRLF ++ encode_chunked chunks.
Proof. unfold encode_chunked, encode_chunk. cbn [map concat]. by rewrite <- !app_assoc. Qed.

Lemma validate_trailers_empty bytes L p :
  at_ bytes p CRLF -> p + 2 = L -> validate_chunk_trailers bytes L p = Some (HTTP_CLIENT_ERROR_NONE, L).
Proof.
  intros H HL. unfold validate_chunk_trailers. replace (S (Z.to_nat (L - p))) with 3%nat by lia.
  cbn [validate_trailers]. unfold HTTP_CLIENT_MAX_TRAILER_BYTES.
  rewrite (proj2 (Z.ltb_ge L p)), Z.sub_diag, (proj2 (Z.ltb_ge 8192 0)), (proj2 (Z.ltb_ge 8192 (L - p))) by lia.
  cbn [orb]. cbv zeta. rewrite (find_crlf_at _ _ _ []); [|exact H|done|cbn; lia].
  rewrite some_bind. rewrite (proj2 (Z.ltb_ge _ _)) by (cbn [length]; lia).
  cbn [length]. rewrite (proj2 (Z.eqb_eq _ _)) by lia. do 2 f_equal. lia.
Qed.

Lemma framing_bytes_cons d chunks :
  framing_bytes (d :: chunks) = Z.of_nat (length (size_line (Z.of_nat (length d)))) + 2 + framing_bytes chunks.
Proof.
  unfold framing_bytes. rewrite encode_chunked_cons. cbn [concat]. rewrite !length_app. cbn [CRLF length]. lia.
Qed.

Lemma framing_bytes_pos chunks : 0 <= framing_bytes chunks.
Proof.
  induction chunks as [|d chunks IH]; [by vm_compute|]. rewrite framing_bytes_cons. lia.
Qed.

Lemma length_encode_chunked chunks : (length chunks + 5 <= length (encode_chunked chunks))%nat.
Proof.
  induction chunks as [|d chunks IH]; [by vm_compute|]. rewrite encode_chunked_cons, !length_app. cbn [CRLF length]. lia.
Qed.

Lemma within_budget line f : line <= HTTP_CLIENT_MAX_CHUNK_FRAMING_BYTES - f -> framing_exceeded line f = false.
Proof. intros. by apply Z.ltb_ge. Qed.

(** The last chunk. *)
Lemma walk_last fuel bytes r w f limit compact :
  at_ bytes r (encode_chunked []) -> r + Z.of_nat (length (encode_chunked [])) = limit ->
  f + framing_bytes [] <= HTTP_CLIENT_MAX_CHUNK_FRAMING_BYTES ->
  walk_chunks (S fuel) bytes limit compact r w f = Some (HTTP_CLIENT_ERROR_NONE, bytes, w).
Proof.
  intros Hat Hl Hf. change (encode_chunked []) with (size_line 0 ++ CRLF) in *.
  pose proof Hat as Hat'. apply at_app in Hat' as [Hline Hend]. rewrite length_app in Hl.
  change (length (size_line 0)) with 3%nat in *. cbn [CRLF length] in Hl.
  cbn [walk_chunks]. rewrite (size_line_end bytes r 0); [|done|done|change (length (size_line 0)) with 3%nat; lia].
  rewrite some_bind.
  rewrite bool_decide_eq_true_2 by done. cbn [negb]. cbv zeta.
  change (Z.of_nat (length (print_hex 16 0))) with 1.
  change (framing_bytes []) with 3 in Hf. rewrite within_budget by lia.
  pose proof (size_line_parse bytes r 0 ltac:(done) Hline) as Hp.
  change (Z.of_nat (length (print_hex 16 0))) with 1 in Hp. rewrite Hp, some_bind. rewrite Z.eqb_refl.
  replace (r + 1 + 2) with (r + 3) by lia.
  rewrite (validate_trailers_empty bytes limit (r + 3)); [|exact Hend|lia]. rewrite some_bind.
  rewrite bool_decide_eq_true_2, Z.eqb_refl by done. done.
Qed.

(** One chunk. *)
Lemma walk_chunk fuel bytes r w f limit d chunks :
  bytes_ok bytes -> at_ bytes r (encode_chunked (d :: chunks)) ->
  r + Z.of_nat (length (encode_chunked (d :: chunks))) = limit -> limit <= Z.of_nat (length bytes) -> limit <= SIZE_MAX ->
  0 <= w <= r -> d <> [] -> f + framing_bytes (d :: chunks) <= HTTP_CLIENT_MAX_CHUNK_FRAMING_BYTES ->
  let next := r + Z.of_nat (length (size_line (Z.of_nat (length d)))) + Z.of_nat (length d) + 2 in
  exists moved,
    walk_chunks (S fuel) bytes limit true r w f =
      walk_chunks fuel moved limit true next (w + Z.of_nat (length d))
        (f + Z.of_nat (length (size_line (Z.of_nat (length d)))) + 2) /\
    length moved = length bytes /\ bytes_ok moved /\ at_ moved w d /\
    (forall k, k < w \/ w + Z.of_nat (length d) <= k -> rd moved k = rd bytes k) /\
    at_ moved next (encode_chunked chunks).
Proof.
  intros Hok Hat Hl HL HM Hw Hd Hf next. subst next. rewrite encode_chunked_cons in Hat, Hl.
  rewrite framing_bytes_cons in Hf. pose proof (framing_bytes_pos chunks).
  set (size := Z.of_nat (length d)) in *.
  assert (Hsz : 0 < size) by (unfold size; destruct d; [done|cbn [length]; lia]).
  rewrite !length_app in Hl. cbn [CRLF length] in Hl.
  apply at_app in Hat as [Hline Hat]. apply at_app in Hat as [Hdata Hat]. apply at_app in Hat as [Hend Hat].
  pose proof (length_encode_chunked chunks).
  assert (Hsl : Z.of_nat (length (size_line size)) = Z.of_nat (length (print_hex 16 size)) + 2).
  { unfold size_line. rewrite length_app. cbn [CRLF length]. lia. }
  destruct (copy_within_spec (Z.to_nat size) bytes w (r + Z.of_nat (length (size_line size))))
    as (moved & Hcopy & Hml & Hout & Hin); [lia|lia|]. destruct (Hin Hok) as [Hmok Hin'].
  assert (Hnext : agree (r + Z.of_nat (length (size_line size)) + size + 2) bytes moved).
  { intros k Hk. rewrite Hout by lia. done. }
  exists moved. split; [|split; [done|split; [done|split; [|split]]]].
  - cbn [walk_chunks]. rewrite (size_line_end bytes r size) by (done || lia). rewrite some_bind.
    rewrite bool_decide_eq_true_2 by done. cbn [negb]. cbv zeta. rewrite within_budget by lia.
    rewrite size_line_parse by (done || lia). rewrite some_bind. rewrite (proj2 (Z.eqb_neq size 0)) by lia.
    replace (r + Z.of_nat (length (print_hex 16 size)) + 2) with (r + Z.of_nat (length (size_line size))) by lia.
    rewrite (proj2 (Z.ltb_ge limit _)), (proj2 (Z.ltb_ge _ size)), (proj2 (Z.ltb_ge _ 2)) by lia. cbn [orb].
    rewrite matches_at by exact Hend. rewrite some_bind. cbn [negb].
    rewrite within_budget by lia. rewrite Hcopy, some_bind. f_equal; lia.
  - intros i b Hi. assert (i < length d)%nat by by apply lookup_lt_Some in Hi.
    rewrite Hin' by lia. rewrite <- (Hdata i b Hi). f_equal. lia.
  - intros k Hk. apply Hout. lia.
  - apply (at_agree bytes); [|exact Hnext]. revert Hat. cbn [CRLF length].
    by replace (r + Z.of_nat (length (size_line size)) + size + Z.of_nat 2)
      with (r + Z.of_nat (length (size_line size)) + size + 2) by lia.
Qed.

Lemma walk_encoded chunks fuel bytes r w f limit :
  bytes_ok bytes -> at_ bytes r (encode_chunked chunks) -> r + Z.of_nat (length (encode_chunked chunks)) = limit ->
  limit <= Z.of_nat (length bytes) -> limit <= SIZE_MAX -> 0 <= w <= r -> Forall (fun d => d <> []) chunks ->
  f + framing_bytes chunks <= HTTP_CLIENT_MAX_CHUNK_FRAMING_BYTES -> (length chunks < fuel)%nat ->
  exists moved,
    walk_chunks fuel bytes limit true r w f =
      Some (HTTP_CLIENT_ERROR_NONE, moved, w + Z.of_nat (length (concat chunks))) /\
    at_ moved w (concat chunks) /\ (forall k, k < w -> rd moved k = rd bytes k).
Proof.
  revert fuel bytes r w f. induction chunks as [|d chunks IH]; intros fuel bytes r w f Hok Hat Hl HL HM Hw Hne Hf Hfuel;
    (destruct fuel as [|fuel]; [cbn in Hfuel; lia|]).
  { exists bytes. split; [|split; [by intros [|i] b|done]].
    rewrite walk_last by done. do 2 f_equal. cbn. lia. }
  apply Forall_cons in Hne as [Hd Hne].
  destruct (walk_chunk fuel bytes r w f limit d chunks) as (moved & -> & Hml & Hmok & Hdat & Hout & Hnext); [done..|].
  rewrite encode_chunked_cons, !length_app in Hl. cbn [CRLF length] in Hl. rewrite framing_bytes_cons in Hf.
  destruct (IH fuel moved _ (w + Z.of_nat (length d)) (f + Z.of_nat (length (size_line (Z.of_nat (length d)))) + 2)
    Hmok Hnext) as (final & -> & Hfin & Hbelow); [lia|lia|done|lia|done|lia|cbn in Hfuel; lia|].
  exists final. cbn [concat]. rewrite length_app. split; [do 2 f_equal; lia|]. split.
  - apply at_app. split; [|exact Hfin]. intros i b Hi. assert (i < length d)%nat by by apply lookup_lt_Some in Hi.
    rewrite Hbelow by lia. by apply Hdat.
  - intros k Hk. rewrite Hbelow by lia. apply Hout. lia.
Qed.

(** * kernel/http_client.c: every well-formed plain response is accepted

    A response as a server writes it - status line, Content-Length, body - and
    the parser on it. *)

(** ** The response *)

Fixpoint print_decimal (fuel : nat) (v : Z) : list Z :=
  match fuel with
  | O => []
  | S fuel' => (if v <? 10 then [] else print_decimal fuel' (v / 10)) ++ [48 + v mod 10]
  end.

Definition status_digits (code : Z) : list Z := [48 + code / 100; 48 + code / 10 mod 10; 48 + code mod 10].

Definition status_line (code : Z) (reason : list Z) : list Z :=
  cs "HTTP/1.1 " ++ status_digits code ++ [32] ++ reason.

(** Twenty digits hold every [size_t]. *)
Definition length_field (n : Z) : list Z := cs "Content-Length: " ++ print_decimal 20 n.

Definition response_head (code : Z) (reason : list Z) (n : Z) : list Z :=
  status_line code reason ++ CRLF ++ length_field n ++ CRLF ++ CRLF.

Definition response_text (code : Z) (reason data : list Z) : list Z :=
  response_head code reason (Z.of_nat (length data)) ++ data.

(** ** The loops on known bytes *)

Lemma at_rd bytes p l k b : at_ bytes p l -> l !! k = Some b -> rd bytes (p + Z.of_nat k) = Some b.
Proof. intros H. apply H. Qed.

Lemma at_one bytes p c : rd bytes p = Some c -> at_ bytes p [c].
Proof. intros H. apply at_cons. split; [exact H|]. intros i b. by rewrite lookup_nil. Qed.

Lemma scan_at q n bytes p l c :
  at_ bytes p (l ++ [c]) -> Forall (fun x => q x = true) l -> q c = false -> (length l < n)%nat ->
  scan q n bytes p = Some (p + Z.of_nat (length l)).
Proof.
  revert n p. induction l as [|x l IH]; intros n p H Hl Hc Hn; (destruct n as [|n]; [cbn in Hn; lia|]); cbn [scan app] in *;
    apply at_cons in H as [Hr H]; rewrite Hr, some_bind.
  - rewrite Hc. f_equal. cbn. lia.
  - apply Forall_cons in Hl as [-> Hl]. rewrite IH; [f_equal; cbn; lia|done|done|done|cbn in Hn; lia].
Qed.

Lemma no_control_at bytes p l :
  at_ bytes p l -> Forall (fun c => is_control c = false) l -> no_control (length l) bytes p = Some true.
Proof.
  revert p. induction l as [|c l IH]; intros p H Hl; cbn [no_control length]; [done|].
  apply at_cons in H as [-> H]. apply Forall_cons in Hl as [Hc Hl]. rewrite some_bind, Hc. by apply IH.
Qed.

Lemma find_colon_at n bytes p l :
  at_ bytes p (l ++ [58]) -> Forall (fun c => (c =? 58) = false /\ valid_header_name_byte c = true) l -> (length l < n)%nat ->
  find_colon n bytes p = Some (Some (p + Z.of_nat (length l))).
Proof.
  revert n p. induction l as [|c l IH]; intros n p H Hl Hn; (destruct n as [|n]; [cbn in Hn; lia|]); cbn [find_colon app] in *;
    apply at_cons in H as [Hr H]; rewrite Hr, some_bind.
  - rewrite Z.eqb_refl. do 2 f_equal. cbn. lia.
  - apply Forall_cons in Hl as [[-> ->] Hl]. cbn [negb]. rewrite IH; [do 2 f_equal; cbn; lia|done|done|cbn in Hn; lia].
Qed.

Lemma span_equals_at bytes p l text :
  at_ bytes p l -> map ascii_lower l = map ascii_lower text -> span_equals bytes p (length l) text = Some true.
Proof.
  revert p text. induction l as [|c l IH]; intros p text H E; (destruct text as [|t text]; [done || (cbn in E; done)|]);
    [done|]. cbn [span_equals length map] in *. injection E as E1 E2.
  apply at_cons in H as [-> H]. rewrite some_bind, E1, Z.eqb_refl. by apply IH.
Qed.

(** No line break starts in a text without a carriage return. *)
Lemma find_crlf_none n bytes p line :
  at_ bytes p line -> Forall (fun c => c <> 13) line -> (n <= length line)%nat -> find_pattern CRLF n bytes p = Some None.
Proof.
  revert p line. induction n as [|n IH]; intros p line H Hne Hn; cbn [find_pattern]; [done|].
  destruct line as [|c line]; [cbn in Hn; lia|]. apply at_cons in H as [Hr H]. apply Forall_cons in Hne as [Hc Hne].
  cbn [matches CRLF]. rewrite Hr, some_bind, (proj2 (Z.eqb_neq c 13)), some_bind by done.
  apply (IH _ line); [done|done|cbn in Hn; lia].
Qed.

(** The empty line behind a text without a carriage return. *)
Lemma find_separator_at n bytes p line :
  at_ bytes p (line ++ CRLF ++ CRLF) -> Forall (fun c => c <> 13) line -> (length line < n)%nat ->
  find_pattern (CRLF ++ CRLF) n bytes p = Some (Some (p + Z.of_nat (length line))).
Proof.
  revert n p. induction line as [|c line IH]; intros n p H Hne Hn; (destruct n as [|n]; [cbn in Hn; lia|]);
    cbn [find_pattern].
  - rewrite matches_at by exact H. rewrite some_bind. do 2 f_equal. cbn. lia.
  - apply Forall_cons in Hne as [Hc Hne]. cbn [app] in H. apply at_cons in H as [Hr H]. cbn [matches CRLF app].
    rewrite Hr, some_bind, (proj2 (Z.eqb_neq c 13)), some_bind by done. fold CRLF. change [13; 10; 13; 10] with (CRLF ++ CRLF).
    rewrite IH; [do 2 f_equal; cbn [length]; lia|done|done|cbn in Hn; lia].
Qed.

(** ** Numbers *)

Fixpoint decimal_number (value : Z) (digits : list Z) : Z :=
  match digits with
  | [] => value
  | c :: digits => decimal_number (value * 10 + (c - 48)) digits
  end.

Definition digit_byte (c : Z) : Prop := 48 <= c <= 57.

Lemma decimal_number_app value l1 l2 : decimal_number value (l1 ++ l2) = decimal_number (decimal_number value l1) l2.
Proof. revert value. induction l1 as [|c l1 IH]; intros value; [done|]. apply IH. Qed.

Lemma print_decimal_spec fuel v :
  0 <= v < 10 ^ Z.of_nat fuel -> (0 < fuel)%nat ->
  decimal_number 0 (print_decimal fuel v) = v /\ Forall digit_byte (print_decimal fuel v) /\
  (0 < length (print_decimal fuel v) <= fuel)%nat.
Proof.
  revert v. induction fuel as [|fuel IH]; intros v Hv Hf; [lia|]. cbn [print_decimal].
  rewrite Nat2Z.inj_succ, Z.pow_succ_r in Hv by lia.
  assert (Hm : 0 <= v mod 10 < 10) by (apply Z.mod_pos_bound; lia).
  assert (Hd : Forall digit_byte [48 + v mod 10]) by (apply Forall_singleton; unfold digit_byte; lia).
  rewrite decimal_number_app, Forall_app, length_app. cbn [length]. destruct (Z.ltb_spec v 10) as [Hlt|Hge].
  - cbn [decimal_number length]. rewrite Z.mod_small by lia. rewrite Z.mod_small in Hd by lia.
    split; [lia|]. split; [by split|lia].
  - destruct fuel as [|fuel]; [change (10 ^ Z.of_nat 0) with 1 in Hv; lia|].
    destruct (IH (v / 10)) as (-> & Hds & Hl); [|lia|].
    { split; [apply Z.div_pos; lia|]. apply Z.div_lt_upper_bound; lia. }
    cbn [decimal_number]. split; [pose proof (Z.div_mod v 10); lia|]. split; [by split|lia].
Qed.

Lemma decimal_number_mono value digits : 0 <= value -> Forall digit_byte digits -> value <= decimal_number value digits.
Proof.
  intros Hv Hd. revert value Hv. induction Hd as [|c digits Hc _ IH]; intros value Hv; cbn [decimal_number]; [lia|].
  unfold digit_byte in Hc. specialize (IH (value * 10 + (c - 48)) ltac:(lia)). lia.
Qed.

Lemma content_length_digits_at digits bytes p value :
  at_ bytes p digits -> Forall digit_byte digits -> 0 <= value -> decimal_number value digits <= SIZE_MAX ->
  content_length_digits (length digits) bytes p value = Some (Some (decimal_number value digits)).
Proof.
  revert p value. induction digits as [|c digits IH]; intros p value H Hd Hv Hmax; cbn [content_length_digits decimal_number length] in *;
    [done|].
  apply at_cons in H as [-> H]. apply Forall_cons in Hd as [Hc Hd]. unfold digit_byte in Hc. rewrite some_bind.
  unfold in_range. rewrite !(proj2 (Z.leb_le _ _)) by lia. cbn [andb negb]. cbv zeta.
  pose proof (decimal_number_mono (value * 10 + (c - 48)) digits ltac:(lia) Hd).
  assert (Hq : value <= (SIZE_MAX - (c - 48)) / 10) by (apply Z.div_le_lower_bound; lia).
  rewrite (proj2 (Z.ltb_ge _ _)) by exact Hq. unfold SIZE_MAX in *.
  rewrite (u64_small (value * 10)) by (unfold u64_ok; lia). rewrite u64_small by (unfold u64_ok; lia).
  apply IH; [done|done|lia|lia].
Qed.

(** ** The parsers on the response *)

Lemma scan_back_stop q n bytes i c : rd bytes (i - 1) = Some c -> q c = false -> scan_back q n bytes i = Some i.
Proof. destruct n as [|n]; cbn [scan_back]; [done|]. intros -> H. by rewrite some_bind, H. Qed.

Lemma digit_not_space c : digit_byte c -> is_space c = false.
Proof. unfold digit_byte, is_space. intros. rewrite !(proj2 (Z.eqb_neq _ _)) by lia. done. Qed.

Lemma digit_not_control c : digit_byte c -> is_control c = false.
Proof.
  unfold digit_byte, is_control. intros. rewrite (proj2 (Z.ltb_ge c 32)), (proj2 (Z.eqb_neq c 0x7F)) by lia. done.
Qed.

Definition content_length_name : list Z := cs "Content-Length".

Lemma header_view_at bytes p digits :
  at_ bytes p (content_length_name ++ [58; 32] ++ digits) -> Forall digit_byte digits -> digits <> [] ->
  parse_header_view bytes p (p + 16 + Z.of_nat (length digits)) =
    Some (Some (HttpHeaderView p (p + 14) (p + 16) (p + 16 + Z.of_nat (length digits)))).
Proof.
  intros H Hd Hne. pose proof (at_rd _ _ _ 14%nat _ H eq_refl) as H14.
  pose proof H as H'. apply at_app in H' as [Hn Hr]. change (Z.of_nat (length content_length_name)) with 14 in Hr.
  assert (Hc : at_ bytes p (content_length_name ++ [58])) by (apply at_app; split; [exact Hn|apply at_one; exact H14]).
  assert (Hlen : 0 < Z.of_nat (length digits)) by (destruct digits; [done|cbn; lia]).
  unfold parse_header_view. rewrite (find_colon_at _ _ _ content_length_name Hc);
    [|by apply (bool_decide_unpack _); vm_compute|change (length content_length_name) with 14%nat; lia].
  rewrite some_bind. change (Z.of_nat (length content_length_name)) with 14.
  rewrite (proj2 (Z.eqb_neq (p + 14) p)), (proj2 (Z.eqb_neq (p + 14) _)) by lia. cbn [orb].
  apply at_cons in Hr as [_ Hr]. apply at_cons in Hr as [Hsp Hdig].
  replace (p + 14 + 1) with (p + 15) in * by lia. replace (p + 15 + 1) with (p + 16) in * by lia.
  destruct digits as [|c digits]; [done|]. pose proof Hd as Hd'. apply Forall_cons in Hd as [Hc0 Hd].
  unfold scan_to. rewrite (scan_at is_space _ bytes (p + 15) [32] c).
  2:{ apply at_cons. split; [exact Hsp|]. replace (p + 15 + 1) with (p + 16) by lia.
      apply at_cons in Hdig as [Hdig _]. by apply at_one. }
  2:{ by apply Forall_singleton. }
  2:{ by apply digit_not_space. }
  2:{ cbn [length]. lia. }
  rewrite some_bind. cbn [length]. change (Z.of_nat 1) with 1. replace (p + 15 + 1) with (p + 16) by lia.
  destruct (lookup_lt_is_Some_2 (c :: digits) (length digits)) as [last Elast]; [cbn; lia|].
  unfold scan_back_to. rewrite (scan_back_stop _ _ _ _ last).
  2:{ rewrite <- (at_rd _ _ _ _ _ Hdig Elast). f_equal. lia. }
  2:{ apply digit_not_space. by apply (Forall_lookup_1 _ _ _ _ Hd' Elast). }
  rewrite some_bind. replace (Z.to_nat _) with (length (c :: digits)) by (cbn [length]; lia).
  rewrite (no_control_at _ _ _ Hdig); [|by apply (Forall_impl _ _ _ Hd'), digit_not_control].
  rewrite some_bind. done.
Qed.

Lemma content_length_line bytes p n response context :
  0 <= n <= SIZE_MAX -> at_ bytes p (length_field n) -> has_content_length response = false ->
  parse_header_line bytes p (p + Z.of_nat (length (length_field n))) response context =
    Some (HTTP_CLIENT_ERROR_NONE, set_content_length n response, context).
Proof.
  intros Hn H Hcl. destruct (print_decimal_spec 20 n) as (Hv & Hd & Hl); [unfold SIZE_MAX in Hn; lia|lia|].
  change (length_field n) with (content_length_name ++ [58; 32] ++ print_decimal 20 n) in *.
  set (digits := print_decimal 20 n) in *. assert (Hne : digits <> []) by (intros E; rewrite E in Hl; cbn in Hl; lia).
  rewrite !length_app. cbn [length]. change (length content_length_name) with 14%nat.
  replace (p + Z.of_nat _) with (p + 16 + Z.of_nat (length digits)) by lia.
  unfold parse_header_line. rewrite header_view_at by done. rewrite some_bind. cbv zeta. cbn [value_start value_end].
  apply at_app in H as [Hname Hrest]. apply at_app in Hrest as [_ Hdig].
  unfold header_is, span_equals_text_ignore_case. cbn [name_start name_end].
  replace (Z.to_nat (p + 14 - p)) with (length content_length_name) by (change (length content_length_name) with 14%nat; lia).
  rewrite (span_equals_at _ _ _ (cs "content-length") Hname) by by vm_compute. rewrite some_bind.
  unfold parse_content_length. rewrite (proj2 (Z.eqb_neq _ _)) by lia.
  replace (Z.to_nat _) with (length digits) by lia.
  rewrite content_length_digits_at.
  - rewrite some_bind, Hcl, Hv. done.
  - replace (p + 16) with (p + Z.of_nat (length content_length_name) + Z.of_nat (length [58; 32]))
      by (change (length content_length_name) with 14%nat; cbn [length]; lia). exact Hdig.
  - done.
  - lia.
  - lia.
Qed.

(** A reason phrase the parser takes: no control characters. *)
Definition reason_ok (reason : list Z) : Prop := Forall (fun c => is_control c = false) reason.

Lemma reason_no_cr reason : reason_ok reason -> Forall (fun c => c <> 13) reason.
Proof. intros H. apply (Forall_impl _ _ _ H). by intros c Hc ->. Qed.

Lemma status_digits_value code :
  0 <= code <= 999 ->
  (48 + code / 100 - 48) * 100 + (48 + code / 10 mod 10 - 48) * 10 + (48 + code mod 10 - 48) = code /\
  Forall digit_byte (status_digits code).
Proof.
  intros H. assert (E : code / 10 = code / 100 * 10 + code / 10 mod 10).
  { pose proof (Z.div_mod (code / 10) 10 ltac:(lia)). rewrite Z.div_div in * by lia. change (10 * 10) with 100 in *. lia. }
  pose proof (Z.div_mod code 10 ltac:(lia)). pose proof (Z.mod_pos_bound code 10 ltac:(lia)).
  pose proof (Z.mod_pos_bound (code / 10) 10 ltac:(lia)).
  assert (0 <= code / 100 <= 9) by (split; [apply Z.div_pos; lia|]; apply Z.lt_succ_r, Z.div_lt_upper_bound; lia).
  split; [lia|]. unfold digit_byte, status_digits. repeat apply Forall_cons_2; try constructor; lia.
Qed.

Lemma status_line_at bytes p code reason response :
  at_ bytes p (status_line code reason) -> 100 <= code <= 599 -> reason_ok reason ->
  parse_status_line bytes p (p + Z.of_nat (length (status_line code reason))) response =
    Some (HTTP_CLIENT_ERROR_NONE,
          set_reason (p + 13) (Z.of_nat (length reason)) (set_status 1 code response)).
Proof.
  intros H Hc Hr. destruct (status_digits_value code ltac:(lia)) as [Hv Hd].
  assert (Hlen : Z.of_nat (length (status_line code reason)) = 13 + Z.of_nat (length reason)).
  { unfold status_line. rewrite !length_app. change (length (cs "HTTP/1.1 ")) with 9%nat. cbn [length status_digits]. lia. }
  rewrite Hlen. unfold parse_status_line. cbv zeta.
  assert (R : forall k b, status_line code reason !! Z.to_nat k = Some b -> 0 <= k -> rd bytes (p + k) = Some b).
  { intros k b Hk Hk0. rewrite <- (at_rd _ _ _ _ _ H Hk). f_equal. lia. }
  pose proof (R 7 49 eq_refl ltac:(done)) as R7. pose proof (R 8 32 eq_refl ltac:(done)) as R8.
  pose proof (R 9 _ eq_refl ltac:(done)) as R9. pose proof (R 10 _ eq_refl ltac:(done)) as R10.
  pose proof (R 11 _ eq_refl ltac:(done)) as R11. pose proof (R 12 32 eq_refl ltac:(done)) as R12. clear R.
  assert (Hreason : at_ bytes (p + 13) reason).
  { change (status_line code reason) with ((cs "HTTP/1.1 " ++ status_digits code ++ [32]) ++ reason) in H.
    apply at_app in H as [_ H]. exact H. }
  change (status_line code reason) with (cs "HTTP/1." ++ [49; 32] ++ status_digits code ++ [32] ++ reason) in H.
  apply at_app in H as [Hpre _].
  unfold status_digits in Hd. apply Forall_cons in Hd as [D1 Hd]. apply Forall_cons in Hd as [D2 Hd].
  apply Forall_cons in Hd as [D3 _].
  assert (Hdigit : forall c, digit_byte c -> in_range 48 57 c = true).
  { unfold digit_byte, in_range. intros c ?. by rewrite !(proj2 (Z.leb_le _ _)) by lia. }
  unfold status_line_ok, digit_at. rewrite (proj2 (Z.ltb_ge _ 12)) by lia. rewrite (matches_at _ _ _ Hpre), some_bind. cbn [negb].
  rewrite R8, R9, R10, R11, R12, !some_bind, Z.eqb_refl, !Hdigit by done. cbn [negb].
  rewrite (proj2 (Z.ltb_lt 12 _)) by lia. rewrite some_bind. cbn [negb]. rewrite R7, some_bind.
  change (49 =? 48) with false. change (49 =? 49) with true. cbn [negb andb].
  replace (Z.to_nat _) with (length reason) by lia. rewrite no_control_at by done. rewrite some_bind. cbn [negb].
  rewrite ?some_bind, Hv. rewrite (proj2 (Z.ltb_ge code 100)), (proj2 (Z.ltb_ge 599 code)) by lia.
  cbn [orb]. do 3 f_equal. lia.
Qed.

Lemma no_cr_literal l : forallb (fun c => negb (c =? 13)) l = true -> Forall (fun c => c <> 13) l.
Proof.
  intros H. apply Forall_forall. intros c Hc%list_elem_of_In. eapply forallb_forall in H; [|exact Hc].
  by apply negb_true_iff, Z.eqb_neq in H.
Qed.

Lemma digits_no_cr l : Forall digit_byte l -> Forall (fun c => c <> 13) l.
Proof. intros H. apply (Forall_impl _ _ _ H). unfold digit_byte. lia. Qed.

Lemma status_line_no_cr code reason : 0 <= code <= 999 -> reason_ok reason -> Forall (fun c => c <> 13) (status_line code reason).
Proof.
  intros Hc Hr. destruct (status_digits_value code Hc) as [_ Hd]. unfold status_line.
  repeat apply Forall_app_2; [by apply no_cr_literal|by apply digits_no_cr|by apply no_cr_literal|by apply reason_no_cr].
Qed.

Lemma length_field_no_cr n : 0 <= n <= SIZE_MAX -> Forall (fun c => c <> 13) (length_field n).
Proof.
  intros Hn. destruct (print_decimal_spec 20 n) as (_ & Hd & _); [unfold SIZE_MAX in Hn; lia|lia|].
  apply Forall_app_2; [by apply no_cr_literal|by apply digits_no_cr].
Qed.

(** The empty line is not found inside the line break of the status line. *)
Lemma separator_behind_field m bytes p n :
  0 <= n <= SIZE_MAX -> at_ bytes p (CRLF ++ length_field n ++ CRLF ++ CRLF) -> (length (length_field n) + 2 < m)%nat ->
  find_pattern (CRLF ++ CRLF) m bytes p = Some (Some (p + 2 + Z.of_nat (length (length_field n)))).
Proof.
  intros Hn H Hm. destruct m as [|m]; [lia|]. cbn [find_pattern].
  pose proof (at_rd _ _ _ 0%nat _ H eq_refl) as R0. pose proof (at_rd _ _ _ 1%nat _ H eq_refl) as R1.
  pose proof (at_rd _ _ _ 2%nat 67 H eq_refl) as R2.
  replace (p + Z.of_nat 0) with p in R0 by lia. replace (p + Z.of_nat 1) with (p + 1) in R1 by lia.
  replace (p + Z.of_nat 2) with (p + 1 + 1) in R2 by lia.
  cbn [matches CRLF app]. rewrite R0, some_bind, Z.eqb_refl, R1, some_bind, Z.eqb_refl, R2, some_bind.
  change (67 =? 13) with false. cbv iota. rewrite some_bind.
  change [13; 10; 13; 10] with (CRLF ++ CRLF).
  rewrite (find_separator_at _ _ _ (10 :: length_field n)).
  - do 2 f_equal. cbn [length]. lia.
  - apply (at_cons bytes p 13 (10 :: length_field n ++ CRLF ++ CRLF)) in H as [_ H]. exact H.
  - apply Forall_cons_2; [done|by apply length_field_no_cr].
  - cbn [length]. lia.
Qed.

Definition served (code : Z) (reason : list Z) (n : Z) : http_response :=
  let line := Z.of_nat (length (status_line code reason)) in
  set_chunked_transfer false (set_content_length n (set_fields (line + 2) (Z.of_nat (length (length_field n)))
    (set_reason 13 (Z.of_nat (length reason)) (set_status 1 code clear_response)))).

Lemma response_head_at bytes L limit code reason n :
  at_ bytes 0 (response_head code reason n) -> Z.of_nat (length (response_head code reason n)) <= limit <= L ->
  100 <= code <= 599 -> reason_ok reason -> 0 <= n <= SIZE_MAX ->
  parse_response_head bytes L 0 limit clear_response 0 =
    Some (HTTP_CLIENT_ERROR_NONE, served code reason n, Z.of_nat (length (response_head code reason n))).
Proof.
  intros H Hlim Hc Hr Hn. unfold response_head in *. unfold served. rewrite !length_app in *. cbn [CRLF length] in *.
  rewrite !Nat2Z.inj_add in *. change (Z.of_nat 2) with 2 in *.
  pose proof (status_line_no_cr code reason ltac:(lia) Hr) as Hcr1. pose proof (length_field_no_cr n Hn) as Hcr2.
  assert (Hst : parse_status_line bytes 0 (Z.of_nat (length (status_line code reason))) clear_response =
    Some (HTTP_CLIENT_ERROR_NONE, set_reason 13 (Z.of_nat (length reason)) (set_status 1 code clear_response))).
  { pose proof (status_line_at bytes 0 code reason clear_response) as E. rewrite !Z.add_0_l in E. apply E; [|done|done].
    by apply at_app in H as [H _]. }
  assert (Hfield : 0 < Z.of_nat (length (length_field n))).
  { unfold length_field. rewrite length_app. change (length (cs "Content-Length: ")) with 16%nat. lia. }
  assert (Hcrlf : find_crlf bytes 0 limit = Some (Some (Z.of_nat (length (status_line code reason))))).
  { rewrite (find_crlf_at _ _ _ (status_line code reason)); [done| |done|lia].
    rewrite app_assoc in H. by apply at_app in H as [H _]. }
  apply at_app in H as [_ H]. rewrite Z.add_0_l in H.
  assert (Hp : 0 <= Z.of_nat (length (status_line code reason))) by lia.
  revert Hp Hst Hcrlf H Hlim. generalize (Z.of_nat (length (status_line code reason))) as p.
  intros p Hp Hst Hcrlf H Hlim.
  unfold parse_response_head. cbv zeta. rewrite (proj2 (Z.leb_gt L 0)), (proj2 (Z.leb_gt limit 0)) by lia. cbn [orb].
  rewrite Hcrlf, some_bind, Hst, some_bind. rewrite bool_decide_eq_true_2 by done. cbn [negb].
  unfold find_header_separator. rewrite (separator_behind_field _ _ _ n Hn H) by lia. rewrite some_bind.
  rewrite (proj2 (Z.ltb_ge L _)), (proj2 (Z.ltb_ge (p + 2 + _) (p + 2))) by lia.
  apply at_app in H as [_ H]. cbn [CRLF length] in H. change (Z.of_nat 2) with 2 in H. apply at_app in H as [H _].
  cbn [parse_header_lines]. rewrite (proj2 (Z.ltb_lt (p + 2) _)) by lia.
  unfold find_crlf. rewrite (find_crlf_none _ _ _ (length_field n) H Hcr2) by lia. rewrite some_bind. cbn [default].
  rewrite (proj2 (Z.eqb_neq _ (p + 2))) by lia. rewrite content_length_line by done. rewrite some_bind.
  rewrite bool_decide_eq_true_2, Z.eqb_refl by done. cbn [negb].
  assert (Hend : forall fuel e r c, parse_header_lines fuel bytes e e r c = Some (HTTP_CLIENT_ERROR_NONE, r, c)).
  { intros [|fuel] e r c; cbn [parse_header_lines]; by rewrite Z.ltb_irrefl. }
  rewrite Hend, some_bind. rewrite bool_decide_eq_true_2 by done. cbn [negb].
  unfold check_framing. cbn [has_transfer_encoding has_content_length set_content_length set_fields set_reason set_status
    clear_response andb unsupported_transfer_coding empty_context has_location]. cbv zeta.
  cbn [has_location set_chunked_transfer set_content_length set_fields set_reason set_status clear_response].
  rewrite andb_false_r, some_bind. f_equal. f_equal; [|lia]. f_equal. do 3 f_equal. lia.
Qed.
