(* ===== verification/HttpClaims.v ===== *)
(** * kernel/http_client.c: whole responses, requests and exchanges

    What holds of accepted responses; then the properties of the client. *)

From S2P Require Import Prelude TcpState TcpClient TcpReceive TcpClaims HttpText HttpParse HttpClient HttpSafe HttpDecode HttpServe.

(** ** Accepted responses *)

(** The body of an accepted response of [L] bytes: none after 204 and 304, else the decoded chunks, exactly the
    bytes of the Content-Length, or everything up to the end of the connection. *)
Definition body_framed (L : Z) (r : http_response) : Prop :=
  exists start, body r = Some start /\ 0 <= start <= L /\
    if (status_code r =? 204) || (status_code r =? 304) then start = L /\ body_length r = 0
    else if chunked_transfer r then 0 <= body_length r <= L - start
    else if has_content_length r then content_length r = L - start /\ body_length r = L - start
    else body_length r = L - start.

Definition accepted (L : Z) (r : http_response) : Prop :=
  head_ok r /\ 200 <= status_code r /\ body_framed L r.

(** The buffer differs at most in the body of a chunked response. *)
Definition touched (bytes moved : list Z) (r : http_response) : Prop :=
  length moved = length bytes /\ (bytes_ok bytes -> bytes_ok moved) /\
  (chunked_transfer r = false -> moved = bytes) /\
  forall k, (forall start, body r = Some start -> k < start \/ start + body_length r <= k) -> rd moved k = rd bytes k.

Lemma touched_refl bytes r : touched bytes bytes r.
Proof. by split_and!. Qed.

Lemma parse_body_spec bytes L start r :
  0 <= start <= L -> L <= Z.of_nat (length bytes) -> response_in L r -> body_length r = 0 ->
  head_ok r -> 200 <= status_code r ->
  exists e moved r', parse_body bytes L start r = Some (e, moved, r') /\ response_in L r' /\ touched bytes moved r' /\
    (e <> HTTP_CLIENT_ERROR_NONE -> moved = bytes) /\ (e = HTTP_CLIENT_ERROR_NONE -> accepted L r').
Proof.
  intros Hs HL Hr Hb Hh H200. unfold parse_body. cbv zeta. cbn [status_code set_body chunked_transfer has_content_length content_length].
  assert (Hin : response_in L (set_body start r)).
  { destruct Hr as (? & ? & _ & ? & ?). split_and!; cbn; try done. rewrite Hb. apply field_in_Some; lia. }
  assert (Hset : forall n, 0 <= n -> start + n <= L -> response_in L (set_body_length n (set_body start r))).
  { intros n Hn Hn'. destruct Hr as (? & ? & _ & ? & ?). split_and!; cbn; try done. apply field_in_Some; lia. }
  assert (Hacc : forall n, (if (status_code r =? 204) || (status_code r =? 304) then start = L /\ n = 0
      else if chunked_transfer r then 0 <= n <= L - start
      else if has_content_length r then content_length r = L - start /\ n = L - start
      else n = L - start) -> accepted L (set_body_length n (set_body start r))).
  { intros n Hn. split; [exact Hh|]. split; [exact H200|]. exists start. by split. }
  destruct ((status_code r =? 204) || (status_code r =? 304)).
  { destruct (Z.eqb_spec (L - start) 0); cbn [negb].
    - do 3 eexists. split; [done|]. split; [apply Hset; lia|]. split; [apply touched_refl|]. split; [done|].
      intros _. apply Hacc. lia.
    - do 3 eexists. split; [done|]. split; [done|]. split; [apply touched_refl|]. by split. }
  destruct (chunked_transfer r) eqn:Ec.
  { destruct (decode_chunked_body_spec start bytes (L - start)) as (e & moved & d & -> & Hlen & Hok & Hne & Hd); [lia..|].
    rewrite some_bind. cbn [content_length]. do 3 eexists. split; [done|].
    destruct (decide (e = HTTP_CLIENT_ERROR_NONE)) as [->|He].
    - destruct (Hd eq_refl) as [Hd' Hrd]. split; [apply Hset; lia|].
      split; [split_and!; [done|done|cbn; congruence|]|].
      + intros k Hk. apply Hrd. cbn in Hk. by apply Hk.
      + split; [done|]. intros _. by apply Hacc.
    - destruct (Hne He) as [-> ->]. split; [apply Hset; lia|]. split; [apply touched_refl|]. by split. }
  destruct (has_content_length r) eqn:El.
  { destruct (Z.ltb_spec (L - start) (content_length r)).
    { do 3 eexists. split; [done|]. split; [done|]. split; [apply touched_refl|]. by split. }
    destruct (Z.ltb_spec (content_length r) (L - start)).
    { do 3 eexists. split; [done|]. split; [done|]. split; [apply touched_refl|]. by split. }
    assert (content_length r = L - start) as Hcl by lia.
    do 3 eexists. split; [done|]. split; [apply Hset; lia|]. split; [apply touched_refl|]. split; [done|].
    intros _. by apply Hacc. }
  do 3 eexists. split; [done|]. split; [apply Hset; lia|]. split; [apply touched_refl|]. split; [done|].
  intros _. by apply Hacc.
Qed.

(** The parser on any bytes. *)
Lemma parse_response_spec bytes L :
  0 <= L <= Z.of_nat (length bytes) ->
  exists e moved r, http_client_parse_response (Some bytes) L = Some (e, Some moved, r) /\ response_in L r /\
    touched bytes moved r /\ (e <> HTTP_CLIENT_ERROR_NONE -> moved = bytes) /\
    (e = HTTP_CLIENT_ERROR_NONE -> accepted L r).
Proof.
  intros HL. unfold http_client_parse_response.
  assert (Hclear : forall e r, e <> HTTP_CLIENT_ERROR_NONE -> response_in L r ->
    exists e' moved r', Some (e, Some bytes, r) = Some (e', Some moved, r') /\ response_in L r' /\
      touched bytes moved r' /\ (e' <> HTTP_CLIENT_ERROR_NONE -> moved = bytes) /\
      (e' = HTTP_CLIENT_ERROR_NONE -> accepted L r')).
  { intros e r He Hr. do 3 eexists. split; [done|]. split; [done|]. split; [apply touched_refl|]. by split. }
  destruct (Z.eqb_spec L 0); [apply Hclear; [done|apply clear_response_in]|].
  destruct (parse_heads_total HEADS_FUEL bytes L 0 0 0) as (e & r & s & -> & Hr & Hb & Hok); [lia|lia|lia|done|].
  rewrite some_bind. destruct (bool_decide_reflect (e = HTTP_CLIENT_ERROR_NONE)) as [->|Hne]; cbn [negb]; [|by apply Hclear].
  specialize (Hok eq_refl) as (Hs & Hh & H200).
  destruct (parse_body_spec bytes L s r) as (e & moved & r' & -> & H); [lia|lia|done|done|done|done|].
  rewrite some_bind. by exists e, moved, r'.
Qed.

(** What a caller is shown early of a response that is later accepted, unless it is chunked. *)
Lemma body_progress_accepted bytes L capacity moved r :
  0 < L <= Z.of_nat (length bytes) -> 0 < capacity ->
  http_client_parse_response (Some bytes) L = Some (HTTP_CLIENT_ERROR_NONE, moved, r) -> chunked_transfer r = false ->
  http_client_response_body_progress (Some bytes) L capacity = Some (Z.min capacity (body_length r)).
Proof.
  intros HL Hc. unfold http_client_parse_response, http_client_response_body_progress.
  rewrite (proj2 (Z.eqb_neq L 0)), (proj2 (Z.eqb_neq capacity 0)) by lia. cbn [orb].
  destruct (parse_heads_total HEADS_FUEL bytes L 0 0 0) as (e & r1 & s & -> & Hr & Hb & Hok); [lia|lia|lia|done|].
  rewrite !some_bind. destruct (bool_decide_reflect (e = HTTP_CLIENT_ERROR_NONE)) as [->|Hne]; cbn [negb];
    [|by intros [=]].
  specialize (Hok eq_refl) as (Hs & _). unfold parse_body. cbv zeta.
  cbn [status_code set_body chunked_transfer has_content_length content_length].
  rewrite (proj2 (Z.ltb_ge L s)) by lia. rewrite orb_false_r.
  destruct (status_code r1 =? 204) eqn:E204; cbn [orb].
  { destruct (negb _); [by intros [=]|]. rewrite some_bind. intros [= _ <-]. cbn. intros ->. cbn [orb].
    f_equal. lia. }
  destruct (status_code r1 =? 304) eqn:E304; cbn [orb].
  { destruct (negb _); [by intros [=]|]. rewrite some_bind. intros [= _ <-]. cbn. intros ->. cbn [orb].
    f_equal. lia. }
  destruct (chunked_transfer r1) eqn:Ech; cbn [orb].
  { destruct (decode_chunked_body s bytes (L - s)) as [[[e m] d]|]; [|done]. rewrite !some_bind.
    intros [= _ _ <-]. cbn. congruence. }
  destruct (has_content_length r1); cbn [andb].
  - destruct (Z.ltb_spec (L - s) (content_length r1)); [by intros [=]|].
    destruct (Z.ltb_spec (content_length r1) (L - s)); [by intros [=]|]. rewrite some_bind.
    intros [= _ <-] _. cbn. f_equal. destruct (Z.ltb_spec capacity (L - s)); lia.
  - rewrite some_bind. intros [= _ <-] _. cbn. f_equal. destruct (Z.ltb_spec capacity (L - s)); lia.
Qed.

(** ** Requests *)

(** The request as RFC 9112 writes it. *)
Definition request_text (path host : list Z) : list Z :=
  cs "GET " ++ path ++ cs " HTTP/1.1" ++ CRLF ++
  cs "Host: " ++ host ++ CRLF ++
  cs "Connection: close" ++ CRLF ++
  cs "User-Agent: Nostalux/1.0" ++ CRLF ++
  cs "Accept: */*" ++ CRLF ++ CRLF.

(** The request for a host and a path. *)
Definition request_of (host path : option (list Z)) : list Z :=
  request_text (cstr (default [] path)) (cstr (default [] host)).

Lemma append_bytes_spec output n bytes :
  0 <= n <= Z.of_nat (length output) ->
  append_bytes output (Z.of_nat (length output)) n bytes =
    if Z.of_nat (length output) - n <? Z.of_nat (length bytes) then Some (false, output, n)
    else Some (true, memcpy_at output (Z.to_nat n) bytes, n + Z.of_nat (length bytes)).
Proof.
  intros Hn. unfold append_bytes. cbv zeta. rewrite (proj2 (Z.ltb_ge _ n)) by lia. cbn [orb].
  destruct (Z.ltb_spec (Z.of_nat (length output) - n) (Z.of_nat (length bytes))); [done|].
  unfold copy_checked. rewrite !(proj2 (Z.leb_le _ _)) by lia. cbn [andb]. rewrite some_bind. do 3 f_equal.
  f_equal. rewrite Nat2Z.id. unfold slice. apply take_ge. cbn. lia.
Qed.

(** The texts are appended while they fit. *)
Lemma append_texts_spec texts output n :
  0 <= n <= Z.of_nat (length output) ->
  exists b output' m, append_texts output (Z.of_nat (length output)) n texts = Some (b, output', m) /\
    length output' = length output /\ (Forall bytes_ok texts -> bytes_ok output -> bytes_ok output') /\
    (if b then m = n + Z.of_nat (length (concat texts)) /\ m <= Z.of_nat (length output) /\
       take (Z.to_nat m) output' = take (Z.to_nat n) output ++ concat texts
     else Z.of_nat (length output) < n + Z.of_nat (length (concat texts))).
Proof.
  revert output n. induction texts as [|t texts IH]; intros output n Hn; cbn [append_texts concat].
  { exists true, output, n. split; [done|]. split; [done|]. split; [done|]. rewrite app_nil_r. cbn. split; [lia|]. by split; [lia|]. }
  rewrite append_bytes_spec by done. rewrite length_app.
  destruct (Z.ltb_spec (Z.of_nat (length output) - n) (Z.of_nat (length t))) as [Hlt|Hge]; rewrite some_bind.
  { exists false, output, n. split; [done|]. split; [done|]. split; [done|]. lia. }
  assert (Hlen : length (memcpy_at output (Z.to_nat n) t) = length output) by (apply length_memcpy_at; lia).
  destruct (IH (memcpy_at output (Z.to_nat n) t) (n + Z.of_nat (length t))) as (b & out & m & E & Hl & Hok & H); [lia|].
  rewrite Hlen in *. exists b, out, m. split; [exact E|]. split; [congruence|].
  split; [intros [? ?]%Forall_cons ?; apply Hok; [done|by apply memcpy_at_Forall]|]. destruct b; [|lia].
  destruct H as (-> & Hm & Ht). split; [lia|]. split; [done|]. rewrite Ht.
  replace (Z.to_nat (n + Z.of_nat (length t))) with (Z.to_nat n + length t)%nat by lia.
  by rewrite take_memcpy, app_assoc by lia.
Qed.

Lemma valid_host_visible host : valid_host host = true -> Forall (fun c => 32 < c < 127) (cstr (default [] host)).
Proof.
  destruct host as [h|]; [|done]. cbn [valid_host default from_option id]. destruct (cstr h) as [|c l]; [done|].
  intros H. apply Forall_forall. intros x Hx%list_elem_of_In. eapply forallb_forall in H; [|exact Hx].
  apply andb_true_iff in H as [H _]. unfold visible in H. lia.
Qed.

Lemma valid_path_visible path : valid_path path = true -> Forall (fun c => 32 < c < 127) (cstr (default [] path)).
Proof.
  destruct path as [p|]; [|done]. cbn [valid_path default from_option id]. destruct (cstr p) as [|c l]; [done|].
  intros [_ H]%andb_true_iff. apply Forall_forall. intros x Hx%list_elem_of_In. eapply forallb_forall in H; [|exact Hx].
  unfold visible in H. lia.
Qed.

Lemma visible_bytes_ok l : Forall (fun c => 32 < c < 127) l -> bytes_ok l.
Proof. intros H. apply (Forall_impl _ _ _ H). unfold byte_ok. lia. Qed.

(** The request is built when the host and the path are valid and the text fits. *)
Lemma build_get_spec host path output :
  exists e output' n,
    http_client_build_get host path (Some output) (Z.of_nat (length output)) true = Some (e, Some output', n) /\
    length output' = length output /\ (bytes_ok output -> bytes_ok output') /\
    e = (if negb (valid_host host) then HTTP_CLIENT_ERROR_INVALID_HOST
         else if negb (valid_path path) then HTTP_CLIENT_ERROR_INVALID_PATH
         else if (length output <? length (request_of host path))%nat then HTTP_CLIENT_ERROR_REQUEST_TOO_LARGE
         else HTTP_CLIENT_ERROR_NONE) /\
    (e = HTTP_CLIENT_ERROR_NONE ->
       n = Z.of_nat (length (request_of host path)) /\ take (Z.to_nat n) output' = request_of host path).
Proof.
  unfold http_client_build_get. cbn [negb].
  destruct (valid_host host) eqn:Eh; cbn [negb]; [|by do 3 eexists; split_and!].
  destruct (valid_path path) eqn:Ep; cbn [negb]; [|by do 3 eexists; split_and!].
  set (texts := [request_prefix; _; _; _; _]).
  assert (Hok : Forall bytes_ok texts).
  { apply Forall_cons_2; [by apply bytes_okb_true|].
    apply Forall_cons_2; [by apply visible_bytes_ok, valid_path_visible|].
    apply Forall_cons_2; [by apply bytes_okb_true|].
    apply Forall_cons_2; [by apply visible_bytes_ok, valid_host_visible|].
    apply Forall_cons_2; [by apply bytes_okb_true|constructor]. }
  assert (Ht : concat texts = request_of host path).
  { unfold texts, request_of, request_text, request_prefix, host_prefix, request_suffix. cbn [concat].
    by rewrite <- !app_assoc, app_nil_r. }
  destruct (append_texts_spec texts output 0) as (b & out & m & -> & Hl & Hbok & H); [lia|].
  specialize (Hbok Hok). rewrite Ht in H. clear Hok. clearbody texts. clear Ht. generalize dependent (request_of host path). intros text H.
  rewrite some_bind. destruct b; cbn [negb].
  - destruct H as (-> & Hm & Htake). rewrite Z.add_0_l in *.
    assert (Hw : exists out', (if Z.of_nat (length text) <? Z.of_nat (length output)
        then wr out (Z.of_nat (length text)) 0 else Some out) = Some out' /\ length out' = length out /\ (bytes_ok out -> bytes_ok out') /\
        take (length text) out' = take (length text) out).
    { destruct (Z.ltb_spec (Z.of_nat (length text)) (Z.of_nat (length output))); [|by exists out].
      rewrite wr_Some by lia. eexists. split; [done|]. split; [by rewrite length_insert|].
      split; [intros ?; by apply Forall_insert|]. by rewrite take_insert_ge by lia. }
    destruct Hw as (out' & -> & Hl' & Hok' & Htk). rewrite some_bind. do 3 eexists. split; [done|]. split; [congruence|]. split; [auto|].
    rewrite (proj2 (Nat.ltb_ge _ _)) by lia. split; [done|]. intros _. split; [done|].
    rewrite Nat2Z.id in *. by rewrite Htk, Htake.
  - do 3 eexists. split; [done|]. split; [done|]. split; [done|]. by rewrite (proj2 (Nat.ltb_lt _ _)) by lia.
Qed.

(** Cutting at spaces and line breaks: no valid host or path adds a cut. *)
Lemma no_separator l : Forall (fun c => 32 < c < 127) l -> filter (fun c => c <= 32 \/ 127 <= c) l = [].
Proof.
  induction 1 as [|c l Hc _ IH]; [done|]. rewrite filter_cons_False by lia. exact IH.
Qed.

Definition separators (l : list Z) : list Z := filter (fun c => c <= 32 \/ 127 <= c) l.

Lemma request_separators host path :
  valid_host host = true -> valid_path path = true ->
  separators (request_of host path) = separators (request_text [] []).
Proof.
  intros Hh%valid_host_visible%no_separator Hp%valid_path_visible%no_separator.
  unfold separators, request_of, request_text. rewrite !filter_app, Hh, Hp. done.
Qed.

(** ** The whole exchange *)

Section Get.
Context {W : Type} (send_ipv4 : Z -> Z -> list Z -> W -> bool * W) (now_ms : W -> Z * W).
Context (poll : tcp_client -> W -> option (tcp_client * W)) (Hpoll : poll_ok poll).

(** A blocking step that reaches [G], and what follows it. *)
Lemma tcp_step_returns {A} (G : tcp_client -> Prop) (Q : A -> Prop) step c w failed next :
  (exists b c' w', step c w = Some (b, c', w') /\ client_ok c' /\ setup c' = setup c /\ (b = true -> G c')) ->
  (forall c' w', Q (failed c' w')) ->
  (forall c' w', client_ok c' -> setup c' = setup c -> G c' -> exists a, next c' w' = Some a /\ Q a) ->
  exists a, tcp_step (W:=W) step c w failed next = Some a /\ Q a.
Proof.
  intros (b & c' & w' & E & Hc & Hset & Hb) Hf Hn. unfold tcp_step. rewrite E, some_bind. destruct b; [|eauto].
  by apply Hn; [..|apply Hb].
Qed.

(** Nothing is sent for a request that cannot be built; an accepted response is in the received bytes of a
    connection that both sides have closed. *)
Lemma http_client_get_spec fuel c ip port iss host path output w :
  client_ok c -> 0 < rounds c <= Z.of_nat fuel -> u32_ok iss -> bytes_ok output ->
  exists result, http_client_get send_ipv4 now_ms poll fuel c ip port iss host path (Some output)
      (Z.of_nat (length output)) w = Some result /\
    let '(e, r, c', _, w') := result in
    (valid_host host && valid_path path = false -> c' = c /\ w' = w) /\
    (e = HTTP_CLIENT_ERROR_NONE -> state c' = TCP_CLIENT_CLOSED /\ accepted (receive_length c') r).
Proof.
  intros Hc Hf Hi Hb. unfold http_client_get.
  destruct (build_get_spec host path output) as (e & out & n & -> & Hl & Hbok & He & Hn). rewrite some_bind.
  destruct (bool_decide_reflect (e = HTTP_CLIENT_ERROR_NONE)) as [->|Hne]; cbn [negb].
  2:{ eexists. split; [done|]. cbn. split; [done|]. by intros. }
  destruct (Hn eq_refl) as [-> Htake].
  destruct (valid_host host); [|done]. destruct (valid_path path); [|done]. cbn [negb andb] in *. clear Hn.
  assert (Hlen : (length (request_of host path) <= length out)%nat).
  { destruct (Nat.ltb_spec (length output) (length (request_of host path))); [done|lia]. }
  cbv zeta.
  apply (tcp_step_returns (fun _ => True)).
  { destruct (blocking_returns send_ipv4 now_ms poll Hpoll Opening TCP_CLIENT_OPERATION_CONNECT fuel
      (begin_connect send_ipv4 now_ms ip port iss) c w Hc Hf) as (b & c1 & w1 & E & H1 & H2 & _);
      [by apply begin_connect_ok|]. by exists b, c1, w1. }
  { intros. by split. }
  intros c1 w1 Hc1 Hs1 _. rewrite <- (rounds_frame _ _ Hs1) in Hf.
  apply (tcp_step_returns (fun _ => True)).
  { destruct (tcp_client_send_returns send_ipv4 now_ms poll Hpoll fuel (Some out) (Z.of_nat (length (request_of host path)))
      c1 w1 Hc1 Hf) as (b & c2 & w2 & E & H1 & H2 & _); [lia| |by exists b, c2, w2].
    intros bytes [= <-]. split; [by apply Hbok|lia]. }
  { intros. by split. }
  intros c2 w2 Hc2 Hs2 _. rewrite <- (rounds_frame _ _ Hs2) in Hf.
  apply (tcp_step_returns (fun _ => True)).
  { destruct (blocking_returns send_ipv4 now_ms poll Hpoll Failure TCP_CLIENT_OPERATION_WAIT_FOR_PEER_CLOSE fuel
      (begin_wait_for_peer_close now_ms) c2 w2 Hc2 Hf) as (b & c3 & w3 & E & H1 & H2 & _);
      [by apply begin_wait_for_peer_close_ok|]. by exists b, c3, w3. }
  { intros. by split. }
  intros c3 w3 Hc3 Hs3 _. rewrite <- (rounds_frame _ _ Hs3) in Hf.
  apply (tcp_step_returns (fun c => state c = TCP_CLIENT_CLOSED)).
  { destruct (blocking_returns send_ipv4 now_ms poll Hpoll Closing TCP_CLIENT_OPERATION_CLOSE fuel
      (begin_close send_ipv4 now_ms) c3 w3 Hc3 Hf) as (b & c4 & w4 & E & H1 & H2 & Hb4); [by apply begin_close_ok|].
    exists b, c4, w4. split; [exact E|]. split; [done|]. split; [done|]. intros Hbt. destruct (Hb4 Hbt) as [Ho Hg].
    unfold operation_goal_reached in Hg. rewrite Ho in Hg. by apply bool_decide_eq_true in Hg. }
  { intros. by split. }
  intros c4 w4 Hc4 Hs4 Hst.
  unfold tcp_client_received_data, tcp_client_received_length. cbn [from_option]. rewrite some_bind.
  pose proof (ok_buffer _ (ok_base _ Hc4)) as Hbuf. pose proof (ok_capacity _ (ok_base _ Hc4)) as [Hcap _].
  destruct (receive_buffer c4) as [bytes|].
  - destruct (parse_response_spec bytes (receive_length c4)) as (e & moved & r & -> & _ & _ & _ & Hacc);
      [rewrite (Hbuf _ eq_refl); lia|].
    rewrite some_bind. eexists. split; [done|]. split; [done|]. intros E. by split; [|apply Hacc].
  - cbn [http_client_parse_response]. rewrite some_bind. eexists. by split.
Qed.
End Get.

(** * The HTTP client: its properties

    The theorems about [kernel/http_client.c], each with a concrete run. *)

(** ** Responses *)

(** C31: whatever bytes a server sends, the parser returns without an access outside the first
    [response_length] bytes of the buffer; every pointer it sets lies inside them; a response it refuses
    leaves the buffer as it was; and of one it accepts only the body of a chunked transfer is rewritten. *)
Theorem http_parse_response_safe bytes response_length :
  0 <= response_length <= Z.of_nat (length bytes) ->
  exists e moved r, http_client_parse_response (Some bytes) response_length = Some (e, Some moved, r) /\
    response_in response_length r /\ (e <> HTTP_CLIENT_ERROR_NONE -> moved = bytes) /\ touched bytes moved r.
Proof.
  intros HL. destruct (parse_response_spec bytes response_length HL) as (e & moved & r & E & H1 & H2 & H3 & _).
  by exists e, moved, r.
Qed.

(** A chunked response and its length. *)
Definition demo_chunked : list Z :=
  cs "HTTP/1.1 200 OK" ++ CRLF ++ cs "Transfer-Encoding: chunked" ++ CRLF ++ CRLF ++
  encode_chunked [cs "Nosta"; cs "lux"].
Definition demo_chunked_length : Z := Z.of_nat (length demo_chunked).

Lemma http_parse_response_safe_witness :
  exists e moved r, http_client_parse_response (Some demo_chunked) demo_chunked_length = Some (e, Some moved, r) /\
    response_in demo_chunked_length r.
Proof.
  destruct (http_parse_response_safe demo_chunked demo_chunked_length) as (e & moved & r & E & H & _); [by vm_compute|].
  by exists e, moved, r.
Defined.

Example demo_chunked_body :
  (fun '(e, moved, r) => (e, body_length r, slice (default [] moved) (Z.to_nat (default 0 (body r))) 8))
    <$> http_client_parse_response (Some demo_chunked) demo_chunked_length
  = Some (HTTP_CLIENT_ERROR_NONE, 8, cs "Nostalux").
Proof. by vm_compute. Qed.

(** C34: an accepted response is final and speaks HTTP/1.0 or 1.1, and its end is not ambiguous: it never carries both a
    Transfer-Encoding and a Content-Length, a body after 204 or 304 is refused, a Content-Length is exactly
    the number of bytes received, and without either the body is all that was received. *)
Theorem http_accepted_response bytes response_length moved r :
  0 <= response_length <= Z.of_nat (length bytes) ->
  http_client_parse_response (Some bytes) response_length = Some (HTTP_CLIENT_ERROR_NONE, moved, r) ->
  accepted response_length r.
Proof.
  intros HL E. destruct (parse_response_spec bytes response_length HL) as (e & m & r' & E' & _ & _ & _ & H).
  rewrite E' in E. injection E as -> _ <-. by apply H.
Qed.

Definition demo_plain : list Z :=
  cs "HTTP/1.1 200 OK" ++ CRLF ++ cs "Content-Length: 3" ++ CRLF ++ CRLF ++ cs "abc".

Lemma http_accepted_response_witness :
  exists moved r, http_client_parse_response (Some demo_plain) (Z.of_nat (length demo_plain)) =
    Some (HTTP_CLIENT_ERROR_NONE, moved, r) /\ accepted (Z.of_nat (length demo_plain)) r.
Proof.
  destruct (http_client_parse_response (Some demo_plain) (Z.of_nat (length demo_plain))) as [[[e moved] r]|] eqn:E;
    [|by vm_compute in E].
  assert (e = HTTP_CLIENT_ERROR_NONE) as -> by (vm_compute in E; congruence).
  exists moved, r. split; [done|]. by apply (http_accepted_response demo_plain _ moved r); [lia|].
Defined.

(** C35: every plain response a server writes - any final status that has a body, any printable reason
    phrase, any data, with its length in a Content-Length field - is accepted as what was written, provided its head is at
    most 8 KiB: the status, the place and the length of the body, and the body's bytes. *)
Theorem http_plain_response_roundtrip code reason data :
  let head := response_head code reason (Z.of_nat (length data)) in
  let bytes := response_text code reason data in
  200 <= code <= 599 -> code <> 204 -> code <> 304 -> reason_ok reason ->
  Z.of_nat (length head) <= HTTP_CLIENT_MAX_HEADER_BYTES -> Z.of_nat (length bytes) <= SIZE_MAX ->
  exists r, http_client_parse_response (Some bytes) (Z.of_nat (length bytes)) =
      Some (HTTP_CLIENT_ERROR_NONE, Some bytes, r) /\
    version_major r = 1 /\ version_minor r = 1 /\ status_code r = code /\
    reason_phrase_length r = Z.of_nat (length reason) /\
    body r = Some (Z.of_nat (length head)) /\ body_length r = Z.of_nat (length data) /\
    slice bytes (length head) (length data) = data.
Proof.
  intros head bytes Hc H204 H304 Hr Hh HM.
  assert (Hlen : Z.of_nat (length bytes) = Z.of_nat (length head) + Z.of_nat (length data)).
  { unfold bytes, response_text. rewrite length_app. fold head. lia. }
  assert (Hat : at_ bytes 0 head) by exact (at_here [] head data).
  assert (Hpos : 0 < Z.of_nat (length head)).
  { unfold head, response_head. rewrite !length_app. cbn [CRLF length]. lia. }
  assert (Hlim : Z.of_nat (length head) <= header_limit_of (Z.of_nat (length bytes)) <= Z.of_nat (length bytes)).
  { split; [|apply header_limit_of_le]. unfold header_limit_of.
    destruct (Z.ltb_spec (Z.of_nat (length bytes)) HTTP_CLIENT_MAX_HEADER_BYTES); lia. }
  exists (set_body_length (Z.of_nat (length data)) (set_body (Z.of_nat (length head)) (served code reason (Z.of_nat (length data))))).
  split; [|split_and!; try done].
  - unfold http_client_parse_response. rewrite (proj2 (Z.eqb_neq _ 0)) by lia. unfold HEADS_FUEL. cbn [parse_heads].
    rewrite (response_head_at _ _ _ _ _ _ Hat Hlim) by (done || lia). fold head. rewrite some_bind.
    rewrite bool_decide_eq_true_2 by done. cbn [negb status_code served set_chunked_transfer set_content_length set_fields
      set_reason set_status]. rewrite (proj2 (Z.leb_le 200 code)) by lia. rewrite some_bind.
    rewrite bool_decide_eq_true_2 by done. cbn [negb]. unfold parse_body. cbv zeta.
    cbn [status_code set_body chunked_transfer has_content_length content_length served set_chunked_transfer
      set_content_length set_fields set_reason set_status].
    rewrite (proj2 (Z.eqb_neq code 204)), (proj2 (Z.eqb_neq code 304)) by done. cbn [orb].
    rewrite (proj2 (Z.ltb_ge (_ - _) _)), (proj2 (Z.ltb_ge _ (_ - _))) by lia. by rewrite some_bind.
  - unfold slice, bytes, response_text. fold head. by rewrite drop_app_length, take_ge by lia.
Qed.

Lemma http_plain_response_roundtrip_witness :
  exists r, http_client_parse_response (Some (response_text 404 (cs "Not Found") [13; 10; 7]))
      (Z.of_nat (length (response_text 404 (cs "Not Found") [13; 10; 7]))) =
    Some (HTTP_CLIENT_ERROR_NONE, Some (response_text 404 (cs "Not Found") [13; 10; 7]), r) /\ body_length r = 3.
Proof.
  destruct (http_plain_response_roundtrip 404 (cs "Not Found") [13; 10; 7]) as (r & E & _ & _ & _ & _ & _ & H & _);
    [lia|lia|lia|by apply (bool_decide_unpack _); vm_compute|by vm_compute|by vm_compute|].
  exists r. split; [exact E|exact H].
Defined.

(** the bytes a caller may show before the response is complete are at most the capacity and the bytes received; and
    of a complete response that is accepted and not chunked they are its whole body, up to the capacity. *)
Theorem http_body_progress bytes response_length capacity :
  0 < response_length <= Z.of_nat (length bytes) -> 0 < capacity ->
  (exists n, http_client_response_body_progress (Some bytes) response_length capacity = Some n /\
     0 <= n <= capacity /\ n <= response_length) /\
  (forall moved r, http_client_parse_response (Some bytes) response_length = Some (HTTP_CLIENT_ERROR_NONE, moved, r) ->
     chunked_transfer r = false ->
     http_client_response_body_progress (Some bytes) response_length capacity = Some (Z.min capacity (body_length r))).
Proof.
  intros HL Hc. split; [by apply body_progress_total; lia|]. intros moved r. by apply body_progress_accepted.
Qed.

Lemma http_body_progress_witness :
  exists n, http_client_response_body_progress (Some demo_plain) (Z.of_nat (length demo_plain)) 2 = Some n /\ 0 <= n <= 2.
Proof.
  destruct (http_body_progress demo_plain (Z.of_nat (length demo_plain)) 2) as [(n & E & H & _) _]; [by vm_compute|lia|].
  by exists n.
Defined.

(** ** Chunked bodies *)

(** C33: the two walks of the decoder agree on any bytes: the compacting walk, which overwrites the buffer it reads,
    ends with the error and the length of the validating walk, writes nothing in front of the body and nothing behind
    the decoded bytes. *)
Theorem http_chunked_walks_agree base bytes encoded_length :
  0 <= base -> 0 <= encoded_length -> base + encoded_length <= Z.of_nat (length bytes) ->
  exists e n moved, walk_chunked_body base bytes encoded_length false = Some (e, bytes, n) /\
    walk_chunked_body base bytes encoded_length true = Some (e, moved, n) /\ length moved = length bytes /\
    (e = HTTP_CLIENT_ERROR_NONE ->
       0 <= n <= encoded_length /\ forall k, k < base \/ base + n <= k -> rd moved k = rd bytes k).
Proof.
  intros Hb Hn Hl. unfold walk_chunked_body.
  destruct (walk_both (S (Z.to_nat encoded_length)) bytes bytes (base + encoded_length) base base 0)
    as (e & d & moved & -> & -> & Hlen & _ & Hd); [unfold span; lia|done|apply agree_refl|lia|lia|].
  rewrite !some_bind. do 3 eexists. split; [done|]. split; [done|]. split; [done|]. intros E.
  rewrite bool_decide_eq_true_2 by done. destruct (Hd E) as [Hd' Hrd]. split; [lia|]. intros k Hk. apply Hrd. lia.
Qed.

Lemma http_chunked_walks_agree_witness :
  exists e n moved, walk_chunked_body 0 (encode_chunked [[7; 8]; [9]]) 18 false = Some (e, encode_chunked [[7; 8]; [9]], n) /\
    walk_chunked_body 0 (encode_chunked [[7; 8]; [9]]) 18 true = Some (e, moved, n).
Proof.
  destruct (http_chunked_walks_agree 0 (encode_chunked [[7; 8]; [9]]) 18) as (e & n & moved & E1 & E2 & _);
    [lia|lia|by vm_compute|]. by exists e, n, moved.
Defined.

(** C32: a body in the chunked coding, whatever its chunks hold - line breaks and size lines included - and wherever
    it lies in the buffer, decodes in place to the concatenation of its chunks, provided no chunk is empty and the
    framing stays within 16 KiB; the bytes in front of it are untouched. *)
Theorem http_chunked_roundtrip before chunks after :
  let bytes := before ++ encode_chunked chunks ++ after in
  let base := Z.of_nat (length before) in
  let decoded := concat chunks in
  bytes_ok bytes -> Z.of_nat (length bytes) <= SIZE_MAX -> Forall (fun chunk => chunk <> []) chunks ->
  framing_bytes chunks <= HTTP_CLIENT_MAX_CHUNK_FRAMING_BYTES ->
  exists moved,
    decode_chunked_body base bytes (Z.of_nat (length (encode_chunked chunks))) =
      Some (HTTP_CLIENT_ERROR_NONE, moved, Z.of_nat (length decoded)) /\
    length moved = length bytes /\ at_ moved base decoded /\ at_ moved 0 before.
Proof.
  intros bytes base decoded Hok HM Hne Hf. subst base decoded.
  assert (Hat : at_ bytes (Z.of_nat (length before)) (encode_chunked chunks)) by apply at_here.
  assert (Hlen : Z.of_nat (length before) + Z.of_nat (length (encode_chunked chunks)) <= Z.of_nat (length bytes)).
  { unfold bytes. rewrite !length_app. lia. }
  pose proof (length_encode_chunked chunks).
  set (n := Z.of_nat (length (encode_chunked chunks))) in *. unfold decode_chunked_body, walk_chunked_body.
  destruct (walk_both (S (Z.to_nat n)) bytes bytes (Z.of_nat (length before) + n) (Z.of_nat (length before))
    (Z.of_nat (length before)) 0) as (e & d & moved & -> & Ew & Hml & _ & _);
    [unfold span; lia|done|apply agree_refl|lia|lia|].
  destruct (walk_encoded chunks (S (Z.to_nat n)) bytes (Z.of_nat (length before)) (Z.of_nat (length before)) 0
    (Z.of_nat (length before) + n)) as (moved' & Ew' & Hfin & Hbelow); [done|done|done|lia|lia|lia|done|lia|lia|].
  rewrite Ew' in Ew. injection Ew as <- <- <-. rewrite some_bind. rewrite bool_decide_eq_true_2 by done. cbn [negb].
  rewrite some_bind. rewrite bool_decide_eq_true_2 by done. cbn [negb]. rewrite Ew', !some_bind.
  rewrite bool_decide_eq_true_2, Z.eqb_refl by done. cbn [negb orb].
  exists moved'. split; [do 2 f_equal; lia|]. split; [done|]. split; [exact Hfin|].
  intros i b Hi. assert (i < length before)%nat by by apply lookup_lt_Some in Hi. rewrite Hbelow by lia.
  exact (at_here [] before (encode_chunked chunks ++ after) i b Hi).
Qed.

Lemma http_chunked_roundtrip_witness :
  exists moved,
    decode_chunked_body 2 ([1; 2] ++ encode_chunked [[13; 10; 48]; [13]] ++ [3]) 19 =
      Some (HTTP_CLIENT_ERROR_NONE, moved, 4) /\ at_ moved 2 [13; 10; 48; 13].
Proof.
  destruct (http_chunked_roundtrip [1; 2] [[13; 10; 48]; [13]] [3]) as (moved & E & _ & H & _).
  - apply bytes_okb_true. by vm_compute.
  - by vm_compute.
  - by apply Forall_cons_2; [|apply Forall_cons_2].
  - by vm_compute.
  - exists moved. split; [exact E|exact H].
Defined.

(** ** Requests *)

(** [http_client_build_get] answers an invalid host, an invalid path and a short buffer with the error of the first of
    these, and otherwise writes exactly the request of RFC 9112 for the two, in which no host or path can add a space, a line
    break or any other control character: those are the ones of the empty request. *)
Theorem http_build_get_exact host path output :
  exists e output' n,
    http_client_build_get host path (Some output) (Z.of_nat (length output)) true = Some (e, Some output', n) /\
    length output' = length output /\
    e = (if negb (valid_host host) then HTTP_CLIENT_ERROR_INVALID_HOST
         else if negb (valid_path path) then HTTP_CLIENT_ERROR_INVALID_PATH
         else if (length output <? length (request_of host path))%nat then HTTP_CLIENT_ERROR_REQUEST_TOO_LARGE
         else HTTP_CLIENT_ERROR_NONE) /\
    (e = HTTP_CLIENT_ERROR_NONE ->
       n = Z.of_nat (length (request_of host path)) /\ take (Z.to_nat n) output' = request_of host path /\
       separators (request_of host path) = separators (request_text [] [])).
Proof.
  destruct (build_get_spec host path output) as (e & out & n & E & Hl & _ & He & Hn).
  exists e, out, n. split; [exact E|]. split; [exact Hl|]. split; [exact He|]. intros H. destruct (Hn H) as [H1 H2].
  split; [exact H1|]. split; [exact H2|]. subst e.
  destruct (valid_host host) eqn:Eh; [|done]. destruct (valid_path path) eqn:Ep; [|done]. by apply request_separators.
Qed.

(** ** The whole exchange *)

(** C36: [http_client_get] returns whatever the network does, within the rounds of the blocking operations; a request that
    cannot be built touches neither the connection nor the network; and when it reports no error the connection is
    closed on both sides and the response is an accepted one within the bytes received. *)
Theorem http_client_get_returns {W} (send_ipv4 : Z -> Z -> list Z -> W -> bool * W) (now_ms : W -> Z * W) poll
    fuel tcp remote_ip remote_port initial_sequence host path output (w : W) :
  poll_ok poll -> client_ok tcp -> 0 < rounds tcp <= Z.of_nat fuel -> u32_ok initial_sequence -> bytes_ok output ->
  exists e r tcp' request w',
    http_client_get send_ipv4 now_ms poll fuel tcp remote_ip remote_port initial_sequence host path (Some output)
      (Z.of_nat (length output)) w = Some (e, r, tcp', request, w') /\
    (valid_host host && valid_path path = false -> tcp' = tcp /\ w' = w) /\
    (e = HTTP_CLIENT_ERROR_NONE -> state tcp' = TCP_CLIENT_CLOSED /\ accepted (receive_length tcp') r).
Proof.
  intros Hpoll Hc Hf Hi Hb.
  destruct (http_client_get_spec send_ipv4 now_ms poll Hpoll fuel tcp remote_ip remote_port initial_sequence host path
    output w Hc Hf Hi Hb) as ([[[[e r] tcp'] request] w'] & E & H). by exists e, r, tcp', request, w'.
Qed.

Lemma http_client_get_returns_witness :
  exists e r tcp' request w',
    http_client_get demo_send demo_now demo_poll (Z.to_nat (rounds demo_client)) demo_client 0x0A000202 80 100
      (Some (cs "example.com")) (Some (cs "/")) (Some (zeros 256)) (Z.of_nat (length (zeros 256))) 7
    = Some (e, r, tcp', request, w').
Proof.
  destruct (http_client_get_returns demo_send demo_now demo_poll (Z.to_nat (rounds demo_client)) demo_client 0x0A000202 80
    100 (Some (cs "example.com")) (Some (cs "/")) (zeros 256) 7 demo_poll_ok demo_client_ok)
    as (e & r & tcp' & request & w' & E & _).
  - assert (0 < rounds demo_client) by (by vm_compute). lia.
  - unfold u32_ok. lia.
  - apply bytes_ok_zeros.
  - by exists e, r, tcp', request, w'.
Defined.
