(* ===== verification/Allocator.v ===== *)
(** * The allocator as its clients see it

    What [kmalloc] and [kfree] promise to the code that calls them: paging,
    the scheduler.  [owns a bs] says that the blocks [bs], given by address and
    size, are the live allocations; the laws are stated up to their order.
    The heap of Heap.v is an instance. *)

From stdpp Require Import gmap sorting.
From S2P Require Import Prelude CString Syslog Heap HeapSpec.

(** Physical addresses a page-table entry can hold. *)
Definition ADDRESS_LIMIT : Z := 2 ^ 52.

(** Where the heap's region starts: static data of the kernel lies below. *)
Definition HEAP_FLOOR : Z := 0x00800000.

Class Allocator (A : Type) := {
  alloc : Z -> A -> option (Z * A);
  release : Z -> A -> option A;
  write_log : list Z -> A -> A;
  owns : A -> list (Z * Z) -> Prop;
}.

Class AllocatorLaws (A : Type) `{Allocator A} := {
  alloc_law a bs n : owns a bs -> 0 < n <= SIZE_MAX - 15 ->
    exists p a', alloc n a = Some (p, a') /\
      ((p = NULL /\ owns a' bs) \/ exists s, n <= s /\ owns a' ((p, s) :: bs));
  release_law a p s bs : owns a ((p, s) :: bs) -> exists a', release p a = Some a' /\ owns a' bs;
  write_log_law m a bs : owns a bs -> owns (write_log m a) bs;
  owns_perm a bs bs' : owns a bs -> bs ≡ₚ bs' -> owns a bs';
  owns_placed a p s bs : owns a ((p, s) :: bs) -> HEAP_FLOOR <= p /\ 0 < s /\ p + s <= ADDRESS_LIMIT;
  owns_disjoint a p s q t bs : owns a ((p, s) :: (q, t) :: bs) -> p + s <= q \/ q + t <= p;
}.

Lemma owns_range {A} `{AllocatorLaws A} (a : A) p s bs :
  owns a ((p, s) :: bs) -> 0 < p /\ 0 < s /\ p + s <= ADDRESS_LIMIT.
Proof. intros (Hp & Hs & Hl)%owns_placed. unfold HEAP_FLOOR in Hp. lia. Qed.

(** ** The heap *)

(** The live blocks of a sound heap whose region lies above the kernel's static data and can be addressed
    by a page-table entry. *)
Definition heap_owns (h : heap) (bs : list (Z * Z)) : Prop :=
  exists l, heap_inv h l /\ allocated l ≡ₚ bs /\ HEAP_FLOOR <= g_heap_start h /\ g_heap_end h <= ADDRESS_LIMIT.

#[export] Instance heap_allocator : Allocator heap := {
  alloc := kmalloc;
  release := kfree;
  write_log := heap_log;
  owns := heap_owns;
}.

Lemma heap_block_range h l p s :
  heap_inv h l -> (p, s) ∈ allocated l -> g_heap_start h <= p /\ 0 < s /\ p + s <= g_heap_end h.
Proof.
  intros (_ & _ & Hs & _ & _ & Ht & _ & _ & _ & Hpos) Hin.
  pose proof (proj1 (Forall_forall _ _) Hpos _ Hin) as Hsz. cbn in Hsz.
  apply elem_of_allocated in Hin as (k & Hk & _ & [= -> ->]).
  destruct (tiles_in _ _ _ _ Ht Hk) as (? & ? & ? & _). lia.
Qed.

Lemma heap_blocks_disjoint h l p s q t bs :
  heap_inv h l -> allocated l ≡ₚ (p, s) :: (q, t) :: bs -> p + s <= q \/ q + t <= p.
Proof.
  intros Hinv Hp.
  assert (Hpin : (p, s) ∈ allocated l) by (rewrite Hp; by left).
  assert (Hqin : (q, t) ∈ allocated l) by (rewrite Hp; right; by left).
  destruct (heap_block_range _ _ _ _ Hinv Hpin) as (_ & Hs & _).
  destruct (heap_block_range _ _ _ _ Hinv Hqin) as (_ & Ht & _).
  destruct Hinv as (_ & _ & _ & _ & _ & Htiles & _).
  assert (Hne : p <> q).
  { intros ->. pose proof (allocated_NoDup _ _ _ Htiles) as Hnd. apply (Permutation_map fst) in Hp.
    rewrite Hp in Hnd. cbn [map fst] in Hnd. apply NoDup_cons in Hnd as [Hni _]. apply Hni. by left. }
  pose proof (fun x => allocated_disjoint _ _ _ p s q t x Htiles Hpin Hqin Hne) as Hd.
  pose proof (Hd p). pose proof (Hd q). lia.
Qed.

#[export] Instance heap_allocator_laws : AllocatorLaws heap.
Proof.
  constructor; cbn [alloc release write_log owns heap_allocator].
  - intros h bs n (l & Hinv & Hp & Hfloor & Hlim) Hn.
    destruct (kmalloc_spec h l n Hinv) as (p & h' & E & H); [unfold SIZE_MAX in Hn; lia|].
    exists p, h'. split; [exact E|]. apply kmalloc_bounds in E as [Es Ee]. rewrite <- Ee in Hlim. rewrite <- Es in Hfloor.
    destruct H as [(-> & _ & Hinv' & _)|(l' & size & Hinv' & Hp' & Hsz)].
    + left. split; [done|]. by exists l.
    + right. exists size. split; [lia|]. exists l'. split; [done|]. split; [|done]. by rewrite Hp', Hp.
  - intros h p s bs (l & Hinv & Hp & Hfloor & Hlim). destruct (kfree_spec h l p Hinv) as (h' & l' & E & Hinv' & H).
    exists h'. split; [exact E|]. apply kfree_bounds in E as [Es Ee]. exists l'. rewrite Es, Ee.
    split; [done|]. split; [|done]. destruct H as [(s' & Hp')|(Hni & _)].
    + assert (s' = s) as ->.
      { destruct Hinv as (_ & _ & _ & _ & _ & Ht & _). pose proof (allocated_NoDup _ _ _ Ht) as Hnd.
        assert (H1 : (p, s) ∈ allocated l) by (rewrite Hp; by left).
        rewrite Hp' in H1, Hnd. cbn [map fst] in Hnd. apply elem_of_cons in H1 as [[= <-]|H1]; [done|].
        apply NoDup_cons in Hnd as [Hni _]. destruct Hni. apply list_elem_of_In, in_map_iff. exists (p, s). split; [done|]. by apply list_elem_of_In. }
      rewrite Hp in Hp'. by apply Permutation_cons_inv in Hp'.
    + destruct (Hni s). rewrite Hp. by left.
  - intros m h bs (l & Hinv & H). exists l. split; [by apply heap_inv_log|done].
  - intros h bs bs' (l & Hinv & Hp & Hlim) Hbs. exists l. split; [done|]. split; [by rewrite Hp|done].
  - intros h p s bs (l & Hinv & Hp & Hfloor & Hlim).
    destruct (heap_block_range h l p s Hinv) as (? & ? & ?); [rewrite Hp; by left|]. lia.
  - intros h p s q t bs (l & Hinv & Hp & _). by apply (heap_blocks_disjoint h l p s q t bs).
Qed.
