(* ===== verification/Paging.v ===== *)
(** * kernel/paging.c: page tables and user memory

    Physical memory that is reached through page-table entries is the map
    [frames] from page addresses to the 4096 bytes of the page; a table is read
    and written as little-endian words of such a page.  An access to a page that
    is not there (never allocated, or freed) is [None].  The kernel's own
    tables are arrays of the program: lists of words, with their addresses as
    parameters, like every symbol the linker places.  Invalidations of the TLB
    have no effect on memory and are left out; CR3 is the field [cr3]. *)

From stdpp Require Import gmap.
From S2P Require Import Prelude CString Syslog Heap HeapSpec Allocator.

Definition PAGE_PRESENT : Z := Z.shiftl 1 0.
Definition PAGE_RW : Z := Z.shiftl 1 1.
Definition PAGE_USER : Z := Z.shiftl 1 2.
Definition PAGE_PS : Z := Z.shiftl 1 7.
Definition PAGE_OWNED : Z := Z.shiftl 1 9.
Definition PAGE_NX : Z := Z.shiftl 1 63.
Definition PAGE_ADDRESS_MASK : Z := 0x000FFFFFFFFFF000.
Definition PAGE_SIZE : Z := 0x1000.
Definition HUGE_PAGE_SIZE : Z := 0x200000.
Definition PDPT_SPAN : Z := Z.shiftl 1 30.
Definition PML4_SPAN : Z := Z.shiftl 1 39.
Definition FRAMEBUFFER_PD_TABLES : Z := 2.
Definition KERNEL_HEAP_MAX_BYTES : Z := 16 * 1024 * 1024.
Definition KERNEL_HEAP_PT_COUNT : Z := KERNEL_HEAP_MAX_BYTES / HUGE_PAGE_SIZE.
Definition SYSTEM_RESERVED_LOW_MEMORY_BYTES : Z := 0x00800000.
Definition PAGING_USER_BASE : Z := 0x0000010000000000.
Definition PAGING_USER_LIMIT : Z := 0x0000020000000000.

(** [e & mask] and the tests of it. *)
Definition has_bits (mask e : Z) : bool := Z.land e mask =? mask.
Definition has_any (mask e : Z) : bool := negb (Z.land e mask =? 0).

(** ** Memory *)

Abbreviation memory := (gmap Z (list Z)).

Definition entry_index_ok (index : Z) : bool := (0 <=? index) && (index <? 512).

(** [table[index]] *)
Definition entry (m : memory) (table index : Z) : option Z :=
  page ← m !! table;
  if entry_index_ok index then Some (le_val (slice page (Z.to_nat (8 * index)) 8)) else None.

Definition set_entry (m : memory) (table index value : Z) : option memory :=
  page ← m !! table;
  if entry_index_ok index then Some (<[table := memcpy_at page (Z.to_nat (8 * index)) (le_bytes 8 value)]> m)
  else None.

(** The page an address is in, and its offset there. *)
Definition page_of (address : Z) : Z := Z.ldiff address (PAGE_SIZE - 1).
Definition offset_of (address : Z) : Z := Z.land address (PAGE_SIZE - 1).

Definition store_bytes (m : memory) (physical : Z) (bytes : list Z) : option memory :=
  page ← m !! page_of physical;
  if offset_of physical + Z.of_nat (length bytes) <=? PAGE_SIZE
  then Some (<[page_of physical := memcpy_at page (Z.to_nat (offset_of physical)) bytes]> m) else None.

Definition load_bytes (m : memory) (physical count : Z) : option (list Z) :=
  page ← m !! page_of physical;
  if offset_of physical + count <=? PAGE_SIZE
  then Some (slice page (Z.to_nat (offset_of physical)) (Z.to_nat count)) else None.

(** ** Address spaces *)

(** [struct paging_allocation] at the address [node]; the list [next] links is a list. *)
Record paging_allocation := PagingAllocation {
  node : Z;
  raw : Z;
  page : Z;
}.

(** [struct paging_address_space] at the address [self]. *)
Record paging_address_space := PagingAddressSpace {
  self : Z;
  pml4 : Z;
  allocations : list paging_allocation;
}.

Definition sizeof_paging_allocation : Z := 24.
Definition sizeof_paging_address_space : Z := 16.

Definition set_allocations (l : list paging_allocation) (space : paging_address_space) : paging_address_space :=
  PagingAddressSpace (self space) (pml4 space) l.

(** The static tables. *)
Record kernel_tables := KernelTables {
  g_pml4 : list Z;
  g_pdpt : list Z;
  g_pd : list Z;
  g_kernel_pt : list Z;
  g_kernel_heap_pt : list (list Z);
  g_framebuffer_pd : list (list Z);
}.

(** Where the linker put the tables. *)
Record table_addresses := TableAddresses {
  pml4_address : Z;
  pdpt_address : Z;
  pd_address : Z;
  kernel_pt_address : Z;
  kernel_heap_pt_address : nat -> Z;
  framebuffer_pd_address : nat -> Z;
}.

Record paging (A : Type) := Paging {
  allocator : A;
  frames : memory;
  tables : kernel_tables;
  g_paging_ready : bool;
  g_nx_enabled : bool;
  cr3 : Z;
}.
#[global] Arguments Paging {A}.
#[global] Arguments allocator {A}.
#[global] Arguments frames {A}.
#[global] Arguments tables {A}.
#[global] Arguments g_paging_ready {A}.
#[global] Arguments g_nx_enabled {A}.
#[global] Arguments cr3 {A}.

Section Paging.
Context {A : Type} `{Allocator A} (addresses : table_addresses).

Definition set_allocator (a : A) (s : paging A) : paging A :=
  Paging a (frames s) (tables s) (g_paging_ready s) (g_nx_enabled s) (cr3 s).
Definition set_frames (m : memory) (s : paging A) : paging A :=
  Paging (allocator s) m (tables s) (g_paging_ready s) (g_nx_enabled s) (cr3 s).
Definition set_tables (t : kernel_tables) (s : paging A) : paging A :=
  Paging (allocator s) (frames s) t (g_paging_ready s) (g_nx_enabled s) (cr3 s).
Definition set_cr3 (v : Z) (s : paging A) : paging A :=
  Paging (allocator s) (frames s) (tables s) (g_paging_ready s) (g_nx_enabled s) v.
Definition paging_log (message : list Z) (s : paging A) : paging A :=
  set_allocator (write_log message (allocator s)) s.

(** ** Owned pages *)

Definition align_page (unaligned : Z) : Z := page_of (u64 (unaligned + (PAGE_SIZE - 1))).

(** The page, [NULL] on failure. *)
Definition allocate_owned_page (space : paging_address_space) (s : paging A)
    : option (Z * paging_address_space * paging A) :=
  '(raw, a) ← alloc (PAGE_SIZE * 2) (allocator s);
  if raw =? NULL then Some (NULL, space, set_allocator a s)
  else
    '(node, a) ← alloc sizeof_paging_allocation a;
    if node =? NULL then
      a ← release raw a;
      Some (NULL, space, set_allocator a s)
    else
      let aligned := align_page raw in
      Some (aligned, set_allocations (PagingAllocation node raw aligned :: allocations space) space,
            set_frames (<[aligned := zeros PAGE_SIZE]> (frames s)) (set_allocator a s)).

(** [kfree(allocation->raw); kfree(allocation);] - the page is gone with its block. *)
Definition free_allocation (allocation : paging_allocation) (s : paging A) : option (paging A) :=
  a ← release (raw allocation) (allocator s);
  a ← release (node allocation) a;
  Some (set_frames (delete (page allocation) (frames s)) (set_allocator a s)).

Definition user_range_valid (address count : Z) : bool :=
  (count =? 0) ||
  ((PAGING_USER_BASE <=? address) && (address <? PAGING_USER_LIMIT) && (count <=? PAGING_USER_LIMIT - address)).

(** ** Creation and destruction *)

Definition paging_kernel_cr3 : Z := pml4_address addresses.

Definition paging_address_space_cr3 (space : option paging_address_space) : Z :=
  match space with
  | None => paging_kernel_cr3
  | Some space => if pml4 space =? NULL then paging_kernel_cr3 else pml4 space
  end.

Definition paging_activate (space : option paging_address_space) (s : paging A) : paging A :=
  set_cr3 (paging_address_space_cr3 space) s.

Fixpoint free_allocations (l : list paging_allocation) (s : paging A) : option (paging A) :=
  match l with
  | [] => Some s
  | allocation :: l => s ← free_allocation allocation s; free_allocations l s
  end.

Definition paging_address_space_destroy (space : option paging_address_space) (s : paging A) : option (paging A) :=
  match space with
  | None => Some s
  | Some space =>
      let current_cr3 := Z.land (cr3 s) PAGE_ADDRESS_MASK in
      let s :=
        if negb (pml4 space =? NULL) && (current_cr3 =? Z.land (pml4 space) PAGE_ADDRESS_MASK)
        then set_cr3 paging_kernel_cr3 s else s in
      s ← free_allocations (allocations space) s;
      a ← release (self space) (allocator s);
      Some (set_allocator a s)
  end.

(** The bytes of a table of the program. *)
Definition words_bytes (words : list Z) : list Z := concat (map (le_bytes 8) words).

Definition paging_address_space_create (s : paging A) : option (option paging_address_space * paging A) :=
  if negb (g_paging_ready s) then Some (None, s)
  else
    '(self, a) ← alloc sizeof_paging_address_space (allocator s);
    if self =? NULL then Some (None, set_allocator a s)
    else
      let space := PagingAddressSpace self NULL [] in
      '(table, space, s) ← allocate_owned_page space (set_allocator a s);
      if table =? NULL then
        a ← release self (allocator s);
        Some (None, set_allocator a s)
      else
        page ← frames s !! table;
        let s := set_frames (<[table := memcpy_at page 0 (words_bytes (g_pml4 (tables s)))]> (frames s)) s in
        e2 ← entry (frames s) table 2;
        e3 ← entry (frames s) table 3;
        if has_any PAGE_PRESENT e2 || has_any PAGE_PRESENT e3 then
          s ← paging_address_space_destroy (Some space) s;
          Some (None, paging_log (cs "Paging: reserved user PML4 slots are occupied") s)
        else Some (Some (PagingAddressSpace self table (allocations space)), s).

(** ** Mapping *)

(** The table an entry points to, created when the entry is empty; [NULL] on failure. *)
Definition ensure_owned_table (space : paging_address_space) (table index : Z) (s : paging A)
    : option (Z * paging_address_space * paging A) :=
  e ← entry (frames s) table index;
  if has_any PAGE_PRESENT e then
    if has_any PAGE_PS e || negb (has_any PAGE_OWNED e) then Some (NULL, space, s)
    else
      let e := Z.lor e (Z.lor PAGE_RW PAGE_USER) in
      m ← set_entry (frames s) table index e;
      Some (Z.land e PAGE_ADDRESS_MASK, space, set_frames m s)
  else
    '(child, space, s) ← allocate_owned_page space s;
    if child =? NULL then Some (NULL, space, s)
    else
      m ← set_entry (frames s) table index
            (Z.lor (Z.land child PAGE_ADDRESS_MASK)
               (Z.lor PAGE_PRESENT (Z.lor PAGE_RW (Z.lor PAGE_USER PAGE_OWNED))));
      Some (child, space, set_frames m s).

Definition pml4_index (address : Z) : Z := Z.land (Z.shiftr address 39) 0x1ff.
Definition pdpt_index (address : Z) : Z := Z.land (Z.shiftr address 30) 0x1ff.
Definition pd_index (address : Z) : Z := Z.land (Z.shiftr address 21) 0x1ff.
Definition pt_index (address : Z) : Z := Z.land (Z.shiftr address 12) 0x1ff.

(** The entry of a leaf. *)
Definition leaf_flags (writable executable nx : bool) : Z :=
  let flags := Z.lor PAGE_PRESENT PAGE_USER in
  let flags := if writable then Z.lor flags PAGE_RW else flags in
  if negb executable && nx then Z.lor flags PAGE_NX else flags.

(** A failed call returns [false] with the tables made so far. *)
Definition map_fresh_user_page (space : paging_address_space) (address : Z) (writable executable : bool) (s : paging A)
    : option (bool * paging_address_space * paging A) :=
  if (pml4 space =? NULL) || negb (offset_of address =? 0) || negb (user_range_valid address PAGE_SIZE) then
    Some (false, space, s)
  else
    '(pdpt, space, s) ← ensure_owned_table space (pml4 space) (pml4_index address) s;
    if pdpt =? NULL then Some (false, space, s)
    else
      '(pd, space, s) ← ensure_owned_table space pdpt (pdpt_index address) s;
      if pd =? NULL then Some (false, space, s)
      else
        '(pt, space, s) ← ensure_owned_table space pd (pd_index address) s;
        if pt =? NULL then Some (false, space, s)
        else
          e ← entry (frames s) pt (pt_index address);
          if has_any PAGE_PRESENT e then Some (false, space, s)
          else
            '(frame, space, s) ← allocate_owned_page space s;
            if frame =? NULL then Some (false, space, s)
            else
              m ← set_entry (frames s) pt (pt_index address)
                    (Z.lor (Z.lor (Z.land frame PAGE_ADDRESS_MASK)
                              (leaf_flags writable executable (g_nx_enabled s))) PAGE_OWNED);
              Some (true, space, set_frames m s).

(** ** Unmapping *)

(** The table behind an entry that passes the checks of [user_leaf_entry]. *)
Definition owned_table (m : memory) (table index : Z) : option (option Z) :=
  e ← entry m table index;
  if negb (has_bits (Z.lor PAGE_PRESENT (Z.lor PAGE_USER PAGE_OWNED)) e) || has_any PAGE_PS e then Some None
  else Some (Some (Z.land e PAGE_ADDRESS_MASK)).

(** The last table and the index there; [Some None] is NULL. *)
Definition user_leaf_entry (m : memory) (space : paging_address_space) (address : Z) : option (option (Z * Z)) :=
  if (pml4 space =? NULL) || negb (user_range_valid address 1) then Some None
  else
    pdpt ← owned_table m (pml4 space) (pml4_index address);
    match pdpt with
    | None => Some None
    | Some pdpt =>
        pd ← owned_table m pdpt (pdpt_index address);
        match pd with
        | None => Some None
        | Some pd =>
            pt ← owned_table m pd (pd_index address);
            match pt with
            | None => Some None
            | Some pt => Some (Some (pt, pt_index address))
            end
        end
    end.

(** The first allocation of the page and the list without it. *)
Fixpoint find_owned_allocation (l : list paging_allocation) (p : Z)
    : option (paging_allocation * list paging_allocation) :=
  match l with
  | [] => None
  | allocation :: l =>
      if page allocation =? p then Some (allocation, l)
      else match find_owned_allocation l p with
           | Some (found, rest) => Some (found, allocation :: rest)
           | None => None
           end
  end.

(** The first loop: every page of the range is an owned leaf. *)
Fixpoint unmap_valid (pages : nat) (m : memory) (space : paging_address_space) (address : Z) : option bool :=
  match pages with
  | O => Some true
  | S pages =>
      leaf ← user_leaf_entry m space address;
      match leaf with
      | None => Some false
      | Some (pt, index) =>
          e ← entry m pt index;
          if negb (has_bits (Z.lor PAGE_PRESENT (Z.lor PAGE_USER PAGE_OWNED)) e) then Some false
          else if bool_decide (find_owned_allocation (allocations space) (Z.land e PAGE_ADDRESS_MASK) = None)
          then Some false
          else unmap_valid pages m space (address + PAGE_SIZE)
      end
  end.

(** The second loop. *)
Fixpoint unmap_pages (pages : nat) (space : paging_address_space) (address : Z) (s : paging A)
    : option (paging_address_space * paging A) :=
  match pages with
  | O => Some (space, s)
  | S pages =>
      leaf ← user_leaf_entry (frames s) space address;
      '(pt, index) ← leaf;
      e ← entry (frames s) pt index;
      m ← set_entry (frames s) pt index 0;
      '(allocation, rest) ← find_owned_allocation (allocations space) (Z.land e PAGE_ADDRESS_MASK);
      s ← free_allocation allocation (set_frames m s);
      unmap_pages pages (set_allocations rest space) (address + PAGE_SIZE) s
  end.

(** The guards that mapping and unmapping share. *)
Definition page_range_ok (address size : Z) : bool :=
  negb (size =? 0) && (offset_of address =? 0) && (offset_of size =? 0) && user_range_valid address size.

Definition unmap_anonymous (space : paging_address_space) (address size : Z) (s : paging A)
    : option (bool * paging_address_space * paging A) :=
  if negb (page_range_ok address size) then Some (false, space, s)
  else
    let pages := Z.to_nat (size / PAGE_SIZE) in
    valid ← unmap_valid pages (frames s) space address;
    if negb valid then Some (false, space, s)
    else
      '(space, s) ← unmap_pages pages space address s;
      Some (true, space, s).

(** The loop of [paging_user_map_anonymous] after [offset] bytes, with its rollback. *)
Fixpoint map_pages (pages : nat) (space : paging_address_space) (address offset : Z) (writable executable : bool)
    (s : paging A) : option (bool * paging_address_space * paging A) :=
  match pages with
  | O => Some (true, space, s)
  | S pages =>
      '(ok, space, s) ← map_fresh_user_page space (address + offset) writable executable s;
      if (ok : bool) then map_pages pages space address (offset + PAGE_SIZE) writable executable s
      else if offset =? 0 then Some (false, space, s)
      else
        '(undone, space, s) ← unmap_anonymous space address offset s;
        Some (false, space,
              if (undone : bool) then s else paging_log (cs "Paging: anonymous-map rollback invariant failed") s)
  end.

Definition map_anonymous (space : paging_address_space) (address size : Z) (writable executable : bool) (s : paging A)
    : option (bool * paging_address_space * paging A) :=
  if negb (page_range_ok address size) then Some (false, space, s)
  else map_pages (Z.to_nat (size / PAGE_SIZE)) space address 0 writable executable s.

(** The public functions: a NULL address space is refused. *)
Definition on_space {B} (space : option paging_address_space) (s : paging A) (failed : B)
    (f : paging_address_space -> option (B * paging_address_space * paging A))
    : option (B * option paging_address_space * paging A) :=
  match space with
  | None => Some (failed, None, s)
  | Some space => '(b, space, s) ← f space; Some (b, Some space, s)
  end.

Definition paging_user_map_anonymous (space : option paging_address_space) (address size : Z)
    (writable executable : bool) (s : paging A) : option (bool * option paging_address_space * paging A) :=
  on_space space s false (fun space => map_anonymous space address size writable executable s).

Definition paging_user_unmap_anonymous (space : option paging_address_space) (address size : Z) (s : paging A)
    : option (bool * option paging_address_space * paging A) :=
  on_space space s false (fun space => unmap_anonymous space address size s).

(** ** Checked user copies *)

(** The table behind an entry that passes the checks of [translate_user_page]. *)
Definition user_table (m : memory) (table index : Z) : option (option Z) :=
  e ← entry m table index;
  if negb (has_bits (Z.lor PAGE_PRESENT PAGE_USER) e) || has_any PAGE_PS e then Some None
  else Some (Some (Z.land e PAGE_ADDRESS_MASK)).

(** The physical address; [Some None] when the page is not mapped (writable). *)
Definition translate_user_page (m : memory) (space : paging_address_space) (address : Z) (require_writable : bool)
    : option (option Z) :=
  if (pml4 space =? NULL) || negb (user_range_valid address 1) then Some None
  else
    pdpt ← user_table m (pml4 space) (pml4_index address);
    match pdpt with
    | None => Some None
    | Some pdpt =>
        pd ← user_table m pdpt (pdpt_index address);
        match pd with
        | None => Some None
        | Some pd =>
            pt ← user_table m pd (pd_index address);
            match pt with
            | None => Some None
            | Some pt =>
                pte ← entry m pt (pt_index address);
                if negb (has_bits (Z.lor PAGE_PRESENT PAGE_USER) pte) || (require_writable && negb (has_any PAGE_RW pte))
                then Some None
                else Some (Some (Z.lor (Z.land pte PAGE_ADDRESS_MASK) (offset_of address)))
            end
        end
    end.

(** The bytes of the range that are on the page of [address]. *)
Definition chunk_at (address remaining : Z) : Z := Z.min (PAGE_SIZE - offset_of address) remaining.

(** The rounds a range of [count] bytes needs at most. *)
Definition range_fuel (count : Z) : nat := Z.to_nat (count / PAGE_SIZE + 2).

Fixpoint range_mapped (fuel : nat) (m : memory) (space : paging_address_space) (address remaining : Z)
    (require_writable : bool) : option bool :=
  if 0 <? remaining then
    match fuel with
    | O => None
    | S fuel =>
        physical ← translate_user_page m space address require_writable;
        match physical with
        | None => Some false
        | Some _ =>
            let chunk := chunk_at address remaining in
            range_mapped fuel m space (address + chunk) (remaining - chunk) require_writable
        end
    end
  else Some true.

Definition paging_user_range_mapped (space : option paging_address_space) (address count : Z) (require_writable : bool)
    (s : paging A) : option bool :=
  if count =? 0 then Some true
  else if negb (user_range_valid address count) then Some false
  else
    match space with
    | None => Some false
    | Some space => range_mapped (range_fuel count) (frames s) space address count require_writable
    end.

(** The copy loop to the range at [address]: the memory, and whether all of it was copied. *)
Fixpoint copy_to (fuel : nat) (m : memory) (space : paging_address_space) (address : Z) (source : list Z)
    (require_writable : bool) : option (bool * memory) :=
  match source with
  | [] => Some (true, m)
  | _ =>
    match fuel with
    | O => None
    | S fuel =>
        physical ← translate_user_page m space address require_writable;
        match physical with
        | None => Some (false, m)
        | Some physical =>
            let chunk := chunk_at address (Z.of_nat (length source)) in
            m ← store_bytes m physical (take (Z.to_nat chunk) source);
            copy_to fuel m space (address + chunk) (drop (Z.to_nat chunk) source) require_writable
        end
    end
  end.

(** [source]: [None] is NULL; it has at least [count] bytes. *)
Definition copy_to_user_internal (space : option paging_address_space) (user_destination : Z) (source : option (list Z))
    (count : Z) (require_writable : bool) (s : paging A) : option (bool * paging A) :=
  if count =? 0 then Some (true, s)
  else
    match source with
    | None => Some (false, s)
    | Some bytes =>
        mapped ← paging_user_range_mapped space user_destination count require_writable s;
        if negb mapped then Some (false, s)
        else
          space ← space;
          if Z.of_nat (length bytes) <? count then None
          else
            '(ok, m) ← copy_to (range_fuel count) (frames s) space user_destination (take (Z.to_nat count) bytes)
                         require_writable;
            Some (ok, set_frames m s)
    end.

Definition paging_copy_to_user (space : option paging_address_space) (user_destination : Z) (source : option (list Z))
    (count : Z) (s : paging A) : option (bool * paging A) :=
  copy_to_user_internal space user_destination source count true s.

Definition paging_initialize_user_memory (space : option paging_address_space) (user_destination : Z)
    (source : option (list Z)) (count : Z) (s : paging A) : option (bool * paging A) :=
  copy_to_user_internal space user_destination source count false s.

(** The bytes of the range at [address]: [None] where a page is missing. *)
Fixpoint copy_from (fuel : nat) (m : memory) (space : paging_address_space) (address remaining : Z)
    : option (bool * list Z) :=
  if 0 <? remaining then
    match fuel with
    | O => None
    | S fuel =>
        physical ← translate_user_page m space address false;
        match physical with
        | None => Some (false, [])
        | Some physical =>
            let chunk := chunk_at address remaining in
            bytes ← load_bytes m physical chunk;
            '(ok, rest) ← copy_from fuel m space (address + chunk) (remaining - chunk);
            Some (ok, bytes ++ rest)
        end
    end
  else Some (true, []).

(** The destination with the bytes copied to its start. *)
Definition paging_copy_from_user (space : option paging_address_space) (destination : option (list Z))
    (user_source count : Z) (s : paging A) : option (bool * option (list Z)) :=
  if count =? 0 then Some (true, destination)
  else
    match destination with
    | None => Some (false, None)
    | Some d =>
        mapped ← paging_user_range_mapped space user_source count false s;
        if negb mapped then Some (false, Some d)
        else
          space ← space;
          '(ok, bytes) ← copy_from (range_fuel count) (frames s) space user_source count;
          d ← copy_checked d bytes 0 0 (Z.of_nat (length bytes));
          Some (ok, Some d)
    end.

End Paging.
