(* ===== verification/PagingTree.v ===== *)
(** * kernel/paging.c: the tree of an address space

    The pages of an address space form a tree: [nodes] gives, for a level and
    the high bits of an address, the page there and the flags of the entry that
    points to it.  Level 4 is the PML4, levels 3, 2 and 1 the tables below,
    level 0 the frames.  [tree_ok] says that memory holds this tree.

    Then the walks over the tables, and the pages as parts of the blocks that a space owns. *)

From stdpp Require Import gmap.
From S2P Require Import Prelude CString Syslog Heap HeapSpec Allocator Paging.

(** ** Bits of entries *)

(** A page address, as an entry holds it. *)
Definition page_address (c : Z) : Prop := Z.land c PAGE_ADDRESS_MASK = c /\ c <> 0 /\ 0 <= c < ADDRESS_LIMIT.

Definition TABLE_FLAGS : Z := Z.lor PAGE_PRESENT (Z.lor PAGE_RW (Z.lor PAGE_USER PAGE_OWNED)).

(** Flags of an entry: none of them is in the address, and it fits 64 bits. *)
Definition flags_ok (f : Z) : Prop := Z.land f PAGE_ADDRESS_MASK = 0 /\ 0 <= f < 2 ^ 64.

Lemma address_flag c x : page_address c -> Z.land PAGE_ADDRESS_MASK x = 0 -> Z.land c x = 0.
Proof. intros (Hc & _ & _) Hx. by rewrite <- Hc, <- Z.land_assoc, Hx, Z.land_0_r. Qed.

(** Reading back the parts of an entry. *)
Lemma entry_address c f : page_address c -> flags_ok f -> Z.land (Z.lor c f) PAGE_ADDRESS_MASK = c.
Proof. intros (Hc & _ & _) (Hf & _). by rewrite Z.land_lor_distr_l, Hc, Hf, Z.lor_0_r. Qed.

Lemma entry_flags c f x : page_address c -> Z.land PAGE_ADDRESS_MASK x = 0 -> Z.land (Z.lor c f) x = Z.land f x.
Proof. intros Hc Hx. by rewrite Z.land_lor_distr_l, (address_flag c x Hc Hx), Z.lor_0_l. Qed.

Lemma has_bits_entry c f x : page_address c -> Z.land PAGE_ADDRESS_MASK x = 0 -> has_bits x (Z.lor c f) = has_bits x f.
Proof. intros Hc Hx. unfold has_bits. by rewrite entry_flags. Qed.

Lemma has_any_entry c f x : page_address c -> Z.land PAGE_ADDRESS_MASK x = 0 -> has_any x (Z.lor c f) = has_any x f.
Proof. intros Hc Hx. unfold has_any. by rewrite entry_flags. Qed.

Lemma lor_bound a b n : 0 <= n -> 0 <= a < 2 ^ n -> 0 <= b < 2 ^ n -> 0 <= Z.lor a b < 2 ^ n.
Proof.
  intros Hn Ha Hb. split; [apply Z.lor_nonneg; lia|].
  destruct (Z.eq_dec (Z.lor a b) 0) as [->|Hne]; [lia|].
  assert (0 <= Z.lor a b) by (apply Z.lor_nonneg; lia).
  apply Z.log2_lt_pow2; [lia|]. rewrite Z.log2_lor by lia. apply Z.max_lub_lt.
  - destruct (Z.eq_dec a 0) as [->|]; [|apply Z.log2_lt_pow2; lia]. rewrite Z.log2_nonpos by lia.
    destruct (Z.eq_dec n 0) as [->|]; [|lia]. change (2 ^ 0) with 1 in *. assert (b = 0) as -> by lia. done.
  - destruct (Z.eq_dec b 0) as [->|]; [|apply Z.log2_lt_pow2; lia]. rewrite Z.log2_nonpos by lia.
    destruct (Z.eq_dec n 0) as [->|]; [|lia]. change (2 ^ 0) with 1 in *. assert (a = 0) as -> by lia. done.
Qed.

Lemma entry_u64 c f : page_address c -> flags_ok f -> 0 <= Z.lor c f < 2 ^ 64.
Proof. intros (_ & _ & Hc) (_ & Hf). apply lor_bound; unfold ADDRESS_LIMIT in *; lia. Qed.

(** Flags of a frame. *)
Definition frame_flags (writable executable nx : bool) : Z := Z.lor (leaf_flags writable executable nx) PAGE_OWNED.

Lemma table_flags_ok : flags_ok TABLE_FLAGS.
Proof. by split; [vm_compute|vm_compute; split]. Qed.

Lemma frame_flags_ok w x nx : flags_ok (frame_flags w x nx).
Proof. by destruct w, x, nx; split; vm_compute; try split. Qed.

Lemma frame_flags_present w x nx :
  has_bits (Z.lor PAGE_PRESENT (Z.lor PAGE_USER PAGE_OWNED)) (frame_flags w x nx) = true /\
  has_bits (Z.lor PAGE_PRESENT PAGE_USER) (frame_flags w x nx) = true /\
  has_any PAGE_PRESENT (frame_flags w x nx) = true /\
  has_any PAGE_RW (frame_flags w x nx) = w /\
  has_any PAGE_NX (frame_flags w x nx) = negb x && nx.
Proof. by destruct w, x, nx; vm_compute. Qed.

(** ** Addresses *)

Lemma page_of_spec a : 0 <= a -> page_of a = a / 4096 * 4096 /\ offset_of a = a mod 4096.
Proof.
  intros Ha. unfold page_of, offset_of, PAGE_SIZE. change (0x1000 - 1) with (Z.ones 12).
  rewrite Z.ldiff_ones_r, Z.land_ones, Z.shiftl_mul_pow2, Z.shiftr_div_pow2 by lia. done.
Qed.

Lemma page_address_aligned c : 0 < c < ADDRESS_LIMIT -> c mod 4096 = 0 -> page_address c.
Proof.
  intros Hc Hm. split; [|split; [lia|unfold ADDRESS_LIMIT in *; lia]].
  assert (Hq : c = Z.shiftl (c / 4096) 12) by (rewrite Z.shiftl_mul_pow2 by lia; pose proof (Z.div_mod c 4096); lia).
  rewrite Hq. change PAGE_ADDRESS_MASK with (Z.shiftl (Z.ones 40) 12). rewrite <- Z.shiftl_land. f_equal.
  rewrite Z.land_ones by lia. apply Z.mod_small. unfold ADDRESS_LIMIT in Hc. split; [apply Z.div_pos; lia|].
  apply Z.div_lt_upper_bound; lia.
Qed.

(** The page cut out of a block of two pages. *)
Lemma align_page_spec r s :
  0 < r -> PAGE_SIZE * 2 <= s -> r + s <= ADDRESS_LIMIT ->
  r <= align_page r /\ align_page r + 4096 <= r + s /\ page_address (align_page r) /\ align_page r mod 4096 = 0.
Proof.
  unfold PAGE_SIZE. intros Hr Hs Hl. unfold align_page, PAGE_SIZE. unfold ADDRESS_LIMIT in *.
  rewrite u64_small by (unfold u64_ok; lia). change (0x1000 - 1) with 4095.
  destruct (page_of_spec (r + 4095) ltac:(lia)) as [-> _].
  pose proof (Z.div_mod (r + 4095) 4096 ltac:(lia)). pose proof (Z.mod_pos_bound (r + 4095) 4096 ltac:(lia)).
  assert (Hm : (r + 4095) / 4096 * 4096 mod 4096 = 0) by (apply Z.mod_mul; lia).
  split; [lia|]. split; [lia|]. split; [|done]. apply page_address_aligned; unfold ADDRESS_LIMIT; lia.
Qed.

(** An address in a page is recovered from its parts. *)
Lemma physical_parts c off :
  page_address c -> 0 <= off < 4096 -> page_of (Z.lor c off) = c /\ offset_of (Z.lor c off) = off.
Proof.
  intros Hc Ho. unfold page_of, offset_of, PAGE_SIZE. change (0x1000 - 1) with (Z.ones 12).
  assert (Hoff : Z.land off (Z.ones 12) = off) by (rewrite Z.land_ones by lia; apply Z.mod_small; lia).
  assert (Hc0 : Z.land c (Z.ones 12) = 0) by (apply address_flag; [done|by vm_compute]).
  split.
  - assert (Hld : Z.ldiff off (Z.ones 12) = 0).
    { rewrite Z.ldiff_ones_r by lia. rewrite Z.shiftr_div_pow2 by lia. rewrite Z.div_small by lia. by rewrite Z.shiftl_0_l. }
    assert (Hlc : Z.ldiff c (Z.ones 12) = c).
    { apply Z.bits_inj'. intros n Hn. rewrite Z.ldiff_spec. assert (Z.testbit (Z.land c (Z.ones 12)) n = false) as E.
      { rewrite Hc0. apply Z.bits_0. } rewrite Z.land_spec in E. destruct (Z.testbit c n); [|done].
      cbn in E |- *. by rewrite E. }
    apply Z.bits_inj'. intros n Hn.
    assert (E1 := f_equal (fun z => Z.testbit z n) Hld). assert (E2 := f_equal (fun z => Z.testbit z n) Hlc). cbv beta in E1, E2.
    rewrite Z.ldiff_spec in E1, E2. rewrite Z.bits_0 in E1. rewrite Z.ldiff_spec, Z.lor_spec, andb_orb_distrib_l, E1, E2.
    apply orb_false_r.
  - by rewrite Z.land_lor_distr_l, Hc0, Hoff, Z.lor_0_l.
Qed.

(** ** Words of a page *)

Definition page_ok (p : list Z) : Prop := length p = 4096%nat /\ bytes_ok p.

Lemma zero_page_ok : page_ok (zeros PAGE_SIZE).
Proof. split; [by rewrite length_zeros by done|apply bytes_ok_zeros]. Qed.

Lemma page_ok_memcpy p off bs :
  page_ok p -> bytes_ok bs -> (off + length bs <= 4096)%nat -> page_ok (memcpy_at p off bs).
Proof.
  intros [Hl Hb] Hbs Ho. split; [rewrite length_memcpy_at by lia; done|by apply memcpy_at_Forall].
Qed.

Lemma index_ok i : 0 <= i < 512 -> entry_index_ok i = true.
Proof. intros. unfold entry_index_ok. by rewrite (proj2 (Z.leb_le _ _)), (proj2 (Z.ltb_lt _ _)) by lia. Qed.

Lemma slice_bytes_ok (l : list Z) o n : bytes_ok l -> bytes_ok (slice l o n).
Proof. intros H. by apply Forall_take, Forall_drop. Qed.

Lemma set_entry_total m t i v p :
  m !! t = Some p -> page_ok p -> 0 <= i < 512 ->
  exists p', set_entry m t i v = Some (<[t := p']> m) /\ page_ok p'.
Proof.
  intros Hp Hok Hi. unfold set_entry. rewrite Hp, some_bind, index_ok by done. eexists. split; [done|].
  apply page_ok_memcpy; [done|apply le_bytes_ok|rewrite length_le_bytes; lia].
Qed.

Lemma entry_total m t i p : m !! t = Some p -> page_ok p -> 0 <= i < 512 -> exists e, entry m t i = Some e /\ 0 <= e < 2 ^ 64.
Proof.
  intros Hp [Hl Hb] Hi. unfold entry. rewrite Hp, some_bind, index_ok by done. eexists. split; [done|].
  pose proof (le_val_range (slice p (Z.to_nat (8 * i)) 8) (slice_bytes_ok _ _ _ Hb)) as Hr.
  rewrite length_slice in Hr by lia. exact Hr.
Qed.

(** Storing a word is seen by a later read of that word only. *)
Lemma entry_set m t i v m' t' j :
  set_entry m t i v = Some m' -> (forall p, m !! t = Some p -> page_ok p) -> 0 <= v < 2 ^ 64 -> 0 <= i < 512 -> 0 <= j < 512 ->
  entry m' t' j = if bool_decide (t' = t /\ j = i) then Some v else entry m t' j.
Proof.
  unfold set_entry, entry. destruct (m !! t) as [p|] eqn:Ep; [|done]. rewrite some_bind. intros E Hp Hv Hi Hj.
  rewrite (index_ok i Hi) in E. injection E as <-. destruct (Hp p eq_refl) as [Hl _].
  destruct (decide (t' = t)) as [->|Hne].
  2: { rewrite lookup_insert_ne by done. by rewrite bool_decide_false by (by intros [? _]). }
  rewrite lookup_insert_eq, some_bind, Ep, some_bind, (index_ok j Hj).
  destruct (decide (j = i)) as [->|Hij].
  - rewrite bool_decide_true by done. f_equal.
    transitivity (le_val (le_bytes 8 v)); [f_equal|by apply le_val_bytes]. apply list_eq. intros n.
    destruct (decide (n < 8)%nat).
    + rewrite lookup_slice by done. rewrite lookup_memcpy_in by (rewrite length_le_bytes; lia). f_equal. lia.
    + rewrite !lookup_ge_None_2; [done|rewrite length_le_bytes; lia|].
      rewrite length_slice by (rewrite length_memcpy_at; lia). lia.
  - rewrite bool_decide_false by (by intros [_ ?]). do 2 f_equal. apply list_eq. intros n.
    destruct (decide (n < 8)%nat).
    + rewrite !lookup_slice by done. apply lookup_memcpy_out; rewrite length_le_bytes; lia.
    + rewrite !lookup_ge_None_2; [done|..]; rewrite length_slice; try rewrite length_memcpy_at; lia.
Qed.

Lemma entry_insert_other m c p t i : c <> t -> entry (<[c := p]> m) t i = entry m t i.
Proof. intros. unfold entry. by rewrite lookup_insert_ne. Qed.

Lemma entry_delete_other m c t i : c <> t -> entry (delete c m) t i = entry m t i.
Proof. intros. unfold entry. by rewrite lookup_delete_ne. Qed.

Lemma entry_zero_page m c i : 0 <= i < 512 -> entry (<[c := zeros PAGE_SIZE]> m) c i = Some 0.
Proof.
  intros Hi. unfold entry. rewrite lookup_insert_eq, some_bind, index_ok by done. f_equal.
  assert (E : slice (zeros PAGE_SIZE) (Z.to_nat (8 * i)) 8 = replicate 8 0).
  { unfold slice, zeros. rewrite drop_replicate, take_replicate. f_equal. unfold PAGE_SIZE. lia. }
  by rewrite E.
Qed.

(** Storing the word that is there changes nothing. *)
Lemma set_entry_same m t i e p :
  m !! t = Some p -> page_ok p -> 0 <= i < 512 -> entry m t i = Some e -> set_entry m t i e = Some m.
Proof.
  intros Hp [Hl Hb] Hi. unfold entry, set_entry. rewrite Hp, !some_bind, index_ok by done. intros [= <-]. f_equal.
  apply insert_id. rewrite Hp. f_equal. symmetry. apply list_eq. intros n.
  replace (le_bytes 8 (le_val (slice p (Z.to_nat (8 * i)) 8))) with (slice p (Z.to_nat (8 * i)) 8).
  2: { symmetry. pose proof (le_bytes_val (slice p (Z.to_nat (8 * i)) 8) (slice_bytes_ok _ _ _ Hb)) as E.
       by rewrite length_slice in E by lia. }
  destruct (decide (Z.to_nat (8 * i) <= n < Z.to_nat (8 * i) + 8)%nat) as [Hn|Hn].
  - rewrite lookup_memcpy_in by (rewrite length_slice; lia). rewrite lookup_slice by lia. f_equal. lia.
  - rewrite lookup_memcpy_out; [done|rewrite length_slice; lia|rewrite length_slice; lia].
Qed.

(** * kernel/paging.c: walks over the tables *)

Abbreviation tree := (gmap (nat * Z) (Z * Z)).

(** The prefixes of user addresses at a level. *)
Definition user_prefix (k : nat) (p : Z) : Prop := 2 ^ (28 - 9 * Z.of_nat k) <= p < 2 ^ (29 - 9 * Z.of_nat k).

Definition parent (key : nat * Z) : nat * Z := (S key.1, Z.shiftr key.2 9).

Definition flags_at (nx : bool) (k : nat) (f : Z) : Prop :=
  match k with O => exists w x, f = frame_flags w x nx | _ => f = TABLE_FLAGS end.

Definition node_entry (o : option (Z * Z)) : Z := match o with Some (c, f) => Z.lor c f | None => 0 end.

(** Memory [m] holds the tree [nodes] at [root], beside the kernel's entries [kernel]. *)
Record tree_ok (kernel : list Z) (nx : bool) (m : memory) (nodes : tree) (root : Z) : Prop := {
  tree_root : nodes !! (4%nat, 0) = Some (root, 0);
  tree_level : forall k p v, nodes !! (k, p) = Some v ->
    (k = 4%nat /\ p = 0) \/ ((k <= 3)%nat /\ user_prefix k p /\ is_Some (nodes !! parent (k, p)));
  tree_node : forall key c f, nodes !! key = Some (c, f) -> page_address c /\ exists page, m !! c = Some page /\ page_ok page;
  tree_flags : forall k p c f, (k <= 3)%nat -> nodes !! (k, p) = Some (c, f) -> flags_at nx k f;
  tree_entry : forall k p t f, (k <= 3)%nat -> user_prefix k p -> nodes !! parent (k, p) = Some (t, f) ->
    entry m t (Z.land p 511) = Some (node_entry (nodes !! (k, p)));
  tree_kernel : forall i, 0 <= i < 512 -> i <> 2 -> i <> 3 -> entry m root i = kernel !! Z.to_nat i;
  tree_inj : forall a b c f g, nodes !! a = Some (c, f) -> nodes !! b = Some (c, g) -> a = b;
}.

(** ** Prefixes *)

Lemma user_prefix_pos k p : user_prefix k p -> 0 <= p.
Proof. unfold user_prefix. pose proof (Z.pow_nonneg 2 (28 - 9 * Z.of_nat k)). lia. Qed.

Lemma user_prefix_up k p : (k <= 2)%nat -> user_prefix k p -> user_prefix (S k) (Z.shiftr p 9).
Proof.
  unfold user_prefix. intros Hk Hp. rewrite Z.shiftr_div_pow2 by lia.
  replace (28 - 9 * Z.of_nat k) with (28 - 9 * Z.of_nat (S k) + 9) in Hp by lia.
  replace (29 - 9 * Z.of_nat k) with (29 - 9 * Z.of_nat (S k) + 9) in Hp by lia.
  rewrite !Z.pow_add_r in Hp by lia. split; [apply Z.div_le_lower_bound; lia|apply Z.div_lt_upper_bound; lia].
Qed.

Lemma user_prefix_top p : user_prefix 3 p -> Z.shiftr p 9 = 0 /\ (p = 2 \/ p = 3) /\ Z.land p 511 = p.
Proof.
  unfold user_prefix. change (28 - 9 * Z.of_nat 3) with 1. change (29 - 9 * Z.of_nat 3) with 2. intros Hp.
  assert (p = 2 \/ p = 3) as [->| ->] by lia; (split; [done|split; [lia|done]]).
Qed.

Lemma land_511 p : 0 <= Z.land p 511 < 512.
Proof. change 511 with (Z.ones 9). rewrite Z.land_ones by lia. apply Z.mod_pos_bound. lia. Qed.

(** A prefix is its parent's and its index. *)
Lemma prefix_inj p q : Z.shiftr p 9 = Z.shiftr q 9 -> Z.land p 511 = Z.land q 511 -> p = q.
Proof.
  change 511 with (Z.ones 9). rewrite !Z.shiftr_div_pow2, !Z.land_ones by lia. intros H1 H2.
  rewrite (Z.div_mod p (2 ^ 9)), (Z.div_mod q (2 ^ 9)) by lia. congruence.
Qed.

Definition prefix (k : nat) (address : Z) : Z := Z.shiftr address (12 + 9 * Z.of_nat k).

Lemma prefix_up k a : Z.shiftr (prefix k a) 9 = prefix (S k) a.
Proof. unfold prefix. rewrite Z.shiftr_shiftr by lia. f_equal. lia. Qed.

Lemma user_address_prefix a : PAGING_USER_BASE <= a < PAGING_USER_LIMIT -> forall k, (k <= 3)%nat -> user_prefix k (prefix k a).
Proof.
  intros Ha. assert (H0 : user_prefix 0 (prefix 0 a)).
  { unfold user_prefix, prefix. rewrite Z.shiftr_div_pow2 by lia. change (12 + 9 * Z.of_nat 0) with 12.
    unfold PAGING_USER_BASE, PAGING_USER_LIMIT in Ha.
    split; [apply Z.div_le_lower_bound; lia|apply Z.div_lt_upper_bound; lia]. }
  intros k. induction k as [|k IH]; intros Hk; [exact H0|]. rewrite <- prefix_up. apply user_prefix_up; [lia|]. apply IH. lia.
Qed.

Lemma prefix_top a : PAGING_USER_BASE <= a < PAGING_USER_LIMIT -> prefix 4 a = 0.
Proof.
  intros Ha. rewrite <- prefix_up. by apply user_prefix_top, user_address_prefix.
Qed.

(** The index in a table of level [S k]. *)
Lemma table_indices a :
  pml4_index a = Z.land (prefix 3 a) 511 /\ pdpt_index a = Z.land (prefix 2 a) 511 /\
  pd_index a = Z.land (prefix 1 a) 511 /\ pt_index a = Z.land (prefix 0 a) 511.
Proof. done. Qed.

Lemma user_range_valid_1 a : user_range_valid a 1 = bool_decide (PAGING_USER_BASE <= a < PAGING_USER_LIMIT).
Proof.
  unfold user_range_valid. change (1 =? 0) with false. cbn [orb].
  destruct (decide (PAGING_USER_BASE <= a < PAGING_USER_LIMIT)) as [H|H].
  - rewrite bool_decide_true by done. rewrite !(proj2 (Z.leb_le _ _)), (proj2 (Z.ltb_lt _ _)) by lia. done.
  - rewrite bool_decide_false by done. destruct (Z.leb_spec PAGING_USER_BASE a); [|done].
    destruct (Z.ltb_spec a PAGING_USER_LIMIT); [lia|done].
Qed.

Lemma user_range_valid_spec a n :
  0 < n -> user_range_valid a n = true <-> PAGING_USER_BASE <= a /\ a + n <= PAGING_USER_LIMIT.
Proof.
  intros Hn. unfold user_range_valid. rewrite (proj2 (Z.eqb_neq n 0)) by lia. cbn [orb].
  rewrite !andb_true_iff, Z.leb_le, Z.ltb_lt, Z.leb_le. lia.
Qed.

(** ** Walks *)

Section Walk.
Context (kernel : list Z) (nx : bool) (m : memory) (nodes : tree) (root : Z).
Context (Hok : tree_ok kernel nx m nodes root).

(** The page of a node. *)
Definition node_page (key : nat * Z) : option Z := fst <$> nodes !! key.

Lemma table_entry_bits k p c f :
  (k <= 3)%nat -> nodes !! (k, p) = Some (c, f) ->
  has_bits (Z.lor PAGE_PRESENT (Z.lor PAGE_USER PAGE_OWNED)) (Z.lor c f) = true /\
  has_bits (Z.lor PAGE_PRESENT PAGE_USER) (Z.lor c f) = true /\
  has_any PAGE_PRESENT (Z.lor c f) = true /\
  has_any PAGE_PS (Z.lor c f) = false /\ has_any PAGE_OWNED (Z.lor c f) = true /\
  Z.land (Z.lor c f) PAGE_ADDRESS_MASK = c.
Proof.
  intros Hk Hn. pose proof (tree_flags _ _ _ _ _ Hok _ _ _ _ Hk Hn) as Hf.
  destruct (tree_node _ _ _ _ _ Hok _ _ _ Hn) as [Hc _].
  rewrite !has_bits_entry, !has_any_entry by (done || by vm_compute).
  assert (flags_ok f /\ has_bits (Z.lor PAGE_PRESENT (Z.lor PAGE_USER PAGE_OWNED)) f = true /\
    has_bits (Z.lor PAGE_PRESENT PAGE_USER) f = true /\ has_any PAGE_PRESENT f = true /\
    has_any PAGE_PS f = false /\ has_any PAGE_OWNED f = true) as (H0 & H1 & H2 & H3 & H4 & H5).
  { destruct k; cbn [flags_at] in Hf.
    - destruct Hf as (w & x & ->). split; [apply frame_flags_ok|]. by destruct w, x, nx.
    - subst f. split; [apply table_flags_ok|]. by vm_compute. }
  split; [done|]. split; [done|]. split; [done|]. split; [done|]. split; [done|]. by apply entry_address.
Qed.

(** The walk goes from a table to the child that the tree has. *)
Lemma owned_table_node k p t f :
  (1 <= k <= 3)%nat -> user_prefix k p -> nodes !! parent (k, p) = Some (t, f) ->
  owned_table m t (Z.land p 511) = Some (node_page (k, p)) /\ user_table m t (Z.land p 511) = Some (node_page (k, p)).
Proof.
  intros Hk Hp Ht. pose proof (tree_entry _ _ _ _ _ Hok k p t f ltac:(lia) Hp Ht) as E.
  unfold owned_table, user_table, node_page. rewrite E, !some_bind. destruct (nodes !! (k, p)) as [[c g]|] eqn:En; cbn [node_entry].
  - destruct (table_entry_bits k p c g) as (-> & -> & _ & -> & _ & ->); [lia|done|]. done.
  - by vm_compute.
Qed.

(** A node below a missing one is missing. *)
Lemma missing_child k p : (k <= 3)%nat -> nodes !! parent (k, p) = None -> nodes !! (k, p) = None.
Proof.
  intros Hk Hn. destruct (nodes !! (k, p)) as [v|] eqn:E; [|done].
  apply (tree_level _ _ _ _ _ Hok) in E as [[-> _]|(_ & _ & [v' E'])]; [lia|]. congruence.
Qed.

Lemma root_page_address : page_address root.
Proof. by apply (tree_node _ _ _ _ _ Hok _ _ _ (tree_root _ _ _ _ _ Hok)). Qed.

Lemma root_nonnull : (root =? NULL) = false.
Proof. destruct root_page_address as (_ & H & _). by apply Z.eqb_neq. Qed.

(** The table that holds the entry of a page. *)
Lemma user_leaf_entry_node space a :
  pml4 space = root ->
  user_leaf_entry m space a =
    Some (if bool_decide (PAGING_USER_BASE <= a < PAGING_USER_LIMIT)
          then (fun pt => (pt, pt_index a)) <$> node_page (1%nat, prefix 1 a) else None).
Proof.
  intros Hp. unfold user_leaf_entry. rewrite Hp, root_nonnull, user_range_valid_1. cbn [orb].
  destruct (decide (PAGING_USER_BASE <= a < PAGING_USER_LIMIT)) as [Ha|Ha];
    [rewrite !bool_decide_true by done|by rewrite !bool_decide_false by done]. cbn [negb].
  pose proof (user_address_prefix a Ha) as Hpre. destruct (table_indices a) as (-> & -> & -> & _).
  pose proof (tree_root _ _ _ _ _ Hok) as Hr.
  assert (Hpar : forall k, parent (k, prefix k a) = (S k, prefix (S k) a)).
  { intros k. unfold parent. cbn [fst snd]. by rewrite prefix_up. }
  destruct (owned_table_node 3 (prefix 3 a) root 0) as [-> _];
    [lia|by apply Hpre; lia|rewrite Hpar, prefix_top by done; exact Hr|]. rewrite some_bind.
  unfold node_page. destruct (nodes !! (3%nat, prefix 3 a)) as [[t3 f3]|] eqn:E3; cbn [fmap option_fmap option_map fst].
  2: { assert (E2 : nodes !! (2%nat, prefix 2 a) = None) by (apply missing_child; [lia|by rewrite Hpar]).
       assert (E1 : nodes !! (1%nat, prefix 1 a) = None) by (apply missing_child; [lia|by rewrite Hpar]). by rewrite E1. }
  destruct (owned_table_node 2 (prefix 2 a) t3 f3) as [-> _]; [lia|by apply Hpre; lia|by rewrite Hpar|]. rewrite some_bind.
  unfold node_page. destruct (nodes !! (2%nat, prefix 2 a)) as [[t2 f2]|] eqn:E2; cbn [fmap option_fmap option_map fst].
  2: { assert (E1 : nodes !! (1%nat, prefix 1 a) = None) by (apply missing_child; [lia|by rewrite Hpar]). by rewrite E1. }
  destruct (owned_table_node 1 (prefix 1 a) t2 f2) as [-> _]; [lia|by apply Hpre; lia|by rewrite Hpar|]. rewrite some_bind.
  unfold node_page. by destruct (nodes !! (1%nat, prefix 1 a)) as [[t1 f1]|].
Qed.

(** What [translate_user_page] answers for a page of the tree. *)
Definition translated (a : Z) (require_writable : bool) : option Z :=
  match nodes !! (0%nat, prefix 0 a) with
  | Some (c, f) => if require_writable && negb (has_any PAGE_RW f) then None else Some (Z.lor c (offset_of a))
  | None => None
  end.

Lemma translate_node space a w :
  pml4 space = root ->
  translate_user_page m space a w =
    Some (if bool_decide (PAGING_USER_BASE <= a < PAGING_USER_LIMIT) then translated a w else None).
Proof.
  intros Hp. unfold translate_user_page. rewrite Hp, root_nonnull, user_range_valid_1. cbn [orb].
  destruct (decide (PAGING_USER_BASE <= a < PAGING_USER_LIMIT)) as [Ha|Ha];
    [rewrite !bool_decide_true by done|by rewrite !bool_decide_false by done]. cbn [negb].
  pose proof (user_address_prefix a Ha) as Hpre. destruct (table_indices a) as (-> & -> & -> & ->).
  pose proof (tree_root _ _ _ _ _ Hok) as Hr. unfold translated.
  assert (Hpar : forall k, parent (k, prefix k a) = (S k, prefix (S k) a)).
  { intros k. unfold parent. cbn [fst snd]. by rewrite prefix_up. }
  assert (Hmiss : forall k, (k <= 3)%nat -> nodes !! (k, prefix k a) = None -> nodes !! (0%nat, prefix 0 a) = None).
  { intros k. induction k as [|k IH]; intros Hk E; [done|]. apply IH; [lia|]. apply missing_child; [lia|by rewrite Hpar]. }
  destruct (owned_table_node 3 (prefix 3 a) root 0) as [_ ->];
    [lia|by apply Hpre; lia|rewrite Hpar, prefix_top by done; exact Hr|]. rewrite some_bind.
  unfold node_page. destruct (nodes !! (3%nat, prefix 3 a)) as [[t3 f3]|] eqn:E3; cbn [fmap option_fmap option_map fst];
    [|by rewrite (Hmiss 3%nat ltac:(lia) E3)].
  destruct (owned_table_node 2 (prefix 2 a) t3 f3) as [_ ->]; [lia|by apply Hpre; lia|by rewrite Hpar|]. rewrite some_bind.
  unfold node_page. destruct (nodes !! (2%nat, prefix 2 a)) as [[t2 f2]|] eqn:E2; cbn [fmap option_fmap option_map fst];
    [|by rewrite (Hmiss 2%nat ltac:(lia) E2)].
  destruct (owned_table_node 1 (prefix 1 a) t2 f2) as [_ ->]; [lia|by apply Hpre; lia|by rewrite Hpar|]. rewrite some_bind.
  unfold node_page. destruct (nodes !! (1%nat, prefix 1 a)) as [[t1 f1]|] eqn:E1; cbn [fmap option_fmap option_map fst];
    [|by rewrite (Hmiss 1%nat ltac:(lia) E1)].
  rewrite (tree_entry _ _ _ _ _ Hok 0 (prefix 0 a) t1 f1) by (lia || (by apply Hpre; lia) || by rewrite Hpar).
  rewrite some_bind. destruct (nodes !! (0%nat, prefix 0 a)) as [[c f]|] eqn:E0; cbn [node_entry].
  - destruct (table_entry_bits 0 (prefix 0 a) c f) as (_ & -> & _ & _ & _ & ->); [lia|done|]. cbn [negb orb].
    rewrite has_any_entry; [|by apply (tree_node _ _ _ _ _ Hok _ _ _ E0)|by vm_compute]. by destruct (_ && _).
  - by vm_compute.
Qed.

End Walk.

(** * kernel/paging.c: ownership of pages

    Every page of an address space is cut out of a block of the allocator
    that the space owns; [rest] are the blocks of everybody else. *)

(** The page at [c] lies in the block. *)
Definition in_block (c : Z) (b : Z * Z) : Prop := b.1 <= c /\ c + 4096 <= b.1 + b.2.

(** The two blocks of an allocation. *)
Definition claim (al : paging_allocation) (bs : list (Z * Z)) : Prop :=
  exists rs ns, bs = [(raw al, rs); (node al, ns)] /\ in_block (page al) (raw al, rs) /\ page al mod 4096 = 0.

Inductive claims : list paging_allocation -> list (Z * Z) -> Prop :=
| claims_nil : claims [] []
| claims_cons al l b bs : claim al b -> claims l bs -> claims (al :: l) (b ++ bs).

Lemma claims_app l1 l2 bs1 bs2 : claims l1 bs1 -> claims l2 bs2 -> claims (l1 ++ l2) (bs1 ++ bs2).
Proof. induction 1 as [|al l b bs Hb _ IH]; intros H2; [done|]. cbn [app]. rewrite <- app_assoc. constructor; auto. Qed.

(** The block of a page of the list. *)
Lemma claims_in l bs c : claims l bs -> c ∈ map page l -> exists b, b ∈ bs /\ in_block c b /\ c mod 4096 = 0.
Proof.
  induction 1 as [|al l b bs (rs & ns & -> & Hb & Hm) _ IH]; cbn [map]; [by intros ?%elem_of_nil|].
  intros [->|Hc]%elem_of_cons.
  - exists (raw al, rs). split; [by left|done].
  - destruct (IH Hc) as (b & Hin & Hbc). exists b. split; [right; right; exact Hin|done].
Qed.

Lemma find_owned_spec l p :
  match find_owned_allocation l p with
  | Some (al, rest) => page al = p /\ l ≡ₚ al :: rest
  | None => p ∉ map page l
  end.
Proof.
  induction l as [|al l IH]; cbn [find_owned_allocation map]; [by intros ?%elem_of_nil|].
  destruct (Z.eqb_spec (page al) p) as [E|E]; [done|].
  destruct (find_owned_allocation l p) as [[found rest]|].
  - destruct IH as [Hf Hp]. split; [done|]. rewrite Hp. apply Permutation_swap.
  - intros [->|H]%elem_of_cons; done.
Qed.

Lemma claims_perm l l' bs : claims l bs -> l ≡ₚ l' -> exists bs', claims l' bs' /\ bs ≡ₚ bs'.
Proof.
  intros Hc Hp. revert bs Hc. induction Hp as [|al l l' Hp IH|a1 a2 l|l l' l'' _ IH1 _ IH2]; intros bs Hc.
  - by exists bs.
  - inversion Hc as [|? ? b bs0 Hb Hc0]; subst. destruct (IH _ Hc0) as (bs' & Hc' & Hp').
    exists (b ++ bs'). split; [by constructor|]. by rewrite Hp'.
  - inversion Hc as [|? ? b1 bs1 Hb1 Hc1]; subst. inversion Hc1 as [|? ? b2 bs2 Hb2 Hc2]; subst.
    exists (b2 ++ b1 ++ bs2). split; [by constructor; [|constructor]|]. rewrite !app_assoc. apply Permutation_app_tail, Permutation_app_comm.
  - destruct (IH1 _ Hc) as (bs1 & Hc1 & Hp1). destruct (IH2 _ Hc1) as (bs2 & Hc2 & Hp2).
    exists bs2. split; [done|]. by rewrite Hp1.
Qed.

Section Own.
Context {A : Type} `{AllocatorLaws A} (addresses : table_addresses).

(** The allocations [l] and the blocks of [rest] are owned. *)
Definition owned (s : paging A) (l : list paging_allocation) (rest : list (Z * Z)) : Prop :=
  exists bs, claims l bs /\ owns (allocator s) (bs ++ rest).

(** Nothing in a block of [rest] changes, nor the static part of the state. *)
Definition preserved (rest : list (Z * Z)) (s s' : paging A) : Prop :=
  (forall c b, b ∈ rest -> in_block c b -> frames s' !! c = frames s !! c) /\
  tables s' = tables s /\ g_paging_ready s' = g_paging_ready s /\ g_nx_enabled s' = g_nx_enabled s /\ cr3 s' = cr3 s.

Lemma preserved_refl rest s : preserved rest s s.
Proof. done. Qed.

Lemma preserved_trans rest s1 s2 s3 : preserved rest s1 s2 -> preserved rest s2 s3 -> preserved rest s1 s3.
Proof.
  intros (H1 & E1 & E2 & E3 & E4) (H2 & F1 & F2 & F3 & F4). split; [|split_and!; congruence].
  intros c b Hb Hc. rewrite (H2 c b Hb Hc). by apply (H1 c b).
Qed.

Lemma owned_perm s l l' rest : owned s l rest -> l ≡ₚ l' -> owned s l' rest.
Proof.
  intros (bs & Hc & Ho) Hp. destruct (claims_perm _ _ _ Hc Hp) as (bs' & Hc' & Hp'). exists bs'. split; [done|].
  apply (owns_perm _ _ _ Ho). by rewrite Hp'.
Qed.

(** Two blocks at different places hold no common page. *)
Lemma blocks_apart (a : A) bs b1 b2 rest c d :
  owns a bs -> bs ≡ₚ b1 :: b2 :: rest -> in_block c b1 -> in_block d b2 -> c <> d.
Proof.
  intros Ho Hp [H1 H2] [H3 H4]. destruct b1 as [p s], b2 as [q t]. cbn [fst snd] in *.
  destruct (owns_disjoint _ _ _ _ _ _ (owns_perm _ _ _ Ho Hp)); lia.
Qed.

Lemma block_page (a : A) bs b c : owns a bs -> b ∈ bs -> in_block c b -> c mod 4096 = 0 -> page_address c.
Proof.
  intros Ho Hb [H1 H2] Hm. destruct b as [p s]. cbn [fst snd] in *.
  apply list_elem_of_split in Hb as (l1 & l2 & ->).
  destruct (owns_range a p s (l1 ++ l2)) as (? & ? & ?).
  { apply (owns_perm _ _ _ Ho). by rewrite Permutation_middle. }
  apply page_address_aligned; [lia|done].
Qed.

(** The pages of the allocations are distinct, and outside the rest. *)
Lemma owned_NoDup s l rest : owned s l rest -> NoDup (map page l).
Proof.
  intros (bs & Hc & Ho). revert rest Ho. induction Hc as [|al l b bs (rs & ns & -> & Hb & Hm) Hc IH]; intros rest Ho;
    cbn [map]; [constructor|]. constructor.
  - intros Hin. destruct (claims_in _ _ _ Hc Hin) as (b & Hbin & Hbc & _). apply list_elem_of_split in Hbin as (l1 & l2 & ->).
    apply (blocks_apart _ _ (raw al, rs) b ((node al, ns) :: l1 ++ l2 ++ rest) (page al) (page al) Ho); [|done|done|done].
    cbn [app]. apply perm_skip. rewrite <- app_assoc. cbn [app].
    rewrite <- (Permutation_middle l1 (l2 ++ rest) b). apply perm_swap.
  - apply (IH ((raw al, rs) :: (node al, ns) :: rest)). apply (owns_perm _ _ _ Ho). cbn [app].
    rewrite <- !Permutation_middle. done.
Qed.

Lemma owned_outside s l rest c b : owned s l rest -> b ∈ rest -> in_block c b -> c ∉ map page l.
Proof.
  intros (bs & Hc & Ho) Hb Hcb Hin. destruct (claims_in _ _ _ Hc Hin) as (b' & Hb' & Hcb' & _).
  apply list_elem_of_split in Hb as (r1 & r2 & ->). apply list_elem_of_split in Hb' as (l1 & l2 & ->).
  apply (blocks_apart _ _ b' b (l1 ++ l2 ++ r1 ++ r2) c c Ho); [|done|done|done].
  rewrite <- app_assoc. cbn [app]. rewrite <- Permutation_middle. apply perm_skip.
  rewrite !app_assoc. rewrite <- Permutation_middle. done.
Qed.

Lemma owned_page_address s l rest c : owned s l rest -> c ∈ map page l -> page_address c.
Proof.
  intros (bs & Hc & Ho) Hin. destruct (claims_in _ _ _ Hc Hin) as (b & Hb & Hcb & Hm).
  apply (block_page _ _ b c Ho); [apply elem_of_app; by left|done|done].
Qed.

(** [allocate_owned_page]: a zeroed page nobody has, or no effect on memory. *)
Lemma allocate_owned_page_spec space (s : paging A) rest :
  owned s (allocations space) rest ->
  exists c space' s', allocate_owned_page space s = Some (c, space', s') /\ preserved rest s s' /\
    self space' = self space /\ pml4 space' = pml4 space /\ owned s' (allocations space') rest /\
    ((c = NULL /\ allocations space' = allocations space /\ frames s' = frames s) \/
     (page_address c /\ c ∉ map page (allocations space) /\ map page (allocations space') = c :: map page (allocations space) /\
      frames s' = <[c := zeros PAGE_SIZE]> (frames s))).
Proof.
  intros Hown. pose proof Hown as (bs & Hc & Ho). unfold allocate_owned_page.
  destruct (alloc_law (allocator s) _ (PAGE_SIZE * 2) Ho) as (r & a & -> & Hr); [unfold PAGE_SIZE, SIZE_MAX; lia|].
  rewrite some_bind. destruct Hr as [[-> Ha]|(rs & Hrs & Ha)].
  { change (NULL =? NULL) with true. cbv iota. do 3 eexists. split; [done|]. split; [done|]. split; [done|]. split; [done|].
    split; [by exists bs|]. by left. }
  destruct (owns_range _ _ _ _ Ha) as (Hr0 & _ & Hrl).
  rewrite (proj2 (Z.eqb_neq r NULL)) by (unfold NULL; lia).
  destruct (alloc_law a _ sizeof_paging_allocation Ha) as (n & a2 & -> & Hn); [unfold sizeof_paging_allocation, SIZE_MAX; lia|].
  rewrite some_bind. destruct Hn as [[-> Ha2]|(ns & Hns & Ha2)].
  { change (NULL =? NULL) with true. cbv iota. destruct (release_law _ _ _ _ Ha2) as (a3 & -> & Ha3). rewrite some_bind.
    do 3 eexists. split; [done|]. split; [done|]. split; [done|]. split; [done|]. split; [by exists bs|]. by left. }
  destruct (owns_range _ _ _ _ Ha2) as (Hn0 & _ & _).
  rewrite (proj2 (Z.eqb_neq n NULL)) by (unfold NULL; lia). cbv zeta.
  destruct (align_page_spec r rs Hr0 Hrs Hrl) as (Hal1 & Hal2 & Hpa & Hm).
  assert (Hown' : owned (set_frames (<[align_page r := zeros PAGE_SIZE]> (frames s)) (set_allocator a2 s))
    (PagingAllocation n r (align_page r) :: allocations space) rest).
  { exists ([(r, rs); (n, ns)] ++ bs). split.
    - constructor; [|done]. exists rs, ns. split; [done|]. split; [|done]. split; cbn; lia.
    - cbn [allocator set_frames set_allocator]. apply (owns_perm _ _ _ Ha2). cbn [app]. apply perm_swap. }
  assert (Hfresh : align_page r ∉ map page (allocations space)).
  { apply owned_NoDup in Hown'. cbn [map] in Hown'. by apply NoDup_cons in Hown' as [? _]. }
  assert (Hblock : in_block (align_page r) (r, rs)) by (split; cbn; lia).
  do 3 eexists. split; [done|]. split.
  { split; [|done]. intros c b Hb Hcb. cbn [frames set_frames]. apply lookup_insert_ne. intros <-.
    apply (owned_outside _ _ _ _ _ Hown' Hb Hcb). by left. }
  split; [done|]. split; [done|]. split; [exact Hown'|]. right. by split_and!.
Qed.

(** [free_allocation]: the page is gone, its blocks are free. *)
Lemma free_allocation_spec al l (s : paging A) rest :
  owned s (al :: l) rest ->
  exists s', free_allocation al s = Some s' /\ preserved rest s s' /\ owned s' l rest /\
    frames s' = delete (page al) (frames s).
Proof.
  intros Hown. pose proof Hown as (bs & Hc & Ho).
  inversion Hc as [|? ? b bs0 (rs & ns & -> & Hb & Hm) Hc0]; subst. unfold free_allocation.
  destruct (release_law (allocator s) (raw al) rs ((node al, ns) :: bs0 ++ rest)) as (a & -> & Ha); [exact Ho|].
  rewrite some_bind. destruct (release_law _ _ _ _ Ha) as (a2 & -> & Ha2). rewrite some_bind.
  eexists. split; [done|]. split; [|split; [by exists bs0|done]]. split; [|done].
  intros c b Hbin Hcb. cbn [frames set_frames]. apply lookup_delete_ne. intros <-.
  apply (owned_outside _ _ _ _ _ Hown Hbin Hcb). by left.
Qed.

End Own.
