(* ===== verification/PagingSpace.v ===== *)
(** * kernel/paging.c: changes of the tree

    Changes at one node of the tree; then the invariant of a space and its growth by a page. *)

From stdpp Require Import gmap.
From S2P Require Import Prelude CString Syslog Heap HeapSpec Allocator Paging PagingTree.

Lemma flags_at_ok nx k f : flags_at nx k f -> flags_ok f.
Proof. destruct k; [intros (w & x & ->); apply frame_flags_ok|intros ->; apply table_flags_ok]. Qed.

(** The pages of a tree. *)
Definition tree_pages (nodes : tree) : list Z := map (fun kv => kv.2.1) (map_to_list nodes).

Lemma tree_pages_in nodes key c f : nodes !! key = Some (c, f) -> c ∈ tree_pages nodes.
Proof.
  intros Hn. apply list_elem_of_In, in_map_iff. exists (key, (c, f)). split; [done|].
  by apply list_elem_of_In, elem_of_map_to_list.
Qed.

Lemma tree_pages_insert nodes key c f :
  nodes !! key = None -> tree_pages (<[key := (c, f)]> nodes) ≡ₚ c :: tree_pages nodes.
Proof. intros Hn. unfold tree_pages. by rewrite (map_to_list_insert nodes key (c, f) Hn). Qed.

Lemma tree_pages_delete nodes key c f :
  nodes !! key = Some (c, f) -> tree_pages nodes ≡ₚ c :: tree_pages (delete key nodes).
Proof. intros Hn. unfold tree_pages. by rewrite <- (map_to_list_delete nodes key (c, f) Hn). Qed.

(** ** One more node *)

Section Add.
Context (kernel : list Z) (nx : bool) (m : memory) (nodes : tree) (root : Z) (Hok : tree_ok kernel nx m nodes root).
Context (k : nat) (p : Z) (t tf c f : Z).
Context (Hk : (k <= 3)%nat) (Hp : user_prefix k p) (Hnone : nodes !! (k, p) = None).
Context (Hpar : nodes !! parent (k, p) = Some (t, tf)) (Hfresh : forall key g, nodes !! key <> Some (c, g)).
Context (Hc : page_address c) (Hf : flags_at nx k f).

Lemma fresh_table : c <> t.
Proof. intros ->. by apply (Hfresh _ _ Hpar). Qed.

Lemma tree_add m2 :
  set_entry (<[c := zeros PAGE_SIZE]> m) t (Z.land p 511) (Z.lor c f) = Some m2 ->
  tree_ok kernel nx m2 (<[(k, p) := (c, f)]> nodes) root.
Proof.
  intros Hset. pose proof fresh_table as Hct.
  destruct (tree_node _ _ _ _ _ Hok _ _ _ Hpar) as (_ & tp & Htp & Htok).
  destruct (set_entry_total (<[c := zeros PAGE_SIZE]> m) t (Z.land p 511) (Z.lor c f) tp)
    as (tp' & Eset & Htok'); [by rewrite lookup_insert_ne|done|apply land_511|].
  rewrite Eset in Hset. injection Hset as <-.
  assert (Hent : forall t' j, 0 <= j < 512 -> entry (<[t := tp']> (<[c := zeros PAGE_SIZE]> m)) t' j =
    if bool_decide (t' = t /\ j = Z.land p 511) then Some (Z.lor c f) else entry (<[c := zeros PAGE_SIZE]> m) t' j).
  { intros t' j Hj. apply (entry_set _ _ _ _ _ t' j Eset); [|by apply entry_u64, (flags_at_ok nx k)|apply land_511|done].
    rewrite lookup_insert_ne by done. rewrite Htp. by intros ? [= <-]. }
  assert (Hold : forall key c' g, nodes !! key = Some (c', g) -> c <> c').
  { intros key c' g E ->. by apply (Hfresh key g). }
  constructor.
  - rewrite lookup_insert_ne; [by apply (tree_root _ _ _ _ _ Hok)|]. intros [= -> _]. lia.
  - intros k' p' v Hv. assert (Hup : forall key, is_Some (nodes !! key) -> is_Some (<[(k, p) := (c, f)]> nodes !! key)).
    { intros key [w Hw]. destruct (decide (key = (k, p))) as [->|Hne]; [by rewrite lookup_insert_eq|].
      rewrite lookup_insert_ne by done. by exists w. }
    apply lookup_insert_Some in Hv as [[[= <- <-] _]|[_ Hv]].
    + right. split; [done|]. split; [done|]. apply Hup. by exists (t, tf).
    + apply (tree_level _ _ _ _ _ Hok) in Hv as [?|(? & ? & ?)]; [by left|right]. split; [done|]. split; [done|]. by apply Hup.
  - intros key c' g Hv. apply lookup_insert_Some in Hv as [[_ [= <- <-]]|[_ Hv]].
    + split; [done|]. rewrite lookup_insert_ne, lookup_insert_eq by done. eexists. split; [done|]. apply zero_page_ok.
    + destruct (tree_node _ _ _ _ _ Hok _ _ _ Hv) as (Hpa & pg & Epg & Hpg). split; [done|].
      destruct (decide (c' = t)) as [->|]; [rewrite lookup_insert_eq; by eexists|].
      rewrite !lookup_insert_ne by (done || by apply not_eq_sym, (Hold _ _ _ Hv) || by apply (Hold _ _ _ Hv)). by eexists.
  - intros k' p' c' g Hk' Hv. apply lookup_insert_Some in Hv as [[[= <- <-] [= <- <-]]|[_ Hv]]; [done|].
    by apply (tree_flags _ _ _ _ _ Hok k' p' c').
  - intros k' p' t' g Hk' Hp' Hv. rewrite Hent by apply land_511.
    apply lookup_insert_Some in Hv as [[Ekey [= <- <-]]|[Hne Hv]].
    + (* the new page as a table: empty *)
      rewrite bool_decide_false by (by intros [? _]). rewrite entry_zero_page by apply land_511.
      unfold parent in Ekey. cbn [fst snd] in Ekey. injection Ekey as -> ->.
      rewrite lookup_insert_ne by (intros [= ? _]; lia).
      rewrite (missing_child _ _ _ _ _ Hok k' p' Hk'); [done|]. exact Hnone.
    + destruct (decide (t' = t /\ Z.land p' 511 = Z.land p 511)) as [[-> Ei]|Hdiff].
      * rewrite bool_decide_true by done. pose proof (tree_inj _ _ _ _ _ Hok _ _ _ _ _ Hv Hpar) as Ekey.
        unfold parent in Ekey. cbn [fst snd] in Ekey. injection Ekey as -> Eq. apply prefix_inj in Eq as ->; [|done].
        by rewrite lookup_insert_eq.
      * rewrite bool_decide_false by done. rewrite entry_insert_other by (by apply (Hold _ _ _ Hv)).
        rewrite lookup_insert_ne; [by apply (tree_entry _ _ _ _ _ Hok k' p' t' g)|].
        intros [= <- <-]. rewrite Hpar in Hv. injection Hv as <- <-. by apply Hdiff.
  - intros i Hi H2 H3. rewrite Hent by done. rewrite bool_decide_false.
    + rewrite entry_insert_other by (by apply (Hold _ _ _ (tree_root _ _ _ _ _ Hok))). by apply (tree_kernel _ _ _ _ _ Hok).
    + intros [-> ->]. pose proof (tree_inj _ _ _ _ _ Hok _ _ _ _ _ Hpar (tree_root _ _ _ _ _ Hok)) as Ekey.
      unfold parent in Ekey. cbn [fst snd] in Ekey. injection Ekey as -> _.
      destruct (user_prefix_top p Hp) as (_ & [-> | ->] & Hland); rewrite Hland in H2, H3; done.
  - intros a b c' g h Ha Hb. apply lookup_insert_Some in Ha as [[<- [= <- <-]]|[Hna Ha]];
      apply lookup_insert_Some in Hb as [[<- Eb]|[Hnb Hb]]; try done.
    + by destruct (Hfresh _ _ Hb).
    + injection Eb as <- <-. by destruct (Hfresh _ _ Ha).
    + by apply (tree_inj _ _ _ _ _ Hok a b c' g h).
Qed.

(** The store can be done, and changes the table only. *)
Lemma tree_add_store :
  exists tp, set_entry (<[c := zeros PAGE_SIZE]> m) t (Z.land p 511) (Z.lor c f) =
    Some (<[t := tp]> (<[c := zeros PAGE_SIZE]> m)).
Proof.
  destruct (tree_node _ _ _ _ _ Hok _ _ _ Hpar) as (_ & tp & Htp & Htok).
  destruct (set_entry_total (<[c := zeros PAGE_SIZE]> m) t (Z.land p 511) (Z.lor c f) tp) as (tp' & E & _);
    [by rewrite lookup_insert_ne by apply fresh_table|done|apply land_511|]. by exists tp'.
Qed.

End Add.

(** ** One frame less *)

Section Remove.
Context (kernel : list Z) (nx : bool) (m : memory) (nodes : tree) (root : Z) (Hok : tree_ok kernel nx m nodes root).
Context (p : Z) (t tf c f : Z) (Hp : user_prefix 0 p).
Context (Hleaf : nodes !! (0%nat, p) = Some (c, f)) (Hpar : nodes !! parent (0%nat, p) = Some (t, tf)).

Lemma leaf_not_table key t' g : nodes !! key = Some (t', g) -> key <> (0%nat, p) -> c <> t'.
Proof. intros Hn Hne ->. apply Hne. by apply (tree_inj _ _ _ _ _ Hok _ _ _ _ _ Hn Hleaf). Qed.

Lemma tree_remove m1 :
  set_entry m t (Z.land p 511) 0 = Some m1 ->
  tree_ok kernel nx (delete c m1) (delete (0%nat, p) nodes) root.
Proof.
  intros Hset. assert (Hct : c <> t) by (by apply (leaf_not_table _ _ _ Hpar)).
  destruct (tree_node _ _ _ _ _ Hok _ _ _ Hpar) as (_ & tp & Htp & Htok).
  destruct (set_entry_total m t (Z.land p 511) 0 tp Htp Htok (land_511 p)) as (tp' & Eset & Htok').
  rewrite Eset in Hset. injection Hset as <-.
  assert (Hent : forall t' j, 0 <= j < 512 -> c <> t' -> entry (delete c (<[t := tp']> m)) t' j =
    if bool_decide (t' = t /\ j = Z.land p 511) then Some 0 else entry m t' j).
  { intros t' j Hj Hne. rewrite entry_delete_other by done.
    apply (entry_set _ _ _ _ _ t' j Eset); [|lia|apply land_511|done]. rewrite Htp. by intros ? [= <-]. }
  constructor.
  - rewrite lookup_delete_ne by done. by apply (tree_root _ _ _ _ _ Hok).
  - intros k' p' v [_ Hv]%lookup_delete_Some. apply (tree_level _ _ _ _ _ Hok) in Hv as [?|(? & ? & ?)]; [by left|right].
    split; [done|]. split; [done|]. by rewrite lookup_delete_ne.
  - intros key c' g [Hne Hv]%lookup_delete_Some. apply not_eq_sym in Hne.
    destruct (tree_node _ _ _ _ _ Hok _ _ _ Hv) as (Hpa & pg & Epg & Hpg). split; [done|].
    rewrite lookup_delete_ne by (by apply (leaf_not_table _ _ _ Hv)).
    destruct (decide (c' = t)) as [->|]; [rewrite lookup_insert_eq|rewrite lookup_insert_ne by done]; by eexists.
  - intros k' p' c' g Hk' [_ Hv]%lookup_delete_Some. by apply (tree_flags _ _ _ _ _ Hok k' p' c').
  - intros k' p' t' g Hk' Hp' [Hne Hv]%lookup_delete_Some. apply not_eq_sym in Hne.
    rewrite Hent by (apply land_511 || by apply (leaf_not_table _ _ _ Hv)).
    destruct (decide (t' = t /\ Z.land p' 511 = Z.land p 511)) as [[-> Ei]|Hdiff].
    + rewrite bool_decide_true by done. pose proof (tree_inj _ _ _ _ _ Hok _ _ _ _ _ Hv Hpar) as Ekey.
      unfold parent in Ekey. cbn [fst snd] in Ekey. injection Ekey as -> Eq. apply prefix_inj in Eq as ->; [|done].
      by rewrite lookup_delete_eq.
    + rewrite bool_decide_false by done.
      rewrite lookup_delete_ne; [by apply (tree_entry _ _ _ _ _ Hok k' p' t' g)|].
      intros [= <- <-]. rewrite Hpar in Hv. injection Hv as <- <-. by apply Hdiff.
  - intros i Hi H2 H3. rewrite Hent by (done || by apply (leaf_not_table _ _ _ (tree_root _ _ _ _ _ Hok))).
    rewrite bool_decide_false; [by apply (tree_kernel _ _ _ _ _ Hok)|].
    intros [-> ->]. by pose proof (tree_inj _ _ _ _ _ Hok _ _ _ _ _ Hpar (tree_root _ _ _ _ _ Hok)).
  - intros a b c' g h [_ Ha]%lookup_delete_Some [_ Hb]%lookup_delete_Some. by apply (tree_inj _ _ _ _ _ Hok a b c' g h).
Qed.

Lemma tree_remove_store : exists tp, set_entry m t (Z.land p 511) 0 = Some (<[t := tp]> m).
Proof.
  destruct (tree_node _ _ _ _ _ Hok _ _ _ Hpar) as (_ & tp & Htp & Htok).
  destruct (set_entry_total m t (Z.land p 511) 0 tp Htp Htok (land_511 p)) as (tp' & E & _). by exists tp'.
Qed.

End Remove.

(** * kernel/paging.c: the invariant of an address space and one more page *)

(** What a user address space holds at a page number: the bytes and the flags of the page. *)
Definition user_page (m : memory) (nodes : tree) (q : Z) : option (list Z * Z) :=
  '(c, f) ← nodes !! (0%nat, q); bytes ← m !! c; Some (bytes, f).

Lemma user_page_some kernel nx m nodes root q c f :
  tree_ok kernel nx m nodes root -> nodes !! (0%nat, q) = Some (c, f) ->
  exists bytes, m !! c = Some bytes /\ page_ok bytes /\ user_page m nodes q = Some (bytes, f).
Proof.
  intros Hok Hn. destruct (tree_node _ _ _ _ _ Hok _ _ _ Hn) as (_ & bytes & E & Hb). exists bytes.
  split; [done|]. split; [done|]. unfold user_page. by rewrite Hn, some_bind, E.
Qed.

Lemma user_page_none m nodes q : nodes !! (0%nat, q) = None -> user_page m nodes q = None.
Proof. intros E. unfold user_page. by rewrite E. Qed.

Section Space.
Context {A : Type} `{AllocatorLaws A}.

(** The space owns exactly the pages of its tree; [rest] are the other blocks. *)
Definition space_ok (s : paging A) (space : paging_address_space) (nodes : tree) (rest : list (Z * Z)) : Prop :=
  tree_ok (g_pml4 (tables s)) (g_nx_enabled s) (frames s) nodes (pml4 space) /\
  owned s (allocations space) rest /\ map page (allocations space) ≡ₚ tree_pages nodes.

Lemma set_frames_id (s : paging A) : set_frames (frames s) s = s.
Proof. by destruct s. Qed.

Definition same_space (space space' : paging_address_space) : Prop :=
  self space' = self space /\ pml4 space' = pml4 space.

Lemma same_space_trans a b c : same_space a b -> same_space b c -> same_space a c.
Proof. intros [? ?] [? ?]. split; congruence. Qed.

Lemma space_page s space nodes rest key c f :
  space_ok s space nodes rest -> nodes !! key = Some (c, f) -> c ∈ map page (allocations space).
Proof. intros (_ & _ & Hp) Hn. rewrite Hp. by apply (tree_pages_in nodes key c f). Qed.

(** Writes to a page of the space are not seen by others. *)
Lemma preserved_write (s : paging A) l rest c bytes :
  owned s l rest -> c ∈ map page l -> preserved rest s (set_frames (<[c := bytes]> (frames s)) s).
Proof.
  intros Ho Hc. split; [|done]. intros d b Hb Hd. cbn [frames set_frames]. apply lookup_insert_ne. intros <-.
  by apply (owned_outside _ _ _ _ _ Ho Hb Hd).
Qed.

(** A failed allocation changes nothing that can be seen. *)
Lemma space_ok_same (s s' : paging A) space space' nodes rest :
  space_ok s space nodes rest -> preserved rest s s' -> frames s' = frames s -> owned s' (allocations space') rest ->
  allocations space' = allocations space -> same_space space space' -> space_ok s' space' nodes rest.
Proof.
  intros (Ht & _ & Hp) (_ & E1 & _ & E2 & _) Em Ho Ea [_ Er]. split; [|split; [done|by rewrite Ea]].
  by rewrite E1, E2, Em, Er.
Qed.

(** The page that [allocate_owned_page] gives becomes a node of the tree. *)
Lemma add_node s space nodes rest k p t tf c f space1 s1 :
  space_ok s space nodes rest -> (k <= 3)%nat -> user_prefix k p -> nodes !! (k, p) = None ->
  nodes !! parent (k, p) = Some (t, tf) -> flags_at (g_nx_enabled s) k f ->
  preserved rest s s1 -> same_space space space1 -> owned s1 (allocations space1) rest -> page_address c ->
  c ∉ map page (allocations space) -> map page (allocations space1) = c :: map page (allocations space) ->
  frames s1 = <[c := zeros PAGE_SIZE]> (frames s) ->
  exists m2, set_entry (frames s1) t (Z.land p 511) (Z.lor c f) = Some m2 /\
    preserved rest s (set_frames m2 s1) /\ space_ok (set_frames m2 s1) space1 (<[(k, p) := (c, f)]> nodes) rest /\
    forall q, user_page m2 (<[(k, p) := (c, f)]> nodes) q =
      if decide ((0%nat, q) = (k, p)) then Some (zeros PAGE_SIZE, f) else user_page (frames s) nodes q.
Proof.
  intros Hs Hk Hp Hnone Hpar Hf Hpres [Hself Hroot] Hown Hc Hni Hpages Hfr. pose proof Hs as (Ht & _ & Hperm).
  assert (Hfresh : forall key g, nodes !! key <> Some (c, g)).
  { intros key g E. by apply Hni, (space_page _ _ _ _ _ _ _ Hs E). }
  destruct (tree_add_store _ _ _ _ _ Ht k p t tf c f Hpar Hfresh Hc) as (tp & Est).
  rewrite <- Hfr in Est. eexists. split; [exact Est|].
  assert (Htin : t ∈ map page (allocations space1)).
  { rewrite Hpages. right. by apply (space_page _ _ _ _ _ _ _ Hs Hpar). }
  pose proof Hpres as (_ & E1 & _ & E2 & _).
  split; [|split; [split; [|split]|]].
  - eapply preserved_trans; [exact Hpres|]. by apply (preserved_write s1 (allocations space1)).
  - cbn [tables g_nx_enabled frames set_frames]. rewrite E1, E2, Hroot.
    apply (tree_add _ _ (frames s) nodes (pml4 space) Ht k p t tf c f); try done. by rewrite <- Hfr.
  - exact Hown.
  - rewrite tree_pages_insert, Hpages by done. by apply perm_skip.
  - intros q. unfold user_page. destruct (decide ((0%nat, q) = (k, p))) as [->|Hne].
    + rewrite lookup_insert_eq, some_bind.
      rewrite lookup_insert_ne, Hfr, lookup_insert_eq; [done|]. by apply not_eq_sym, (fresh_table nodes k p t tf c).
    + rewrite lookup_insert_ne by done. destruct (nodes !! (0%nat, q)) as [[c' g]|] eqn:E; [|done].
      rewrite !some_bind. rewrite Hfr, !lookup_insert_ne; [done|..].
      * intros ->. by apply (Hfresh (0%nat, q) g).
      * intros ->. pose proof (tree_inj _ _ _ _ _ Ht _ _ _ _ _ E Hpar). by unfold parent in *.
Qed.

(** The tree [nodes'] has more tables than [nodes], and the same user pages. *)
Definition grown (m : memory) (nodes : tree) (m' : memory) (nodes' : tree) : Prop :=
  (forall key v, nodes !! key = Some v -> nodes' !! key = Some v) /\
  forall q, nodes' !! (0%nat, q) = nodes !! (0%nat, q) /\ user_page m' nodes' q = user_page m nodes q.

Lemma grown_refl m nodes : grown m nodes m nodes.
Proof. done. Qed.

Lemma grown_trans m1 n1 m2 n2 m3 n3 : grown m1 n1 m2 n2 -> grown m2 n2 m3 n3 -> grown m1 n1 m3 n3.
Proof.
  intros [H1 H2] [H3 H4]. split; [auto|]. intros q. destruct (H2 q), (H4 q). split; congruence.
Qed.

(** An operation of the space: it keeps the invariant, and what is not the space's. *)
Definition space_step (rest : list (Z * Z)) (s : paging A) (space : paging_address_space)
    (s' : paging A) (space' : paging_address_space) (nodes' : tree) : Prop :=
  preserved rest s s' /\ same_space space space' /\ space_ok s' space' nodes' rest.

Lemma space_step_refl rest s space nodes : space_ok s space nodes rest -> space_step rest s space s space nodes.
Proof. done. Qed.

Lemma space_step_trans rest s1 p1 s2 p2 n2 s3 p3 n3 :
  space_step rest s1 p1 s2 p2 n2 -> space_step rest s2 p2 s3 p3 n3 -> space_step rest s1 p1 s3 p3 n3.
Proof.
  intros (H1 & E1 & _) (H2 & E2 & H3). split; [by eapply preserved_trans|]. split; [by eapply same_space_trans|done].
Qed.

(** [ensure_owned_table] finds or makes the table, or has no effect. *)
Lemma ensure_owned_table_spec s space nodes rest k p t tf :
  space_ok s space nodes rest -> (1 <= k <= 3)%nat -> user_prefix k p -> nodes !! parent (k, p) = Some (t, tf) ->
  exists c space' s' nodes', ensure_owned_table space t (Z.land p 511) s = Some (c, space', s') /\
    space_step rest s space s' space' nodes' /\ grown (frames s) nodes (frames s') nodes' /\
    (c = NULL \/ page_address c /\ exists f, nodes' !! (k, p) = Some (c, f)).
Proof.
  intros Hs Hk Hp Hpar. pose proof Hs as (Ht & Hown & Hperm). unfold ensure_owned_table.
  pose proof (tree_entry _ _ _ _ _ Ht k p t tf ltac:(lia) Hp Hpar) as E. rewrite E, some_bind.
  destruct (nodes !! (k, p)) as [[c f]|] eqn:En; cbn [node_entry] in E |- *.
  - destruct (table_entry_bits _ _ _ _ _ Ht k p c f ltac:(lia) En) as (_ & _ & -> & -> & -> & Hmask). cbn [orb negb].
    assert (f = TABLE_FLAGS) as ->.
    { pose proof (tree_flags _ _ _ _ _ Ht k p c f ltac:(lia) En) as Hf. destruct k; [lia|done]. }
    assert (Elor : Z.lor (Z.lor c TABLE_FLAGS) (Z.lor PAGE_RW PAGE_USER) = Z.lor c TABLE_FLAGS) by (by rewrite <- Z.lor_assoc).
    rewrite Elor. destruct (tree_node _ _ _ _ _ Ht _ _ _ Hpar) as (_ & tp & Htp & Htok).
    rewrite (set_entry_same _ _ _ _ tp Htp Htok (land_511 p) E), some_bind, Hmask.
    rewrite set_frames_id. exists c, space, s, nodes. split; [done|].
    split; [by apply space_step_refl|]. split; [done|]. right. split; [by apply (tree_node _ _ _ _ _ Ht _ _ _ En)|by eexists].
  - change (has_any PAGE_PRESENT 0) with false. cbv iota.
    destruct (allocate_owned_page_spec space s rest Hown) as (c & space1 & s1 & -> & Hpres & Hself & Hroot & Hown1 & Hc).
    rewrite some_bind. destruct Hc as [(-> & Ea & Em)|(Hc & Hni & Hpages & Hfr)].
    + change (NULL =? NULL) with true. cbv iota. exists NULL, space1, s1, nodes. split; [done|].
      split; [split; [done|split; [done|by apply (space_ok_same s s1 space space1)]]|]. split; [rewrite Em; apply grown_refl|by left].
    + assert (Hnn : (c =? NULL) = false) by (apply Z.eqb_neq, Hc). rewrite Hnn. pose proof Hc as (Emask & _ & _). rewrite Emask.
      destruct (add_node s space nodes rest k p t tf c TABLE_FLAGS space1 s1) as (m2 & Eset & Hpres2 & Hs2 & Hpg);
        try done; [lia|destruct k; [lia|done]|].
      change (Z.lor PAGE_PRESENT (Z.lor PAGE_RW (Z.lor PAGE_USER PAGE_OWNED))) with TABLE_FLAGS. rewrite Eset, some_bind.
      exists c, space1, (set_frames m2 s1), (<[(k, p) := (c, TABLE_FLAGS)]> nodes). split; [done|].
      split; [done|]. split; [split|].
      * intros key v Ekey. rewrite lookup_insert_ne; [done|]. intros <-. congruence.
      * intros q. split; [apply lookup_insert_ne; intros [= -> _]; lia|]. cbn [frames set_frames]. rewrite Hpg.
        rewrite decide_False; [done|]. intros [= <- _]. lia.
      * right. split; [done|]. exists TABLE_FLAGS. by rewrite lookup_insert_eq.
Qed.

End Space.
