(* ===== verification/PagingMap.v ===== *)
(** * kernel/paging.c: mapping and unmapping of user pages

    The effect of the operations on the pages a user sees: a function from page
    numbers to the bytes and flags there, [user_page] of a tree.

    Then the bytes a user sees and the copies to and from them; then the life of a space. *)

From stdpp Require Import gmap.
From S2P Require Import Prelude CString Syslog Heap HeapSpec Allocator Paging PagingTree PagingSpace.

Lemma prefix_page a : prefix 0 a = a / 4096.
Proof. unfold prefix. by rewrite Z.shiftr_div_pow2. Qed.

Lemma prefix_next a i : prefix 0 (a + i * 4096) = prefix 0 a + i.
Proof. rewrite !prefix_page. apply Z.div_add. lia. Qed.

(** What the guards of the two operations accept. *)
Lemma page_range_spec a size :
  0 <= a -> 0 <= size -> page_range_ok a size = true <->
  0 < size /\ a mod 4096 = 0 /\ size mod 4096 = 0 /\ PAGING_USER_BASE <= a /\ a + size <= PAGING_USER_LIMIT.
Proof.
  intros Ha Hs. unfold page_range_ok. rewrite (proj2 (page_of_spec a Ha)), (proj2 (page_of_spec size Hs)).
  rewrite !andb_true_iff, negb_true_iff, Z.eqb_neq, !Z.eqb_eq. split.
  - intros (((H1 & H2) & H3) & H4). apply user_range_valid_spec in H4 as [? ?]; [|lia]. lia.
  - intros (H1 & H2 & H3 & H4 & H5). rewrite user_range_valid_spec by lia. lia.
Qed.

Lemma parent_prefix k a : parent (k, prefix k a) = (S k, prefix (S k) a).
Proof. unfold parent. cbn [fst snd]. by rewrite prefix_up. Qed.

Lemma page_address_nonnull c : page_address c -> (c =? NULL) = false.
Proof. intros (_ & Hc & _). by apply Z.eqb_neq. Qed.

(** The pages [n] from [q] on, and the rest as before. *)
Definition pages_update (u : Z -> option (list Z * Z)) (q n : Z) (v : option (list Z * Z)) (u' : Z -> option (list Z * Z)) : Prop :=
  forall r, u' r = if decide (q <= r < q + n) then v else u r.

(** The first page after a range of whole pages. *)
Lemma range_end a size : 0 <= size -> size mod 4096 = 0 -> (a + size) / 4096 = a / 4096 + size / 4096.
Proof. intros Hs Hm. rewrite <- (Z.div_add a) by lia. f_equal. pose proof (Z.div_mod size 4096). lia. Qed.

Section Map.
Context {A : Type} `{AllocatorLaws A}.

(** ** One page *)

(** A request that failed, and only added tables. *)
Lemma grown_failed (s s' : paging A) (space space' : paging_address_space) (nodes nodes' : tree) (rest : list (Z * Z))
    (P : paging_address_space -> paging A -> tree -> Prop) :
  space_step rest s space s' space' nodes' -> grown (frames s) nodes (frames s') nodes' ->
  exists ok sp st n, Some (false, space', s') = Some (ok, sp, st) /\ space_step rest s space st sp n /\
    (if (ok : bool) then P sp st n else forall q, user_page (frames st) n q = user_page (frames s) nodes q).
Proof. intros Hst [_ Hg]. exists false, space', s', nodes'. split; [done|]. split; [done|]. intros q. apply Hg. Qed.

Lemma refused (s : paging A) (space : paging_address_space) (nodes : tree) (rest : list (Z * Z)) (P : paging_address_space -> paging A -> tree -> Prop) :
  space_ok s space nodes rest ->
  exists ok sp st n, Some (false, space, s) = Some (ok, sp, st) /\ space_step rest s space st sp n /\
    (if (ok : bool) then P sp st n else forall q, user_page (frames st) n q = user_page (frames s) nodes q).
Proof. intros Hs. by apply (grown_failed s s space space nodes nodes). Qed.

Lemma map_fresh_user_page_spec (s : paging A) space nodes rest a w x :
  space_ok s space nodes rest ->
  exists ok space' s' nodes', map_fresh_user_page space a w x s = Some (ok, space', s') /\
    space_step rest s space s' space' nodes' /\
    (if (ok : bool) then user_page (frames s) nodes (prefix 0 a) = None /\
       pages_update (user_page (frames s) nodes) (prefix 0 a) 1 (Some (zeros PAGE_SIZE, frame_flags w x (g_nx_enabled s)))
         (user_page (frames s') nodes')
     else forall q, user_page (frames s') nodes' q = user_page (frames s) nodes q).
Proof.
  intros Hs. unfold map_fresh_user_page. pose proof Hs as (Ht & _ & _). rewrite (root_nonnull _ _ _ _ _ Ht). cbn [orb].
  destruct (offset_of a =? 0) eqn:Eo; cbn [negb orb]; [|by apply refused].
  destruct (user_range_valid a PAGE_SIZE) eqn:Er; cbn [negb]; [|by apply refused].
  apply user_range_valid_spec in Er; [|done]. unfold PAGE_SIZE in Er.
  assert (Ha : PAGING_USER_BASE <= a < PAGING_USER_LIMIT) by lia.
  pose proof (user_address_prefix a Ha) as Hpre. destruct (table_indices a) as (-> & -> & -> & ->).
  destruct (ensure_owned_table_spec s space nodes rest 3 (prefix 3 a) (pml4 space) 0)
    as (t3 & sp3 & s3 & n3 & -> & Hst3 & Hg3 & Hc3); [done|lia|by apply Hpre; lia| |].
  { rewrite parent_prefix, prefix_top by done. apply (tree_root _ _ _ _ _ Ht). }
  rewrite some_bind. destruct Hc3 as [->|(Hc3 & f3 & E3)]; [by eapply grown_failed|].
  rewrite (page_address_nonnull _ Hc3). pose proof Hst3 as (Hpr3 & _ & Hs3).
  destruct (ensure_owned_table_spec s3 sp3 n3 rest 2 (prefix 2 a) t3 f3)
    as (t2 & sp2 & s2 & n2 & -> & Hst2 & Hg2 & Hc2); [done|lia|by apply Hpre; lia|by rewrite parent_prefix|].
  pose proof (space_step_trans _ _ _ _ _ _ _ _ _ Hst3 Hst2) as Hst32. pose proof (grown_trans _ _ _ _ _ _ Hg3 Hg2) as Hg32.
  rewrite some_bind. destruct Hc2 as [->|(Hc2 & f2 & E2)]; [by eapply grown_failed|].
  rewrite (page_address_nonnull _ Hc2). pose proof Hst2 as (_ & _ & Hs2).
  destruct (ensure_owned_table_spec s2 sp2 n2 rest 1 (prefix 1 a) t2 f2)
    as (t1 & sp1 & s1 & n1 & -> & Hst1 & Hg1 & Hc1); [done|lia|by apply Hpre; lia|by rewrite parent_prefix|].
  pose proof (space_step_trans _ _ _ _ _ _ _ _ _ Hst32 Hst1) as Hst. pose proof (grown_trans _ _ _ _ _ _ Hg32 Hg1) as Hg.
  rewrite some_bind. destruct Hc1 as [->|(Hc1 & f1 & E1)]; [by eapply grown_failed|].
  rewrite (page_address_nonnull _ Hc1). pose proof Hst as ((_ & _ & _ & Enx & _) & _ & Hs1). pose proof Hs1 as (Ht1 & Hown1 & _).
  rewrite (tree_entry _ _ _ _ _ Ht1 0 (prefix 0 a) t1 f1) by (lia || (by apply Hpre; lia) || by rewrite parent_prefix).
  rewrite some_bind. destruct (n1 !! (0%nat, prefix 0 a)) as [[c f]|] eqn:E0; cbn [node_entry].
  { destruct (table_entry_bits _ _ _ _ _ Ht1 0 (prefix 0 a) c f) as (_ & _ & -> & _); [lia|done|]. by eapply grown_failed. }
  change (has_any PAGE_PRESENT 0) with false. cbv iota.
  destruct (allocate_owned_page_spec sp1 s1 rest Hown1) as (c & spf & sf & -> & Hpres & Hself & Hroot & Hownf & Hc).
  rewrite some_bind. destruct Hc as [(-> & Ea & Em)|(Hc & Hni & Hpages & Hfr)].
  { change (NULL =? NULL) with true. cbv iota. apply (grown_failed s sf space spf nodes n1).
    - eapply space_step_trans; [exact Hst|]. split; [done|]. split; [done|]. by apply (space_ok_same s1 sf sp1 spf).
    - by rewrite Em. }
  rewrite (page_address_nonnull _ Hc). pose proof Hc as (Emask & _ & _). rewrite Emask, <- Z.lor_assoc.
  change (Z.lor (leaf_flags w x (g_nx_enabled sf)) PAGE_OWNED) with (frame_flags w x (g_nx_enabled sf)).
  assert (g_nx_enabled sf = g_nx_enabled s1) as -> by apply Hpres.
  destruct (add_node s1 sp1 n1 rest 0 (prefix 0 a) t1 f1 c (frame_flags w x (g_nx_enabled s1)) spf sf)
    as (m2 & -> & Hpres2 & Hs' & Hpg); try done; [lia|by apply Hpre; lia|by exists w, x|].
  rewrite some_bind. do 4 eexists. split; [done|]. split; [|split].
  - eapply space_step_trans; [exact Hst|]. split; [done|]. split; [done|exact Hs'].
  - destruct Hg as [_ Hg]. destruct (Hg (prefix 0 a)) as [_ <-]. by apply user_page_none.
  - intros r. cbn [frames set_frames]. rewrite Hpg, Enx. destruct Hg as [_ Hg]. destruct (Hg r) as [_ <-].
    destruct (decide (prefix 0 a <= r < prefix 0 a + 1)) as [Hr|Hr].
    + assert (r = prefix 0 a) as -> by lia. by rewrite decide_True.
    + rewrite decide_False; [done|]. intros [= ->]. lia.
Qed.

(** ** Unmapping *)

(** A page that the tree has is an owned leaf. *)
Lemma leaf_node (s : paging A) space nodes rest a c f :
  space_ok s space nodes rest -> PAGING_USER_BASE <= a < PAGING_USER_LIMIT -> nodes !! (0%nat, prefix 0 a) = Some (c, f) ->
  exists t tf, nodes !! parent (0%nat, prefix 0 a) = Some (t, tf) /\
    user_leaf_entry (frames s) space a = Some (Some (t, Z.land (prefix 0 a) 511)) /\
    entry (frames s) t (Z.land (prefix 0 a) 511) = Some (Z.lor c f) /\
    has_bits (Z.lor PAGE_PRESENT (Z.lor PAGE_USER PAGE_OWNED)) (Z.lor c f) = true /\
    Z.land (Z.lor c f) PAGE_ADDRESS_MASK = c /\
    exists al l, find_owned_allocation (allocations space) c = Some (al, l) /\ page al = c /\ allocations space ≡ₚ al :: l.
Proof.
  intros Hs Ha Hn. pose proof Hs as (Ht & _ & _). pose proof (user_address_prefix a Ha 0 ltac:(lia)) as Hpre.
  destruct (tree_level _ _ _ _ _ Ht _ _ _ Hn) as [[? _]|(_ & _ & [[t tf] Hpar])]; [done|].
  exists t, tf. split; [done|]. split.
  { rewrite (user_leaf_entry_node _ _ _ _ _ Ht space a eq_refl), bool_decide_true by done. unfold node_page.
    rewrite parent_prefix in Hpar. rewrite Hpar. by destruct (table_indices a) as (_ & _ & _ & ->). }
  split; [by rewrite (tree_entry _ _ _ _ _ Ht 0 (prefix 0 a) t tf) by (lia || done); rewrite Hn|].
  destruct (table_entry_bits _ _ _ _ _ Ht 0 (prefix 0 a) c f ltac:(lia) Hn) as (-> & _ & _ & _ & _ & ->).
  split; [done|]. split; [done|]. pose proof (find_owned_spec (allocations space) c) as Hf.
  destruct (find_owned_allocation (allocations space) c) as [[al l]|]; [exists al, l; by destruct Hf|].
  destruct Hf. by apply (space_page _ _ _ _ _ _ _ Hs Hn).
Qed.

(** No leaf is found, or an empty entry, for a page that is not mapped. *)
Lemma leaf_missing (s : paging A) space nodes rest a :
  space_ok s space nodes rest -> PAGING_USER_BASE <= a < PAGING_USER_LIMIT -> nodes !! (0%nat, prefix 0 a) = None ->
  exists leaf, user_leaf_entry (frames s) space a = Some leaf /\
    match leaf with None => True | Some (t, i) => entry (frames s) t i = Some 0 end.
Proof.
  intros Hs Ha Hn. pose proof Hs as (Ht & _ & _). pose proof (user_address_prefix a Ha 0 ltac:(lia)) as Hpre.
  rewrite (user_leaf_entry_node _ _ _ _ _ Ht space a eq_refl), bool_decide_true by done. eexists. split; [done|].
  unfold node_page. destruct (nodes !! (1%nat, prefix 1 a)) as [[t tf]|] eqn:E; cbn [fmap option_fmap option_map fst]; [|done].
  destruct (table_indices a) as (_ & _ & _ & ->).
  by rewrite (tree_entry _ _ _ _ _ Ht 0 (prefix 0 a) t tf) by (lia || done || by rewrite parent_prefix); rewrite Hn.
Qed.

Lemma remove_node (s : paging A) space nodes rest p t tf c f al l m1 :
  space_ok s space nodes rest -> user_prefix 0 p -> nodes !! (0%nat, p) = Some (c, f) ->
  nodes !! parent (0%nat, p) = Some (t, tf) -> set_entry (frames s) t (Z.land p 511) 0 = Some m1 ->
  page al = c -> allocations space ≡ₚ al :: l ->
  exists s', free_allocation al (set_frames m1 s) = Some s' /\
    space_step rest s space s' (set_allocations l space) (delete (0%nat, p) nodes) /\
    pages_update (user_page (frames s) nodes) p 1 None (user_page (frames s') (delete (0%nat, p) nodes)).
Proof.
  intros Hs Hp Hn Hpar Hset Hal Hl. pose proof Hs as (Ht & Hown & Hperm).
  destruct (tree_remove_store _ _ _ _ _ Ht p t tf Hpar) as (tp & Est). rewrite Hset in Est. injection Est as ->.
  pose proof (owned_perm _ _ _ _ Hown Hl) as Hown1.
  destruct (free_allocation_spec al l (set_frames (<[t := tp]> (frames s)) s) rest Hown1) as (s' & -> & Hpres & Hown' & Hfr).
  cbn [frames set_frames] in Hfr. rewrite Hal in Hfr. exists s'. split; [done|]. split.
  - pose proof Hpres as (_ & E1 & _ & E2 & _). cbn [tables g_nx_enabled set_frames] in E1, E2. split; [|split; [done|]].
    + eapply preserved_trans; [|exact Hpres]. apply (preserved_write s (allocations space)); [done|].
      by apply (space_page _ _ _ _ _ _ _ Hs Hpar).
    + split; [|split; [done|]].
      * cbn [pml4 set_allocations]. rewrite E1, E2, Hfr. by apply (tree_remove _ _ _ _ _ Ht p t tf c f).
      * cbn [allocations set_allocations]. apply (Permutation_cons_inv (a := c)).
        rewrite <- (tree_pages_delete nodes (0%nat, p) c f Hn), <- Hperm, Hl. cbn [map]. by rewrite Hal.
  - intros r. unfold user_page. rewrite Hfr. destruct (decide (p <= r < p + 1)) as [Hr|Hr].
    + assert (r = p) as -> by lia. by rewrite lookup_delete_eq.
    + rewrite lookup_delete_ne by (intros [= ->]; lia). destruct (nodes !! (0%nat, r)) as [[c' g]|] eqn:E; [|done].
      rewrite !some_bind. rewrite lookup_delete_ne.
      2: { apply (leaf_not_table _ _ _ _ _ Ht p c f Hn _ _ _ E). intros [= ->]. lia. }
      rewrite lookup_insert_ne; [done|]. intros ->. by pose proof (tree_inj _ _ _ _ _ Ht _ _ _ _ _ E Hpar).
Qed.

(** All the pages [n] from [q] on are there. *)
Definition all_mapped (u : Z -> option (list Z * Z)) (q : Z) (n : nat) : Prop :=
  forall i, (i < n)%nat -> is_Some (u (q + Z.of_nat i)).

Lemma all_mapped_S u q n : all_mapped u q (S n) <-> is_Some (u q) /\ all_mapped u (q + 1) n.
Proof.
  split.
  - intros Hm. split; [by specialize (Hm 0%nat ltac:(lia)); rewrite Z.add_0_r in Hm|]. intros i Hi.
    specialize (Hm (S i) ltac:(lia)). by replace (q + 1 + Z.of_nat i) with (q + Z.of_nat (S i)) by lia.
  - intros [H0' Hm] [|i] Hi; [by rewrite Z.add_0_r|].
    specialize (Hm i ltac:(lia)). by replace (q + 1 + Z.of_nat i) with (q + Z.of_nat (S i)) in Hm by lia.
Qed.

Lemma all_mapped_range u q n : 0 <= n -> all_mapped u q (Z.to_nat n) <-> forall r, q <= r < q + n -> is_Some (u r).
Proof.
  intros Hn. split.
  - intros Hm r Hr. specialize (Hm (Z.to_nat (r - q)) ltac:(lia)). by replace (q + Z.of_nat (Z.to_nat (r - q))) with r in Hm by lia.
  - intros Hm i Hi. apply Hm. lia.
Qed.

Lemma user_page_is_Some (s : paging A) space nodes rest q :
  space_ok s space nodes rest -> is_Some (user_page (frames s) nodes q) <-> is_Some (nodes !! (0%nat, q)).
Proof.
  intros (Ht & _ & _). destruct (nodes !! (0%nat, q)) as [[c f]|] eqn:E.
  - destruct (user_page_some _ _ _ _ _ _ _ _ Ht E) as (b & _ & _ & ->). split; by eexists.
  - rewrite user_page_none by done. split; by intros [? ?].
Qed.

Lemma unmap_valid_spec (s : paging A) space nodes rest n : forall a,
  space_ok s space nodes rest -> PAGING_USER_BASE <= a -> a + Z.of_nat n * 4096 <= PAGING_USER_LIMIT ->
  exists b, unmap_valid n (frames s) space a = Some b /\
    (b = true <-> all_mapped (user_page (frames s) nodes) (prefix 0 a) n).
Proof.
  induction n as [|n IH]; intros a Hs Hlo Hhi; cbn [unmap_valid]; [exists true; split; [done|split; [intros _ i; lia|done]]|].
  assert (Ha : PAGING_USER_BASE <= a < PAGING_USER_LIMIT) by lia.
  assert (Hnext : prefix 0 (a + PAGE_SIZE) = prefix 0 a + 1) by (rewrite <- (prefix_next a 1); done).
  destruct (nodes !! (0%nat, prefix 0 a)) as [[c f]|] eqn:En.
  - destruct (leaf_node s space nodes rest a c f Hs Ha En) as (t & tf & _ & -> & E & Hbits & Hmask & al & l & Ef & _ & _).
    rewrite !some_bind, E, some_bind, Hbits, Hmask, Ef. cbn [negb]. rewrite bool_decide_false by done.
    destruct (IH (a + PAGE_SIZE) Hs) as (b & -> & Hb); [unfold PAGE_SIZE; lia|unfold PAGE_SIZE; lia|].
    exists b. split; [done|]. rewrite Hb, all_mapped_S, Hnext, (user_page_is_Some s space nodes rest) by done. rewrite En.
    split; [intros ?; split; [by eexists|done]|by intros [_ ?]].
  - assert (Hnot : ~ all_mapped (user_page (frames s) nodes) (prefix 0 a) (S n)).
    { rewrite all_mapped_S, (user_page_is_Some s space nodes rest) by done. rewrite En. by intros [[? ?] _]. }
    destruct (leaf_missing s space nodes rest a Hs Ha En) as (leaf & -> & Hl). rewrite some_bind.
    exists false. split; [|done]. destruct leaf as [[t i]|]; [|done]. by rewrite Hl, some_bind.
Qed.

Lemma unmap_pages_spec n : forall (s : paging A) space nodes rest a,
  space_ok s space nodes rest -> PAGING_USER_BASE <= a -> a + Z.of_nat n * 4096 <= PAGING_USER_LIMIT ->
  all_mapped (user_page (frames s) nodes) (prefix 0 a) n ->
  exists space' s' nodes', unmap_pages n space a s = Some (space', s') /\ space_step rest s space s' space' nodes' /\
    pages_update (user_page (frames s) nodes) (prefix 0 a) (Z.of_nat n) None (user_page (frames s') nodes').
Proof.
  induction n as [|n IH]; intros s space nodes rest a Hs Hlo Hhi Hm; cbn [unmap_pages].
  { exists space, s, nodes. split; [done|]. split; [done|]. intros r. rewrite decide_False by lia. done. }
  assert (Ha : PAGING_USER_BASE <= a < PAGING_USER_LIMIT) by lia.
  assert (Hnext : prefix 0 (a + PAGE_SIZE) = prefix 0 a + 1) by (rewrite <- (prefix_next a 1); done).
  apply all_mapped_S in Hm as [H1 Hm]. apply (user_page_is_Some s space nodes rest) in H1 as [[c f] En]; [|done].
  destruct (leaf_node s space nodes rest a c f Hs Ha En) as (t & tf & Hpar & -> & E & _ & Hmask & al & l & Ef & Hal & Hl).
  rewrite !some_bind, E, some_bind. pose proof Hs as (Ht & _ & _).
  destruct (tree_remove_store _ _ _ _ _ Ht (prefix 0 a) t tf Hpar) as (tp & Est).
  rewrite Est, some_bind, Hmask, Ef, some_bind.
  destruct (remove_node s space nodes rest (prefix 0 a) t tf c f al l _ Hs (user_address_prefix a Ha 0 ltac:(lia)) En Hpar Est Hal Hl)
    as (s1 & -> & Hst1 & Hu1). rewrite some_bind.
  destruct (IH s1 (set_allocations l space) (delete (0%nat, prefix 0 a) nodes) rest (a + PAGE_SIZE))
    as (sp2 & s2 & n2 & -> & Hst2 & Hu2); [by destruct Hst1 as (_ & _ & ?)|unfold PAGE_SIZE; lia|unfold PAGE_SIZE; lia| |].
  { intros i Hi. rewrite Hnext, Hu1, decide_False by lia. by apply Hm. }
  exists sp2, s2, n2. split; [done|]. split; [by eapply space_step_trans|].
  intros r. rewrite Hu2, Hu1, Hnext. repeat case_decide; lia || done.
Qed.

Lemma unmap_anonymous_spec (s : paging A) space nodes rest a size :
  space_ok s space nodes rest -> 0 <= a -> 0 <= size ->
  exists ok space' s' nodes', unmap_anonymous space a size s = Some (ok, space', s') /\
    space_step rest s space s' space' nodes' /\
    (ok = true <-> page_range_ok a size = true /\
      all_mapped (user_page (frames s) nodes) (prefix 0 a) (Z.to_nat (size / 4096))) /\
    (if (ok : bool) then pages_update (user_page (frames s) nodes) (prefix 0 a) (size / 4096) None (user_page (frames s') nodes')
     else s' = s /\ space' = space /\ nodes' = nodes).
Proof.
  intros Hs Ha Hsz. unfold unmap_anonymous. destruct (page_range_ok a size) eqn:Er; cbn [negb].
  2: { exists false, space, s, nodes. split; [done|]. split; [done|]. split; [split; [done|by intros [? _]]|done]. }
  pose proof Er as Hr. apply page_range_spec in Hr as (Hpos & _ & Hm & Hlo & Hhi); [|done|done].
  change PAGE_SIZE with 4096. pose proof (Z.div_mod size 4096 ltac:(lia)) as Hdiv.
  assert (Hn : Z.of_nat (Z.to_nat (size / 4096)) = size / 4096) by (apply Z2Nat.id; lia).
  destruct (unmap_valid_spec s space nodes rest (Z.to_nat (size / 4096)) a Hs) as (b & -> & Hb); [done|rewrite Hn; lia|].
  rewrite some_bind. destruct b; cbn [negb].
  - destruct (unmap_pages_spec (Z.to_nat (size / 4096)) s space nodes rest a Hs) as (sp & s' & n' & -> & Hst & Hu);
      [done|rewrite Hn; lia|by apply Hb|].
    rewrite some_bind, Hn in *. exists true, sp, s', n'. split; [done|]. split; [done|]. split; [|done].
    split; [intros _; split; [done|by apply Hb]|done].
  - exists false, space, s, nodes. split; [done|]. split; [done|]. split; [|done]. split; [done|]. intros [_ Hm'].
    by apply Hb in Hm'.
Qed.

(** ** Mapping a range *)

Lemma map_pages_spec n : forall (s : paging A) space nodes rest a i w x u,
  space_ok s space nodes rest -> PAGING_USER_BASE <= a -> a mod 4096 = 0 -> 0 <= i ->
  a + (i + Z.of_nat n) * 4096 <= PAGING_USER_LIMIT ->
  (forall r, prefix 0 a <= r < prefix 0 a + i -> u r = None) ->
  pages_update u (prefix 0 a) i (Some (zeros PAGE_SIZE, frame_flags w x (g_nx_enabled s))) (user_page (frames s) nodes) ->
  exists ok space' s' nodes', map_pages n space a (i * 4096) w x s = Some (ok, space', s') /\
    space_step rest s space s' space' nodes' /\
    (if (ok : bool)
     then (forall r, prefix 0 a <= r < prefix 0 a + i + Z.of_nat n -> u r = None) /\
       pages_update u (prefix 0 a) (i + Z.of_nat n) (Some (zeros PAGE_SIZE, frame_flags w x (g_nx_enabled s)))
         (user_page (frames s') nodes')
     else forall r, user_page (frames s') nodes' r = u r).
Proof.
  induction n as [|n IH]; intros s space nodes rest a i w x u Hs Hlo Hal Hi Hhi Hnone Hu; cbn [map_pages].
  { exists true, space, s, nodes. change (Z.of_nat 0) with 0. rewrite !Z.add_0_r. done. }
  destruct (map_fresh_user_page_spec s space nodes rest (a + i * 4096) w x Hs) as (ok & sp1 & s1 & n1 & -> & Hst1 & H1).
  rewrite some_bind. rewrite prefix_next in H1. pose proof Hst1 as (Hpr1 & _ & Hs1).
  assert (Enx : g_nx_enabled s1 = g_nx_enabled s) by (by apply Hpr1).
  destruct ok.
  - destruct H1 as [Hn1 Hu1].
    assert (Hui : u (prefix 0 a + i) = None) by (rewrite Hu, decide_False in Hn1 by lia; done).
    replace (i * 4096 + PAGE_SIZE) with ((i + 1) * 4096) by (unfold PAGE_SIZE; lia).
    destruct (IH s1 sp1 n1 rest a (i + 1) w x u Hs1) as (ok & sp2 & s2 & n2 & -> & Hst2 & H2); [done|done|lia|lia| | |].
    + intros r Hr. destruct (decide (r = prefix 0 a + i)) as [->|]; [done|]. apply Hnone. lia.
    + intros r. rewrite Hu1, Hu, Enx. repeat case_decide; lia || done.
    + exists ok, sp2, s2, n2. split; [done|]. split; [by eapply space_step_trans|].
      rewrite Enx in H2. replace (i + Z.of_nat (S n)) with (i + 1 + Z.of_nat n) by lia.
      destruct ok; [|done]. destruct H2 as [H2 H3]. split; [|done]. intros r Hr. apply H2. lia.
  - destruct (Z.eqb_spec (i * 4096) 0) as [Ez|Ez].
    + exists false, sp1, s1, n1. split; [done|]. split; [done|]. intros r. rewrite H1, Hu, decide_False by lia. done.
    + destruct (unmap_anonymous_spec s1 sp1 n1 rest a (i * 4096) Hs1) as (ok & sp2 & s2 & n2 & -> & Hst2 & Hok & H2);
        [unfold PAGING_USER_BASE in Hlo; lia|lia|].
      rewrite some_bind, Z.div_mul in * by lia.
      assert (ok = true) as ->.
      { apply Hok. split.
        - apply page_range_spec; [unfold PAGING_USER_BASE in Hlo; lia|lia|]. split_and!; try lia. apply Z.mod_mul. lia.
        - intros j Hj. rewrite H1, Hu, decide_True by lia. by eexists. }
      exists false, sp2, s2, n2. split; [done|]. split; [by eapply space_step_trans|]. intros r. rewrite H2, H1, Hu.
      case_decide; [|done]. symmetry. by apply Hnone.
Qed.

Lemma map_anonymous_spec (s : paging A) space nodes rest a size w x :
  space_ok s space nodes rest -> 0 <= a -> 0 <= size ->
  exists ok space' s' nodes', map_anonymous space a size w x s = Some (ok, space', s') /\
    space_step rest s space s' space' nodes' /\
    (if (ok : bool)
     then page_range_ok a size = true /\
       (forall r, prefix 0 a <= r < prefix 0 a + size / 4096 -> user_page (frames s) nodes r = None) /\
       pages_update (user_page (frames s) nodes) (prefix 0 a) (size / 4096)
         (Some (zeros PAGE_SIZE, frame_flags w x (g_nx_enabled s))) (user_page (frames s') nodes')
     else forall r, user_page (frames s') nodes' r = user_page (frames s) nodes r).
Proof.
  intros Hs Ha Hsz. unfold map_anonymous. destruct (page_range_ok a size) eqn:Er; cbn [negb]; [|by apply refused].
  apply page_range_spec in Er as (Hpos & Hal & Hm & Hlo & Hhi); [|done|done].
  change PAGE_SIZE with 4096. pose proof (Z.div_mod size 4096 ltac:(lia)) as Hdiv.
  assert (Hn : Z.of_nat (Z.to_nat (size / 4096)) = size / 4096) by (apply Z2Nat.id; lia).
  destruct (map_pages_spec (Z.to_nat (size / 4096)) s space nodes rest a 0 w x (user_page (frames s) nodes) Hs)
    as (ok & sp & s' & n' & E & Hst & H1); [done|done|done|rewrite Hn; lia|intros; lia| |].
  { intros r. rewrite decide_False by lia. done. }
  change (0 * 4096) with 0 in E. rewrite E, Hn in *. exists ok, sp, s', n'. split; [done|]. split; [done|].
  rewrite Z.add_0_r, Z.add_0_l in H1. destruct ok; [|done]. by destruct H1.
Qed.

End Map.

(** * kernel/paging.c: the copies to and from user memory *)

(** The byte at a user address. *)
Definition user_byte (m : memory) (nodes : tree) (a : Z) : option Z :=
  '(bytes, _) ← user_page m nodes (prefix 0 a); bytes !! Z.to_nat (offset_of a).

(** The page of the address is mapped (and writable). *)
Definition accessible (nodes : tree) (w : bool) (a : Z) : Prop :=
  exists c f, nodes !! (0%nat, prefix 0 a) = Some (c, f) /\ (w = true -> has_any PAGE_RW f = true).

Lemma offset_range a : 0 <= a -> 0 <= offset_of a < 4096.
Proof. intros Ha. rewrite (proj2 (page_of_spec a Ha)). apply Z.mod_pos_bound. lia. Qed.

Lemma chunk_range a n : 0 <= a -> 0 < n -> 0 < chunk_at a n <= n /\ offset_of a + chunk_at a n <= 4096.
Proof. intros Ha Hn. unfold chunk_at, PAGE_SIZE. pose proof (offset_range a Ha). lia. Qed.

Lemma chunk_page a n x :
  0 <= a -> 0 < n -> a <= x < a + chunk_at a n -> prefix 0 x = prefix 0 a /\ offset_of x = offset_of a + (x - a).
Proof.
  intros Ha Hn Hx. destruct (chunk_range a n Ha Hn) as [_ Hc]. rewrite !prefix_page.
  rewrite !(fun y Hy => proj2 (page_of_spec y Hy)) in * by lia.
  pose proof (Z.div_mod a 4096 ltac:(lia)). pose proof (Z.mod_pos_bound a 4096 ltac:(lia)).
  assert (E : x / 4096 = a / 4096) by (symmetry; apply Z.div_unique with (a mod 4096 + (x - a)); lia).
  split; [done|]. symmetry. apply Z.mod_unique with (a / 4096); lia.
Qed.

Lemma chunk_fuel a n fuel :
  0 <= a -> 0 < n -> offset_of a + n <= Z.of_nat (S fuel) * 4096 ->
  n - chunk_at a n = 0 \/ offset_of (a + chunk_at a n) + (n - chunk_at a n) <= Z.of_nat fuel * 4096.
Proof.
  intros Ha Hn Hf. pose proof (offset_range a Ha). unfold chunk_at, PAGE_SIZE in *.
  destruct (decide (n <= 4096 - offset_of a)); [left; lia|right].
  rewrite Z.min_l by lia. rewrite !(fun y Hy => proj2 (page_of_spec y Hy)) in * by lia.
  replace (a + (4096 - a mod 4096)) with ((a / 4096 + 1) * 4096) by (pose proof (Z.div_mod a 4096); lia).
  rewrite Z.mod_mul by lia. lia.
Qed.

Lemma range_fuel_enough a n : 0 <= a -> 0 <= n -> offset_of a + n <= Z.of_nat (range_fuel n) * 4096.
Proof.
  intros Ha Hn. pose proof (offset_range a Ha). unfold range_fuel. change PAGE_SIZE with 4096.
  rewrite Z2Nat.id by (pose proof (Z.div_pos n 4096); lia). pose proof (Z.div_mod n 4096). pose proof (Z.mod_pos_bound n 4096). lia.
Qed.

Lemma accessible_page nodes w a b : prefix 0 a = prefix 0 b -> accessible nodes w a -> accessible nodes w b.
Proof. unfold accessible. by intros ->. Qed.

Lemma user_page_accessible m nodes w a bytes f :
  user_page m nodes (prefix 0 a) = Some (bytes, f) -> (w = true -> has_any PAGE_RW f = true) -> accessible nodes w a.
Proof.
  unfold user_page. destruct (nodes !! (0%nat, prefix 0 a)) as [[c g]|] eqn:E; [|done]. rewrite some_bind.
  destruct (m !! c); [|done]. rewrite some_bind. intros [= _ <-] Hf. by exists c, g.
Qed.

Section Copy.
Context (kernel : list Z) (nx : bool) (nodes : tree) (root : Z) (space : paging_address_space) (Hroot : pml4 space = root).

Lemma translate_accessible m a w :
  tree_ok kernel nx m nodes root -> PAGING_USER_BASE <= a < PAGING_USER_LIMIT ->
  (exists c f, nodes !! (0%nat, prefix 0 a) = Some (c, f) /\ accessible nodes w a /\
     translate_user_page m space a w = Some (Some (Z.lor c (offset_of a)))) \/
  ~ accessible nodes w a /\ translate_user_page m space a w = Some None.
Proof.
  intros Hok Ha. rewrite (translate_node _ _ _ _ _ Hok space a w Hroot), bool_decide_true by done. unfold translated, accessible.
  destruct (nodes !! (0%nat, prefix 0 a)) as [[c f]|]; [|right; split; [by intros (? & ? & ? & _)|done]].
  destruct w; cbn [andb]; [destruct (has_any PAGE_RW f) eqn:Ef; cbn [negb]|].
  - left. exists c, f. split; [done|]. split; [by exists c, f|done].
  - right. split; [|done]. intros (c' & f' & [= <- <-] & Hf). by rewrite Hf in Ef.
  - left. exists c, f. split; [done|]. split; [by exists c, f|done].
Qed.

Lemma range_mapped_spec fuel m w : forall a n,
  tree_ok kernel nx m nodes root -> PAGING_USER_BASE <= a -> 0 <= n -> a + n <= PAGING_USER_LIMIT ->
  n = 0 \/ offset_of a + n <= Z.of_nat fuel * 4096 ->
  exists b, range_mapped fuel m space a n w = Some b /\ (b = true <-> forall x, a <= x < a + n -> accessible nodes w x).
Proof.
  induction fuel as [|fuel IH]; intros a n Hok Hlo Hn Hhi Hf; cbn [range_mapped];
    (destruct (Z.ltb_spec 0 n) as [Hpos|Hpos]; [|exists true; split; [done|]; split; [intros _ x; lia|done]]);
    assert (Ha0 : 0 <= a) by (unfold PAGING_USER_BASE in Hlo; lia).
  { pose proof (offset_range a Ha0). lia. }
  destruct (translate_accessible m a w Hok ltac:(lia)) as [(c & f & _ & Hacc & ->)|[Hacc ->]]; rewrite some_bind.
  - destruct (chunk_range a n Ha0 Hpos) as [Hc Hc'].
    destruct (IH (a + chunk_at a n) (n - chunk_at a n) Hok) as (b & -> & Hb); [lia|lia|lia| |].
    { destruct (chunk_fuel a n fuel Ha0 Hpos); lia. }
    exists b. split; [done|]. rewrite Hb. split; intros Hx x Hr; [|apply Hx; lia].
    destruct (decide (x < a + chunk_at a n)); [|apply Hx; lia].
    apply (accessible_page nodes w a); [|done]. symmetry. apply (chunk_page a n); lia.
  - exists false. split; [done|]. split; [done|]. intros Hx. destruct Hacc. apply Hx. lia.
Qed.

(** A write to a frame leaves the tables. *)
Lemma tree_write m p c f bytes :
  tree_ok kernel nx m nodes root -> nodes !! (0%nat, p) = Some (c, f) -> page_ok bytes ->
  tree_ok kernel nx (<[c := bytes]> m) nodes root.
Proof.
  intros Hok Hn Hb.
  assert (Hne : forall key t g, nodes !! key = Some (t, g) -> key.1 <> 0%nat -> c <> t).
  { intros key t g Hk H1 ->. by rewrite (tree_inj _ _ _ _ _ Hok _ _ _ _ _ Hk Hn) in H1. }
  destruct Hok as [H1 H2 H3 H4 H5 H6 H7]. constructor; [done|done| |done| | |done].
  - intros key c' g Hk. destruct (H3 _ _ _ Hk) as (Hp & pg & Epg & Hpg). split; [done|].
    destruct (decide (c = c')) as [->|]; [rewrite lookup_insert_eq|rewrite lookup_insert_ne by done]; by eexists.
  - intros k q t g Hk Hq Hp. rewrite entry_insert_other by (by apply (Hne _ _ _ Hp)). by apply (H5 k q t g).
  - intros i Hi Hi2 Hi3. rewrite entry_insert_other by (by apply (Hne _ _ _ H1)). by apply H6.
Qed.

(** The bytes of user memory after a write of [src] at [a]. *)
Definition bytes_update (u : Z -> option Z) (a : Z) (src : list Z) (u' : Z -> option Z) : Prop :=
  forall x, 0 <= x -> u' x = if decide (a <= x < a + Z.of_nat (length src)) then src !! Z.to_nat (x - a) else u x.

(** Memory outside the frames of the tree is the same. *)
Definition only_frames (m m' : memory) : Prop :=
  forall c, (forall q f, nodes !! (0%nat, q) <> Some (c, f)) -> m' !! c = m !! c.

Lemma same_page x a : 0 <= x -> 0 <= a -> prefix 0 x = prefix 0 a -> x - a = offset_of x - offset_of a.
Proof.
  intros Hx Ha. rewrite !prefix_page. rewrite !(fun y Hy => proj2 (page_of_spec y Hy)) by lia.
  pose proof (Z.div_mod x 4096). pose proof (Z.div_mod a 4096). lia.
Qed.

Lemma store_chunk m a c f src :
  tree_ok kernel nx m nodes root -> 0 <= a -> nodes !! (0%nat, prefix 0 a) = Some (c, f) -> bytes_ok src ->
  offset_of a + Z.of_nat (length src) <= 4096 ->
  exists m', store_bytes m (Z.lor c (offset_of a)) src = Some m' /\ tree_ok kernel nx m' nodes root /\
    only_frames m m' /\ bytes_update (user_byte m nodes) a src (user_byte m' nodes).
Proof.
  intros Hok Ha Hn Hsrc Hlen. pose proof (offset_range a Ha) as Ho.
  destruct (tree_node _ _ _ _ _ Hok _ _ _ Hn) as (Hc & pg & Epg & Hpg). unfold store_bytes.
  destruct (physical_parts c (offset_of a) Hc Ho) as [-> ->]. rewrite Epg, some_bind. change PAGE_SIZE with 4096.
  rewrite (proj2 (Z.leb_le _ _)) by done. eexists. split; [done|]. pose proof Hpg as [Hl _].
  split; [|split].
  - apply (tree_write m (prefix 0 a) c f); [done|done|]. apply page_ok_memcpy; [done|done|lia].
  - intros d Hd. apply lookup_insert_ne. intros ->. by apply (Hd _ _ Hn).
  - intros x Hx. pose proof (offset_range x Hx) as Hox. unfold user_byte, user_page.
    destruct (decide (prefix 0 x = prefix 0 a)) as [E|E].
    + pose proof (same_page x a Hx Ha E) as Hxa. rewrite E, Hn, !some_bind, lookup_insert_eq, Epg, !some_bind.
      case_decide.
      * rewrite lookup_memcpy_in by lia. f_equal. lia.
      * apply lookup_memcpy_out; lia.
    + rewrite decide_False.
      2: { intros Hr. apply E. rewrite !prefix_page. rewrite (proj2 (page_of_spec a Ha)) in *.
           symmetry. apply Z.div_unique with (a mod 4096 + (x - a)); pose proof (Z.div_mod a 4096); lia. }
      destruct (nodes !! (0%nat, prefix 0 x)) as [[d g]|] eqn:Ed; [|done]. rewrite !some_bind.
      rewrite lookup_insert_ne; [done|]. intros ->. apply E. by pose proof (tree_inj _ _ _ _ _ Hok _ _ _ _ _ Ed Hn) as [= ->].
Qed.

Lemma copy_to_spec fuel w : forall m a src,
  tree_ok kernel nx m nodes root -> PAGING_USER_BASE <= a -> a + Z.of_nat (length src) <= PAGING_USER_LIMIT -> bytes_ok src ->
  (forall x, a <= x < a + Z.of_nat (length src) -> accessible nodes w x) ->
  src = [] \/ offset_of a + Z.of_nat (length src) <= Z.of_nat fuel * 4096 ->
  exists m', copy_to fuel m space a src w = Some (true, m') /\ tree_ok kernel nx m' nodes root /\
    only_frames m m' /\ bytes_update (user_byte m nodes) a src (user_byte m' nodes).
Proof.
  induction fuel as [|fuel IH]; intros m a src Hok Hlo Hhi Hsrc Hacc Hf;
    (destruct src as [|b src']; cbn [copy_to];
      [exists m; split; [done|]; split; [done|]; split; [done|]; intros x _; rewrite decide_False by (cbn [length]; lia); done|]);
    set (src := b :: src') in *; assert (Ha0 : 0 <= a) by (unfold PAGING_USER_BASE in Hlo; lia);
    assert (Hpos : 0 < Z.of_nat (length src)) by (cbn [length src]; lia);
    (destruct Hf as [Hf|Hf]; [done|]); pose proof (offset_range a Ha0).
  { lia. }
  destruct (translate_accessible m a w Hok ltac:(lia)) as [(c & f & Hn & _ & ->)|[Hno _]]; [|by destruct Hno; apply Hacc; lia].
  rewrite some_bind. destruct (chunk_range a _ Ha0 Hpos) as [Hc Hc']. set (k := chunk_at a (Z.of_nat (length src))) in *.
  assert (Hlen : length (take (Z.to_nat k) src) = Z.to_nat k) by (rewrite length_take; lia).
  destruct (store_chunk m a c f (take (Z.to_nat k) src) Hok Ha0 Hn) as (m1 & -> & Hok1 & Hof1 & Hu1);
    [by apply Forall_take|rewrite Hlen; lia|]. rewrite some_bind.
  assert (Hld : Z.of_nat (length (drop (Z.to_nat k) src)) = Z.of_nat (length src) - k) by (rewrite length_drop; lia).
  destruct (IH m1 (a + k) (drop (Z.to_nat k) src) Hok1) as (m2 & -> & Hok2 & Hof2 & Hu2); [lia|lia|by apply Forall_drop| | |].
  { intros x Hx. apply Hacc. lia. }
  { destruct (chunk_fuel a (Z.of_nat (length src)) fuel Ha0 Hpos Hf) as [E|E]; [left|right; rewrite Hld; exact E].
    apply length_zero_iff_nil. fold k in E. lia. }
  exists m2. split; [done|]. split; [done|]. split.
  - intros d Hd. rewrite Hof2 by done. by apply Hof1.
  - intros x Hx. rewrite Hu2, Hu1, Hld, Hlen by done. rewrite lookup_drop.
    destruct (decide (a + k <= x < a + k + (Z.of_nat (length src) - k))).
    + rewrite decide_True by lia. f_equal. lia.
    + destruct (decide (a <= x < a + Z.of_nat (Z.to_nat k))).
      * rewrite decide_True by lia. apply lookup_take_lt. lia.
      * by rewrite decide_False by lia.
Qed.

(** The bytes [out] are those at [a] and after. *)
Definition bytes_read (u : Z -> option Z) (a n : Z) (out : list Z) : Prop :=
  Z.of_nat (length out) = n /\ forall i, 0 <= i < n -> out !! Z.to_nat i = u (a + i).

Lemma load_chunk m a c f n :
  tree_ok kernel nx m nodes root -> 0 <= a -> nodes !! (0%nat, prefix 0 a) = Some (c, f) -> 0 < n ->
  exists out, load_bytes m (Z.lor c (offset_of a)) (chunk_at a n) = Some out /\
    bytes_read (user_byte m nodes) a (chunk_at a n) out.
Proof.
  intros Hok Ha Hn Hpos. pose proof (offset_range a Ha) as Ho. destruct (chunk_range a n Ha Hpos) as [Hc Hc'].
  destruct (tree_node _ _ _ _ _ Hok _ _ _ Hn) as (Hca & pg & Epg & [Hl _]). unfold load_bytes.
  destruct (physical_parts c (offset_of a) Hca Ho) as [-> ->]. rewrite Epg, some_bind. change PAGE_SIZE with 4096.
  rewrite (proj2 (Z.leb_le _ _)) by done. eexists. split; [done|]. split; [rewrite length_slice; lia|].
  intros i Hi. destruct (chunk_page a n (a + i) Ha Hpos) as [E1 E2]; [lia|].
  unfold user_byte, user_page. rewrite E1, E2, Hn, !some_bind, Epg, some_bind.
  rewrite lookup_slice by lia. assert (E : (Z.to_nat (offset_of a) + Z.to_nat i = Z.to_nat (offset_of a + (a + i - a)))%nat) by lia. by rewrite E.
Qed.

Lemma copy_from_spec fuel m : forall a n,
  tree_ok kernel nx m nodes root -> PAGING_USER_BASE <= a -> 0 <= n -> a + n <= PAGING_USER_LIMIT ->
  (forall x, a <= x < a + n -> accessible nodes false x) ->
  n = 0 \/ offset_of a + n <= Z.of_nat fuel * 4096 ->
  exists out, copy_from fuel m space a n = Some (true, out) /\ bytes_read (user_byte m nodes) a n out.
Proof.
  induction fuel as [|fuel IH]; intros a n Hok Hlo Hn Hhi Hacc Hf; cbn [copy_from];
    (destruct (Z.ltb_spec 0 n) as [Hpos|Hpos]; [|exists []; split; [done|]; split; [cbn; lia|intros; lia]]);
    assert (Ha0 : 0 <= a) by (unfold PAGING_USER_BASE in Hlo; lia).
  { pose proof (offset_range a Ha0). lia. }
  destruct (translate_accessible m a false Hok ltac:(lia)) as [(c & f & Hnode & _ & ->)|[Hno _]];
    [|by destruct Hno; apply Hacc; lia].
  rewrite some_bind. destruct (chunk_range a n Ha0 Hpos) as [Hc Hc'].
  destruct (load_chunk m a c f n Hok Ha0 Hnode Hpos) as (out1 & -> & Hl1 & H1). rewrite some_bind.
  destruct (IH (a + chunk_at a n) (n - chunk_at a n) Hok) as (out2 & -> & Hl2 & H2); [lia|lia|lia| | |].
  { intros x Hx. apply Hacc. lia. }
  { destruct (chunk_fuel a n fuel Ha0 Hpos); lia. }
  exists (out1 ++ out2). split; [done|]. split; [rewrite length_app; lia|]. intros i Hi.
  destruct (decide (i < chunk_at a n)).
  - rewrite lookup_app_l by lia. apply H1. lia.
  - rewrite lookup_app_r by lia. replace (Z.to_nat i - length out1)%nat with (Z.to_nat (i - chunk_at a n)) by lia.
    rewrite H2 by lia. f_equal. lia.
Qed.

End Copy.

Section Operations.
Context {A : Type} `{AllocatorLaws A}.

(** The whole range is user memory, mapped (and writable). *)
Definition range_accessible (nodes : tree) (w : bool) (a n : Z) : Prop :=
  PAGING_USER_BASE <= a /\ a + n <= PAGING_USER_LIMIT /\ forall x, a <= x < a + n -> accessible nodes w x.

Lemma paging_user_range_mapped_spec (s : paging A) space nodes rest a n w :
  space_ok s space nodes rest -> 0 <= a -> 0 < n ->
  exists b, paging_user_range_mapped (Some space) a n w s = Some b /\ (b = true <-> range_accessible nodes w a n).
Proof.
  intros (Ht & _ & _) Ha Hn. unfold paging_user_range_mapped. rewrite (proj2 (Z.eqb_neq n 0)) by lia.
  destruct (user_range_valid a n) eqn:Er; cbn [negb].
  - apply user_range_valid_spec in Er as [Hlo Hhi]; [|done].
    destruct (range_mapped_spec _ _ nodes _ space eq_refl (range_fuel n) (frames s) w a n Ht) as (b & E & Hb);
      [done|lia|done|right; apply range_fuel_enough; lia|].
    exists b. split; [exact E|]. rewrite Hb. unfold range_accessible. intuition.
  - exists false. split; [done|]. split; [done|]. intros (Hlo & Hhi & _).
    assert (user_range_valid a n = true) by (by apply user_range_valid_spec). congruence.
Qed.

Lemma copy_to_user_internal_spec (s : paging A) space nodes rest a bytes n w :
  space_ok s space nodes rest -> 0 <= a -> 0 < n <= Z.of_nat (length bytes) -> bytes_ok bytes ->
  exists ok s', copy_to_user_internal (Some space) a (Some bytes) n w s = Some (ok, s') /\
    (ok = true <-> range_accessible nodes w a n) /\
    (if (ok : bool)
     then space_step rest s space s' space nodes /\
       bytes_update (user_byte (frames s) nodes) a (take (Z.to_nat n) bytes) (user_byte (frames s') nodes)
     else s' = s).
Proof.
  intros Hs Ha Hn Hb. pose proof Hs as (Ht & Hown & Hperm). unfold copy_to_user_internal.
  rewrite (proj2 (Z.eqb_neq n 0)) by lia.
  destruct (paging_user_range_mapped_spec s space nodes rest a n w Hs Ha ltac:(lia)) as (b & -> & Hacc). rewrite some_bind.
  destruct b; cbn [negb]; [|by exists false, s].
  rewrite some_bind, (proj2 (Z.ltb_ge _ _)) by lia. pose proof Hacc as [(Hlo & Hhi & Hx) _]; [done|].
  assert (Hlen : length (take (Z.to_nat n) bytes) = Z.to_nat n) by (rewrite length_take; lia).
  destruct (copy_to_spec _ _ nodes _ space eq_refl (range_fuel n) w (frames s) a (take (Z.to_nat n) bytes) Ht)
    as (m' & -> & Ht' & Hof & Hu); [done|rewrite Hlen; lia|by apply Forall_take|rewrite Hlen; intros x ?; apply Hx; lia| |].
  { right. rewrite Hlen, Z2Nat.id by lia. apply range_fuel_enough; lia. }
  rewrite some_bind. exists true, (set_frames m' s). split; [done|]. split; [done|]. split; [|done].
  split; [|split; [done|split; [done|split; [exact Hown|done]]]]. split; [|done].
  intros c blk Hblk Hc. cbn [frames set_frames]. apply Hof. intros q f Hq.
  by apply (owned_outside _ _ _ _ _ Hown Hblk Hc), (space_page _ _ _ _ _ _ _ Hs Hq).
Qed.

Lemma paging_copy_from_user_spec (s : paging A) space nodes rest a n d :
  space_ok s space nodes rest -> 0 <= a -> 0 < n <= Z.of_nat (length d) ->
  exists ok d', paging_copy_from_user (Some space) (Some d) a n s = Some (ok, Some d') /\
    (ok = true <-> range_accessible nodes false a n) /\
    (if (ok : bool)
     then exists out, bytes_read (user_byte (frames s) nodes) a n out /\ d' = out ++ drop (Z.to_nat n) d
     else d' = d).
Proof.
  intros Hs Ha Hn. pose proof Hs as (Ht & _ & _). unfold paging_copy_from_user. rewrite (proj2 (Z.eqb_neq n 0)) by lia.
  destruct (paging_user_range_mapped_spec s space nodes rest a n false Hs Ha ltac:(lia)) as (b & -> & Hacc). rewrite some_bind.
  destruct b; cbn [negb]; [|by exists false, d].
  rewrite some_bind. pose proof Hacc as [(Hlo & Hhi & Hx) _]; [done|].
  destruct (copy_from_spec _ _ nodes _ space eq_refl (range_fuel n) (frames s) a n Ht) as (out & -> & Hr); [done|lia|done|done| |].
  { right. apply range_fuel_enough; lia. }
  rewrite some_bind. pose proof Hr as [Hl _]. unfold copy_checked.
  rewrite !(proj2 (Z.leb_le _ _)) by lia. cbn [andb]. rewrite some_bind. eexists true, _. split; [done|]. split; [done|].
  exists out. split; [done|]. unfold memcpy_at, slice. change (Z.to_nat 0) with 0%nat. rewrite Nat2Z.id. cbn [take drop app plus].
  rewrite Nat.sub_0_r, !drop_0, firstn_all, take_0, (take_ge out) by lia. cbn [app]. do 2 f_equal. lia.
Qed.

End Operations.

(** * kernel/paging.c: creation and destruction of address spaces *)

(** The bytes of a table are its words. *)
Lemma words_bytes_length ws : length (words_bytes ws) = (8 * length ws)%nat.
Proof.
  induction ws as [|w ws IH]; [done|]. unfold words_bytes in *. cbn [map concat length].
  rewrite length_app, length_le_bytes, IH. lia.
Qed.

Lemma words_bytes_ok ws : bytes_ok (words_bytes ws).
Proof. induction ws as [|w ws IH]; [constructor|]. apply Forall_app. split; [apply le_bytes_ok|exact IH]. Qed.

Lemma words_bytes_slice ws : forall i w, ws !! i = Some w -> slice (words_bytes ws) (8 * i) 8 = le_bytes 8 w.
Proof.
  induction ws as [|v ws IH]; intros [|i] w Hw; cbn [lookup list_lookup] in Hw; try done.
  - injection Hw as ->. unfold slice, words_bytes. cbn [map concat]. rewrite Nat.mul_0_r, drop_0.
    by apply take_app_length'; rewrite length_le_bytes.
  - rewrite <- (IH i w Hw). unfold slice, words_bytes. cbn [map concat]. f_equal.
    replace (8 * S i)%nat with (length (le_bytes 8 v) + 8 * i)%nat by (rewrite length_le_bytes; lia).
    by rewrite drop_app_add.
Qed.

(** The kernel's PML4 as the code relies on it: 512 words, the user slots empty. *)
Definition kernel_slots_ok (ws : list Z) : Prop :=
  length ws = 512%nat /\ Forall (fun w => 0 <= w < 2 ^ 64) ws /\ ws !! 2%nat = Some 0 /\ ws !! 3%nat = Some 0.

Lemma entry_words m t ws i :
  length ws = 512%nat -> Forall (fun w => 0 <= w < 2 ^ 64) ws -> m !! t = Some (words_bytes ws) -> 0 <= i < 512 ->
  entry m t i = ws !! Z.to_nat i.
Proof.
  intros Hl Hw Hm Hi. unfold entry. rewrite Hm, some_bind, (index_ok i Hi).
  destruct (lookup_lt_is_Some_2 ws (Z.to_nat i)) as [w E]; [lia|].
  replace (Z.to_nat (8 * i)) with (8 * Z.to_nat i)%nat by lia.
  rewrite (words_bytes_slice ws _ w E), E. f_equal. apply le_val_bytes. exact (Forall_lookup_1 _ _ _ _ Hw E).
Qed.

Section Life.
Context {A : Type} `{AllocatorLaws A} (addresses : table_addresses).

(** The tree of a new space. *)
Definition empty_tree (root : Z) : tree := {[ (4%nat, 0) := (root, 0) ]}.

Lemma empty_tree_ok ws nx m root :
  kernel_slots_ok ws -> page_address root -> m !! root = Some (words_bytes ws) -> tree_ok ws nx m (empty_tree root) root.
Proof.
  intros (Hl & Hw & H2 & H3) Hroot Hm. unfold empty_tree. constructor.
  - apply lookup_singleton_eq.
  - intros k p v [[= <- <-] _]%lookup_singleton_Some. by left.
  - intros key c f [_ [= <- <-]]%lookup_singleton_Some. split; [done|]. eexists. split; [done|].
    split; [rewrite words_bytes_length; lia|apply words_bytes_ok].
  - intros k p c f Hk [[= <- <-] _]%lookup_singleton_Some. lia.
  - intros k p t f Hk Hp [Ekey [= <- <-]]%lookup_singleton_Some. unfold parent in Ekey. cbn [fst snd] in Ekey.
    injection Ekey as <- _. destruct (user_prefix_top p Hp) as (_ & Hp23 & Eland).
    rewrite lookup_singleton_ne by (intros [=]). cbn [node_entry]. rewrite Eland, (entry_words m root ws) by (done || lia).
    destruct Hp23 as [-> | ->]; done.
  - intros i Hi _ _. by apply entry_words.
  - intros a b c f g [<- _]%lookup_singleton_Some [<- _]%lookup_singleton_Some. done.
Qed.

Lemma free_allocations_spec l : forall (s : paging A) rest,
  owned s l rest -> exists s', free_allocations l s = Some s' /\ preserved rest s s' /\ owns (allocator s') rest.
Proof.
  induction l as [|al l IH]; intros s rest Hown; cbn [free_allocations].
  - exists s. split; [done|]. split; [done|]. destruct Hown as (bs & Hc & Ho). by inversion Hc; subst.
  - destruct (free_allocation_spec al l s rest Hown) as (s1 & -> & Hp1 & Hown1 & _). rewrite some_bind.
    destruct (IH s1 rest Hown1) as (s2 & -> & Hp2 & Ho2). exists s2. split; [done|]. split; [|done].
    by eapply preserved_trans.
Qed.

(** [rest] and the static state are kept, but for CR3. *)
Lemma paging_address_space_destroy_spec (s : paging A) space nodes size rest :
  space_ok s space nodes ((self space, size) :: rest) ->
  exists s', paging_address_space_destroy addresses (Some space) s = Some s' /\ owns (allocator s') rest /\
    (forall c b, b ∈ rest -> in_block c b -> frames s' !! c = frames s !! c) /\ tables s' = tables s /\
    g_nx_enabled s' = g_nx_enabled s /\ cr3 s' = if Z.land (cr3 s) PAGE_ADDRESS_MASK =? pml4 space then paging_kernel_cr3 addresses else cr3 s.
Proof.
  intros (Ht & Hown & _). unfold paging_address_space_destroy. rewrite (root_nonnull _ _ _ _ _ Ht). cbn [negb andb].
  destruct (root_page_address _ _ _ _ _ Ht) as (Emask & _ & _). rewrite Emask.
  set (s1 := if Z.land (cr3 s) PAGE_ADDRESS_MASK =? pml4 space then set_cr3 (paging_kernel_cr3 addresses) s else s).
  assert (Hown1 : owned s1 (allocations space) ((self space, size) :: rest)) by (unfold s1; by destruct (_ =? _)).
  destruct (free_allocations_spec _ s1 _ Hown1) as (s2 & -> & Hp & Ho). rewrite some_bind.
  destruct (release_law _ _ _ _ Ho) as (a' & -> & Ha'). rewrite some_bind. eexists. split; [done|]. split; [exact Ha'|].
  destruct Hp as (Hfr & Et & _ & En & Ec). cbn [frames tables g_nx_enabled cr3 set_allocator]. split; [|split; [|split]].
  - intros c b Hb Hcb. rewrite (Hfr c b) by (done || by right). unfold s1. by destruct (_ =? _).
  - rewrite Et. unfold s1. by destruct (_ =? _).
  - rewrite En. unfold s1. by destruct (_ =? _).
  - rewrite Ec. unfold s1. by destruct (_ =? _).
Qed.

(** A new space maps no user page and shares the kernel's entries; a failure leaves no block behind. *)
Lemma paging_address_space_create_spec (s : paging A) rest :
  owns (allocator s) rest -> kernel_slots_ok (g_pml4 (tables s)) ->
  exists space s', paging_address_space_create addresses s = Some (space, s') /\ preserved rest s s' /\
    match space with
    | None => owns (allocator s') rest
    | Some space => g_paging_ready s = true /\ exists size,
        space_ok s' space (empty_tree (pml4 space)) ((self space, size) :: rest)
    end.
Proof.
  intros Ho Hk. unfold paging_address_space_create. destruct (g_paging_ready s) eqn:Er; cbn [negb]; [|by exists None, s].
  destruct (alloc_law (allocator s) rest sizeof_paging_address_space Ho) as (p & a & -> & Hp);
    [unfold sizeof_paging_address_space, SIZE_MAX; lia|].
  rewrite some_bind. destruct Hp as [[-> Ha]|(size & _ & Ha)].
  { change (NULL =? NULL) with true. cbv iota. by eexists None, _. }
  destruct (owns_range _ _ _ _ Ha) as (Hp0 & _ & _). rewrite (proj2 (Z.eqb_neq p NULL)) by (unfold NULL; lia). cbv zeta.
  assert (Hown : owned (set_allocator a s) (allocations (PagingAddressSpace p NULL [])) ((p, size) :: rest)).
  { exists []. split; [constructor|exact Ha]. }
  destruct (allocate_owned_page_spec _ _ _ Hown) as (c & sp1 & s1 & -> & Hpres & Hself & _ & Hown1 & Hc). rewrite some_bind.
  assert (Hpres0 : forall s2, preserved ((p, size) :: rest) s1 s2 -> preserved rest s s2).
  { intros s2 H2. pose proof (preserved_trans _ _ _ _ Hpres H2) as (Hf & Hrest). split; [|exact Hrest].
    intros d b Hb. apply Hf. by right. }
  destruct Hc as [(-> & Ea & _)|(Hc & _ & Hpages & Hfr)].
  - change (NULL =? NULL) with true. cbv iota. destruct Hown1 as (bs & Hcl & Ho1). rewrite Ea in Hcl. inversion Hcl; subst.
    destruct (release_law _ _ _ _ Ho1) as (a2 & -> & Ha2). rewrite some_bind. eexists None, _. split; [done|].
    split; [by apply Hpres0|exact Ha2].
  - pose proof Hc as (_ & Hc0 & _). rewrite (proj2 (Z.eqb_neq c NULL)) by done. rewrite Hfr, lookup_insert_eq, some_bind. cbv zeta.
    pose proof Hpres as (_ & Et & _ & Enx & _). cbn [tables g_nx_enabled set_allocator] in Et, Enx. rewrite Et.
    pose proof Hk as (Hlen & Hw & H2 & H3).
    assert (Ecopy : memcpy_at (zeros PAGE_SIZE) 0 (words_bytes (g_pml4 (tables s))) = words_bytes (g_pml4 (tables s))).
    { unfold memcpy_at. rewrite Nat.sub_0_r, length_zeros, take_0 by done.
      rewrite take_ge by (rewrite words_bytes_length, Hlen; unfold PAGE_SIZE; lia).
      rewrite drop_ge by (rewrite length_zeros, words_bytes_length, Hlen by done; unfold PAGE_SIZE; lia). apply app_nil_r. }
    rewrite Ecopy, insert_insert_eq. set (m2 := <[c := words_bytes (g_pml4 (tables s))]> (frames s)).
    cbn [frames set_frames set_allocator].
    assert (Em2 : m2 !! c = Some (words_bytes (g_pml4 (tables s)))) by apply lookup_insert_eq.
    fold m2. rewrite !(entry_words m2 c (g_pml4 (tables s))) by (done || lia).
    change (Z.to_nat 2) with 2%nat. change (Z.to_nat 3) with 3%nat. rewrite H2, H3, !some_bind.
    change (has_any PAGE_PRESENT 0 || has_any PAGE_PRESENT 0) with false. cbv iota.
    eexists (Some _), _. split; [done|]. split; [apply Hpres0|].
    + assert (Hin : c ∈ map page (allocations sp1)) by (rewrite Hpages; by left).
      pose proof (preserved_write s1 _ _ c (words_bytes (g_pml4 (tables s))) Hown1 Hin) as Hw1.
      rewrite Hfr, insert_insert_eq in Hw1. exact Hw1.
    + split; [done|]. exists size. split; [|split; [exact Hown1|]].
      * cbn [tables g_nx_enabled frames set_frames pml4]. rewrite Et. by apply empty_tree_ok.
      * cbn [allocations pml4]. rewrite Hpages. unfold tree_pages, empty_tree. by rewrite map_to_list_singleton.
Qed.

End Life.
