(* ===== verification/PagingKernel.v ===== *)
(** * kernel/paging.c: the kernel's own tables

    [paging_init] builds the identity map of the kernel and of the framebuffer
    in the static tables; guard pages of kernel stacks are holes in it. *)

From stdpp Require Import gmap.
From S2P Require Import Prelude CString Syslog Heap HeapSpec Allocator Paging.

(** [struct BootInfo] *)
Record BootInfo := MkBootInfo {
  width : Z;
  height : Z;
  pitch : Z;
  bpp : Z;
  framebuffer : Z;
  e820_count : Z;
  e820_entry_size : Z;
  e820_map : Z;
}.

(** The tables before the code runs. *)
Definition zero_table : list Z := replicate 512 0.
Definition static_tables : kernel_tables :=
  KernelTables zero_table zero_table zero_table zero_table
    (replicate (Z.to_nat KERNEL_HEAP_PT_COUNT) zero_table) (replicate (Z.to_nat FRAMEBUFFER_PD_TABLES) zero_table).

(** [words[index] = value]; out of range is an error. *)
Definition set_word (words : list Z) (index value : Z) : option (list Z) :=
  if (0 <=? index) && (index <? Z.of_nat (length words)) then Some (<[Z.to_nat index := value]> words) else None.

Definition get_word (words : list Z) (index : Z) : option Z :=
  if 0 <=? index then words !! Z.to_nat index else None.

(** [for (i = index; i < index + count; i++) words[i] = f(i);] *)
Fixpoint fill_words (count : nat) (index : Z) (f : Z -> Z) (words : list Z) : option (list Z) :=
  match count with
  | O => Some words
  | S count => words ← set_word words index (f index); fill_words count (index + 1) f words
  end.

(** An update of row [row] of an array of tables. *)
Definition update_row (rows : list (list Z)) (row : Z) (f : list Z -> option (list Z)) : option (list (list Z)) :=
  if 0 <=? row then
    words ← rows !! Z.to_nat row;
    words ← f words;
    Some (<[Z.to_nat row := words]> rows)
  else None.

Definition with_pml4 (l : list Z) (t : kernel_tables) : kernel_tables :=
  KernelTables l (g_pdpt t) (g_pd t) (g_kernel_pt t) (g_kernel_heap_pt t) (g_framebuffer_pd t).
Definition with_pdpt (l : list Z) (t : kernel_tables) : kernel_tables :=
  KernelTables (g_pml4 t) l (g_pd t) (g_kernel_pt t) (g_kernel_heap_pt t) (g_framebuffer_pd t).
Definition with_pd (l : list Z) (t : kernel_tables) : kernel_tables :=
  KernelTables (g_pml4 t) (g_pdpt t) l (g_kernel_pt t) (g_kernel_heap_pt t) (g_framebuffer_pd t).
Definition with_kernel_pt (l : list Z) (t : kernel_tables) : kernel_tables :=
  KernelTables (g_pml4 t) (g_pdpt t) (g_pd t) l (g_kernel_heap_pt t) (g_framebuffer_pd t).
Definition with_kernel_heap_pt (l : list (list Z)) (t : kernel_tables) : kernel_tables :=
  KernelTables (g_pml4 t) (g_pdpt t) (g_pd t) (g_kernel_pt t) l (g_framebuffer_pd t).
Definition with_framebuffer_pd (l : list (list Z)) (t : kernel_tables) : kernel_tables :=
  KernelTables (g_pml4 t) (g_pdpt t) (g_pd t) (g_kernel_pt t) (g_kernel_heap_pt t) l.

Definition align_down (value alignment : Z) : Z := Z.ldiff value (alignment - 1).

Section Kernel.
Context {A : Type} `{Allocator A} (addresses : table_addresses).

(** ** The framebuffer *)

(** The loop over the directories of the framebuffer. *)
Fixpoint clear_directories (count : nat) (slot first_dynamic_pdpt flags : Z) (t : kernel_tables) : option kernel_tables :=
  match count with
  | O => Some t
  | S count =>
      rows ← update_row (g_framebuffer_pd t) slot (fill_words 512 0 (fun _ => 0));
      let t := with_framebuffer_pd rows t in
      pdpt ← set_word (g_pdpt t) (first_dynamic_pdpt + slot)
               (Z.lor (framebuffer_pd_address addresses (Z.to_nat slot)) flags);
      clear_directories count (slot + 1) first_dynamic_pdpt flags (with_pdpt pdpt t)
  end.

(** The loop over the huge pages of the framebuffer. *)
Fixpoint map_huge_pages (fuel : nat) (page_phys framebuffer_end first_dynamic_pdpt flags : Z) (t : kernel_tables)
    : option kernel_tables :=
  if page_phys <=? framebuffer_end then
    match fuel with
    | O => None
    | S fuel =>
        let pdpt_index := page_phys / PDPT_SPAN in
        t ← (if pdpt_index =? 0 then Some t
             else
               rows ← update_row (g_framebuffer_pd t) (pdpt_index - first_dynamic_pdpt)
                        (fun words => set_word words (Z.land (Z.shiftr page_phys 21) 0x1FF)
                                        (Z.lor page_phys (Z.lor flags PAGE_PS)));
               Some (with_framebuffer_pd rows t));
        map_huge_pages fuel (page_phys + HUGE_PAGE_SIZE) framebuffer_end first_dynamic_pdpt flags t
    end
  else Some t.

(** The directories a framebuffer needs: the first PDPT entry and their number. *)
Definition dynamic_directories (framebuffer_start framebuffer_end : Z) : Z * Z :=
  let first_pdpt := framebuffer_start / PDPT_SPAN in
  let last_pdpt := framebuffer_end / PDPT_SPAN in
  if 1 <=? last_pdpt then
    let first_dynamic_pdpt := if first_pdpt =? 0 then 1 else first_pdpt in
    (first_dynamic_pdpt, last_pdpt - first_dynamic_pdpt + 1)
  else (1, 0).

Definition map_framebuffer (boot_info : option BootInfo) (flags : Z) (s : paging A) : option (bool * paging A) :=
  match boot_info with
  | None => Some (true, s)
  | Some b =>
      if framebuffer b =? 0 then Some (true, s)
      else if (pitch b =? 0) || (height b =? 0) then
        Some (false, paging_log (cs "Paging: rejected framebuffer with empty dimensions") s)
      else
        let framebuffer_start := framebuffer b in
        let framebuffer_size := u64 (pitch b * height b) in
        if (framebuffer_size =? 0) || (PML4_SPAN <=? framebuffer_start) ||
           (u64 (PML4_SPAN - 1 - framebuffer_start) <? framebuffer_size - 1) then
          Some (false, paging_log (cs "Paging: rejected framebuffer outside the identity-map range") s)
        else
          let framebuffer_end := framebuffer_start + framebuffer_size - 1 in
          let '(first_dynamic_pdpt, dynamic_pd_count) := dynamic_directories framebuffer_start framebuffer_end in
          if FRAMEBUFFER_PD_TABLES <? dynamic_pd_count then
            Some (false, paging_log (cs "Paging: rejected oversized framebuffer mapping") s)
          else
            t ← clear_directories (Z.to_nat dynamic_pd_count) 0 first_dynamic_pdpt flags (tables s);
            let first_page := align_down framebuffer_start HUGE_PAGE_SIZE in
            t ← map_huge_pages (Z.to_nat ((framebuffer_end - first_page) / HUGE_PAGE_SIZE + 1)) first_page
                  framebuffer_end first_dynamic_pdpt flags t;
            Some (true, set_tables t s)
  end.

(** ** The identity map *)

(** The loop that splits the huge pages of the heap. *)
Fixpoint split_heap (count : nat) (table flags : Z) (t : kernel_tables) : option kernel_tables :=
  match count with
  | O => Some t
  | S count =>
      let table_base := SYSTEM_RESERVED_LOW_MEMORY_BYTES + table * HUGE_PAGE_SIZE in
      pd ← set_word (g_pd t) (table_base / HUGE_PAGE_SIZE) (Z.lor (kernel_heap_pt_address addresses (Z.to_nat table)) flags);
      let t := with_pd pd t in
      rows ← update_row (g_kernel_heap_pt t) table
               (fill_words 512 0 (fun page => Z.lor (table_base + page * PAGE_SIZE) flags));
      split_heap count (table + 1) flags (with_kernel_heap_pt rows t)
  end.

Definition kernel_flags : Z := Z.lor PAGE_PRESENT PAGE_RW.

Definition initialize_identity_map (boot_info : option BootInfo) (s : paging A) : option (bool * paging A) :=
  let flags := kernel_flags in
  let t := tables s in
  pml4 ← set_word (g_pml4 t) 0 (Z.lor (pdpt_address addresses) flags);
  pdpt ← set_word (g_pdpt t) 0 (Z.lor (pd_address addresses) flags);
  pd ← set_word (g_pd t) 0 (Z.lor (kernel_pt_address addresses) flags);
  pd ← fill_words 511 1 (fun i => Z.lor (i * HUGE_PAGE_SIZE) (Z.lor flags PAGE_PS)) pd;
  pt ← fill_words 512 0 (fun i => Z.lor (i * PAGE_SIZE) flags) (g_kernel_pt t);
  t ← split_heap (Z.to_nat KERNEL_HEAP_PT_COUNT) 0 flags (with_kernel_pt pt (with_pd pd (with_pdpt pdpt (with_pml4 pml4 t))));
  map_framebuffer boot_info flags (set_tables t s).

(** What CPUID reports. *)
Record cpu := Cpu { maximum_extended : Z; feature_d : Z }.

Definition cpu_has_nx (c : cpu) : bool :=
  if maximum_extended c <? 0x80000001 then false else has_any (Z.shiftl 1 20) (feature_d c).

Definition set_nx_enabled (b : bool) (s : paging A) : paging A :=
  Paging (allocator s) (frames s) (tables s) (g_paging_ready s) b (cr3 s).
Definition set_paging_ready (b : bool) (s : paging A) : paging A :=
  Paging (allocator s) (frames s) (tables s) b (g_nx_enabled s) (cr3 s).

(** The write of EFER has no other effect on the state here. *)
Definition detect_and_enable_nx (c : cpu) (s : paging A) : paging A :=
  if cpu_has_nx c then set_nx_enabled true s else s.

Definition paging_nx_available (s : paging A) : bool := g_nx_enabled s.

Definition load_new_tables (s : paging A) : paging A := set_cr3 (pml4_address addresses) s.

(** [false]: the system is halted. *)
Definition paging_init (boot_info : option BootInfo) (c : cpu) (s : paging A) : option (bool * paging A) :=
  '(ok, s) ← initialize_identity_map boot_info s;
  if negb ok then Some (false, paging_log (cs "Paging: framebuffer mapping failed; system halted") s)
  else
    let s := detect_and_enable_nx c (load_new_tables s) in
    let s :=
      if g_nx_enabled s then
        load_new_tables
          (set_tables (with_kernel_heap_pt (map (map (fun e => Z.lor e PAGE_NX)) (g_kernel_heap_pt (tables s))) (tables s)) s)
      else s in
    Some (true, paging_log (cs "Paging: Initialized (Supervisor Identity Map)") (set_paging_ready true s)).

(** ** Guard pages *)

(** The table and the index of the entry of a page: [None] for the low table, [Some k] for a table of the heap. *)
Definition kernel_guard_page_entry (address : Z) : option (option Z * Z) :=
  if negb (offset_of address =? 0) then None
  else if address <? HUGE_PAGE_SIZE then Some (None, address / PAGE_SIZE)
  else
    let heap_end := SYSTEM_RESERVED_LOW_MEMORY_BYTES + KERNEL_HEAP_MAX_BYTES in
    if (address <? SYSTEM_RESERVED_LOW_MEMORY_BYTES) || (heap_end <=? address) then None
    else
      let heap_offset := address - SYSTEM_RESERVED_LOW_MEMORY_BYTES in
      Some (Some (heap_offset / HUGE_PAGE_SIZE), (heap_offset mod HUGE_PAGE_SIZE) / PAGE_SIZE).

(** [*entry] *)
Definition guard_entry_read (t : kernel_tables) (e : option Z * Z) : option Z :=
  match e with
  | (None, index) => get_word (g_kernel_pt t) index
  | (Some table, index) =>
      if 0 <=? table then words ← g_kernel_heap_pt t !! Z.to_nat table; get_word words index else None
  end.

Definition guard_entry_write (t : kernel_tables) (e : option Z * Z) (value : Z) : option kernel_tables :=
  match e with
  | (None, index) => words ← set_word (g_kernel_pt t) index value; Some (with_kernel_pt words t)
  | (Some table, index) =>
      rows ← update_row (g_kernel_heap_pt t) table (fun words => set_word words index value);
      Some (with_kernel_heap_pt rows t)
  end.

(** The common part: the entry is changed when [change] says so. *)
Definition change_guard_entry (address : Z) (change : Z -> bool) (f : Z -> Z) (s : paging A) : option (bool * paging A) :=
  if negb (g_paging_ready s) || (address =? NULL) then Some (false, s)
  else
    match kernel_guard_page_entry address with
    | None => Some (false, s)
    | Some place =>
        e ← guard_entry_read (tables s) place;
        if negb (Z.land e PAGE_ADDRESS_MASK =? Z.land address PAGE_ADDRESS_MASK) then Some (false, s)
        else if change e then
          t ← guard_entry_write (tables s) place (f e);
          Some (true, set_tables t s)
        else Some (true, s)
    end.

Definition paging_kernel_guard_page (page : Z) (s : paging A) : option (bool * paging A) :=
  change_guard_entry page (has_any PAGE_PRESENT) (fun e => Z.ldiff e PAGE_PRESENT) s.

Definition paging_kernel_unguard_page (page : Z) (s : paging A) : option (bool * paging A) :=
  change_guard_entry page (fun e => negb (has_any PAGE_PRESENT e)) (fun e => Z.lor e (Z.lor PAGE_PRESENT PAGE_RW)) s.

End Kernel.
