(* ===== verification/PagingGuard.v ===== *)
(** * kernel/paging.c: the identity map and its guard pages

    The identity map and its framebuffer; then the walk of the processor over them and the guard pages. *)

From stdpp Require Import gmap.
From S2P Require Import Prelude CString Syslog Heap HeapSpec Allocator Paging PagingTree PagingKernel.

(** ** Words of tables *)

(** The words from [index] to [index + count] are those of [f]. *)
Definition words_update (ws : list Z) (index count : Z) (f : Z -> Z) (ws' : list Z) : Prop :=
  length ws' = length ws /\
  forall i, get_word ws' i = if decide (index <= i < index + count) then Some (f i) else get_word ws i.

Lemma set_word_spec ws index v :
  0 <= index < Z.of_nat (length ws) ->
  exists ws', set_word ws index v = Some ws' /\ words_update ws index 1 (fun _ => v) ws'.
Proof.
  intros Hi. unfold set_word. rewrite (proj2 (Z.leb_le _ _)), (proj2 (Z.ltb_lt _ _)) by lia. cbn [andb].
  eexists. split; [done|]. split; [by rewrite length_insert|]. intros i. unfold get_word. destruct (Z.leb_spec 0 i).
  - case_decide; [assert (i = index) as -> by lia; rewrite list_lookup_insert_eq by lia; done|].
    rewrite list_lookup_insert_ne by lia. done.
  - rewrite decide_False by lia. done.
Qed.

Lemma fill_words_spec count : forall index f ws,
  0 <= index -> index + Z.of_nat count <= Z.of_nat (length ws) ->
  exists ws', fill_words count index f ws = Some ws' /\ words_update ws index (Z.of_nat count) f ws'.
Proof.
  induction count as [|count IH]; intros index f ws Hi Hl; cbn [fill_words].
  { exists ws. split; [done|]. split; [done|]. intros i. rewrite decide_False by lia. done. }
  destruct (set_word_spec ws index (f index)) as (w1 & -> & Hl1 & H1); [lia|]. rewrite some_bind.
  destruct (IH (index + 1) f w1) as (w2 & -> & Hl2 & H2); [lia|lia|]. exists w2. split; [done|].
  split; [congruence|]. intros i. rewrite H2, H1.
  repeat case_decide; try lia; try done. by replace i with index by lia.
Qed.

Lemma words_update_get ws index count f ws' i :
  words_update ws index count f ws' -> index <= i < index + count -> get_word ws' i = Some (f i).
Proof. intros [_ H] Hi. by rewrite H, decide_True. Qed.

Lemma words_update_other ws index count f ws' i :
  words_update ws index count f ws' -> ~ (index <= i < index + count) -> get_word ws' i = get_word ws i.
Proof. intros [_ H] Hi. by rewrite H, decide_False. Qed.

(** Tables of 512 words. *)
Definition table_ok (ws : list Z) : Prop := length ws = 512%nat.

(** Word [i] of table [k] of an array. *)
Definition row_word (rows : list (list Z)) (k i : Z) : option Z :=
  if 0 <=? k then words ← rows !! Z.to_nat k; get_word words i else None.

Lemma update_row_spec rows k f ws ws' :
  0 <= k -> rows !! Z.to_nat k = Some ws -> f ws = Some ws' ->
  exists rows', update_row rows k f = Some rows' /\ length rows' = length rows /\
    (length ws' = length ws -> Forall table_ok rows -> Forall table_ok rows') /\
    forall j i, row_word rows' j i = if decide (j = k) then get_word ws' i else row_word rows j i.
Proof.
  intros Hk Hw Hf. unfold update_row. rewrite (proj2 (Z.leb_le 0 k)) by done. rewrite Hw, some_bind, Hf, some_bind.
  pose proof (lookup_lt_Some _ _ _ Hw) as Hlt. eexists. split; [done|]. split; [by rewrite length_insert|]. split.
  - intros Hl Hrows. apply Forall_insert; [done|]. unfold table_ok. rewrite Hl. exact (Forall_lookup_1 _ _ _ _ Hrows Hw).
  - intros j i. unfold row_word. destruct (Z.leb_spec 0 j); [|by rewrite decide_False by lia].
    case_decide as E; [subst j; by rewrite list_lookup_insert_eq by lia|]. by rewrite list_lookup_insert_ne by lia.
Qed.

(** ** Numbers *)

Lemma align_down_spec a : 0 <= a -> align_down a HUGE_PAGE_SIZE = a / 2 ^ 21 * 2 ^ 21.
Proof.
  intros Ha. unfold align_down, HUGE_PAGE_SIZE. change (0x200000 - 1) with (Z.ones 21).
  by rewrite Z.ldiff_ones_r, Z.shiftl_mul_pow2, Z.shiftr_div_pow2 by lia.
Qed.

Lemma index_bits a n : 0 <= n -> Z.land (Z.shiftr a n) 0x1ff = (a / 2 ^ n) mod 512.
Proof. intros Hn. change 0x1ff with (Z.ones 9). by rewrite Z.land_ones, Z.shiftr_div_pow2 by lia. Qed.

(** A page-aligned physical address, zero included. *)
Definition page_base (b : Z) : Prop := 0 <= b < ADDRESS_LIMIT /\ b mod 4096 = 0.

Lemma page_base_mask b : page_base b -> Z.land b PAGE_ADDRESS_MASK = b.
Proof.
  intros [Hb Hm]. destruct (decide (b = 0)) as [->|]; [done|]. by apply page_address_aligned; [lia|].
Qed.

Lemma page_base_address b : page_base b -> b <> 0 -> page_address b.
Proof. intros [Hb Hm] Hne. apply page_address_aligned; [lia|done]. Qed.

Lemma entry_base b f : page_base b -> Z.land f PAGE_ADDRESS_MASK = 0 -> Z.land (Z.lor b f) PAGE_ADDRESS_MASK = b.
Proof. intros Hb Hf. by rewrite Z.land_lor_distr_l, (page_base_mask b Hb), Hf, Z.lor_0_r. Qed.

Lemma entry_base_flag b f x : page_base b -> Z.land PAGE_ADDRESS_MASK x = 0 -> Z.land (Z.lor b f) x = Z.land f x.
Proof.
  intros Hb Hx. rewrite Z.land_lor_distr_l. rewrite <- (page_base_mask b Hb) at 1. by rewrite <- Z.land_assoc, Hx, Z.land_0_r, Z.lor_0_l.
Qed.

Lemma has_any_base b f x : page_base b -> Z.land PAGE_ADDRESS_MASK x = 0 -> has_any x (Z.lor b f) = has_any x f.
Proof. intros Hb Hx. unfold has_any. by rewrite entry_base_flag. Qed.

(** ** The map *)

(** The entry of the page number [q] of the kernel, a hole when [guarded]. *)
Definition page_flags (nx guarded : bool) : Z :=
  Z.lor (if guarded then PAGE_RW else kernel_flags) (if nx then PAGE_NX else 0).
Definition page_word (nx guarded : bool) (q : Z) : Z := Z.lor (q * 4096) (page_flags nx guarded).

(** The first page of the heap, and of table [k] of the heap. *)
Definition HEAP_PAGE : Z := SYSTEM_RESERVED_LOW_MEMORY_BYTES / 4096.

(** The entries of the first directory. *)
Definition pd_word (addresses : table_addresses) (i : Z) : Z :=
  if i =? 0 then Z.lor (kernel_pt_address addresses) kernel_flags
  else if (4 <=? i) && (i <? 12) then Z.lor (kernel_heap_pt_address addresses (Z.to_nat (i - 4))) kernel_flags
  else Z.lor (i * 2 ^ 21) (Z.lor kernel_flags PAGE_PS).

(** The kernel's identity map of the first gigabyte, with the pages of [G] as holes. *)
Record kernel_map (addresses : table_addresses) (t : kernel_tables) (nx : bool) (G : gset Z) : Prop := {
  km_pml4 : get_word (g_pml4 t) 0 = Some (Z.lor (pdpt_address addresses) kernel_flags);
  km_pdpt : get_word (g_pdpt t) 0 = Some (Z.lor (pd_address addresses) kernel_flags);
  km_pd : forall i, 0 <= i < 512 -> get_word (g_pd t) i = Some (pd_word addresses i);
  km_low : forall i, 0 <= i < 512 -> get_word (g_kernel_pt t) i = Some (page_word false (bool_decide (i ∈ G)) i);
  km_heap : forall k i, 0 <= k < 8 -> 0 <= i < 512 ->
    row_word (g_kernel_heap_pt t) k i =
      Some (page_word nx (bool_decide (HEAP_PAGE + k * 512 + i ∈ G)) (HEAP_PAGE + k * 512 + i));
  km_rows : length (g_kernel_heap_pt t) = 8%nat /\ Forall table_ok (g_kernel_heap_pt t);
  km_table : table_ok (g_kernel_pt t);
}.

Section Identity.
Context {A : Type} `{AllocatorLaws A} (addresses : table_addresses).

(** Shapes of the static tables. *)
Definition tables_shape (t : kernel_tables) : Prop :=
  table_ok (g_pml4 t) /\ table_ok (g_pdpt t) /\ table_ok (g_pd t) /\ table_ok (g_kernel_pt t) /\
  (length (g_kernel_heap_pt t) = 8%nat /\ Forall table_ok (g_kernel_heap_pt t)) /\
  length (g_framebuffer_pd t) = 2%nat /\ Forall table_ok (g_framebuffer_pd t).

Lemma row_exists rows k n : length rows = n -> Forall table_ok rows -> 0 <= k < Z.of_nat n ->
  exists ws, rows !! Z.to_nat k = Some ws /\ length ws = 512%nat.
Proof.
  intros Hl Hr Hk. destruct (lookup_lt_is_Some_2 rows (Z.to_nat k)) as [ws E]; [lia|]. exists ws.
  split; [done|]. exact (Forall_lookup_1 _ _ _ _ Hr E).
Qed.

Lemma split_heap_spec count : forall table t,
  tables_shape t -> 0 <= table -> table + Z.of_nat count = 8 ->
  exists pd rows, split_heap addresses count table kernel_flags t = Some (with_kernel_heap_pt rows (with_pd pd t)) /\
    words_update (g_pd t) (4 + table) (Z.of_nat count)
      (fun i => Z.lor (kernel_heap_pt_address addresses (Z.to_nat (i - 4))) kernel_flags) pd /\
    length rows = 8%nat /\ Forall table_ok rows /\
    forall k i, row_word rows k i =
      if decide (table <= k < 8 /\ 0 <= i < 512) then Some (Z.lor ((HEAP_PAGE + k * 512 + i) * 4096) kernel_flags)
      else row_word (g_kernel_heap_pt t) k i.
Proof.
  induction count as [|count IH]; intros table t Hsh Ht Hc; cbn [split_heap].
  { exists (g_pd t), (g_kernel_heap_pt t). destruct Hsh as (_ & _ & _ & _ & [Hl Hr] & _). split; [by destruct t|].
    split; [split; [done|]; intros i; rewrite decide_False by lia; done|]. split; [done|]. split; [done|].
    intros k i. rewrite decide_False by lia. done. }
  pose proof Hsh as (Hs1 & Hs2 & Hs3 & Hs4 & [Hl Hr] & Hs5).
  assert (Eidx : (SYSTEM_RESERVED_LOW_MEMORY_BYTES + table * HUGE_PAGE_SIZE) / HUGE_PAGE_SIZE = 4 + table).
  { unfold SYSTEM_RESERVED_LOW_MEMORY_BYTES, HUGE_PAGE_SIZE. rewrite Z.div_add by lia. done. }
  rewrite Eidx. destruct (set_word_spec (g_pd t) (4 + table) (Z.lor (kernel_heap_pt_address addresses (Z.to_nat table)) kernel_flags))
    as (pd1 & -> & Hpd1); [rewrite Hs3; lia|]. rewrite some_bind.
  destruct (row_exists (g_kernel_heap_pt t) table 8 Hl Hr) as (ws & Ews & Hws); [lia|].
  destruct (fill_words_spec 512 0 (fun page => Z.lor (SYSTEM_RESERVED_LOW_MEMORY_BYTES + table * HUGE_PAGE_SIZE + page * PAGE_SIZE) kernel_flags) ws)
    as (ws' & Efill & Hlw & Hfill); [lia|rewrite Hws; lia|].
  cbn [g_kernel_heap_pt with_pd].
  destruct (update_row_spec (g_kernel_heap_pt t) table _ ws ws' Ht Ews Efill) as (rows1 & -> & Hl1 & Hr1 & Hrow1). rewrite some_bind.
  destruct (IH (table + 1) (with_kernel_heap_pt rows1 (with_pd pd1 t))) as (pd & rows & -> & Hpd & Hrl & Hrf & Hrows); [|lia|lia|].
  { split; [done|]. split; [done|]. split; [unfold table_ok; cbn; destruct Hpd1 as [-> _]; exact Hs3|]. split; [done|].
    split; [split; [cbn; lia|by apply Hr1]|done]. }
  exists pd, rows. cbn [with_pd with_kernel_heap_pt g_pd g_kernel_heap_pt g_pml4 g_pdpt g_kernel_pt g_framebuffer_pd] in *.
  split; [done|]. split; [|split; [done|split; [done|]]].
  - destruct Hpd1 as [El1 H1], Hpd as [El2 H2]. split; [congruence|]. intros i. rewrite H2, H1.
    repeat case_decide; try lia; try done. do 3 f_equal. lia.
  - intros k i. rewrite Hrows, Hrow1.
    destruct (decide (table + 1 <= k < 8 /\ 0 <= i < 512)); [rewrite decide_True by lia; done|].
    destruct (decide (k = table)) as [->|]; [|rewrite decide_False by lia; done]. rewrite Hfill.
    destruct (decide (0 <= i < 0 + Z.of_nat 512)).
    + rewrite decide_True by lia. do 2 f_equal. unfold HEAP_PAGE, SYSTEM_RESERVED_LOW_MEMORY_BYTES, HUGE_PAGE_SIZE, PAGE_SIZE.
      change (0x00800000 / 4096) with 2048. lia.
    + rewrite decide_False by lia. unfold row_word. rewrite (proj2 (Z.leb_le 0 table)) by lia. rewrite Ews, some_bind.
      unfold get_word. destruct (Z.leb_spec 0 i); [|done]. rewrite !lookup_ge_None_2 by lia. done.
Qed.

(** ** The framebuffer *)

Lemma clear_directories_spec count first : forall slot t,
  tables_shape t -> 0 <= slot -> slot + Z.of_nat count <= 2 -> 1 <= first -> first + slot + Z.of_nat count <= 512 ->
  exists pdpt rows, clear_directories addresses count slot first kernel_flags t = Some (with_pdpt pdpt (with_framebuffer_pd rows t)) /\
    words_update (g_pdpt t) (first + slot) (Z.of_nat count)
      (fun i => Z.lor (framebuffer_pd_address addresses (Z.to_nat (i - first))) kernel_flags) pdpt /\
    length rows = 2%nat /\ Forall table_ok rows /\
    forall k i, row_word rows k i =
      if decide (slot <= k < slot + Z.of_nat count /\ 0 <= i < 512) then Some 0 else row_word (g_framebuffer_pd t) k i.
Proof.
  induction count as [|count IH]; intros slot t Hsh Hs Hc Hf Hfc; cbn [clear_directories].
  { exists (g_pdpt t), (g_framebuffer_pd t). destruct Hsh as (_ & _ & _ & _ & _ & Hl & Hr). split; [by destruct t|].
    split; [split; [done|]; intros i; rewrite decide_False by lia; done|]. split; [done|]. split; [done|].
    intros k i. rewrite decide_False by lia. done. }
  pose proof Hsh as (Hs1 & Hs2 & Hs3 & Hs4 & Hs5 & Hl & Hr).
  destruct (row_exists (g_framebuffer_pd t) slot 2 Hl Hr) as (ws & Ews & Hws); [lia|].
  destruct (fill_words_spec 512 0 (fun _ => 0) ws) as (ws' & Efill & Hlw & Hfill); [lia|rewrite Hws; lia|].
  destruct (update_row_spec (g_framebuffer_pd t) slot _ ws ws' Hs Ews Efill) as (rows1 & -> & Hl1 & Hr1 & Hrow1). rewrite some_bind.
  cbn [g_pdpt with_framebuffer_pd].
  destruct (set_word_spec (g_pdpt t) (first + slot) (Z.lor (framebuffer_pd_address addresses (Z.to_nat slot)) kernel_flags))
    as (p1 & -> & Hp1); [rewrite Hs2; lia|]. rewrite some_bind.
  destruct (IH (slot + 1) (with_pdpt p1 (with_framebuffer_pd rows1 t))) as (pdpt & rows & -> & Hp & Hrl & Hrf & Hrows); [|lia|lia|lia|lia|].
  { split; [done|]. split; [unfold table_ok; cbn; destruct Hp1 as [-> _]; exact Hs2|]. split; [done|]. split; [done|].
    split; [done|]. split; [cbn; lia|by apply Hr1]. }
  exists pdpt, rows. cbn [with_pdpt with_framebuffer_pd g_pdpt g_framebuffer_pd g_pml4 g_pd g_kernel_pt g_kernel_heap_pt] in *.
  split; [done|]. split; [|split; [done|split; [done|]]].
  - destruct Hp1 as [El1 H1], Hp as [El2 H2]. split; [congruence|]. intros i. rewrite H2, H1.
    repeat case_decide; try lia; try done. do 3 f_equal. lia.
  - intros k i. rewrite Hrows, Hrow1.
    destruct (decide (slot + 1 <= k < slot + 1 + Z.of_nat count /\ 0 <= i < 512)); [rewrite decide_True by lia; done|].
    destruct (decide (k = slot)) as [->|]; [|rewrite decide_False by lia; done]. rewrite Hfill.
    destruct (decide (0 <= i < 0 + Z.of_nat 512)); [rewrite decide_True by lia; done|]. rewrite decide_False by lia.
    unfold row_word. rewrite (proj2 (Z.leb_le 0 slot)) by lia. rewrite Ews, some_bind.
    unfold get_word. destruct (Z.leb_spec 0 i); [|done]. rewrite !lookup_ge_None_2 by lia. done.
Qed.

(** The word of the huge page [n]. *)
Definition huge_word (n : Z) : Z := Z.lor (n * 2 ^ 21) (Z.lor kernel_flags PAGE_PS).

Lemma map_huge_pages_spec fuel first count last framebuffer_end : forall p t,
  last = framebuffer_end / 2 ^ 21 -> 0 <= p -> last - p + 1 <= Z.of_nat fuel -> 1 <= first -> 0 <= count <= 2 ->
  first * 512 <= Z.max p 512 -> last < (first + count) * 512 ->
  length (g_framebuffer_pd t) = 2%nat -> Forall table_ok (g_framebuffer_pd t) ->
  exists rows, map_huge_pages fuel (p * 2 ^ 21) framebuffer_end first kernel_flags t = Some (with_framebuffer_pd rows t) /\
    length rows = 2%nat /\ Forall table_ok rows /\
    forall k i, 0 <= k < count -> 0 <= i < 512 -> row_word rows k i =
      if decide (p <= (first + k) * 512 + i <= last) then Some (huge_word ((first + k) * 512 + i))
      else row_word (g_framebuffer_pd t) k i.
Proof.
  induction fuel as [|fuel IH]; intros p t Hlast Hp Hfuel Hf Hc Hlo Hhi Hl Hr; cbn [map_huge_pages].
  - destruct (Z.leb_spec (p * 2 ^ 21) framebuffer_end) as [Hle|_].
    { apply Z.div_le_mono with (c := 2 ^ 21) in Hle; [|lia]. rewrite Z.div_mul in Hle by lia. lia. }
    exists (g_framebuffer_pd t). split; [by destruct t|]. split; [done|]. split; [done|].
    intros k i Hk Hi. rewrite decide_False by lia. done.
  - destruct (Z.leb_spec (p * 2 ^ 21) framebuffer_end) as [Hle|Hgt].
    2: { assert (last < p) by (subst last; apply Z.div_lt_upper_bound; lia).
         exists (g_framebuffer_pd t). split; [by destruct t|]. split; [done|]. split; [done|].
         intros k i Hk Hi. rewrite decide_False by lia. done. }
    apply Z.div_le_mono with (c := 2 ^ 21) in Hle; [|lia]. rewrite Z.div_mul in Hle by lia. rewrite <- Hlast in Hle.
    assert (Eidx : p * 2 ^ 21 / PDPT_SPAN = p / 512).
    { unfold PDPT_SPAN. change (Z.shiftl 1 30) with (512 * 2 ^ 21). apply Z.div_mul_cancel_r; lia. }
    cbv zeta. rewrite Eidx. change (p * 2 ^ 21 + HUGE_PAGE_SIZE) with (p * 2 ^ 21 + 1 * 2 ^ 21).
    rewrite <- Z.mul_add_distr_r. pose proof (Z.div_mod p 512 ltac:(lia)) as Hdm. pose proof (Z.mod_pos_bound p 512 ltac:(lia)) as Hmod.
    destruct (Z.eqb_spec (p / 512) 0) as [E0|E0].
    + rewrite some_bind. destruct (IH (p + 1) t Hlast) as (rows & -> & H1 & H2 & H3); [lia|lia|done|done|lia|done|done|done|].
      exists rows. split; [done|]. split; [done|]. split; [done|]. intros k i Hk Hi. rewrite H3 by done.
      repeat case_decide; lia || done.
    + set (k0 := p / 512 - first). assert (Hk0 : 0 <= k0 < count) by lia.
      destruct (row_exists (g_framebuffer_pd t) k0 2 Hl Hr) as (ws & Ews & Hws); [lia|].
      assert (Ei : Z.land (Z.shiftr (p * 2 ^ 21) 21) 0x1FF = p mod 512).
      { rewrite index_bits by lia. by rewrite Z.div_mul. }
      rewrite Ei. destruct (set_word_spec ws (p mod 512) (Z.lor (p * 2 ^ 21) (Z.lor kernel_flags PAGE_PS)))
        as (ws' & Eset & Hlw & Hset); [rewrite Hws; lia|].
      destruct (update_row_spec (g_framebuffer_pd t) k0 (fun words => set_word words (p mod 512) (Z.lor (p * 2 ^ 21) (Z.lor kernel_flags PAGE_PS))) ws ws')
        as (rows1 & -> & Hl1 & Hr1 & Hrow1); [lia|done|done|]. rewrite !some_bind.
      destruct (IH (p + 1) (with_framebuffer_pd rows1 t) Hlast) as (rows & -> & H1 & H2 & H3); [lia|lia|done|done|lia|done|cbn; lia|by apply Hr1|].
      exists rows. split; [done|]. split; [done|]. split; [done|]. intros k i Hk Hi. rewrite H3 by done.
      cbn [g_framebuffer_pd with_framebuffer_pd]. rewrite Hrow1. unfold huge_word.
      destruct (decide (p + 1 <= (first + k) * 512 + i <= last)); [rewrite decide_True by lia; done|].
      destruct (decide (k = k0)) as [->|].
      * rewrite Hset. destruct (decide (p mod 512 <= i < p mod 512 + 1)).
        -- assert (Ep : (first + k0) * 512 + i = p) by lia. rewrite Ep, decide_True by lia. done.
        -- rewrite decide_False by lia. unfold row_word. rewrite (proj2 (Z.leb_le 0 k0)) by lia. by rewrite Ews.
      * rewrite decide_False by lia. done.
Qed.

(** First and last byte of the framebuffer, [0] and [0] without one. *)
Definition framebuffer_range (boot_info : option BootInfo) : Z * Z :=
  match boot_info with
  | Some b => if framebuffer b =? 0 then (0, 0) else (framebuffer b, framebuffer b + pitch b * height b - 1)
  | None => (0, 0)
  end.

(** The fields have the widths of the structure. *)
Definition boot_info_ok (boot_info : option BootInfo) : Prop :=
  match boot_info with
  | Some b => 0 <= framebuffer b < 2 ^ 64 /\ 0 <= pitch b < 2 ^ 32 /\ 0 <= height b < 2 ^ 32
  | None => True
  end.

(** The framebuffers that are accepted. *)
Definition framebuffer_fits (boot_info : option BootInfo) : Prop :=
  let '(first_byte, last_byte) := framebuffer_range boot_info in
  match boot_info with
  | Some b => framebuffer b = 0 \/
      pitch b <> 0 /\ height b <> 0 /\ last_byte < 2 ^ 39 /\ (dynamic_directories first_byte last_byte).2 <= 2
  | None => True
  end.

(** Entries of the PDPT, and the directories, for a framebuffer of these bytes. *)
Definition framebuffer_map (t : kernel_tables) (first_byte last_byte : Z) : Prop :=
  let '(first, count) := dynamic_directories first_byte last_byte in
  0 <= count <= 2 /\ length (g_framebuffer_pd t) = 2%nat /\
  (forall i, 1 <= i < 512 -> get_word (g_pdpt t) i =
    Some (if decide (first <= i < first + count)
          then Z.lor (framebuffer_pd_address addresses (Z.to_nat (i - first))) kernel_flags else 0)) /\
  forall k i, 0 <= k < count -> 0 <= i < 512 -> row_word (g_framebuffer_pd t) k i =
    Some (if decide (first_byte / 2 ^ 21 <= (first + k) * 512 + i <= last_byte / 2 ^ 21)
          then huge_word ((first + k) * 512 + i) else 0).

Lemma dynamic_directories_spec a b :
  0 <= a <= b -> b < 2 ^ 39 ->
  exists first count, dynamic_directories a b = (first, count) /\ 1 <= first /\ 0 <= count /\ first + count <= 512 /\
    first * 512 <= Z.max (a / 2 ^ 21) 512 /\ b / 2 ^ 21 < (first + count) * 512.
Proof.
  intros Ha Hb. unfold dynamic_directories, PDPT_SPAN. change (Z.shiftl 1 30) with (2 ^ 21 * 512).
  rewrite <- !Z.div_div by lia. pose proof (Z.div_le_mono a b (2 ^ 21) ltac:(lia) ltac:(lia)) as Hab.
  assert (Hb' : b / 2 ^ 21 < 512 * 512) by (apply Z.div_lt_upper_bound; lia).
  pose proof (Z.div_pos a (2 ^ 21) ltac:(lia) ltac:(lia)) as Ha'.
  set (p := a / 2 ^ 21) in *. set (q := b / 2 ^ 21) in *.
  pose proof (Z.div_mod p 512 ltac:(lia)). pose proof (Z.mod_pos_bound p 512 ltac:(lia)).
  pose proof (Z.div_mod q 512 ltac:(lia)). pose proof (Z.mod_pos_bound q 512 ltac:(lia)).
  destruct (Z.leb_spec 1 (q / 512)).
  - destruct (Z.eqb_spec (p / 512) 0); (do 2 eexists; split; [done|]); lia.
  - exists 1, 0. split; [done|]. lia.
Qed.

(** The static state, but for the tables and the log, is the same. *)
Definition same_but_tables (s s' : paging A) : Prop :=
  frames s' = frames s /\ g_paging_ready s' = g_paging_ready s /\ g_nx_enabled s' = g_nx_enabled s /\ cr3 s' = cr3 s /\
  forall bs, owns (allocator s) bs -> owns (allocator s') bs.

Lemma logged_same msg (s : paging A) : same_but_tables s (paging_log msg s).
Proof. split_and!; try done. intros bs Hbs. by apply write_log_law. Qed.

Lemma map_framebuffer_spec boot_info (s : paging A) :
  boot_info_ok boot_info -> tables_shape (tables s) -> (forall i, 1 <= i < 512 -> get_word (g_pdpt (tables s)) i = Some 0) ->
  exists ok s', map_framebuffer addresses boot_info kernel_flags s = Some (ok, s') /\ same_but_tables s s' /\
    (ok = true <-> framebuffer_fits boot_info) /\
    exists pdpt rows, tables s' = with_pdpt pdpt (with_framebuffer_pd rows (tables s)) /\
      get_word pdpt 0 = get_word (g_pdpt (tables s)) 0 /\
      (ok = true -> let '(a, b) := framebuffer_range boot_info in framebuffer_map (tables s') a b).
Proof.
  intros Hboot Hsh Hz. pose proof Hsh as (Hs1 & Hs2 & Hs3 & Hs4 & Hs5 & Hl & Hr).
  assert (Hsame : exists pdpt rows, tables s = with_pdpt pdpt (with_framebuffer_pd rows (tables s)) /\
    get_word pdpt 0 = get_word (g_pdpt (tables s)) 0).
  { exists (g_pdpt (tables s)), (g_framebuffer_pd (tables s)). by destruct (tables s). }
  assert (Hnone : framebuffer_map (tables s) 0 0).
  { split; [by vm_compute|]. split; [done|]. split; [|lia]. intros i Hi. rewrite decide_False by lia. by apply Hz. }
  destruct Hsame as (pd0 & rows0 & Esame & Epd0).
  destruct boot_info as [b|]; cbn [map_framebuffer].
  2: { exists true, s. split; [done|]. split; [done|]. split; [done|]. by exists pd0, rows0. }
  destruct Hboot as (Hb1 & Hb2 & Hb3). unfold framebuffer_fits, framebuffer_range.
  destruct (Z.eqb_spec (framebuffer b) 0) as [E0|E0].
  { exists true, s. split; [done|]. split; [done|]. split; [split; [by left|done]|]. by exists pd0, rows0. }
  assert (Hrej : forall msg (P : Prop), ~ P -> exists ok s', Some (false, paging_log msg s) = Some (ok, s') /\ same_but_tables s s' /\
    (ok = true <-> P) /\ exists pdpt rows, tables s' = with_pdpt pdpt (with_framebuffer_pd rows (tables s)) /\
    get_word pdpt 0 = get_word (g_pdpt (tables s)) 0 /\ (ok = true ->
      framebuffer_map (tables s') (framebuffer b) (framebuffer b + pitch b * height b - 1))).
  { intros msg P HP. exists false, (paging_log msg s). split; [done|]. split; [apply logged_same|]. split; [by split|]. by exists pd0, rows0. }
  cbv beta iota.
  destruct (Z.eqb_spec (pitch b) 0) as [Ep|Ep]; cbn [orb]; [apply Hrej; intros [?|(? & _)]; done|].
  destruct (Z.eqb_spec (height b) 0) as [Eh|Eh]; [apply Hrej; intros [?|(_ & ? & _)]; done|]. cbv zeta.
  assert (Hsz : 0 < pitch b * height b < 2 ^ 64) by nia. rewrite (u64_small (pitch b * height b)) by (unfold u64_ok; lia).
  rewrite (proj2 (Z.eqb_neq (pitch b * height b) 0)) by lia. cbn [orb]. change PML4_SPAN with (2 ^ 39).
  destruct (Z.leb_spec (2 ^ 39) (framebuffer b)) as [Hbig|Hsmall]; cbn [orb]; [apply Hrej; intros [?|(_ & _ & ? & _)]; lia|].
  rewrite u64_small by (unfold u64_ok; lia).
  destruct (Z.ltb_spec (2 ^ 39 - 1 - framebuffer b) (pitch b * height b - 1)) as [Hbig|Hfit];
    [apply Hrej; intros [?|(_ & _ & ? & _)]; lia|].
  set (last := framebuffer b + pitch b * height b - 1) in *.
  destruct (dynamic_directories_spec (framebuffer b) last) as (first & count & Edyn & Hd1 & Hd2 & Hd3 & Hd4 & Hd5); [lia|lia|].
  rewrite Edyn. change FRAMEBUFFER_PD_TABLES with 2.
  destruct (Z.ltb_spec 2 count) as [Hmany|Hfew]; [apply Hrej; cbn [snd]; intros [?|(_ & _ & _ & ?)]; lia|].
  destruct (clear_directories_spec (Z.to_nat count) first 0 (tables s) Hsh) as (pdpt & rows & -> & Hpdpt & Hrl & Hrf & Hrows); [lia|lia|lia|lia|].
  rewrite some_bind, align_down_spec by lia.
  assert (Efuel : (last - framebuffer b / 2 ^ 21 * 2 ^ 21) / HUGE_PAGE_SIZE = last / 2 ^ 21 - framebuffer b / 2 ^ 21).
  { change HUGE_PAGE_SIZE with (2 ^ 21). rewrite <- Z.add_opp_r, <- Z.mul_opp_l, Z.div_add by lia. lia. }
  pose proof (Z.div_pos (framebuffer b) (2 ^ 21) ltac:(lia) ltac:(lia)).
  pose proof (Z.div_le_mono (framebuffer b) last (2 ^ 21) ltac:(lia) ltac:(lia)).
  destruct (map_huge_pages_spec (Z.to_nat ((last - framebuffer b / 2 ^ 21 * 2 ^ 21) / HUGE_PAGE_SIZE + 1)) first count
    (last / 2 ^ 21) last (framebuffer b / 2 ^ 21) (with_pdpt pdpt (with_framebuffer_pd rows (tables s))))
    as (rows2 & -> & Hrl2 & Hrf2 & Hrows2); [done|lia|rewrite Efuel; lia|done|lia|done|done|done|done|].
  rewrite some_bind. eexists true, _. split; [done|]. split; [done|]. split; [split; [|done]|].
  { intros _. right. cbn [snd]. lia. }
  exists pdpt, rows2. split; [done|]. split; [by apply (words_update_other _ _ _ _ _ _ Hpdpt); lia|]. intros _.
  unfold framebuffer_map. rewrite Edyn. cbn [tables set_tables with_framebuffer_pd with_pdpt g_pdpt g_framebuffer_pd].
  split; [lia|]. split; [done|]. destruct Hpdpt as [_ Hpdpt]. split.
  - intros i Hi. rewrite Hpdpt, Z.add_0_r, Z2Nat.id by lia. case_decide; [done|]. by apply Hz.
  - intros k i Hk Hi. rewrite Hrows2 by done. case_decide; [done|]. cbn [g_framebuffer_pd with_pdpt with_framebuffer_pd].
    by rewrite Hrows, decide_True by lia.
Qed.

(** ** Initialisation *)

Lemma zero_table_length : length zero_table = 512%nat.
Proof. apply length_replicate. Qed.

Lemma get_zero_table i : 0 <= i < 512 -> get_word zero_table i = Some 0.
Proof.
  intros Hi. unfold get_word, zero_table. rewrite (proj2 (Z.leb_le 0 i)) by lia. apply lookup_replicate_2. lia.
Qed.

Lemma static_tables_shape : tables_shape static_tables.
Proof. repeat split; repeat constructor. Qed.

(** The user's slots of the PML4 are empty, its words fit. *)
Definition pml4_ok (ws : list Z) : Prop :=
  length ws = 512%nat /\ Forall (fun w => 0 <= w < 2 ^ 64) ws /\ ws !! 2%nat = Some 0 /\ ws !! 3%nat = Some 0.

Lemma set_pml4_ok w ws : 0 <= w < 2 ^ 64 -> set_word zero_table 0 w = Some ws -> pml4_ok ws.
Proof.
  unfold set_word. intros Hw. rewrite zero_table_length. change ((0 <=? 0) && (0 <? Z.of_nat 512)) with true. cbv iota.
  intros E%(inj Some). subst ws. change (Z.to_nat 0) with 0%nat.
  split; [by rewrite length_insert|]. split; [|by rewrite !list_lookup_insert_ne].
  apply Forall_insert; [apply Forall_replicate; lia|done].
Qed.

Lemma initialize_identity_map_spec boot_info (s : paging A) :
  boot_info_ok boot_info -> tables s = static_tables -> page_address (pdpt_address addresses) ->
  exists ok s', initialize_identity_map addresses boot_info s = Some (ok, s') /\ same_but_tables s s' /\
    (ok = true <-> framebuffer_fits boot_info) /\ pml4_ok (g_pml4 (tables s')) /\ kernel_map addresses (tables s') false ∅ /\
    (ok = true -> let '(a, b) := framebuffer_range boot_info in framebuffer_map (tables s') a b).
Proof.
  intros Hboot Hst Hpd. unfold initialize_identity_map. rewrite Hst. cbn [g_pml4 g_pdpt g_pd g_kernel_pt static_tables].
  destruct (set_word_spec zero_table 0 (Z.lor (pdpt_address addresses) kernel_flags)) as (pml4 & E4 & Hl4 & H4); [rewrite zero_table_length; lia|].
  rewrite E4, some_bind.
  destruct (set_word_spec zero_table 0 (Z.lor (pd_address addresses) kernel_flags)) as (pdpt & -> & Hl3 & H3); [rewrite zero_table_length; lia|].
  rewrite some_bind.
  destruct (set_word_spec zero_table 0 (Z.lor (kernel_pt_address addresses) kernel_flags)) as (pd0 & -> & Hl0 & H0'); [rewrite zero_table_length; lia|].
  rewrite some_bind.
  destruct (fill_words_spec 511 1 (fun i => Z.lor (i * HUGE_PAGE_SIZE) (Z.lor kernel_flags PAGE_PS)) pd0) as (pd1 & -> & Hl1 & H1);
    [lia|rewrite Hl0, zero_table_length; lia|]. rewrite some_bind.
  destruct (fill_words_spec 512 0 (fun i => Z.lor (i * PAGE_SIZE) kernel_flags) zero_table) as (pt & -> & Hlpt & Hpt);
    [lia|rewrite zero_table_length; lia|]. rewrite some_bind.
  set (t1 := with_kernel_pt pt (with_pd pd1 (with_pdpt pdpt (with_pml4 pml4 static_tables)))).
  assert (Hsh : tables_shape t1).
  { pose proof static_tables_shape as (_ & _ & _ & _ & H5 & H6). unfold tables_shape, table_ok. cbn.
    split; [exact Hl4|]. split; [exact Hl3|]. split; [rewrite Hl1; exact Hl0|]. split; [exact Hlpt|]. by split. }
  destruct (split_heap_spec (Z.to_nat KERNEL_HEAP_PT_COUNT) 0 t1 Hsh) as (pd & rows & -> & Hpd2 & Hrl & Hrf & Hrows); [done|done|].
  rewrite some_bind. cbn [t1] in *. set (t2 := with_kernel_heap_pt rows (with_pd pd t1)).
  destruct (map_framebuffer_spec boot_info (set_tables t2 s) Hboot) as (ok & s' & -> & Hsame & Hok & pdpt2 & rows2 & Et & Epdpt & Hfb).
  { destruct Hsh as (? & ? & ? & ? & ? & ?). split; [done|]. split; [done|].
    split; [destruct Hpd2 as [Hlpd _]; cbn; unfold table_ok in *; congruence|]. split; [done|]. split; [by split|done]. }
  { intros i Hi. cbn. rewrite H3, decide_False by lia. apply get_zero_table. lia. }
  exists ok, s'. split; [done|]. split; [exact Hsame|]. split; [done|]. rewrite Et.
  split; [|split; [|by rewrite <- Et]].
  - apply (set_pml4_ok _ _) in E4; [exact E4|]. destruct Hpd as (_ & _ & Hrange).
    apply lor_bound; [lia|unfold ADDRESS_LIMIT in Hrange; lia|by vm_compute].
  - constructor; cbn [g_pml4 g_pdpt g_pd g_kernel_pt g_kernel_heap_pt with_pdpt with_framebuffer_pd tables set_tables t2 t1 with_kernel_heap_pt with_pd with_kernel_pt with_pml4].
    + by rewrite H4, decide_True by lia.
    + rewrite Epdpt. cbn. by rewrite H3, decide_True by lia.
    + intros i Hi. destruct Hpd2 as [_ Hpd2]. rewrite Hpd2. unfold pd_word. change (Z.of_nat (Z.to_nat KERNEL_HEAP_PT_COUNT)) with 8.
      cbn [g_pd with_kernel_pt with_pd t1]. rewrite H1, H0'. unfold HUGE_PAGE_SIZE.
      destruct (Z.eqb_spec i 0) as [->|]; [done|].
      destruct (decide (4 + 0 <= i < 4 + 0 + 8)).
      * rewrite (proj2 (Z.leb_le 4 i)), (proj2 (Z.ltb_lt i 12)) by lia. done.
      * rewrite decide_True by lia. destruct (Z.leb_spec 4 i), (Z.ltb_spec i 12); try lia; done.
    + intros i Hi. rewrite Hpt, decide_True by lia. rewrite bool_decide_false by set_solver. done.
    + intros k i Hk Hi. rewrite Hrows, decide_True by lia. rewrite bool_decide_false by set_solver. done.
    + done.
    + exact Hlpt.
Qed.

Lemma nx_row_word rows k i : row_word (map (map (fun e => Z.lor e PAGE_NX)) rows) k i = (fun e => Z.lor e PAGE_NX) <$> row_word rows k i.
Proof.
  unfold row_word, get_word. destruct (0 <=? k); [|done]. rewrite list_lookup_fmap.
  destruct (rows !! Z.to_nat k) as [ws|]; [|done]. cbn [fmap option_fmap option_map]. rewrite !some_bind.
  destruct (0 <=? i); [|done]. apply list_lookup_fmap.
Qed.

Lemma kernel_map_nx t G :
  kernel_map addresses t false G ->
  kernel_map addresses (with_kernel_heap_pt (map (map (fun e => Z.lor e PAGE_NX)) (g_kernel_heap_pt t)) t) true G.
Proof.
  intros [H1 H2 H3 H4 H5 [H6 H7] H8]. constructor; try done; cbn [g_kernel_heap_pt with_kernel_heap_pt].
  - intros k i Hk Hi. rewrite nx_row_word, (H5 k i Hk Hi). cbn [fmap option_fmap option_map]. f_equal.
    unfold page_word, page_flags. rewrite <- Z.lor_assoc. f_equal. by rewrite Z.lor_0_r.
  - split; [by rewrite length_map|]. apply Forall_map. apply (Forall_impl _ _ _ H7). intros ws Hw. unfold table_ok in *. by rewrite length_map.
Qed.

(** The state after [paging_init]. *)
Lemma paging_init_spec boot_info (c : cpu) (s : paging A) :
  boot_info_ok boot_info -> tables s = static_tables -> g_nx_enabled s = false -> page_address (pdpt_address addresses) ->
  exists ok s', paging_init addresses boot_info c s = Some (ok, s') /\ frames s' = frames s /\
    (forall bs, owns (allocator s) bs -> owns (allocator s') bs) /\
    (ok = true <-> framebuffer_fits boot_info) /\
    (ok = true -> g_paging_ready s' = true /\ g_nx_enabled s' = cpu_has_nx c /\ cr3 s' = pml4_address addresses /\
      pml4_ok (g_pml4 (tables s')) /\ kernel_map addresses (tables s') (cpu_has_nx c) ∅ /\
      let '(a, b) := framebuffer_range boot_info in framebuffer_map (tables s') a b).
Proof.
  intros Hboot Hst Hnx Hpd. unfold paging_init.
  destruct (initialize_identity_map_spec boot_info s Hboot Hst Hpd) as (ok & s1 & -> & (Ef & _ & En & _ & Hown) & Hok & H4 & Hkm & Hfb).
  rewrite some_bind. destruct ok; cbn [negb].
  2: { exists false. eexists. split; [done|]. split; [exact Ef|]. split; [|by split].
       intros bs Hbs. by apply write_log_law, Hown. }
  specialize (Hfb eq_refl). destruct (framebuffer_range boot_info) as [a b].
  exists true. eexists. split; [done|]. unfold detect_and_enable_nx.
  destruct (cpu_has_nx c); cbn [g_nx_enabled set_nx_enabled load_new_tables set_cr3]; [|rewrite En, Hnx].
  - split; [exact Ef|]. split; [intros bs Hbs; by apply write_log_law, Hown|]. split; [done|].
    intros _. split_and!; try done. cbn. by apply kernel_map_nx.
  - split; [exact Ef|]. split; [intros bs Hbs; by apply write_log_law, Hown|]. split; [done|].
    intros _. cbn. by rewrite En, Hnx.
Qed.

End Identity.

(** * kernel/paging.c: what the processor makes of the kernel's tables

    [translate] is the processor's walk over four levels of tables; the kernel's
    tables give the identity, for the kernel only, outside the guard pages. *)

Section Guard.
Context {A : Type} `{AllocatorLaws A} (addresses : table_addresses).

(** The addresses of the static tables, and the tables there. *)
Definition static_addresses : list Z :=
  [pml4_address addresses; pdpt_address addresses; pd_address addresses; kernel_pt_address addresses] ++
  map (kernel_heap_pt_address addresses) (seq 0 8) ++ map (framebuffer_pd_address addresses) (seq 0 2).

Definition addresses_ok : Prop := NoDup static_addresses /\ Forall page_address static_addresses.

Definition static_table_list (t : kernel_tables) : list (list Z) :=
  [g_pml4 t; g_pdpt t; g_pd t; g_kernel_pt t] ++ g_kernel_heap_pt t ++ g_framebuffer_pd t.

Definition table_at (t : kernel_tables) (p : Z) : option (list Z) :=
  (list_to_map (zip static_addresses (static_table_list t)) : gmap Z (list Z)) !! p.

(** The present entry [index] of the table at [p]. *)
Definition present_entry (t : kernel_tables) (p index : Z) : option Z :=
  words ← table_at t p;
  e ← get_word words index;
  if has_any PAGE_PRESENT e then Some e else None.

(** What the processor makes of an address: where it is, and the rights there. *)
Record translation := Translation {
  physical : Z;
  writable : bool;
  user : bool;
  executable : bool;
}.

Definition with_rights (p : Z) (entries : list Z) : option translation :=
  Some (Translation p (forallb (has_any PAGE_RW) entries) (forallb (has_any PAGE_USER) entries)
          (negb (existsb (has_any PAGE_NX) entries))).

Definition HUGE_ADDRESS_MASK : Z := 0x000FFFFFFFE00000.
Definition GIB_ADDRESS_MASK : Z := 0x000FFFFFC0000000.

Definition translate (t : kernel_tables) (root a : Z) : option translation :=
  e4 ← present_entry t root (pml4_index a);
  e3 ← present_entry t (Z.land e4 PAGE_ADDRESS_MASK) (pdpt_index a);
  if has_any PAGE_PS e3 then with_rights (Z.land e3 GIB_ADDRESS_MASK + a mod 2 ^ 30) [e4; e3]
  else
    e2 ← present_entry t (Z.land e3 PAGE_ADDRESS_MASK) (pd_index a);
    if has_any PAGE_PS e2 then with_rights (Z.land e2 HUGE_ADDRESS_MASK + a mod 2 ^ 21) [e4; e3; e2]
    else
      e1 ← present_entry t (Z.land e2 PAGE_ADDRESS_MASK) (pt_index a);
      with_rights (Z.land e1 PAGE_ADDRESS_MASK + a mod 2 ^ 12) [e4; e3; e2; e1].

(** Pages that can be guard pages: of the low two megabytes, or of the heap. *)
Definition guardable (q : Z) : Prop := 0 < q < 512 \/ HEAP_PAGE <= q < HEAP_PAGE + 8 * 512.

(** The kernel's map: identity below one gigabyte but for the guard pages [G], and over the huge pages of the framebuffer. *)
Definition kernel_view (nx : bool) (G : gset Z) (first_byte last_byte a : Z) : option translation :=
  if a <? 2 ^ 30 then
    if decide (a / 4096 ∈ G) then None
    else Some (Translation a true false (negb (nx && (HEAP_PAGE <=? a / 4096) && (a / 4096 <? HEAP_PAGE + 8 * 512))))
  else if (first_byte / 2 ^ 21 <=? a / 2 ^ 21) && (a / 2 ^ 21 <=? last_byte / 2 ^ 21) then Some (Translation a true false true)
  else None.

(** ** Lookups of the static tables *)

Definition rows_ok (t : kernel_tables) : Prop := length (g_kernel_heap_pt t) = 8%nat /\ length (g_framebuffer_pd t) = 2%nat.

Lemma table_at_nth t p ws i :
  addresses_ok -> rows_ok t -> static_addresses !! i = Some p -> static_table_list t !! i = Some ws -> table_at t p = Some ws.
Proof.
  intros [Hnd _] [Hl1 Hl2] Hp Hw. unfold table_at. apply elem_of_list_to_map_1.
  - rewrite fst_zip; [done|]. unfold static_addresses, static_table_list. rewrite !length_app, !length_map, !length_seq. cbn [length]. lia.
  - apply elem_of_lookup_zip_with. by exists i, p, ws.
Qed.

Lemma heap_table_at t k ws :
  addresses_ok -> rows_ok t -> (k < 8)%nat -> g_kernel_heap_pt t !! k = Some ws ->
  table_at t (kernel_heap_pt_address addresses k) = Some ws.
Proof.
  intros Hok Hl Hk Hw. apply (table_at_nth t _ ws (4 + k)); [done|done| |].
  - unfold static_addresses. rewrite lookup_app_r by (cbn; lia). rewrite lookup_app_l by (rewrite length_map, length_seq; cbn; lia).
    rewrite list_lookup_fmap, lookup_seq_lt by (cbn; lia). cbn [fmap option_fmap option_map]. do 2 f_equal. cbn. lia.
  - unfold static_table_list. destruct Hl as [Hl1 Hl2]. rewrite lookup_app_r by (cbn; lia). rewrite lookup_app_l by (cbn; lia). cbn [length].
    by replace (4 + k - 4)%nat with k by lia.
Qed.

Lemma framebuffer_table_at t k ws :
  addresses_ok -> rows_ok t -> (k < 2)%nat -> g_framebuffer_pd t !! k = Some ws ->
  table_at t (framebuffer_pd_address addresses k) = Some ws.
Proof.
  intros Hok Hl Hk Hw. pose proof Hl as [Hl1 Hl2]. apply (table_at_nth t _ ws (12 + k)); [done|done| |].
  - unfold static_addresses. rewrite lookup_app_r by (cbn; lia). rewrite lookup_app_r by (rewrite length_map, length_seq; cbn; lia).
    rewrite length_map, length_seq. rewrite list_lookup_fmap, lookup_seq_lt by (cbn; lia).
    cbn [fmap option_fmap option_map]. do 2 f_equal. cbn. lia.
  - unfold static_table_list. rewrite lookup_app_r by (cbn; lia). rewrite lookup_app_r by (cbn; lia).
    rewrite Hl1. cbn [length]. by replace (12 + k - 4 - 8)%nat with k by lia.
Qed.

Lemma static_address p : addresses_ok -> p ∈ static_addresses -> page_address p.
Proof. intros [_ Hf] Hp. by apply (proj1 (Forall_forall _ _) Hf). Qed.

Lemma kernel_flags_ok : flags_ok kernel_flags.
Proof. by split; [vm_compute|vm_compute; split]. Qed.

(** An entry that points to a static table. *)
Lemma table_word p :
  page_address p ->
  Z.land (Z.lor p kernel_flags) PAGE_ADDRESS_MASK = p /\ has_any PAGE_PRESENT (Z.lor p kernel_flags) = true /\
  has_any PAGE_PS (Z.lor p kernel_flags) = false /\ has_any PAGE_RW (Z.lor p kernel_flags) = true /\
  has_any PAGE_USER (Z.lor p kernel_flags) = false /\ has_any PAGE_NX (Z.lor p kernel_flags) = false.
Proof.
  intros Hp. rewrite !(has_any_entry p kernel_flags) by (exact Hp || by vm_compute). split; [apply entry_address; [done|apply kernel_flags_ok]|by vm_compute].
Qed.

(** The entry of a huge page. *)
Lemma huge_word_spec n :
  0 <= n < 512 * 512 ->
  Z.land (huge_word n) HUGE_ADDRESS_MASK = n * 2 ^ 21 /\ has_any PAGE_PRESENT (huge_word n) = true /\
  has_any PAGE_PS (huge_word n) = true /\ has_any PAGE_RW (huge_word n) = true /\
  has_any PAGE_USER (huge_word n) = false /\ has_any PAGE_NX (huge_word n) = false.
Proof.
  intros Hn. unfold huge_word.
  assert (Hb : page_base (n * 2 ^ 21)).
  { split; [unfold ADDRESS_LIMIT; lia|]. change (2 ^ 21) with (512 * 4096). rewrite Z.mul_assoc. apply Z.mod_mul. lia. }
  rewrite !(has_any_base (n * 2 ^ 21)) by (exact Hb || by vm_compute). split; [|by vm_compute]. rewrite Z.land_lor_distr_l.
  change (Z.land (Z.lor kernel_flags PAGE_PS) HUGE_ADDRESS_MASK) with 0. rewrite Z.lor_0_r.
  change HUGE_ADDRESS_MASK with (Z.shiftl (Z.ones 31) 21). rewrite <- Z.shiftl_mul_pow2, <- Z.shiftl_land by lia.
  f_equal. rewrite Z.land_ones by lia. apply Z.mod_small. lia.
Qed.

(** The entry of a page of the kernel. *)
Lemma page_word_spec nx g q :
  0 <= q < 512 * 512 ->
  Z.land (page_word nx g q) PAGE_ADDRESS_MASK = q * 4096 /\ has_any PAGE_PRESENT (page_word nx g q) = negb g /\
  has_any PAGE_RW (page_word nx g q) = true /\ has_any PAGE_USER (page_word nx g q) = false /\
  has_any PAGE_NX (page_word nx g q) = nx.
Proof.
  intros Hq. unfold page_word.
  assert (Hb : page_base (q * 4096)) by (split; [unfold ADDRESS_LIMIT; lia|apply Z.mod_mul; lia]).
  rewrite !(has_any_base (q * 4096)) by (exact Hb || by vm_compute). split; [apply entry_base; [done|by destruct nx, g]|by destruct nx, g].
Qed.

Lemma present_entry_eq t p ws i e :
  table_at t p = Some ws -> get_word ws i = Some e -> present_entry t p i = if has_any PAGE_PRESENT e then Some e else None.
Proof. intros Ht Hw. unfold present_entry. by rewrite Ht, some_bind, Hw. Qed.

Lemma row_table rows k i e : row_word rows k i = Some e -> exists ws, 0 <= k /\ rows !! Z.to_nat k = Some ws /\ get_word ws i = Some e.
Proof.
  unfold row_word. destruct (Z.leb_spec 0 k); [|done]. destruct (rows !! Z.to_nat k) as [ws|]; [|done]. rewrite some_bind. by exists ws.
Qed.

(** The indices of an address of the first PML4 entry. *)
Lemma kernel_indices a :
  0 <= a < 2 ^ 39 ->
  pml4_index a = 0 /\ pdpt_index a = a / 2 ^ 30 /\ pd_index a = (a / 2 ^ 21) mod 512 /\ pt_index a = (a / 2 ^ 12) mod 512 /\
  0 <= a / 2 ^ 30 < 512 /\ a / 2 ^ 30 = a / 2 ^ 21 / 512 /\ a / 2 ^ 21 = a / 2 ^ 12 / 512.
Proof.
  intros Ha. unfold pml4_index, pdpt_index, pd_index, pt_index. rewrite !index_bits by lia.
  rewrite (Z.div_small a (2 ^ 39)) by lia.
  assert (Hb : 0 <= a / 2 ^ 30 < 512) by (split; [apply Z.div_pos; lia|apply Z.div_lt_upper_bound; lia]).
  rewrite (Z.mod_small (a / 2 ^ 30) 512) by done. rewrite !Z.div_div by lia. split_and!; done || lia.
Qed.

Section View.
Context (t : kernel_tables) (nx : bool) (G : gset Z) (first_byte last_byte : Z).
Context (Hadr : addresses_ok) (Hkm : kernel_map addresses t nx G) (Hfb : framebuffer_map addresses t first_byte last_byte).
Context (HG : forall q, q ∈ G -> guardable q) (Hrange : 0 <= first_byte <= last_byte /\ last_byte < 2 ^ 39).

Lemma view_rows : rows_ok t.
Proof.
  destruct Hkm as [_ _ _ _ _ [Hl _] _]. split; [done|]. unfold framebuffer_map in Hfb.
  destruct (dynamic_directories first_byte last_byte). by destruct Hfb as (_ & ? & _).
Qed.

Lemma static_entry i p : static_addresses !! i = Some p -> page_address p.
Proof. intros Hi. apply static_address; [done|]. by apply list_elem_of_lookup_2 in Hi. Qed.

(** The two entries below the PML4 entry of every kernel address. *)
Lemma top_entry : present_entry t (pml4_address addresses) 0 = Some (Z.lor (pdpt_address addresses) kernel_flags).
Proof.
  rewrite (present_entry_eq t _ (g_pml4 t) 0 (Z.lor (pdpt_address addresses) kernel_flags)).
  - by destruct (table_word (pdpt_address addresses) (static_entry 1 _ eq_refl)) as (_ & -> & _).
  - by apply (table_at_nth t _ _ 0 Hadr view_rows).
  - apply Hkm.
Qed.

(** The lowest level, for a page of 4096 bytes behind the table at [p]. *)
Lemma leaf_translation p ws i nxp g q a :
  page_address p -> table_at t p = Some ws -> get_word ws i = Some (page_word nxp g q) -> 0 <= q < 512 * 512 -> a / 2 ^ 12 = q ->
  pt_index a = i ->
  (e1 ← present_entry t (Z.land (Z.lor p kernel_flags) PAGE_ADDRESS_MASK) (pt_index a);
   with_rights (Z.land e1 PAGE_ADDRESS_MASK + a mod 2 ^ 12)
     [Z.lor (pdpt_address addresses) kernel_flags; Z.lor (pd_address addresses) kernel_flags; Z.lor p kernel_flags; e1]) =
  if g then None else Some (Translation a true false (negb nxp)).
Proof.
  intros Hp Ht Hw Hq Ha Hi.
  destruct (table_word p Hp) as (Em & _ & _ & Erw & Eus & Enx). rewrite Em, Hi, (present_entry_eq _ _ _ _ _ Ht Hw).
  destruct (page_word_spec nxp g q Hq) as (Ea & -> & Ew & Eu & En). destruct g; cbn [negb]; [done|]. rewrite some_bind.
  destruct (table_word (pdpt_address addresses) (static_entry 1 _ eq_refl)) as (_ & _ & _ & E1 & E2 & E3).
  destruct (table_word (pd_address addresses) (static_entry 2 _ eq_refl)) as (_ & _ & _ & F1 & F2 & F3).
  unfold with_rights. cbn [forallb existsb]. rewrite Ea, Ew, Eu, En, E1, E2, E3, F1, F2, F3, Erw, Eus, Enx. cbn [andb orb negb].
  f_equal. f_equal; [|by destruct nxp]. subst q. change (2 ^ 12) with 4096. pose proof (Z.div_mod a 4096). lia.
Qed.

(** The lowest level, for a huge page in the directory at [p]. *)
Lemma huge_translation p n a :
  page_address p -> 0 <= n < 512 * 512 -> a / 2 ^ 21 = n ->
  with_rights (Z.land (huge_word n) HUGE_ADDRESS_MASK + a mod 2 ^ 21)
    [Z.lor (pdpt_address addresses) kernel_flags; Z.lor p kernel_flags; huge_word n] = Some (Translation a true false true).
Proof.
  intros Hp Hn Ha. destruct (huge_word_spec n Hn) as (-> & _ & _ & Ew & Eu & En).
  destruct (table_word (pdpt_address addresses) (static_entry 1 _ eq_refl)) as (_ & _ & _ & E1 & E2 & E3).
  destruct (table_word p Hp) as (_ & _ & _ & F1 & F2 & F3).
  unfold with_rights. cbn [forallb existsb]. rewrite Ew, Eu, En, E1, E2, E3, F1, F2, F3. cbn [andb orb negb].
  subst n. do 2 f_equal. pose proof (Z.div_mod a (2 ^ 21)). lia.
Qed.

(** The first gigabyte. *)
Lemma translate_low a :
  0 <= a < 2 ^ 30 -> translate t (pml4_address addresses) a = kernel_view nx G first_byte last_byte a.
Proof.
  intros Ha. destruct (kernel_indices a) as (E4 & E3 & E2 & E1 & _ & E30 & E21); [lia|].
  assert (Eg : a / 2 ^ 30 = 0) by (apply Z.div_small; lia).
  pose proof (Z.div_mod (a / 2 ^ 21) 512 ltac:(lia)). pose proof (Z.mod_pos_bound (a / 2 ^ 21) 512 ltac:(lia)).
  pose proof (Z.div_mod (a / 2 ^ 12) 512 ltac:(lia)). pose proof (Z.mod_pos_bound (a / 2 ^ 12) 512 ltac:(lia)).
  unfold translate, kernel_view. rewrite E4, top_entry, some_bind, E3, Eg.
  destruct (table_word (pdpt_address addresses) (static_entry 1 _ eq_refl)) as (-> & _ & _ & P1 & P2 & P3).
  assert (Ht3 : table_at t (pdpt_address addresses) = Some (g_pdpt t)) by (by apply (table_at_nth t _ _ 1 Hadr view_rows)).
  rewrite (present_entry_eq _ _ _ _ _ Ht3 (km_pdpt _ _ _ _ Hkm)).
  destruct (table_word (pd_address addresses) (static_entry 2 _ eq_refl)) as (Em & Epr & Eps3 & D1 & D2 & D3).
  rewrite Epr, some_bind, Eps3, Em. rewrite (proj2 (Z.ltb_lt a (2 ^ 30))) by lia.
  assert (Ht2 : table_at t (pd_address addresses) = Some (g_pd t)) by (by apply (table_at_nth t _ _ 2 Hadr view_rows)).
  assert (Ed : pd_index a = a / 2 ^ 21) by lia.
  assert (Hpd := km_pd _ _ _ _ Hkm (pd_index a) ltac:(lia)). rewrite (present_entry_eq _ _ _ _ _ Ht2 Hpd).
  change (2 ^ 12) with 4096 in *. unfold pd_word. change HEAP_PAGE with 2048 in *. rewrite Ed.
  assert (Hhuge : a / 2 ^ 21 <> 0 -> ~ (4 <= a / 2 ^ 21 < 12) ->
    (e2 ← (if has_any PAGE_PRESENT (huge_word (a / 2 ^ 21)) then Some (huge_word (a / 2 ^ 21)) else None);
     if has_any PAGE_PS e2
     then with_rights (Z.land e2 HUGE_ADDRESS_MASK + a mod 2 ^ 21)
            [Z.lor (pdpt_address addresses) kernel_flags; Z.lor (pd_address addresses) kernel_flags; e2]
     else e1 ← present_entry t (Z.land e2 PAGE_ADDRESS_MASK) (pt_index a);
          with_rights (Z.land e1 PAGE_ADDRESS_MASK + a mod 4096)
            [Z.lor (pdpt_address addresses) kernel_flags; Z.lor (pd_address addresses) kernel_flags; e2; e1]) =
    (if decide (a / 4096 ∈ G) then None
     else Some (Translation a true false (negb (nx && (2048 <=? a / 4096) && (a / 4096 <? 2048 + 8 * 512)))))).
  { intros Hn0 Hn4. destruct (huge_word_spec (a / 2 ^ 21) ltac:(lia)) as (_ & -> & Eps & _). rewrite some_bind, Eps.
    rewrite (huge_translation (pd_address addresses) (a / 2 ^ 21) a) by (lia || by apply (static_entry 2)).
    rewrite decide_False by (intros Hq%HG; unfold guardable in Hq; change HEAP_PAGE with 2048 in Hq; lia). do 2 f_equal.
    destruct (Z.leb_spec 2048 (a / 4096)); [|by rewrite andb_false_r].
    destruct (Z.ltb_spec (a / 4096) (2048 + 8 * 512)); [lia|by rewrite andb_false_r]. }
  destruct (Z.eqb_spec (a / 2 ^ 21) 0) as [Ez|Ez].
  - pose proof (static_entry 3 _ eq_refl) as Hpt. destruct (table_word _ Hpt) as (_ & Epr1 & Eps1 & _). rewrite Epr1, some_bind, Eps1.
    rewrite (leaf_translation _ (g_kernel_pt t) (a / 4096) false (bool_decide (a / 4096 ∈ G)) (a / 4096) a);
      [|done|by apply (table_at_nth t _ _ 3 Hadr view_rows)|apply Hkm; lia|lia|done|lia].
    rewrite (proj2 (Z.leb_gt 2048 (a / 4096))) by lia. rewrite andb_false_r. cbn [andb negb].
    case_bool_decide; [by rewrite decide_True|by rewrite decide_False].
  - destruct (Z.leb_spec 4 (a / 2 ^ 21)) as [Hd4|Hd4]; [destruct (Z.ltb_spec (a / 2 ^ 21) 12) as [Hd12|Hd12]|]; cbn [andb].
    + destruct (row_table _ _ _ _ (km_heap _ _ _ _ Hkm (a / 2 ^ 21 - 4) (pt_index a) ltac:(lia) ltac:(lia))) as (ws & _ & Hws & Hw).
      assert (Hpa : page_address (kernel_heap_pt_address addresses (Z.to_nat (a / 2 ^ 21 - 4)))).
      { apply static_address; [done|]. unfold static_addresses. apply elem_of_app; right. apply elem_of_app; left.
        apply list_elem_of_In, in_map, in_seq. lia. }
      destruct (table_word _ Hpa) as (_ & Epr1 & Eps1 & _). rewrite Epr1, some_bind, Eps1. change HEAP_PAGE with 2048 in Hw.
      replace (2048 + (a / 2 ^ 21 - 4) * 512 + pt_index a) with (a / 4096) in Hw by lia.
      rewrite (leaf_translation _ ws (pt_index a) nx (bool_decide (a / 4096 ∈ G)) (a / 4096) a);
        [|done|by apply heap_table_at; [done|apply view_rows|lia|]|done|lia|done|done].
      rewrite (proj2 (Z.leb_le 2048 (a / 4096))), (proj2 (Z.ltb_lt (a / 4096) (2048 + 8 * 512))) by lia. rewrite !andb_true_r.
      case_bool_decide; [by rewrite decide_True|by rewrite decide_False].
    + apply Hhuge; lia.
    + apply Hhuge; lia.
Qed.

(** Above it, the framebuffer. *)
Lemma translate_high a :
  2 ^ 30 <= a < 2 ^ 39 -> translate t (pml4_address addresses) a = kernel_view nx G first_byte last_byte a.
Proof.
  intros Ha. destruct (kernel_indices a) as (E4 & E3 & E2 & _ & Eg & E30 & _); [lia|].
  assert (Hg : 1 <= a / 2 ^ 30) by (apply Z.div_le_lower_bound; lia).
  pose proof (Z.div_mod (a / 2 ^ 21) 512 ltac:(lia)). pose proof (Z.mod_pos_bound (a / 2 ^ 21) 512 ltac:(lia)).
  destruct (dynamic_directories_spec first_byte last_byte) as (first & count & Edyn & D1 & D2 & D3 & D4 & D5); [lia|lia|].
  pose proof Hfb as Hmap. unfold framebuffer_map in Hmap. rewrite Edyn in Hmap. destruct Hmap as (Hc & Hl & Hpdpt & Hrows).
  unfold translate, kernel_view. rewrite E4, top_entry, some_bind, E3. rewrite (proj2 (Z.ltb_ge a (2 ^ 30))) by lia.
  destruct (table_word (pdpt_address addresses) (static_entry 1 _ eq_refl)) as (-> & _).
  assert (Ht3 : table_at t (pdpt_address addresses) = Some (g_pdpt t)) by (by apply (table_at_nth t _ _ 1 Hadr view_rows)).
  rewrite (present_entry_eq _ _ _ _ _ Ht3 (Hpdpt (a / 2 ^ 30) ltac:(lia))).
  destruct (decide (first <= a / 2 ^ 30 < first + count)) as [Hin|Hout].
  2: { change (has_any PAGE_PRESENT 0) with false.
       destruct (Z.leb_spec (first_byte / 2 ^ 21) (a / 2 ^ 21)); [|done].
       destruct (Z.leb_spec (a / 2 ^ 21) (last_byte / 2 ^ 21)); [lia|done]. }
  assert (Hpa : page_address (framebuffer_pd_address addresses (Z.to_nat (a / 2 ^ 30 - first)))).
  { apply static_address; [done|]. unfold static_addresses. apply elem_of_app; right. apply elem_of_app; right.
    apply list_elem_of_In, in_map, in_seq. lia. }
  destruct (table_word _ Hpa) as (Em & Epr & Eps & _). rewrite Epr, some_bind, Eps, Em.
  destruct (row_table _ _ _ _ (Hrows (a / 2 ^ 30 - first) (pd_index a) ltac:(lia) ltac:(lia))) as (ws & _ & Hws & Hw).
  assert (Ht2 : table_at t (framebuffer_pd_address addresses (Z.to_nat (a / 2 ^ 30 - first))) = Some ws).
  { apply framebuffer_table_at; [done|apply view_rows|lia|done]. }
  rewrite (present_entry_eq _ _ _ _ _ Ht2 Hw).
  replace ((first + (a / 2 ^ 30 - first)) * 512 + pd_index a) with (a / 2 ^ 21) by lia.
  destruct (decide (first_byte / 2 ^ 21 <= a / 2 ^ 21 <= last_byte / 2 ^ 21)) as [Hr|Hr].
  - rewrite (proj2 (Z.leb_le _ _)), (proj2 (Z.leb_le (a / 2 ^ 21) _)) by lia. cbn [andb].
    destruct (huge_word_spec (a / 2 ^ 21) ltac:(lia)) as (_ & -> & Eps2 & _). rewrite some_bind, Eps2.
    by rewrite (huge_translation _ (a / 2 ^ 21) a) by (lia || done).
  - change (has_any PAGE_PRESENT 0) with false.
    destruct (Z.leb_spec (first_byte / 2 ^ 21) (a / 2 ^ 21)); [|done].
    destruct (Z.leb_spec (a / 2 ^ 21) (last_byte / 2 ^ 21)); [lia|done].
Qed.

Lemma translate_kernel a :
  0 <= a < 2 ^ 39 -> translate t (pml4_address addresses) a = kernel_view nx G first_byte last_byte a.
Proof. intros Ha. destruct (decide (a < 2 ^ 30)); [apply translate_low|apply translate_high]; lia. Qed.

End View.

(** ** Guard pages *)

(** The entry of a guardable page. *)
Lemma guard_entry_spec p :
  0 <= p < 2 ^ 64 -> p <> 0 ->
  match kernel_guard_page_entry p with
  | None => ~ (p mod 4096 = 0 /\ guardable (p / 4096))
  | Some place => p mod 4096 = 0 /\ guardable (p / 4096) /\
      (place = (None, p / 4096) /\ 0 < p / 4096 < 512 \/
       exists k i, place = (Some k, i) /\ 0 <= k < 8 /\ 0 <= i < 512 /\ p / 4096 = HEAP_PAGE + k * 512 + i)
  end.
Proof.
  intros Hp Hp0. unfold kernel_guard_page_entry. rewrite (proj2 (page_of_spec p ltac:(lia))). unfold guardable.
  change HEAP_PAGE with 2048. pose proof (Z.div_mod p 4096 ltac:(lia)) as Hdm.
  destruct (Z.eqb_spec (p mod 4096) 0) as [Em|Em]; cbn [negb]; [|by intros [? _]].
  change HUGE_PAGE_SIZE with (512 * 4096). change PAGE_SIZE with 4096.
  destruct (Z.ltb_spec p (512 * 4096)); [split; [done|]; split; [left; lia|]; left; split; [done|lia]|].
  change (SYSTEM_RESERVED_LOW_MEMORY_BYTES + KERNEL_HEAP_MAX_BYTES) with ((2048 + 8 * 512) * 4096).
  change SYSTEM_RESERVED_LOW_MEMORY_BYTES with (2048 * 4096).
  destruct (Z.ltb_spec p (2048 * 4096)); cbn [orb]; [intros [_ [?|?]]; lia|].
  destruct (Z.leb_spec ((2048 + 8 * 512) * 4096) p); [intros [_ [?|?]]; lia|].
  split; [done|]. split; [right; lia|]. right.
  set (q := p / 4096) in *. assert (Ep : p = q * 4096) by lia. rewrite Ep.
  assert (Eo : q * 4096 - 2048 * 4096 = (q - 2048) * 4096) by lia. rewrite Eo.
  rewrite (Z.div_mul_cancel_r (q - 2048) 512 4096) by lia. rewrite Z.mul_mod_distr_r, Z.div_mul by lia.
  pose proof (Z.div_mod (q - 2048) 512 ltac:(lia)). pose proof (Z.mod_pos_bound (q - 2048) 512 ltac:(lia)).
  eexists _, _. split; [done|]. lia.
Qed.

(** One entry changes; the map follows the set of guard pages. *)
Lemma change_guard_entry_spec (p : Z) (change : Z -> bool) (f : Z -> Z) (g : bool) (G G' : gset Z) nx (s : paging A) :
  0 <= p < 2 ^ 64 -> g_paging_ready s = true -> kernel_map addresses (tables s) nx G ->
  (forall nxq gq q, 0 <= q < 512 * 512 ->
     (if change (page_word nxq gq q) then f (page_word nxq gq q) else page_word nxq gq q) = page_word nxq g q) ->
  (forall r, bool_decide (r ∈ G') = if decide (r = p / 4096) then g else bool_decide (r ∈ G)) ->
  exists ok s', change_guard_entry p change f s = Some (ok, s') /\
    (ok = true <-> p mod 4096 = 0 /\ guardable (p / 4096)) /\ frames s' = frames s /\ allocator s' = allocator s /\ cr3 s' = cr3 s /\
    g_paging_ready s' = true /\ g_nx_enabled s' = g_nx_enabled s /\ g_pml4 (tables s') = g_pml4 (tables s) /\
    g_pdpt (tables s') = g_pdpt (tables s) /\ g_framebuffer_pd (tables s') = g_framebuffer_pd (tables s) /\
    kernel_map addresses (tables s') nx (if ok then G' else G).
Proof.
  intros Hp Hready Hkm Hf HG'. unfold change_guard_entry. rewrite Hready. cbn [negb orb].
  destruct (Z.eqb_spec p NULL) as [E0|E0]; unfold NULL in E0.
  { exists false, s. split; [done|]. subst p. split; [|done]. split; [done|]. intros [_ [Hq|Hq]]; unfold HEAP_PAGE in Hq;
      change (0 / 4096) with 0 in Hq; [lia|]. change (SYSTEM_RESERVED_LOW_MEMORY_BYTES / 4096) with 2048 in Hq. lia. }
  pose proof (guard_entry_spec p Hp E0) as Hentry. destruct (kernel_guard_page_entry p) as [place|].
  2: { exists false, s. split; [done|]. split; [by split|done]. }
  destruct Hentry as (Hm & Hq & Hplace). pose proof (Z.div_mod p 4096 ltac:(lia)) as Hdm.
  assert (Hqb : 0 <= p / 4096 < 512 * 512).
  { destruct Hq as [Hq|Hq]; [lia|]. change HEAP_PAGE with 2048 in Hq. lia. }
  assert (Hmask : forall nxq gq, (Z.land (page_word nxq gq (p / 4096)) PAGE_ADDRESS_MASK =? Z.land p PAGE_ADDRESS_MASK) = true).
  { intros nxq gq. destruct (page_word_spec nxq gq (p / 4096) Hqb) as (-> & _). apply Z.eqb_eq. symmetry.
    replace (p / 4096 * 4096) with p by lia. apply page_base_mask. split; [unfold ADDRESS_LIMIT; lia|done]. }
  pose proof Hkm as [K1 K2 K3 K4 K5 [K6 K7] K8].
  destruct Hplace as [[-> Hlow]|(k & i & -> & Hk & Hi & Eq)]; cbn [guard_entry_read guard_entry_write].
  - rewrite (K4 (p / 4096)), some_bind, Hmask by lia. cbn [negb].
    specialize (Hf false (bool_decide (p / 4096 ∈ G)) (p / 4096) Hqb).
    destruct (change (page_word false (bool_decide (p / 4096 ∈ G)) (p / 4096))) eqn:Ech.
    + destruct (set_word_spec (g_kernel_pt (tables s)) (p / 4096) (f (page_word false (bool_decide (p / 4096 ∈ G)) (p / 4096))))
        as (ws & -> & Hl & Hw); [rewrite K8; lia|]. rewrite !some_bind. eexists true, _. split; [done|]. split; [done|].
      do 8 (split; [done|]). constructor; try done; cbn [g_kernel_pt g_kernel_heap_pt with_kernel_pt tables set_tables].
      * intros j Hj. rewrite Hw, HG', Hf. destruct (decide (p / 4096 <= j < p / 4096 + 1)) as [Ej|Ej].
        -- assert (j = p / 4096) as -> by lia. by rewrite decide_True.
        -- rewrite decide_False by lia. by apply K4.
      * intros k i Hk Hi. rewrite HG', decide_False by (change HEAP_PAGE with 2048; lia). by apply K5.
      * unfold table_ok in *. congruence.
    + exists true, s. split; [done|]. split; [done|]. do 8 (split; [done|]). constructor; try done.
      * intros j Hj. rewrite HG'. destruct (decide (j = p / 4096)) as [->|]; [rewrite <- Hf|]; by apply K4.
      * intros k i Hk Hi. rewrite HG', decide_False by (change HEAP_PAGE with 2048; lia). by apply K5.
  - pose proof (K5 k i Hk Hi) as Hrow. rewrite <- Eq in Hrow.
    specialize (Hf nx (bool_decide (p / 4096 ∈ G)) (p / 4096) Hqb). change HEAP_PAGE with 2048 in *.
    destruct (row_table _ _ _ _ Hrow) as (ws & _ & Hws & Hwd).
    rewrite (proj2 (Z.leb_le 0 k)) by lia. rewrite Hws, some_bind, Hwd, some_bind, Hmask. cbn [negb].
    assert (Hoth : forall k' i', 0 <= k' < 8 -> 0 <= i' < 512 -> 2048 + k' * 512 + i' = p / 4096 -> k' = k /\ i' = i) by lia.
    destruct (change (page_word nx (bool_decide (p / 4096 ∈ G)) (p / 4096))) eqn:Ech.
    + pose proof (Forall_lookup_1 _ _ _ _ K7 Hws) as Hlw. unfold table_ok in Hlw.
      destruct (set_word_spec ws i (f (page_word nx (bool_decide (p / 4096 ∈ G)) (p / 4096)))) as (ws' & Eset & Hl & Hw); [lia|].
      destruct (update_row_spec (g_kernel_heap_pt (tables s)) k (fun words => set_word words i (f (page_word nx (bool_decide (p / 4096 ∈ G)) (p / 4096)))) ws ws')
        as (rows & -> & Hrl & Hrf & Hrw); [lia|done|done|]. rewrite !some_bind. eexists true, _. split; [done|]. split; [done|].
      do 8 (split; [done|]). constructor; try done; cbn [g_kernel_pt g_kernel_heap_pt with_kernel_heap_pt tables set_tables].
      * intros j Hj. rewrite HG', decide_False by lia. by apply K4.
      * intros k' i' Hk' Hi'. change HEAP_PAGE with 2048. rewrite Hrw, HG'.
        destruct (decide (k' = k)) as [->|Hne].
        -- rewrite Hw, Hf. destruct (decide (i <= i' < i + 1)) as [Ei|Ei].
           ++ assert (i' = i) as -> by lia. by rewrite decide_True, Eq by lia.
           ++ rewrite decide_False by lia. specialize (K5 k i' Hk' Hi'). unfold row_word in K5.
              rewrite (proj2 (Z.leb_le 0 k)), Hws, some_bind in K5 by lia. exact K5.
        -- rewrite decide_False by (intros E; by destruct (Hoth k' i' Hk' Hi' E)). by apply K5.
      * split; [lia|]. apply Hrf; [lia|done].
    + exists true, s. split; [done|]. split; [done|]. do 8 (split; [done|]). constructor; try done.
      * intros j Hj. rewrite HG', decide_False by lia. by apply K4.
      * intros k' i' Hk' Hi'. change HEAP_PAGE with 2048. rewrite HG'.
        destruct (decide (2048 + k' * 512 + i' = p / 4096)) as [E|]; [|by apply K5].
        destruct (Hoth k' i' Hk' Hi' E) as [-> ->]. by rewrite E, <- Hf.
Qed.

Lemma guard_word nx g q : 0 <= q < 512 * 512 ->
  (if has_any PAGE_PRESENT (page_word nx g q) then Z.ldiff (page_word nx g q) PAGE_PRESENT else page_word nx g q) = page_word nx true q.
Proof.
  intros Hq. destruct (page_word_spec nx g q Hq) as (_ & -> & _). destruct g; [done|]. cbn [negb]. unfold page_word.
  assert (Hb : page_base (q * 4096)) by (split; [unfold ADDRESS_LIMIT; lia|apply Z.mod_mul; lia]).
  rewrite !Z.ldiff_land, Z.land_lor_distr_l. f_equal; [|by destruct nx].
  rewrite <- (page_base_mask _ Hb) at 1. rewrite <- Z.land_assoc.
  change (Z.land PAGE_ADDRESS_MASK (Z.lnot PAGE_PRESENT)) with PAGE_ADDRESS_MASK. by apply page_base_mask.
Qed.

Lemma unguard_word nx g q : 0 <= q < 512 * 512 ->
  (if negb (has_any PAGE_PRESENT (page_word nx g q)) then Z.lor (page_word nx g q) (Z.lor PAGE_PRESENT PAGE_RW) else page_word nx g q) =
  page_word nx false q.
Proof.
  intros Hq. destruct (page_word_spec nx g q Hq) as (_ & -> & _). destruct g; [|done]. cbn [negb]. unfold page_word.
  rewrite <- Z.lor_assoc. f_equal. by destruct nx.
Qed.

(** The kernel's part of a state: ready, with the pages of [G] as holes. *)
Record kernel_ok (s : paging A) (G : gset Z) (first_byte last_byte : Z) : Prop := {
  ko_ready : g_paging_ready s = true;
  ko_pml4 : pml4_ok (g_pml4 (tables s));
  ko_map : kernel_map addresses (tables s) (g_nx_enabled s) G;
  ko_framebuffer : framebuffer_map addresses (tables s) first_byte last_byte;
  ko_guards : forall q, q ∈ G -> guardable q;
  ko_range : 0 <= first_byte <= last_byte /\ last_byte < 2 ^ 39;
}.

Lemma kernel_ok_translate s G first_byte last_byte a :
  addresses_ok -> kernel_ok s G first_byte last_byte -> 0 <= a < 2 ^ 39 ->
  translate (tables s) (pml4_address addresses) a = kernel_view (g_nx_enabled s) G first_byte last_byte a.
Proof. intros Hadr [_ _ H1 H2 H3 H4] Ha. by apply translate_kernel. Qed.

(** Either operation, on the set of guard pages. *)
Lemma guard_operation_ok (p : Z) (change : Z -> bool) (f : Z -> Z) (g : bool) (G G' : gset Z) a b (s : paging A) :
  0 <= p < 2 ^ 64 -> kernel_ok s G a b ->
  (forall nxq gq q, 0 <= q < 512 * 512 ->
     (if change (page_word nxq gq q) then f (page_word nxq gq q) else page_word nxq gq q) = page_word nxq g q) ->
  (forall r, bool_decide (r ∈ G') = if decide (r = p / 4096) then g else bool_decide (r ∈ G)) ->
  (forall q, q ∈ G' -> q ∈ G \/ q = p / 4096) ->
  exists ok s', change_guard_entry p change f s = Some (ok, s') /\
    (ok = true <-> p mod 4096 = 0 /\ guardable (p / 4096)) /\ kernel_ok s' (if ok then G' else G) a b /\
    frames s' = frames s /\ allocator s' = allocator s /\ cr3 s' = cr3 s /\ g_nx_enabled s' = g_nx_enabled s.
Proof.
  intros Hp [H1 H2 H3 H4 H5 H6] Hf HG Hsub.
  destruct (change_guard_entry_spec p change f g G G' (g_nx_enabled s) s Hp H1 H3 Hf HG)
    as (ok & s' & E & Hok & Ef & Ea & Ec & Er & En & Et4 & Et3 & Efb & Hkm).
  exists ok, s'. split; [done|]. split; [done|]. split; [|done]. constructor; [done|by rewrite Et4|by rewrite En| | |done].
  - unfold framebuffer_map in *. destruct (dynamic_directories a b). by rewrite Et3, Efb.
  - intros q Hq. destruct ok; [|by apply H5]. destruct (Hsub q Hq) as [?| ->]; [by apply H5|]. by apply Hok.
Qed.

Lemma framebuffer_range_ok boot_info :
  boot_info_ok boot_info -> framebuffer_fits boot_info ->
  0 <= (framebuffer_range boot_info).1 <= (framebuffer_range boot_info).2 /\ (framebuffer_range boot_info).2 < 2 ^ 39.
Proof.
  unfold boot_info_ok, framebuffer_fits, framebuffer_range. destruct boot_info as [b|]; [|cbn; lia].
  intros (H1 & H2 & H3). destruct (Z.eqb_spec (framebuffer b) 0) as [E|E]; cbn [fst snd]; [lia|].
  intros [?|(Hp & Hh & Hl & _)]; [done|]. nia.
Qed.

Lemma init_kernel_ok boot_info (c : cpu) (s : paging A) :
  boot_info_ok boot_info -> tables s = static_tables -> g_nx_enabled s = false -> addresses_ok ->
  exists ok s', paging_init addresses boot_info c s = Some (ok, s') /\ (ok = true <-> framebuffer_fits boot_info) /\
    (ok = true -> kernel_ok s' ∅ (framebuffer_range boot_info).1 (framebuffer_range boot_info).2 /\
       g_nx_enabled s' = cpu_has_nx c /\ cr3 s' = pml4_address addresses /\ forall bs, owns (allocator s) bs -> owns (allocator s') bs).
Proof.
  intros Hboot Hst Hnx Hadr. assert (Hpd : page_address (pdpt_address addresses)).
  { apply static_address; [done|]. right. by left. }
  destruct (paging_init_spec addresses boot_info c s Hboot Hst Hnx Hpd) as (ok & s' & -> & _ & Hown & Hok & Hs).
  exists ok, s'. split; [done|]. split; [done|]. intros Ht. destruct (Hs Ht) as (Hr & En & Ec & H4 & Hkm & Hfb).
  pose proof (framebuffer_range_ok boot_info Hboot (proj1 Hok Ht)) as Hrange.
  destruct (framebuffer_range boot_info) as [a b]. cbn [fst snd] in *. split; [|done].
  constructor; [done|done|by rewrite En|done|set_solver|done].
Qed.

End Guard.
