(* ===== verification/PagingClaims.v ===== *)
(** * kernel/paging.c: all the address spaces together

    The live address spaces, each with its tree, over one allocator: requests
    on one space keep the others, and the last destruction returns every block.

    Then the properties of paging. *)

From stdpp Require Import gmap.
From S2P Require Import Prelude CString Syslog Heap HeapSpec Allocator Paging PagingTree PagingSpace PagingMap PagingKernel PagingGuard.

(** A live space, its tree and the size of its own block. *)
Abbreviation live := (paging_address_space * tree * Z)%type.
Definition live_space (v : live) : paging_address_space := v.1.1.
Definition live_tree (v : live) : tree := v.1.2.
Definition live_block (v : live) : Z * Z := (self (live_space v), v.2).

Inductive world_claims : list live -> list (Z * Z) -> Prop :=
| world_nil : world_claims [] []
| world_cons v w b bs : claims (allocations (live_space v)) b -> world_claims w bs -> world_claims (v :: w) (live_block v :: b ++ bs).

Lemma world_claims_perm w w' bs : world_claims w bs -> w ≡ₚ w' -> exists bs', world_claims w' bs' /\ bs ≡ₚ bs'.
Proof.
  intros Hc Hp. revert bs Hc. induction Hp as [|v w w' Hp IH|v1 v2 w|w1 w2 w3 _ IH1 _ IH2]; intros bs Hc.
  - by exists bs.
  - inversion Hc as [|? ? b bs0 Hb Hc0]; subst. destruct (IH _ Hc0) as (bs' & Hc' & Hp').
    exists (live_block v :: b ++ bs'). split; [by constructor|]. by rewrite Hp'.
  - inversion Hc as [|? ? b1 bs1 Hb1 Hc1]; subst. inversion Hc1 as [|? ? b2 bs2 Hb2 Hc2]; subst.
    exists (live_block v1 :: b2 ++ live_block v2 :: b1 ++ bs2). split; [by constructor; [|constructor]|].
    rewrite <- !Permutation_middle. rewrite !app_assoc, (Permutation_app_comm b1 b2). apply perm_swap.
  - destruct (IH1 _ Hc) as (bs1 & Hc1 & Hp1). destruct (IH2 _ Hc1) as (bs2 & Hc2 & Hp2).
    exists bs2. split; [done|]. by rewrite Hp1.
Qed.

Lemma world_claims_in w bs v c :
  world_claims w bs -> v ∈ w -> c ∈ map page (allocations (live_space v)) -> exists b, b ∈ bs /\ in_block c b.
Proof.
  induction 1 as [|u w b bs Hb Hw IH]; [by intros ?%elem_of_nil|]. intros [->|Hv]%elem_of_cons Hc.
  - destruct (claims_in _ _ _ Hb Hc) as (blk & Hin & Hblk & _). exists blk. split; [|done]. right. apply elem_of_app. by left.
  - destruct (IH Hv Hc) as (blk & Hin & Hblk). exists blk. split; [|done]. right. apply elem_of_app. by right.
Qed.

(** A tree is there while its pages are. *)
Lemma tree_ok_frame kernel nx m m' nodes root :
  tree_ok kernel nx m nodes root -> (forall key c f, nodes !! key = Some (c, f) -> m' !! c = m !! c) ->
  tree_ok kernel nx m' nodes root.
Proof.
  intros Hok Hm. assert (Hent : forall key t f i, nodes !! key = Some (t, f) -> entry m' t i = entry m t i).
  { intros key t f i Hk. unfold entry. by rewrite (Hm _ _ _ Hk). }
  destruct Hok as [H1 H2 H3 H4 H5 H6 H7]. constructor; try done.
  - intros key c f Hk. rewrite (Hm _ _ _ Hk). by apply (H3 key c f).
  - intros k p t f Hk Hp Ht. rewrite (Hent _ _ _ _ Ht). by apply (H5 k p t f).
  - intros i Hi Hi2 Hi3. rewrite (Hent _ _ _ _ H1). by apply H6.
Qed.

Lemma user_page_frame m m' nodes q :
  (forall key c f, nodes !! key = Some (c, f) -> m' !! c = m !! c) -> user_page m' nodes q = user_page m nodes q.
Proof. intros Hm. unfold user_page. destruct (nodes !! _) as [[c f]|] eqn:E; [|done]. rewrite !some_bind. by rewrite (Hm _ _ _ E). Qed.

Section World.
Context {A : Type} `{AllocatorLaws A} (addresses : table_addresses).

Definition live_ok (s : paging A) (v : live) : Prop :=
  tree_ok (g_pml4 (tables s)) (g_nx_enabled s) (frames s) (live_tree v) (pml4 (live_space v)) /\
  map page (allocations (live_space v)) ≡ₚ tree_pages (live_tree v).

(** The live spaces [w] own their blocks, beside [rest]. *)
Definition world_ok (s : paging A) (w : list live) (rest : list (Z * Z)) : Prop :=
  (exists bs, world_claims w bs /\ owns (allocator s) (bs ++ rest)) /\ Forall (live_ok s) w /\
  kernel_slots_ok (g_pml4 (tables s)).

Lemma world_ok_perm (s : paging A) w w' rest : world_ok s w rest -> w ≡ₚ w' -> world_ok s w' rest.
Proof.
  intros ((bs & Hc & Ho) & Hl & Hk) Hp. destruct (world_claims_perm _ _ _ Hc Hp) as (bs' & Hc' & Hp').
  split; [|split; [by rewrite <- Hp|done]]. exists bs'. split; [done|]. apply (owns_perm _ _ _ Ho). by rewrite Hp'.
Qed.

(** One space against the others. *)
Lemma world_focus (s : paging A) v w rest :
  world_ok s (v :: w) rest <->
  exists others, world_claims w others /\ Forall (live_ok s) w /\ kernel_slots_ok (g_pml4 (tables s)) /\
    space_ok s (live_space v) (live_tree v) (live_block v :: others ++ rest).
Proof.
  split.
  - intros ((bs & Hc & Ho) & Hl & Hk). inversion Hc as [|? ? b others Hb Hw]; subst. apply Forall_cons in Hl as [[Ht Hp] Hl].
    exists others. split; [done|]. split; [done|]. split; [done|]. split; [done|]. split; [|done]. exists b. split; [done|].
    apply (owns_perm _ _ _ Ho). cbn [app]. rewrite <- app_assoc. by rewrite <- Permutation_middle.
  - intros (others & Hw & Hl & Hk & Ht & (b & Hb & Ho) & Hp). split; [|split; [by constructor|done]].
    exists (live_block v :: b ++ others). split; [by constructor|]. apply (owns_perm _ _ _ Ho). cbn [app].
    rewrite <- app_assoc. by rewrite <- Permutation_middle.
Qed.

(** The pages of the others are kept. *)
Definition others_kept (s s' : paging A) (w : list live) : Prop :=
  forall v q, v ∈ w -> user_page (frames s') (live_tree v) q = user_page (frames s) (live_tree v) q.

Lemma frame_pages (s s' : paging A) w others u key c f :
  world_claims w others -> Forall (live_ok s) w -> u ∈ w ->
  (forall c b, b ∈ others -> in_block c b -> frames s' !! c = frames s !! c) ->
  live_tree u !! key = Some (c, f) -> frames s' !! c = frames s !! c.
Proof.
  intros Hw Hl Hu Hfr Hk. destruct (world_claims_in w others u c Hw Hu) as (b & Hb & Hc); [|by apply (Hfr c b)].
  destruct (proj1 (Forall_forall _ _) Hl u Hu) as [_ ->]. by apply (tree_pages_in _ key c f).
Qed.

Lemma live_ok_frame (s s' : paging A) w others :
  world_claims w others -> Forall (live_ok s) w ->
  (forall c b, b ∈ others -> in_block c b -> frames s' !! c = frames s !! c) ->
  tables s' = tables s -> g_nx_enabled s' = g_nx_enabled s -> Forall (live_ok s') w /\ others_kept s s' w.
Proof.
  intros Hw Hl Hfr Et En.
  assert (Hkeep : forall u, u ∈ w -> forall key c f, live_tree u !! key = Some (c, f) -> frames s' !! c = frames s !! c).
  { intros u Hu key c f. by apply (frame_pages s s' w others). }
  split.
  - apply Forall_forall. intros u Hu. destruct (proj1 (Forall_forall _ _) Hl u Hu) as [Ht Hp].
    split; [|done]. rewrite Et, En. apply (tree_ok_frame _ _ (frames s)); [done|by apply Hkeep].
  - intros u q Hu. by apply user_page_frame, Hkeep.
Qed.

(** A step of one space is a step of the world. *)
Lemma world_step (s s' : paging A) (space space' : paging_address_space) (nodes nodes' : tree) (z : Z) w others rest :
  world_claims w others -> Forall (live_ok s) w -> kernel_slots_ok (g_pml4 (tables s)) ->
  space_step ((self space, z) :: others ++ rest) s space s' space' nodes' ->
  world_ok s' ((space', nodes', z) :: w) rest /\ others_kept s s' w.
Proof.
  intros Hw Hl Hk ((Hfr & Et & _ & En & _) & [Es _] & Hs').
  destruct (live_ok_frame s s' w others Hw Hl) as [Hl' Hkept]; [|done|done|].
  { intros c b Hb. apply Hfr. right. apply elem_of_app. by left. }
  split; [|done]. apply world_focus. exists others. split; [done|]. split; [done|]. split; [by rewrite Et|].
  unfold live_block, live_space. cbn [fst snd]. by rewrite Es.
Qed.

Lemma world_create (s : paging A) w rest :
  world_ok s w rest ->
  exists space s', paging_address_space_create addresses s = Some (space, s') /\
    others_kept s s' w /\ tables s' = tables s /\
    match space with
    | None => world_ok s' w rest
    | Some space => exists z, world_ok s' ((space, empty_tree (pml4 space), z) :: w) rest
    end.
Proof.
  intros ((bs & Hw & Ho) & Hl & Hk).
  destruct (paging_address_space_create_spec addresses s (bs ++ rest) Ho Hk) as (space & s' & -> & (Hfr & Et & _ & En & _) & Hsp).
  destruct (live_ok_frame s s' w bs Hw Hl) as [Hl' Hkept]; [|done|done|].
  { intros c b Hb. apply Hfr. apply elem_of_app. by left. }
  exists space, s'. split; [done|]. split; [done|]. split; [done|]. destruct space as [space|].
  - destruct Hsp as (_ & z & Hsp). exists z. apply world_focus. exists bs. split; [done|]. split; [done|]. split; [by rewrite Et|done].
  - split; [by exists bs|]. split; [done|]. by rewrite Et.
Qed.

Lemma world_destroy (s : paging A) v w rest :
  world_ok s (v :: w) rest ->
  exists s', paging_address_space_destroy addresses (Some (live_space v)) s = Some s' /\ world_ok s' w rest /\
    others_kept s s' w /\ tables s' = tables s.
Proof.
  intros (others & Hw & Hl & Hk & Hs)%world_focus. pose proof Hs as (_ & Hown & _).
  destruct (paging_address_space_destroy_spec addresses s (live_space v) (live_tree v) v.2 (others ++ rest) Hs)
    as (s' & E & Ho & Hfr & Et & Hnx & _).
  exists s'. split; [exact E|].
  destruct (live_ok_frame s s' w others Hw Hl) as [Hl' Hkept]; [|done|done|].
  { intros c b Hb. apply Hfr. apply elem_of_app. by left. }
  split; [|done]. split; [by exists others|]. split; [done|]. by rewrite Et.
Qed.

(** ** Requests *)

(** What the kernel asks of the [i]-th live space. *)
Inductive space_request :=
| CreateSpace
| MapUser (i : nat) (address size : Z) (writable executable : bool)
| UnmapUser (i : nat) (address size : Z)
| CopyToUser (i : nat) (address : Z) (bytes : list Z)
| InitializeUser (i : nat) (address : Z) (bytes : list Z)
| ActivateSpace (i : nat)
| DestroySpace (i : nat).

Definition request_target (r : space_request) : option nat :=
  match r with
  | CreateSpace => None
  | MapUser i _ _ _ _ | UnmapUser i _ _ | CopyToUser i _ _ | InitializeUser i _ _ | ActivateSpace i | DestroySpace i => Some i
  end.

Definition request_ok (r : space_request) : Prop :=
  match r with
  | MapUser _ a n _ _ | UnmapUser _ a n => 0 <= a /\ 0 <= n
  | CopyToUser _ a bytes | InitializeUser _ a bytes => 0 <= a /\ bytes_ok bytes
  | _ => True
  end.

(** The state, and the live spaces. *)
Abbreviation machine := (paging A * list paging_address_space)%type.

Definition on_live (i : nat) (m : machine) (f : paging_address_space -> option machine) : option machine :=
  match m.2 !! i with None => Some m | Some space => f space end.

Definition run_request (r : space_request) (m : machine) : option machine :=
  match r with
  | CreateSpace =>
      '(space, s) ← paging_address_space_create addresses m.1;
      Some (s, match space with Some space => space :: m.2 | None => m.2 end)
  | MapUser i a n w x => on_live i m (fun space =>
      '(_, space, s) ← paging_user_map_anonymous (Some space) a n w x m.1; space ← space; Some (s, <[i := space]> m.2))
  | UnmapUser i a n => on_live i m (fun space =>
      '(_, space, s) ← paging_user_unmap_anonymous (Some space) a n m.1; space ← space; Some (s, <[i := space]> m.2))
  | CopyToUser i a bytes => on_live i m (fun space =>
      '(_, s) ← paging_copy_to_user (Some space) a (Some bytes) (Z.of_nat (length bytes)) m.1; Some (s, m.2))
  | InitializeUser i a bytes => on_live i m (fun space =>
      '(_, s) ← paging_initialize_user_memory (Some space) a (Some bytes) (Z.of_nat (length bytes)) m.1; Some (s, m.2))
  | ActivateSpace i => on_live i m (fun space => Some (paging_activate addresses (Some space) m.1, m.2))
  | DestroySpace i => on_live i m (fun space =>
      s ← paging_address_space_destroy addresses (Some space) m.1; Some (s, delete i m.2))
  end.

Fixpoint run_requests (rs : list space_request) (m : machine) : option machine :=
  match rs with
  | [] => Some m
  | r :: rs => m ← run_request r m; run_requests rs m
  end.

(** The spaces that the request is not for stay, with their pages. *)
Definition isolated (r : space_request) (s s' : paging A) (w w' : list live) : Prop :=
  forall j v, w !! j = Some v -> request_target r <> Some j ->
    v ∈ w' /\ forall q, user_page (frames s') (live_tree v) q = user_page (frames s) (live_tree v) q.

Lemma split_at (w : list live) i v : w !! i = Some v -> exists l1 l2, w = l1 ++ v :: l2 /\ i = length l1.
Proof.
  intros Hi. exists (take i w), (drop (S i) w). split; [symmetry; by apply take_drop_middle|].
  rewrite length_take. apply lookup_lt_Some in Hi. lia.
Qed.

Lemma insert_at {B} (l1 l2 : list B) v v' : <[length l1 := v']> (l1 ++ v :: l2) = l1 ++ v' :: l2.
Proof. rewrite <- (Nat.add_0_r (length l1)). by rewrite insert_app_r. Qed.

Lemma live_map_insert (l1 l2 : list live) v v' :
  <[length l1 := live_space v']> (live_space <$> (l1 ++ v :: l2)) = live_space <$> (l1 ++ v' :: l2).
Proof. by rewrite <- list_fmap_insert, insert_at. Qed.

(** The world with the [i]-th space in front, and back. *)
Lemma isolated_at r s s' l1 l2 v mid :
  request_target r = Some (length l1) -> others_kept s s' (l1 ++ l2) -> isolated r s s' (l1 ++ v :: l2) (l1 ++ mid ++ l2).
Proof.
  intros Hr Hk j u Hj Hne. assert (Hu : u ∈ l1 ++ l2).
  { apply elem_of_app. destruct (decide (j < length l1)%nat) as [Hlt|Hge].
    - rewrite lookup_app_l in Hj by done. left. by apply list_elem_of_lookup_2 in Hj.
    - rewrite lookup_app_r in Hj by lia. destruct (j - length l1)%nat as [|k] eqn:E; cbn in Hj; [|right; by apply list_elem_of_lookup_2 in Hj].
      destruct Hne. rewrite Hr. f_equal. lia. }
  split; [|intros q; by apply Hk]. apply elem_of_app. apply elem_of_app in Hu as [?|?]; [by left|right]. apply elem_of_app. by right.
Qed.

Lemma step_at r s s' l1 l2 v v' rest others :
  request_target r = Some (length l1) ->
  world_claims (l1 ++ l2) others -> Forall (live_ok s) (l1 ++ l2) -> kernel_slots_ok (g_pml4 (tables s)) ->
  space_step (live_block v :: others ++ rest) s (live_space v) s' (live_space v') (live_tree v') -> v'.2 = v.2 ->
  world_ok s' (l1 ++ v' :: l2) rest /\ isolated r s s' (l1 ++ v :: l2) (l1 ++ v' :: l2).
Proof.
  intros Hr Hw Hl Hk Hst Ez. destruct v as [[sp n] z], v' as [[sp' n'] z']. cbn [snd] in Ez. subst z'.
  destruct (world_step s s' sp sp' n n' z (l1 ++ l2) others rest Hw Hl Hk Hst) as [Hok Hkept].
  split; [|by apply (isolated_at r s s' l1 l2 (sp, n, z) [(sp', n', z)])].
  apply (world_ok_perm _ _ _ _ Hok). apply Permutation_middle.
Qed.

(** A copy of no bytes does nothing; others are those of PagingCopy. *)
Lemma copy_request (s : paging A) space nodes rest a bytes w :
  space_ok s space nodes rest -> 0 <= a -> bytes_ok bytes ->
  exists ok s', copy_to_user_internal (Some space) a (Some bytes) (Z.of_nat (length bytes)) w s = Some (ok, s') /\
    space_step rest s space s' space nodes.
Proof.
  intros Hs Ha Hb. destruct (decide (bytes = [])) as [->|Hne]; [by exists true, s|].
  assert (0 < length bytes)%nat by (destruct bytes; cbn; [done|lia]).
  destruct (copy_to_user_internal_spec s space nodes rest a bytes (Z.of_nat (length bytes)) w Hs Ha) as (ok & s' & E & _ & Hst);
    [lia|done|]. exists ok, s'. split; [done|]. destruct ok; [by destruct Hst|]. by subst s'.
Qed.

Lemma request_spec r (s : paging A) w rest :
  world_ok s w rest -> request_ok r ->
  exists s' w', run_request r (s, live_space <$> w) = Some (s', live_space <$> w') /\ world_ok s' w' rest /\ isolated r s s' w w'.
Proof.
  intros Hw Hr.
  assert (Hat : forall i, request_target r = Some i -> forall f,
    (forall l1 l2 v others, w = l1 ++ v :: l2 -> i = length l1 -> world_claims (l1 ++ l2) others -> Forall (live_ok s) (l1 ++ l2) ->
       kernel_slots_ok (g_pml4 (tables s)) -> space_ok s (live_space v) (live_tree v) (live_block v :: others ++ rest) ->
       exists s' w', f (live_space v) = Some (s', live_space <$> w') /\ world_ok s' w' rest /\ isolated r s s' w w') ->
    exists s' w', on_live i (s, live_space <$> w) f = Some (s', live_space <$> w') /\ world_ok s' w' rest /\ isolated r s s' w w').
  { intros i Hi f Hf. unfold on_live. cbn [snd]. rewrite list_lookup_fmap. destruct (w !! i) as [v|] eqn:E; cbn [fmap option_fmap option_map].
    - destruct (split_at w i v E) as (l1 & l2 & -> & ->).
      assert (Hw' : world_ok s (v :: l1 ++ l2) rest) by (apply (world_ok_perm _ _ _ _ Hw); by rewrite Permutation_middle).
      apply world_focus in Hw' as (others & H1 & H2 & H3 & H4). by apply (Hf l1 l2 v others).
    - exists s, w. split; [done|]. split; [done|]. intros j u Hu _. split; [by apply list_elem_of_lookup_2 in Hu|done]. }
  destruct r as [|i a n wr x|i a n|i a bytes|i a bytes|i|i]; cbn [run_request fst snd].
  - destruct (world_create s w rest Hw) as (space & s' & -> & Hk & _ & Hsp). rewrite some_bind. cbn [snd].
    destruct space as [space|].
    + destruct Hsp as (z & Hsp). exists s', ((space, empty_tree (pml4 space), z) :: w). split; [done|]. split; [done|].
      intros j v Hj _. split; [right; by apply list_elem_of_lookup_2 in Hj|]. intros q. apply Hk. by apply list_elem_of_lookup_2 in Hj.
    + exists s', w. split; [done|]. split; [done|]. intros j v Hj _. apply list_elem_of_lookup_2 in Hj. split; [done|]. intros q. by apply Hk.
  - apply (Hat i eq_refl). intros l1 l2 v others -> -> H1 H2 H3 H4. destruct Hr as [Ha Hn].
    destruct (map_anonymous_spec s _ _ _ a n wr x H4 Ha Hn) as (ok & sp & s' & n' & E & Hst & _).
    cbn [paging_user_map_anonymous on_space fst snd]. unfold paging_user_map_anonymous, on_space. rewrite E, !some_bind.
    exists s', (l1 ++ (sp, n', v.2) :: l2). split; [by rewrite <- (live_map_insert l1 l2 v (sp, n', v.2))|].
    by apply (step_at _ s s' l1 l2 v (sp, n', v.2) rest others).
  - apply (Hat i eq_refl). intros l1 l2 v others -> -> H1 H2 H3 H4. destruct Hr as [Ha Hn].
    destruct (unmap_anonymous_spec s _ _ _ a n H4 Ha Hn) as (ok & sp & s' & n' & E & Hst & _).
    cbn [fst snd]. unfold paging_user_unmap_anonymous, on_space. rewrite E, !some_bind.
    exists s', (l1 ++ (sp, n', v.2) :: l2). split; [by rewrite <- (live_map_insert l1 l2 v (sp, n', v.2))|].
    by apply (step_at _ s s' l1 l2 v (sp, n', v.2) rest others).
  - apply (Hat i eq_refl). intros l1 l2 v others -> -> H1 H2 H3 H4. destruct Hr as [Ha Hn].
    destruct (copy_request s _ _ _ a bytes true H4 Ha Hn) as (ok & s' & E & Hst).
    cbn [fst snd]. unfold paging_copy_to_user. rewrite E, some_bind. exists s', (l1 ++ v :: l2). split; [done|].
    by apply (step_at _ s s' l1 l2 v v rest others).
  - apply (Hat i eq_refl). intros l1 l2 v others -> -> H1 H2 H3 H4. destruct Hr as [Ha Hn].
    destruct (copy_request s _ _ _ a bytes false H4 Ha Hn) as (ok & s' & E & Hst).
    cbn [fst snd]. unfold paging_initialize_user_memory. rewrite E, some_bind. exists s', (l1 ++ v :: l2). split; [done|].
    by apply (step_at _ s s' l1 l2 v v rest others).
  - apply (Hat i eq_refl). intros l1 l2 v others -> -> H1 H2 H3 H4. cbn [fst snd].
    exists (paging_activate addresses (Some (live_space v)) s), (l1 ++ v :: l2). split; [done|]. split; [exact Hw|].
    intros j u Hu _. split; [by apply list_elem_of_lookup_2 in Hu|done].
  - apply (Hat i eq_refl). intros l1 l2 v others -> -> H1 H2 H3 H4. cbn [fst snd].
    destruct (world_destroy s v (l1 ++ l2) rest) as (s' & -> & Hok & Hk & _).
    { apply (world_ok_perm _ _ _ _ Hw). by rewrite Permutation_middle. }
    rewrite some_bind. exists s', (l1 ++ l2). split; [|split; [done|by apply (isolated_at _ s s' l1 l2 v [])]].
    do 2 f_equal. by rewrite <- list_fmap_delete, delete_middle.
Qed.

Lemma run_requests_spec rs : forall (s : paging A) w rest,
  world_ok s w rest -> Forall request_ok rs ->
  exists s' w', run_requests rs (s, live_space <$> w) = Some (s', live_space <$> w') /\ world_ok s' w' rest.
Proof.
  induction rs as [|r rs IH]; intros s w rest Hw Hrs; cbn [run_requests]; [by exists s, w|].
  apply Forall_cons in Hrs as [Hr Hrs]. destruct (request_spec r s w rest Hw Hr) as (s1 & w1 & -> & Hw1 & _). rewrite some_bind.
  by apply IH.
Qed.

End World.

(** * kernel/paging.c: its properties

    The theorems about the kernel's map, user mappings, user copies and the
    address spaces together, each with a concrete run over the kernel heap. *)

(** ** A concrete machine *)

Definition demo_addresses : table_addresses :=
  TableAddresses 0x100000 0x101000 0x102000 0x103000 (fun k => 0x104000 + 0x1000 * Z.of_nat k) (fun k => 0x10c000 + 0x1000 * Z.of_nat k).

(** A megabyte of heap, the static tables, nothing mapped. *)
Definition demo_heap : heap := heap_init 0x800000 0x100000 (Heap ∅ 0 0 0 0 0 syslog_boot).
Definition demo_reset : paging heap := Paging demo_heap ∅ static_tables false false 0.

(** A framebuffer of 1024 x 768 pixels that straddles two gigabytes. *)
Definition demo_boot_info : option BootInfo := Some (MkBootInfo 1024 768 4096 32 0xbff00000 0 24 0).
Definition demo_cpu : cpu := Cpu 0x80000008 (2 ^ 20).

Lemma demo_addresses_ok : addresses_ok demo_addresses.
Proof.
  split; [by apply (bool_decide_unpack _); vm_compute|]. repeat constructor; by apply page_address_aligned.
Qed.

Lemma demo_heap_owns : heap_owns demo_heap [].
Proof.
  exists [Block 0x800000 (0x100000 - 48) true]. split; [|by split].
  apply (heap_init_spec 0x800000 0x100000 0x800000 0x100000); [lia|lia|lia|by vm_compute|lia].
Qed.

Lemma demo_boot_info_ok : boot_info_ok demo_boot_info.
Proof. cbn. lia. Qed.

Lemma demo_fits : framebuffer_fits demo_boot_info.
Proof. right. split_and!; [by vm_compute|by vm_compute|by vm_compute|]. by apply (bool_decide_unpack _); vm_compute. Qed.

Lemma decide_union (q r : Z) (G : gset Z) : bool_decide (r ∈ {[q]} ∪ G) = if decide (r = q) then true else bool_decide (r ∈ G).
Proof.
  destruct (decide (r = q)) as [->|Hne].
  - apply bool_decide_eq_true_2, elem_of_union. left. by apply elem_of_singleton.
  - apply bool_decide_ext. rewrite elem_of_union, elem_of_singleton. tauto.
Qed.

Lemma decide_difference (q r : Z) (G : gset Z) : bool_decide (r ∈ G ∖ {[q]}) = if decide (r = q) then false else bool_decide (r ∈ G).
Proof.
  destruct (decide (r = q)) as [->|Hne].
  - apply bool_decide_eq_false_2. rewrite elem_of_difference, elem_of_singleton. tauto.
  - apply bool_decide_ext. rewrite elem_of_difference, elem_of_singleton. tauto.
Qed.

(** ** The kernel's map *)

Section Kernel.
Context {A : Type} `{AllocatorLaws A} (addresses : table_addresses) (Hadr : addresses_ok addresses).

(** C18: [paging_init] always returns; it halts the system exactly for a framebuffer that does not fit the
    first 512 GiB or two directories.  Otherwise the processor's walk from the new CR3 is, at every address
    below 512 GiB, the identity on the first gigabyte and on the huge pages of the framebuffer, writable and
    for the kernel only, not executable on the heap when the processor has NX, and nothing anywhere else. *)
Theorem paging_init_identity boot_info (c : cpu) (s : paging A) :
  boot_info_ok boot_info -> tables s = static_tables -> g_nx_enabled s = false ->
  exists ok s', paging_init addresses boot_info c s = Some (ok, s') /\
    (ok = true <-> framebuffer_fits boot_info) /\
    (ok = true -> g_paging_ready s' = true /\ forall a, 0 <= a < 2 ^ 39 ->
       translate addresses (tables s') (cr3 s') a =
       kernel_view (cpu_has_nx c) ∅ (framebuffer_range boot_info).1 (framebuffer_range boot_info).2 a).
Proof.
  intros Hboot Hst Hnx. destruct (init_kernel_ok addresses boot_info c s Hboot Hst Hnx Hadr) as (ok & s' & -> & Hok & Hs).
  exists ok, s'. split; [done|]. split; [done|]. intros Ht. destruct (Hs Ht) as (Hko & En & -> & _). split; [apply Hko|].
  intros a Ha. rewrite (kernel_ok_translate _ _ _ _ _ _ Hadr Hko Ha). by rewrite En.
Qed.

(** C19: the guard pages are a set: guarding a page adds it, removing the guard takes it out, and a
    refused call changes nothing; exactly the aligned pages of the low image (but page zero) and of the heap
    can be guarded.  A guarded page is the only hole that appears in the
    kernel's map, and the rights of every other page stay what they were. *)
Theorem kernel_guard_pages (p : Z) (G : gset Z) first_byte last_byte (s : paging A) :
  0 <= p < 2 ^ 64 -> kernel_ok addresses s G first_byte last_byte ->
  exists ok s1 s2, paging_kernel_guard_page p s = Some (ok, s1) /\ paging_kernel_unguard_page p s = Some (ok, s2) /\
    (ok = true <-> p mod 4096 = 0 /\ guardable (p / 4096)) /\
    kernel_ok addresses s1 (if ok then {[p / 4096]} ∪ G else G) first_byte last_byte /\
    kernel_ok addresses s2 (if ok then G ∖ {[p / 4096]} else G) first_byte last_byte /\
    forall a, 0 <= a < 2 ^ 39 ->
      translate addresses (tables s1) (pml4_address addresses) a =
        (if ok && (a / 4096 =? p / 4096) && (a <? 2 ^ 30) then None else translate addresses (tables s) (pml4_address addresses) a).
Proof.
  intros Hp Hko.
  destruct (guard_operation_ok addresses p (has_any PAGE_PRESENT) (fun e => Z.ldiff e PAGE_PRESENT) true G ({[p / 4096]} ∪ G) first_byte last_byte s Hp Hko)
    as (ok & s1 & E1 & Hok & Hk1 & _ & _ & _ & En1).
  { intros nxq gq q. apply guard_word. }
  { intros r. apply decide_union. }
  { intros q. rewrite elem_of_union, elem_of_singleton. tauto. }
  destruct (guard_operation_ok addresses p (fun e => negb (has_any PAGE_PRESENT e)) (fun e => Z.lor e (Z.lor PAGE_PRESENT PAGE_RW)) false
    G (G ∖ {[p / 4096]}) first_byte last_byte s Hp Hko) as (ok2 & s2 & E2 & Hok2 & Hk2 & _).
  { intros nxq gq q. apply unguard_word. }
  { intros r. apply decide_difference. }
  { intros q. rewrite elem_of_difference. tauto. }
  assert (ok2 = ok) as -> by (apply eq_true_iff_eq; tauto).
  exists ok, s1, s2. split; [exact E1|]. split; [exact E2|]. split; [done|]. split; [done|]. split; [done|].
  intros a Ha. rewrite (kernel_ok_translate _ _ _ _ _ _ Hadr Hk1 Ha), (kernel_ok_translate _ _ _ _ _ _ Hadr Hko Ha), En1.
  unfold kernel_view. destruct ok; cbn [andb]; [|done]. destruct (Z.ltb_spec a (2 ^ 30)); [|by rewrite andb_false_r].
  rewrite andb_true_r. destruct (Z.eqb_spec (a / 4096) (p / 4096)) as [->|Hne].
  { rewrite decide_True; [done|]. apply elem_of_union. left. by apply elem_of_singleton. }
  destruct (decide (a / 4096 ∈ G)) as [Hin|Hin].
  - rewrite decide_True; [done|]. apply elem_of_union. by right.
  - rewrite decide_False; [done|]. by intros [?%elem_of_singleton|?]%elem_of_union.
Qed.

End Kernel.

Lemma demo_init :
  exists s, paging_init demo_addresses demo_boot_info demo_cpu demo_reset = Some (true, s) /\
    kernel_ok demo_addresses s ∅ 0xbff00000 0xc01fffff /\ g_nx_enabled s = true /\ world_ok s [] [].
Proof.
  destruct (init_kernel_ok demo_addresses demo_boot_info demo_cpu demo_reset demo_boot_info_ok eq_refl eq_refl demo_addresses_ok)
    as (ok & s & E & Hok & Hs).
  assert (ok = true) as -> by apply Hok, demo_fits.
  destruct (Hs eq_refl) as (Hko & En & _ & Hown). exists s. split; [exact E|]. split; [exact Hko|]. split; [exact En|].
  split; [|split; [constructor|exact (ko_pml4 _ _ _ _ _ Hko)]]. exists []. split; [constructor|]. apply Hown, demo_heap_owns.
Qed.

Lemma paging_init_identity_witness :
  exists s, paging_init demo_addresses demo_boot_info demo_cpu demo_reset = Some (true, s) /\
    translate demo_addresses (tables s) (cr3 s) 0x800123 = Some (Translation 0x800123 true false false) /\
    translate demo_addresses (tables s) (cr3 s) 0xc0000000 = Some (Translation 0xc0000000 true false true) /\
    translate demo_addresses (tables s) (cr3 s) 0xd0000000 = None.
Proof.
  destruct (paging_init_identity demo_addresses demo_addresses_ok demo_boot_info demo_cpu demo_reset demo_boot_info_ok eq_refl eq_refl)
    as (ok & s & E & Hok & Hs).
  assert (ok = true) as -> by apply Hok, demo_fits.
  destruct (Hs eq_refl) as (_ & Ht). exists s. split; [exact E|].
  rewrite !Ht by lia. split; [by vm_compute|]. split; by vm_compute.
Defined.

Lemma demo_guardable : 0x900000 mod 4096 = 0 /\ guardable (0x900000 / 4096).
Proof. split; [done|]. right. by vm_compute. Qed.

Lemma kernel_guard_pages_witness :
  exists s s1, paging_init demo_addresses demo_boot_info demo_cpu demo_reset = Some (true, s) /\
    paging_kernel_guard_page 0x900000 s = Some (true, s1) /\
    translate demo_addresses (tables s1) (pml4_address demo_addresses) 0x900fff = None /\
    translate demo_addresses (tables s1) (pml4_address demo_addresses) 0x901000 = Some (Translation 0x901000 true false false).
Proof.
  destruct demo_init as (s & E & Hko & En & _). exists s.
  destruct (kernel_guard_pages demo_addresses demo_addresses_ok 0x900000 ∅ 0xbff00000 0xc01fffff s) as (ok & s1 & s2 & E1 & _ & Hok & _ & _ & Ht);
    [lia|exact Hko|].
  assert (ok = true) as -> by apply Hok, demo_guardable.
  exists s1. split; [exact E|]. split; [exact E1|]. rewrite !Ht by lia. split; [reflexivity|].
  rewrite (kernel_ok_translate _ _ _ _ _ _ demo_addresses_ok Hko) by lia. rewrite En. vm_compute. reflexivity.
Defined.

(** A started machine with one space. *)
Definition demo_started : paging heap := Paging demo_heap ∅ static_tables true true 0x100000.

Definition demo_create : option (option paging_address_space * paging heap) :=
  paging_address_space_create demo_addresses demo_started.
Definition demo_space : paging_address_space :=
  match demo_create with Some (Some space, _) => space | _ => PagingAddressSpace NULL NULL [] end.
Definition demo_state : paging heap := match demo_create with Some (_, s) => s | None => demo_started end.

Lemma demo_started_owns : owns (allocator demo_started) [].
Proof. exact demo_heap_owns. Qed.

Lemma static_slots_ok : kernel_slots_ok (g_pml4 static_tables).
Proof. split; [done|]. split; [|done]. apply Forall_replicate. lia. Qed.

Lemma demo_create_eq : demo_create = Some (Some demo_space, demo_state).
Proof.
  assert (Hc : match demo_create with Some (Some _, _) => true | _ => false end = true) by (vm_compute; reflexivity).
  unfold demo_space, demo_state. destruct demo_create as [[[sp|] s]|]; [reflexivity|discriminate Hc|discriminate Hc].
Qed.

(** They are computed with [vm_compute] only. *)
#[global] Opaque demo_create demo_space demo_state.

Lemma demo_space_ok : exists size, space_ok demo_state demo_space (empty_tree (pml4 demo_space)) [(self demo_space, size)].
Proof.
  destruct (paging_address_space_create_spec demo_addresses demo_started [] demo_started_owns static_slots_ok) as (sp & s & E & _ & Hsp).
  pose proof (eq_trans (eq_sym E) demo_create_eq) as E'.
  apply (inj Some), pair_eq in E' as [-> ->].
  destruct Hsp as (_ & size & Hsp). exists size. exact Hsp.
Qed.

(** ** User memory *)

Section User.
Context {A : Type} `{AllocatorLaws A}.

(** C16: mapping a user range returns in every state, and is exact: on success the range is aligned user
    memory that held no page at all, and now holds zeroed pages with the rights asked for (not
    executable unless asked, when the processor has NX) and every other user page is what it was; on failure,
    be it a bad range, a page in the way, or memory that ran out half way, every user page is what it was.
    The space goes on owning exactly the pages of its tree. *)
Theorem user_map_exact (s : paging A) space nodes rest address size writable executable :
  space_ok s space nodes rest -> 0 <= address -> 0 <= size ->
  exists ok space' s' nodes',
    paging_user_map_anonymous (Some space) address size writable executable s = Some (ok, Some space', s') /\
    space_step rest s space s' space' nodes' /\
    (if (ok : bool)
     then page_range_ok address size = true /\
       (forall q, address / 4096 <= q < (address + size) / 4096 -> user_page (frames s) nodes q = None) /\
       forall q, user_page (frames s') nodes' q =
         if decide (address / 4096 <= q < (address + size) / 4096)
         then Some (zeros PAGE_SIZE, frame_flags writable executable (g_nx_enabled s))
         else user_page (frames s) nodes q
     else forall q, user_page (frames s') nodes' q = user_page (frames s) nodes q).
Proof.
  intros Hs Ha Hn. destruct (map_anonymous_spec s space nodes rest address size writable executable Hs Ha Hn)
    as (ok & sp & s' & n' & E & Hst & Hres).
  exists ok, sp, s', n'. unfold paging_user_map_anonymous, on_space. rewrite E, some_bind. split; [done|]. split; [done|].
  destruct ok; [|done]. destruct Hres as (Hr & Hnone & Hu). split; [done|].
  apply page_range_spec in Hr as (_ & _ & Hm & _); [|done|done].
  rewrite prefix_page in *. rewrite (range_end address size) by done. by split.
Qed.

(** unmapping succeeds exactly for an aligned user range whose pages are all mapped, and then takes out
    these pages and no other; a refused request changes nothing at all. *)
Theorem user_unmap_exact (s : paging A) space nodes rest address size :
  space_ok s space nodes rest -> 0 <= address -> 0 <= size ->
  exists ok space' s' nodes',
    paging_user_unmap_anonymous (Some space) address size s = Some (ok, Some space', s') /\
    space_step rest s space s' space' nodes' /\
    (ok = true <-> page_range_ok address size = true /\
       forall q, address / 4096 <= q < (address + size) / 4096 -> is_Some (user_page (frames s) nodes q)) /\
    (if (ok : bool)
     then forall q, user_page (frames s') nodes' q =
       if decide (address / 4096 <= q < (address + size) / 4096) then None else user_page (frames s) nodes q
     else s' = s /\ space' = space).
Proof.
  intros Hs Ha Hn. destruct (unmap_anonymous_spec s space nodes rest address size Hs Ha Hn) as (ok & sp & s' & n' & E & Hst & Hok & Hres).
  exists ok, sp, s', n'. unfold paging_user_unmap_anonymous, on_space. rewrite E, some_bind. split; [done|]. split; [done|].
  rewrite prefix_page in *. assert (0 <= size / 4096) by (apply Z.div_pos; lia). split.
  - rewrite Hok. split; intros [Hr Hm]; (split; [done|]); apply page_range_spec in Hr as (_ & _ & Hsz & _); try done;
      (eapply all_mapped_range || rewrite all_mapped_range in Hm); try done; by rewrite <- (range_end address size) in *.
  - destruct ok; [|by destruct Hres as (? & ? & _)].
    destruct (proj1 Hok eq_refl) as [Hr _]. apply page_range_spec in Hr as (_ & _ & Hsz & _); [|done|done].
    rewrite (range_end address size) by done. exact Hres.
Qed.

(** C17: what is copied to user memory is what a later copy from it returns, byte for byte, and no other byte
    of the space changes; the copy is done exactly when the whole range is mapped user memory, writable
    unless the kernel initialises it, and a refused copy changes nothing. *)
Theorem user_copy_roundtrip (s : paging A) space nodes rest address bytes d (initialize : bool) :
  space_ok s space nodes rest -> 0 <= address -> bytes_ok bytes -> (0 < length bytes <= length d)%nat ->
  let copy := if initialize then paging_initialize_user_memory else paging_copy_to_user in
  let n := Z.of_nat (length bytes) in
  exists ok s', copy (Some space) address (Some bytes) n s = Some (ok, s') /\
    (ok = true <-> range_accessible nodes (negb initialize) address n) /\
    space_step rest s space s' space nodes /\
    if (ok : bool)
    then paging_copy_from_user (Some space) (Some d) address n s' = Some (true, Some (bytes ++ drop (length bytes) d)) /\
      (forall x, 0 <= x -> ~ (address <= x < address + n) -> user_byte (frames s') nodes x = user_byte (frames s) nodes x)
    else s' = s.
Proof.
  intros Hs Ha Hb Hl copy n.
  destruct (copy_to_user_internal_spec s space nodes rest address bytes n (negb initialize) Hs Ha) as (ok & s' & E & Hok & Hres);
    [lia|done|]. exists ok, s'. split; [by destruct initialize|]. split; [done|].
  destruct ok; [|by subst s']. destruct Hres as [Hst Hu]. split; [done|]. pose proof Hst as (_ & _ & Hs').
  unfold n in Hu. rewrite Nat2Z.id, firstn_all in Hu. split.
  - destruct (paging_copy_from_user_spec s' space nodes rest address n d Hs' Ha) as (ok2 & d' & -> & Hok2 & Hres2); [lia|].
    assert (ok2 = true) as ->.
    { apply Hok2. destruct (proj1 Hok eq_refl) as (Hlo & Hhi & Hx). split; [done|]. split; [done|].
      intros x Hr. destruct (Hx x Hr) as (c & f & Hn & _). by exists c, f. }
    destruct Hres2 as (out & [Hlo Hout] & ->). unfold n. rewrite Nat2Z.id. do 4 f_equal.
    apply list_eq. intros i. destruct (decide (i < length bytes)%nat) as [Hi|Hi].
    + specialize (Hout (Z.of_nat i) ltac:(lia)). rewrite Nat2Z.id in Hout. rewrite Hout, Hu, decide_True by lia. f_equal. lia.
    + rewrite !lookup_ge_None_2 by lia. done.
  - intros x Hx Hr. rewrite Hu by done. by rewrite decide_False.
Qed.

End User.

Definition demo_base : Z := 0x10000000000.

Definition demo_mapped : option (bool * option paging_address_space * paging heap) :=
  paging_user_map_anonymous (Some demo_space) demo_base 0x2000 true false demo_state.

Lemma demo_mapped_true : (fun r => r.1.1) <$> demo_mapped = Some true.
Proof. vm_compute. reflexivity. Qed.

Lemma demo_first_page : demo_base / 4096 <= demo_base / 4096 < (demo_base + 0x2000) / 4096.
Proof. by apply (bool_decide_unpack _); vm_compute. Qed.

Lemma user_map_exact_witness :
  exists space s nodes, demo_mapped = Some (true, Some space, s) /\
    user_page (frames s) nodes (demo_base / 4096 + 1) = Some (zeros PAGE_SIZE, frame_flags true false true).
Proof.
  destruct demo_space_ok as (size & Hs).
  destruct (user_map_exact demo_state demo_space _ _ demo_base 0x2000 true false Hs) as (ok & sp & s & n & E & _ & Hres); [vm_compute; discriminate|lia|].
  pose proof demo_mapped_true as Ht. unfold demo_mapped in *. rewrite E in Ht. injection Ht as ->.
  destruct Hres as (_ & _ & Hu). exists sp, s, n. split; [exact E|]. rewrite Hu. vm_compute. reflexivity.
Defined.

Lemma user_unmap_exact_witness :
  exists space s nodes, demo_mapped = Some (true, Some space, s) /\
    exists space' s' nodes', paging_user_unmap_anonymous (Some space) demo_base 0x2000 s = Some (true, Some space', s') /\
      user_page (frames s) nodes (demo_base / 4096) <> None /\ user_page (frames s') nodes' (demo_base / 4096) = None.
Proof.
  destruct demo_space_ok as (size & Hs).
  destruct (user_map_exact demo_state demo_space _ _ demo_base 0x2000 true false Hs) as (ok & sp & s & n & E & Hst & Hres); [vm_compute; discriminate|lia|].
  pose proof demo_mapped_true as Ht. unfold demo_mapped in *. rewrite E in Ht. injection Ht as ->.
  destruct Hres as (Hr & _ & Hu). destruct Hst as (_ & _ & Hs1). exists sp, s, n. split; [exact E|].
  destruct (user_unmap_exact s sp n _ demo_base 0x2000 Hs1) as (ok & sp' & s' & n' & E' & _ & Hok & Hres'); [vm_compute; discriminate|lia|].
  assert (ok = true) as ->.
  { apply Hok. split; [exact Hr|]. intros q Hq. rewrite Hu, decide_True by exact Hq. by eexists. }
  exists sp', s', n'. split; [exact E'|]. rewrite Hu, Hres', !decide_True by exact demo_first_page.
  split; [discriminate|reflexivity].
Defined.

Lemma user_copy_roundtrip_witness :
  exists space s s', demo_mapped = Some (true, Some space, s) /\
    paging_copy_to_user (Some space) (demo_base + 0xffe) (Some (cs "code")) 4 s = Some (true, s') /\
    paging_copy_from_user (Some space) (Some (zeros 6)) (demo_base + 0xffe) 4 s' = Some (true, Some (cs "code" ++ [0; 0])).
Proof.
  destruct demo_space_ok as (size & Hs).
  destruct (user_map_exact demo_state demo_space _ _ demo_base 0x2000 true false Hs) as (ok & sp & s & n & E & Hst & Hres); [vm_compute; discriminate|lia|].
  pose proof demo_mapped_true as Ht. unfold demo_mapped in *. rewrite E in Ht. injection Ht as ->.
  destruct Hres as (_ & _ & Hu). destruct Hst as (_ & _ & Hs1). exists sp, s.
  destruct (user_copy_roundtrip s sp n _ (demo_base + 0xffe) (cs "code") (zeros 6) false Hs1) as (ok & s' & E' & Hok & _ & Hres');
    [vm_compute; discriminate|apply cs_bytes_ok|split; vm_compute; repeat constructor|].
  assert (ok = true) as ->.
  { apply Hok. split; [vm_compute; discriminate|]. split; [vm_compute; discriminate|]. intros a Ha.
    change (Z.of_nat (length (cs "code"))) with 4 in Ha. unfold demo_base in Ha.
    assert (Hp : user_page (frames s) n (prefix 0 a) = Some (zeros PAGE_SIZE, frame_flags true false true)).
    { rewrite Hu, decide_True; [reflexivity|]. rewrite prefix_page. unfold demo_base.
      change ((0x10000000000 + 0x2000) / 4096) with 0x10000002. change (0x10000000000 / 4096) with 0x10000000.
      split; [apply Z.div_le_lower_bound; lia|apply Z.div_lt_upper_bound; lia]. }
    apply (user_page_accessible _ _ _ _ _ _ Hp). reflexivity. }
  exists s'. split; [exact E|]. split; [exact E'|]. exact (proj1 Hres').
Defined.

(** ** All the address spaces *)

Section Spaces.
Context {A : Type} `{AllocatorLaws A} (addresses : table_addresses).

(** C15: the kernel can always create, map, unmap, fill, activate and destroy address spaces, in any order, for as
    many of them as memory allows: no request faults, every space stays a sound tree of its own pages over
    the kernel's entries, a request leaves every other space and every byte it maps as they were, and when
    the last space is destroyed every block it took from the allocator is back. *)
Theorem address_spaces_isolated r (s : paging A) w rest :
  world_ok s w rest -> request_ok r ->
  exists s' w', run_request addresses r (s, live_space <$> w) = Some (s', live_space <$> w') /\
    world_ok s' w' rest /\ isolated r s s' w w' /\ (w' = [] -> owns (allocator s') rest).
Proof.
  intros Hw Hr. destruct (request_spec addresses r s w rest Hw Hr) as (s' & w' & E & Hw' & Hi).
  exists s', w'. split; [exact E|]. split; [exact Hw'|]. split; [exact Hi|]. intros ->.
  destruct Hw' as ((bs & Hc & Ho) & _). by inversion Hc; subst.
Qed.

End Spaces.

Lemma address_spaces_isolated_witness :
  exists s s' w, paging_init demo_addresses demo_boot_info demo_cpu demo_reset = Some (true, s) /\
    run_request demo_addresses CreateSpace (s, []) = Some (s', live_space <$> w) /\ world_ok s' w [].
Proof.
  destruct demo_init as (s & E & _ & _ & Hw).
  destruct (address_spaces_isolated demo_addresses CreateSpace s [] [] Hw I) as (s' & w & Er & Hw' & _).
  exists s, s', w. split; [exact E|]. split; [exact Er|exact Hw'].
Defined.

(** Two spaces; a page of code for the first; it is destroyed. *)
Definition demo_requests : list space_request :=
  [CreateSpace; CreateSpace; MapUser 0 0x10000000000 0x2000 true false; InitializeUser 0 0x10000000ffe (cs "code");
   UnmapUser 0 0x10000001000 0x1000; DestroySpace 0].

Lemma demo_world :
  exists s s' w, paging_init demo_addresses demo_boot_info demo_cpu demo_reset = Some (true, s) /\
    run_requests demo_addresses demo_requests (s, []) = Some (s', live_space <$> w) /\ world_ok s' w [].
Proof.
  destruct demo_init as (s & E & _ & _ & Hw).
  destruct (run_requests_spec demo_addresses demo_requests s [] [] Hw) as (s' & w & Er & Hw').
  { repeat constructor; cbn; lia || apply cs_bytes_ok. }
  exists s, s', w. split; [exact E|]. split; [exact Er|exact Hw'].
Qed.
