(* ===== verification/NetState.v ===== *)
(** * kernel/net.c: constants, the structs of net.h, and the stack monad

    The IPv4 stack keeps everything in one [struct net_stack]; the driver and
    the handlers of UDP ports and TCP are callbacks.  A definition that can
    call them is a computation of the monad [NM] below, over the stack and an
    abstract world [W]; [None] is an access outside a buffer. *)

From S2P Require Import Prelude.

(** ** Constants *)

Definition NET_ETHERNET_ADDRESS_SIZE : Z := 6.
Definition NET_ETHERNET_HEADER_SIZE : Z := 14.
Definition NET_ETHERNET_MTU : Z := 1500.
Definition NET_ETHERNET_FRAME_MAX : Z := (NET_ETHERNET_HEADER_SIZE + NET_ETHERNET_MTU).
Definition NET_IPV4_HEADER_MIN_SIZE : Z := 20.
Definition NET_IPV4_PAYLOAD_MAX : Z := (NET_ETHERNET_MTU - NET_IPV4_HEADER_MIN_SIZE).
Definition NET_UDP_PAYLOAD_MAX : Z := (NET_IPV4_PAYLOAD_MAX - 8).
Definition NET_ARP_CACHE_SIZE : Z := 8.
Definition NET_UDP_BINDING_COUNT : Z := 8.
Definition NET_DNS_NAME_MAX : Z := 253.
Definition NET_DNS_CACHE_SIZE : Z := 8.
Definition NET_DNS_NEGATIVE_TTL_MAX_SECONDS : Z := 60.
Definition NET_IPV4_PROTOCOL_ICMP : Z := 1.
Definition NET_IPV4_PROTOCOL_TCP : Z := 6.
Definition NET_IPV4_PROTOCOL_UDP : Z := 17.
Definition ETHERTYPE_IPV4 : Z := 0x0800.
Definition ETHERTYPE_ARP : Z := 0x0806.
Definition ARP_HARDWARE_ETHERNET : Z := 1.
Definition ARP_OPERATION_REQUEST : Z := 1.
Definition ARP_OPERATION_REPLY : Z := 2.
Definition ARP_PACKET_SIZE : Z := 28.
Definition IPV4_VERSION_IHL : Z := 0x45.
Definition IPV4_DEFAULT_TTL : Z := 64.
Definition IPV4_FLAG_DONT_FRAGMENT : Z := 0x4000.
Definition ICMP_ECHO_REPLY : Z := 0.
Definition ICMP_ECHO_REQUEST : Z := 8.
Definition DHCP_CLIENT_PORT : Z := 68.
Definition DHCP_SERVER_PORT : Z := 67.
Definition DHCP_FIXED_SIZE : Z := 240.
Definition DHCP_PACKET_CAPACITY : Z := 576.
Definition DHCP_MAGIC_COOKIE : Z := 0x63825363.
Definition DHCP_MESSAGE_DISCOVER : Z := 1.
Definition DHCP_MESSAGE_OFFER : Z := 2.
Definition DHCP_MESSAGE_REQUEST : Z := 3.
Definition DHCP_MESSAGE_ACK : Z := 5.
Definition DHCP_MESSAGE_NAK : Z := 6.
Definition DHCP_OPTION_PAD : Z := 0.
Definition DHCP_OPTION_SUBNET_MASK : Z := 1.
Definition DHCP_OPTION_ROUTER : Z := 3.
Definition DHCP_OPTION_DNS : Z := 6.
Definition DHCP_OPTION_REQUESTED_IP : Z := 50.
Definition DHCP_OPTION_LEASE_TIME : Z := 51.
Definition DHCP_OPTION_MESSAGE_TYPE : Z := 53.
Definition DHCP_OPTION_SERVER_IDENTIFIER : Z := 54.
Definition DHCP_OPTION_PARAMETER_REQUEST : Z := 55.
Definition DHCP_OPTION_MAXIMUM_SIZE : Z := 57.
Definition DHCP_OPTION_RENEWAL_TIME : Z := 58.
Definition DHCP_OPTION_REBIND_TIME : Z := 59.
Definition DHCP_OPTION_CLIENT_IDENTIFIER : Z := 61.
Definition DHCP_OPTION_END : Z := 255.
Definition DNS_SERVER_PORT : Z := 53.
Definition DNS_HEADER_SIZE : Z := 12.
Definition DNS_TYPE_A : Z := 1.
Definition DNS_TYPE_CNAME : Z := 5.
Definition DNS_TYPE_SOA : Z := 6.
Definition DNS_CLASS_IN : Z := 1.
Definition DNS_FLAG_RECURSION_DESIRED : Z := 0x0100.
Definition DNS_FLAG_RESPONSE : Z := 0x8000.
Definition DNS_FLAG_TRUNCATED : Z := 0x0200.
Definition DNS_QUERY_CAPACITY : Z := (DNS_HEADER_SIZE + NET_DNS_NAME_MAX + 6).
Definition DNS_MAX_CNAME_HOPS : Z := 8.
Definition ARP_ENTRY_LIFETIME_MS : Z := 120000.
Definition ARP_RETRY_INTERVAL_MS : Z := 1000.
Definition ARP_MAX_ATTEMPTS : Z := 3.
Definition DHCP_RETRY_BASE_MS : Z := 4000.
Definition DHCP_DEFAULT_LEASE_SECONDS : Z := 3600.
Definition DNS_RETRY_INTERVAL_MS : Z := 2000.
Definition DNS_MAX_ATTEMPTS : Z := 3.
Definition ICMP_ECHO_TIMEOUT_MS : Z := 10000.
Definition NET_POLL_BUDGET : Z := 32.

(** The macro of net.h for addresses written [a.b.c.d]. *)
Definition NET_IPV4 (a b c d : Z) : Z :=
  Z.lor (Z.lor (Z.lor (u32 (Z.shiftl (Z.land a 0xFF) 24)) (u32 (Z.shiftl (Z.land b 0xFF) 16)))
    (u32 (Z.shiftl (Z.land c 0xFF) 8))) (Z.land d 0xFF).

(** Unfold the constants, for arithmetic. *)
Ltac net_consts :=
  cbv delta [NET_ETHERNET_ADDRESS_SIZE NET_ETHERNET_HEADER_SIZE NET_ETHERNET_MTU NET_ETHERNET_FRAME_MAX
    NET_IPV4_HEADER_MIN_SIZE NET_IPV4_PAYLOAD_MAX NET_UDP_PAYLOAD_MAX NET_ARP_CACHE_SIZE
    NET_UDP_BINDING_COUNT NET_DNS_NAME_MAX NET_DNS_CACHE_SIZE NET_DNS_NEGATIVE_TTL_MAX_SECONDS
    NET_IPV4_PROTOCOL_ICMP NET_IPV4_PROTOCOL_TCP NET_IPV4_PROTOCOL_UDP ETHERTYPE_IPV4 ETHERTYPE_ARP
    ARP_HARDWARE_ETHERNET ARP_OPERATION_REQUEST ARP_OPERATION_REPLY ARP_PACKET_SIZE IPV4_VERSION_IHL
    IPV4_DEFAULT_TTL IPV4_FLAG_DONT_FRAGMENT ICMP_ECHO_REPLY ICMP_ECHO_REQUEST DHCP_CLIENT_PORT
    DHCP_SERVER_PORT DHCP_FIXED_SIZE DHCP_PACKET_CAPACITY DHCP_MAGIC_COOKIE DHCP_MESSAGE_DISCOVER
    DHCP_MESSAGE_OFFER DHCP_MESSAGE_REQUEST DHCP_MESSAGE_ACK DHCP_MESSAGE_NAK DHCP_OPTION_PAD
    DHCP_OPTION_SUBNET_MASK DHCP_OPTION_ROUTER DHCP_OPTION_DNS DHCP_OPTION_REQUESTED_IP
    DHCP_OPTION_LEASE_TIME DHCP_OPTION_MESSAGE_TYPE DHCP_OPTION_SERVER_IDENTIFIER
    DHCP_OPTION_PARAMETER_REQUEST DHCP_OPTION_MAXIMUM_SIZE DHCP_OPTION_RENEWAL_TIME
    DHCP_OPTION_REBIND_TIME DHCP_OPTION_CLIENT_IDENTIFIER DHCP_OPTION_END DNS_SERVER_PORT
    DNS_HEADER_SIZE DNS_TYPE_A DNS_TYPE_CNAME DNS_TYPE_SOA DNS_CLASS_IN DNS_FLAG_RECURSION_DESIRED
    DNS_FLAG_RESPONSE DNS_FLAG_TRUNCATED DNS_QUERY_CAPACITY DNS_MAX_CNAME_HOPS ARP_ENTRY_LIFETIME_MS
    ARP_RETRY_INTERVAL_MS ARP_MAX_ATTEMPTS DHCP_RETRY_BASE_MS DHCP_DEFAULT_LEASE_SECONDS
    DNS_RETRY_INTERVAL_MS DNS_MAX_ATTEMPTS ICMP_ECHO_TIMEOUT_MS NET_POLL_BUDGET] in *.

(** ** Enumerations *)

Inductive net_send_result := NET_SEND_FAILED | NET_SEND_SENT | NET_SEND_QUEUED.

Inductive net_dhcp_state :=
  | NET_DHCP_OFF | NET_DHCP_DISCOVERING | NET_DHCP_REQUESTING | NET_DHCP_BOUND | NET_DHCP_RENEWING
  | NET_DHCP_REBINDING.

Inductive net_dns_state :=
  | NET_DNS_IDLE | NET_DNS_PENDING | NET_DNS_RESOLVED | NET_DNS_NOT_FOUND | NET_DNS_TIMED_OUT
  | NET_DNS_MALFORMED_RESPONSE | NET_DNS_SERVER_ERROR.

Inductive net_dns_cache_entry_kind := NET_DNS_CACHE_POSITIVE | NET_DNS_CACHE_NEGATIVE.

Inductive dns_answer_search_result := DNS_ANSWER_NOT_FOUND | DNS_ANSWER_ADDRESS | DNS_ANSWER_MALFORMED.

#[global] Instance net_send_result_eq_dec : EqDecision net_send_result.
Proof. solve_decision. Defined.
#[global] Instance net_dhcp_state_eq_dec : EqDecision net_dhcp_state.
Proof. solve_decision. Defined.
#[global] Instance net_dns_state_eq_dec : EqDecision net_dns_state.
Proof. solve_decision. Defined.
#[global] Instance dns_answer_search_result_eq_dec : EqDecision dns_answer_search_result.
Proof. solve_decision. Defined.

(** ** Structs *)

(** [struct net_link_ops]: which of the callbacks are not NULL. *)
Record net_link_ops := NetLinkOps {
  has_send : bool;
  has_poll : bool;
  has_now_ms : bool;
}.

(** [struct net_ipv4_config]; its field [dns] is called [dns_server] here. *)
Record net_ipv4_config := NetIpv4Config {
  address : Z;
  netmask : Z;
  gateway : Z;
  dns_server : Z;
}.

(** [struct net_stats]. *)
Record net_stats := NetStats {
  frames_received : Z;
  frames_transmitted : Z;
  frames_dropped : Z;
  arp_requests_sent : Z;
  arp_replies_received : Z;
  ipv4_packets_received : Z;
  ipv4_packets_transmitted : Z;
  icmp_echo_requests_received : Z;
  icmp_echo_replies_received : Z;
  udp_datagrams_received : Z;
  udp_datagrams_transmitted : Z;
}.

(** [struct net_arp_entry]. *)
Record net_arp_entry := NetArpEntry {
  arp_valid : bool;
  arp_ip : Z;
  arp_mac : list Z;
  refreshed_ms : Z;
}.

(** [struct net_udp_binding]; a handler is the address of its function. *)
Record net_udp_binding := NetUdpBinding {
  binding_port : Z;
  binding_handler : option Z;
  binding_context : Z;
}.

(** [struct net_pending_ipv4]. *)
Record net_pending_ipv4 := NetPendingIpv4 {
  pending_valid : bool;
  pending_destination_ip : Z;
  next_hop_ip : Z;
  pending_protocol : Z;
  pending_payload_size : Z;
  pending_payload : list Z;
  arp_requested_ms : Z;
  arp_attempts : Z;
  transmit_attempts : Z;
}.

(** [struct net_dhcp_client]. *)
Record net_dhcp_client := NetDhcpClient {
  dhcp_state : net_dhcp_state;
  dhcp_transaction_id : Z;
  offered_ip : Z;
  server_ip : Z;
  offered_netmask : Z;
  offered_gateway : Z;
  offered_dns : Z;
  lease_seconds : Z;
  renewal_seconds : Z;
  rebind_seconds : Z;
  lease_started_ms : Z;
  dhcp_next_action_ms : Z;
  dhcp_attempts : Z;
}.

(** [struct net_dns_client]. *)
Record net_dns_client := NetDnsClient {
  dns_state : net_dns_state;
  dns_name : list Z;
  dns_transaction_id : Z;
  dns_source_port : Z;
  result_address : Z;
  dns_ttl_seconds : Z;
  dns_response_code : Z;
  dns_next_action_ms : Z;
  dns_attempts : Z;
}.

(** [struct net_dns_cache_entry]. *)
Record net_dns_cache_entry := NetDnsCacheEntry {
  cache_valid : bool;
  cache_negative : bool;
  cache_name : list Z;
  cache_address : Z;
  cache_response_code : Z;
  expires_ms : Z;
  last_used_ms : Z;
}.

(** [struct net_echo_request]. *)
Record net_echo_request := NetEchoRequest {
  echo_pending : bool;
  echo_destination_ip : Z;
  echo_identifier : Z;
  echo_sequence : Z;
  echo_sent_ms : Z;
}.

(** [struct net_icmp_echo_reply]. *)
Record net_icmp_echo_reply := NetIcmpEchoReply {
  reply_valid : bool;
  reply_source_ip : Z;
  reply_identifier : Z;
  reply_sequence : Z;
  round_trip_ms : Z;
  reply_payload_size : Z;
}.

(** [struct net_stack] without [transmit_frame]: every function that sends builds
    the frame there from scratch and hands it to the driver, which must copy it
    before it returns; the model passes the frame as a value. *)
Record net_stack := NetStack {
  link : net_link_ops;
  mac : list Z;
  ipv4 : net_ipv4_config;
  next_ipv4_id : Z;
  current_time_ms : Z;
  arp : list net_arp_entry;
  udp_bindings : list net_udp_binding;
  pending_ipv4 : net_pending_ipv4;
  dhcp : net_dhcp_client;
  dns : net_dns_client;
  dns_cache : list net_dns_cache_entry;
  dns_cache_hits : Z;
  dns_cache_misses : Z;
  dns_cache_evictions : Z;
  dns_cache_expirations : Z;
  tcp_handler : option Z;
  tcp_handler_context : Z;
  echo_request : net_echo_request;
  echo_reply : net_icmp_echo_reply;
  stats : net_stats;
  receive_frame : list Z;
}.

(** [struct net_udp_datagram]; [data] and [data_size] are the bytes. *)
Record net_udp_datagram := NetUdpDatagram {
  datagram_source_ip : Z;
  datagram_destination_ip : Z;
  datagram_source_port : Z;
  datagram_destination_port : Z;
  datagram_data : list Z;
}.

(** [struct net_dns_result]. *)
Record net_dns_result := NetDnsResult {
  res_state : net_dns_state;
  res_address : Z;
  res_ttl_seconds : Z;
  res_response_code : Z;
}.

(** [struct net_dns_cache_entry_info]. *)
Record net_dns_cache_entry_info := NetDnsCacheEntryInfo {
  info_name : list Z;
  info_kind : net_dns_cache_entry_kind;
  info_address : Z;
  remaining_ttl_seconds : Z;
  info_response_code : Z;
}.

(** [struct net_dns_cache_status]. *)
Record net_dns_cache_status := NetDnsCacheStatus {
  status_capacity : Z;
  status_entries : Z;
  positive_entries : Z;
  negative_entries : Z;
  status_hits : Z;
  status_misses : Z;
  status_evictions : Z;
  status_expirations : Z;
}.

(** [struct dhcp_options]: a [has_] flag and its value are an option. *)
Record dhcp_options := DhcpOptions {
  opt_message_type : option Z;
  opt_subnet_mask : option Z;
  opt_router : option Z;
  opt_dns : option Z;
  opt_server_identifier : option Z;
  opt_lease_time : option Z;
  opt_renewal_time : option Z;
  opt_rebind_time : option Z;
}.

(** [struct dns_record_view]. *)
Record dns_record_view := DnsRecordView {
  owner_offset : Z;
  data_offset : Z;
  next_offset : Z;
  record_type : Z;
  record_class : Z;
  data_size : Z;
  record_ttl_seconds : Z;
}.

(** ** Field updates *)

Definition set_frames_received (v : Z) (s : net_stats) : net_stats :=
    NetStats v (frames_transmitted s) (frames_dropped s) (arp_requests_sent s) (arp_replies_received s)
    (ipv4_packets_received s) (ipv4_packets_transmitted s) (icmp_echo_requests_received s)
    (icmp_echo_replies_received s) (udp_datagrams_received s) (udp_datagrams_transmitted s).
Definition set_frames_transmitted (v : Z) (s : net_stats) : net_stats :=
    NetStats (frames_received s) v (frames_dropped s) (arp_requests_sent s) (arp_replies_received s)
    (ipv4_packets_received s) (ipv4_packets_transmitted s) (icmp_echo_requests_received s)
    (icmp_echo_replies_received s) (udp_datagrams_received s) (udp_datagrams_transmitted s).
Definition set_frames_dropped (v : Z) (s : net_stats) : net_stats :=
    NetStats (frames_received s) (frames_transmitted s) v (arp_requests_sent s) (arp_replies_received s)
    (ipv4_packets_received s) (ipv4_packets_transmitted s) (icmp_echo_requests_received s)
    (icmp_echo_replies_received s) (udp_datagrams_received s) (udp_datagrams_transmitted s).
Definition set_arp_requests_sent (v : Z) (s : net_stats) : net_stats :=
    NetStats (frames_received s) (frames_transmitted s) (frames_dropped s) v (arp_replies_received s)
    (ipv4_packets_received s) (ipv4_packets_transmitted s) (icmp_echo_requests_received s)
    (icmp_echo_replies_received s) (udp_datagrams_received s) (udp_datagrams_transmitted s).
Definition set_arp_replies_received (v : Z) (s : net_stats) : net_stats :=
    NetStats (frames_received s) (frames_transmitted s) (frames_dropped s) (arp_requests_sent s) v
    (ipv4_packets_received s) (ipv4_packets_transmitted s) (icmp_echo_requests_received s)
    (icmp_echo_replies_received s) (udp_datagrams_received s) (udp_datagrams_transmitted s).
Definition set_ipv4_packets_received (v : Z) (s : net_stats) : net_stats :=
    NetStats (frames_received s) (frames_transmitted s) (frames_dropped s) (arp_requests_sent s)
    (arp_replies_received s) v (ipv4_packets_transmitted s) (icmp_echo_requests_received s)
    (icmp_echo_replies_received s) (udp_datagrams_received s) (udp_datagrams_transmitted s).
Definition set_ipv4_packets_transmitted (v : Z) (s : net_stats) : net_stats :=
    NetStats (frames_received s) (frames_transmitted s) (frames_dropped s) (arp_requests_sent s)
    (arp_replies_received s) (ipv4_packets_received s) v (icmp_echo_requests_received s)
    (icmp_echo_replies_received s) (udp_datagrams_received s) (udp_datagrams_transmitted s).
Definition set_icmp_echo_requests_received (v : Z) (s : net_stats) : net_stats :=
    NetStats (frames_received s) (frames_transmitted s) (frames_dropped s) (arp_requests_sent s)
    (arp_replies_received s) (ipv4_packets_received s) (ipv4_packets_transmitted s) v
    (icmp_echo_replies_received s) (udp_datagrams_received s) (udp_datagrams_transmitted s).
Definition set_icmp_echo_replies_received (v : Z) (s : net_stats) : net_stats :=
    NetStats (frames_received s) (frames_transmitted s) (frames_dropped s) (arp_requests_sent s)
    (arp_replies_received s) (ipv4_packets_received s) (ipv4_packets_transmitted s)
    (icmp_echo_requests_received s) v (udp_datagrams_received s) (udp_datagrams_transmitted s).
Definition set_udp_datagrams_received (v : Z) (s : net_stats) : net_stats :=
    NetStats (frames_received s) (frames_transmitted s) (frames_dropped s) (arp_requests_sent s)
    (arp_replies_received s) (ipv4_packets_received s) (ipv4_packets_transmitted s)
    (icmp_echo_requests_received s) (icmp_echo_replies_received s) v (udp_datagrams_transmitted s).
Definition set_udp_datagrams_transmitted (v : Z) (s : net_stats) : net_stats :=
    NetStats (frames_received s) (frames_transmitted s) (frames_dropped s) (arp_requests_sent s)
    (arp_replies_received s) (ipv4_packets_received s) (ipv4_packets_transmitted s)
    (icmp_echo_requests_received s) (icmp_echo_replies_received s) (udp_datagrams_received s) v.
Definition set_arp_valid (v : bool) (s : net_arp_entry) : net_arp_entry :=
    NetArpEntry v (arp_ip s) (arp_mac s) (refreshed_ms s).
Definition set_pending_valid (v : bool) (s : net_pending_ipv4) : net_pending_ipv4 :=
    NetPendingIpv4 v (pending_destination_ip s) (next_hop_ip s) (pending_protocol s) (pending_payload_size
    s) (pending_payload s) (arp_requested_ms s) (arp_attempts s) (transmit_attempts s).
Definition set_arp_requested_ms (v : Z) (s : net_pending_ipv4) : net_pending_ipv4 :=
    NetPendingIpv4 (pending_valid s) (pending_destination_ip s) (next_hop_ip s) (pending_protocol s)
    (pending_payload_size s) (pending_payload s) v (arp_attempts s) (transmit_attempts s).
Definition set_arp_attempts (v : Z) (s : net_pending_ipv4) : net_pending_ipv4 :=
    NetPendingIpv4 (pending_valid s) (pending_destination_ip s) (next_hop_ip s) (pending_protocol s)
    (pending_payload_size s) (pending_payload s) (arp_requested_ms s) v (transmit_attempts s).
Definition set_transmit_attempts (v : Z) (s : net_pending_ipv4) : net_pending_ipv4 :=
    NetPendingIpv4 (pending_valid s) (pending_destination_ip s) (next_hop_ip s) (pending_protocol s)
    (pending_payload_size s) (pending_payload s) (arp_requested_ms s) (arp_attempts s) v.
Definition set_dhcp_state (v : net_dhcp_state) (s : net_dhcp_client) : net_dhcp_client :=
    NetDhcpClient v (dhcp_transaction_id s) (offered_ip s) (server_ip s) (offered_netmask s)
    (offered_gateway s) (offered_dns s) (lease_seconds s) (renewal_seconds s) (rebind_seconds s)
    (lease_started_ms s) (dhcp_next_action_ms s) (dhcp_attempts s).
Definition set_dhcp_transaction_id (v : Z) (s : net_dhcp_client) : net_dhcp_client :=
    NetDhcpClient (dhcp_state s) v (offered_ip s) (server_ip s) (offered_netmask s) (offered_gateway s)
    (offered_dns s) (lease_seconds s) (renewal_seconds s) (rebind_seconds s) (lease_started_ms s)
    (dhcp_next_action_ms s) (dhcp_attempts s).
Definition set_offered_ip (v : Z) (s : net_dhcp_client) : net_dhcp_client :=
    NetDhcpClient (dhcp_state s) (dhcp_transaction_id s) v (server_ip s) (offered_netmask s)
    (offered_gateway s) (offered_dns s) (lease_seconds s) (renewal_seconds s) (rebind_seconds s)
    (lease_started_ms s) (dhcp_next_action_ms s) (dhcp_attempts s).
Definition set_server_ip (v : Z) (s : net_dhcp_client) : net_dhcp_client :=
    NetDhcpClient (dhcp_state s) (dhcp_transaction_id s) (offered_ip s) v (offered_netmask s)
    (offered_gateway s) (offered_dns s) (lease_seconds s) (renewal_seconds s) (rebind_seconds s)
    (lease_started_ms s) (dhcp_next_action_ms s) (dhcp_attempts s).
Definition set_offered_netmask (v : Z) (s : net_dhcp_client) : net_dhcp_client :=
    NetDhcpClient (dhcp_state s) (dhcp_transaction_id s) (offered_ip s) (server_ip s) v (offered_gateway s)
    (offered_dns s) (lease_seconds s) (renewal_seconds s) (rebind_seconds s) (lease_started_ms s)
    (dhcp_next_action_ms s) (dhcp_attempts s).
Definition set_offered_gateway (v : Z) (s : net_dhcp_client) : net_dhcp_client :=
    NetDhcpClient (dhcp_state s) (dhcp_transaction_id s) (offered_ip s) (server_ip s) (offered_netmask s) v
    (offered_dns s) (lease_seconds s) (renewal_seconds s) (rebind_seconds s) (lease_started_ms s)
    (dhcp_next_action_ms s) (dhcp_attempts s).
Definition set_offered_dns (v : Z) (s : net_dhcp_client) : net_dhcp_client :=
    NetDhcpClient (dhcp_state s) (dhcp_transaction_id s) (offered_ip s) (server_ip s) (offered_netmask s)
    (offered_gateway s) v (lease_seconds s) (renewal_seconds s) (rebind_seconds s) (lease_started_ms s)
    (dhcp_next_action_ms s) (dhcp_attempts s).
Definition set_lease_seconds (v : Z) (s : net_dhcp_client) : net_dhcp_client :=
    NetDhcpClient (dhcp_state s) (dhcp_transaction_id s) (offered_ip s) (server_ip s) (offered_netmask s)
    (offered_gateway s) (offered_dns s) v (renewal_seconds s) (rebind_seconds s) (lease_started_ms s)
    (dhcp_next_action_ms s) (dhcp_attempts s).
Definition set_renewal_seconds (v : Z) (s : net_dhcp_client) : net_dhcp_client :=
    NetDhcpClient (dhcp_state s) (dhcp_transaction_id s) (offered_ip s) (server_ip s) (offered_netmask s)
    (offered_gateway s) (offered_dns s) (lease_seconds s) v (rebind_seconds s) (lease_started_ms s)
    (dhcp_next_action_ms s) (dhcp_attempts s).
Definition set_rebind_seconds (v : Z) (s : net_dhcp_client) : net_dhcp_client :=
    NetDhcpClient (dhcp_state s) (dhcp_transaction_id s) (offered_ip s) (server_ip s) (offered_netmask s)
    (offered_gateway s) (offered_dns s) (lease_seconds s) (renewal_seconds s) v (lease_started_ms s)
    (dhcp_next_action_ms s) (dhcp_attempts s).
Definition set_lease_started_ms (v : Z) (s : net_dhcp_client) : net_dhcp_client :=
    NetDhcpClient (dhcp_state s) (dhcp_transaction_id s) (offered_ip s) (server_ip s) (offered_netmask s)
    (offered_gateway s) (offered_dns s) (lease_seconds s) (renewal_seconds s) (rebind_seconds s) v
    (dhcp_next_action_ms s) (dhcp_attempts s).
Definition set_dhcp_next_action_ms (v : Z) (s : net_dhcp_client) : net_dhcp_client :=
    NetDhcpClient (dhcp_state s) (dhcp_transaction_id s) (offered_ip s) (server_ip s) (offered_netmask s)
    (offered_gateway s) (offered_dns s) (lease_seconds s) (renewal_seconds s) (rebind_seconds s)
    (lease_started_ms s) v (dhcp_attempts s).
Definition set_dhcp_attempts (v : Z) (s : net_dhcp_client) : net_dhcp_client :=
    NetDhcpClient (dhcp_state s) (dhcp_transaction_id s) (offered_ip s) (server_ip s) (offered_netmask s)
    (offered_gateway s) (offered_dns s) (lease_seconds s) (renewal_seconds s) (rebind_seconds s)
    (lease_started_ms s) (dhcp_next_action_ms s) v.
Definition set_dns_state (v : net_dns_state) (s : net_dns_client) : net_dns_client :=
    NetDnsClient v (dns_name s) (dns_transaction_id s) (dns_source_port s) (result_address s)
    (dns_ttl_seconds s) (dns_response_code s) (dns_next_action_ms s) (dns_attempts s).
Definition set_dns_name (v : list Z) (s : net_dns_client) : net_dns_client :=
    NetDnsClient (dns_state s) v (dns_transaction_id s) (dns_source_port s) (result_address s)
    (dns_ttl_seconds s) (dns_response_code s) (dns_next_action_ms s) (dns_attempts s).
Definition set_dns_transaction_id (v : Z) (s : net_dns_client) : net_dns_client :=
    NetDnsClient (dns_state s) (dns_name s) v (dns_source_port s) (result_address s) (dns_ttl_seconds s)
    (dns_response_code s) (dns_next_action_ms s) (dns_attempts s).
Definition set_dns_source_port (v : Z) (s : net_dns_client) : net_dns_client :=
    NetDnsClient (dns_state s) (dns_name s) (dns_transaction_id s) v (result_address s) (dns_ttl_seconds s)
    (dns_response_code s) (dns_next_action_ms s) (dns_attempts s).
Definition set_result_address (v : Z) (s : net_dns_client) : net_dns_client :=
    NetDnsClient (dns_state s) (dns_name s) (dns_transaction_id s) (dns_source_port s) v (dns_ttl_seconds s)
    (dns_response_code s) (dns_next_action_ms s) (dns_attempts s).
Definition set_dns_ttl_seconds (v : Z) (s : net_dns_client) : net_dns_client :=
    NetDnsClient (dns_state s) (dns_name s) (dns_transaction_id s) (dns_source_port s) (result_address s) v
    (dns_response_code s) (dns_next_action_ms s) (dns_attempts s).
Definition set_dns_response_code (v : Z) (s : net_dns_client) : net_dns_client :=
    NetDnsClient (dns_state s) (dns_name s) (dns_transaction_id s) (dns_source_port s) (result_address s)
    (dns_ttl_seconds s) v (dns_next_action_ms s) (dns_attempts s).
Definition set_dns_next_action_ms (v : Z) (s : net_dns_client) : net_dns_client :=
    NetDnsClient (dns_state s) (dns_name s) (dns_transaction_id s) (dns_source_port s) (result_address s)
    (dns_ttl_seconds s) (dns_response_code s) v (dns_attempts s).
Definition set_dns_attempts (v : Z) (s : net_dns_client) : net_dns_client :=
    NetDnsClient (dns_state s) (dns_name s) (dns_transaction_id s) (dns_source_port s) (result_address s)
    (dns_ttl_seconds s) (dns_response_code s) (dns_next_action_ms s) v.
Definition set_cache_valid (v : bool) (s : net_dns_cache_entry) : net_dns_cache_entry :=
    NetDnsCacheEntry v (cache_negative s) (cache_name s) (cache_address s) (cache_response_code s)
    (expires_ms s) (last_used_ms s).
Definition set_last_used_ms (v : Z) (s : net_dns_cache_entry) : net_dns_cache_entry :=
    NetDnsCacheEntry (cache_valid s) (cache_negative s) (cache_name s) (cache_address s)
    (cache_response_code s) (expires_ms s) v.
Definition set_echo_pending (v : bool) (s : net_echo_request) : net_echo_request :=
    NetEchoRequest v (echo_destination_ip s) (echo_identifier s) (echo_sequence s) (echo_sent_ms s).
Definition set_reply_valid (v : bool) (s : net_icmp_echo_reply) : net_icmp_echo_reply :=
    NetIcmpEchoReply v (reply_source_ip s) (reply_identifier s) (reply_sequence s) (round_trip_ms s)
    (reply_payload_size s).
Definition set_ipv4 (v : net_ipv4_config) (s : net_stack) : net_stack :=
    NetStack (link s) (mac s) v (next_ipv4_id s) (current_time_ms s) (arp s) (udp_bindings s) (pending_ipv4
    s) (dhcp s) (dns s) (dns_cache s) (dns_cache_hits s) (dns_cache_misses s) (dns_cache_evictions s)
    (dns_cache_expirations s) (tcp_handler s) (tcp_handler_context s) (echo_request s) (echo_reply s) (stats
    s) (receive_frame s).
Definition set_next_ipv4_id (v : Z) (s : net_stack) : net_stack :=
    NetStack (link s) (mac s) (ipv4 s) v (current_time_ms s) (arp s) (udp_bindings s) (pending_ipv4 s) (dhcp
    s) (dns s) (dns_cache s) (dns_cache_hits s) (dns_cache_misses s) (dns_cache_evictions s)
    (dns_cache_expirations s) (tcp_handler s) (tcp_handler_context s) (echo_request s) (echo_reply s) (stats
    s) (receive_frame s).
Definition set_current_time_ms (v : Z) (s : net_stack) : net_stack :=
    NetStack (link s) (mac s) (ipv4 s) (next_ipv4_id s) v (arp s) (udp_bindings s) (pending_ipv4 s) (dhcp s)
    (dns s) (dns_cache s) (dns_cache_hits s) (dns_cache_misses s) (dns_cache_evictions s)
    (dns_cache_expirations s) (tcp_handler s) (tcp_handler_context s) (echo_request s) (echo_reply s) (stats
    s) (receive_frame s).
Definition set_arp (v : list net_arp_entry) (s : net_stack) : net_stack :=
    NetStack (link s) (mac s) (ipv4 s) (next_ipv4_id s) (current_time_ms s) v (udp_bindings s) (pending_ipv4
    s) (dhcp s) (dns s) (dns_cache s) (dns_cache_hits s) (dns_cache_misses s) (dns_cache_evictions s)
    (dns_cache_expirations s) (tcp_handler s) (tcp_handler_context s) (echo_request s) (echo_reply s) (stats
    s) (receive_frame s).
Definition set_udp_bindings (v : list net_udp_binding) (s : net_stack) : net_stack :=
    NetStack (link s) (mac s) (ipv4 s) (next_ipv4_id s) (current_time_ms s) (arp s) v (pending_ipv4 s) (dhcp
    s) (dns s) (dns_cache s) (dns_cache_hits s) (dns_cache_misses s) (dns_cache_evictions s)
    (dns_cache_expirations s) (tcp_handler s) (tcp_handler_context s) (echo_request s) (echo_reply s) (stats
    s) (receive_frame s).
Definition set_pending_ipv4 (v : net_pending_ipv4) (s : net_stack) : net_stack :=
    NetStack (link s) (mac s) (ipv4 s) (next_ipv4_id s) (current_time_ms s) (arp s) (udp_bindings s) v (dhcp
    s) (dns s) (dns_cache s) (dns_cache_hits s) (dns_cache_misses s) (dns_cache_evictions s)
    (dns_cache_expirations s) (tcp_handler s) (tcp_handler_context s) (echo_request s) (echo_reply s) (stats
    s) (receive_frame s).
Definition set_dhcp (v : net_dhcp_client) (s : net_stack) : net_stack :=
    NetStack (link s) (mac s) (ipv4 s) (next_ipv4_id s) (current_time_ms s) (arp s) (udp_bindings s)
    (pending_ipv4 s) v (dns s) (dns_cache s) (dns_cache_hits s) (dns_cache_misses s) (dns_cache_evictions s)
    (dns_cache_expirations s) (tcp_handler s) (tcp_handler_context s) (echo_request s) (echo_reply s) (stats
    s) (receive_frame s).
Definition set_dns (v : net_dns_client) (s : net_stack) : net_stack :=
    NetStack (link s) (mac s) (ipv4 s) (next_ipv4_id s) (current_time_ms s) (arp s) (udp_bindings s)
    (pending_ipv4 s) (dhcp s) v (dns_cache s) (dns_cache_hits s) (dns_cache_misses s) (dns_cache_evictions
    s) (dns_cache_expirations s) (tcp_handler s) (tcp_handler_context s) (echo_request s) (echo_reply s)
    (stats s) (receive_frame s).
Definition set_dns_cache (v : list net_dns_cache_entry) (s : net_stack) : net_stack :=
    NetStack (link s) (mac s) (ipv4 s) (next_ipv4_id s) (current_time_ms s) (arp s) (udp_bindings s)
    (pending_ipv4 s) (dhcp s) (dns s) v (dns_cache_hits s) (dns_cache_misses s) (dns_cache_evictions s)
    (dns_cache_expirations s) (tcp_handler s) (tcp_handler_context s) (echo_request s) (echo_reply s) (stats
    s) (receive_frame s).
Definition set_dns_cache_hits (v : Z) (s : net_stack) : net_stack :=
    NetStack (link s) (mac s) (ipv4 s) (next_ipv4_id s) (current_time_ms s) (arp s) (udp_bindings s)
    (pending_ipv4 s) (dhcp s) (dns s) (dns_cache s) v (dns_cache_misses s) (dns_cache_evictions s)
    (dns_cache_expirations s) (tcp_handler s) (tcp_handler_context s) (echo_request s) (echo_reply s) (stats
    s) (receive_frame s).
Definition set_dns_cache_misses (v : Z) (s : net_stack) : net_stack :=
    NetStack (link s) (mac s) (ipv4 s) (next_ipv4_id s) (current_time_ms s) (arp s) (udp_bindings s)
    (pending_ipv4 s) (dhcp s) (dns s) (dns_cache s) (dns_cache_hits s) v (dns_cache_evictions s)
    (dns_cache_expirations s) (tcp_handler s) (tcp_handler_context s) (echo_request s) (echo_reply s) (stats
    s) (receive_frame s).
Definition set_dns_cache_evictions (v : Z) (s : net_stack) : net_stack :=
    NetStack (link s) (mac s) (ipv4 s) (next_ipv4_id s) (current_time_ms s) (arp s) (udp_bindings s)
    (pending_ipv4 s) (dhcp s) (dns s) (dns_cache s) (dns_cache_hits s) (dns_cache_misses s) v
    (dns_cache_expirations s) (tcp_handler s) (tcp_handler_context s) (echo_request s) (echo_reply s) (stats
    s) (receive_frame s).
Definition set_dns_cache_expirations (v : Z) (s : net_stack) : net_stack :=
    NetStack (link s) (mac s) (ipv4 s) (next_ipv4_id s) (current_time_ms s) (arp s) (udp_bindings s)
    (pending_ipv4 s) (dhcp s) (dns s) (dns_cache s) (dns_cache_hits s) (dns_cache_misses s)
    (dns_cache_evictions s) v (tcp_handler s) (tcp_handler_context s) (echo_request s) (echo_reply s) (stats
    s) (receive_frame s).
Definition set_tcp_handler (v : option Z) (s : net_stack) : net_stack :=
    NetStack (link s) (mac s) (ipv4 s) (next_ipv4_id s) (current_time_ms s) (arp s) (udp_bindings s)
    (pending_ipv4 s) (dhcp s) (dns s) (dns_cache s) (dns_cache_hits s) (dns_cache_misses s)
    (dns_cache_evictions s) (dns_cache_expirations s) v (tcp_handler_context s) (echo_request s) (echo_reply
    s) (stats s) (receive_frame s).
Definition set_tcp_handler_context (v : Z) (s : net_stack) : net_stack :=
    NetStack (link s) (mac s) (ipv4 s) (next_ipv4_id s) (current_time_ms s) (arp s) (udp_bindings s)
    (pending_ipv4 s) (dhcp s) (dns s) (dns_cache s) (dns_cache_hits s) (dns_cache_misses s)
    (dns_cache_evictions s) (dns_cache_expirations s) (tcp_handler s) v (echo_request s) (echo_reply s)
    (stats s) (receive_frame s).
Definition set_echo_request (v : net_echo_request) (s : net_stack) : net_stack :=
    NetStack (link s) (mac s) (ipv4 s) (next_ipv4_id s) (current_time_ms s) (arp s) (udp_bindings s)
    (pending_ipv4 s) (dhcp s) (dns s) (dns_cache s) (dns_cache_hits s) (dns_cache_misses s)
    (dns_cache_evictions s) (dns_cache_expirations s) (tcp_handler s) (tcp_handler_context s) v (echo_reply
    s) (stats s) (receive_frame s).
Definition set_echo_reply (v : net_icmp_echo_reply) (s : net_stack) : net_stack :=
    NetStack (link s) (mac s) (ipv4 s) (next_ipv4_id s) (current_time_ms s) (arp s) (udp_bindings s)
    (pending_ipv4 s) (dhcp s) (dns s) (dns_cache s) (dns_cache_hits s) (dns_cache_misses s)
    (dns_cache_evictions s) (dns_cache_expirations s) (tcp_handler s) (tcp_handler_context s) (echo_request
    s) v (stats s) (receive_frame s).
Definition set_stats (v : net_stats) (s : net_stack) : net_stack :=
    NetStack (link s) (mac s) (ipv4 s) (next_ipv4_id s) (current_time_ms s) (arp s) (udp_bindings s)
    (pending_ipv4 s) (dhcp s) (dns s) (dns_cache s) (dns_cache_hits s) (dns_cache_misses s)
    (dns_cache_evictions s) (dns_cache_expirations s) (tcp_handler s) (tcp_handler_context s) (echo_request
    s) (echo_reply s) v (receive_frame s).
Definition set_receive_frame (v : list Z) (s : net_stack) : net_stack :=
    NetStack (link s) (mac s) (ipv4 s) (next_ipv4_id s) (current_time_ms s) (arp s) (udp_bindings s)
    (pending_ipv4 s) (dhcp s) (dns s) (dns_cache s) (dns_cache_hits s) (dns_cache_misses s)
    (dns_cache_evictions s) (dns_cache_expirations s) (tcp_handler s) (tcp_handler_context s) (echo_request
    s) (echo_reply s) (stats s) v.
Definition set_status_entries (v : Z) (s : net_dns_cache_status) : net_dns_cache_status :=
    NetDnsCacheStatus (status_capacity s) v (positive_entries s) (negative_entries s) (status_hits s)
    (status_misses s) (status_evictions s) (status_expirations s).
Definition set_positive_entries (v : Z) (s : net_dns_cache_status) : net_dns_cache_status :=
    NetDnsCacheStatus (status_capacity s) (status_entries s) v (negative_entries s) (status_hits s)
    (status_misses s) (status_evictions s) (status_expirations s).
Definition set_negative_entries (v : Z) (s : net_dns_cache_status) : net_dns_cache_status :=
    NetDnsCacheStatus (status_capacity s) (status_entries s) (positive_entries s) v (status_hits s)
    (status_misses s) (status_evictions s) (status_expirations s).
Definition set_opt_message_type (v : option Z) (s : dhcp_options) : dhcp_options :=
    DhcpOptions v (opt_subnet_mask s) (opt_router s) (opt_dns s) (opt_server_identifier s) (opt_lease_time
    s) (opt_renewal_time s) (opt_rebind_time s).
Definition set_opt_subnet_mask (v : option Z) (s : dhcp_options) : dhcp_options :=
    DhcpOptions (opt_message_type s) v (opt_router s) (opt_dns s) (opt_server_identifier s) (opt_lease_time
    s) (opt_renewal_time s) (opt_rebind_time s).
Definition set_opt_router (v : option Z) (s : dhcp_options) : dhcp_options :=
    DhcpOptions (opt_message_type s) (opt_subnet_mask s) v (opt_dns s) (opt_server_identifier s)
    (opt_lease_time s) (opt_renewal_time s) (opt_rebind_time s).
Definition set_opt_dns (v : option Z) (s : dhcp_options) : dhcp_options :=
    DhcpOptions (opt_message_type s) (opt_subnet_mask s) (opt_router s) v (opt_server_identifier s)
    (opt_lease_time s) (opt_renewal_time s) (opt_rebind_time s).
Definition set_opt_server_identifier (v : option Z) (s : dhcp_options) : dhcp_options :=
    DhcpOptions (opt_message_type s) (opt_subnet_mask s) (opt_router s) (opt_dns s) v (opt_lease_time s)
    (opt_renewal_time s) (opt_rebind_time s).
Definition set_opt_lease_time (v : option Z) (s : dhcp_options) : dhcp_options :=
    DhcpOptions (opt_message_type s) (opt_subnet_mask s) (opt_router s) (opt_dns s) (opt_server_identifier
    s) v (opt_renewal_time s) (opt_rebind_time s).
Definition set_opt_renewal_time (v : option Z) (s : dhcp_options) : dhcp_options :=
    DhcpOptions (opt_message_type s) (opt_subnet_mask s) (opt_router s) (opt_dns s) (opt_server_identifier
    s) (opt_lease_time s) v (opt_rebind_time s).
Definition set_opt_rebind_time (v : option Z) (s : dhcp_options) : dhcp_options :=
    DhcpOptions (opt_message_type s) (opt_subnet_mask s) (opt_router s) (opt_dns s) (opt_server_identifier
    s) (opt_lease_time s) (opt_renewal_time s) v.

(** A field of a component of the stack. *)

Definition upd_pending_ipv4 (g : net_pending_ipv4 -> net_pending_ipv4) (s : net_stack) : net_stack := set_pending_ipv4 (g (pending_ipv4 s)) s.
Definition upd_dhcp (g : net_dhcp_client -> net_dhcp_client) (s : net_stack) : net_stack := set_dhcp (g (dhcp s)) s.
Definition upd_dns (g : net_dns_client -> net_dns_client) (s : net_stack) : net_stack := set_dns (g (dns s)) s.
Definition upd_echo_request (g : net_echo_request -> net_echo_request) (s : net_stack) : net_stack := set_echo_request (g (echo_request s)) s.
Definition upd_echo_reply (g : net_icmp_echo_reply -> net_icmp_echo_reply) (s : net_stack) : net_stack := set_echo_reply (g (echo_reply s)) s.
Definition upd_stats (g : net_stats -> net_stats) (s : net_stack) : net_stack := set_stats (g (stats s)) s.

(** [stats.field++]. *)

Definition count_frames_received : net_stack -> net_stack := upd_stats (fun t => set_frames_received (u64 (frames_received t + 1)) t).
Definition count_frames_transmitted : net_stack -> net_stack := upd_stats (fun t => set_frames_transmitted (u64 (frames_transmitted t + 1)) t).
Definition count_frames_dropped : net_stack -> net_stack := upd_stats (fun t => set_frames_dropped (u64 (frames_dropped t + 1)) t).
Definition count_arp_requests_sent : net_stack -> net_stack := upd_stats (fun t => set_arp_requests_sent (u64 (arp_requests_sent t + 1)) t).
Definition count_arp_replies_received : net_stack -> net_stack := upd_stats (fun t => set_arp_replies_received (u64 (arp_replies_received t + 1)) t).
Definition count_ipv4_packets_received : net_stack -> net_stack := upd_stats (fun t => set_ipv4_packets_received (u64 (ipv4_packets_received t + 1)) t).
Definition count_ipv4_packets_transmitted : net_stack -> net_stack := upd_stats (fun t => set_ipv4_packets_transmitted (u64 (ipv4_packets_transmitted t + 1)) t).
Definition count_icmp_echo_requests_received : net_stack -> net_stack := upd_stats (fun t => set_icmp_echo_requests_received (u64 (icmp_echo_requests_received t + 1)) t).
Definition count_icmp_echo_replies_received : net_stack -> net_stack := upd_stats (fun t => set_icmp_echo_replies_received (u64 (icmp_echo_replies_received t + 1)) t).
Definition count_udp_datagrams_received : net_stack -> net_stack := upd_stats (fun t => set_udp_datagrams_received (u64 (udp_datagrams_received t + 1)) t).
Definition count_udp_datagrams_transmitted : net_stack -> net_stack := upd_stats (fun t => set_udp_datagrams_transmitted (u64 (udp_datagrams_transmitted t + 1)) t).

Ltac net_simpl :=
  cbn [has_send has_poll has_now_ms address netmask gateway dns_server frames_received frames_transmitted
       frames_dropped arp_requests_sent arp_replies_received ipv4_packets_received ipv4_packets_transmitted
       icmp_echo_requests_received icmp_echo_replies_received udp_datagrams_received udp_datagrams_transmitted
       arp_valid arp_ip arp_mac refreshed_ms binding_port binding_handler binding_context pending_valid
       pending_destination_ip next_hop_ip pending_protocol pending_payload_size pending_payload
       arp_requested_ms arp_attempts transmit_attempts dhcp_state dhcp_transaction_id offered_ip server_ip
       offered_netmask offered_gateway offered_dns lease_seconds renewal_seconds rebind_seconds
       lease_started_ms dhcp_next_action_ms dhcp_attempts dns_state dns_name dns_transaction_id dns_source_port
       result_address dns_ttl_seconds dns_response_code dns_next_action_ms dns_attempts cache_valid
       cache_negative cache_name cache_address cache_response_code expires_ms last_used_ms echo_pending
       echo_destination_ip echo_identifier echo_sequence echo_sent_ms reply_valid reply_source_ip
       reply_identifier reply_sequence round_trip_ms reply_payload_size link mac ipv4 next_ipv4_id
       current_time_ms arp udp_bindings pending_ipv4 dhcp dns dns_cache dns_cache_hits dns_cache_misses
       dns_cache_evictions dns_cache_expirations tcp_handler tcp_handler_context echo_request echo_reply stats
       receive_frame datagram_source_ip datagram_destination_ip datagram_source_port datagram_destination_port
       datagram_data res_state res_address res_ttl_seconds res_response_code info_name info_kind info_address
       remaining_ttl_seconds info_response_code status_capacity status_entries positive_entries
       negative_entries status_hits status_misses status_evictions status_expirations opt_message_type
       opt_subnet_mask opt_router opt_dns opt_server_identifier opt_lease_time opt_renewal_time opt_rebind_time
       owner_offset data_offset next_offset record_type record_class data_size record_ttl_seconds
       set_frames_received set_frames_transmitted set_frames_dropped set_arp_requests_sent
       set_arp_replies_received set_ipv4_packets_received set_ipv4_packets_transmitted
       set_icmp_echo_requests_received set_icmp_echo_replies_received set_udp_datagrams_received
       set_udp_datagrams_transmitted set_arp_valid set_pending_valid set_arp_requested_ms set_arp_attempts
       set_transmit_attempts set_dhcp_state set_dhcp_transaction_id set_offered_ip set_server_ip
       set_offered_netmask set_offered_gateway set_offered_dns set_lease_seconds set_renewal_seconds
       set_rebind_seconds set_lease_started_ms set_dhcp_next_action_ms set_dhcp_attempts set_dns_state
       set_dns_name set_dns_transaction_id set_dns_source_port set_result_address set_dns_ttl_seconds
       set_dns_response_code set_dns_next_action_ms set_dns_attempts set_cache_valid set_last_used_ms
       set_echo_pending set_reply_valid set_ipv4 set_next_ipv4_id set_current_time_ms set_arp set_udp_bindings
       set_pending_ipv4 set_dhcp set_dns set_dns_cache set_dns_cache_hits set_dns_cache_misses
       set_dns_cache_evictions set_dns_cache_expirations set_tcp_handler set_tcp_handler_context
       set_echo_request set_echo_reply set_stats set_receive_frame set_status_entries set_positive_entries
       set_negative_entries set_opt_message_type set_opt_subnet_mask set_opt_router set_opt_dns
       set_opt_server_identifier set_opt_lease_time set_opt_renewal_time set_opt_rebind_time upd_pending_ipv4
       upd_dhcp upd_dns upd_echo_request upd_echo_reply upd_stats count_frames_received
       count_frames_transmitted count_frames_dropped count_arp_requests_sent count_arp_replies_received
       count_ipv4_packets_received count_ipv4_packets_transmitted count_icmp_echo_requests_received
       count_icmp_echo_replies_received count_udp_datagrams_received count_udp_datagrams_transmitted].
Tactic Notation "net_simpl" "in" hyp(H) :=
  cbn [has_send has_poll has_now_ms address netmask gateway dns_server frames_received frames_transmitted
       frames_dropped arp_requests_sent arp_replies_received ipv4_packets_received ipv4_packets_transmitted
       icmp_echo_requests_received icmp_echo_replies_received udp_datagrams_received udp_datagrams_transmitted
       arp_valid arp_ip arp_mac refreshed_ms binding_port binding_handler binding_context pending_valid
       pending_destination_ip next_hop_ip pending_protocol pending_payload_size pending_payload
       arp_requested_ms arp_attempts transmit_attempts dhcp_state dhcp_transaction_id offered_ip server_ip
       offered_netmask offered_gateway offered_dns lease_seconds renewal_seconds rebind_seconds
       lease_started_ms dhcp_next_action_ms dhcp_attempts dns_state dns_name dns_transaction_id dns_source_port
       result_address dns_ttl_seconds dns_response_code dns_next_action_ms dns_attempts cache_valid
       cache_negative cache_name cache_address cache_response_code expires_ms last_used_ms echo_pending
       echo_destination_ip echo_identifier echo_sequence echo_sent_ms reply_valid reply_source_ip
       reply_identifier reply_sequence round_trip_ms reply_payload_size link mac ipv4 next_ipv4_id
       current_time_ms arp udp_bindings pending_ipv4 dhcp dns dns_cache dns_cache_hits dns_cache_misses
       dns_cache_evictions dns_cache_expirations tcp_handler tcp_handler_context echo_request echo_reply stats
       receive_frame datagram_source_ip datagram_destination_ip datagram_source_port datagram_destination_port
       datagram_data res_state res_address res_ttl_seconds res_response_code info_name info_kind info_address
       remaining_ttl_seconds info_response_code status_capacity status_entries positive_entries
       negative_entries status_hits status_misses status_evictions status_expirations opt_message_type
       opt_subnet_mask opt_router opt_dns opt_server_identifier opt_lease_time opt_renewal_time opt_rebind_time
       owner_offset data_offset next_offset record_type record_class data_size record_ttl_seconds
       set_frames_received set_frames_transmitted set_frames_dropped set_arp_requests_sent
       set_arp_replies_received set_ipv4_packets_received set_ipv4_packets_transmitted
       set_icmp_echo_requests_received set_icmp_echo_replies_received set_udp_datagrams_received
       set_udp_datagrams_transmitted set_arp_valid set_pending_valid set_arp_requested_ms set_arp_attempts
       set_transmit_attempts set_dhcp_state set_dhcp_transaction_id set_offered_ip set_server_ip
       set_offered_netmask set_offered_gateway set_offered_dns set_lease_seconds set_renewal_seconds
       set_rebind_seconds set_lease_started_ms set_dhcp_next_action_ms set_dhcp_attempts set_dns_state
       set_dns_name set_dns_transaction_id set_dns_source_port set_result_address set_dns_ttl_seconds
       set_dns_response_code set_dns_next_action_ms set_dns_attempts set_cache_valid set_last_used_ms
       set_echo_pending set_reply_valid set_ipv4 set_next_ipv4_id set_current_time_ms set_arp set_udp_bindings
       set_pending_ipv4 set_dhcp set_dns set_dns_cache set_dns_cache_hits set_dns_cache_misses
       set_dns_cache_evictions set_dns_cache_expirations set_tcp_handler set_tcp_handler_context
       set_echo_request set_echo_reply set_stats set_receive_frame set_status_entries set_positive_entries
       set_negative_entries set_opt_message_type set_opt_subnet_mask set_opt_router set_opt_dns
       set_opt_server_identifier set_opt_lease_time set_opt_renewal_time set_opt_rebind_time upd_pending_ipv4
       upd_dhcp upd_dns upd_echo_request upd_echo_reply upd_stats count_frames_received
       count_frames_transmitted count_frames_dropped count_arp_requests_sent count_arp_replies_received
       count_ipv4_packets_received count_ipv4_packets_transmitted count_icmp_echo_requests_received
       count_icmp_echo_replies_received count_udp_datagrams_received count_udp_datagrams_transmitted] in H.

(** ** All-zero structs: what [bytes_zero] leaves *)

Definition zero_arp : list net_arp_entry :=
  replicate (Z.to_nat NET_ARP_CACHE_SIZE) (NetArpEntry false 0 (zeros NET_ETHERNET_ADDRESS_SIZE) 0).
Definition zero_binding : net_udp_binding := NetUdpBinding 0 None 0.
Definition zero_pending : net_pending_ipv4 := NetPendingIpv4 false 0 0 0 0 (zeros NET_IPV4_PAYLOAD_MAX) 0 0 0.
Definition zero_dhcp : net_dhcp_client := NetDhcpClient NET_DHCP_OFF 0 0 0 0 0 0 0 0 0 0 0 0.
Definition zero_name : list Z := zeros (NET_DNS_NAME_MAX + 1).
Definition zero_dns : net_dns_client := NetDnsClient NET_DNS_IDLE zero_name 0 0 0 0 0 0 0.
Definition zero_cache_entry : net_dns_cache_entry := NetDnsCacheEntry false false zero_name 0 0 0 0.
Definition zero_cache : list net_dns_cache_entry := replicate (Z.to_nat NET_DNS_CACHE_SIZE) zero_cache_entry.
Definition zero_reply : net_icmp_echo_reply := NetIcmpEchoReply false 0 0 0 0 0.
Definition zero_config : net_ipv4_config := NetIpv4Config 0 0 0 0.

(** ** The stack monad *)

Definition NM (W A : Type) : Type := net_stack * W -> option (A * (net_stack * W)).

#[global] Instance NM_ret W : MRet (NM W) := fun A a st => Some (a, st).
#[global] Instance NM_bind W : MBind (NM W) := fun A B k m st =>
  match m st with Some (a, st') => k a st' | None => None end.

Definition gets {W A} (f : net_stack -> A) : NM W A := fun st => Some (f st.1, st).
Definition mods {W} (f : net_stack -> net_stack) : NM W unit := fun st => Some (tt, (f st.1, st.2)).
Definition lift {W A} (o : option A) : NM W A := fun st => match o with Some a => Some (a, st) | None => None end.
(** A callback that sees the world only. *)
Definition extern {W A} (f : W -> A * W) : NM W A := fun st => let (a, w) := f st.2 in Some (a, (st.1, w)).
(** A handler: it may call back into the stack. *)
Definition handler {W} (f : net_stack * W -> net_stack * W) : NM W unit := fun st => Some (tt, f st).

(** The callbacks.  [env_send] is given the frame, [env_poll] the receive
    buffer, which it fills; a UDP handler is called with its address and context. *)
Record net_env (W : Type) := NetEnv {
  env_send : list Z -> W -> bool * W;
  env_poll : list Z -> W -> (list Z * Z) * W;
  env_now_ms : W -> Z * W;
  env_udp : Z -> Z -> net_udp_datagram -> net_stack * W -> net_stack * W;
  env_tcp : Z -> Z -> Z -> Z -> list Z -> net_stack * W -> net_stack * W;
}.
#[global] Arguments env_send {W}.
#[global] Arguments env_poll {W}.
#[global] Arguments env_now_ms {W}.
#[global] Arguments env_udp {W}.
#[global] Arguments env_tcp {W}.

(** [nwp m Q st]: [m] runs from [st] to a result and a state that satisfy [Q]. *)
Definition nwp {W A} (m : NM W A) (Q : A -> net_stack * W -> Prop) (st : net_stack * W) : Prop :=
  match m st with Some (a, st') => Q a st' | None => False end.

Section nwp.
  Context {W : Type}.
  Implicit Types st : net_stack * W.

Lemma nwp_ret {A} (a : A) Q st : Q a st -> nwp (mret a) Q st.
Proof. done. Qed.

Lemma nwp_bind {A B} (m : NM W A) (k : A -> NM W B) Q st :
  nwp m (fun a st' => nwp (k a) Q st') st -> nwp (m ≫= k) Q st.
Proof. unfold nwp, mbind, NM_bind. by destruct (m st) as [[a st']|]. Qed.

Lemma nwp_gets {A} (f : net_stack -> A) (Q : A -> net_stack * W -> Prop) st : Q (f st.1) st -> nwp (gets f) Q st.
Proof. done. Qed.

Lemma nwp_mods f (Q : unit -> net_stack * W -> Prop) st : Q tt (f st.1, st.2) -> nwp (mods f) Q st.
Proof. done. Qed.

Lemma nwp_lift {A} (o : option A) (Q : A -> net_stack * W -> Prop) st a : o = Some a -> Q a st -> nwp (lift o) Q st.
Proof. by intros ->. Qed.

Lemma nwp_extern {A} (f : W -> A * W) (Q : A -> net_stack * W -> Prop) st :
  (forall a w, f st.2 = (a, w) -> Q a (st.1, w)) -> nwp (extern f) Q st.
Proof. unfold nwp, extern. intros H. destruct (f st.2) eqn:E. by apply H. Qed.

Lemma nwp_handler f (Q : unit -> net_stack * W -> Prop) st : Q tt (f st) -> nwp (handler f) Q st.
Proof. done. Qed.

Lemma nwp_mono {A} (m : NM W A) (P Q : A -> net_stack * W -> Prop) st :
  nwp m P st -> (forall a st', P a st' -> Q a st') -> nwp m Q st.
Proof. unfold nwp. destruct (m st) as [[a st']|]; auto. Qed.

Lemma nwp_run {A} (m : NM W A) Q st : nwp m Q st -> exists a st', m st = Some (a, st') /\ Q a st'.
Proof. unfold nwp. destruct (m st) as [[a st']|]; [eauto|done]. Qed.

Lemma nwp_Some {A} (m : NM W A) (Q : A -> net_stack * W -> Prop) st a st' : m st = Some (a, st') -> Q a st' -> nwp m Q st.
Proof. unfold nwp. by intros ->. Qed.

End nwp.

(** One step through a monadic definition. *)
Ltac nwp_step :=
  lazymatch goal with
  | |- nwp (mbind _ _) _ _ => apply nwp_bind
  | |- nwp (mret _) _ _ => apply nwp_ret
  | |- nwp (gets _) _ _ => apply nwp_gets
  | |- nwp (mods _) _ _ => apply nwp_mods
  | |- nwp (handler _) _ _ => apply nwp_handler
  end; cbn [fst snd].
Ltac nwp_steps := repeat (nwp_step; cbv beta).
(** Follow a test of a computation. *)
Ltac nwp_if H := match goal with |- nwp (if ?b then _ else _) _ _ => destruct b eqn:H end.
