(* ===== verification/NetBytes.v ===== *)
(** * kernel/net.c: byte order, checksums, classes of addresses, saturating time *)

From S2P Require Import Prelude TcpSegment NetState.

(** A pointer with its size is the list of the bytes it covers. *)
Definition size (bytes : list Z) : Z := Z.of_nat (length bytes).

(** The [n] bytes at [p]: the range is checked. *)
Definition sub (bytes : list Z) (p n : Z) : option (list Z) :=
  if (0 <=? p) && (0 <=? n) && (p + n <=? size bytes)
  then Some (slice bytes (Z.to_nat p) (Z.to_nat n)) else None.

(** [bytes_copy(l + p, v, size)], with the range checked. *)
Definition put (l : list Z) (p : Z) (v : list Z) : option (list Z) :=
  if (0 <=? p) && (p + size v <=? size l) then Some (memcpy_at l (Z.to_nat p) v) else None.

Definition bytes_equal (left right : list Z) : bool :=
  fold_left (fun difference '(a, b) => Z.lor difference (u8 (Z.lxor a b))) (zip left right) 0 =? 0.

Definition read_u16_be (bytes : list Z) (p : Z) : option Z := read_u16 bytes p.
Definition read_u32_be (bytes : list Z) (p : Z) : option Z := read_u32 bytes p.

(** The bytes [write_u16_be] and [write_u32_be] store. *)
Definition write_u16_be (value : Z) : list Z := [u8 (Z.shiftr value 8); u8 value].
Definition write_u32_be (value : Z) : list Z :=
  [u8 (Z.shiftr value 24); u8 (Z.shiftr value 16); u8 (Z.shiftr value 8); u8 value].

(** ** Checksums *)

Fixpoint checksum_add (sum : Z) (bytes : list Z) : Z :=
  match bytes with
  | hi :: lo :: rest => checksum_add (u32 (sum + Z.lor (u16 (Z.shiftl hi 8)) lo)) rest
  | [last] => u32 (sum + u32 (Z.shiftl last 8))
  | [] => sum
  end.

(** [while ((sum >> 16) != 0u)], 8 rounds at most. *)
Fixpoint checksum_fold (fuel : nat) (sum : Z) : option Z :=
  match fuel with
  | O => None
  | S fuel' =>
      if Z.shiftr sum 16 =? 0 then Some sum
      else checksum_fold fuel' (u32 (Z.land sum 0xFFFF + Z.shiftr sum 16))
  end.

Definition checksum_finish (sum : Z) : option Z := sum ← checksum_fold 8 sum; Some (u16 (Z.lnot sum)).

Definition internet_checksum (bytes : list Z) : option Z := checksum_finish (checksum_add 0 bytes).

Definition transport_checksum (source_ip destination_ip protocol : Z) (bytes : list Z) : option Z :=
  let pseudo_header :=
    write_u32_be source_ip ++ write_u32_be destination_ip ++ [0; protocol] ++ write_u16_be (u16 (size bytes)) in
  checksum_finish (checksum_add (checksum_add 0 pseudo_header) bytes).

(** ** Addresses *)

Definition broadcast_mac : list Z := replicate (Z.to_nat NET_ETHERNET_ADDRESS_SIZE) 0xFF.

Definition mac_is_broadcast (m : list Z) : bool := bytes_equal m broadcast_mac.
Definition mac_is_zero (m : list Z) : bool := bytes_equal m (zeros NET_ETHERNET_ADDRESS_SIZE).
Definition mac_is_valid_source (m : list Z) : bool :=
  negb (mac_is_zero m) && negb (mac_is_broadcast m) && (Z.land (znth m 0) 1 =? 0).

Definition ipv4_is_multicast (ip : Z) : bool := Z.land ip 0xF0000000 =? 0xE0000000.

Definition ipv4_is_usable_unicast (ip : Z) : bool :=
  let first_octet := u8 (Z.shiftr ip 24) in
  negb (first_octet =? 0) && negb (first_octet =? 127) && (first_octet <? 224) && negb (ip =? UINT32_MAX).

Definition ipv4_netmask_is_valid (mask : Z) : bool :=
  if mask =? 0 then false
  else let host_bits := u32 (Z.lnot mask) in Z.land host_bits (u32 (host_bits + 1)) =? 0.

Definition ipv4_is_subnet_broadcast (stack : net_stack) (ip : Z) : bool :=
  let mask := netmask (ipv4 stack) in
  if (address (ipv4 stack) =? 0) || (mask =? 0) || (mask =? UINT32_MAX) then false
  else ip =? Z.lor (Z.land (address (ipv4 stack)) mask) (u32 (Z.lnot mask)).

Definition ipv4_is_broadcast (stack : net_stack) (ip : Z) : bool :=
  (ip =? UINT32_MAX) || ipv4_is_subnet_broadcast stack ip.

Definition ipv4_is_on_link (stack : net_stack) (ip : Z) : bool :=
  if address (ipv4 stack) =? 0 then false
  else (netmask (ipv4 stack) =? 0) ||
       (Z.land (address (ipv4 stack)) (netmask (ipv4 stack)) =? Z.land ip (netmask (ipv4 stack))).

Definition ipv4_destination_is_local (stack : net_stack) (ip : Z) : bool :=
  if (ip =? UINT32_MAX) || ipv4_is_subnet_broadcast stack ip then true
  else negb (address (ipv4 stack) =? 0) && (ip =? address (ipv4 stack)).

(** ** Time *)

Definition saturating_add_u64 (value addition : Z) : Z :=
  if UINT64_MAX - value <? addition then UINT64_MAX else value + addition.
Definition seconds_to_ms (seconds : Z) : Z := u64 (seconds * 1000).
Definition deadline_reached (now_ms deadline_ms : Z) : bool := deadline_ms <=? now_ms.

(** * Lemmas *)

(** ** Windows *)

Lemma size_nonneg l : 0 <= size l.
Proof. unfold size. lia. Qed.

Lemma size_app l r : size (l ++ r) = size l + size r.
Proof. unfold size. rewrite length_app. lia. Qed.

Lemma size_cons x l : size (x :: l) = 1 + size l.
Proof. unfold size. cbn [length]. lia. Qed.

Lemma sub_Some bytes p n :
  0 <= p -> 0 <= n -> p + n <= size bytes ->
  exists s, sub bytes p n = Some s /\ size s = n /\ s = slice bytes (Z.to_nat p) (Z.to_nat n).
Proof.
  intros H1 H2 H3. unfold sub. rewrite (proj2 (Z.leb_le 0 p)), (proj2 (Z.leb_le 0 n)), (proj2 (Z.leb_le (p + n) _)) by done.
  eexists. split; [done|]. split; [|done]. unfold size in *. rewrite length_slice by lia. lia.
Qed.

Lemma sub_inv bytes p n s :
  sub bytes p n = Some s ->
  0 <= p /\ 0 <= n /\ p + n <= size bytes /\ s = slice bytes (Z.to_nat p) (Z.to_nat n) /\ size s = n.
Proof.
  unfold sub. intros H. destruct (Z.leb_spec 0 p); [|done]. destruct (Z.leb_spec 0 n); [|done].
  destruct (Z.leb_spec (p + n) (size bytes)); [|done]. apply (inj Some) in H as <-.
  split_and!; try done. unfold size in *. rewrite length_slice by lia. lia.
Qed.

Lemma sub_bytes_ok bytes p n s : bytes_ok bytes -> sub bytes p n = Some s -> bytes_ok s.
Proof. intros Hb (_ & _ & _ & -> & _)%sub_inv. by apply slice_Forall. Qed.

(** The window between two known pieces. *)
Lemma sub_app l m r p n : p = size l -> n = size m -> sub (l ++ m ++ r) p n = Some m.
Proof.
  intros -> ->. destruct (sub_Some (l ++ m ++ r) (size l) (size m)) as (s & E & _ & ->).
  - apply size_nonneg.
  - apply size_nonneg.
  - rewrite !size_app. pose proof (size_nonneg r). lia.
  - rewrite E. f_equal. unfold size. rewrite !Nat2Z.id. rewrite slice_app_r, Nat.sub_diag by done. by apply slice_0_length.
Qed.

Lemma put_Some l p v : 0 <= p -> p + size v <= size l ->
  exists l', put l p v = Some l' /\ size l' = size l /\ l' = memcpy_at l (Z.to_nat p) v.
Proof.
  intros H1 H2. unfold put. rewrite (proj2 (Z.leb_le 0 p)), (proj2 (Z.leb_le _ (size l))) by done.
  eexists. split; [done|]. split; [|done]. pose proof (size_nonneg v). unfold size in *. rewrite length_memcpy_at by lia. lia.
Qed.

Lemma put_inv l p v l' : put l p v = Some l' ->
  0 <= p /\ p + size v <= size l /\ l' = memcpy_at l (Z.to_nat p) v /\ size l' = size l.
Proof.
  unfold put. intros H. destruct (Z.leb_spec 0 p); [|done]. destruct (Z.leb_spec (p + size v) (size l)); [|done].
  apply (inj Some) in H as <-. split_and!; try done. pose proof (size_nonneg v). unfold size in *.
  rewrite length_memcpy_at by lia. lia.
Qed.

Lemma read_u16_be_Some bytes p : bytes_ok bytes -> 0 <= p -> p + 2 <= size bytes ->
  exists v, read_u16_be bytes p = Some v /\ 0 <= v < 65536.
Proof.
  intros Hb H1 H2. destruct (rd_be bytes p Hb H1 H2) as (hi & lo & _ & _ & Hh & Hl & E).
  exists (hi * 256 + lo). split; [done|]. unfold byte_ok in *. lia.
Qed.

Lemma read_u32_be_Some bytes p : bytes_ok bytes -> 0 <= p -> p + 4 <= size bytes ->
  exists v, read_u32_be bytes p = Some v /\ u32_ok v.
Proof.
  intros Hb H1 H2. unfold read_u32_be, read_u32, size in *.
  destruct (rd_Some bytes p ltac:(lia)) as [b0 E0]. destruct (rd_Some bytes (p + 1) ltac:(lia)) as [b1 E1].
  destruct (rd_Some bytes (p + 2) ltac:(lia)) as [b2 E2]. destruct (rd_Some bytes (p + 3) ltac:(lia)) as [b3 E3].
  rewrite E0, E1, E2, E3. cbn [mbind option_bind]. eexists. split; [done|].
  repeat apply lor_u32; try apply u32_range. pose proof (rd_byte _ _ _ Hb E3). unfold byte_ok, u32_ok in *. lia.
Qed.

Lemma write_u16_be_ok v : bytes_ok (write_u16_be v).
Proof. unfold write_u16_be. repeat constructor; apply u8_range. Qed.

Lemma write_u32_be_ok v : bytes_ok (write_u32_be v).
Proof. unfold write_u32_be. repeat constructor; apply u8_range. Qed.

Lemma rd_app_r l r p : 0 <= p -> rd (l ++ r) (size l + p) = rd r p.
Proof.
  intros H. unfold rd, size. rewrite (proj2 (Z.leb_le 0 (Z.of_nat (length l) + p))), (proj2 (Z.leb_le 0 p)) by lia.
  rewrite lookup_app_r by lia. f_equal. lia.
Qed.

(** Reading back a field at a known place. *)
Lemma read_u16_be_at l v r : 0 <= v < 65536 -> read_u16_be (l ++ write_u16_be v ++ r) (size l) = Some v.
Proof.
  intros Hv. unfold read_u16_be, read_u16. rewrite <- (Z.add_0_r (size l)) at 1. rewrite !rd_app_r by lia.
  unfold write_u16_be. cbn [app]. change (rd (u8 (Z.shiftr v 8) :: u8 v :: r) 0) with (Some (u8 (Z.shiftr v 8))).
  change (rd (u8 (Z.shiftr v 8) :: u8 v :: r) 1) with (Some (u8 v)). cbn [mbind option_bind]. by rewrite be_bytes_u16.
Qed.

Lemma read_u32_be_at l v r : u32_ok v -> read_u32_be (l ++ write_u32_be v ++ r) (size l) = Some v.
Proof.
  intros Hv. unfold read_u32_be, read_u32. rewrite <- (Z.add_0_r (size l)) at 1. rewrite !rd_app_r by lia.
  etransitivity; [|exact (f_equal Some (be_bytes_u32 v Hv))]. reflexivity.
Qed.

(** ** Equality of byte strings *)

Lemma lor_zero a b : Z.lor a b = 0 <-> a = 0 /\ b = 0.
Proof. apply Z.lor_eq_0_iff. Qed.

Lemma bytes_equal_true left right :
  bytes_ok left -> bytes_ok right -> length left = length right ->
  bytes_equal left right = true <-> left = right.
Proof.
  intros Hl Hr Hlen. unfold bytes_equal. rewrite Z.eqb_eq.
  enough (H : forall d, fold_left (fun difference '(a, b) => Z.lor difference (u8 (Z.lxor a b))) (zip left right) d = 0
            <-> d = 0 /\ left = right) by (rewrite H; tauto).
  revert right Hr Hlen. induction Hl as [|a left Ha Hl IH]; intros [|b right] Hr Hlen d; try done; cbn [zip fold_left zip_with].
  { tauto. }
  apply Forall_cons in Hr as [Hb Hr]. rewrite IH by (done || (cbn [length] in Hlen; lia)). rewrite lor_zero.
  assert (E : u8 (Z.lxor a b) = 0 <-> a = b).
  { rewrite u8_mod, Z.mod_small; [apply Z.lxor_eq_0_iff|]. unfold byte_ok in *.
    split; [apply Z.lxor_nonneg; lia|]. destruct (Z.eq_dec (Z.lxor a b) 0) as [->|]; [lia|].
    assert (0 <= Z.lxor a b) by (apply Z.lxor_nonneg; lia).
    apply Z.log2_lt_pow2; [lia|]. pose proof (Z.log2_lxor a b ltac:(lia) ltac:(lia)).
    assert (Z.log2 a < 8 /\ Z.log2 b < 8); [|lia].
    split; [destruct (Z.eq_dec a 0) as [->|]; [done|]|destruct (Z.eq_dec b 0) as [->|]; [done|]]; apply Z.log2_lt_pow2; lia. }
  rewrite E. split; [intros [[? ->] ->]; done|]. intros [-> [= -> ->]]. done.
Qed.

Lemma bytes_equal_refl l : bytes_ok l -> bytes_equal l l = true.
Proof. intros. by apply bytes_equal_true. Qed.

(** ** The internet checksum *)

(** One's complement value of a sum: 0 only for 0. *)
Definition ones (sum : Z) : Z := if sum =? 0 then 0 else residue sum.

Lemma checksum_add_spec sum bytes :
  bytes_ok bytes -> 0 <= sum -> sum + 65536 * size bytes < 2 ^ 32 -> checksum_add sum bytes = sum + word_sum bytes.
Proof.
  assert (H : forall n bytes sum, (length bytes <= n)%nat -> bytes_ok bytes -> 0 <= sum -> sum + 65536 * size bytes < 2 ^ 32 ->
            checksum_add sum bytes = sum + word_sum bytes).
  { clear. induction n as [|n IH]; intros [|x [|y l]] sum Hl Hb H0 Hs; cbn [length] in *; try lia;
      unfold word_sum; cbn [checksum_add words fold_right]; try lia.
    - apply Forall_cons in Hb as [Hx _]. unfold byte_ok, size in *. cbn [length] in Hs.
      rewrite Z.shiftl_mul_pow2 by lia. change (2 ^ 8) with 256.
      rewrite (u32_small (x * 256)), u32_small by (unfold u32_ok; lia). lia.
    - apply Forall_cons in Hb as [Hx Hb]. apply Forall_cons in Hb as [Hy Hb]. rewrite be_word by done.
      rewrite !size_cons in Hs. pose proof (size_nonneg l). unfold byte_ok in *. rewrite u32_small by (unfold u32_ok; lia).
      rewrite IH by (done || lia). unfold word_sum. lia. }
  intros. by apply (H (length bytes)).
Qed.

Lemma checksum_fold_carries fuel s : 0 <= s < 2 ^ 32 -> checksum_fold fuel s = fold_carries fuel s.
Proof.
  revert s. induction fuel as [|fuel IH]; intros s Hs; [done|]. cbn [checksum_fold fold_carries]. rewrite shift16 by lia.
  destruct (Z.shiftr s 16 =? 0); [done|]. pose proof (Z.mod_pos_bound s 65536 ltac:(lia)).
  assert (0 <= s / 65536 < 65536) by (split; [apply Z.div_pos; lia|apply Z.div_lt_upper_bound; lia]).
  rewrite u32_small, u64_small by (unfold u32_ok, u64_ok; lia). apply IH. lia.
Qed.

Lemma ones_range s : 0 <= ones s <= 65535.
Proof. unfold ones. pose proof (residue_range s). destruct (Z.eqb_spec s 0); lia. Qed.

Lemma checksum_finish_spec s : 0 <= s < 2 ^ 32 -> checksum_finish s = Some (65535 - ones s).
Proof.
  intros Hs. unfold checksum_finish. rewrite checksum_fold_carries by done.
  assert (E : fold_carries 8 s = Some (ones s)).
  { unfold ones. destruct (Z.eqb_spec s 0) as [->|]; [done|]. apply fold_carries_spec. lia. }
  rewrite E, some_bind, lnot_u16 by apply ones_range. done.
Qed.

Lemma internet_checksum_spec bytes :
  bytes_ok bytes -> size bytes <= 65535 -> internet_checksum bytes = Some (65535 - ones (word_sum bytes)).
Proof.
  intros Hb Hl. pose proof (word_sum_range bytes Hb) as Hw. unfold internet_checksum, size in *.
  rewrite checksum_add_spec by (unfold size; done || lia). rewrite Z.add_0_l. apply checksum_finish_spec. lia.
Qed.

(** The words of the pseudo header. *)
Definition pseudo_sum (source_ip destination_ip protocol n : Z) : Z :=
  word_sum (write_u32_be source_ip ++ write_u32_be destination_ip ++ [0; protocol] ++ write_u16_be (u16 n)).

Lemma pseudo_bytes_ok s d p n :
  byte_ok p -> bytes_ok (write_u32_be s ++ write_u32_be d ++ [0; p] ++ write_u16_be (u16 n)).
Proof.
  intros. repeat (apply Forall_app_2; [first [apply write_u32_be_ok|apply write_u16_be_ok|idtac]|]);
    [|apply write_u16_be_ok]. constructor; [unfold byte_ok; lia|]. by constructor.
Qed.

Lemma pseudo_sum_range s d p n : byte_ok p -> p <= pseudo_sum s d p n <= 65535 * 12.
Proof.
  intros Hp. unfold pseudo_sum. pose proof (word_sum_range _ (pseudo_bytes_ok s d p n Hp)) as H.
  split; [|exact (proj2 H)]. unfold word_sum, write_u32_be, write_u16_be. cbn [app words fold_right].
  pose proof (u8_range (Z.shiftr s 24)). pose proof (u8_range (Z.shiftr s 16)). pose proof (u8_range (Z.shiftr s 8)).
  pose proof (u8_range s). pose proof (u8_range (Z.shiftr d 24)). pose proof (u8_range (Z.shiftr d 16)).
  pose proof (u8_range (Z.shiftr d 8)). pose proof (u8_range d). pose proof (u8_range (Z.shiftr (u16 n) 8)).
  pose proof (u8_range (u16 n)). lia.
Qed.

Lemma transport_checksum_spec s d p bytes :
  byte_ok p -> bytes_ok bytes -> size bytes <= 65500 ->
  transport_checksum s d p bytes = Some (65535 - ones (pseudo_sum s d p (size bytes) + word_sum bytes)).
Proof.
  intros Hp Hb Hl. pose proof (word_sum_range bytes Hb) as Hw. pose proof (pseudo_sum_range s d p (size bytes) Hp) as Hr.
  unfold byte_ok in Hp. unfold transport_checksum. cbv zeta.
  rewrite (checksum_add_spec 0) by (apply pseudo_bytes_ok || (unfold size; cbn [write_u32_be write_u16_be app length]; lia); done).
  rewrite Z.add_0_l. fold (pseudo_sum s d p (size bytes)). unfold size in *.
  rewrite checksum_add_spec by (unfold size; done || lia). apply checksum_finish_spec. lia.
Qed.

(** A checksum computed over a zero field and stored there makes the sum verify. *)
Lemma ones_complement x : 0 <= x -> ones (x + (65535 - ones x)) = 65535.
Proof.
  intros Hx. unfold ones at 2. destruct (Z.eqb_spec x 0) as [->|]; [done|].
  unfold ones. pose proof (residue_range x). destruct (Z.eqb_spec (x + (65535 - residue x)) 0); [lia|].
  apply residue_complement.
Qed.

(** ** Times *)

Lemma saturating_add_range a b : u64_ok a -> 0 <= b -> u64_ok (saturating_add_u64 a b).
Proof. unfold saturating_add_u64, u64_ok, UINT64_MAX. intros. destruct (Z.ltb_spec (2 ^ 64 - 1 - a) b); lia. Qed.

Lemma saturating_add_ge a b : u64_ok a -> 0 <= b -> a <= saturating_add_u64 a b.
Proof. unfold saturating_add_u64, u64_ok, UINT64_MAX. intros. destruct (Z.ltb_spec (2 ^ 64 - 1 - a) b); lia. Qed.

Lemma seconds_to_ms_small s : u32_ok s -> seconds_to_ms s = s * 1000.
Proof. unfold seconds_to_ms, u32_ok. intros. apply u64_small. unfold u64_ok. lia. Qed.

(** ** Usable addresses *)

Lemma usable_nonzero ip : ipv4_is_usable_unicast ip = true -> ip <> 0.
Proof. intros H ->. done. Qed.
