(* ===== verification/NetSend.v ===== *)
(** * kernel/net.c: ARP, routing, sending IPv4, UDP and ICMP

    One definition per function.  Not represented: a NULL stack, which every
    public function refuses before anything else, and a NULL payload with a
    size, since a pointer with its size is the list of the bytes.  [needs_arp]
    of [route_ipv4] is the absence of the hardware address. *)

From S2P Require Import Prelude TcpSegment NetState NetBytes.

(** ** The ARP cache *)

Definition arp_matches (ip : Z) (e : net_arp_entry) : Prop := arp_valid e = true /\ arp_ip e = ip.
#[global] Instance arp_matches_dec ip e : Decision (arp_matches ip e).
Proof. apply and_dec; apply _. Defined.

(** The index of the entry; [arp_find_const] is the same loop. *)
Definition arp_find (stack : net_stack) (ip : Z) : option nat := fst <$> list_find (arp_matches ip) (arp stack).

(** The loop of [arp_learn] that picks a free slot or the one refreshed longest ago. *)
Fixpoint arp_select (i : nat) (entries : list net_arp_entry) (selected : nat) (oldest : Z) : nat :=
  match entries with
  | [] => selected
  | e :: rest =>
      if negb (arp_valid e) then i
      else if refreshed_ms e <? oldest then arp_select (S i) rest i (refreshed_ms e)
      else arp_select (S i) rest selected oldest
  end.

Definition arp_learn (ip : Z) (m : list Z) (stack : net_stack) : net_stack :=
  if negb (ipv4_is_usable_unicast ip) || negb (mac_is_valid_source m) then stack
  else
    let entry := match arp_find stack ip with
                 | Some i => i
                 | None => arp_select 0 (arp stack) 0 UINT64_MAX
                 end in
    set_arp (<[entry := NetArpEntry true ip m (current_time_ms stack)]> (arp stack)) stack.

(** The hardware address, when the lookup succeeds. *)
Definition net_arp_lookup (stack : net_stack) (ip : Z) : option (list Z) :=
  i ← arp_find stack ip; e ← arp stack !! i; Some (arp_mac e).

(** ** Routing: the next hop and its hardware address, [None] inside: ARP is needed *)

Definition multicast_mac (ip : Z) : list Z :=
  [0x01; 0x00; 0x5E; u8 (Z.land (Z.shiftr ip 16) 0x7F); u8 (Z.shiftr ip 8); u8 ip].

Definition route_ipv4 (stack : net_stack) (destination_ip : Z) : option (Z * option (list Z)) :=
  if destination_ip =? 0 then None
  else if ipv4_is_broadcast stack destination_ip then Some (destination_ip, Some broadcast_mac)
  else if ipv4_is_multicast destination_ip then Some (destination_ip, Some (multicast_mac destination_ip))
  else if address (ipv4 stack) =? 0 then None
  else
    let target :=
      if negb (netmask (ipv4 stack) =? 0) &&
         negb (Z.land destination_ip (netmask (ipv4 stack)) =?
               Z.land (address (ipv4 stack)) (netmask (ipv4 stack)))
      then gateway (ipv4 stack) else destination_ip in
    if negb (ipv4_is_usable_unicast target) then None
    else Some (target, net_arp_lookup stack target).

(** ** Headers *)

(** [write_ethernet_header]: the first 14 bytes of the frame. *)
Definition write_ethernet_header (stack : net_stack) (destination : list Z) (ethertype : Z) : list Z :=
  destination ++ mac stack ++ write_u16_be ethertype.

(** The ARP packet [net_arp_request] and [send_arp_reply] store behind it. *)
Definition arp_packet (stack : net_stack) (operation : Z) (target_mac : list Z) (target_ip : Z) : list Z :=
  write_u16_be ARP_HARDWARE_ETHERNET ++ write_u16_be ETHERTYPE_IPV4 ++ [NET_ETHERNET_ADDRESS_SIZE; 4] ++
  write_u16_be operation ++ mac stack ++ write_u32_be (address (ipv4 stack)) ++ target_mac ++ write_u32_be target_ip.

(** The IPv4 header of [send_ipv4_with_mac], with a checksum. *)
Definition ipv4_header (source_ip destination_ip protocol id total checksum : Z) : list Z :=
  [IPV4_VERSION_IHL; 0] ++ write_u16_be (u16 total) ++ write_u16_be id ++ write_u16_be IPV4_FLAG_DONT_FRAGMENT ++
  [IPV4_DEFAULT_TTL; protocol] ++ write_u16_be checksum ++ write_u32_be source_ip ++ write_u32_be destination_ip.

Definition udp_header (source_port destination_port n checksum : Z) : list Z :=
  write_u16_be source_port ++ write_u16_be destination_port ++ write_u16_be (u16 n) ++ write_u16_be checksum.

Definition icmp_header (type identifier sequence checksum : Z) : list Z :=
  [type; 0] ++ write_u16_be checksum ++ write_u16_be identifier ++ write_u16_be sequence.

(** ** Sending *)

Section send.
  Context {W : Type} (E : net_env W).

Definition link_transmit (frame : list Z) : NM W bool :=
  has ← gets (fun s => has_send (link s));
  if negb has || (size frame <? NET_ETHERNET_HEADER_SIZE) || (NET_ETHERNET_FRAME_MAX <? size frame) then mret false
  else
    sent ← extern (env_send E frame);
    if negb sent then mret false
    else mods count_frames_transmitted;; mret true.

Definition net_arp_request (ip : Z) : NM W bool :=
  s ← gets (fun s => s);
  if negb (has_send (link s)) || (address (ipv4 s) =? 0) || negb (ipv4_is_usable_unicast ip) then mret false
  else
    sent ← link_transmit (write_ethernet_header s broadcast_mac ETHERTYPE_ARP ++
                          arp_packet s ARP_OPERATION_REQUEST (zeros NET_ETHERNET_ADDRESS_SIZE) ip);
    if negb sent then mret false
    else mods count_arp_requests_sent;; mret true.

Definition send_arp_reply (destination_mac : list Z) (destination_ip : Z) : NM W bool :=
  s ← gets (fun s => s);
  link_transmit (write_ethernet_header s destination_mac ETHERTYPE_ARP ++
                 arp_packet s ARP_OPERATION_REPLY destination_mac destination_ip).

Definition send_ipv4_with_mac (destination_ip protocol : Z) (payload : list Z) (destination_mac : list Z)
    : NM W bool :=
  if NET_IPV4_PAYLOAD_MAX <? size payload then mret false
  else
    s ← gets (fun s => s);
    let header := ipv4_header (address (ipv4 s)) destination_ip protocol (next_ipv4_id s)
                    (NET_IPV4_HEADER_MIN_SIZE + size payload) in
    mods (set_next_ipv4_id (u16 (next_ipv4_id s + 1)));;
    checksum ← lift (internet_checksum (header 0));
    sent ← link_transmit (write_ethernet_header s destination_mac ETHERTYPE_IPV4 ++ header checksum ++ payload);
    if negb sent then mret false
    else mods count_ipv4_packets_transmitted;; mret true.

Definition flush_pending_ipv4 : NM W bool :=
  s ← gets (fun s => s);
  let pending := pending_ipv4 s in
  if negb (pending_valid pending) then mret true
  else
    match net_arp_lookup s (next_hop_ip pending) return NM W bool with
    | None => mret false
    | Some m =>
        payload ← lift (sub (pending_payload pending) 0 (pending_payload_size pending));
        sent ← send_ipv4_with_mac (pending_destination_ip pending) (pending_protocol pending) payload m;
        if negb sent then
          mods (fun s => upd_pending_ipv4 (set_arp_requested_ms (current_time_ms s)) s);;
          mods (upd_pending_ipv4 (fun p => set_transmit_attempts (u32 (transmit_attempts p + 1)) p));;
          mret false
        else
          (if pending_protocol pending =? NET_IPV4_PROTOCOL_UDP
           then mods count_udp_datagrams_transmitted else mret tt);;
          mods (upd_pending_ipv4 (set_pending_valid false));;
          mret true
    end.

Definition net_ipv4_send (destination_ip protocol : Z) (payload : list Z) : NM W net_send_result :=
  s ← gets (fun s => s);
  if negb (has_send (link s)) || (destination_ip =? 0) || (NET_IPV4_PAYLOAD_MAX <? size payload)
  then mret NET_SEND_FAILED
  else if (address (ipv4 s) =? 0) && negb (destination_ip =? UINT32_MAX) then mret NET_SEND_FAILED
  else
    match route_ipv4 s destination_ip return NM W net_send_result with
    | None => mret NET_SEND_FAILED
    | Some (_, Some m) =>
        sent ← send_ipv4_with_mac destination_ip protocol payload m;
        mret (if sent : bool then NET_SEND_SENT else NET_SEND_FAILED)
    | Some (next_hop, None) =>
        if pending_valid (pending_ipv4 s) then mret NET_SEND_FAILED
        else
          copied ← lift (put (pending_payload (pending_ipv4 s)) 0 payload);
          mods (set_pending_ipv4 (NetPendingIpv4 true destination_ip next_hop protocol (size payload) copied
                                    (current_time_ms s) 1 0));;
          net_arp_request next_hop;;
          mret NET_SEND_QUEUED
    end.

Definition net_udp_send (destination_ip destination_port source_port : Z) (data : list Z)
    : NM W net_send_result :=
  if (destination_port =? 0) || (source_port =? 0) || (NET_UDP_PAYLOAD_MAX <? size data)
  then mret NET_SEND_FAILED
  else
    s ← gets (fun s => s);
    let udp := fun checksum => udp_header source_port destination_port (8 + size data) checksum ++ data in
    checksum ← lift (transport_checksum (address (ipv4 s)) destination_ip NET_IPV4_PROTOCOL_UDP (udp 0));
    result ← net_ipv4_send destination_ip NET_IPV4_PROTOCOL_UDP
               (udp (if checksum =? 0 then 0xFFFF else checksum));
    (if bool_decide (result = NET_SEND_SENT) then mods count_udp_datagrams_transmitted else mret tt);;
    mret result.

Definition net_icmp_echo_request (destination_ip identifier sequence : Z) (payload : list Z)
    : NM W net_send_result :=
  if NET_IPV4_PAYLOAD_MAX - 8 <? size payload then mret NET_SEND_FAILED
  else
    let icmp := fun checksum => icmp_header ICMP_ECHO_REQUEST identifier sequence checksum ++ payload in
    checksum ← lift (internet_checksum (icmp 0));
    result ← net_ipv4_send destination_ip NET_IPV4_PROTOCOL_ICMP (icmp checksum);
    (if bool_decide (result = NET_SEND_FAILED) then mret tt
     else
       mods (fun s => set_echo_request (NetEchoRequest true destination_ip identifier sequence (current_time_ms s)) s);;
       mods (upd_echo_reply (set_reply_valid false)));;
    mret result.

End send.

(** ** Bindings of UDP ports and the TCP handler *)

Definition binding_matches (port : Z) (b : net_udp_binding) : Prop :=
  is_Some (binding_handler b) /\ binding_port b = port.
#[global] Instance binding_matches_dec port b : Decision (binding_matches port b).
Proof. apply and_dec; apply _. Defined.

Definition net_udp_bind (port : Z) (h : option Z) (context : Z) (stack : net_stack) : bool * net_stack :=
  if (port =? 0) || bool_decide (h = None) || (port =? DHCP_CLIENT_PORT) then (false, stack)
  else if bool_decide (Exists (binding_matches port) (udp_bindings stack)) then (false, stack)
  else
    match list_find (fun b => binding_handler b = None) (udp_bindings stack) with
    | Some (i, _) => (true, set_udp_bindings (<[i := NetUdpBinding port h context]> (udp_bindings stack)) stack)
    | None => (false, stack)
    end.

Definition net_udp_unbind (port : Z) (stack : net_stack) : net_stack :=
  set_udp_bindings
    ((fun b => if bool_decide (binding_matches port b) then zero_binding else b) <$> udp_bindings stack) stack.

Definition net_set_tcp_handler (h : option Z) (context : Z) (stack : net_stack) : net_stack :=
  set_tcp_handler_context (if bool_decide (h = None) then 0 else context) (set_tcp_handler h stack).

(** ** Echo replies *)

Definition net_icmp_last_echo_reply (stack : net_stack) : net_icmp_echo_reply := echo_reply stack.
Definition net_icmp_clear_echo_reply (stack : net_stack) : net_stack := set_echo_reply zero_reply stack.
