(* ===== verification/NetDhcp.v ===== *)
(** * kernel/net.c: the IPv4 configuration and the DHCP client *)

From S2P Require Import Prelude TcpSegment NetState NetBytes NetSend.

(** ** The configuration *)

Definition net_dns_cache_clear (stack : net_stack) : net_stack := set_dns_cache zero_cache stack.

Definition net_configure_ipv4 (config : net_ipv4_config) (stack : net_stack) : net_stack :=
  let network_changed :=
    negb (address (ipv4 stack) =? address config) || negb (netmask (ipv4 stack) =? netmask config) ||
    negb (gateway (ipv4 stack) =? gateway config) in
  let resolver_changed := negb (dns_server (ipv4 stack) =? dns_server config) in
  let stack := set_ipv4 config stack in
  let stack := if network_changed
               then upd_pending_ipv4 (set_pending_valid false) (set_arp zero_arp stack) else stack in
  if network_changed || resolver_changed then net_dns_cache_clear stack else stack.

Definition net_clear_ipv4 (stack : net_stack) : net_stack :=
  let stack := net_dns_cache_clear
    (upd_pending_ipv4 (set_pending_valid false) (set_arp zero_arp (set_ipv4 zero_config stack))) in
  if bool_decide (dns_state (dns stack) = NET_DNS_PENDING)
  then upd_dns (set_dns_state NET_DNS_TIMED_OUT) stack else stack.

Definition net_is_configured (stack : net_stack) : bool := ipv4_is_usable_unicast (address (ipv4 stack)).
Definition net_get_ipv4_config (stack : net_stack) : net_ipv4_config := ipv4 stack.
Definition net_local_ip (stack : net_stack) : Z := address (ipv4 stack).
Definition net_gateway_ip (stack : net_stack) : Z := gateway (ipv4 stack).
Definition net_dns_ip (stack : net_stack) : Z := dns_server (ipv4 stack).
Definition net_now_ms (stack : net_stack) : Z := current_time_ms stack.

(** ** Building a message *)

Definition dhcp_reset_offer (c : net_dhcp_client) : net_dhcp_client :=
  set_rebind_seconds 0 (set_renewal_seconds 0 (set_lease_seconds 0 (set_offered_dns 0
    (set_offered_gateway 0 (set_offered_netmask 0 (set_server_ip 0 (set_offered_ip 0 c))))))).

(** The packet and the next offset, 0 when the option does not fit. *)
Definition dhcp_append_option (packet : list Z) (offset capacity option : Z) (value : list Z)
    : Datatypes.option (list Z * Z) :=
  if (capacity <? offset) || (capacity - offset <? size value + 2) then Some (packet, 0)
  else
    packet ← put packet offset [option; size value];
    packet ← put packet (offset + 2) value;
    Some (packet, offset + 2 + size value).

(** A sequence of options; [Some None] when one does not fit. *)
Fixpoint dhcp_append_options (packet : list Z) (offset : Z) (options : list (Z * list Z))
    : option (option (list Z * Z)) :=
  match options with
  | [] => Some (Some (packet, offset))
  | (code, value) :: rest =>
      r ← dhcp_append_option packet offset (size packet) code value;
      if r.2 =? 0 then Some None else dhcp_append_options r.1 r.2 rest
  end.

(** [dhcp_append_u32_option] encodes its value. *)
Definition dhcp_u32_option (option value : Z) : Z * list Z := (option, write_u32_be value).

Definition dhcp_retry_delay (attempts : Z) : Z :=
  let shift := if 4 <? attempts then 4 else attempts in u64 (Z.shiftl DHCP_RETRY_BASE_MS shift).

Definition dhcp_message_options (stack : net_stack) (message_type : Z) (using_active_lease : bool)
    : list (Z * list Z) :=
  [(DHCP_OPTION_MESSAGE_TYPE, [message_type]); (DHCP_OPTION_CLIENT_IDENTIFIER, 1 :: mac stack)] ++
  (if (message_type =? DHCP_MESSAGE_REQUEST) && negb using_active_lease then
     [dhcp_u32_option DHCP_OPTION_REQUESTED_IP (offered_ip (dhcp stack))] ++
     (if negb (bool_decide (dhcp_state (dhcp stack) = NET_DHCP_REBINDING)) && negb (server_ip (dhcp stack) =? 0)
      then [dhcp_u32_option DHCP_OPTION_SERVER_IDENTIFIER (server_ip (dhcp stack))] else [])
   else []) ++
  [(DHCP_OPTION_PARAMETER_REQUEST,
      [DHCP_OPTION_SUBNET_MASK; DHCP_OPTION_ROUTER; DHCP_OPTION_DNS; DHCP_OPTION_LEASE_TIME;
       DHCP_OPTION_RENEWAL_TIME; DHCP_OPTION_REBIND_TIME]);
   (DHCP_OPTION_MAXIMUM_SIZE, write_u16_be DHCP_PACKET_CAPACITY)].

(** The part of [dhcp_send_message] before the datagram is sent: the bytes to
    send, [Some None] where it returns false. *)
Definition dhcp_message (stack : net_stack) (message_type : Z) (using_active_lease : bool)
    : option (option (list Z)) :=
  packet ← put (zeros DHCP_PACKET_CAPACITY) 0 [1; 1; NET_ETHERNET_ADDRESS_SIZE];
  packet ← put packet 4 (write_u32_be (dhcp_transaction_id (dhcp stack)));
  packet ← (if using_active_lease then put packet 12 (write_u32_be (address (ipv4 stack))) else Some packet);
  packet ← (if negb using_active_lease || bool_decide (dhcp_state (dhcp stack) = NET_DHCP_REBINDING)
            then put packet 10 (write_u16_be 0x8000) else Some packet);
  packet ← put packet 28 (mac stack);
  packet ← put packet 236 (write_u32_be DHCP_MAGIC_COOKIE);
  r ← dhcp_append_options packet DHCP_FIXED_SIZE (dhcp_message_options stack message_type using_active_lease);
  match r with
  | None => Some None
  | Some (packet, offset) =>
      if size packet <=? offset then Some None
      else
        packet ← put packet offset [DHCP_OPTION_END];
        packet ← sub packet 0 (offset + 1);
        Some (Some packet)
  end.

(** ** Parsing the options *)

Definition no_options : dhcp_options := DhcpOptions None None None None None None None None.

(** The body of the [switch]: an option of a fixed length, or of at least four
    bytes, and the first of its kind. *)
Definition store_option (fits : bool) (seen : option Z) (value : option Z)
    (set : option Z -> dhcp_options -> dhcp_options) (options : dhcp_options) : option dhcp_options :=
  if fits && bool_decide (seen = None) then v ← value; Some (set (Some v) options) else Some options.

Definition parse_dhcp_option (options : dhcp_options) (packet : list Z) (code n offset : Z) : option dhcp_options :=
  let word := read_u32_be packet offset in
  if code =? DHCP_OPTION_MESSAGE_TYPE then
    store_option (n =? 1) (opt_message_type options) (rd packet offset) set_opt_message_type options
  else if code =? DHCP_OPTION_SUBNET_MASK then
    store_option (n =? 4) (opt_subnet_mask options) word set_opt_subnet_mask options
  else if code =? DHCP_OPTION_ROUTER then
    store_option (4 <=? n) (opt_router options) word set_opt_router options
  else if code =? DHCP_OPTION_DNS then
    store_option (4 <=? n) (opt_dns options) word set_opt_dns options
  else if code =? DHCP_OPTION_SERVER_IDENTIFIER then
    store_option (n =? 4) (opt_server_identifier options) word set_opt_server_identifier options
  else if code =? DHCP_OPTION_LEASE_TIME then
    store_option (n =? 4) (opt_lease_time options) word set_opt_lease_time options
  else if code =? DHCP_OPTION_RENEWAL_TIME then
    store_option (n =? 4) (opt_renewal_time options) word set_opt_renewal_time options
  else if code =? DHCP_OPTION_REBIND_TIME then
    store_option (n =? 4) (opt_rebind_time options) word set_opt_rebind_time options
  else Some options.

(** The loop; every round advances [offset], so the number of bytes is fuel enough.
    [Some None] is the result false. *)
Fixpoint parse_dhcp_loop (fuel : nat) (packet : list Z) (offset : Z) (options : dhcp_options)
    : option (option dhcp_options) :=
  match fuel with
  | O => None
  | S fuel' =>
      if size packet <=? offset then Some None
      else
        code ← rd packet offset;
        if code =? DHCP_OPTION_PAD then parse_dhcp_loop fuel' packet (offset + 1) options
        else if code =? DHCP_OPTION_END then
          Some (if bool_decide (is_Some (opt_message_type options)) then Some options else None)
        else if size packet <=? offset + 1 then Some None
        else
          n ← rd packet (offset + 1);
          if size packet - (offset + 2) <? n then Some None
          else
            options ← parse_dhcp_option options packet code n (offset + 2);
            parse_dhcp_loop fuel' packet (offset + 2 + n) options
  end.

Definition parse_dhcp_options (packet : list Z) : option (option dhcp_options) :=
  if size packet <? DHCP_FIXED_SIZE then Some None
  else
    cookie ← read_u32_be packet 236;
    if negb (cookie =? DHCP_MAGIC_COOKIE) then Some None
    else parse_dhcp_loop (S (length packet)) packet DHCP_FIXED_SIZE no_options.

(** ** The client *)

(** The guard of [dhcp_receive]. *)
Definition dhcp_reply_matches (stack : net_stack) (packet : list Z) : option bool :=
  if bool_decide (dhcp_state (dhcp stack) = NET_DHCP_OFF) || (size packet <? DHCP_FIXED_SIZE) then Some false
  else
    op ← rd packet 0; hardware ← rd packet 1; hardware_size ← rd packet 2;
    xid ← read_u32_be packet 4;
    hardware_address ← sub packet 28 NET_ETHERNET_ADDRESS_SIZE;
    Some ((op =? 2) && (hardware =? 1) && (hardware_size =? NET_ETHERNET_ADDRESS_SIZE) &&
          (xid =? dhcp_transaction_id (dhcp stack)) && bytes_equal hardware_address (mac stack)).

Definition is_renewing (c : net_dhcp_client) : bool :=
  bool_decide (dhcp_state c = NET_DHCP_REQUESTING) || bool_decide (dhcp_state c = NET_DHCP_RENEWING) ||
  bool_decide (dhcp_state c = NET_DHCP_REBINDING).

Definition lease_times (options : dhcp_options) (c : net_dhcp_client) : net_dhcp_client :=
  set_rebind_seconds (default (u32 (u64 (lease_seconds c * 7) / 8)) (opt_rebind_time options))
    (set_renewal_seconds (default (lease_seconds c / 2) (opt_renewal_time options)) c).

Definition accept_offer (options : dhcp_options) (ip server : Z) (c : net_dhcp_client) : net_dhcp_client :=
  let c := set_offered_dns (default 0 (opt_dns options)) (set_offered_gateway (default 0 (opt_router options))
    (set_offered_netmask (default 0 (opt_subnet_mask options)) (set_server_ip server (set_offered_ip ip c)))) in
  let c := set_lease_seconds (default DHCP_DEFAULT_LEASE_SECONDS (opt_lease_time options)) c in
  set_dhcp_attempts 0 (set_dhcp_state NET_DHCP_REQUESTING (lease_times options c)).

(** The address an acknowledgement assigns: the one it names, else the current, else the offered one. *)
Definition ack_address (stack : net_stack) (named : Z) : Z :=
  let ip := if ipv4_is_usable_unicast named then named else address (ipv4 stack) in
  if negb (ipv4_is_usable_unicast ip) then offered_ip (dhcp stack) else ip.

Definition ack_configuration (options : dhcp_options) (c : net_dhcp_client) (ip : Z) : net_ipv4_config :=
  let mask := default (offered_netmask c) (opt_subnet_mask options) in
  let router := default (offered_gateway c) (opt_router options) in
  let resolver := default (offered_dns c) (opt_dns options) in
  NetIpv4Config ip (if ipv4_netmask_is_valid mask then mask else NET_IPV4 255 255 255 0)
    (if ipv4_is_usable_unicast router then router else 0) (if ipv4_is_usable_unicast resolver then resolver else 0).

(** The server and the lease of an acknowledgement. *)
Definition ack_lease (options : dhcp_options) (server : Z) (c : net_dhcp_client) : net_dhcp_client :=
  set_lease_seconds
    (default (if negb (lease_seconds c =? 0) then lease_seconds c else DHCP_DEFAULT_LEASE_SECONDS) (opt_lease_time options))
    (set_server_ip (if ipv4_is_usable_unicast server then server else server_ip c) c).

(** Its times, corrected where the server's are out of order. *)
Definition ack_times (options : dhcp_options) (c : net_dhcp_client) : net_dhcp_client :=
  let c := lease_times options c in
  let c := if lease_seconds c <=? renewal_seconds c then set_renewal_seconds (lease_seconds c / 2) c else c in
  if (rebind_seconds c <=? renewal_seconds c) || (lease_seconds c <=? rebind_seconds c)
  then set_rebind_seconds (u32 (u64 (lease_seconds c * 7) / 8)) c else c.

Definition bind_lease (now : Z) (c : net_dhcp_client) : net_dhcp_client :=
  set_dhcp_attempts 0
    (set_dhcp_next_action_ms (saturating_add_u64 now (seconds_to_ms (renewal_seconds c)))
      (set_lease_started_ms now (set_dhcp_state NET_DHCP_BOUND c))).

(** The default transaction id: FNV over the hardware address, then the clock. *)
Definition default_transaction_id (stack : net_stack) : Z :=
  let hash := fold_left (fun h b => u32 (Z.lxor h b * 16777619)) (mac stack) 2166136261 in
  let h := Z.lxor hash (u32 (current_time_ms stack)) in
  if h =? 0 then 1 else h.

Section dhcp.
  Context {W : Type} (E : net_env W).

Definition dhcp_send_message (message_type : Z) (using_active_lease : bool) : NM W bool :=
  s ← gets (fun s => s);
  built ← lift (dhcp_message s message_type using_active_lease);
  match built return NM W bool with
  | None => mret false
  | Some packet =>
      let destination_ip :=
        if bool_decide (dhcp_state (dhcp s) = NET_DHCP_RENEWING) && negb (server_ip (dhcp s) =? 0)
        then server_ip (dhcp s) else UINT32_MAX in
      result ← net_udp_send E destination_ip DHCP_SERVER_PORT DHCP_CLIENT_PORT packet;
      mods (upd_dhcp (fun c => set_dhcp_attempts (u32 (dhcp_attempts c + 1)) c));;
      mods (fun s => upd_dhcp (fun c => set_dhcp_next_action_ms
        (saturating_add_u64 (current_time_ms s) (dhcp_retry_delay (u32 (dhcp_attempts c - 1)))) c) s);;
      mret (negb (bool_decide (result = NET_SEND_FAILED)))
  end.

Definition net_dhcp_start (transaction_id : Z) : NM W bool :=
  s ← gets (fun s => s);
  if negb (has_send (link s)) then mret false
  else
    let transaction_id := if transaction_id =? 0 then default_transaction_id s else transaction_id in
    mods net_clear_ipv4;;
    mods (set_dhcp (dhcp_reset_offer (set_dhcp_attempts 0 (set_dhcp_transaction_id transaction_id
      (set_dhcp_state NET_DHCP_DISCOVERING zero_dhcp)))));;
    dhcp_send_message DHCP_MESSAGE_DISCOVER false;;
    mret true.

Definition net_dhcp_stop : net_stack -> net_stack := set_dhcp zero_dhcp.
Definition net_dhcp_get_state (stack : net_stack) : net_dhcp_state := dhcp_state (dhcp stack).

Definition dhcp_restart : NM W unit :=
  s ← gets (fun s => s);
  let transaction_id := u32 (dhcp_transaction_id (dhcp s) + 1) in
  net_dhcp_start (if transaction_id =? 0 then 1 else transaction_id);;
  mret tt.

Definition dhcp_receive_ack (options : dhcp_options) (offered server : Z) : NM W bool :=
  s ← gets (fun s => s);
  let c := dhcp s in
  if negb (bool_decide (dhcp_state c = NET_DHCP_REBINDING)) && negb (server_ip c =? 0) &&
     match opt_server_identifier options with Some i => negb (i =? server_ip c) | None => false end
  then mret false
  else
    let ip := ack_address s offered in
    if negb (ipv4_is_usable_unicast ip) then mret false
    else
      mods (upd_dhcp (ack_lease options server));;
      lease ← gets (fun s => lease_seconds (dhcp s));
      if lease =? 0 then mret false
      else
        mods (upd_dhcp (ack_times options));;
        mods (net_configure_ipv4 (ack_configuration options c ip));;
        mods (fun s => upd_dhcp (bind_lease (current_time_ms s)) s);;
        mret true.

Definition dhcp_receive (source_ip : Z) (packet : list Z) : NM W bool :=
  s ← gets (fun s => s);
  matches ← lift (dhcp_reply_matches s packet);
  if negb matches then mret false
  else
    parsed ← lift (parse_dhcp_options packet);
    match parsed return NM W bool with
    | None => mret false
    | Some options =>
        offered ← lift (read_u32_be packet 16);
        let message := default 0 (opt_message_type options) in
        let server := default source_ip (opt_server_identifier options) in
        let c := dhcp s in
        if (message =? DHCP_MESSAGE_OFFER) && bool_decide (dhcp_state c = NET_DHCP_DISCOVERING) &&
           ipv4_is_usable_unicast offered && ipv4_is_usable_unicast server
        then
          mods (upd_dhcp (accept_offer options offered server));;
          dhcp_send_message DHCP_MESSAGE_REQUEST false;;
          mret true
        else if (message =? DHCP_MESSAGE_NAK) && is_renewing c then
          if negb (server_ip c =? 0) &&
             match opt_server_identifier options with Some i => negb (i =? server_ip c) | None => false end &&
             negb (bool_decide (dhcp_state c = NET_DHCP_REBINDING))
          then mret false
          else dhcp_restart;; mret true
        else if negb (message =? DHCP_MESSAGE_ACK) || negb (is_renewing c) then mret false
        else dhcp_receive_ack options offered server
    end.

(** ** The timer *)

Definition lease_elapsed (s : net_stack) : Z :=
  if lease_started_ms (dhcp s) <=? current_time_ms s then current_time_ms s - lease_started_ms (dhcp s) else 0.

Definition tick_dhcp : NM W unit :=
  s ← gets (fun s => s);
  let c := dhcp s in
  let retry : NM W unit :=
    if negb (deadline_reached (current_time_ms s) (dhcp_next_action_ms c)) then mret tt
    else
      match dhcp_state c with
      | NET_DHCP_DISCOVERING => dhcp_send_message DHCP_MESSAGE_DISCOVER false;; mret tt
      | NET_DHCP_REQUESTING => dhcp_send_message DHCP_MESSAGE_REQUEST false;; mret tt
      | NET_DHCP_RENEWING | NET_DHCP_REBINDING => dhcp_send_message DHCP_MESSAGE_REQUEST true;; mret tt
      | _ => mret tt
      end in
  let advance (state : net_dhcp_state) : NM W unit :=
    mods (upd_dhcp (fun c => set_dhcp_attempts 0 (set_dhcp_state state c)));;
    dhcp_send_message DHCP_MESSAGE_REQUEST true;;
    mret tt in
  match dhcp_state c with
  | NET_DHCP_OFF => mret tt
  | NET_DHCP_BOUND =>
      if seconds_to_ms (lease_seconds c) <=? lease_elapsed s then dhcp_restart
      else if seconds_to_ms (renewal_seconds c) <=? lease_elapsed s then advance NET_DHCP_RENEWING
      else mret tt
  | NET_DHCP_RENEWING =>
      if seconds_to_ms (lease_seconds c) <=? lease_elapsed s then dhcp_restart
      else if seconds_to_ms (rebind_seconds c) <=? lease_elapsed s then advance NET_DHCP_REBINDING
      else retry
  | NET_DHCP_REBINDING =>
      if seconds_to_ms (lease_seconds c) <=? lease_elapsed s then dhcp_restart
      else retry
  | NET_DHCP_DISCOVERING | NET_DHCP_REQUESTING => retry
  end.

End dhcp.
