(* ===== verification/NetDns.v ===== *)
(** * kernel/net.c: DNS names, records, the cache and the resolver

    A parser has two ways not to return a value: [None] is an access outside
    the message, [Some None] the result false.  A name that a parser builds is
    the list of its characters; its array of [NET_DNS_NAME_MAX + 1] bytes holds
    it with a NUL because the list never gets longer than [NET_DNS_NAME_MAX]. *)

From S2P Require Import Prelude TcpSegment NetState NetBytes NetSend.

Definition try_bind {A B} (m : option (option A)) (k : A -> option (option B)) : option (option B) :=
  match m with Some (Some a) => k a | Some None => Some None | None => None end.

Declare Scope net_scope.
Notation "'try!' x := m 'in' k" := (try_bind m (fun x => k))
  (at level 10, x name, m at level 100, k at level 200) : net_scope.
Open Scope net_scope.

(** ** Names *)

Definition DOT : Z := 0x2E.
Definition label_char (c : Z) : bool := (0x20 <? c) && (c <? 0x7F).

(** [dns_validate_and_copy_name] from [length] on; [label] characters of the label are behind. *)
Fixpoint validate_loop (fuel : nat) (destination name : list Z) (n label : Z) : option (option (list Z)) :=
  match fuel with
  | O => None
  | S fuel' =>
      let character := znth name n in
      let bad_label := (label =? 0) || (63 <? label) in
      if character =? 0 then
        if bad_label then Some None else destination ← put destination n [0]; Some (Some destination)
      else if NET_DNS_NAME_MAX <=? n then Some None
      else if character =? DOT then
        if bad_label then Some None
        else if znth name (n + 1) =? 0 then destination ← put destination n [0]; Some (Some destination)
        else destination ← put destination n [character]; validate_loop fuel' destination name (n + 1) 0
      else if negb (label_char character) then Some None
      else if 63 <? label + 1 then Some None
      else destination ← put destination n [character]; validate_loop fuel' destination name (n + 1) (label + 1)
  end.

Definition dns_validate_and_copy_name (destination : list Z) (name : option (list Z)) : option (option (list Z)) :=
  match name with
  | None => Some None
  | Some name => if znth name 0 =? 0 then Some None else validate_loop 255 destination name 0 0
  end.

(** [dns_encode_name(output + base, capacity, name)]: the buffer, and the size or 0. *)
Fixpoint encode_loop (fuel : nat) (output : list Z) (base capacity : Z) (name : list Z)
    (output_offset label_start cursor : Z) : option (list Z * Z) :=
  match fuel with
  | O => None
  | S fuel' =>
      let character := znth name cursor in
      if (character =? DOT) || (character =? 0) then
        let label_size := cursor - label_start in
        if (label_size =? 0) || (63 <? label_size) || (capacity <=? output_offset + 1 + label_size)
        then Some (output, 0)
        else
          label ← sub name label_start label_size;
          output ← put output (base + output_offset) [label_size];
          output ← put output (base + output_offset + 1) label;
          let output_offset := output_offset + 1 + label_size in
          if character =? 0 then
            if capacity <=? output_offset then Some (output, 0)
            else output ← put output (base + output_offset) [0]; Some (output, output_offset + 1)
          else encode_loop fuel' output base capacity name output_offset (cursor + 1) (cursor + 1)
      else encode_loop fuel' output base capacity name output_offset label_start (cursor + 1)
  end.

Definition dns_encode_name (output : list Z) (base capacity : Z) (name : list Z) : option (list Z * Z) :=
  encode_loop (S (length name)) output base capacity name 0 0 0.

Definition ascii_lower (character : Z) : Z :=
  if (0x41 <=? character) && (character <=? 0x5A) then character + (0x61 - 0x41) else character.

(** Two C strings; the end of a list reads as the NUL. *)
Fixpoint dns_names_equal (l r : list Z) : bool :=
  match l, r with
  | [], [] => true
  | [], d :: _ => d =? 0
  | c :: _, [] => c =? 0
  | c :: l, d :: r =>
      if (c =? 0) || (d =? 0) then c =? d
      else if negb (ascii_lower c =? ascii_lower d) then false
      else dns_names_equal l r
  end.

(** [dns_copy_text], and the same lines of the cache: a string into a zeroed array. *)
Definition dns_copy_text (source : list Z) : option (list Z) := put zero_name 0 (cstr source ++ [0]).

(** [hops] rounds were made; [resume] is meaningful once [jumped]. *)
Fixpoint expand_loop (fuel : nat) (message : list Z) (cursor : Z) (output : list Z) (resume : Z) (jumped : bool)
    (hops : Z) : option (option (list Z * Z)) :=
  match fuel with
  | O => None
  | S fuel' =>
      if (size message <=? cursor) || (128 <? hops) then Some None
      else
        n ← rd message cursor;
        let cursor := cursor + 1 in
        if Z.land n 0xC0 =? 0xC0 then
          if size message <=? cursor then Some None
          else
            low ← rd message cursor;
            let pointer := u16 (Z.lor (u16 (Z.shiftl (Z.land n 0x3F) 8)) low) in
            if size message <=? pointer then Some None
            else expand_loop fuel' message pointer output (if jumped then resume else cursor + 1) true (hops + 1)
        else if negb (Z.land n 0xC0 =? 0) || (63 <? n) then Some None
        else if n =? 0 then Some (Some (output, if jumped then resume else cursor))
        else if size message - cursor <? n then Some None
        else if negb (size output =? 0) && (NET_DNS_NAME_MAX <=? size output) then Some None
        else
          let output := if negb (size output =? 0) then output ++ [DOT] else output in
          if NET_DNS_NAME_MAX - size output <? n then Some None
          else
            label ← sub message cursor n;
            if negb (forallb label_char label) then Some None
            else expand_loop fuel' message (cursor + n) (output ++ label) resume jumped (hops + 1)
  end.

(** The name at [offset] and where its encoding ends; 130 rounds are one more than the code allows. *)
Definition dns_expand_name (message : list Z) (offset : Z) : option (option (list Z * Z)) :=
  expand_loop 130 message offset [] 0 false 0.

Definition dns_skip_name (message : list Z) (offset : Z) : option (option Z) :=
  try! r := dns_expand_name message offset in Some (Some r.2).

Definition dns_name_is_within_zone (name zone : list Z) : bool :=
  let name_length := size (cstr name) in
  let zone_length := size (cstr zone) in
  if zone_length =? 0 then true
  else if name_length <? zone_length then false
  else
    let suffix := drop (Z.to_nat (name_length - zone_length)) name in
    if negb (dns_names_equal suffix zone) then false
    else (name_length =? zone_length) || (znth name (name_length - zone_length - 1) =? DOT).

(** ** Records *)

Definition dns_read_record (message : list Z) (offset : Z) : option (option dns_record_view) :=
  if size message <=? offset then Some None
  else
    try! cursor := dns_skip_name message offset in
    if (size message <? cursor) || (size message - cursor <? 10) then Some None
    else
      type ← read_u16_be message cursor;
      class ← read_u16_be message (cursor + 2);
      ttl ← read_u32_be message (cursor + 4);
      n ← read_u16_be message (cursor + 8);
      let cursor := cursor + 10 in
      if size message - cursor <? n then Some None
      else Some (Some (DnsRecordView offset cursor (cursor + n) type class n ttl)).

(** [n] records from [offset] on; the offset behind them. *)
Fixpoint skip_records (n : nat) (message : list Z) (offset : Z) : option (option Z) :=
  match n with
  | O => Some (Some offset)
  | S n' => try! record := dns_read_record message offset in skip_records n' message (next_offset record)
  end.

(** The offset of the authority section. *)
Definition dns_validate_record_sections (message : list Z) (records_offset answer_count authority_count
    additional_count : Z) : option (option Z) :=
  try! authority_offset := skip_records (Z.to_nat answer_count) message records_offset in
  try! offset := skip_records (Z.to_nat authority_count) message authority_offset in
  try! offset := skip_records (Z.to_nat additional_count) message offset in
  if offset =? size message then Some (Some authority_offset) else Some None.

(** ** Answers

    One pass over the answers for [current_name]: the usable address with the
    shortest TTL of its peers, and the alias, if they were found.  [Some None] is
    [DNS_ANSWER_MALFORMED]. *)
Fixpoint scan_answers (n : nat) (message : list Z) (offset : Z) (current_name : list Z)
    (found_address : option (Z * Z)) (found_cname : option (list Z * Z))
    : option (option (option (Z * Z) * option (list Z * Z))) :=
  match n with
  | O => Some (Some (found_address, found_cname))
  | S n' =>
      try! record := dns_read_record message offset in
      try! owner := dns_expand_name message (owner_offset record) in
      let offset := next_offset record in
      if negb (record_class record =? DNS_CLASS_IN) || negb (dns_names_equal owner.1 current_name)
      then scan_answers n' message offset current_name found_address found_cname
      else if record_type record =? DNS_TYPE_A then
        if negb (data_size record =? 4) || bool_decide (is_Some found_cname) then Some None
        else
          candidate ← read_u32_be message (data_offset record);
          if negb (ipv4_is_usable_unicast candidate)
          then scan_answers n' message offset current_name found_address found_cname
          else
            let found := match found_address with
                         | None => (candidate, record_ttl_seconds record)
                         | Some (a, ttl) =>
                             (a, if record_ttl_seconds record <? ttl then record_ttl_seconds record else ttl)
                         end in
            scan_answers n' message offset current_name (Some found) found_cname
      else if record_type record =? DNS_TYPE_CNAME then
        if bool_decide (is_Some found_address) || bool_decide (is_Some found_cname) then Some None
        else
          try! target := dns_expand_name message (data_offset record) in
          if (size target.1 =? 0) || negb (target.2 =? next_offset record) then Some None
          else scan_answers n' message offset current_name found_address
                 (Some (target.1, record_ttl_seconds record))
      else scan_answers n' message offset current_name found_address found_cname
  end.

(** The result, the address, the TTL, and the name the chain ends with. *)
Definition dns_answer : Type := dns_answer_search_result * Z * Z * list Z.

Fixpoint answer_loop (fuel : nat) (hop : Z) (message : list Z) (answers_offset answer_count : Z)
    (current_name : list Z) (effective_ttl : Z) : option dns_answer :=
  match fuel with
  | O => Some (DNS_ANSWER_MALFORMED, 0, UINT32_MAX, [])
  | S fuel' =>
      scanned ← scan_answers (Z.to_nat answer_count) message answers_offset current_name None None;
      match scanned with
      | None => Some (DNS_ANSWER_MALFORMED, 0, UINT32_MAX, [])
      | Some (Some (selected, address_ttl), _) =>
          let ttl := if (effective_ttl =? UINT32_MAX) || (address_ttl <? effective_ttl)
                     then address_ttl else effective_ttl in
          terminal_name ← dns_copy_text current_name;
          Some (DNS_ANSWER_ADDRESS, selected, ttl, terminal_name)
      | Some (None, None) =>
          terminal_name ← dns_copy_text current_name;
          Some (DNS_ANSWER_NOT_FOUND, 0, effective_ttl, terminal_name)
      | Some (None, Some (cname_target, cname_ttl)) =>
          if (hop =? DNS_MAX_CNAME_HOPS) || dns_names_equal cname_target current_name
          then Some (DNS_ANSWER_MALFORMED, 0, UINT32_MAX, [])
          else
            let ttl := if (effective_ttl =? UINT32_MAX) || (cname_ttl <? effective_ttl)
                       then cname_ttl else effective_ttl in
            current_name ← dns_copy_text cname_target;
            answer_loop fuel' (hop + 1) message answers_offset answer_count current_name ttl
      end
  end.

(** [for (hop = 0; hop <= DNS_MAX_CNAME_HOPS; hop++)]. *)
Definition dns_find_address_answer (message : list Z) (answers_offset answer_count : Z) (query_name : list Z)
    : option dns_answer :=
  current_name ← dns_copy_text query_name;
  answer_loop 9 0 message answers_offset answer_count current_name UINT32_MAX.

(** The TTL one authority record allows: [Some (Some 0)] when the loop goes on without it. *)
Definition negative_candidate (message : list Z) (record : dns_record_view) (owner terminal_name : list Z)
    : option (option Z) :=
  if negb (record_type record =? DNS_TYPE_SOA) || negb (record_class record =? DNS_CLASS_IN) ||
     negb (dns_name_is_within_zone terminal_name owner)
  then Some None
  else
    let data_end := next_offset record in
    try! mname := dns_expand_name message (data_offset record) in
    if (size mname.1 =? 0) || (data_end <? mname.2) then Some None
    else
      try! rname := dns_expand_name message mname.2 in
      let next := rname.2 in
      if (size rname.1 =? 0) || (data_end <? next) || negb (data_end - next =? 20) then Some None
      else
        minimum_ttl ← read_u32_be message (next + 16);
        let candidate := if record_ttl_seconds record <? minimum_ttl then record_ttl_seconds record else minimum_ttl in
        Some (Some (if NET_DNS_NEGATIVE_TTL_MAX_SECONDS <? candidate then NET_DNS_NEGATIVE_TTL_MAX_SECONDS else candidate)).

Fixpoint negative_loop (n : nat) (message : list Z) (offset : Z) (terminal_name : list Z) (selected_ttl : Z)
    : option Z :=
  match n with
  | O => Some selected_ttl
  | S n' =>
      r ← (try! record := dns_read_record message offset in
           try! owner := dns_expand_name message (owner_offset record) in Some (Some (record, owner.1)));
      match r with
      | None => Some 0
      | Some (record, owner) =>
          c ← negative_candidate message record owner terminal_name;
          let candidate := default 0 c in
          negative_loop n' message (next_offset record) terminal_name
            (if negb (candidate =? 0) && ((selected_ttl =? 0) || (candidate <? selected_ttl))
             then candidate else selected_ttl)
      end
  end.

Definition dns_find_negative_ttl (message : list Z) (authority_offset authority_count : Z) (terminal_name : list Z)
    : option Z :=
  negative_loop (Z.to_nat authority_count) message authority_offset terminal_name 0.

(** ** The cache *)

Definition dns_cache_remaining_seconds (expires now_ms : Z) : Z :=
  if expires <=? now_ms then 0
  else
    let remaining_ms := expires - now_ms in
    let seconds := remaining_ms / 1000 in
    let seconds := if negb (remaining_ms mod 1000 =? 0) then seconds + 1 else seconds in
    if UINT32_MAX <? seconds then UINT32_MAX else seconds.

Definition cache_expired (now : Z) (e : net_dns_cache_entry) : bool := cache_valid e && (expires_ms e <=? now).

Definition dns_cache_expire (stack : net_stack) : net_stack :=
  let now := current_time_ms stack in
  let gone := Z.of_nat (length (filter (fun e => cache_expired now e = true) (dns_cache stack))) in
  set_dns_cache_expirations (u64 (dns_cache_expirations stack + gone))
    (set_dns_cache ((fun e => if cache_expired now e then set_cache_valid false e else e) <$> dns_cache stack) stack).

Definition cache_matches (name : list Z) (e : net_dns_cache_entry) : Prop :=
  cache_valid e = true /\ dns_names_equal (cache_name e) name = true.
#[global] Instance cache_matches_dec name e : Decision (cache_matches name e).
Proof. apply and_dec; apply _. Defined.

Definition dns_cache_find (stack : net_stack) (name : list Z) : option nat :=
  fst <$> list_find (cache_matches name) (dns_cache stack).

(** A free slot, else the one used longest ago. *)
Fixpoint cache_select (i : nat) (entries : list net_dns_cache_entry) (oldest_use : Z) (selected : option nat)
    : option nat :=
  match entries with
  | [] => selected
  | e :: rest =>
      if negb (cache_valid e) then Some i
      else if last_used_ms e <? oldest_use then cache_select (S i) rest (last_used_ms e) (Some i)
      else cache_select (S i) rest oldest_use selected
  end.

(** The slot to store in, and the stack with the eviction counted. *)
Definition cache_slot (stack : net_stack) (name : list Z) : option nat * net_stack :=
  match dns_cache_find stack name with
  | Some i => (Some i, stack)
  | None =>
      let selected := cache_select 0 (dns_cache stack) UINT64_MAX None in
      let evicts := match selected ≫= (dns_cache stack !!.) with Some e => cache_valid e | None => false end in
      (selected, if evicts then set_dns_cache_evictions (u64 (dns_cache_evictions stack + 1)) stack else stack)
  end.

Definition dns_cache_store (name : list Z) (negative : bool) (ip response_code ttl_seconds : Z) (stack : net_stack)
    : option net_stack :=
  if ttl_seconds =? 0 then Some stack
  else
    let '(selected, stack) := cache_slot (dns_cache_expire stack) name in
    match selected with
    | None => Some stack
    | Some i =>
        copied ← dns_copy_text name;
        let now := current_time_ms stack in
        Some (set_dns_cache
          (<[i := NetDnsCacheEntry true negative copied (if negative then 0 else ip) response_code
                    (saturating_add_u64 now (seconds_to_ms ttl_seconds)) now]> (dns_cache stack)) stack)
    end.

(** ** The resolver *)

(** The query of [dns_send_query]; [Some None] where it returns false. *)
Definition dns_query_message (c : net_dns_client) : option (option (list Z)) :=
  query ← put (zeros DNS_QUERY_CAPACITY) 0 (write_u16_be (dns_transaction_id c));
  query ← put query 2 (write_u16_be DNS_FLAG_RECURSION_DESIRED);
  query ← put query 4 (write_u16_be 1);
  r ← dns_encode_name query DNS_HEADER_SIZE (DNS_QUERY_CAPACITY - DNS_HEADER_SIZE) (dns_name c);
  let '(query, name_size) := r in
  if (name_size =? 0) || (DNS_QUERY_CAPACITY <? DNS_HEADER_SIZE + name_size + 4) then Some None
  else
    let n := DNS_HEADER_SIZE + name_size in
    query ← put query n (write_u16_be DNS_TYPE_A);
    query ← put query (n + 2) (write_u16_be DNS_CLASS_IN);
    query ← sub query 0 (n + 4);
    Some (Some query).

Definition set_dns_result (state : net_dns_state) (stack : net_stack) : net_stack := upd_dns (set_dns_state state) stack.

(** The end of [dns_receive]: what the validated sections say. *)
Definition dns_conclude (message : list Z) (answers_offset authority_offset answer_count authority_count : Z)
    (stack : net_stack) : option net_stack :=
  let code := dns_response_code (dns stack) in
  if negb (code =? 0) && negb (code =? 3) then Some (set_dns_result NET_DNS_SERVER_ERROR stack)
  else
    found ← dns_find_address_answer message answers_offset answer_count (dns_name (dns stack));
    let '(answer, ip, answer_ttl, terminal_name) := found in
    match answer with
    | DNS_ANSWER_MALFORMED => Some (set_dns_result NET_DNS_MALFORMED_RESPONSE stack)
    | DNS_ANSWER_ADDRESS =>
        if negb (code =? 0) then Some (set_dns_result NET_DNS_MALFORMED_RESPONSE stack)
        else
          let stack := upd_dns (fun c => set_dns_state NET_DNS_RESOLVED (set_dns_ttl_seconds answer_ttl
                         (set_result_address ip c))) stack in
          dns_cache_store (dns_name (dns stack)) false ip 0 answer_ttl stack
    | DNS_ANSWER_NOT_FOUND =>
        negative_ttl ← dns_find_negative_ttl message authority_offset authority_count terminal_name;
        let negative_ttl := if negb (negative_ttl =? 0) && negb (answer_ttl =? UINT32_MAX) &&
                               (answer_ttl <? negative_ttl) then answer_ttl else negative_ttl in
        let stack := upd_dns (set_dns_ttl_seconds negative_ttl) stack in
        stack ← (if negb (negative_ttl =? 0)
                 then dns_cache_store (dns_name (dns stack)) true 0 (dns_response_code (dns stack)) negative_ttl stack
                 else Some stack);
        Some (set_dns_result NET_DNS_NOT_FOUND stack)
    end.

(** The question section: the offset behind it when it repeats the query. *)
Definition dns_question (message : list Z) (name : list Z) : option (option Z) :=
  try! question := dns_expand_name message DNS_HEADER_SIZE in
  let next := question.2 in
  if (size message <? next) || (size message - next <? 4) || negb (dns_names_equal question.1 name) then Some None
  else
    type ← read_u16_be message next;
    class ← read_u16_be message (next + 2);
    if negb (type =? DNS_TYPE_A) || negb (class =? DNS_CLASS_IN) then Some None else Some (Some (next + 4)).

(** The guard of [dns_receive]: the reply is from the resolver, to the port and with the id of the query. *)
Definition dns_reply_matches (stack : net_stack) (source_ip source_port destination_port : Z) (message : list Z)
    : option bool :=
  if negb (bool_decide (dns_state (dns stack) = NET_DNS_PENDING)) || negb (source_ip =? dns_server (ipv4 stack)) ||
     negb (source_port =? DNS_SERVER_PORT) || negb (destination_port =? dns_source_port (dns stack)) ||
     (size message <? DNS_HEADER_SIZE)
  then Some false
  else xid ← read_u16_be message 0; Some (xid =? dns_transaction_id (dns stack)).

Definition dns_receive (source_ip source_port destination_port : Z) (message : list Z) (stack : net_stack)
    : option (bool * net_stack) :=
  let malformed (stack : net_stack) := Some (true, set_dns_result NET_DNS_MALFORMED_RESPONSE stack) in
  matches ← dns_reply_matches stack source_ip source_port destination_port message;
  if negb matches then Some (false, stack)
  else
    flags ← read_u16_be message 2;
    if (Z.land flags DNS_FLAG_RESPONSE =? 0) || negb (Z.land flags DNS_FLAG_TRUNCATED =? 0) ||
       negb (Z.land (Z.shiftr flags 11) 0xF =? 0)
    then malformed stack
    else
      let stack := upd_dns (set_dns_response_code (u8 (Z.land flags 0xF))) stack in
      question_count ← read_u16_be message 4;
      answer_count ← read_u16_be message 6;
      authority_count ← read_u16_be message 8;
      additional_count ← read_u16_be message 10;
      if negb (question_count =? 1) || (64 <? u32 (answer_count + authority_count + additional_count))
      then malformed stack
      else
        question ← dns_question message (dns_name (dns stack));
        match question with
        | None => malformed stack
        | Some answers_offset =>
            sections ← dns_validate_record_sections message answers_offset answer_count authority_count additional_count;
            match sections with
            | None => malformed stack
            | Some authority_offset =>
                stack ← dns_conclude message answers_offset authority_offset answer_count authority_count stack;
                Some (true, stack)
            end
        end.

Definition net_dns_get_result (stack : net_stack) : net_dns_result :=
  NetDnsResult (dns_state (dns stack)) (result_address (dns stack)) (dns_ttl_seconds (dns stack))
    (dns_response_code (dns stack)).

(** The queued datagram is the query in progress. *)
Definition pending_is_query (stack : net_stack) : option bool :=
  let p := pending_ipv4 stack in
  if negb (pending_valid p) || negb (pending_protocol p =? NET_IPV4_PROTOCOL_UDP) ||
     negb (pending_destination_ip p =? dns_server (ipv4 stack)) || (pending_payload_size p <? 10)
  then Some false
  else
    source_port ← read_u16_be (pending_payload p) 0;
    destination_port ← read_u16_be (pending_payload p) 2;
    xid ← read_u16_be (pending_payload p) 8;
    Some ((source_port =? dns_source_port (dns stack)) && (destination_port =? DNS_SERVER_PORT) &&
          (xid =? dns_transaction_id (dns stack))).

Definition net_dns_cancel (stack : net_stack) : option (bool * net_stack) :=
  if negb (bool_decide (dns_state (dns stack) = NET_DNS_PENDING)) then Some (false, stack)
  else
    queued ← pending_is_query stack;
    Some (true, set_dns zero_dns (if queued : bool then set_pending_ipv4 zero_pending stack else stack)).

Definition net_dns_clear_result : net_stack -> net_stack := set_dns zero_dns.

(** What the queries of the cache count and list. *)
Definition cache_live (now : Z) (e : net_dns_cache_entry) : bool := cache_valid e && negb (expires_ms e <=? now).

Definition net_dns_cache_get_status (stack : net_stack) : net_dns_cache_status :=
  let live := filter (fun e => cache_live (current_time_ms stack) e = true) (dns_cache stack) in
  let negatives := filter (fun e => cache_negative e = true) live in
  NetDnsCacheStatus NET_DNS_CACHE_SIZE (Z.of_nat (length live)) (Z.of_nat (length live) - Z.of_nat (length negatives))
    (Z.of_nat (length negatives)) (dns_cache_hits stack) (dns_cache_misses stack) (dns_cache_evictions stack)
    (dns_cache_expirations stack).

Definition snapshot_entry (now : Z) (e : net_dns_cache_entry) : option net_dns_cache_entry_info :=
  copied ← dns_copy_text (cache_name e);
  Some (NetDnsCacheEntryInfo copied (if cache_negative e then NET_DNS_CACHE_NEGATIVE else NET_DNS_CACHE_POSITIVE)
          (cache_address e) (dns_cache_remaining_seconds (expires_ms e) now) (cache_response_code e)).

(** The entries written; their number is the result. *)
Fixpoint snapshot_loop (now : Z) (capacity : nat) (cache : list net_dns_cache_entry)
    : option (list net_dns_cache_entry_info) :=
  match capacity, cache with
  | O, _ | _, [] => Some []
  | S capacity', e :: rest =>
      if cache_live now e then
        info ← snapshot_entry now e;
        infos ← snapshot_loop now capacity' rest;
        Some (info :: infos)
      else snapshot_loop now capacity rest
  end.

Definition net_dns_cache_snapshot (stack : net_stack) (entry_capacity : Z) : option (list net_dns_cache_entry_info) :=
  snapshot_loop (current_time_ms stack) (Z.to_nat entry_capacity) (dns_cache stack).

Section query.
  Context {W : Type} (E : net_env W).

Definition dns_send_query : NM W bool :=
  s ← gets (fun s => s);
  built ← lift (dns_query_message (dns s));
  match built return NM W bool with
  | None => mret false
  | Some query =>
      result ← net_udp_send E (dns_server (ipv4 s)) DNS_SERVER_PORT (dns_source_port (dns s)) query;
      mods (upd_dns (fun c => set_dns_attempts (u32 (dns_attempts c + 1)) c));;
      mods (fun s => upd_dns (set_dns_next_action_ms (saturating_add_u64 (current_time_ms s) DNS_RETRY_INTERVAL_MS)) s);;
      mret (negb (bool_decide (result = NET_SEND_FAILED)))
  end.

(** A cached answer taken as the result of the query. *)
Definition answer_from_cache (name : list Z) (i : nat) (e : net_dns_cache_entry) (remaining : Z) (stack : net_stack)
    : net_stack :=
  set_dns (NetDnsClient (if cache_negative e then NET_DNS_NOT_FOUND else NET_DNS_RESOLVED) name 0 0
             (cache_address e) remaining (cache_response_code e) 0 0)
    (set_dns_cache (<[i := set_last_used_ms (current_time_ms stack) e]> (dns_cache stack))
      (set_dns_cache_hits (u64 (dns_cache_hits stack + 1)) stack)).

Definition start_query (name : list Z) (transaction_id : Z) : NM W bool :=
  mods (fun s => set_dns_cache_misses (u64 (dns_cache_misses s + 1)) s);;
  s ← gets (fun s => s);
  if (address (ipv4 s) =? 0) || negb (ipv4_is_usable_unicast (dns_server (ipv4 s))) then mret false
  else
    let chosen := u16 (Z.lxor (next_ipv4_id s) (u16 (current_time_ms s))) in
    let transaction_id :=
      if transaction_id =? 0 then (if chosen =? 0 then 1 else chosen) else transaction_id in
    mods (upd_dns (fun c => NetDnsClient NET_DNS_PENDING name transaction_id
      (u16 (49152 + Z.land transaction_id 0x3FFF)) 0 0 0 (dns_next_action_ms c) 0));;
    dns_send_query;;
    mret true.

Definition net_dns_query (name : option (list Z)) (transaction_id : Z) : NM W bool :=
  validated ← lift (dns_validate_and_copy_name zero_name name);
  match validated return NM W bool with
  | None => mret false
  | Some name =>
      mods dns_cache_expire;;
      s ← gets (fun s => s);
      match dns_cache_find s name ≫= (fun i => e ← dns_cache s !! i; Some (i, e)) return NM W bool with
      | Some (i, e) =>
          let remaining := dns_cache_remaining_seconds (expires_ms e) (current_time_ms s) in
          if negb (remaining =? 0) then mods (answer_from_cache name i e remaining);; mret true
          else start_query name transaction_id
      | None => start_query name transaction_id
      end
  end.

Definition tick_dns : NM W unit :=
  s ← gets (fun s => s);
  if negb (bool_decide (dns_state (dns s) = NET_DNS_PENDING)) ||
     negb (deadline_reached (current_time_ms s) (dns_next_action_ms (dns s))) then mret tt
  else if DNS_MAX_ATTEMPTS <=? dns_attempts (dns s) then mods (set_dns_result NET_DNS_TIMED_OUT)
  else dns_send_query;; mret tt.

End query.
