(* ===== verification/NetInput.v ===== *)
(** * kernel/net.c: receiving frames, the timer, polling *)

From S2P Require Import Prelude TcpSegment NetState NetBytes NetSend NetDhcp NetDns.

Definition udp_checksum_valid (source_ip destination_ip : Z) (udp : list Z) : option bool :=
  supplied ← read_u16_be udp 6;
  if supplied =? 0 then Some true
  else
    checksum ← transport_checksum source_ip destination_ip NET_IPV4_PROTOCOL_UDP udp;
    Some (checksum =? 0).

(** The reply to an echo request, with a checksum. *)
Definition echo_reply_packet (packet : list Z) (checksum : Z) : option (list Z) :=
  reply ← put packet 0 [ICMP_ECHO_REPLY]; put reply 2 (write_u16_be checksum).

(** A reply to the outstanding echo request was received. *)
Definition record_echo_reply (source_ip identifier sequence n : Z) (s : net_stack) : net_stack :=
  let now := current_time_ms s in
  let sent := echo_sent_ms (echo_request s) in
  upd_echo_request (set_echo_pending false)
    (set_echo_reply (NetIcmpEchoReply true source_ip identifier sequence (if sent <=? now then now - sent else 0) n) s).

(** [net_tick] ages the ARP cache. *)
Definition arp_expire (now : Z) (e : net_arp_entry) : net_arp_entry :=
  if arp_valid e && ((now <? refreshed_ms e) || (ARP_ENTRY_LIFETIME_MS <=? now - refreshed_ms e))
  then set_arp_valid false e else e.

Section input.
  Context {W : Type} (E : net_env W).

Definition receive_icmp (source_ip destination_ip : Z) (packet : list Z) : NM W bool :=
  if size packet <? 8 then mret false
  else
    checksum ← lift (internet_checksum packet);
    if negb (checksum =? 0) then mret false
    else
      type ← lift (rd packet 0);
      code ← lift (rd packet 1);
      identifier ← lift (read_u16_be packet 4);
      sequence ← lift (read_u16_be packet 6);
      s ← gets (fun s => s);
      if (type =? ICMP_ECHO_REQUEST) && (code =? 0) && negb (address (ipv4 s) =? 0) &&
         (destination_ip =? address (ipv4 s))
      then
        zeroed ← lift (echo_reply_packet packet 0);
        checksum ← lift (internet_checksum zeroed);
        reply ← lift (echo_reply_packet packet checksum);
        mods count_icmp_echo_requests_received;;
        result ← net_ipv4_send E source_ip NET_IPV4_PROTOCOL_ICMP reply;
        mret (negb (bool_decide (result = NET_SEND_FAILED)))
      else if (type =? ICMP_ECHO_REPLY) && (code =? 0) && echo_pending (echo_request s) &&
              (source_ip =? echo_destination_ip (echo_request s)) &&
              (identifier =? echo_identifier (echo_request s)) && (sequence =? echo_sequence (echo_request s))
      then
        mods (record_echo_reply source_ip identifier sequence (size packet - 8));;
        mods count_icmp_echo_replies_received;;
        mret true
      else mret false.

(** The first binding of the port is called. *)
Definition deliver_udp (datagram : net_udp_datagram) : NM W bool :=
  s ← gets (fun s => s);
  match list_find (binding_matches (datagram_destination_port datagram)) (udp_bindings s) return NM W bool with
  | Some (_, NetUdpBinding _ (Some h) context) => handler (env_udp E h context datagram);; mret true
  | _ => mret false
  end.

Definition receive_udp (source_ip destination_ip : Z) (packet : list Z) : NM W bool :=
  if size packet <? 8 then mret false
  else
    source_port ← lift (read_u16_be packet 0);
    destination_port ← lift (read_u16_be packet 2);
    udp_size ← lift (read_u16_be packet 4);
    if (source_port =? 0) || (destination_port =? 0) || (udp_size <? 8) || negb (udp_size =? size packet)
    then mret false
    else
      valid ← lift (udp_checksum_valid source_ip destination_ip packet);
      if negb valid then mret false
      else
        data ← lift (sub packet 8 (udp_size - 8));
        mods count_udp_datagrams_received;;
        s ← gets (fun s => s);
        if (destination_port =? DHCP_CLIENT_PORT) && (source_port =? DHCP_SERVER_PORT)
        then dhcp_receive E source_ip data
        else if (destination_port =? dns_source_port (dns s)) && (source_port =? DNS_SERVER_PORT)
        then
          r ← lift (dns_receive source_ip source_port destination_port data s);
          mods (fun _ => r.2);;
          mret r.1
        else deliver_udp (NetUdpDatagram source_ip destination_ip source_port destination_port data).

(** The header checks of [receive_ipv4]: its header size and total size when they pass. *)
Definition ipv4_header_sizes (packet : list Z) : option (option (Z * Z)) :=
  if size packet <? NET_IPV4_HEADER_MIN_SIZE then Some None
  else
    version ← rd packet 0;
    let header_size := Z.land version 0x0F * 4 in
    if negb (Z.shiftr version 4 =? 4) || (header_size <? NET_IPV4_HEADER_MIN_SIZE) || (size packet <? header_size)
    then Some None
    else
      total_size ← read_u16_be packet 2;
      fragment ← read_u16_be packet 6;
      ttl ← rd packet 8;
      header ← sub packet 0 header_size;
      checksum ← internet_checksum header;
      if (total_size <? header_size) || (size packet <? total_size) || (ttl =? 0) || negb (checksum =? 0) ||
         negb (Z.land fragment 0x8000 =? 0) || negb (Z.land fragment 0x3FFF =? 0)
      then Some None else Some (Some (header_size, total_size)).

(** Whether the packet is for this host: to its address, a broadcast, or a DHCP
    reply while it has no address. *)
Definition ipv4_is_local (stack : net_stack) (destination_ip protocol header_size total_size : Z) (packet : list Z)
    : option bool :=
  let local_destination := ipv4_destination_is_local stack destination_ip in
  if negb local_destination && (address (ipv4 stack) =? 0) &&
     negb (bool_decide (dhcp_state (dhcp stack) = NET_DHCP_OFF)) && (protocol =? NET_IPV4_PROTOCOL_UDP) &&
     (header_size + 8 <=? total_size)
  then port ← read_u16_be packet (header_size + 2); Some (port =? DHCP_CLIENT_PORT)
  else Some local_destination.

Definition receive_ipv4 (source_mac : list Z) (packet : list Z) : NM W bool :=
  sizes ← lift (ipv4_header_sizes packet);
  match sizes return NM W bool with
  | None => mret false
  | Some (header_size, total_size) =>
      protocol ← lift (rd packet 9);
      source_ip ← lift (read_u32_be packet 12);
      destination_ip ← lift (read_u32_be packet 16);
      s ← gets (fun s => s);
      local ← lift (ipv4_is_local s destination_ip protocol header_size total_size packet);
      if negb local then mret false
      else
        (if ipv4_is_usable_unicast source_ip && ipv4_is_on_link s source_ip
         then mods (arp_learn source_ip source_mac);; flush_pending_ipv4 E;; mret tt else mret tt);;
        payload ← lift (sub packet header_size (total_size - header_size));
        mods count_ipv4_packets_received;;
        if protocol =? NET_IPV4_PROTOCOL_ICMP then receive_icmp source_ip destination_ip payload
        else if protocol =? NET_IPV4_PROTOCOL_UDP then receive_udp source_ip destination_ip payload
        else if protocol =? NET_IPV4_PROTOCOL_TCP then
          s ← gets (fun s => s);
          match tcp_handler s return NM W bool with
          | None => mret false
          | Some h =>
              handler (env_tcp E h (tcp_handler_context s) source_ip destination_ip payload);; mret true
          end
        else mret false
  end.

Definition receive_arp (ethernet_source : list Z) (packet : list Z) : NM W bool :=
  if size packet <? ARP_PACKET_SIZE then mret false
  else
    hardware ← lift (read_u16_be packet 0);
    protocol ← lift (read_u16_be packet 2);
    hardware_size ← lift (rd packet 4);
    protocol_size ← lift (rd packet 5);
    if negb (hardware =? ARP_HARDWARE_ETHERNET) || negb (protocol =? ETHERTYPE_IPV4) ||
       negb (hardware_size =? NET_ETHERNET_ADDRESS_SIZE) || negb (protocol_size =? 4)
    then mret false
    else
      operation ← lift (read_u16_be packet 6);
      sender_mac ← lift (sub packet 8 NET_ETHERNET_ADDRESS_SIZE);
      sender_ip ← lift (read_u32_be packet 14);
      target_mac ← lift (sub packet 18 NET_ETHERNET_ADDRESS_SIZE);
      target_ip ← lift (read_u32_be packet 24);
      if negb (bytes_equal sender_mac ethernet_source) || negb (mac_is_valid_source sender_mac) ||
         negb (ipv4_is_usable_unicast sender_ip)
      then mret false
      else
        s ← gets (fun s => s);
        if operation =? ARP_OPERATION_REQUEST then
          if (address (ipv4 s) =? 0) || negb (target_ip =? address (ipv4 s)) then mret false
          else
            mods (arp_learn sender_ip sender_mac);;
            flush_pending_ipv4 E;;
            send_arp_reply E sender_mac sender_ip
        else if operation =? ARP_OPERATION_REPLY then
          if negb (target_ip =? address (ipv4 s)) || negb (bytes_equal target_mac (mac s)) then mret false
          else
            mods (arp_learn sender_ip sender_mac);;
            mods count_arp_replies_received;;
            flush_pending_ipv4 E;;
            mret true
        else mret false.

(** The part of [net_input] behind the checks of the size and the addresses. *)
Definition dispatch_frame (source : list Z) (frame : list Z) : NM W bool :=
  ethertype ← lift (read_u16_be frame 12);
  packet ← lift (sub frame NET_ETHERNET_HEADER_SIZE (size frame - NET_ETHERNET_HEADER_SIZE));
  if ethertype =? ETHERTYPE_ARP then receive_arp source packet
  else if ethertype =? ETHERTYPE_IPV4 then receive_ipv4 source packet
  else mret false.

Definition net_input (frame : option (list Z)) : NM W bool :=
  match frame with
  | None => mret false
  | Some frame =>
      mods count_frames_received;;
      if (size frame <? NET_ETHERNET_HEADER_SIZE) || (NET_ETHERNET_FRAME_MAX <? size frame)
      then mods count_frames_dropped;; mret false
      else
        destination ← lift (sub frame 0 NET_ETHERNET_ADDRESS_SIZE);
        source ← lift (sub frame NET_ETHERNET_ADDRESS_SIZE NET_ETHERNET_ADDRESS_SIZE);
        s ← gets (fun s => s);
        if (negb (bytes_equal destination (mac s)) && negb (mac_is_broadcast destination)) ||
           negb (mac_is_valid_source source)
        then mods count_frames_dropped;; mret false
        else
          handled ← dispatch_frame source frame;
          (if negb handled then mods count_frames_dropped else mret tt);;
          mret handled
  end.

(** ** The timer *)

Definition tick_pending_arp : NM W unit :=
  s ← gets (fun s => s);
  let pending := pending_ipv4 s in
  let now := current_time_ms s in
  let drop : NM W unit := mods (upd_pending_ipv4 (set_pending_valid false)) in
  if negb (pending_valid pending) then mret tt
  else if (now <? arp_requested_ms pending) || (now - arp_requested_ms pending <? ARP_RETRY_INTERVAL_MS) then mret tt
  else
    match net_arp_lookup s (next_hop_ip pending) return NM W unit with
    | Some _ =>
        if ARP_MAX_ATTEMPTS <=? transmit_attempts pending then drop
        else flush_pending_ipv4 E;; mret tt
    | None =>
        if ARP_MAX_ATTEMPTS <=? arp_attempts pending then drop
        else
          mods (upd_pending_ipv4 (fun p => set_arp_attempts (u32 (arp_attempts p + 1)) (set_arp_requested_ms now p)));;
          net_arp_request E (next_hop_ip pending);;
          mret tt
    end.

Definition expire_echo (s : net_stack) : net_stack :=
  let now := current_time_ms s in
  let sent := echo_sent_ms (echo_request s) in
  if echo_pending (echo_request s) && ((now <? sent) || (ICMP_ECHO_TIMEOUT_MS <=? now - sent))
  then upd_echo_request (set_echo_pending false) s else s.

(** The last test of [net_tick] uses its argument, which the earlier calls leave in [current_time_ms]. *)
Definition net_tick (now_ms : Z) : NM W unit :=
  mods (set_current_time_ms now_ms);;
  mods dns_cache_expire;;
  mods (fun s => set_arp (arp_expire now_ms <$> arp s) s);;
  tick_pending_arp;;
  tick_dhcp E;;
  tick_dns E;;
  mods expire_echo.

(** ** Polling *)

Definition poll_tick : NM W unit :=
  has ← gets (fun s => has_now_ms (link s));
  if has : bool then now ← extern (env_now_ms E); net_tick now else mret tt.

(** At most [n] frames; the number handled. *)
Fixpoint poll_loop (n : nat) (processed : Z) : NM W Z :=
  match n with
  | O => mret processed
  | S n' =>
      buffer ← gets receive_frame;
      polled ← extern (env_poll E buffer);
      mods (set_receive_frame polled.1);;
      let frame_size := polled.2 in
      if frame_size =? 0 then mret processed
      else if NET_ETHERNET_FRAME_MAX <? frame_size then
        mods count_frames_received;; mods count_frames_dropped;; mret processed
      else
        frame ← lift (sub polled.1 0 frame_size);
        handled ← net_input (Some frame);
        poll_loop n' (if handled : bool then processed + 1 else processed)
  end.

Definition net_poll : NM W Z :=
  poll_tick;;
  has ← gets (fun s => has_poll (link s));
  if negb has then mret 0
  else
    processed ← poll_loop (Z.to_nat NET_POLL_BUDGET) 0;
    poll_tick;;
    mret processed.

(** ** Initialisation: the stack after a successful call *)

Definition initial_stack (l : net_link_ops) (m : list Z) (now : Z) : net_stack :=
  NetStack l m zero_config 1 now zero_arp (replicate (Z.to_nat NET_UDP_BINDING_COUNT) zero_binding) zero_pending
    zero_dhcp zero_dns zero_cache 0 0 0 0 None 0 (NetEchoRequest false 0 0 0 0) zero_reply
    (NetStats 0 0 0 0 0 0 0 0 0 0 0) (zeros NET_ETHERNET_FRAME_MAX).

Definition net_init (l : option net_link_ops) (m : option (list Z)) (w : W) : option net_stack * W :=
  match l, m with
  | Some l, Some m =>
      if negb (has_send l) || negb (mac_is_valid_source m) then (None, w)
      else if has_now_ms l then let (now, w) := env_now_ms E w in (Some (initial_stack l m now), w)
      else (Some (initial_stack l m 0), w)
  | _, _ => (None, w)
  end.

End input.
