(* ===== verification/NetParse.v ===== *)
(** * kernel/net.c: the invariant of a stack, and the parsers on any bytes

    Then the parsers of answers, of the cache and of DHCP options. *)

From S2P Require Import Prelude TcpSegment NetState NetBytes NetSend NetDhcp NetDns NetInput.

Open Scope net_scope.

(** ** The invariant *)

Definition port_ok (p : Z) : Prop := 0 <= p < 2 ^ 16.

Record mac_ok (m : list Z) : Prop := MacOk { mac_length : length m = 6%nat; mac_bytes : bytes_ok m }.

Record config_ok (c : net_ipv4_config) : Prop := ConfigOk {
  cfg_address : u32_ok (address c); cfg_netmask : u32_ok (netmask c);
  cfg_gateway : u32_ok (gateway c); cfg_dns : u32_ok (dns_server c) }.

(** The cache maps an address to one hardware address, which a host can have. *)
Record arp_ok (l : list net_arp_entry) : Prop := ArpOk {
  arp_length : length l = 8%nat;
  arp_macs : Forall (fun e => mac_ok (arp_mac e) /\ u64_ok (refreshed_ms e)) l;
  arp_usable : Forall (fun e => arp_valid e = true ->
    ipv4_is_usable_unicast (arp_ip e) = true /\ mac_is_valid_source (arp_mac e) = true) l;
  arp_unique : forall i j a b, l !! i = Some a -> l !! j = Some b -> arp_valid a = true -> arp_valid b = true ->
    arp_ip a = arp_ip b -> i = j }.

(** A port has one handler, and the port of the DHCP client none. *)
Record bindings_ok (l : list net_udp_binding) : Prop := BindingsOk {
  bindings_length : length l = 8%nat;
  bindings_port : Forall (fun b => is_Some (binding_handler b) ->
    binding_port b <> 0 /\ binding_port b <> DHCP_CLIENT_PORT) l;
  bindings_unique : forall i j a b, l !! i = Some a -> l !! j = Some b -> is_Some (binding_handler a) ->
    is_Some (binding_handler b) -> binding_port a = binding_port b -> i = j }.

Record pending_ok (p : net_pending_ipv4) : Prop := PendingOk {
  pend_length : size (pending_payload p) = NET_IPV4_PAYLOAD_MAX;
  pend_bytes : bytes_ok (pending_payload p);
  pend_size : 0 <= pending_payload_size p <= NET_IPV4_PAYLOAD_MAX;
  pend_protocol : byte_ok (pending_protocol p);
  pend_time : u64_ok (arp_requested_ms p);
  pend_attempts : 0 <= arp_attempts p <= ARP_MAX_ATTEMPTS }.

Record dhcp_ok (c : net_dhcp_client) : Prop := DhcpOk {
  dhcp_ids : u32_ok (dhcp_transaction_id c) /\ u32_ok (offered_ip c) /\ u32_ok (server_ip c);
  dhcp_offer : u32_ok (offered_netmask c) /\ u32_ok (offered_gateway c) /\ u32_ok (offered_dns c);
  dhcp_times : u32_ok (lease_seconds c) /\ u32_ok (renewal_seconds c) /\ u32_ok (rebind_seconds c);
  dhcp_started : u64_ok (lease_started_ms c);
  dhcp_bound : dhcp_state c = NET_DHCP_BOUND ->
    renewal_seconds c < lease_seconds c /\ rebind_seconds c < lease_seconds c }.

(** An array that holds a C string. *)
Record name_ok (n : list Z) : Prop := NameOk {
  name_length : size n = NET_DNS_NAME_MAX + 1; name_terminated : is_terminated n; name_bytes : bytes_ok n }.

Record dns_ok (c : net_dns_client) : Prop := DnsOk {
  dns_named : name_ok (dns_name c);
  dns_id : port_ok (dns_transaction_id c);
  dns_port : port_ok (dns_source_port c);
  dns_result : u32_ok (result_address c) /\ u32_ok (dns_ttl_seconds c);
  dns_usable : dns_state c = NET_DNS_RESOLVED -> ipv4_is_usable_unicast (result_address c) = true }.

Record cache_ok (l : list net_dns_cache_entry) : Prop := CacheOk {
  cache_length : length l = 8%nat;
  cache_names : Forall (fun e => name_ok (cache_name e) /\ u32_ok (cache_address e) /\ u64_ok (expires_ms e) /\
    u64_ok (last_used_ms e)) l;
  cache_usable : Forall (fun e => cache_valid e = true ->
    if cache_negative e then cache_address e = 0 else ipv4_is_usable_unicast (cache_address e) = true) l;
  cache_unique : forall i j a b, l !! i = Some a -> l !! j = Some b -> cache_valid a = true -> cache_valid b = true ->
    dns_names_equal (cache_name a) (cache_name b) = true -> i = j }.

Record frame_ok (f : list Z) : Prop := FrameOk {
  frame_length : size f = NET_ETHERNET_FRAME_MAX; frame_bytes : bytes_ok f }.

Record net_ok (s : net_stack) : Prop := NetOk {
  ok_mac : mac_ok (mac s);
  ok_config : config_ok (ipv4 s);
  ok_id : port_ok (next_ipv4_id s);
  ok_time : u64_ok (current_time_ms s);
  ok_arp : arp_ok (arp s);
  ok_bindings : bindings_ok (udp_bindings s);
  ok_pending : pending_ok (pending_ipv4 s);
  ok_dhcp : dhcp_ok (dhcp s);
  ok_dns : dns_ok (dns s);
  ok_cache : cache_ok (dns_cache s);
  ok_echo : u64_ok (echo_sent_ms (echo_request s));
  ok_frame : frame_ok (receive_frame s) }.

(** ** Parsers: [None] is excluded, a result satisfies [P] *)

Definition parses {A} (m : option (option A)) (P : A -> Prop) : Prop :=
  exists r, m = Some r /\ forall a, r = Some a -> P a.

Lemma parses_none {A} (P : A -> Prop) : parses (Some None) P.
Proof. by eexists. Qed.

Lemma parses_some {A} (a : A) (P : A -> Prop) : P a -> parses (Some (Some a)) P.
Proof. intros H. eexists. split; [done|]. by intros ? [= <-]. Qed.

Lemma parses_try {A B} (m : option (option A)) (k : A -> option (option B)) P Q :
  parses m P -> (forall a, P a -> parses (k a) Q) -> parses (try! x := m in k x) Q.
Proof. intros ([a|] & -> & H) Hk; cbn [try_bind]; [apply Hk; eauto|apply parses_none]. Qed.

Lemma parses_bind {A B} (o : option A) (k : A -> option (option B)) a P :
  o = Some a -> parses (k a) P -> parses (x ← o; k x) P.
Proof. by intros ->. Qed.

Lemma parses_mono {A} (m : option (option A)) (P Q : A -> Prop) :
  parses m P -> (forall a, P a -> Q a) -> parses m Q.
Proof. intros (r & E & H) HQ. exists r. eauto. Qed.

(** Follow a test of a parser. *)
Ltac parse_if :=
  match goal with |- parses (if ?b then _ else _) _ => destruct b eqn:? end; bdestr_hyps; try apply parses_none.

(** ** Names *)

Lemma bytes_one c : byte_ok c -> bytes_ok [c].
Proof. intros. by apply Forall_singleton. Qed.

Lemma size_lookup l i : 0 <= i < size l -> is_Some (l !! Z.to_nat i).
Proof. unfold size. intros. apply lookup_lt_is_Some. lia. Qed.

Lemma rd_ok bytes p : bytes_ok bytes -> 0 <= p < size bytes -> exists b, rd bytes p = Some b /\ byte_ok b.
Proof.
  intros Hb Hp. destruct (rd_Some bytes p Hp) as [b E]. exists b. split; [done|]. by eapply rd_byte.
Qed.

Lemma sub_ok bytes p n : bytes_ok bytes -> 0 <= p -> 0 <= n -> p + n <= size bytes ->
  exists s, sub bytes p n = Some s /\ bytes_ok s /\ size s = n.
Proof.
  intros Hb H1 H2 H3. destruct (sub_Some bytes p n H1 H2 H3) as (s & E & Hn & _). exists s.
  split; [done|]. split; [by eapply sub_bytes_ok|done].
Qed.

Lemma put_ok l p v : bytes_ok l -> bytes_ok v -> 0 <= p -> p + size v <= size l ->
  exists l', put l p v = Some l' /\ bytes_ok l' /\ size l' = size l.
Proof.
  intros Hl Hv H1 H2. destruct (put_Some l p v H1 H2) as (l' & E & Hn & ->). eexists. split; [done|].
  split; [by apply memcpy_at_Forall|done].
Qed.

Definition name_char (c : Z) : Prop := 0x20 < c < 0x7F.

Lemma label_chars l : forallb label_char l = true -> Forall name_char l.
Proof.
  intros H. apply Forall_forall. intros x Hx%list_elem_of_In. eapply forallb_forall in H; [|done].
  unfold label_char, name_char in *. lia.
Qed.

Lemma name_char_byte l : Forall name_char l -> bytes_ok l.
Proof. intros. eapply Forall_impl; [done|]. unfold name_char, byte_ok. lia. Qed.

Lemma name_char_nonzero l : Forall name_char l -> Forall (fun c => c <> 0) l.
Proof. intros. eapply Forall_impl; [done|]. unfold name_char. lia. Qed.

Definition name_result (message : list Z) (r : list Z * Z) : Prop :=
  size r.1 <= NET_DNS_NAME_MAX /\ Forall name_char r.1 /\ 0 <= r.2 <= size message.

Lemma expand_loop_safe fuel message cursor output resume jumped hops :
  bytes_ok message -> 0 <= cursor -> 0 <= hops -> 130 <= Z.of_nat fuel + hops -> hops <= 129 ->
  size output <= NET_DNS_NAME_MAX -> Forall name_char output -> (jumped = true -> 0 <= resume <= size message) ->
  parses (expand_loop fuel message cursor output resume jumped hops) (name_result message).
Proof.
  intros Hm. revert cursor output resume jumped hops.
  induction fuel as [|fuel IH]; intros cursor output resume jumped hops Hc H0 Hf Hh Hs Ho Hr; [lia|].
  cbn [expand_loop]. parse_if. destruct (rd_ok message cursor Hm ltac:(lia)) as (n & En & Hn).
  eapply parses_bind; [done|]. cbv zeta. parse_if.
  { parse_if. destruct (rd_ok message (cursor + 1) Hm ltac:(lia)) as (low & El & Hl).
    eapply parses_bind; [done|]. pose proof (u16_range (Z.lor (u16 (Z.shiftl (Z.land n 63) 8)) low)).
    parse_if. apply IH; try done; try lia. intros _. destruct jumped; [by apply Hr|lia]. }
  parse_if. unfold byte_ok in Hn.
  destruct (Z.eqb_spec n 0); cbn [negb].
  { apply parses_some. split; [done|]. split; [done|]. cbn [snd]. destruct jumped; [by apply Hr|lia]. }
  parse_if. parse_if. 
  set (output' := if negb (size output =? 0) then output ++ [DOT] else output).
  assert (Ho' : Forall name_char output').
  { unfold output'. destruct (negb _); [|done]. apply Forall_app_2; [done|]. repeat constructor; done. }
  parse_if. destruct (sub_ok message (cursor + 1) n Hm ltac:(lia) ltac:(lia) ltac:(lia)) as (label & Elb & _ & Hlb).
  eapply parses_bind; [done|]. destruct (forallb label_char label) eqn:Hlc; cbn [negb]; [|apply parses_none].
  apply IH; try done; try lia.
  - rewrite size_app. lia.
  - apply Forall_app_2; [done|]. by apply label_chars.
Qed.

Lemma expand_name_safe message offset :
  bytes_ok message -> 0 <= offset -> parses (dns_expand_name message offset) (name_result message).
Proof.
  intros Hm Ho. unfold dns_expand_name. apply expand_loop_safe; try done; try lia.
Qed.

Record record_ok (message : list Z) (r : dns_record_view) : Prop := RecordOk {
  rec_owner : 0 <= owner_offset r < size message;
  rec_data : 0 <= data_offset r;
  rec_size : 0 <= data_size r;
  rec_next : next_offset r = data_offset r + data_size r /\ next_offset r <= size message;
  rec_ttl : u32_ok (record_ttl_seconds r) }.

Lemma read_record_safe message offset :
  bytes_ok message -> 0 <= offset -> parses (dns_read_record message offset) (record_ok message).
Proof.
  intros Hm Ho. unfold dns_read_record. parse_if.
  apply parses_try with (fun c => 0 <= c <= size message).
  { unfold dns_skip_name. eapply parses_try; [by apply expand_name_safe|]. intros [n c] (_ & _ & H). by apply parses_some. }
  intros c Hc. parse_if.
  destruct (read_u16_be_Some message c Hm ltac:(lia) ltac:(lia)) as (ty & -> & _).
  destruct (read_u16_be_Some message (c + 2) Hm ltac:(lia) ltac:(lia)) as (cl & -> & _).
  destruct (read_u32_be_Some message (c + 4) Hm ltac:(lia) ltac:(lia)) as (ttl & -> & Httl).
  destruct (read_u16_be_Some message (c + 8) Hm ltac:(lia) ltac:(lia)) as (n & -> & Hn).
  rewrite !some_bind. cbv zeta. parse_if. apply parses_some. constructor; cbn; try done; lia.
Qed.

Lemma skip_records_safe n message offset :
  bytes_ok message -> 0 <= offset -> parses (skip_records n message offset) (fun o => 0 <= o).
Proof.
  intros Hm. revert offset. induction n as [|n IH]; intros offset Ho; cbn [skip_records]; [by apply parses_some|].
  eapply parses_try; [by apply read_record_safe|]. intros r [H1 H2 H3 H4 H5]. apply IH. lia.
Qed.

Lemma validate_sections_safe message o a b c :
  bytes_ok message -> 0 <= o -> parses (dns_validate_record_sections message o a b c) (fun o => 0 <= o).
Proof.
  intros Hm Ho. unfold dns_validate_record_sections. eapply parses_try; [by apply skip_records_safe|]. intros o1 H1.
  cbv beta in H1. eapply parses_try; [by apply skip_records_safe|]. intros o2 H2. cbv beta in H2.
  eapply parses_try; [by apply skip_records_safe|]. intros o3 H3. destruct (o3 =? size message); [by apply parses_some|apply parses_none].
Qed.

(** ** C strings in arrays *)

Lemma zero_name_ok : name_ok zero_name.
Proof. split; [done| |apply bytes_ok_zeros]. apply list_elem_of_lookup_2 with 0%nat. reflexivity. Qed.

Lemma name_cstr n : name_ok n -> size (cstr n) <= NET_DNS_NAME_MAX /\ bytes_ok (cstr n).
Proof.
  intros [Hl Ht Hb]. split; [|by apply cstr_bytes_ok]. apply length_cstr_terminated in Ht. unfold size in *.
  net_consts. lia.
Qed.

Lemma copy_text_safe source : size (cstr source) <= NET_DNS_NAME_MAX -> bytes_ok source ->
  exists n, dns_copy_text source = Some n /\ name_ok n /\ cstr n = cstr source.
Proof.
  intros Hs Hb. unfold dns_copy_text.
  destruct (put_ok zero_name 0 (cstr source ++ [0])) as (n & En & Hn & Hl).
  - apply bytes_ok_zeros.
  - apply Forall_app_2; [by apply cstr_bytes_ok|]. apply bytes_one; unfold byte_ok; lia.
  - done.
  - rewrite size_app. change (size zero_name) with 254. change (size [0]) with 1. net_consts. lia.
  - exists n. split; [done|]. apply put_inv in En as (_ & Hr & -> & _).
    assert (Hsplit : memcpy_at zero_name (Z.to_nat 0) (cstr source ++ [0]) =
              cstr source ++ 0 :: drop (length (cstr source) + 1) zero_name).
    { rewrite memcpy_at_in by (rewrite size_app in Hr; unfold size in Hr; rewrite length_app; lia).
      cbn [Z.to_nat take app Nat.add]. by rewrite <- app_assoc, length_app. }
    split; [|rewrite Hsplit; apply cstr_app_0, cstr_nonzero].
    split; [exact Hl| |exact Hn]. rewrite Hsplit. unfold is_terminated. rewrite elem_of_app, elem_of_cons. auto.
Qed.

Lemma name_chars_cstr n : Forall name_char n -> cstr n = n.
Proof. intros. by apply cstr_idem, name_char_nonzero. Qed.

(** ** Names of callers, and queries *)

Lemma byte_znth l i : bytes_ok l -> byte_ok (znth l i).
Proof.
  intros Hb. unfold znth. destruct (l !! Z.to_nat i) as [b|] eqn:E; cbn [default]; [|unfold byte_ok; lia].
  eapply Forall_lookup_1 in E; [exact E|exact Hb].
Qed.

Lemma put_terminated l p l' : put l p [0] = Some l' -> 0 <= p < size l -> is_terminated l'.
Proof.
  intros (_ & Hr & -> & _)%put_inv Hp. unfold size in *. cbn [length] in Hr.
  apply list_elem_of_lookup_2 with (Z.to_nat p). rewrite lookup_memcpy_in by (cbn [length]; lia).
  by rewrite Nat.sub_diag.
Qed.

Lemma validate_loop_safe fuel destination name n label :
  size destination = 254 -> bytes_ok destination -> bytes_ok name -> 0 <= n <= 253 -> 255 <= Z.of_nat fuel + n ->
  parses (validate_loop fuel destination name n label) name_ok.
Proof.
  intros Hd Hb Hname. revert destination n label Hd Hb.
  induction fuel as [|fuel IH]; intros destination n label Hd Hb Hn Hf; [lia|].
  assert (Hend : parses (destination ← put destination n [0]; Some (Some destination)) name_ok).
  { destruct (put_ok destination n [0]) as (d & E & Hdb & Hdl).
    - done.
    - apply bytes_one; unfold byte_ok; lia.
    - lia.
    - change (size [0]) with 1. lia.
    - rewrite E, some_bind. apply parses_some. split; [net_consts; lia| |exact Hdb].
      eapply put_terminated; [exact E|lia]. }
  assert (Hgo : forall c label, byte_ok c -> n < 253 ->
            parses (destination ← put destination n [c]; validate_loop fuel destination name (n + 1) label) name_ok).
  { intros c label' Hc Hlt. destruct (put_ok destination n [c]) as (d & E & Hdb & Hdl).
    - done.
    - by apply bytes_one.
    - lia.
    - change (size [c]) with 1. lia.
    - rewrite E, some_bind. apply IH; (done || lia). }
  pose proof (byte_znth name n Hname) as Hc.
  cbn [validate_loop]. cbv zeta. destruct (znth name n =? 0); [by destruct ((label =? 0) || (63 <? label)); [apply parses_none|]|].
  parse_if. net_consts. destruct (znth name n =? DOT).
  { destruct ((label =? 0) || (63 <? label)); [apply parses_none|]. destruct (znth name (n + 1) =? 0); [exact Hend|].
    apply Hgo; [exact Hc|lia]. }
  parse_if. parse_if. apply Hgo; [exact Hc|lia].
Qed.

Definition name_arg_ok (name : option (list Z)) : Prop := match name with Some n => bytes_ok n | None => True end.

Lemma validate_safe name : name_arg_ok name -> parses (dns_validate_and_copy_name zero_name name) name_ok.
Proof.
  intros Hn. destruct name as [name|]; [|apply parses_none]. unfold dns_validate_and_copy_name.
  destruct (znth name 0 =? 0); [apply parses_none|]. apply validate_loop_safe; try done; try apply bytes_ok_zeros; lia.
Qed.

Lemma znth_cstr_end n : name_ok n -> znth n (size (cstr n)) = 0.
Proof.
  intros [_ Ht _]. destruct (cstr_split n Ht) as [t E]. unfold znth, size. rewrite Nat2Z.id.
  transitivity (default 0 ((cstr n ++ 0 :: t) !! length (cstr n))); [by rewrite <- E|].
  by rewrite lookup_app_r, Nat.sub_diag by lia.
Qed.

Lemma encode_loop_safe fuel output base capacity name o start cursor :
  name_ok name -> bytes_ok output -> 0 <= base -> base + capacity <= size output ->
  0 <= o -> 0 <= start <= cursor -> cursor <= size (cstr name) -> size (cstr name) < Z.of_nat fuel + cursor ->
  exists output' n, encode_loop fuel output base capacity name o start cursor = Some (output', n) /\
    bytes_ok output' /\ size output' = size output /\ 0 <= n <= Z.max 0 capacity.
Proof.
  intros Hn. revert output o start cursor.
  induction fuel as [|fuel IH]; intros output o start cursor Hb Hbase Hcap Ho Hs Hc Hf; [lia|].
  pose proof (name_cstr name Hn) as [Hlen _]. pose proof (name_length _ Hn) as Hsz. pose proof (name_bytes _ Hn) as Hnb.
  net_consts. assert (Hend : znth name cursor <> 0 -> cursor < size (cstr name)).
  { intros Hz. destruct (decide (cursor = size (cstr name))) as [->|]; [by rewrite znth_cstr_end in Hz|lia]. }
  cbn [encode_loop]. cbv zeta. destruct ((znth name cursor =? DOT) || (znth name cursor =? 0)) eqn:Echar.
  2: { bdestr_hyps. apply IH; (done || lia). }
  destruct ((cursor - start =? 0) || (63 <? cursor - start) || (capacity <=? o + 1 + (cursor - start))) eqn:Ebad.
  { exists output, 0. split; [done|]. split; [done|]. lia. }
  bdestr_hyps. destruct (sub_ok name start (cursor - start) Hnb ltac:(lia) ltac:(lia) ltac:(lia)) as (label & -> & Hlb & Hls).
  rewrite some_bind.
  destruct (put_ok output (base + o) [cursor - start]) as (o1 & -> & Hb1 & Hl1).
  { done. } { apply bytes_one; unfold byte_ok; lia. } { lia. } { change (size [_]) with 1. lia. }
  rewrite some_bind.
  destruct (put_ok o1 (base + o + 1) label) as (o2 & -> & Hb2 & Hl2); [done|done|lia|lia|]. rewrite some_bind.
  destruct (Z.eqb_spec (znth name cursor) 0) as [Ez|Ez].
  - destruct (Z.leb_spec capacity (o + 1 + (cursor - start))); [lia|].
    destruct (put_ok o2 (base + (o + 1 + (cursor - start))) [0]) as (o3 & -> & Hb3 & Hl3).
    { done. } { apply bytes_one; unfold byte_ok; lia. } { lia. } { change (size [_]) with 1. lia. }
    rewrite some_bind. eexists _, _. split; [reflexivity|]. split; [done|]. lia.
  - destruct (IH o2 (o + 1 + (cursor - start)) (cursor + 1) (cursor + 1)) as (o' & n & E & B3 & S3 & R3); try done; try lia.
    exists o', n. split; [exact E|]. split; [done|]. lia.
Qed.

Lemma query_message_safe c :
  dns_ok c -> parses (dns_query_message c) (fun q => bytes_ok q /\ size q <= DNS_QUERY_CAPACITY).
Proof.
  intros [Hn _ _ _]. unfold dns_query_message.
  destruct (put_ok (zeros DNS_QUERY_CAPACITY) 0 (write_u16_be (dns_transaction_id c))) as (q1 & -> & B1 & S1);
    [apply bytes_ok_zeros|apply write_u16_be_ok|done|done|]. rewrite some_bind.
  change (size (zeros DNS_QUERY_CAPACITY)) with 271 in S1.
  destruct (put_ok q1 2 (write_u16_be DNS_FLAG_RECURSION_DESIRED)) as (q2 & -> & B2 & S2);
    [done|apply write_u16_be_ok|done|rewrite S1; done|]. rewrite some_bind.
  destruct (put_ok q2 4 (write_u16_be 1)) as (q3 & -> & B3 & S3);
    [done|apply write_u16_be_ok|done|rewrite S2, S1; done|]. rewrite some_bind. unfold dns_encode_name.
  pose proof (name_cstr _ Hn) as [Hlen _]. pose proof (name_length _ Hn) as Hsz. unfold size in Hlen, Hsz.
  destruct (encode_loop_safe (S (length (dns_name c))) q3 DNS_HEADER_SIZE (DNS_QUERY_CAPACITY - DNS_HEADER_SIZE)
              (dns_name c) 0 0 0) as (q4 & n & -> & B4 & S4 & Hnr); try done; try (net_consts; lia).
  { unfold size. net_consts. lia. } { unfold size. net_consts. lia. }
  rewrite some_bind. cbv beta zeta match. parse_if.
  net_consts. destruct (put_ok q4 (12 + n) (write_u16_be 1)) as (q5 & -> & B5 & S5);
    [done|apply write_u16_be_ok|lia|change (size (write_u16_be _)) with 2; lia|]. rewrite some_bind.
  destruct (put_ok q5 (12 + n + 2) (write_u16_be 1)) as (q6 & -> & B6 & S6);
    [done|apply write_u16_be_ok|lia|change (size (write_u16_be _)) with 2; lia|]. rewrite some_bind.
  destruct (sub_ok q6 0 (12 + n + 4)) as (q7 & -> & B7 & S7); [done|lia|lia|lia|]. rewrite some_bind.
  apply parses_some. split; [done|]. lia.
Qed.

(** * kernel/net.c: DNS answers, the cache and DHCP options on any bytes *)

Open Scope net_scope.

(** ** Answers *)

Definition scan_result (r : option (Z * Z) * option (list Z * Z)) : Prop :=
  (forall a ttl, r.1 = Some (a, ttl) -> ipv4_is_usable_unicast a = true /\ u32_ok a /\ u32_ok ttl) /\
  (forall n ttl, r.2 = Some (n, ttl) -> size n <= NET_DNS_NAME_MAX /\ Forall name_char n /\ u32_ok ttl).

Lemma scan_answers_safe n message offset current a c :
  bytes_ok message -> 0 <= offset -> scan_result (a, c) ->
  parses (scan_answers n message offset current a c) scan_result.
Proof.
  intros Hm. revert offset a c. induction n as [|n IH]; intros offset a c Ho Hr; cbn [scan_answers]; [by apply parses_some|].
  eapply parses_try; [by apply read_record_safe|]. intros r [R1 R2 R3 R4 R5].
  eapply parses_try; [apply expand_name_safe; [done|lia]|]. intros owner _. cbv zeta.
  assert (Hskip : parses (scan_answers n message (next_offset r) current a c) scan_result) by (apply IH; [lia|done]).
  destruct (negb (record_class r =? DNS_CLASS_IN) || negb (dns_names_equal owner.1 current)); [exact Hskip|].
  destruct (record_type r =? DNS_TYPE_A).
  - parse_if.
    destruct (read_u32_be_Some message (data_offset r) Hm) as (v & Ev & Hv); [lia|lia|].
    eapply parses_bind; [exact Ev|]. destruct (ipv4_is_usable_unicast v) eqn:Eu; cbn [negb]; [|exact Hskip].
    apply IH; [lia|]. destruct Hr as [Hr1 Hr2]. split; [|exact Hr2]. cbn [fst]. intros a' ttl' E.
    apply (inj Some) in E. destruct a as [[a0 t0]|].
    + destruct (Hr1 a0 t0 eq_refl) as (U1 & U2 & U3). apply pair_eq in E as [<- <-]. split; [done|]. split; [done|].
      destruct (record_ttl_seconds r <? t0); done.
    + apply pair_eq in E as [<- <-]. done.
  - destruct (record_type r =? DNS_TYPE_CNAME); [|exact Hskip]. parse_if.
    eapply parses_try; [apply expand_name_safe; [done|lia]|]. intros [tn te] (T1 & T2 & T3). parse_if.
    apply IH; [lia|]. destruct Hr as [Hr1 Hr2]. split; [exact Hr1|]. cbn [snd fst]. intros n' ttl' E.
    apply (inj Some), pair_eq in E as [<- <-]. done.
Qed.

Definition answer_ok (r : dns_answer) : Prop :=
  let '(result, ip, ttl, terminal) := r in
  u32_ok ip /\ u32_ok ttl /\ (result = DNS_ANSWER_ADDRESS -> ipv4_is_usable_unicast ip = true).

Lemma malformed_ok : answer_ok (DNS_ANSWER_MALFORMED, 0, UINT32_MAX, []).
Proof. by unfold answer_ok, u32_ok, UINT32_MAX. Qed.

Lemma answer_loop_safe fuel hop message o n current ttl :
  bytes_ok message -> 0 <= o -> name_ok current -> u32_ok ttl ->
  exists r, answer_loop fuel hop message o n current ttl = Some r /\ answer_ok r.
Proof.
  intros Hm Ho. revert hop current ttl. induction fuel as [|fuel IH]; intros hop current ttl Hc Ht; cbn [answer_loop].
  { eexists. split; [done|apply malformed_ok]. }
  destruct (scan_answers_safe (Z.to_nat n) message o current None None Hm Ho) as (r & -> & Hr); [by split|].
  rewrite some_bind. destruct (name_cstr _ Hc) as [Hcs Hcb]. pose proof (name_bytes _ Hc) as Hnb.
  destruct (copy_text_safe current Hcs Hnb) as (cur & Ecur & Hcur & _). rewrite Ecur.
  destruct r as [[[[sel attl]|] [[tn tt']|]]|]; rewrite ?some_bind.
  - destruct (proj1 (Hr _ eq_refl) sel attl eq_refl) as (U & V & X). eexists. split; [done|].
    split; [done|]. split; [|done]. by destruct (_ || _).
  - destruct (proj1 (Hr _ eq_refl) sel attl eq_refl) as (U & V & X). eexists. split; [done|].
    split; [done|]. split; [|done]. by destruct (_ || _).
  - destruct (proj2 (Hr _ eq_refl) tn tt' eq_refl) as (U & V & X).
    destruct (_ || _); [eexists; split; [done|apply malformed_ok]|].
    destruct (copy_text_safe tn) as (n' & En & Hn' & _);
      [by rewrite name_chars_cstr|by apply name_char_byte|]. rewrite En, some_bind. apply IH; [done|]. by destruct (_ || _).
  - eexists. split; [done|]. by split.
  - eexists. split; [done|apply malformed_ok].
Qed.

Lemma find_answer_safe message o n name :
  bytes_ok message -> 0 <= o -> name_ok name ->
  exists r, dns_find_address_answer message o n name = Some r /\ answer_ok r.
Proof.
  intros Hm Ho Hn. unfold dns_find_address_answer. destruct (name_cstr _ Hn) as [Hcs _].
  destruct (copy_text_safe name Hcs (name_bytes _ Hn)) as (cur & -> & Hcur & _). rewrite some_bind.
  apply answer_loop_safe; done.
Qed.

Lemma negative_candidate_safe message r owner terminal :
  bytes_ok message -> record_ok message r ->
  parses (negative_candidate message r owner terminal) u32_ok.
Proof.
  intros Hm [R1 R2 R3 R4 R5]. unfold negative_candidate. parse_if. cbv zeta.
  eapply parses_try; [by apply expand_name_safe|]. intros [mn me] (_ & _ & M). cbn [fst snd] in *. parse_if.
  eapply parses_try; [apply expand_name_safe; [done|lia]|]. intros [rn re] (_ & _ & N). cbn [fst snd] in *. parse_if.
  destruct (read_u32_be_Some message (re + 16) Hm) as (v & Ev & Hv); [lia|lia|].
  eapply parses_bind; [exact Ev|]. apply parses_some. net_consts. unfold u32_ok in *.
  destruct (record_ttl_seconds r <? v); destruct (60 <? _); lia.
Qed.

Lemma negative_loop_safe n message o terminal ttl :
  bytes_ok message -> 0 <= o -> u32_ok ttl -> exists v, negative_loop n message o terminal ttl = Some v /\ u32_ok v.
Proof.
  intros Hm. revert o ttl. induction n as [|n IH]; intros o ttl Ho Ht; cbn [negative_loop]; [eauto|].
  assert (Hrec : parses (try! record := dns_read_record message o in
            try! owner := dns_expand_name message (owner_offset record) in Some (Some (record, owner.1)))
            (fun x => record_ok message x.1)).
  { eapply parses_try; [by apply read_record_safe|]. intros r Hr. destruct (rec_owner _ _ Hr).
    eapply parses_try; [by apply expand_name_safe|]. intros x _. by apply parses_some. }
  destruct Hrec as (r & -> & Hr). rewrite some_bind. destruct r as [[r owner]|]; [|by eexists].
  specialize (Hr _ eq_refl). cbn [fst] in Hr.
  destruct (negative_candidate_safe message r owner terminal Hm Hr) as (c & -> & Hc). rewrite some_bind. cbv zeta.
  destruct Hr as [R1 R2 R3 R4 R5]. apply IH; [lia|].
  destruct (_ && _); [|done]. destruct c; [by apply Hc|done].
Qed.

(** ** The cache *)

Lemma remaining_seconds_range e now : u32_ok (dns_cache_remaining_seconds e now).
Proof.
  unfold dns_cache_remaining_seconds, u32_ok, UINT32_MAX. destruct (Z.leb_spec e now); [lia|]. cbv zeta.
  pose proof (Z.div_pos (e - now) 1000 ltac:(lia) ltac:(lia)).
  destruct (negb _); match goal with |- context [2 ^ 32 - 1 <? ?x] => destruct (Z.ltb_spec (2 ^ 32 - 1) x) end; lia.
Qed.

Lemma cache_fmap_ok f l :
  (forall e, cache_name (f e) = cache_name e /\ cache_address (f e) = cache_address e /\
             cache_negative (f e) = cache_negative e /\ expires_ms (f e) = expires_ms e /\
             (cache_valid (f e) = true -> cache_valid e = true)) ->
  (forall e, u64_ok (last_used_ms e) -> u64_ok (last_used_ms (f e))) ->
  cache_ok l -> cache_ok (f <$> l).
Proof.
  intros Hf Hu [L1 L2 L3 L4]. constructor.
  - by rewrite length_fmap.
  - apply Forall_fmap. eapply Forall_impl; [exact L2|]. intros e (A & B & C & D). unfold compose.
    destruct (Hf e) as (-> & -> & _ & -> & _). auto.
  - apply Forall_fmap. eapply Forall_impl; [exact L3|]. intros e A. unfold compose. cbv beta.
    destruct (Hf e) as (_ & Ea & En & _ & V). intros Hv. rewrite En, Ea. by apply A, V.
  - intros i j a b Hi Hj Va Vb Hn. rewrite list_lookup_fmap in Hi, Hj.
    apply fmap_Some in Hi as (x & Ex & ->). apply fmap_Some in Hj as (y & Ey & ->).
    destruct (Hf x) as (Nx & _ & _ & _ & Vx). destruct (Hf y) as (Ny & _ & _ & _ & Vy). rewrite Nx, Ny in Hn.
    eapply L4; eauto.
Qed.

Lemma cache_expire_ok s : cache_ok (dns_cache s) -> cache_ok (dns_cache (dns_cache_expire s)).
Proof.
  intros H. unfold dns_cache_expire. cbv zeta. net_simpl. apply cache_fmap_ok; [| |done];
    intros e; destruct (cache_expired (current_time_ms s) e); net_simpl; auto.
  split_and!; try done.
Qed.

Lemma zero_cache_ok : cache_ok zero_cache.
Proof.
  constructor; [done| | |].
  - apply Forall_replicate. split; [apply zero_name_ok|]. by unfold u32_ok, u64_ok.
  - by apply Forall_replicate.
  - intros i j a b [-> _]%lookup_replicate_1 _ Hv. done.
Qed.

(** Comparing names is comparing the strings in lower case. *)
Lemma names_equal_spec a b : dns_names_equal a b = true <-> ascii_lower <$> cstr a = ascii_lower <$> cstr b.
Proof.
  revert b. induction a as [|x a IH]; intros [|y b]; cbn [dns_names_equal cstr fmap list_fmap].
  - done.
  - destruct (Z.eqb_spec y 0); done.
  - destruct (Z.eqb_spec x 0); done.
  - destruct (Z.eqb_spec x 0) as [->|Hx], (Z.eqb_spec y 0) as [->|Hy]; cbn [orb fmap list_fmap]; try done.
    + split; [|done]. intros ?%Z.eqb_eq. lia.
    + split; [|done]. intros ?%Z.eqb_eq. lia.
    + destruct (Z.eqb_spec (ascii_lower x) (ascii_lower y)) as [E|E]; cbn [negb].
      * rewrite IH, E. split; [by intros ->|]. by intros [= ->].
      * split; [done|]. intros [= ? ?]. done.
Qed.

Lemma names_equal_trans a b c : dns_names_equal a b = true -> dns_names_equal b c = true -> dns_names_equal a c = true.
Proof. rewrite !names_equal_spec. by intros -> ->. Qed.

Lemma names_equal_sym a b : dns_names_equal a b = dns_names_equal b a.
Proof. apply eq_bool_prop_intro. rewrite !Is_true_true, !names_equal_spec. by split. Qed.

Lemma names_equal_refl a : dns_names_equal a a = true.
Proof. by apply names_equal_spec. Qed.

(** Only the characters before the NUL count. *)
Lemma names_equal_cstr a b : dns_names_equal a b = dns_names_equal (cstr a) (cstr b).
Proof. apply eq_bool_prop_intro. by rewrite !Is_true_true, !names_equal_spec, !cstr_cstr. Qed.

Lemma insert_lookup_cases {A} (l : list A) i x j y :
  <[i := x]> l !! j = Some y -> (j = i /\ y = x) \/ (j <> i /\ l !! j = Some y).
Proof.
  intros H. destruct (decide (j = i)) as [->|]; [left|right; by rewrite list_lookup_insert_ne in H].
  split; [done|]. apply list_lookup_insert_Some in H as [(_ & -> & _)|[? _]]; done.
Qed.

Lemma cache_select_spec i l oldest sel r :
  cache_select i l oldest sel = r ->
  (r = sel \/ exists k, r = Some (i + k)%nat /\ (k < length l)%nat).
Proof.
  revert i oldest sel. induction l as [|e l IH]; intros i oldest sel; cbn [cache_select]; [auto|].
  destruct (negb (cache_valid e)); [intros <-; right; exists 0%nat; split; [f_equal; lia|cbn; lia]|].
  destruct (last_used_ms e <? oldest); intros Hr; apply IH in Hr as [->|(k & -> & Hk)]; auto.
  - right. exists 0%nat. split; [f_equal; lia|cbn; lia].
  - right. exists (S k). split; [f_equal; lia|cbn; lia].
  - right. exists (S k). split; [f_equal; lia|cbn; lia].
Qed.

(** A new entry in the slot of its name, or where no entry has its name. *)
Lemma cache_insert_ok l i e :
  cache_ok l -> name_ok (cache_name e) -> u32_ok (cache_address e) -> u64_ok (expires_ms e) -> u64_ok (last_used_ms e) ->
  (if cache_negative e then cache_address e = 0 else ipv4_is_usable_unicast (cache_address e) = true) ->
  (forall j b, l !! j = Some b -> cache_valid b = true -> dns_names_equal (cache_name b) (cache_name e) = true -> j = i) ->
  cache_ok (<[i := e]> l).
Proof.
  intros [L1 L2 L3 L4] Hn Ha He Hu Hp Hi. constructor.
  - by rewrite length_insert.
  - by apply Forall_insert.
  - apply Forall_insert; [done|]. by intros _.
  - intros j k a b Hj Hk Va Vb Hab.
    apply insert_lookup_cases in Hj as [[-> ->]|[Hj Ej]]; apply insert_lookup_cases in Hk as [[-> ->]|[Hk Ek]]; try done.
    + symmetry. eapply Hi; eauto. by rewrite names_equal_sym.
    + eapply Hi; eauto.
    + eapply L4; eauto.
Qed.

Lemma cache_find_Some s name i :
  dns_cache_find s name = Some i -> exists e, dns_cache s !! i = Some e /\ cache_valid e = true /\
    dns_names_equal (cache_name e) name = true.
Proof.
  unfold dns_cache_find. intros ([k e] & E & Hk)%fmap_Some. cbn in Hk. subst i.
  apply list_find_Some in E as (H1 & [H2 H3] & _). eauto.
Qed.

Lemma cache_find_None s name i e :
  dns_cache_find s name = None -> dns_cache s !! i = Some e -> cache_valid e = true ->
  dns_names_equal (cache_name e) name = false.
Proof.
  unfold dns_cache_find. intros H He Hv. apply fmap_None in H. rewrite list_find_None in H.
  eapply Forall_lookup_1 in H; [|exact He]. apply not_true_is_false. intros Hn. apply H. by split.
Qed.

(** The slot [dns_cache_store] writes is in the table, and no other entry has the name. *)
Lemma cache_slot_spec s name sel s' :
  cache_slot s name = (sel, s') -> cache_ok (dns_cache s) ->
  dns_cache s' = dns_cache s /\ current_time_ms s' = current_time_ms s /\
  forall i, sel = Some i -> (i < 8)%nat /\
    forall j b, dns_cache s !! j = Some b -> cache_valid b = true -> dns_names_equal (cache_name b) name = true -> j = i.
Proof.
  unfold cache_slot. intros E Hc. destruct (dns_cache_find s name) as [k|] eqn:Ef.
  - apply pair_eq in E as [<- <-]. split; [done|]. split; [done|]. intros i [= <-].
    apply cache_find_Some in Ef as (e & Ee & Hv & Hn). split.
    + apply lookup_lt_Some in Ee. pose proof (cache_length _ Hc). lia.
    + intros j b Hb Hvb Hnb. eapply (cache_unique _ Hc); eauto. eapply names_equal_trans; [exact Hnb|].
      by rewrite names_equal_sym.
  - apply pair_eq in E as [Es <-]. destruct (match _ with Some _ => _ | None => _ end); net_simpl.
    all: split; [done|]; split; [done|]; intros i Hi; split.
    all: try (intros j b Hb Hvb Hnb; by rewrite (cache_find_None s name j b) in Hnb).
    all: rewrite Hi in Es; apply cache_select_spec in Es as [Es|(k & Es & Hk)]; [done|];
      apply (inj Some) in Es; pose proof (cache_length _ Hc); lia.
Qed.

(** The stack without its cache and the counters of the cache. *)
Definition forget_cache (s : net_stack) : net_stack :=
  set_dns_cache_expirations 0 (set_dns_cache_evictions 0 (set_dns_cache_misses 0 (set_dns_cache_hits 0
    (set_dns_cache [] s)))).

Lemma forget_expire s : forget_cache (dns_cache_expire s) = forget_cache s.
Proof. reflexivity. Qed.

Lemma forget_slot s name sel s' : cache_slot s name = (sel, s') -> forget_cache s' = forget_cache s.
Proof.
  unfold cache_slot. intros E. destruct (dns_cache_find s name); [|destruct (match _ with Some _ => _ | None => _ end)];
    by apply pair_eq in E as [_ <-].
Qed.

Lemma forget_set_cache s cache : forget_cache (set_dns_cache cache s) = forget_cache s.
Proof. reflexivity. Qed.

Lemma store_safe name negative ip code ttl s :
  cache_ok (dns_cache s) -> name_ok name -> u32_ok ip -> u32_ok ttl -> u64_ok (current_time_ms s) ->
  (negative = false -> ipv4_is_usable_unicast ip = true) ->
  exists s', dns_cache_store name negative ip code ttl s = Some s' /\
    cache_ok (dns_cache s') /\ forget_cache s' = forget_cache s.
Proof.
  intros Hc Hn Hip Ht Hnow Hu. unfold dns_cache_store. destruct (ttl =? 0); [by exists s|].
  destruct (cache_slot (dns_cache_expire s) name) as [sel s1] eqn:Es.
  destruct (cache_slot_spec _ _ _ _ Es (cache_expire_ok s Hc)) as (Ec & Et & Hsel).
  pose proof (forget_slot _ _ _ _ Es) as Hf. rewrite forget_expire in Hf.
  destruct sel as [i|].
  2: { exists s1. split; [done|]. split; [|exact Hf]. rewrite Ec. by apply cache_expire_ok. }
  destruct (name_cstr _ Hn) as [Hcs _]. destruct (copy_text_safe name Hcs (name_bytes _ Hn)) as (n' & -> & Hn' & Ecs).
  rewrite some_bind. cbv zeta. eexists. split; [done|]. split; [|by rewrite forget_set_cache].
  net_simpl. rewrite Ec. destruct (Hsel i eq_refl) as [Hlt Huniq]. apply cache_insert_ok; net_simpl.
  - by apply cache_expire_ok.
  - done.
  - destruct negative; [by unfold u32_ok|done].
  - apply saturating_add_range; [by rewrite Et|]. unfold u32_ok in Ht. rewrite seconds_to_ms_small by done. lia.
  - by rewrite Et.
  - destruct negative; auto.
  - intros j b Hb Hvb Hnb. eapply Huniq; eauto. rewrite names_equal_cstr in Hnb |- *. by rewrite Ecs in Hnb.
Qed.

(** ** DHCP options *)

Record options_ok (o : dhcp_options) : Prop := OptionsOk {
  opts_words : Forall (fun v => forall w, v = Some w -> u32_ok w)
    [opt_message_type o; opt_subnet_mask o; opt_router o; opt_dns o; opt_server_identifier o; opt_lease_time o;
     opt_renewal_time o; opt_rebind_time o] }.

Lemma store_option_safe fits seen value set o :
  options_ok o -> (fits = true -> exists v, value = Some v /\ u32_ok v) ->
  (forall v, u32_ok v -> options_ok (set (Some v) o)) ->
  exists o', store_option fits seen value set o = Some o' /\ options_ok o'.
Proof.
  intros Ho Hv Hs. unfold store_option. destruct fits; cbn [andb]; [|by exists o].
  destruct (bool_decide (seen = None)); [|by exists o]. destruct (Hv eq_refl) as (v & -> & Hok).
  rewrite some_bind. eexists. split; [done|]. by apply Hs.
Qed.

(** One of the eight values changes. *)
Lemma options_set o (set : option Z -> dhcp_options -> dhcp_options) v :
  options_ok o -> u32_ok v ->
  (set = set_opt_message_type \/ set = set_opt_subnet_mask \/ set = set_opt_router \/ set = set_opt_dns \/
   set = set_opt_server_identifier \/ set = set_opt_lease_time \/ set = set_opt_renewal_time \/ set = set_opt_rebind_time) ->
  options_ok (set (Some v) o).
Proof.
  intros [Ho] Hv Hset. rewrite !Forall_cons in Ho. destruct Ho as (?&?&?&?&?&?&?&?&_).
  destruct Hset as [->|[->|[->|[->|[->|[->|[->| ->]]]]]]]; constructor; net_simpl; rewrite !Forall_cons;
    split_and!; auto; by intros ? [= <-].
Qed.

Lemma parse_option_safe o packet code n offset :
  options_ok o -> bytes_ok packet -> 0 <= n -> 0 <= offset -> offset + n <= size packet ->
  exists o', parse_dhcp_option o packet code n offset = Some o' /\ options_ok o'.
Proof.
  intros Ho Hb Hn Hp Hr. unfold parse_dhcp_option.
  assert (Hword : 4 <= n -> exists v, read_u32_be packet offset = Some v /\ u32_ok v).
  { intros. apply read_u32_be_Some; (done || lia). }
  assert (Hbyte : 1 <= n -> exists v, rd packet offset = Some v /\ u32_ok v).
  { intros. destruct (rd_ok packet offset Hb ltac:(lia)) as (v & E & Hv). exists v. split; [done|].
    unfold byte_ok, u32_ok in *. lia. }
  assert (Hset : forall set v, _ -> u32_ok v -> options_ok (set (Some v) o)) by (intros set v Hs Hv; exact (options_set o set v Ho Hv Hs)).
  repeat match goal with |- exists o', (if ?b then _ else _) = _ /\ _ => destruct b end;
    try (apply store_option_safe; [done|intros; bdestr_hyps; first [apply Hword; lia|apply Hbyte; lia]|intros; apply Hset; tauto]).
  by exists o.
Qed.

Lemma parse_loop_safe fuel packet offset o :
  bytes_ok packet -> options_ok o -> 0 <= offset <= size packet -> size packet < Z.of_nat fuel + offset ->
  parses (parse_dhcp_loop fuel packet offset o) options_ok.
Proof.
  intros Hb. revert offset o. induction fuel as [|fuel IH]; intros offset o Ho Hp Hf; cbn [parse_dhcp_loop]; [lia|].
  parse_if. destruct (rd_ok packet offset Hb ltac:(lia)) as (code & Ec & _). eapply parses_bind; [exact Ec|].
  destruct (code =? DHCP_OPTION_PAD); [apply IH; (done || lia)|].
  destruct (code =? DHCP_OPTION_END); [destruct (bool_decide _); [by apply parses_some|apply parses_none]|].
  parse_if. destruct (rd_ok packet (offset + 1) Hb ltac:(lia)) as (n & En & Hn). eapply parses_bind; [exact En|].
  unfold byte_ok in Hn. parse_if.
  destruct (parse_option_safe o packet code n (offset + 2)) as (o' & -> & Ho'); [done|done|lia|lia|lia|].
  rewrite some_bind. apply IH; (done || lia).
Qed.

Lemma no_options_ok : options_ok no_options.
Proof. constructor. by repeat constructor. Qed.

Lemma parse_options_safe packet : bytes_ok packet -> parses (parse_dhcp_options packet) options_ok.
Proof.
  intros Hb. unfold parse_dhcp_options. parse_if. net_consts.
  destruct (read_u32_be_Some packet 236 Hb ltac:(lia) ltac:(lia)) as (c & Ec & _). eapply parses_bind; [exact Ec|].
  destruct (negb _); [apply parses_none|]. apply parse_loop_safe; [done|apply no_options_ok|lia|unfold size; lia].
Qed.

Lemma reply_matches_safe s packet : bytes_ok packet ->
  exists b, dhcp_reply_matches s packet = Some b /\ (b = true -> DHCP_FIXED_SIZE <= size packet).
Proof.
  intros Hb. unfold dhcp_reply_matches. destruct (_ || _) eqn:Eg; [by exists false|]. bdestr_hyps. net_consts.
  destruct (rd_ok packet 0 Hb ltac:(lia)) as (b0 & -> & _). destruct (rd_ok packet 1 Hb ltac:(lia)) as (b1 & -> & _).
  destruct (rd_ok packet 2 Hb ltac:(lia)) as (b2 & -> & _).
  destruct (read_u32_be_Some packet 4 Hb ltac:(lia) ltac:(lia)) as (x & -> & _).
  destruct (sub_ok packet 28 6 Hb ltac:(lia) ltac:(lia) ltac:(lia)) as (m & -> & _ & _). rewrite !some_bind. eauto.
Qed.

(** ** The message of the client always fits *)

Lemma append_option_safe packet offset code value :
  bytes_ok packet -> byte_ok code -> bytes_ok value -> size value < 256 -> 0 <= offset <= size packet ->
  exists packet' o', dhcp_append_option packet offset (size packet) code value = Some (packet', o') /\
    bytes_ok packet' /\ size packet' = size packet /\ 0 <= o' <= size packet.
Proof.
  intros Hb Hc Hv Hs Ho. unfold dhcp_append_option. pose proof (size_nonneg value).
  destruct (_ || _) eqn:Eg; [exists packet, 0; split_and!; done || lia|]. bdestr_hyps.
  destruct (put_ok packet offset [code; size value]) as (p1 & -> & B1 & S1).
  { done. } { repeat constructor; unfold byte_ok in *; lia. } { lia. } { change (size [_; _]) with 2. lia. }
  rewrite some_bind. destruct (put_ok p1 (offset + 2) value) as (p2 & -> & B2 & S2); [done|done|lia|lia|].
  rewrite some_bind. eexists _, _. split; [done|]. split; [done|]. lia.
Qed.

Definition option_fits (o : Z * list Z) : Prop := byte_ok o.1 /\ bytes_ok o.2 /\ size o.2 < 256.

Lemma append_options_safe packet offset options :
  bytes_ok packet -> 0 <= offset <= size packet -> Forall option_fits options ->
  parses (dhcp_append_options packet offset options)
    (fun r => bytes_ok r.1 /\ size r.1 = size packet /\ 0 <= r.2 <= size packet).
Proof.
  intros Hb Ho Hf. revert packet offset Hb Ho.
  induction Hf as [|[code value] options (C1 & C2 & C3) Hf IH]; intros packet offset Hb Ho; cbn [dhcp_append_options].
  { by apply parses_some. }
  destruct (append_option_safe packet offset code value Hb C1 C2 C3 Ho) as (p' & o' & -> & B & S & R).
  rewrite some_bind. cbn [fst snd]. destruct (o' =? 0); [apply parses_none|].
  eapply parses_mono; [apply IH; [done|lia]|]. cbv beta. rewrite S. done.
Qed.

Lemma message_options_fit s t b : mac_ok (mac s) -> byte_ok t -> Forall option_fits (dhcp_message_options s t b).
Proof.
  intros [Hl Hm] Ht. unfold dhcp_message_options.
  assert (Hw : forall c v, byte_ok c -> option_fits (dhcp_u32_option c v)).
  { intros c v Hc. split; [done|]. split; [apply write_u32_be_ok|done]. }
  assert (Hfit : forall c v, byte_ok c -> bytes_ok v -> size v < 256 -> option_fits (c, v)) by (intros; split_and!; done).
  repeat apply Forall_app_2.
  - constructor; [|constructor; [|constructor]].
    + apply Hfit; [done|by apply bytes_one|done].
    + apply Hfit; [done|by constructor|]. rewrite size_cons. unfold size. lia.
  - destruct (_ && _); [|constructor]. apply Forall_app_2; [constructor; [by apply Hw|constructor]|].
    destruct (_ && _); [|constructor]. constructor; [by apply Hw|constructor].
  - constructor; [|constructor; [|constructor]]; (apply Hfit; [done| |done]); [|apply write_u16_be_ok].
    by apply bytes_okb_true.
Qed.

Lemma dhcp_message_safe s t b :
  mac_ok (mac s) -> byte_ok t ->
  parses (dhcp_message s t b) (fun p => bytes_ok p /\ size p <= DHCP_PACKET_CAPACITY).
Proof.
  intros Hmac Ht. unfold dhcp_message. destruct Hmac as [Hl Hm] eqn:Emac. clear Emac. net_consts.
  destruct (put_ok (zeros 576) 0 [1; 1; 6]) as (p1 & -> & B1 & S1);
    [apply bytes_ok_zeros|by apply bytes_okb_true|done|done|]. change (size (zeros 576)) with 576 in S1. rewrite some_bind.
  assert (Hput : forall p v (k : Z), bytes_ok p /\ size p = 576 -> bytes_ok v -> 0 <= k -> k + size v <= 576 ->
            exists p', put p k v = Some p' /\ bytes_ok p' /\ size p' = 576).
  { intros p v k [Hp Hs] Hv H1 H2. destruct (put_ok p k v) as (p' & E & B & S); [done|done|done|lia|]. exists p'. rewrite S. auto. }
  assert (Hif : forall (c : bool) p v (k : Z), bytes_ok p /\ size p = 576 -> bytes_ok v -> 0 <= k -> k + size v <= 576 ->
            exists p', (if c then put p k v else Some p) = Some p' /\ bytes_ok p' /\ size p' = 576).
  { intros [] p v k Hp Hv H1 H2; [by apply Hput|eauto]. }
  destruct (Hput p1 (write_u32_be (dhcp_transaction_id (dhcp s))) 4) as (p2 & -> & H2); [by rewrite S1|apply write_u32_be_ok|done|done|].
  rewrite some_bind.
  destruct (Hif b p2 (write_u32_be (address (ipv4 s))) 12) as (p3 & -> & H3); [done|apply write_u32_be_ok|done|done|].
  rewrite some_bind.
  destruct (Hif (negb b || bool_decide (dhcp_state (dhcp s) = NET_DHCP_REBINDING)) p3 (write_u16_be 32768) 10)
    as (p4 & -> & H4); [done|apply write_u16_be_ok|done|done|]. rewrite some_bind.
  destruct (Hput p4 (mac s) 28) as (p5 & -> & H5); [done|done|done|unfold size; lia|]. rewrite some_bind.
  destruct (Hput p5 (write_u32_be 1669485411) 236) as (p6 & -> & H6); [done|apply write_u32_be_ok|done|done|]. rewrite some_bind.
  destruct (append_options_safe p6 240 (dhcp_message_options s t b)) as (r & -> & Hr);
    [apply H6|rewrite (proj2 H6); lia|by apply message_options_fit|]. rewrite some_bind.
  destruct r as [[p o]|]; [|apply parses_none]. destruct (Hr _ eq_refl) as (B & S & R). cbn [fst snd] in *.
  rewrite (proj2 H6) in *. rewrite S. parse_if.
  destruct (Hput p [255] o) as (p7 & -> & B7 & S7); [done|by apply bytes_one|lia|change (size [255]) with 1; lia|].
  rewrite some_bind. destruct (sub_ok p7 0 (o + 1)) as (q & -> & Bq & Sq); [done|lia|lia|lia|]. rewrite some_bind.
  apply parses_some. split; [done|lia].
Qed.
