(* ===== verification/NetReceive.v ===== *)
(** * kernel/net.c: every operation keeps the invariant, on any bytes

    Then the protocols and the frames received. *)

From S2P Require Import Prelude TcpSegment NetState NetBytes NetSend NetDhcp NetDns NetInput NetParse.

Open Scope net_scope.

(** What the callbacks must do: a handler may use the stack in any way that keeps
    it well formed, the driver fills its buffer and no more. *)
Record env_ok {W} (E : net_env W) : Prop := EnvOk {
  env_now_ok : forall w, u64_ok (env_now_ms E w).1;
  env_poll_ok : forall buffer w, frame_ok buffer ->
    frame_ok (env_poll E buffer w).1.1 /\ 0 <= (env_poll E buffer w).1.2;
  env_udp_ok : forall h context datagram st,
    bytes_ok (datagram_data datagram) -> net_ok st.1 -> net_ok (env_udp E h context datagram st).1;
  env_tcp_ok : forall h context source destination payload st,
    bytes_ok payload -> net_ok st.1 -> net_ok (env_tcp E h context source destination payload st).1 }.

(** [keeps m P]: from a well-formed stack [m] ends, with a result that satisfies [P]
    and a well-formed stack. *)
Definition keeps {W A} (m : NM W A) (P : A -> Prop) : Prop :=
  forall st, net_ok st.1 -> nwp m (fun a st' => net_ok st'.1 /\ P a) st.

(** ** Updates of one component *)

Ltac ok_update := intros []; constructor; net_simpl; auto.

Lemma ok_set_stats t s : net_ok s -> net_ok (set_stats t s). Proof. ok_update. Qed.
Lemma ok_set_next_ipv4_id v s : net_ok s -> port_ok v -> net_ok (set_next_ipv4_id v s). Proof. ok_update. Qed.
Lemma ok_set_current_time v s : net_ok s -> u64_ok v -> net_ok (set_current_time_ms v s). Proof. ok_update. Qed.
Lemma ok_set_ipv4 v s : net_ok s -> config_ok v -> net_ok (set_ipv4 v s). Proof. ok_update. Qed.
Lemma ok_set_arp v s : net_ok s -> arp_ok v -> net_ok (set_arp v s). Proof. ok_update. Qed.
Lemma ok_set_bindings v s : net_ok s -> bindings_ok v -> net_ok (set_udp_bindings v s). Proof. ok_update. Qed.
Lemma ok_set_pending v s : net_ok s -> pending_ok v -> net_ok (set_pending_ipv4 v s). Proof. ok_update. Qed.
Lemma ok_set_dhcp v s : net_ok s -> dhcp_ok v -> net_ok (set_dhcp v s). Proof. ok_update. Qed.
Lemma ok_set_dns v s : net_ok s -> dns_ok v -> net_ok (set_dns v s). Proof. ok_update. Qed.
Lemma ok_set_cache v s : net_ok s -> cache_ok v -> net_ok (set_dns_cache v s). Proof. ok_update. Qed.
Lemma ok_set_echo v s : net_ok s -> u64_ok (echo_sent_ms v) -> net_ok (set_echo_request v s). Proof. ok_update. Qed.
Lemma ok_set_reply v s : net_ok s -> net_ok (set_echo_reply v s). Proof. ok_update. Qed.
Lemma ok_set_frame v s : net_ok s -> frame_ok v -> net_ok (set_receive_frame v s). Proof. ok_update. Qed.
Lemma ok_set_hits v s : net_ok s -> net_ok (set_dns_cache_hits v s). Proof. ok_update. Qed.
Lemma ok_set_misses v s : net_ok s -> net_ok (set_dns_cache_misses v s). Proof. ok_update. Qed.
Lemma ok_set_expirations v s : net_ok s -> net_ok (set_dns_cache_expirations v s). Proof. ok_update. Qed.
Lemma ok_set_tcp h c s : net_ok s -> net_ok (set_tcp_handler_context c (set_tcp_handler h s)). Proof. ok_update. Qed.

(** Only the cache and its counters changed. *)
Lemma ok_forget s s' : net_ok s -> forget_cache s' = forget_cache s -> cache_ok (dns_cache s') -> net_ok s'.
Proof.
  intros [] Hf Hc.
  assert (E : forall {B} (g : net_stack -> B), g (forget_cache s') = g (forget_cache s)) by (intros; by rewrite Hf).
  constructor; try done.
  - by rewrite (E _ mac : mac s' = mac s).
  - by rewrite (E _ ipv4 : ipv4 s' = ipv4 s).
  - by rewrite (E _ next_ipv4_id : next_ipv4_id s' = next_ipv4_id s).
  - by rewrite (E _ current_time_ms : current_time_ms s' = current_time_ms s).
  - by rewrite (E _ arp : arp s' = arp s).
  - by rewrite (E _ udp_bindings : udp_bindings s' = udp_bindings s).
  - by rewrite (E _ pending_ipv4 : pending_ipv4 s' = pending_ipv4 s).
  - by rewrite (E _ dhcp : dhcp s' = dhcp s).
  - by rewrite (E _ dns : dns s' = dns s).
  - by rewrite (E _ echo_request : echo_request s' = echo_request s).
  - by rewrite (E _ receive_frame : receive_frame s' = receive_frame s).
Qed.

Section keeps.
  Context {W : Type}.

Lemma keeps_ret {A} (a : A) (P : A -> Prop) : P a -> keeps (W := W) (mret a) P.
Proof. intros H st Hs. by apply nwp_ret. Qed.

Lemma net_keeps_bind {A B} (m : NM W A) (k : A -> NM W B) P Q :
  keeps m P -> (forall a, P a -> keeps (k a) Q) -> keeps (m ≫= k) Q.
Proof.
  intros Hm Hk st Hs. apply nwp_bind. eapply nwp_mono; [by apply Hm|]. cbv beta. intros a st' [Hs' Ha]. by apply Hk.
Qed.

Lemma keeps_gets {A B} (f : net_stack -> A) (k : A -> NM W B) Q :
  (forall s, net_ok s -> keeps (k (f s)) Q) -> keeps (gets f ≫= k) Q.
Proof. intros Hk st Hs. apply nwp_bind, nwp_gets. by apply Hk. Qed.

Lemma keeps_mods f (P : unit -> Prop) : (forall s, net_ok s -> net_ok (f s)) -> P tt -> keeps (W := W) (mods f) P.
Proof. intros Hf HP st Hs. apply nwp_mods. split; [by apply Hf|done]. Qed.

Lemma keeps_lift {A} (o : option A) a (P : A -> Prop) : o = Some a -> P a -> keeps (W := W) (lift o) P.
Proof. intros -> HP st Hs. done. Qed.

Lemma keeps_parse {A B} (o : option (option A)) (k : option A -> NM W B) P Q :
  parses o P -> (forall r, (forall a, r = Some a -> P a) -> keeps (k r) Q) -> keeps (lift o ≫= k) Q.
Proof. intros (r & -> & Hr) Hk. eapply net_keeps_bind with (P := fun x => x = r); [by eapply keeps_lift|]. intros ? ->. auto. Qed.

Lemma keeps_lift_bind {A B} (o : option A) a (k : A -> NM W B) Q :
  o = Some a -> keeps (k a) Q -> keeps (lift o ≫= k) Q.
Proof. intros E Hk. eapply net_keeps_bind with (P := fun x => x = a); [by eapply keeps_lift|]. by intros ? ->. Qed.

Lemma keeps_extern {A} (f : W -> A * W) (P : A -> Prop) : (forall w, P (f w).1) -> keeps (extern f) P.
Proof. intros HP st Hs. apply nwp_extern. intros a w E. split; [done|]. specialize (HP st.2). by rewrite E in HP. Qed.

Lemma keeps_handler f (P : unit -> Prop) :
  (forall st, net_ok st.1 -> net_ok (f st).1) -> P tt -> keeps (W := W) (handler f) P.
Proof. intros Hf HP st Hs. apply nwp_handler. split; [by apply Hf|done]. Qed.

Lemma keeps_mono {A} (m : NM W A) (P Q : A -> Prop) : keeps m P -> (forall a, P a -> Q a) -> keeps m Q.
Proof. intros Hm HPQ st Hs. eapply nwp_mono; [by apply Hm|]. cbv beta. intros a st' []. auto. Qed.

End keeps.

Abbreviation anything := (fun _ => True).

(** ** Small facts on words and bytes *)

Lemma port_u16 v : port_ok (u16 v).
Proof. apply u16_range. Qed.

Lemma header_ok a d p i n c : byte_ok p -> bytes_ok (ipv4_header a d p i n c).
Proof.
  intros Hp. unfold ipv4_header.
  repeat apply Forall_app_2; try apply write_u16_be_ok; try apply write_u32_be_ok.
  - by apply bytes_okb_true.
  - constructor; [by unfold byte_ok|by apply bytes_one].
Qed.

Lemma udp_header_ok a b n c : bytes_ok (udp_header a b n c).
Proof. unfold udp_header. repeat apply Forall_app_2; apply write_u16_be_ok. Qed.

Lemma icmp_header_ok t i n c : byte_ok t -> bytes_ok (icmp_header t i n c).
Proof.
  intros Ht. unfold icmp_header. repeat apply Forall_app_2; try apply write_u16_be_ok.
  constructor; [done|by apply bytes_one].
Qed.

Lemma size_udp a b n c data : size (udp_header a b n c ++ data) = 8 + size data.
Proof. rewrite size_app. done. Qed.

Lemma size_icmp t i n c data : size (icmp_header t i n c ++ data) = 8 + size data.
Proof. rewrite size_app. done. Qed.

Lemma put_pending p payload :
  pending_ok p -> bytes_ok payload -> size payload <= NET_IPV4_PAYLOAD_MAX ->
  exists copied, put (pending_payload p) 0 payload = Some copied /\
    size copied = NET_IPV4_PAYLOAD_MAX /\ bytes_ok copied.
Proof.
  intros [] Hb Hs. destruct (put_ok (pending_payload p) 0 payload) as (c & E & B & S); [done|done|done|lia|].
  exists c. split; [done|]. by rewrite S.
Qed.

Lemma zero_arp_ok : arp_ok zero_arp.
Proof.
  constructor; [done| | |].
  - apply Forall_replicate. split; [split; [done|apply bytes_ok_zeros]|by unfold u64_ok].
  - by apply Forall_replicate.
  - intros i j a b [-> _]%lookup_replicate_1 _ Hv. done.
Qed.

Lemma invalidate_pending p : pending_ok p -> pending_ok (set_pending_valid false p).
Proof. intros []. by constructor. Qed.

(** ** The ARP cache *)

Lemma arp_find_Some s ip i :
  arp_find s ip = Some i -> exists e, arp s !! i = Some e /\ arp_valid e = true /\ arp_ip e = ip.
Proof.
  unfold arp_find. intros ([k e] & E & Hk)%fmap_Some. cbn in Hk. subst i. apply list_find_Some in E as (H1 & [H2 H3] & _). eauto.
Qed.

Lemma arp_find_None s ip i e :
  arp_find s ip = None -> arp s !! i = Some e -> arp_valid e = true -> arp_ip e <> ip.
Proof.
  unfold arp_find. intros Hf He Hv Hip. apply fmap_None in Hf. rewrite list_find_None in Hf.
  eapply Forall_lookup_1 in Hf; [|exact He]. by apply Hf.
Qed.

Lemma arp_lookup_Some s ip m :
  net_arp_lookup s ip = Some m <-> exists i e, arp_find s ip = Some i /\ arp s !! i = Some e /\ arp_mac e = m.
Proof.
  unfold net_arp_lookup. destruct (arp_find s ip) as [i|]; cbn [mbind option_bind]; [|split; [done|by intros (?&?&?&_)]].
  destruct (arp s !! i) as [e|] eqn:Ee; cbn [mbind option_bind].
  - split; [intros [= <-]; eauto|]. intros (i' & e' & [= <-] & E & <-). rewrite Ee in E. by injection E as <-.
  - split; [done|]. intros (i' & e' & [= <-] & E & _). by rewrite Ee in E.
Qed.

Lemma arp_lookup_ok s ip m : arp_ok (arp s) -> net_arp_lookup s ip = Some m -> mac_ok m.
Proof.
  intros Ha (i & e & _ & Ee & <-)%arp_lookup_Some. by destruct (Forall_lookup_1 _ _ _ _ (arp_macs _ Ha) Ee).
Qed.

Lemma arp_select_lt i l sel oldest : (sel < i + length l)%nat \/ (sel < i)%nat -> (arp_select i l sel oldest < i + length l)%nat.
Proof.
  revert i sel oldest. induction l as [|e l IH]; intros i sel oldest Hs; cbn [arp_select length] in *; [lia|].
  destruct (negb (arp_valid e)); [lia|]. destruct (refreshed_ms e <? oldest).
  - specialize (IH (S i) i (refreshed_ms e)). lia.
  - specialize (IH (S i) sel oldest). lia.
Qed.

Lemma arp_learn_ok ip m s : net_ok s -> mac_ok m -> net_ok (arp_learn ip m s).
Proof.
  intros Hs Hm. unfold arp_learn. destruct (_ || _) eqn:Eg; [done|]. bdestr_hyps. cbv zeta. apply ok_set_arp; [done|].
  destruct (ok_arp _ Hs) as [A1 A2 A3 A4]. pose proof (ok_time _ Hs) as Ht.
  set (i := match arp_find s ip with Some i => i | None => _ end). constructor.
  - by rewrite length_insert.
  - by apply Forall_insert.
  - by apply Forall_insert.
  - assert (Hi : forall j b, arp s !! j = Some b -> arp_valid b = true -> arp_ip b = ip -> j = i).
    { intros j b Hb Hv Hip. unfold i. destruct (arp_find s ip) as [k|] eqn:Ef.
      - apply arp_find_Some in Ef as (e & Ee & Ve & Ie). eapply A4; eauto. congruence.
      - by destruct (arp_find_None s ip j b Ef Hb Hv). }
    intros j k a b Hj Hk Va Vb Hab.
    apply insert_lookup_cases in Hj as [[-> ->]|[Hj Ej]]; apply insert_lookup_cases in Hk as [[-> ->]|[Hk Ek]]; try done.
    + symmetry. eapply Hi; eauto.
    + eapply Hi; eauto.
    + eapply A4; eauto.
Qed.

(** ** Sending *)

Section send.
  Context {W : Type} (E : net_env W) (HE : env_ok E).

Lemma transmit_keeps frame : keeps (link_transmit E frame) anything.
Proof.
  unfold link_transmit. apply keeps_gets. intros s Hs. destruct (_ || _); [by apply keeps_ret|].
  eapply net_keeps_bind; [by apply (keeps_extern _ anything)|]. intros [|] _; cbn [negb]; [|by apply keeps_ret].
  eapply net_keeps_bind; [apply (keeps_mods _ anything); [|done]|intros _ _; by apply keeps_ret].
  intros s' Hs'. by apply ok_set_stats.
Qed.

(** The rest of an operation that sends a frame and then counts it. *)
Lemma sent_keeps (m : NM W bool) count :
  keeps m anything -> (forall s, net_ok s -> net_ok (count s)) ->
  keeps (sent ← m; if negb sent then mret false else mods count;; mret true) anything.
Proof.
  intros Hm Hc. eapply net_keeps_bind; [exact Hm|]. intros [|] _; cbn [negb]; [|by apply keeps_ret].
  eapply net_keeps_bind; [by apply (keeps_mods _ anything)|]. intros _ _. by apply keeps_ret.
Qed.

Lemma count_ok (f : net_stats -> net_stats) s : net_ok s -> net_ok (upd_stats f s).
Proof. apply ok_set_stats. Qed.

Lemma arp_request_keeps ip : keeps (net_arp_request E ip) anything.
Proof.
  unfold net_arp_request. apply keeps_gets. intros s Hs. destruct (_ || _); [by apply keeps_ret|].
  apply sent_keeps; [apply transmit_keeps|]. intros. by apply count_ok.
Qed.

Lemma arp_reply_keeps m ip : keeps (send_arp_reply E m ip) anything.
Proof. unfold send_arp_reply. apply keeps_gets. intros. apply transmit_keeps. Qed.

Lemma send_with_mac_keeps d p payload m :
  byte_ok p -> bytes_ok payload -> keeps (send_ipv4_with_mac E d p payload m) anything.
Proof.
  intros Hp Hb. unfold send_ipv4_with_mac. destruct (_ <? _); [by apply keeps_ret|].
  apply keeps_gets. intros s Hs. cbv zeta.
  eapply net_keeps_bind; [apply (keeps_mods _ anything); [|done]|]. { intros. apply ok_set_next_ipv4_id; [done|apply port_u16]. }
  intros _ _. eapply keeps_lift_bind; [apply internet_checksum_spec; [by apply header_ok|done]|].
  apply sent_keeps; [apply transmit_keeps|]. intros. by apply count_ok.
Qed.

Lemma flush_keeps : keeps (flush_pending_ipv4 E) anything.
Proof.
  unfold flush_pending_ipv4. apply keeps_gets. intros s Hs. cbv zeta. pose proof (ok_pending _ Hs) as Hp.
  destruct (negb _); [by apply keeps_ret|]. destruct (net_arp_lookup s _) as [m|]; [|by apply keeps_ret].
  destruct Hp. destruct (sub_ok (pending_payload (pending_ipv4 s)) 0 (pending_payload_size (pending_ipv4 s)))
    as (payload & Es & Hb & _); [done|done|lia|lia|].
  eapply keeps_lift_bind; [exact Es|]. eapply net_keeps_bind; [by apply send_with_mac_keeps|]. intros [|] _; cbn [negb].
  - eapply net_keeps_bind with (P := anything).
    { destruct (_ =? _); [|by apply keeps_ret]. apply keeps_mods; [|done]. intros. by apply count_ok. }
    intros _ _. eapply net_keeps_bind; [|intros _ _; by apply (keeps_ret _ anything)].
    apply (keeps_mods _ anything); [|done]. intros s' Hs'. apply ok_set_pending; [done|]. apply invalidate_pending, Hs'.
  - eapply net_keeps_bind; [apply (keeps_mods _ anything); [|done]|].
    { intros s' Hs'. apply ok_set_pending; [done|]. destruct (ok_pending _ Hs'). constructor; try done. apply Hs'. }
    intros _ _. eapply net_keeps_bind; [apply (keeps_mods _ anything); [|done]|intros _ _; by apply keeps_ret].
    intros s' Hs'. apply ok_set_pending; [done|]. destruct (ok_pending _ Hs'). by constructor.
Qed.

Lemma ipv4_send_keeps d p payload :
  byte_ok p -> bytes_ok payload -> keeps (net_ipv4_send E d p payload) anything.
Proof.
  intros Hp Hb. unfold net_ipv4_send. apply keeps_gets. intros s Hs.
  destruct (_ || _) eqn:Eg; [by apply keeps_ret|]. bdestr_hyps.
  destruct (_ && _); [by apply keeps_ret|]. destruct (route_ipv4 s d) as [[hop [m|]]|]; [| |by apply keeps_ret].
  - eapply net_keeps_bind; [by apply send_with_mac_keeps|]. intros. by apply keeps_ret.
  - destruct (pending_valid _); [by apply keeps_ret|].
    destruct (put_pending (pending_ipv4 s) payload) as (c & Ec & Sc & Bc); [apply Hs|done|done|].
    eapply keeps_lift_bind; [exact Ec|]. eapply net_keeps_bind; [apply (keeps_mods _ anything); [|done]|].
    { intros s' Hs'. apply ok_set_pending; [done|]. pose proof (size_nonneg payload). constructor; net_simpl; try done.
      apply Hs. }
    intros _ _. eapply net_keeps_bind; [apply arp_request_keeps|]. intros. by apply keeps_ret.
Qed.

Lemma udp_send_keeps d dp sp data : bytes_ok data -> keeps (net_udp_send E d dp sp data) anything.
Proof.
  intros Hb. unfold net_udp_send. destruct (_ || _) eqn:Eg; [by apply keeps_ret|]. bdestr_hyps.
  apply keeps_gets. intros s Hs. cbv zeta.
  assert (Hok : forall c, bytes_ok (udp_header sp dp (8 + size data) c ++ data))
    by (intros; apply Forall_app_2; [apply udp_header_ok|done]).
  eapply keeps_lift_bind; [apply transport_checksum_spec; [done|done|rewrite size_udp; net_consts; lia]|].
  eapply net_keeps_bind; [by apply ipv4_send_keeps|]. intros r _.
  eapply net_keeps_bind with (P := anything); [|intros _ _; by apply keeps_ret].
  destruct (bool_decide _); [|by apply keeps_ret]. apply keeps_mods; [|done]. intros. by apply count_ok.
Qed.

Lemma echo_request_keeps d i n payload : bytes_ok payload -> keeps (net_icmp_echo_request E d i n payload) anything.
Proof.
  intros Hb. unfold net_icmp_echo_request. destruct (_ <? _) eqn:Eg; [by apply keeps_ret|]. bdestr_hyps. cbv zeta.
  assert (Hok : forall c, bytes_ok (icmp_header ICMP_ECHO_REQUEST i n c ++ payload))
    by (intros; apply Forall_app_2; [by apply icmp_header_ok|done]).
  eapply keeps_lift_bind; [apply internet_checksum_spec; [done|rewrite size_icmp; net_consts; lia]|].
  eapply net_keeps_bind; [by apply ipv4_send_keeps|]. intros r _.
  eapply net_keeps_bind with (P := anything); [|intros _ _; by apply keeps_ret].
  destruct (bool_decide _); [by apply keeps_ret|].
  eapply net_keeps_bind; [apply (keeps_mods _ anything); [|done]|].
  { intros s Hs. apply ok_set_echo; [done|]. apply Hs. }
  intros _ _. apply keeps_mods; [|done]. intros. by apply ok_set_reply.
Qed.

End send.

(** * kernel/net.c: the protocols and the received frames keep the invariant *)

Open Scope net_scope.

(** ** Bindings and the configuration *)

Lemma bind_ok port h c s : net_ok s -> net_ok (net_udp_bind port h c s).2.
Proof.
  intros Hs. unfold net_udp_bind. destruct (_ || _) eqn:Eg; [done|]. bdestr_hyps.
  destruct (bool_decide (Exists _ _)) eqn:Ex; [done|]. apply bool_decide_eq_false, not_Exists_Forall in Ex; [|apply _].
  destruct (list_find _ _) as [[i b]|] eqn:Ef; [|done]. cbn [snd]. apply ok_set_bindings; [done|].
  destruct (ok_bindings _ Hs) as [B1 B2 B3]. constructor.
  - by rewrite length_insert.
  - by apply Forall_insert.
  - assert (Hnew : forall j b, udp_bindings s !! j = Some b -> is_Some (binding_handler b) -> binding_port b <> port).
    { intros j b' Hj Hh Hp. eapply Forall_lookup_1 in Ex; [|exact Hj]. apply Ex. by split. }
    intros j k a b' Hj Hk Va Vb Hab.
    apply insert_lookup_cases in Hj as [[-> ->]|[Hj Ej]]; apply insert_lookup_cases in Hk as [[-> ->]|[Hk Ek]]; try done.
    + by destruct (Hnew k b' Ek Vb).
    + by destruct (Hnew j a Ej Va).
    + eapply B3; eauto.
Qed.

Lemma unbind_ok port s : net_ok s -> net_ok (net_udp_unbind port s).
Proof.
  intros Hs. unfold net_udp_unbind. apply ok_set_bindings; [done|]. destruct (ok_bindings _ Hs) as [B1 B2 B3].
  set (f := fun b => if bool_decide (binding_matches port b) then zero_binding else b).
  assert (Hf : forall b, is_Some (binding_handler (f b)) -> f b = b).
  { intros b. unfold f. destruct (bool_decide _); [|done]. by intros [? ?]. }
  constructor.
  - by rewrite length_fmap.
  - apply Forall_fmap. eapply Forall_impl; [exact B2|]. intros b Hb. unfold compose. intros Hh.
    pose proof (Hf b Hh) as Fb. rewrite Fb in Hh |- *. by apply Hb.
  - intros i j a b Hi Hj Va Vb Hab. rewrite list_lookup_fmap in Hi, Hj.
    apply fmap_Some in Hi as (x & Ex & ->). apply fmap_Some in Hj as (y & Ey & ->).
    pose proof (Hf x Va) as Fx. pose proof (Hf y Vb) as Fy. fold (f x) in *. fold (f y) in *.
    rewrite Fx in Va, Hab. rewrite Fy in Vb, Hab. by eapply (B3 i j x y).
Qed.

Lemma clear_cache_ok s : net_ok s -> net_ok (net_dns_cache_clear s).
Proof. intros. apply ok_set_cache; [done|]. apply zero_cache_ok. Qed.

Lemma zero_config_ok : config_ok zero_config.
Proof. by constructor. Qed.

Lemma drop_pending_ok s : net_ok s -> net_ok (upd_pending_ipv4 (set_pending_valid false) s).
Proof. intros Hs. apply ok_set_pending; [done|]. apply invalidate_pending, Hs. Qed.

Lemma set_result_ok state s : net_ok s -> state <> NET_DNS_RESOLVED -> net_ok (set_dns_result state s).
Proof. intros Hs Hr. apply ok_set_dns; [done|]. destruct (ok_dns _ Hs). by constructor. Qed.

Lemma clear_ipv4_ok s : net_ok s -> net_ok (net_clear_ipv4 s).
Proof.
  intros Hs. unfold net_clear_ipv4. cbv zeta.
  assert (H : net_ok (net_dns_cache_clear (upd_pending_ipv4 (set_pending_valid false) (set_arp zero_arp (set_ipv4 zero_config s))))).
  { apply clear_cache_ok, drop_pending_ok, ok_set_arp; [|apply zero_arp_ok]. apply ok_set_ipv4; [done|apply zero_config_ok]. }
  destruct (bool_decide _); [|exact H]. by apply (set_result_ok NET_DNS_TIMED_OUT).
Qed.

Lemma configure_ok c s : net_ok s -> config_ok c -> net_ok (net_configure_ipv4 c s).
Proof.
  intros Hs Hc. unfold net_configure_ipv4. cbv zeta.
  set (changed := negb (address (ipv4 s) =? address c) || _ || _).
  assert (H : net_ok (if changed then upd_pending_ipv4 (set_pending_valid false) (set_arp zero_arp (set_ipv4 c s))
                      else set_ipv4 c s)).
  { destruct changed; [|by apply ok_set_ipv4]. apply drop_pending_ok, ok_set_arp; [|apply zero_arp_ok]. by apply ok_set_ipv4. }
  destruct (changed || _); [by apply clear_cache_ok|exact H].
Qed.

(** ** DHCP *)

Lemma zero_dhcp_ok : dhcp_ok zero_dhcp.
Proof. by constructor. Qed.

Lemma zero_dns_ok : dns_ok zero_dns.
Proof. constructor; try done. apply zero_name_ok. Qed.

Lemma options_word {o v} : options_ok o ->
  In v [opt_message_type o; opt_subnet_mask o; opt_router o; opt_dns o; opt_server_identifier o; opt_lease_time o;
        opt_renewal_time o; opt_rebind_time o] -> forall d, u32_ok d -> u32_ok (default d v).
Proof.
  intros [Ho] Hi d Hd. rewrite Forall_forall in Ho. apply list_elem_of_In in Hi. specialize (Ho _ Hi).
  destruct v; [by apply Ho|done].
Qed.

Lemma lease_default n : u32_ok (u32 (u64 (n * 7) / 8)).
Proof. apply u32_range. Qed.

Lemma half_ok n : u32_ok n -> u32_ok (n / 2).
Proof.
  unfold u32_ok. intros. pose proof (Z.div_pos n 2 ltac:(lia) ltac:(lia)).
  pose proof (Z.div_le_upper_bound n 2 n ltac:(lia) ltac:(lia)). lia.
Qed.

Lemma lease_times_ok o c : options_ok o -> dhcp_ok c -> dhcp_state c <> NET_DHCP_BOUND -> dhcp_ok (lease_times o c).
Proof.
  intros Ho [C1 C2 C3 C4 C5] Hst. unfold lease_times. constructor; net_simpl; try done. split_and!.
  - apply C3.
  - apply (options_word Ho); [cbn; tauto|]. apply half_ok, C3.
  - apply (options_word Ho); [cbn; tauto|]. apply lease_default.
Qed.

Lemma accept_offer_ok o ip server c :
  options_ok o -> u32_ok ip -> u32_ok server -> dhcp_ok c -> dhcp_ok (accept_offer o ip server c).
Proof.
  intros Ho Hi Hv [C1 C2 C3 C4 C5]. unfold accept_offer. cbv zeta.
  assert (Hw : forall v d, In v [opt_message_type o; opt_subnet_mask o; opt_router o; opt_dns o; opt_server_identifier o;
            opt_lease_time o; opt_renewal_time o; opt_rebind_time o] -> u32_ok d -> u32_ok (default d v))
    by (intros; by apply (options_word Ho)).
  constructor; net_simpl; try done; unfold lease_times; net_simpl.
  - split_and!; [apply C1|done|done].
  - split_and!; apply Hw; (done || (cbn; tauto)).
  - split_and!.
    + apply Hw; [cbn; tauto|done].
    + apply Hw; [cbn; tauto|]. apply half_ok, Hw; [cbn; tauto|done].
    + apply Hw; [cbn; tauto|]. apply lease_default.
Qed.

Lemma ack_lease_ok o server c :
  options_ok o -> u32_ok server -> dhcp_ok c -> dhcp_state c <> NET_DHCP_BOUND -> dhcp_ok (ack_lease o server c).
Proof.
  intros Ho Hv [C1 C2 C3 C4 C5] Hst. unfold ack_lease. constructor; net_simpl; try done.
  - split_and!; [apply C1|apply C1|]. destruct (ipv4_is_usable_unicast server); [done|apply C1].
  - split_and!; [|apply C3|apply C3]. apply (options_word Ho); [cbn; tauto|]. destruct (negb _); [apply C3|done].
Qed.

(** Whatever times the server names, those of the lease are inside it. *)
Lemma ack_times_spec o c :
  options_ok o -> dhcp_ok c -> lease_seconds c <> 0 -> dhcp_state c <> NET_DHCP_BOUND ->
  dhcp_ok (ack_times o c) /\ lease_seconds (ack_times o c) = lease_seconds c /\
  dhcp_state (ack_times o c) = dhcp_state c /\
  renewal_seconds (ack_times o c) < lease_seconds c /\ rebind_seconds (ack_times o c) < lease_seconds c.
Proof.
  intros Ho Hc Hl Hst. pose proof (lease_times_ok o c Ho Hc Hst) as Ht. pose proof (dhcp_times _ Hc) as (L & _ & _).
  assert (El : lease_seconds (lease_times o c) = lease_seconds c) by done.
  assert (Es : dhcp_state (lease_times o c) = dhcp_state c) by done.
  unfold ack_times. cbv zeta. set (c1 := lease_times o c) in *. clearbody c1. rewrite El in *.
  assert (Hd : u32 (u64 (lease_seconds c * 7) / 8) = lease_seconds c * 7 / 8 /\ 0 <= lease_seconds c * 7 / 8 < lease_seconds c).
  { unfold u32_ok in L. pose proof (Z.div_pos (lease_seconds c * 7) 8 ltac:(lia) ltac:(lia)).
    pose proof (Z.div_lt_upper_bound (lease_seconds c * 7) 8 (lease_seconds c) ltac:(lia) ltac:(lia)).
    rewrite u64_small by (unfold u64_ok; lia). rewrite u32_small by (unfold u32_ok; lia). lia. }
  destruct Hd as [Ed Hd]. pose proof (half_ok _ L) as Hh.
  assert (Hh' : lease_seconds c / 2 < lease_seconds c) by (unfold u32_ok in L; apply Z.div_lt; lia).
  set (c2 := if lease_seconds c <=? renewal_seconds c1 then set_renewal_seconds (lease_seconds c / 2) c1 else c1).
  assert (H2 : dhcp_ok c2 /\ lease_seconds c2 = lease_seconds c /\ dhcp_state c2 = dhcp_state c /\
            renewal_seconds c2 < lease_seconds c).
  { unfold c2. destruct Ht as [C1 C2 C3 C4 C5]. destruct (Z.leb_spec (lease_seconds c) (renewal_seconds c1)); net_simpl;
      (split; [constructor; net_simpl; try done|split_and!; try done; lia]).
    - split_and!; [apply C3|done|apply C3].
    - intros Hb. by rewrite Es in Hb. }
  destruct H2 as (Hc2 & El2 & Es2 & Hr2). clearbody c2. rewrite El2. destruct Hc2 as [C1 C2 C3 C4 C5].
  destruct (_ || _) eqn:Eg; net_simpl.
  - split; [constructor; net_simpl; try done|split_and!; try done; lia].
    + split_and!; [apply C3|apply C3|apply lease_default].
    + intros Hb. by rewrite Es2 in Hb.
  - bdestr_hyps. split; [by constructor|]. split_and!; try done; lia.
Qed.

Lemma ack_configuration_ok o c ip : options_ok o -> dhcp_ok c -> u32_ok ip -> config_ok (ack_configuration o c ip).
Proof.
  intros Ho [C1 (C2a & C2b & C2c) C3 C4 C5] Hi. unfold ack_configuration. cbv zeta. constructor; net_simpl; [done| | |].
  - destruct (ipv4_netmask_is_valid _); [|done]. apply (options_word Ho); [cbn; tauto|done].
  - destruct (ipv4_is_usable_unicast _); [|done]. apply (options_word Ho); [cbn; tauto|done].
  - destruct (ipv4_is_usable_unicast _); [|done]. apply (options_word Ho); [cbn; tauto|done].
Qed.

Lemma ack_address_ok s named : net_ok s -> u32_ok named -> u32_ok (ack_address s named).
Proof.
  intros Hs Hn. unfold ack_address. cbv zeta. destruct (negb _); [apply (ok_dhcp _ Hs)|].
  destruct (ipv4_is_usable_unicast named); [done|apply (ok_config _ Hs)].
Qed.

Lemma transaction_id_ok s : mac_ok (mac s) -> u64_ok (current_time_ms s) -> u32_ok (default_transaction_id s).
Proof.
  intros Hm Ht. unfold default_transaction_id. cbv zeta.
  assert (Hx : forall a b, u32_ok a -> u32_ok b -> u32_ok (Z.lxor a b)).
  { unfold u32_ok. intros a b Ha Hb. assert (0 <= Z.lxor a b) by (apply Z.lxor_nonneg; lia). split; [done|].
    destruct (Z.eq_dec (Z.lxor a b) 0) as [->|]; [lia|]. apply Z.log2_lt_pow2; [lia|].
    pose proof (Z.log2_lxor a b ltac:(lia) ltac:(lia)).
    assert (Hl : forall z, 0 <= z < 2 ^ 32 -> Z.log2 z < 32).
    { intros z Hz. destruct (Z.eq_dec z 0) as [->|]; [done|]. apply Z.log2_lt_pow2; lia. }
    pose proof (Hl a Ha). pose proof (Hl b Hb). lia. }
  destruct (_ =? 0); [done|]. apply Hx; [|apply u32_range].
  assert (Hf : forall l h, u32_ok h -> u32_ok (fold_left (fun h b => u32 (Z.lxor h b * 16777619)) l h)).
  { induction l as [|b l IH]; intros h Hh; cbn [fold_left]; [done|]. apply IH, u32_range. }
  by apply Hf.
Qed.

Section dhcp.
  Context {W : Type} (E : net_env W) (HE : env_ok E).

Lemma dhcp_message_keeps t b : byte_ok t -> keeps (dhcp_send_message E t b) anything.
Proof.
  intros Ht. unfold dhcp_send_message. apply keeps_gets. intros s Hs.
  eapply keeps_parse; [by apply dhcp_message_safe; [apply Hs|]|]. intros [p|] Hp; [|by apply keeps_ret].
  destruct (Hp _ eq_refl) as [Hb _]. cbv zeta. eapply net_keeps_bind; [by apply udp_send_keeps|]. intros r _.
  assert (Hd : forall g s, net_ok s -> (forall c, dhcp_ok c -> dhcp_ok (g c)) -> net_ok (upd_dhcp g s)).
  { intros g s' Hs' Hg. apply ok_set_dhcp; [done|]. apply Hg, Hs'. }
  eapply net_keeps_bind; [apply (keeps_mods _ anything); [|done]|].
  { intros s' Hs'. apply Hd; [done|]. intros c []. by constructor. }
  intros _ _. eapply net_keeps_bind; [apply (keeps_mods _ anything); [|done]|intros; by apply keeps_ret].
  intros s' Hs'. apply Hd; [done|]. intros c []. by constructor.
Qed.

Lemma dhcp_start_keeps id : u32_ok id -> keeps (net_dhcp_start E id) anything.
Proof.
  intros Hid. unfold net_dhcp_start. apply keeps_gets. intros s Hs. destruct (negb _); [by apply keeps_ret|]. cbv zeta.
  assert (Hx : u32_ok (if id =? 0 then default_transaction_id s else id)).
  { destruct (id =? 0); [apply transaction_id_ok; apply Hs|done]. }
  eapply net_keeps_bind; [apply (keeps_mods _ anything); [|done]|]. { intros. by apply clear_ipv4_ok. }
  intros _ _. eapply net_keeps_bind; [apply (keeps_mods _ anything); [|done]|].
  { intros s' Hs'. apply ok_set_dhcp; [done|]. by constructor. }
  intros _ _. eapply net_keeps_bind; [by apply dhcp_message_keeps|]. intros. by apply keeps_ret.
Qed.

Lemma dhcp_restart_keeps : keeps (dhcp_restart E) anything.
Proof.
  unfold dhcp_restart. apply keeps_gets. intros s Hs. cbv zeta. eapply net_keeps_bind; [|intros; by apply keeps_ret].
  apply dhcp_start_keeps. destruct (_ =? 0); [done|apply u32_range].
Qed.

Lemma dhcp_ack_keeps o offered server :
  options_ok o -> u32_ok offered -> u32_ok server ->
  forall st, net_ok st.1 -> is_renewing (dhcp st.1) = true ->
  nwp (dhcp_receive_ack (W := W) o offered server) (fun _ st' => net_ok st'.1) st.
Proof.
  intros Ho Hf Hv st Hs Hr. unfold dhcp_receive_ack. nwp_steps. nwp_if Eother; [by apply nwp_ret|].
  nwp_if Ea; [by apply nwp_ret|]. nwp_steps.
  assert (Hst : dhcp_state (dhcp st.1) <> NET_DHCP_BOUND).
  { unfold is_renewing in Hr. intros Hb. rewrite Hb in Hr. done. }
  pose proof (ok_dhcp _ Hs) as Hc. pose proof (ack_lease_ok o server _ Ho Hv Hc Hst) as Hl.
  set (s1 := upd_dhcp (ack_lease o server) st.1).
  assert (H1 : net_ok s1) by (by apply ok_set_dhcp).
  change (lease_seconds (dhcp s1)) with (lease_seconds (ack_lease o server (dhcp st.1))).
  destruct (Z.eqb_spec (lease_seconds (ack_lease o server (dhcp st.1))) 0) as [E0|E0]; [by apply nwp_ret|].
  destruct (ack_times_spec o (ack_lease o server (dhcp st.1)) Ho Hl E0 Hst) as (T1 & T2 & T3 & T4 & T5).
  nwp_steps. set (s2 := upd_dhcp (ack_times o) s1).
  assert (H2 : net_ok s2) by (by apply ok_set_dhcp).
  set (s3 := net_configure_ipv4 (ack_configuration o (dhcp st.1) (ack_address st.1 offered)) s2).
  assert (H3 : net_ok s3).
  { apply configure_ok; [done|]. apply ack_configuration_ok; [done|done|]. by apply ack_address_ok. }
  assert (Ed : dhcp s3 = ack_times o (ack_lease o server (dhcp st.1))).
  { unfold s3, net_configure_ipv4. cbv zeta. by destruct (_ || _), (_ || _). }
  apply ok_set_dhcp; [done|]. rewrite Ed. destruct T1 as [C1 C2 C3 C4 C5]. constructor; try done; [apply H3|].
  intros _. unfold bind_lease. net_simpl. rewrite T2. done.
Qed.

Lemma dhcp_receive_keeps src packet : u32_ok src -> bytes_ok packet -> keeps (dhcp_receive E src packet) anything.
Proof.
  intros Hsrc Hb st Hs. unfold dhcp_receive. nwp_steps.
  destruct (reply_matches_safe st.1 packet Hb) as (b & Eb & Hsize). eapply nwp_lift; [exact Eb|].
  destruct b; cbn [negb]; [|by apply nwp_ret]. specialize (Hsize eq_refl). nwp_steps.
  destruct (parse_options_safe packet Hb) as (r & Er & Hr). eapply nwp_lift; [exact Er|].
  destruct r as [o|]; [|by apply nwp_ret]. specialize (Hr _ eq_refl). nwp_steps. net_consts.
  destruct (read_u32_be_Some packet 16 Hb ltac:(lia) ltac:(lia)) as (offered & Eo & Hoff). eapply nwp_lift; [exact Eo|].
  assert (Hserver : u32_ok (default src (opt_server_identifier o))) by (apply (options_word Hr); [cbn; tauto|done]).
  cbv zeta. nwp_if Eoffer.
  { nwp_steps.
    eapply nwp_mono; [apply (dhcp_message_keeps 3 false); [done|]|intros _ st' [H' _]; by apply nwp_ret].
    apply ok_set_dhcp; [done|]. apply accept_offer_ok; try done. apply Hs. }
  nwp_if Enak.
  { nwp_if Eother; [by apply nwp_ret|]. nwp_steps.
    eapply nwp_mono; [by apply dhcp_restart_keeps|intros _ st' [H' _]; by apply nwp_ret]. }
  nwp_if Eack; [by apply nwp_ret|]. bdestr_hyps.
  eapply nwp_mono; [by apply dhcp_ack_keeps|]. cbv beta. auto.
Qed.

Lemma tick_dhcp_keeps : keeps (tick_dhcp E) anything.
Proof.
  unfold tick_dhcp. apply keeps_gets. intros s Hs. cbv zeta.
  assert (Hmsg : forall t b, byte_ok t -> keeps (dhcp_send_message E t b;; mret tt) anything).
  { intros. eapply net_keeps_bind; [by apply dhcp_message_keeps|]. intros. by apply keeps_ret. }
  assert (Hadv : forall state, state <> NET_DHCP_BOUND ->
            keeps (mods (upd_dhcp (fun c => set_dhcp_attempts 0 (set_dhcp_state state c)));;
                   dhcp_send_message E DHCP_MESSAGE_REQUEST true;; mret tt) anything).
  { intros state Hst. eapply net_keeps_bind; [apply (keeps_mods _ anything); [|done]|].
    { intros s' Hs'. apply ok_set_dhcp; [done|]. destruct (ok_dhcp _ Hs'). by constructor. }
    intros _ _. by apply Hmsg. }
  pose proof dhcp_restart_keeps as Hrestart.
  destruct (dhcp_state (dhcp s)); repeat match goal with |- keeps (if ?b then _ else _) _ => destruct b end;
    lazymatch goal with
    | |- keeps (mret _) _ => by apply keeps_ret
    | |- keeps (dhcp_restart _) _ => exact Hrestart
    | |- keeps (mods _ ≫= _) _ => by apply Hadv
    | |- _ => by apply Hmsg
    end.
Qed.

End dhcp.
