(* ===== verification/NetRun.v ===== *)
(** * kernel/net.c: DNS, received frames and the timer keep the invariant; histories *)

From S2P Require Import Prelude TcpSegment NetState NetBytes NetSend NetDhcp NetDns NetInput NetParse NetReceive.
Open Scope net_scope.

(** ** DNS *)

Lemma store_ok name negative ip code ttl s :
  net_ok s -> name_ok name -> u32_ok ip -> u32_ok ttl -> (negative = false -> ipv4_is_usable_unicast ip = true) ->
  exists s', dns_cache_store name negative ip code ttl s = Some s' /\ net_ok s' /\ forget_cache s' = forget_cache s.
Proof.
  intros Hs Hn Hi Ht Hu.
  destruct (store_safe name negative ip code ttl s) as (s' & E & Hc & Hf); try done; [apply Hs|apply Hs|].
  exists s'. split; [done|]. split; [|done]. by eapply ok_forget.
Qed.

Lemma resolved_ok ip ttl s :
  net_ok s -> u32_ok ip -> u32_ok ttl -> ipv4_is_usable_unicast ip = true ->
  net_ok (upd_dns (fun c => set_dns_state NET_DNS_RESOLVED (set_dns_ttl_seconds ttl (set_result_address ip c))) s).
Proof. intros Hs Hi Ht Hu. apply ok_set_dns; [done|]. destruct (ok_dns _ Hs). by constructor. Qed.

Lemma negative_ttl_ok ttl s : net_ok s -> u32_ok ttl -> net_ok (upd_dns (set_dns_ttl_seconds ttl) s).
Proof. intros Hs Ht. apply ok_set_dns; [done|]. destruct (ok_dns _ Hs) as [D1 D2 D3 [D4 D4'] D5]. by constructor. Qed.

Lemma conclude_ok message o a n m s :
  net_ok s -> bytes_ok message -> 0 <= o -> 0 <= a ->
  exists s', dns_conclude message o a n m s = Some s' /\ net_ok s'.
Proof.
  intros Hs Hm Ho Ha. unfold dns_conclude. cbv zeta.
  destruct (negb (dns_response_code (dns s) =? 0) && _); [eexists; split; [done|by apply set_result_ok]|].
  pose proof (dns_named _ (ok_dns _ Hs)) as Hn.
  destruct (find_answer_safe message o n (dns_name (dns s)) Hm Ho Hn) as ([[[r ip] ttl] terminal] & -> & Hip & Httl & Hu).
  rewrite some_bind. cbv beta iota. destruct r.
  - destruct (negative_loop_safe (Z.to_nat m) message a terminal 0 Hm Ha) as (v & Ev & Hv); [by unfold u32_ok|].
    unfold dns_find_negative_ttl. rewrite Ev, some_bind. cbv zeta.
    set (nttl := if _ && _ then ttl else v). assert (Hnt : u32_ok nttl) by (unfold nttl; by destruct (_ && _)).
    pose proof (negative_ttl_ok nttl s Hs Hnt) as H1. set (s1 := upd_dns _ s) in *.
    destruct (negb (nttl =? 0)).
    + destruct (store_ok (dns_name (dns s1)) true 0 (dns_response_code (dns s1)) nttl s1) as (s2 & -> & H2 & _); try done.
      rewrite some_bind. eexists. split; [done|]. by apply set_result_ok.
    + rewrite some_bind. eexists. split; [done|]. by apply set_result_ok.
  - destruct (negb _); [eexists; split; [done|by apply set_result_ok]|].
    pose proof (resolved_ok ip ttl s Hs Hip Httl (Hu eq_refl)) as H1. set (s1 := upd_dns _ s) in *.
    destruct (store_ok (dns_name (dns s1)) false ip 0 ttl s1) as (s2 & E2 & H2 & _); try done; [by intros _; apply Hu|].
    by exists s2.
  - eexists. split; [done|by apply set_result_ok].
Qed.

Lemma question_safe message name :
  bytes_ok message -> parses (dns_question message name) (fun o => 0 <= o <= size message).
Proof.
  intros Hm. unfold dns_question. eapply parses_try; [by apply expand_name_safe|]. intros [q next] (_ & _ & Hn).
  cbv zeta. cbn [fst snd] in *. parse_if.
  destruct (read_u16_be_Some message next Hm ltac:(lia) ltac:(lia)) as (ty & -> & _).
  destruct (read_u16_be_Some message (next + 2) Hm ltac:(lia) ltac:(lia)) as (cl & -> & _). rewrite !some_bind.
  destruct (_ || _); [apply parses_none|]. apply parses_some. lia.
Qed.

Lemma dns_reply_safe s src sp dp message : bytes_ok message ->
  exists b, dns_reply_matches s src sp dp message = Some b /\ (b = true -> DNS_HEADER_SIZE <= size message).
Proof.
  intros Hm. unfold dns_reply_matches. destruct (_ || _) eqn:Eg; [by exists false|]. bdestr_hyps. net_consts.
  destruct (read_u16_be_Some message 0 Hm ltac:(lia) ltac:(lia)) as (x & -> & _). rewrite some_bind. eauto.
Qed.

Lemma dns_receive_ok src sp dp message s :
  net_ok s -> bytes_ok message -> exists b s', dns_receive src sp dp message s = Some (b, s') /\ net_ok s'.
Proof.
  intros Hs Hm. unfold dns_receive. cbv zeta. destruct (dns_reply_safe s src sp dp message Hm) as (b & -> & Hb).
  rewrite some_bind. destruct b; cbn [negb]; [|by exists false, s]. specialize (Hb eq_refl). net_consts.
  destruct (read_u16_be_Some message 2 Hm ltac:(lia) ltac:(lia)) as (flags & -> & _). rewrite some_bind.
  destruct (_ || _); [eexists _, _; split; [done|by apply set_result_ok]|].
  set (s1 := upd_dns _ s).
  assert (H1 : net_ok s1) by (apply ok_set_dns; [done|]; destruct (ok_dns _ Hs); by constructor).
  destruct (read_u16_be_Some message 4 Hm ltac:(lia) ltac:(lia)) as (qd & -> & _).
  destruct (read_u16_be_Some message 6 Hm ltac:(lia) ltac:(lia)) as (an & -> & _).
  destruct (read_u16_be_Some message 8 Hm ltac:(lia) ltac:(lia)) as (ns & -> & _).
  destruct (read_u16_be_Some message 10 Hm ltac:(lia) ltac:(lia)) as (ar & -> & _). rewrite !some_bind.
  destruct (_ || _); [eexists _, _; split; [done|by apply set_result_ok]|].
  destruct (question_safe message (dns_name (dns s1)) Hm) as (q & -> & Hq). rewrite some_bind.
  destruct q as [o|]; [|eexists _, _; split; [done|by apply set_result_ok]]. specialize (Hq _ eq_refl).
  destruct (validate_sections_safe message o an ns ar Hm) as (r & -> & Hr); [lia|]. rewrite some_bind.
  destruct r as [a|]; [|eexists _, _; split; [done|by apply set_result_ok]]. specialize (Hr _ eq_refl).
  destruct (conclude_ok message o a an ns s1 H1 Hm) as (s2 & -> & H2); [lia|done|]. rewrite some_bind.
  by eexists _, _.
Qed.

Lemma cancel_ok s : net_ok s -> exists b s', net_dns_cancel s = Some (b, s') /\ net_ok s'.
Proof.
  intros Hs. unfold net_dns_cancel. destruct (negb _); [by exists false, s|].
  assert (Hq : exists q, pending_is_query s = Some q).
  { unfold pending_is_query. cbv zeta. destruct (_ || _); [by exists false|]. destruct (ok_pending _ Hs) as [P1 P2 _ _ _ _].
    net_consts. destruct (read_u16_be_Some (pending_payload (pending_ipv4 s)) 0 P2 ltac:(lia) ltac:(lia)) as (a & -> & _).
    destruct (read_u16_be_Some (pending_payload (pending_ipv4 s)) 2 P2 ltac:(lia) ltac:(lia)) as (b & -> & _).
    destruct (read_u16_be_Some (pending_payload (pending_ipv4 s)) 8 P2 ltac:(lia) ltac:(lia)) as (c & -> & _).
    rewrite !some_bind. eauto. }
  destruct Hq as [q ->]. rewrite some_bind. eexists _, _. split; [done|]. apply ok_set_dns; [|apply zero_dns_ok].
  destruct q; [|done]. apply ok_set_pending; [done|].
  constructor; net_simpl; try done. apply bytes_ok_zeros.
Qed.

Lemma snapshot_safe now capacity l :
  Forall (fun e => name_ok (cache_name e)) l -> is_Some (snapshot_loop now capacity l).
Proof.
  intros Hl. revert capacity. induction Hl as [|e l He Hl IH]; intros [|capacity]; cbn [snapshot_loop]; try done.
  destruct (cache_live now e); [|by apply IH]. unfold snapshot_entry.
  destruct (name_cstr _ He) as [Hcs _]. destruct (copy_text_safe (cache_name e) Hcs (name_bytes _ He)) as (n & -> & _).
  rewrite !some_bind. destruct (IH capacity) as [x ->]. by rewrite some_bind.
Qed.

Lemma expire_ok s : net_ok s -> net_ok (dns_cache_expire s).
Proof. intros Hs. eapply ok_forget; [done|by rewrite forget_expire|]. apply cache_expire_ok, Hs. Qed.

Section run.
  Context {W : Type} (E : net_env W) (HE : env_ok E).

Lemma dns_send_keeps : keeps (dns_send_query E) anything.
Proof.
  unfold dns_send_query. apply keeps_gets. intros s Hs.
  eapply keeps_parse; [by apply query_message_safe, Hs|]. intros [q|] Hq; [|by apply keeps_ret].
  destruct (Hq _ eq_refl) as [Hb _]. eapply net_keeps_bind; [by apply udp_send_keeps|]. intros r _.
  assert (Hd : forall g s, net_ok s -> (forall c, dns_ok c -> dns_ok (g c)) -> net_ok (upd_dns g s)).
  { intros g s' Hs' Hg. apply ok_set_dns; [done|]. apply Hg, Hs'. }
  eapply net_keeps_bind; [apply (keeps_mods _ anything); [|done]|].
  { intros s' Hs'. apply Hd; [done|]. intros c []. by constructor. }
  intros _ _. eapply net_keeps_bind; [apply (keeps_mods _ anything); [|done]|intros; by apply keeps_ret].
  intros s' Hs'. apply Hd; [done|]. intros c []. by constructor.
Qed.

Lemma start_query_keeps name id : name_ok name -> port_ok id -> keeps (start_query E name id) anything.
Proof.
  intros Hn Hid. unfold start_query. eapply net_keeps_bind; [apply (keeps_mods _ anything); [|done]|].
  { intros. by apply ok_set_misses. }
  intros _ _. apply keeps_gets. intros s Hs. destruct (_ || _); [by apply keeps_ret|]. cbv zeta.
  eapply net_keeps_bind; [apply (keeps_mods _ anything); [|done]|].
  { intros s' Hs'. apply ok_set_dns; [done|]. constructor; net_simpl; try done; [|apply port_u16].
    repeat match goal with |- port_ok (if ?b then _ else _) => destruct b end; try done. apply port_u16. }
  intros _ _. eapply net_keeps_bind; [apply dns_send_keeps|]. intros. by apply keeps_ret.
Qed.

Lemma from_cache_ok name i e s :
  net_ok s -> name_ok name -> dns_cache s !! i = Some e -> cache_valid e = true ->
  net_ok (answer_from_cache name i e (dns_cache_remaining_seconds (expires_ms e) (current_time_ms s)) s).
Proof.
  intros Hs Hn He Hv. unfold answer_from_cache. destruct (ok_cache _ Hs) as [C1 C2 C3 C4].
  destruct (Forall_lookup_1 _ _ _ _ C2 He) as (N1 & N2 & N3 & N4). pose proof (Forall_lookup_1 _ _ _ _ C3 He Hv) as Hu.
  apply ok_set_dns.
  - apply ok_set_cache; [by apply ok_set_hits|]. net_simpl. apply cache_insert_ok; net_simpl; try done.
    + apply Hs.
    + intros j b Hb Hvb Hnb. by eapply C4.
  - constructor; net_simpl; try done.
    + split; [done|]. apply remaining_seconds_range.
    + destruct (cache_negative e); [done|]. by intros _.
Qed.

Lemma dns_query_keeps name id : name_arg_ok name -> port_ok id -> keeps (net_dns_query E name id) anything.
Proof.
  intros Hn Hid. unfold net_dns_query. eapply keeps_parse; [by apply validate_safe|].
  intros [n|] Hr; [|by apply keeps_ret]. specialize (Hr _ eq_refl).
  eapply net_keeps_bind; [apply (keeps_mods _ anything); [|done]|]. { intros. by apply expire_ok. }
  intros _ _ st Hs. nwp_steps. destruct (dns_cache_find st.1 n) as [i|] eqn:Ef; cbn [mbind option_bind].
  2: { eapply nwp_mono; [by apply start_query_keeps|]. done. }
  destruct (cache_find_Some _ _ _ Ef) as (e & Ee & Hv & Heq). rewrite Ee. cbn [mbind option_bind]. cbv zeta.
  nwp_if Erem.
  - nwp_steps. split; [|done]. by apply from_cache_ok.
  - eapply nwp_mono; [by apply start_query_keeps|]. done.
Qed.

Lemma tick_dns_keeps : keeps (tick_dns E) anything.
Proof.
  unfold tick_dns. apply keeps_gets. intros s Hs. destruct (_ || _); [by apply keeps_ret|].
  destruct (_ <=? _); [apply keeps_mods; [|done]; intros; by apply set_result_ok|].
  eapply net_keeps_bind; [apply dns_send_keeps|]. intros. by apply keeps_ret.
Qed.

(** ** Received frames *)

Lemma echo_reply_safe packet c :
  bytes_ok packet -> 8 <= size packet ->
  exists r, echo_reply_packet packet c = Some r /\ bytes_ok r /\ size r = size packet.
Proof.
  intros Hb Hs. unfold echo_reply_packet.
  destruct (put_ok packet 0 [ICMP_ECHO_REPLY]) as (p1 & -> & B1 & S1);
    [done|by apply bytes_one|done|change (size [_]) with 1; lia|]. rewrite some_bind.
  destruct (put_ok p1 2 (write_u16_be c)) as (p2 & -> & B2 & S2);
    [done|apply write_u16_be_ok|done|change (size (write_u16_be _)) with 2; lia|]. exists p2. split_and!; try done. lia.
Qed.

Lemma icmp_keeps src dst packet :
  bytes_ok packet -> size packet <= 65535 -> keeps (receive_icmp E src dst packet) anything.
Proof.
  intros Hb Hs. unfold receive_icmp. destruct (_ <? _) eqn:Eg; [by apply keeps_ret|]. bdestr_hyps.
  eapply keeps_lift_bind; [by apply internet_checksum_spec|]. destruct (negb _); [by apply keeps_ret|].
  destruct (rd_ok packet 0 Hb ltac:(lia)) as (ty & Ety & _). destruct (rd_ok packet 1 Hb ltac:(lia)) as (co & Eco & _).
  destruct (read_u16_be_Some packet 4 Hb ltac:(lia) ltac:(lia)) as (i & Ei & _).
  destruct (read_u16_be_Some packet 6 Hb ltac:(lia) ltac:(lia)) as (n & En & _).
  eapply keeps_lift_bind; [exact Ety|]. eapply keeps_lift_bind; [exact Eco|]. eapply keeps_lift_bind; [exact Ei|].
  eapply keeps_lift_bind; [exact En|]. apply keeps_gets. intros s Hs'.
  destruct ((ty =? ICMP_ECHO_REQUEST) && _ && _ && _).
  { destruct (echo_reply_safe packet 0 Hb ltac:(lia)) as (z & Ez & Bz & Sz). eapply keeps_lift_bind; [exact Ez|].
    eapply keeps_lift_bind; [apply internet_checksum_spec; [done|lia]|].
    destruct (echo_reply_safe packet (65535 - ones (word_sum z)) Hb ltac:(lia)) as (r & Er & Br & Sr).
    eapply keeps_lift_bind; [exact Er|]. eapply net_keeps_bind; [apply (keeps_mods _ anything); [|done]|].
    { intros. by apply count_ok. }
    intros _ _. eapply net_keeps_bind; [by apply ipv4_send_keeps|]. intros. by apply keeps_ret. }
  destruct (_ && _ && _ && _ && _ && _); [|by apply keeps_ret].
  eapply net_keeps_bind; [apply (keeps_mods _ anything); [|done]|].
  { intros s' Hs2. unfold record_echo_reply. cbv zeta. apply ok_set_echo; [by apply ok_set_reply|]. apply Hs2. }
  intros _ _. eapply net_keeps_bind; [apply (keeps_mods _ anything); [|done]|intros; by apply keeps_ret].
  intros. by apply count_ok.
Qed.

Lemma deliver_keeps d : bytes_ok (datagram_data d) -> keeps (deliver_udp E d) anything.
Proof.
  intros Hd. unfold deliver_udp. apply keeps_gets. intros s Hs.
  destruct (list_find _ _) as [[i [p [h|] c]]|]; try by apply keeps_ret.
  eapply net_keeps_bind; [apply (keeps_handler _ anything); [|done]|intros; by apply keeps_ret].
  intros st Hst. by apply (env_udp_ok E HE).
Qed.

Lemma udp_keeps src dst packet :
  bytes_ok packet -> size packet <= 65500 -> u32_ok src -> keeps (receive_udp E src dst packet) anything.
Proof.
  intros Hb Hs Hsrc. unfold receive_udp. destruct (_ <? _) eqn:Eg; [by apply keeps_ret|]. bdestr_hyps.
  destruct (read_u16_be_Some packet 0 Hb ltac:(lia) ltac:(lia)) as (sp & E0 & _).
  destruct (read_u16_be_Some packet 2 Hb ltac:(lia) ltac:(lia)) as (dp & E1 & _).
  destruct (read_u16_be_Some packet 4 Hb ltac:(lia) ltac:(lia)) as (n & E2 & _).
  eapply keeps_lift_bind; [exact E0|]. eapply keeps_lift_bind; [exact E1|]. eapply keeps_lift_bind; [exact E2|].
  destruct (_ || _) eqn:Eh; [by apply keeps_ret|]. bdestr_hyps.
  assert (Hv : exists v, udp_checksum_valid src dst packet = Some v).
  { unfold udp_checksum_valid. destruct (read_u16_be_Some packet 6 Hb ltac:(lia) ltac:(lia)) as (c & -> & _).
    rewrite some_bind. destruct (c =? 0); [by eexists|]. rewrite transport_checksum_spec by done. rewrite some_bind. by eexists. }
  destruct Hv as [v Ev]. eapply keeps_lift_bind; [exact Ev|]. destruct (negb v); [by apply keeps_ret|].
  destruct (sub_ok packet 8 (n - 8)) as (data & Ed & Bd & _); [done|lia|lia|lia|]. eapply keeps_lift_bind; [exact Ed|].
  eapply net_keeps_bind; [apply (keeps_mods _ anything); [|done]|]. { intros. by apply count_ok. }
  intros _ _. apply keeps_gets. intros s Hs'. destruct (_ && _); [by apply dhcp_receive_keeps|].
  destruct (_ && _); [|by apply deliver_keeps].
  destruct (dns_receive_ok src sp dp data s Hs' Bd) as (b & s' & Er & Hok). eapply keeps_lift_bind; [exact Er|].
  eapply net_keeps_bind; [apply (keeps_mods _ anything); done|]. intros. by apply keeps_ret.
Qed.

Lemma header_sizes_safe packet :
  bytes_ok packet -> parses (ipv4_header_sizes packet) (fun r => 20 <= r.1 <= r.2 /\ r.2 <= size packet).
Proof.
  intros Hb. unfold ipv4_header_sizes. parse_if. net_consts.
  destruct (rd_ok packet 0 Hb ltac:(lia)) as (v & -> & Hv). rewrite some_bind. cbv zeta.
  assert (Hh : 0 <= Z.land v 15 * 4 <= 60).
  { change 15 with (Z.ones 4). rewrite Z.land_ones by lia. pose proof (Z.mod_pos_bound v (2 ^ 4) ltac:(lia)). lia. }
  parse_if. destruct (read_u16_be_Some packet 2 Hb ltac:(lia) ltac:(lia)) as (total & -> & _).
  destruct (read_u16_be_Some packet 6 Hb ltac:(lia) ltac:(lia)) as (frag & -> & _).
  destruct (rd_ok packet 8 Hb ltac:(lia)) as (ttl & -> & _). rewrite !some_bind.
  destruct (sub_ok packet 0 (Z.land v 15 * 4)) as (h & -> & Bh & Sh); [done|lia|lia|lia|]. rewrite some_bind.
  rewrite internet_checksum_spec by (done || lia). rewrite some_bind. parse_if. apply parses_some. cbn [fst snd]. lia.
Qed.

Lemma ipv4_keeps m packet :
  mac_ok m -> bytes_ok packet -> size packet <= NET_ETHERNET_MTU -> keeps (receive_ipv4 E m packet) anything.
Proof.
  intros Hm Hb Hs. unfold receive_ipv4. eapply keeps_parse; [by apply header_sizes_safe|].
  intros [[hs ts]|] Hr; [|by apply keeps_ret]. destruct (Hr _ eq_refl) as [Hr1 Hr2]. cbn [fst snd] in *. clear Hr. net_consts.
  destruct (rd_ok packet 9 Hb ltac:(lia)) as (p & Ep & Hp).
  destruct (read_u32_be_Some packet 12 Hb ltac:(lia) ltac:(lia)) as (src & Esrc & Hsrc).
  destruct (read_u32_be_Some packet 16 Hb ltac:(lia) ltac:(lia)) as (dst & Edst & Hdst).
  eapply keeps_lift_bind; [exact Ep|]. eapply keeps_lift_bind; [exact Esrc|]. eapply keeps_lift_bind; [exact Edst|].
  apply keeps_gets. intros s Hs'.
  assert (Hl : exists l, ipv4_is_local s dst p hs ts packet = Some l).
  { unfold ipv4_is_local. cbv zeta. destruct (_ && _) eqn:Ec; [|by eexists]. bdestr_hyps.
    destruct (read_u16_be_Some packet (hs + 2) Hb ltac:(lia) ltac:(lia)) as (port & -> & _). by eexists. }
  destruct Hl as [l El]. eapply keeps_lift_bind; [exact El|]. destruct (negb l); [by apply keeps_ret|].
  eapply net_keeps_bind with (P := anything).
  { destruct (_ && _); [|by apply keeps_ret]. eapply net_keeps_bind; [apply (keeps_mods _ anything); [|done]|].
    { intros. by apply arp_learn_ok. }
    intros _ _. eapply net_keeps_bind; [apply flush_keeps|]. intros. by apply keeps_ret. }
  intros _ _. destruct (sub_ok packet hs (ts - hs)) as (payload & Epl & Bp & Sp); [done|lia|lia|lia|].
  eapply keeps_lift_bind; [exact Epl|]. eapply net_keeps_bind; [apply (keeps_mods _ anything); [|done]|]. { intros. by apply count_ok. }
  intros _ _. destruct (p =? 1); [apply icmp_keeps; (done || lia)|].
  destruct (p =? 17); [apply udp_keeps; (done || lia)|]. destruct (p =? 6); [|by apply keeps_ret].
  apply keeps_gets. intros s2 Hs2. destruct (tcp_handler s2) as [h|]; [|by apply keeps_ret].
  eapply net_keeps_bind; [apply (keeps_handler _ anything); [|done]|intros; by apply keeps_ret].
  intros st Hst. by apply (env_tcp_ok E HE).
Qed.

Lemma arp_keeps m packet : bytes_ok packet -> keeps (receive_arp E m packet) anything.
Proof.
  intros Hb. unfold receive_arp. destruct (_ <? _) eqn:Eg; [by apply keeps_ret|]. bdestr_hyps. net_consts.
  destruct (read_u16_be_Some packet 0 Hb ltac:(lia) ltac:(lia)) as (hw & E0 & _).
  destruct (read_u16_be_Some packet 2 Hb ltac:(lia) ltac:(lia)) as (pr & E1 & _).
  destruct (rd_ok packet 4 Hb ltac:(lia)) as (hs & E2 & _). destruct (rd_ok packet 5 Hb ltac:(lia)) as (ps & E3 & _).
  eapply keeps_lift_bind; [exact E0|]. eapply keeps_lift_bind; [exact E1|]. eapply keeps_lift_bind; [exact E2|].
  eapply keeps_lift_bind; [exact E3|]. destruct (_ || _); [by apply keeps_ret|].
  destruct (read_u16_be_Some packet 6 Hb ltac:(lia) ltac:(lia)) as (op & E4 & _).
  destruct (sub_ok packet 8 6) as (sm & E5 & Bs & Ss); [done|lia|lia|lia|].
  destruct (read_u32_be_Some packet 14 Hb ltac:(lia) ltac:(lia)) as (sip & E6 & _).
  destruct (sub_ok packet 18 6) as (tm & E7 & Bt & St); [done|lia|lia|lia|].
  destruct (read_u32_be_Some packet 24 Hb ltac:(lia) ltac:(lia)) as (tip & E8 & _).
  eapply keeps_lift_bind; [exact E4|]. eapply keeps_lift_bind; [exact E5|]. eapply keeps_lift_bind; [exact E6|].
  eapply keeps_lift_bind; [exact E7|]. eapply keeps_lift_bind; [exact E8|]. destruct (_ || _); [by apply keeps_ret|].
  assert (Hm : mac_ok sm) by (split; [unfold size in Ss; lia|done]).
  assert (Hlearn : keeps (W := W) (mods (arp_learn sip sm)) anything).
  { apply keeps_mods; [|done]. intros. by apply arp_learn_ok. }
  apply keeps_gets. intros s Hs'. destruct (op =? 1).
  { destruct (_ || _); [by apply keeps_ret|]. eapply net_keeps_bind; [exact Hlearn|]. intros _ _.
    eapply net_keeps_bind; [apply flush_keeps|]. intros _ _. apply arp_reply_keeps. }
  destruct (op =? 2); [|by apply keeps_ret]. destruct (_ || _); [by apply keeps_ret|].
  eapply net_keeps_bind; [exact Hlearn|]. intros _ _. eapply net_keeps_bind; [apply (keeps_mods _ anything); [|done]|].
  { intros. by apply count_ok. }
  intros _ _. eapply net_keeps_bind; [apply flush_keeps|]. intros. by apply keeps_ret.
Qed.

Definition frame_arg_ok (frame : option (list Z)) : Prop := match frame with Some f => bytes_ok f | None => True end.

Lemma input_keeps frame : frame_arg_ok frame -> keeps (net_input E frame) anything.
Proof.
  intros Hf. destruct frame as [frame|]; [|by apply keeps_ret]. cbn [frame_arg_ok] in Hf. unfold net_input.
  assert (Hcount : forall g, keeps (W := W) (mods (upd_stats g)) anything).
  { intros g. apply keeps_mods; [|done]. intros. by apply count_ok. }
  eapply net_keeps_bind; [apply Hcount|]. intros _ _. destruct (_ || _) eqn:Eg.
  { eapply net_keeps_bind; [apply Hcount|]. intros. by apply keeps_ret. }
  bdestr_hyps. net_consts. destruct (sub_ok frame 0 6) as (d & Ed & Bd & Sd); [done|lia|lia|lia|].
  destruct (sub_ok frame 6 6) as (m & Em & Bm & Sm); [done|lia|lia|lia|].
  eapply keeps_lift_bind; [exact Ed|]. eapply keeps_lift_bind; [exact Em|]. apply keeps_gets. intros s Hs.
  destruct (_ || _). { eapply net_keeps_bind; [apply Hcount|]. intros. by apply keeps_ret. }
  eapply net_keeps_bind with (P := anything).
  { unfold dispatch_frame. destruct (read_u16_be_Some frame 12 Hf ltac:(lia) ltac:(lia)) as (ty & Et & _).
    destruct (sub_ok frame 14 (size frame - 14)) as (p & Ep & Bp & Sp); [done|lia|lia|lia|].
    eapply keeps_lift_bind; [exact Et|]. eapply keeps_lift_bind; [exact Ep|].
    destruct (_ =? _); [by apply arp_keeps|]. destruct (_ =? _); [|by apply keeps_ret].
    apply ipv4_keeps; [split; [unfold size in Sm; lia|done]|done|net_consts; lia]. }
  intros handled _. eapply net_keeps_bind with (P := anything); [|intros; by apply keeps_ret].
  destruct (negb handled); [apply Hcount|by apply keeps_ret].
Qed.

(** ** The timer and polling *)

Lemma arp_expire_ok now l : arp_ok l -> arp_ok (arp_expire now <$> l).
Proof.
  assert (Hf : forall e, arp_mac (arp_expire now e) = arp_mac e /\ arp_ip (arp_expire now e) = arp_ip e /\
            refreshed_ms (arp_expire now e) = refreshed_ms e /\
            (arp_valid (arp_expire now e) = true -> arp_valid e = true)).
  { intros e. unfold arp_expire. by destruct (_ && _). }
  intros [A1 A2 A3 A4]. constructor.
  - by rewrite length_fmap.
  - apply Forall_fmap. eapply Forall_impl; [exact A2|]. intros e He. unfold compose. destruct (Hf e) as (-> & _ & -> & _). done.
  - apply Forall_fmap. eapply Forall_impl; [exact A3|]. intros e He. unfold compose. destruct (Hf e) as (-> & -> & _ & V). auto.
  - intros i j a b Hi Hj Va Vb Hab. rewrite list_lookup_fmap in Hi, Hj.
    apply fmap_Some in Hi as (x & Ex & ->). apply fmap_Some in Hj as (y & Ey & ->).
    destruct (Hf x) as (_ & Ix & _ & Vx). destruct (Hf y) as (_ & Iy & _ & Vy). rewrite Ix, Iy in Hab. eapply A4; eauto.
Qed.

Lemma tick_arp_keeps : keeps (tick_pending_arp E) anything.
Proof.
  intros st Hs. unfold tick_pending_arp. nwp_steps. nwp_if Ev; [by apply nwp_ret|]. nwp_if Ew; [by apply nwp_ret|].
  destruct (net_arp_lookup st.1 (next_hop_ip (pending_ipv4 st.1))).
  { nwp_if Et; nwp_steps; [split; [by apply drop_pending_ok|done]|].
    eapply nwp_mono; [by apply flush_keeps|]. intros _ st' [H' _]. by apply nwp_ret. }
  nwp_if Ea; nwp_steps; [split; [by apply drop_pending_ok|done]|]. bdestr_hyps.
  eapply nwp_mono; [apply arp_request_keeps|intros _ st' [H' _]; by apply nwp_ret].
  apply ok_set_pending; [done|]. destruct (ok_pending _ Hs) as [P1 P2 P3 P4 P5 P6]. constructor; net_simpl; try done.
  - apply Hs.
  - net_consts. rewrite u32_small by (unfold u32_ok; lia). lia.
Qed.

Lemma tick_keeps now : u64_ok now -> keeps (net_tick E now) anything.
Proof.
  intros Hn. unfold net_tick.
  assert (Hm : forall f, (forall s, net_ok s -> net_ok (f s)) -> keeps (W := W) (mods f) anything) by (intros; by apply keeps_mods).
  eapply net_keeps_bind; [apply Hm; intros; by apply ok_set_current_time|]. intros _ _.
  eapply net_keeps_bind; [apply Hm; intros; by apply expire_ok|]. intros _ _.
  eapply net_keeps_bind; [apply Hm; intros s Hs; apply ok_set_arp; [done|]; apply arp_expire_ok, Hs|]. intros _ _.
  eapply net_keeps_bind; [apply tick_arp_keeps|]. intros _ _.
  eapply net_keeps_bind; [by apply tick_dhcp_keeps|]. intros _ _.
  eapply net_keeps_bind; [apply tick_dns_keeps|]. intros _ _.
  apply Hm. intros s Hs. unfold expire_echo. cbv zeta. destruct (_ && _); [|done]. apply ok_set_echo; [done|apply Hs].
Qed.

Lemma poll_tick_keeps : keeps (poll_tick E) anything.
Proof.
  unfold poll_tick. apply keeps_gets. intros s Hs. destruct (has_now_ms _); [|by apply keeps_ret].
  eapply net_keeps_bind; [apply (keeps_extern _ u64_ok); apply (env_now_ok E HE)|]. intros now Hnow. by apply tick_keeps.
Qed.

Lemma poll_loop_keeps n processed : keeps (poll_loop E n processed) anything.
Proof.
  revert processed. induction n as [|n IH]; intros processed; cbn [poll_loop]; [by apply keeps_ret|].
  apply keeps_gets. intros s Hs.
  eapply net_keeps_bind; [apply (keeps_extern _ (fun r => frame_ok r.1 /\ 0 <= r.2))|].
  { intros w. apply (env_poll_ok E HE). apply Hs. }
  intros [buffer n'] [Hb Hn]. cbn [fst snd] in *. eapply net_keeps_bind; [apply (keeps_mods _ anything); [|done]|].
  { intros. by apply ok_set_frame. }
  intros _ _. cbv zeta. destruct (n' =? 0); [by apply keeps_ret|].
  assert (Hcount : forall g, keeps (W := W) (mods (upd_stats g)) anything).
  { intros g. apply keeps_mods; [|done]. intros. by apply count_ok. }
  destruct (_ <? _) eqn:Eg.
  { eapply net_keeps_bind; [apply Hcount|]. intros _ _. eapply net_keeps_bind; [apply Hcount|]. intros. by apply keeps_ret. }
  bdestr_hyps. destruct Hb as [Hl Hby]. destruct (sub_ok buffer 0 n') as (frame & Ef & Bf & _); [done|lia|lia|lia|].
  eapply keeps_lift_bind; [exact Ef|]. eapply net_keeps_bind; [by apply input_keeps|]. intros handled _. apply IH.
Qed.

Lemma net_poll_keeps : keeps (net_poll E) anything.
Proof.
  unfold net_poll. eapply net_keeps_bind; [apply poll_tick_keeps|]. intros _ _. apply keeps_gets. intros s Hs.
  destruct (negb _); [by apply keeps_ret|]. eapply net_keeps_bind; [apply poll_loop_keeps|]. intros p _.
  eapply net_keeps_bind; [apply poll_tick_keeps|]. intros. by apply keeps_ret.
Qed.

End run.

(** ** Histories: the calls of the public functions *)

Inductive net_call :=
  | CallInput (frame : option (list Z)) | CallPoll | CallTick (now : Z)
  | CallConfigure (config : net_ipv4_config) | CallClear
  | CallIpv4Send (ip protocol : Z) (payload : list Z) | CallUdpSend (ip dport sport : Z) (data : list Z)
  | CallUdpBind (port : Z) (h : option Z) (context : Z) | CallUdpUnbind (port : Z)
  | CallTcpHandler (h : option Z) (context : Z)
  | CallArpRequest (ip : Z) | CallEchoRequest (ip identifier sequence : Z) (payload : list Z) | CallClearEcho
  | CallDhcpStart (id : Z) | CallDhcpStop
  | CallDnsQuery (name : option (list Z)) (id : Z) | CallDnsCancel | CallDnsClear | CallCacheClear.

(** The arguments are values of their C types. *)
Definition call_ok (c : net_call) : Prop :=
  match c with
  | CallInput frame => frame_arg_ok frame
  | CallTick now => u64_ok now
  | CallConfigure config => config_ok config
  | CallIpv4Send _ protocol payload => byte_ok protocol /\ bytes_ok payload
  | CallUdpSend _ _ _ data => bytes_ok data
  | CallEchoRequest _ _ _ payload => bytes_ok payload
  | CallDhcpStart id => u32_ok id
  | CallDnsQuery name id => name_arg_ok name /\ port_ok id
  | _ => True
  end.

Definition run_call {W} (E : net_env W) (c : net_call) : NM W unit :=
  match c with
  | CallInput frame => net_input E frame;; mret tt
  | CallPoll => net_poll E;; mret tt
  | CallTick now => net_tick E now
  | CallConfigure config => mods (net_configure_ipv4 config)
  | CallClear => mods net_clear_ipv4
  | CallIpv4Send ip protocol payload => net_ipv4_send E ip protocol payload;; mret tt
  | CallUdpSend ip dport sport data => net_udp_send E ip dport sport data;; mret tt
  | CallUdpBind port h context => mods (fun s => (net_udp_bind port h context s).2)
  | CallUdpUnbind port => mods (net_udp_unbind port)
  | CallTcpHandler h context => mods (net_set_tcp_handler h context)
  | CallArpRequest ip => net_arp_request E ip;; mret tt
  | CallEchoRequest ip identifier sequence payload => net_icmp_echo_request E ip identifier sequence payload;; mret tt
  | CallClearEcho => mods net_icmp_clear_echo_reply
  | CallDhcpStart id => net_dhcp_start E id;; mret tt
  | CallDhcpStop => mods net_dhcp_stop
  | CallDnsQuery name id => net_dns_query E name id;; mret tt
  | CallDnsCancel => s ← gets (fun s => s); r ← lift (net_dns_cancel s); mods (fun _ => r.2)
  | CallDnsClear => mods net_dns_clear_result
  | CallCacheClear => mods net_dns_cache_clear
  end.

Fixpoint run_calls {W} (E : net_env W) (calls : list net_call) : NM W unit :=
  match calls with
  | [] => mret tt
  | c :: calls => run_call E c;; run_calls E calls
  end.

Lemma initial_ok l m now : mac_ok m -> u64_ok now -> net_ok (initial_stack l m now).
Proof.
  intros Hm Ht. constructor; unfold initial_stack; net_simpl; try done.
  - apply zero_arp_ok.
  - constructor; [done| |].
    + apply Forall_replicate. by intros [? ?].
    + intros i j a b [-> _]%lookup_replicate_1 _ [? Ha]. done.
  - constructor; net_simpl; try done. apply bytes_ok_zeros.
  - apply zero_dns_ok.
  - apply zero_cache_ok.
  - split; [done|apply bytes_ok_zeros].
Qed.

Lemma net_call_keeps {W} (E : net_env W) (HE : env_ok E) c : call_ok c -> keeps (run_call E c) anything.
Proof.
  intros Hc. destruct c; cbn [call_ok run_call] in *;
    lazymatch goal with
    | |- keeps (mods _) _ => apply keeps_mods; [|done]; intros s Hs
    | |- keeps (gets _ ≫= _) _ => idtac
    | |- keeps (net_tick _ _) _ => idtac
    | |- keeps _ _ => eapply net_keeps_bind with (P := anything); [|intros; by apply keeps_ret]
    end.
  - by apply input_keeps.
  - by apply net_poll_keeps.
  - by apply tick_keeps.
  - by apply configure_ok.
  - by apply clear_ipv4_ok.
  - destruct Hc. by apply ipv4_send_keeps.
  - by apply udp_send_keeps.
  - by apply bind_ok.
  - by apply unbind_ok.
  - by apply ok_set_tcp.
  - apply arp_request_keeps.
  - by apply echo_request_keeps.
  - by apply ok_set_reply.
  - by apply dhcp_start_keeps.
  - apply ok_set_dhcp; [done|apply zero_dhcp_ok].
  - destruct Hc. by apply dns_query_keeps.
  - apply keeps_gets. intros s Hs. destruct (cancel_ok s Hs) as (b & s' & Er & Hok). eapply keeps_lift_bind; [exact Er|].
    by apply keeps_mods.
  - apply ok_set_dns; [done|apply zero_dns_ok].
  - by apply clear_cache_ok.
Qed.

Lemma run_calls_keeps {W} (E : net_env W) (HE : env_ok E) calls :
  Forall call_ok calls -> keeps (run_calls E calls) anything.
Proof.
  induction 1 as [|c calls Hc Hcs IH]; cbn [run_calls]; [by apply keeps_ret|].
  eapply net_keeps_bind; [by apply net_call_keeps|]. done.
Qed.
