(* ===== verification/NetDatagram.v ===== *)
(** * kernel/net.c: frames one stack sends are the frames another accepts

    Frames; then address resolution between two stacks; then whole datagrams. *)

From S2P Require Import Prelude TcpSegment NetState NetBytes NetSend NetDhcp NetDns NetInput NetParse NetReceive.

Open Scope net_scope.

(** ** Running a computation by rewriting *)

Section nm.
  Context {W : Type}.
  Implicit Types st : net_stack * W.

Lemma nm_bind {A B} (m : NM W A) (k : A -> NM W B) st a st' : m st = Some (a, st') -> (m ≫= k) st = k a st'.
Proof. unfold mbind, NM_bind. by intros ->. Qed.

Lemma nm_gets {A B} (f : net_stack -> A) (k : A -> NM W B) st : (gets f ≫= k) st = k (f st.1) st.
Proof. reflexivity. Qed.

Lemma nm_mods {B} f (k : unit -> NM W B) st : (mods f ≫= k) st = k tt (f st.1, st.2).
Proof. reflexivity. Qed.

Lemma nm_lift {A B} (o : option A) a (k : A -> NM W B) st : o = Some a -> (lift o ≫= k) st = k a st.
Proof. by intros ->. Qed.

Lemma nm_ret {A B} (a : A) (k : A -> NM W B) st : (mret a ≫= k) st = k a st.
Proof. reflexivity. Qed.

End nm.

Ltac nm := repeat (rewrite ?nm_gets, ?nm_mods, ?nm_ret; cbn [fst snd]).

(** ** The IPv4 header *)

Lemma word_sum_ipv4 a d p i n c :
  0 <= c < 65536 -> word_sum (ipv4_header a d p i n c) = word_sum (ipv4_header a d p i n 0) + c.
Proof.
  intros Hc. unfold ipv4_header, word_sum, write_u16_be, write_u32_be. cbn [app words fold_right].
  change (u8 (Z.shiftr 0 8)) with 0. change (u8 0) with 0. pose proof (be16_val c Hc). lia.
Qed.

(** The checksum [send_ipv4_with_mac] stores. *)
Definition ipv4_checksum (a d p i n : Z) : Z := 65535 - ones (word_sum (ipv4_header a d p i n 0)).

Lemma ipv4_checksum_range a d p i n : 0 <= ipv4_checksum a d p i n < 65536.
Proof. unfold ipv4_checksum. pose proof (ones_range (word_sum (ipv4_header a d p i n 0))). lia. Qed.

Lemma ipv4_checksum_computed a d p i n :
  byte_ok p -> internet_checksum (ipv4_header a d p i n 0) = Some (ipv4_checksum a d p i n).
Proof. intros. apply internet_checksum_spec; [by apply header_ok|done]. Qed.

Lemma ipv4_checksum_verifies a d p i n :
  byte_ok p -> internet_checksum (ipv4_header a d p i n (ipv4_checksum a d p i n)) = Some 0.
Proof.
  intros Hp. rewrite internet_checksum_spec by (done || by apply header_ok).
  rewrite word_sum_ipv4 by apply ipv4_checksum_range. unfold ipv4_checksum at 1. rewrite ones_complement; [done|].
  apply word_sum_range. by apply header_ok.
Qed.

(** A packet as [send_ipv4_with_mac] builds it. *)
Definition ipv4_packet (a d p i : Z) (payload : list Z) : list Z :=
  let n := NET_IPV4_HEADER_MIN_SIZE + size payload in ipv4_header a d p i n (ipv4_checksum a d p i n) ++ payload.

Lemma size_ipv4_packet a d p i payload : size (ipv4_packet a d p i payload) = 20 + size payload.
Proof. unfold ipv4_packet. rewrite size_app. done. Qed.

Lemma ipv4_packet_bytes a d p i payload : byte_ok p -> bytes_ok payload -> bytes_ok (ipv4_packet a d p i payload).
Proof. intros. apply Forall_app_2; [by apply header_ok|done]. Qed.

Lemma ipv4_packet_fields a d p i payload :
  u32_ok a -> u32_ok d ->
  rd (ipv4_packet a d p i payload) 9 = Some p /\
  read_u32_be (ipv4_packet a d p i payload) 12 = Some a /\
  read_u32_be (ipv4_packet a d p i payload) 16 = Some d.
Proof.
  intros Ha Hd. split; [done|]. split.
  - etransitivity; [|exact (f_equal Some (be_bytes_u32 a Ha))]. reflexivity.
  - etransitivity; [|exact (f_equal Some (be_bytes_u32 d Hd))]. reflexivity.
Qed.

Lemma ipv4_packet_sizes a d p i payload :
  byte_ok p -> size payload <= NET_IPV4_PAYLOAD_MAX ->
  ipv4_header_sizes (ipv4_packet a d p i payload) = Some (Some (20, 20 + size payload)).
Proof.
  intros Hp Hs. pose proof (size_nonneg payload) as Hs0. pose proof (size_ipv4_packet a d p i payload) as Hsz.
  set (packet := ipv4_packet a d p i payload) in *. net_consts.
  assert (R0 : rd packet 0 = Some 0x45) by reflexivity.
  assert (R8 : rd packet 8 = Some 64) by reflexivity.
  assert (R6 : read_u16_be packet 6 = Some 0x4000) by reflexivity.
  assert (R2 : read_u16_be packet 2 = Some (20 + size payload)).
  { rewrite <- (u16_small (20 + size payload)) by lia.
    etransitivity; [|exact (f_equal Some (be_bytes_u16 _ (u16_range (20 + size payload))))]. reflexivity. }
  unfold ipv4_header_sizes. rewrite Hsz. net_consts. rewrite (proj2 (Z.ltb_ge _ _)) by lia.
  rewrite R0, some_bind. cbv zeta. change (Z.land 0x45 0x0F * 4) with 20.
  rewrite (proj2 (Z.ltb_ge (20 + size payload) 20)) by lia.
  change (negb (Z.shiftr 0x45 4 =? 4) || (20 <? 20) || false) with false. cbv iota.
  rewrite R2, R6, R8, !some_bind.
  assert (Hsub : sub packet 0 20 = Some (ipv4_header a d p i (20 + size payload) (ipv4_checksum a d p i (20 + size payload)))).
  { unfold packet, ipv4_packet. cbv zeta. by apply (sub_app []). }
  rewrite Hsub, some_bind, ipv4_checksum_verifies, some_bind by done.
  rewrite (proj2 (Z.ltb_ge (20 + size payload) 20)), (proj2 (Z.ltb_ge (20 + size payload) (20 + size payload))) by lia. done.
Qed.

Lemma ipv4_packet_payload a d p i payload :
  sub (ipv4_packet a d p i payload) 20 (20 + size payload - 20) = Some payload.
Proof.
  unfold ipv4_packet. cbv zeta. rewrite <- (app_nil_r payload) at 3. apply sub_app; [done|lia].
Qed.

(** ** Ethernet *)

Lemma size_ethernet s m ty : mac_ok m -> mac_ok (mac s) -> size (write_ethernet_header s m ty) = 14.
Proof. intros [Hm _] [Hs _]. unfold write_ethernet_header. rewrite !size_app. unfold size. rewrite Hm, Hs. done. Qed.

(** What is behind the Ethernet header, for a frame to this host from a possible source. *)
Lemma frame_dispatched {W} (E : net_env W) destination source ty packet s w :
  mac_ok destination -> mac_ok source -> mac_ok (mac s) -> 0 <= ty < 65536 -> size packet <= NET_ETHERNET_MTU ->
  destination = mac s \/ destination = broadcast_mac -> mac_is_valid_source source = true ->
  net_input E (Some (destination ++ source ++ write_u16_be ty ++ packet)) (s, w) =
  (handled ← (if ty =? ETHERTYPE_ARP then receive_arp E source packet
              else if ty =? ETHERTYPE_IPV4 then receive_ipv4 E source packet else mret false);
   (if negb handled then mods count_frames_dropped else mret tt);;
   mret handled) (count_frames_received s, w).
Proof.
  intros [Ld Bd] [Ls Bs] [Lm Bm] Hty Hp Hdest Hsrc. unfold net_input. nm.
  set (frame := destination ++ source ++ write_u16_be ty ++ packet). pose proof (size_nonneg packet) as Hs0.
  assert (Hsz : size frame = 14 + size packet) by (unfold frame; rewrite !size_app; unfold size; rewrite Ld, Ls; cbn; lia).
  rewrite Hsz. net_consts. rewrite !(proj2 (Z.ltb_ge _ _)) by lia. cbn [orb].
  rewrite (nm_lift _ destination) by (by apply (sub_app []); unfold size; rewrite ?Ld).
  rewrite (nm_lift _ source) by (by apply sub_app; unfold size; rewrite ?Ld, ?Ls). nm.
  assert (Eg : (negb (bytes_equal destination (mac s)) && negb (mac_is_broadcast destination)) = false).
  { destruct Hdest as [-> | ->]; [by rewrite bytes_equal_refl|]. apply andb_false_iff. by right. }
  change (mac (count_frames_received s)) with (mac s). rewrite Eg, Hsrc. cbn [orb negb].
  assert (Edisp : dispatch_frame E source frame (count_frames_received s, w) =
            (if ty =? 2054 then receive_arp E source packet
             else if ty =? 2048 then receive_ipv4 E source packet else mret false) (count_frames_received s, w)).
  { unfold dispatch_frame. net_consts. rewrite (nm_lift _ ty).
    - rewrite Hsz, (nm_lift _ packet); [done|]. unfold frame. rewrite !(app_assoc _ _ packet), <- (app_nil_r packet) at 1.
      rewrite !(app_assoc _ source), !app_assoc. rewrite <- app_assoc.
      apply sub_app; [|lia]. rewrite !size_app. unfold size. rewrite Ld, Ls. done.
    - unfold frame. rewrite app_assoc. replace 12 with (size (destination ++ source))
        by (rewrite size_app; unfold size; rewrite Ld, Ls; done). by apply read_u16_be_at. }
  unfold mbind at 1, NM_bind at 1. rewrite Edisp. reflexivity.
Qed.

(** * kernel/net.c: two stacks on one link, from an ARP request to the delivered datagram *)

Open Scope net_scope.

(** ** Learning an address *)

Lemma arp_learn_lookup ip m s :
  arp_ok (arp s) -> ipv4_is_usable_unicast ip = true -> mac_is_valid_source m = true ->
  net_arp_lookup (arp_learn ip m s) ip = Some m.
Proof.
  intros Ha Hip Hm. unfold arp_learn. rewrite Hip, Hm. cbn [negb orb]. cbv zeta.
  set (i := match arp_find s ip with Some i => i | None => _ end).
  assert (Hi : (i < length (arp s))%nat).
  { unfold i. destruct (arp_find s ip) as [k|] eqn:Ef.
    - apply arp_find_Some in Ef as (e & Ee & _). by eapply lookup_lt_Some.
    - apply (arp_select_lt 0 (arp s) 0 UINT64_MAX). left. rewrite (arp_length _ Ha). lia. }
  assert (Hu : forall j b, arp s !! j = Some b -> arp_valid b = true -> arp_ip b = ip -> j = i).
  { intros j b Hb Hv Hib. unfold i. destruct (arp_find s ip) as [k|] eqn:Ef.
    - apply arp_find_Some in Ef as (e & Ee & Ve & Ie). eapply (arp_unique _ Ha); eauto. congruence.
    - by destruct (arp_find_None s ip j b Ef Hb Hv). }
  apply arp_lookup_Some. exists i, (NetArpEntry true ip m (current_time_ms s)). split; [|split; [|done]].
  - unfold arp_find. net_simpl. apply fmap_Some. exists (i, NetArpEntry true ip m (current_time_ms s)). split; [|done].
    apply list_find_Some. split; [by apply list_lookup_insert_eq|]. split; [done|].
    intros j y Hj Hlt [V I]. rewrite list_lookup_insert_ne in Hj by lia. specialize (Hu j y Hj V I). lia.
  - net_simpl. by apply list_lookup_insert_eq.
Qed.

(** ** ARP packets *)

Lemma size_arp_packet s op tm tip : mac_ok (mac s) -> mac_ok tm -> size (arp_packet s op tm tip) = 28.
Proof. intros [Hs _] [Ht _]. unfold arp_packet. rewrite !size_app. unfold size. rewrite Hs, Ht. done. Qed.

Lemma arp_packet_bytes s op tm tip : mac_ok (mac s) -> mac_ok tm -> bytes_ok (arp_packet s op tm tip).
Proof.
  intros [_ Hs] [_ Ht]. unfold arp_packet.
  repeat (apply Forall_app_2; [first [apply write_u16_be_ok|apply write_u32_be_ok|done|by apply bytes_okb_true]|]).
  apply write_u32_be_ok.
Qed.

(** What a receiver reads of it. *)
Lemma arp_packet_fields s op tm tip :
  mac_ok (mac s) -> mac_ok tm -> 0 <= op < 65536 -> u32_ok (address (ipv4 s)) -> u32_ok tip ->
  let p := arp_packet s op tm tip in
  read_u16_be p 0 = Some 1 /\ read_u16_be p 2 = Some 0x800 /\ rd p 4 = Some 6 /\ rd p 5 = Some 4 /\
  read_u16_be p 6 = Some op /\ sub p 8 6 = Some (mac s) /\ read_u32_be p 14 = Some (address (ipv4 s)) /\
  sub p 18 6 = Some tm /\ read_u32_be p 24 = Some tip.
Proof.
  intros [Ls _] [Lt _] Hop Ha Ht. cbv zeta. unfold arp_packet.
  set (h := write_u16_be ARP_HARDWARE_ETHERNET ++ write_u16_be ETHERTYPE_IPV4 ++ [NET_ETHERNET_ADDRESS_SIZE; 4]).
  set (rest := mac s ++ write_u32_be (address (ipv4 s)) ++ tm ++ write_u32_be tip).
  assert (Ep : write_u16_be ARP_HARDWARE_ETHERNET ++ write_u16_be ETHERTYPE_IPV4 ++ [NET_ETHERNET_ADDRESS_SIZE; 4] ++
            write_u16_be op ++ rest = h ++ write_u16_be op ++ rest) by done.
  rewrite Ep.
  split; [done|]. split; [done|]. split; [done|]. split; [done|].
  assert (Sm : size (mac s) = 6) by (unfold size; by rewrite Ls).
  assert (St : size tm = 6) by (unfold size; by rewrite Lt).
  split; [by apply (read_u16_be_at h)|].
  assert (E8 : h ++ write_u16_be op ++ rest = (h ++ write_u16_be op) ++ rest) by (by rewrite app_assoc).
  rewrite E8. set (h8 := h ++ write_u16_be op). assert (S8 : size h8 = 8) by done. unfold rest.
  split; [by apply sub_app|].
  rewrite app_assoc. split.
  { replace 14 with (size (h8 ++ mac s)) by (rewrite size_app; lia). by apply read_u32_be_at. }
  rewrite app_assoc. set (h18 := (h8 ++ mac s) ++ write_u32_be (address (ipv4 s))).
  assert (S18 : size h18 = 18) by (unfold h18; rewrite !size_app, S8, Sm; done).
  split; [by apply sub_app|].
  rewrite app_assoc, <- (app_nil_r (write_u32_be tip)). replace 24 with (size (h18 ++ tm)) by (rewrite size_app; lia).
  by apply read_u32_be_at.
Qed.

(** ** Operations of a stack whose driver takes every frame *)

Section wire.
  Context {W : Type} (E : net_env W) (out : list Z -> W -> W)
    (Hsend : forall frame w, env_send E frame w = (true, out frame w)).

Lemma transmit_run s w frame :
  has_send (link s) = true -> 14 <= size frame <= 1514 ->
  link_transmit E frame (s, w) = Some (true, (count_frames_transmitted s, out frame w)).
Proof.
  intros Hl Hs. unfold link_transmit. nm. rewrite Hl. net_consts. rewrite !(proj2 (Z.ltb_ge _ _)) by lia. cbn [negb orb].
  erewrite nm_bind; [|unfold extern; cbn [snd]; by rewrite Hsend]. reflexivity.
Qed.

Lemma send_with_mac_run s w d p payload m :
  has_send (link s) = true -> mac_ok (mac s) -> mac_ok m -> byte_ok p -> size payload <= NET_IPV4_PAYLOAD_MAX ->
  let s1 := set_next_ipv4_id (u16 (next_ipv4_id s + 1)) s in
  send_ipv4_with_mac E d p payload m (s, w) =
    Some (true, (count_ipv4_packets_transmitted (count_frames_transmitted s1),
      out (write_ethernet_header s m ETHERTYPE_IPV4 ++ ipv4_packet (address (ipv4 s)) d p (next_ipv4_id s) payload) w)).
Proof.
  intros Hl Hm Hd Hp Hs. cbv zeta. unfold send_ipv4_with_mac. rewrite (proj2 (Z.ltb_ge _ _)) by lia. nm. cbv zeta.
  rewrite (nm_lift _ _ _ _ (ipv4_checksum_computed _ _ _ _ _ Hp)).
  erewrite nm_bind; [|apply transmit_run; [done|]]; [reflexivity|].
  pose proof (size_nonneg payload). pose proof (size_ethernet s m ETHERTYPE_IPV4 Hd Hm) as He.
  pose proof (size_ipv4_packet (address (ipv4 s)) d p (next_ipv4_id s) payload) as Hi. unfold ipv4_packet in Hi. cbv zeta in Hi.
  rewrite size_app, He, Hi. net_consts. lia.
Qed.

Lemma arp_request_run s w ip :
  has_send (link s) = true -> mac_ok (mac s) -> address (ipv4 s) <> 0 -> ipv4_is_usable_unicast ip = true ->
  net_arp_request E ip (s, w) =
    Some (true, (count_arp_requests_sent (count_frames_transmitted s),
      out (write_ethernet_header s broadcast_mac ETHERTYPE_ARP ++
           arp_packet s ARP_OPERATION_REQUEST (zeros NET_ETHERNET_ADDRESS_SIZE) ip) w)).
Proof.
  intros Hl Hm Ha Hip. unfold net_arp_request. nm. rewrite Hl, Hip, (proj2 (Z.eqb_neq _ _) Ha). cbn [negb orb].
  erewrite nm_bind; [|apply transmit_run; [done|]]; [reflexivity|].
  rewrite size_app, size_ethernet by (done || (split; [done|by apply bytes_okb_true])).
  rewrite size_arp_packet by (done || (split; [done|by apply bytes_okb_true])). lia.
Qed.

Lemma arp_reply_run s w m ip :
  has_send (link s) = true -> mac_ok (mac s) -> mac_ok m ->
  send_arp_reply E m ip (s, w) =
    Some (true, (count_frames_transmitted s,
      out (write_ethernet_header s m ETHERTYPE_ARP ++ arp_packet s ARP_OPERATION_REPLY m ip) w)).
Proof.
  intros Hl Hm Hd. unfold send_arp_reply. nm. apply transmit_run; [done|].
  rewrite size_app, size_ethernet, size_arp_packet by done. lia.
Qed.

Lemma flush_none s w : pending_valid (pending_ipv4 s) = false -> flush_pending_ipv4 E (s, w) = Some (true, (s, w)).
Proof. intros Hp. unfold flush_pending_ipv4. nm. by rewrite Hp. Qed.

(** ** Received ARP packets *)

Lemma arp_request_received s w from :
  has_send (link s) = true -> mac_ok (mac s) -> u32_ok (address (ipv4 s)) -> address (ipv4 s) <> 0 ->
  pending_valid (pending_ipv4 s) = false ->
  mac_ok (mac from) -> mac_is_valid_source (mac from) = true -> u32_ok (address (ipv4 from)) ->
  ipv4_is_usable_unicast (address (ipv4 from)) = true ->
  let s1 := arp_learn (address (ipv4 from)) (mac from) s in
  receive_arp E (mac from) (arp_packet from ARP_OPERATION_REQUEST (zeros NET_ETHERNET_ADDRESS_SIZE) (address (ipv4 s))) (s, w) =
    Some (true, (count_frames_transmitted s1,
      out (write_ethernet_header s (mac from) ETHERTYPE_ARP ++
           arp_packet s ARP_OPERATION_REPLY (mac from) (address (ipv4 from))) w)).
Proof.
  intros Hl Hm Ha Ha0 Hp Hfm Hfv Hfa Hfu. cbv zeta. unfold receive_arp.
  assert (Hz : mac_ok (zeros NET_ETHERNET_ADDRESS_SIZE)) by (split; [done|apply bytes_ok_zeros]).
  rewrite size_arp_packet by done. change (28 <? ARP_PACKET_SIZE) with false. cbv iota.
  destruct (arp_packet_fields from ARP_OPERATION_REQUEST (zeros NET_ETHERNET_ADDRESS_SIZE) (address (ipv4 s)))
    as (F0 & F1 & F2 & F3 & F4 & F5 & F6 & F7 & F8); [done|done|done|done|done|].
  rewrite (nm_lift _ _ _ _ F0), (nm_lift _ _ _ _ F1), (nm_lift _ _ _ _ F2), (nm_lift _ _ _ _ F3). cbn [orb negb].
  change (negb (1 =? ARP_HARDWARE_ETHERNET) || negb (2048 =? ETHERTYPE_IPV4) ||
          negb (6 =? NET_ETHERNET_ADDRESS_SIZE) || negb (4 =? 4)) with false. cbv iota.
  rewrite (nm_lift _ _ _ _ F4), (nm_lift _ _ _ _ F5), (nm_lift _ _ _ _ F6), (nm_lift _ _ _ _ F7), (nm_lift _ _ _ _ F8).
  rewrite bytes_equal_refl by apply Hfm. rewrite Hfv, Hfu. cbn [orb negb]. nm.
  change (ARP_OPERATION_REQUEST =? ARP_OPERATION_REQUEST) with true. cbv iota.
  rewrite (proj2 (Z.eqb_neq _ _) Ha0), Z.eqb_refl. cbn [orb negb]. nm.
  assert (Hlearn : forall {B} (g : net_stack -> B), (forall a, g (set_arp a s) = g s) ->
            g (arp_learn (address (ipv4 from)) (mac from) s) = g s).
  { intros B g Hg. unfold arp_learn. by destruct (_ || _). }
  erewrite nm_bind; [|apply flush_none; by rewrite (Hlearn _ (fun s => pending_valid (pending_ipv4 s)))].
  rewrite arp_reply_run; [| |by rewrite (Hlearn _ mac)|done].
  - unfold write_ethernet_header, arp_packet. by rewrite (Hlearn _ mac), (Hlearn _ ipv4).
  - by rewrite (Hlearn _ (fun s => has_send (link s))).
Qed.

(** A reply is learnt, and what was waiting for it is flushed. *)
Lemma arp_reply_received s w from st' :
  mac_ok (mac s) -> u32_ok (address (ipv4 s)) ->
  mac_ok (mac from) -> mac_is_valid_source (mac from) = true -> u32_ok (address (ipv4 from)) ->
  ipv4_is_usable_unicast (address (ipv4 from)) = true ->
  flush_pending_ipv4 E (count_arp_replies_received (arp_learn (address (ipv4 from)) (mac from) s), w) = Some (true, st') ->
  receive_arp E (mac from) (arp_packet from ARP_OPERATION_REPLY (mac s) (address (ipv4 s))) (s, w) = Some (true, st').
Proof.
  intros Hm Ha Hfm Hfv Hfa Hfu Hflush. unfold receive_arp.
  rewrite size_arp_packet by done. change (28 <? ARP_PACKET_SIZE) with false. cbv iota.
  destruct (arp_packet_fields from ARP_OPERATION_REPLY (mac s) (address (ipv4 s)))
    as (F0 & F1 & F2 & F3 & F4 & F5 & F6 & F7 & F8); [done|done|done|done|done|].
  rewrite (nm_lift _ _ _ _ F0), (nm_lift _ _ _ _ F1), (nm_lift _ _ _ _ F2), (nm_lift _ _ _ _ F3). cbn [orb negb].
  change (negb (1 =? ARP_HARDWARE_ETHERNET) || negb (2048 =? ETHERTYPE_IPV4) ||
          negb (6 =? NET_ETHERNET_ADDRESS_SIZE) || negb (4 =? 4)) with false. cbv iota.
  rewrite (nm_lift _ _ _ _ F4), (nm_lift _ _ _ _ F5), (nm_lift _ _ _ _ F6), (nm_lift _ _ _ _ F7), (nm_lift _ _ _ _ F8).
  rewrite bytes_equal_refl by apply Hfm. rewrite Hfv, Hfu. cbn [orb negb]. nm.
  change (ARP_OPERATION_REPLY =? ARP_OPERATION_REQUEST) with false.
  change (ARP_OPERATION_REPLY =? ARP_OPERATION_REPLY) with true. cbv iota.
  rewrite Z.eqb_refl, bytes_equal_refl by apply Hm. cbn [orb negb]. nm.
  by erewrite nm_bind; [|exact Hflush].
Qed.

End wire.

(** * kernel/net.c: a datagram from one stack to the handler of another *)

Open Scope net_scope.

(** ** The datagram [net_udp_send] builds, and that its checksum verifies *)

Definition udp_checksum (a d sp dp : Z) (data : list Z) : Z :=
  let n := 8 + size data in
  65535 - ones (pseudo_sum a d NET_IPV4_PROTOCOL_UDP n + word_sum (udp_header sp dp n 0 ++ data)).

Definition udp_datagram (a d sp dp : Z) (data : list Z) : list Z :=
  let c := udp_checksum a d sp dp data in
  udp_header sp dp (8 + size data) (if c =? 0 then 0xFFFF else c) ++ data.

Lemma size_udp_datagram a d sp dp data : size (udp_datagram a d sp dp data) = 8 + size data.
Proof. apply size_udp. Qed.

Lemma udp_datagram_bytes a d sp dp data : bytes_ok data -> bytes_ok (udp_datagram a d sp dp data).
Proof. intros. apply Forall_app_2; [apply udp_header_ok|done]. Qed.

Lemma word_sum_udp sp dp n c data :
  0 <= c < 65536 -> word_sum (udp_header sp dp n c ++ data) = word_sum (udp_header sp dp n 0 ++ data) + c.
Proof.
  intros Hc. rewrite !word_sum_app by (exists 4%nat; done). unfold udp_header, word_sum, write_u16_be.
  cbn [app words fold_right]. change (u8 (Z.shiftr 0 8)) with 0. change (u8 0) with 0. pose proof (be16_val c Hc). lia.
Qed.

Lemma residue_add x k : 0 < x -> 0 <= k -> residue (x + 65535 * k) = residue x.
Proof.
  intros. unfold residue. f_equal. replace (x + 65535 * k - 1) with (x - 1 + k * 65535) by lia. by apply Z.mod_add.
Qed.

Lemma udp_checksum_computed a d sp dp data :
  bytes_ok data -> size data <= NET_UDP_PAYLOAD_MAX ->
  transport_checksum a d NET_IPV4_PROTOCOL_UDP (udp_header sp dp (8 + size data) 0 ++ data) =
    Some (udp_checksum a d sp dp data).
Proof.
  intros Hb Hs. unfold udp_checksum. cbv zeta. rewrite transport_checksum_spec; [by rewrite size_udp|done| |].
  - apply Forall_app_2; [apply udp_header_ok|done].
  - rewrite size_udp. net_consts. lia.
Qed.

Lemma udp_checksum_accepted a d sp dp data :
  bytes_ok data -> size data <= NET_UDP_PAYLOAD_MAX ->
  udp_checksum_valid a d (udp_datagram a d sp dp data) = Some true.
Proof.
  intros Hb Hs. unfold udp_checksum_valid, udp_datagram. cbv zeta.
  set (x := pseudo_sum a d NET_IPV4_PROTOCOL_UDP (8 + size data) + word_sum (udp_header sp dp (8 + size data) 0 ++ data)).
  assert (Hx : 17 <= x).
  { pose proof (pseudo_sum_range a d 17 (8 + size data) ltac:(done)) as Hp.
    assert (Hw : bytes_ok (udp_header sp dp (8 + size data) 0 ++ data)) by (apply Forall_app_2; [apply udp_header_ok|done]).
    pose proof (word_sum_range _ Hw). unfold x. net_consts. lia. }
  assert (Ec : udp_checksum a d sp dp data = 65535 - residue x).
  { unfold udp_checksum. cbv zeta. fold x. unfold ones. by rewrite (proj2 (Z.eqb_neq x 0)) by lia. }
  pose proof (residue_range x) as Hr. set (c := udp_checksum a d sp dp data) in *.
  set (c' := if c =? 0 then 65535 else c).
  assert (Hc' : 0 < c' < 65536) by (unfold c'; destruct (Z.eqb_spec c 0); lia).
  assert (R : read_u16_be (udp_header sp dp (8 + size data) c' ++ data) 6 = Some c').
  { etransitivity; [|refine (f_equal Some (be_bytes_u16 c' _)); lia]. reflexivity. }
  rewrite R, some_bind, (proj2 (Z.eqb_neq c' 0)) by lia.
  rewrite transport_checksum_spec; [|done|apply Forall_app_2; [apply udp_header_ok|done]|rewrite size_udp; net_consts; lia].
  rewrite size_udp, word_sum_udp, Z.add_assoc by lia. fold x. rewrite some_bind. f_equal. apply Z.eqb_eq.
  enough (E : ones (x + c') = 65535) by lia. unfold ones. rewrite (proj2 (Z.eqb_neq (x + c') 0)) by lia.
  unfold c'. destruct (Z.eqb_spec c 0) as [E0|E0].
  - replace (x + 65535) with (x + 65535 * 1) by lia. rewrite residue_add by lia. lia.
  - rewrite Ec. apply residue_complement.
Qed.

Lemma udp_datagram_fields a d sp dp data :
  port_ok sp -> port_ok dp -> size data <= NET_UDP_PAYLOAD_MAX ->
  let u := udp_datagram a d sp dp data in
  read_u16_be u 0 = Some sp /\ read_u16_be u 2 = Some dp /\ read_u16_be u 4 = Some (8 + size data) /\
  sub u 8 (8 + size data - 8) = Some data.
Proof.
  intros Hsp Hdp Hs. cbv zeta. pose proof (size_nonneg data) as Hs0. net_consts. unfold udp_datagram. cbv zeta.
  set (c := if _ =? 0 then _ else _). split; [|split; [|split]].
  - etransitivity; [|exact (f_equal Some (be_bytes_u16 sp Hsp))]. reflexivity.
  - etransitivity; [|exact (f_equal Some (be_bytes_u16 dp Hdp))]. reflexivity.
  - rewrite <- (u16_small (8 + size data)) at 2 by lia.
    etransitivity; [|exact (f_equal Some (be_bytes_u16 _ (u16_range (8 + size data))))]. reflexivity.
  - rewrite <- (app_nil_r data) at 2. apply sub_app; [done|lia].
Qed.

(** ** Receiving *)

Section receive.
  Context {W : Type} (E : net_env W).

(** The packet reaches its protocol; its sender was learnt when it is on the link. *)
Lemma ipv4_received s w m a d p i payload :
  u32_ok a -> u32_ok d -> byte_ok p -> size payload <= NET_IPV4_PAYLOAD_MAX ->
  ipv4_destination_is_local s d = true -> ipv4_is_usable_unicast a = true -> ipv4_is_on_link s a = true ->
  pending_valid (pending_ipv4 s) = false -> p = NET_IPV4_PROTOCOL_UDP ->
  receive_ipv4 E m (ipv4_packet a d p i payload) (s, w) =
  receive_udp E a d payload (count_ipv4_packets_received (arp_learn a m s), w).
Proof.
  intros Ha Hd Hp Hs Hl Hu Ho Hpend Hudp. unfold receive_ipv4. rewrite (nm_lift _ _ _ _ (ipv4_packet_sizes a d p i payload Hp Hs)).
  destruct (ipv4_packet_fields a d p i payload Ha Hd) as (F9 & F12 & F16).
  rewrite (nm_lift _ _ _ _ F9), (nm_lift _ _ _ _ F12), (nm_lift _ _ _ _ F16). nm.
  assert (El : ipv4_is_local s d p 20 (20 + size payload) (ipv4_packet a d p i payload) = Some true).
  { unfold ipv4_is_local. by rewrite Hl. }
  rewrite (nm_lift _ _ _ _ El), Hu, Ho. cbn [negb andb].
  assert (Elearn : (mods (arp_learn a m);; flush_pending_ipv4 E;; mret tt) (s, w) = Some (tt, (arp_learn a m s, w))).
  { nm. erewrite nm_bind; [|apply flush_none]; [done|]. unfold arp_learn. by destruct (_ || _). }
  rewrite (nm_bind _ _ _ _ _ Elearn), (nm_lift _ _ _ _ (ipv4_packet_payload a d p i payload)). nm. by rewrite Hudp.
Qed.

(** A datagram to a bound port is handed to its handler, exactly as it was sent. *)
Lemma udp_received s w a d sp dp data i h context :
  port_ok sp -> port_ok dp -> sp <> 0 -> dp <> 0 -> bytes_ok data -> size data <= NET_UDP_PAYLOAD_MAX ->
  (dp = DHCP_CLIENT_PORT -> sp <> DHCP_SERVER_PORT) -> (dp = dns_source_port (dns s) -> sp <> DNS_SERVER_PORT) ->
  list_find (binding_matches dp) (udp_bindings s) = Some (i, NetUdpBinding dp (Some h) context) ->
  receive_udp E a d (udp_datagram a d sp dp data) (s, w) =
    Some (true, env_udp E h context (NetUdpDatagram a d sp dp data) (count_udp_datagrams_received s, w)).
Proof.
  intros Hsp Hdp Hsp0 Hdp0 Hb Hs Hdhcp Hdns Hbind. unfold receive_udp. pose proof (size_nonneg data) as Hs0.
  rewrite size_udp_datagram, (proj2 (Z.ltb_ge _ 8)) by lia.
  destruct (udp_datagram_fields a d sp dp data Hsp Hdp Hs) as (F0 & F2 & F4 & F8).
  rewrite (nm_lift _ _ _ _ F0), (nm_lift _ _ _ _ F2), (nm_lift _ _ _ _ F4).
  rewrite (proj2 (Z.eqb_neq sp 0)), (proj2 (Z.eqb_neq dp 0)), (proj2 (Z.ltb_ge _ 8)), Z.eqb_refl by (done || lia).
  cbn [orb negb]. rewrite (nm_lift _ _ _ _ (udp_checksum_accepted a d sp dp data Hb Hs)). cbn [negb].
  rewrite (nm_lift _ _ _ _ F8). nm.
  assert (E1 : (dp =? DHCP_CLIENT_PORT) && (sp =? DHCP_SERVER_PORT) = false).
  { destruct (Z.eqb_spec dp DHCP_CLIENT_PORT); [|done]. cbn [andb]. apply Z.eqb_neq. auto. }
  assert (E2 : (dp =? dns_source_port (dns (count_udp_datagrams_received s))) && (sp =? DNS_SERVER_PORT) = false).
  { change (dns (count_udp_datagrams_received s)) with (dns s).
    destruct (Z.eqb_spec dp (dns_source_port (dns s))); [|done]. cbn [andb]. apply Z.eqb_neq. auto. }
  rewrite E1, E2. unfold deliver_udp. nm. cbn [datagram_destination_port].
  change (udp_bindings (count_udp_datagrams_received s)) with (udp_bindings s). rewrite Hbind. reflexivity.
Qed.

End receive.

(** ** Sending to a next hop that is not known yet *)

Record neighbours (a b : net_stack) : Prop := Neighbours {
  nb_ok : net_ok a /\ net_ok b;
  nb_send : has_send (link a) = true /\ has_send (link b) = true;
  nb_mac : mac_is_valid_source (mac a) = true /\ mac_is_valid_source (mac b) = true;
  nb_usable : ipv4_is_usable_unicast (address (ipv4 a)) = true /\ ipv4_is_usable_unicast (address (ipv4 b)) = true;
  nb_link : ipv4_is_on_link a (address (ipv4 b)) = true /\ ipv4_is_on_link b (address (ipv4 a)) = true;
  nb_broadcast : ipv4_is_broadcast a (address (ipv4 b)) = false;
  nb_pending : pending_valid (pending_ipv4 a) = false /\ pending_valid (pending_ipv4 b) = false }.

Lemma usable_not_multicast ip : u32_ok ip -> ipv4_is_usable_unicast ip = true -> ipv4_is_multicast ip = false.
Proof.
  unfold ipv4_is_usable_unicast, ipv4_is_multicast, u32_ok. intros Hip H. bdestr_hyps. apply Z.eqb_neq. intros Hm.
  assert (Hd : Z.shiftr (Z.land ip 0xF0000000) 24 = 0xE0) by (by rewrite Hm).
  rewrite Z.shiftr_land in Hd. change (Z.shiftr 0xF0000000 24) with 0xF0 in Hd.
  assert (Hx : 0 <= Z.shiftr ip 24 < 256).
  { rewrite Z.shiftr_div_pow2 by lia. split; [apply Z.div_pos; lia|apply Z.div_lt_upper_bound; lia]. }
  assert (Eu : u8 (Z.shiftr ip 24) = Z.shiftr ip 24) by (rewrite u8_mod; by apply Z.mod_small).
  assert (Hall : forallb (fun k => implb (Z.land (Z.of_nat k) 0xF0 =? 0xE0) (224 <=? Z.of_nat k)) (seq 0 256) = true)
    by reflexivity.
  rewrite forallb_forall in Hall. specialize (Hall (Z.to_nat (Z.shiftr ip 24))).
  rewrite Z2Nat.id, Hd, Z.eqb_refl in Hall by lia. cbn [implb] in Hall.
  assert (Hin : In (Z.to_nat (Z.shiftr ip 24)) (seq 0 256)) by (apply in_seq; lia). specialize (Hall Hin). lia.
Qed.

Lemma local_address s ip : ip = address (ipv4 s) -> ip <> 0 -> ipv4_destination_is_local s ip = true.
Proof.
  intros -> H0. unfold ipv4_destination_is_local. destruct (_ || _); [done|].
  by rewrite (proj2 (Z.eqb_neq _ _) H0), Z.eqb_refl.
Qed.

(** The route to a neighbour is direct. *)
Lemma route_neighbour a b :
  neighbours a b ->
  route_ipv4 a (address (ipv4 b)) = Some (address (ipv4 b), net_arp_lookup a (address (ipv4 b))).
Proof.
  intros [[Ha Hb] _ _ [Ua Ub] [La Lb] Hbc _]. unfold route_ipv4.
  rewrite (proj2 (Z.eqb_neq _ 0)) by (by apply usable_nonzero). rewrite Hbc, usable_not_multicast by (done || apply Hb).
  rewrite (proj2 (Z.eqb_neq _ 0)) by (by apply usable_nonzero). cbv zeta.
  assert (Et : (if negb (netmask (ipv4 a) =? 0) && negb (Z.land (address (ipv4 b)) (netmask (ipv4 a)) =?
              Z.land (address (ipv4 a)) (netmask (ipv4 a))) then gateway (ipv4 a) else address (ipv4 b)) = address (ipv4 b)).
  { unfold ipv4_is_on_link in La. rewrite (proj2 (Z.eqb_neq _ 0)) in La by (by apply usable_nonzero).
    destruct (netmask (ipv4 a) =? 0); [done|]. cbn [orb negb andb] in *. apply Z.eqb_eq in La. by rewrite La, Z.eqb_refl. }
  by rewrite Et, Ub.
Qed.

Lemma broadcast_mac_ok : mac_ok broadcast_mac.
Proof. split; [done|]. by apply bytes_okb_true. Qed.

(** Learning an address changes the ARP cache only. *)
Lemma learn_keeps {B} (g : net_stack -> B) ip m s :
  (forall l, g (set_arp l s) = g s) -> g (arp_learn ip m s) = g s.
Proof. intros Hg. unfold arp_learn. by destruct (_ || _). Qed.

Section contact.
  Context {W : Type} (E : net_env W) (out : list Z -> W -> W)
    (Hsend : forall frame w, env_send E frame w = (true, out frame w)).

(** The datagram waits in the stack that could not send it. *)
Definition queued (a : net_stack) (ip hop : Z) (copied : list Z) (n : Z) : net_stack :=
  count_arp_requests_sent (count_frames_transmitted
    (set_pending_ipv4 (NetPendingIpv4 true ip hop NET_IPV4_PROTOCOL_UDP n copied (current_time_ms a) 1 0) a)).

Lemma udp_send_queued a b dp sp data :
  neighbours a b -> net_arp_lookup a (address (ipv4 b)) = None ->
  dp <> 0 -> sp <> 0 -> bytes_ok data -> size data <= NET_UDP_PAYLOAD_MAX ->
  exists copied,
    (forall w, net_udp_send E (address (ipv4 b)) dp sp data (a, w) =
      Some (NET_SEND_QUEUED, (queued a (address (ipv4 b)) (address (ipv4 b)) copied (8 + size data),
        out (write_ethernet_header a broadcast_mac ETHERTYPE_ARP ++
             arp_packet a ARP_OPERATION_REQUEST (zeros NET_ETHERNET_ADDRESS_SIZE) (address (ipv4 b))) w))) /\
    sub copied 0 (8 + size data) = Some (udp_datagram (address (ipv4 a)) (address (ipv4 b)) sp dp data).
Proof.
  intros Hn Hl Hdp Hsp Hb Hs. pose proof (route_neighbour a b Hn) as Hr. rewrite Hl in Hr.
  destruct Hn as [[Ha Hbk] [Sa Sb] _ [Ua Ub] _ Hbc [Pa Pb]]. pose proof (size_nonneg data) as Hs0.
  set (ip := address (ipv4 b)) in *. set (u := udp_datagram (address (ipv4 a)) ip sp dp data).
  assert (Su : size u = 8 + size data) by apply size_udp_datagram.
  assert (Bu : bytes_ok u) by (by apply udp_datagram_bytes).
  destruct (put_pending (pending_ipv4 a) u) as (copied & Ec & Sc & Bc); [apply Ha|done|rewrite Su; net_consts; lia|].
  exists copied. split.
  - intros w. unfold net_udp_send. rewrite (proj2 (Z.eqb_neq dp 0)), (proj2 (Z.eqb_neq sp 0)), (proj2 (Z.ltb_ge _ _)) by (done || lia).
    cbn [orb]. nm. cbv zeta. rewrite (nm_lift _ _ _ _ (udp_checksum_computed _ _ _ _ _ Hb Hs)).
    cbv beta.
    assert (Eu : udp_header sp dp (8 + size data) (if udp_checksum (address (ipv4 a)) ip sp dp data =? 0 then 65535
              else udp_checksum (address (ipv4 a)) ip sp dp data) ++ data = u) by done.
    rewrite Eu.
    assert (Esend : net_ipv4_send E ip NET_IPV4_PROTOCOL_UDP u (a, w) =
              Some (NET_SEND_QUEUED, (queued a ip ip copied (8 + size data),
                out (write_ethernet_header a broadcast_mac ETHERTYPE_ARP ++
                     arp_packet a ARP_OPERATION_REQUEST (zeros NET_ETHERNET_ADDRESS_SIZE) ip) w))).
    { unfold net_ipv4_send. nm. rewrite Sa, (proj2 (Z.eqb_neq ip 0)) by (by apply usable_nonzero).
      rewrite Su, (proj2 (Z.ltb_ge _ _)) by (net_consts; lia). cbn [negb orb].
      rewrite (proj2 (Z.eqb_neq (address (ipv4 a)) 0)) by (by apply usable_nonzero). cbn [andb]. rewrite Hr, Pa.
      rewrite (nm_lift _ _ _ _ Ec). nm. rewrite (nm_bind _ _ _ _ _ (arp_request_run E out Hsend
        (set_pending_ipv4 (NetPendingIpv4 true ip ip 17 (8 + size data) copied (current_time_ms a) 1 0) a) w ip
        Sa (ok_mac _ Ha) (usable_nonzero _ Ua) Ub)). reflexivity. }
    rewrite (nm_bind _ _ _ _ _ Esend). reflexivity.
  - apply put_inv in Ec as (_ & Hr2 & -> & _). fold u. pose proof (size_nonneg u).
    change (Z.to_nat 0) with O. rewrite memcpy_at_in by (unfold size in *; lia). cbn [take app Nat.add].
    apply (sub_app []); [done|]. by rewrite Su.
Qed.

(** The reply flushes it. *)
Lemma queued_flushed a ip hop copied n payload m s :
  net_arp_lookup s hop = Some m -> pending_ipv4 s = pending_ipv4 (queued a ip hop copied n) ->
  sub copied 0 n = Some payload -> has_send (link s) = true -> mac_ok (mac s) -> mac_ok m ->
  size payload <= NET_IPV4_PAYLOAD_MAX ->
  exists s', (forall w, flush_pending_ipv4 E (s, w) = Some (true, (s',
      out (write_ethernet_header s m ETHERTYPE_IPV4 ++
           ipv4_packet (address (ipv4 s)) ip NET_IPV4_PROTOCOL_UDP (next_ipv4_id s) payload) w))) /\
    pending_valid (pending_ipv4 s') = false /\ arp s' = arp s /\ mac s' = mac s /\ ipv4 s' = ipv4 s.
Proof.
  intros Hl Hp Hsub Hs Hm Hmm Hsize.
  exists (upd_pending_ipv4 (set_pending_valid false) (count_udp_datagrams_transmitted (count_ipv4_packets_transmitted
    (count_frames_transmitted (set_next_ipv4_id (u16 (next_ipv4_id s + 1)) s))))).
  split; [intros w|by destruct s]. unfold flush_pending_ipv4. nm. rewrite Hp. cbn [negb].
  change (next_hop_ip (pending_ipv4 (queued a ip hop copied n))) with hop.
  change (pending_payload (pending_ipv4 (queued a ip hop copied n))) with copied.
  change (pending_payload_size (pending_ipv4 (queued a ip hop copied n))) with n.
  change (pending_destination_ip (pending_ipv4 (queued a ip hop copied n))) with ip.
  change (pending_protocol (pending_ipv4 (queued a ip hop copied n))) with NET_IPV4_PROTOCOL_UDP.
  change (negb (pending_valid (pending_ipv4 (queued a ip hop copied n)))) with false. cbv iota.
  rewrite Hl, (nm_lift _ _ _ _ Hsub).
  rewrite (nm_bind _ _ _ _ _ (send_with_mac_run E out Hsend s w ip NET_IPV4_PROTOCOL_UDP payload m Hs Hm Hmm ltac:(done) Hsize)).
  cbn [negb]. change (NET_IPV4_PROTOCOL_UDP =? NET_IPV4_PROTOCOL_UDP) with true. cbv iota. nm. reflexivity.
Qed.

(** What receiving a frame leaves of a stack, its ARP cache and counters apart. *)
Record same_host (s s' : net_stack) : Prop := SameHost {
  same_link : link s = link s'; same_mac : mac s = mac s'; same_ipv4 : ipv4 s = ipv4 s';
  same_pending : pending_ipv4 s = pending_ipv4 s'; same_dns : dns s = dns s';
  same_bindings : udp_bindings s = udp_bindings s' }.

Lemma learn_same ip m s : same_host (arp_learn ip m s) s.
Proof. constructor; by apply learn_keeps. Qed.

Lemma ethernet_app s m ty packet : write_ethernet_header s m ty ++ packet = m ++ mac s ++ write_u16_be ty ++ packet.
Proof. unfold write_ethernet_header. by rewrite <- !app_assoc. Qed.

(** The request is answered and its sender learnt. *)
Lemma neighbour_request a b :
  neighbours a b ->
  exists b1, (forall w, net_input E (Some (write_ethernet_header a broadcast_mac ETHERTYPE_ARP ++
        arp_packet a ARP_OPERATION_REQUEST (zeros NET_ETHERNET_ADDRESS_SIZE) (address (ipv4 b)))) (b, w) =
      Some (true, (b1, out (write_ethernet_header b (mac a) ETHERTYPE_ARP ++
        arp_packet b ARP_OPERATION_REPLY (mac a) (address (ipv4 a))) w))) /\
    same_host b1 b /\ net_arp_lookup b1 (address (ipv4 a)) = Some (mac a).
Proof.
  intros [[Ha Hb] [Sa Sb] [Ma Mb] [Ua Ub] _ _ [Pa Pb]].
  pose proof (ok_mac _ Ha) as Ka. pose proof (ok_mac _ Hb) as Kb.
  pose proof (cfg_address _ (ok_config _ Ha)) as Ca. pose proof (cfg_address _ (ok_config _ Hb)) as Cb.
  set (br := count_frames_received b).
  exists (count_frames_transmitted (arp_learn (address (ipv4 a)) (mac a) br)). split; [intros w|split].
  - rewrite ethernet_app. rewrite frame_dispatched; [|apply broadcast_mac_ok|exact Ka|exact Kb|done| |by right|exact Ma].
    2: { rewrite size_arp_packet; [done|exact Ka|]. split; [done|apply bytes_ok_zeros]. }
    change (ETHERTYPE_ARP =? ETHERTYPE_ARP) with true. cbv iota.
    rewrite (nm_bind _ _ _ _ _ (arp_request_received E out Hsend br w a Sb Kb Cb (usable_nonzero _ Ub) Pb Ka Ma Ca Ua)).
    reflexivity.
  - destruct (learn_same (address (ipv4 a)) (mac a) br). by constructor.
  - apply (arp_learn_lookup _ (mac a) br); [apply Hb|done|done].
Qed.

(** The reply releases what was queued. *)
Lemma neighbour_reply a b copied n payload :
  neighbours a b -> sub copied 0 n = Some payload -> size payload <= NET_IPV4_PAYLOAD_MAX ->
  let to := address (ipv4 b) in
  exists a2 id, (forall w, net_input E (Some (write_ethernet_header b (mac a) ETHERTYPE_ARP ++
        arp_packet b ARP_OPERATION_REPLY (mac a) (address (ipv4 a)))) (queued a to to copied n, w) =
      Some (true, (a2, out (write_ethernet_header a (mac b) ETHERTYPE_IPV4 ++
        ipv4_packet (address (ipv4 a)) to NET_IPV4_PROTOCOL_UDP id payload) w))) /\
    net_arp_lookup a2 to = Some (mac b) /\ pending_valid (pending_ipv4 a2) = false.
Proof.
  intros [[Ha Hb] [Sa Sb] [Ma Mb] [Ua Ub] _ _ _] Hsub Hsz. cbv zeta. set (to := address (ipv4 b)).
  pose proof (ok_mac _ Ha) as Ka. pose proof (ok_mac _ Hb) as Kb.
  pose proof (cfg_address _ (ok_config _ Ha)) as Ca. pose proof (cfg_address _ (ok_config _ Hb)) as Cb.
  set (a1 := count_frames_received (queued a to to copied n)).
  set (al := count_arp_replies_received (arp_learn to (mac b) a1)).
  destruct (learn_same to (mac b) a1) as [L1 L2 L3 L4 _ _].
  assert (Hal : net_arp_lookup al to = Some (mac b)) by (apply (arp_learn_lookup to (mac b) a1); [apply Ha|done|done]).
  destruct (queued_flushed a to to copied n payload (mac b) al) as (a2 & Hflush & P2 & A2 & _ & _).
  { exact Hal. } { exact L4. } { exact Hsub. }
  { exact (eq_trans (f_equal has_send L1) Sa). } { by rewrite (L2 : mac al = mac a). } { exact Kb. } { exact Hsz. }
  exists a2, (next_ipv4_id al). split; [intros w|split].
  - rewrite ethernet_app. rewrite frame_dispatched; [|exact Ka|exact Kb|exact Ka|done| |by left|exact Mb].
    2: { rewrite size_arp_packet; [done|exact Kb|exact Ka]. }
    change (ETHERTYPE_ARP =? ETHERTYPE_ARP) with true. cbv iota.
    rewrite (nm_bind _ _ _ _ _ (arp_reply_received E a1 w b _ Ka Ca Kb Mb Cb Ub (Hflush w))). cbn [negb]. nm.
    rewrite (L3 : ipv4 al = ipv4 a). unfold write_ethernet_header. by rewrite (L2 : mac al = mac a).
  - etransitivity; [|exact Hal]. unfold net_arp_lookup, arp_find. by rewrite A2.
  - exact P2.
Qed.

(** The datagram reaches the handler of its port. *)
Lemma neighbour_delivery a b b1 dp sp data i h context id :
  neighbours a b -> same_host b1 b ->
  port_ok dp -> dp <> 0 -> port_ok sp -> sp <> 0 -> bytes_ok data -> size data <= NET_UDP_PAYLOAD_MAX ->
  (dp = DHCP_CLIENT_PORT -> sp <> DHCP_SERVER_PORT) -> (dp = dns_source_port (dns b) -> sp <> DNS_SERVER_PORT) ->
  list_find (binding_matches dp) (udp_bindings b) = Some (i, NetUdpBinding dp (Some h) context) ->
  let from := address (ipv4 a) in let to := address (ipv4 b) in
  exists b2, forall w, net_input E (Some (write_ethernet_header a (mac b) ETHERTYPE_IPV4 ++
        ipv4_packet from to NET_IPV4_PROTOCOL_UDP id (udp_datagram from to sp dp data))) (b1, w) =
      Some (true, env_udp E h context (NetUdpDatagram from to sp dp data) (b2, w)).
Proof.
  intros [[Ha Hb] _ [Ma _] [Ua Ub] [_ Lb] _ [_ Pb]] [S1 S2 S3 S4 S5 S6] Hdp Hdp0 Hsp Hsp0 Hd Hs Hdhcp Hdns Hbind. cbv zeta.
  set (from := address (ipv4 a)). set (to := address (ipv4 b)).
  pose proof (cfg_address _ (ok_config _ Ha)) as Ca. pose proof (cfg_address _ (ok_config _ Hb)) as Cb.
  assert (Hsz : size (udp_datagram from to sp dp data) <= NET_IPV4_PAYLOAD_MAX) by (rewrite size_udp_datagram; net_consts; lia).
  set (br := count_frames_received b1). destruct (learn_same from (mac a) br) as [_ _ _ _ T5 T6].
  eexists. intros w. rewrite ethernet_app.
  rewrite frame_dispatched; [|apply Hb|apply Ha|rewrite S2; apply Hb|done| |by left|exact Ma].
  2: { rewrite size_ipv4_packet. net_consts. lia. }
  change (ETHERTYPE_IPV4 =? ETHERTYPE_ARP) with false. change (ETHERTYPE_IPV4 =? ETHERTYPE_IPV4) with true. cbv iota.
  erewrite nm_bind; [|rewrite ipv4_received; [apply (udp_received E) with (i := i) (h := h) (context := context)| | | | | | | | |]].
  { reflexivity. }
  all: try done.
  - intros Ed. apply Hdns. rewrite Ed. exact (f_equal dns_source_port (eq_trans T5 S5)).
  - etransitivity; [|exact Hbind]. apply (f_equal (list_find _)). exact (eq_trans T6 S6).
  - apply (local_address br); [exact (f_equal address (eq_sym S3))|by apply usable_nonzero].
  - change (ipv4_is_on_link b1 from = true). unfold ipv4_is_on_link. rewrite S3. exact Lb.
  - change (pending_valid (pending_ipv4 b1) = false). by rewrite S4.
Qed.

End contact.
