(* ===== verification/NetNames.v ===== *)
(** * kernel/net.c: DNS names as labels, their encoding, and the query that carries them

    Then the replies that resolve a name, and the cache over time. *)

From S2P Require Import Prelude TcpSegment NetState NetBytes NetSend NetDhcp NetDns NetInput NetParse NetReceive NetRun NetDatagram.

Open Scope net_scope.

(** ** Labels *)

Fixpoint join (labels : list (list Z)) : list Z :=
  match labels with
  | [] => []
  | [l] => l
  | l :: labels => l ++ DOT :: join labels
  end.

(** The labels of [acc ++ s], where [acc] has no dot. *)
Fixpoint split (acc s : list Z) : list (list Z) :=
  match s with
  | [] => [acc]
  | c :: s => if c =? DOT then acc :: split [] s else split (acc ++ [c]) s
  end.

(** The wire format: each label behind its length, then the empty label. *)
Definition encode (labels : list (list Z)) : list Z := concat ((fun l => size l :: l) <$> labels) ++ [0].

Definition label_ok (l : list Z) : Prop := 0 < size l <= 63 /\ Forall name_char l.

Lemma split_nonempty acc s : split acc s <> [].
Proof. revert acc. induction s as [|c s IH]; intros acc; cbn [split]; [done|]. destruct (c =? DOT); [done|apply IH]. Qed.

Lemma join_cons l labels : labels <> [] -> join (l :: labels) = l ++ DOT :: join labels.
Proof. by destruct labels. Qed.

Lemma join_split acc s : join (split acc s) = acc ++ s.
Proof.
  revert acc. induction s as [|c s IH]; intros acc; cbn [split]; [by rewrite app_nil_r|].
  destruct (Z.eqb_spec c DOT) as [->|]; [|by rewrite IH, <- app_assoc].
  by rewrite join_cons, IH by apply split_nonempty.
Qed.

Lemma encode_cons l labels : encode (l :: labels) = size l :: l ++ encode labels.
Proof. unfold encode. cbn [fmap list_fmap concat]. by rewrite <- app_assoc. Qed.

Lemma size_join labels : labels <> [] -> size (encode labels) = size (join labels) + 2.
Proof.
  induction labels as [|l labels IH]; [done|]. intros _. rewrite encode_cons, size_cons, size_app.
  destruct labels as [|l' labels]; [cbn [join]; change (size (encode [])) with 1; lia|].
  rewrite join_cons, IH, size_app, size_cons by done. lia.
Qed.

Lemma join_length labels : Forall label_ok labels -> 2 * Z.of_nat (length labels) <= size (join labels) + 1.
Proof.
  induction 1 as [|l labels [Hl _] Hls IH]; [done|]. cbn [length].
  destruct labels as [|l' labels]; [cbn [join length]; lia|]. rewrite join_cons, size_app, size_cons by done. lia.
Qed.

(** ** What validation accepts *)

Lemma znth_drop name n : 0 <= n -> znth name n = hd 0 (drop (Z.to_nat n) name).
Proof. intros. unfold znth. rewrite <- (Nat.add_0_r (Z.to_nat n)) at 1. rewrite <- lookup_drop. by destruct (drop _ _). Qed.

Lemma drop_succ (name : list Z) n : 0 <= n -> drop (Z.to_nat (n + 1)) name = tl (drop (Z.to_nat n) name).
Proof. intros. replace (Z.to_nat (n + 1)) with (Z.to_nat n + 1)%nat by lia. rewrite <- drop_drop. by destruct (drop _ name). Qed.

Lemma cstr_hd l : hd 0 l = 0 -> cstr l = [].
Proof. destruct l as [|c l]; cbn [hd cstr]; [done|]. by intros ->. Qed.

Lemma cstr_tl l : hd 0 l <> 0 -> cstr l = hd 0 l :: cstr (tl l).
Proof. destruct l as [|c l]; cbn [hd cstr tl]; [done|]. intros H. by rewrite (proj2 (Z.eqb_neq _ _) H). Qed.

Lemma cstr_end l t : cstr (l ++ 0 :: t) = cstr (l ++ [0]).
Proof. induction l as [|x l IH]; cbn [app cstr]; [done|]. destruct (x =? 0); [done|]. by rewrite IH. Qed.

Lemma take_put l p v l' : put l p v = Some l' -> take (Z.to_nat (p + size v)) l' = take (Z.to_nat p) l ++ v.
Proof.
  intros (H1 & H2 & -> & _)%put_inv. pose proof (size_nonneg v). unfold size in *.
  replace (Z.to_nat (p + Z.of_nat (length v))) with (Z.to_nat p + length v)%nat by lia. apply take_memcpy. lia.
Qed.

(** The string that is copied from here on, its characters so far in the label: [acc]. *)
Lemma validate_loop_sound fuel destination name n acc v :
  validate_loop fuel destination name n (size acc) = Some (Some v) -> 0 <= n <= NET_DNS_NAME_MAX -> Forall name_char acc ->
  exists s, cstr v = cstr (take (Z.to_nat n) destination ++ s ++ [0]) /\ Forall name_char s /\ n + size s <= NET_DNS_NAME_MAX /\
    Forall label_ok (split acc s) /\
    (cstr (drop (Z.to_nat n) name) = s \/ cstr (drop (Z.to_nat n) name) = s ++ [DOT]).
Proof.
  revert destination n acc. induction fuel as [|fuel IH]; intros destination n acc H Hn Hacc; cbn [validate_loop] in H; [done|].
  cbv zeta in H. rewrite (znth_drop name n), (znth_drop name (n + 1)), drop_succ in H by lia.
  set (rest := drop (Z.to_nat n) name) in *. set (c := hd 0 rest) in *.
  assert (Hend : forall w, (destination ← put destination n [0]; Some (Some destination)) = Some (Some w) ->
            cstr w = cstr (take (Z.to_nat n) destination ++ [] ++ [0])).
  { intros w Hw. destruct (put destination n [0]) as [d|] eqn:Ed; [|done]. cbn in Hw. injection Hw as <-.
    pose proof (take_put _ _ _ _ Ed) as Ht. change (size [0]) with 1 in Ht.
    rewrite <- (take_drop (Z.to_nat (n + 1)) d), Ht. rewrite <- app_assoc. apply cstr_end. }
  assert (Hlabel : (size acc =? 0) || (63 <? size acc) = false -> label_ok acc).
  { intros Hb. bdestr_hyps. pose proof (size_nonneg acc). split; [lia|done]. }
  assert (Hgo : forall acc', (destination ← put destination n [c]; validate_loop fuel destination name (n + 1) (size acc')) = Some (Some v) ->
            Forall name_char acc' -> c <> 0 -> name_char c -> n < NET_DNS_NAME_MAX ->
            exists s, cstr v = cstr (take (Z.to_nat n) destination ++ (c :: s) ++ [0]) /\ Forall name_char (c :: s) /\
              n + size (c :: s) <= NET_DNS_NAME_MAX /\ Forall label_ok (split acc' s) /\
              (cstr rest = c :: s \/ cstr rest = (c :: s) ++ [DOT])).
  { intros acc' Hw Ha' Hc0 Hcc Hlt. destruct (put destination n [c]) as [d|] eqn:Ed; [|done]. cbn in Hw.
    destruct (IH d (n + 1) acc' Hw ltac:(lia) Ha') as (s & S1 & S2 & S3 & S4 & S5).
    pose proof (take_put _ _ _ _ Ed) as Ht. change (size [c]) with 1 in Ht. rewrite Ht, <- app_assoc in S1.
    exists s. split; [exact S1|]. split; [by constructor|]. split; [rewrite size_cons; lia|]. split; [done|].
    rewrite drop_succ in S5 by lia. fold rest in S5. rewrite (cstr_tl rest Hc0). fold c.
    destruct S5 as [-> | ->]; [by left|by right]. }
  assert (Hstop : (destination ← put destination n [0]; Some (Some destination)) = Some (Some v) -> label_ok acc ->
            cstr rest = [] \/ cstr rest = [DOT] ->
            exists s, cstr v = cstr (take (Z.to_nat n) destination ++ s ++ [0]) /\ Forall name_char s /\
              n + size s <= NET_DNS_NAME_MAX /\ Forall label_ok (split acc s) /\ (cstr rest = s \/ cstr rest = s ++ [DOT])).
  { intros Hw Hl Hr. exists []. split; [by apply Hend|]. split; [constructor|]. split; [change (size []) with 0; lia|].
    split; [by constructor|done]. }
  destruct (Z.eqb_spec c 0) as [E0|E0].
  { destruct ((size acc =? 0) || (63 <? size acc)) eqn:Eb; [done|]. apply Hstop; [done|by apply Hlabel|left; by apply cstr_hd]. }
  destruct (Z.leb_spec NET_DNS_NAME_MAX n); [done|]. destruct (Z.eqb_spec c DOT) as [Edot|Edot].
  - destruct ((size acc =? 0) || (63 <? size acc)) eqn:Eb; [done|]. specialize (Hlabel eq_refl).
    destruct (Z.eqb_spec (hd 0 (tl rest)) 0) as [E1|E1].
    { apply Hstop; [done|done|]. right. rewrite (cstr_tl rest E0), (cstr_hd _ E1). fold c. by rewrite Edot. }
    destruct (Hgo [] H) as (s & S1 & S2 & S3 & S4 & S5); [constructor|done|by rewrite Edot|done|].
    exists (c :: s). split; [done|]. split; [done|]. split; [done|]. split; [|done].
    cbn [split]. rewrite Edot. change (DOT =? DOT) with true. cbv iota. by constructor.
  - destruct (label_char c) eqn:Ec; cbn [negb] in H; [|done]. destruct (Z.ltb_spec 63 (size acc + 1)); [done|].
    assert (Hc : name_char c) by (unfold label_char, name_char in *; lia).
    replace (size acc + 1) with (size (acc ++ [c])) in H by (rewrite size_app; done).
    destruct (Hgo (acc ++ [c]) H) as (s & S1 & S2 & S3 & S4 & S5); [by apply Forall_app_2; [|constructor]|done|done|done|].
    exists (c :: s). split; [done|]. split; [done|]. split; [done|]. split; [|done].
    cbn [split]. by rewrite (proj2 (Z.eqb_neq _ _) Edot).
Qed.

(** What validation accepts: labels of 1 to 63 printable characters, at most 253 bytes, perhaps with a dot at the end. *)
Lemma validate_sound name v :
  dns_validate_and_copy_name zero_name (Some name) = Some (Some v) ->
  Forall label_ok (split [] (cstr v)) /\ Forall name_char (cstr v) /\ size (cstr v) <= NET_DNS_NAME_MAX /\
  (cstr name = cstr v \/ cstr name = cstr v ++ [DOT]).
Proof.
  unfold dns_validate_and_copy_name. destruct (znth name 0 =? 0); [done|]. intros H.
  destruct (validate_loop_sound 255 zero_name name 0 [] v H) as (s & S1 & S2 & S3 & S4 & S5); [done|constructor|].
  change (cstr v = cstr (s ++ 0 :: [])) in S1. change (cstr name = s \/ cstr name = s ++ [DOT]) in S5.
  rewrite (cstr_app_0 s []) in S1 by (by apply name_char_nonzero). rewrite S1. split; [done|]. split; [done|]. split; [lia|done].
Qed.

(** ** Encoding *)

Lemma name_split name : name_ok name -> exists rest, name = cstr name ++ 0 :: rest.
Proof. intros [_ Ht _]. by apply cstr_split. Qed.

Lemma znth_app_hd l t r : znth (l ++ t ++ 0 :: r) (size l) = hd 0 t.
Proof. unfold znth, size. rewrite Nat2Z.id, lookup_app_r, Nat.sub_diag by lia. by destruct t. Qed.

Lemma encode_loop_spec fuel output base capacity name o pre acc t :
  name_ok name -> cstr name = pre ++ acc ++ t -> Forall label_ok (split acc t) -> 0 <= base ->
  base + capacity <= size output -> 0 <= o -> o + size (encode (split acc t)) < capacity -> size t < Z.of_nat fuel ->
  let n := o + size (encode (split acc t)) in
  exists output', encode_loop fuel output base capacity name o (size pre) (size pre + size acc) = Some (output', n) /\
    take (Z.to_nat (base + n)) output' = take (Z.to_nat (base + o)) output ++ encode (split acc t) /\
    size output' = size output.
Proof.
  intros Hname. destruct (name_split name Hname) as [tail Etail]. cbv zeta. revert output o pre acc t.
  induction fuel as [|fuel IH]; intros output o pre acc t Ecs Hl Hb Hcap Ho Hfit Hf;
    [pose proof (size_nonneg t); lia|].
  assert (Ename : name = (pre ++ acc) ++ t ++ 0 :: tail) by (rewrite Etail, Ecs at 1; by rewrite <- !app_assoc).
  cbn [encode_loop]. cbv zeta.
  assert (Ehd : znth name (size pre + size acc) = hd 0 t) by (rewrite <- size_app, Ename at 1; apply znth_app_hd).
  rewrite Ehd. replace (size pre + size acc - size pre) with (size acc) by lia.
  assert (Hsub : sub name (size pre) (size acc) = Some acc).
  { rewrite Ename, <- app_assoc. by apply sub_app. }
  (* the label ends here *)
  assert (Hwrite : label_ok acc -> o + 1 + size acc < capacity ->
            exists o1 o2, put output (base + o) [size acc] = Some o1 /\ put o1 (base + o + 1) acc = Some o2 /\
              take (Z.to_nat (base + o + 1 + size acc)) o2 = take (Z.to_nat (base + o)) output ++ size acc :: acc /\
              size o2 = size output).
  { intros [Ha _] Hc. destruct (put_Some output (base + o) [size acc]) as (o1 & E1 & S1 & _); [lia|change (size [_]) with 1; lia|].
    destruct (put_Some o1 (base + o + 1) acc) as (o2 & E2 & S2 & _); [lia|lia|]. exists o1, o2.
    split; [done|]. split; [done|]. split; [|lia]. pose proof (take_put _ _ _ _ E1) as T1. pose proof (take_put _ _ _ _ E2) as T2.
    change (size [size acc]) with 1 in T1. rewrite T2, T1, <- app_assoc. done. }
  destruct t as [|c t]; cbn [split hd] in *.
  - change ((0 =? DOT) || (0 =? 0)) with true. cbv iota. apply Forall_cons in Hl as [Hl _].
    rewrite encode_cons, size_cons, size_app in *. change (size (encode [])) with 1 in *.
    destruct (Hwrite Hl ltac:(lia)) as (o1 & o2 & E1 & E2 & T2 & S2). destruct Hl as [Ha _].
    rewrite (proj2 (Z.eqb_neq (size acc) 0)), (proj2 (Z.ltb_ge 63 _)), (proj2 (Z.leb_gt capacity _)) by lia. cbn [orb].
    rewrite Hsub, some_bind, E1, some_bind, E2, some_bind. change (0 =? 0) with true. cbv iota.
    destruct (put_Some o2 (base + (o + 1 + size acc)) [0]) as (o3 & E3 & S3 & _); [lia|change (size [0]) with 1; lia|].
    rewrite E3, some_bind. exists o3. split; [f_equal; f_equal; lia|]. split; [|lia].
    pose proof (take_put _ _ _ _ E3) as T3. change (size [0]) with 1 in T3.
    replace (base + (o + (1 + (size acc + 1)))) with (base + (o + 1 + size acc) + 1) by lia. rewrite T3.
    replace (base + (o + 1 + size acc)) with (base + o + 1 + size acc) by lia. rewrite T2, <- app_assoc. done.
  - destruct (Z.eqb_spec c DOT) as [Edot|Edot].
    + cbn [orb]. apply Forall_cons in Hl as [Hl Hls]. rewrite encode_cons, size_cons, size_app in *.
      pose proof (size_nonneg (encode (split [] t))) as Hr.
      destruct (Hwrite Hl ltac:(lia)) as (o1 & o2 & E1 & E2 & T2 & S2). destruct Hl as [Ha _].
      rewrite (proj2 (Z.eqb_neq (size acc) 0)), (proj2 (Z.ltb_ge 63 _)), (proj2 (Z.leb_gt capacity _)) by lia. cbn [orb].
      rewrite Hsub, some_bind, E1, some_bind, E2, some_bind. rewrite (proj2 (Z.eqb_neq c 0)) by (rewrite Edot; done).
      destruct (IH o2 (o + 1 + size acc) (pre ++ acc ++ [c]) [] t) as (o' & E' & T' & S'); try done; try lia.
      { rewrite Ecs, <- !app_assoc. done. }
      exists o'. rewrite !size_app in E'. change (size [c]) with 1 in E'. change (size []) with 0 in E'.
      replace (size pre + size acc + 1) with (size pre + (size acc + 1) + 0) at 2 by lia.
      replace (size pre + size acc + 1) with (size pre + (size acc + 1)) by lia. rewrite E'. split; [f_equal; f_equal; lia|].
      split; [|lia]. replace (base + (o + (1 + (size acc + size (encode (split [] t)))))) with
        (base + (o + 1 + size acc + size (encode (split [] t)))) by lia. rewrite T'.
      replace (base + (o + 1 + size acc)) with (base + o + 1 + size acc) by lia. rewrite T2, <- app_assoc. done.
    + assert (Ec : c <> 0).
      { intros ->. pose proof (cstr_nonzero name) as Hnz. rewrite Ecs in Hnz. rewrite !Forall_app, Forall_cons in Hnz. tauto. }
      rewrite (proj2 (Z.eqb_neq c 0)) by done. cbn [orb]. rewrite size_cons in Hf.
      destruct (IH output o pre (acc ++ [c]) t) as (o' & E' & T' & S'); try done; try lia.
      { by rewrite Ecs, <- !app_assoc. }
      exists o'. rewrite size_app in E'. change (size [c]) with 1 in E'.
      replace (size pre + size acc + 1) with (size pre + (size acc + 1)) by lia. auto.
Qed.

(** ** Expanding an encoded name *)

Lemma label_length_bits n : 0 <= n <= 63 -> Z.land n 0xC0 = 0.
Proof.
  intros Hn. rewrite <- (Z.mod_small n (2 ^ 6)) by lia. rewrite <- Z.land_ones, <- Z.land_assoc by lia.
  change (Z.land (Z.ones 6) 192) with 0. apply Z.land_0_r.
Qed.

Definition glue (output name : list Z) : list Z := (if size output =? 0 then output else output ++ [DOT]) ++ name.

Lemma label_chars_true l : Forall name_char l -> forallb label_char l = true.
Proof.
  intros H. apply forallb_forall. intros x Hx%list_elem_of_In. rewrite Forall_forall in H. specialize (H x Hx).
  unfold label_char, name_char in *. lia.
Qed.

Lemma expand_loop_spec labels fuel pre post output resume hops :
  labels <> [] -> Forall label_ok labels -> (length labels < fuel)%nat -> 0 <= hops ->
  hops + Z.of_nat (length labels) <= 128 -> size (glue output (join labels)) <= NET_DNS_NAME_MAX ->
  expand_loop fuel (pre ++ encode labels ++ post) (size pre) output resume false hops =
    Some (Some (glue output (join labels), size pre + size (encode labels))).
Proof.
  intros Hne Hl. revert fuel pre output hops Hne. induction Hl as [|l labels [Hl Hc] Hls IH]; [done|].
  intros fuel pre output hops _ Hfuel Hh Hhops Hsize. destruct fuel as [|fuel]; [lia|]. cbn [length] in *.
  rewrite encode_cons. set (message := pre ++ (size l :: l ++ encode labels) ++ post).
  pose proof (size_nonneg (encode labels)). pose proof (size_nonneg post). pose proof (size_nonneg pre).
  assert (Hms : size message = size pre + (1 + (size l + size (encode labels))) + size post).
  { unfold message. rewrite !size_app, size_cons, size_app. lia. }
  assert (Erd : rd message (size pre) = Some (size l)).
  { unfold message. rewrite <- (Z.add_0_r (size pre)). by rewrite rd_app_r. }
  assert (Esub : sub message (size pre + 1) (size l) = Some l).
  { unfold message. change ((size l :: l ++ encode labels) ++ post) with ([size l] ++ (l ++ encode labels) ++ post).
    rewrite <- (app_assoc l), (app_assoc pre). apply sub_app; [by rewrite size_app|done]. }
  cbn [expand_loop]. rewrite Hms, (proj2 (Z.leb_gt _ (size pre))), (proj2 (Z.ltb_ge 128 hops)) by lia. cbn [orb].
  rewrite Erd, some_bind. cbv zeta. rewrite (label_length_bits (size l)) by lia. change (0 =? 192) with false. change (0 =? 0) with true.
  rewrite (proj2 (Z.ltb_ge 63 _)), (proj2 (Z.eqb_neq (size l) 0)) by lia. cbn [negb orb].
  rewrite (proj2 (Z.ltb_ge _ (size l))) by lia.
  assert (Hjoin : size l <= size (join (l :: labels))).
  { destruct labels; [cbn [join]; lia|]. rewrite join_cons, size_app by done. pose proof (size_nonneg (DOT :: join (l0 :: labels))). lia. }
  unfold glue in Hsize. rewrite size_app in Hsize.
  set (sep := if size output =? 0 then output else output ++ [DOT]) in *.
  assert (Hout : size sep = size output + (if size output =? 0 then 0 else 1)).
  { unfold sep. destruct (size output =? 0); [lia|]. by rewrite size_app. }
  assert (E1 : negb (size output =? 0) && (NET_DNS_NAME_MAX <=? size output) = false).
  { destruct (size output =? 0); [done|]. cbn [negb andb]. apply Z.leb_gt. lia. }
  rewrite E1. replace (if negb (size output =? 0) then output ++ [DOT] else output) with sep by (unfold sep; by destruct (size output =? 0)).
  rewrite (proj2 (Z.ltb_ge _ (size l))), Esub, some_bind, label_chars_true by (done || lia). cbn [negb].
  destruct labels as [|l' labels].
  - destruct fuel as [|fuel]; [lia|]. cbn [expand_loop].
    change (size (encode [])) with 1 in *.
    rewrite Hms, (proj2 (Z.leb_gt _ _)), (proj2 (Z.ltb_ge 128 (hops + 1))) by lia. cbn [orb].
    assert (E0 : rd message (size pre + 1 + size l) = Some 0).
    { unfold message. change ((size l :: l ++ encode []) ++ post) with ([size l] ++ (l ++ [0]) ++ post).
      rewrite <- (app_assoc l), (app_assoc pre), app_assoc.
      replace (size pre + 1 + size l) with (size ((pre ++ [size l]) ++ l) + 0) by (rewrite !size_app; change (size [size l]) with 1; lia).
      by rewrite rd_app_r. }
    rewrite E0, some_bind. cbv zeta. change (Z.land 0 192 =? 192) with false. change (negb (Z.land 0 192 =? 0) || (63 <? 0)) with false.
    change (0 =? 0) with true. cbv iota. cbn [join]. unfold glue. fold sep. do 3 f_equal. rewrite size_cons, size_app.
    change (size (encode [])) with 1. lia.
  - assert (Emsg : message = (pre ++ size l :: l) ++ encode (l' :: labels) ++ post).
    { unfold message. rewrite <- !app_assoc. cbn [app]. by rewrite <- app_assoc. }
    rewrite Emsg. replace (size pre + 1 + size l) with (size (pre ++ size l :: l)) by (rewrite size_app, size_cons; lia).
    rewrite join_cons, size_app, size_cons in Hsize by done.
    assert (Eg : glue (sep ++ l) (join (l' :: labels)) = glue output (join (l :: l' :: labels))).
    { unfold glue. fold sep. rewrite (join_cons l) by done. rewrite (proj2 (Z.eqb_neq (size (sep ++ l)) 0))
        by (rewrite size_app; pose proof (size_nonneg sep); lia). rewrite <- !app_assoc. done. }
    rewrite IH; try done; try (cbn [length] in *; lia).
    + rewrite Eg. do 3 f_equal. rewrite size_app, !size_cons, size_app. lia.
    + rewrite Eg. unfold glue. fold sep. rewrite size_app, join_cons, size_app, size_cons by done. lia.
Qed.

(** ** The query *)

Definition dns_header (id : Z) : list Z :=
  write_u16_be id ++ write_u16_be DNS_FLAG_RECURSION_DESIRED ++ write_u16_be 1 ++ zeros 6.

Definition dns_query_bytes (id : Z) (name : list Z) : list Z :=
  dns_header id ++ encode (split [] name) ++ write_u16_be DNS_TYPE_A ++ write_u16_be DNS_CLASS_IN.

Lemma sub_take l n : 0 <= n <= size l -> sub l 0 n = Some (take (Z.to_nat n) l).
Proof. intros. destruct (sub_Some l 0 n) as (s & -> & _ & ->); [lia|lia|lia|]. unfold slice. by rewrite drop_0. Qed.

Lemma query_message_spec c :
  name_ok (dns_name c) -> Forall label_ok (split [] (cstr (dns_name c))) ->
  dns_query_message c = Some (Some (dns_query_bytes (dns_transaction_id c) (cstr (dns_name c)))).
Proof.
  intros Hn Hl. destruct (name_cstr _ Hn) as [Hlen _]. pose proof (name_length _ Hn) as Hsz. unfold dns_query_message.
  set (name := dns_name c) in *. pose proof (size_nonneg (cstr name)) as Hs0.
  assert (Henc : size (encode (split [] (cstr name))) = size (cstr name) + 2).
  { rewrite size_join, join_split by apply split_nonempty. done. }
  assert (E3 : (query ← put (zeros DNS_QUERY_CAPACITY) 0 (write_u16_be (dns_transaction_id c));
                query ← put query 2 (write_u16_be DNS_FLAG_RECURSION_DESIRED);
                put query 4 (write_u16_be 1)) = Some (dns_header (dns_transaction_id c) ++ zeros 259)) by reflexivity.
  assert (Hbind : forall {B} (k : list Z -> option B),
            (query ← put (zeros DNS_QUERY_CAPACITY) 0 (write_u16_be (dns_transaction_id c));
             query ← put query 2 (write_u16_be DNS_FLAG_RECURSION_DESIRED);
             query ← put query 4 (write_u16_be 1); k query) = k (dns_header (dns_transaction_id c) ++ zeros 259)).
  { intros B k. transitivity ((query ← put (zeros DNS_QUERY_CAPACITY) 0 (write_u16_be (dns_transaction_id c));
      query ← put query 2 (write_u16_be DNS_FLAG_RECURSION_DESIRED); put query 4 (write_u16_be 1)) ≫= k); [|by rewrite E3].
    destruct (put (zeros _) _ _) as [q1|]; [|done]. cbn [mbind option_bind]. by destruct (put q1 _ _). }
  rewrite Hbind. set (q3 := dns_header (dns_transaction_id c) ++ zeros 259).
  assert (S3 : size q3 = 271) by done. net_consts. change (271 - 12) with 259 in *. change (12 + 253 + 6) with 271 in *.
  unfold dns_encode_name. destruct (encode_loop_spec (S (length name)) q3 12 259 name 0 [] [] (cstr name)) as (q4 & E4 & T4 & S4);
    try done; try lia. { unfold size in Hsz, Hlen. unfold size. lia. }
  change (size []) with 0 in E4. rewrite Z.add_0_l in E4. change (encode_loop (S (length name)) q3 12 (271 - 12) name 0 0 0)
    with (encode_loop (S (length name)) q3 12 259 name 0 0 0). rewrite E4, some_bind. cbv beta iota zeta.
  rewrite Z.add_0_l, Henc in *. set (n := size (cstr name)) in *.
  rewrite (proj2 (Z.eqb_neq (n + 2) 0)), (proj2 (Z.ltb_ge 271 _)) by lia. cbn [orb].
  destruct (put_Some q4 (12 + (n + 2)) (write_u16_be 1)) as (q5 & E5 & S5 & _); [lia|change (size (write_u16_be 1)) with 2; lia|].
  rewrite E5, some_bind. destruct (put_Some q5 (12 + (n + 2) + 2) (write_u16_be 1)) as (q6 & E6 & S6 & _);
    [lia|change (size (write_u16_be 1)) with 2; lia|]. rewrite E6, some_bind, sub_take, some_bind by lia.
  pose proof (take_put _ _ _ _ E5) as T5. pose proof (take_put _ _ _ _ E6) as T6. change (size (write_u16_be 1)) with 2 in *.
  do 2 f_equal. replace (12 + (n + 2) + 4) with (12 + (n + 2) + 2 + 2) by lia. rewrite T6, T5, T4. unfold dns_query_bytes.
  rewrite <- !app_assoc. done.
Qed.

(** The name in the query is the name that was validated. *)
Lemma query_expands id name :
  Forall label_ok (split [] name) -> size name <= NET_DNS_NAME_MAX ->
  dns_expand_name (dns_query_bytes id name) DNS_HEADER_SIZE =
    Some (Some (name, DNS_HEADER_SIZE + size (encode (split [] name)))).
Proof.
  intros Hl Hs. unfold dns_expand_name, dns_query_bytes. pose proof (join_length _ Hl) as Hn. rewrite join_split in Hn.
  cbn [app] in Hn. net_consts. change 12 with (size (dns_header id)) at 1.
  rewrite (expand_loop_spec (split [] name) 130 (dns_header id)); [|apply split_nonempty|done|lia|lia|lia|].
  - rewrite join_split. done.
  - rewrite join_split. done.
Qed.

(** * kernel/net.c: what a DNS reply must say for a query to be resolved *)

Open Scope net_scope.

#[local] Opaque dns_expand_name dns_read_record read_u32_be ipv4_is_usable_unicast dns_names_equal.

Section records.
  Context (message : list Z).

(** ** The records of a section *)

(** [r] is one of the [n] records from [offset] on. *)
Inductive in_section : Z -> nat -> dns_record_view -> Prop :=
  | in_here offset n r : dns_read_record message offset = Some (Some r) -> in_section offset (S n) r
  | in_later offset n r r' :
      dns_read_record message offset = Some (Some r') -> in_section (next_offset r') n r -> in_section offset (S n) r.

Definition owned_by (name : list Z) (r : dns_record_view) : Prop :=
  exists owner e, dns_expand_name message (owner_offset r) = Some (Some (owner, e)) /\ dns_names_equal owner name = true.

(** A usable address of the name. *)
Record is_address (name : list Z) (ip : Z) (r : dns_record_view) : Prop := IsAddress {
  ad_owner : owned_by name r;
  ad_class : record_class r = DNS_CLASS_IN;
  ad_type : record_type r = DNS_TYPE_A;
  ad_size : data_size r = 4;
  ad_data : read_u32_be message (data_offset r) = Some ip;
  ad_usable : ipv4_is_usable_unicast ip = true }.

(** An alias of the name. *)
Record is_alias (name target : list Z) (r : dns_record_view) : Prop := IsAlias {
  al_owner : owned_by name r;
  al_class : record_class r = DNS_CLASS_IN;
  al_type : record_type r = DNS_TYPE_CNAME;
  al_target : dns_expand_name message (data_offset r) = Some (Some (target, next_offset r)) }.

(** The section answers [name] with [ip] through [hops] aliases, and every record this rests on lives [ttl] seconds
    at least: the aliases, and all usable addresses of the last name. *)
Inductive answers (offset : Z) (n : nat) : nat -> list Z -> Z -> Z -> Prop :=
  | answers_here name ip ttl r :
      in_section offset n r -> is_address name ip r ->
      (forall ip' r', in_section offset n r' -> is_address name ip' r' -> ttl <= record_ttl_seconds r') ->
      answers offset n 0 name ip ttl
  | answers_alias hops name target ip ttl r :
      in_section offset n r -> is_alias name target r -> ttl <= record_ttl_seconds r ->
      answers offset n hops target ip ttl -> answers offset n (S hops) name ip ttl.

Lemma owned_equal r a b : dns_names_equal a b = true -> owned_by a r -> owned_by b r.
Proof. intros Hab (o & e & Ho & He). exists o, e. split; [done|]. by eapply names_equal_trans. Qed.

Lemma address_equal r a b ip : dns_names_equal a b = true -> is_address a ip r -> is_address b ip r.
Proof. intros Hab []. constructor; try done. by eapply owned_equal. Qed.

(** Names that compare equal have the same answers. *)
Lemma answers_equal offset n hops a b ip ttl :
  dns_names_equal a b = true -> answers offset n hops a ip ttl -> answers offset n hops b ip ttl.
Proof.
  intros Hab H. destruct H as [name ip ttl r Hin Hr Hall|hops name target ip ttl r Hin Hr Ht H].
  - eapply answers_here; [done|by eapply address_equal|]. intros ip' r' Hin' Hr'. apply (Hall ip' r' Hin').
    eapply address_equal; [|done]. by rewrite names_equal_sym.
  - eapply answers_alias; [done| |done|done]. destruct Hr. constructor; try done. by eapply owned_equal.
Qed.

(** ** One pass over the section *)

(** What a pass knows of the records it has [seen]. *)
Record found (seen : dns_record_view -> Prop) (name : list Z) (a : option (Z * Z)) (c : option (list Z * Z)) : Prop := Found {
  found_address : forall ip ttl, a = Some (ip, ttl) -> exists r, seen r /\ is_address name ip r;
  found_least : forall ip r, seen r -> is_address name ip r -> exists ip' ttl, a = Some (ip', ttl) /\ ttl <= record_ttl_seconds r;
  found_alias : forall target ttl, c = Some (target, ttl) -> exists r, seen r /\ is_alias name target r /\ ttl = record_ttl_seconds r }.

Lemma found_iff (s s' : dns_record_view -> Prop) name a c :
  (forall r, s r <-> s' r) -> found s name a c -> found s' name a c.
Proof.
  intros Hs [F1 F2 F3]. constructor.
  - intros ip ttl Ha. destruct (F1 ip ttl Ha) as (r & Hr & Hi). exists r. by rewrite <- Hs.
  - intros ip r Hr Hi. apply (F2 ip r); [by apply Hs|done].
  - intros t ttl Hc. destruct (F3 t ttl Hc) as (r & Hr & Hi). exists r. by rewrite <- Hs.
Qed.

(** One more record that is no address of the name. *)
Lemma found_skip seen name a c r :
  found seen name a c -> (forall ip, is_address name ip r -> False) -> found (fun x => seen x \/ x = r) name a c.
Proof.
  intros [F1 F2 F3] Hr. constructor.
  - intros ip ttl Ha. destruct (F1 ip ttl Ha) as (x & Hx & Hi). eauto.
  - intros ip x [Hx| ->] Hi; [by eapply F2|by destruct (Hr ip)].
  - intros t ttl Hc. destruct (F3 t ttl Hc) as (x & Hx & Hi). eauto.
Qed.

(** One more address. *)
Lemma found_more seen name a c r ip :
  found seen name a c -> is_address name ip r ->
  found (fun x => seen x \/ x = r) name
    (Some match a with
          | None => (ip, record_ttl_seconds r)
          | Some (a0, ttl) => (a0, if record_ttl_seconds r <? ttl then record_ttl_seconds r else ttl)
          end) c.
Proof.
  intros [F1 F2 F3] Hr. constructor.
  - intros ip' ttl Ha. apply (inj Some) in Ha. destruct a as [[a0 t0]|]; apply pair_eq in Ha as [<- <-]; [|by eauto].
    destruct (F1 a0 t0 eq_refl) as (x & Hx & Hi). eauto.
  - intros ip' x Hx Hi. destruct a as [[a0 t0]|].
    + eexists _, _. split; [done|]. destruct (Z.ltb_spec (record_ttl_seconds r) t0); destruct Hx as [Hx| ->]; try lia;
        destruct (F2 ip' x Hx Hi) as (? & t & [= <- <-] & Ht); lia.
    + eexists _, _. split; [done|]. destruct Hx as [Hx| ->]; [|lia]. by destruct (F2 ip' x Hx Hi) as (? & ? & ? & _).
  - intros t ttl Hc. destruct (F3 t ttl Hc) as (x & Hx & Hi). eauto.
Qed.

(** The first alias. *)
Lemma found_first_alias seen name a r target :
  found seen name a None -> is_alias name target r -> found (fun x => seen x \/ x = r) name a (Some (target, record_ttl_seconds r)).
Proof.
  intros F Hr. assert (Hno : forall ip, is_address name ip r -> False).
  { intros ip [_ _ Ht _ _ _]. destruct Hr as [_ _ Ht' _]. rewrite Ht in Ht'. done. }
  destruct (found_skip seen name a None r F Hno) as [F1 F2 F3]. constructor; [done|done|].
  intros t ttl [= <- <-]. exists r. auto.
Qed.

Lemma section_step offset n r x :
  dns_read_record message offset = Some (Some r) ->
  in_section offset (S n) x <-> x = r \/ in_section (next_offset r) n x.
Proof.
  intros Hr. split.
  - intros H. inversion H as [o' n' r' Hr'|o' n' x' r' Hr' Hin]; subst; rewrite Hr in Hr'; injection Hr' as ->; auto.
  - intros [->|Hin]; [by apply in_here|by eapply in_later].
Qed.

Lemma scan_answers_found n offset name seen a c a' c' :
  scan_answers n message offset name a c = Some (Some (a', c')) -> found seen name a c ->
  found (fun r => seen r \/ in_section offset n r) name a' c'.
Proof.
  revert offset seen a c. induction n as [|n IH]; intros offset seen a c H F; cbn [scan_answers] in H.
  { apply (inj Some), (inj Some), pair_eq in H as [<- <-]. eapply found_iff; [|exact F].
    intros r. split; [auto|]. intros [?|Hin]; [done|inversion Hin]. }
  destruct (dns_read_record message offset) as [[r|]|] eqn:Er; try done. cbn [try_bind] in H.
  destruct (dns_expand_name message (owner_offset r)) as [[[owner e]|]|] eqn:Eo; try done. cbn [try_bind fst] in H.
  assert (Hgo : forall a1 c1, scan_answers n message (next_offset r) name a1 c1 = Some (Some (a', c')) ->
            found (fun x => seen x \/ x = r) name a1 c1 -> found (fun x => seen x \/ in_section offset (S n) x) name a' c').
  { intros a1 c1 H1 F1. eapply found_iff; [|by eapply IH]. intros x. cbv beta. rewrite (section_step offset n r x Er). tauto. }
  destruct (negb (record_class r =? DNS_CLASS_IN) || negb (dns_names_equal owner name)) eqn:Eskip.
  { eapply Hgo; [done|]. apply found_skip; [done|]. intros ip [(o & e' & Ho & He) Hc _ _ _ _]. rewrite Eo in Ho.
    injection Ho as <- <-. by rewrite Hc, He in Eskip. }
  bdestr_hyps. assert (Hown : owned_by name r) by (by exists owner, e).
  destruct (Z.eqb_spec (record_type r) DNS_TYPE_A) as [EA|EA].
  - destruct (negb (data_size r =? 4) || _) eqn:Ebad; [done|]. bdestr_hyps.
    destruct (read_u32_be message (data_offset r)) as [ip|] eqn:Eip; [|done]. cbn [mbind option_bind] in H.
    destruct (ipv4_is_usable_unicast ip) eqn:Eu; cbn [negb] in H.
    + eapply Hgo; [exact H|]. by apply found_more.
    + eapply Hgo; [done|]. apply found_skip; [done|]. intros ip' [_ _ _ _ Hd Hu']. rewrite Eip in Hd. injection Hd as <-.
      by rewrite Eu in Hu'.
  - destruct (Z.eqb_spec (record_type r) DNS_TYPE_CNAME) as [EC|EC].
    + destruct (_ || _) eqn:Ebad; [done|]. apply orb_false_iff in Ebad as [_ Ec].
      destruct c as [?|]; [by rewrite bool_decide_true in Ec by eauto|].
      destruct (dns_expand_name message (data_offset r)) as [[[target te]|]|] eqn:Et; try done. cbn [try_bind fst snd] in H.
      destruct (_ || _) eqn:Ebad2; [done|]. bdestr_hyps. eapply Hgo; [exact H|]. apply found_first_alias; [done|].
      by constructor; subst.
    + eapply Hgo; [done|]. apply found_skip; [done|]. intros ip [_ _ Ht _ _ _]. done.
Qed.

(** ** The walk over the aliases *)

Lemma copied_equal source n : dns_copy_text source = Some n -> dns_names_equal n source = true.
Proof.
  intros H. apply names_equal_spec. unfold dns_copy_text in H. apply put_inv in H as (_ & Hr & -> & _).
  rewrite memcpy_at_in by (unfold size in Hr; lia). change (Z.to_nat 0) with O. cbn [take app Nat.add]. rewrite <- app_assoc. cbn [app].
  change (take 0 zero_name) with (@nil Z). cbn [app]. by rewrite cstr_app_0 by apply cstr_nonzero.
Qed.

Lemma found_none name : found (fun _ => False) name None None.
Proof. by constructor. Qed.

(** An address comes with the chain that leads to it; its time is no longer than that of any record of the chain. *)
Lemma answer_loop_sound fuel hop offset n name ttl ip ttl' terminal :
  answer_loop fuel hop message offset n name ttl = Some (DNS_ANSWER_ADDRESS, ip, ttl', terminal) ->
  u32_ok ttl -> (forall r, in_section offset (Z.to_nat n) r -> u32_ok (record_ttl_seconds r)) ->
  exists hops, (hops < fuel)%nat /\ answers offset (Z.to_nat n) hops name ip ttl' /\ ttl' <= ttl.
Proof.
  revert hop name ttl. induction fuel as [|fuel IH]; intros hop name ttl H Httl Hsec; cbn [answer_loop] in H; [done|].
  destruct (scan_answers (Z.to_nat n) message offset name None None) as [[[a c]|]|] eqn:Es; try done; cbn [mbind option_bind] in H.
  pose proof (scan_answers_found _ _ _ _ _ _ _ _ Es (found_none name)) as [F1 F2 F3].
  destruct a as [[sel attl]|].
  - destruct (dns_copy_text name); [|done]. cbn [mbind option_bind] in H. injection H as <- <- <-.
    destruct (F1 sel attl eq_refl) as (r & [[]|Hin] & Hr). exists 0%nat. split; [lia|].
    assert (Hattl : attl <= record_ttl_seconds r /\ record_ttl_seconds r <= UINT32_MAX).
    { destruct (F2 sel r ltac:(auto) Hr) as (? & ? & [= <- <-] & Hle). pose proof (Hsec r Hin). unfold u32_ok, UINT32_MAX in *. lia. }
    set (eff := if (ttl =? UINT32_MAX) || (attl <? ttl) then attl else ttl).
    assert (Heff : eff <= attl /\ eff <= ttl).
    { unfold eff. destruct (Z.eqb_spec ttl UINT32_MAX); cbn [orb]; [lia|]. destruct (Z.ltb_spec attl ttl); lia. }
    split; [|lia]. eapply answers_here; [done|done|]. intros ip' r' Hin' Hr'.
    destruct (F2 ip' r' ltac:(auto) Hr') as (? & ? & [= <- <-] & Hle). lia.
  - destruct c as [[target cttl]|]; [|destruct (dns_copy_text name); done].
    destruct (_ || _) eqn:Estop; [done|]. destruct (dns_copy_text target) as [copied|] eqn:Ecopy; [|done].
    cbn [mbind option_bind] in H. destruct (F3 target cttl eq_refl) as (r & [[]|Hin] & Hr & ->).
    pose proof (Hsec r Hin) as Hrt. set (eff := if (ttl =? UINT32_MAX) || (record_ttl_seconds r <? ttl) then record_ttl_seconds r else ttl) in *.
    assert (Heff : eff <= record_ttl_seconds r /\ eff <= ttl /\ u32_ok eff).
    { unfold eff, u32_ok, UINT32_MAX in *. destruct (Z.eqb_spec ttl (2 ^ 32 - 1)); cbn [orb]; [lia|].
      destruct (Z.ltb_spec (record_ttl_seconds r) ttl); lia. }
    destruct (IH _ _ _ H) as (hops & Hh & Ha & Hle); [apply Heff|done|]. exists (S hops). split; [lia|]. split; [|lia].
    eapply answers_alias; [done|done|lia|]. eapply answers_equal; [|done]. by apply copied_equal.
Qed.

Lemma section_ttl offset n r : bytes_ok message -> 0 <= offset -> in_section offset n r -> u32_ok (record_ttl_seconds r).
Proof.
  intros Hm Ho Hin. induction Hin as [o n r Hr|o n r r' Hr Hin IH].
  - destruct (read_record_safe message o Hm Ho) as (x & Ex & Hx). rewrite Hr in Ex. injection Ex as <-. by destruct (Hx r eq_refl).
  - destruct (read_record_safe message o Hm Ho) as (x & Ex & Hx). rewrite Hr in Ex. injection Ex as <-.
    destruct (Hx r' eq_refl). apply IH. lia.
Qed.

End records.

(** ** The end of [dns_receive] *)

Lemma slot_dns s name sel s' : cache_slot s name = (sel, s') -> dns s' = dns s.
Proof. intros H. pose proof (f_equal dns (forget_slot s name sel s' H)) as E. done. Qed.

Lemma store_dns name negative ip code ttl s s' : dns_cache_store name negative ip code ttl s = Some s' -> dns s' = dns s.
Proof.
  unfold dns_cache_store. intros H. destruct (ttl =? 0); [by injection H as ->|].
  destruct (cache_slot (dns_cache_expire s) name) as [sel s1] eqn:Es. pose proof (slot_dns _ _ _ _ Es) as Ed.
  change (dns (dns_cache_expire s)) with (dns s) in Ed. destruct sel as [i|]; [|injection H as <-; exact Ed].
  destruct (dns_copy_text name) as [c|]; [|done]. cbn [mbind option_bind] in H. injection H as <-. exact Ed.
Qed.

Lemma conclude_resolved message o a n m s s' :
  bytes_ok message -> 0 <= o -> dns_conclude message o a n m s = Some s' ->
  dns_state (dns s') = NET_DNS_RESOLVED -> dns_state (dns s) <> NET_DNS_RESOLVED ->
  exists hops, (hops <= 8)%nat /\
    answers message o (Z.to_nat n) hops (dns_name (dns s)) (result_address (dns s')) (dns_ttl_seconds (dns s')).
Proof.
  intros Hm Ho H Hres Hnot. unfold dns_conclude in H. cbv zeta in H.
  destruct (negb (dns_response_code (dns s) =? 0) && negb (dns_response_code (dns s) =? 3)); [by injection H as <-|].
  destruct (dns_find_address_answer message o n (dns_name (dns s))) as [[[[r ip] ttl] terminal]|] eqn:Ef; [|done].
  cbn [mbind option_bind] in H. destruct r.
  - destruct (dns_find_negative_ttl message a m terminal) as [v|]; [|done]. cbn [mbind option_bind] in H.
    match type of H with context [if ?b then dns_cache_store ?x1 ?x2 ?x3 ?x4 ?x5 ?x6 else ?x] => destruct (if b then dns_cache_store x1 x2 x3 x4 x5 x6 else x) end;
      [|done]. cbn [mbind option_bind] in H. by injection H as <-.
  - destruct (negb (dns_response_code (dns s) =? 0)); [by injection H as <-|]. apply store_dns in H. rewrite H. net_simpl.
    unfold dns_find_address_answer in Ef. destruct (dns_copy_text (dns_name (dns s))) as [current|] eqn:Ec; [|done].
    cbn [mbind option_bind] in Ef. destruct (answer_loop_sound _ _ _ _ _ _ _ _ _ _ Ef) as (hops & Hh & Ha & _).
    { done. } { intros r Hr. by eapply section_ttl. }
    exists hops. split; [lia|]. eapply answers_equal; [by apply copied_equal|]. exact Ha.
  - by injection H as <-.
Qed.

(** The guard. *)
Lemma reply_matches_inv s src sp dp message :
  dns_reply_matches s src sp dp message = Some true ->
  dns_state (dns s) = NET_DNS_PENDING /\ src = dns_server (ipv4 s) /\ sp = DNS_SERVER_PORT /\
  dp = dns_source_port (dns s) /\ read_u16_be message 0 = Some (dns_transaction_id (dns s)).
Proof.
  unfold dns_reply_matches. intros H. destruct (_ || _) eqn:Eg; [done|]. bdestr_hyps.
  destruct (read_u16_be message 0) as [id|]; [|done]. cbn [mbind option_bind] in H. injection H as H. apply Z.eqb_eq in H.
  repeat match goal with E : bool_decide _ = true |- _ => apply bool_decide_eq_true in E end. subst. done.
Qed.

(** * kernel/net.c: the DNS cache over time *)

Open Scope net_scope.

(** A slot is found unless every entry was used at the end of time. *)
Lemma cache_select_Some i l oldest sel :
  l <> [] -> Forall (fun e => last_used_ms e < oldest) l -> is_Some (cache_select i l oldest sel).
Proof.
  assert (H : forall l i oldest k, is_Some (cache_select i l oldest (Some k))).
  { clear. induction l as [|e l IH]; intros i oldest k; cbn [cache_select]; [by eexists|].
    destruct (negb _); [by eexists|]. destruct (_ <? _); apply IH. }
  intros Hne Hall. destruct l as [|e l]; [done|]. apply Forall_cons in Hall as [He _]. cbn [cache_select].
  destruct (negb _); [by eexists|]. rewrite (proj2 (Z.ltb_lt _ _) He). apply H.
Qed.

Lemma expire_last_used s : Forall (fun e => last_used_ms e < UINT64_MAX) (dns_cache s) ->
  Forall (fun e => last_used_ms e < UINT64_MAX) (dns_cache (dns_cache_expire s)).
Proof.
  intros H. unfold dns_cache_expire. cbv zeta. net_simpl. apply Forall_fmap. eapply Forall_impl; [exact H|].
  intros e He. unfold compose. by destruct (cache_expired _ e).
Qed.

(** What a store leaves behind: the entry, in a table that is well formed again. *)
Lemma store_entry name ip code ttl s s' :
  net_ok s -> name_ok name -> u32_ok ip -> u32_ok ttl -> ttl <> 0 -> ipv4_is_usable_unicast ip = true ->
  Forall (fun e => last_used_ms e < UINT64_MAX) (dns_cache s) ->
  dns_cache_store name false ip code ttl s = Some s' ->
  net_ok s' /\ exists i e, dns_cache s' !! i = Some e /\ cache_valid e = true /\ cache_negative e = false /\
    cache_address e = ip /\ dns_names_equal (cache_name e) name = true /\
    expires_ms e = saturating_add_u64 (current_time_ms s) (ttl * 1000).
Proof.
  intros Hs Hn Hip Httl H0 Hu Hused H.
  destruct (store_ok name false ip code ttl s Hs Hn Hip Httl (fun _ => Hu)) as (x & Ex & Hx & _).
  rewrite H in Ex. injection Ex as <-. split; [done|]. unfold dns_cache_store in H.
  rewrite (proj2 (Z.eqb_neq ttl 0)) in H by done. destruct (cache_slot (dns_cache_expire s) name) as [sel s1] eqn:Es.
  destruct (cache_slot_spec _ _ _ _ Es (cache_expire_ok s (ok_cache _ Hs))) as (Ec & Et & Hsel).
  assert (Hsome : is_Some sel).
  { unfold cache_slot in Es. destruct (dns_cache_find (dns_cache_expire s) name) as [k|]; [injection Es as <- _; by eexists|].
    destruct (cache_select_Some 0 (dns_cache (dns_cache_expire s)) UINT64_MAX None) as [k Ek].
    - intros Hnil. pose proof (cache_length _ (cache_expire_ok s (ok_cache _ Hs))) as Hl. by rewrite Hnil in Hl.
    - by apply expire_last_used.
    - rewrite Ek in Es. apply pair_eq in Es as [<- _]. by eexists. }
  destruct Hsome as [i ->]. destruct (dns_copy_text name) as [copied|] eqn:Ecopy; [|done]. cbn [mbind option_bind] in H.
  cbv zeta in H. injection H as <-. destruct (Hsel i eq_refl) as [Hi _].
  exists i. eexists. split; [net_simpl; apply list_lookup_insert_eq; rewrite Ec; pose proof (cache_length _ (cache_expire_ok s (ok_cache _ Hs))); lia|].
  net_simpl. split; [done|]. split; [done|]. split; [done|]. split; [by apply copied_equal|].
  rewrite Et, seconds_to_ms_small by done. done.
Qed.

(** Looking a name up after the entries that are over were dropped. *)
Lemma find_after_expire s i e v :
  cache_ok (dns_cache s) -> dns_cache s !! i = Some e -> cache_valid e = true -> dns_names_equal (cache_name e) v = true ->
  dns_cache_find (dns_cache_expire s) v = (if expires_ms e <=? current_time_ms s then None else Some i).
Proof.
  intros Hc He Hv Hn. set (f := fun e => if cache_expired (current_time_ms s) e then set_cache_valid false e else e).
  assert (Ecache : dns_cache (dns_cache_expire s) = f <$> dns_cache s) by done.
  assert (Hf : forall x, cache_valid (f x) = true -> f x = x /\ cache_valid x = true /\ current_time_ms s < expires_ms x).
  { intros x. unfold f, cache_expired. destruct (cache_valid x) eqn:Ev; cbn [andb]; [|by rewrite Ev].
    destruct (Z.leb_spec (expires_ms x) (current_time_ms s)); [done|]. auto. }
  assert (Huniq : forall j, dns_cache_find (dns_cache_expire s) v = Some j -> j = i /\ current_time_ms s < expires_ms e).
  { intros j Hj. apply cache_find_Some in Hj as (y & Ey & Vy & Ny). rewrite Ecache, list_lookup_fmap in Ey.
    destruct (dns_cache s !! j) as [x|] eqn:Ex; [|done]. cbn in Ey. injection Ey as <-. destruct (Hf x Vy) as (Ef & Vx & Tx).
    rewrite Ef in Ny. assert (j = i) as ->; [|rewrite He in Ex; by injection Ex as ->].
    eapply (cache_unique _ Hc); eauto. eapply names_equal_trans; [exact Ny|]. by rewrite names_equal_sym. }
  destruct (Z.leb_spec (expires_ms e) (current_time_ms s)) as [Hle|Hlt].
  - destruct (dns_cache_find _ v) as [j|] eqn:Ej; [|done]. destruct (Huniq j eq_refl). lia.
  - destruct (dns_cache_find _ v) as [j|] eqn:Ej; [by destruct (Huniq j eq_refl) as [-> _]|].
    assert (Ei : dns_cache (dns_cache_expire s) !! i = Some e).
    { rewrite Ecache, list_lookup_fmap, He. cbn. unfold f, cache_expired. rewrite Hv, (proj2 (Z.leb_gt _ _)) by lia. done. }
    by rewrite (cache_find_None _ v i e Ej Ei Hv) in Hn.
Qed.

(** The time reported is what is left, rounded up to a second: more than nothing, not more than was given. *)
Lemma remaining_bounds now start ttl :
  u64_ok start -> u32_ok ttl -> start <= now -> now < saturating_add_u64 start (ttl * 1000) ->
  0 < dns_cache_remaining_seconds (saturating_add_u64 start (ttl * 1000)) now <= ttl.
Proof.
  unfold u64_ok, u32_ok. intros Hs Ht Hle Hlt. unfold dns_cache_remaining_seconds.
  set (e := saturating_add_u64 start (ttl * 1000)) in *.
  assert (He : e <= start + ttl * 1000).
  { unfold e, saturating_add_u64, UINT64_MAX. destruct (Z.ltb_spec (2 ^ 64 - 1 - start) (ttl * 1000)); lia. }
  rewrite (proj2 (Z.leb_gt e now)) by lia. cbv zeta. pose proof (Z.div_mod (e - now) 1000 ltac:(lia)) as Hd.
  pose proof (Z.mod_pos_bound (e - now) 1000 ltac:(lia)) as Hm. unfold UINT32_MAX.
  set (q := (e - now) / 1000) in *. set (r := (e - now) mod 1000) in *.
  assert (Hq : 0 < (if negb (r =? 0) then q + 1 else q) <= ttl) by (destruct (Z.eqb_spec r 0); cbn [negb]; lia).
  set (x := if negb (r =? 0) then q + 1 else q) in *. destruct (Z.ltb_spec (2 ^ 32 - 1) x); lia.
Qed.
