(* ===== verification/NetLease.v ===== *)
(** * kernel/net.c: what sending leaves alone, and how a DHCP lease is acquired *)

From S2P Require Import Prelude TcpSegment NetState NetBytes NetSend NetDhcp NetDns NetInput NetParse NetReceive NetRun NetDatagram.
Open Scope net_scope.

(** ** Operations that do not change a part of the stack *)

Definition preserves {W A B} (m : NM W A) (g : net_stack -> B) : Prop :=
  forall st a st', m st = Some (a, st') -> g st'.1 = g st.1.

Section preserves.
  Context {W : Type} {B : Type} (g : net_stack -> B).

Lemma preserves_ret {A} (a : A) : preserves (W := W) (mret a) g.
Proof. by intros st a' st' [= <- <-]. Qed.

Lemma preserves_bind {A A'} (m : NM W A) (k : A -> NM W A') :
  preserves m g -> (forall a, preserves (k a) g) -> preserves (m ≫= k) g.
Proof.
  intros Hm Hk st a st' H. unfold mbind, NM_bind in H. destruct (m st) as [[a1 st1]|] eqn:E; [|done].
  rewrite (Hk _ _ _ _ H). by eapply Hm.
Qed.

Lemma preserves_gets {A} (f : net_stack -> A) : preserves (W := W) (gets f) g.
Proof. by intros st a st' [= <- <-]. Qed.

Lemma preserves_mods f : (forall s, g (f s) = g s) -> preserves (W := W) (mods f) g.
Proof. intros Hf st a st' H. unfold mods in H. injection H as <- <-. apply Hf. Qed.

Lemma preserves_lift {A} (o : option A) : preserves (W := W) (lift o) g.
Proof. intros st a st' H. unfold lift in H. destruct o; [|done]. by injection H as <- <-. Qed.

Lemma preserves_extern {A} (f : W -> A * W) : preserves (extern f) g.
Proof. intros st a st' H. unfold extern in H. destruct (f st.2). by injection H as <- <-. Qed.

End preserves.

(** Follow a computation; the updates it makes are left. *)
Ltac preserve :=
  repeat first
    [ lazymatch goal with
      | |- preserves (mret _) _ => apply preserves_ret
      | |- preserves (gets _) _ => apply preserves_gets
      | |- preserves (lift _) _ => apply preserves_lift
      | |- preserves (extern _) _ => apply preserves_extern
      | |- preserves (mods _) _ => apply preserves_mods; intros ?
      | |- preserves (mbind _ _) _ => apply preserves_bind; [|intros ?]
      | |- preserves (if ?b then _ else _) _ => destruct b
      | |- preserves (match ?x with _ => _ end) _ => destruct x
      end ].

(** What a message leaves of the client. *)
Definition dhcp_core (c : net_dhcp_client) : net_dhcp_client := set_dhcp_next_action_ms 0 (set_dhcp_attempts 0 c).

Section send.
  Context {W : Type} (E : net_env W) {B : Type} (g : net_stack -> B)
    (Hstats : forall v s, g (set_stats v s) = g s)
    (Hid : forall v s, g (set_next_ipv4_id v s) = g s)
    (Hpending : forall v s, g (set_pending_ipv4 v s) = g s).

Lemma transmit_preserves frame : preserves (link_transmit E frame) g.
Proof. unfold link_transmit. preserve. apply Hstats. Qed.

Lemma arp_request_preserves ip : preserves (net_arp_request E ip) g.
Proof. unfold net_arp_request. preserve; try apply transmit_preserves. apply Hstats. Qed.

Lemma send_with_mac_preserves d p payload m : preserves (send_ipv4_with_mac E d p payload m) g.
Proof. unfold send_ipv4_with_mac. cbv zeta. preserve; try apply transmit_preserves; [apply Hid|apply Hstats]. Qed.

Lemma ipv4_send_preserves d p payload : preserves (net_ipv4_send E d p payload) g.
Proof.
  unfold net_ipv4_send. preserve; try apply send_with_mac_preserves; try apply arp_request_preserves. apply Hpending.
Qed.

Lemma udp_send_preserves d dp sp data : preserves (net_udp_send E d dp sp data) g.
Proof. unfold net_udp_send. cbv zeta. preserve; try apply ipv4_send_preserves. apply Hstats. Qed.

(** A DHCP message also counts its attempt and sets the next deadline. *)
Lemma dhcp_send_preserves t b (Hdhcp : forall f s, (forall c, dhcp_core (f c) = dhcp_core c) -> g (upd_dhcp f s) = g s) :
  preserves (dhcp_send_message E t b) g.
Proof.
  unfold dhcp_send_message. cbv zeta. preserve; try apply udp_send_preserves; by apply Hdhcp.
Qed.

End send.

(** ** Options a server encodes are the options the client parses *)

Definition encode_option (o : Z * list Z) : list Z := o.1 :: size o.2 :: o.2.
Definition encode_options (options : list (Z * list Z)) : list Z := concat (encode_option <$> options).

Definition plain_option (o : Z * list Z) : Prop := o.1 <> DHCP_OPTION_PAD /\ o.1 <> DHCP_OPTION_END /\ size o.2 < 256.

(** The options parsed one after the other. *)
Fixpoint apply_options (o : dhcp_options) (options : list (Z * list Z)) : option dhcp_options :=
  match options with
  | [] => Some o
  | (code, value) :: rest => o ← parse_dhcp_option o value code (size value) 0; apply_options o rest
  end.

Lemma rd_window pre value post k : 0 <= k < size value -> rd (pre ++ value ++ post) (size pre + k) = rd value k.
Proof.
  intros Hk. rewrite rd_app_r by lia. unfold rd. rewrite (proj2 (Z.leb_le 0 k)) by lia. apply lookup_app_l.
  unfold size in Hk. lia.
Qed.

Lemma read_window pre value post : 4 <= size value ->
  read_u32_be (pre ++ value ++ post) (size pre) = read_u32_be value 0.
Proof.
  intros Hs. unfold read_u32_be, read_u32. rewrite <- (Z.add_0_r (size pre)) at 1. rewrite !rd_window by lia. done.
Qed.

Lemma store_option_ext fits seen v v' set o : (fits = true -> v = v') -> store_option fits seen v set o = store_option fits seen v' set o.
Proof. unfold store_option. destruct fits; [|done]. by intros ->. Qed.

Lemma parse_option_window o pre value post code :
  parse_dhcp_option o (pre ++ value ++ post) code (size value) (size pre) = parse_dhcp_option o value code (size value) 0.
Proof.
  unfold parse_dhcp_option.
  assert (Hw : 4 <= size value -> read_u32_be (pre ++ value ++ post) (size pre) = read_u32_be value 0) by apply read_window.
  assert (Hb : 1 <= size value -> rd (pre ++ value ++ post) (size pre) = rd value 0).
  { intros. rewrite <- (Z.add_0_r (size pre)). apply rd_window. lia. }
  repeat match goal with |- (if ?b then _ else _) = (if ?b then _ else _) => destruct b end; try done;
    apply store_option_ext; intros; bdestr_hyps; first [apply Hw; lia|apply Hb; lia].
Qed.

Lemma parse_loop_spec options fuel pre post o :
  Forall plain_option options -> (length options < fuel)%nat ->
  parse_dhcp_loop fuel (pre ++ encode_options options ++ DHCP_OPTION_END :: post) (size pre) o =
    (o ← apply_options o options;
     Some (if bool_decide (is_Some (opt_message_type o)) then Some o else None)).
Proof.
  intros Hp. revert fuel pre o. induction Hp as [|[code value] options (P1 & P2 & P3) Hp IH]; intros fuel pre o Hf;
    (destruct fuel as [|fuel]; [cbn [length] in Hf; lia|]); cbn [parse_dhcp_loop apply_options].
  - cbn [encode_options fmap list_fmap concat app].
    assert (Hsz : size pre < size (pre ++ DHCP_OPTION_END :: post)) by (rewrite size_app, size_cons; pose proof (size_nonneg post); lia).
    rewrite (proj2 (Z.leb_gt _ _)) by lia.
    assert (E0 : rd (pre ++ DHCP_OPTION_END :: post) (size pre) = Some DHCP_OPTION_END).
    { rewrite <- (Z.add_0_r (size pre)). by rewrite rd_app_r. }
    rewrite E0, some_bind. done.
  - cbn [fst snd] in *. cbn [length] in Hf. pose proof (size_nonneg value).
    set (rest := encode_options options ++ DHCP_OPTION_END :: post).
    assert (Em : pre ++ encode_options ((code, value) :: options) ++ DHCP_OPTION_END :: post = pre ++ (code :: size value :: value) ++ rest).
    { unfold encode_options at 1, rest. cbn [fmap list_fmap concat encode_option fst snd]. by rewrite <- app_assoc. }
    rewrite Em. pose proof (size_nonneg rest).
    assert (Hsz : size (pre ++ (code :: size value :: value) ++ rest) = size pre + (2 + size value) + size rest).
    { rewrite !size_app, !size_cons. lia. }
    rewrite Hsz, (proj2 (Z.leb_gt _ (size pre))) by lia.
    assert (E0 : rd (pre ++ (code :: size value :: value) ++ rest) (size pre) = Some code).
    { rewrite <- (Z.add_0_r (size pre)). by rewrite rd_app_r. }
    assert (E1 : rd (pre ++ (code :: size value :: value) ++ rest) (size pre + 1) = Some (size value)) by (by rewrite rd_app_r).
    rewrite E0, some_bind, (proj2 (Z.eqb_neq _ _) P1), (proj2 (Z.eqb_neq _ _) P2), (proj2 (Z.leb_gt _ (size pre + 1))) by lia.
    rewrite E1, some_bind, (proj2 (Z.ltb_ge _ (size value))) by lia.
    assert (Ew : pre ++ (code :: size value :: value) ++ rest = (pre ++ [code; size value]) ++ value ++ rest).
    { by rewrite <- app_assoc. }
    rewrite Ew. replace (size pre + 2) with (size (pre ++ [code; size value])) by (by rewrite size_app).
    rewrite parse_option_window. destruct (parse_dhcp_option o value code (size value) 0) as [o'|]; [|done].
    cbn [mbind option_bind]. unfold rest. rewrite app_assoc. rewrite <- (app_assoc (pre ++ _)).
    rewrite (app_assoc (pre ++ [code; size value]) value). replace (size (pre ++ [code; size value]) + size value)
      with (size ((pre ++ [code; size value]) ++ value)) by (by rewrite size_app). apply IH. lia.
Qed.

(** ** The messages of a server *)

Record dhcp_lease := DhcpLease {
  lease_server : Z; lease_ip : Z; lease_mask : Z; lease_router : Z; lease_resolver : Z; lease_time : Z }.

(** What a server can give out. *)
Record lease_ok (l : dhcp_lease) : Prop := LeaseOk {
  lk_words : u32_ok (lease_server l) /\ u32_ok (lease_ip l) /\ u32_ok (lease_mask l) /\ u32_ok (lease_router l) /\
             u32_ok (lease_resolver l) /\ u32_ok (lease_time l);
  lk_server : ipv4_is_usable_unicast (lease_server l) = true;
  lk_ip : ipv4_is_usable_unicast (lease_ip l) = true;
  lk_mask : ipv4_netmask_is_valid (lease_mask l) = true;
  lk_router : ipv4_is_usable_unicast (lease_router l) = true;
  lk_resolver : ipv4_is_usable_unicast (lease_resolver l) = true;
  lk_time : lease_time l <> 0 }.

Definition lease_options (kind : Z) (l : dhcp_lease) : list (Z * list Z) :=
  [(DHCP_OPTION_MESSAGE_TYPE, [kind]); dhcp_u32_option DHCP_OPTION_SERVER_IDENTIFIER (lease_server l);
   dhcp_u32_option DHCP_OPTION_LEASE_TIME (lease_time l); dhcp_u32_option DHCP_OPTION_SUBNET_MASK (lease_mask l);
   dhcp_u32_option DHCP_OPTION_ROUTER (lease_router l); dhcp_u32_option DHCP_OPTION_DNS (lease_resolver l)].

(** A BOOTP reply to the client [m] with transaction [id]. *)
Definition server_header (id : Z) (m : list Z) (ip : Z) : list Z :=
  [2; 1; 6; 0] ++ write_u32_be id ++ zeros 8 ++ write_u32_be ip ++ zeros 8 ++ m ++ zeros 202 ++ write_u32_be DHCP_MAGIC_COOKIE.

Definition server_reply (kind id : Z) (m : list Z) (l : dhcp_lease) : list Z :=
  server_header id m (lease_ip l) ++ encode_options (lease_options kind l) ++ [DHCP_OPTION_END].

Lemma size_server_header id m ip : mac_ok m -> size (server_header id m ip) = 240.
Proof. intros [Hm _]. unfold server_header. rewrite !size_app. unfold size. rewrite Hm. done. Qed.

Lemma server_header_bytes id m ip : mac_ok m -> bytes_ok (server_header id m ip).
Proof.
  intros [_ Hm]. unfold server_header.
  repeat (apply Forall_app_2; [first [apply write_u32_be_ok|apply bytes_ok_zeros|exact Hm|by apply bytes_okb_true]|]).
  apply write_u32_be_ok.
Qed.

Lemma server_reply_bytes kind id m l : mac_ok m -> byte_ok kind -> bytes_ok (server_reply kind id m l).
Proof.
  intros Hm Hk. unfold server_reply. apply Forall_app_2; [by apply server_header_bytes|].
  apply Forall_app_2; [|by apply bytes_one]. unfold encode_options, lease_options. cbn [fmap list_fmap concat].
  assert (Ho : forall c v, byte_ok c -> bytes_ok v -> size v < 256 -> bytes_ok (encode_option (c, v))).
  { intros c v Hc Hv Hs. pose proof (size_nonneg v). unfold encode_option. constructor; [done|].
    constructor; [unfold byte_ok; cbn [snd]; lia|done]. }
  repeat (apply Forall_app_2; [apply Ho; [done|first [apply write_u32_be_ok|by apply bytes_one]|done]|]). constructor.
Qed.

Lemma size_server_reply kind id m l : mac_ok m -> 240 <= size (server_reply kind id m l).
Proof.
  intros Hm. unfold server_reply. rewrite size_app, size_server_header by done.
  pose proof (size_nonneg (encode_options (lease_options kind l) ++ [DHCP_OPTION_END])). lia.
Qed.

Lemma server_reply_fields kind id m l :
  mac_ok m -> u32_ok id -> u32_ok (lease_ip l) ->
  let p := server_reply kind id m l in
  rd p 0 = Some 2 /\ rd p 1 = Some 1 /\ rd p 2 = Some 6 /\ read_u32_be p 4 = Some id /\ sub p 28 6 = Some m /\
  read_u32_be p 16 = Some (lease_ip l) /\ read_u32_be p 236 = Some DHCP_MAGIC_COOKIE.
Proof.
  intros [Lm Bm] Hid Hip. cbv zeta. unfold server_reply, server_header.
  set (rest := encode_options (lease_options kind l) ++ [DHCP_OPTION_END]).
  split; [done|]. split; [done|]. split; [done|].
  assert (Sm : size m = 6) by (unfold size; by rewrite Lm).
  rewrite <- !app_assoc. split; [by apply (read_u32_be_at [2; 1; 6; 0])|].
  set (h16 := [2; 1; 6; 0] ++ write_u32_be id ++ zeros 8).
  assert (E16 : forall t, [2; 1; 6; 0] ++ write_u32_be id ++ zeros 8 ++ t = h16 ++ t) by (intros; unfold h16; by rewrite <- !app_assoc).
  rewrite !E16. set (h28 := h16 ++ write_u32_be (lease_ip l) ++ zeros 8).
  assert (E28 : forall t, h16 ++ write_u32_be (lease_ip l) ++ zeros 8 ++ t = h28 ++ t) by (intros; unfold h28; by rewrite <- !app_assoc).
  split; [|split].
  - rewrite !E28. by apply sub_app.
  - by apply (read_u32_be_at h16).
  - rewrite !E28, !app_assoc. rewrite <- (app_assoc _ _ rest).
    replace 236 with (size ((h28 ++ m) ++ zeros 202)) by (rewrite !size_app, Sm; done). by apply read_u32_be_at.
Qed.

(** The client takes the reply for its own, and reads the lease out of it. *)
Lemma server_reply_matches kind l s :
  mac_ok (mac s) -> u32_ok (dhcp_transaction_id (dhcp s)) -> u32_ok (lease_ip l) -> dhcp_state (dhcp s) <> NET_DHCP_OFF ->
  dhcp_reply_matches s (server_reply kind (dhcp_transaction_id (dhcp s)) (mac s) l) = Some true.
Proof.
  intros Hm Hid Hip Hst. pose proof (size_server_reply kind (dhcp_transaction_id (dhcp s)) (mac s) l Hm) as Hs.
  destruct (server_reply_fields kind _ (mac s) l Hm Hid Hip) as (F0 & F1 & F2 & F4 & F28 & _). unfold dhcp_reply_matches.
  rewrite (bool_decide_false _ Hst), (proj2 (Z.ltb_ge _ _)) by (net_consts; lia). cbn [orb].
  rewrite F0, F1, F2, F4, !some_bind. net_consts. rewrite F28, some_bind, !Z.eqb_refl, bytes_equal_refl by apply Hm. done.
Qed.

Definition lease_parsed (kind : Z) (l : dhcp_lease) : dhcp_options :=
  DhcpOptions (Some kind) (Some (lease_mask l)) (Some (lease_router l)) (Some (lease_resolver l)) (Some (lease_server l))
    (Some (lease_time l)) None None.

Lemma read_written v : u32_ok v -> read_u32_be (write_u32_be v) 0 = Some v.
Proof. intros Hv. rewrite <- (app_nil_r (write_u32_be v)). by apply (read_u32_be_at []). Qed.

Lemma lease_options_applied kind l : lease_ok l -> apply_options no_options (lease_options kind l) = Some (lease_parsed kind l).
Proof.
  intros [(W1 & W2 & W3 & W4 & W5 & W6) _ _ _ _ _ _]. unfold lease_options, apply_options, dhcp_u32_option, parse_dhcp_option.
  change (size [kind]) with 1. change (rd [kind] 0) with (Some kind).
  rewrite !read_written by done. reflexivity.
Qed.

Lemma server_reply_parsed kind id m l :
  mac_ok m -> u32_ok id -> lease_ok l ->
  parse_dhcp_options (server_reply kind id m l) = Some (Some (lease_parsed kind l)).
Proof.
  intros Hm Hid Hl. pose proof (size_server_reply kind id m l Hm) as Hs.
  destruct (server_reply_fields kind id m l Hm Hid) as (_ & _ & _ & _ & _ & _ & Fc); [apply Hl|].
  unfold parse_dhcp_options. rewrite (proj2 (Z.ltb_ge _ _)) by (net_consts; lia). rewrite Fc, some_bind.
  change (negb (DHCP_MAGIC_COOKIE =? DHCP_MAGIC_COOKIE)) with false. cbv iota.
  assert (E0 : DHCP_FIXED_SIZE = size (server_header id m (lease_ip l))) by (by rewrite size_server_header).
  rewrite E0. unfold server_reply at 2. rewrite parse_loop_spec.
  - by rewrite (lease_options_applied kind l Hl).
  - unfold lease_options. repeat (constructor; [split_and!; done|]). constructor.
  - unfold size in Hs. cbn [length lease_options]. lia.
Qed.

(** ** The handshake *)

(** What the messages of the client do not change. *)
Record same_client (s' s : net_stack) : Prop := SameClient {
  sc_link : link s' = link s; sc_mac : mac s' = mac s; sc_ipv4 : ipv4 s' = ipv4 s;
  sc_time : current_time_ms s' = current_time_ms s; sc_dhcp : dhcp_core (dhcp s') = dhcp_core (dhcp s) }.

Lemma dhcp_send_run {W} (E : net_env W) (HE : env_ok E) t b s w :
  net_ok s -> byte_ok t ->
  exists r s' w', dhcp_send_message E t b (s, w) = Some (r, (s', w')) /\ net_ok s' /\ same_client s' s.
Proof.
  intros Hs Ht. destruct (nwp_run _ _ _ (dhcp_message_keeps E t b Ht (s, w) Hs)) as (r & [s' w'] & Er & Hs' & _).
  exists r, s', w'. split; [done|]. split; [done|].
  assert (Hp : forall {B} (g : net_stack -> B), (forall v s, g (set_stats v s) = g s) ->
            (forall v s, g (set_next_ipv4_id v s) = g s) -> (forall v s, g (set_pending_ipv4 v s) = g s) ->
            (forall f s, (forall c, dhcp_core (f c) = dhcp_core c) -> g (upd_dhcp f s) = g s) -> g s' = g s).
  { intros B g H1 H2 H3 H4. exact (dhcp_send_preserves E g H1 H2 H3 t b H4 _ _ _ Er). }
  constructor.
  - by apply (Hp _ link).
  - by apply (Hp _ mac).
  - by apply (Hp _ ipv4).
  - by apply (Hp _ current_time_ms).
  - apply (Hp _ (fun s => dhcp_core (dhcp s))); try done. intros f x Hf. apply Hf.
Qed.

(** A field of the client that a message does not change. *)
Lemma core_field {B} (f : net_dhcp_client -> B) c c' :
  dhcp_core c' = dhcp_core c -> (forall c, f (dhcp_core c) = f c) -> f c' = f c.
Proof. intros Hc Hf. by rewrite <- (Hf c'), <- (Hf c), Hc. Qed.

Lemma dhcp_started {W} (E : net_env W) (HE : env_ok E) s w id :
  net_ok s -> has_send (link s) = true -> u32_ok id -> id <> 0 ->
  exists s1 w1, net_dhcp_start E id (s, w) = Some (true, (s1, w1)) /\ net_ok s1 /\ mac s1 = mac s /\
    ipv4 s1 = zero_config /\ dhcp_state (dhcp s1) = NET_DHCP_DISCOVERING /\ dhcp_transaction_id (dhcp s1) = id.
Proof.
  intros Hs Hl Hid H0. unfold net_dhcp_start. nm. rewrite Hl. cbn [negb]. nm. rewrite (proj2 (Z.eqb_neq id 0)) by done.
  set (c := dhcp_reset_offer _). set (s0 := set_dhcp c (net_clear_ipv4 s)).
  assert (H0' : net_ok s0) by (apply ok_set_dhcp; [by apply clear_ipv4_ok|by constructor]).
  destruct (dhcp_send_run E HE DHCP_MESSAGE_DISCOVER false s0 w H0' ltac:(done)) as (r & s1 & w1 & Er & H1 & [S1 S2 S3 S4 S5]).
  exists s1, w1. rewrite (nm_bind _ _ _ _ _ Er). split; [done|]. split; [done|].
  assert (Ec : forall {B} (g : net_stack -> B), g s0 = g (set_dhcp c (net_clear_ipv4 s))) by done.
  assert (Ecl : mac s0 = mac s /\ ipv4 s0 = zero_config) by (unfold s0, net_clear_ipv4; cbv zeta; by destruct (bool_decide _)).
  destruct Ecl as [Em Ei]. rewrite S2, S3. split; [exact Em|]. split; [exact Ei|].
  split; [exact (core_field dhcp_state _ _ S5 (fun _ => eq_refl))|exact (core_field dhcp_transaction_id _ _ S5 (fun _ => eq_refl))].
Qed.

(** An offer is taken up. *)
Lemma dhcp_offered {W} (E : net_env W) (HE : env_ok E) s w src l :
  net_ok s -> lease_ok l -> dhcp_state (dhcp s) = NET_DHCP_DISCOVERING ->
  exists s2 w2, dhcp_receive E src (server_reply DHCP_MESSAGE_OFFER (dhcp_transaction_id (dhcp s)) (mac s) l) (s, w) =
      Some (true, (s2, w2)) /\ net_ok s2 /\ same_client s2 (upd_dhcp (accept_offer (lease_parsed DHCP_MESSAGE_OFFER l) (lease_ip l) (lease_server l)) s).
Proof.
  intros Hs Hl Hst. pose proof (ok_mac _ Hs) as Hm. pose proof (proj1 (dhcp_ids _ (ok_dhcp _ Hs))) as Hid.
  destruct (lk_words _ Hl) as (W1 & W2 & _). unfold dhcp_receive. nm.
  rewrite (nm_lift _ _ _ _ (server_reply_matches DHCP_MESSAGE_OFFER l s Hm Hid W2 ltac:(by rewrite Hst))). cbn [negb].
  rewrite (nm_lift _ _ _ _ (server_reply_parsed DHCP_MESSAGE_OFFER _ (mac s) l Hm Hid Hl)).
  destruct (server_reply_fields DHCP_MESSAGE_OFFER _ (mac s) l Hm Hid W2) as (_ & _ & _ & _ & _ & F16 & _).
  rewrite (nm_lift _ _ _ _ F16). cbv zeta. change (default 0 _) with DHCP_MESSAGE_OFFER.
  change (default src _) with (lease_server l). rewrite Hst, (lk_ip _ Hl), (lk_server _ Hl). rewrite (bool_decide_true (NET_DHCP_DISCOVERING = _)) by done.
  change (DHCP_MESSAGE_OFFER =? DHCP_MESSAGE_OFFER) with true. cbn [andb]. nm.
  set (s1 := upd_dhcp (accept_offer _ _ _) s).
  assert (H1 : net_ok s1).
  { apply ok_set_dhcp; [done|]. apply accept_offer_ok; [|done|done|apply Hs].
    pose proof (server_reply_bytes DHCP_MESSAGE_OFFER (dhcp_transaction_id (dhcp s)) (mac s) l Hm ltac:(done)) as Hb.
    destruct (parse_options_safe _ Hb) as (r & Er & Hr). rewrite server_reply_parsed in Er by done. injection Er as <-. by apply Hr. }
  destruct (dhcp_send_run E HE DHCP_MESSAGE_REQUEST false s1 w H1 ltac:(done)) as (r & s2 & w2 & Er & H2 & Hc).
  exists s2, w2. rewrite (nm_bind _ _ _ _ _ Er). done.
Qed.

Lemma configure_rest c s :
  ipv4 (net_configure_ipv4 c s) = c /\ dhcp (net_configure_ipv4 c s) = dhcp s /\
  current_time_ms (net_configure_ipv4 c s) = current_time_ms s.
Proof. unfold net_configure_ipv4. cbv zeta. by destruct (_ || _), (_ || _). Qed.

(** The times of a lease whose server names none: half of it, and seven eighths. *)
Lemma ack_times_default o c :
  opt_renewal_time o = None -> opt_rebind_time o = None -> u32_ok (lease_seconds c) -> lease_seconds c <> 0 ->
  let c' := ack_times o c in
  lease_seconds c' = lease_seconds c /\ renewal_seconds c' = lease_seconds c / 2 /\
  rebind_seconds c' = lease_seconds c * 7 / 8.
Proof.
  intros Hr Hb Hu H0. cbv zeta. unfold ack_times, lease_times. rewrite Hr, Hb. cbv zeta. cbn [from_option].
  set (n := lease_seconds c) in *. unfold u32_ok in Hu. net_simpl. fold n.
  pose proof (Z.div_pos (n * 7) 8 ltac:(lia) ltac:(lia)). pose proof (Z.div_lt_upper_bound (n * 7) 8 n ltac:(lia) ltac:(lia)).
  assert (Hh : n / 2 < n) by (apply Z.div_lt; lia).
  rewrite (u64_small (n * 7)) by (unfold u64_ok; lia). rewrite u32_small by (unfold u32_ok; lia).
  rewrite (proj2 (Z.leb_gt n (n / 2))) by lia.
  net_simpl. fold n. destruct (_ || _); net_simpl; fold n; rewrite ?u64_small, ?u32_small by (unfold u64_ok, u32_ok; lia); auto.
Qed.

(** The acknowledgement of the same lease binds it. *)
Lemma dhcp_acknowledged {W} (E : net_env W) s w src l :
  net_ok s -> lease_ok l -> dhcp_state (dhcp s) = NET_DHCP_REQUESTING -> server_ip (dhcp s) = lease_server l ->
  exists s3, dhcp_receive E src (server_reply DHCP_MESSAGE_ACK (dhcp_transaction_id (dhcp s)) (mac s) l) (s, w) =
      Some (true, (s3, w)) /\ dhcp_state (dhcp s3) = NET_DHCP_BOUND /\
    ipv4 s3 = NetIpv4Config (lease_ip l) (lease_mask l) (lease_router l) (lease_resolver l) /\
    lease_seconds (dhcp s3) = lease_time l /\ renewal_seconds (dhcp s3) = lease_time l / 2 /\
    rebind_seconds (dhcp s3) = lease_time l * 7 / 8 /\ lease_started_ms (dhcp s3) = current_time_ms s /\
    dhcp_next_action_ms (dhcp s3) = saturating_add_u64 (current_time_ms s) (lease_time l / 2 * 1000).
Proof.
  intros Hs Hl Hst Hsrv. pose proof (ok_mac _ Hs) as Hm. pose proof (proj1 (dhcp_ids _ (ok_dhcp _ Hs))) as Hid.
  destruct (lk_words _ Hl) as (W1 & W2 & W3 & W4 & W5 & W6). unfold dhcp_receive. nm.
  rewrite (nm_lift _ _ _ _ (server_reply_matches DHCP_MESSAGE_ACK l s Hm Hid W2 ltac:(by rewrite Hst))). cbn [negb].
  rewrite (nm_lift _ _ _ _ (server_reply_parsed DHCP_MESSAGE_ACK _ (mac s) l Hm Hid Hl)).
  destruct (server_reply_fields DHCP_MESSAGE_ACK _ (mac s) l Hm Hid W2) as (_ & _ & _ & _ & _ & F16 & _).
  rewrite (nm_lift _ _ _ _ F16). cbv zeta. change (default 0 _) with DHCP_MESSAGE_ACK. change (default src _) with (lease_server l).
  assert (Hren : is_renewing (dhcp s) = true) by (unfold is_renewing; by rewrite Hst).
  rewrite Hren. change (DHCP_MESSAGE_ACK =? DHCP_MESSAGE_OFFER) with false. change (DHCP_MESSAGE_ACK =? DHCP_MESSAGE_NAK) with false.
  change (DHCP_MESSAGE_ACK =? DHCP_MESSAGE_ACK) with true. cbn [andb orb negb].
  unfold dhcp_receive_ack. nm. cbn [opt_server_identifier lease_parsed].
  rewrite Hsrv, Z.eqb_refl, andb_false_r.
  assert (Ea : ack_address s (lease_ip l) = lease_ip l) by (unfold ack_address; by rewrite !(lk_ip _ Hl)).
  rewrite Ea, (lk_ip _ Hl). cbn [negb]. nm.
  set (c1 := ack_lease (lease_parsed DHCP_MESSAGE_ACK l) (lease_server l) (dhcp s)).
  assert (L1 : lease_seconds c1 = lease_time l) by done.
  change (lease_seconds (dhcp (upd_dhcp (ack_lease (lease_parsed DHCP_MESSAGE_ACK l) (lease_server l)) s))) with (lease_time l).
  rewrite (proj2 (Z.eqb_neq (lease_time l) 0)) by (apply lk_time; done). nm.
  assert (Econf : ack_configuration (lease_parsed DHCP_MESSAGE_ACK l) (dhcp s) (lease_ip l) =
            NetIpv4Config (lease_ip l) (lease_mask l) (lease_router l) (lease_resolver l)).
  { unfold ack_configuration. change (default _ (opt_subnet_mask _)) with (lease_mask l).
    change (default _ (opt_router _)) with (lease_router l). change (default _ (opt_dns _)) with (lease_resolver l).
    cbv zeta. by rewrite (lk_mask _ Hl), (lk_router _ Hl), (lk_resolver _ Hl). }
  rewrite Econf. set (conf := NetIpv4Config _ _ _ _).
  set (s2 := upd_dhcp (ack_times _) (upd_dhcp (ack_lease _ _) s)).
  assert (Etimes : lease_seconds (dhcp s2) = lease_time l /\ renewal_seconds (dhcp s2) = lease_time l / 2 /\
            rebind_seconds (dhcp s2) = lease_time l * 7 / 8).
  { change (dhcp s2) with (ack_times (lease_parsed DHCP_MESSAGE_ACK l) c1). rewrite <- L1.
    apply ack_times_default; [done|done|by rewrite L1|rewrite L1; by apply lk_time]. }
  destruct Etimes as (T1 & T2 & T3).
  destruct (configure_rest conf s2) as (C1 & C2 & C3).
  eexists. split; [reflexivity|]. unfold bind_lease. net_simpl.
  rewrite C1, C2, C3, T1, T2, T3.
  rewrite seconds_to_ms_small by (apply half_ok; done). done.
Qed.

(** ** A lease is given up, and what a packet can do *)

(** The client gives its lease up and starts again, where the driver can send. *)
Lemma dhcp_restarted {W} (E : net_env W) (HE : env_ok E) s w :
  net_ok s ->
  exists s' w', dhcp_restart E (s, w) = Some (tt, (s', w')) /\ net_ok s' /\
    if has_send (link s) then ipv4 s' = zero_config /\ dhcp_state (dhcp s') = NET_DHCP_DISCOVERING
    else s' = s /\ w' = w.
Proof.
  intros Hs. unfold dhcp_restart. nm. set (id := if _ =? 0 then 1 else _).
  assert (Hid : u32_ok id /\ id <> 0).
  { unfold id. destruct (Z.eqb_spec (u32 (dhcp_transaction_id (dhcp s) + 1)) 0); [done|]. split; [apply u32_range|done]. }
  destruct (has_send (link s)) eqn:El.
  - destruct (dhcp_started E HE s w id Hs El) as (s1 & w1 & Er & H1 & _ & H2 & H3 & _); [apply Hid..|].
    exists s1, w1. rewrite (nm_bind _ _ _ _ _ Er). done.
  - assert (Er : net_dhcp_start E id (s, w) = Some (false, (s, w))) by (unfold net_dhcp_start; nm; by rewrite El).
    exists s, w. rewrite (nm_bind _ _ _ _ _ Er). done.
Qed.

(** A configuration that a server may give. *)
Definition config_usable (c : net_ipv4_config) : Prop :=
  ipv4_is_usable_unicast (address c) = true /\ ipv4_netmask_is_valid (netmask c) = true /\
  (gateway c = 0 \/ ipv4_is_usable_unicast (gateway c) = true) /\
  (dns_server c = 0 \/ ipv4_is_usable_unicast (dns_server c) = true).

(** A lease in force, and its times. *)
Definition lease_bound (c : net_dhcp_client) : Prop :=
  dhcp_state c = NET_DHCP_BOUND /\ lease_seconds c <> 0 /\ renewal_seconds c < lease_seconds c /\
  rebind_seconds c < lease_seconds c.

Lemma ack_configuration_usable o c ip : ipv4_is_usable_unicast ip = true -> config_usable (ack_configuration o c ip).
Proof.
  intros Hip. unfold config_usable, ack_configuration. cbv zeta. cbn [address netmask gateway dns_server].
  assert (Hz : forall a, (if ipv4_is_usable_unicast a then a else 0) = 0 \/
            ipv4_is_usable_unicast (if ipv4_is_usable_unicast a then a else 0) = true).
  { intros a. destruct (ipv4_is_usable_unicast a) eqn:Ea; rewrite ?Ea; auto. }
  split; [done|]. split; [|split; apply Hz].
  match goal with |- ipv4_netmask_is_valid (if ?b then _ else _) = true => by destruct b eqn:Em end.
Qed.

(** An acknowledgement is turned down, without a word, or gives a usable configuration for a bounded time.  The
    client answers neither way. *)
Lemma dhcp_ack_run {W} (o : dhcp_options) offered server s (w : W) :
  options_ok o -> u32_ok offered -> u32_ok server -> net_ok s -> is_renewing (dhcp s) = true ->
  exists b s', dhcp_receive_ack o offered server (s, w) = Some (b, (s', w)) /\ net_ok s' /\
    (if b then lease_bound (dhcp s') /\ config_usable (ipv4 s') /\
       (server_ip (dhcp s) = 0 \/ dhcp_state (dhcp s) = NET_DHCP_REBINDING \/
        default (server_ip (dhcp s)) (opt_server_identifier o) = server_ip (dhcp s))
     else ipv4 s' = ipv4 s /\ dhcp_state (dhcp s') = dhcp_state (dhcp s)).
Proof.
  intros Ho Hoff Hv Hs Hr.
  destruct (nwp_run _ _ _ (dhcp_ack_keeps (W := W) o offered server Ho Hoff Hv (s, w) Hs Hr)) as (b & [s' w'] & Er & Hs').
  cbn [fst] in Hs'. exists b, s'. assert (Hst : dhcp_state (dhcp s) <> NET_DHCP_BOUND).
  { unfold is_renewing in Hr. intros Hb. by rewrite Hb in Hr. }
  revert Er. unfold dhcp_receive_ack. nm. destruct (negb (bool_decide _) && _ && _) eqn:Eo; [intros [= <- <- <-]; auto|].
  destruct (ipv4_is_usable_unicast (ack_address s offered)) eqn:Ea; cbn [negb]; [|intros [= <- <- <-]; auto]. nm.
  set (s1 := upd_dhcp (ack_lease o server) s). change (dhcp s1) with (ack_lease o server (dhcp s)).
  destruct (Z.eqb_spec (lease_seconds (ack_lease o server (dhcp s))) 0) as [E0|E0]; [intros [= <- <- <-]; auto|]. nm.
  set (s2 := upd_dhcp (ack_times o) s1). destruct (configure_rest (ack_configuration o (dhcp s) (ack_address s offered)) s2) as (C1 & C2 & C3).
  destruct (ack_times_spec o (ack_lease o server (dhcp s)) Ho) as (_ & T2 & T3 & T4 & T5);
    [apply ack_lease_ok; (done || apply Hs)|done|done|].
  intros [= <- <- <-]. split; [done|]. split; [done|]. split; [|split].
  - unfold lease_bound, bind_lease. net_simpl. rewrite C2. change (dhcp s2) with (ack_times o (ack_lease o server (dhcp s))).
    rewrite T2. auto.
  - net_simpl. rewrite C1. by apply ack_configuration_usable.
  - destruct (bool_decide (dhcp_state (dhcp s) = NET_DHCP_REBINDING)) eqn:Eb; [right; left; by apply bool_decide_eq_true in Eb|].
    cbn [negb andb] in Eo. destruct (Z.eqb_spec (server_ip (dhcp s)) 0); [auto|]. cbn [negb andb] in Eo. right. right.
    destruct (opt_server_identifier o) as [i|]; [|done]. by apply negb_false_iff, Z.eqb_eq in Eo.
Qed.

(** ** The timer *)

Definition lease_running (st : net_dhcp_state) : bool :=
  match st with NET_DHCP_BOUND | NET_DHCP_RENEWING | NET_DHCP_REBINDING => true | _ => false end.

(** The state a lease that still runs is in after a tick: one step at most. *)
Definition lease_phase (c : net_dhcp_client) (elapsed : Z) : net_dhcp_state :=
  match dhcp_state c with
  | NET_DHCP_BOUND => if seconds_to_ms (renewal_seconds c) <=? elapsed then NET_DHCP_RENEWING else NET_DHCP_BOUND
  | NET_DHCP_RENEWING => if seconds_to_ms (rebind_seconds c) <=? elapsed then NET_DHCP_REBINDING else NET_DHCP_RENEWING
  | st => st
  end.

(** What a message of the timer leaves of the lease. *)
Lemma dhcp_resent {W} (E : net_env W) (HE : env_ok E) t b s w :
  net_ok s -> byte_ok t ->
  exists r s' w', dhcp_send_message E t b (s, w) = Some (r, (s', w')) /\ net_ok s' /\ ipv4 s' = ipv4 s /\
    lease_elapsed s' = lease_elapsed s /\ lease_seconds (dhcp s') = lease_seconds (dhcp s) /\
    dhcp_state (dhcp s') = dhcp_state (dhcp s).
Proof.
  intros Hs Ht. destruct (dhcp_send_run E HE t b s w Hs Ht) as (r & s' & w' & Er & H' & [_ _ C1 C2 C3]).
  exists r, s', w'. split; [done|]. split; [done|]. split; [exact C1|].
  assert (Hst' : lease_started_ms (dhcp s') = lease_started_ms (dhcp s)) by exact (core_field lease_started_ms _ _ C3 (fun _ => eq_refl)).
  split; [unfold lease_elapsed; rewrite Hst', C2; done|].
  split; [exact (core_field lease_seconds _ _ C3 (fun _ => eq_refl))|exact (core_field dhcp_state _ _ C3 (fun _ => eq_refl))].
Qed.

(** A message with the client's state set first. *)
Lemma dhcp_advanced {W} (E : net_env W) (HE : env_ok E) st s w :
  net_ok s -> st <> NET_DHCP_BOUND ->
  exists s' w', (mods (upd_dhcp (fun c => set_dhcp_attempts 0 (set_dhcp_state st c)));;
                 dhcp_send_message E DHCP_MESSAGE_REQUEST true;; mret tt) (s, w) = Some (tt, (s', w')) /\
    net_ok s' /\ ipv4 s' = ipv4 s /\ lease_elapsed s' = lease_elapsed s /\
    lease_seconds (dhcp s') = lease_seconds (dhcp s) /\ dhcp_state (dhcp s') = st.
Proof.
  intros Hs Hst. nm. set (s1 := upd_dhcp _ s).
  assert (H1 : net_ok s1) by (apply ok_set_dhcp; [done|]; by destruct (ok_dhcp _ Hs)).
  destruct (dhcp_resent E HE DHCP_MESSAGE_REQUEST true s1 w H1 ltac:(done)) as (r & s' & w' & Er & H').
  exists s', w'. rewrite (nm_bind _ _ _ _ _ Er). done.
Qed.

(** A state that stays sends its message again when it is due. *)
Lemma dhcp_retried {W} (E : net_env W) (HE : env_ok E) (due : bool) t b s w :
  net_ok s -> byte_ok t ->
  exists s' w', (if negb due then mret tt else dhcp_send_message E t b;; mret tt) (s, w) = Some (tt, (s', w')) /\
    net_ok s' /\ ipv4 s' = ipv4 s /\ lease_elapsed s' = lease_elapsed s /\
    lease_seconds (dhcp s') = lease_seconds (dhcp s) /\ dhcp_state (dhcp s') = dhcp_state (dhcp s).
Proof.
  intros Hs Ht. destruct due; [|by exists s, w].
  destruct (dhcp_resent E HE t b s w Hs Ht) as (r & s' & w' & Er & H'). exists s', w'. cbn [negb].
  rewrite (nm_bind _ _ _ _ _ Er). done.
Qed.
