(* ===== verification/NetClaims.v ===== *)
(** * kernel/net.c: a link between two stacks, for concrete runs

    The driver appends every frame to a list and delivers nothing by itself; the handlers do nothing.  The
    stacks [alice] and [bob] have addresses of one network; [bob] listens on a port.

    Then the properties of the stack. *)

From S2P Require Import Prelude TcpSegment NetState NetBytes NetSend NetDhcp NetDns NetInput NetParse NetReceive NetRun NetDatagram NetNames NetLease.

Open Scope net_scope.

Definition wire_send (frame : list Z) (w : list (list Z)) : list (list Z) := w ++ [frame].

Definition wire_env : net_env (list (list Z)) :=
  NetEnv _ (fun frame w => (true, wire_send frame w)) (fun buffer w => (buffer, 0, w)) (fun w => (1000, w))
    (fun _ _ _ st => st) (fun _ _ _ _ _ st => st).

Definition link_ops : net_link_ops := NetLinkOps true true true.
Definition alice_mac : list Z := [0x02; 0; 0; 0; 0; 0x0A].
Definition bob_mac : list Z := [0x02; 0; 0; 0; 0; 0x0B].
Definition configured (m : list Z) (ip : Z) : net_stack :=
  net_configure_ipv4 (NetIpv4Config ip (NET_IPV4 255 255 255 0) (NET_IPV4 10 0 0 254) (NET_IPV4 10 0 0 53))
    (initial_stack link_ops m 1000).
Definition alice : net_stack := configured alice_mac (NET_IPV4 10 0 0 1).
Definition bob : net_stack := (net_udp_bind 7 (Some 1) 2 (configured bob_mac (NET_IPV4 10 0 0 2))).2.

Lemma wire_env_ok : env_ok wire_env.
Proof. constructor; try done. Qed.

Lemma configured_ok m ip : mac_ok m -> u32_ok ip -> net_ok (configured m ip).
Proof. intros Hm Hip. apply configure_ok; [by apply initial_ok|by constructor]. Qed.

Lemma alice_ok : net_ok alice.
Proof. apply configured_ok; [|done]. split; [done|by apply bytes_okb_true]. Qed.

Lemma bob_ok : net_ok bob.
Proof. apply bind_ok. apply configured_ok; [|done]. split; [done|by apply bytes_okb_true]. Qed.

Lemma alice_bob : neighbours alice bob.
Proof. by constructor; try (split; [apply alice_ok|apply bob_ok]). Qed.

(** A name, a query for it, and a reply that gives its address through an alias: [a.b] is [c.b], which is 10.0.0.9. *)
Definition host_name : list Z := [97; DOT; 98; 0].
Definition stored_name : list Z := host_name ++ zeros 250.
Definition asking : net_stack :=
  match net_dns_query wire_env (Some host_name) 7 (alice, []) with Some (_, (s, _)) => s | None => alice end.
Definition dns_reply : list Z :=
  [0; 7; 0x81; 0x80; 0; 1; 0; 2; 0; 0; 0; 0] ++ [1; 97; 1; 98; 0; 0; 1; 0; 1] ++
  [0xC0; 12; 0; 5; 0; 1; 0; 0; 0; 30; 0; 4; 1; 99; 0xC0; 14] ++ [0xC0; 33; 0; 1; 0; 1; 0; 0; 1; 44; 0; 4; 10; 0; 0; 9].

Lemma asking_ok : net_ok asking.
Proof.
  assert (Hn : name_arg_ok (Some host_name)) by (by apply bytes_okb_true).
  pose proof (dns_query_keeps wire_env (Some host_name) 7 Hn ltac:(done) (alice, []) alice_ok) as K.
  destruct (nwp_run _ _ _ K) as (b & [s' w'] & Er & Hs & _). unfold asking. rewrite Er. exact Hs.
Qed.

(** * kernel/net.c: what the stack promises *)

Open Scope net_scope.

(** C20: Start a stack on any hardware address it accepts and call its public functions in any order,
    with any frames, datagrams, names and times, over any driver and handlers that themselves leave the
    stack well formed.  Every call returns, no access leaves a buffer, and the stack stays well formed: one
    hardware address per cached address, one handler per port, one cache entry per name, all of them usable. *)
Theorem net_histories_safe {W} (E : net_env W) l m w s w1 calls :
  env_ok E -> mac_ok m -> net_init E (Some l) (Some m) w = (Some s, w1) -> Forall call_ok calls ->
  exists s2 w2, run_calls E calls (s, w1) = Some (tt, (s2, w2)) /\ net_ok s2.
Proof.
  intros HE Hm Hinit Hcalls. assert (Hs : net_ok s).
  { unfold net_init in Hinit. destruct (_ || _); [done|]. destruct (has_now_ms l).
    - pose proof (env_now_ok E HE w) as Ht. destruct (env_now_ms E w) as [now w2]. cbn [fst] in Ht.
      apply pair_eq in Hinit as [Hi _]. apply (inj Some) in Hi as <-. by apply initial_ok.
    - apply pair_eq in Hinit as [Hi _]. apply (inj Some) in Hi as <-. by apply initial_ok. }
  destruct (nwp_run _ _ _ (run_calls_keeps E HE calls Hcalls (s, w1) Hs)) as ([] & [s2 w2] & Er & Hok & _).
  by exists s2, w2.
Qed.

(** C21: First contact of two stacks on one link.  The sender does not know the receiver's hardware
    address: its datagram is queued and a request broadcast.  The receiver learns the sender and replies; the
    reply releases the queued datagram; and the receiver hands exactly the bytes that were sent to the handler
    of the port, with the right addresses and ports.  Both caches then know the other side. *)
Theorem udp_first_contact {W} (E : net_env W) (out : list Z -> W -> W) a b dp sp data i h context :
  (forall frame w, env_send E frame w = (true, out frame w)) ->
  neighbours a b -> net_arp_lookup a (address (ipv4 b)) = None ->
  port_ok dp -> dp <> 0 -> port_ok sp -> sp <> 0 -> bytes_ok data -> size data <= NET_UDP_PAYLOAD_MAX ->
  (dp = DHCP_CLIENT_PORT -> sp <> DHCP_SERVER_PORT) -> (dp = dns_source_port (dns b) -> sp <> DNS_SERVER_PORT) ->
  list_find (binding_matches dp) (udp_bindings b) = Some (i, NetUdpBinding dp (Some h) context) ->
  let from := address (ipv4 a) in let to := address (ipv4 b) in
  exists request reply frame a1 b1 a2 b2,
    (forall w, net_udp_send E to dp sp data (a, w) = Some (NET_SEND_QUEUED, (a1, out request w))) /\
    (forall w, net_input E (Some request) (b, w) = Some (true, (b1, out reply w))) /\
    (forall w, net_input E (Some reply) (a1, w) = Some (true, (a2, out frame w))) /\
    (forall w, net_input E (Some frame) (b1, w) =
       Some (true, env_udp E h context (NetUdpDatagram from to sp dp data) (b2, w))) /\
    net_arp_lookup a2 to = Some (mac b) /\ net_arp_lookup b1 from = Some (mac a) /\
    pending_valid (pending_ipv4 a2) = false.
Proof.
  intros Hsend Hn Hl Hdp Hdp0 Hsp Hsp0 Hb Hs Hdhcp Hdns Hbind. cbv zeta.
  destruct (udp_send_queued E out Hsend a b dp sp data Hn Hl Hdp0 Hsp0 Hb Hs) as (copied & Hq & Hsub).
  destruct (neighbour_request E out Hsend a b Hn) as (b1 & Hreq & Hsame & Hlearnt).
  destruct (neighbour_reply E out Hsend a b copied (8 + size data) _ Hn Hsub) as (a2 & id & Hrep & Hknown & Hdone).
  { rewrite size_udp_datagram. net_consts. lia. }
  destruct (neighbour_delivery E a b b1 dp sp data i h context id) as (b2 & Hdel); try done.
  eexists _, _, _, _, b1, a2, b2. split; [exact Hq|]. split; [exact Hreq|]. split; [exact Hrep|]. auto.
Qed.

(** C22: A datagram resolves a query only if it comes from the configured resolver, to the port and with the
    id of the query that is pending, repeats its question, and its answer section leads from the name over at most
    eight aliases to a usable address; the time it is kept is no longer than that of any record this rests on.  A
    datagram that is not such a reply changes nothing at all. *)
Theorem dns_resolution_justified src sp dp message s b s' :
  bytes_ok message -> dns_receive src sp dp message s = Some (b, s') ->
  (b = false /\ s' = s) \/
  (b = true /\ dns_state (dns s) = NET_DNS_PENDING /\ src = dns_server (ipv4 s) /\ sp = DNS_SERVER_PORT /\
   dp = dns_source_port (dns s) /\ read_u16_be message 0 = Some (dns_transaction_id (dns s)) /\
   (dns_state (dns s') = NET_DNS_RESOLVED ->
    exists offset n hops, dns_question message (dns_name (dns s)) = Some (Some offset) /\ read_u16_be message 6 = Some n /\
      (hops <= 8)%nat /\
      answers message offset (Z.to_nat n) hops (dns_name (dns s)) (result_address (dns s')) (dns_ttl_seconds (dns s')))).
Proof.
  intros Hm H. unfold dns_receive in H. cbv zeta in H.
  destruct (dns_reply_matches s src sp dp message) as [[|]|] eqn:Ematch; [| |done]; cbn [mbind option_bind negb] in H.
  2: { injection H as <- <-. by left. }
  right. apply reply_matches_inv in Ematch as (M1 & M2 & M3 & M4 & M5).
  assert (Hgoal : b = true /\ (dns_state (dns s') = NET_DNS_RESOLVED ->
    exists offset n hops, dns_question message (dns_name (dns s)) = Some (Some offset) /\ read_u16_be message 6 = Some n /\
      (hops <= 8)%nat /\
      answers message offset (Z.to_nat n) hops (dns_name (dns s)) (result_address (dns s')) (dns_ttl_seconds (dns s')))).
  { destruct (read_u16_be message 2) as [flags|]; [|done]. cbn [mbind option_bind] in H.
    destruct (_ || _); [by injection H as <- <-|].
    destruct (read_u16_be message 4) as [qd|]; [|done]. destruct (read_u16_be message 6) as [an|]; [|done].
    destruct (read_u16_be message 8) as [ns|]; [|done]. destruct (read_u16_be message 10) as [ar|]; [|done].
    cbn [mbind option_bind] in H. destruct (_ || _); [by injection H as <- <-|].
    set (s1 := upd_dns _ s) in H. change (dns_name (dns s1)) with (dns_name (dns s)) in H.
    destruct (dns_question message (dns_name (dns s))) as [[o|]|] eqn:Eq; [|by injection H as <- <-|done].
    cbn [mbind option_bind] in H.
    destruct (dns_validate_record_sections message o an ns ar) as [[a|]|]; [|by injection H as <- <-|done].
    cbn [mbind option_bind] in H. destruct (dns_conclude message o a an ns s1) as [s2|] eqn:Ec; [|done].
    cbn [mbind option_bind] in H. injection H as <- <-. split; [done|]. intros Hres.
    destruct (question_safe message (dns_name (dns s)) Hm) as (r & Er & Ho). rewrite Eq in Er. injection Er as <-.
    destruct (Ho o eq_refl) as [Ho0 _].
    destruct (conclude_resolved message o a an ns s1 s2 Hm Ho0 Ec Hres) as (hops & Hh & Ha).
    { change (dns_state (dns s) <> NET_DNS_RESOLVED). by rewrite M1. }
    exists o, an, hops. auto. }
  destruct Hgoal as [-> Hgoal]. auto 10.
Qed.

(** C23: Every name that validation accepts can be sent, whole: the query is built, its question is the name
    that was validated, and the parser of the stack reads that name back from it and stops at its end.  The name
    accepted is what the caller gave, up to one dot at the end. *)
Theorem dns_query_names_back name v c :
  dns_validate_and_copy_name zero_name (Some name) = Some (Some v) -> bytes_ok name ->
  dns_name c = v -> port_ok (dns_transaction_id c) ->
  exists q, dns_query_message c = Some (Some q) /\ size q <= DNS_QUERY_CAPACITY /\
    read_u16_be q 0 = Some (dns_transaction_id c) /\
    dns_expand_name q DNS_HEADER_SIZE = Some (Some (cstr v, size q - 4)) /\
    dns_question q v = Some (Some (size q)) /\
    (cstr name = cstr v \/ cstr name = cstr v ++ [DOT]).
Proof.
  intros Hval Hb Hc Hid. destruct (validate_sound name v Hval) as (Hl & Hch & Hs & Hname).
  assert (Hok : name_ok v).
  { destruct (validate_safe (Some name) Hb) as (r & Er & Hr). rewrite Hval in Er. injection Er as <-. by apply Hr. }
  assert (Eq : dns_query_message c = Some (Some (dns_query_bytes (dns_transaction_id c) (cstr v)))).
  { rewrite query_message_spec by (by rewrite Hc). by rewrite Hc. }
  set (q := dns_query_bytes (dns_transaction_id c) (cstr v)) in *.
  pose proof (query_expands (dns_transaction_id c) (cstr v) Hl Hs) as Hexp. fold q in Hexp.
  assert (Hsize : size q = DNS_HEADER_SIZE + size (encode (split [] (cstr v))) + 4).
  { unfold q, dns_query_bytes. rewrite !size_app. change (size (dns_header (dns_transaction_id c))) with 12. net_consts.
    change (size (write_u16_be 1)) with 2. lia. }
  assert (Henc : size (encode (split [] (cstr v))) = size (cstr v) + 2).
  { rewrite size_join, join_split by apply split_nonempty. done. }
  exists q. split; [exact Eq|]. split; [net_consts; lia|]. split; [|split; [|split]].
  - etransitivity; [|exact (f_equal Some (be_bytes_u16 _ Hid))]. reflexivity.
  - rewrite Hexp. do 3 f_equal. lia.
  - unfold dns_question. rewrite Hexp. cbn [try_bind fst snd]. cbv zeta.
    set (next := DNS_HEADER_SIZE + size (encode (split [] (cstr v)))) in *.
    rewrite (proj2 (Z.ltb_ge (size q) next)), (proj2 (Z.ltb_ge (size q - next) 4)) by lia.
    rewrite names_equal_cstr, cstr_cstr, names_equal_refl. cbn [negb orb].
    assert (Esplit : q = (dns_header (dns_transaction_id c) ++ encode (split [] (cstr v))) ++
              write_u16_be DNS_TYPE_A ++ write_u16_be DNS_CLASS_IN) by (unfold q, dns_query_bytes; by rewrite <- app_assoc).
    assert (En : next = size (dns_header (dns_transaction_id c) ++ encode (split [] (cstr v)))) by (by rewrite size_app).
    assert (R1 : read_u16_be q next = Some DNS_TYPE_A) by (rewrite En, Esplit; by apply read_u16_be_at).
    assert (R2 : read_u16_be q (next + 2) = Some DNS_CLASS_IN).
    { rewrite Esplit, app_assoc, <- (app_nil_r (write_u16_be DNS_CLASS_IN)).
      replace (next + 2) with (size ((dns_header (dns_transaction_id c) ++ encode (split [] (cstr v))) ++ write_u16_be DNS_TYPE_A))
        by (rewrite size_app, En; done). by apply read_u16_be_at. }
    rewrite R1, some_bind, R2, some_bind.
    change (negb (DNS_TYPE_A =? DNS_TYPE_A) || negb (DNS_CLASS_IN =? DNS_CLASS_IN)) with false. cbv iota.
    do 2 f_equal. lia.
  - exact Hname.
Qed.

(** A stored answer is given for every spelling of its name until its time is over, without a frame
    being sent, with the time that is left: never zero, never more than was stored.  From that moment on it is
    gone, and the query goes to the resolver. *)
Theorem dns_cache_answers {W} (E : net_env W) name ip ttl s s' q v id now w :
  net_ok s -> name_ok name -> u32_ok ip -> ipv4_is_usable_unicast ip = true -> u32_ok ttl -> ttl <> 0 ->
  Forall (fun e => last_used_ms e < UINT64_MAX) (dns_cache s) ->
  dns_cache_store name false ip 0 ttl s = Some s' ->
  dns_validate_and_copy_name zero_name (Some q) = Some (Some v) -> dns_names_equal v name = true ->
  u64_ok now -> current_time_ms s <= now ->
  let expires := saturating_add_u64 (current_time_ms s) (ttl * 1000) in
  let at_now := set_current_time_ms now s' in
  if now <? expires then
    exists s2, net_dns_query E (Some q) id (at_now, w) = Some (true, (s2, w)) /\
      dns_state (dns s2) = NET_DNS_RESOLVED /\ dns_name (dns s2) = v /\ result_address (dns s2) = ip /\
      dns_ttl_seconds (dns s2) = dns_cache_remaining_seconds expires now /\ 0 < dns_ttl_seconds (dns s2) <= ttl
  else
    dns_cache_find (dns_cache_expire at_now) v = None /\
    net_dns_query E (Some q) id (at_now, w) = start_query E v id (dns_cache_expire at_now, w).
Proof.
  intros Hs Hn Hip Hu Httl H0 Hused Hstore Hval Heq Hnow Hle. cbv zeta.
  destruct (store_entry _ _ _ _ _ _ Hs Hn Hip Httl H0 Hu Hused Hstore) as (Hs' & i & e & Ee & Ve & Ne & Ae & Me & Xe).
  set (expires := saturating_add_u64 (current_time_ms s) (ttl * 1000)) in *. set (at_now := set_current_time_ms now s').
  assert (Hmatch : dns_names_equal (cache_name e) v = true).
  { eapply names_equal_trans; [exact Me|]. by rewrite names_equal_sym. }
  pose proof (find_after_expire at_now i e v (ok_cache _ Hs') Ee Ve Hmatch) as Hfind.
  change (current_time_ms at_now) with now in Hfind. rewrite Xe in Hfind.
  assert (Hrun : net_dns_query E (Some q) id (at_now, w) =
            match dns_cache_find (dns_cache_expire at_now) v ≫= (fun i => e ← dns_cache (dns_cache_expire at_now) !! i; Some (i, e)) with
            | Some (i, e) =>
                let remaining := dns_cache_remaining_seconds (expires_ms e) now in
                if negb (remaining =? 0) then mods (answer_from_cache v i e remaining);; mret true else start_query E v id
            | None => start_query E v id
            end (dns_cache_expire at_now, w)).
  { unfold net_dns_query. rewrite (nm_lift _ _ _ _ Hval). nm. reflexivity. }
  rewrite Hrun. destruct (Z.ltb_spec now expires) as [Hlt|Hge].
  - rewrite (proj2 (Z.leb_gt expires now)) in Hfind by lia. rewrite Hfind. cbn [mbind option_bind].
    destruct (cache_find_Some _ _ _ Hfind) as (e' & Ee' & _).
    assert (e' = e) as ->.
    { unfold dns_cache_expire in Ee'. cbv zeta in Ee'. net_simpl in Ee'. rewrite list_lookup_fmap in Ee'.
      change (dns_cache at_now) with (dns_cache s') in Ee'. rewrite Ee in Ee'. cbn in Ee'. unfold cache_expired in Ee'.
      rewrite Xe, (proj2 (Z.leb_gt expires now)), andb_false_r in Ee' by done. by injection Ee'. }
    rewrite Ee'. cbn [mbind option_bind]. cbv zeta. rewrite Xe.
    pose proof (remaining_bounds now (current_time_ms s) ttl (ok_time _ Hs) Httl Hle Hlt) as Hrem. fold expires in Hrem.
    rewrite (proj2 (Z.eqb_neq _ 0)) by lia. cbn [negb]. nm.
    eexists. split; [reflexivity|]. unfold answer_from_cache. net_simpl. rewrite Ne, Ae. auto.
  - rewrite (proj2 (Z.leb_le expires now)) in Hfind by lia. rewrite Hfind. done.
Qed.

(** C24: A lease is acquired.  Over any driver, the client starts without an address; a server's offer makes
    it ask for that lease; the server's acknowledgement binds it: the stack then has exactly the address, mask,
    router and resolver of the server, for the server's time, to be renewed after half of it and rebound after seven
    eighths. *)
Theorem dhcp_lease_acquired {W} (E : net_env W) s w id src src' l :
  env_ok E -> net_ok s -> has_send (link s) = true -> u32_ok id -> id <> 0 -> lease_ok l ->
  exists s1 w1 s2 w2 s3,
    net_dhcp_start E id (s, w) = Some (true, (s1, w1)) /\
    dhcp_state (dhcp s1) = NET_DHCP_DISCOVERING /\ ipv4 s1 = zero_config /\
    dhcp_receive E src (server_reply DHCP_MESSAGE_OFFER id (mac s) l) (s1, w1) = Some (true, (s2, w2)) /\
    dhcp_state (dhcp s2) = NET_DHCP_REQUESTING /\ ipv4 s2 = zero_config /\
    dhcp_receive E src' (server_reply DHCP_MESSAGE_ACK id (mac s) l) (s2, w2) = Some (true, (s3, w2)) /\
    dhcp_state (dhcp s3) = NET_DHCP_BOUND /\
    ipv4 s3 = NetIpv4Config (lease_ip l) (lease_mask l) (lease_router l) (lease_resolver l) /\
    lease_seconds (dhcp s3) = lease_time l /\ renewal_seconds (dhcp s3) = lease_time l / 2 /\
    rebind_seconds (dhcp s3) = lease_time l * 7 / 8 /\ lease_started_ms (dhcp s3) = current_time_ms s2.
Proof.
  intros HE Hs Hlink Hid H0 Hl.
  destruct (dhcp_started E HE s w id Hs Hlink Hid H0) as (s1 & w1 & R1 & K1 & M1 & C1 & S1 & I1).
  destruct (dhcp_offered E HE s1 w1 src l K1 Hl S1) as (s2 & w2 & R2 & K2 & [_ M2 C2 T2 D2]).
  rewrite I1, M1 in R2.
  assert (S2 : dhcp_state (dhcp s2) = NET_DHCP_REQUESTING) by exact (core_field dhcp_state _ _ D2 (fun _ => eq_refl)).
  assert (I2 : dhcp_transaction_id (dhcp s2) = id) by (by rewrite (core_field dhcp_transaction_id _ _ D2 (fun _ => eq_refl))).
  assert (V2 : server_ip (dhcp s2) = lease_server l) by exact (core_field server_ip _ _ D2 (fun _ => eq_refl)).
  destruct (dhcp_acknowledged E s2 w2 src' l K2 Hl S2 V2) as (s3 & R3 & S3 & C3 & L3 & N3 & B3 & A3 & _).
  rewrite I2, M2 in R3. change (mac (upd_dhcp _ s1)) with (mac s1) in R3. rewrite M1 in R3.
  exists s1, w1, s2, w2, s3. rewrite C2. auto 20.
Qed.

(** C25: No packet, however forged, gives the stack an unusable configuration.  A DHCP packet that is not for
    this client and this exchange changes nothing; any other leaves the configuration alone, or ends it for a new
    start, or -- only an acknowledgement from the chosen server, or from any server while rebinding, and only while
    one is awaited -- gives a usable address, a valid mask, and a lease that is renewed and rebound before its end.
    An acknowledgement never makes the client send. *)
Theorem dhcp_configuration_sound {W} (E : net_env W) src packet s w :
  env_ok E -> net_ok s -> u32_ok src -> bytes_ok packet ->
  exists b s' w', dhcp_receive E src packet (s, w) = Some (b, (s', w')) /\ net_ok s' /\
    (dhcp_reply_matches s packet = Some false -> b = false /\ s' = s /\ w' = w) /\
    (b = false -> ipv4 s' = ipv4 s /\ dhcp_state (dhcp s') = dhcp_state (dhcp s) /\ w' = w) /\
    (ipv4 s' = ipv4 s \/
     ipv4 s' = zero_config /\ dhcp_state (dhcp s') = NET_DHCP_DISCOVERING /\ is_renewing (dhcp s) = true \/
     exists o, parse_dhcp_options packet = Some (Some o) /\ opt_message_type o = Some DHCP_MESSAGE_ACK /\
       is_renewing (dhcp s) = true /\ lease_bound (dhcp s') /\ config_usable (ipv4 s') /\ w' = w /\
       (server_ip (dhcp s) = 0 \/ dhcp_state (dhcp s) = NET_DHCP_REBINDING \/
        default (server_ip (dhcp s)) (opt_server_identifier o) = server_ip (dhcp s))).
Proof.
  intros HE Hs Hsrc Hb. unfold dhcp_receive. nm.
  destruct (reply_matches_safe s packet Hb) as (m & Em & Hsize). rewrite (nm_lift _ _ _ _ Em).
  destruct m; cbn [negb]; [|exists false, s, w; auto 10]. specialize (Hsize eq_refl). net_consts.
  assert (Hfalse : Some true <> Some false) by done. rewrite Em.
  destruct (parse_options_safe packet Hb) as (r & Er & Hr). rewrite (nm_lift _ _ _ _ Er).
  destruct r as [o|]; [|exists false, s, w; split_and!; auto; done]. specialize (Hr _ eq_refl).
  destruct (read_u32_be_Some packet 16 Hb ltac:(lia) ltac:(lia)) as (offered & Eo & Hoff). rewrite (nm_lift _ _ _ _ Eo).
  assert (Hv : u32_ok (default src (opt_server_identifier o))) by (apply (options_word Hr); [cbn; tauto|done]).
  cbv zeta. set (server := default src _) in *. set (kind := default 0 _).
  destruct (_ && _ && _ && _) eqn:Eoffer.
  { nm. set (s1 := upd_dhcp _ s).
    assert (H1 : net_ok s1) by (apply ok_set_dhcp; [done|]; apply accept_offer_ok; (done || apply Hs)).
    destruct (dhcp_send_run E HE 3 false s1 w H1 ltac:(done)) as (r & s2 & w2 & E2 & H2 & [_ _ C2 _ _]).
    exists true, s2, w2. rewrite (nm_bind _ _ _ _ _ E2). split_and!; try done. by left. }
  destruct ((kind =? _) && is_renewing (dhcp s)) eqn:Enak.
  { destruct (negb (server_ip (dhcp s) =? 0) && _ && _); [exists false, s, w; split_and!; auto; done|].
    destruct (dhcp_restarted E HE s w Hs) as (s' & w' & E' & H' & Hd). exists true, s', w'.
    rewrite (nm_bind _ _ _ _ _ E'). split_and!; try done. apply andb_true_iff in Enak as [_ Hren].
    destruct (has_send (link s)); [right; left; by destruct Hd|left]. by destruct Hd as [-> _]. }
  destruct (negb (kind =? 5) || negb (is_renewing (dhcp s))) eqn:Eack;
    [exists false, s, w; split_and!; auto; done|].
  apply orb_false_iff in Eack as [Ek Eren]. apply negb_false_iff in Ek, Eren. apply Z.eqb_eq in Ek.
  destruct (dhcp_ack_run o offered server s w Hr Hoff Hv Hs Eren) as (b & s' & E' & H' & Hd).
  exists b, s', w. split; [exact E'|]. split; [done|]. split; [done|]. destruct b.
  - split; [done|]. right. right. exists o. destruct Hd as (D1 & D2 & D3). split; [done|]. split; [|auto 10].
    unfold kind in Ek. destruct (opt_message_type o) as [k|]; cbn in Ek; [by rewrite Ek|done].
  - destruct Hd. split; [auto|]. by left.
Qed.

(** C26: A lease is not outlived.  After the timer of a stack that can send, an address of a lease is only
    in use while the time of the lease runs: at its end the configuration is cleared and the client starts again.
    A lease that runs changes hands in the order of its times, from bound to renewing to rebinding, and the
    configuration stays. *)
Theorem dhcp_lease_not_outlived {W} (E : net_env W) s w :
  env_ok E -> net_ok s -> has_send (link s) = true ->
  exists s' w', tick_dhcp E (s, w) = Some (tt, (s', w')) /\ net_ok s' /\
    if lease_running (dhcp_state (dhcp s)) then
      if seconds_to_ms (lease_seconds (dhcp s)) <=? lease_elapsed s
      then ipv4 s' = zero_config /\ dhcp_state (dhcp s') = NET_DHCP_DISCOVERING
      else ipv4 s' = ipv4 s /\ lease_elapsed s' = lease_elapsed s /\ lease_seconds (dhcp s') = lease_seconds (dhcp s) /\
           dhcp_state (dhcp s') = lease_phase (dhcp s) (lease_elapsed s)
    else ipv4 s' = ipv4 s /\ dhcp_state (dhcp s') = dhcp_state (dhcp s).
Proof.
  intros HE Hs Hlink. unfold tick_dhcp. nm. cbv zeta. pose proof (dhcp_restarted E HE s w Hs) as Hrestart. rewrite Hlink in Hrestart.
  pose proof (fun due t b Ht => dhcp_retried E HE due t b s w Hs Ht) as Hretry.
  pose proof (fun st Hst => dhcp_advanced E HE st s w Hs Hst) as Hadvance. unfold lease_phase.
  destruct (dhcp_state (dhcp s)) eqn:Est; cbn [lease_running].
  - by exists s, w.
  - destruct (Hretry (deadline_reached (current_time_ms s) (dhcp_next_action_ms (dhcp s))) DHCP_MESSAGE_DISCOVER false)
      as (s' & w' & R & H1 & H2 & _ & _ & H3); [done|]. rewrite R. exists s', w'. auto.
  - destruct (Hretry (deadline_reached (current_time_ms s) (dhcp_next_action_ms (dhcp s))) DHCP_MESSAGE_REQUEST false)
      as (s' & w' & R & H1 & H2 & _ & _ & H3); [done|]. rewrite R. exists s', w'. auto.
  - destruct (seconds_to_ms (lease_seconds (dhcp s)) <=? lease_elapsed s); [exact Hrestart|].
    destruct (seconds_to_ms (renewal_seconds (dhcp s)) <=? lease_elapsed s); [by apply Hadvance|by exists s, w].
  - destruct (seconds_to_ms (lease_seconds (dhcp s)) <=? lease_elapsed s); [exact Hrestart|].
    destruct (seconds_to_ms (rebind_seconds (dhcp s)) <=? lease_elapsed s); [by apply Hadvance|by apply Hretry].
  - destruct (seconds_to_ms (lease_seconds (dhcp s)) <=? lease_elapsed s); [exact Hrestart|by apply Hretry].
Qed.

(** ** Witnesses *)

Definition some_calls : list net_call :=
  [CallConfigure (NetIpv4Config (NET_IPV4 10 0 0 1) (NET_IPV4 255 255 255 0) (NET_IPV4 10 0 0 254) (NET_IPV4 10 0 0 53));
   CallUdpBind 9 (Some 1) 0; CallUdpSend (NET_IPV4 10 0 0 2) 9 9 [1; 2; 3]; CallDnsQuery (Some host_name) 7;
   CallInput (Some [1; 2; 3]); CallPoll; CallTick 5000; CallDhcpStart 0].

Lemma net_histories_safe_witness :
  exists s2 w2, run_calls wire_env some_calls (initial_stack link_ops alice_mac 1000, []) = Some (tt, (s2, w2)) /\ net_ok s2.
Proof.
  apply (net_histories_safe wire_env link_ops alice_mac []).
  - apply wire_env_ok.
  - split; [done|by apply bytes_okb_true].
  - reflexivity.
  - repeat (constructor; [cbn [call_ok frame_arg_ok name_arg_ok]; first [done|split; [by apply bytes_okb_true|done]|by apply bytes_okb_true|by constructor]|]).
    constructor.
Defined.

Lemma udp_first_contact_witness :
  exists request reply frame a1 b1 a2 b2,
    (forall w, net_udp_send wire_env (NET_IPV4 10 0 0 2) 7 49 [104; 105] (alice, w) =
       Some (NET_SEND_QUEUED, (a1, wire_send request w))) /\
    (forall w, net_input wire_env (Some request) (bob, w) = Some (true, (b1, wire_send reply w))) /\
    (forall w, net_input wire_env (Some reply) (a1, w) = Some (true, (a2, wire_send frame w))) /\
    (forall w, net_input wire_env (Some frame) (b1, w) = Some (true, (b2, w))).
Proof.
  destruct (udp_first_contact wire_env wire_send alice bob 7 49 [104; 105] 0 1 2) as
    (request & reply & frame & a1 & b1 & a2 & b2 & H1 & H2 & H3 & H4 & _); try done; try apply alice_bob.
  - by apply bytes_okb_true.
  - by exists request, reply, frame, a1, b1, a2, b2.
Defined.

Lemma dns_resolution_justified_witness :
  exists s' hops, dns_receive (NET_IPV4 10 0 0 53) DNS_SERVER_PORT 49159 dns_reply asking = Some (true, s') /\
    dns_state (dns s') = NET_DNS_RESOLVED /\ (hops <= 8)%nat /\
    answers dns_reply 21 2 hops stored_name (NET_IPV4 10 0 0 9) 30.
Proof.
  assert (Hb : bytes_ok dns_reply) by (by apply bytes_okb_true).
  assert (F : match dns_receive (NET_IPV4 10 0 0 53) DNS_SERVER_PORT 49159 dns_reply asking with
              | Some (b, s') => b = true /\ dns_state (dns s') = NET_DNS_RESOLVED /\
                  result_address (dns s') = NET_IPV4 10 0 0 9 /\ dns_ttl_seconds (dns s') = 30
              | None => False end) by (by vm_compute).
  destruct (dns_receive (NET_IPV4 10 0 0 53) DNS_SERVER_PORT 49159 dns_reply asking) as [[b s']|] eqn:E; [|by destruct F].
  pose proof (dns_resolution_justified (NET_IPV4 10 0 0 53) DNS_SERVER_PORT 49159 dns_reply asking b s' Hb E) as H.
  destruct F as (-> & F1 & F2 & F3). destruct H as [[? _]|(_ & _ & _ & _ & _ & _ & H)]; [done|].
  destruct (H F1) as (offset & n & hops & Q & N & Hh & Ha).
  assert (Q' : dns_question dns_reply (dns_name (dns asking)) = Some (Some 21)) by (by vm_compute).
  assert (N' : read_u16_be dns_reply 6 = Some 2) by reflexivity.
  assert (D : dns_name (dns asking) = stored_name) by (by vm_compute).
  rewrite Q' in Q. rewrite N' in N. injection Q as <-. injection N as <-. rewrite D, F2, F3 in Ha.
  exists s', hops. split; [reflexivity|]. split; [exact F1|]. split; [exact Hh|exact Ha].
Defined.

Lemma dns_query_names_back_witness :
  exists q, dns_query_message (set_dns_transaction_id 7 (set_dns_name stored_name zero_dns)) = Some (Some q) /\
    dns_question q stored_name = Some (Some (size q)).
Proof.
  destruct (dns_query_names_back host_name stored_name (set_dns_transaction_id 7 (set_dns_name stored_name zero_dns)))
    as (q & H1 & _ & _ & _ & H2 & _); [by vm_compute|by apply bytes_okb_true|done|done|]. by exists q.
Defined.

Lemma dns_cache_answers_witness :
  exists s' s2, dns_cache_store stored_name false (NET_IPV4 10 0 0 9) 0 30 alice = Some s' /\
    net_dns_query wire_env (Some host_name) 8 (set_current_time_ms 20000 s', []) = Some (true, (s2, [])) /\
    result_address (dns s2) = NET_IPV4 10 0 0 9.
Proof.
  assert (F : is_Some (dns_cache_store stored_name false (NET_IPV4 10 0 0 9) 0 30 alice)) by (by eexists).
  destruct (dns_cache_store stored_name false (NET_IPV4 10 0 0 9) 0 30 alice) as [s'|] eqn:E; [|by destruct F].
  pose proof (dns_cache_answers wire_env stored_name (NET_IPV4 10 0 0 9) 30 alice s' host_name stored_name 8 20000 []) as H.
  cbv zeta in H. replace (20000 <? saturating_add_u64 (current_time_ms alice) (30 * 1000)) with true in H by (by vm_compute).
  cbv iota in H. destruct H as (s2 & R & _ & _ & A & _); try done.
  - apply alice_ok.
  - split; [done|by apply (list_elem_of_lookup_2 _ 3)|by apply bytes_okb_true].
  - by apply Forall_replicate.
  - exists s', s2. split; [reflexivity|]. split; [exact R|exact A].
Defined.

Definition some_lease : dhcp_lease :=
  DhcpLease (NET_IPV4 10 0 0 53) (NET_IPV4 10 0 0 7) (NET_IPV4 255 255 255 0) (NET_IPV4 10 0 0 254) (NET_IPV4 10 0 0 53) 3600.

Lemma dhcp_lease_acquired_witness :
  exists s1 w1 s2 w2 s3,
    net_dhcp_start wire_env 5 (alice, []) = Some (true, (s1, w1)) /\
    dhcp_receive wire_env (NET_IPV4 10 0 0 53) (server_reply DHCP_MESSAGE_OFFER 5 alice_mac some_lease) (s1, w1) = Some (true, (s2, w2)) /\
    dhcp_receive wire_env (NET_IPV4 10 0 0 53) (server_reply DHCP_MESSAGE_ACK 5 alice_mac some_lease) (s2, w2) = Some (true, (s3, w2)) /\
    renewal_seconds (dhcp s3) = 1800.
Proof.
  assert (Hl : lease_ok some_lease) by (by constructor).
  assert (Hid : u32_ok 5 /\ 5 <> 0) by done.
  pose proof (dhcp_lease_acquired wire_env alice [] 5 (NET_IPV4 10 0 0 53) (NET_IPV4 10 0 0 53) some_lease
    wire_env_ok alice_ok eq_refl (proj1 Hid) (proj2 Hid) Hl) as H. change (mac alice) with alice_mac in H.
  destruct H as (s1 & w1 & s2 & w2 & s3 & R1 & _ & _ & R2 & _ & _ & R3 & _ & _ & _ & N & _).
  exists s1, w1, s2, w2, s3. split; [exact R1|]. split; [exact R2|]. split; [exact R3|exact N].
Defined.

Lemma dhcp_configuration_sound_witness :
  exists b s' w', dhcp_receive wire_env (NET_IPV4 10 0 0 53) (zeros 300) (alice, []) = Some (b, (s', w')) /\ ipv4 s' = ipv4 alice.
Proof.
  destruct (dhcp_configuration_sound wire_env (NET_IPV4 10 0 0 53) (zeros 300) alice []) as (b & s' & w' & R & _ & H & _).
  - apply wire_env_ok.
  - apply alice_ok.
  - done.
  - apply bytes_ok_zeros.
  - assert (Hm : dhcp_reply_matches alice (zeros 300) = Some false) by reflexivity.
    destruct (H Hm) as (_ & -> & _). exists b, alice, w'. split; [exact R|reflexivity].
Defined.

Lemma dhcp_lease_not_outlived_witness :
  let s := upd_dhcp (fun c => set_lease_seconds 10 (set_dhcp_state NET_DHCP_RENEWING c)) (set_current_time_ms 10000 alice) in
  exists s' w', tick_dhcp wire_env (s, []) = Some (tt, (s', w')) /\ ipv4 s' = zero_config.
Proof.
  cbv zeta. set (s := upd_dhcp _ _).
  destruct (dhcp_lease_not_outlived wire_env s []) as (s' & w' & R & _ & H).
  - apply wire_env_ok.
  - apply ok_set_dhcp; [apply ok_set_current_time; [apply alice_ok|done]|by constructor].
  - done.
  - exists s', w'. split; [exact R|]. destruct H as [H _]. exact H.
Defined.
