(* ===== verification/Scheduler.v ===== *)
(** * kernel/scheduler.c: tasks, stacks, switching

    A [Task] is a record in [tasks] under its address; [next] is the address of the next task of the
    circular list.  The words written to kernel stacks are in [words], by address: a word that was never
    written is not there, so the code never reads one.  The rest of the machine is the kernel's memory
    (allocator, page tables, CR3), the address spaces behind their pointers, the process table, and the
    registers the scheduler manages.  FXSAVE and FXRSTOR copy the 512-byte image of the FPU.

    A run returns, or ends in a halt of the machine ([for (;;) hlt]); [None] is an access outside the
    objects.  [context_switch] is assembly: it stores the callee-saved registers below the return address
    on the old stack and goes on at the return address of the new one.  A call that switches therefore ends
    in [SwitchTo] with that address, and what follows [context_switch] in [schedule] is run when the
    suspended task is switched to again ([resume]). *)

From stdpp Require Import gmap.
From S2P Require Import Prelude CString Heap Allocator Elf Manifest AppProcess Paging PagingKernel.

(** ** Runs that can halt *)

Inductive outcome (B : Type) :=
| Done (b : B)
| Halted.
#[global] Arguments Done {B}.
#[global] Arguments Halted {B}.

Definition KM (S B : Type) : Type := S -> option (outcome B * S).

#[global] Instance KM_ret S : MRet (KM S) := fun B b s => Some (Done b, s).
#[global] Instance KM_bind S : MBind (KM S) := fun B C k m s =>
  match m s with
  | Some (Done b, s) => k b s
  | Some (Halted, s) => Some (Halted, s)
  | None => None
  end.

Definition kget {S B} (f : S -> B) : KM S B := fun s => Some (Done (f s), s).
Definition kmod {S} (f : S -> S) : KM S unit := fun s => Some (Done tt, f s).
Definition klift {S B} (o : option B) : KM S B := fun s => match o with Some b => Some (Done b, s) | None => None end.
Definition khalt {S B} : KM S B := fun s => Some (Halted, s).

(** ** Constants *)

Definition TASK_NAME_MAX : nat := 32.
Definition SCHEDULER_USER_QUANTUM_TICKS : Z := 5.
Definition SCHEDULER_FPU_STATE_SIZE : Z := 512.
Definition STACK_SIZE : Z := 16384.
Definition STACK_GUARD_SIZE : Z := PAGE_SIZE.
Definition STACK_ALLOCATION_SIZE : Z := STACK_SIZE + STACK_GUARD_SIZE * 2.
Definition STACK_CANARY_WORDS : nat := 8.
Definition STACK_CANARY_SEED : Z := 0xD14FC0DEF00DBAAD.
Definition INITIAL_TASK_RFLAGS : Z := 0x202.
Definition CR0_MONITOR_COPROCESSOR : Z := Z.shiftl 1 1.
Definition CR0_EMULATION : Z := Z.shiftl 1 2.
Definition CR0_TASK_SWITCHED : Z := Z.shiftl 1 3.
Definition CR0_NUMERIC_ERROR : Z := Z.shiftl 1 5.
Definition CR4_OSFXSR : Z := Z.shiftl 1 9.
Definition CR4_OSXMMEXCPT : Z := Z.shiftl 1 10.
Definition CR4_OSXSAVE : Z := Z.shiftl 1 18.
Definition CPUID_FEATURE_FPU : Z := Z.shiftl 1 0.
Definition CPUID_FEATURE_FXSR : Z := Z.shiftl 1 24.
Definition CPUID_FEATURE_SSE : Z := Z.shiftl 1 25.
Definition CPUID_FEATURE_SSE2 : Z := Z.shiftl 1 26.
(** [sizeof(Task)], with the alignment of the FPU image. *)
Definition sizeof_Task : Z := 672.
#[global] Arguments TASK_NAME_MAX : simpl never.
#[global] Arguments STACK_CANARY_WORDS : simpl never.

(** ** Data *)

Inductive TaskState := TASK_READY | TASK_DEAD.

#[export] Instance TaskState_eq : EqDecision TaskState.
Proof. solve_decision. Defined.

(** [Task]; pointers are addresses.  Its fields [id], [name], [state], [app_process_id] and
    [app_capabilities] carry the prefix [task_]. *)
Record Task := MkTask {
  task_id : Z;
  task_name : list Z;
  rsp : Z;
  kernel_stack_top : Z;
  kernel_stack : Z;
  kernel_stack_guard : Z;
  kernel_stack_canary : Z;
  user_stack : Z;
  address_space : Z;
  user_entry : Z;
  user_stack_top : Z;
  task_process_id : Z;
  task_capabilities : Z;
  quantum_ticks : Z;
  fpu_state : list Z;
  owns_kernel_stack : bool;
  is_user : bool;
  task_state : TaskState;
  next : Z;
}.

Record scheduler_task_info := TaskInfo {
  info_id : Z;
  info_name : list Z;
  info_state : TaskState;
  info_is_user : bool;
  info_is_current : bool;
}.

(** [(Task){0}] *)
Definition zero_task : Task :=
  MkTask 0 (zeros (Z.of_nat TASK_NAME_MAX)) 0 0 0 0 0 0 0 0 0 0 0 0 (zeros SCHEDULER_FPU_STATE_SIZE) false false TASK_READY 0.

(** The registers that tasks share: the FPU, the control bits about it, and the stack of the TSS. *)
Record registers := Registers {
  fpu : list Z;
  cr0 : Z;
  cr4 : Z;
  tss_rsp0 : Z;
}.

(** Symbols of the linker: the boot stack and the code addresses that are put on stacks. *)
Record symbols := Symbols {
  g_kernel_stack : Z;
  g_kernel_stack_guard_page : Z;
  g_kernel_stack_top : Z;
  task_return_trampoline : Z;
  user_task_bootstrap_address : Z;
  schedule_return : Z;
}.

Record scheduler (A : Type) := Scheduler {
  kernel : paging A;
  spaces : gmap Z paging_address_space;
  processes : process_table;
  tasks : gmap Z Task;
  words : gmap Z Z;
  g_current_task : Z;
  g_head : Z;
  g_next_pid : Z;
  g_fpu_context_enabled : bool;
  g_initial_fpu_state : list Z;
  cpu_registers : registers;
}.
#[global] Arguments Scheduler {A}.
#[global] Arguments kernel {A}.
#[global] Arguments spaces {A}.
#[global] Arguments processes {A}.
#[global] Arguments tasks {A}.
#[global] Arguments words {A}.
#[global] Arguments g_current_task {A}.
#[global] Arguments g_head {A}.
#[global] Arguments g_next_pid {A}.
#[global] Arguments g_fpu_context_enabled {A}.
#[global] Arguments g_initial_fpu_state {A}.
#[global] Arguments cpu_registers {A}.

(** Assignments to fields. *)
Definition set_task_id (v : Z) (t : Task) : Task :=
  MkTask v (task_name t) (rsp t) (kernel_stack_top t) (kernel_stack t) (kernel_stack_guard t) (kernel_stack_canary t) (user_stack t) (address_space t) (user_entry t) (user_stack_top t) (task_process_id t) (task_capabilities t) (quantum_ticks t) (fpu_state t) (owns_kernel_stack t) (is_user t) (task_state t) (next t).
Definition set_task_name (v : list Z) (t : Task) : Task :=
  MkTask (task_id t) v (rsp t) (kernel_stack_top t) (kernel_stack t) (kernel_stack_guard t) (kernel_stack_canary t) (user_stack t) (address_space t) (user_entry t) (user_stack_top t) (task_process_id t) (task_capabilities t) (quantum_ticks t) (fpu_state t) (owns_kernel_stack t) (is_user t) (task_state t) (next t).
Definition set_rsp (v : Z) (t : Task) : Task :=
  MkTask (task_id t) (task_name t) v (kernel_stack_top t) (kernel_stack t) (kernel_stack_guard t) (kernel_stack_canary t) (user_stack t) (address_space t) (user_entry t) (user_stack_top t) (task_process_id t) (task_capabilities t) (quantum_ticks t) (fpu_state t) (owns_kernel_stack t) (is_user t) (task_state t) (next t).
Definition set_quantum_ticks (v : Z) (t : Task) : Task :=
  MkTask (task_id t) (task_name t) (rsp t) (kernel_stack_top t) (kernel_stack t) (kernel_stack_guard t) (kernel_stack_canary t) (user_stack t) (address_space t) (user_entry t) (user_stack_top t) (task_process_id t) (task_capabilities t) v (fpu_state t) (owns_kernel_stack t) (is_user t) (task_state t) (next t).
Definition set_fpu_state (v : list Z) (t : Task) : Task :=
  MkTask (task_id t) (task_name t) (rsp t) (kernel_stack_top t) (kernel_stack t) (kernel_stack_guard t) (kernel_stack_canary t) (user_stack t) (address_space t) (user_entry t) (user_stack_top t) (task_process_id t) (task_capabilities t) (quantum_ticks t) v (owns_kernel_stack t) (is_user t) (task_state t) (next t).
Definition set_task_state (v : TaskState) (t : Task) : Task :=
  MkTask (task_id t) (task_name t) (rsp t) (kernel_stack_top t) (kernel_stack t) (kernel_stack_guard t) (kernel_stack_canary t) (user_stack t) (address_space t) (user_entry t) (user_stack_top t) (task_process_id t) (task_capabilities t) (quantum_ticks t) (fpu_state t) (owns_kernel_stack t) (is_user t) v (next t).
Definition set_next (v : Z) (t : Task) : Task :=
  MkTask (task_id t) (task_name t) (rsp t) (kernel_stack_top t) (kernel_stack t) (kernel_stack_guard t) (kernel_stack_canary t) (user_stack t) (address_space t) (user_entry t) (user_stack_top t) (task_process_id t) (task_capabilities t) (quantum_ticks t) (fpu_state t) (owns_kernel_stack t) (is_user t) (task_state t) v.
Definition set_kernel_stack (raw guard canary top : Z) (owned : bool) (t : Task) : Task :=
  MkTask (task_id t) (task_name t) (rsp t) top raw guard canary (user_stack t) (address_space t) (user_entry t) (user_stack_top t) (task_process_id t) (task_capabilities t) (quantum_ticks t) (fpu_state t) owned (is_user t) (task_state t) (next t).
Definition set_role (user : bool) (space entry stack_top process capabilities : Z) (t : Task) : Task :=
  MkTask (task_id t) (task_name t) (rsp t) (kernel_stack_top t) (kernel_stack t) (kernel_stack_guard t) (kernel_stack_canary t) (user_stack t) space entry stack_top process capabilities (quantum_ticks t) (fpu_state t) (owns_kernel_stack t) user (task_state t) (next t).

Section setters.
Context {A : Type}.
Definition set_kernel (v : paging A) (s : scheduler A) : scheduler A :=
  Scheduler v (spaces s) (processes s) (tasks s) (words s) (g_current_task s) (g_head s) (g_next_pid s) (g_fpu_context_enabled s) (g_initial_fpu_state s) (cpu_registers s).
Definition set_spaces (v : gmap Z paging_address_space) (s : scheduler A) : scheduler A :=
  Scheduler (kernel s) v (processes s) (tasks s) (words s) (g_current_task s) (g_head s) (g_next_pid s) (g_fpu_context_enabled s) (g_initial_fpu_state s) (cpu_registers s).
Definition set_processes (v : process_table) (s : scheduler A) : scheduler A :=
  Scheduler (kernel s) (spaces s) v (tasks s) (words s) (g_current_task s) (g_head s) (g_next_pid s) (g_fpu_context_enabled s) (g_initial_fpu_state s) (cpu_registers s).
Definition set_tasks (v : gmap Z Task) (s : scheduler A) : scheduler A :=
  Scheduler (kernel s) (spaces s) (processes s) v (words s) (g_current_task s) (g_head s) (g_next_pid s) (g_fpu_context_enabled s) (g_initial_fpu_state s) (cpu_registers s).
Definition set_words (v : gmap Z Z) (s : scheduler A) : scheduler A :=
  Scheduler (kernel s) (spaces s) (processes s) (tasks s) v (g_current_task s) (g_head s) (g_next_pid s) (g_fpu_context_enabled s) (g_initial_fpu_state s) (cpu_registers s).
Definition set_g_current_task (v : Z) (s : scheduler A) : scheduler A :=
  Scheduler (kernel s) (spaces s) (processes s) (tasks s) (words s) v (g_head s) (g_next_pid s) (g_fpu_context_enabled s) (g_initial_fpu_state s) (cpu_registers s).
Definition set_g_head (v : Z) (s : scheduler A) : scheduler A :=
  Scheduler (kernel s) (spaces s) (processes s) (tasks s) (words s) (g_current_task s) v (g_next_pid s) (g_fpu_context_enabled s) (g_initial_fpu_state s) (cpu_registers s).
Definition set_g_next_pid (v : Z) (s : scheduler A) : scheduler A :=
  Scheduler (kernel s) (spaces s) (processes s) (tasks s) (words s) (g_current_task s) (g_head s) v (g_fpu_context_enabled s) (g_initial_fpu_state s) (cpu_registers s).
Definition set_g_fpu_context_enabled (v : bool) (s : scheduler A) : scheduler A :=
  Scheduler (kernel s) (spaces s) (processes s) (tasks s) (words s) (g_current_task s) (g_head s) (g_next_pid s) v (g_initial_fpu_state s) (cpu_registers s).
Definition set_g_initial_fpu_state (v : list Z) (s : scheduler A) : scheduler A :=
  Scheduler (kernel s) (spaces s) (processes s) (tasks s) (words s) (g_current_task s) (g_head s) (g_next_pid s) (g_fpu_context_enabled s) v (cpu_registers s).
Definition set_cpu_registers (v : registers) (s : scheduler A) : scheduler A :=
  Scheduler (kernel s) (spaces s) (processes s) (tasks s) (words s) (g_current_task s) (g_head s) (g_next_pid s) (g_fpu_context_enabled s) (g_initial_fpu_state s) v.
End setters.
Definition set_fpu (v : list Z) (r : registers) : registers := Registers v (cr0 r) (cr4 r) (tss_rsp0 r).
Definition set_cr0 (v : Z) (r : registers) : registers := Registers (fpu r) v (cr4 r) (tss_rsp0 r).
Definition set_cr4 (v : Z) (r : registers) : registers := Registers (fpu r) (cr0 r) v (tss_rsp0 r).
Definition set_tss_rsp0 (v : Z) (r : registers) : registers := Registers (fpu r) (cr0 r) (cr4 r) v.

Ltac sched_simpl :=
  cbn [task_id task_name rsp kernel_stack_top kernel_stack kernel_stack_guard kernel_stack_canary user_stack
       address_space user_entry user_stack_top task_process_id task_capabilities quantum_ticks fpu_state owns_kernel_stack
       is_user task_state next kernel spaces processes tasks words
       g_current_task g_head g_next_pid g_fpu_context_enabled g_initial_fpu_state cpu_registers fpu cr0
       cr4 tss_rsp0 set_task_id set_task_name set_rsp set_quantum_ticks set_fpu_state set_task_state
       set_next set_kernel set_spaces set_processes set_tasks set_words set_g_current_task set_g_head
       set_g_next_pid set_g_fpu_context_enabled set_g_initial_fpu_state set_cpu_registers set_fpu set_cr0 set_cr4 set_tss_rsp0
       set_kernel_stack set_role].

Section Scheduler.
Context {A : Type} `{Allocator A} (addresses : table_addresses) (symbols : symbols).

Abbreviation SM := (KM (scheduler A)).

(** ** The other components *)

Definition syslog_write (message : list Z) : SM unit :=
  kmod (fun s => set_kernel (paging_log message (kernel s)) s).

Definition kmalloc (n : Z) : SM Z := fun s =>
  match alloc n (allocator (kernel s)) with
  | Some (p, a) => Some (Done p, set_kernel (set_allocator a (kernel s)) s)
  | None => None
  end.

Definition kfree (p : Z) : SM unit := fun s =>
  match release p (allocator (kernel s)) with
  | Some a => Some (Done tt, set_kernel (set_allocator a (kernel s)) s)
  | None => None
  end.

(** A call of the paging code. *)
Definition on_paging {B} (f : paging A -> option (B * paging A)) : SM B := fun s =>
  match f (kernel s) with
  | Some (b, k) => Some (Done b, set_kernel k s)
  | None => None
  end.

(** A call that changes the process table. *)
Definition on_processes {B} (f : process_table -> B * process_table) : SM B := fun s =>
  let (b, t) := f (processes s) in Some (Done b, set_processes t s).

(** [struct paging_address_space*]: the struct, when the pointer is not NULL. *)
Definition space_at (p : Z) (s : scheduler A) : option (option paging_address_space) :=
  if p =? NULL then Some None else space ← spaces s !! p; Some (Some space).

(** [*task] and assignments through [task]. *)
Definition task_at (p : Z) : SM Task := t ← kget (fun s => tasks s !! p); klift t.
Definition update_task (p : Z) (f : Task -> Task) : SM unit :=
  t ← task_at p; kmod (fun s => set_tasks (<[p := f t]> (tasks s)) s).

(** Words of the stacks. *)
Definition read_word (a : Z) : SM Z := w ← kget (fun s => words s !! a); klift w.
Definition write_word (a v : Z) : SM unit := kmod (fun s => set_words (<[a := v]> (words s)) s).

(** ** The FPU *)

Definition disable_unmanaged_fpu_state : SM unit :=
  kmod (fun s => set_cpu_registers (set_cr0 (Z.lor (cr0 (cpu_registers s)) CR0_TASK_SWITCHED) (cpu_registers s)) s).

(** The reset image: FCW at 0, MXCSR at 24. *)
Definition reset_fpu_image : list Z :=
  <[25%nat := 0x1F]> (<[24%nat := 0x80]> (<[1%nat := 0x03]> (<[0%nat := 0x7F]> (zeros SCHEDULER_FPU_STATE_SIZE)))).

(** [feature_d] is what CPUID leaves in EDX. *)
Definition initialize_fpu_contexts (feature_d : Z) : SM bool :=
  let required := Z.lor (Z.lor CPUID_FEATURE_FPU CPUID_FEATURE_FXSR) (Z.lor CPUID_FEATURE_SSE CPUID_FEATURE_SSE2) in
  if negb (Z.land feature_d required =? required) then
    disable_unmanaged_fpu_state;; mret false
  else
    kmod (fun s =>
      let r := cpu_registers s in
      set_cpu_registers (set_cr0 (Z.lor (Z.ldiff (cr0 r) (Z.lor CR0_EMULATION CR0_TASK_SWITCHED))
        (Z.lor CR0_MONITOR_COPROCESSOR CR0_NUMERIC_ERROR)) r) s);;
    kmod (fun s =>
      let r := cpu_registers s in
      set_cpu_registers (set_cr4 (Z.lor (Z.ldiff (cr4 r) CR4_OSXSAVE) (Z.lor CR4_OSFXSR CR4_OSXMMEXCPT)) r) s);;
    kmod (set_g_initial_fpu_state reset_fpu_image);;
    kmod (fun s => set_cpu_registers (set_fpu (g_initial_fpu_state s) (cpu_registers s)) s);;
    mret true.

Definition initialize_task_fpu (task : Z) : SM unit :=
  enabled ← kget g_fpu_context_enabled;
  if negb enabled then mret tt
  else image ← kget g_initial_fpu_state; update_task task (set_fpu_state image).

Definition save_task_fpu (task : Z) : SM unit :=
  enabled ← kget g_fpu_context_enabled;
  if negb enabled then mret tt
  else image ← kget (fun s => fpu (cpu_registers s)); update_task task (set_fpu_state image).

Definition restore_task_fpu (task : Z) : SM unit :=
  enabled ← kget g_fpu_context_enabled;
  if negb enabled then mret tt
  else
    t ← task_at task;
    kmod (fun s => set_cpu_registers (set_fpu (fpu_state t) (cpu_registers s)) s).

(** ** Canaries *)

Definition stack_canary_value (id : Z) (index : nat) : Z :=
  Z.lxor (Z.lxor STACK_CANARY_SEED (u64 (id * 0x9E3779B97F4A7C15))) (Z.of_nat index).

Definition canary_address (t : Task) (index : nat) : Z := kernel_stack_canary t + 8 * Z.of_nat index.

Fixpoint write_canary (count index : nat) (t : Task) : SM unit :=
  match count with
  | O => mret tt
  | S count => write_word (canary_address t index) (stack_canary_value (task_id t) index);; write_canary count (S index) t
  end.

Definition initialize_stack_canary (task : Z) : SM unit :=
  t ← task_at task;
  if kernel_stack_canary t =? NULL then mret tt else write_canary STACK_CANARY_WORDS 0 t.

Fixpoint check_canary (count index : nat) (t : Task) : SM bool :=
  match count with
  | O => mret true
  | S count =>
      w ← read_word (canary_address t index);
      if negb (w =? stack_canary_value (task_id t) index) then mret false else check_canary count (S index) t
  end.

Definition stack_canary_intact (task : Z) : SM bool :=
  t ← task_at task;
  if kernel_stack_canary t =? NULL then mret false else check_canary STACK_CANARY_WORDS 0 t.

Definition halt_on_stack_corruption {B} : SM B :=
  syslog_write (cs "Scheduler: KERNEL STACK CANARY CORRUPTED; system halted");; khalt.

(** ** Stacks *)

Definition allocate_guarded_kernel_stack (task : Z) : SM bool :=
  raw ← kmalloc STACK_ALLOCATION_SIZE;
  if raw =? NULL then mret false
  else
    let guard := Z.ldiff (u64 (raw + STACK_GUARD_SIZE - 1)) (STACK_GUARD_SIZE - 1) in
    let stack_base := u64 (guard + STACK_GUARD_SIZE) in
    let stack_top := u64 (stack_base + STACK_SIZE) in
    let allocation_end := u64 (raw + STACK_ALLOCATION_SIZE) in
    guarded ← (if allocation_end <? stack_top then mret false else on_paging (paging_kernel_guard_page guard));
    if negb guarded then kfree raw;; mret false
    else update_task task (set_kernel_stack raw guard stack_base stack_top true);; mret true.

(** The words of a freed stack are gone with its block. *)
Definition forget_words (from to : Z) : SM unit :=
  kmod (fun s => set_words (filter (fun w => ~ (from <= w.1 < to)) (words s)) s).

Definition release_kernel_stack (task : Z) : SM unit :=
  t ← task_at task;
  if negb (owns_kernel_stack t) then mret tt
  else
    unguarded ← on_paging (paging_kernel_unguard_page (kernel_stack_guard t));
    if negb unguarded then syslog_write (cs "Scheduler: failed to remove kernel stack guard")
    else
      kfree (kernel_stack t);;
      forget_words (kernel_stack_canary t) (kernel_stack_top t);;
      update_task task (fun t => set_kernel_stack NULL NULL NULL (kernel_stack_top t) false t).

(** ** Ids and names *)

Definition allocate_task_id : SM (option Z) :=
  id ← kget g_next_pid;
  if id =? 0 then mret None
  else
    kmod (set_g_next_pid (if id =? UINT64_MAX then 0 else id + 1));;
    mret (Some id).

Definition copy_task_name (destination : list Z) (source : option (list Z)) : list Z :=
  copy_string destination TASK_NAME_MAX source.

(** [name != NULL && name[0] != '\0' ? name : fallback] *)
Definition name_or (fallback : list Z) (name : option (list Z)) : option (list Z) :=
  match name with
  | Some n => if bool_decide (cstr n = []) then Some fallback else Some n
  | None => Some fallback
  end.

(** ** Destruction *)

Definition free_task (task : Z) : SM unit :=
  kfree task;; kmod (fun s => set_tasks (delete task (tasks s)) s).

Definition destroy_space (p : Z) : SM unit :=
  s ← kget (fun s => s);
  space ← klift (space_at p s);
  on_paging (fun k => k ← paging_address_space_destroy addresses space k; Some (tt, k));;
  kmod (fun s => set_spaces (delete p (spaces s)) s).

Definition destroy_task (task : Z) : SM unit :=
  intact ← stack_canary_intact task;
  if negb intact then halt_on_stack_corruption
  else
    release_kernel_stack task;;
    t ← task_at task;
    destroy_space (address_space t);;
    free_task task.

(** [while (tail->next != dead) tail = tail->next;] *)
Fixpoint find_tail (fuel : nat) (tail dead : Z) : SM Z :=
  match fuel with
  | O => klift None
  | S fuel => t ← task_at tail; if next t =? dead then mret tail else find_tail fuel (next t) dead
  end.

(** The first loop of [reap_dead_tasks]; the result tells whether to go on. *)
Fixpoint reap_head (fuel : nat) : SM bool :=
  match fuel with
  | O => klift None
  | S fuel =>
      dead ← kget g_head;
      current ← kget g_current_task;
      t ← task_at dead;
      if negb (negb (dead =? current) && bool_decide (task_state t = TASK_DEAD)) then mret true
      else if next t =? dead then
        kmod (set_g_head NULL);; destroy_task dead;; mret false
      else
        count ← kget (fun s => size (tasks s));
        tail ← find_tail (S count) (next t) dead;
        kmod (set_g_head (next t));;
        update_task tail (set_next (next t));;
        destroy_task dead;;
        reap_head fuel
  end.

(** The second loop. *)
Fixpoint reap_rest (fuel : nat) (previous task : Z) : SM unit :=
  match fuel with
  | O => klift None
  | S fuel =>
      head ← kget g_head;
      if task =? head then mret tt
      else
        current ← kget g_current_task;
        t ← task_at task;
        if negb (task =? current) && bool_decide (task_state t = TASK_DEAD) then
          update_task previous (set_next (next t));;
          destroy_task task;;
          reap_rest fuel previous (next t)
        else reap_rest fuel task (next t)
  end.

(** Every round of a loop passes one task of the ring: their number and one is fuel enough. *)
Definition reap_dead_tasks : SM unit :=
  head ← kget g_head;
  if head =? NULL then mret tt
  else
    count ← kget (fun s => size (tasks s));
    go_on ← reap_head (S count);
    if negb go_on then mret tt
    else
      head ← kget g_head;
      t ← task_at head;
      count ← kget (fun s => size (tasks s));
      reap_rest (S count) head (next t).

(** ** Creation *)

(** [scheduler_init]; [halt] is the endless loop after a failed guard installation. *)
Definition scheduler_init (feature_d : Z) : SM unit :=
  task ← kmalloc sizeof_Task;
  if task =? NULL then syslog_write (cs "Scheduler: initialization failed (out of memory)")
  else
    kmod (fun s => set_tasks (<[task := zero_task]> (tasks s)) s);;
    id ← allocate_task_id;
    match id return SM unit with
    | None => free_task task;; syslog_write (cs "Scheduler: PID allocation failed")
    | Some id =>
        update_task task (fun t =>
          set_next task (set_kernel_stack (g_kernel_stack symbols) (g_kernel_stack_guard_page symbols)
            (g_kernel_stack symbols) (g_kernel_stack_top symbols) false
            (set_task_name (copy_task_name (task_name t) (Some (cs "kernel/main"))) (set_task_id id t))));;
        guarded ← on_paging (paging_kernel_guard_page (g_kernel_stack_guard_page symbols));
        if negb guarded then
          free_task task;; syslog_write (cs "Scheduler: bootstrap stack guard installation failed");; khalt
        else
          initialize_stack_canary task;;
          enabled ← initialize_fpu_contexts feature_d;
          kmod (set_g_fpu_context_enabled enabled);;
          (if enabled : bool then save_task_fpu task else mret tt);;
          kmod (set_g_head task);;
          kmod (set_g_current_task task);;
          syslog_write (if enabled : bool then cs "Scheduler: guarded stacks; per-task x87/MMX/SSE state"
                        else cs "Scheduler: guarded stacks; unsupported FPU state trapped")
    end.

(** The words pushed on a new stack, from the top down. *)
Definition initial_frame (entry : Z) : list Z :=
  [task_return_trampoline symbols; entry; INITIAL_TASK_RFLAGS; 0; 0; 0; 0; 0; 0].

(** [*(--sp) = value], for each value; the final [sp]. *)
Fixpoint push_words (sp : Z) (values : list Z) : SM Z :=
  match values with
  | [] => mret sp
  | v :: values => let sp := u64 (sp - 8) in write_word sp v;; push_words sp values
  end.

(** The common part of the two spawning functions, with the messages of their failures; [finish] fills in the
    fields between the name and the canary. *)
Definition spawn (no_memory no_stack : list Z) (name : option (list Z)) (finish : Task -> Task) (entry : Z) : SM bool :=
  task ← kmalloc sizeof_Task;
  if task =? NULL then syslog_write no_memory;; mret false
  else
    kmod (fun s => set_tasks (<[task := zero_task]> (tasks s)) s);;
    stacked ← allocate_guarded_kernel_stack task;
    if negb stacked then free_task task;; syslog_write no_stack;; mret false
    else
      id ← allocate_task_id;
      match id return SM bool with
      | None =>
          release_kernel_stack task;; free_task task;; syslog_write (cs "Scheduler: PID allocation failed");; mret false
      | Some id =>
          update_task task (fun t => finish (set_task_name (copy_task_name (task_name t) name) (set_task_id id t)));;
          initialize_stack_canary task;;
          initialize_task_fpu task;;
          t ← task_at task;
          sp ← push_words (kernel_stack_top t) (initial_frame entry);
          update_task task (set_rsp sp);;
          head ← kget g_head;
          h ← task_at head;
          update_task task (set_next (next h));;
          update_task head (set_next task);;
          mret true
      end.

Definition spawn_named_task (name : option (list Z)) (entry_point : Z) : SM bool :=
  head ← kget g_head;
  if (entry_point =? NULL) || (head =? NULL) then mret false
  else
    spawn (cs "Scheduler: task allocation failed") (cs "Scheduler: guarded stack allocation failed")
      (name_or (cs "kernel/task") name) (set_role false NULL 0 0 0 0) entry_point.

Definition spawn_task (entry_point : Z) : SM bool := spawn_named_task (Some (cs "kernel/task")) entry_point.

Definition spawn_user_task (entry_point : Z) : SM bool :=
  syslog_write (cs "Scheduler: raw user entry points are unsupported");; mret false.

(** The argument tests of [scheduler_spawn_user_process]. *)
Definition user_process_valid (p entry_point stack_top process capabilities : Z) (s : scheduler A) : option bool :=
  if (g_head s =? NULL) || (p =? NULL) || (process =? 0) ||
     negb (Z.ldiff capabilities APP_CAPABILITY_ALL =? 0) ||
     (entry_point <? PAGING_USER_BASE) || (PAGING_USER_LIMIT <=? entry_point) ||
     (stack_top <=? PAGING_USER_BASE) || (PAGING_USER_LIMIT <? stack_top) || negb (Z.land stack_top 0xF =? 0)
  then Some false
  else
    space ← space_at p s;
    executable ← paging_user_range_mapped space entry_point 1 false (kernel s);
    if negb executable then Some false
    else paging_user_range_mapped space (stack_top - 8) 8 true (kernel s).

Definition scheduler_spawn_user_process (name : option (list Z)) (p entry_point stack_top process capabilities : Z)
    : SM bool :=
  s ← kget (fun s => s);
  valid ← klift (user_process_valid p entry_point stack_top process capabilities s);
  if negb valid then mret false
  else
    spawn (cs "Scheduler: user task allocation failed") (cs "Scheduler: user guarded-stack allocation failed")
      (name_or (cs "app/user") name) (set_role true p entry_point stack_top process capabilities)
      (user_task_bootstrap_address symbols).

(** ** Switching *)

(** Where control is after a call that may switch. *)
Inductive control :=
| Returned
| SwitchTo (destination : Z)
| EnterUser (entry_point user_stack_top : Z).

(** The machine where [context_switch] is called: the address of its return address, and RBX, RBP, R12 to R15. *)
Record call_frame := CallFrame {
  frame_sp : Z;
  callee_saved : list Z;
}.

(** [context_switch(&prev->rsp, next->rsp, saved_rflags)]: pushes, switches, pops; the result is where [ret] goes. *)
Definition context_switch (frame : call_frame) (saved_rflags : Z) (prev new_sp : Z) : SM Z :=
  write_word (frame_sp frame) (schedule_return symbols);;
  sp ← push_words (frame_sp frame) (saved_rflags :: callee_saved frame);
  update_task prev (set_rsp sp);;
  read_word (new_sp + 8 * 7).

(** [while (next != start_task) { if (next->state == TASK_READY) break; next = next->next; }] *)
Fixpoint find_ready (fuel : nat) (task start : Z) : SM Z :=
  match fuel with
  | O => klift None
  | S fuel =>
      if task =? start then mret task
      else
        t ← task_at task;
        if bool_decide (task_state t = TASK_READY) then mret task else find_ready fuel (next t) start
  end.

(** The part of [schedule] between [cli] and [context_switch]. *)
Definition switch_tasks (frame : call_frame) (saved_rflags prev task : Z) : SM control :=
  prev_intact ← stack_canary_intact prev;
  intact ← (if negb prev_intact then mret false else stack_canary_intact task);
  if negb intact then halt_on_stack_corruption
  else
    save_task_fpu prev;;
    restore_task_fpu task;;
    kmod (set_g_current_task task);;
    update_task prev (set_quantum_ticks 0);;
    update_task task (set_quantum_ticks 0);;
    t ← task_at task;
    (if negb (kernel_stack_top t =? 0)
     then kmod (fun s => set_cpu_registers (set_tss_rsp0 (kernel_stack_top t) (cpu_registers s)) s) else mret tt);;
    s ← kget (fun s => s);
    space ← klift (space_at (address_space t) s);
    kmod (fun s => set_kernel (paging_activate addresses space (kernel s)) s);;
    t ← task_at task;
    destination ← context_switch frame saved_rflags prev (rsp t);
    mret (SwitchTo destination).

Definition schedule (frame : call_frame) (saved_rflags : Z) : SM control :=
  current ← kget g_current_task;
  if current =? NULL then mret Returned
  else
    intact ← stack_canary_intact current;
    if negb intact then halt_on_stack_corruption
    else
      reap_dead_tasks;;
      start ← task_at current;
      count ← kget (fun s => size (tasks s));
      task ← find_ready (S count) (next start) current;
      if (task =? current) && negb (bool_decide (task_state start = TASK_READY)) then
        syslog_write (cs "Scheduler: All tasks dead/waiting.");; khalt
      else if task =? current then mret Returned
      else switch_tasks frame saved_rflags current task.

(** What a task does when it is switched to: the rest of [schedule] if it was suspended there. *)
Definition resume (c : control) : SM control :=
  match c with
  | SwitchTo destination => if destination =? schedule_return symbols then reap_dead_tasks;; mret Returned else mret c
  | _ => mret c
  end.

(** ** Requests of the running task *)

Definition scheduler_set_current_name (name : option (list Z)) : SM unit :=
  current ← kget g_current_task;
  if current =? NULL then mret tt
  else update_task current (fun t => set_task_name (copy_task_name (task_name t) (name_or (cs "kernel/task") name)) t).

(** [app_process_mark_exited] for a user task, with the message when it fails. *)
Definition mark_exited (t : Task) (code : Z) (message : list Z) : SM unit :=
  r ← on_processes (app_process_mark_exited (task_process_id t) code);
  if bool_decide (r = APP_PROCESS_OK) then mret tt else syslog_write message.

(** The loop of the two terminating functions: the first task from [task] on that [wanted] accepts. *)
Fixpoint terminate_loop (fuel : nat) (wanted : Task -> bool) (message : list Z) (task : Z) : SM bool :=
  match fuel with
  | O => klift None
  | S fuel =>
      t ← task_at task;
      if wanted t then
        current ← kget g_current_task;
        if (task =? current) || bool_decide (task_state t = TASK_DEAD) then mret false
        else
          (if is_user t then mark_exited t (-1) message else mret tt);;
          update_task task (set_task_state TASK_DEAD);;
          reap_dead_tasks;;
          mret true
      else
        head ← kget g_head;
        if (next t =? NULL) || (next t =? head) then mret false else terminate_loop fuel wanted message (next t)
  end.

Definition scheduler_terminate_task (id : Z) : SM bool :=
  head ← kget g_head;
  if (id =? 0) || (head =? NULL) then mret false
  else
    count ← kget (fun s => size (tasks s));
    terminate_loop (S count) (fun t => task_id t =? id)
      (cs "Scheduler: terminated app metadata update failed") head.

Definition scheduler_terminate_app_process (process : Z) : SM bool :=
  head ← kget g_head;
  if (process =? 0) || (head =? NULL) then mret false
  else
    count ← kget (fun s => size (tasks s));
    terminate_loop (S count) (fun t => is_user t && (task_process_id t =? process))
      (cs "Scheduler: stopped app metadata update failed") head.

Definition scheduler_current_is_user : SM bool :=
  current ← kget g_current_task;
  if current =? NULL then mret false
  else t ← task_at current; mret (is_user t && bool_decide (task_state t = TASK_READY)).

(** The three queries of the current user task: a field of it, or 0. *)
Definition current_user_field (f : Task -> Z) : SM Z :=
  user ← scheduler_current_is_user;
  if negb user then mret 0 else current ← kget g_current_task; t ← task_at current; mret (f t).

Definition scheduler_current_address_space : SM Z := current_user_field address_space.
Definition scheduler_current_app_capabilities : SM Z := current_user_field task_capabilities.
Definition scheduler_current_app_process_id : SM Z := current_user_field task_process_id.

Definition scheduler_timer_tick (frame : call_frame) (saved_rflags : Z) : SM control :=
  user ← scheduler_current_is_user;
  if negb user then mret Returned
  else
    current ← kget g_current_task;
    update_task current (fun t =>
      if quantum_ticks t <? SCHEDULER_USER_QUANTUM_TICKS then set_quantum_ticks (quantum_ticks t + 1) t else t);;
    t ← task_at current;
    if quantum_ticks t <? SCHEDULER_USER_QUANTUM_TICKS then mret Returned
    else
      update_task current (set_quantum_ticks 0);;
      schedule frame saved_rflags.

(** A call of [schedule] that must not return: the loop after it never ends. *)
Definition schedule_away (frame : call_frame) (saved_rflags : Z) : SM control :=
  c ← schedule frame saved_rflags;
  match c return SM control with Returned => khalt | _ => mret c end.

Definition scheduler_exit_current_user (exit_code : Z) (frame : call_frame) (saved_rflags : Z) : SM control :=
  user ← scheduler_current_is_user;
  if negb user then syslog_write (cs "Scheduler: rejected user exit outside a user task");; khalt
  else
    current ← kget g_current_task;
    t ← task_at current;
    mark_exited t exit_code (cs "Scheduler: app exit metadata update failed");;
    update_task current (set_task_state TASK_DEAD);;
    schedule_away frame saved_rflags.

Definition scheduler_fault_current_user (record : app_fault_record) (frame : call_frame) (saved_rflags : Z) : SM control :=
  user ← scheduler_current_is_user;
  if negb user then syslog_write (cs "Scheduler: rejected user fault outside a user task");; khalt
  else
    current ← kget g_current_task;
    t ← task_at current;
    r ← on_processes (app_process_record_fault (task_process_id t) (Some record));
    (if bool_decide (r = APP_PROCESS_OK) then mret tt else syslog_write (cs "Scheduler: app fault metadata update failed"));;
    syslog_write (cs "Scheduler: contained and terminated a user exception");;
    update_task current (set_task_state TASK_DEAD);;
    schedule_away frame saved_rflags.

Definition exit_current_task (frame : call_frame) (saved_rflags : Z) : SM control :=
  current ← kget g_current_task;
  (if current =? NULL then mret tt
   else
     t ← task_at current;
     (if is_user t then mark_exited t (-1) (cs "Scheduler: app bootstrap exit update failed") else mret tt);;
     update_task current (set_task_state TASK_DEAD));;
  schedule_away frame saved_rflags.

(** [user_task_bootstrap]: the first code of a user task. *)
Definition user_task_bootstrap (frame : call_frame) (saved_rflags : Z) : SM control :=
  let reject : SM control := syslog_write (cs "Scheduler: user task bootstrap rejected");; exit_current_task frame saved_rflags in
  current ← kget g_current_task;
  if current =? NULL then reject
  else
    t ← task_at current;
    if negb (is_user t) || (address_space t =? NULL) then reject
    else
      r ← on_processes (app_process_mark_running (task_process_id t));
      if bool_decide (r = APP_PROCESS_OK) then mret (EnterUser (user_entry t) (user_stack_top t)) else reject.

(** ** Queries *)

(** A walk of the ring from [task], until it is back at the head. *)
Fixpoint walk_ring (fuel : nat) (s : scheduler A) (task : Z) : option (list (Z * Task)) :=
  match fuel with
  | O => None
  | S fuel =>
      t ← tasks s !! task;
      if (next t =? NULL) || (next t =? g_head s) then Some [(task, t)]
      else rest ← walk_ring fuel s (next t); Some ((task, t) :: rest)
  end.

Definition scheduler_task_count (s : scheduler A) : option Z :=
  if g_head s =? NULL then Some 0
  else ring ← walk_ring (S (size (tasks s))) s (g_head s); Some (Z.of_nat (length ring)).

Definition task_info (s : scheduler A) (task : Z * Task) : scheduler_task_info :=
  let (p, t) := task in
  TaskInfo (task_id t) (copy_task_name (zeros (Z.of_nat TASK_NAME_MAX)) (Some (task_name t))) (task_state t) (is_user t)
    (p =? g_current_task s).

(** The entries written; [tasks == NULL] is not represented.  The bytes behind the end of a name, which the code
    leaves as they were, are 0. *)
Definition scheduler_snapshot_tasks_from (offset : Z) (capacity : Z) (s : scheduler A) : option (list scheduler_task_info) :=
  if (capacity =? 0) || (g_head s =? NULL) then Some []
  else
    ring ← walk_ring (S (size (tasks s))) s (g_head s);
    Some (task_info s <$> take (Z.to_nat capacity) (drop (Z.to_nat offset) ring)).

Definition scheduler_snapshot_tasks (capacity : Z) (s : scheduler A) : option (list scheduler_task_info) :=
  scheduler_snapshot_tasks_from 0 capacity s.

End Scheduler.
