(* ===== verification/SchedRing.v ===== *)
(** * kernel/scheduler.c: the circular list

    A weakest precondition for runs that can halt; the ring of tasks as a list, whose elements carry the
    fields of a task but for [next], which their position gives; the loops that walk and shorten the ring. *)

From stdpp Require Import gmap.
From S2P Require Import Prelude CString Heap Allocator Elf Manifest AppProcess Paging PagingKernel Scheduler.

(** ** Runs *)

(** [m] does not leave the objects; it returns with [Q], or halts with [R]. *)
Definition kwp {S B} (m : KM S B) (Q : B -> S -> Prop) (R : S -> Prop) (s : S) : Prop :=
  match m s with
  | Some (Done b, s') => Q b s'
  | Some (Halted, s') => R s'
  | None => False
  end.

Section kwp.
Context {S : Type}.
Implicit Types (s : S) (R : S -> Prop).

Lemma kwp_ret {B} (b : B) Q R s : Q b s -> kwp (mret b) Q R s.
Proof. done. Qed.

Lemma kwp_bind {B C} (m : KM S B) (k : B -> KM S C) Q R s :
  kwp m (fun b s' => kwp (k b) Q R s') R s -> kwp (m ≫= k) Q R s.
Proof. unfold kwp, mbind, KM_bind. destruct (m s) as [[[b|] s']|]; done. Qed.

Lemma kwp_get {B} (f : S -> B) Q R s : Q (f s) s -> kwp (kget f) Q R s.
Proof. done. Qed.

Lemma kwp_mod (f : S -> S) Q R s : Q tt (f s) -> kwp (kmod f) Q R s.
Proof. done. Qed.

Lemma kwp_lift {B} (o : option B) b Q R s : o = Some b -> Q b s -> kwp (klift o) Q R s.
Proof. intros -> HQ. exact HQ. Qed.

Lemma kwp_halt {B} (Q : B -> S -> Prop) R s : R s -> kwp khalt Q R s.
Proof. done. Qed.

Lemma kwp_mono {B} (m : KM S B) (Q Q' : B -> S -> Prop) (R R' : S -> Prop) s :
  kwp m Q R s -> (forall b s', Q b s' -> Q' b s') -> (forall s', R s' -> R' s') -> kwp m Q' R' s.
Proof. unfold kwp. destruct (m s) as [[[b|] s']|]; auto. Qed.

Lemma kwp_post {B} (m : KM S B) (Q Q' : B -> S -> Prop) R s :
  kwp m Q R s -> (forall b s', Q b s' -> Q' b s') -> kwp m Q' R s.
Proof. intros Hm HQ. by eapply kwp_mono. Qed.

(** A run that cannot halt. *)
Lemma kwp_run {B} (m : KM S B) Q s :
  kwp m Q (fun _ => False) s -> exists b s', m s = Some (Done b, s') /\ Q b s'.
Proof. unfold kwp. destruct (m s) as [[[b|] s']|]; [|done..]. intros H. by exists b, s'. Qed.

Lemma kwp_done {B} (m : KM S B) (Q : B -> S -> Prop) R s b s' : m s = Some (Done b, s') -> Q b s' -> kwp m Q R s.
Proof. intros E HQ. unfold kwp. rewrite E. exact HQ. Qed.

Lemma kwp_eq {B} (m : KM S B) Q R s b s' : kwp m Q R s -> m s = Some (Done b, s') -> Q b s'.
Proof. unfold kwp. intros H E. rewrite E in H. exact H. Qed.

End kwp.

Ltac kstep :=
  lazymatch goal with
  | |- kwp (_ ≫= _) _ _ _ => apply kwp_bind
  | |- kwp (mret _) _ _ _ => apply kwp_ret
  | |- kwp (kget _) _ _ _ => apply kwp_get
  | |- kwp (kmod _) _ _ _ => apply kwp_mod
  | |- kwp khalt _ _ _ => apply kwp_halt
  end.
Ltac ksteps := repeat kstep.

(** Destruct the test of a conditional that runs next. *)
Ltac kif H :=
  lazymatch goal with
  | |- kwp (if ?b then _ else _) _ _ _ => destruct b eqn:H
  | |- kwp ((if ?b then _ else _) ≫= _) _ _ _ => destruct b eqn:H
  end.

(** ** The ring *)

Abbreviation ring := (list (Z * Task)).

(** The address after the first [i] elements: that of the next one, or [z] at the end. *)
Definition first_of (l : ring) (z : Z) : Z := match l with [] => z | (p, _) :: _ => p end.

Fixpoint linked (m : gmap Z Task) (l : ring) (z : Z) : Prop :=
  match l with
  | [] => True
  | (p, t) :: l' => m !! p = Some (set_next (first_of l' z) t) /\ linked m l' z
  end.

(** The ring [l] from the head, in the map [m]; nothing else is there. *)
Record ring_rep (m : gmap Z Task) (head : Z) (l : ring) : Prop := RingRep {
  rr_linked : linked m l head;
  rr_head : first_of l NULL = head;
  rr_nodup : NoDup l.*1;
  rr_dom : forall p, is_Some (m !! p) -> p ∈ l.*1;
  rr_null : NULL ∉ l.*1;
  rr_next : Forall (fun x => next x.2 = 0) l }.

Lemma set_next_next a b t : set_next a (set_next b t) = set_next a t.
Proof. done. Qed.

(** Every element is normal: its own [next] says nothing. *)
Definition bare (t : Task) : Task := set_next 0 t.

Lemma bare_id t : next t = 0 -> bare t = t.
Proof. destruct t. cbn. by intros ->. Qed.

Lemma linked_app m l1 l2 z : linked m (l1 ++ l2) z <-> linked m l1 (first_of l2 z) /\ linked m l2 z.
Proof.
  induction l1 as [|[p t] l1 IH]; cbn [app linked]; [tauto|]. rewrite IH.
  assert (E : first_of (l1 ++ l2) z = first_of l1 (first_of l2 z)) by (by destruct l1 as [|[]]). rewrite E. tauto.
Qed.

Lemma linked_lookup m l z p t : linked m l z -> (p, t) ∈ l -> exists n, m !! p = Some (set_next n t).
Proof.
  intros Hl Hp. apply list_elem_of_split in Hp as (l1 & l2 & ->). apply linked_app in Hl as [_ [Hl _]]. by eexists.
Qed.

(** A map that agrees on the elements. *)
Lemma linked_ext m m' l z : (forall p, p ∈ l.*1 -> m' !! p = m !! p) -> linked m l z -> linked m' l z.
Proof.
  induction l as [|[p t] l IH]; cbn [linked]; [done|]. intros Hm [Hp Hl]. split.
  - rewrite Hm; [done|]. by left.
  - apply IH; [|done]. intros q Hq. apply Hm. by right.
Qed.

(** The last element is linked to another one. *)
Lemma linked_last m l p t z z' :
  p ∉ l.*1 -> linked m (l ++ [(p, t)]) z -> linked (<[p := set_next z' t]> m) (l ++ [(p, t)]) z'.
Proof.
  intros Hp [Hl [Ht _]]%linked_app. apply linked_app. split; [|split; [apply lookup_insert_eq|done]].
  cbn [first_of] in *. apply (linked_ext m); [|done]. intros q Hq. apply lookup_insert_ne. by intros ->.
Qed.

(** [f] on the element at [p]. *)
Definition ring_update (p : Z) (f : Task -> Task) (l : ring) : ring :=
  (fun x => if decide (x.1 = p) then (x.1, bare (f x.2)) else x) <$> l.

Lemma ring_update_keys p f l : (ring_update p f l).*1 = l.*1.
Proof. unfold ring_update. rewrite <- list_fmap_compose. apply list_fmap_ext. intros _ [q t] _. cbn. by case_decide. Qed.

Lemma ring_update_notin p f l : p ∉ l.*1 -> ring_update p f l = l.
Proof.
  induction l as [|[q t] l IH]; [done|]. cbn [ring_update fmap list_fmap]. rewrite not_elem_of_cons. intros [Hne Hl].
  cbn [fst]. rewrite decide_False by (by intros ->). f_equal. by apply IH.
Qed.

Lemma ring_update_app p f l1 l2 : ring_update p f (l1 ++ l2) = ring_update p f l1 ++ ring_update p f l2.
Proof. apply fmap_app. Qed.

Lemma ring_update_mid p f l1 t l2 :
  NoDup (l1 ++ (p, t) :: l2).*1 -> ring_update p f (l1 ++ (p, t) :: l2) = l1 ++ (p, bare (f t)) :: l2.
Proof.
  rewrite fmap_app, fmap_cons. intros (H1 & H2 & H3)%NoDup_app. cbn [fst] in *. apply NoDup_cons in H3 as [H3 _].
  rewrite ring_update_app, ring_update_notin by (intros Hp; apply (H2 p Hp); by left).
  cbn [ring_update fmap list_fmap fst snd]. rewrite decide_True by done. do 2 f_equal. by apply ring_update_notin.
Qed.

Lemma first_update p f l z : first_of (ring_update p f l) z = first_of l z.
Proof. destruct l as [|[q t] l]; [done|]. cbn. by case_decide. Qed.

Lemma linked_update m l z p t f :
  NoDup l.*1 -> (p, t) ∈ l -> linked m l z -> (forall n t, f (set_next n t) = set_next n (f t)) ->
  forall n, m !! p = Some (set_next n t) -> linked (<[p := f (set_next n t)]> m) (ring_update p f l) z.
Proof.
  intros Hnd Hp Hl Hf n Hn. apply list_elem_of_split in Hp as (l1 & l2 & ->). rewrite ring_update_mid by done.
  apply linked_app in Hl as [Hl1 [Ht Hl2]]. rewrite Ht in Hn. injection Hn as Hn.
  rewrite fmap_app, fmap_cons in Hnd. apply NoDup_app in Hnd as (_ & H2 & H3). cbn [fst] in *. apply NoDup_cons in H3 as [H3 _].
  apply linked_app. cbn [first_of linked]. split; [|split].
  - apply (linked_ext m); [|done]. intros q Hq. apply lookup_insert_ne. intros <-. apply (H2 p Hq). by left.
  - rewrite lookup_insert_eq. f_equal. unfold bare. rewrite set_next_next, <- Hf. by rewrite Hn.
  - apply (linked_ext m); [|done]. intros q Hq. apply lookup_insert_ne. by intros <-.
Qed.

(** ** Accesses to tasks *)

Section Access.
Context {A : Type}.
Implicit Types (s : scheduler A) (Q : unit -> scheduler A -> Prop).

Lemma kwp_task_at p t (Q : Task -> scheduler A -> Prop) R s : tasks s !! p = Some t -> Q t s -> kwp (task_at p) Q R s.
Proof. intros E HQ. unfold task_at. ksteps. by apply (kwp_lift _ t). Qed.

Lemma kwp_update_task p t f Q R s :
  tasks s !! p = Some t -> Q tt (set_tasks (<[p := f t]> (tasks s)) s) -> kwp (update_task p f) Q R s.
Proof. intros E HQ. unfold update_task. ksteps. apply (kwp_task_at p t); [done|]. by ksteps. Qed.

Lemma kwp_read_word a w (Q : Z -> scheduler A -> Prop) R s : words s !! a = Some w -> Q w s -> kwp (read_word a) Q R s.
Proof. intros E HQ. unfold read_word. ksteps. by apply (kwp_lift _ w). Qed.

Lemma kwp_write_word a v Q R s : Q tt (set_words (<[a := v]> (words s)) s) -> kwp (write_word a v) Q R s.
Proof. intros HQ. unfold write_word. by ksteps. Qed.

(** ** Walks *)

(** The path [l] from its first element to [z]; every element is followed by the next one. *)
Lemma linked_cons m p t l z : linked m ((p, t) :: l) z -> m !! p = Some (set_next (first_of l z) t) /\ linked m l z.
Proof. done. Qed.

(** The same ring, from one of its elements. *)
Lemma linked_rotate m l1 p t l2 :
  linked m (l1 ++ (p, t) :: l2) (first_of (l1 ++ (p, t) :: l2) NULL) -> linked m ((p, t) :: l2 ++ l1) p.
Proof.
  intros Hl. set (z := first_of _ _) in Hl. apply linked_app in Hl as [H1 [Ht H2]].
  assert (Ez : z = first_of l1 p) by (unfold z; by destruct l1 as [|[]]). cbn [linked first_of] in *. split.
  - rewrite Ht. do 2 f_equal. rewrite Ez. by destruct l2 as [|[]].
  - apply linked_app. by rewrite <- Ez.
Qed.

Lemma find_tail_spec fuel s l q t dead (Q : Z -> scheduler A -> Prop) R :
  linked (tasks s) (l ++ [(q, t)]) dead -> dead ∉ (l ++ [(q, t)]).*1 -> (length l < fuel)%nat ->
  Q q s -> kwp (find_tail fuel (first_of (l ++ [(q, t)]) dead) dead) Q R s.
Proof.
  revert l. induction fuel as [|fuel IH]; intros l Hl Hd Hf HQ; [lia|]. cbn [find_tail]. apply kwp_bind.
  destruct l as [|[p u] l]; cbn [app first_of] in *; apply linked_cons in Hl as [Hp Hl].
  - apply (kwp_task_at _ _ _ _ _ Hp). cbn [next set_next first_of]. rewrite Z.eqb_refl. by ksteps.
  - apply (kwp_task_at _ _ _ _ _ Hp). cbn [next set_next]. rewrite (proj2 (Z.eqb_neq _ _)).
    + apply IH; [done| |cbn [length] in Hf; lia|done]. rewrite fmap_cons in Hd. by apply not_elem_of_cons in Hd as [_ Hd].
    + rewrite fmap_cons in Hd. apply not_elem_of_cons in Hd as [_ Hd].
      destruct l as [|[p' u'] l]; cbn [app first_of] in *; rewrite fmap_cons in Hd; apply not_elem_of_cons in Hd as [Hd _]; cbn in Hd; congruence.
Qed.

(** The first element that is ready, or the end. *)
Definition ready (x : Z * Task) : Prop := task_state x.2 = TASK_READY.
#[export] Instance ready_dec x : Decision (ready x) := decide (task_state x.2 = TASK_READY).

Definition next_ready (l : ring) (z : Z) : Z := first_of (filter ready l) z.

Lemma find_ready_spec fuel s l z (Q : Z -> scheduler A -> Prop) R :
  linked (tasks s) l z -> z ∉ l.*1 -> (length l < fuel)%nat ->
  Q (next_ready l z) s -> kwp (find_ready fuel (first_of l z) z) Q R s.
Proof.
  unfold next_ready. revert l. induction fuel as [|fuel IH]; intros l Hl Hz Hf HQ; [lia|]. cbn [find_ready].
  destruct l as [|[p t] l]; cbn [first_of].
  - rewrite Z.eqb_refl. by ksteps.
  - apply linked_cons in Hl as [Hp Hl]. rewrite fmap_cons in Hz. apply not_elem_of_cons in Hz as [Hne Hz]. cbn [fst] in Hne.
    rewrite (proj2 (Z.eqb_neq p z)) by congruence. apply kwp_bind. apply (kwp_task_at _ _ _ _ _ Hp). cbn [task_state next set_next].
    rewrite filter_cons in HQ. unfold ready in HQ at 1. cbn [snd] in HQ.
    case_bool_decide as Hr; [rewrite decide_True in HQ by done; by ksteps|]. rewrite decide_False in HQ by done.
    apply IH; [done|done|cbn [length] in Hf; lia|done].
Qed.

(** The elements as they are in memory. *)
Fixpoint in_memory (l : ring) (z : Z) : ring :=
  match l with
  | [] => []
  | (p, t) :: l => (p, set_next (first_of l z) t) :: in_memory l z
  end.

(** The walk of the whole ring. *)
Lemma walk_ring_spec fuel s l :
  linked (tasks s) l (g_head s) -> NULL ∉ l.*1 -> g_head s <> NULL -> g_head s ∉ (tail l).*1 -> l <> [] -> (length l <= fuel)%nat ->
  walk_ring fuel s (first_of l (g_head s)) = Some (in_memory l (g_head s)).
Proof.
  revert l. induction fuel as [|fuel IH]; intros l Hl Hn Hz Hh Hne Hf; (destruct l as [|[p t] l]; [done|]); [cbn in Hf; lia|].
  cbn [walk_ring first_of in_memory]. apply linked_cons in Hl as [Hp Hl]. rewrite Hp, some_bind. cbn [next set_next tail] in *.
  destruct l as [|[q u] l]; cbn [first_of] in *.
  - by rewrite Z.eqb_refl, orb_true_r.
  - rewrite !fmap_cons in Hn, Hh. rewrite !not_elem_of_cons in Hn. apply not_elem_of_cons in Hh as [Hh1 Hh2]. cbn [fst] in *.
    destruct Hn as [_ Hn]. assert (Hq : NULL <> q) by (rewrite fmap_cons in Hn; by apply not_elem_of_cons in Hn as [Hq _]).
    rewrite (proj2 (Z.eqb_neq q NULL)), (proj2 (Z.eqb_neq q (g_head s))) by congruence. cbn [orb].
    change q with (first_of ((q, u) :: l) (g_head s)). by rewrite IH by (done || cbn [length] in *; lia).
Qed.

Lemma in_memory_length l z : length (in_memory l z) = length l.
Proof. induction l as [|[p t] l IH]; [done|]. cbn. by rewrite IH. Qed.

Lemma in_memory_bare l z : Forall (fun x => next x.2 = 0) l -> (fun x => (x.1, bare x.2)) <$> in_memory l z = l.
Proof.
  induction l as [|[p t] l IH]; [done|]. intros [Ht Hl]%Forall_cons. cbn [in_memory fmap list_fmap fst snd].
  rewrite IH by done. do 2 f_equal. unfold bare. cbn in Ht. rewrite set_next_next. by apply bare_id.
Qed.

End Access.

(** ** Changes of the ring *)

Lemma ring_lookup m h l p t : ring_rep m h l -> (p, t) ∈ l -> exists n, m !! p = Some (set_next n t).
Proof. intros [Hl _ _ _ _ _] Hp. by apply (linked_lookup _ _ _ _ _ Hl). Qed.

Lemma ring_size m h l : ring_rep m h l -> size m = length l.
Proof.
  intros [Hl _ Hnd Hdom _ _]. rewrite <- size_dom. rewrite <- (length_fmap fst l), <- (size_list_to_set (C := gset Z) _ Hnd). f_equal.
  apply set_eq. intros p. rewrite elem_of_dom, elem_of_list_to_set. split; [apply Hdom|].
  intros ([q t] & -> & Hin)%list_elem_of_fmap. destruct (linked_lookup _ _ _ _ _ Hl Hin) as (n & E). by eexists.
Qed.

Lemma ring_first m h l : ring_rep m h l -> first_of l h = h.
Proof. intros [_ Hh _ _ _ _]. by destruct l as [|[]]. Qed.

Lemma dom_delete_insert (m : gmap Z Task) d q v p : is_Some (delete d (<[q := v]> m) !! p) -> p <> d /\ (p = q \/ is_Some (m !! p)).
Proof.
  destruct (decide (p = d)) as [->|Hd]; [rewrite lookup_delete_eq; by intros []|]. rewrite lookup_delete_ne by done.
  destruct (decide (p = q)) as [->|Hq]; [tauto|]. rewrite lookup_insert_ne by done. tauto.
Qed.

(** The first element goes; the last one is linked to the second. *)
Lemma ring_drop_head m d t l q u :
  ring_rep m d ((d, t) :: l ++ [(q, u)]) ->
  let h := first_of (l ++ [(q, u)]) NULL in ring_rep (delete d (<[q := set_next h u]> m)) h (l ++ [(q, u)]).
Proof.
  intros [[_ Hl] _ Hnd Hdom Hnull Hnext] h. rewrite fmap_cons in Hnd, Hnull, Hdom. apply NoDup_cons in Hnd as [Hd Hnd]. cbn [fst] in *.
  assert (Hq : q ∉ l.*1).
  { rewrite fmap_app in Hnd. apply NoDup_app in Hnd as (_ & Hnd & _). intros Hq. apply (Hnd q Hq). by left. }
  constructor.
  - apply (linked_ext (<[q := set_next h u]> m)); [|by apply (linked_last m l q u d)].
    intros p Hp. apply lookup_delete_ne. by intros ->.
  - done.
  - done.
  - intros p [Hne [->|Hp]]%dom_delete_insert; [rewrite fmap_app; apply elem_of_app; right; by left|].
    apply Hdom in Hp. by apply elem_of_cons in Hp as [?|?].
  - by apply not_elem_of_cons in Hnull as [_ ?].
  - by apply Forall_cons in Hnext as [_ ?].
Qed.

(** An element after [q] goes. *)
Lemma ring_drop_mid m h l1 q u d t l2 :
  ring_rep m h (l1 ++ (q, u) :: (d, t) :: l2) ->
  ring_rep (delete d (<[q := set_next (first_of l2 h) u]> m)) h (l1 ++ (q, u) :: l2).
Proof.
  intros [Hl Hh Hnd Hdom Hnull Hnext]. apply linked_app in Hl as [Hl1 [Hq [Hd Hl2]]]. cbn [first_of] in *.
  rewrite !fmap_app, !fmap_cons in *. cbn [fst] in *. apply NoDup_app in Hnd as (Hn1 & Hn12 & (Hnq & (Hnd & Hn2)%NoDup_cons)%NoDup_cons).
  apply not_elem_of_cons in Hnq as [Hqd Hnq].
  assert (Hsame : forall p, p <> d -> p <> q -> delete d (<[q := set_next (first_of l2 h) u]> m) !! p = m !! p).
  { intros p H1 H2. by rewrite lookup_delete_ne, lookup_insert_ne. }
  constructor.
  - apply linked_app. split; [|split]; cbn [first_of].
    + apply (linked_ext m); [|done]. intros p Hp. apply Hsame; intros ->; apply (Hn12 _ Hp); set_solver.
    + by rewrite lookup_delete_ne, lookup_insert_eq.
    + apply (linked_ext m); [|done]. intros p Hp. apply Hsame; by intros ->.
  - rewrite <- Hh. by destruct l1 as [|[]].
  - rewrite fmap_app, fmap_cons. apply NoDup_app. split; [done|]. split; [|by constructor]. intros p Hp Hin. apply (Hn12 p Hp).
    cbn [fst] in Hin. set_solver.
  - rewrite fmap_app, fmap_cons. intros p [Hne [->|Hp]]%dom_delete_insert; [set_solver|]. apply Hdom in Hp. cbn [fst]. set_solver.
  - rewrite fmap_app, fmap_cons. cbn [fst]. set_solver.
  - apply Forall_app in Hnext as [? [? [_ ?]%Forall_cons]%Forall_cons]. apply Forall_app. split; [done|]. by constructor.
Qed.

(** A new element after the head. *)
Definition insert_second (x : Z * Task) (l : ring) : ring := match l with [] => [x] | y :: l => y :: x :: l end.

Lemma insert_second_perm x l : insert_second x l ≡ₚ x :: l.
Proof. destruct l as [|y l]; [done|]. apply perm_swap. Qed.

Lemma ring_insert m h d t l p u n :
  ring_rep m h ((d, t) :: l) -> p ∉ ((d, t) :: l).*1 -> p <> NULL -> next u = 0 -> n = first_of l h ->
  ring_rep (<[d := set_next p t]> (<[p := set_next n u]> m)) h ((d, t) :: (p, u) :: l).
Proof.
  intros [[Hd Hl] Hh Hnd Hdom Hnull Hnext] Hp Hp0 Hu ->. rewrite !fmap_cons in *. cbn [fst] in *.
  apply not_elem_of_cons in Hp as [Hpd Hp]. apply NoDup_cons in Hnd as [Hdl Hnd]. constructor.
  - cbn [linked first_of]. split; [|split].
    + apply lookup_insert_eq.
    + by rewrite lookup_insert_ne, lookup_insert_eq.
    + apply (linked_ext m); [|done]. intros q Hq. by rewrite !lookup_insert_ne by (intros ->; done).
  - done.
  - rewrite !fmap_cons. cbn [fst]. constructor; [by apply not_elem_of_cons|]. by constructor.
  - rewrite !fmap_cons. cbn [fst]. intros q Hq. destruct (decide (q = d)) as [->|]; [by left|]. right.
    destruct (decide (q = p)) as [->|]; [by left|]. right. rewrite !lookup_insert_ne in Hq by done.
    apply Hdom in Hq. by apply elem_of_cons in Hq as [?|?].
  - rewrite !fmap_cons. cbn [fst]. apply not_elem_of_cons in Hnull as [? ?]. apply not_elem_of_cons. split; [done|]. by apply not_elem_of_cons.
  - apply Forall_cons in Hnext as [? ?]. constructor; [done|]. by constructor.
Qed.

(** Fields other than [next] are changed in place. *)
Lemma ring_update_rep m h l p t f n :
  ring_rep m h l -> (p, t) ∈ l -> (forall n t, f (set_next n t) = set_next n (f t)) -> m !! p = Some (set_next n t) ->
  ring_rep (<[p := f (set_next n t)]> m) h (ring_update p f l).
Proof.
  intros [Hl Hh Hnd Hdom Hnull Hnext] Hp Hf Hm. constructor.
  - by apply linked_update.
  - rewrite <- Hh. apply first_update.
  - by rewrite ring_update_keys.
  - intros q Hq. rewrite ring_update_keys. apply Hdom. destruct (decide (q = p)) as [->|Hne]; [by rewrite Hm|].
    by rewrite lookup_insert_ne in Hq.
  - by rewrite ring_update_keys.
  - apply Forall_fmap. apply (Forall_impl _ _ _ Hnext). intros [q u] Hu. cbn. by case_decide.
Qed.

Lemma ring_update_in p f l q u : (q, u) ∈ ring_update p f l <-> exists t, (q, t) ∈ l /\ u = if decide (q = p) then bare (f t) else t.
Proof.
  unfold ring_update. rewrite list_elem_of_fmap. split.
  - intros ([q' t] & E & Hin). cbn [fst snd] in E. case_decide as Hq; injection E as -> ->; exists t; (split; [done|]);
      [by rewrite decide_True|by rewrite decide_False].
  - intros (t & Hin & ->). exists (q, t). split; [|done]. cbn [fst snd]. by case_decide.
Qed.

Lemma ring_member m h l p t u : ring_rep m h l -> (p, t) ∈ l -> (p, u) ∈ l -> t = u.
Proof.
  intros [_ _ Hnd _ _ _] Ht Hu. apply list_elem_of_lookup in Ht as (i & Hi), Hu as (j & Hj).
  assert (i = j) as ->; [|congruence]. apply (NoDup_lookup _ i j p Hnd); rewrite list_lookup_fmap; [by rewrite Hi|by rewrite Hj].
Qed.

Lemma ring_update_id m h p l : ring_rep m h l -> ring_update p (fun t => t) l = l.
Proof.
  intros [_ _ _ _ _ Hnext]. unfold ring_update. rewrite <- (list_fmap_id l) at 2. apply list_fmap_ext. intros i [q t] Hi.
  pose proof (Forall_lookup_1 _ _ _ _ Hnext Hi) as Hn. cbn in Hn |- *. case_decide; [|done]. by rewrite bare_id.
Qed.

Lemma ring_update_compose p f g l :
  (forall n t, f (set_next n t) = set_next n (f t)) -> ring_update p f (ring_update p g l) = ring_update p (fun t => f (g t)) l.
Proof.
  intros Hf. unfold ring_update. rewrite <- list_fmap_compose. apply list_fmap_ext. intros i [q t] _. cbn.
  destruct (decide (q = p)) as [->|Hq]; cbn [fst snd]; [|by rewrite decide_False].
  rewrite decide_True by done. unfold bare. by rewrite !Hf.
Qed.

Lemma ring_update_comm p q f g l : p <> q -> ring_update p f (ring_update q g l) = ring_update q g (ring_update p f l).
Proof.
  intros Hne. unfold ring_update. rewrite <- !list_fmap_compose. apply list_fmap_ext. intros i [k t] _. cbn.
  destruct (decide (k = p)), (decide (k = q)); cbn [fst snd]; repeat case_decide; congruence.
Qed.

(** The elements after [c], up to [c] again. *)
Fixpoint after (c : Z) (l : ring) : ring :=
  match l with [] => [] | x :: l => if decide (x.1 = c) then l else after c l end.
Fixpoint before (c : Z) (l : ring) : ring :=
  match l with [] => [] | x :: l => if decide (x.1 = c) then [] else x :: before c l end.
Definition following (c : Z) (l : ring) : ring := after c l ++ before c l.

Lemma following_split c t l1 l2 : c ∉ l1.*1 -> following c (l1 ++ (c, t) :: l2) = l2 ++ l1.
Proof.
  intros Hc. unfold following.
  assert (E : after c (l1 ++ (c, t) :: l2) = l2 /\ before c (l1 ++ (c, t) :: l2) = l1); [|by destruct E as [-> ->]].
  induction l1 as [|[p u] l1 IH]; cbn [app after before fst].
  - by rewrite !decide_True by done.
  - rewrite fmap_cons in Hc. apply not_elem_of_cons in Hc as [Hp Hc]. cbn [fst] in Hp. rewrite !decide_False by congruence.
    destruct (IH Hc) as [-> ->]. done.
Qed.

Lemma ring_split m h l c t : ring_rep m h l -> (c, t) ∈ l -> exists l1 l2, l = l1 ++ (c, t) :: l2 /\ c ∉ l1.*1 /\ c ∉ l2.*1.
Proof.
  intros [_ _ Hnd _ _ _] (l1 & l2 & ->)%list_elem_of_split. exists l1, l2. split; [done|].
  rewrite fmap_app, fmap_cons in Hnd. apply NoDup_app in Hnd as (_ & H12 & [Hc _]%NoDup_cons). split; [|done].
  intros Hin. apply (H12 c Hin). by left.
Qed.
