(* ===== verification/SchedInv.v ===== *)
(** * kernel/scheduler.c: what the scheduler needs of the heap and of the page tables

    Blocks, guard pages and address spaces as one resource: the blocks of the allocator, the guard pages as
    a set, the spaces as the live ones behind their pointers.

    Then the invariant of the scheduler over them. *)

From stdpp Require Import gmap.
From S2P Require Import PagingTree PagingSpace PagingMap Prelude CString Heap Allocator Elf Manifest AppProcess Paging PagingKernel PagingGuard PagingClaims Scheduler SchedRing.

(** The address of a live space. *)
Definition live_self (v : live) : Z := self (live_space v).

(** The structs behind the pointers are the live spaces. *)
Definition spaces_rep (m : gmap Z paging_address_space) (w : list live) : Prop :=
  NoDup (live_self <$> w) /\ forall p space, m !! p = Some space <-> exists v, v ∈ w /\ live_space v = space /\ live_self v = p.

Lemma spaces_rep_perm m w w' : spaces_rep m w -> w ≡ₚ w' -> spaces_rep m w'.
Proof. intros [Hnd Hm] Hp. split; [by rewrite <- Hp|]. intros p space. rewrite Hm. by setoid_rewrite Hp. Qed.

Lemma spaces_rep_lookup m w p : spaces_rep m w -> p ∈ live_self <$> w -> exists v w', w ≡ₚ v :: w' /\ live_self v = p /\ m !! p = Some (live_space v).
Proof.
  intros [Hnd Hm] (v & -> & Hv)%list_elem_of_fmap. apply list_elem_of_split in Hv as (l1 & l2 & ->).
  exists v, (l1 ++ l2). split; [symmetry; apply Permutation_middle|]. split; [done|]. apply Hm. exists v. split; [|done].
  apply elem_of_app. right. by left.
Qed.

Lemma spaces_rep_delete m v w : spaces_rep m (v :: w) -> spaces_rep (delete (live_self v) m) w.
Proof.
  intros [[Hni Hnd]%NoDup_cons Hm]. split; [done|]. intros p space. rewrite lookup_delete_Some, Hm. split.
  - intros [Hne (u & [->|Hu]%elem_of_cons & E1 & E2)]; [done|]. by exists u.
  - intros (u & Hu & E1 & E2). split; [|exists u; split; [by right|done]].
    intros E3. apply Hni. rewrite E3, <- E2. by apply list_elem_of_fmap_2.
Qed.

(** One entry that is changed in place keeps the PML4. *)
Lemma change_guard_entry_pml4 {A} `{Allocator A} p change f (k k' : paging A) ok :
  change_guard_entry p change f k = Some (ok, k') -> g_pml4 (tables k') = g_pml4 (tables k).
Proof.
  unfold change_guard_entry. destruct (_ || _); [by intros [= _ <-]|]. destruct (kernel_guard_page_entry p) as [[[t|] i]|]; [| |by intros [= _ <-]].
  all: destruct (guard_entry_read _ _) as [e|]; [|done]; rewrite some_bind; destruct (negb _); [by intros [= _ <-]|].
  all: destruct (change e); [|by intros [= _ <-]]; cbn [guard_entry_write].
  - destruct (update_row _ _ _); [|done]. rewrite !some_bind. by intros [= _ <-].
  - destruct (set_word _ _ _); [|done]. rewrite !some_bind. by intros [= _ <-].
Qed.

Section Resources.
Context {A : Type} `{AllocatorLaws A} (addresses : table_addresses) (first_byte last_byte : Z).

(** The spaces [w] beside the blocks [bs], the pages [G] guarded. *)
Definition kernel_part (k : paging A) (m : gmap Z paging_address_space) (w : list live) (G : gset Z) (bs : list (Z * Z)) : Prop :=
  world_ok k w bs /\ kernel_ok addresses k G first_byte last_byte /\ spaces_rep m w.

Implicit Types (k : paging A) (w : list live) (G : gset Z) (bs : list (Z * Z)).

Lemma world_ok_blocks k w bs bs' : world_ok k w bs -> bs ≡ₚ bs' -> world_ok k w bs'.
Proof. intros ((b & Hc & Ho) & Hr) Hp. split; [|done]. exists b. split; [done|]. apply (owns_perm _ _ _ Ho). by rewrite Hp. Qed.

Lemma world_ok_change k k' w bs bs' :
  world_ok k w bs -> (forall b, owns (allocator k) (b ++ bs) -> owns (allocator k') (b ++ bs')) ->
  frames k' = frames k -> g_pml4 (tables k') = g_pml4 (tables k) -> g_nx_enabled k' = g_nx_enabled k -> world_ok k' w bs'.
Proof.
  intros ((b & Hc & Ho) & Hl & Hk) Hown Ef E4 En. split; [exists b; auto|]. rewrite E4. split; [|done].
  apply (Forall_impl _ _ _ Hl). intros v [Ht Hp]. split; [|done]. by rewrite E4, Ef, En.
Qed.

Lemma kernel_ok_change k k' G :
  kernel_ok addresses k G first_byte last_byte -> tables k' = tables k -> g_paging_ready k' = g_paging_ready k ->
  g_nx_enabled k' = g_nx_enabled k -> kernel_ok addresses k' G first_byte last_byte.
Proof. intros [H1 H2 H3 H4 H5 H6] Et Er En. by constructor; rewrite ?Et, ?Er, ?En. Qed.

(** Every block is above the floor, and two of them are apart. *)
Lemma world_blocks k w bs : world_ok k w bs -> exists bs', owns (allocator k) (bs ++ bs').
Proof. intros ((b & _ & Ho) & _). exists b. apply (owns_perm _ _ _ Ho). apply Permutation_app_comm. Qed.

Lemma kernel_part_placed k m w G p z bs : kernel_part k m w G ((p, z) :: bs) -> HEAP_FLOOR <= p /\ 0 <= z /\ p + z <= ADDRESS_LIMIT.
Proof. intros ((b & Ho)%world_blocks & _). apply owns_placed in Ho. lia. Qed.

Lemma kernel_part_disjoint k m w G p z q y bs : kernel_part k m w G ((p, z) :: (q, y) :: bs) -> p + z <= q \/ q + y <= p.
Proof. intros ((b & Ho)%world_blocks & _). by apply owns_disjoint in Ho. Qed.

Lemma kernel_part_in k m w G p z bs q y : kernel_part k m w G ((p, z) :: bs) -> (q, y) ∈ bs -> p + z <= q \/ q + y <= p.
Proof.
  intros (Hw & Hk & Hs) Hq. apply list_elem_of_split in Hq as (l1 & l2 & ->).
  apply (kernel_part_disjoint k m w G p z q y (l1 ++ l2)). split; [|done]. apply (world_ok_blocks _ _ _ _ Hw).
  by rewrite <- Permutation_middle.
Qed.

Lemma kernel_part_blocks k m w G bs bs' : kernel_part k m w G bs -> bs ≡ₚ bs' -> kernel_part k m w G bs'.
Proof. intros (Hw & Hr) Hp. split; [|done]. by apply (world_ok_blocks _ _ bs). Qed.

Lemma kernel_part_perm k m w w' G bs : kernel_part k m w G bs -> w ≡ₚ w' -> kernel_part k m w' G bs.
Proof. intros (Hw & Hk & Hs) Hp. split; [by apply (world_ok_perm _ w)|]. split; [done|]. by apply (spaces_rep_perm _ w). Qed.

(** ** The calls *)

Lemma kernel_part_log k m w G bs message : kernel_part k m w G bs -> kernel_part (paging_log message k) m w G bs.
Proof.
  intros (Hw & Hk & Hs). split; [|split; [by apply (kernel_ok_change k)|done]].
  apply (world_ok_change k _ w bs bs Hw); [|done..]. intros b. apply write_log_law.
Qed.

Lemma kernel_part_cr3 k m w G bs v : kernel_part k m w G bs -> kernel_part (set_cr3 v k) m w G bs.
Proof.
  intros (Hw & Hk & Hs). split; [|split; [by apply (kernel_ok_change k)|done]]. by apply (world_ok_change k _ w bs bs Hw).
Qed.

Lemma kernel_part_alloc k m w G bs n :
  kernel_part k m w G bs -> 0 < n <= SIZE_MAX - 15 ->
  exists p a, alloc n (allocator k) = Some (p, a) /\
    ((p = NULL /\ kernel_part (set_allocator a k) m w G bs) \/
     exists z, n <= z /\ p <> NULL /\ kernel_part (set_allocator a k) m w G ((p, z) :: bs)).
Proof.
  intros (((b & Hc & Ho) & Hl & H4) & Hk & Hs) Hn. destruct (alloc_law _ _ n Ho Hn) as (p & a & E & Hp).
  exists p, a. split; [done|].
  assert (Hk' : kernel_ok addresses (set_allocator a k) G first_byte last_byte) by (by apply (kernel_ok_change k)).
  destruct Hp as [[-> Ha]|(z & Hz & Ha)]; [left|right].
  - split; [done|]. split; [|done]. split; [by exists b|done].
  - exists z. split; [done|]. split; [apply owns_placed in Ha; unfold HEAP_FLOOR, NULL in *; lia|].
    split; [|done]. split; [|done]. exists b. split; [done|]. apply (owns_perm _ _ _ Ha). by rewrite Permutation_middle.
Qed.

Lemma kernel_part_release k m w G bs p z :
  kernel_part k m w G ((p, z) :: bs) ->
  exists a, release p (allocator k) = Some a /\ kernel_part (set_allocator a k) m w G bs.
Proof.
  intros (((b & Hc & Ho) & Hl & H4) & Hk & Hs).
  destruct (release_law (allocator k) p z (b ++ bs)) as (a & E & Ha); [apply (owns_perm _ _ _ Ho); by rewrite Permutation_middle|].
  exists a. split; [done|]. split; [|split; [by apply (kernel_ok_change k)|done]]. split; [by exists b|done].
Qed.

Lemma decide_add (q r : Z) G : bool_decide (r ∈ {[q]} ∪ G) = if decide (r = q) then true else bool_decide (r ∈ G).
Proof.
  destruct (decide (r = q)) as [->|Hne].
  - apply bool_decide_eq_true_2, elem_of_union. left. by apply elem_of_singleton.
  - apply bool_decide_ext. rewrite elem_of_union, elem_of_singleton. tauto.
Qed.

Lemma decide_remove (q r : Z) G : q ∉ G -> bool_decide (r ∈ G) = if decide (r = q) then false else bool_decide (r ∈ {[q]} ∪ G).
Proof.
  intros Hq. destruct (decide (r = q)) as [->|Hne]; [by apply bool_decide_eq_false_2|].
  apply bool_decide_ext. rewrite elem_of_union, elem_of_singleton. tauto.
Qed.

(** The same memory; the set of guard pages changes. *)
Lemma kernel_part_tables k k' m w G G' bs :
  kernel_part k m w G bs -> kernel_ok addresses k' G' first_byte last_byte -> frames k' = frames k -> allocator k' = allocator k ->
  g_nx_enabled k' = g_nx_enabled k -> g_pml4 (tables k') = g_pml4 (tables k) -> kernel_part k' m w G' bs.
Proof.
  intros (Hw & _ & Hs) Hk Ef Ea En E4. split; [|done]. apply (world_ok_change k _ w bs bs Hw); [|done..]. intros b. by rewrite Ea.
Qed.

Lemma kernel_part_guard k m w G bs p :
  kernel_part k m w G bs -> 0 <= p < 2 ^ 64 ->
  exists ok k', paging_kernel_guard_page p k = Some (ok, k') /\ (ok = true <-> p mod 4096 = 0 /\ guardable (p / 4096)) /\
    kernel_part k' m w (if ok then {[p / 4096]} ∪ G else G) bs /\ cr3 k' = cr3 k.
Proof.
  intros Hkp Hp. pose proof Hkp as (_ & Hk & _). unfold paging_kernel_guard_page.
  destruct (guard_operation_ok addresses p (has_any PAGE_PRESENT) (fun e => Z.ldiff e PAGE_PRESENT) true G ({[p / 4096]} ∪ G)
    first_byte last_byte k Hp Hk) as (ok & k' & E & Hok & Hk' & Ef & Ea & Ec & En).
  { intros nxq gq q. apply guard_word. }
  { intros r. apply decide_add. }
  { intros q. rewrite elem_of_union, elem_of_singleton. tauto. }
  exists ok, k'. split; [done|]. split; [done|]. split; [|done]. apply (kernel_part_tables k _ _ _ G); [done..|].
  by apply change_guard_entry_pml4 in E.
Qed.

Lemma kernel_part_unguard k m w G bs p :
  kernel_part k m w ({[p / 4096]} ∪ G) bs -> 0 <= p < 2 ^ 64 -> p / 4096 ∉ G -> p mod 4096 = 0 -> guardable (p / 4096) ->
  exists k', paging_kernel_unguard_page p k = Some (true, k') /\ kernel_part k' m w G bs /\ cr3 k' = cr3 k.
Proof.
  intros Hkp Hp Hni Hm Hg. pose proof Hkp as (_ & Hk & _). unfold paging_kernel_unguard_page.
  destruct (guard_operation_ok addresses p (fun e => negb (has_any PAGE_PRESENT e)) (fun e => Z.lor e (Z.lor PAGE_PRESENT PAGE_RW)) false
    ({[p / 4096]} ∪ G) G first_byte last_byte k Hp Hk) as (ok & k' & E & Hok & Hk' & Ef & Ea & Ec & En).
  { intros nxq gq q. apply unguard_word. }
  { intros r. by apply decide_remove. }
  { intros q Hq. left. apply elem_of_union. by right. }
  assert (ok = true) as -> by (by apply Hok). exists k'. split; [done|]. split; [|done].
  apply (kernel_part_tables k _ _ _ ({[p / 4096]} ∪ G)); [done..|]. by apply change_guard_entry_pml4 in E.
Qed.

(** Two live spaces have different roots. *)
Lemma world_root_in v w bs k : world_ok k (v :: w) bs -> pml4 (live_space v) ∈ map page (allocations (live_space v)).
Proof.
  intros (_ & Hl & _). apply Forall_cons in Hl as [[Ht Hp] _]. rewrite Hp.
  apply (tree_pages_in _ (4%nat, 0) _ 0). apply (tree_root _ _ _ _ _ Ht).
Qed.

Lemma world_roots_differ k v u w bs : world_ok k (v :: u :: w) bs -> pml4 (live_space v) <> pml4 (live_space u).
Proof.
  intros Hw. pose proof (world_root_in _ _ _ _ Hw) as Hv.
  pose proof (world_ok_perm _ _ (u :: v :: w) _ Hw (perm_swap _ _ _)) as Hw2. pose proof (world_root_in _ _ _ _ Hw2) as Hu.
  apply world_focus in Hw2 as (others & Hc & _ & _ & _ & Hown & _). intros E. rewrite E in Hv.
  destruct (world_claims_in _ _ v _ Hc ltac:(by left) Hv) as (b & Hb & Hin).
  apply (owned_outside _ _ _ _ b Hown) in Hin; [by apply Hin|]. right. apply elem_of_app. by left.
Qed.

Lemma kernel_part_destroy k m v w G bs :
  kernel_part k m (v :: w) G bs ->
  exists k', paging_address_space_destroy addresses (Some (live_space v)) k = Some k' /\
    kernel_part k' (delete (live_self v) m) w G bs /\
    (cr3 k = pml4_address addresses \/ (exists u, u ∈ w /\ cr3 k = pml4 (live_space u)) -> cr3 k' = cr3 k).
Proof.
  intros (Hw & Hk & Hs). destruct (world_destroy addresses k v w bs Hw) as (k' & E & Hw' & _ & Et).
  pose proof Hw as (others & _ & _ & _ & Hsp)%world_focus.
  destruct (paging_address_space_destroy_spec addresses k (live_space v) (live_tree v) v.2 (others ++ bs) Hsp)
    as (k2 & E2 & _ & _ & _ & En & Ec). rewrite E in E2. injection E2 as <-.
  exists k'. split; [done|]. split.
  - split; [done|]. split; [|by apply spaces_rep_delete]. apply (kernel_ok_change k); [done..| |done].
    revert E. unfold paging_address_space_destroy. set (k1 := if negb _ && _ then _ else _).
    assert (E1 : g_paging_ready k1 = g_paging_ready k) by (unfold k1; by destruct (_ && _)).
    destruct Hsp as (_ & Hown & _).
    assert (Hown1 : owned k1 (allocations (live_space v)) ((live_self v, v.2) :: others ++ bs)).
    { unfold k1. by destruct (_ && _). }
    destruct (free_allocations_spec _ _ _ Hown1) as (k2 & -> & (_ & _ & Er & _) & _). rewrite some_bind.
    destruct (release _ _); [|done]. rewrite some_bind. intros [= <-]. cbn [g_paging_ready set_allocator]. by rewrite Er.
  - rewrite Ec. destruct (Z.eqb_spec (Z.land (cr3 k) PAGE_ADDRESS_MASK) (pml4 (live_space v))) as [Em|]; [|done].
    intros [->|(u & Hu & Eu)]; [done|]. exfalso. apply list_elem_of_split in Hu as (l1 & l2 & ->).
    assert (Hw2 : world_ok k (v :: u :: l1 ++ l2) bs).
    { apply (world_ok_perm _ _ _ _ Hw). by rewrite <- Permutation_middle. }
    pose proof (world_roots_differ _ _ _ _ _ Hw2) as Hne. apply Hne. rewrite <- Em, Eu.
    pose proof (world_ok_perm _ _ (u :: v :: l1 ++ l2) _ Hw2 (perm_swap _ _ _)) as (_ & Hl & _).
    apply Forall_cons in Hl as [[Htu _] _]. by destruct (root_page_address _ _ _ _ _ Htu) as (-> & _).
Qed.

End Resources.

(** * kernel/scheduler.c: the invariant

    Every task of the ring owns its block, its stack with a guard page and an intact canary, and its address
    space; a task that is not running has its context on its stack. *)

(** ** Stacks *)

(** The boot stack is a page-aligned part of the low image behind its guard page, below the heap. *)
Record symbols_ok (symbols : symbols) : Prop := {
  sy_guard : 0 < g_kernel_stack_guard_page symbols;
  sy_aligned : g_kernel_stack_guard_page symbols mod 4096 = 0;
  sy_guardable : guardable (g_kernel_stack_guard_page symbols / 4096);
  sy_stack : g_kernel_stack symbols = g_kernel_stack_guard_page symbols + 4096;
  sy_top : g_kernel_stack symbols + 256 <= g_kernel_stack_top symbols <= HEAP_FLOOR;
}.

Record boot_stack (symbols : symbols) (t : Task) : Prop := {
  bs_guard : kernel_stack_guard t = g_kernel_stack_guard_page symbols;
  bs_canary : kernel_stack_canary t = g_kernel_stack symbols;
  bs_top : kernel_stack_top t = g_kernel_stack_top symbols;
}.

(** A stack in a block of the heap: guard page, canary, stack. *)
Record own_stack (t : Task) : Prop := {
  os_raw : HEAP_FLOOR <= kernel_stack t <= kernel_stack_guard t;
  os_aligned : kernel_stack_guard t mod 4096 = 0;
  os_guardable : guardable (kernel_stack_guard t / 4096);
  os_canary : kernel_stack_canary t = kernel_stack_guard t + 4096;
  os_top : kernel_stack_top t = kernel_stack_canary t + STACK_SIZE;
  os_end : kernel_stack_top t <= kernel_stack t + STACK_ALLOCATION_SIZE <= ADDRESS_LIMIT;
}.

Definition stack_ok (symbols : symbols) (t : Task) : Prop :=
  if owns_kernel_stack t then own_stack t else boot_stack symbols t.

Lemma stack_bounds symbols t :
  symbols_ok symbols -> stack_ok symbols t ->
  0 < kernel_stack_guard t /\ kernel_stack_guard t mod 4096 = 0 /\ kernel_stack_canary t = kernel_stack_guard t + 4096 /\
  kernel_stack_canary t + 256 <= kernel_stack_top t <= ADDRESS_LIMIT.
Proof.
  intros [H1 H2 H3 H4 H5] Hs. unfold stack_ok in Hs. destruct (owns_kernel_stack t); destruct Hs; unfold HEAP_FLOOR, ADDRESS_LIMIT, STACK_SIZE in *; split_and!; lia || congruence.
Qed.

(** Two stacks with their guard pages do not overlap. *)
Definition stacks_apart (t u : Task) : Prop :=
  kernel_stack_top t <= kernel_stack_guard u \/ kernel_stack_top u <= kernel_stack_guard t.

(** ** Words on stacks *)

Definition canary_ok (wd : gmap Z Z) (t : Task) : Prop :=
  forall i, (i < STACK_CANARY_WORDS)%nat -> wd !! canary_address t i = Some (stack_canary_value (task_id t) i).

(** The eight words that [context_switch] pops are on the stack, above the canary. *)
Definition frame_ok (wd : gmap Z Z) (t : Task) : Prop :=
  kernel_stack_canary t + 64 <= rsp t /\ rsp t + 64 <= kernel_stack_top t /\
  forall i, 0 <= i < 8 -> is_Some (wd !! (rsp t + 8 * i)).

(** The words of a stack are the same. *)
Definition stack_same (wd wd' : gmap Z Z) (t : Task) : Prop :=
  forall a, kernel_stack_canary t <= a < kernel_stack_top t -> wd' !! a = wd !! a.

Lemma canary_ok_same wd wd' t :
  kernel_stack_canary t + 256 <= kernel_stack_top t -> stack_same wd wd' t -> canary_ok wd t -> canary_ok wd' t.
Proof.
  intros Hb Hs Hc i Hi. rewrite Hs; [by apply Hc|]. unfold canary_address, STACK_CANARY_WORDS in *. lia.
Qed.

Lemma frame_ok_same wd wd' t : stack_same wd wd' t -> frame_ok wd t -> frame_ok wd' t.
Proof. intros Hs (H1 & H2 & H3). split; [done|]. split; [done|]. intros i Hi. rewrite Hs by lia. by apply H3. Qed.

Lemma check_canary_spec {A} count index t (s : scheduler A) (Q : bool -> scheduler A -> Prop) R :
  (forall i, (index <= i < index + count)%nat -> words s !! canary_address t i = Some (stack_canary_value (task_id t) i)) ->
  Q true s -> kwp (check_canary count index t) Q R s.
Proof.
  revert index. induction count as [|count IH]; intros index Hc HQ; cbn [check_canary]; [by ksteps|].
  apply kwp_bind, (kwp_read_word _ (stack_canary_value (task_id t) index)); [apply Hc; lia|]. rewrite Z.eqb_refl. cbn [negb].
  apply IH; [|done]. intros i Hi. apply Hc. lia.
Qed.

Lemma stack_canary_intact_spec {A} p t n (s : scheduler A) (Q : bool -> scheduler A -> Prop) R :
  tasks s !! p = Some (set_next n t) -> canary_ok (words s) t -> kernel_stack_canary t <> NULL -> Q true s ->
  kwp (stack_canary_intact p) Q R s.
Proof.
  intros Hp Hc H0 HQ. unfold stack_canary_intact. apply kwp_bind, (kwp_task_at _ _ _ _ _ Hp).
  cbn [kernel_stack_canary set_next]. rewrite (proj2 (Z.eqb_neq _ _) H0).
  apply check_canary_spec; [|done]. intros i Hi. apply (Hc i). lia.
Qed.

(** ** Tasks *)

Definition space_ref (ws : list Z) (t : Task) : Prop :=
  if is_user t then address_space t ∈ ws else address_space t = NULL.

Definition id_ok (np : Z) (t : Task) : Prop := 0 < task_id t <= UINT64_MAX /\ (np = 0 \/ task_id t < np).

Record task_ok (symbols : symbols) (wd : gmap Z Z) (cur : Z) (ws : list Z) (np : Z) (x : Z * Task) : Prop := {
  tk_stack : stack_ok symbols x.2;
  tk_canary : canary_ok wd x.2;
  tk_frame : x.1 <> cur -> frame_ok wd x.2;
  tk_space : space_ref ws x.2;
  tk_id : id_ok np x.2;
}.

(** What two tasks do not share. *)
Record apart (t u : Task) : Prop := {
  ap_stacks : stacks_apart t u;
  ap_spaces : is_user t = true -> is_user u = true -> address_space t <> address_space u;
  ap_ids : task_id t <> task_id u;
}.

Lemma apart_sym t u : apart t u -> apart u t.
Proof. intros [H1 H2 H3]. constructor; [destruct H1; [by right|by left]|intros; by apply not_eq_sym, H2|congruence]. Qed.

Definition all_apart (l : ring) : Prop := forall x y, x ∈ l -> y ∈ l -> x.1 <> y.1 -> apart x.2 y.2.

(** The blocks of a task. *)
Definition task_blocks (x : Z * Task) (b : list (Z * Z)) : Prop :=
  exists z, sizeof_Task <= z /\ if owns_kernel_stack x.2
    then exists y, STACK_ALLOCATION_SIZE <= y /\ b = [(x.1, z); (kernel_stack x.2, y)]
    else b = [(x.1, z)].

(** The guarded pages: of the boot stack and of the stacks of the tasks. *)
Definition guard_of (x : Z * Task) : Z := kernel_stack_guard x.2 / 4096.
Definition owner (x : Z * Task) : Prop := owns_kernel_stack x.2 = true.
#[export] Instance owner_dec x : Decision (owner x) := decide (owns_kernel_stack x.2 = true).

Definition guards (symbols : symbols) (l : ring) : gset Z :=
  list_to_set (g_kernel_stack_guard_page symbols / 4096 :: (guard_of <$> filter owner l)).

Lemma guards_cons symbols x l : guards symbols (x :: l) = if owns_kernel_stack x.2 then {[guard_of x]} ∪ guards symbols l else guards symbols l.
Proof.
  unfold guards. destruct (owns_kernel_stack x.2) eqn:E.
  - rewrite filter_cons_True by done. rewrite fmap_cons. cbn [list_to_set]. set_solver.
  - by rewrite filter_cons_False by (unfold owner; congruence).
Qed.

Lemma guards_perm symbols l l' : l ≡ₚ l' -> guards symbols l = guards symbols l'.
Proof. intros Hp. unfold guards. apply list_to_set_perm_L. by rewrite Hp. Qed.

Section Inv.
Context {A : Type} `{AllocatorLaws A} (addresses : table_addresses) (symbols : symbols) (first_byte last_byte : Z).

Abbreviation kernel_part := (kernel_part addresses first_byte last_byte).
Abbreviation task_ok := (task_ok symbols).
Implicit Types (s : scheduler A) (l : ring) (w : list live).

(** CR3 holds the space of the running task. *)
Definition active (s : scheduler A) (l : ring) (w : list live) : Prop :=
  exists t, (g_current_task s, t) ∈ l /\
    if is_user t then exists v, v ∈ w /\ live_self v = address_space t /\ cr3 (kernel s) = pml4 (live_space v)
    else cr3 (kernel s) = pml4_address addresses.

(** All but the links, for guard pages [G] and blocks [bs]. *)
Record core (s : scheduler A) (l : ring) (w : list live) (G : gset Z) (bs : list (Z * Z)) : Prop := {
  co_tasks : Forall (task_ok (words s) (g_current_task s) (live_self <$> w) (g_next_pid s)) l;
  co_apart : all_apart l;
  co_kernel : kernel_part (kernel s) (spaces s) w G bs;
  co_pid : 0 <= g_next_pid s <= UINT64_MAX;
  co_active : active s l w;
}.

Definition bodies (s : scheduler A) (l : ring) (w : list live) (rest : list (Z * Z)) : Prop :=
  exists bss, Forall2 task_blocks l bss /\ core s l w (guards symbols l) (concat bss ++ rest).

Definition sched_inv (s : scheduler A) (l : ring) (w : list live) (rest : list (Z * Z)) : Prop :=
  ring_rep (tasks s) (g_head s) l /\ bodies s l w rest.

(** ** Calls of the other components *)

Notation kpart s := (kernel_part (kernel s) (spaces s)).

Lemma kwp_syslog s w G bs m Q R :
  kpart s w G bs -> (forall k, kernel_part k (spaces s) w G bs -> cr3 k = cr3 (kernel s) -> Q tt (set_kernel k s)) ->
  kwp (syslog_write m) Q R s.
Proof. intros Hk HQ. unfold syslog_write. ksteps. apply HQ; [by apply kernel_part_log|done]. Qed.

Lemma kwp_kmalloc s w G bs n Q R :
  kpart s w G bs -> 0 < n <= SIZE_MAX - 15 ->
  (forall k p, cr3 k = cr3 (kernel s) ->
     (p = NULL /\ kernel_part k (spaces s) w G bs \/ exists z, n <= z /\ p <> NULL /\ kernel_part k (spaces s) w G ((p, z) :: bs)) ->
     Q p (set_kernel k s)) ->
  kwp (kmalloc n) Q R s.
Proof.
  intros Hk Hn HQ. destruct (kernel_part_alloc _ _ _ _ _ _ _ _ n Hk Hn) as (p & a & E & Hp).
  unfold kwp, kmalloc. rewrite E. by apply HQ.
Qed.

Lemma kwp_kfree s w G bs p z Q R :
  kpart s w G ((p, z) :: bs) ->
  (forall k, kernel_part k (spaces s) w G bs -> cr3 k = cr3 (kernel s) -> Q tt (set_kernel k s)) -> kwp (kfree p) Q R s.
Proof.
  intros Hk HQ. destruct (kernel_part_release _ _ _ _ _ _ _ _ _ _ Hk) as (a & E & Hp).
  unfold kwp, kfree. rewrite E. by apply HQ.
Qed.

Lemma kwp_guard s w G bs p Q R :
  kpart s w G bs -> 0 <= p < 2 ^ 64 ->
  (forall ok k, (ok = true <-> p mod 4096 = 0 /\ guardable (p / 4096)) -> cr3 k = cr3 (kernel s) ->
     kernel_part k (spaces s) w (if ok then {[p / 4096]} ∪ G else G) bs -> Q ok (set_kernel k s)) ->
  kwp (on_paging (paging_kernel_guard_page p)) Q R s.
Proof.
  intros Hk Hp HQ. destruct (kernel_part_guard _ _ _ _ _ _ _ _ p Hk Hp) as (ok & k & E & Hok & Hk' & Ec).
  unfold kwp, on_paging. rewrite E. by apply HQ.
Qed.

Lemma kwp_unguard s w G bs p Q R :
  kpart s w ({[p / 4096]} ∪ G) bs -> 0 <= p < 2 ^ 64 -> p / 4096 ∉ G -> p mod 4096 = 0 -> guardable (p / 4096) ->
  (forall k, cr3 k = cr3 (kernel s) -> kernel_part k (spaces s) w G bs -> Q true (set_kernel k s)) ->
  kwp (on_paging (paging_kernel_unguard_page p)) Q R s.
Proof.
  intros Hk Hp Hni Hm Hg HQ. destruct (kernel_part_unguard _ _ _ _ _ _ _ _ p Hk Hp Hni Hm Hg) as (k & E & Hk' & Ec).
  unfold kwp, on_paging. rewrite E. by apply HQ.
Qed.

Lemma live_self_nonnull k m w G bs v : kernel_part k m w G bs -> v ∈ w -> live_self v <> NULL.
Proof.
  intros (Hw & _) (l1 & l2 & ->)%list_elem_of_split.
  assert (Hw' : world_ok k (v :: l1 ++ l2) bs) by (apply (world_ok_perm _ _ _ _ Hw); by rewrite <- Permutation_middle).
  destruct Hw' as ((b & Hc & Ho) & _). inversion Hc as [|? ? b1 b2 Hb Hc2]; subst. apply owns_range in Ho as (Ho & _).
  unfold NULL, live_self in *. lia.
Qed.

(** The address space of a task: none, or a live one that is destroyed. *)
Lemma kwp_destroy_space s w G bs t Q R :
  kpart s w G bs -> space_ref (live_self <$> w) t ->
  (forall k m w', kernel_part k m w' G bs -> w ≡ₚ w' \/ (exists v, is_user t = true /\ w ≡ₚ v :: w' /\ live_self v = address_space t) ->
     (cr3 (kernel s) = pml4_address addresses \/ (exists u, u ∈ w' /\ cr3 (kernel s) = pml4 (live_space u)) -> cr3 k = cr3 (kernel s)) ->
     Q tt (set_spaces m (set_kernel k s))) ->
  kwp (destroy_space addresses (address_space t)) Q R s.
Proof.
  intros Hk Ht HQ. unfold destroy_space, space_ref in *. apply kwp_bind, kwp_get. apply kwp_bind. destruct (is_user t) eqn:Eu.
  - pose proof Hk as (_ & _ & Hs). destruct (spaces_rep_lookup _ _ _ Hs Ht) as (v & w' & Hw & Ev & Em).
    pose proof (live_self_nonnull _ _ _ _ _ v Hk ltac:(rewrite Hw; by left)) as Hn. rewrite Ev in Hn.
    apply (kwp_lift _ (Some (live_space v))).
    { unfold space_at. rewrite (proj2 (Z.eqb_neq _ _) Hn), Em. done. }
    pose proof (kernel_part_perm _ _ _ _ _ _ _ _ _ Hk Hw) as Hk2.
    destruct (kernel_part_destroy _ _ _ _ _ _ _ _ _ Hk2) as (k & E & Hk' & Hc).
    apply kwp_bind. unfold kwp at 1, on_paging. rewrite E, some_bind. ksteps. rewrite <- Ev. apply (HQ k _ w'); [exact Hk'| |exact Hc].
    right. by exists v.
  - rewrite Ht. apply (kwp_lift _ None); [done|]. apply kwp_bind. unfold kwp at 1, on_paging. cbn [paging_address_space_destroy].
    rewrite some_bind. ksteps. apply (HQ (kernel s) _ w); [|by left|done].
    sched_simpl. rewrite delete_id; [done|]. destruct (spaces s !! NULL) as [sp|] eqn:E; [|done]. exfalso.
    pose proof Hk as (_ & _ & [_ Hs]). apply Hs in E as (v & Hv & _ & E0). by apply (live_self_nonnull _ _ _ _ _ v Hk Hv).
Qed.

End Inv.
