(* ===== verification/SchedSpawn.v ===== *)
(** * kernel/scheduler.c: destruction of dead tasks

    [destroy_task] gives back everything a task owns; [reap_dead_tasks] does so for every dead task but the
    running one, whatever their places in the ring.

    Then the creation of tasks. *)

From stdpp Require Import gmap.
From S2P Require Import Prelude CString Heap Allocator Elf Manifest AppProcess Paging PagingTree PagingKernel PagingGuard PagingClaims Scheduler SchedRing SchedInv.

(** The fields that creation and destruction leave alone. *)
Definition globals {A} (s : scheduler A) :=
  (processes s, g_current_task s, (g_fpu_context_enabled s, g_initial_fpu_state s, cpu_registers s)).

Section Reap.
Context {A : Type} `{AllocatorLaws A} (addresses : table_addresses) (symbols : symbols) (first_byte last_byte : Z).
Context (Hsym : symbols_ok symbols).

Abbreviation core := (core addresses symbols first_byte last_byte).
Abbreviation bodies := (bodies addresses symbols first_byte last_byte).
Abbreviation sched_inv := (sched_inv addresses symbols first_byte last_byte).
Abbreviation kernel_part := (kernel_part addresses first_byte last_byte).
Abbreviation destroy_task := (destroy_task addresses).
Implicit Types (s : scheduler A) (l : ring) (w : list live).

Definition stacks_same (wd wd' : gmap Z Z) (l : ring) : Prop := Forall (fun x => stack_same wd wd' x.2) l.

Lemma task_ok_same wd wd' cur ws ws' np x :
  task_ok symbols wd cur ws np x -> stack_same wd wd' x.2 -> space_ref ws' x.2 -> task_ok symbols wd' cur ws' np x.
Proof.
  intros [H1 H2 H3 H4 H5] Hw Hs. destruct (stack_bounds _ _ Hsym H1) as (_ & _ & _ & Hb). constructor; [done| | |done|done].
  - apply (canary_ok_same wd); [lia|done|done].
  - intros Hx. by apply (frame_ok_same wd), H3.
Qed.

(** The guard page of a task is not that of another. *)
Lemma guard_fresh t l :
  stack_ok symbols t -> owns_kernel_stack t = true ->
  (forall y, y ∈ l -> stack_ok symbols y.2 /\ stacks_apart t y.2) -> kernel_stack_guard t / 4096 ∉ guards symbols l.
Proof.
  intros Ht Ho Hl. destruct (stack_bounds _ _ Hsym Ht) as (_ & Hm & Hc & Hb). unfold guards. rewrite elem_of_list_to_set.
  rewrite elem_of_cons, list_elem_of_fmap. intros [E|(y & E & [Hy Hin]%list_elem_of_filter)].
  - unfold stack_ok in Ht. rewrite Ho in Ht. destruct Ht as [Hr _ _ _ _ _], Hsym as [_ Hm2 _ Hs2 Ht2].
    pose proof (Z.div_mod (kernel_stack_guard t) 4096 ltac:(lia)). pose proof (Z.div_mod (g_kernel_stack_guard_page symbols) 4096 ltac:(lia)).
    unfold HEAP_FLOOR in *. lia.
  - destruct (Hl y Hin) as [Hys Ha]. destruct (stack_bounds _ _ Hsym Hys) as (_ & Hm2 & Hc2 & Hb2).
    unfold guard_of in E. pose proof (Z.div_mod (kernel_stack_guard t) 4096 ltac:(lia)).
    pose proof (Z.div_mod (kernel_stack_guard y.2) 4096 ltac:(lia)). destruct Ha; lia.
Qed.

Lemma all_apart_cons x l : all_apart (x :: l) -> x.1 ∉ l.*1 -> all_apart l /\ forall y, y ∈ l -> apart x.2 y.2.
Proof.
  intros Ha Hx. split.
  - intros y z Hy Hz. apply Ha; by right.
  - intros y Hy. apply Ha; [by left|by right|]. intros E. apply Hx. rewrite E. by apply list_elem_of_fmap_2.
Qed.

(** The rest of the invariant when [x], which does not run, is gone. *)
Lemma core_drop s s' p t l w w' G G' bs bs' :
  core s ((p, t) :: l) w G bs -> p ∉ l.*1 -> p <> g_current_task s -> globals s' = globals s -> g_next_pid s' = g_next_pid s ->
  stacks_same (words s) (words s') l -> kernel_part (kernel s') (spaces s') w' G' bs' ->
  w ≡ₚ w' \/ (exists v, is_user t = true /\ w ≡ₚ v :: w' /\ live_self v = address_space t) ->
  (cr3 (kernel s) = pml4_address addresses \/ (exists u, u ∈ w' /\ cr3 (kernel s) = pml4 (live_space u)) -> cr3 (kernel s') = cr3 (kernel s)) ->
  core s' l w' G' bs'.
Proof.
  intros [H1 H2 H3 H4 (u & Hu & Hact)] Hp Hcur Hg Enp Hwd Hk Hw Hc. injection Hg as _ Ecur _ _ _.
  apply Forall_cons in H1 as [Hx H1]. apply all_apart_cons in H2 as [H2 Hap]; [|done]. cbn [snd] in Hap.
  apply elem_of_cons in Hu as [[= E _]|Hu]; [congruence|].
  assert (Hspaces : forall y, y ∈ l -> space_ref (live_self <$> w) y.2 -> space_ref (live_self <$> w') y.2).
  { intros y Hy. unfold space_ref. destruct (is_user y.2) eqn:Eu; [|done]. destruct Hw as [Hw|(v & Et & Hw & Ev)]; rewrite Hw; [done|].
    rewrite fmap_cons, elem_of_cons. intros [E|?]; [|done]. exfalso. destruct (Hap y Hy) as [_ Hs _]. apply (Hs Et Eu). by rewrite <- Ev. }
  constructor.
  - apply Forall_forall. intros y Hy. rewrite Ecur, Enp.
    pose proof (proj1 (Forall_forall _ _) H1 y Hy) as Hok. apply (task_ok_same _ _ _ _ _ _ _ Hok).
    + by apply (proj1 (Forall_forall _ _) Hwd).
    + apply (Hspaces y Hy). by destruct Hok.
  - done.
  - done.
  - by rewrite Enp.
  - exists u. rewrite Ecur. split; [done|]. destruct (is_user u) eqn:Eu; [|rewrite Hc; [done|by left]].
    destruct Hact as (v & Hv & Ev & Ecr). exists v.
    assert (Hvw : v ∈ w').
    { destruct Hw as [Hw|(v' & Et & Hw & Ev')]; rewrite Hw in Hv; [done|]. apply elem_of_cons in Hv as [->|?]; [|done].
      exfalso. destruct (Hap _ Hu) as [_ Hs _]. apply (Hs Et Eu). cbn. congruence. }
    split; [done|]. split; [done|]. rewrite Hc; [done|]. right. by exists v.
Qed.

(** The words of a freed stack. *)
Lemma forget_words_same from to wd t :
  to <= kernel_stack_canary t \/ kernel_stack_top t <= from -> stack_same wd (filter (fun x : Z * Z => ~ (from <= x.1 < to)) wd) t.
Proof.
  intros Ht a Ha. destruct (wd !! a) as [v|] eqn:E.
  - apply map_lookup_filter_Some. split; [done|]. cbn. lia.
  - by apply map_lookup_filter_None_2; left.
Qed.

Lemma delete_insert_same {V} (m : gmap Z V) p v : delete p (<[p := v]> m) = delete p m.
Proof. apply map_eq. intros q. destruct (decide (q = p)) as [->|]; [by rewrite !lookup_delete_eq|]. by rewrite !lookup_delete_ne, lookup_insert_ne. Qed.

(** A stack goes back to the heap, without its guard. *)
Lemma release_kernel_stack_spec p n t s w G y bs Q R :
  tasks s !! p = Some (set_next n t) -> owns_kernel_stack t = true -> own_stack t -> kernel_stack_guard t / 4096 ∉ G ->
  kernel_part (kernel s) (spaces s) w ({[kernel_stack_guard t / 4096]} ∪ G) ((kernel_stack t, y) :: bs) ->
  (forall k, kernel_part k (spaces s) w G bs -> cr3 k = cr3 (kernel s) ->
     Q tt (set_tasks (<[p := set_kernel_stack NULL NULL NULL (kernel_stack_top t) false (set_next n t)]> (tasks s))
       (set_words (filter (fun x : Z * Z => ~ (kernel_stack_canary t <= x.1 < kernel_stack_top t)) (words s)) (set_kernel k s)))) ->
  kwp (release_kernel_stack p) Q R s.
Proof.
  intros Hp Hown Hst Hg Hk HQ. unfold release_kernel_stack. apply kwp_bind, (kwp_task_at _ _ _ _ _ Hp).
  cbn [owns_kernel_stack kernel_stack_guard set_next]. rewrite Hown. cbn [negb].
  pose proof Hst as [Hraw Hgm Hgd Hcan Htop Hend]. apply kwp_bind.
  eapply (kwp_unguard addresses first_byte last_byte); [exact Hk|unfold HEAP_FLOOR, ADDRESS_LIMIT, STACK_SIZE in *; lia|done|done|done|].
  intros k1 Ec1 Hk1. cbn [negb]. sched_simpl. apply kwp_bind. eapply (kwp_kfree addresses first_byte last_byte); [exact Hk1|].
  intros k2 Hk2 Ec2. sched_simpl. unfold forget_words. ksteps. eapply kwp_update_task; [exact Hp|]. sched_simpl.
  apply (HQ k2); [done|]. exact (eq_trans Ec2 Ec1).
Qed.

Lemma destroy_task_spec p n t s l w rest Q R :
  tasks s !! p = Some (set_next n t) -> p ∉ l.*1 -> p <> g_current_task s -> bodies s ((p, t) :: l) w rest ->
  (forall s' w', bodies s' l w' rest -> tasks s' = delete p (tasks s) -> globals s' = globals s -> g_head s' = g_head s ->
     g_next_pid s' = g_next_pid s -> stacks_same (words s) (words s') l -> Q tt s') ->
  kwp (destroy_task p) Q R s.
Proof.
  intros Hp Hpl Hcur (bss & Hbs & Hco) HQ. apply Forall2_cons_inv_l in Hbs as (bx & bss' & Hbx & Hbs & ->).
  pose proof Hco as [Hok Hap Hk _ _]. apply Forall_cons in Hok as [[Hst Hcan _ Hsp _] Hok]. apply all_apart_cons in Hap as [_ Hap]; [|done].
  cbn [fst snd] in *. destruct (stack_bounds _ _ Hsym Hst) as (Hg0 & Hgm & Hc & Hb).
  assert (Hstacks : forall y, y ∈ l -> stack_ok symbols y.2 /\ stacks_apart t y.2).
  { intros y Hy. split; [by destruct (proj1 (Forall_forall _ _) Hok y Hy)|by destruct (Hap y Hy)]. }
  unfold destroy_task, Scheduler.destroy_task. apply kwp_bind, (stack_canary_intact_spec p t n); [done|done|unfold NULL; lia|]. cbn [negb].
  apply kwp_bind. destruct Hbx as (z & _ & Hbx). rewrite guards_cons in Hk, Hco. unfold stack_ok in Hst. cbn [snd fst] in *.
  destruct (owns_kernel_stack t) eqn:Eown.
  - destruct Hbx as (y & Hy & ->). unfold guard_of in Hk. cbn [snd] in Hk.
    apply (release_kernel_stack_spec p n t s w (guards symbols l) y ((p, z) :: concat bss' ++ rest)); [done|done|done| |exact (kernel_part_blocks _ _ _ _ _ _ _ _ _ Hk (perm_swap _ _ _))|].
    { apply guard_fresh; [by unfold stack_ok; rewrite Eown|done|done]. }
    intros k2 Hk2 Ec2.
    apply kwp_bind. eapply kwp_task_at; [apply lookup_insert_eq|]. sched_simpl. apply kwp_bind.
    eapply (kwp_destroy_space addresses first_byte last_byte _ w _ _ t); [exact Hk2|exact Hsp|]. intros k3 m w' Hk3 Hw Hc3. sched_simpl.
    unfold free_task. apply kwp_bind.
    eapply (kwp_kfree addresses first_byte last_byte _ w'); [sched_simpl; exact Hk3|]. intros k4 Hk4 Ec4. sched_simpl. ksteps. sched_simpl.
    assert (Hsame : stacks_same (words s) (filter (fun x : Z * Z => ~ (kernel_stack_canary t <= x.1 < kernel_stack_top t)) (words s)) l).
    { apply Forall_forall. intros u Hu. apply forget_words_same. destruct (Hstacks u Hu) as [Hus Hua].
      destruct (stack_bounds _ _ Hsym Hus) as (_ & _ & Hc' & Hb'). destruct Hua; lia. }
    apply (HQ _ w'); [|sched_simpl; by rewrite delete_insert_same|done|done|done|exact Hsame].
    exists bss'. split; [done|]. eapply (core_drop s _ p t l w w'); [exact Hco|done|done|done|done|exact Hsame|exact Hk4|exact Hw|].
    sched_simpl. rewrite Ec4. intros Hcr. sched_simpl. cbn [kernel set_kernel set_words set_tasks] in Hc3.
    rewrite Hc3; [done|]. by rewrite Ec2.
  - subst bx. unfold release_kernel_stack. apply kwp_bind, (kwp_task_at _ _ _ _ _ Hp). cbn [owns_kernel_stack set_next]. rewrite Eown. cbn [negb].
    ksteps. apply (kwp_task_at _ _ _ _ _ Hp). cbn [address_space set_next]. apply kwp_bind.
    eapply (kwp_destroy_space addresses first_byte last_byte _ w _ _ t); [exact Hk|exact Hsp|]. intros k3 m w' Hk3 Hw Hc3. sched_simpl.
    unfold free_task. apply kwp_bind.
    eapply (kwp_kfree addresses first_byte last_byte _ w'); [sched_simpl; exact Hk3|]. intros k4 Hk4 Ec4. sched_simpl. ksteps. sched_simpl.
    assert (Hsame : stacks_same (words s) (words s) l) by (by apply Forall_forall; intros u _ a _).
    apply (HQ _ w'); [|done|done|done|done|exact Hsame].
    exists bss'. split; [done|]. eapply (core_drop s _ p t l w w'); [exact Hco|done|done|done|done|exact Hsame|exact Hk4|exact Hw|].
    sched_simpl. rewrite Ec4. exact Hc3.
Qed.

(** ** The loops *)

(** What is not reaped: the running task, and those that are ready. *)
Definition kept (cur : Z) (x : Z * Task) : Prop := x.1 = cur \/ task_state x.2 = TASK_READY.
#[local] Instance kept_dec cur x : Decision (kept cur x) := decide (x.1 = cur \/ task_state x.2 = TASK_READY).
Definition survivors (cur : Z) (l : ring) : ring := filter (kept cur) l.

(** Reaping changes no global, and no word of a stack that is left. *)
Record reaped (s s' : scheduler A) (l : ring) : Prop := {
  re_globals : globals s' = globals s;
  re_pid : g_next_pid s' = g_next_pid s;
  re_stacks : stacks_same (words s) (words s') l;
}.

Lemma reaped_refl s l : reaped s s l.
Proof. constructor; [done|done|]. by apply Forall_forall. Qed.

Lemma reaped_trans s1 s2 s3 l1 l2 : reaped s1 s2 l1 -> reaped s2 s3 l2 -> l2 ⊆ l1 -> reaped s1 s3 l2.
Proof.
  intros [H1 H2 H3] [H4 H5 H6] Hl. constructor; [congruence|congruence|]. apply Forall_forall. intros x Hx a Ha.
  rewrite (proj1 (Forall_forall _ _) H6 x Hx a Ha). apply (proj1 (Forall_forall _ _) H3 x (Hl x Hx) a Ha).
Qed.

Lemma bodies_links s l w rest m h : bodies s l w rest -> bodies (set_g_head h (set_tasks m s)) l w rest.
Proof. intros (bss & Hb & [H1 H2 H3 H4 H5]). exists bss. split; [done|]. by constructor. Qed.

Lemma task_ok_key s l w rest : bodies s l w rest -> g_current_task s ∈ l.*1.
Proof. intros (bss & _ & [_ _ _ _ (t & Hin & _)]). apply list_elem_of_fmap. by exists (g_current_task s, t). Qed.

Lemma bodies_perm s l l' w rest : bodies s l w rest -> l ≡ₚ l' -> bodies s l' w rest.
Proof.
  intros (bss & Hb & [H1 H2 H3 H4 (t & Ht & Ha)]) Hp. destruct (Permutation_Forall2 Hp Hb) as (bss' & Hpb & Hb').
  exists bss'. split; [done|]. rewrite <- (guards_perm symbols _ _ Hp). constructor.
  - by rewrite <- Hp.
  - intros x y Hx Hy. rewrite <- Hp in Hx, Hy. by apply H2.
  - apply (kernel_part_blocks _ _ _ _ _ _ _ _ _ H3). by rewrite Hpb.
  - done.
  - exists t. by rewrite <- Hp.
Qed.

(** A dead task is unlinked, then destroyed. *)
Lemma unlink_destroy_spec p t n s l w rest m h Q R :
  bodies s ((p, t) :: l) w rest -> p <> g_current_task s -> m !! p = Some (set_next n t) -> ring_rep (delete p m) h l ->
  (forall s' w', sched_inv s' l w' rest -> reaped s s' l -> Q tt s') ->
  kwp (destroy_task p) Q R (set_g_head h (set_tasks m s)).
Proof.
  intros Hb Hcur Hp Hr HQ.
  assert (Hpl : p ∉ l.*1).
  { intros ([q u] & -> & Hin)%list_elem_of_fmap. destruct (ring_lookup _ _ _ _ _ Hr Hin) as (k & E). cbn [fst] in E.
    by rewrite lookup_delete_eq in E. }
  apply (destroy_task_spec p n t _ l w rest); [exact Hp|done|done|by apply bodies_links|].
  intros s' w' Hb' Et Eg Eh En Hw. apply (HQ s' w'); [|by constructor]. split; [|done]. by rewrite Et, Eh.
Qed.

(** The first loop leaves the list from its first survivor on. *)
Fixpoint drop_dead (cur : Z) (l : ring) : ring :=
  match l with
  | [] => []
  | x :: l' => if decide (kept cur x) then l else drop_dead cur l'
  end.

Lemma kept_test cur p t : negb (p =? cur) && bool_decide (task_state t = TASK_DEAD) = negb (bool_decide (kept cur (p, t))).
Proof.
  apply eq_true_iff_eq. rewrite andb_true_iff, !negb_true_iff, Z.eqb_neq, bool_decide_eq_true, bool_decide_eq_false.
  unfold kept. cbn [fst snd]. destruct (task_state t); intuition congruence.
Qed.

Lemma reap_head_spec fuel s l w rest Q R :
  sched_inv s l w rest -> (length l < fuel)%nat ->
  (forall s' w', sched_inv s' (drop_dead (g_current_task s) l) w' rest -> reaped s s' (drop_dead (g_current_task s) l) -> Q true s') ->
  kwp (reap_head addresses fuel) Q R s.
Proof.
  revert s l w. induction fuel as [|fuel IH]; intros s l w [Hr Hb] Hf HQ; [lia|]. cbn [reap_head]. ksteps.
  pose proof (task_ok_key _ _ _ _ Hb) as Hcur. destruct l as [|[d t] l2]; [by apply elem_of_nil in Hcur|].
  pose proof Hr as [[Ed _] Eh _ _ _ _]. cbn [first_of] in Eh. rewrite <- Eh in *.
  apply kwp_bind, (kwp_task_at _ _ _ _ _ Ed). cbn [task_state set_next next]. rewrite kept_test, negb_involutive.
  cbn [drop_dead] in HQ. case_bool_decide as Hk; [rewrite decide_True in HQ by done|rewrite decide_False in HQ by done].
  { ksteps. apply (HQ s w); [|apply reaped_refl]. split; [by rewrite <- Eh|done]. }
  assert (Hdc : d <> g_current_task s) by (intros ->; apply Hk; by left).
  rewrite fmap_cons in Hcur. apply elem_of_cons in Hcur as [?|Hcur]; [by destruct Hdc|].
  assert (Hne : l2 <> []) by (intros ->; by apply elem_of_nil in Hcur).
  destruct (exists_last Hne) as (l & [q u] & ->). pose proof Hr as [[_ Hlink2] _ Hnd _ _ _]. rewrite fmap_cons in Hnd. apply NoDup_cons in Hnd as [Hd Hnd].
  assert (Hfirst : first_of (l ++ [(q, u)]) d = first_of (l ++ [(q, u)]) NULL) by (by destruct l as [|[]]).
  assert (Hqd : q <> d) by (intros ->; apply Hd; rewrite fmap_app; apply elem_of_app; right; by left).
  assert (Hq : tasks s !! q = Some (set_next d u)) by (apply linked_app in Hlink2 as [_ [Hq _]]; exact Hq).
  rewrite (proj2 (Z.eqb_neq _ d)).
  2: { intros E. apply Hd. rewrite <- E. destruct l as [|[? ?] ?]; by left. }
  ksteps. apply (find_tail_spec _ _ l q u); [done|done| |].
  { rewrite (ring_size _ _ _ Hr). cbn [length]. rewrite length_app. lia. }
  ksteps. apply (kwp_update_task _ (set_next d u)); [exact Hq|]. apply kwp_bind. rewrite Hfirst, set_next_next.
  set (h := first_of (l ++ [(q, u)]) NULL).
  match goal with |- kwp _ ?P _ _ => change (kwp (destroy_task d) P R (set_g_head h (set_tasks (<[q := set_next h u]> (tasks s)) s))) end.
  apply (unlink_destroy_spec d t (first_of (l ++ [(q, u)]) d) s (l ++ [(q, u)]) w rest (<[q := set_next h u]> (tasks s)) h); [done|done| | |].
  { rewrite lookup_insert_ne by done. exact Ed. }
  { apply (ring_drop_head _ d t l q u Hr). }
  intros s' w' Hinv' Hre. pose proof Hre as [Eg _ _]. injection Eg as _ Ec _ _ _.
  apply (IH s' _ w' Hinv'); [cbn [length] in Hf; lia|]. intros s2 w2 Hinv2 Hre2. rewrite Ec in *.
  apply (HQ s2 w2); [done|]. apply (reaped_trans s s' s2 _ _ Hre Hre2). intros x. clear.
  generalize (l ++ [(q, u)]). intros k. induction k as [|y k IH]; cbn [drop_dead]; [done|]. case_decide; [done|]. intros Hx. right. by apply IH.
Qed.

Lemma reap_rest_spec fuel s l1 x l2 w rest Q R :
  sched_inv s (l1 ++ x :: l2) w rest -> (length l2 < fuel)%nat ->
  (forall s' w', sched_inv s' (l1 ++ x :: survivors (g_current_task s) l2) w' rest ->
     reaped s s' (l1 ++ x :: survivors (g_current_task s) l2) -> Q tt s') ->
  kwp (reap_rest addresses fuel x.1 (first_of l2 (g_head s))) Q R s.
Proof.
  revert s l1 x l2 w. induction fuel as [|fuel IH]; intros s l1 [q u] l2 w [Hr Hb] Hf HQ; [lia|]. cbn [reap_rest]. ksteps.
  destruct l2 as [|[d t] l2]; cbn [first_of].
  { rewrite Z.eqb_refl. ksteps. apply (HQ s w); [by split|apply reaped_refl]. }
  pose proof Hr as [Hlink Hh Hnd _ _ _]. rewrite fmap_app, !fmap_cons in Hnd. cbn [fst] in *.
  apply NoDup_app in Hnd as (_ & Hn12 & (Hq & Hn2)%NoDup_cons). apply not_elem_of_cons in Hq as [Hqd _].
  assert (Hdh : d <> g_head s).
  { rewrite <- Hh. destruct l1 as [|[p1 t1] l1]; cbn [app first_of]; [done|]. intros ->. apply (Hn12 p1); set_solver. }
  rewrite (proj2 (Z.eqb_neq _ _) Hdh). apply linked_app in Hlink as [_ [Eq [Ed _]]]. cbn [first_of] in Eq.
  ksteps. apply (kwp_task_at _ _ _ _ _ Ed). cbn [task_state next set_next]. rewrite kept_test. unfold survivors in HQ. case_bool_decide as Hk; cbn [negb].
  - rewrite filter_cons_True in HQ by done. change d with ((d, t).1).
    apply (IH s (l1 ++ [(q, u)]) (d, t) l2 w); [split; by rewrite <- app_assoc|cbn [length] in Hf; lia|].
    intros s' w'. rewrite <- app_assoc. apply HQ.
  - rewrite filter_cons_False in HQ by done. apply kwp_bind, (kwp_update_task _ _ _ _ _ _ Eq). rewrite set_next_next. apply kwp_bind.
    match goal with |- kwp _ ?P _ _ => change (kwp (destroy_task d) P R
      (set_g_head (g_head s) (set_tasks (<[q := set_next (first_of l2 (g_head s)) u]> (tasks s)) s))) end.
    apply (unlink_destroy_spec d t (first_of l2 (g_head s)) s (l1 ++ (q, u) :: l2) w rest (<[q := set_next (first_of l2 (g_head s)) u]> (tasks s)) (g_head s)).
    + apply (bodies_perm _ _ _ _ _ Hb). change (l1 ++ (q, u) :: (d, t) :: l2) with (l1 ++ [(q, u)] ++ (d, t) :: l2).
      rewrite app_assoc, <- Permutation_middle. by rewrite <- app_assoc.
    + intros ->. apply Hk. by left.
    + by rewrite lookup_insert_ne.
    + by apply (ring_drop_mid _ _ l1 q u d t l2).
    + intros s' w' Hinv' Hre. pose proof Hre as [Eg _ _]. injection Eg as _ Ec _ _ _.
      assert (Eh : first_of l2 (g_head s) = first_of l2 (g_head s')).
      { destruct l2 as [|[? ?] ?]; [|done]. cbn [first_of]. destruct Hinv' as [[_ <- _ _ _ _] _]. rewrite <- Hh. by destruct l1 as [|[]]. }
      rewrite Eh. change q with ((q, u).1).
      apply (IH s' l1 (q, u) l2 w' Hinv'); [cbn [length] in Hf; lia|]. intros s2 w2 Hinv2 Hre2. rewrite Ec in *.
      apply (HQ s2 w2); [done|]. apply (reaped_trans s s' s2 _ _ Hre Hre2).
      intros y. rewrite !elem_of_app, !elem_of_cons. intros [?|[?|[_ ?]%list_elem_of_filter]]; tauto.
Qed.

Lemma survivors_drop cur l : survivors cur (drop_dead cur l) = survivors cur l.
Proof.
  induction l as [|x l IH]; [done|]. cbn [drop_dead]. case_decide; [done|]. rewrite IH. unfold survivors. by rewrite filter_cons_False.
Qed.

Lemma drop_dead_first cur l x l' : drop_dead cur l = x :: l' -> kept cur x.
Proof. induction l as [|y l IH]; [done|]. cbn [drop_dead]. case_decide; [by intros [= -> _]|done]. Qed.

Lemma drop_dead_in cur l x : x ∈ drop_dead cur l -> x ∈ l.
Proof. induction l as [|y l IH]; [done|]. cbn [drop_dead]. case_decide; [done|]. intros Hx. right. by apply IH. Qed.

(** All the dead tasks go, but the running one. *)
Lemma reap_dead_tasks_spec s l w rest Q R :
  sched_inv s l w rest ->
  (forall s' w', sched_inv s' (survivors (g_current_task s) l) w' rest -> reaped s s' (survivors (g_current_task s) l) -> Q tt s') ->
  kwp (reap_dead_tasks addresses) Q R s.
Proof.
  intros Hinv HQ. pose proof Hinv as [Hr Hb]. unfold reap_dead_tasks. apply kwp_bind, kwp_get.
  assert (Hh : g_head s <> NULL).
  { pose proof (task_ok_key _ _ _ _ Hb) as Hcur. destruct l as [|[p t] l]; [by apply elem_of_nil in Hcur|].
    rewrite <- (rr_head _ _ _ Hr). cbn [first_of]. pose proof (rr_null _ _ _ Hr) as Hn. rewrite fmap_cons in Hn.
    by apply not_elem_of_cons in Hn as [? _]. }
  rewrite (proj2 (Z.eqb_neq _ _) Hh). ksteps.
  apply (reap_head_spec _ s l w rest); [done|rewrite (ring_size _ _ _ Hr); lia|]. intros s1 w1 Hinv1 Hre1. cbn [negb]. ksteps.
  pose proof Hinv1 as [Hr1 Hb1]. pose proof (task_ok_key _ _ _ _ Hb1) as Hcur1.
  destruct (drop_dead (g_current_task s) l) as [|[p t] l1] eqn:E; [by apply elem_of_nil in Hcur1|].
  pose proof Hr1 as [[Ep _] Eh _ _ _ _]. cbn [first_of] in Eh. apply (kwp_task_at _ (set_next (first_of l1 (g_head s1)) t)); [rewrite <- Eh at 1; exact Ep|].
  cbn [next set_next]. ksteps. pose proof Hre1 as [Eg _ _]. injection Eg as _ Ec _ _ _.
  assert (Es : (p, t) :: survivors (g_current_task s) l1 = survivors (g_current_task s) l).
  { rewrite <- (survivors_drop _ l), E. unfold survivors. rewrite filter_cons_True; [done|]. by apply (drop_dead_first _ _ _ _ E). }
  rewrite <- Eh at 1. change p with ((p, t).1). apply (reap_rest_spec _ s1 [] (p, t) l1 w1 rest); [done| |].
  { rewrite (ring_size _ _ _ Hr1). cbn [length]. lia. }
  cbn [app]. rewrite Ec, Es. intros s2 w2 Hinv2 Hre2. apply (HQ s2 w2); [done|].
  apply (reaped_trans s s1 s2 _ _ Hre1 Hre2). rewrite <- Es. intros x [->|[_ Hx]%list_elem_of_filter]%elem_of_cons; [by left|by right].
Qed.

End Reap.

(** * kernel/scheduler.c: creation of tasks

    The stack of a new task: a block, its guard page, the canary, the words that [context_switch] pops.  A
    creation that fails gives everything back. *)

(** ** Words *)

(** [count] words from [a] are written; the others are what they were. *)
Definition written (wd wd' : gmap Z Z) (a count : Z) (f : Z -> Z) : Prop :=
  (forall i, 0 <= i < count -> wd' !! (a + 8 * i) = Some (f i)) /\
  (forall b, b < a \/ a + 8 * count <= b -> wd' !! b = wd !! b).

Section Words.
Context {A : Type}.
Implicit Types s : scheduler A.

Lemma write_canary_spec count index t s Q R :
  (forall wd, (forall i, (index <= i < index + count)%nat -> wd !! canary_address t i = Some (stack_canary_value (task_id t) i)) ->
     (forall b, b < canary_address t index \/ canary_address t (index + count) <= b -> wd !! b = words s !! b) -> Q tt (set_words wd s)) ->
  kwp (write_canary count index t) Q R s.
Proof.
  revert index s. induction count as [|count IH]; intros index s HQ; cbn [write_canary].
  - ksteps. replace s with (set_words (words s) s) by (by destruct s). apply HQ; [lia|done].
  - apply kwp_bind, kwp_write_word. apply IH. intros wd Hw Ho. apply (HQ wd).
    + intros i Hi. destruct (decide (i = index)) as [->|Hne]; [|apply Hw; lia].
      rewrite Ho by (unfold canary_address; lia). apply lookup_insert_eq.
    + intros b Hb. rewrite Ho by (unfold canary_address in *; lia). apply lookup_insert_ne. unfold canary_address in *. lia.
Qed.

(** The values are stacked downwards: the last one is the lowest. *)
Lemma push_words_spec values sp s (Q : Z -> scheduler A -> Prop) R :
  8 * Z.of_nat (length values) <= sp < 2 ^ 64 ->
  (forall wd, (forall i v, rev values !! i = Some v -> wd !! (sp - 8 * Z.of_nat (length values) + 8 * Z.of_nat i) = Some v) ->
     (forall b, b < sp - 8 * Z.of_nat (length values) \/ sp <= b -> wd !! b = words s !! b) ->
     Q (sp - 8 * Z.of_nat (length values)) (set_words wd s)) ->
  kwp (push_words sp values) Q R s.
Proof.
  revert sp s. induction values as [|v values IH]; intros sp s Hsp HQ; cbn [push_words length] in *.
  - ksteps. replace s with (set_words (words s) s) by (by destruct s). change (Z.of_nat 0) with 0 in HQ.
    rewrite Z.mul_0_r, Z.sub_0_r in HQ. apply HQ; [done|done].
  - rewrite u64_small by (unfold u64_ok; lia). apply kwp_bind, kwp_write_word. apply IH; [lia|]. intros wd Hw Ho.
    replace (sp - 8 - 8 * Z.of_nat (length values)) with (sp - 8 * Z.of_nat (S (length values))) in * by lia.
    apply (HQ wd).
    + intros i u. cbn [rev]. rewrite lookup_app_Some, length_rev. intros [Hi|[Hi Hu]]; [by apply Hw|].
      apply list_lookup_singleton_Some in Hu as [Hi2 <-].
      replace (_ + 8 * Z.of_nat i) with (sp - 8) by lia. rewrite Ho by lia. apply lookup_insert_eq.
    + intros b Hb. rewrite Ho by lia. apply lookup_insert_ne. lia.
Qed.

End Words.

Section Spawn.
Context {A : Type} `{AllocatorLaws A} (addresses : table_addresses) (symbols : symbols) (first_byte last_byte : Z).
Context (Hsym : symbols_ok symbols).

Abbreviation core := (core addresses symbols first_byte last_byte).
Abbreviation bodies := (bodies addresses symbols first_byte last_byte).
Abbreviation sched_inv := (sched_inv addresses symbols first_byte last_byte).
Abbreviation kernel_part := (kernel_part addresses first_byte last_byte).
Implicit Types (s : scheduler A) (l : ring) (w : list live).

(** ** The stack *)

Lemma allocate_guarded_kernel_stack_spec p t s w G bs Q R :
  tasks s !! p = Some t -> kernel_part (kernel s) (spaces s) w G bs ->
  (forall k, kernel_part k (spaces s) w G bs -> cr3 k = cr3 (kernel s) -> Q false (set_kernel k s)) ->
  (forall k raw guard y, let t' := set_kernel_stack raw guard (guard + 4096) (guard + 4096 + STACK_SIZE) true t in
     own_stack t' -> STACK_ALLOCATION_SIZE <= y -> cr3 k = cr3 (kernel s) ->
     kernel_part k (spaces s) w ({[guard / 4096]} ∪ G) ((raw, y) :: bs) -> Q true (set_tasks (<[p := t']> (tasks s)) (set_kernel k s))) ->
  kwp (allocate_guarded_kernel_stack p) Q R s.
Proof.
  intros Hp Hk Hfail Hok. unfold allocate_guarded_kernel_stack. apply kwp_bind.
  eapply (kwp_kmalloc addresses first_byte last_byte); [exact Hk|by vm_compute|].
  intros k1 raw Ec1 [[-> Hk1]|(y & Hy & Hn & Hk1)].
  { change (NULL =? NULL) with true. cbv iota. ksteps. by apply Hfail. }
  rewrite (proj2 (Z.eqb_neq _ _) Hn). cbv zeta.
  pose proof (kernel_part_placed _ _ _ _ _ _ _ _ _ _ Hk1) as (Hraw & _ & Hend).
  change STACK_ALLOCATION_SIZE with 24576 in *. change STACK_GUARD_SIZE with 4096. unfold HEAP_FLOOR, ADDRESS_LIMIT in Hraw, Hend.
  rewrite (u64_small (raw + 4096 - 1)), (u64_small (raw + 24576)) by (unfold u64_ok; lia).
  destruct (page_of_spec (raw + 4096 - 1) ltac:(lia)) as [Epage _]. unfold page_of, PAGE_SIZE in Epage. change (0x1000 - 1) with (4096 - 1) in Epage.
  rewrite Epage. set (guard := (raw + 4096 - 1) / 4096 * 4096).
  assert (Hg : raw <= guard < raw + 4096) by (unfold guard; pose proof (Z.div_mod (raw + 4096 - 1) 4096); pose proof (Z.mod_pos_bound (raw + 4096 - 1) 4096); lia).
  rewrite (u64_small (guard + 4096)) by (unfold u64_ok; lia). change STACK_SIZE with 16384 in *.
  rewrite (u64_small (guard + 4096 + 16384)) by (unfold u64_ok; lia).
  destruct (Z.ltb_spec (raw + 24576) (guard + 4096 + 16384)) as [Hlt|_]; [lia|]. apply kwp_bind.
  eapply (kwp_guard addresses first_byte last_byte); [exact Hk1|lia|]. intros ok k2 Hgd Ec2 Hk2. sched_simpl. destruct ok; cbn [negb].
  - ksteps. eapply kwp_update_task; [exact Hp|]. sched_simpl. ksteps. destruct (proj1 Hgd eq_refl) as [Hm Hguardable].
    apply (Hok k2 raw guard y); [|done|exact (eq_trans Ec2 Ec1)|exact Hk2]. constructor; sched_simpl; unfold HEAP_FLOOR, ADDRESS_LIMIT in *;
      change STACK_SIZE with 16384 in *; change STACK_ALLOCATION_SIZE with 24576; try lia; done.
  - apply kwp_bind. eapply (kwp_kfree addresses first_byte last_byte); [exact Hk2|]. intros k3 Hk3 Ec3. ksteps. apply (Hfail k3); [exact Hk3|].
    exact (eq_trans Ec3 (eq_trans Ec2 Ec1)).
Qed.

(** ** One task more *)

Definition next_pid (np : Z) : Z := if np =? UINT64_MAX then 0 else np + 1.

(** Creation changes no global, and no word of a stack in use. *)
Lemma core_keep s s' l w G G' bs bs' :
  core s l w G bs -> globals s' = globals s ->
  g_next_pid s' = g_next_pid s \/ (g_next_pid s <> 0 /\ g_next_pid s' = next_pid (g_next_pid s)) ->
  stacks_same (words s) (words s') l -> kernel_part (kernel s') (spaces s') w G' bs' -> cr3 (kernel s') = cr3 (kernel s) ->
  core s' l w G' bs'.
Proof.
  intros [H1 H2 H3 H4 (u & Hu & Hact)] Hg Hnp Hwd Hk Hc. injection Hg as _ Ecur _ _ _. constructor.
  - apply Forall_forall. intros x Hx. rewrite Ecur. pose proof (proj1 (Forall_forall _ _) H1 x Hx) as Hok.
    destruct (task_ok_same _ Hsym _ (words s') _ _ (live_self <$> w) _ _ Hok) as [? ? ? ? [Hid1 Hid2]];
      [by apply (proj1 (Forall_forall _ _) Hwd)|by destruct Hok|].
    constructor; try done. split; [done|]. destruct Hnp as [->|[Hn ->]]; [done|]. unfold next_pid, UINT64_MAX in *. destruct (_ =? _); [by left|right; lia].
  - done.
  - done.
  - destruct Hnp as [->|[Hn ->]]; [done|]. unfold next_pid. destruct (Z.eqb_spec (g_next_pid s) UINT64_MAX); unfold UINT64_MAX in *; lia.
  - exists u. rewrite Ecur, Hc. done.
Qed.

Lemma core_add s p t l w G bs :
  core s l w G bs -> task_ok symbols (words s) (g_current_task s) (live_self <$> w) (g_next_pid s) (p, t) ->
  (forall y, y ∈ l -> apart t y.2) -> NoDup (p :: l.*1) -> core s ((p, t) :: l) w G bs.
Proof.
  intros [H1 H2 H3 H4 (u & Hu & Hact)] Hx Ha Hp. constructor; [by constructor| |done|done|].
  - intros x y [->|Hxl]%elem_of_cons [->|Hyl]%elem_of_cons Hne; [done|by apply Ha| |by apply H2]. apply apart_sym. by apply Ha.
  - exists u. split; [by right|done].
Qed.

(** A new block is not one of the blocks of the ring. *)
Lemma block_key k m w G p z l bss rest :
  0 < z -> Forall2 task_blocks l bss -> kernel_part k m w G ((p, z) :: concat bss ++ rest) -> p ∉ l.*1.
Proof.
  intros Hz Hb Hk ([q t] & E & Hin)%list_elem_of_fmap. cbn in E. subst q. apply list_elem_of_lookup in Hin as (i & Hi).
  destruct (Forall2_lookup_l _ _ _ _ _ Hb Hi) as (b & Hbi & (zq & Hzq & Hq)). unfold sizeof_Task in Hzq.
  assert (Hin : (p, zq) ∈ concat bss ++ rest).
  { apply elem_of_app. left. apply list_elem_of_In, in_concat. exists b. split; [apply list_elem_of_In; by apply list_elem_of_lookup_2 in Hbi|].
    destruct (owns_kernel_stack _); [destruct Hq as (y & _ & ->)|subst b]; by left. }
  destruct (kernel_part_in _ _ _ _ _ _ _ _ _ _ _ _ Hk Hin); lia.
Qed.

(** A new stack is apart from the others. *)
Lemma block_stack k m w G t y l bss rest u :
  own_stack t -> STACK_ALLOCATION_SIZE <= y -> Forall2 task_blocks l bss -> kernel_part k m w G ((kernel_stack t, y) :: concat bss ++ rest) ->
  u ∈ l -> stack_ok symbols u.2 -> stacks_apart t u.2.
Proof.
  intros [Ht1 Ht2 Ht3 Ht4 Ht5 Ht6] Hy Hb Hk Hin Hu. apply list_elem_of_lookup in Hin as (i & Hi).
  destruct (Forall2_lookup_l _ _ _ _ _ Hb Hi) as (b & Hbi & (zq & _ & Hq)). unfold stack_ok in Hu. unfold stacks_apart.
  destruct (owns_kernel_stack u.2).
  - destruct Hq as (yq & Hyq & ->).
    assert (Hin : (kernel_stack u.2, yq) ∈ concat bss ++ rest).
    { apply elem_of_app. left. apply list_elem_of_In, in_concat. eexists. split; [apply list_elem_of_In; by apply list_elem_of_lookup_2 in Hbi|].
      right. by left. }
    destruct Hu as [Hu1 _ _ Hu4 Hu5 Hu6]. destruct (kernel_part_in _ _ _ _ _ _ _ _ _ _ _ _ Hk Hin); [left|right]; lia.
  - destruct Hu as [Hu1 Hu2 Hu3], Hsym as [_ _ _ _ Htop]. right. lia.
Qed.

(** The task that a creation makes, on a stack behind the guard page [guard] of the block [raw]. *)
Definition new_task s (name : option (list Z)) (user : bool) (space entry stack_top process capabilities raw guard : Z) : Task :=
  let t := set_kernel_stack raw guard (guard + 4096) (guard + 4096 + STACK_SIZE) true zero_task in
  let t := set_role user space entry stack_top process capabilities
             (set_task_name (copy_task_name (task_name zero_task) name) (set_task_id (g_next_pid s) t)) in
  let t := if g_fpu_context_enabled s then set_fpu_state (g_initial_fpu_state s) t else t in
  set_rsp (guard + 4096 + STACK_SIZE - 72) t.

(** The words above its stack pointer, from the lowest. *)
Definition starts_at (wd : gmap Z Z) (t : Task) (entry : Z) : Prop :=
  forall i v, [0; 0; 0; 0; 0; 0; INITIAL_TASK_RFLAGS; entry; task_return_trampoline symbols] !! i = Some v ->
    wd !! (rsp t + 8 * Z.of_nat i) = Some v.

(** What a successful creation leaves behind. *)
Record spawned s s' (l : ring) (t : Task) (entry : Z) : Prop := {
  sp_globals : globals s' = globals s;
  sp_pid : g_next_pid s <> 0 /\ g_next_pid s' = next_pid (g_next_pid s);
  sp_stacks : stacks_same (words s) (words s') l;
  sp_start : starts_at (words s') t entry;
}.

(** A task that was made only in part is freed. *)
Lemma free_task_spec p z t s l w rest k wd np bss Q R :
  sched_inv s l w rest -> Forall2 task_blocks l bss -> tasks s !! p = None -> np = g_next_pid s ->
  stacks_same (words s) wd l -> cr3 k = cr3 (kernel s) ->
  kernel_part k (spaces s) w (guards symbols l) ((p, z) :: concat bss ++ rest) ->
  (forall s', sched_inv s' l w rest -> reaped s s' l -> Q tt s') ->
  kwp (free_task p) Q R (set_tasks (<[p := t]> (tasks s)) (set_words wd (set_g_next_pid np (set_kernel k s)))).
Proof.
  intros [Hr (bss0 & Hb0 & Hco)] Hb Hp -> Hwd Ec Hk HQ. unfold free_task. apply kwp_bind. eapply (kwp_kfree addresses first_byte last_byte); [exact Hk|].
  intros k1 Hk1 Ec1. ksteps. sched_simpl. apply HQ; [|by constructor]. split.
  - sched_simpl. rewrite delete_insert_same, delete_id; done.
  - exists bss. split; [done|]. eapply (core_keep s _ l w); [exact Hco|done|by left|done|exact Hk1|]. exact (eq_trans Ec1 Ec).
Qed.

(** The task is free of the ring until it is linked. *)
Lemma ring_fresh s l w rest p : sched_inv s l w rest -> p ∉ l.*1 -> tasks s !! p = None.
Proof.
  intros [[_ _ _ Hdom _ _] _] Hp. destruct (tasks s !! p) eqn:E; [|done]. exfalso. apply Hp, Hdom. by rewrite E.
Qed.

(** Stack and id of a new task. *)
Lemma new_task_ok s name (user : bool) space entry stack_top process capabilities raw guard l w rest wd p :
  let t := new_task s name user space entry stack_top process capabilities raw guard in
  sched_inv s l w rest -> own_stack t -> g_next_pid s <> 0 -> (if user then space ∈ live_self <$> w else space = NULL) ->
  canary_ok wd t -> (forall i, 0 <= i < 8 -> is_Some (wd !! (rsp t + 8 * i))) ->
  task_ok symbols wd (g_current_task s) (live_self <$> w) (next_pid (g_next_pid s)) (p, t).
Proof.
  intros t [_ (bss & _ & [_ _ _ Hpid _])] Hst Hnp Hsp Hcan Hf.
  assert (E : owns_kernel_stack t = true /\ is_user t = user /\ address_space t = space /\ task_id t = g_next_pid s /\
    kernel_stack_canary t = guard + 4096 /\ kernel_stack_top t = guard + 4096 + STACK_SIZE /\ rsp t = guard + 4096 + STACK_SIZE - 72).
  { unfold t, new_task. by destruct (g_fpu_context_enabled s). }
  destruct E as (E1 & E2 & E3 & E4 & E5 & E6 & E7). constructor; cbn [fst snd].
  - unfold stack_ok. by rewrite E1.
  - done.
  - intros _. split; [|split; [|done]]; rewrite E7, ?E5, ?E6; unfold STACK_SIZE; lia.
  - unfold space_ref. by rewrite E2, E3.
  - split; rewrite E4; [lia|]. unfold next_pid. destruct (_ =? _); [by left|right; lia].
Qed.

Lemma initialize_stack_canary_spec p t s Q R :
  tasks s !! p = Some t -> 0 < kernel_stack_canary t ->
  (forall wd, canary_ok wd t -> (forall b, b < kernel_stack_canary t \/ kernel_stack_canary t + 64 <= b -> wd !! b = words s !! b) ->
     Q tt (set_words wd s)) ->
  kwp (initialize_stack_canary p) Q R s.
Proof.
  intros Hp Hc HQ. unfold initialize_stack_canary. apply kwp_bind, (kwp_task_at _ _ _ _ _ Hp).
  rewrite (proj2 (Z.eqb_neq _ _)) by (unfold NULL; lia). apply write_canary_spec. intros wd Hw Ho. apply HQ.
  - intros i Hi. apply Hw. unfold STACK_CANARY_WORDS in *. lia.
  - intros b Hb. apply Ho. unfold canary_address, STACK_CANARY_WORDS. lia.
Qed.

Lemma initialize_task_fpu_spec p t s Q R :
  tasks s !! p = Some t ->
  (forall m, m !! p = Some (if g_fpu_context_enabled s then set_fpu_state (g_initial_fpu_state s) t else t) ->
     (forall q, q <> p -> m !! q = tasks s !! q) -> Q tt (set_tasks m s)) ->
  kwp (initialize_task_fpu p) Q R s.
Proof.
  intros Hp HQ. unfold initialize_task_fpu. ksteps. destruct (g_fpu_context_enabled s); cbn [negb].
  - ksteps. apply (kwp_update_task _ _ _ _ _ _ Hp). apply HQ; [by rewrite lookup_insert_eq|]. intros q Hq. by apply lookup_insert_ne.
  - ksteps. replace s with (set_tasks (tasks s) s) by (by destruct s). by apply HQ.
Qed.

(** The words of the new stack. *)
Lemma stack_words_spec p t entry s (Q : Z -> scheduler A -> Prop) R :
  tasks s !! p = Some t -> own_stack t -> canary_ok (words s) t ->
  (forall wd, canary_ok wd t ->
     (forall b, b < kernel_stack_canary t + 64 \/ kernel_stack_top t <= b -> wd !! b = words s !! b) ->
     (forall i v, [0; 0; 0; 0; 0; 0; INITIAL_TASK_RFLAGS; entry; task_return_trampoline symbols] !! i = Some v ->
        wd !! (kernel_stack_top t - 72 + 8 * Z.of_nat i) = Some v) -> Q (kernel_stack_top t - 72) (set_words wd s)) ->
  kwp (t ← task_at p; push_words (kernel_stack_top t) (initial_frame symbols entry)) Q R s.
Proof.
  intros Hp [Ht1 Ht2 Ht3 Ht4 Ht5 Ht6] Hcan HQ. unfold HEAP_FLOOR, ADDRESS_LIMIT in *. change STACK_SIZE with 16384 in *.
  apply kwp_bind, (kwp_task_at _ _ _ _ _ Hp). apply push_words_spec; change (8 * Z.of_nat (length (initial_frame symbols entry))) with 72.
  { lia. }
  intros wd Hw Ho. apply HQ; [|intros b Hb; apply Ho; lia|exact Hw].
  intros i Hi. rewrite Ho; [by apply Hcan|]. unfold canary_address, STACK_CANARY_WORDS in *. lia.
Qed.

Lemma kwp_assoc {B C D} (m : KM (scheduler A) B) (f : B -> KM (scheduler A) C) (g : C -> KM (scheduler A) D) Q R s :
  kwp ((m ≫= f) ≫= g) Q R s -> kwp (m ≫= (fun b => f b ≫= g)) Q R s.
Proof. unfold kwp, mbind, KM_bind. by destruct (m s) as [[[b|] s']|]. Qed.

Lemma stacks_same_refl wd l : stacks_same wd wd l.
Proof. by apply Forall_forall. Qed.

(** A message keeps everything. *)
Lemma kwp_log m s l w rest Q R :
  sched_inv s l w rest -> (forall k, sched_inv (set_kernel k s) l w rest -> Q tt (set_kernel k s)) -> kwp (syslog_write m) Q R s.
Proof.
  intros [Hr (bss & Hb & Hco)] HQ. eapply (kwp_syslog addresses first_byte last_byte); [by destruct Hco|].
  intros k Hk Ec. apply HQ. split; [done|]. exists bss. split; [done|].
  eapply (core_keep s _ l w); [exact Hco|done|by left|apply stacks_same_refl|exact Hk|exact Ec].
Qed.

(** Either nothing is created and nothing is lost, or the ring has one task more, after its head. *)
Lemma spawn_spec no_memory no_stack name (user : bool) space entry stack_top process capabilities entry_point s l w rest Q R :
  sched_inv s l w rest ->
  (if user then space ∈ live_self <$> w /\ forall y, y ∈ l -> is_user y.2 = true -> address_space y.2 <> space else space = NULL) ->
  (forall s', sched_inv s' l w rest -> reaped s s' l -> Q false s') ->
  (forall s' p raw guard, let t := new_task s name user space entry stack_top process capabilities raw guard in
     sched_inv s' (insert_second (p, t) l) w rest -> p ∉ l.*1 -> spawned s s' l t entry_point -> Q true s') ->
  kwp (spawn symbols no_memory no_stack name (set_role user space entry stack_top process capabilities) entry_point) Q R s.
Proof.
  intros Hinv Hspace Hfail Hok. pose proof Hinv as [Hr (bss & Hb & Hco)]. pose proof Hco as [Hoks Hap Hk Hpid Hact].
  unfold spawn. apply kwp_bind. eapply (kwp_kmalloc addresses first_byte last_byte); [exact Hk|by vm_compute|].
  assert (Hlog : forall m s', sched_inv s' l w rest -> reaped s s' l -> kwp (syslog_write m;; mret false) Q R s').
  { intros m s' Hinv' Hre. apply kwp_bind, (kwp_log _ _ _ _ _ _ _ Hinv'). intros k' Hk'. ksteps. apply Hfail; [done|].
    by destruct Hre; constructor. }
  intros k1 p Ec1 [[-> Hk1]|(z & Hz & Hp0 & Hk1)].
  { change (NULL =? NULL) with true. cbv iota. apply Hlog; [|by constructor; [..|apply stacks_same_refl]]. split; [done|]. exists bss. split; [done|].
    eapply (core_keep s _ l w); [exact Hco|done|by left|apply stacks_same_refl|exact Hk1|exact Ec1]. }
  rewrite (proj2 (Z.eqb_neq _ _) Hp0). ksteps. unfold sizeof_Task in Hz. sched_simpl.
  assert (Hpl : p ∉ l.*1) by (eapply (block_key _ _ _ _ p z); [lia|exact Hb|exact Hk1]). pose proof (ring_fresh _ _ _ _ _ Hinv Hpl) as Hfresh.
  eapply allocate_guarded_kernel_stack_spec; [apply lookup_insert_eq|exact Hk1| |].
  { intros k2 Hk2 Ec2. cbn [negb]. apply kwp_bind.
    eapply (free_task_spec p z zero_task s l w rest k2 (words s) (g_next_pid s) bss _ _ Hinv Hb Hfresh eq_refl (stacks_same_refl _ _)); [exact (eq_trans Ec2 Ec1)|exact Hk2|].
    intros s' Hinv' Hre. by apply Hlog. }
  intros k2 raw guard y t1 Hst Hy Ec2 Hk2. cbn [negb]. sched_simpl. rewrite insert_insert_eq. apply kwp_bind.
  assert (Hstacks : forall u, u ∈ l -> stack_ok symbols u.2 /\ stacks_apart t1 u.2).
  { intros u Hu. pose proof (proj1 (Forall_forall _ _) Hoks u Hu) as [Hus _ _ _ _]. split; [done|].
    apply (block_stack k2 (spaces s) w ({[guard / 4096]} ∪ guards symbols l) t1 y l bss ((p, z) :: rest) u Hst Hy Hb); [|done|done].
    apply (kernel_part_blocks _ _ _ _ _ _ _ _ _ Hk2). cbn [kernel_stack t1 set_kernel_stack]. by rewrite Permutation_middle. }
  assert (Hgfresh : guard / 4096 ∉ guards symbols l).
  { apply (guard_fresh symbols Hsym t1 l); [exact Hst|done|exact Hstacks]. }
  unfold allocate_task_id. ksteps. sched_simpl. destruct (Z.eqb_spec (g_next_pid s) 0) as [Enp|Enp].
  { ksteps. eapply (release_kernel_stack_spec addresses first_byte last_byte p 0 t1); [apply lookup_insert_eq|done|exact Hst|exact Hgfresh|exact Hk2|].
    intros k3 Hk3 Ec3. sched_simpl. rewrite insert_insert_eq. apply kwp_bind.
    match goal with |- kwp _ ?P _ ?S =>
      eapply (free_task_spec p z _ s l w rest k3 _ (g_next_pid s) bss P R Hinv Hb Hfresh eq_refl); [|exact (eq_trans Ec3 (eq_trans Ec2 Ec1))|exact Hk3|] end.
    - apply Forall_forall. intros u Hu. apply forget_words_same. destruct (Hstacks u Hu) as [Hus Hua].
      destruct (stack_bounds _ _ Hsym Hus) as (_ & _ & Hc' & Hb'), Hst as [_ _ _ Hc1 _ _]. destruct Hua; lia.
    - intros s' Hinv' Hre. by apply Hlog. }
  ksteps. sched_simpl. eapply kwp_update_task; [apply lookup_insert_eq|]. sched_simpl. rewrite insert_insert_eq. apply kwp_bind.
  set (t2 := set_role user space entry stack_top process capabilities
     (set_task_name (copy_task_name (task_name t1) name) (set_task_id (g_next_pid s) t1))).
  eapply (initialize_stack_canary_spec p t2); [apply lookup_insert_eq|destruct Hst; cbn in *; unfold HEAP_FLOOR in *; lia|].
  intros wd1 Hcan1 Hwd1. sched_simpl. apply kwp_bind. eapply (initialize_task_fpu_spec p t2); [apply lookup_insert_eq|].
  sched_simpl. intros m1 Hm1 Ho1. set (t3 := if g_fpu_context_enabled s then set_fpu_state (g_initial_fpu_state s) t2 else t2) in *.
  assert (E3 : kernel_stack_canary t3 = guard + 4096 /\ kernel_stack_top t3 = guard + 4096 + STACK_SIZE /\ task_id t3 = g_next_pid s /\
    kernel_stack t3 = raw /\ kernel_stack_guard t3 = guard) by (unfold t3; by destruct (g_fpu_context_enabled s)).
  destruct E3 as (Ec3 & Et3 & Ei3 & Er3 & Eg3).
  assert (Hst3 : own_stack t3) by (destruct Hst; constructor; rewrite ?Er3, ?Eg3, ?Ec3, ?Et3; assumption).
  assert (Hcan3 : canary_ok wd1 t3).
  { intros i Hi. unfold canary_address. rewrite Ec3, Ei3. exact (Hcan1 i Hi). }
  apply kwp_assoc, kwp_bind. eapply (stack_words_spec p t3 entry_point); [exact Hm1|exact Hst3|exact Hcan3|].
  sched_simpl. intros wd2 Hcan2 Hwd2 Hframe. apply kwp_bind. eapply kwp_update_task; [exact Hm1|]. sched_simpl. ksteps. sched_simpl.
  destruct l as [|[d th] l2]; [by destruct Hact as (? & ?%elem_of_nil & _)|]. pose proof Hr as [[Ed _] Eh _ _ _ _]. cbn [first_of] in Eh. subst d. set (d := g_head s) in *.
  assert (Hdp : p <> d) by (intros ->; apply Hpl; by left).
  eapply kwp_task_at; [sched_simpl; rewrite lookup_insert_ne, Ho1, lookup_insert_ne by done; exact Ed|]. cbn [next set_next].
  apply kwp_bind. eapply kwp_update_task; [sched_simpl; apply lookup_insert_eq|]. sched_simpl. rewrite insert_insert_eq. apply kwp_bind.
  eapply kwp_update_task; [sched_simpl; rewrite lookup_insert_ne, Ho1, lookup_insert_ne by done; exact Ed|]. sched_simpl. rewrite set_next_next. ksteps.
  set (t4 := set_rsp (kernel_stack_top t3 - 72) t3).
  assert (E4 : t4 = new_task s name user space entry stack_top process capabilities raw guard) by (unfold t4; rewrite Et3; done).
  assert (Hwds : stacks_same (words s) wd2 ((d, th) :: l2)).
  { apply Forall_forall. intros u Hu b Hb2. destruct (Hstacks u Hu) as [Hus Hua].
    destruct (stack_bounds _ _ Hsym Hus) as (_ & _ & Hcu & Hbu). unfold stacks_apart in Hua. cbn [kernel_stack_top kernel_stack_guard t1 set_kernel_stack] in Hua.
    unfold STACK_SIZE in *. rewrite Hwd2 by (rewrite Ec3, Et3; lia). apply Hwd1. cbn [kernel_stack_canary t2 t1 set_kernel_stack set_role set_task_name set_task_id]. lia. }
  apply (Hok _ p raw guard); [|exact Hpl|].
  - rewrite <- E4. split; sched_simpl.
    + cbn [insert_second].
      match goal with |- ring_rep ?m _ _ => replace m with (<[d := set_next p th]> (<[p := set_next (first_of l2 d) t4]> (tasks s))) end.
      2: { apply map_eq. intros q. destruct (decide (q = d)) as [->|Hqd]; [by rewrite !lookup_insert_eq|]. rewrite !(lookup_insert_ne _ d) by done.
           destruct (decide (q = p)) as [->|Hqp]; [by rewrite !lookup_insert_eq|]. rewrite !(lookup_insert_ne _ p), Ho1, lookup_insert_ne by done. done. }
      apply (ring_insert _ _ d th l2 p t4); [done|done|done| |done].
      rewrite E4. unfold new_task. by destruct (g_fpu_context_enabled s).
    + eapply bodies_perm; [|symmetry; apply insert_second_perm].
      exists ([(p, z); (raw, y)] :: bss). split.
      * constructor; [|done]. exists z. split; [unfold sizeof_Task; lia|]. cbn [fst snd].
        replace (owns_kernel_stack t4) with true by (rewrite E4; unfold new_task; by destruct (g_fpu_context_enabled s)).
        exists y. split; [done|]. by rewrite <- Er3.
      * assert (Eo4 : owns_kernel_stack t4 = true) by (rewrite E4; unfold new_task; by destruct (g_fpu_context_enabled s)).
        rewrite guards_cons. cbn [snd]. rewrite Eo4. unfold guard_of. cbn [snd]. change (kernel_stack_guard t4) with (kernel_stack_guard t3). rewrite Eg3.
        cbn [concat app]. apply core_add; [|sched_simpl| |].
        -- eapply (core_keep s _ _ w); [exact Hco|done|by right|exact Hwds| |exact (eq_trans Ec2 Ec1)].
           apply (kernel_part_blocks _ _ _ _ _ _ _ _ _ Hk2). apply perm_swap.
        -- rewrite E4. apply (new_task_ok s name user space entry stack_top process capabilities raw guard _ w rest wd2 p Hinv).
           ++ rewrite <- E4. destruct Hst3. by constructor.
           ++ done.
           ++ destruct user; [by destruct Hspace|done].
           ++ rewrite <- E4. exact Hcan2.
           ++ intros i Hi. rewrite <- E4. change (rsp t4) with (kernel_stack_top t3 - 72).
              destruct (lookup_lt_is_Some_2 [0; 0; 0; 0; 0; 0; INITIAL_TASK_RFLAGS; entry_point; task_return_trampoline symbols] (Z.to_nat i)) as [v Hv];
                [cbn; lia|]. exists v. rewrite <- (Hframe (Z.to_nat i) v Hv). f_equal. lia.
        -- intros u Hu. destruct (Hstacks u Hu) as [_ Hua]. constructor.
           ++ unfold stacks_apart in *. change (kernel_stack_top t4) with (kernel_stack_top t3). change (kernel_stack_guard t4) with (kernel_stack_guard t3).
              rewrite Et3, Eg3. exact Hua.
           ++ intros E1 E2. rewrite E4 in E1 |- *. destruct user; [|unfold new_task in E1; by destruct (g_fpu_context_enabled s)].
              destruct Hspace as [_ Hne]. intros E5. apply (Hne u Hu E2). rewrite <- E5. unfold new_task. by destruct (g_fpu_context_enabled s).
           ++ change (task_id t4) with (task_id t3). rewrite Ei3. pose proof (proj1 (Forall_forall _ _) Hoks u Hu) as [_ _ _ _ [_ [?|?]]]; [done|lia].
        -- constructor; [done|]. by destruct Hr.
  - rewrite <- E4. constructor; [done|by split|done|exact Hframe].
Qed.

End Spawn.
