(* ===== verification/SchedSafe.v ===== *)
(** * kernel/scheduler.c: switching

    [schedule] takes the next ready task of the ring; the context of the old one is on its stack and in its
    FPU image.

    Then [step], the relation between the states before and after a request; then each request as a step. *)

From stdpp Require Import gmap.
From S2P Require Import Prelude CString Heap Allocator Elf Manifest AppProcess Paging PagingTree PagingSpace PagingMap PagingKernel PagingGuard PagingClaims Scheduler SchedRing SchedInv SchedSpawn.

(** What a task owns, and its id: the fields that no request changes in place. *)
Definition body (t : Task) :=
  (task_id t, (kernel_stack t, kernel_stack_guard t, kernel_stack_canary t, kernel_stack_top t, owns_kernel_stack t), (is_user t, address_space t)).

Lemma body_eq t u :
  body u = body t ->
  task_id u = task_id t /\ kernel_stack_guard u = kernel_stack_guard t /\ kernel_stack_canary u = kernel_stack_canary t /\
  kernel_stack_top u = kernel_stack_top t /\ is_user u = is_user t /\ address_space u = address_space t.
Proof. unfold body. intros Hb. injection Hb as ? ? ? ? ? ? ? ?. done. Qed.

Lemma canary_body wd t u : body u = body t -> canary_ok wd t -> canary_ok wd u.
Proof. intros (E1 & _ & E2 & _)%body_eq. unfold canary_ok, canary_address. by rewrite E1, E2. Qed.

Definition similar (x y : Z * Task) : Prop := y.1 = x.1 /\ body y.2 = body x.2.

(** An assignment to a field that is neither part of the body nor [next]. *)
Record field_update (f : Task -> Task) : Prop := {
  fu_body : forall t, body (f t) = body t;
  fu_next : forall n t, f (set_next n t) = set_next n (f t);
}.

Lemma field_update_quantum v : field_update (set_quantum_ticks v).
Proof. by split. Qed.
Lemma field_update_fpu v : field_update (set_fpu_state v).
Proof. by split. Qed.
Lemma field_update_rsp v : field_update (set_rsp v).
Proof. by split. Qed.
Lemma field_update_state v : field_update (set_task_state v).
Proof. by split. Qed.
Lemma field_update_id : field_update (fun t => t).
Proof. by split. Qed.
Lemma field_update_compose f g : field_update f -> field_update g -> field_update (fun t => f (g t)).
Proof. intros [F1 F2] [G1 G2]. split; [intros t; by rewrite F1|intros n t; by rewrite G2]. Qed.
#[global] Hint Resolve field_update_quantum field_update_fpu field_update_rsp field_update_state field_update_id : sched.

Lemma body_bare t : body (bare t) = body t.
Proof. done. Qed.

Lemma ring_update_similar p f l : field_update f -> Forall2 similar l (ring_update p f l).
Proof.
  intros Hf. induction l as [|[q t] l IH]; [constructor|]. constructor; [|exact IH]. cbn [fst snd].
  case_decide; (split; [done|]); [|done]. cbn [snd]. by rewrite body_bare, (fu_body _ Hf).
Qed.

Lemma similar_trans l1 l2 l3 : Forall2 similar l1 l2 -> Forall2 similar l2 l3 -> Forall2 similar l1 l3.
Proof. intros H12. revert l3. induction H12 as [|x y l1 l2 [H1 H2] _ IH]; intros l3 H23; inversion_clear H23 as [|? z ? l' [H3 H4]]; constructor; [|by apply IH]. split; congruence. Qed.

Lemma similar_in l l' y : Forall2 similar l l' -> y ∈ l' -> exists x, x ∈ l /\ similar x y.
Proof.
  intros H (i & Hi)%list_elem_of_lookup. destruct (Forall2_lookup_r _ _ _ _ _ H Hi) as (x & Hx & Hs). exists x. split; [|done].
  by apply list_elem_of_lookup_2 in Hx.
Qed.

Lemma similar_guards symbols l l' : Forall2 similar l l' -> guards symbols l' = guards symbols l.
Proof.
  induction 1 as [|x y l l' [_ Hb] _ IH]; [done|]. rewrite !guards_cons, IH. unfold guard_of. injection Hb as _ _ -> _ _ -> _ _. done.
Qed.

Lemma similar_blocks l l' bss : Forall2 similar l l' -> Forall2 task_blocks l bss -> Forall2 task_blocks l' bss.
Proof.
  intros Hs. revert bss. induction Hs as [|x y l l' [Hk Hb] _ IH]; intros bss Hbl; inversion_clear Hbl as [|? b ? bss' Hx Hl]; constructor; [|by apply IH].
  destruct Hx as (z & Hz & Hx). exists z. split; [done|]. injection Hb as _ E1 _ _ _ E2 _ _. by rewrite E1, E2, Hk.
Qed.

Lemma apart_similar t u t' u' : body t' = body t -> body u' = body u -> apart t u -> apart t' u'.
Proof.
  unfold body. intros Ht Hu [H1 H2 H3]. injection Ht as E1 _ E2 _ E3 _ E4 E5. injection Hu as F1 _ F2 _ F3 _ F4 F5. constructor.
  - unfold stacks_apart in *. by rewrite E2, E3, F2, F3.
  - by rewrite E4, E5, F4, F5.
  - by rewrite E1, F1.
Qed.

Lemma stack_ok_similar symbols t t' : body t' = body t -> stack_ok symbols t -> stack_ok symbols t'.
Proof.
  unfold body, stack_ok. intros Ht. injection Ht as _ E1 E2 E3 E4 E5 _ _. rewrite E5. destruct (owns_kernel_stack t).
  - intros []. constructor; by rewrite ?E1, ?E2, ?E3, ?E4.
  - intros []. constructor; by rewrite ?E1, ?E2, ?E3, ?E4.
Qed.

Section Switch.
Context {A : Type} `{AllocatorLaws A} (addresses : table_addresses) (symbols : symbols) (first_byte last_byte : Z).
Context (Hsym : symbols_ok symbols).

Abbreviation core := (core addresses symbols first_byte last_byte).
Abbreviation bodies := (bodies addresses symbols first_byte last_byte).
Abbreviation sched_inv := (sched_inv addresses symbols first_byte last_byte).
Abbreviation kernel_part := (kernel_part addresses first_byte last_byte).
Abbreviation active := (active addresses).
Implicit Types (s : scheduler A) (l : ring) (w : list live).

(** Tasks with the same bodies: canaries, frames and CR3 are to be shown. *)
Lemma bodies_similar s s' l l' w rest :
  bodies s l w rest -> Forall2 similar l l' -> g_next_pid s' = g_next_pid s ->
  (forall y, y ∈ l' -> canary_ok (words s') y.2 /\ (y.1 <> g_current_task s' -> frame_ok (words s') y.2)) ->
  (forall G bs, kernel_part (kernel s) (spaces s) w G bs -> kernel_part (kernel s') (spaces s') w G bs) ->
  active s' l' w -> bodies s' l' w rest.
Proof.
  intros (bss & Hb & [H1 H2 H3 H4 _]) Hs Enp Hwords Hk Hact. exists bss. split; [by apply (similar_blocks l)|].
  rewrite (similar_guards _ _ _ Hs). constructor; [| |by apply Hk|by rewrite Enp|done].
  - apply Forall_forall. intros y Hy. destruct (similar_in _ _ _ Hs Hy) as (x & Hx & _ & Hbd).
    pose proof (proj1 (Forall_forall _ _) H1 x Hx) as [T1 _ _ T4 T5]. destruct (Hwords y Hy) as [W1 W2].
    pose proof Hbd as Hbd'. injection Hbd as E1 _ _ _ _ _ E2 E3. constructor; [by apply (stack_ok_similar _ x.2)|done|done| |].
    + unfold space_ref in *. by rewrite E2, E3.
    + unfold id_ok in *. by rewrite E1, Enp.
  - intros y1 y2 Hy1 Hy2 Hne. destruct (similar_in _ _ _ Hs Hy1) as (x1 & Hx1 & K1 & B1), (similar_in _ _ _ Hs Hy2) as (x2 & Hx2 & K2 & B2).
    apply (apart_similar x1.2 x2.2); [done|done|]. apply H2; [done|done|congruence].
Qed.

(** A field of a task changes; the stack pointer of a suspended task does not. *)
Lemma kwp_update_field p t f s l w rest Q R :
  sched_inv s l w rest -> (p, t) ∈ l -> field_update f -> p = g_current_task s \/ rsp (f t) = rsp t ->
  (forall m, sched_inv (set_tasks m s) (ring_update p f l) w rest -> Q tt (set_tasks m s)) -> kwp (update_task p f) Q R s.
Proof.
  intros [Hr Hb] Hp Hf Hsp HQ. destruct (ring_lookup _ _ _ _ _ Hr Hp) as (n & En). apply (kwp_update_task _ _ _ _ _ _ En).
  apply HQ. split; [apply (ring_update_rep _ _ _ _ t); [done|done|apply Hf|done]|].
  apply (bodies_similar s _ l); [done|by apply ring_update_similar|done| |done|].
  - intros [q u] Hq. apply ring_update_in in Hq as (t' & Hin & ->). cbn [fst snd words set_tasks g_current_task].
    destruct Hb as (bss & _ & [Hok _ _ _ _]). pose proof (proj1 (Forall_forall _ _) Hok _ Hin) as [_ T2 T3 _ _]. cbn [fst snd] in *.
    case_decide as Eq; [|done]. subst q. assert (t' = t) as -> by (by apply (ring_member _ _ _ _ _ _ Hr Hin Hp)).
    pose proof (fu_body _ Hf t) as Eb. injection Eb as E1 _ _ E2 E3 _ _ _. split.
    + unfold canary_ok, canary_address in *. cbn [kernel_stack_canary bare set_next task_id]. by rewrite E1, E2.
    + intros Hne. destruct Hsp as [?|Hsp]; [done|]. unfold frame_ok in *. cbn [rsp kernel_stack_canary kernel_stack_top bare set_next]. rewrite Hsp, E2, E3. by apply T3.
  - destruct Hb as (bss & _ & [_ _ _ _ (c & Hc & Hact)]). cbn [kernel set_tasks g_current_task].
    exists (if decide (g_current_task s = p) then bare (f c) else c). split; [apply ring_update_in; by exists c|]. cbn [kernel set_tasks].
    case_decide; [|done]. pose proof (fu_body _ Hf c) as Eb. injection Eb as _ _ _ _ _ _ E1 E2.
    cbn [is_user address_space bare set_next]. by rewrite E1, E2.
Qed.

(** The same for the links alone. *)
Lemma kwp_update_ring p t f s l Q R :
  ring_rep (tasks s) (g_head s) l -> (p, t) ∈ l -> field_update f ->
  (forall m, ring_rep m (g_head s) (ring_update p f l) -> Q tt (set_tasks m s)) -> kwp (update_task p f) Q R s.
Proof.
  intros Hr Hp Hf HQ. destruct (ring_lookup _ _ _ _ _ Hr Hp) as (n & En). apply (kwp_update_task _ _ _ _ _ _ En).
  apply HQ. apply (ring_update_rep _ _ _ _ t); [done|done|apply Hf|done].
Qed.

Lemma kwp_ring_at p t s l (Q : Task -> scheduler A -> Prop) R :
  ring_rep (tasks s) (g_head s) l -> (p, t) ∈ l -> (forall n, Q (set_next n t) s) -> kwp (task_at p) Q R s.
Proof. intros Hr Hp HQ. destruct (ring_lookup _ _ _ _ _ Hr Hp) as (n & En). by apply (kwp_task_at _ _ _ _ _ En). Qed.

Lemma kwp_canary p t s l w rest (Q : bool -> scheduler A -> Prop) R :
  sched_inv s l w rest -> (p, t) ∈ l -> Q true s -> kwp (stack_canary_intact p) Q R s.
Proof.
  intros [Hr (bss & _ & [Hok _ _ _ _])] Hp HQ. destruct (ring_lookup _ _ _ _ _ Hr Hp) as (n & En).
  pose proof (proj1 (Forall_forall _ _) Hok _ Hp) as [T1 T2 _ _ _]. destruct (stack_bounds _ _ Hsym T1) as (? & _ & ? & _).
  apply (stack_canary_intact_spec p t n); [done|done|unfold NULL; cbn in *; lia|done].
Qed.

(** ** A switch *)

(** The caller's stack pointer leaves room above the canary. *)
Record call_ok (t : Task) (frame : call_frame) : Prop := {
  ca_saved : length (callee_saved frame) = 6%nat;
  ca_room : kernel_stack_canary t + 120 <= frame_sp frame;
  ca_top : frame_sp frame + 8 <= kernel_stack_top t;
}.

(** The task that calls, when it is suspended. *)
Definition save s (t : Task) : Task := if g_fpu_context_enabled s then set_fpu_state (fpu (cpu_registers s)) t else t.
Definition suspend s (frame : call_frame) (t : Task) : Task := set_rsp (frame_sp frame - 56) (set_quantum_ticks 0 (save s t)).

Lemma save_update s : field_update (save s).
Proof. unfold save. destruct (g_fpu_context_enabled s); auto with sched. Qed.

Lemma suspend_update s frame : field_update (suspend s frame).
Proof. unfold suspend, save. destruct (g_fpu_context_enabled s); by split. Qed.

(** The words that a suspended task has on its stack, from the lowest. *)
Definition saved_words (frame : call_frame) (saved_rflags : Z) : list Z :=
  rev (saved_rflags :: callee_saved frame) ++ [schedule_return symbols].

(** From the task [c] to the task [n]. *)
Record switched s s' (frame : call_frame) (saved_rflags c n : Z) (tn : Task) (destination : Z) : Prop := {
  sw_current : g_current_task s' = n;
  sw_fpu : fpu (cpu_registers s') = if g_fpu_context_enabled s then fpu_state tn else fpu (cpu_registers s);
  sw_stack : tss_rsp0 (cpu_registers s') = kernel_stack_top tn;
  sw_control : cr0 (cpu_registers s') = cr0 (cpu_registers s) /\ cr4 (cpu_registers s') = cr4 (cpu_registers s);
  sw_globals : (processes s', g_head s', g_next_pid s', g_fpu_context_enabled s', g_initial_fpu_state s') =
    (processes s, g_head s, g_next_pid s, g_fpu_context_enabled s, g_initial_fpu_state s);
  sw_saved : forall i v, saved_words frame saved_rflags !! i = Some v -> words s' !! (frame_sp frame - 56 + 8 * Z.of_nat i) = Some v;
  sw_words : forall a, a < frame_sp frame - 56 \/ frame_sp frame + 8 <= a -> words s' !! a = words s !! a;
  sw_destination : words s !! (rsp tn + 56) = Some destination;
}.

(** The ring after it. *)
Definition switched_ring s (frame : call_frame) (c n : Z) (l : ring) : ring :=
  ring_update n (set_quantum_ticks 0) (ring_update c (suspend s frame) l).

Lemma save_task_fpu_spec s c tc l w rest Q R :
  sched_inv s l w rest -> (c, tc) ∈ l ->
  (forall m, sched_inv (set_tasks m s) (ring_update c (save s) l) w rest -> Q tt (set_tasks m s)) -> kwp (save_task_fpu c) Q R s.
Proof.
  intros Hinv Hc HQ. unfold save_task_fpu. ksteps. unfold save in HQ. destruct (g_fpu_context_enabled s); cbn [negb].
  - ksteps. apply (kwp_update_field c tc _ s l w rest); [done|done|auto with sched|by right|done].
  - ksteps. pose proof Hinv as [Hr _]. rewrite (ring_update_id _ _ _ _ Hr) in HQ. replace s with (set_tasks (tasks s) s) by (by destruct s).
    apply HQ. by destruct s.
Qed.

Lemma restore_task_fpu_spec s n tn l Q R :
  ring_rep (tasks s) (g_head s) l -> (n, tn) ∈ l ->
  (Q tt (set_cpu_registers (set_fpu (if g_fpu_context_enabled s then fpu_state tn else fpu (cpu_registers s)) (cpu_registers s)) s)) ->
  kwp (restore_task_fpu n) Q R s.
Proof.
  intros Hr Hn HQ. unfold restore_task_fpu. ksteps. destruct (g_fpu_context_enabled s); cbn [negb].
  - ksteps. apply (kwp_ring_at n tn _ l); [done|done|]. intros k. by ksteps.
  - ksteps. replace s with (set_cpu_registers (set_fpu (fpu (cpu_registers s)) (cpu_registers s)) s) by (by destruct s as [? ? ? ? ? ? ? ? ? ? []]). done.
Qed.

Lemma space_at_live s w G bs t (Hk : kernel_part (kernel s) (spaces s) w G bs) :
  space_ref (live_self <$> w) t ->
  exists space, space_at (address_space t) s = Some space /\
    if is_user t then exists v, v ∈ w /\ live_self v = address_space t /\ paging_address_space_cr3 addresses space = pml4 (live_space v)
    else paging_address_space_cr3 addresses space = pml4_address addresses.
Proof.
  unfold space_ref, space_at. destruct (is_user t).
  - intros Ht. pose proof Hk as (Hw & _ & Hs). destruct (spaces_rep_lookup _ _ _ Hs Ht) as (v & w' & Hp & Ev & Em).
    assert (Hv : v ∈ w) by (rewrite Hp; by left). pose proof (live_self_nonnull _ _ _ _ _ _ _ _ _ Hk Hv) as Hn. rewrite Ev in Hn.
    rewrite (proj2 (Z.eqb_neq _ _) Hn), Em. exists (Some (live_space v)). split; [done|]. exists v. split; [done|]. split; [done|].
    cbn [paging_address_space_cr3]. destruct Hw as (_ & Hl & _). pose proof (proj1 (Forall_forall _ _) Hl v Hv) as [Htree _].
    by rewrite (root_nonnull _ _ _ _ _ Htree).
  - intros ->. by exists None.
Qed.

(** The words that [context_switch] stores. *)
Lemma context_switch_words frame saved_rflags sp s (Q : Z -> scheduler A -> Prop) R :
  sp = frame_sp frame -> length (callee_saved frame) = 6%nat -> 56 <= sp < 2 ^ 64 ->
  (forall wd, (forall i v, saved_words frame saved_rflags !! i = Some v -> wd !! (sp - 56 + 8 * Z.of_nat i) = Some v) ->
     (forall a, a < sp - 56 \/ sp + 8 <= a -> wd !! a = words s !! a) -> Q (sp - 56) (set_words wd s)) ->
  kwp (write_word sp (schedule_return symbols);; push_words sp (saved_rflags :: callee_saved frame)) Q R s.
Proof.
  intros -> Hl Hsp HQ. apply kwp_bind, kwp_write_word.
  assert (El : Z.of_nat (length (saved_rflags :: callee_saved frame)) = 7) by (cbn [length]; lia).
  apply push_words_spec; rewrite ?El; [lia|]. intros wd Hw Ho. apply HQ.
  - intros i v. unfold saved_words. rewrite lookup_app_Some, length_rev. intros [Hi|[Hi Hv]]; [by apply Hw|].
    apply list_lookup_singleton_Some in Hv as [Hi2 <-]. cbn [length] in *. replace (_ + 8 * Z.of_nat i) with (frame_sp frame) by lia.
    rewrite Ho by lia. apply lookup_insert_eq.
  - intros a Ha. rewrite Ho by lia. cbn [words set_words]. apply lookup_insert_ne. lia.
Qed.

Lemma saved_words_length frame saved_rflags : length (callee_saved frame) = 6%nat -> length (saved_words frame saved_rflags) = 8%nat.
Proof. intros Hl. unfold saved_words. rewrite length_app, length_rev. cbn. lia. Qed.

(** All of [switch_tasks] but for what it leaves in the ring. *)
Lemma switch_words_ok s wd l w rest frame saved_rflags c tc n tn :
  sched_inv s l w rest -> (c, tc) ∈ l -> (n, tn) ∈ l -> c = g_current_task s -> c <> n -> call_ok tc frame ->
  (forall i v, saved_words frame saved_rflags !! i = Some v -> wd !! (frame_sp frame - 56 + 8 * Z.of_nat i) = Some v) ->
  (forall a, a < frame_sp frame - 56 \/ frame_sp frame + 8 <= a -> wd !! a = words s !! a) ->
  forall y, y ∈ switched_ring s frame c n l -> canary_ok wd y.2 /\ (y.1 <> n -> frame_ok wd y.2).
Proof.
  intros [Hr (bss & _ & [Hok Hap _ _ _])] Hc Hn Ec Hne [Hl Hroom Htop] Hw Ho [q u] Hq.
  unfold switched_ring in Hq. apply ring_update_in in Hq as (u1 & (t & Ht & ->)%ring_update_in & ->). cbn [fst snd].
  pose proof (proj1 (Forall_forall _ _) Hok _ Ht) as [T1 T2 T3 _ _]. cbn [fst snd] in *.
  destruct (stack_bounds _ _ Hsym T1) as (_ & _ & Hcan & Hbnd).
  assert (Hbody : body (if decide (q = n) then bare (set_quantum_ticks 0 (if decide (q = c) then bare (suspend s frame t) else t))
                        else if decide (q = c) then bare (suspend s frame t) else t) = body t).
  { pose proof (fu_body _ (suspend_update s frame) t) as Eb. repeat case_decide; exact Eb || done. }
  destruct (decide (q = c)) as [->|Hqc].
  - assert (t = tc) as -> by (by apply (ring_member _ _ _ _ _ _ Hr Ht Hc)). rewrite (decide_False (P := c = n)) in * by done.
    split.
    + apply (canary_body wd _ _ Hbody). intros i Hi. rewrite Ho; [by apply T2|]. unfold canary_address, STACK_CANARY_WORDS in *. lia.
    + intros _. destruct (body_eq _ _ Hbody) as (_ & _ & E2 & E3 & _). split; [|split]; [rewrite E2|rewrite E3|]; [cbn; lia|cbn; lia|]. intros i Hi.
      destruct (lookup_lt_is_Some_2 (saved_words frame saved_rflags) (Z.to_nat i)) as [v Hv]; [rewrite saved_words_length by done; lia|].
      exists v. rewrite <- (Hw _ _ Hv). f_equal. cbn. lia.
  - assert (Hsame : stack_same (words s) wd t).
    { destruct (Hap (q, t) (c, tc) Ht Hc Hqc) as [Hst _ _]. cbn [fst snd] in Hst.
      pose proof (proj1 (Forall_forall _ _) Hok _ Hc) as [C1 _ _ _ _]. destruct (stack_bounds _ _ Hsym C1) as (_ & _ & Hcc & _). cbn [snd] in *.
      intros a Ha. apply Ho. destruct Hst; lia. }
    assert (Hc2 : canary_ok wd t) by (apply (canary_ok_same (words s)); [lia|done|done]).
    case_decide as Hqn; [split; [|done]|split; [done|]].
    + exact (canary_body wd _ _ Hbody Hc2).
    + intros _. apply (frame_ok_same (words s)); [done|]. apply T3. congruence.
Qed.

Lemma ring_unique s l w rest p t u : sched_inv s l w rest -> (p, t) ∈ l -> (p, u) ∈ l -> t = u.
Proof. intros [Hr _]. by apply (ring_member _ _ _ _ _ _ Hr). Qed.

Lemma task_facts s l w rest p t :
  sched_inv s l w rest -> (p, t) ∈ l -> task_ok symbols (words s) (g_current_task s) (live_self <$> w) (g_next_pid s) (p, t).
Proof. intros [_ (bss & _ & [Hok _ _ _ _])] Hp. by apply (proj1 (Forall_forall _ _) Hok). Qed.

Lemma switch_tasks_spec frame saved_rflags c tc n tn s l w rest (Q : control -> scheduler A -> Prop) R :
  sched_inv s l w rest -> (c, tc) ∈ l -> (n, tn) ∈ l -> c = g_current_task s -> c <> n -> call_ok tc frame ->
  (forall s' destination, sched_inv s' (switched_ring s frame c n l) w rest -> switched s s' frame saved_rflags c n tn destination ->
     Q (SwitchTo destination) s') ->
  kwp (switch_tasks addresses symbols frame saved_rflags c n) Q R s.
Proof.
  intros Hinv Hc Hn Ec Hne Hcall HQ. pose proof Hcall as [Hl Hroom Htop].
  destruct (task_facts _ _ _ _ _ _ Hinv Hc) as [C1 _ _ _ _], (task_facts _ _ _ _ _ _ Hinv Hn) as [N1 _ N3 N4 _]. cbn [fst snd] in *.
  destruct (stack_bounds _ _ Hsym C1) as (Hc0 & _ & Hcc & Hcb), (stack_bounds _ _ Hsym N1) as (Hn0 & _ & Hnc & Hnb). unfold ADDRESS_LIMIT in *.
  destruct N3 as (Hf1 & Hf2 & Hf3); [congruence|].
  unfold switch_tasks. apply kwp_bind, (kwp_canary c tc s l w rest); [done|done|]. cbn [negb].
  apply kwp_bind, (kwp_canary n tn s l w rest); [done|done|]. cbn [negb].
  apply kwp_bind, (save_task_fpu_spec s c tc l w rest); [done|done|]. intros m1 [Hr1 Hb1]. apply kwp_bind.
  assert (Hn1 : (n, tn) ∈ ring_update c (save s) l) by (apply ring_update_in; exists tn; rewrite decide_False by done; done).
  assert (Hc1 : (c, bare (save s tc)) ∈ ring_update c (save s) l) by (apply ring_update_in; exists tc; rewrite decide_True by done; done).
  eapply (restore_task_fpu_spec _ n tn); [exact Hr1|exact Hn1|]. ksteps. sched_simpl.
  eapply (kwp_update_ring c _ (set_quantum_ticks 0)); [exact Hr1|exact Hc1|auto with sched|]. sched_simpl. intros m2 Hr2. apply kwp_bind.
  set (l2 := ring_update c (set_quantum_ticks 0) (ring_update c (save s) l)) in *.
  assert (Hn2 : (n, tn) ∈ l2) by (apply ring_update_in; exists tn; rewrite decide_False by done; done).
  eapply (kwp_update_ring n tn (set_quantum_ticks 0)); [exact Hr2|exact Hn2|auto with sched|]. sched_simpl. intros m3 Hr3. apply kwp_bind.
  set (l3 := ring_update n (set_quantum_ticks 0) l2) in *.
  assert (Hn3 : (n, bare (set_quantum_ticks 0 tn)) ∈ l3) by (apply ring_update_in; exists tn; rewrite decide_True by done; done).
  eapply (kwp_ring_at n); [exact Hr3|exact Hn3|]. intros k1. cbn [kernel_stack_top set_next bare set_quantum_ticks].
  rewrite (proj2 (Z.eqb_neq (kernel_stack_top tn) 0)) by lia. cbn [negb]. ksteps. cbn [address_space set_next bare set_quantum_ticks].
  destruct Hinv as [Hr Hb]. pose proof Hb as (bss & _ & [_ _ Hk _ _]).
  destruct (space_at_live s w _ _ tn Hk N4) as (space & Esp & Hcr3). eapply kwp_lift; [exact Esp|]. ksteps. sched_simpl.
  eapply (kwp_ring_at n); [exact Hr3|exact Hn3|]. intros k2. cbn [rsp set_next bare set_quantum_ticks].
  unfold context_switch. apply kwp_bind, kwp_assoc, kwp_bind. apply context_switch_words; [done|done|lia|]. sched_simpl. intros wd Hwd Hwo. ksteps.
  assert (Hc3 : (c, bare (set_quantum_ticks 0 (bare (save s tc)))) ∈ l3).
  { apply ring_update_in. eexists. split; [|by rewrite decide_False]. apply ring_update_in. eexists. split; [exact Hc1|by rewrite decide_True]. }
  eapply (kwp_update_ring c _ (set_rsp (frame_sp frame - 56))); [exact Hr3|exact Hc3|auto with sched|]. sched_simpl. intros m4 Hr4.
  assert (Hwn : wd !! (rsp tn + 56) = words s !! (rsp tn + 56)).
  { apply Hwo. destruct Hb as (bss' & _ & [_ Hap _ _ _]). destruct (Hap (c, tc) (n, tn) Hc Hn Hne) as [[?|?] _ _]; cbn [fst snd] in *; lia. }
  destruct (Hf3 7 ltac:(lia)) as [destination Edest]. change (rsp tn + 8 * 7) with (rsp tn + 56) in Edest.
  apply (kwp_read_word _ destination); [exact (eq_trans Hwn Edest)|]. ksteps.
  assert (El : ring_update c (set_rsp (frame_sp frame - 56)) l3 = switched_ring s frame c n l).
  { unfold l3, l2, switched_ring. rewrite (ring_update_comm c n) by done. f_equal.
    rewrite !ring_update_compose by done. done. }
  rewrite El in Hr4. apply HQ; [|by constructor]. split; [exact Hr4|].
  apply (bodies_similar s _ l); [done| |done| | |].
  - apply (similar_trans _ (ring_update c (suspend s frame) l)); apply ring_update_similar; [apply suspend_update|auto with sched].
  - intros y Hy. sched_simpl. by apply (switch_words_ok s wd l w rest frame saved_rflags c tc n tn).
  - intros G bs. apply kernel_part_cr3.
  - exists (bare (set_quantum_ticks 0 tn)). sched_simpl. split.
    + apply ring_update_in. exists tn. rewrite decide_True by done. split; [|done]. apply ring_update_in. exists tn. by rewrite decide_False.
    + exact Hcr3.
Qed.

(** ** The choice *)

(** The ready tasks in the order of their turns after [c]. *)
Definition turns (c : Z) (l : ring) : ring := filter ready (following c l).

Lemma turns_survivors m h c t l : ring_rep m h l -> (c, t) ∈ l -> turns c (survivors c l) = turns c l /\ (c, t) ∈ survivors c l.
Proof.
  intros Hr Hc. destruct (ring_split _ _ _ _ _ Hr Hc) as (l1 & l2 & -> & H1 & H2). unfold turns, survivors.
  rewrite filter_app, filter_cons_True by (by left). split; [|apply elem_of_app; right; by left].
  rewrite !following_split; [|done|].
  - rewrite !filter_app. f_equal; apply list_filter_filter_l; intros x Hx; by right.
  - intros ([q u] & -> & [_ Hin]%list_elem_of_filter)%list_elem_of_fmap. apply H1. by apply (list_elem_of_fmap_2 fst) in Hin.
Qed.

Lemma turns_in c l x : x ∈ turns c l -> x ∈ l /\ ready x.
Proof.
  unfold turns, following. intros [Hx Hin]%list_elem_of_filter. split; [|done]. revert Hin. rewrite elem_of_app. clear. induction l as [|y l IH]; cbn [after before].
  - by intros [?%elem_of_nil|?%elem_of_nil].
  - case_decide; rewrite ?elem_of_cons; [intros [?|?%elem_of_nil]; [by right|done]|]. intros [?|[?|?]]; [right; apply IH; by left|by left|right; apply IH; by right].
Qed.

Lemma turns_others m h c t l n tn : ring_rep m h l -> (c, t) ∈ l -> (n, tn) ∈ turns c l -> n <> c.
Proof.
  intros Hr Hc. destruct (ring_split _ _ _ _ _ Hr Hc) as (l1 & l2 & -> & H1 & H2). unfold turns. rewrite following_split by done.
  intros [_ Hin]%list_elem_of_filter ->. apply (list_elem_of_fmap_2 fst) in Hin. rewrite fmap_app, elem_of_app in Hin. by destruct Hin.
Qed.

(** The next task is the first of the turns; without one, a ready task goes on and a dead one halts the machine. *)
Lemma schedule_spec frame saved_rflags c tc s l w rest (Q : control -> scheduler A -> Prop) R :
  sched_inv s l w rest -> (c, tc) ∈ l -> c = g_current_task s -> call_ok tc frame ->
  (turns c l = [] -> task_state tc = TASK_READY -> forall s' w', sched_inv s' (survivors c l) w' rest -> reaped s s' (survivors c l) -> Q Returned s') ->
  (turns c l = [] -> task_state tc = TASK_DEAD -> forall s', R s') ->
  (forall n tn ts s1 s' w' destination, turns c l = (n, tn) :: ts -> sched_inv s1 (survivors c l) w' rest -> reaped s s1 (survivors c l) ->
     sched_inv s' (switched_ring s1 frame c n (survivors c l)) w' rest -> switched s1 s' frame saved_rflags c n tn destination ->
     Q (SwitchTo destination) s') ->
  kwp (schedule addresses symbols frame saved_rflags) Q R s.
Proof.
  intros Hinv Hc Ec Hcall Hret Hhalt Hsw. unfold schedule. ksteps. rewrite <- Ec.
  assert (Hc0 : c <> NULL).
  { destruct Hinv as [[_ _ _ _ Hn _] _]. intros ->. apply Hn. by apply (list_elem_of_fmap_2 fst) in Hc. }
  rewrite (proj2 (Z.eqb_neq _ _) Hc0). apply kwp_bind, (kwp_canary c tc s l w rest); [done|done|]. cbn [negb].
  apply kwp_bind, (reap_dead_tasks_spec addresses symbols first_byte last_byte Hsym s l w rest); [done|]. rewrite <- Ec. intros s1 w1 Hinv1 Hre.
  destruct (turns_survivors _ _ c tc l (proj1 Hinv) Hc) as [Et Hc1]. rewrite <- Et in Hret, Hhalt, Hsw.
  set (l' := survivors c l) in *. pose proof Hinv1 as [Hr1 _]. destruct (ring_split _ _ _ _ _ Hr1 Hc1) as (l1 & l2 & El & H1 & H2).
  pose proof (rr_linked _ _ _ Hr1) as Hlink. rewrite <- (rr_head _ _ _ Hr1), El in Hlink. apply linked_rotate in Hlink as [Etc Hlink].
  apply kwp_bind, (kwp_task_at _ _ _ _ _ Etc). cbn [next set_next task_state]. ksteps.
  apply find_ready_spec; [exact Hlink|rewrite fmap_app; set_solver|rewrite (ring_size _ _ _ Hr1), El, !length_app; cbn [length]; lia|].
  assert (Eturn : next_ready (l2 ++ l1) c = first_of (turns c l') c) by (unfold turns; rewrite El, following_split by done; done).
  rewrite Eturn. destruct (turns c l') as [|[n tn] ts] eqn:E; cbn [first_of].
  - rewrite Z.eqb_refl. cbn [andb]. case_bool_decide as Hready; cbn [negb].
    + ksteps. by apply (Hret eq_refl Hready s1 w1).
    + apply kwp_bind. eapply kwp_log; [done|exact Hinv1|]. intros k _. ksteps. apply Hhalt; [done|]. by destruct (task_state tc).
  - pose proof (turns_others _ _ c tc l' n tn Hr1 Hc1) as Hne. rewrite E in Hne. specialize (Hne ltac:(by left)).
    rewrite (proj2 (Z.eqb_neq _ _) Hne). cbn [andb].
    assert (Hn1 : (n, tn) ∈ l') by (apply (turns_in c); rewrite E; by left).
    pose proof Hre as [Eg _ _]. injection Eg as _ Ecur _ _ _.
    apply (switch_tasks_spec frame saved_rflags c tc n tn s1 l' w1 rest); [done|done|done|congruence|done|done|].
    intros s' destination Hinv' Hs. by apply (Hsw n tn ts s1 s' w1).
Qed.

End Switch.

(** * kernel/scheduler.c: what a request does to the other tasks

    [step c] relates the states before and after a request of the task [c]: the invariant holds again, and
    every task that is left, found by its id, has the FPU it had, and (but for [c]) the stack it had. *)

(** The FPU of a task: the registers of the one that runs, the saved image of another. *)
Definition fpu_of {A} (s : scheduler A) (p : Z) (t : Task) : list Z :=
  if p =? g_current_task s then fpu (cpu_registers s) else fpu_state t.

Section Step.
Context {A : Type} `{AllocatorLaws A} (addresses : table_addresses) (symbols : symbols) (first_byte last_byte : Z).
Context (Hsym : symbols_ok symbols) (rest : list (Z * Z)).

Abbreviation bodies := (bodies addresses symbols first_byte last_byte).
Abbreviation sched_inv := (sched_inv addresses symbols first_byte last_byte).
Abbreviation kernel_part := (kernel_part addresses first_byte last_byte).
Implicit Types (s : scheduler A) (l : ring) (w : list live).

(** What a task [t] of [s] is in [s'], as [t']. *)
Record same_task (c : Z) s s' (p p' : Z) (t t' : Task) : Prop := {
  sa_address : p' = p;
  sa_body : body t' = body t;
  sa_fpu : g_fpu_context_enabled s = true -> fpu_of s' p t' = fpu_of s p t;
  sa_stack : p <> c -> rsp t' = rsp t /\ stack_same (words s) (words s') t;
}.

Record step (c : Z) s l w s' l' w' : Prop := {
  st_inv : sched_inv s' l' w' rest;
  st_same : forall p t p' t', (p, t) ∈ l -> (p', t') ∈ l' -> task_id t' = task_id t -> same_task c s s' p p' t t';
  st_origin : forall p' t', (p', t') ∈ l' -> (exists t, (p', t) ∈ l /\ task_id t = task_id t') \/ (g_next_pid s <> 0 /\ g_next_pid s <= task_id t');
  st_config : (g_fpu_context_enabled s', g_initial_fpu_state s') = (g_fpu_context_enabled s, g_initial_fpu_state s);
  st_pid : (g_next_pid s = 0 -> g_next_pid s' = 0) /\ (g_next_pid s' = 0 \/ g_next_pid s <= g_next_pid s');
}.

(** Ids tell tasks apart. *)
Lemma same_id s l w p t q u : sched_inv s l w rest -> (p, t) ∈ l -> (q, u) ∈ l -> task_id t = task_id u -> p = q /\ t = u.
Proof.
  intros Hinv Hp Hq Eid. assert (p = q) as ->.
  { destruct (decide (p = q)) as [|Hne]; [done|]. destruct Hinv as [_ (bss & _ & [_ Hap _ _ _])]. by destruct (Hap _ _ Hp Hq Hne) as [_ _ []]. }
  split; [done|]. by apply (ring_unique addresses symbols first_byte last_byte s l w rest q).
Qed.

Lemma old_id s l w p t : sched_inv s l w rest -> (p, t) ∈ l -> g_next_pid s <> 0 -> task_id t < g_next_pid s.
Proof. intros Hinv Hp Hn. destruct (task_facts _ _ _ _ _ _ _ _ _ _ Hinv Hp) as [_ _ _ _ [? [?|?]]]; cbn [snd] in *; lia. Qed.

Lemma step_refl c s l w : sched_inv s l w rest -> step c s l w s l w.
Proof.
  intros Hinv. constructor; [done| |intros p t Hp; left; by exists t|done|split; [done|right; lia]].
  intros p t q u Hp Hq E. destruct (same_id _ _ _ _ _ _ _ Hinv Hq Hp E) as [-> ->]. by constructor.
Qed.

Lemma step_trans c s l w s1 l1 w1 s2 l2 w2 :
  sched_inv s l w rest -> step c s l w s1 l1 w1 -> step c s1 l1 w1 s2 l2 w2 -> step c s l w s2 l2 w2.
Proof.
  intros Hinv [I1 S1 O1 C1 P1] [I2 S2 O2 C2 P2]. constructor; [done| | |congruence|].
  - intros p t p2 t2 Hp Hp2 E. destruct (O2 _ _ Hp2) as [(t1 & Hp1 & E1)|[E1 Hn]].
    + destruct (S1 p t p2 t1 Hp Hp1 ltac:(congruence)) as [Ea Eb Ef Es]. subst p2.
      destruct (S2 p t1 p t2 Hp1 Hp2 ltac:(congruence)) as [_ Eb2 Ef2 Es2]. constructor; [done|congruence| |].
      * intros He. rewrite Ef2, Ef by congruence. done.
      * intros Hc. destruct (Es Hc) as [E3 W1], (Es2 Hc) as [E4 W2]. split; [congruence|]. intros a Ha.
        destruct (body_eq _ _ Eb) as (_ & _ & F1 & F2 & _). rewrite W2 by (by rewrite F1, F2). by apply W1.
    + exfalso. destruct P1 as [P0 P1]. assert (Hn0 : g_next_pid s <> 0) by tauto. pose proof (old_id _ _ _ _ _ Hinv Hp Hn0). lia.
  - intros p2 t2 Hp2. destruct (O2 _ _ Hp2) as [(t1 & Hp1 & E1)|[Hn E1]].
    + destruct (O1 _ _ Hp1) as [(t & Hp & E)|[Hn E]]; [left; exists t; split; [done|congruence]|right; split; [done|lia]].
    + right. destruct P1 as [P0 P1]. assert (Hn0 : g_next_pid s <> 0) by tauto. split; [done|]. destruct P1; [done|lia].
  - destruct P1 as [P0 P1], P2 as [P3 P2]. split; [auto|]. destruct P1 as [P1|P1], P2 as [P2|P2]; auto; right; lia.
Qed.

(** ** Small steps *)

(** Fewer tasks, or changes of nothing that a task sees: the log, the process table. *)
Lemma step_quiet c s l w s' l' w' :
  sched_inv s l w rest -> sched_inv s' l' w' rest -> l' ⊆ l -> stacks_same (words s) (words s') l' -> g_next_pid s' = g_next_pid s ->
  (g_current_task s', g_fpu_context_enabled s', g_initial_fpu_state s', fpu (cpu_registers s')) =
  (g_current_task s, g_fpu_context_enabled s, g_initial_fpu_state s, fpu (cpu_registers s)) -> step c s l w s' l' w'.
Proof.
  intros Hinv Hinv' Hl Hw Ep Eg. injection Eg as E1 E2 E3 E4. constructor; [done| | |congruence|split; [congruence|right; lia]].
  - intros p t q u Hp Hq E. destruct (same_id _ _ _ _ _ _ _ Hinv (Hl _ Hq) Hp E) as [-> ->]. constructor; [done|done| |].
    + intros _. unfold fpu_of. by rewrite E1, E4.
    + intros _. split; [done|]. by apply (proj1 (Forall_forall _ _) Hw (p, t)).
  - intros p t Hp. left. exists t. split; [by apply Hl|done].
Qed.

Lemma step_reaped c s l w s' l' w' :
  sched_inv s l w rest -> sched_inv s' l' w' rest -> reaped s s' l' -> l' ⊆ l -> step c s l w s' l' w'.
Proof. intros Hinv Hinv' [Eg Ep Hw] Hl. injection Eg as _ E1 E2 E3 E4. apply step_quiet; try done. congruence. Qed.

(** One task more. *)
Lemma step_spawned c s l w s' p t entry :
  sched_inv s l w rest -> sched_inv s' (insert_second (p, t) l) w rest -> spawned symbols s s' l t entry -> task_id t = g_next_pid s ->
  step c s l w s' (insert_second (p, t) l) w.
Proof.
  intros Hinv Hinv' [Eg [Hn Ep] Hw _] Eid. injection Eg as _ E1 E2 E3 E4.
  assert (Hin : forall x, x ∈ insert_second (p, t) l <-> x = (p, t) \/ x ∈ l) by (intros x; by rewrite insert_second_perm, elem_of_cons).
  constructor; [done| | |congruence|].
  - intros q u r v Hq Hr E. apply Hin in Hr as [[= -> ->]|Hr].
    + pose proof (old_id _ _ _ _ _ Hinv Hq Hn). lia.
    + destruct (same_id _ _ _ _ _ _ _ Hinv Hr Hq E) as [-> ->]. constructor; [done|done| |].
      * intros _. unfold fpu_of. by rewrite E1, E4.
      * intros _. split; [done|]. by apply (proj1 (Forall_forall _ _) Hw (q, u)).
  - intros q u [[= -> ->]|Hq]%Hin; [right; split; [done|lia]|left; by exists u].
  - destruct Hinv as [_ (bss & _ & [_ _ _ Hpid _])]. split; [done|]. rewrite Ep. unfold next_pid. destruct (_ =? _); [by left|right; lia].
Qed.

(** A field of a task, not its FPU image nor its stack pointer. *)
Lemma step_update c s l w m p f :
  sched_inv s l w rest -> sched_inv (set_tasks m s) (ring_update p f l) w rest -> field_update f ->
  (forall t, fpu_state (f t) = fpu_state t /\ rsp (f t) = rsp t) -> step c s l w (set_tasks m s) (ring_update p f l) w.
Proof.
  intros Hinv Hinv' Hf Hff. constructor; [done| | |done|split; [done|right; sched_simpl; lia]].
  - intros q u r v Hq Hr E. apply ring_update_in in Hr as (v0 & Hr & ->).
    assert (Ev : body (if decide (r = p) then bare (f v0) else v0) = body v0) by (case_decide; [|done]; by rewrite body_bare, (fu_body _ Hf)).
    destruct (body_eq _ _ Ev) as (E1 & _). rewrite E1 in E. destruct (same_id _ _ _ _ _ _ _ Hinv Hr Hq E) as [-> ->].
    assert (Eff : fpu_state (if decide (q = p) then bare (f u) else u) = fpu_state u /\ rsp (if decide (q = p) then bare (f u) else u) = rsp u)
      by (case_decide; [apply Hff|done]).
    constructor; [done|exact Ev| |].
    + intros _. unfold fpu_of. sched_simpl. destruct (_ =? _); [done|apply Eff].
    + intros _. split; [apply Eff|done].
  - intros q u Hq. apply ring_update_in in Hq as (v & Hq & ->). left. exists v. split; [done|]. case_decide; [|done].
    pose proof (fu_body _ Hf v) as (E & _)%body_eq. done.
Qed.

(** A switch: the registers of the FPU go to the image of [c], those of [n] come back. *)
Lemma step_switched s l w s' frame saved_rflags c tc n tn destination :
  sched_inv s l w rest -> sched_inv s' (switched_ring s frame c n l) w rest -> switched symbols s s' frame saved_rflags c n tn destination ->
  (c, tc) ∈ l -> (n, tn) ∈ l -> c = g_current_task s -> c <> n -> call_ok tc frame -> step c s l w s' (switched_ring s frame c n l) w.
Proof.
  intros Hinv Hinv' [W1 W2 W3 W4 W5 W6 W7 W8] Hc Hn Ec Hne [Hl Hroom Htop]. injection W5 as G1 G2 G3 G4 G5.
  assert (Hring : forall q v, (q, v) ∈ switched_ring s frame c n l -> exists u, (q, u) ∈ l /\
    v = (if decide (q = n) then bare (set_quantum_ticks 0 (if decide (q = c) then bare (suspend s frame u) else u))
         else if decide (q = c) then bare (suspend s frame u) else u) /\ body v = body u).
  { intros q v Hq. apply ring_update_in in Hq as (v1 & (u & Hu & ->)%ring_update_in & ->). exists u. split; [done|]. split; [done|].
    pose proof (fu_body _ (suspend_update s frame) u) as Eb. repeat case_decide; exact Eb || done. }
  constructor; [done| | |congruence|split; [congruence|right; lia]].
  - intros p t q v Hp Hq E. destruct (Hring _ _ Hq) as (u & Hu & Ev & Eb). destruct (body_eq _ _ Eb) as (Ei & _). rewrite Ei in E.
    destruct (same_id _ _ _ _ _ _ _ Hinv Hu Hp E) as [-> ->]. constructor; [done|done| |].
    + intros He. unfold fpu_of. rewrite W1, W2, He, <- Ec. destruct (Z.eqb_spec p n) as [->|Hpn].
      * rewrite (proj2 (Z.eqb_neq n c)) by congruence. by rewrite (ring_unique _ _ _ _ _ _ _ _ _ _ _ Hinv Hp Hn).
      * rewrite Ev, decide_False by done. destruct (Z.eqb_spec p c) as [->|Hpc].
        -- rewrite decide_True by done. unfold suspend, save. by rewrite He.
        -- by rewrite decide_False.
    + intros Hpc. rewrite Ev, (decide_False (P := p = c)) by done. split; [by case_decide|].
      destruct (task_facts _ _ _ _ _ _ _ _ _ _ Hinv Hp) as [T1 _ _ _ _], (task_facts _ _ _ _ _ _ _ _ _ _ Hinv Hc) as [C1 _ _ _ _].
      destruct (stack_bounds _ _ Hsym T1) as (_ & _ & ? & _), (stack_bounds _ _ Hsym C1) as (_ & _ & ? & _).
      destruct Hinv as [_ (bss & _ & [_ Hap _ _ _])]. destruct (Hap _ _ Hp Hc Hpc) as [Hst _ _]. cbn [snd] in *.
      intros a Ha. apply W7. destruct Hst; lia.
  - intros q v Hq. destruct (Hring _ _ Hq) as (u & Hu & _ & Eb). left. exists u. split; [done|]. by destruct (body_eq _ _ Eb) as (-> & _).
Qed.

End Step.

(** * kernel/scheduler.c: every request is a step

    The requests of a running task one by one: none leaves the objects, each is a [step]; the machine halts
    only when the last ready task ends, or for an exit that no user task asked for. *)

Lemma turns_update m h c t f l : ring_rep m h l -> (c, t) ∈ l -> turns c (ring_update c f l) = turns c l.
Proof.
  intros Hr Hc. destruct (ring_split _ _ _ _ _ Hr Hc) as (l1 & l2 & -> & H1 & H2). pose proof Hr as [_ _ Hnd _ _ _].
  rewrite ring_update_mid by done. unfold turns. by rewrite !following_split.
Qed.

Section Safe.
Context {A : Type} `{AllocatorLaws A} (addresses : table_addresses) (symbols : symbols) (first_byte last_byte : Z).
Context (Hsym : symbols_ok symbols) (rest : list (Z * Z)).

Abbreviation bodies := (bodies addresses symbols first_byte last_byte).
Abbreviation sched_inv := (sched_inv addresses symbols first_byte last_byte).
Abbreviation kernel_part := (kernel_part addresses first_byte last_byte).
Abbreviation step := (step addresses symbols first_byte last_byte rest).
Implicit Types (s : scheduler A) (l : ring) (w : list live).

(** The running task is ready. *)
Definition ready_now s l : Prop := exists t, (g_current_task s, t) ∈ l /\ task_state t = TASK_READY.

Lemma survivors_sub c l : survivors c l ⊆ l.
Proof. by intros x [_ Hx]%list_elem_of_filter. Qed.

Lemma survivors_current c l t : (c, t) ∈ l -> (c, t) ∈ survivors c l.
Proof. intros Hc. apply list_elem_of_filter. split; [by left|done]. Qed.

(** ** Pieces *)

Lemma inv_processes s pr l w : sched_inv s l w rest -> sched_inv (set_processes pr s) l w rest.
Proof. intros [Hr (bss & Hb & [H1 H2 H3 H4 H5])]. split; [done|]. exists bss. split; [done|]. by constructor. Qed.

(** Reports to the process table. *)
Lemma mark_exited_spec s l w t code message Q R :
  sched_inv s l w rest ->
  (forall k, let s' := set_kernel k (set_processes (app_process_mark_exited (task_process_id t) code (processes s)).2 s) in
     sched_inv s' l w rest -> Q tt s') -> kwp (mark_exited t code message) Q R s.
Proof.
  intros Hinv HQ. unfold mark_exited. apply kwp_bind. unfold kwp at 1, on_processes.
  destruct (app_process_mark_exited (task_process_id t) code (processes s)) as [r pr] eqn:E. cbn [snd] in HQ.
  pose proof (inv_processes s pr l w Hinv) as Hinv'. case_bool_decide.
  - ksteps. apply (HQ (kernel s)). done.
  - eapply kwp_log; [done|exact Hinv'|]. intros k Hk. by apply HQ.
Qed.

Lemma step_processes c s l w k pr :
  sched_inv s l w rest -> sched_inv (set_kernel k (set_processes pr s)) l w rest -> step c s l w (set_kernel k (set_processes pr s)) l w.
Proof. intros Hinv Hinv'. by apply step_quiet; try done; apply Forall_forall. Qed.

(** A task that is not running is killed and reaped. *)
Lemma kill_spec p t s l w (Q : bool -> scheduler A -> Prop) R message :
  sched_inv s l w rest -> (p, t) ∈ l -> p <> g_current_task s ->
  (forall s' w', let l' := survivors (g_current_task s) (ring_update p (set_task_state TASK_DEAD) l) in
     step (g_current_task s) s l w s' l' w' -> g_current_task s' = g_current_task s ->
     processes s' = (if is_user t then (app_process_mark_exited (task_process_id t) (-1) (processes s)).2 else processes s) -> Q true s') ->
  kwp ((if is_user t then mark_exited t (-1) message else mret tt);;
       update_task p (set_task_state TASK_DEAD);; reap_dead_tasks addresses;; mret true) Q R s.
Proof.
  intros Hinv Hp Hne HQ. apply kwp_bind.
  assert (Hrest : forall k pr, let s1 := set_kernel k (set_processes pr s) in sched_inv s1 l w rest ->
    pr = (if is_user t then (app_process_mark_exited (task_process_id t) (-1) (processes s)).2 else processes s) ->
    kwp (update_task p (set_task_state TASK_DEAD);; reap_dead_tasks addresses;; mret true) Q R s1).
  { intros k pr s1 Hinv1 Epr. apply kwp_bind, (kwp_update_field addresses symbols first_byte last_byte p t _ s1 l w rest); [done|done|auto with sched|by right|].
    intros m Hinv2. apply kwp_bind. eapply (reap_dead_tasks_spec addresses symbols first_byte last_byte Hsym); [exact Hinv2|].
    intros s3 w3 Hinv3 Hre. ksteps. sched_simpl. pose proof Hre as [Eg _ _]. injection Eg as E1 E2 _ _ _. apply (HQ s3 w3).
    - eapply step_trans; [exact Hinv|by apply step_processes|]. eapply step_trans; [exact Hinv1|eapply step_update; [exact Hinv1|exact Hinv2|auto with sched|done]|].
      apply step_reaped; [exact Hinv2|exact Hinv3|exact Hre|apply survivors_sub].
    - by rewrite E2.
    - by rewrite E1. }
  destruct (is_user t) eqn:Eu.
  - apply (mark_exited_spec s l w); [done|]. intros k s1 Hinv1. by apply (Hrest k _).
  - kstep. replace s with (set_kernel (kernel s) (set_processes (processes s) s)) by (by destruct s). apply Hrest; [|done]. by destruct s.
Qed.

(** The loop of the two terminating functions. *)
Definition terminated s l (wanted : Task -> bool) : option (Z * Task) :=
  match filter (fun x => wanted x.2 = true) l with
  | (p, t) :: _ => if (p =? g_current_task s) || bool_decide (task_state t = TASK_DEAD) then None else Some (p, t)
  | [] => None
  end.

Lemma terminate_loop_spec fuel (wanted : Task -> bool) message s l0 l w (Q : bool -> scheduler A -> Prop) R :
  sched_inv s (l0 ++ l) w rest -> (forall n t, wanted (set_next n t) = wanted t) -> l <> [] -> (length l <= fuel)%nat ->
  (terminated s l wanted = None -> Q false s) ->
  (forall p t s' w', terminated s l wanted = Some (p, t) ->
     let l' := survivors (g_current_task s) (ring_update p (set_task_state TASK_DEAD) (l0 ++ l)) in
     step (g_current_task s) s (l0 ++ l) w s' l' w' -> g_current_task s' = g_current_task s ->
     processes s' = (if is_user t then (app_process_mark_exited (task_process_id t) (-1) (processes s)).2 else processes s) -> Q true s') ->
  kwp (terminate_loop addresses fuel wanted message (first_of l (g_head s))) Q R s.
Proof.
  intros Hinv Hw. revert l0 l Hinv. induction fuel as [|fuel IH]; intros l0 l Hinv Hne Hf Hno Hyes; (destruct l as [|[p t] l]; [done|]); [cbn in Hf; lia|].
  cbn [terminate_loop first_of]. pose proof Hinv as [Hr _]. pose proof (rr_linked _ _ _ Hr) as Hlink. apply linked_app in Hlink as [_ [Hp Hlink]].
  apply kwp_bind, (kwp_task_at _ _ _ _ _ Hp). rewrite Hw. unfold terminated in *. destruct (wanted t) eqn:Ew.
  - rewrite filter_cons_True in Hno, Hyes by done. ksteps. cbn [task_state is_user set_next].
    destruct ((p =? g_current_task s) || bool_decide (task_state t = TASK_DEAD)) eqn:Eb; [ksteps; by apply Hno|].
    apply orb_false_iff in Eb as [Epc _]. apply Z.eqb_neq in Epc.
    match goal with |- kwp (_ ≫= ?k) _ _ _ => change (kwp ((if is_user t then mark_exited t (-1) message else mret tt) ≫= k) Q R s) end.
    apply (kill_spec p t s (l0 ++ (p, t) :: l) w); [done|apply elem_of_app; right; by left|done|]. intros s' w' l'. by apply Hyes.
  - rewrite filter_cons_False in Hno, Hyes by (cbn; congruence). ksteps. cbn [next set_next].
    destruct (decide (l = [])) as [->|Hl]; [cbn [first_of]; rewrite Z.eqb_refl, orb_true_r; ksteps; by apply Hno|].
    assert (Hne2 : first_of l (g_head s) <> NULL /\ first_of l (g_head s) <> g_head s).
    { destruct l as [|[q u] l]; [done|]. cbn [first_of]. pose proof Hr as [_ Hh Hnd _ Hnull _]. rewrite fmap_app, !fmap_cons in Hnd, Hnull. cbn [fst] in *.
      split; [intros ->; apply Hnull; set_solver|]. rewrite <- Hh. apply NoDup_app in Hnd as (_ & H12 & [Hpl _]%NoDup_cons).
      destruct l0 as [|[p0 t0] l0]; cbn [app first_of]; [intros ->; apply Hpl; by left|]. intros ->. apply (H12 p0); set_solver. }
    rewrite (proj2 (Z.eqb_neq _ _) (proj1 Hne2)), (proj2 (Z.eqb_neq _ _) (proj2 Hne2)). cbn [orb].
    replace (l0 ++ (p, t) :: l) with ((l0 ++ [(p, t)]) ++ l) in * by (by rewrite <- app_assoc).
    apply (IH (l0 ++ [(p, t)]) l); [done|done|cbn [length] in Hf; lia|done|done].
Qed.

(** ** Switching *)

Lemma reaped_current s s' l : reaped s s' l -> g_current_task s' = g_current_task s.
Proof. intros [Eg _ _]. by injection Eg. Qed.

Lemma schedule_step frame saved_rflags c tc s l w (Q : control -> scheduler A -> Prop) R :
  sched_inv s l w rest -> (c, tc) ∈ l -> c = g_current_task s -> call_ok tc frame ->
  (forall s' l' w', task_state tc = TASK_READY -> step c s l w s' l' w' -> ready_now s' l' -> Q Returned s') ->
  (forall d s' l' w', step c s l w s' l' w' -> ready_now s' l' -> Q (SwitchTo d) s') ->
  (turns c l = [] -> task_state tc = TASK_DEAD -> forall s', R s') ->
  kwp (schedule addresses symbols frame saved_rflags) Q R s.
Proof.
  intros Hinv Hc Ec Hcall Hret Hsw Hhalt.
  apply (schedule_spec addresses symbols first_byte last_byte Hsym frame saved_rflags c tc s l w rest); [done|done|done|done| |done|].
  - intros _ Hready s' w' Hinv' Hre. apply (Hret s' (survivors c l) w' Hready); [by apply step_reaped, survivors_sub|].
    exists tc. rewrite (reaped_current _ _ _ Hre), <- Ec. split; [by apply survivors_current|done].
  - intros n tn ts s1 s' w' d Ets Hinv1 Hre Hinv' Hswi. pose proof (reaped_current _ _ _ Hre) as Ec1.
    assert (Ht : (n, tn) ∈ turns c l) by (rewrite Ets; by left). pose proof (turns_in _ _ _ Ht) as [_ Hready].
    pose proof (turns_others _ _ _ _ _ _ _ (proj1 Hinv) Hc Ht) as Hne.
    assert (Hn1 : (n, tn) ∈ survivors c l).
    { apply list_elem_of_filter. split; [by right|]. by apply turns_in in Ht as [? _]. }
    apply (Hsw d s' (switched_ring s1 frame c n (survivors c l)) w').
    + eapply step_trans; [exact Hinv|by apply step_reaped, survivors_sub|].
      eapply step_switched; [done|exact Hinv1|exact Hinv'|exact Hswi|by apply survivors_current|exact Hn1|congruence|done|done].
    + exists (bare (set_quantum_ticks 0 tn)). rewrite (sw_current _ _ _ _ _ _ _ _ _ Hswi). split; [|exact Hready].
      apply ring_update_in. exists tn. rewrite decide_True by done. split; [|done]. apply ring_update_in. exists tn. by rewrite decide_False.
Qed.

Lemma resume_step c ctl s l w (Q : control -> scheduler A -> Prop) R :
  sched_inv s l w rest -> ready_now s l ->
  (forall ctl' s' l' w', step c s l w s' l' w' -> ready_now s' l' -> Q ctl' s') -> kwp (resume addresses symbols ctl) Q R s.
Proof.
  intros Hinv Hready HQ. assert (Hsame : forall ctl', Q ctl' s) by (intros ctl'; apply (HQ ctl' s l w); [by apply step_refl|done]).
  unfold resume. destruct ctl as [|d|]; [by ksteps| |by ksteps]. case_match; [|by ksteps].
  apply kwp_bind, (reap_dead_tasks_spec addresses symbols first_byte last_byte Hsym s l w rest); [done|]. intros s' w' Hinv' Hre. ksteps.
  destruct Hready as (t & Ht & Hrt). apply (HQ Returned s' (survivors (g_current_task s) l) w'); [by apply step_reaped, survivors_sub|].
  exists t. rewrite (reaped_current _ _ _ Hre). split; [by apply survivors_current|done].
Qed.

(** The running task ends. *)
Lemma schedule_away_step frame saved_rflags c tc s l w (Q : control -> scheduler A -> Prop) R :
  sched_inv s l w rest -> (c, tc) ∈ l -> c = g_current_task s -> call_ok tc frame ->
  (forall d s' l' w', step c s l w s' l' w' -> ready_now s' l' -> Q (SwitchTo d) s') -> (turns c l = [] -> forall s', R s') ->
  kwp (update_task c (set_task_state TASK_DEAD);; schedule_away addresses symbols frame saved_rflags) Q R s.
Proof.
  intros Hinv Hc Ec Hcall HQ HR. apply kwp_bind, (kwp_update_field addresses symbols first_byte last_byte c tc _ s l w rest); [done|done|auto with sched|by left|].
  intros m Hinv1. unfold schedule_away. apply kwp_bind.
  eapply (schedule_step frame saved_rflags c (bare (set_task_state TASK_DEAD tc))); [exact Hinv1| |exact Ec|by destruct Hcall; constructor| | |].
  - apply ring_update_in. exists tc. by rewrite decide_True.
  - by intros s' l' w' [=].
  - intros d s' l' w' Hst Hready. ksteps. apply (HQ d s' l' w'); [|done]. eapply step_trans; [exact Hinv| |exact Hst].
    eapply step_update; [exact Hinv|exact Hinv1|auto with sched|done].
  - intros Et _ s'. apply HR. by rewrite (turns_update _ _ _ _ _ _ (proj1 Hinv) Hc) in Et.
Qed.

Lemma current_is_user_spec c tc s l w (Q : bool -> scheduler A -> Prop) R :
  sched_inv s l w rest -> (c, tc) ∈ l -> c = g_current_task s ->
  Q (is_user tc && bool_decide (task_state tc = TASK_READY)) s -> kwp scheduler_current_is_user Q R s.
Proof.
  intros Hinv Hc Ec HQ. unfold scheduler_current_is_user. ksteps. rewrite <- Ec.
  assert (Hc0 : c <> NULL).
  { destruct Hinv as [[_ _ _ _ Hn _] _]. intros ->. apply Hn. by apply (list_elem_of_fmap_2 fst) in Hc. }
  rewrite (proj2 (Z.eqb_neq _ _) Hc0). apply kwp_bind, (kwp_ring_at c tc s l); [by destruct Hinv|done|]. intros n. by ksteps.
Qed.

Definition tick (t : Task) : Task := if quantum_ticks t <? SCHEDULER_USER_QUANTUM_TICKS then set_quantum_ticks (quantum_ticks t + 1) t else t.

Lemma tick_update : field_update tick.
Proof. split; intros; unfold tick; cbn [quantum_ticks set_next]; by destruct (_ <? _). Qed.

(** A field of the running task that is not its state. *)
Lemma update_current_step c tc f s l w Q R :
  sched_inv s l w rest -> (c, tc) ∈ l -> c = g_current_task s -> field_update f ->
  (forall t, fpu_state (f t) = fpu_state t /\ rsp (f t) = rsp t) -> task_state (f tc) = task_state tc ->
  (forall m, let s' := set_tasks m s in let l' := ring_update c f l in
     step c s l w s' l' w -> (c, bare (f tc)) ∈ l' -> (ready_now s l -> ready_now s' l') -> Q tt s') ->
  kwp (update_task c f) Q R s.
Proof.
  intros Hinv Hc Ec Hf Hff Hstate HQ.
  apply (kwp_update_field addresses symbols first_byte last_byte c tc _ s l w rest); [done|done|done|by left|]. intros m Hinv'.
  assert (Hin : (c, bare (f tc)) ∈ ring_update c f l) by (apply ring_update_in; exists tc; by rewrite decide_True).
  apply HQ; [by apply step_update|exact Hin|]. intros (t & Ht & Hready). rewrite <- Ec in Ht.
  rewrite (ring_unique _ _ _ _ _ _ _ _ _ _ _ Hinv Ht Hc) in Hready. exists (bare (f tc)). sched_simpl. rewrite <- Ec.
  split; [exact Hin|]. cbn [task_state bare set_next]. by rewrite Hstate.
Qed.

(** A user task runs for five ticks, then it is the turn of another. *)
Lemma timer_tick_step frame saved_rflags c tc s l w (Q : control -> scheduler A -> Prop) R :
  sched_inv s l w rest -> (c, tc) ∈ l -> c = g_current_task s -> call_ok tc frame -> task_state tc = TASK_READY ->
  (forall ctl s' l' w', step c s l w s' l' w' -> ready_now s' l' -> Q ctl s') ->
  kwp (scheduler_timer_tick addresses symbols frame saved_rflags) Q R s.
Proof.
  intros Hinv Hc Ec Hcall Hready HQ. unfold scheduler_timer_tick. apply kwp_bind, (current_is_user_spec c tc s l w); [done|done|done|].
  rewrite bool_decide_eq_true_2, andb_true_r by done.
  assert (Hnow : ready_now s l) by (exists tc; by rewrite <- Ec).
  destruct (is_user tc); cbn [negb]; [|ksteps; apply (HQ Returned s l w); [by apply step_refl|done]]. ksteps. rewrite <- Ec.
  change (kwp (update_task c tick) ?P R s) with (kwp (update_task c tick) P R s).
  apply (update_current_step c tc tick s l w); [done|done|done|apply tick_update| | |].
  { intros t. unfold tick. by destruct (_ <? _). }
  { unfold tick. by destruct (_ <? _). }
  intros m s1 l1 Hst1 Hc1 Hnow1. pose proof (st_inv _ _ _ _ _ _ _ _ _ _ _ _ Hst1) as Hinv1.
  apply kwp_bind, (kwp_ring_at c _ s1 l1 _ _ (proj1 Hinv1) Hc1). intros n. cbn [quantum_ticks set_next bare].
  destruct (_ <? _); [ksteps; apply (HQ Returned s1 l1 w Hst1); by apply Hnow1|]. apply kwp_bind.
  apply (update_current_step c (bare (tick tc)) (set_quantum_ticks 0) s1 l1 w); [done|exact Hc1|exact Ec|auto with sched|done|done|].
  intros m2 s2 l2 Hst2 Hc2 Hnow2. pose proof (st_inv _ _ _ _ _ _ _ _ _ _ _ _ Hst2) as Hinv2.
  assert (Hst : step c s l w s2 l2 w) by (eapply step_trans; [exact Hinv|exact Hst1|exact Hst2]).
  assert (Ect : task_state (bare (set_quantum_ticks 0 (bare (tick tc)))) = TASK_READY) by (unfold tick; by destruct (_ <? _)).
  eapply (schedule_step frame saved_rflags c _ s2 l2 w); [exact Hinv2|exact Hc2|exact Ec| | | |].
  - destruct Hcall. constructor; [done|unfold tick; by destruct (_ <? _)|unfold tick; by destruct (_ <? _)].
  - intros s3 l3 w3 _ Hst3 Hnow3. apply (HQ Returned s3 l3 w3); [|done]. eapply step_trans; [exact Hinv|exact Hst|exact Hst3].
  - intros d s3 l3 w3 Hst3 Hnow3. apply (HQ (SwitchTo d) s3 l3 w3); [|done]. eapply step_trans; [exact Hinv|exact Hst|exact Hst3].
  - intros _ Hdead. rewrite Ect in Hdead. done.
Qed.

(** The ends of a task; [user_end] is the condition of the two that only a user task may ask for. *)
Lemma exit_user_step code frame saved_rflags c tc s l w (Q : control -> scheduler A -> Prop) R :
  sched_inv s l w rest -> (c, tc) ∈ l -> c = g_current_task s -> call_ok tc frame -> task_state tc = TASK_READY ->
  (forall d s' l' w', is_user tc = true -> step c s l w s' l' w' -> ready_now s' l' -> Q (SwitchTo d) s') ->
  (is_user tc = false \/ turns c l = [] -> forall s', R s') ->
  kwp (scheduler_exit_current_user addresses symbols code frame saved_rflags) Q R s.
Proof.
  intros Hinv Hc Ec Hcall Hready HQ HR. unfold scheduler_exit_current_user. apply kwp_bind, (current_is_user_spec c tc s l w); [done|done|done|].
  rewrite bool_decide_eq_true_2, andb_true_r by done. destruct (is_user tc) eqn:Eu; cbn [negb].
  2: { apply kwp_bind. eapply kwp_log; [exact Hsym|exact Hinv|]. intros k _. ksteps. apply HR. by left. }
  ksteps. rewrite <- Ec. apply (kwp_ring_at c tc s l _ _ (proj1 Hinv) Hc). intros n. apply kwp_bind.
  change (mark_exited (set_next n tc)) with (mark_exited (A := A) tc). apply (mark_exited_spec s l w); [done|]. intros k s1 Hinv1.
  apply (schedule_away_step frame saved_rflags c tc s1 l w); [done|done|done|done| |].
  - intros d s' l' w' Hst Hnow. apply (HQ d s' l' w'); [done| |done]. eapply step_trans; [exact Hinv|by apply step_processes|exact Hst].
  - intros Et. apply HR. by right.
Qed.

(** A report to the process table, with the message of its failure. *)
Lemma report_spec {B} (f : process_table -> B * process_table) (ok : B -> bool) message s l w Q R :
  sched_inv s l w rest ->
  (forall k, let s' := set_kernel k (set_processes (f (processes s)).2 s) in
     sched_inv s' l w rest -> step (g_current_task s) s l w s' l w -> Q (f (processes s)).1 s') ->
  kwp (on_processes f) (fun b s1 => kwp (if ok b then mret tt else syslog_write message) (fun _ s' => Q b s') R s1) R s.
Proof.
  intros Hinv HQ. unfold kwp at 1, on_processes. destruct (f (processes s)) as [b pr]. cbn [fst snd] in HQ.
  pose proof (inv_processes s pr l w Hinv) as Hinv'. destruct (ok b).
  - ksteps. apply (HQ (kernel s)); [done|]. by apply step_processes.
  - eapply kwp_log; [exact Hsym|exact Hinv'|]. intros k Hk. apply HQ; [done|]. by apply step_processes.
Qed.

Lemma fault_user_step record frame saved_rflags c tc s l w (Q : control -> scheduler A -> Prop) R :
  sched_inv s l w rest -> (c, tc) ∈ l -> c = g_current_task s -> call_ok tc frame -> task_state tc = TASK_READY ->
  (forall d s' l' w', is_user tc = true -> step c s l w s' l' w' -> ready_now s' l' -> Q (SwitchTo d) s') ->
  (is_user tc = false \/ turns c l = [] -> forall s', R s') ->
  kwp (scheduler_fault_current_user addresses symbols record frame saved_rflags) Q R s.
Proof.
  intros Hinv Hc Ec Hcall Hready HQ HR. unfold scheduler_fault_current_user. apply kwp_bind, (current_is_user_spec c tc s l w); [done|done|done|].
  rewrite bool_decide_eq_true_2, andb_true_r by done. destruct (is_user tc) eqn:Eu; cbn [negb].
  2: { apply kwp_bind. eapply kwp_log; [exact Hsym|exact Hinv|]. intros k _. ksteps. apply HR. by left. }
  ksteps. rewrite <- Ec. apply (kwp_ring_at c tc s l _ _ (proj1 Hinv) Hc). intros n. apply kwp_bind.
  eapply kwp_post.
  { apply (report_spec (app_process_record_fault (task_process_id (set_next n tc)) (Some record)) (fun r => bool_decide (r = APP_PROCESS_OK))
      (cs "Scheduler: app fault metadata update failed") s l w
      (fun _ s1 => sched_inv s1 l w rest /\ step c s l w s1 l w /\ g_current_task s1 = g_current_task s) R Hinv).
    intros k s' Hinv' Hst. split; [done|]. rewrite Ec. by split. }
  intros r s1 H1. apply kwp_bind. eapply kwp_post; [exact H1|]. intros _ s2 (Hinv2 & Hst2 & Ec2). apply kwp_bind.
  eapply kwp_log; [exact Hsym|exact Hinv2|]. intros k Hinv3.
  assert (Hst3 : step c s l w (set_kernel k s2) l w).
  { eapply step_trans; [exact Hinv|exact Hst2|]. by apply step_quiet; try done; apply Forall_forall. }
  apply (schedule_away_step frame saved_rflags c tc _ l w); [exact Hinv3|done|exact (eq_trans Ec (eq_sym Ec2))|done| |].
  - intros d s' l' w' Hst Hnow. apply (HQ d s' l' w'); [done| |done]. eapply step_trans; [exact Hinv|exact Hst3|exact Hst].
  - intros Et. apply HR. by right.
Qed.

Lemma exit_task_step frame saved_rflags c tc s l w (Q : control -> scheduler A -> Prop) R :
  sched_inv s l w rest -> (c, tc) ∈ l -> c = g_current_task s -> call_ok tc frame ->
  (forall d s' l' w', step c s l w s' l' w' -> ready_now s' l' -> Q (SwitchTo d) s') -> (turns c l = [] -> forall s', R s') ->
  kwp (exit_current_task addresses symbols frame saved_rflags) Q R s.
Proof.
  intros Hinv Hc Ec Hcall HQ HR. unfold exit_current_task. apply kwp_bind, kwp_get. rewrite <- Ec.
  assert (Hc0 : c <> NULL).
  { destruct Hinv as [[_ _ _ _ Hn _] _]. intros ->. apply Hn. by apply (list_elem_of_fmap_2 fst) in Hc. }
  rewrite (proj2 (Z.eqb_neq _ _) Hc0). apply kwp_bind, kwp_bind, (kwp_ring_at c tc s l _ _ (proj1 Hinv) Hc). intros n.
  cbn [is_user set_next]. apply kwp_bind.
  assert (Haway : forall s1, sched_inv s1 l w rest -> step c s l w s1 l w -> g_current_task s1 = g_current_task s ->
    kwp (update_task c (set_task_state TASK_DEAD)) (fun _ s2 => kwp (schedule_away addresses symbols frame saved_rflags) Q R s2) R s1).
  { intros s1 Hinv1 Hst1 Ec1.
    assert (Hk : kwp (update_task c (set_task_state TASK_DEAD);; schedule_away addresses symbols frame saved_rflags) Q R s1).
    { apply (schedule_away_step frame saved_rflags c tc s1 l w); [done|done|congruence|done| |done].
      intros d s' l' w' Hst Hnow. apply (HQ d s' l' w'); [|done]. eapply step_trans; [exact Hinv|exact Hst1|exact Hst]. }
    revert Hk. unfold kwp, mbind, KM_bind. by destruct (update_task c _ s1) as [[[u|] s2]|]. }
  destruct (is_user tc).
  - change (mark_exited (set_next n tc)) with (mark_exited (A := A) tc). apply (mark_exited_spec s l w); [done|]. intros k s1 Hinv1.
    apply Haway; [done|by apply step_processes|done].
  - kstep. by apply Haway; [|apply step_refl|].
Qed.

(** The first code of a user task. *)
Lemma bootstrap_step frame saved_rflags c tc s l w (Q : control -> scheduler A -> Prop) R :
  sched_inv s l w rest -> (c, tc) ∈ l -> c = g_current_task s -> call_ok tc frame -> task_state tc = TASK_READY ->
  (forall ctl s' l' w', step c s l w s' l' w' -> ready_now s' l' -> Q ctl s') -> (turns c l = [] -> forall s', R s') ->
  kwp (user_task_bootstrap addresses symbols frame saved_rflags) Q R s.
Proof.
  intros Hinv Hc Ec Hcall Hready HQ HR. unfold user_task_bootstrap. cbv zeta. apply kwp_bind, kwp_get. rewrite <- Ec.
  assert (Hc0 : c <> NULL).
  { destruct Hinv as [[_ _ _ _ Hn _] _]. intros ->. apply Hn. by apply (list_elem_of_fmap_2 fst) in Hc. }
  rewrite (proj2 (Z.eqb_neq _ _) Hc0).
  assert (Hreject : forall s1, sched_inv s1 l w rest -> step c s l w s1 l w -> g_current_task s1 = g_current_task s ->
    kwp (syslog_write (cs "Scheduler: user task bootstrap rejected");; exit_current_task addresses symbols frame saved_rflags) Q R s1).
  { intros s1 Hinv1 Hst1 Ec1. apply kwp_bind. eapply kwp_log; [exact Hsym|exact Hinv1|]. intros k Hinv2.
    apply (exit_task_step frame saved_rflags c tc _ l w); [exact Hinv2|done|exact (eq_trans Ec (eq_sym Ec1))|done| |done].
    intros d s' l' w' Hst Hnow. apply (HQ (SwitchTo d) s' l' w'); [|done]. eapply step_trans; [exact Hinv|exact Hst1|].
    eapply step_trans; [exact Hinv1| |exact Hst]. by apply step_quiet; try done; apply Forall_forall. }
  apply kwp_bind, (kwp_ring_at c tc s l _ _ (proj1 Hinv) Hc). intros n. case_match; [apply Hreject; [done|by apply step_refl|done]|].
  apply kwp_bind. unfold kwp at 1, on_processes. destruct (app_process_mark_running _ _) as [r pr].
  pose proof (inv_processes s pr l w Hinv) as Hinv1. pose proof (step_processes c s l w (kernel s) pr Hinv Hinv1) as Hst1.
  case_bool_decide; [|by apply Hreject]. ksteps. eapply HQ; [exact Hst1|]. exists tc. sched_simpl. by rewrite <- Ec.
Qed.

End Safe.
