(* ===== verification/SchedRun.v ===== *)
(** * kernel/scheduler.c: histories

    The requests of the running task, and what it does by itself: words on its own stack, its FPU.  Every
    history of them stays in the invariant.

    Then the first task. *)

From stdpp Require Import gmap.
From S2P Require Import PagingSpace PagingMap Prelude CString Heap Allocator Elf Manifest AppProcess Paging PagingTree PagingKernel PagingGuard PagingClaims Scheduler SchedRing SchedInv SchedSpawn SchedSafe.

Inductive request :=
| Spawn (name : option (list Z)) (entry_point : Z)
| SpawnRaw (entry_point : Z)
| SpawnUser (name : option (list Z)) (space entry_point stack_top process capabilities : Z)
| SetName (name : option (list Z))
| Terminate (id : Z)
| TerminateApp (process : Z)
| Yield (frame : call_frame) (saved_rflags : Z)
| Tick (frame : call_frame) (saved_rflags : Z)
| ExitUser (code : Z) (frame : call_frame) (saved_rflags : Z)
| FaultUser (record : app_fault_record) (frame : call_frame) (saved_rflags : Z)
| ExitTask (frame : call_frame) (saved_rflags : Z)
| Bootstrap (frame : call_frame) (saved_rflags : Z)
| Compute (stores : list (Z * Z)) (image : list Z).

(** Stores of the running task, the last one first. *)
Definition store_words (stores : list (Z * Z)) (wd : gmap Z Z) : gmap Z Z := foldr (fun st m => <[st.1 := st.2]> m) wd stores.

Section Run.
Context {A : Type} `{Allocator A} (addresses : table_addresses) (symbols : symbols).

Definition run_request (r : request) : KM (scheduler A) control :=
  match r with
  | Spawn name entry_point => spawn_named_task symbols name entry_point;; mret Returned
  | SpawnRaw entry_point => spawn_user_task entry_point;; mret Returned
  | SpawnUser name space entry_point stack_top process capabilities =>
      scheduler_spawn_user_process symbols name space entry_point stack_top process capabilities;; mret Returned
  | SetName name => scheduler_set_current_name name;; mret Returned
  | Terminate id => scheduler_terminate_task addresses id;; mret Returned
  | TerminateApp process => scheduler_terminate_app_process addresses process;; mret Returned
  | Yield frame saved_rflags => schedule addresses symbols frame saved_rflags
  | Tick frame saved_rflags => scheduler_timer_tick addresses symbols frame saved_rflags
  | ExitUser code frame saved_rflags => scheduler_exit_current_user addresses symbols code frame saved_rflags
  | FaultUser record frame saved_rflags => scheduler_fault_current_user addresses symbols record frame saved_rflags
  | ExitTask frame saved_rflags => exit_current_task addresses symbols frame saved_rflags
  | Bootstrap frame saved_rflags => user_task_bootstrap addresses symbols frame saved_rflags
  | Compute stores image =>
      kmod (fun s => set_words (store_words stores (words s)) (set_cpu_registers (set_fpu image (cpu_registers s)) s));; mret Returned
  end.

(** The request, and what the task that runs next has left to do of its own call of [schedule]. *)
Definition run (r : request) : KM (scheduler A) control := c ← run_request r; resume addresses symbols c.

Fixpoint run_all (rs : list request) : KM (scheduler A) unit :=
  match rs with
  | [] => mret tt
  | r :: rs => run r;; run_all rs
  end.

End Run.

Section RunSpec.
Context {A : Type} `{AllocatorLaws A} (addresses : table_addresses) (symbols : symbols) (first_byte last_byte : Z).
Context (Hsym : symbols_ok symbols) (rest : list (Z * Z)).

Abbreviation sched_inv := (sched_inv addresses symbols first_byte last_byte).
Abbreviation kernel_part := (kernel_part addresses first_byte last_byte).
Abbreviation step := (step addresses symbols first_byte last_byte rest).
Implicit Types (s : scheduler A) (l : ring) (w : list live).

(** What the running task [t] and its callers keep to: a call leaves room on its stack, a user task gets an
    address space of its own, stores are to its own stack above the canary. *)
Definition request_ok l w (t : Task) (r : request) : Prop :=
  match r with
  | Yield frame _ | Tick frame _ | ExitUser _ frame _ | FaultUser _ frame _ | ExitTask frame _ | Bootstrap frame _ => call_ok t frame
  | SpawnUser _ space _ _ _ _ =>
      space = NULL \/ (space ∈ live_self <$> w /\ forall y, y ∈ l -> is_user y.2 = true -> address_space y.2 <> space)
  | Compute stores _ => Forall (fun st => kernel_stack_canary t + 64 <= st.1 < kernel_stack_top t) stores
  | _ => True
  end.

(** When the machine may halt: the last ready task ends, or a task that is no user task asks for the end of one. *)
Definition may_halt l (c : Z) (t : Task) (r : request) : Prop :=
  match r with
  | ExitUser _ _ _ | FaultUser _ _ _ => is_user t = false \/ turns c l = []
  | ExitTask _ _ | Bootstrap _ _ => turns c l = []
  | _ => False
  end.

Definition is_compute (r : request) : bool := match r with Compute _ _ => true | _ => false end.

(** A [step], but for the FPU of a task that computes. *)
Record moved (r : request) (c : Z) s l w s' l' w' : Prop := {
  mv_inv : sched_inv s' l' w' rest;
  mv_ready : ready_now s' l';
  mv_same : forall p t p' t', (p, t) ∈ l -> (p', t') ∈ l' -> task_id t' = task_id t ->
    p' = p /\ body t' = body t /\ (g_fpu_context_enabled s = true -> p <> c \/ is_compute r = false -> fpu_of s' p t' = fpu_of s p t) /\
    (p <> c -> rsp t' = rsp t /\ stack_same (words s) (words s') t);
  mv_origin : forall p' t', (p', t') ∈ l' -> (exists t, (p', t) ∈ l /\ task_id t = task_id t') \/ (g_next_pid s <> 0 /\ g_next_pid s <= task_id t');
  mv_config : (g_fpu_context_enabled s', g_initial_fpu_state s') = (g_fpu_context_enabled s, g_initial_fpu_state s);
  mv_pid : (g_next_pid s = 0 -> g_next_pid s' = 0) /\ (g_next_pid s' = 0 \/ g_next_pid s <= g_next_pid s');
}.

Lemma moved_step r c s l w s' l' w' : step c s l w s' l' w' -> ready_now s' l' -> moved r c s l w s' l' w'.
Proof.
  intros [H1 H2 H3 H4 H5] Hr. constructor; try done. intros p t p' t' Hp Hp' E. destruct (H2 _ _ _ _ Hp Hp' E) as [? ? ? ?]. auto.
Qed.

(** ** Creation *)

Lemma ready_insert s s' l x : ready_now s l -> g_current_task s' = g_current_task s -> ready_now s' (insert_second x l).
Proof. intros (t & Ht & Hr) E. exists t. rewrite E, insert_second_perm. split; [by right|done]. Qed.

Lemma head_nonnull s l w : sched_inv s l w rest -> g_head s <> NULL.
Proof.
  intros [Hr Hb] E. pose proof (task_ok_key _ _ _ _ _ _ _ _ Hb) as Hcur. destruct l as [|[p t] l]; [by apply elem_of_nil in Hcur|].
  pose proof (rr_head _ _ _ Hr) as Eh. cbn [first_of] in Eh. apply (rr_null _ _ _ Hr). rewrite fmap_cons, <- E, <- Eh. by left.
Qed.

(** Any creation. *)
Lemma spawn_step c no_memory no_stack name (user : bool) space entry stack_top process capabilities entry_point s l w (Q : bool -> scheduler A -> Prop) R :
  sched_inv s l w rest -> ready_now s l ->
  (if user then space ∈ live_self <$> w /\ forall y, y ∈ l -> is_user y.2 = true -> address_space y.2 <> space else space = NULL) ->
  (forall b s' l', step c s l w s' l' w -> ready_now s' l' -> Q b s') ->
  kwp (spawn symbols no_memory no_stack name (set_role user space entry stack_top process capabilities) entry_point) Q R s.
Proof.
  intros Hinv Hready Hspace HQ. apply (spawn_spec addresses symbols first_byte last_byte Hsym _ _ _ _ _ _ _ _ _ _ s l w rest); [done|done| |].
  - intros s' Hinv' Hre. apply (HQ false s' l); [by apply step_reaped|]. destruct Hready as (t & Ht & Hr). exists t.
    by rewrite (reaped_current _ _ _ Hre).
  - intros s' p raw guard t Hinv' Hp Hsp. apply (HQ true s' (insert_second (p, t) l)).
    + eapply step_spawned; [done|exact Hinv'|exact Hsp|]. unfold t, new_task. by destruct (g_fpu_context_enabled s).
    + apply (ready_insert s); [done|]. destruct Hsp as [Eg _ _ _]. by injection Eg.
Qed.

Lemma space_ok_live k m w G bs v : kernel_part k m w G bs -> v ∈ w -> exists others, space_ok k (live_space v) (live_tree v) others.
Proof.
  intros (Hw & _) (l1 & l2 & ->)%list_elem_of_split.
  assert (Hw' : world_ok k (v :: l1 ++ l2) bs) by (apply (world_ok_perm _ _ _ _ Hw); by rewrite <- Permutation_middle).
  apply world_focus in Hw' as (others & _ & _ & _ & Hs). by eexists.
Qed.

(** The argument check never faults; what it accepts is not NULL. *)
Lemma user_process_valid_total s l w p entry_point stack_top process capabilities :
  sched_inv s l w rest -> p = NULL \/ p ∈ live_self <$> w ->
  exists b, user_process_valid p entry_point stack_top process capabilities s = Some b /\ (b = true -> p <> NULL).
Proof.
  intros [_ (bss & _ & [_ _ Hk _ _])] Hp. unfold user_process_valid.
  destruct (_ || _) eqn:E; [by exists false|]. repeat (apply orb_false_iff in E as [E ?]).
  assert (Hn : p <> NULL) by (by apply Z.eqb_neq). destruct Hp as [?|Hp]; [done|].
  pose proof Hk as (_ & _ & Hs). destruct (spaces_rep_lookup _ _ _ Hs Hp) as (v & w' & Hw & Ev & Em).
  destruct (space_ok_live _ _ _ _ _ v Hk ltac:(rewrite Hw; by left)) as (others & Hsp).
  unfold space_at. rewrite (proj2 (Z.eqb_neq _ _) Hn), Em, !some_bind.
  repeat match goal with H : (_ <? _) = false |- _ => apply Z.ltb_ge in H | H : (_ <=? _) = false |- _ => apply Z.leb_gt in H end.
  unfold PAGING_USER_BASE in *.
  destruct (paging_user_range_mapped_spec (kernel s) _ _ others entry_point 1 false Hsp) as (b & -> & _); [lia|lia|]. rewrite some_bind.
  destruct b; cbn [negb]; [|by exists false].
  destruct (paging_user_range_mapped_spec (kernel s) _ _ others (stack_top - 8) 8 true Hsp) as (b & -> & _); [lia|lia|]. by exists b.
Qed.

(** ** What the running task does by itself *)

Lemma store_words_other stores wd a : (forall st, st ∈ stores -> st.1 <> a) -> store_words stores wd !! a = wd !! a.
Proof.
  induction stores as [|[b v] stores IH]; intros Ha; [done|]. cbn [store_words foldr fst snd].
  rewrite lookup_insert_ne by exact (Ha (b, v) ltac:(by left)). apply IH. intros st' Hst. apply Ha. by right.
Qed.

Lemma compute_step stores image c tc s l w :
  sched_inv s l w rest -> (c, tc) ∈ l -> c = g_current_task s -> task_state tc = TASK_READY -> request_ok l w tc (Compute stores image) ->
  let s' := set_words (store_words stores (words s)) (set_cpu_registers (set_fpu image (cpu_registers s)) s) in
  moved (Compute stores image) c s l w s' l w.
Proof.
  intros Hinv Hc Ec Hready Hst s'. cbn [request_ok] in Hst. pose proof Hinv as [Hr Hb].
  destruct (task_facts _ _ _ _ _ _ _ _ _ _ Hinv Hc) as [C1 _ _ _ _]. destruct (stack_bounds _ _ Hsym C1) as (_ & _ & Hcc & Hcb). cbn [snd] in *.
  assert (Hout : forall a, a < kernel_stack_canary tc + 64 \/ kernel_stack_top tc <= a -> words s' !! a = words s !! a).
  { intros a Ha. apply store_words_other. intros st Hin E. pose proof (proj1 (Forall_forall _ _) Hst _ Hin) as Hb2. cbn beta in Hb2. lia. }
  assert (Hsame : forall p t, (p, t) ∈ l -> p <> c -> stack_same (words s) (words s') t).
  { intros p t Hp Hne a Ha. apply Hout. destruct (task_facts _ _ _ _ _ _ _ _ _ _ Hinv Hp) as [T1 _ _ _ _].
    destruct (stack_bounds _ _ Hsym T1) as (_ & _ & Htc & _). destruct Hb as (bss & _ & [_ Hap _ _ _]).
    destruct (Hap _ _ Hp Hc Hne) as [Hstk _ _]. cbn [snd] in *. destruct Hstk; lia. }
  assert (Hinv' : sched_inv s' l w rest).
  { split; [done|]. apply (bodies_similar _ _ _ _ s _ l); [done| |done| |done|by destruct Hb as (bss & _ & [])].
    - clear. induction l; constructor; done.
    - intros [p t] Hp. destruct (task_facts _ _ _ _ _ _ _ _ _ _ Hinv Hp) as [T1 T2 T3 _ _]. cbn [fst snd] in *.
      destruct (stack_bounds _ _ Hsym T1) as (_ & _ & _ & Htb). destruct (decide (p = c)) as [->|Hne].
      + rewrite (ring_unique _ _ _ _ _ _ _ _ _ _ _ Hinv Hp Hc) in *. split; [|done]. intros i Hi. rewrite Hout; [by apply T2|].
        unfold canary_address, STACK_CANARY_WORDS in *. lia.
      + pose proof (Hsame p t Hp Hne) as Hs. split; [apply (canary_ok_same (words s)); [lia|done|done]|].
        intros Hne2. by apply (frame_ok_same (words s)), T3. }
  constructor; [done| | | |done|split; [done|right; unfold s'; sched_simpl; lia]].
  - exists tc. unfold s'; sched_simpl. by rewrite <- Ec.
  - intros p t q u Hp Hq E. destruct (same_id _ _ _ _ _ _ _ _ _ _ _ _ Hinv Hq Hp E) as [-> ->]. split; [done|]. split; [done|]. split.
    + intros _ [Hne|[=]]. unfold fpu_of, s'. sched_simpl. rewrite (proj2 (Z.eqb_neq _ _)) by congruence. done.
    + intros Hne. split; [done|]. by apply (Hsame p).
  - intros p t Hp. left. by exists t.
Qed.

(** ** Every request *)

Lemma terminate_step wanted message s l w (Q : bool -> scheduler A -> Prop) R :
  sched_inv s l w rest -> ready_now s l -> (forall n t, wanted (set_next n t) = wanted t) ->
  (forall b s' l' w', step (g_current_task s) s l w s' l' w' -> ready_now s' l' -> Q b s') ->
  kwp (terminate_loop addresses (S (size (tasks s))) wanted message (g_head s)) Q R s.
Proof.
  intros Hinv (tc & Hc & Hready) Hw HQ. pose proof Hinv as [Hr _]. rewrite <- (ring_first _ _ _ Hr) at 1.
  apply (terminate_loop_spec addresses symbols first_byte last_byte Hsym rest _ wanted message s [] l w); [done|done| |rewrite (ring_size _ _ _ Hr); lia| |].
  - intros ->. by apply elem_of_nil in Hc.
  - intros _. apply (HQ false s l w); [by apply step_refl|by exists tc].
  - intros p t s' w' Ht l' Hst Ecur _. apply (HQ true s' l' w' Hst). exists tc. rewrite Ecur. split; [|done].
    apply survivors_current, ring_update_in. exists tc. split; [done|]. rewrite decide_False; [done|]. intros E0.
    unfold terminated in Ht. destruct (filter _ l) as [|[q u] ?]; [done|]. destruct (_ || _) eqn:E; [done|]. injection Ht as -> ->.
    by rewrite E0, Z.eqb_refl in E.
Qed.

Lemma set_name_step name c tc s l w (Q : control -> scheduler A -> Prop) R :
  sched_inv s l w rest -> (c, tc) ∈ l -> c = g_current_task s -> ready_now s l ->
  (forall ctl s' l' w', step c s l w s' l' w' -> ready_now s' l' -> Q ctl s') ->
  kwp (scheduler_set_current_name name;; mret Returned) Q R s.
Proof.
  intros Hinv Hc Ec Hready HQ. unfold scheduler_set_current_name. apply kwp_bind. ksteps. rewrite <- Ec.
  assert (Hc0 : c <> NULL).
  { destruct Hinv as [[_ _ _ _ Hn _] _]. intros ->. apply Hn. by apply (list_elem_of_fmap_2 fst) in Hc. }
  rewrite (proj2 (Z.eqb_neq _ _) Hc0).
  eapply (update_current_step addresses symbols first_byte last_byte rest c tc _ s l w); [done|done|done|by split|done|done|].
  intros m s' l' Hst _ Hnow. ksteps. apply (HQ Returned s' l' w Hst). by apply Hnow.
Qed.

Lemma run_request_spec r c tc s l w (Q : control -> scheduler A -> Prop) (R : scheduler A -> Prop) :
  sched_inv s l w rest -> (c, tc) ∈ l -> c = g_current_task s -> task_state tc = TASK_READY -> request_ok l w tc r ->
  (forall ctl s' l' w', moved r c s l w s' l' w' -> Q ctl s') -> (may_halt l c tc r -> forall s', R s') ->
  kwp (run_request addresses symbols r) Q R s.
Proof.
  intros Hinv Hc Ec Hready Hok HQ HR.
  assert (Hnow : ready_now s l) by (exists tc; by rewrite <- Ec).
  assert (HQ' : forall ctl s' l' w', step c s l w s' l' w' -> ready_now s' l' -> Q ctl s').
  { intros ctl s' l' w' Hst Hn. apply (HQ ctl s' l' w'). by apply moved_step. }
  destruct r as [name entry|entry|name p entry top process capabilities|name|id|process|frame flags|frame flags|code frame flags|record frame flags|frame flags|frame flags|stores image];
    cbn [run_request request_ok may_halt] in *.
  - apply kwp_bind. unfold spawn_named_task. apply kwp_bind, kwp_get. destruct (_ || _); [ksteps; by eapply HQ'; [apply step_refl|]|].
    eapply (spawn_step c _ _ _ false); [done|done|done|]. intros b s' l' Hst Hn. ksteps. by apply (HQ' Returned s' l' w).
  - apply kwp_bind. unfold spawn_user_task. apply kwp_bind. eapply kwp_log; [exact Hsym|exact Hinv|]. intros k Hk. ksteps.
    apply (HQ' Returned _ l w); [|exact Hnow]. by apply step_quiet; try done; apply Forall_forall.
  - apply kwp_bind. unfold scheduler_spawn_user_process. apply kwp_bind, kwp_get.
    destruct (user_process_valid_total s l w p entry top process capabilities Hinv) as (b & Eb & Hn); [by destruct Hok as [?|[? ?]]; [left|right]|].
    apply kwp_bind, (kwp_lift _ b); [done|]. destruct b; cbn [negb]; [|ksteps; by eapply HQ'; [apply step_refl|]].
    destruct Hok as [?|Hok]; [by destruct (Hn eq_refl)|].
    eapply (spawn_step c _ _ _ true); [done|done|done|]. intros b s' l' Hst Hn'. ksteps. by apply (HQ' Returned s' l' w).
  - by apply (set_name_step name c tc s l w).
  - apply kwp_bind. unfold scheduler_terminate_task. apply kwp_bind, kwp_get. destruct (_ || _); [ksteps; by eapply HQ'; [apply step_refl|]|].
    ksteps. apply (terminate_step _ _ s l w); [done|done|done|]. rewrite <- Ec. intros b s' l' w' Hst Hn. ksteps. by apply (HQ' Returned s' l' w').
  - apply kwp_bind. unfold scheduler_terminate_app_process. apply kwp_bind, kwp_get. destruct (_ || _); [ksteps; by eapply HQ'; [apply step_refl|]|].
    ksteps. apply (terminate_step _ _ s l w); [done|done|done|]. rewrite <- Ec. intros b s' l' w' Hst Hn. ksteps. by apply (HQ' Returned s' l' w').
  - apply (schedule_step addresses symbols first_byte last_byte Hsym rest frame flags c tc s l w); [done|done|done|done| | |].
    + intros s' l' w' _. apply HQ'.
    + intros d. apply HQ'.
    + intros _ Hdead. by rewrite Hready in Hdead.
  - by apply (timer_tick_step addresses symbols first_byte last_byte Hsym rest frame flags c tc s l w).
  - apply (exit_user_step addresses symbols first_byte last_byte Hsym rest code frame flags c tc s l w); [done..| |done]. intros d s' l' w' _. apply HQ'.
  - apply (fault_user_step addresses symbols first_byte last_byte Hsym rest record frame flags c tc s l w); [done..| |done]. intros d s' l' w' _. apply HQ'.
  - apply (exit_task_step addresses symbols first_byte last_byte Hsym rest frame flags c tc s l w); [done..| |done]. intros d. apply HQ'.
  - by apply (bootstrap_step addresses symbols first_byte last_byte Hsym rest frame flags c tc s l w).
  - ksteps. apply (HQ Returned _ l w). by apply (compute_step stores image c tc).
Qed.

(** What [resume] adds. *)
Lemma moved_trans r c s l w s1 l1 w1 s2 l2 w2 :
  sched_inv s l w rest -> moved r c s l w s1 l1 w1 -> step c s1 l1 w1 s2 l2 w2 -> ready_now s2 l2 -> moved r c s l w s2 l2 w2.
Proof.
  intros Hinv [M1 M2 M3 M4 M5 [M6 M7]] [S1 S2 S3 S4 [S5 S6]] Hr2.
  assert (Hpid : g_next_pid s1 <> 0 -> g_next_pid s <> 0 /\ g_next_pid s <= g_next_pid s1) by (intros Hn; destruct M7; [done|]; tauto).
  constructor; [done|done| | |congruence|].
  - intros p t q u Hp Hq E. destruct (S3 q u Hq) as [(v & Hv & Ev)|[Hn En]].
    + destruct (M3 p t q v Hp Hv ltac:(congruence)) as (-> & Ebv & Hf & Hs). destruct (S2 p v p u Hv Hq ltac:(congruence)) as [_ Eb Ef Es].
      split; [done|]. split; [congruence|]. split.
      * intros He Hc. rewrite Ef, Hf by (done || congruence). done.
      * intros Hne. destruct (Hs Hne) as [E1 W1], (Es Hne) as [E2 W2]. split; [congruence|]. intros a Ha.
        destruct (body_eq _ _ Ebv) as (_ & _ & F1 & F2 & _). rewrite W2 by (by rewrite F1, F2). by apply W1.
    + exfalso. destruct (Hpid Hn) as [Hn0 Hle]. pose proof (old_id _ _ _ _ _ _ _ _ _ _ Hinv Hp Hn0). lia.
  - intros q u Hq. destruct (S3 q u Hq) as [(v & Hv & Ev)|[Hn En]].
    + destruct (M4 q v Hv) as [(t & Ht & Et)|[Hn En]]; [left; exists t; split; [done|congruence]|right; split; [done|congruence]].
    + right. destruct (Hpid Hn) as [Hn0 Hle]. split; [done|lia].
  - split; [auto|]. destruct S6; [by left|]. destruct (decide (g_next_pid s1 = 0)) as [E|E]; [left; auto|right]. destruct (Hpid E). lia.
Qed.

(** Every request, to its end: it never leaves the objects; it halts only as [may_halt] tells. *)
Lemma run_spec r c tc s l w :
  sched_inv s l w rest -> (c, tc) ∈ l -> c = g_current_task s -> task_state tc = TASK_READY -> request_ok l w tc r ->
  kwp (run addresses symbols r) (fun _ s' => exists l' w', moved r c s l w s' l' w') (fun _ => may_halt l c tc r) s.
Proof.
  intros Hinv Hc Ec Hready Hok. unfold run. apply kwp_bind, (run_request_spec r c tc s l w); [done|done|done|done|done| |done].
  intros ctl s1 l1 w1 Hm. apply (resume_step addresses symbols first_byte last_byte Hsym rest c ctl s1 l1 w1); [by destruct Hm|by destruct Hm|].
  intros ctl' s2 l2 w2 Hst Hr2. exists l2, w2. eapply moved_trans; [exact Hinv|exact Hm|exact Hst|exact Hr2].
Qed.

End RunSpec.

(** * kernel/scheduler.c: the first task

    [scheduler_init] turns the boot code into the first task of the ring. *)

(** The CPU can save what a task has in the FPU. *)
Definition fpu_supported (feature_d : Z) : bool :=
  let required := Z.lor (Z.lor CPUID_FEATURE_FPU CPUID_FEATURE_FXSR) (Z.lor CPUID_FEATURE_SSE CPUID_FEATURE_SSE2) in
  Z.land feature_d required =? required.

(** Bit 3 of CR0 traps the use of the FPU. *)
Definition fpu_traps (r : registers) : bool := Z.testbit (cr0 r) 3.

Section Init.
Context {A : Type} `{AllocatorLaws A} (addresses : table_addresses) (symbols : symbols) (first_byte last_byte : Z).
Context (Hsym : symbols_ok symbols) (rest : list (Z * Z)).

Abbreviation sched_inv := (sched_inv addresses symbols first_byte last_byte).
Abbreviation kernel_part := (kernel_part addresses first_byte last_byte).
Implicit Types (s : scheduler A) (l : ring) (w : list live).

(** Before it: no tasks, the kernel's tables active. *)
Record boot_state s w : Prop := {
  bt_kernel : kernel_part (kernel s) (spaces s) w ∅ rest;
  bt_cr3 : cr3 (kernel s) = pml4_address addresses;
  bt_tasks : tasks s = ∅;
  bt_pid : g_next_pid s = 1;
  bt_current : g_current_task s = NULL;
  bt_head : g_head s = NULL;
}.

Lemma initialize_fpu_spec feature_d s (Q : bool -> scheduler A -> Prop) R :
  (forall r image, fpu_traps r = negb (fpu_supported feature_d) ->
     image = (if fpu_supported feature_d then reset_fpu_image else g_initial_fpu_state s) ->
     Q (fpu_supported feature_d) (set_g_initial_fpu_state image (set_cpu_registers r s))) ->
  kwp (initialize_fpu_contexts feature_d) Q R s.
Proof.
  intros HQ. unfold initialize_fpu_contexts. cbv zeta. unfold fpu_supported in HQ. cbv zeta in HQ.
  destruct (Z.land feature_d _ =? _); cbn [negb] in *.
  - ksteps. sched_simpl. apply (HQ _ reset_fpu_image); [|done]. unfold fpu_traps. sched_simpl.
    rewrite Z.lor_spec, Z.ldiff_spec. change (Z.testbit (Z.lor CR0_EMULATION CR0_TASK_SWITCHED) 3) with true.
    change (Z.testbit (Z.lor CR0_MONITOR_COPROCESSOR CR0_NUMERIC_ERROR) 3) with false. by rewrite andb_false_r.
  - unfold disable_unmanaged_fpu_state. ksteps. apply (HQ _ (g_initial_fpu_state s)); [|done]. unfold fpu_traps. sched_simpl.
    rewrite Z.lor_spec. change (Z.testbit CR0_TASK_SWITCHED 3) with true. by rewrite orb_true_r.
Qed.

(** Either there is no memory and no task, or the boot code is the one task. *)
Record first_task s l p t feature_d : Prop := {
  fi_ring : l = [(p, t)];
  fi_current : g_current_task s = p;
  fi_state : task_state t = TASK_READY /\ task_id t = 1 /\ is_user t = false;
  fi_enabled : g_fpu_context_enabled s = fpu_supported feature_d;
  fi_traps : fpu_traps (cpu_registers s) = negb (fpu_supported feature_d);
  fi_image : fpu_supported feature_d = true -> g_initial_fpu_state s = reset_fpu_image;
}.

(** The boot task. *)
Definition main_task : Task :=
  set_kernel_stack (g_kernel_stack symbols) (g_kernel_stack_guard_page symbols) (g_kernel_stack symbols) (g_kernel_stack_top symbols) false
    (set_task_name (copy_task_name (task_name zero_task) (Some (cs "kernel/main"))) (set_task_id 1 zero_task)).

(** The invariant when all is in place; the image saved in it is [image]. *)
Lemma first_inv s p z t w :
  tasks s = {[ p := set_next p t ]} -> g_head s = p -> g_current_task s = p -> g_next_pid s = 2 -> p <> NULL -> sizeof_Task <= z ->
  next t = 0 -> body t = body main_task -> canary_ok (words s) t -> cr3 (kernel s) = pml4_address addresses ->
  kernel_part (kernel s) (spaces s) w {[g_kernel_stack_guard_page symbols / 4096]} ((p, z) :: rest) -> sched_inv s [(p, t)] w rest.
Proof.
  intros Et Eh Ec En Hp Hz Hnext Hb Hcan Ecr Hk. pose proof Hb as (E1 & _ & _ & _ & E5 & E6)%body_eq. split.
  - rewrite Et, Eh. constructor.
    + split; [|done]. apply lookup_singleton_eq.
    + done.
    + apply NoDup_singleton.
    + intros q [u [<- _]%lookup_singleton_Some]. by left.
    + cbn. intros [?|?%elem_of_nil]%elem_of_cons; [by apply Hp|done].
    + by constructor.
  - exists [[(p, z)]]. unfold body in Hb. injection Hb as _ B1 B2 B3 B4 B5 _ _. split.
    + constructor; [|done]. exists z. split; [done|]. cbn [snd]. by rewrite B5.
    + assert (Eg : guards symbols [(p, t)] = {[g_kernel_stack_guard_page symbols / 4096]}).
      { rewrite guards_cons. cbn [snd]. rewrite B5. unfold guards. cbn. set_solver. }
      rewrite Eg. constructor.
      * constructor; [|done]. constructor; cbn [fst snd].
        -- unfold stack_ok. rewrite B5. by constructor.
        -- done.
        -- congruence.
        -- unfold space_ref. by rewrite E5, E6.
        -- split; rewrite E1, ?En; [done|right; done].
      * intros x y Hx Hy Hne. apply list_elem_of_singleton in Hx, Hy. by subst.
      * exact Hk.
      * rewrite En. done.
      * exists t. rewrite Ec. split; [by left|]. by rewrite E5.
Qed.

Lemma scheduler_init_spec feature_d s w :
  boot_state s w ->
  kwp (scheduler_init symbols feature_d)
    (fun _ s' => (g_head s' = NULL /\ boot_state s' w) \/ exists l p t, sched_inv s' l w rest /\ first_task s' l p t feature_d) (fun _ => False) s.
Proof.
  intros [Hk Hcr Ht Hpid Hcur Hh]. destruct Hsym as [Y1 Y2 Y3 Y4 Y5]. unfold HEAP_FLOOR in Y5. unfold scheduler_init. apply kwp_bind.
  eapply (kwp_kmalloc addresses first_byte last_byte); [exact Hk|by vm_compute|].
  intros k1 p Ec1 [[-> Hk1]|(z & Hz & Hp0 & Hk1)].
  { change (NULL =? NULL) with true. cbv iota. eapply (kwp_syslog addresses first_byte last_byte); [exact Hk1|].
    intros k2 Hk2 Ec2. left. split; [done|]. constructor; try done. exact (eq_trans Ec2 (eq_trans Ec1 Hcr)). }
  rewrite (proj2 (Z.eqb_neq _ _) Hp0). ksteps. unfold allocate_task_id. ksteps. sched_simpl. rewrite Hpid. change (1 =? 0) with false. cbv iota. ksteps.
  change (if 1 =? UINT64_MAX then 0 else 1 + 1) with 2. sched_simpl. rewrite Ht. eapply kwp_update_task; [apply lookup_insert_eq|]. sched_simpl. rewrite insert_insert_eq.
  apply kwp_bind. eapply (kwp_guard addresses first_byte last_byte); [exact Hk1|lia|]. intros ok k2 Hok Ec2 Hk2.
  assert (ok = true) as -> by (by apply Hok). cbn [negb]. sched_simpl.
  set (t0 := set_next p main_task). apply kwp_bind. eapply (initialize_stack_canary_spec p t0); [apply lookup_insert_eq|cbn; lia|].
  sched_simpl. intros wd Hcan _. apply kwp_bind, initialize_fpu_spec. sched_simpl. intros r image Htraps Himage. ksteps. sched_simpl.
  assert (Hfinal : forall t k' im regs, body t = body main_task -> next t = 0 -> task_state t = TASK_READY -> im = image -> fpu_traps regs = negb (fpu_supported feature_d) ->
    kernel_part k' (spaces s) w {[g_kernel_stack_guard_page symbols / 4096]} ((p, z) :: rest) -> cr3 k' = pml4_address addresses ->
    let s' := Scheduler k' (spaces s) (processes s) {[ p := set_next p t ]} wd p p 2 (fpu_supported feature_d) im regs in
    exists l q u, sched_inv s' l w rest /\ first_task s' l q u feature_d).
  { intros t k' im regs Hb Hn Hst -> Hregs Hk' Hcr' s'. exists [(p, t)], p, t. split.
    - apply (first_inv s' p z t w); try done. apply (canary_body wd t0 t); [by rewrite Hb|done].
    - pose proof Hb as (E1 & _ & _ & _ & E5 & _)%body_eq. constructor; try done. intros Hs. unfold s'. sched_simpl. by rewrite Himage, Hs. }
  assert (Hlog : forall m s2, kernel s2 = k2 -> spaces s2 = spaces s -> forall Q R,
    (forall k, kernel_part k (spaces s) w {[g_kernel_stack_guard_page symbols / 4096]} ((p, z) :: rest) -> cr3 k = pml4_address addresses ->
      Q tt (set_kernel k s2)) -> kwp (syslog_write m) Q R s2).
  { intros m s2 E1 E2 Q R HQ. eapply (kwp_syslog addresses first_byte last_byte _ w); [rewrite E1, E2; exact Hk2|]. intros k Hk3 Ec3.
    rewrite E2 in Hk3. apply HQ; [by rewrite union_empty_r_L in Hk3|]. rewrite Ec3, E1. exact (eq_trans Ec2 (eq_trans Ec1 Hcr)). }
  destruct (fpu_supported feature_d) eqn:Ef.
  - unfold save_task_fpu. ksteps. cbn [negb]. sched_simpl. ksteps. eapply kwp_update_task; [apply lookup_insert_eq|]. sched_simpl. ksteps. sched_simpl.
    rewrite insert_insert_eq. apply Hlog; [done|done|]. intros k Hk3 Ec3. right. sched_simpl.
    by apply (Hfinal (set_fpu_state (fpu r) main_task) k image r).
  - ksteps. sched_simpl. apply Hlog; [done|done|]. intros k Hk3 Ec3. right. sched_simpl. by apply (Hfinal main_task k image r).
Qed.

End Init.
