(* ===== verification/SchedTurns.v ===== *)
(** * kernel/scheduler.c: turns

    Every ready task gets the processor: the queue of turns moves by one with every switch.

    Then the context of a suspended task, the quantum of a user task, the end of a task and the halt. *)

From stdpp Require Import gmap.
From S2P Require Import Prelude CString Syslog Heap Allocator Elf Manifest AppProcess Paging PagingKernel PagingGuard PagingClaims Scheduler SchedRing SchedInv SchedSpawn SchedSafe SchedRun.

(** The keys of the turns. *)
Definition queue (c : Z) (l : ring) : list Z := (turns c l).*1.

(** The elements from [c] on, around the ring. *)
Lemma following_rotate c tc n tn l X Y :
  NoDup l.*1 -> (c, tc) ∈ l -> following c l = X ++ (n, tn) :: Y -> following n l = Y ++ (c, tc) :: X.
Proof.
  intros Hnd Hc. apply list_elem_of_split in Hc as (l1 & l2 & ->). rewrite fmap_app, fmap_cons in Hnd. cbn [fst] in Hnd.
  apply NoDup_app in Hnd as (N1 & N12 & (Nc & N2)%NoDup_cons).
  assert (Hc1 : c ∉ l1.*1) by (intros Hin; apply (N12 c Hin); by left). rewrite following_split by done.
  intros E. destruct (decide (length l2 <= length X)%nat) as [Hle|Hlt].
  - assert (Ex : exists X', X = l2 ++ X' /\ l1 = X' ++ (n, tn) :: Y).
    { exists (drop (length l2) X). apply (f_equal (fun k => (take (length l2) k, drop (length l2) k))) in E.
      rewrite take_app_length, drop_app_length, take_app_le, drop_app_le in E by done. injection E as E1 E2. split; [|done].
      rewrite E1 at 1. by rewrite take_drop. }
    destruct Ex as (X' & -> & ->). rewrite <- app_assoc. cbn [app]. rewrite following_split; [by rewrite <- !app_assoc|].
    rewrite fmap_app, fmap_cons in N1. apply NoDup_app in N1 as (_ & N1 & _). intros Hin. apply (N1 n Hin). by left.
  - assert (Ey : exists Y', l2 = X ++ (n, tn) :: Y' /\ Y = Y' ++ l1).
    { exists (drop (S (length X)) l2). assert (Hn : l2 !! length X = Some (n, tn)).
      { rewrite <- (lookup_app_l l2 l1) by lia. rewrite E, list_lookup_middle; done. }
      apply (f_equal (drop (S (length X)))) in E as E2. rewrite drop_app_le in E2 by lia.
      rewrite (cons_middle (n, tn)), app_assoc, drop_app_length' in E2 by (rewrite length_app; cbn; lia). split; [|done].
      apply (f_equal (take (length X))) in E. rewrite take_app_length, take_app_le in E by lia. rewrite <- E at 1. symmetry. by apply take_drop_middle. }
    destruct Ey as (Y' & -> & ->).
    replace (l1 ++ (c, tc) :: X ++ (n, tn) :: Y') with ((l1 ++ (c, tc) :: X) ++ (n, tn) :: Y') by (by rewrite <- app_assoc).
    rewrite following_split; [by rewrite <- !app_assoc|]. rewrite fmap_app, fmap_cons in N2. apply NoDup_app in N2 as (_ & N2 & _).
    rewrite fmap_app, fmap_cons. cbn [fst]. rewrite elem_of_app, elem_of_cons. intros [Hin|[->|Hin]].
    + apply (N12 n Hin). right. rewrite fmap_app. apply elem_of_app. right. by left.
    + apply Nc. rewrite fmap_app. apply elem_of_app. right. by left.
    + apply (N2 n Hin). by left.
Qed.

Lemma filter_first (l : ring) n tn ts :
  filter ready l = (n, tn) :: ts -> exists X Y, l = X ++ (n, tn) :: Y /\ filter ready X = [] /\ filter ready Y = ts.
Proof.
  induction l as [|x l IH]; [done|]. destruct (decide (ready x)) as [Hx|Hx].
  - rewrite filter_cons_True by done. intros [= -> <-]. by exists [], l.
  - rewrite filter_cons_False by done. intros E. destruct (IH E) as (X & Y & -> & EX & EY). exists (x :: X), Y.
    split; [done|]. by rewrite filter_cons_False.
Qed.

(** The one whose turn it is goes; the old one, if ready, is the last. *)
Lemma turns_rotate c tc n tn ts l :
  NoDup l.*1 -> (c, tc) ∈ l -> turns c l = (n, tn) :: ts -> turns n l = ts ++ filter ready [(c, tc)].
Proof.
  unfold turns. intros Hnd Hc Ht. destruct (filter_first _ _ _ _ Ht) as (X & Y & E & EX & EY).
  rewrite (following_rotate c tc n tn l X Y Hnd Hc E), filter_app, EY. f_equal.
  change ((c, tc) :: X) with ([(c, tc)] ++ X). by rewrite filter_app, EX, app_nil_r.
Qed.

(** Changes of other fields keep the turns. *)
Lemma following_update c p f l : following c (ring_update p f l) = ring_update p f (following c l).
Proof.
  unfold following. rewrite ring_update_app. f_equal; induction l as [|[q t] l IH]; [done| |done|]; cbn [ring_update fmap list_fmap after before fst snd].
  - destruct (decide (q = p)); cbn [fst]; case_decide; done || exact IH.
  - destruct (decide (q = p)) as [->|Hq]; cbn [fst]; case_decide; [done| |done|]; cbn [fmap list_fmap fst snd].
    + rewrite decide_True by done. f_equal. exact IH.
    + rewrite decide_False by done. f_equal. exact IH.
Qed.

Lemma queue_update c p f l : (forall t, task_state (f t) = task_state t) -> queue c (ring_update p f l) = queue c l.
Proof.
  intros Hf. unfold queue, turns. rewrite following_update. generalize (following c l). clear l. intros l.
  induction l as [|[q t] l IH]; [done|]. cbn [ring_update fmap list_fmap fst snd].
  destruct (decide (ready (q, t))) as [Hr|Hr].
  - rewrite (filter_cons_True _ (q, t)) by done. rewrite filter_cons_True by (case_decide; [|done]; unfold ready in *; cbn in *; by rewrite Hf).
    rewrite !fmap_cons. f_equal; [by case_decide|exact IH].
  - rewrite (filter_cons_False _ (q, t)) by done. rewrite filter_cons_False by (case_decide; [|done]; unfold ready in *; cbn in *; by rewrite Hf). exact IH.
Qed.

Section Fair.
Context {A : Type} `{AllocatorLaws A} (addresses : table_addresses) (symbols : symbols) (first_byte last_byte : Z).
Context (Hsym : symbols_ok symbols) (rest : list (Z * Z)).

Abbreviation sched_inv := (sched_inv addresses symbols first_byte last_byte).
Implicit Types (s : scheduler A) (l : ring) (w : list live).

Lemma turns_survivors_inv s c t l w : sched_inv s l w rest -> (c, t) ∈ l -> turns c (survivors c l) = turns c l.
Proof. intros [Hr _] Hc. by destruct (turns_survivors _ _ _ _ _ Hr Hc). Qed.

Lemma resume_queue c t ctl s l w (Q : control -> scheduler A -> Prop) R :
  sched_inv s l w rest -> (c, t) ∈ l -> c = g_current_task s -> task_state t = TASK_READY ->
  (forall ctl' s' l' w', sched_inv s' l' w' rest -> ready_now s' l' -> g_current_task s' = c -> queue c l' = queue c l -> Q ctl' s') ->
  kwp (resume addresses symbols ctl) Q R s.
Proof.
  intros Hinv Hc Ec Hready HQ.
  assert (Hsame : forall ctl', Q ctl' s) by (intros ctl'; apply (HQ ctl' s l w); [done|exists t; by rewrite <- Ec|done|done]).
  unfold resume. destruct ctl as [|d|]; [by ksteps| |by ksteps]. case_match; [|by ksteps].
  apply kwp_bind, (reap_dead_tasks_spec addresses symbols first_byte last_byte Hsym s l w rest); [done|]. intros s' w' Hinv' Hre. ksteps.
  rewrite <- Ec in *. pose proof (reaped_current _ _ _ Hre) as Ec'. apply (HQ Returned s' (survivors c l) w'); [done| |congruence|].
  - exists t. rewrite Ec', <- Ec. split; [by apply survivors_current|done].
  - unfold queue. by rewrite (turns_survivors_inv s c t l w).
Qed.

(** One switch: the first of the queue runs, the old task is the last. *)
Lemma yield_spec frame saved_rflags c tc s l w n ps R :
  sched_inv s l w rest -> (c, tc) ∈ l -> c = g_current_task s -> task_state tc = TASK_READY -> call_ok tc frame -> queue c l = n :: ps ->
  kwp (run addresses symbols (Yield frame saved_rflags))
    (fun _ s' => exists l' w', sched_inv s' l' w' rest /\ ready_now s' l' /\ g_current_task s' = n /\ queue n l' = ps ++ [c]) R s.
Proof.
  intros Hinv Hc Ec Hready Hcall Hq. unfold queue in Hq. destruct (turns c l) as [|[n' tn] ts] eqn:Et; [done|]. injection Hq as -> <-.
  unfold run. cbn [run_request]. apply kwp_bind.
  apply (schedule_spec addresses symbols first_byte last_byte Hsym frame saved_rflags c tc s l w rest); [done|done|done|done| | |]; [by rewrite Et..|].
  intros n0 tn0 ts0 s1 s' w' d Et0 Hinv1 Hre Hinv' Hsw. rewrite Et in Et0. injection Et0 as <- <- <-.
  assert (Hn : (n, tn) ∈ turns c l) by (rewrite Et; by left). pose proof (turns_in _ _ _ Hn) as [Hnl Hnr].
  pose proof (turns_others _ _ _ _ _ _ _ (proj1 Hinv) Hc Hn) as Hne.
  assert (Hnk : (n, tn) ∈ survivors c l) by (apply list_elem_of_filter; split; [by right|done]).
  apply (resume_queue n (bare (set_quantum_ticks 0 tn)) _ s' _ w' _ _ Hinv'); [|by rewrite (sw_current _ _ _ _ _ _ _ _ _ Hsw)|exact Hnr|].
  { apply ring_update_in. exists tn. rewrite decide_True by done. split; [|done]. apply ring_update_in. exists tn. by rewrite decide_False. }
  intros ctl s2 l2 w2 Hinv2 Hr2 Ec2 Eq2. exists l2, w2. split; [done|]. split; [done|]. split; [done|]. rewrite Eq2. unfold switched_ring.
  rewrite queue_update by done. rewrite queue_update by (intros t; unfold suspend, save; by destruct (g_fpu_context_enabled s1)).
  pose proof (rr_nodup _ _ _ (proj1 Hinv1)) as Hnd. unfold queue.
  rewrite (turns_rotate c tc n tn ts (survivors c l) Hnd); [|by apply survivors_current|by rewrite (turns_survivors_inv s c tc l w)].
  rewrite fmap_app, filter_cons_True by done. done.
Qed.

(** [n] calls of [schedule], each by the task that runs then. *)
Fixpoint yields (frame : Task -> call_frame) (saved_rflags : Z) (n : nat) : KM (scheduler A) unit :=
  match n with
  | O => mret tt
  | S n =>
      current ← kget g_current_task;
      t ← task_at current;
      run addresses symbols (Yield (frame t) saved_rflags);;
      yields frame saved_rflags n
  end.

Lemma yields_queue frame saved_rflags n p : (forall t, stack_ok symbols t -> call_ok t (frame t)) -> forall s l w,
  sched_inv s l w rest -> ready_now s l -> queue (g_current_task s) l !! n = Some p ->
  kwp (yields frame saved_rflags (S n)) (fun _ s' => exists l' w', sched_inv s' l' w' rest /\ ready_now s' l' /\ g_current_task s' = p) (fun _ => False) s.
Proof.
  intros Hframe. induction n as [|n IH]; intros s l w Hinv (tc & Hc & Hready) Hp; destruct (queue (g_current_task s) l) as [|q ps] eqn:Eq; try done.
  all: cbn [yields]; apply kwp_bind, kwp_get; apply kwp_bind, (kwp_ring_at _ tc s l _ _ (proj1 Hinv) Hc); intros k; apply kwp_bind.
  all: assert (Hcall : call_ok tc (frame (set_next k tc))) by
    (destruct (task_facts _ _ _ _ _ _ _ _ _ _ Hinv Hc) as [T1 _ _ _ _]; destruct (Hframe (set_next k tc)); [by apply (stack_ok_similar _ tc)|by constructor]).
  all: eapply kwp_post; [apply (yield_spec _ saved_rflags _ tc s l w q ps _ Hinv Hc eq_refl Hready Hcall Eq)|].
  all: intros ctl s1 (l1 & w1 & Hinv1 & Hr1 & Ec1 & Eq1).
  - injection Hp as ->. ksteps. by exists l1, w1.
  - apply (IH s1 l1 w1 Hinv1 Hr1). rewrite Ec1, Eq1. by apply lookup_app_l_Some.
Qed.

End Fair.

(** * kernel/scheduler.c: the context of a task

    What a task that gives up the processor leaves behind: its registers on its stack, its FPU in its record. *)

Section Context.
Context {A : Type} `{AllocatorLaws A} (addresses : table_addresses) (symbols : symbols) (first_byte last_byte : Z).
Context (Hsym : symbols_ok symbols) (rest : list (Z * Z)).

Abbreviation sched_inv := (sched_inv addresses symbols first_byte last_byte).
Implicit Types (s : scheduler A) (l : ring) (w : list live).

(** The task [t] at [p] of [s], as it is left in [s'] by [schedule]. *)
Record suspended (p : Z) (t : Task) (frame : call_frame) (saved_rflags : Z) s s' (u : Task) : Prop := {
  su_body : body u = body t /\ task_state u = task_state t;
  su_rsp : rsp u = frame_sp frame - 56;
  su_saved : forall i v, saved_words symbols frame saved_rflags !! i = Some v -> words s' !! (rsp u + 8 * Z.of_nat i) = Some v;
  su_words : forall a, kernel_stack_canary t <= a < kernel_stack_top t -> a < frame_sp frame - 56 \/ frame_sp frame + 8 <= a -> words s' !! a = words s !! a;
  su_fpu : g_fpu_context_enabled s = true -> fpu_state u = fpu (cpu_registers s);
  su_other : g_current_task s' <> p /\ g_fpu_context_enabled s' = g_fpu_context_enabled s;
}.

(** Reaping keeps it. *)
Lemma suspended_reaped p t frame saved_rflags s s1 s2 u l :
  suspended p t frame saved_rflags s s1 u -> (p, u) ∈ l -> reaped s1 s2 l -> call_ok t frame -> suspended p t frame saved_rflags s s2 u.
Proof.
  intros [[B1 B2] E1 E2 E3 E4 [E5 E6]] Hu [Eg _ Hst] [C1 C2 C3].
  pose proof (proj1 (Forall_forall _ _) Hst _ Hu) as Hw. pose proof (body_eq _ _ B1) as (_ & _ & F1 & F2 & _). cbn [snd] in Hw.
  constructor; [done|done| | |done|by injection Eg; intros; split; congruence].
  - intros i v Hi. assert (Hi8 : (i < 8)%nat).
    { apply lookup_lt_Some in Hi. unfold saved_words in Hi. rewrite length_app, length_rev in Hi. cbn in Hi. lia. }
    rewrite Hw; [by apply E2|]. rewrite F1, F2, E1. lia.
  - intros a Ha Ho. rewrite Hw by (by rewrite F1, F2). by apply E3.
Qed.

(** After [schedule] the same task runs, or the old one is suspended. *)
Lemma schedule_suspends frame saved_rflags c tc s l w (Q : control -> scheduler A -> Prop) R :
  sched_inv s l w rest -> (c, tc) ∈ l -> c = g_current_task s -> task_state tc = TASK_READY -> call_ok tc frame ->
  (forall s' l' w', sched_inv s' l' w' rest -> ready_now s' l' -> g_current_task s' = c -> Q Returned s') ->
  (forall d s' l' w' u, sched_inv s' l' w' rest -> ready_now s' l' -> (c, u) ∈ l' -> suspended c tc frame saved_rflags s s' u -> Q (SwitchTo d) s') ->
  kwp (schedule addresses symbols frame saved_rflags) Q R s.
Proof.
  intros Hinv Hc Ec Hready Hcall Hret Hsw.
  apply (schedule_spec addresses symbols first_byte last_byte Hsym frame saved_rflags c tc s l w rest); [done|done|done|done| |intros _ Hd; congruence|].
  - intros _ _ s' w' Hinv' Hre. apply (Hret s' _ w' Hinv'); [|by rewrite (reaped_current _ _ _ Hre)].
    exists tc. rewrite (reaped_current _ _ _ Hre), <- Ec. split; [by apply survivors_current|done].
  - intros n tn ts s1 s' w' d Ets Hinv1 Hre Hinv' Hswi.
    assert (Ht : (n, tn) ∈ turns c l) by (rewrite Ets; by left). pose proof (turns_in _ _ _ Ht) as [_ Hr].
    pose proof (turns_others _ _ _ _ _ _ _ (proj1 Hinv) Hc Ht) as Hne. pose proof Hre as [Eg _ Hst]. injection Eg as Epr E1 E2 E3 E4.
    pose proof Hswi as [W1 W2 W3 W4 W5 W6 W7 W8]. injection W5 as V1 V2 V3 V4 V5.
    assert (Hn1 : (n, tn) ∈ survivors c l) by (apply list_elem_of_filter; split; [by right|]; by apply turns_in in Ht as [? _]).
    apply (Hsw d s' (switched_ring s1 frame c n (survivors c l)) w' (bare (suspend s1 frame tc)) Hinv').
    + exists (bare (set_quantum_ticks 0 tn)). rewrite W1. split; [|exact Hr].
      apply ring_update_in. exists tn. rewrite decide_True by done. split; [|done]. apply ring_update_in. exists tn. by rewrite decide_False.
    + apply ring_update_in. exists (bare (suspend s1 frame tc)). rewrite decide_False by done. split; [|done].
      apply ring_update_in. exists tc. rewrite decide_True by done. split; [by apply survivors_current|done].
    + assert (Erf : g_fpu_context_enabled s1 = g_fpu_context_enabled s /\ fpu (cpu_registers s1) = fpu (cpu_registers s)) by (split; congruence).
      destruct Erf as [En Ef]. constructor; [| | | | |split; congruence].
      * unfold suspend, save. by destruct (g_fpu_context_enabled s1).
      * unfold suspend. by destruct (g_fpu_context_enabled s1).
      * intros i v Hi. cbn. by apply W6.
      * intros a Ha Ho. rewrite (W7 a Ho). exact (proj1 (Forall_forall _ _) Hst _ (survivors_current c l tc Hc) a Ha).
      * intros He. unfold suspend, save. rewrite En, He. cbn. done.
Qed.

(** The whole of a yield. *)
Lemma yield_suspends frame saved_rflags c tc s l w :
  sched_inv s l w rest -> (c, tc) ∈ l -> c = g_current_task s -> task_state tc = TASK_READY -> call_ok tc frame ->
  kwp (run addresses symbols (Yield frame saved_rflags))
    (fun _ s' => g_current_task s' = c \/
       exists l' w' u, sched_inv s' l' w' rest /\ ready_now s' l' /\ (c, u) ∈ l' /\ suspended c tc frame saved_rflags s s' u) (fun _ => False) s.
Proof.
  intros Hinv Hc Ec Hready Hcall. unfold run. cbn [run_request]. apply kwp_bind.
  apply (schedule_suspends frame saved_rflags c tc s l w); [done|done|done|done|done| |].
  { intros s' l' w' _ _ Ec'. unfold resume. ksteps. by left. }
  intros d s' l' w' u Hinv' Hr' Hu Hsu. unfold resume. case_match; [|ksteps; right; by exists l', w', u].
  apply kwp_bind, (reap_dead_tasks_spec addresses symbols first_byte last_byte Hsym s' l' w' rest); [done|].
  intros s2 w2 Hinv2 Hre. ksteps. right. exists (survivors (g_current_task s') l'), w2, u.
  assert (Hu2 : (c, u) ∈ survivors (g_current_task s') l').
  { apply list_elem_of_filter. split; [|done]. right. destruct Hsu as [[_ E] _ _ _ _ _]. cbn [snd]. congruence. }
  split; [done|]. split; [|split; [done|by eapply suspended_reaped]].
  destruct Hr' as (t & Ht & Hrt). exists t. rewrite (reaped_current _ _ _ Hre). split; [by apply survivors_current|done].
Qed.

End Context.

(** * kernel/scheduler.c: the quantum of a user task

    The timer counts ticks of a user task; the fifth one gives the processor to the next task. *)

Section Ticks.
Context {A : Type} `{AllocatorLaws A} (addresses : table_addresses) (symbols : symbols) (first_byte last_byte : Z).
Context (Hsym : symbols_ok symbols) (rest : list (Z * Z)).

Abbreviation sched_inv := (sched_inv addresses symbols first_byte last_byte).
Implicit Types (s : scheduler A) (l : ring) (w : list live).

(** The state with another count for the running task [t]. *)
Definition with_ticks s (t : Task) (n : Z) : scheduler A := set_tasks (<[g_current_task s := set_quantum_ticks n t]> (tasks s)) s.

(** [n] timer interrupts. *)
Fixpoint ticks (frame : call_frame) (saved_rflags : Z) (n : nat) : KM (scheduler A) unit :=
  match n with
  | O => mret tt
  | S n => run addresses symbols (Tick frame saved_rflags);; ticks frame saved_rflags n
  end.

(** A user task runs now. *)
Record user_now s (t : Task) : Prop := {
  un_at : tasks s !! g_current_task s = Some t;
  un_null : g_current_task s <> NULL;
  un_user : is_user t = true;
  un_ready : task_state t = TASK_READY;
}.

Lemma user_now_ticks s t n : user_now s t -> user_now (with_ticks s t n) (set_quantum_ticks n t).
Proof. intros [U1 U2 U3 U4]. constructor; try done. cbn. apply lookup_insert_eq. Qed.

Lemma with_ticks_twice s t m n : with_ticks (with_ticks s t m) (set_quantum_ticks m t) n = with_ticks s t n.
Proof. unfold with_ticks. destruct s. cbn. by rewrite insert_insert_eq. Qed.

Lemma with_ticks_same s t : tasks s !! g_current_task s = Some t -> with_ticks s t (quantum_ticks t) = s.
Proof. intros E. unfold with_ticks. rewrite insert_id; [by destruct s|]. rewrite E. by destruct t. Qed.

(** One interrupt. *)
Lemma run_tick frame saved_rflags s t :
  user_now s t ->
  run addresses symbols (Tick frame saved_rflags) s =
    if quantum_ticks t <? SCHEDULER_USER_QUANTUM_TICKS - 1 then Some (Done Returned, with_ticks s t (quantum_ticks t + 1))
    else run addresses symbols (Yield frame saved_rflags) (with_ticks s t 0).
Proof.
  intros [U1 U2 U3 U4]. assert (Eu : scheduler_current_is_user s = Some (Done true, s)).
  { unfold scheduler_current_is_user, task_at, mbind, KM_bind, kget. rewrite (proj2 (Z.eqb_neq _ _) U2), U1. cbn. rewrite U3, U4. done. }
  assert (Eup : forall (f : Task -> Task) s1 t1, tasks s1 !! g_current_task s = Some t1 ->
    update_task (g_current_task s) f s1 = Some (Done tt, set_tasks (<[g_current_task s := f t1]> (tasks s1)) s1)).
  { intros f s1 t1 E1. unfold update_task, task_at, mbind, KM_bind, kget. by rewrite E1. }
  unfold run, run_request, scheduler_timer_tick, mbind, KM_bind. rewrite Eu. cbn [negb kget]. rewrite (Eup _ _ _ U1).
  unfold task_at, mbind, KM_bind, kget, klift. cbn [tasks set_tasks]. rewrite lookup_insert_eq. cbn [mret].
  unfold SCHEDULER_USER_QUANTUM_TICKS. destruct (Z.ltb_spec (quantum_ticks t) (5 - 1)) as [Hlt|Hge].
  - assert (E5 : (quantum_ticks t <? 5) = true) by (apply Z.ltb_lt; lia). rewrite E5. cbn [quantum_ticks set_quantum_ticks].
    assert (E6 : (quantum_ticks t + 1 <? 5) = true) by (apply Z.ltb_lt; lia). by rewrite E6.
  - assert (Hq : (quantum_ticks (if quantum_ticks t <? 5 then set_quantum_ticks (quantum_ticks t + 1) t else t) <? 5) = false).
    { destruct (Z.ltb_spec (quantum_ticks t) 5); cbn [quantum_ticks set_quantum_ticks]; apply Z.ltb_ge; lia. }
    rewrite Hq. erewrite Eup by (cbn [tasks set_tasks]; apply lookup_insert_eq). cbn [tasks set_tasks]. rewrite insert_insert_eq.
    by destruct (quantum_ticks t <? 5).
Qed.

(** Up to the fifth: the same task runs, nothing else happens. *)
Lemma ticks_count frame saved_rflags n : forall s t,
  user_now s t -> quantum_ticks t + Z.of_nat n < SCHEDULER_USER_QUANTUM_TICKS ->
  ticks frame saved_rflags n s = Some (Done tt, with_ticks s t (quantum_ticks t + Z.of_nat n)).
Proof.
  induction n as [|n IH]; intros s t Hu Hn.
  - cbn [ticks]. by rewrite Z.add_0_r, with_ticks_same by apply Hu.
  - cbn [ticks]. unfold mbind, KM_bind. rewrite (run_tick _ _ s t Hu), (proj2 (Z.ltb_lt _ _)) by lia.
    rewrite (IH _ (set_quantum_ticks (quantum_ticks t + 1) t)) by (apply user_now_ticks, Hu || (cbn; lia)).
    rewrite with_ticks_twice. cbn [quantum_ticks set_quantum_ticks]. do 3 f_equal. lia.
Qed.

Lemma ticks_last frame saved_rflags n s t :
  user_now s t -> quantum_ticks t + Z.of_nat n = Z.max (quantum_ticks t) (SCHEDULER_USER_QUANTUM_TICKS - 1) ->
  ticks frame saved_rflags (S n) s = (run addresses symbols (Yield frame saved_rflags);; mret tt) (with_ticks s t 0).
Proof.
  assert (Hadd : forall m s1, ticks frame saved_rflags (m + 1) s1 = (ticks frame saved_rflags m;; run addresses symbols (Tick frame saved_rflags);; mret tt) s1).
  { induction m as [|m IH]; intros s1; [done|]. cbn [ticks Nat.add]. unfold mbind, KM_bind. destruct (run _ _ _ _) as [[[ctl|] s2]|]; [|done|done].
    by rewrite IH. }
  intros Hu Hn. rewrite <- Nat.add_1_r, Hadd. unfold mbind, KM_bind.
  destruct (decide (quantum_ticks t < SCHEDULER_USER_QUANTUM_TICKS)) as [Hlt|Hge].
  - rewrite (ticks_count _ _ n s t Hu) by (unfold SCHEDULER_USER_QUANTUM_TICKS in *; lia).
    rewrite (run_tick _ _ _ (set_quantum_ticks (quantum_ticks t + Z.of_nat n) t)) by (by apply user_now_ticks).
    cbn [quantum_ticks set_quantum_ticks]. rewrite (proj2 (Z.ltb_ge _ _)) by (unfold SCHEDULER_USER_QUANTUM_TICKS in *; lia). by rewrite with_ticks_twice.
  - assert (n = 0%nat) as -> by (unfold SCHEDULER_USER_QUANTUM_TICKS in *; lia). change (ticks frame saved_rflags 0 s) with (Some (Done tt, s)).
    cbv iota beta. rewrite (run_tick _ _ s t Hu). rewrite (proj2 (Z.ltb_ge _ _)); [done|]. unfold SCHEDULER_USER_QUANTUM_TICKS in *. lia.
Qed.

(** The switch at the end of the quantum. *)
Lemma quantum_end frame saved_rflags tc s l w n ps k (R : scheduler A -> Prop) :
  sched_inv s l w rest -> (g_current_task s, tc) ∈ l -> task_state tc = TASK_READY -> call_ok tc frame -> queue (g_current_task s) l = n :: ps ->
  tasks s !! g_current_task s = Some (set_next k tc) ->
  kwp (run addresses symbols (Yield frame saved_rflags)) (fun _ s' => g_current_task s' = n) R (with_ticks s (set_next k tc) 0).
Proof.
  intros Hinv Hc Hready Hcall Hq E.
  assert (Hup : kwp (update_task (g_current_task s) (set_quantum_ticks 0)) (fun _ s' => kwp (run addresses symbols (Yield frame saved_rflags)) (fun _ s2 => g_current_task s2 = n) R s') R s).
  { apply (kwp_update_field addresses symbols first_byte last_byte (g_current_task s) tc _ s l w rest); [done|done|auto with sched|by left|].
    intros m Hinv'. eapply kwp_post.
    - apply (yield_spec addresses symbols first_byte last_byte Hsym rest frame saved_rflags (g_current_task s) (bare (set_quantum_ticks 0 tc)) _ _ _ n ps R Hinv');
        [|done|exact Hready|by destruct Hcall; constructor|by rewrite queue_update].
      apply ring_update_in. exists tc. by rewrite decide_True.
    - intros ctl s' (l' & w' & _ & _ & En & _). exact En. }
  revert Hup. unfold kwp at 1, update_task, task_at, mbind, KM_bind, kget. rewrite E. done.
Qed.

End Ticks.

(** * kernel/scheduler.c: the end of another task, and the end of the machine

    [scheduler_terminate_task] removes exactly the task that it is asked for; a broken canary halts the
    machine before the stack is used or freed. *)

Section End_.
Context {A : Type} `{AllocatorLaws A} (addresses : table_addresses) (symbols : symbols) (first_byte last_byte : Z).
Context (Hsym : symbols_ok symbols) (rest : list (Z * Z)).

Abbreviation sched_inv := (sched_inv addresses symbols first_byte last_byte).
Implicit Types (s : scheduler A) (l : ring) (w : list live).

Lemma survivors_kill c p l q u : p <> c -> (q, u) ∈ survivors c (ring_update p (set_task_state TASK_DEAD) l) <-> (q, u) ∈ l /\ q <> p /\ kept c (q, u).
Proof.
  intros Hpc. unfold survivors. rewrite list_elem_of_filter, ring_update_in. split.
  - intros [Hk (t & Hin & ->)]. case_decide as E; [|done]. destruct Hk as [Hk|Hk]; cbn in Hk; [by subst|discriminate].
  - intros (Hin & Hqp & Hk). split; [done|]. exists u. by rewrite decide_False.
Qed.

(** The task [p] is the one with the id that may be ended. *)
Lemma terminated_id s l w id p t :
  sched_inv s l w rest ->
  terminated s l (fun t => task_id t =? id) = Some (p, t) <-> (p, t) ∈ l /\ task_id t = id /\ p <> g_current_task s /\ task_state t <> TASK_DEAD.
Proof.
  intros Hinv. unfold terminated. destruct (filter _ l) as [|[q u] ?] eqn:E.
  - split; [done|]. intros (Hin & Eid & _). exfalso. eapply (filter_nil_not_elem_of _ _ _ E); [|exact Hin]. by apply Z.eqb_eq.
  - assert (Hq : (q, u) ∈ l /\ task_id u = id).
    { assert (Hf : (q, u) ∈ filter (fun x : Z * Task => (task_id x.2 =? id) = true) l) by (rewrite E; by left).
      apply list_elem_of_filter in Hf as [Hf ?]. by apply Z.eqb_eq in Hf. }
    destruct Hq as [Hq Eq]. assert (Hsame : forall p t, (p, t) ∈ l -> task_id t = id -> p = q /\ t = u).
    { intros p' t' Hp' E'. apply (same_id addresses symbols first_byte last_byte rest s l w); [done|done|done|congruence]. }
    destruct (_ || _) eqn:Eb.
    + split; [done|]. intros (Hin & Eid & Hne & Hd). destruct (Hsame _ _ Hin Eid) as [-> ->].
      apply orb_true_iff in Eb as [Eb%Z.eqb_eq|Eb%bool_decide_eq_true]; done.
    + apply orb_false_iff in Eb as [Eb%Z.eqb_neq Ed%bool_decide_eq_false]. split.
      * by intros [= <- <-].
      * intros (Hin & Eid & _). by destruct (Hsame _ _ Hin Eid) as [-> ->].
Qed.

Lemma terminate_task_spec id s l w :
  sched_inv s l w rest -> ready_now s l ->
  kwp (scheduler_terminate_task addresses id)
    (fun b s' => match terminated s l (fun t => task_id t =? id) with
       | None => b = false /\ s' = s
       | Some (p, t) => b = true /\ g_current_task s' = g_current_task s /\
           processes s' = (if is_user t then (app_process_mark_exited (task_process_id t) (-1) (processes s)).2 else processes s) /\
           exists l' w', sched_inv s' l' w' rest /\ forall q u, (q, u) ∈ l' <-> (q, u) ∈ l /\ q <> p /\ kept (g_current_task s) (q, u)
       end) (fun _ => False) s.
Proof.
  intros Hinv (tc & Hc & Hready). pose proof Hinv as [Hr _]. unfold scheduler_terminate_task. apply kwp_bind, kwp_get.
  rewrite (proj2 (Z.eqb_neq (g_head s) NULL)) by (by apply (head_nonnull addresses symbols first_byte last_byte rest s l w)). rewrite orb_false_r.
  destruct (Z.eqb_spec id 0) as [->|Hid].
  { ksteps. destruct (terminated s l _) as [[p t]|] eqn:E; [exfalso|done]. apply (terminated_id s l w 0 p t Hinv) in E as (Hp & E0 & _).
    destruct (task_facts _ _ _ _ _ _ _ _ _ _ Hinv Hp) as [_ _ _ _ [? _]]. cbn [snd] in *. lia. }
  ksteps. rewrite <- (ring_first _ _ _ Hr).
  apply (terminate_loop_spec addresses symbols first_byte last_byte Hsym rest _ (fun t => task_id t =? id) _ s [] l w); [done|done| |rewrite (ring_size _ _ _ Hr); lia| |].
  - intros ->. by apply elem_of_nil in Hc.
  - intros ->. done.
  - intros p t s' w' E. cbv zeta. intros Hst Ec Ep. rewrite E. split; [done|]. split; [done|]. split; [done|].
    eexists _, w'. split; [exact (st_inv _ _ _ _ _ _ _ _ _ _ _ _ Hst)|].
    intros q u. apply survivors_kill. by apply (terminated_id s l w id p t Hinv) in E as (_ & _ & ? & _).
Qed.

End End_.

(** ** Broken canaries *)

Section Canary.
Context {A : Type} `{Allocator A} (addresses : table_addresses) (symbols : symbols).
Implicit Types (s : scheduler A).

(** All words of the canary of [t] can be read, and one is wrong. *)
Definition canary_broken s (t : Task) : Prop :=
  kernel_stack_canary t <> NULL /\ (forall i, (i < STACK_CANARY_WORDS)%nat -> is_Some (words s !! canary_address t i)) /\
  exists i, (i < STACK_CANARY_WORDS)%nat /\ words s !! canary_address t i <> Some (stack_canary_value (task_id t) i).

Lemma check_canary_broken t s n : forall i,
  (forall j, (i <= j < i + n)%nat -> is_Some (words s !! canary_address t j)) ->
  (exists j, (i <= j < i + n)%nat /\ words s !! canary_address t j <> Some (stack_canary_value (task_id t) j)) ->
  check_canary n i t s = Some (Done false, s).
Proof.
  induction n as [|n IH]; intros i Hr (j & Hj & Hw); [lia|]. cbn [check_canary]. unfold read_word, mbind, KM_bind, kget.
  destruct (Hr i) as [v Ev]; [lia|]. rewrite Ev. cbn [klift]. destruct (Z.eqb_spec v (stack_canary_value (task_id t) i)) as [->|Hne]; cbn [negb]; [|done].
  apply IH; [intros k Hk; apply Hr; lia|]. exists j. split; [|done]. destruct (decide (j = i)) as [->|]; [by destruct Hw|lia].
Qed.

Lemma intact_broken p t s : tasks s !! p = Some t -> canary_broken s t -> stack_canary_intact p s = Some (Done false, s).
Proof.
  intros Ep (Hn & Hr & i & Hi & Hw). unfold stack_canary_intact, task_at, mbind, KM_bind, kget. rewrite Ep. cbn [klift].
  rewrite (proj2 (Z.eqb_neq _ _) Hn). apply check_canary_broken; [intros j Hj; apply Hr; lia|]. exists i. split; [lia|done].
Qed.

(** The halt writes to the log, and changes nothing else. *)
Definition halted_with_log s : outcome control * scheduler A :=
  (Halted, set_kernel (paging_log (cs "Scheduler: KERNEL STACK CANARY CORRUPTED; system halted") (kernel s)) s).

End Canary.
