(* ===== verification/SchedKeeps.v ===== *)
(** * kernel/scheduler.c: what the scheduler does not change

    Properties of the state that do not mention the tasks, their stacks or the globals of the scheduler are
    kept by all of its operations.  [keeps I] is checked by descent through the code, with the hints of the
    database [keeps]. *)

From stdpp Require Import gmap.
From S2P Require Import Prelude CString Heap Allocator Elf Manifest AppProcess Paging PagingKernel Scheduler SchedRun.

Definition keeps {S B} (I : S -> Prop) (m : KM S B) : Prop := forall s o s', I s -> m s = Some (o, s') -> I s'.

(** ** Combinators *)

Section Combinators.
Context {S : Type} (I : S -> Prop).

Lemma keeps_mbind {B C} (m : KM S B) (k : B -> KM S C) : keeps I m -> (forall b, keeps I (k b)) -> keeps I (m ≫= k).
Proof.
  intros Hm Hk s o s' Hs. unfold mbind, KM_bind. destruct (m s) as [[[b|] s1]|] eqn:E; [|intros [= <- <-]; by apply (Hm s _ _ Hs E)|done].
  apply Hk. by apply (Hm s _ _ Hs E).
Qed.

Lemma keeps_mret {B} (b : B) : keeps I (mret b).
Proof. by intros s o s' Hs [= <- <-]. Qed.

Lemma keeps_get {B} (f : S -> B) : keeps I (kget f).
Proof. by intros s o s' Hs [= <- <-]. Qed.

Lemma keeps_mod (f : S -> S) : (forall s, I s -> I (f s)) -> keeps I (kmod f).
Proof. intros Hf s o s' Hs [= <- <-]. by apply Hf. Qed.

Lemma keeps_klift {B} (o : option B) : keeps I (klift o).
Proof. intros s x s' Hs. unfold klift. destruct o; [by intros [= <- <-]|done]. Qed.

Lemma keeps_halt {B} : keeps I (@khalt S B).
Proof. by intros s o s' Hs [= <- <-]. Qed.

Lemma keeps_ite {B} (b : bool) (m n : KM S B) : keeps I m -> keeps I n -> keeps I (if b then m else n).
Proof. by destruct b. Qed.

Lemma keeps_option {B C} (o : option B) (m : B -> KM S C) (n : KM S C) :
  (forall b, keeps I (m b)) -> keeps I n -> keeps I (match o with Some b => m b | None => n end).
Proof. by destruct o. Qed.

End Combinators.

Create HintDb keeps discriminated.
#[export] Hint Resolve keeps_mret keeps_get keeps_klift keeps_halt : keeps.

(** One construct of the code at a time; the calls are solved by hints. *)
Ltac keeps_step :=
  match goal with
  | |- forall _, _ => intros ?
  | |- keeps _ (_ ≫= _) => apply keeps_mbind
  | |- keeps _ (if _ then _ else _) => apply keeps_ite
  | |- keeps _ (match _ with Some _ => _ | None => _ end) => apply keeps_option
  | |- keeps _ (match ?c with Returned => _ | SwitchTo _ => _ | EnterUser _ _ => _ end) => destruct c
  | |- keeps _ (let (_, _) := ?p in _) => destruct p
  | |- _ => progress (auto with keeps)
  end.
Ltac keeps := repeat keeps_step.

(** ** The scheduler *)

Section Scheduler.
Context {A : Type} `{Allocator A} (addresses : table_addresses) (symbols : symbols) (I : scheduler A -> Prop).

(** [I] is about memory, spaces and processes only, and not about the allocator or the guard pages. *)
Record untouched : Prop := {
  un_tasks v s : I s -> I (set_tasks v s);
  un_words v s : I s -> I (set_words v s);
  un_current v s : I s -> I (set_g_current_task v s);
  un_head v s : I s -> I (set_g_head v s);
  un_pid v s : I s -> I (set_g_next_pid v s);
  un_enabled v s : I s -> I (set_g_fpu_context_enabled v s);
  un_initial v s : I s -> I (set_g_initial_fpu_state v s);
  un_registers v s : I s -> I (set_cpu_registers v s);
  un_allocator a s : I s -> I (set_kernel (set_allocator a (kernel s)) s);
  un_guard p change f s ok k : I s -> change_guard_entry p change f (kernel s) = Some (ok, k) -> I (set_kernel k s);
}.

(** [I] is about the processes only. *)
Record about_processes : Prop := {
  ab_kernel k s : I s -> I (set_kernel k s);
  ab_spaces v s : I s -> I (set_spaces v s);
  ab_exited id code s : I s -> I (set_processes (app_process_mark_exited id code (processes s)).2 s);
  ab_fault id r s : I s -> I (set_processes (app_process_record_fault id r (processes s)).2 s);
  ab_running id s : I s -> I (set_processes (app_process_mark_running id (processes s)).2 s);
}.

Context (Hun : untouched).

Lemma keeps_kmalloc n : keeps I (kmalloc n).
Proof. intros s o s' Hs. unfold kmalloc. destruct (alloc _ _) as [[p a]|]; [intros [= <- <-]; by apply un_allocator|done]. Qed.

Lemma keeps_kfree p : keeps I (kfree p).
Proof. intros s o s' Hs. unfold kfree. destruct (release _ _); [intros [= <- <-]; by apply un_allocator|done]. Qed.

Lemma keeps_change_guard p change f : keeps I (on_paging (change_guard_entry p change f)).
Proof.
  intros s o s' Hs. unfold on_paging. destruct (change_guard_entry p change f (kernel s)) as [[ok k]|] eqn:E; [|done].
  intros [= <- <-]. by apply (un_guard Hun p change f s ok).
Qed.

Lemma keeps_guard p : keeps I (on_paging (paging_kernel_guard_page p)).
Proof. apply keeps_change_guard. Qed.

Lemma keeps_unguard p : keeps I (on_paging (paging_kernel_unguard_page p)).
Proof. apply keeps_change_guard. Qed.

Lemma keeps_log m : keeps I (syslog_write m).
Proof. apply keeps_mod. intros s. apply un_allocator. done. Qed.

Lemma keeps_task_at p : keeps I (task_at p).
Proof. unfold task_at. keeps. Qed.

Lemma keeps_read_word a : keeps I (read_word a).
Proof. unfold read_word. keeps. Qed.

Lemma keeps_mod_tasks (f : scheduler A -> gmap Z Task) : keeps I (kmod (fun s => set_tasks (f s) s)).
Proof. apply keeps_mod. intros s. by apply un_tasks. Qed.
Lemma keeps_mod_words (f : scheduler A -> gmap Z Z) : keeps I (kmod (fun s => set_words (f s) s)).
Proof. apply keeps_mod. intros s. by apply un_words. Qed.
Lemma keeps_mod_current v : keeps I (kmod (set_g_current_task v)).
Proof. apply keeps_mod. intros s. by apply un_current. Qed.
Lemma keeps_mod_head v : keeps I (kmod (set_g_head v)).
Proof. apply keeps_mod. intros s. by apply un_head. Qed.
Lemma keeps_mod_pid v : keeps I (kmod (set_g_next_pid v)).
Proof. apply keeps_mod. intros s. by apply un_pid. Qed.
Lemma keeps_mod_registers (f : scheduler A -> registers) : keeps I (kmod (fun s => set_cpu_registers (f s) s)).
Proof. apply keeps_mod. intros s. by apply un_registers. Qed.

Hint Resolve keeps_kmalloc keeps_kfree keeps_guard keeps_unguard keeps_log keeps_task_at keeps_read_word keeps_mod_tasks keeps_mod_words
  keeps_mod_current keeps_mod_head keeps_mod_pid keeps_mod_registers : keeps.

Lemma keeps_update p f : keeps I (update_task p f).
Proof. unfold update_task. keeps. Qed.

Lemma keeps_write_word a v : keeps I (write_word a v).
Proof. unfold write_word. keeps. Qed.
Hint Resolve keeps_update keeps_write_word : keeps.

Lemma keeps_write_canary t n : forall i, keeps I (write_canary n i t).
Proof. induction n as [|n IH]; intros i; cbn [write_canary]; keeps. Qed.

Lemma keeps_check_canary t n : forall i, keeps I (check_canary n i t).
Proof. induction n as [|n IH]; intros i; cbn [check_canary]; keeps. Qed.

Lemma keeps_push vs : forall sp, keeps I (push_words sp vs).
Proof. induction vs as [|v vs IH]; intros sp; cbn [push_words]; keeps. Qed.
Hint Resolve keeps_write_canary keeps_check_canary keeps_push : keeps.

Lemma keeps_intact p : keeps I (stack_canary_intact p).
Proof. unfold stack_canary_intact. keeps. Qed.

Lemma keeps_corrupt {B} : keeps I (@halt_on_stack_corruption A _ B).
Proof. unfold halt_on_stack_corruption. keeps. Qed.

Lemma keeps_release_stack p : keeps I (release_kernel_stack p).
Proof. unfold release_kernel_stack, forget_words. keeps. Qed.

Lemma keeps_free_task p : keeps I (free_task p).
Proof. unfold free_task. keeps. Qed.

Lemma keeps_save p : keeps I (save_task_fpu p).
Proof. unfold save_task_fpu. keeps. Qed.

Lemma keeps_restore p : keeps I (restore_task_fpu p).
Proof. unfold restore_task_fpu. keeps. Qed.
Hint Resolve keeps_intact keeps_corrupt keeps_release_stack keeps_free_task keeps_save keeps_restore : keeps.

Lemma keeps_find_tail dead n : forall p, keeps I (find_tail n p dead).
Proof. induction n as [|n IH]; intros p; cbn [find_tail]; keeps. Qed.

Lemma keeps_find_ready start n : forall p, keeps I (find_ready n p start).
Proof. induction n as [|n IH]; intros p; cbn [find_ready]; keeps. Qed.
Hint Resolve keeps_find_tail keeps_find_ready : keeps.

(** Creation keeps more than the rest. *)
Lemma keeps_spawn no_memory no_stack name finish entry : keeps I (spawn symbols no_memory no_stack name finish entry).
Proof.
  unfold spawn, allocate_guarded_kernel_stack, allocate_task_id, initialize_stack_canary, initialize_task_fpu. cbv zeta. keeps.
Qed.

Hint Resolve keeps_spawn : keeps.

Lemma keeps_init feature_d : keeps I (scheduler_init symbols feature_d).
Proof.
  unfold scheduler_init, allocate_task_id, initialize_stack_canary, initialize_fpu_contexts, disable_unmanaged_fpu_state. cbv zeta. keeps.
  all: apply keeps_mod; intros s Hs; auto using un_initial, un_enabled.
Qed.

Context (Hab : about_processes).

Lemma keeps_mod_kernel (f : scheduler A -> paging A) : keeps I (kmod (fun s => set_kernel (f s) s)).
Proof. apply keeps_mod. intros s. by apply ab_kernel. Qed.

Lemma keeps_destroy_space p : keeps I (destroy_space addresses p).
Proof.
  unfold destroy_space. keeps.
  - intros s o s' Hs. unfold on_paging. destruct (paging_address_space_destroy _ _ _); [|done]. rewrite some_bind. intros [= <- <-]. by apply ab_kernel.
  - apply keeps_mod. intros s. by apply ab_spaces.
Qed.
Hint Resolve keeps_mod_kernel keeps_destroy_space : keeps.

Lemma keeps_destroy_task p : keeps I (destroy_task addresses p).
Proof. unfold destroy_task. keeps. Qed.
Hint Resolve keeps_destroy_task : keeps.

Lemma keeps_reap : keeps I (reap_dead_tasks addresses).
Proof.
  assert (H1 : forall n, keeps I (reap_head addresses n)) by (induction n as [|n IH]; cbn [reap_head]; keeps).
  assert (H2 : forall n p q, keeps I (reap_rest addresses n p q)) by (induction n as [|n IH]; intros p q; cbn [reap_rest]; keeps).
  unfold reap_dead_tasks. keeps.
Qed.
Hint Resolve keeps_reap : keeps.

Lemma keeps_schedule frame flags : keeps I (schedule addresses symbols frame flags).
Proof. unfold schedule, switch_tasks, context_switch. keeps. Qed.
Hint Resolve keeps_schedule : keeps.

Lemma keeps_exited id code : keeps I (on_processes (app_process_mark_exited id code)).
Proof.
  intros s o s' Hs. unfold on_processes. pose proof (ab_exited Hab id code s Hs). destruct (app_process_mark_exited _ _ _). by intros [= <- <-].
Qed.

Lemma keeps_fault id r : keeps I (on_processes (app_process_record_fault id r)).
Proof.
  intros s o s' Hs. unfold on_processes. pose proof (ab_fault Hab id r s Hs). destruct (app_process_record_fault _ _ _). by intros [= <- <-].
Qed.

Lemma keeps_running id : keeps I (on_processes (app_process_mark_running id)).
Proof.
  intros s o s' Hs. unfold on_processes. pose proof (ab_running Hab id s Hs). destruct (app_process_mark_running _ _). by intros [= <- <-].
Qed.
Hint Resolve keeps_exited keeps_fault keeps_running : keeps.

Lemma keeps_is_user : keeps I scheduler_current_is_user.
Proof. unfold scheduler_current_is_user. keeps. Qed.

Lemma keeps_terminate wanted message n : forall p, keeps I (terminate_loop addresses n wanted message p).
Proof. induction n as [|n IH]; intros p; cbn [terminate_loop]; unfold mark_exited; keeps. Qed.

Lemma keeps_exit_task frame flags : keeps I (exit_current_task addresses symbols frame flags).
Proof. unfold exit_current_task, schedule_away, mark_exited. keeps. Qed.
Hint Resolve keeps_is_user keeps_terminate keeps_exit_task : keeps.

(** Every request keeps a property of the processes that the moves of the life cycle keep. *)
Lemma keeps_run r : keeps I (run addresses symbols r).
Proof.
  unfold run, resume. apply keeps_mbind; [|keeps]. destruct r; cbn [run_request];
    unfold spawn_named_task, spawn_user_task, scheduler_spawn_user_process, scheduler_set_current_name, scheduler_terminate_task,
      scheduler_terminate_app_process, scheduler_timer_tick, scheduler_exit_current_user, scheduler_fault_current_user, user_task_bootstrap,
      schedule_away, mark_exited; cbv zeta; keeps.
  apply keeps_mod. intros s Hs. by apply (un_words Hun), (un_registers Hun).
Qed.

End Scheduler.
