(* ===== verification/AppCatalog.v ===== *)
(** * kernel/app_catalog.c: the installed applications

    [g_catalog] is an array of 32 entries with a count; the registry of manifests goes with it.  An image is
    its bytes ([None] is NULL): the code keeps the pointer, and the header asks that the bytes stay.  An image
    embedded by the build is the memory from its start symbol on.  [None] of a run is an access outside the
    image.

    Then what the catalog holds, and the specification of its operations. *)

From stdpp Require Import list.
From S2P Require Import Prelude CString FsCodec Elf ElfSpec Manifest.

Definition APP_CATALOG_CAPACITY : nat := APP_REGISTRY_CAPACITY.

Definition APP_CAPABILITY_LOG : Z := Z.shiftl 1 0.
Definition APP_CAPABILITY_TIME : Z := Z.shiftl 1 1.
Definition APP_CAPABILITY_FILE_READ : Z := Z.shiftl 1 2.
Definition APP_CAPABILITY_FILE_WRITE : Z := Z.shiftl 1 3.
Definition APP_CAPABILITY_INPUT : Z := Z.shiftl 1 4.
Definition APP_CAPABILITY_WINDOW : Z := Z.shiftl 1 5.
Definition APP_CAPABILITY_MEMORY : Z := Z.shiftl 1 6.
Definition APP_CAPABILITY_NETWORK : Z := Z.shiftl 1 7.

Record app_catalog_entry := CatalogEntry {
  manifest : app_manifest;
  image_plan : elf64_image_plan;
  image : option (list Z);
  image_size : Z;
}.

Inductive app_catalog_result :=
| APP_CATALOG_OK
| APP_CATALOG_INVALID_ARGUMENT
| APP_CATALOG_MANIFEST_REJECTED
| APP_CATALOG_ELF_REJECTED
| APP_CATALOG_REGISTRY_REJECTED
| APP_CATALOG_FULL
| APP_CATALOG_EMBEDDED_IMAGE_UNAVAILABLE.

#[export] Instance app_catalog_result_eq : EqDecision app_catalog_result.
Proof. solve_decision. Defined.

Record catalog := Catalog {
  g_catalog : list app_catalog_entry;
  g_catalog_count : nat;
  app_registry : registry;
}.

(** ** The manifests of the system *)

(** A string literal in an array of [n] bytes. *)
Definition text (n : nat) (s : list Z) : list Z := s ++ replicate (n - length s) 0.

Definition system_manifest (rights : Z) (name display exe about : list Z) : app_manifest :=
  AppManifest NOSTALUX_APP_MANIFEST_VERSION NOSTALUX_APP_ABI_VERSION rights (text APP_ID_CAPACITY name)
    (text APP_DISPLAY_CAPACITY display) (text APP_EXECUTABLE_CAPACITY exe) (text APP_DESCRIPTION_CAPACITY about).

Definition rights_of (l : list Z) : Z := foldl Z.lor 0 l.

Definition HELLO_MANIFEST : app_manifest :=
  system_manifest (rights_of [APP_CAPABILITY_LOG; APP_CAPABILITY_TIME])
    (cs "hello") (cs "Hello Nostalux") (cs "hello.elf") (cs "Separate ELF app that exercises the Apps v1 ABI").
Definition FAULT_PROBE_MANIFEST : app_manifest :=
  system_manifest 0 (cs "fault-probe") (cs "Fault Isolation Probe") (cs "fault-probe.elf")
    (cs "Touches supervisor memory to verify ring-3 isolation").
Definition HANG_PROBE_MANIFEST : app_manifest :=
  system_manifest 0 (cs "hang-probe") (cs "Preemption Hang Probe") (cs "hang-probe.elf")
    (cs "Never yields; verifies timer preemption and appkill").
Definition RFLAGS_PROBE_MANIFEST : app_manifest :=
  system_manifest 0 (cs "rflags-probe") (cs "RFLAGS Return Probe") (cs "rflags-probe.elf")
    (cs "Sets RFLAGS.NT to verify safe syscall and IRQ return").
Definition STACK_PROBE_MANIFEST : app_manifest :=
  system_manifest 0 (cs "stack-probe") (cs "Stack Return Probe") (cs "stack-probe.elf")
    (cs "Uses a noncanonical RSP to verify safe IRQ return").
Definition CALCULATOR_MANIFEST : app_manifest :=
  system_manifest (rights_of [APP_CAPABILITY_LOG; APP_CAPABILITY_INPUT; APP_CAPABILITY_WINDOW; APP_CAPABILITY_MEMORY])
    (cs "calculator") (cs "Calculator") (cs "calculator.elf") (cs "Interactive arithmetic in an isolated ELF process").
Definition NOTEPAD_MANIFEST : app_manifest :=
  system_manifest (rights_of [APP_CAPABILITY_LOG; APP_CAPABILITY_FILE_READ; APP_CAPABILITY_FILE_WRITE; APP_CAPABILITY_INPUT;
      APP_CAPABILITY_WINDOW; APP_CAPABILITY_MEMORY])
    (cs "notepad") (cs "Notepad") (cs "notepad.elf") (cs "Persistent text editor in an isolated ELF process").
Definition IMAGE_VIEWER_MANIFEST : app_manifest :=
  system_manifest (rights_of [APP_CAPABILITY_LOG; APP_CAPABILITY_FILE_READ; APP_CAPABILITY_INPUT; APP_CAPABILITY_WINDOW;
      APP_CAPABILITY_MEMORY])
    (cs "image-viewer") (cs "Image Viewer") (cs "image-viewer.elf") (cs "Renders a real filesystem BMP in an isolated process").
Definition AI_ASSISTANT_MANIFEST : app_manifest :=
  system_manifest (rights_of [APP_CAPABILITY_LOG; APP_CAPABILITY_TIME; APP_CAPABILITY_INPUT; APP_CAPABILITY_WINDOW;
      APP_CAPABILITY_MEMORY; APP_CAPABILITY_NETWORK])
    (cs "ai-assistant") (cs "AI Assistant") (cs "ai-assistant.elf") (cs "Truthful offline intent helper in an isolated process").
Definition BROWSER_MANIFEST : app_manifest :=
  system_manifest (rights_of [APP_CAPABILITY_LOG; APP_CAPABILITY_TIME; APP_CAPABILITY_FILE_READ; APP_CAPABILITY_FILE_WRITE;
      APP_CAPABILITY_INPUT; APP_CAPABILITY_WINDOW; APP_CAPABILITY_MEMORY; APP_CAPABILITY_NETWORK])
    (cs "browser") (cs "Browser") (cs "browser.elf") (cs "Asynchronous HTTP and file viewer in an isolated process").

(** ** Operations *)

Definition app_catalog_reset (c : catalog) : catalog :=
  Catalog (map (fun e => CatalogEntry (manifest e) (image_plan e) None 0) (g_catalog c)) 0 (app_registry_reset (app_registry c)).

(** The index is what the code writes to [out_index]. *)
Definition app_catalog_install (m : option app_manifest) (bytes : option (list Z)) (size : Z) (c : catalog)
    : option (app_catalog_result * option nat * catalog) :=
  match m, bytes with
  | Some m, Some b =>
      if size =? 0 then Some (APP_CATALOG_INVALID_ARGUMENT, None, c)
      else if (APP_CATALOG_CAPACITY <=? g_catalog_count c)%nat then Some (APP_CATALOG_FULL, None, c)
      else if negb (bool_decide (app_manifest_validate (Some m) = APP_MANIFEST_OK))
      then Some (APP_CATALOG_MANIFEST_REJECTED, None, c)
      else
        inspected ← elf64_inspect (Some b) size false;
        match inspected with
        | inl _ => Some (APP_CATALOG_ELF_REJECTED, None, c)
        | inr plan =>
            let (result, r) := app_registry_register (Some m) (app_registry c) in
            if negb (bool_decide (result = APP_MANIFEST_OK))
            then Some (APP_CATALOG_REGISTRY_REJECTED, None, Catalog (g_catalog c) (g_catalog_count c) r)
            else
              Some (APP_CATALOG_OK, Some (g_catalog_count c),
                Catalog (<[g_catalog_count c := CatalogEntry m plan (Some b) size]> (g_catalog c)) (g_catalog_count c + 1) r)
        end
  | _, _ => Some (APP_CATALOG_INVALID_ARGUMENT, None, c)
  end.

Definition app_catalog_install_hello := app_catalog_install (Some HELLO_MANIFEST).
Definition app_catalog_install_fault_probe := app_catalog_install (Some FAULT_PROBE_MANIFEST).
Definition app_catalog_install_hang_probe := app_catalog_install (Some HANG_PROBE_MANIFEST).
Definition app_catalog_install_rflags_probe := app_catalog_install (Some RFLAGS_PROBE_MANIFEST).
Definition app_catalog_install_stack_probe := app_catalog_install (Some STACK_PROBE_MANIFEST).
Definition app_catalog_install_calculator := app_catalog_install (Some CALCULATOR_MANIFEST).
Definition app_catalog_install_notepad := app_catalog_install (Some NOTEPAD_MANIFEST).
Definition app_catalog_install_image_viewer := app_catalog_install (Some IMAGE_VIEWER_MANIFEST).
Definition app_catalog_install_ai_assistant := app_catalog_install (Some AI_ASSISTANT_MANIFEST).
Definition app_catalog_install_browser := app_catalog_install (Some BROWSER_MANIFEST).

(** The symbols around an embedded image, and the bytes from the first one on. *)
Record embedded_image := EmbeddedImage {
  image_start : Z;
  image_end : Z;
  image_bytes : list Z;
}.

Definition embedded_size (e : embedded_image) : option Z :=
  if (image_end e <=? image_start e) || (SIZE_MAX <? image_end e - image_start e) then None
  else Some (image_end e - image_start e).

(** The ten images, in the order of the code. *)
Record embedded_images := EmbeddedImages {
  hello_app : embedded_image;
  fault_probe_app : embedded_image;
  hang_probe_app : embedded_image;
  rflags_probe_app : embedded_image;
  stack_probe_app : embedded_image;
  calculator_app : embedded_image;
  notepad_app : embedded_image;
  image_viewer_app : embedded_image;
  ai_assistant_app : embedded_image;
  browser_app : embedded_image;
}.

Definition images (e : embedded_images) : list embedded_image :=
  [hello_app e; fault_probe_app e; hang_probe_app e; rflags_probe_app e; stack_probe_app e; calculator_app e; notepad_app e;
   image_viewer_app e; ai_assistant_app e; browser_app e].

(** The calls of the installing functions, in order. *)
Definition installs : list (option (list Z) -> Z -> catalog -> option (app_catalog_result * option nat * catalog)) :=
  [app_catalog_install_hello; app_catalog_install_fault_probe; app_catalog_install_hang_probe; app_catalog_install_rflags_probe;
   app_catalog_install_stack_probe; app_catalog_install_calculator; app_catalog_install_notepad; app_catalog_install_image_viewer;
   app_catalog_install_ai_assistant; app_catalog_install_browser].

(** [if (result == APP_CATALOG_OK) result = app_catalog_install_...], for each image with its size. *)
Fixpoint install_each (calls : list ((option (list Z) -> Z -> catalog -> option (app_catalog_result * option nat * catalog)) * (embedded_image * Z)))
    (c : catalog) : option (app_catalog_result * catalog) :=
  match calls with
  | [] => Some (APP_CATALOG_OK, c)
  | (install, (e, size)) :: calls =>
      '(result, _, c) ← install (Some (image_bytes e)) size c;
      if bool_decide (result = APP_CATALOG_OK) then install_each calls c else Some (result, c)
  end.

Definition app_catalog_initialize_embedded (e : embedded_images) (c : catalog) : option (app_catalog_result * catalog) :=
  let c := app_catalog_reset c in
  match mapM embedded_size (images e) with
  | None => Some (APP_CATALOG_EMBEDDED_IMAGE_UNAVAILABLE, c)
  | Some sizes =>
      '(result, c) ← install_each (zip installs (zip (images e) sizes)) c;
      Some (result, if negb (bool_decide (result = APP_CATALOG_OK)) then app_catalog_reset c else c)
  end.

Definition app_catalog_count (c : catalog) : nat := g_catalog_count c.

Definition app_catalog_at (index : nat) (c : catalog) : option app_catalog_entry :=
  if (g_catalog_count c <=? index)%nat then None else g_catalog c !! index.

(** The installed entries. *)
Definition installed (c : catalog) : list app_catalog_entry := take (g_catalog_count c) (g_catalog c).

Definition app_catalog_find_id (name : option (list Z)) (c : catalog) : option app_catalog_entry :=
  match name with
  | None => None
  | Some n => List.find (fun e => strings_equal_bounded (Manifest.id (manifest e)) n APP_ID_CAPACITY) (installed c)
  end.

Definition app_catalog_result_text (result : app_catalog_result) : list Z :=
  match result with
  | APP_CATALOG_OK => cs "ok"
  | APP_CATALOG_INVALID_ARGUMENT => cs "invalid argument"
  | APP_CATALOG_MANIFEST_REJECTED => cs "application manifest rejected"
  | APP_CATALOG_ELF_REJECTED => cs "application ELF rejected"
  | APP_CATALOG_REGISTRY_REJECTED => cs "application registry rejected the manifest"
  | APP_CATALOG_FULL => cs "application catalog is full"
  | APP_CATALOG_EMBEDDED_IMAGE_UNAVAILABLE => cs "embedded application image is unavailable"
  end.

(** * kernel/app_catalog.c: what the catalog holds

    Its entries are applications that can be launched: valid manifests of different names, each with an
    image that passes inspection with the plan recorded. *)

(** An installed application: its image passed inspection with the plan recorded. *)
Record launchable (entry : app_catalog_entry) (bytes : list Z) (plan : elf64_image_plan) : Prop := {
  la_image : image entry = Some bytes;
  la_bytes : bytes_ok bytes;
  la_size : 0 < image_size entry <= Z.of_nat (length bytes);
  la_plan : elf64_inspect (Some bytes) (image_size entry) false = Some (inr plan);
  la_recorded : image_plan entry = plan;
  la_manifest : app_manifest_validate (Some (manifest entry)) = APP_MANIFEST_OK;
}.

Record catalog_inv (c : catalog) : Prop := {
  ci_array : length (g_catalog c) = APP_CATALOG_CAPACITY;
  ci_count : (g_catalog_count c <= APP_CATALOG_CAPACITY)%nat;
  ci_registry : registry_inv (app_registry c);
  ci_registered : registered (app_registry c) = map manifest (installed c);
  ci_entries : Forall (fun e => exists bytes, launchable e bytes (image_plan e)) (installed c);
}.

Lemma installed_length c : catalog_inv c -> length (installed c) = g_catalog_count c.
Proof. intros [H1 H2 _ _ _]. unfold installed. rewrite length_take. lia. Qed.

Lemma registry_count c : catalog_inv c -> g_registry_count (app_registry c) = g_catalog_count c.
Proof.
  intros Hc. pose proof Hc as [_ _ (Hl & Hle & _) E _]. apply (f_equal length) in E. rewrite length_map, (installed_length c Hc) in E.
  unfold registered in E. rewrite length_take in E. lia.
Qed.

(** The manifest and the image are accepted. *)
Definition acceptable (c : catalog) (m : app_manifest) (bytes : list Z) (plan : elf64_image_plan) : Prop :=
  valid_manifest m /\ bytes <> [] /\ (g_catalog_count c < APP_CATALOG_CAPACITY)%nat /\
  elf64_inspect (Some bytes) (Z.of_nat (length bytes)) false = Some (inr plan) /\
  cstr (id m) ∉ map (fun e => cstr (id (manifest e))) (installed c) /\
  cstr (executable m) ∉ map (fun e => cstr (executable (manifest e))) (installed c).

Lemma registered_names (f : app_manifest -> list Z) c : catalog_inv c ->
  map (fun e => f e) (registered (app_registry c)) = map (fun e => f (manifest e)) (installed c).
Proof. intros [_ _ _ -> _]. by rewrite map_map. Qed.

(** The catalog with one entry more. *)
Definition with_entry (c : catalog) (e : app_catalog_entry) : catalog :=
  Catalog (<[g_catalog_count c := e]> (g_catalog c)) (g_catalog_count c + 1)
    (Registry (<[g_registry_count (app_registry c) := manifest e]> (g_registry (app_registry c))) (g_registry_count (app_registry c) + 1)).

Lemma with_entry_installed c e : catalog_inv c -> (g_catalog_count c < APP_CATALOG_CAPACITY)%nat -> installed (with_entry c e) = installed c ++ [e].
Proof.
  intros [H1 _ _ _ _] Hc. unfold installed, with_entry. cbn [g_catalog g_catalog_count]. rewrite Nat.add_1_r.
  rewrite (take_S_r _ _ e) by (apply list_lookup_insert_eq; lia). by rewrite take_insert_ge by lia.
Qed.

Lemma with_entry_inv c m bytes plan :
  catalog_inv c -> manifest_wf m -> bytes_ok bytes -> acceptable c m bytes plan ->
  catalog_inv (with_entry c (CatalogEntry m plan (Some bytes) (Z.of_nat (length bytes)))).
Proof.
  intros Hc Wm Hb (Vm & Hne & Hlt & Hi & Nid & Nex). pose proof Hc as [H1 H2 H3 H4 H5]. pose proof (registry_count c Hc) as Hrc.
  assert (Hd : find_duplicate m (registered (app_registry c)) = None).
  { apply (find_duplicate_None m _ Vm); [by destruct H3 as (_ & _ & ? & _)|by apply registry_valid|]. rewrite !registered_names by done. done. }
  assert (Hlt' : (g_registry_count (app_registry c) < APP_REGISTRY_CAPACITY)%nat) by (rewrite Hrc; exact Hlt).
  constructor.
  - unfold with_entry. cbn [g_catalog]. by rewrite length_insert.
  - unfold with_entry. cbn [g_catalog_count]. lia.
  - unfold with_entry. cbn [app_registry manifest]. by apply registry_inv_insert.
  - rewrite with_entry_installed by done. unfold with_entry. cbn [app_registry manifest]. rewrite registered_insert by done.
    by rewrite H4, map_app.
  - rewrite with_entry_installed by done. apply Forall_app. split; [done|]. apply Forall_singleton. exists bytes.
    constructor; cbn [image image_size image_plan manifest]; [done|done| |done|done|by apply validate_ok].
    destruct bytes; [done|]. cbn [length]. lia.
Qed.

Lemma install_spec c m bytes :
  catalog_inv c -> manifest_wf m -> bytes_ok bytes ->
  exists r index c', app_catalog_install (Some m) (Some bytes) (Z.of_nat (length bytes)) c = Some (r, index, c') /\
    (r = APP_CATALOG_OK -> exists plan, acceptable c m bytes plan /\ index = Some (g_catalog_count c) /\
       c' = with_entry c (CatalogEntry m plan (Some bytes) (Z.of_nat (length bytes)))) /\
    (r <> APP_CATALOG_OK -> (forall plan, ~ acceptable c m bytes plan) /\ index = None /\ c' = c) /\
    (r = APP_CATALOG_ELF_REJECTED \/ (r <> APP_CATALOG_OK -> bytes = [] \/ g_catalog_count c = APP_CATALOG_CAPACITY \/ ~ valid_manifest m \/
       cstr (id m) ∈ map (fun e => cstr (id (manifest e))) (installed c) \/ cstr (executable m) ∈ map (fun e => cstr (executable (manifest e))) (installed c))).
Proof.
  intros Hc Wm Hb. pose proof Hc as [H1 H2 H3 H4 H5]. pose proof (registry_count c Hc) as Hrc. unfold app_catalog_install.
  destruct (Z.eqb_spec (Z.of_nat (length bytes)) 0) as [E0|E0].
  { eexists _, _, _. split; [done|]. split; [done|]. assert (bytes = []) as -> by (destruct bytes; [done|cbn in E0; lia]).
    split; [|right; intros _; by left]. split; [|done]. by intros plan (_ & ? & _). }
  destruct (Nat.leb_spec APP_CATALOG_CAPACITY (g_catalog_count c)) as [Ec|Ec].
  { eexists _, _, _. split; [done|]. split; [done|]. split; [|right; intros _; right; left; lia].
    split; [|done]. intros plan (_ & _ & ? & _). lia. }
  pose proof (validate_ok m Wm) as Hok. destruct (bool_decide_reflect (app_manifest_validate (Some m) = APP_MANIFEST_OK)) as [Ev|Ev]; cbn [negb].
  2: { eexists _, _, _. split; [done|]. split; [done|]. assert (~ valid_manifest m) by tauto. split; [|right; tauto]. split; [|done]. by intros plan (? & _). }
  apply Hok in Ev as Vm. destruct (inspect_Some bytes) as [r Hr]. rewrite Hr, some_bind. destruct r as [err|plan].
  { eexists _, _, _. split; [done|]. split; [done|]. split; [|by left]. split; [|done]. intros plan (_ & _ & _ & E & _). congruence. }
  pose proof (find_duplicate_None m _ Vm ltac:(by destruct H3 as (_ & _ & ? & _)) (registry_valid _ H3)) as Hd.
  rewrite !registered_names in Hd by done. unfold app_registry_register. rewrite bool_decide_true by done. cbn [negb].
  destruct (find_duplicate m _) as [err|] eqn:D.
  - assert (Herr : err <> APP_MANIFEST_OK).
    { clear -D. induction (registered (app_registry c)) as [|e l IH]; cbn [find_duplicate] in D; [done|].
      destruct (strings_equal_bounded _ _ _); [congruence|]. destruct (strings_equal_bounded _ _ _); [congruence|]. by apply IH. }
    rewrite bool_decide_false by done. cbn [negb]. eexists _, _, _. split; [done|]. split; [done|].
    split; [split; [intros p (_ & _ & _ & _ & ? & ?)|by destruct c]|right; intros _].
    + destruct Hd as [_ Hd]. by discriminate Hd.
    + right. right. right.
      destruct (decide (cstr (id m) ∈ map (fun e => cstr (id (manifest e))) (installed c))) as [?|Ni]; [by left|].
      destruct (decide (cstr (executable m) ∈ map (fun e => cstr (executable (manifest e))) (installed c))) as [?|Ne]; [by right|].
      destruct Hd as [_ Hd]. discriminate Hd. by split.
  - rewrite Hrc. destruct (Nat.leb_spec APP_REGISTRY_CAPACITY (g_catalog_count c)) as [Hle|Hle]; [unfold APP_CATALOG_CAPACITY in Ec; lia|].
    rewrite bool_decide_true by done. cbn [negb]. eexists _, _, _. split; [done|]. split; [|by split; [|right]]. intros _.
    exists plan. destruct (proj1 Hd eq_refl) as [Ni Ne]. split.
    + split; [done|]. split; [by intros ->|]. done.
    + split; [done|]. unfold with_entry. by rewrite Hrc.
Qed.

(** ** Lookup *)

Lemma find_id_spec c name e :
  catalog_inv c -> is_terminated name ->
  app_catalog_find_id (Some name) c = Some e <-> e ∈ installed c /\ cstr (id (manifest e)) = cstr name.
Proof.
  intros Hc Hn. pose proof Hc as [_ _ H3 H4 _]. pose proof H3 as (_ & _ & Hw & _ & Hnd & _). pose proof (registry_valid _ H3) as Hv.
  rewrite H4 in Hw, Hv, Hnd. unfold app_catalog_find_id. clear H3 H4 Hc. revert Hw Hv Hnd. induction (installed c) as [|x l IH]; intros Hw Hv Hnd; cbn [List.find map] in *.
  - split; [done|]. by intros [?%elem_of_nil _].
  - apply Forall_cons in Hw as [Wx Hw]. apply Forall_cons in Hv as [Vx Hv]. apply NoDup_cons in Hnd as [Nx Hnd].
    destruct (strings_equal_bounded _ _ _) eqn:E.
    + apply (id_match _ _ Wx Vx) in E as [E _]. split; [intros [= <-]; split; [by left|done]|].
      intros [[->|He]%elem_of_cons E2]; [done|]. destruct Nx. rewrite E, <- E2. rewrite map_map. by apply (list_elem_of_fmap_2 (fun e => cstr (id (manifest e)))).
    + rewrite (IH Hw Hv Hnd), elem_of_cons. split; [intros [? ?]; split; [by right|done]|]. intros [[->|He] E2]; [|done].
      apply not_true_iff_false in E. destruct E. by apply id_match.
Qed.

(** ** Initialisation *)

Definition system_manifests : list app_manifest :=
  [HELLO_MANIFEST; FAULT_PROBE_MANIFEST; HANG_PROBE_MANIFEST; RFLAGS_PROBE_MANIFEST; STACK_PROBE_MANIFEST; CALCULATOR_MANIFEST;
   NOTEPAD_MANIFEST; IMAGE_VIEWER_MANIFEST; AI_ASSISTANT_MANIFEST; BROWSER_MANIFEST].

Lemma installs_manifests : installs = map (fun m => app_catalog_install (Some m)) system_manifests.
Proof. reflexivity. Qed.

Lemma system_manifests_wf : Forall manifest_wf system_manifests.
Proof. repeat constructor; vm_compute; congruence. Qed.

Lemma system_manifests_valid : Forall (fun m => app_manifest_validate (Some m) = APP_MANIFEST_OK) system_manifests.
Proof. repeat constructor; vm_compute; reflexivity. Qed.

Lemma system_manifests_names :
  NoDup (map (fun m => cstr (id m)) system_manifests) /\ NoDup (map (fun m => cstr (executable m)) system_manifests).
Proof. split; by apply (bool_decide_unpack _); vm_compute. Qed.

(** The arrays have their size. *)
Definition arrays_ok (c : catalog) : Prop :=
  length (g_catalog c) = APP_CATALOG_CAPACITY /\ length (g_registry (app_registry c)) = APP_REGISTRY_CAPACITY.

Lemma catalog_reset_inv c : arrays_ok c -> catalog_inv (app_catalog_reset c) /\ installed (app_catalog_reset c) = [].
Proof.
  intros [H1 H2]. split; [|done]. constructor; [|cbn; lia| |done|done].
  - unfold app_catalog_reset. cbn [g_catalog]. by rewrite length_map.
  - split; [|split; [cbn; lia|split; [done|split; [done|split; constructor]]]]. unfold app_catalog_reset, app_registry_reset. cbn. by rewrite length_map.
Qed.

Lemma catalog_arrays c : catalog_inv c -> arrays_ok c.
Proof. intros [H1 _ (H2 & _) _ _]. done. Qed.

(** The bytes between the symbols. *)
Definition image_ok (e : embedded_image) : Prop :=
  bytes_ok (image_bytes e) /\ image_end e - image_start e <= SIZE_MAX /\
  (image_start e < image_end e -> Z.of_nat (length (image_bytes e)) = image_end e - image_start e).

(** The image passes inspection. *)
Definition sound_image (e : embedded_image) : Prop :=
  image_bytes e <> [] /\ exists plan, elf64_inspect (Some (image_bytes e)) (Z.of_nat (length (image_bytes e))) false = Some (inr plan).

Lemma install_each_spec ms : forall es c,
  catalog_inv c -> length ms = length es -> Forall manifest_wf ms -> Forall (fun m => app_manifest_validate (Some m) = APP_MANIFEST_OK) ms ->
  NoDup (map (fun m => cstr (id m)) (map manifest (installed c) ++ ms)) -> NoDup (map (fun m => cstr (executable m)) (map manifest (installed c) ++ ms)) ->
  (length (installed c) + length ms <= APP_CATALOG_CAPACITY)%nat -> Forall (fun e => bytes_ok (image_bytes e) /\ image_bytes e <> []) es ->
  exists r c', install_each (zip (map (fun m => app_catalog_install (Some m)) ms) (zip es (map (fun e => Z.of_nat (length (image_bytes e))) es))) c = Some (r, c') /\
    catalog_inv c' /\ (r = APP_CATALOG_OK <-> Forall sound_image es) /\
    (r = APP_CATALOG_OK -> map manifest (installed c') = map manifest (installed c) ++ ms /\
       map image (installed c') = map image (installed c) ++ map (fun e => Some (image_bytes e)) es).
Proof.
  induction ms as [|m ms IH]; intros [|e es] c Hc Hl Hw Hv Hid Hex Hcap Hes; try done.
  { exists APP_CATALOG_OK, c. split; [done|]. split; [done|]. split; [done|]. intros _. by rewrite !app_nil_r. }
  apply Forall_cons in Hw as [Wm Hw]. apply Forall_cons in Hv as [Vm Hv]. apply Forall_cons in Hes as [[Hb Hne] Hes].
  cbn [map zip zip_with install_each]. destruct (install_spec c m (image_bytes e) Hc Wm Hb) as (r & index & c1 & -> & Hok & Hno & Hwhy). rewrite some_bind.
  destruct (bool_decide_reflect (r = APP_CATALOG_OK)) as [->|Hr].
  - destruct (Hok eq_refl) as (plan & Ha & _ & ->). pose proof (with_entry_inv c m (image_bytes e) plan Hc Wm Hb Ha) as Hc1.
    pose proof Ha as (_ & _ & Hlt & Hi & _). set (x := CatalogEntry _ _ _ _) in *. pose proof (with_entry_installed c x Hc Hlt) as Ei.
    destruct (IH es (with_entry c x)) as (r & c' & -> & Hc' & Hr & Hlist); [done|cbn in Hl; lia|done|done| | | |done|].
    1, 2: rewrite Ei, (map_app manifest), <- app_assoc; done.
    { rewrite Ei, length_app. cbn [length] in *. lia. }
    exists r, c'. split; [done|]. split; [done|]. split; [rewrite Hr, Forall_cons; unfold sound_image at 2; split; [intros ?; split; [split; [done|by exists plan]|done]|tauto]|].
    intros Er. destruct (Hlist Er) as [E1 E2]. by rewrite E1, E2, Ei, !map_app, <- !app_assoc.
  - exists r, c1. destruct (Hno Hr) as (Hna & _ & ->). split; [done|]. split; [done|]. split; [|done]. split; [done|].
    intros [[_ [plan Hi]] _]%Forall_cons. exfalso. rewrite !map_app, !map_cons in Hid, Hex.
    assert (Hnew : forall f : app_manifest -> list Z, NoDup (map f (map manifest (installed c)) ++ f m :: map f ms) -> f m ∉ map (fun e => f (manifest e)) (installed c)).
    { intros f (_ & Hd & _)%NoDup_app Hin. apply (Hd (f m)); [by rewrite map_map|by left]. }
    apply (Hna plan). split; [by apply validate_ok|]. split; [done|]. rewrite (installed_length c Hc) in Hcap. cbn [length] in Hcap. split; [lia|].
    split; [done|]. split; [by apply (Hnew (fun m => cstr (id m)))|by apply (Hnew (fun m => cstr (executable m)))].
Qed.

Lemma embedded_sizes l : Forall image_ok l ->
  mapM embedded_size l = if bool_decide (Forall (fun e => image_start e < image_end e) l) then Some (map (fun e => Z.of_nat (length (image_bytes e))) l) else None.
Proof.
  induction 1 as [|e l (_ & Hsz & Hlen) Hl IH]; [done|].
  change (mapM embedded_size (e :: l)) with (y ← embedded_size e; k ← mapM embedded_size l; mret (y :: k) : option (list Z)). rewrite IH.
  unfold embedded_size. destruct (Z.leb_spec (image_end e) (image_start e)) as [Hle|Hlt].
  - cbn [orb]. rewrite (bool_decide_false (Forall _ (e :: l))); [done|]. intros [? _]%Forall_cons. lia.
  - rewrite (proj2 (Z.ltb_ge _ _)) by done. cbn [orb]. rewrite some_bind. case_bool_decide as Hf.
    + rewrite bool_decide_true by (by constructor). cbn [map]. rewrite (Hlen Hlt). done.
    + rewrite bool_decide_false; [done|]. by intros [_ ?]%Forall_cons.
Qed.

Lemma initialize_spec e c :
  arrays_ok c -> Forall image_ok (images e) ->
  exists r c', app_catalog_initialize_embedded e c = Some (r, c') /\ catalog_inv c' /\
    (r = APP_CATALOG_OK <-> Forall (fun i => image_start i < image_end i /\ sound_image i) (images e)) /\
    (r = APP_CATALOG_OK -> map manifest (installed c') = system_manifests /\ map image (installed c') = map (fun i => Some (image_bytes i)) (images e)) /\
    (r <> APP_CATALOG_OK -> installed c' = []).
Proof.
  intros Ha Himg. destruct (catalog_reset_inv c Ha) as [Hc0 E0]. unfold app_catalog_initialize_embedded. rewrite (embedded_sizes _ Himg). case_bool_decide as Hf.
  - destruct system_manifests_names as [Ni Ne].
    destruct (install_each_spec system_manifests (images e) (app_catalog_reset c)) as (r & c' & E & Hc' & Hr & Hlist).
    { done. } { done. } { apply system_manifests_wf. } { apply system_manifests_valid. } { by rewrite E0. } { by rewrite E0. }
    { rewrite E0. by vm_compute; lia. }
    { apply Forall_forall. intros i Hi. rewrite Forall_forall in Himg, Hf. destruct (Himg i Hi) as (Hb & _ & Hlen). split; [done|].
      specialize (Hf i Hi). specialize (Hlen Hf). intros En. rewrite En in Hlen. cbn in Hlen. lia. }
    rewrite installs_manifests, E, some_bind. eexists r, _. split; [done|].
    assert (Hiff : Forall sound_image (images e) <-> Forall (fun i => image_start i < image_end i /\ sound_image i) (images e)).
    { rewrite Forall_and. tauto. }
    destruct (bool_decide_reflect (r = APP_CATALOG_OK)) as [->|Hne]; cbn [negb].
    + split; [done|]. split; [by rewrite <- Hiff|]. split; [|done]. intros _. destruct (Hlist eq_refl) as [-> ->]. by rewrite E0.
    + destruct (catalog_reset_inv c' (catalog_arrays _ Hc')) as [Hc2 E2]. split; [done|]. split; [by rewrite Hr|]. done.
  - eexists _, _. split; [done|]. split; [done|]. split; [|done]. split; [done|]. intros [? _]%Forall_and. done.
Qed.
