(* ===== verification/AppRuntime.v ===== *)
(** * kernel/app_runtime.c: launching an application

    A launch runs on the machine of the scheduler: it creates an address space, maps and loads the image and a
    stack, enters the process in the table and gives the space to a new user task.  What it changes of the
    application services, the permission of a new process to take the focus, is in [runtime] beside the
    machine. *)

From stdpp Require Import gmap.
From S2P Require Import Prelude CString Heap Allocator Elf Manifest AppCatalog AppProcess Paging PagingKernel Scheduler.

Definition PAGING_PAGE_SIZE : Z := PAGE_SIZE.
Definition APP_USER_STACK_SIZE : Z := 16 * PAGING_PAGE_SIZE.
Definition APP_USER_STACK_TOP : Z := PAGING_USER_LIMIT - PAGING_PAGE_SIZE.
Definition APP_RUN_DISPATCH_BUDGET : nat := 8.

Inductive app_runtime_launch_result :=
| APP_RUNTIME_LAUNCH_OK
| APP_RUNTIME_LAUNCH_INVALID_ARGUMENT
| APP_RUNTIME_LAUNCH_INVALID_IMAGE
| APP_RUNTIME_LAUNCH_OUT_OF_MEMORY
| APP_RUNTIME_LAUNCH_MAPPING_FAILED
| APP_RUNTIME_LAUNCH_PROCESS_TABLE_FAILED
| APP_RUNTIME_LAUNCH_SCHEDULER_FAILED
| APP_RUNTIME_LAUNCH_NOT_FOUND
| APP_RUNTIME_LAUNCH_APP_FAULTED
| APP_RUNTIME_LAUNCH_APP_EXITED_ERROR
| APP_RUNTIME_LAUNCH_DISPATCH_BUDGET
| APP_RUNTIME_LAUNCH_NX_REQUIRED.

(** ** Pages and plans *)

Definition align_down_page (value : Z) : Z := Z.ldiff value (PAGING_PAGE_SIZE - 1).

Definition align_up_page (value : Z) : option Z :=
  if UINT64_MAX - (PAGING_PAGE_SIZE - 1) <? value then None
  else Some (Z.ldiff (value + PAGING_PAGE_SIZE - 1) (PAGING_PAGE_SIZE - 1)).

Definition ranges_overlap (first_start first_end second_start second_end : Z) : bool :=
  (first_start <? second_end) && (second_start <? first_end).

Definition segments_equal (a b : elf64_load_segment) : bool :=
  (virtual_address a =? virtual_address b) && (memory_size a =? memory_size b) && (file_size a =? file_size b) &&
  (file_offset a =? file_offset b) && (alignment a =? alignment b) && (flags a =? flags b).

(** [segment_count] is the length of the list of segments. *)
Definition plans_equal (first second : elf64_image_plan) : bool :=
  (entry_point first =? entry_point second) && (virtual_base first =? virtual_base second) &&
  (virtual_end first =? virtual_end second) && (image_span first =? image_span second) &&
  (length (segments first) =? length (segments second))%nat &&
  forallb (fun ab => segments_equal ab.1 ab.2) (zip (segments first) (segments second)).

Definition segment_used (page : Z) (segment : elf64_load_segment) : bool :=
  ranges_overlap page (u64 (page + PAGING_PAGE_SIZE)) (virtual_address segment) (u64 (virtual_address segment + memory_size segment)).

(** Used, writable, executable; [None]: writable and executable. *)
Definition page_permissions (plan : elf64_image_plan) (page : Z) : option (bool * bool * bool) :=
  let used := List.filter (segment_used page) (segments plan) in
  let writable := existsb (fun g => has (flags g) ELF64_SEGMENT_WRITE) used in
  let executable := existsb (fun g => has (flags g) ELF64_SEGMENT_EXECUTE) used in
  if writable && executable then None else Some (negb (length used =? 0)%nat, writable, executable).

Definition resolve_launch_image (entry : app_catalog_entry) : option (option (list Z * elf64_image_plan)) :=
  match image entry with
  | None => Some None
  | Some bytes =>
      if image_size entry =? 0 then Some None
      else
        inspected ← elf64_inspect (Some bytes) (image_size entry) false;
        Some (match inspected with
              | inl _ => None
              | inr plan => if negb (plans_equal plan (image_plan entry)) then None else Some (bytes, plan)
              end)
  end.

(** [char task_name[TASK_NAME_MAX] = "app/"], then the id as far as it fits. *)
Definition app_task_name (m : app_manifest) : list Z :=
  let name := cs "app/" ++ take (TASK_NAME_MAX - 5) (cstr (Manifest.id m)) in name ++ zeros (Z.of_nat (TASK_NAME_MAX - length name)).

Section Runtime.
Context {A : Type} `{Allocator A} (addresses : table_addresses) (symbols : symbols).

Abbreviation SM := (KM (scheduler A)).

(** ** Calls on the space behind a pointer *)

Definition create_space : SM Z := fun s =>
  '(space, k) ← paging_address_space_create addresses (kernel s);
  Some (match space with
        | None => (Done NULL, set_kernel k s)
        | Some space => (Done (self space), set_spaces (<[self space := space]> (spaces s)) (set_kernel k s))
        end).

Definition map_user (p address size : Z) (writable executable : bool) : SM bool := fun s =>
  space ← space_at p s;
  '(ok, space, k) ← paging_user_map_anonymous space address size writable executable (kernel s);
  Some (Done ok, set_spaces (match space with None => spaces s | Some space => <[p := space]> (spaces s) end) (set_kernel k s)).

Definition initialize_user (p address : Z) (bytes : list Z) (count : Z) : SM bool := fun s =>
  space ← space_at p s;
  '(ok, k) ← paging_initialize_user_memory space address (Some bytes) count (kernel s);
  Some (Done ok, set_kernel k s).

(** ** The image *)

(** The loop over the pages of the image. *)
Fixpoint map_image_pages (fuel : nat) (p : Z) (plan : elf64_image_plan) (page final_page : Z) : SM bool :=
  match fuel with
  | O => klift None
  | S fuel =>
      if negb (page <? final_page) then mret true
      else
        match page_permissions plan page return SM bool with
        | None => mret false
        | Some (used, writable, executable) =>
            mapped ← (if used : bool then map_user p page PAGING_PAGE_SIZE writable executable else mret true);
            if negb mapped then mret false else map_image_pages fuel p plan (page + PAGING_PAGE_SIZE) final_page
        end
  end.

(** The loop over the segments. *)
Fixpoint load_segments (p : Z) (bytes : list Z) (segments : list elf64_load_segment) : SM bool :=
  match segments with
  | [] => mret true
  | segment :: segments =>
      if file_size segment =? 0 then load_segments p bytes segments
      else
        loaded ← initialize_user p (virtual_address segment) (drop (Z.to_nat (file_offset segment)) bytes) (file_size segment);
        if negb loaded then mret false else load_segments p bytes segments
  end.

Definition map_and_load_image (p : Z) (bytes : list Z) (plan : elf64_image_plan) : SM bool :=
  let first_page := align_down_page (virtual_base plan) in
  match align_up_page (virtual_end plan) return SM bool with
  | None => mret false
  | Some final_page =>
      let stack_start := APP_USER_STACK_TOP - APP_USER_STACK_SIZE in
      if (first_page <? PAGING_USER_BASE) || (PAGING_USER_LIMIT <? final_page) || (final_page <=? first_page) ||
         ranges_overlap first_page final_page stack_start APP_USER_STACK_TOP
      then mret false
      else
        mapped ← map_image_pages (S (Z.to_nat ((final_page - first_page) / PAGING_PAGE_SIZE))) p plan first_page final_page;
        if negb mapped then mret false
        else
          loaded ← load_segments p bytes (segments plan);
          if negb loaded then mret false else map_user p stack_start APP_USER_STACK_SIZE true false
  end.

(** ** Launching *)

(** [(void)f(process)]: the result is not used. *)
Definition void (f : process_table -> app_process_result * process_table) : SM unit :=
  on_processes f;; mret tt.

(** The space and the process are given back. *)
Definition abandon (p process : Z) (result : app_runtime_launch_result) : SM (app_runtime_launch_result * option Z) :=
  destroy_space addresses p;;
  void (app_process_release process);;
  mret (result, None).

(** [app_runtime_spawn_with_argument] from the tracking of the process to its task; [space] holds the
    application. *)
Definition start_process (entry : app_catalog_entry) (argument : option (list Z)) (space : Z) (plan : elf64_image_plan)
    : SM (app_runtime_launch_result * option Z) :=
  tracked ← on_processes (fun t =>
    let '(r, id, t) := app_process_track_loaded (Some (manifest entry)) (Some plan) true t in ((r, id), t));
  match tracked return SM (app_runtime_launch_result * option Z) with
  | (APP_PROCESS_OK, Some process) =>
      argued ← on_processes (app_process_set_startup_argument process argument);
      if negb (bool_decide (argued = APP_PROCESS_OK)) then abandon space process APP_RUNTIME_LAUNCH_INVALID_ARGUMENT
      else
        started ← on_processes (app_process_mark_starting process);
        if negb (bool_decide (started = APP_PROCESS_OK)) then abandon space process APP_RUNTIME_LAUNCH_PROCESS_TABLE_FAILED
        else
          spawned ← scheduler_spawn_user_process symbols (Some (app_task_name (manifest entry))) space
            (entry_point plan) APP_USER_STACK_TOP process (capabilities (manifest entry));
          if negb spawned then
            void (app_process_mark_exited process (-1));;
            abandon space process APP_RUNTIME_LAUNCH_SCHEDULER_FAILED
          else mret (APP_RUNTIME_LAUNCH_OK, Some process)
  | _ => destroy_space addresses space;; mret (APP_RUNTIME_LAUNCH_PROCESS_TABLE_FAILED, None)
  end.

(** [app_runtime_spawn_with_argument] up to the focus; [entry] is not NULL; the id of the process is what
    [out_process_id] gets. *)
Definition launch (entry : app_catalog_entry) (argument : option (list Z)) : SM (app_runtime_launch_result * option Z) :=
  nx ← kget (fun s => paging_nx_available (kernel s));
  if negb nx then mret (APP_RUNTIME_LAUNCH_NX_REQUIRED, None)
  else
    resolved ← klift (resolve_launch_image entry);
    match resolved return SM (app_runtime_launch_result * option Z) with
    | None => mret (APP_RUNTIME_LAUNCH_INVALID_IMAGE, None)
    | Some (bytes, plan) =>
        space ← create_space;
        if space =? NULL then mret (APP_RUNTIME_LAUNCH_OUT_OF_MEMORY, None)
        else
          loaded ← map_and_load_image space bytes plan;
          if negb loaded then destroy_space addresses space;; mret (APP_RUNTIME_LAUNCH_MAPPING_FAILED, None)
          else start_process entry argument space plan
    end.

(** ** With the application services *)

Record runtime := Runtime {
  machine : scheduler A;
  g_desktop_active : bool;
  g_launch_focus_process_id : Z;
}.

Definition set_machine (s : scheduler A) (r : runtime) : runtime := Runtime s (g_desktop_active r) (g_launch_focus_process_id r).

Definition on_machine {B} (m : SM B) : KM runtime B := fun r =>
  '(b, s) ← m (machine r); Some (b, set_machine s r).

Definition app_services_authorize_launch_focus (process : Z) : KM runtime bool :=
  active ← kget g_desktop_active;
  if negb active || (process =? 0) then mret false
  else kmod (fun r => Runtime (machine r) (g_desktop_active r) process);; mret true.

Definition app_runtime_spawn_with_argument (entry : option app_catalog_entry) (argument : option (list Z))
    : KM runtime (app_runtime_launch_result * option Z) :=
  match entry with
  | None => mret (APP_RUNTIME_LAUNCH_INVALID_ARGUMENT, None)
  | Some entry =>
      '(result, process) ← on_machine (launch entry argument);
      match result, process return KM runtime (app_runtime_launch_result * option Z) with
      | APP_RUNTIME_LAUNCH_OK, Some process =>
          (if negb (Z.land (capabilities (manifest entry)) APP_CAPABILITY_WINDOW =? 0)
           then app_services_authorize_launch_focus process;; mret tt else mret tt);;
          mret (APP_RUNTIME_LAUNCH_OK, Some process)
      | _, _ => mret (result, process)
      end
  end.

Definition app_runtime_spawn (entry : option app_catalog_entry) : KM runtime (app_runtime_launch_result * option Z) :=
  app_runtime_spawn_with_argument entry None.

(** The loop that waits; [yield] is a call of [schedule] until it returns, with all that the other tasks do
    meanwhile.  [None] is the end of the loop. *)
Fixpoint dispatch (budget : nat) (yield : KM runtime unit) (process : Z) : KM runtime (option app_runtime_launch_result) :=
  match budget with
  | O => mret None
  | S budget =>
      found ← kget (fun r => app_process_find process true (processes (machine r)));
      match found return KM runtime (option app_runtime_launch_result) with
      | None => mret None
      | Some p =>
          match state p with
          | APP_PROCESS_EXITED => mret (Some (if exit_code p =? 0 then APP_RUNTIME_LAUNCH_OK else APP_RUNTIME_LAUNCH_APP_EXITED_ERROR))
          | APP_PROCESS_FAULTED => mret (Some APP_RUNTIME_LAUNCH_APP_FAULTED)
          | _ => yield;; dispatch budget yield process
          end
      end
  end.

Definition app_runtime_run_catalog_id_with_argument (yield : KM runtime unit) (c : catalog) (app_id argument : option (list Z))
    : KM runtime app_runtime_launch_result :=
  match app_catalog_find_id app_id c with
  | None => mret APP_RUNTIME_LAUNCH_NOT_FOUND
  | Some entry =>
      '(result, process) ← app_runtime_spawn_with_argument (Some entry) argument;
      match result, process return KM runtime app_runtime_launch_result with
      | APP_RUNTIME_LAUNCH_OK, Some process =>
          ended ← dispatch APP_RUN_DISPATCH_BUDGET yield process;
          match ended return KM runtime app_runtime_launch_result with
          | Some result => mret result
          | None =>
              on_machine (syslog_write (cs "Apps: process remains runnable after dispatch budget"));;
              mret APP_RUNTIME_LAUNCH_DISPATCH_BUDGET
          end
      | _, _ => mret result
      end
  end.

Definition app_runtime_run_catalog_id (yield : KM runtime unit) (c : catalog) (app_id : option (list Z))
    : KM runtime app_runtime_launch_result :=
  app_runtime_run_catalog_id_with_argument yield c app_id None.

End Runtime.

Definition app_runtime_launch_result_text (result : app_runtime_launch_result) : list Z :=
  match result with
  | APP_RUNTIME_LAUNCH_OK => cs "ok"
  | APP_RUNTIME_LAUNCH_INVALID_ARGUMENT => cs "invalid runtime launch argument"
  | APP_RUNTIME_LAUNCH_INVALID_IMAGE => cs "ELF changed after catalog validation"
  | APP_RUNTIME_LAUNCH_OUT_OF_MEMORY => cs "out of memory creating address space"
  | APP_RUNTIME_LAUNCH_MAPPING_FAILED => cs "unable to map ELF or user stack"
  | APP_RUNTIME_LAUNCH_PROCESS_TABLE_FAILED => cs "application process metadata rejected"
  | APP_RUNTIME_LAUNCH_SCHEDULER_FAILED => cs "scheduler rejected user process"
  | APP_RUNTIME_LAUNCH_NOT_FOUND => cs "application not found"
  | APP_RUNTIME_LAUNCH_APP_FAULTED => cs "application faulted and was contained"
  | APP_RUNTIME_LAUNCH_APP_EXITED_ERROR => cs "application exited with an error"
  | APP_RUNTIME_LAUNCH_DISPATCH_BUDGET => cs "application remains runnable after dispatch budget"
  | APP_RUNTIME_LAUNCH_NX_REQUIRED => cs "CPU NX support is required for isolated user apps"
  end.
