(* ===== verification/AppImage.v ===== *)
(** * kernel/app_runtime.c: the space of an application among the tasks

    The operations on an address space, new or of a task, against the invariant of the scheduler.

    Then the image and the stack in a new space. *)

From stdpp Require Import gmap.
From S2P Require Import Prelude CString FsCodec Heap Allocator Elf ElfSpec Manifest AppCatalog AppProcess Paging PagingTree PagingSpace PagingMap PagingKernel PagingGuard PagingClaims Scheduler SchedRing SchedInv SchedSpawn AppRuntime.

Section Resources.
Context {A : Type} `{AllocatorLaws A} (addresses : table_addresses) (first_byte last_byte : Z).

Abbreviation kernel_part := (kernel_part addresses first_byte last_byte).
Implicit Types (k : paging A) (w : list live) (G : gset Z) (bs : list (Z * Z)).

Lemma spaces_rep_insert m v w : spaces_rep m w -> live_self v ∉ live_self <$> w -> spaces_rep (<[live_self v := live_space v]> m) (v :: w).
Proof.
  intros [Hnd Hm] Hni. split; [by constructor|]. intros p space. rewrite lookup_insert_Some, Hm. split.
  - intros [[<- <-]|[Hne (u & Hu & E1 & E2)]]; [exists v; split; [by left|done]|exists u; split; [by right|done]].
  - intros (u & [->|Hu]%elem_of_cons & E1 & E2); [by left|]. right. split; [|by exists u].
    intros E3. apply Hni. rewrite E3, <- E2. by apply list_elem_of_fmap_2.
Qed.

(** The space at the head is replaced by one with the same address. *)
Lemma spaces_rep_replace m v v' w : spaces_rep m (v :: w) -> live_self v' = live_self v -> spaces_rep (<[live_self v := live_space v']> m) (v' :: w).
Proof.
  intros Hm E. rewrite <- (insert_delete_eq m), <- E. apply spaces_rep_insert; [rewrite E; by apply spaces_rep_delete|].
  destruct Hm as [[Hni _]%NoDup_cons _]. by rewrite E.
Qed.

Lemma world_self_fresh k v w bs : world_ok k (v :: w) bs -> live_self v ∉ live_self <$> w.
Proof.
  intros ((b & Hc & Ho) & _) (u & E & Hu)%list_elem_of_fmap. inversion Hc as [|? ? b1 bs1 _ Hc1]; subst.
  apply list_elem_of_split in Hu as (l1 & l2 & ->).
  destruct (world_claims_perm _ (u :: l1 ++ l2) _ Hc1) as (bs2 & Hc2 & Hp2); [symmetry; apply Permutation_middle|].
  inversion Hc2 as [|? ? b3 bs3 _ _]; subst. apply (owns_perm _ _ (live_block v :: live_block u :: b3 ++ bs3 ++ b1 ++ bs)) in Ho.
  - pose proof (owns_disjoint _ _ _ _ _ _ Ho). pose proof (owns_range _ _ _ _ Ho).
    apply (owns_perm _ _ (live_block u :: live_block v :: b3 ++ bs3 ++ b1 ++ bs)), owns_range in Ho; [|apply perm_swap].
    unfold live_block, live_self in *. cbn [fst snd] in *. lia.
  - cbn [app]. rewrite Hp2. solve_Permutation.
Qed.

(** A new space: none, or an empty one behind a new pointer. *)
Lemma kernel_part_create k m w G bs :
  kernel_part k m w G bs ->
  exists space k', paging_address_space_create addresses k = Some (space, k') /\ cr3 k' = cr3 k /\ g_nx_enabled k' = g_nx_enabled k /\
    match space with
    | None => kernel_part k' m w G bs
    | Some space => exists z, self space <> NULL /\ self space ∉ live_self <$> w /\
        kernel_part k' (<[self space := space]> m) ((space, empty_tree (pml4 space), z) :: w) G bs
    end.
Proof.
  intros (Hw & Hk & Hs). destruct (world_create addresses k w bs Hw) as (space & k' & E & _ & Et & Hsp). pose proof Hw as ((b & _ & Ho) & _ & H4).
  destruct (paging_address_space_create_spec addresses k (b ++ bs) Ho H4) as (space2 & k2 & E2 & (_ & _ & Er & En & Ec) & _).
  rewrite E in E2. injection E2 as <- <-. exists space, k'. split; [done|]. split; [done|]. split; [done|].
  assert (Hk' : kernel_ok addresses k' G first_byte last_byte) by (by apply (kernel_ok_change addresses first_byte last_byte k)).
  destruct space as [space|]; [|done]. destruct Hsp as (z & Hw'). exists z. pose proof (world_self_fresh _ _ _ _ Hw') as Hni. split.
  - pose proof Hw' as ((b' & Hc & Ho') & _). inversion Hc as [|? ? b1 b2 _ _]; subst. apply owns_range in Ho'. unfold live_block, live_space, NULL in *.
    cbn [fst snd] in *. lia.
  - split; [exact Hni|]. split; [done|]. split; [done|]. by apply (spaces_rep_insert m (space, empty_tree (pml4 space), z) w).
Qed.

(** An operation of one space. *)
Lemma kernel_part_space k m v w G bs :
  kernel_part k m (v :: w) G bs ->
  exists others, space_ok k (live_space v) (live_tree v) others /\
    forall k' space' nodes', space_step others k (live_space v) k' space' nodes' ->
      kernel_part k' (<[live_self v := space']> m) ((space', nodes', v.2) :: w) G bs /\ cr3 k' = cr3 k /\ g_nx_enabled k' = g_nx_enabled k /\
      self space' = live_self v /\ pml4 space' = pml4 (live_space v).
Proof.
  intros (Hw & Hk & Hs). pose proof Hw as (others & Hc & Hl & H4 & Hsp)%world_focus.
  exists (live_block v :: others ++ bs). split; [done|]. intros k' space' nodes' Hst.
  destruct (world_step k k' (live_space v) space' (live_tree v) nodes' v.2 w others bs Hc Hl H4 Hst) as [Hw' _].
  destruct Hst as ((_ & Et & Er & En & Ec) & [Es E4] & _). split; [|done]. split; [done|]. split; [by apply (kernel_ok_change addresses first_byte last_byte k)|].
  apply (spaces_rep_replace m v (space', nodes', v.2) w); done.
Qed.

Lemma kernel_part_lookup k m v w G bs : kernel_part k m (v :: w) G bs -> m !! live_self v = Some (live_space v) /\ live_self v <> NULL.
Proof.
  intros Hk. pose proof Hk as ((( b & Hc & Ho) & _) & _ & [_ Hm]). split; [apply Hm; exists v; split; [by left|done]|].
  inversion Hc as [|? ? b1 b2 _ _]; subst. apply owns_range in Ho. unfold live_block, live_self, NULL in *. cbn [fst snd] in *. lia.
Qed.

End Resources.

(** ** A space that no task has *)

Section Space.
Context {A : Type} `{AllocatorLaws A} (addresses : table_addresses) (symbols : symbols) (first_byte last_byte : Z).
Context (rest : list (Z * Z)).

Abbreviation sched_inv := (sched_inv addresses symbols first_byte last_byte).
Abbreviation kernel_part := (kernel_part addresses first_byte last_byte).
Implicit Types (s : scheduler A) (l : ring) (w : list live).

(** No user task runs in the space at [p]. *)
Definition unused_by l (p : Z) : Prop := forall y, y ∈ l -> is_user y.2 = true -> address_space y.2 <> p.

(** [s'] is [s] but for the kernel's memory and the structs of the spaces. *)
Definition only_spaces s s' : Prop := s' = set_spaces (spaces s') (set_kernel (kernel s') s).

Lemma only_spaces_refl s : only_spaces s s.
Proof. by destruct s. Qed.

Lemma only_spaces_trans s1 s2 s3 : only_spaces s1 s2 -> only_spaces s2 s3 -> only_spaces s1 s3.
Proof. unfold only_spaces. intros -> ->. done. Qed.

(** The invariant depends on the spaces of the user tasks only, and on their addresses and roots. *)
Lemma inv_spaces s l w :
  sched_inv s l w rest -> exists G bs, kernel_part (kernel s) (spaces s) w G bs /\
    forall k m w', kernel_part k m w' G bs -> cr3 k = cr3 (kernel s) ->
      (forall v y, v ∈ w -> y ∈ l -> is_user y.2 = true -> address_space y.2 = live_self v ->
         exists v', v' ∈ w' /\ live_self v' = live_self v /\ pml4 (live_space v') = pml4 (live_space v)) ->
      sched_inv (set_spaces m (set_kernel k s)) l w' rest.
Proof.
  intros [Hr (bss & Hb & [Hoks Hap Hk Hpid Hact])]. exists (guards symbols l), (concat bss ++ rest). split; [done|].
  intros k m w' Hk' Ec Hkeep. split; [done|]. exists bss. split; [done|]. constructor; sched_simpl; [|done|done|done|].
  - apply Forall_forall. intros x Hx. pose proof (proj1 (Forall_forall _ _) Hoks x Hx) as [T1 T2 T3 T4 T5]. constructor; try done.
    unfold space_ref in *. destruct (is_user x.2) eqn:Eu; [|done]. apply list_elem_of_fmap in T4 as (v & E & Hv).
    destruct (Hkeep v x Hv Hx Eu E) as (v' & Hv' & E2 & _). rewrite E, <- E2. by apply list_elem_of_fmap_2.
  - destruct Hact as (t & Ht & Hact). exists t. split; [done|]. destruct (is_user t) eqn:Eu; sched_simpl; rewrite Ec; [|done].
    destruct Hact as (v & Hv & E1 & E2). destruct (Hkeep v _ Hv Ht Eu (eq_sym E1)) as (v' & Hv' & E3 & E4). exists v'. split; [done|]. split; congruence.
Qed.

(** The pointers of the user tasks are those of live spaces. *)
Lemma unused_fresh s l w p : sched_inv s l w rest -> p ∉ live_self <$> w -> unused_by l p.
Proof.
  intros [_ (bss & _ & [Hoks _ _ _ _])] Hp y Hy Hu <-. apply Hp. pose proof (proj1 (Forall_forall _ _) Hoks y Hy) as [_ _ _ T4 _].
  unfold space_ref in T4. by rewrite Hu in T4.
Qed.

(** The page and the byte that the space [v] has at an address. *)
Definition page_in s (v : live) (q : Z) : option (list Z * Z) := user_page (frames (kernel s)) (live_tree v) q.
Definition byte_in s (v : live) (a : Z) : option Z := user_byte (frames (kernel s)) (live_tree v) a.

Lemma kwp_create_space s l w (Q : Z -> scheduler A -> Prop) R :
  sched_inv s l w rest ->
  (forall s', sched_inv s' l w rest -> only_spaces s s' -> g_nx_enabled (kernel s') = g_nx_enabled (kernel s) -> Q NULL s') ->
  (forall s' v, sched_inv s' l (v :: w) rest -> only_spaces s s' -> g_nx_enabled (kernel s') = g_nx_enabled (kernel s) ->
     unused_by l (live_self v) -> live_self v <> NULL -> live_tree v = empty_tree (pml4 (live_space v)) -> Q (live_self v) s') ->
  kwp (create_space addresses) Q R s.
Proof.
  intros Hinv Hno Hyes. destruct (inv_spaces _ _ _ Hinv) as (G & bs & Hk & Hstep).
  destruct (kernel_part_create addresses first_byte last_byte _ _ _ _ _ Hk) as (space & k & E & Ec & En & Hsp).
  unfold kwp, create_space. rewrite E, some_bind. destruct space as [space|].
  - destruct Hsp as (z & Hn & Hni & Hk'). apply (Hyes _ (space, empty_tree (pml4 space), z)); [|done|done| |done|done].
    + apply (Hstep k _ _ Hk' Ec). intros v y Hv _ _ _. exists v. split; [by right|done].
    + by apply (unused_fresh s l w).
  - apply (Hno (set_kernel k s)); [|done|done]. apply (Hstep k (spaces s) w Hsp Ec). intros v y Hv _ _ _. by exists v.
Qed.

(** An operation on the space at the head. *)
Lemma inv_space_step s l v w :
  sched_inv s l (v :: w) rest ->
  exists others, space_ok (kernel s) (live_space v) (live_tree v) others /\ spaces s !! live_self v = Some (live_space v) /\ live_self v <> NULL /\
    forall k space' nodes', space_step others (kernel s) (live_space v) k space' nodes' ->
      sched_inv (set_spaces (<[live_self v := space']> (spaces s)) (set_kernel k s)) l ((space', nodes', v.2) :: w) rest /\
      g_nx_enabled k = g_nx_enabled (kernel s) /\ self space' = live_self v /\ pml4 space' = pml4 (live_space v).
Proof.
  intros Hinv. destruct (inv_spaces _ _ _ Hinv) as (G & bs & Hk & Hstep).
  destruct (kernel_part_space addresses first_byte last_byte _ _ _ _ _ _ Hk) as (others & Hsp & Hop).
  destruct (kernel_part_lookup _ _ _ _ _ _ _ _ _ Hk) as [Hm Hn].
  exists others. split; [done|]. split; [done|]. split; [done|]. intros k space' nodes' Hst. destruct (Hop _ _ _ Hst) as (Hk' & Ec & En & Es & E4).
  split; [|done]. apply (Hstep k _ _ Hk' Ec). intros u y [->|Hu]%elem_of_cons _ _ _; [exists (space', nodes', v.2); split; [by left|done]|].
  exists u. split; [by right|done].
Qed.

(** The same space after an operation. *)
Record space_after s s' l v v' w : Prop := {
  sf_inv : sched_inv s' l (v' :: w) rest;
  sf_only : only_spaces s s';
  sf_self : live_self v' = live_self v;
  sf_root : pml4 (live_space v') = pml4 (live_space v);
  sf_nx : g_nx_enabled (kernel s') = g_nx_enabled (kernel s);
}.

Lemma space_after_refl s l v w : sched_inv s l (v :: w) rest -> space_after s s l v v w.
Proof. intros Hinv. constructor; [done|apply only_spaces_refl|done..]. Qed.

Lemma space_after_trans s1 s2 s3 l v1 v2 v3 w : space_after s1 s2 l v1 v2 w -> space_after s2 s3 l v2 v3 w -> space_after s1 s3 l v1 v3 w.
Proof. intros [_ O1 E1 F1 G1] [I2 O2 E2 F2 G2]. constructor; [done|by eapply only_spaces_trans|congruence..]. Qed.

Lemma space_at_head s l v w : sched_inv s l (v :: w) rest -> space_at (live_self v) s = Some (Some (live_space v)).
Proof.
  intros Hinv. destruct (inv_spaces _ _ _ Hinv) as (G & bs & Hk & _). destruct (kernel_part_lookup _ _ _ _ _ _ _ _ _ Hk) as [Hm Hn].
  unfold space_at. by rewrite (proj2 (Z.eqb_neq _ _) Hn), Hm.
Qed.

Lemma kwp_map_user s l v w address size wr ex (Q : bool -> scheduler A -> Prop) R :
  sched_inv s l (v :: w) rest -> 0 <= address -> 0 <= size ->
  (forall ok s' v', space_after s s' l v v' w ->
     (if (ok : bool)
      then page_range_ok address size = true /\ forall q, page_in s' v' q =
        if decide (address / 4096 <= q < (address + size) / 4096)
        then Some (zeros PAGE_SIZE, frame_flags wr ex (g_nx_enabled (kernel s))) else page_in s v q
      else forall q, page_in s' v' q = page_in s v q) -> Q ok s') ->
  kwp (map_user (live_self v) address size wr ex) Q R s.
Proof.
  intros Hinv Ha Hn HQ. destruct (inv_space_step _ _ _ _ Hinv) as (others & Hsp & Hm & Hn0 & Hstep).
  destruct (map_anonymous_spec (kernel s) (live_space v) (live_tree v) others address size wr ex Hsp Ha Hn) as (ok & sp & k & n' & E & Hst & Hres).
  destruct (Hstep _ _ _ Hst) as (Hinv' & En & Es & E4). unfold kwp, map_user. rewrite (space_at_head _ _ _ _ Hinv), some_bind.
  unfold paging_user_map_anonymous, on_space. rewrite E, !some_bind. apply (HQ ok _ (sp, n', v.2)); [by constructor|].
  destruct ok; [|exact Hres]. destruct Hres as (Hr & _ & Hu). split; [done|]. intros q. unfold page_in. cbn [live_tree fst snd].
  apply page_range_spec in Hr as (_ & _ & Hsz & _); [|done|done]. rewrite prefix_page in Hu. rewrite (range_end address size) by done. apply Hu.
Qed.

Lemma kwp_initialize_user s l v w address bytes count (Q : bool -> scheduler A -> Prop) R :
  sched_inv s l (v :: w) rest -> 0 <= address -> 0 < count <= Z.of_nat (length bytes) -> bytes_ok bytes ->
  (forall ok s', space_after s s' l v v w ->
     (ok = true <-> range_accessible (live_tree v) false address count) ->
     (if (ok : bool) then bytes_update (byte_in s v) address (take (Z.to_nat count) bytes) (byte_in s' v)
      else frames (kernel s') = frames (kernel s)) -> Q ok s') ->
  kwp (initialize_user (live_self v) address bytes count) Q R s.
Proof.
  intros Hinv Ha Hn Hb HQ. destruct (inv_space_step _ _ _ _ Hinv) as (others & Hsp & Hm & Hn0 & Hstep).
  destruct (copy_to_user_internal_spec (kernel s) (live_space v) (live_tree v) others address bytes count false Hsp Ha Hn Hb) as (ok & k & E & Hok & Hres).
  unfold kwp, initialize_user. rewrite (space_at_head _ _ _ _ Hinv), some_bind. unfold paging_initialize_user_memory. rewrite E, some_bind.
  assert (Hinv' : space_step others (kernel s) (live_space v) k (live_space v) (live_tree v)) by (destruct ok; [by destruct Hres|subst k; done]).
  destruct (Hstep _ _ _ Hinv') as (Hi & En & _). rewrite insert_id in Hi by done. destruct v as [[sp t] z]. apply (HQ ok); [|done|].
  - constructor; [exact Hi|done|done|done|done].
  - destruct ok; [by destruct Hres|by subst k].
Qed.

(** The space is destroyed. *)
Lemma kwp_destroy_new s l v w (Q : unit -> scheduler A -> Prop) R :
  sched_inv s l (v :: w) rest -> unused_by l (live_self v) ->
  (forall s', sched_inv s' l w rest -> only_spaces s s' -> Q tt s') -> kwp (destroy_space addresses (live_self v)) Q R s.
Proof.
  intros Hinv Hun HQ. destruct (inv_spaces _ _ _ Hinv) as (G & bs & Hk & Hstep). unfold destroy_space. apply kwp_bind, kwp_get.
  apply kwp_bind, (kwp_lift _ (Some (live_space v))); [by apply (space_at_head s l v w)|].
  destruct (kernel_part_destroy addresses first_byte last_byte _ _ _ _ _ _ Hk) as (k & E & Hk' & Hc).
  apply kwp_bind. unfold kwp at 1, on_paging. rewrite E, some_bind. ksteps. apply HQ; [|done].
  apply (Hstep k _ w Hk').
  - apply Hc. pose proof Hinv as [_ (bss & _ & [_ _ _ _ (t & Ht & Hact)])]. destruct (is_user t) eqn:Eu; [|by left]. right.
    destruct Hact as (u & [->|Hu]%elem_of_cons & E1 & E2); [|by exists u]. by destruct (Hun _ Ht Eu).
  - intros u y [->|Hu]%elem_of_cons Hy Hus Ey; [by destruct (Hun y Hy Hus)|by exists u].
Qed.

End Space.

(** * kernel/app_runtime.c: the image and the stack in the new space

    What [map_and_load_image] makes of an empty space: the pages of the segments with their rights, the file's
    bytes in them and zeros behind, the stack, and nothing else. *)

(** ** Rights *)

(** A segment of the plan has an address in the page. *)
Definition touches (q : Z) (g : elf64_load_segment) : Prop := exists a, seg_addr g a /\ a / 4096 = q.

Lemma segment_used_spec n q g : seg_wf n g -> 0 <= q < 2 ^ 40 -> segment_used (q * 4096) g = true <-> touches q g.
Proof.
  intros (_ & _ & _ & H1 & H2 & H3 & _) Hq. unfold segment_used, ranges_overlap, PAGING_PAGE_SIZE, PAGE_SIZE, touches, seg_addr.
  unfold ELF64_LOADER_MIN_USER_VADDR, ELF64_LOADER_MAX_USER_VADDR in *. change 0x1000 with 4096.
  rewrite !u64_small by (unfold u64_ok; lia). rewrite andb_true_iff, !Z.ltb_lt. split.
  - intros [Ha Hb]. exists (Z.max (q * 4096) (virtual_address g)). split; [lia|]. symmetry. apply (Z.div_unique _ 4096 _ (Z.max (q * 4096) (virtual_address g) - 4096 * q)); lia.
  - intros (a & Ha & <-). pose proof (Z.div_mod a 4096 ltac:(lia)). pose proof (Z.mod_pos_bound a 4096 ltac:(lia)). lia.
Qed.

Section Rights.
Context (n : Z) (p : elf64_image_plan) (e : bool) (Hp : plan_inv n p e).

Lemma in_used q g : 0 <= q < 2 ^ 40 -> g ∈ List.filter (segment_used (q * 4096)) (segments p) <-> g ∈ segments p /\ touches q g.
Proof.
  intros Hq. rewrite !list_elem_of_In, filter_In. destruct Hp as (Hwf & _). split.
  - intros [Hg Hu]. split; [done|]. apply (segment_used_spec n); [|done|done]. rewrite Forall_forall in Hwf. apply Hwf. by apply list_elem_of_In.
  - intros [Hg Ht]. split; [done|]. apply (segment_used_spec n); [|done|done]. rewrite Forall_forall in Hwf. apply Hwf. by apply list_elem_of_In.
Qed.

Lemma exists_used (f : elf64_load_segment -> bool) q : 0 <= q < 2 ^ 40 ->
  existsb f (List.filter (segment_used (q * 4096)) (segments p)) = true <-> exists g, g ∈ segments p /\ touches q g /\ f g = true.
Proof.
  intros Hq. rewrite existsb_exists. setoid_rewrite <- list_elem_of_In. setoid_rewrite (in_used q) at 1; [|done].
  split; intros (g & Hg); exists g; tauto.
Qed.

(** The rights of a page: those of the segments on it, never both. *)
Lemma page_permissions_spec q : 0 <= q < 2 ^ 40 ->
  exists used wr ex, page_permissions p (q * 4096) = Some (used, wr, ex) /\
    (used = true <-> exists g, g ∈ segments p /\ touches q g) /\
    (wr = true <-> exists g, g ∈ segments p /\ touches q g /\ ElfSpec.writable g = true) /\
    (ex = true <-> exists g, g ∈ segments p /\ touches q g /\ ElfSpec.executable g = true) /\ wr && ex = false.
Proof.
  intros Hq. unfold page_permissions. cbv zeta.
  set (wr := existsb _ _). set (ex := existsb (fun g => has (Elf.flags g) ELF64_SEGMENT_EXECUTE) _).
  assert (Hw : wr = true <-> exists g, g ∈ segments p /\ touches q g /\ ElfSpec.writable g = true) by (apply exists_used; done).
  assert (Hx : ex = true <-> exists g, g ∈ segments p /\ touches q g /\ ElfSpec.executable g = true) by (apply exists_used; done).
  assert (Hwx : wr && ex = false).
  { destruct wr, ex; [|done..]. exfalso. destruct (proj1 Hw eq_refl) as (g & Hg & (a & Ha & Ea) & Hgw).
    destruct (proj1 Hx eq_refl) as (h & Hh & (b & Hb & Eb) & Hhx). apply (plan_pages n p e g h a b); try done.
    change ELF64_PAGE_SIZE with 4096. congruence. }
  rewrite Hwx. eexists _, wr, ex. split; [done|]. split; [|done].
  destruct (List.filter _ _) as [|g l] eqn:E.
  - split; [done|]. intros (g & Hg & Ht). exfalso. assert (Hin : g ∈ []) by (rewrite <- E; by apply in_used). by apply elem_of_nil in Hin.
  - split; [|done]. intros _. exists g. apply in_used; [done|]. rewrite E. by left.
Qed.

End Rights.

(** ** Bytes *)

#[export] Instance file_backed_dec g x : Decision (file_backed g x).
Proof. unfold file_backed. apply _. Defined.

(** The bytes of memory after the segments are copied over [u]. *)
Fixpoint loaded (bytes : list Z) (segs : list elf64_load_segment) (u : Z -> option Z) : Z -> option Z :=
  match segs with
  | [] => u
  | g :: segs => loaded bytes segs (fun x => if decide (file_backed g x) then bytes !! Z.to_nat (file_offset g + (x - virtual_address g)) else u x)
  end.

Lemma loaded_outside bytes segs u x : (forall g, g ∈ segs -> ~ file_backed g x) -> loaded bytes segs u x = u x.
Proof.
  revert u. induction segs as [|g segs IH]; intros u Hx; [done|]. cbn [loaded]. rewrite IH by (intros h Hh; apply Hx; by right).
  rewrite decide_False; [done|]. apply Hx. by left.
Qed.

Lemma loaded_ext bytes segs u u' x : u x = u' x -> loaded bytes segs u x = loaded bytes segs u' x.
Proof. revert u u'. induction segs as [|g segs IH]; intros u u' Hu; [done|]. cbn [loaded]. apply IH. by case_decide. Qed.

(** Each byte of a file part is there, as no other segment has its address. *)
Lemma loaded_inside bytes segs u g x :
  Forall (fun g => 0 <= file_size g <= memory_size g) segs -> pairwise segs -> g ∈ segs -> file_backed g x ->
  loaded bytes segs u x = bytes !! Z.to_nat (file_offset g + (x - virtual_address g)).
Proof.
  intros Hwf Hp Hg Hx. revert u. induction segs as [|h segs IH]; intros u; [by apply elem_of_nil in Hg|]. cbn [loaded].
  apply Forall_cons in Hwf as [Hh Hwf]. apply elem_of_cons in Hg as [->|Hg].
  - rewrite loaded_outside; [by rewrite decide_True|]. intros k Hk Hkx. apply list_elem_of_lookup in Hk as [i Hi].
    destruct (Hp 0%nat (S i) h k eq_refl Hi ltac:(lia)) as [Hd _]. rewrite Forall_forall in Hwf.
    pose proof (Hwf k ltac:(by apply list_elem_of_lookup_2 in Hi)). unfold file_backed, seg_addr in *. apply (Hd x); lia.
  - apply IH; [done| |done]. intros i j a b Ha Hb Hij. apply (Hp (S i) (S j) a b); [done|done|lia].
Qed.

(** ** Loops *)

Section Load.
Context {A : Type} `{AllocatorLaws A} (addresses : table_addresses) (symbols : symbols) (first_byte last_byte : Z).
Context (rest : list (Z * Z)).

Abbreviation sched_inv := (sched_inv addresses symbols first_byte last_byte).
Abbreviation space_after := (space_after addresses symbols first_byte last_byte rest).
Implicit Types (s : scheduler A) (l : ring) (w : list live).

(** A page of the image, as it is mapped. *)
Definition mapped_page (p : elf64_image_plan) (nx : bool) (q : Z) (old : option (list Z * Z)) : option (list Z * Z) :=
  match page_permissions p (q * 4096) with
  | Some (true, wr, ex) => Some (zeros PAGE_SIZE, frame_flags wr ex nx)
  | _ => old
  end.

Lemma map_image_pages_spec p n : forall fuel q s l v w (Q : bool -> scheduler A -> Prop) R,
  (n < fuel)%nat -> sched_inv s l (v :: w) rest -> 0 <= q ->
  (forall ok s' v', space_after s s' l v v' w ->
     (ok = true -> forall r, page_in s' v' r =
       if decide (q <= r < q + Z.of_nat n) then mapped_page p (g_nx_enabled (kernel s)) r (page_in s v r) else page_in s v r) -> Q ok s') ->
  kwp (map_image_pages fuel (live_self v) p (q * 4096) ((q + Z.of_nat n) * 4096)) Q R s.
Proof.
  induction n as [|n IH]; intros fuel q s l v w Q R Hf Hinv Hq HQ; destruct fuel as [|fuel]; try lia; cbn [map_image_pages].
  - rewrite (proj2 (Z.ltb_ge _ _)) by lia. cbn [negb]. ksteps. apply (HQ true s v); [by apply space_after_refl|].
    intros _ r. rewrite decide_False by lia. done.
  - rewrite (proj2 (Z.ltb_lt _ _)) by lia. cbn [negb].
    assert (Hnext : forall s1 v1, space_after s s1 l v v1 w -> (forall r, page_in s1 v1 r = if decide (r = q)
        then mapped_page p (g_nx_enabled (kernel s)) r (page_in s v r) else page_in s v r) ->
      kwp (map_image_pages fuel (live_self v) p (q * 4096 + PAGING_PAGE_SIZE) ((q + Z.of_nat (S n)) * 4096)) Q R s1).
    { intros s1 v1 Ha H1. rewrite <- (sf_self _ _ _ _ _ _ _ _ _ _ _ Ha). change PAGING_PAGE_SIZE with 4096.
      replace (q * 4096 + 4096) with ((q + 1) * 4096) by lia. replace (q + Z.of_nat (S n)) with (q + 1 + Z.of_nat n) by lia.
      apply (IH fuel (q + 1) s1 l v1 w); [lia|by destruct Ha|lia|].
      intros ok s2 v2 Ha2 H2. apply (HQ ok s2 v2); [by eapply space_after_trans|]. intros Hok r. rewrite (H2 Hok), !H1, (sf_nx _ _ _ _ _ _ _ _ _ _ _ Ha).
      repeat case_decide; try lia; done. }
    destruct (page_permissions p (q * 4096)) as [[[used wr] ex]|] eqn:Ep; [|ksteps; apply (HQ false s v); [by apply space_after_refl|done]].
    apply kwp_bind. destruct used.
    + change PAGING_PAGE_SIZE with 4096 at 1. apply (kwp_map_user addresses symbols first_byte last_byte rest s l v w); [done|lia|lia|].
      intros ok s1 v1 Ha H1. destruct ok; cbn [negb]; [|ksteps; by apply (HQ false s1 v1)]. destruct H1 as [_ H1]. apply (Hnext s1 v1 Ha).
      intros r. rewrite H1. rewrite Z.div_mul by lia. replace (q * 4096 + 4096) with ((q + 1) * 4096) by lia. rewrite Z.div_mul by lia.
      destruct (decide (q <= r < q + 1)); case_decide; try lia; [|done]. subst r. unfold mapped_page. by rewrite Ep.
    + ksteps. cbn [negb]. apply (Hnext s v); [by apply space_after_refl|]. intros r. case_decide; [|done]. subst r. unfold mapped_page. by rewrite Ep.
Qed.

Lemma load_segments_spec bytes v l w segs : forall s (Q : bool -> scheduler A -> Prop) R,
  sched_inv s l (v :: w) rest -> bytes_ok bytes ->
  Forall (fun g => seg_wf (Z.of_nat (length bytes)) g /\ (0 < file_size g -> range_accessible (live_tree v) false (virtual_address g) (file_size g))) segs ->
  (forall s', space_after s s' l v v w -> (forall x, 0 <= x -> byte_in s' v x = loaded bytes segs (byte_in s v) x) -> Q true s') ->
  kwp (load_segments (live_self v) bytes segs) Q R s.
Proof.
  induction segs as [|g segs IH]; intros s Q R Hinv Hb Hsegs HQ; cbn [load_segments].
  { ksteps. apply HQ; [by apply space_after_refl|done]. }
  apply Forall_cons in Hsegs as [[Hg Hr] Hsegs]. destruct Hg as (G1 & G2 & G3 & _ & G5 & _). unfold ELF64_LOADER_MIN_USER_VADDR in G5.
  destruct (Z.eqb_spec (file_size g) 0) as [E|E].
  - apply IH; [done..|]. intros s' Ha Hx. apply HQ; [done|]. intros x Hx0. rewrite (Hx x Hx0). cbn [loaded]. apply loaded_ext.
    rewrite decide_False; [done|]. unfold file_backed. lia.
  - apply kwp_bind. apply (kwp_initialize_user addresses symbols first_byte last_byte rest s l v w); [done|lia| |by apply Forall_drop|].
    { rewrite length_drop. lia. }
    intros ok s1 Ha1 Hok H1. assert (ok = true) as -> by (apply Hok, Hr; lia). cbn [negb]. apply IH; [by destruct Ha1|done|done|].
    intros s2 Ha2 H2. apply HQ; [by eapply space_after_trans|]. intros x Hx. rewrite (H2 x Hx). cbn [loaded]. apply loaded_ext.
    rewrite (H1 x Hx), length_take, length_drop. unfold file_backed.
    rewrite Nat.min_l by lia. rewrite Z2Nat.id by lia.
    destruct (decide (virtual_address g <= x < virtual_address g + file_size g)); [|done].
    rewrite lookup_take, lookup_drop. rewrite decide_True by lia. f_equal. lia.
Qed.

(** ** The whole space *)

Definition STACK_START : Z := APP_USER_STACK_TOP - APP_USER_STACK_SIZE.

(** The rights of a page of a launched application, if it has it. *)
Definition page_rights (p : elf64_image_plan) (nx : bool) (q : Z) : option Z :=
  if decide (STACK_START / 4096 <= q < APP_USER_STACK_TOP / 4096) then Some (frame_flags true false nx)
  else match page_permissions p (q * 4096) with Some (true, wr, ex) => Some (frame_flags wr ex nx) | _ => None end.

(** The memory of a space: the rights of its pages, its bytes. *)
Definition holds s (v : live) (p : elf64_image_plan) (bytes : list Z) : Prop :=
  forall x, 0 <= x < 2 ^ 52 ->
    snd <$> page_in s v (x / 4096) = page_rights p (g_nx_enabled (kernel s)) (x / 4096) /\
    byte_in s v x = (_ ← page_rights p (g_nx_enabled (kernel s)) (x / 4096); loaded bytes (segments p) (fun _ => Some 0) x).

Lemma page_in_flags s l v w q : sched_inv s l (v :: w) rest -> snd <$> page_in s v q = snd <$> (live_tree v !! (0%nat, q)).
Proof.
  intros Hinv. destruct (inv_spaces addresses symbols first_byte last_byte rest _ _ _ Hinv) as (G & bs & ((_ & Hl & _) & _) & _).
  apply Forall_cons in Hl as [[Ht _] _]. unfold page_in. destruct (live_tree v !! (0%nat, q)) as [[c f]|] eqn:E.
  - destruct (user_page_some _ _ _ _ _ _ _ _ Ht E) as (bytes & _ & _ & ->). done.
  - by rewrite user_page_none.
Qed.

(** After the loop over the pages: zeroed pages where segments are. *)
Lemma image_pages p n s s1 v v1 q :
  plan_inv n p true -> (forall r, page_in s v r = None) -> 0 <= q < 2 ^ 40 ->
  (forall r, page_in s1 v1 r = if decide (virtual_base p / 4096 <= r < (virtual_end p + 4095) / 4096)
    then mapped_page p (g_nx_enabled (kernel s)) r (page_in s v r) else page_in s v r) ->
  page_in s1 v1 q = mapped_page p (g_nx_enabled (kernel s)) q None.
Proof.
  intros Hp Hnone Hq H1. rewrite H1, Hnone. case_decide as Hr; [done|]. unfold mapped_page.
  destruct (page_permissions_spec n p true Hp q Hq) as (used & wr & ex & -> & Hu & _). destruct used; [|done]. exfalso.
  destruct (proj1 Hu eq_refl) as (g & Hg & a & Ha & <-). destruct Hp as (_ & _ & _ & Hh & _).
  destruct (hull_bounds p g Hh Hg) as (B1 & B2 & B3). unfold seg_addr in Ha. apply Hr.
  pose proof (Z.div_le_mono (virtual_base p) a 4096). pose proof (Z.div_mod (virtual_end p + 4095) 4096).
  pose proof (Z.mod_pos_bound (virtual_end p + 4095) 4096). pose proof (Z.div_mod a 4096). pose proof (Z.mod_pos_bound a 4096). lia.
Qed.

Lemma touches_file q g x : file_size g <= memory_size g -> file_backed g x -> x / 4096 = q -> touches q g.
Proof. intros Hf Hx E. exists x. split; [|done]. unfold file_backed, seg_addr in *. lia. Qed.

Lemma mapped_accessible s l v w p n nx g :
  plan_inv n p true -> sched_inv s l (v :: w) rest -> g ∈ segments p -> 0 < file_size g ->
  (forall q, 0 <= q < 2 ^ 40 -> page_in s v q = mapped_page p nx q None) ->
  range_accessible (live_tree v) false (virtual_address g) (file_size g).
Proof.
  intros Hp Hinv Hg Hf Hpages. pose proof Hp as (Hwf & _). rewrite Forall_forall in Hwf. destruct (Hwf g Hg) as (_ & G2 & _ & _ & G5 & G6 & _).
  unfold range_accessible, ELF64_LOADER_MIN_USER_VADDR, ELF64_LOADER_MAX_USER_VADDR, PAGING_USER_BASE, PAGING_USER_LIMIT in *.
  split; [lia|]. split; [lia|]. intros x Hx. unfold accessible. rewrite prefix_page.
  assert (Hq : 0 <= x / 4096 < 2 ^ 40) by (split; [apply Z.div_pos; lia|apply Z.div_lt_upper_bound; lia]).
  pose proof (page_in_flags s l v w (x / 4096) Hinv) as Hfl. rewrite (Hpages _ Hq) in Hfl. unfold mapped_page in Hfl.
  destruct (page_permissions_spec n p true Hp _ Hq) as (used & wr & ex & Ep & Hu & _). rewrite Ep in Hfl.
  assert (used = true) as ->.
  { apply Hu. exists g. split; [done|]. apply (touches_file _ g x); [lia|unfold file_backed; lia|done]. }
  destruct (live_tree v !! (0%nat, x / 4096)) as [[c f]|]; [|done]. by exists c, f.
Qed.

Lemma mapped_rights p nx q : ~ (STACK_START / 4096 <= q < APP_USER_STACK_TOP / 4096) -> snd <$> mapped_page p nx q None = page_rights p nx q.
Proof. intros Hq. unfold page_rights, mapped_page. rewrite decide_False by done. by destruct (page_permissions _ _) as [[[[] ?] ?]|]. Qed.

Lemma zeros_lookup i n : 0 <= i < n -> zeros n !! Z.to_nat i = Some 0.
Proof. intros Hi. unfold zeros. apply lookup_replicate. split; [done|lia]. Qed.

(** The bytes of the image over the zeroed pages. *)
Lemma image_bytes_in s s' v p n nx bytes x :
  plan_inv n p true -> 0 <= x < 2 ^ 52 -> (forall q, 0 <= q < 2 ^ 40 -> page_in s v q = mapped_page p nx q None) ->
  (forall y, 0 <= y -> byte_in s' v y = loaded bytes (segments p) (byte_in s v) y) ->
  byte_in s' v x = (_ ← mapped_page p nx (x / 4096) None; loaded bytes (segments p) (fun _ => Some 0) x).
Proof.
  intros Hp Hx Hpages Hb. rewrite Hb by lia.
  assert (Hq : 0 <= x / 4096 < 2 ^ 40) by (split; [apply Z.div_pos; lia|apply Z.div_lt_upper_bound; lia]).
  assert (Hold : byte_in s v x = ('(bytes, _) ← mapped_page p nx (x / 4096) None; bytes !! Z.to_nat (offset_of x))).
  { unfold byte_in, user_byte. rewrite prefix_page. unfold page_in in Hpages. by rewrite (Hpages _ Hq). }
  destruct (page_permissions_spec n p true Hp _ Hq) as (used & wr & ex & Ep & Hu & _). unfold mapped_page in *. rewrite Ep in *. destruct used.
  - rewrite some_bind. apply loaded_ext. rewrite Hold, some_bind. apply zeros_lookup. apply offset_range. lia.
  - rewrite loaded_outside; [exact Hold|]. intros g Hg Hgx. assert (false = true) by (apply Hu; exists g; split; [done|];
      pose proof Hp as (Hwf & _); rewrite Forall_forall in Hwf; destruct (Hwf g Hg) as (_ & ? & _); apply (touches_file _ g x); [lia|done|done]). done.
Qed.

(** The image and the stack together. *)
Lemma holds_intro p n nx bytes s1 s2 s3 v1 v3 l w :
  plan_inv n p true -> sched_inv s1 l (v1 :: w) rest -> sched_inv s2 l (v1 :: w) rest -> g_nx_enabled (kernel s3) = nx ->
  (forall q, 0 <= q < 2 ^ 40 -> page_in s1 v1 q = mapped_page p nx q None) ->
  (forall y, 0 <= y -> byte_in s2 v1 y = loaded bytes (segments p) (byte_in s1 v1) y) ->
  (forall q, page_in s3 v3 q = if decide (STACK_START / 4096 <= q < APP_USER_STACK_TOP / 4096)
     then Some (zeros PAGE_SIZE, frame_flags true false nx) else page_in s2 v1 q) ->
  (forall g x, g ∈ segments p -> file_backed g x -> ~ (STACK_START / 4096 <= x / 4096 < APP_USER_STACK_TOP / 4096)) ->
  holds s3 v3 p bytes.
Proof.
  intros Hp Hinv1 Hinv2 En Hpages Hm2 Hm3 Hno x Hx. rewrite En.
  assert (Hq : 0 <= x / 4096 < 2 ^ 40) by (split; [apply Z.div_pos; lia|apply Z.div_lt_upper_bound; lia]).
  assert (Hb3 : byte_in s3 v3 x = if decide (STACK_START / 4096 <= x / 4096 < APP_USER_STACK_TOP / 4096) then Some 0 else byte_in s2 v1 x).
  { unfold byte_in, user_byte. rewrite prefix_page. unfold page_in in Hm3. rewrite Hm3. case_decide; [|done]. rewrite some_bind.
    apply zeros_lookup, offset_range. lia. }
  rewrite Hm3, Hb3. destruct (decide (STACK_START / 4096 <= x / 4096 < APP_USER_STACK_TOP / 4096)) as [Hs|Hs].
  - unfold page_rights. rewrite decide_True by done. split; [done|]. rewrite some_bind, loaded_outside; [done|]. intros g Hg Hgx. by apply (Hno g x).
  - rewrite <- mapped_rights by done. split.
    + by rewrite (page_in_flags s2 l v1 w _ Hinv2), <- (page_in_flags s1 l v1 w _ Hinv1), Hpages.
    + rewrite (image_bytes_in s1 s2 v1 p n nx bytes x); [|done..].
      unfold mapped_page. by destruct (page_permissions _ _) as [[[[] ?] ?]|].
Qed.

Lemma no_overlap p g x :
  virtual_base p <= virtual_address g /\ virtual_address g + memory_size g <= virtual_end p /\ 0 <= virtual_base p ->
  0 <= file_size g <= memory_size g -> file_backed g x -> STACK_START / 4096 <= x / 4096 < APP_USER_STACK_TOP / 4096 ->
  ranges_overlap (virtual_base p / 4096 * 4096) ((virtual_end p + 4095) / 4096 * 4096) STACK_START APP_USER_STACK_TOP = true.
Proof.
  intros Hh Hf Hx Hs. unfold file_backed in Hx. unfold ranges_overlap. apply andb_true_iff. rewrite !Z.ltb_lt.
  replace STACK_START with (STACK_START / 4096 * 4096) by (by vm_compute). replace APP_USER_STACK_TOP with (APP_USER_STACK_TOP / 4096 * 4096) by (by vm_compute).
  pose proof (Z.div_le_mono (virtual_base p) x 4096). pose proof (Z.div_mod (virtual_end p + 4095) 4096).
  pose proof (Z.mod_pos_bound (virtual_end p + 4095) 4096). pose proof (Z.div_mod x 4096). pose proof (Z.mod_pos_bound x 4096). lia.
Qed.

(** The whole of it: on success the space holds the application. *)
Lemma map_and_load_image_spec bytes p s l v w (Q : bool -> scheduler A -> Prop) R :
  sched_inv s l (v :: w) rest -> (forall r, page_in s v r = None) ->
  bytes_ok bytes -> plan_inv (Z.of_nat (length bytes)) p true -> segments p <> [] ->
  (forall ok s' v', space_after s s' l v v' w -> (ok = true -> holds s' v' p bytes) -> Q ok s') ->
  kwp (map_and_load_image (live_self v) bytes p) Q R s.
Proof.
  intros Hinv Hnone Hb Hp Hne HQ. pose proof Hp as (Hwf & Hpw & _ & Hh & _). unfold map_and_load_image. cbv zeta.
  assert (Hbounds : PAGING_USER_BASE <= virtual_base p < virtual_end p /\ virtual_end p <= PAGING_USER_LIMIT).
  { revert Hh. unfold hull. destruct (segments p); [done|]. intros (_ & B1 & B2).
    unfold ELF64_LOADER_MIN_USER_VADDR, ELF64_LOADER_MAX_USER_VADDR, PAGING_USER_BASE, PAGING_USER_LIMIT in *. lia. }
  unfold PAGING_USER_BASE, PAGING_USER_LIMIT in Hbounds. unfold align_up_page, UINT64_MAX. change PAGING_PAGE_SIZE with 4096 at 1.
  rewrite (proj2 (Z.ltb_ge _ _)) by lia.
  assert (Hfail : forall s' v', space_after s s' l v v' w -> Q false s') by (intros s' v' Ha; by apply (HQ false s' v')).
  kif Et; [ksteps; apply (Hfail s v); by apply space_after_refl|]. repeat (apply orb_false_iff in Et as [Et ?]).
  unfold align_down_page in *. change (PAGING_PAGE_SIZE - 1) with (ELF64_PAGE_SIZE - 1) in *. rewrite !ldiff_page in *.
  change PAGING_PAGE_SIZE with 4096 in *. replace (virtual_end p + 4096 - 1) with (virtual_end p + 4095) in * by lia.
  set (q0 := virtual_base p / 4096) in *. set (q1 := (virtual_end p + 4095) / 4096) in *.
  repeat match goal with E : (_ <? _) = false |- _ => apply Z.ltb_ge in E | E : (_ <=? _) = false |- _ => apply Z.leb_gt in E end.
  assert (Hq0 : 0 <= q0) by (apply Z.div_pos; lia). replace ((q1 * 4096 - q0 * 4096) / 4096) with (q1 - q0) by (rewrite <- Z.mul_sub_distr_r, Z.div_mul; lia).
  replace (q1 * 4096) with ((q0 + Z.of_nat (Z.to_nat (q1 - q0))) * 4096) by lia. apply kwp_bind.
  apply (map_image_pages_spec p _ _ q0 s l v w); [lia|done|lia|]. rewrite Z2Nat.id by lia. replace (q0 + (q1 - q0)) with q1 by lia.
  intros ok1 s1 v1 Ha1 Hm1. destruct ok1; cbn [negb]; [|ksteps; by apply (Hfail s1 v1)]. specialize (Hm1 eq_refl).
  pose proof (sf_inv _ _ _ _ _ _ _ _ _ _ _ Ha1) as Hinv1. rewrite <- (sf_self _ _ _ _ _ _ _ _ _ _ _ Ha1).
  assert (Hpages : forall q, 0 <= q < 2 ^ 40 -> page_in s1 v1 q = mapped_page p (g_nx_enabled (kernel s)) q None).
  { intros q Hq. by apply (image_pages p (Z.of_nat (length bytes)) s s1 v v1). }
  apply kwp_bind, (load_segments_spec bytes v1 l w); [done|done| |].
  { apply Forall_forall. intros g Hg. split; [rewrite Forall_forall in Hwf; by apply Hwf|]. intros Hf. by eapply mapped_accessible. }
  intros s2 Ha2 Hm2. cbn [negb]. pose proof (sf_inv _ _ _ _ _ _ _ _ _ _ _ Ha2) as Hinv2.
  apply (kwp_map_user addresses symbols first_byte last_byte rest s2 l v1 w); [done|by vm_compute|by vm_compute|].
  intros ok3 s3 v3 Ha3 Hm3. apply (HQ ok3 s3 v3); [by eapply space_after_trans; [|eapply space_after_trans]|]. intros ->. destruct Hm3 as [_ Hm3].
  change (STACK_START + APP_USER_STACK_SIZE) with APP_USER_STACK_TOP in Hm3.
  apply (holds_intro p (Z.of_nat (length bytes)) (g_nx_enabled (kernel s)) bytes s1 s2 s3 v1 v3 l w); try done.
  - rewrite (sf_nx _ _ _ _ _ _ _ _ _ _ _ Ha3), (sf_nx _ _ _ _ _ _ _ _ _ _ _ Ha2). by destruct Ha1.
  - intros q. rewrite Hm3. rewrite (sf_nx _ _ _ _ _ _ _ _ _ _ _ Ha2). by destruct Ha1 as [_ _ _ _ ->].
  - intros g x Hg Hx Hs. rewrite Forall_forall in Hwf. destruct (Hwf g Hg) as (_ & Hf & _).
    pose proof (no_overlap p g x (hull_bounds p g Hh Hg) Hf Hx Hs) as Ho. unfold STACK_START, q0, q1 in *. congruence.
Qed.

End Load.
