(* ===== verification/AppLaunch.v ===== *)
(** * kernel/app_process.c: the table during a launch

    What the requests of a launch do to the entry of the new process and to the others, read through
    [app_process_find].

    Then every end of a launch. *)

From stdpp Require Import gmap.
From S2P Require Import Prelude CString FsCodec Heap Allocator Elf ElfSpec Manifest AppCatalog AppProcess AppProcessSpec Paging PagingTree PagingSpace PagingMap PagingKernel PagingGuard PagingClaims Scheduler SchedRing SchedInv SchedSpawn SchedSafe SchedRun SchedKeeps AppRuntime AppImage.

Definition find (id : Z) (t : process_table) : option app_process_info := app_process_find id true t.

(** The entry of [id] becomes [p]; every other one stays. *)
Definition entry_set (t t' : process_table) (id : Z) (p : option app_process_info) : Prop :=
  table_inv t' /\ find id t' = p /\ forall i, i <> id -> find i t' = find i t.

(** Every other one stays, but for a terminal one that may be given up. *)
Definition others_stay (t t' : process_table) (id : Z) : Prop :=
  forall i, i <> id -> find i t' = find i t \/ find i t' = None /\ exists p, find i t = Some p /\ terminal p = true.

Lemma others_stay_trans t1 t2 t3 id p : others_stay t1 t2 id -> entry_set t2 t3 id p -> others_stay t1 t3 id.
Proof. intros H1 (_ & _ & H2) i Hi. rewrite (H2 i Hi). by apply H1. Qed.

(** The slot of an entry. *)
Lemma find_slot t id p : table_inv t -> find id t = Some p ->
  id <> 0 /\ used p = true /\ process_id p = id /\ argument_ok p /\ exists i, g_processes t !! i = Some p /\ forall k, with_process id t k = k i p.
Proof.
  intros (Hs & _) Hf. pose proof Hf as (H1 & H2 & H3 & i & Hi)%(find_spec _ _ _ _ Hs). split; [done|]. split; [done|]. split; [done|].
  pose proof Hs as (_ & _ & _ & Hstr). split; [rewrite Forall_forall in Hstr; by apply Hstr, list_elem_of_lookup_2 with i|].
  exists i. split; [done|]. intros k. unfold with_process. rewrite (proj2 (find_process_spec t _ id i Hs)) by (split; [done|by exists p]). by rewrite Hi.
Qed.

(** An update of the entry. *)
Lemma entry_update t id p i p' r :
  table_inv t -> find id t = Some p -> g_processes t !! i = Some p -> used p' = true -> process_id p' = id -> argument_ok p' ->
  lifecycle (Some (state p)) (Some (state p')) -> (r = [] /\ (AppProcessSpec.live (state p') \/ state p' = state p) \/ r = [id] /\ ~ AppProcessSpec.live (state p')) ->
  entry_set t (ProcessTable (<[i := p']> (g_processes t)) (g_process_count t) (g_next_process_id t) (released t ++ r)) id (Some p').
Proof.
  intros Ht Hf Hi Hu Hid Ha Hl Hr. destruct (find_slot t id p Ht Hf) as (_ & Hup & Hpid & _).
  match goal with |- entry_set _ ?t' _ _ => set (t1 := t') end.
  assert (Ht1 : table_inv t1).
  { apply (step_inv t); [done|]. apply AppProcessSpec.step_update with p; rewrite ?Hpid; done. }
  assert (Hfind : forall j, find j t1 = if j =? id then Some p' else find j t).
  { intros j. unfold find. rewrite (find_insert t t1 _ _ i p p' j (proj1 Ht) (proj1 Ht1) Hi eq_refl), Hu, Hid, Hup, Hpid. cbn [andb].
    rewrite Z.eqb_sym. by destruct (j =? id). }
  split; [done|]. split; [by rewrite Hfind, Z.eqb_refl|]. intros j Hj. by rewrite Hfind, (proj2 (Z.eqb_neq _ _)).
Qed.

Lemma argument_spec t id p a :
  table_inv t -> find id t = Some p -> state p = APP_PROCESS_LOADED ->
  app_process_set_startup_argument id a t = (APP_PROCESS_INVALID_ARGUMENT, t) \/
  exists t' p', app_process_set_startup_argument id a t = (APP_PROCESS_OK, t') /\ entry_set t t' id (Some p') /\
    state p' = APP_PROCESS_LOADED /\ p' = set_argument p (copy_string (startup_argument p) (APP_STARTUP_ARGUMENT_MAX + 1) a).
Proof.
  intros Ht Hf Hst. destruct (find_slot t id p Ht Hf) as (_ & Hu & Hid & Ha & i & Hi & Hw). unfold app_process_set_startup_argument.
  rewrite Hw, bool_decide_true by done. cbn [negb]. destruct (negb _); [by left|right].
  eexists _, (set_argument p (copy_string (startup_argument p) (APP_STARTUP_ARGUMENT_MAX + 1) a)). split; [done|]. split; [|by split; [exact Hst|]].
  unfold set_process. rewrite <- (app_nil_r (released t)). apply entry_update with p; try done.
  - apply copy_string_ok; [lia|]. apply Ha.
  - apply life_same.
  - left. split; [done|]. by right.
Qed.

Lemma starting_spec t id p :
  table_inv t -> find id t = Some p -> state p = APP_PROCESS_LOADED ->
  exists t', app_process_mark_starting id t = (APP_PROCESS_OK, t') /\ entry_set t t' id (Some (set_state p APP_PROCESS_STARTING)).
Proof.
  intros Ht Hf Hst. destruct (find_slot t id p Ht Hf) as (_ & Hu & Hid & Ha & i & Hi & Hw). unfold app_process_mark_starting.
  rewrite Hw, bool_decide_true by done. cbn [negb]. eexists. split; [done|]. unfold set_process. rewrite <- (app_nil_r (released t)).
  apply entry_update with p; try done.
  - rewrite Hst. apply life_start.
  - left. split; [done|]. left. right. by left.
Qed.

Lemma running_spec t id p :
  table_inv t -> find id t = Some p -> state p = APP_PROCESS_STARTING ->
  exists t', app_process_mark_running id t = (APP_PROCESS_OK, t') /\ entry_set t t' id (Some (set_state p APP_PROCESS_RUNNING)).
Proof.
  intros Ht Hf Hst. destruct (find_slot t id p Ht Hf) as (_ & Hu & Hid & Ha & i & Hi & Hw). unfold app_process_mark_running.
  rewrite Hw, bool_decide_true by done. cbn [negb]. eexists. split; [done|]. unfold set_process. rewrite <- (app_nil_r (released t)).
  apply entry_update with p; try done.
  - rewrite Hst. apply life_run.
  - left. split; [done|]. left. right. by right.
Qed.

Lemma exited_spec t id p code :
  table_inv t -> find id t = Some p -> executing p = true ->
  exists t', app_process_mark_exited id code t = (APP_PROCESS_OK, t') /\ entry_set t t' id (Some (set_exited p code)).
Proof.
  intros Ht Hf Hst. destruct (find_slot t id p Ht Hf) as (_ & Hu & Hid & Ha & i & Hi & Hw). unfold app_process_mark_exited.
  rewrite Hw, Hst. cbn [negb]. eexists. split; [done|]. apply executing_spec in Hst. unfold app_services_release_process, set_process.
  apply (entry_update t id p i (set_exited p code) [id]); try done.
  - destruct Hst as [-> | ->]; constructor.
  - right. split; [done|]. by intros [?|[?|?]].
Qed.

Lemma release_spec t id p :
  table_inv t -> find id t = Some p -> state p = APP_PROCESS_LOADED \/ terminal p = true ->
  exists t', app_process_release id t = (APP_PROCESS_OK, t') /\ entry_set t t' id None.
Proof.
  intros Ht Hf Hst. destruct (find_slot t id p Ht Hf) as (_ & Hu & Hid & Ha & i & Hi & Hw). pose proof (release_step id t _ (proj1 Ht)) as Hstep.
  revert Hstep. unfold app_process_release. rewrite Hw.
  replace (bool_decide (state p = APP_PROCESS_LOADED) || terminal p) with true
    by (destruct Hst as [-> | ->]; [done|by rewrite orb_true_r]). cbn [negb snd]. intros Hstep. eexists. split; [done|].
  match goal with |- entry_set _ ?t' _ _ => set (t1 := t') in * end. pose proof (step_inv _ _ Ht Hstep) as Ht1.
  assert (Hfind : forall j, find j t1 = if j =? id then None else find j t).
  { intros j. unfold find. rewrite (find_insert t t1 _ _ i p zero_process j (proj1 Ht) (proj1 Ht1) Hi eq_refl), zero_unused, Hu, Hid. cbn [andb].
    rewrite Z.eqb_sym. by destruct (j =? id). }
  split; [done|]. split; [by rewrite Hfind, Z.eqb_refl|]. intros j Hj. by rewrite Hfind, (proj2 (Z.eqb_neq _ _)).
Qed.

(** A new entry with the next id, for a valid manifest and a consistent plan, unless there is no room or no id. *)
Lemma track_spec t m p :
  table_inv t -> app_manifest_validate (Some m) = APP_MANIFEST_OK -> plan_is_consistent (Some p) = true ->
  (exists r, app_process_track_loaded (Some m) (Some p) true t = (r, None, t) /\ (r = APP_PROCESS_ID_EXHAUSTED \/ r = APP_PROCESS_TABLE_FULL)) \/
  exists t', app_process_track_loaded (Some m) (Some p) true t = (APP_PROCESS_OK, Some (g_next_process_id t), t') /\
    table_inv t' /\ g_next_process_id t <> 0 /\ find (g_next_process_id t) t = None /\
    find (g_next_process_id t) t' = Some (loaded_process (g_next_process_id t) m p) /\ others_stay t t' (g_next_process_id t).
Proof.
  intros Ht Hm Hp. pose proof (track_step (Some m) (Some p) true t) as Hstep. revert Hstep. unfold app_process_track_loaded.
  rewrite Hm, Hp. cbn [negb orb]. rewrite bool_decide_true by done. cbn [negb orb].
  destruct (Z.eqb_spec (g_next_process_id t) 0) as [|Hn]; [left; eexists; split; [done|by left]|].
  pose proof (claim_slot_spec t) as Hc. destruct (claim_slot t) as [[i t1]|]; [|left; eexists; split; [done|by right]].
  destruct Hc as (q & Hq & Hc). cbn [snd]. intros Hstep. right. pose proof (step_inv _ _ Ht Hstep) as Ht'.
  assert (En : g_next_process_id t1 = g_next_process_id t) by (by destruct Hc as [[_ ->]|(_ & _ & _ & ->)]).
  rewrite En in *. eexists. split; [done|]. split; [exact Ht'|]. split; [done|].
  match goal with |- _ /\ find _ ?t' = _ /\ _ => set (t2 := t') in * end.
  assert (Hg : g_processes t2 = <[i := loaded_process (g_next_process_id t) m p]> (g_processes t)).
  { unfold t2. cbn [g_processes]. destruct Hc as [[_ ->]|(_ & _ & _ & ->)]; [done|]. cbn [g_processes]. apply list_insert_insert_eq. }
  pose proof (fun id => find_loaded t t2 _ _ i q (g_next_process_id t) m p id (proj1 Ht) (proj1 Ht') Hq Hg) as Hfind.
  split; [|split].
  - destruct (find (g_next_process_id t) t) as [x|] eqn:E; [|done]. exfalso. apply (find_spec _ _ _ _ (proj1 Ht)) in E as (_ & Hu & Hx & j & Hj).
    destruct Ht as ((_ & Hid & _) & _). apply (not_issued_next (g_next_process_id t)). rewrite <- Hx at 1. by apply (Hid j).
  - unfold find. by rewrite Hfind, Z.eqb_refl.
  - intros j Hj. unfold find. rewrite Hfind, (proj2 (Z.eqb_neq _ _)) by congruence. destruct (used q && (process_id q =? j)) eqn:E; [|by left].
    apply andb_true_iff in E as [Hu E%Z.eqb_eq]. right. split; [done|]. exists q. destruct Hc as [[Hu' _]|(_ & Hterm & _)]; [congruence|].
    split; [|done]. apply (find_spec _ _ _ _ (proj1 Ht)). destruct Ht as ((_ & Hid & _) & _). destruct (Hid i q Hq Hu) as [? _].
    split; [lia|]. split; [done|]. split; [done|by exists i].
Qed.

(** * kernel/app_runtime.c: a launch

    Every end of [launch]: a failure leaves the tasks, the live spaces and the entries of the table as they
    were (a new entry may have taken the place of a terminal one); a success adds a space that holds the
    application, a process that is starting, and a task for both. *)

(** ** What does not touch the frames *)

Section Frames.
Context {A : Type} `{Allocator A}.

Definition memory_of (s : scheduler A) := (frames (kernel s), g_nx_enabled (kernel s)).

Lemma change_guard_memory p change f (k k' : paging A) ok :
  change_guard_entry p change f k = Some (ok, k') -> frames k' = frames k /\ g_nx_enabled k' = g_nx_enabled k.
Proof.
  unfold change_guard_entry. destruct (_ || _); [by intros [= _ <-]|]. destruct (kernel_guard_page_entry p) as [place|]; [|by intros [= _ <-]].
  destruct (guard_entry_read _ _) as [e|]; [|done]. rewrite some_bind. destruct (negb _); [by intros [= _ <-]|].
  destruct (change e); [|by intros [= _ <-]]. destruct (guard_entry_write _ _ _); [|done]. by intros [= _ <-].
Qed.

Lemma memory_untouched m : untouched (fun s : scheduler A => memory_of s = m).
Proof.
  constructor; try done. intros p change f s ok k <- [E1 E2]%change_guard_memory. unfold memory_of. sched_simpl. congruence.
Qed.

End Frames.

(** ** What can be launched *)

Lemma plans_equal_refl p : plans_equal p p = true.
Proof.
  unfold plans_equal. rewrite !Z.eqb_refl, Nat.eqb_refl. cbn [andb]. induction (segments p) as [|g l IH]; [done|].
  cbn [zip zip_with forallb fst snd]. unfold segments_equal at 1. by rewrite !Z.eqb_refl, IH.
Qed.

Lemma resolve_launchable entry bytes plan : launchable entry bytes plan -> resolve_launch_image entry = Some (Some (bytes, plan)).
Proof.
  intros [H1 _ H3 H4 <- _]. unfold resolve_launch_image. rewrite H1, (proj2 (Z.eqb_neq _ _)) by lia. rewrite H4, some_bind.
  by rewrite plans_equal_refl.
Qed.

Lemma launchable_plan entry bytes plan :
  launchable entry bytes plan -> plan_inv (Z.of_nat (length bytes)) plan true /\ segments plan <> [] /\ plan_is_consistent (Some plan) = true.
Proof.
  intros [H1 H2 H3 H4 _ _]. destruct (inspect_accepted _ _ _ H2 H4) as ((Hwf & Hrest) & Hne & _).
  destruct (inspected_plan_ok _ _ _ H2 H4) as [Hu Hok]. split; [|split; [done|by apply plan_consistent_spec]]. split; [|done].
  apply (Forall_impl _ _ _ Hwf). intros g (G1 & G2 & G3 & G4). split; [done|]. split; [done|]. split; [lia|done].
Qed.

Lemma capabilities_valid m : app_manifest_validate (Some m) = APP_MANIFEST_OK -> Z.ldiff (capabilities m) APP_CAPABILITY_ALL = 0.
Proof.
  unfold app_manifest_validate. destruct (negb _); [done|]. destruct (negb _); [done|].
  destruct (Z.eqb_spec (Z.ldiff (capabilities m) APP_CAPABILITY_ALL) 0); [done|]. done.
Qed.

(** No entry is lost but a terminal one. *)
Definition entries_kept (t t' : process_table) : Prop :=
  table_inv t' /\ forall i, find i t' = find i t \/ find i t' = None /\ exists p, find i t = Some p /\ terminal p = true.

Lemma entries_kept_refl t : table_inv t -> entries_kept t t.
Proof. split; [done|]. by left. Qed.

Lemma entries_kept_gone t t1 t2 id : find id t = None -> others_stay t t1 id -> entry_set t1 t2 id None -> entries_kept t t2.
Proof.
  intros Hnew Ho (Ht & Hid & Hs). split; [done|]. intros i. destruct (decide (i = id)) as [->|Hi]; [left; congruence|].
  rewrite (Hs i Hi). by apply Ho.
Qed.

Section Launch.
Context {A : Type} `{AllocatorLaws A} (addresses : table_addresses) (symbols : symbols) (first_byte last_byte : Z).
Context (Hsym : symbols_ok symbols) (rest : list (Z * Z)).

Abbreviation sched_inv := (sched_inv addresses symbols first_byte last_byte).
Abbreviation space_after := (space_after addresses symbols first_byte last_byte rest).
Abbreviation step := (step addresses symbols first_byte last_byte rest).
Implicit Types (s : scheduler A) (l : ring) (w : list live).

(** [s'] is [s] but for the kernel's memory, the spaces and the processes. *)
Definition preparing s s' : Prop := s' = set_processes (processes s') (set_spaces (spaces s') (set_kernel (kernel s') s)).

Lemma preparing_step c s l w s' w' : sched_inv s l w rest -> sched_inv s' l w' rest -> preparing s s' -> step c s l w s' l w'.
Proof. intros Hinv Hinv' E. apply step_quiet; try done; rewrite E; try done. apply Forall_forall. done. Qed.

Lemma preparing_ready s s' l : ready_now s l -> preparing s s' -> ready_now s' l.
Proof. intros Hr E. rewrite E. exact Hr. Qed.

Lemma only_spaces_preparing s s' : only_spaces s s' -> preparing s s'.
Proof. unfold only_spaces, preparing. intros ->. by destruct s. Qed.

Lemma preparing_trans s1 s2 s3 : preparing s1 s2 -> preparing s2 s3 -> preparing s1 s3.
Proof. unfold preparing. intros -> ->. done. Qed.

Lemma preparing_processes s t : preparing s (set_processes t s).
Proof. by destruct s. Qed.

Lemma kwp_processes {B} (f : process_table -> B * process_table) s (Q : B -> scheduler A -> Prop) R :
  Q (f (processes s)).1 (set_processes (f (processes s)).2 s) -> kwp (on_processes f) Q R s.
Proof. intros HQ. unfold kwp, on_processes. by destruct (f (processes s)). Qed.

Lemma kwp_keeps {B} (I : scheduler A -> Prop) (m : KM (scheduler A) B) (Q : B -> scheduler A -> Prop) R s :
  keeps I m -> I s -> kwp m (fun b s' => I s' -> Q b s') R s -> kwp m Q R s.
Proof. unfold kwp. intros Hk Hs. destruct (m s) as [[[b|] s']|] eqn:E; [|done..]. intros HQ. apply HQ. by eapply Hk. Qed.

(** The space and the process are given back. *)
Lemma abandon_spec s l v w t0 process p result (Q : app_runtime_launch_result * option Z -> scheduler A -> Prop) R :
  sched_inv s l (v :: w) rest -> unused_by l (live_self v) -> find process t0 = None -> others_stay t0 (processes s) process ->
  table_inv (processes s) -> find process (processes s) = Some p -> state p = APP_PROCESS_LOADED \/ terminal p = true ->
  (forall s', sched_inv s' l w rest -> preparing s s' -> entries_kept t0 (processes s') -> Q (result, None) s') ->
  kwp (abandon addresses (live_self v) process result) Q R s.
Proof.
  intros Hinv Hun Hnew Ho Ht Hp Hst HQ. unfold abandon. apply kwp_bind.
  apply (kwp_destroy_new addresses symbols first_byte last_byte rest s l v w); [done|done|]. intros s1 Hinv1 Hs1.
  pose proof (only_spaces_preparing _ _ Hs1) as Hp1. assert (Et : processes s1 = processes s) by (rewrite Hs1; done).
  unfold void. apply kwp_bind, kwp_bind, kwp_processes. rewrite Et. destruct (release_spec _ _ _ Ht Hp Hst) as (t' & E & He).
  ksteps. apply HQ; [by apply inv_processes| |].
  - eapply preparing_trans; [exact Hp1|apply preparing_processes].
  - rewrite E. cbn [snd]. by apply (entries_kept_gone _ (processes s) _ process).
Qed.

(** What a successful launch leaves behind: a task [t] at [tp] for a process that starts, in a space [v]. *)
Record launched (entry : app_catalog_entry) (argument : option (list Z)) (bytes : list Z) (plan : elf64_image_plan) (c : Z) s l w s' (v : live) (tp : Z) (t : Task) : Prop := {
  ld_step : step c s l w s' (insert_second (tp, t) l) (v :: w);
  ld_ready : ready_now s' (insert_second (tp, t) l);
  ld_role : (is_user t, task_state t, address_space t, user_entry t, user_stack_top t, task_process_id t, task_capabilities t) =
    (true, TASK_READY, live_self v, entry_point plan, APP_USER_STACK_TOP, g_next_process_id (processes s), capabilities (manifest entry));
  ld_new : task_id t = g_next_pid s /\ (g_fpu_context_enabled s = true -> fpu_state t = g_initial_fpu_state s);
  ld_start : starts_at symbols (words s') t (user_task_bootstrap_address symbols);
  ld_memory : holds s' v plan bytes;
  ld_nx : g_nx_enabled (kernel s') = true;
  ld_table : table_inv (processes s') /\ others_stay (processes s) (processes s') (g_next_process_id (processes s));
  ld_fresh : g_next_process_id (processes s) <> 0 /\ find (g_next_process_id (processes s)) (processes s) = None;
  ld_process : find (g_next_process_id (processes s)) (processes s') =
    Some (set_state (set_argument (loaded_process (g_next_process_id (processes s)) (manifest entry) plan)
      (copy_string (startup_argument zero_process) (APP_STARTUP_ARGUMENT_MAX + 1) argument)) APP_PROCESS_STARTING);
}.

(** ** The test of the scheduler accepts it *)

Lemma holds_accessible s l v w plan bytes x wr f :
  sched_inv s l (v :: w) rest -> holds s v plan bytes -> 0 <= x < 2 ^ 52 -> page_rights plan (g_nx_enabled (kernel s)) (x / 4096) = Some f ->
  (wr = true -> has_any PAGE_RW f = true) -> accessible (live_tree v) wr x.
Proof.
  intros Hinv Hh Hx Hr Hw. destruct (Hh x Hx) as [Hp _]. rewrite (page_in_flags addresses symbols first_byte last_byte rest s l v w _ Hinv), Hr in Hp.
  unfold accessible. rewrite prefix_page. destruct (live_tree v !! (0%nat, x / 4096)) as [[a g]|]; [|done]. injection Hp as ->. by exists a, f.
Qed.

Lemma page_rights_used n plan nx g x :
  plan_inv n plan true -> g ∈ segments plan -> seg_addr g x -> exists f, page_rights plan nx (x / 4096) = Some f.
Proof.
  intros Hp Hg Hx. unfold page_rights. case_decide; [by eexists|]. pose proof Hp as (Hwf & _). rewrite Forall_forall in Hwf.
  destruct (Hwf g Hg) as (_ & _ & _ & _ & H5 & H6 & _). unfold seg_addr, ELF64_LOADER_MIN_USER_VADDR, ELF64_LOADER_MAX_USER_VADDR in *.
  assert (Hq : 0 <= x / 4096 < 2 ^ 40) by (split; [apply Z.div_pos; lia|apply Z.div_lt_upper_bound; lia]).
  destruct (page_permissions_spec n plan true Hp _ Hq) as (used & wr & ex & -> & Hu & _).
  assert (used = true) as -> by (apply Hu; exists g; split; [done|by exists x]). by eexists.
Qed.

Lemma launch_valid s l v w plan bytes n process rights :
  sched_inv s l (v :: w) rest -> holds s v plan bytes -> plan_inv n plan true -> process <> 0 -> Z.ldiff rights APP_CAPABILITY_ALL = 0 ->
  user_process_valid (live_self v) (entry_point plan) APP_USER_STACK_TOP process rights s = Some true.
Proof.
  intros Hinv Hh Hp Hproc Hrights. pose proof (head_nonnull addresses symbols first_byte last_byte rest _ _ _ Hinv) as Hhead.
  pose proof (space_at_head addresses symbols first_byte last_byte rest _ _ _ _ Hinv) as Hsp.
  destruct (inv_spaces addresses symbols first_byte last_byte rest _ _ _ Hinv) as (G & bs & Hk & _).
  destruct (kernel_part_lookup addresses first_byte last_byte _ _ _ _ _ _ Hk) as [_ Hself].
  destruct (space_ok_live addresses first_byte last_byte _ _ _ _ _ v Hk ltac:(by left)) as (others & Hok).
  pose proof Hp as (Hwf & _ & _ & _ & He). destruct (He eq_refl) as (g & Hg & _ & Hge). rewrite Forall_forall in Hwf.
  destruct (Hwf g Hg) as (_ & H2 & _ & _ & H5 & H6 & _). unfold ELF64_LOADER_MIN_USER_VADDR, ELF64_LOADER_MAX_USER_VADDR in *.
  unfold user_process_valid. rewrite (proj2 (Z.eqb_neq _ _) Hhead), (proj2 (Z.eqb_neq _ _) Hself), (proj2 (Z.eqb_neq _ _) Hproc), Hrights.
  change (APP_USER_STACK_TOP <=? PAGING_USER_BASE) with false. change (PAGING_USER_LIMIT <? APP_USER_STACK_TOP) with false.
  change (negb (Z.land APP_USER_STACK_TOP 0xF =? 0)) with false. unfold PAGING_USER_BASE at 1, PAGING_USER_LIMIT at 1.
  rewrite (proj2 (Z.ltb_ge _ _)) by lia. rewrite (proj2 (Z.leb_gt _ _)) by lia. cbn [orb negb Z.eqb]. rewrite Hsp, some_bind.
  destruct (paging_user_range_mapped_spec (kernel s) _ _ others (entry_point plan) 1 false Hok) as (b & -> & Hb); [lia|lia|]. rewrite some_bind.
  assert (b = true) as ->.
  { apply Hb. unfold range_accessible, PAGING_USER_BASE, PAGING_USER_LIMIT. split; [lia|]. split; [lia|]. intros x Hx.
    assert (x = entry_point plan) as -> by lia.
    destruct (page_rights_used n plan (g_nx_enabled (kernel s)) g (entry_point plan) Hp Hg) as (f & Hf); [unfold seg_addr; lia|].
    by apply (holds_accessible s l v w plan bytes _ _ f); [| |lia| |]. }
  cbn [negb]. destruct (paging_user_range_mapped_spec (kernel s) _ _ others (APP_USER_STACK_TOP - 8) 8 true Hok) as (b & -> & Hb2); [by vm_compute|lia|].
  f_equal. apply Hb2. split; [by vm_compute|]. split; [by vm_compute|]. intros x Hx.
  change (APP_USER_STACK_TOP - 8) with 0x1ffffffeff8 in Hx.
  apply (holds_accessible s l v w plan bytes _ _ (frame_flags true false (g_nx_enabled (kernel s)))); [done|done|lia| |].
  - unfold page_rights. rewrite decide_True; [done|]. change (STACK_START / 4096) with 0x1fffffef. change (APP_USER_STACK_TOP / 4096) with 0x1fffffff.
    pose proof (Z.div_lt_upper_bound x 4096 0x1fffffff). pose proof (Z.div_le_lower_bound x 4096 0x1fffffef). lia.
  - intros _. by destruct (g_nx_enabled (kernel s)).
Qed.

(** ** The launch *)

(** From the loaded space on: the process is tracked, started, and given to a task. *)
Lemma launch_process entry argument bytes plan c s l w s1 v (Q : app_runtime_launch_result * option Z -> scheduler A -> Prop) R :
  sched_inv s l w rest -> ready_now s l -> table_inv (processes s) -> launchable entry bytes plan -> g_nx_enabled (kernel s1) = true ->
  sched_inv s1 l (v :: w) rest -> preparing s s1 -> processes s1 = processes s -> unused_by l (live_self v) -> holds s1 v plan bytes ->
  (forall result s', result <> APP_RUNTIME_LAUNCH_OK -> result <> APP_RUNTIME_LAUNCH_INVALID_IMAGE -> step c s l w s' l w -> ready_now s' l ->
     entries_kept (processes s) (processes s') -> Q (result, None) s') ->
  (forall s' v tp t, launched entry argument bytes plan c s l w s' v tp t -> Q (APP_RUNTIME_LAUNCH_OK, Some (g_next_process_id (processes s))) s') ->
  kwp (start_process addresses symbols entry argument (live_self v) plan) Q R s1.
Proof.
  intros Hinv Hready Ht Hla Hnx Hinv1 Hpre1 Et1 Hun Hholds Hno Hyes. unfold start_process. destruct (launchable_plan _ _ _ Hla) as (Hplan & _ & Hcons).
  assert (Hfail : forall result s', result <> APP_RUNTIME_LAUNCH_OK -> result <> APP_RUNTIME_LAUNCH_INVALID_IMAGE -> sched_inv s' l w rest ->
    preparing s s' -> entries_kept (processes s) (processes s') -> Q (result, None) s').
  { intros result s' Hr1 Hr2 Hinv' Hpre Hk. apply Hno; [done|done| | |done]; [by apply preparing_step|by apply (preparing_ready s)]. }
  apply kwp_bind, kwp_processes. rewrite Et1. set (process := g_next_process_id (processes s)) in *.
  destruct (track_spec (processes s) (manifest entry) plan Ht (la_manifest _ _ _ Hla) Hcons)
    as [(r & -> & Hr)|(t1 & -> & Ht1 & Hn0 & Hnew & Hfind & Hoth)]; cbn [fst snd].
  { assert (Hd : kwp (destroy_space addresses (live_self v);; mret (APP_RUNTIME_LAUNCH_PROCESS_TABLE_FAILED, None)) Q R (set_processes (processes s) s1)).
    { apply kwp_bind, (kwp_destroy_new addresses symbols first_byte last_byte rest _ l v w); [by apply inv_processes|done|]. intros s' Hinv' Hs'. ksteps.
      apply Hfail; [done|done|done| |rewrite Hs'; by apply entries_kept_refl].
      eapply preparing_trans; [exact Hpre1|]. eapply preparing_trans; [apply preparing_processes|by apply only_spaces_preparing]. }
    by destruct Hr as [-> | ->]. }
  fold process in Hfind, Hnew, Hoth, Hn0 |- *. apply kwp_bind, kwp_processes. sched_simpl.
  assert (Hstate : forall t2, sched_inv (set_processes t2 s1) l (v :: w) rest /\ preparing s (set_processes t2 s1)).
  { intros t2. split; [by apply inv_processes|]. eapply preparing_trans; [exact Hpre1|apply preparing_processes]. }
  destruct (argument_spec t1 process _ argument Ht1 Hfind eq_refl) as [->|(t2 & p2 & -> & He2 & Hst2 & Ep2)]; cbn [fst snd].
  { rewrite bool_decide_false by done. cbn [negb]. destruct (Hstate t1) as [Hi Hp].
    eapply (abandon_spec _ l v w (processes s) process); [exact Hi|done|done|exact Hoth|exact Ht1|exact Hfind|by left|].
    intros s' Hinv' Hpre Hk. apply Hfail; [done|done|done|by eapply preparing_trans|done]. }
  rewrite bool_decide_true by done. cbn [negb]. pose proof He2 as (Ht2 & Hf2 & _). pose proof (others_stay_trans _ _ _ _ _ Hoth He2) as Ho2.
  apply kwp_bind, kwp_processes. sched_simpl. destruct (starting_spec t2 process p2 Ht2 Hf2 Hst2) as (t3 & -> & He3). cbn [fst snd].
  rewrite bool_decide_true by done. cbn [negb]. pose proof He3 as (Ht3 & Hf3 & _). pose proof (others_stay_trans _ _ _ _ _ Ho2 He3) as Ho3.
  destruct (Hstate t3) as [Hi3 Hp3]. change (set_processes t3 (set_processes t2 (set_processes t1 s1))) with (set_processes t3 s1).
  set (s3 := set_processes t3 s1) in *. apply kwp_bind. unfold scheduler_spawn_user_process. apply kwp_bind, kwp_get.
  apply kwp_bind, (kwp_lift _ true).
  { apply (launch_valid s3 l v w plan bytes (Z.of_nat (length bytes))); [done|exact Hholds|done|done|].
    apply capabilities_valid, (la_manifest _ _ _ Hla). }
  cbn [negb]. apply (kwp_keeps (fun s' => memory_of s' = memory_of s3)); [apply keeps_spawn, memory_untouched|done|].
  apply (spawn_spec addresses symbols first_byte last_byte Hsym _ _ _ _ _ _ _ _ _ _ s3 l (v :: w) rest); [exact Hi3|split; [by left|exact Hun]| |].
  - intros s4 Hi4 Hre4 _. cbn [negb]. pose proof Hre4 as [Eg4 _ _]. injection Eg4 as Et4 _ _ _ _. change (processes s3) with t3 in Et4.
    unfold void at 1. apply kwp_bind, kwp_bind, kwp_processes. rewrite Et4.
    destruct (exited_spec t3 process _ (-1) Ht3 Hf3) as (t5 & E5 & He5); [by apply executing_spec; left|]. rewrite E5. cbn [snd]. ksteps.
    pose proof He5 as (Ht5 & Hf5 & _). pose proof (others_stay_trans _ _ _ _ _ Ho3 He5) as Ho5.
    eapply (abandon_spec _ l v w (processes s) process); [by apply inv_processes|done|done|exact Ho5|exact Ht5|exact Hf5|by right|].
    intros s6 Hi6 Hp6 Hk6. assert (Hr4 : ready_now s4 l).
    { destruct (preparing_ready s s3 l Hready Hp3) as (t & Hc & Hrt). exists t. by rewrite (reaped_current _ _ _ Hre4). }
    assert (Hp46 : preparing s4 s6) by (eapply preparing_trans; [apply preparing_processes|exact Hp6]).
    apply Hno; [done|done| |by apply (preparing_ready s4)|done].
    eapply step_trans; [exact Hinv|by apply (preparing_step c s l w s3 (v :: w))|]. eapply step_trans; [exact Hi3| |].
    + by apply (step_reaped addresses symbols first_byte last_byte rest c s3 l (v :: w) s4 l (v :: w)).
    + by apply preparing_step.
  - intros s4 tp raw guard t Hi4 Hfresh Hsp Hmem. cbn [negb]. ksteps. pose proof Hsp as [Eg4 [Hnp Epid] _ Hstart].
    injection Eg4 as Et4 Ecur _ _ _. change (processes s3) with t3 in Et4.
    assert (Eid : task_id t = g_next_pid s3) by (unfold t, new_task; by destruct (g_fpu_context_enabled s3)).
    injection Hmem as Efr Enx.
    apply (Hyes s4 v tp t). constructor; fold process; rewrite ?Et4; try done.
    + eapply step_trans; [exact Hinv|by apply (preparing_step c s l w s3 (v :: w))|]. by eapply step_spawned.
    + apply (ready_insert s3); [by apply (preparing_ready s)|exact Ecur].
    + unfold t, new_task. by destruct (g_fpu_context_enabled s3).
    + assert (E3 : g_next_pid s3 = g_next_pid s /\ g_fpu_context_enabled s3 = g_fpu_context_enabled s /\ g_initial_fpu_state s3 = g_initial_fpu_state s)
        by (rewrite Hp3; done).
      destruct E3 as (E31 & E32 & E33). split; [congruence|]. intros He. unfold t, new_task. by rewrite E32, He.
    + unfold holds, page_in, byte_in. rewrite Efr, Enx. exact Hholds.
    + rewrite Enx. exact Hnx.
    + rewrite Hf3, Ep2. done.
Qed.

Lemma launch_spec entry argument bytes plan c s l w (Q : app_runtime_launch_result * option Z -> scheduler A -> Prop) R :
  sched_inv s l w rest -> ready_now s l -> table_inv (processes s) -> launchable entry bytes plan ->
  (forall result s', result <> APP_RUNTIME_LAUNCH_OK -> result <> APP_RUNTIME_LAUNCH_INVALID_IMAGE -> step c s l w s' l w -> ready_now s' l ->
     entries_kept (processes s) (processes s') -> Q (result, None) s') ->
  (forall s' v tp t, launched entry argument bytes plan c s l w s' v tp t -> Q (APP_RUNTIME_LAUNCH_OK, Some (g_next_process_id (processes s))) s') ->
  kwp (launch addresses symbols entry argument) Q R s.
Proof.
  intros Hinv Hready Ht Hla Hno Hyes. destruct (launchable_plan _ _ _ Hla) as (Hplan & Hne & _).
  assert (Hfail : forall result s', result <> APP_RUNTIME_LAUNCH_OK -> result <> APP_RUNTIME_LAUNCH_INVALID_IMAGE -> sched_inv s' l w rest ->
    only_spaces s s' -> Q (result, None) s').
  { intros result s' Hr1 Hr2 Hinv' Hs'. pose proof (only_spaces_preparing _ _ Hs') as Hp.
    apply Hno; [done|done| | |rewrite Hs'; by apply entries_kept_refl]; [by apply preparing_step|by apply (preparing_ready s)]. }
  unfold launch. apply kwp_bind, kwp_get. destruct (paging_nx_available (kernel s)) eqn:Enx; cbn [negb];
    [|ksteps; apply Hfail; [done|done|done|apply only_spaces_refl]].
  apply kwp_bind, (kwp_lift _ _ _ _ _ (resolve_launchable _ _ _ Hla)). apply kwp_bind.
  apply (kwp_create_space addresses symbols first_byte last_byte rest s l w); [done| |].
  { intros s1 Hi1 Ho1 _. change (NULL =? NULL) with true. cbv iota. ksteps. by apply Hfail. }
  intros s1 v1 Hi1 Ho1 En1 Hun Hn Htree. rewrite (proj2 (Z.eqb_neq _ _) Hn). apply kwp_bind.
  apply (map_and_load_image_spec addresses symbols first_byte last_byte rest bytes plan s1 l v1 w); [done| |exact (la_bytes _ _ _ Hla)|done|done|].
  { intros r. unfold page_in. rewrite Htree. by apply user_page_none, lookup_singleton_ne. }
  intros ok s2 v2 Ha2 Hh2. destruct Ha2 as [Hi2 Ho2 Eself _ En2]. rewrite <- Eself in *.
  pose proof (only_spaces_trans _ _ _ Ho1 Ho2) as Ho. destruct ok; cbn [negb].
  - apply (launch_process entry argument bytes plan c s l w s2 v2); [done|done|done|done| |done|by apply only_spaces_preparing|by rewrite Ho|done|by apply Hh2|done|done].
    rewrite En2, En1. exact Enx.
  - apply kwp_bind, (kwp_destroy_new addresses symbols first_byte last_byte rest s2 l v2 w); [done|done|]. intros s3 Hi3 Ho3. ksteps.
    apply Hfail; [done|done|done|]. by eapply only_spaces_trans.
Qed.

End Launch.
