(* ===== verification/AppHistory.v ===== *)
(** * Histories of the machine

    What the kernel does from the start of the scheduler on: requests of the running task, launches of
    installed applications, and calls on the memory of the running application.  Every state that is reached
    is sound, and a task finds its registers and its stack as it left them. *)

From stdpp Require Import gmap.
From S2P Require Import Prelude CString FsCodec Heap Allocator Elf ElfSpec Manifest AppCatalog AppProcess AppProcessSpec Paging PagingTree PagingSpace PagingMap PagingKernel PagingGuard PagingClaims Scheduler SchedRing SchedInv SchedSpawn SchedSafe SchedRun SchedKeeps AppRuntime AppImage AppLaunch.

Section Machine.
Context {A : Type} `{Allocator A} (addresses : table_addresses) (symbols : symbols).

(** Calls on the space of the running application. *)
Definition unmap_user (p address size : Z) : KM (scheduler A) bool := fun s =>
  space ← space_at p s;
  '(ok, space, k) ← paging_user_unmap_anonymous space address size (kernel s);
  Some (Done ok, set_spaces (match space with None => spaces s | Some space => <[p := space]> (spaces s) end) (set_kernel k s)).

Definition copy_user (p address : Z) (bytes : list Z) : KM (scheduler A) bool := fun s =>
  space ← space_at p s;
  '(ok, k) ← paging_copy_to_user space address (Some bytes) (Z.of_nat (length bytes)) (kernel s);
  Some (Done ok, set_kernel k s).

Inductive memory_request :=
| MapMemory (address size : Z) (writable executable : bool)
| UnmapMemory (address size : Z)
| CopyOut (address : Z) (bytes : list Z).

Definition run_memory (q : memory_request) : KM (scheduler A) bool :=
  p ← scheduler_current_address_space;
  match q with
  | MapMemory address size writable executable => map_user p address size writable executable
  | UnmapMemory address size => unmap_user p address size
  | CopyOut address bytes => copy_user p address bytes
  end.

Definition memory_ok (q : memory_request) : Prop :=
  match q with
  | MapMemory a n _ _ | UnmapMemory a n => 0 <= a /\ 0 <= n
  | CopyOut a bytes => 0 <= a /\ bytes_ok bytes /\ bytes <> []
  end.

(** What the running task and its callers keep to: a call leaves room on the stack, a user task gets a space that
    exists and that no other one has, stores are to the own stack above the canary. *)
Definition allowed (s : scheduler A) (t : Task) (r : request) : Prop :=
  match r with
  | Yield frame _ | Tick frame _ | ExitUser _ frame _ | FaultUser _ frame _ | ExitTask frame _ | Bootstrap frame _ => call_ok t frame
  | SpawnUser _ space _ _ _ _ =>
      space = NULL \/ (is_Some (spaces s !! space) /\ forall p u, tasks s !! p = Some u -> is_user u = true -> address_space u <> space)
  | Compute stores _ => Forall (fun st => kernel_stack_canary t + 64 <= st.1 < kernel_stack_top t) stores
  | _ => True
  end.

(** The moves of the machine: a request of the running task, a launch by it, a call on its memory, a call on
    the table of processes. *)
Inductive action :=
| Do (r : request)
| Launch (entry : app_catalog_entry) (argument : option (list Z))
| Memory (q : memory_request)
| Processes (q : process_request).

Definition act (a : action) : KM (scheduler A) unit :=
  match a with
  | Do r => run addresses symbols r;; mret tt
  | Launch entry argument => launch addresses symbols entry argument;; mret tt
  | Memory q => run_memory q;; mret tt
  | Processes q => on_processes (AppProcessSpec.run_request q);; mret tt
  end.

(** With the applications of [c]. *)
Definition act_ok (c : catalog) (s : scheduler A) (a : action) : Prop :=
  match a with
  | Do r => forall t, tasks s !! g_current_task s = Some t -> allowed s t r
  | Launch entry _ => entry ∈ installed c
  | Memory q => memory_ok q
  | Processes _ => True
  end.

(** No other task can run. *)
Definition alone (s : scheduler A) : Prop := forall p t, tasks s !! p = Some t -> task_state t = TASK_READY -> p = g_current_task s.

(** The machine may halt when the last task ends, or when a task of the kernel asks for the end of a user task. *)
Definition act_halts (s : scheduler A) (a : action) : Prop :=
  match a with
  | Do (ExitUser _ _ _) | Do (FaultUser _ _ _) => alone s \/ exists t, tasks s !! g_current_task s = Some t /\ is_user t = false
  | Do (ExitTask _ _) | Do (Bootstrap _ _) => alone s
  | _ => False
  end.

Definition machine_step (c : catalog) (s s' : scheduler A) : Prop := exists a, act_ok c s a /\ act a s = Some (Done tt, s').

(** Moves while the task [p] does not run. *)
Definition elsewhere (c : catalog) (p : Z) (s s' : scheduler A) : Prop := g_current_task s <> p /\ machine_step c s s'.

End Machine.

Section History.
Context {A : Type} `{AllocatorLaws A} (addresses : table_addresses) (symbols : symbols) (first_byte last_byte : Z).
Context (Hsym : symbols_ok symbols) (rest : list (Z * Z)) (c : catalog) (Hcat : catalog_inv c).

Abbreviation sched_inv := (sched_inv addresses symbols first_byte last_byte).
Abbreviation space_after := (space_after addresses symbols first_byte last_byte rest).
Abbreviation step := (step addresses symbols first_byte last_byte rest).
Abbreviation moved := (moved addresses symbols first_byte last_byte rest).
Abbreviation machine_step := (machine_step addresses symbols c).
Abbreviation elsewhere := (elsewhere addresses symbols c).
Implicit Types (s : scheduler A) (l : ring) (w : list live).

(** What holds in every state: [l] is the ring, [w] the live spaces. *)
Record sound s l w : Prop := {
  so_inv : sched_inv s l w rest;
  so_ready : ready_now s l;
  so_table : table_inv (processes s);
}.

(** ** Memory *)

Lemma inv_live_perm s l w w' : sched_inv s l w rest -> w ≡ₚ w' -> sched_inv s l w' rest.
Proof.
  intros [Hr (bss & Hb & [I1 I2 I3 I4 (t & Ht & I5)])] Hp. split; [done|]. exists bss. split; [done|]. constructor; [|done| |done|].
  - apply Forall_forall. intros x Hx. destruct (proj1 (Forall_forall _ _) I1 x Hx) as [T1 T2 T3 T4 T5]. constructor; try done.
    unfold space_ref in *. destruct (is_user x.2); [|done]. by rewrite <- Hp.
  - by apply (kernel_part_perm _ _ _ _ _ w).
  - exists t. split; [done|]. destruct (is_user t); [|done]. destruct I5 as (v & Hv & E). exists v. by rewrite <- Hp.
Qed.

(** The space of the running task: none, or a live one. *)
Lemma kwp_current_space s l w (Q : Z -> scheduler A -> Prop) R :
  sched_inv s l w rest -> ready_now s l -> Q NULL s -> (forall v w', w ≡ₚ v :: w' -> Q (live_self v) s) -> kwp scheduler_current_address_space Q R s.
Proof.
  intros Hinv (t & Ht & Hready) HQ0 HQ. unfold scheduler_current_address_space, current_user_field. apply kwp_bind.
  apply (current_is_user_spec addresses symbols first_byte last_byte rest (g_current_task s) t s l w); [done|done|done|].
  destruct (is_user t && bool_decide (task_state t = TASK_READY)) eqn:Eu; cbn [negb]; ksteps; [|done].
  apply (kwp_ring_at (g_current_task s) t s l _ _ (proj1 Hinv) Ht). intros k. ksteps. cbn [address_space set_next].
  apply andb_true_iff in Eu as [Eu _]. destruct (task_facts _ _ _ _ _ _ _ _ _ _ Hinv Ht) as [_ _ _ T4 _]. cbn [snd] in T4.
  unfold space_ref in T4. rewrite Eu in T4. apply list_elem_of_fmap in T4 as (v & -> & Hv).
  apply list_elem_of_split in Hv as (l1 & l2 & ->). apply (HQ v (l1 ++ l2)). by rewrite Permutation_middle.
Qed.

Lemma kwp_unmap_user s l v w address size (Q : bool -> scheduler A -> Prop) R :
  sched_inv s l (v :: w) rest -> 0 <= address -> 0 <= size ->
  (forall ok s' v', space_after s s' l v v' w -> Q ok s') -> kwp (unmap_user (live_self v) address size) Q R s.
Proof.
  intros Hinv Ha Hn HQ. destruct (inv_space_step addresses symbols first_byte last_byte rest _ _ _ _ Hinv) as (others & Hsp & Hm & Hn0 & Hstep).
  destruct (unmap_anonymous_spec (kernel s) (live_space v) (live_tree v) others address size Hsp Ha Hn) as (ok & sp & k & n' & E & Hst & _).
  destruct (Hstep _ _ _ Hst) as (Hinv' & En & Es & E4). unfold kwp, unmap_user. rewrite (space_at_head addresses symbols first_byte last_byte rest _ _ _ _ Hinv), some_bind.
  unfold paging_user_unmap_anonymous, on_space. rewrite E, !some_bind. apply (HQ ok _ (sp, n', v.2)). by constructor.
Qed.

Lemma kwp_copy_user s l v w address bytes (Q : bool -> scheduler A -> Prop) R :
  sched_inv s l (v :: w) rest -> 0 <= address -> bytes_ok bytes -> bytes <> [] ->
  (forall ok s', space_after s s' l v v w -> Q ok s') -> kwp (copy_user (live_self v) address bytes) Q R s.
Proof.
  intros Hinv Ha Hb Hne HQ. destruct (inv_space_step addresses symbols first_byte last_byte rest _ _ _ _ Hinv) as (others & Hsp & Hm & Hn0 & Hstep).
  assert (Hlen : (0 < length bytes)%nat) by (destruct bytes; [done|cbn; lia]).
  destruct (copy_to_user_internal_spec (kernel s) (live_space v) (live_tree v) others address bytes (Z.of_nat (length bytes)) true Hsp Ha) as (ok & k & E & _ & Hres);
    [lia|done|]. unfold kwp, copy_user. rewrite (space_at_head addresses symbols first_byte last_byte rest _ _ _ _ Hinv), some_bind. unfold paging_copy_to_user. rewrite E, some_bind.
  assert (Hinv' : space_step others (kernel s) (live_space v) k (live_space v) (live_tree v)) by (destruct ok; [by destruct Hres|subst k; done]).
  destruct (Hstep _ _ _ Hinv') as (Hi & En & _). rewrite insert_id in Hi by done. destruct v as [[sp t] z]. apply (HQ ok). by constructor.
Qed.

(** A call on memory keeps the tasks. *)
Lemma run_memory_spec q s l w (Q : bool -> scheduler A -> Prop) R :
  sched_inv s l w rest -> ready_now s l -> memory_ok q ->
  (forall ok s' w', sched_inv s' l w' rest -> only_spaces s s' -> Q ok s') -> kwp (run_memory q) Q R s.
Proof.
  intros Hinv Hready Hq HQ. unfold run_memory. apply kwp_bind, (kwp_current_space s l w); [done|done| |].
  - assert (Hid : Q false (set_kernel (kernel s) s)) by (apply (HQ false _ w); [by destruct s|by destruct s]).
    assert (Hid2 : Q false (set_spaces (spaces s) (set_kernel (kernel s) s))) by exact Hid.
    destruct q as [a n wr ex|a n|a bytes]; unfold kwp, map_user, unmap_user, copy_user, space_at; rewrite Z.eqb_refl, some_bind; [exact Hid2|exact Hid2|].
    destruct Hq as (Q1 & Q2 & Q3). unfold paging_copy_to_user, copy_to_user_internal, paging_user_range_mapped.
    assert (E : (Z.of_nat (length bytes) =? 0) = false) by (apply Z.eqb_neq; destruct bytes; [done|cbn; lia]).
    rewrite !E. destruct (negb (user_range_valid _ _)); exact Hid.
  - intros v w' Hw. pose proof (inv_live_perm _ _ _ _ Hinv Hw) as Hinv'.
    assert (HQ' : forall ok s' v', space_after s s' l v v' w' -> Q ok s') by (intros ok s' v' [Hi Ho _ _ _]; by apply (HQ ok s' (v' :: w'))).
    destruct q; cbn [memory_ok] in Hq.
    + apply (kwp_map_user addresses symbols first_byte last_byte rest s l v w'); [done|tauto|tauto|]. intros ok s' v' Ha _. by apply (HQ' ok s' v').
    + apply (kwp_unmap_user s l v w'); [done|tauto|tauto|done].
    + apply (kwp_copy_user s l v w'); [done|tauto|tauto|tauto|]. intros ok s' Ha. by apply (HQ' ok s' v).
Qed.

(** ** Requests *)

Lemma table_kept : untouched (fun s => table_inv (processes s)) /\ about_processes (fun s => table_inv (processes s)).
Proof.
  split; constructor; try done; intros.
  - by apply (request_inv (ReqExited _ _)).
  - by apply (request_inv (ReqFault _ _)).
  - by apply (request_inv (ReqRunning _)).
Qed.

Lemma turns_alone s l tc : ring_rep (tasks s) (g_head s) l -> (g_current_task s, tc) ∈ l -> turns (g_current_task s) l = [] -> alone s.
Proof.
  intros Hr Hc Ht p t Hp Hready. destruct (decide (p = g_current_task s)) as [|Hne]; [done|]. exfalso.
  assert (Hin : p ∈ l.*1) by (by apply (rr_dom _ _ _ Hr); eexists). apply list_elem_of_fmap in Hin as ([p' u] & -> & Hu).
  destruct (ring_lookup _ _ _ _ _ Hr Hu) as (n & E). cbn [fst] in *. rewrite E in Hp. injection Hp as <-.
  destruct (ring_split _ _ _ _ _ Hr Hc) as (l1 & l2 & -> & N1 & N2). unfold turns in Ht. rewrite following_split in Ht by done.
  assert (Hf : (p', u) ∈ filter ready (l2 ++ l1)).
  { apply list_elem_of_filter. split; [done|]. rewrite elem_of_app in Hu |- *. rewrite elem_of_cons in Hu. destruct Hu as [?|[[= -> ->]|?]]; [by right|done|by left]. }
  rewrite Ht in Hf. by apply elem_of_nil in Hf.
Qed.

Lemma allowed_ok s l w tc n r : sched_inv s l w rest -> allowed s (set_next n tc) r -> request_ok l w tc r.
Proof.
  intros [Hr (bss & _ & [_ _ (_ & _ & Hsp) _ _])] Ha. destruct r; cbn [allowed request_ok] in *; try done; try (by destruct Ha).
  destruct Ha as [?|[[sp Hs] Hun]]; [by left|right]. apply Hsp in Hs as (v & Hv & _ & <-). split; [by apply list_elem_of_fmap_2|].
  intros [p t] Hp Hu. destruct (ring_lookup _ _ _ _ _ Hr Hp) as (k & E). by apply (Hun p _ E).
Qed.

Lemma may_halt_act s l tc r :
  ring_rep (tasks s) (g_head s) l -> (g_current_task s, tc) ∈ l -> may_halt l (g_current_task s) tc r -> act_halts s (Do r).
Proof.
  intros Hr Hc. destruct r; cbn [may_halt act_halts]; try done; try (by eapply turns_alone); (intros [Hu|Ht]; [right|left; by eapply turns_alone]);
    destruct (ring_lookup _ _ _ _ _ Hr Hc) as (n & E); by eexists.
Qed.

(** Every allowed move is made to its end, into a sound state, or halts as [act_halts] tells. *)
Lemma act_spec a s l w :
  sound s l w -> act_ok c s a ->
  kwp (act addresses symbols a) (fun _ s' => exists r l' w', sound s' l' w' /\ moved r (g_current_task s) s l w s' l' w') (fun _ => act_halts s a) s.
Proof.
  intros [Hinv Hready Ht] Ha. pose proof Hready as (tc & Hc & Hrc). pose proof Hinv as [Hr _].
  assert (Hstep : forall s' l' w', step (g_current_task s) s l w s' l' w' -> ready_now s' l' -> table_inv (processes s') ->
    exists r l' w', sound s' l' w' /\ moved r (g_current_task s) s l w s' l' w').
  { intros s' l' w' Hst Hr' Ht'. exists (SetName None), l', w'. split; [|by apply moved_step]. constructor; [by destruct Hst|done|done]. }
  destruct a as [r|entry argument|q|q]; cbn [act act_ok] in *; apply kwp_bind.
  - destruct (ring_lookup _ _ _ _ _ Hr Hc) as (n & En). pose proof (allowed_ok _ _ _ _ _ _ Hinv (Ha _ En)) as Hok.
    destruct table_kept as [Hk1 Hk2]. apply (kwp_keeps (fun s => table_inv (processes s))); [by apply keeps_run|done|].
    assert (Hrun := run_spec addresses symbols first_byte last_byte Hsym rest r _ _ _ _ _ Hinv Hc eq_refl Hrc Hok).
    revert Hrun. unfold kwp. destruct (run addresses symbols r s) as [[[ctl|] s']|]; [|intros Hm; by eapply may_halt_act|done].
    intros (l' & w' & Hm) Ht'. exists r, l', w'. split; [|done]. by destruct Hm.
  - destruct (proj1 (Forall_forall _ _) (ci_entries _ Hcat) _ Ha) as (bytes & Hla).
    apply (launch_spec addresses symbols first_byte last_byte Hsym rest entry argument bytes (image_plan entry) (g_current_task s) s l w); [done|done|done|exact Hla| |].
    + intros result s' _ _ Hst Hr' [Ht' _]. ksteps. by apply (Hstep s' l w).
    + intros s' v tp t [Hst Hr' _ _ _ _ _ [Ht' _] _ _]. ksteps. by eapply Hstep.
  - apply (run_memory_spec q s l w); [done|done|done|]. intros ok s' w' Hinv' Ho. pose proof (only_spaces_preparing _ _ Ho) as Hp. ksteps.
    apply (Hstep s' l w'); [by apply preparing_step|by apply (preparing_ready s)|]. by rewrite Ho.
  - apply kwp_processes. ksteps. pose proof (inv_processes addresses symbols first_byte last_byte rest _ (AppProcessSpec.run_request q (processes s)).2 _ _ Hinv) as Hinv'.
    apply (Hstep _ l w); [|done|by apply request_inv].
    apply (preparing_step addresses symbols first_byte last_byte rest (g_current_task s) s l w); [done|done|apply preparing_processes].
Qed.

(** ** Reachable states *)

(** From a boot with a sound table of processes, if there was memory for the first task. *)
Inductive reachable : scheduler A -> Prop :=
| reach_boot feature_d s0 w s :
    boot_state addresses first_byte last_byte rest s0 w -> table_inv (processes s0) ->
    scheduler_init symbols feature_d s0 = Some (Done tt, s) -> g_head s <> NULL -> reachable s
| reach_step s s' : reachable s -> machine_step s s' -> reachable s'.

Lemma machine_step_sound s s' l w :
  sound s l w -> machine_step s s' -> exists r l' w', sound s' l' w' /\ moved r (g_current_task s) s l w s' l' w'.
Proof. intros Hs (a & Ha & E). pose proof (act_spec a s l w Hs Ha) as Hact. unfold kwp in Hact. by rewrite E in Hact. Qed.

Lemma reachable_sound s : reachable s -> exists l w, sound s l w.
Proof.
  induction 1 as [feature_d s0 w s Hb Ht E Hh|s s' _ (l & w & Hs) Hstep].
  - pose proof (scheduler_init_spec addresses symbols first_byte last_byte Hsym rest feature_d s0 w Hb) as Hi. unfold kwp in Hi. rewrite E in Hi.
    destruct Hi as [[? _]|(l & p & t & Hinv & [-> Ec (Hst & _) _ _ _])]; [done|]. exists [(p, t)], w. constructor; [done| |].
    + exists t. rewrite Ec. split; [by left|done].
    + by apply (keeps_init symbols (fun s => table_inv (processes s)) (proj1 table_kept) feature_d s0 (Done tt)).
  - destruct (machine_step_sound _ _ _ _ Hs Hstep) as (_ & l' & w' & Hs' & _). by exists l', w'.
Qed.

(** ** A task that does not run *)

(** What the task [t] at [p] had in [s], as the task with its id has it in [s']. *)
Record same_context (p : Z) (t : Task) s s' (l' : ring) : Prop := {
  sx_task : forall q u, (q, u) ∈ l' -> task_id u = task_id t ->
    q = p /\ body u = body t /\ rsp u = rsp t /\ stack_same (words s) (words s') t /\
    (g_fpu_context_enabled s = true -> fpu_of s' p u = fpu_of s p t);
  sx_enabled : g_fpu_context_enabled s' = g_fpu_context_enabled s;
  sx_id : g_next_pid s' = 0 \/ task_id t < g_next_pid s';
}.

Lemma same_context_refl p t s l w : sound s l w -> (p, t) ∈ l -> same_context p t s s l.
Proof.
  intros [Hinv _ _] Hp. constructor; [|done|].
  - intros q u Hq E. by destruct (same_id _ _ _ _ _ _ _ _ _ _ _ _ Hinv Hq Hp E) as [-> ->].
  - destruct (decide (g_next_pid s = 0)); [by left|right]. by eapply old_id.
Qed.

Lemma elsewhere_context p t s s' l w :
  sound s l w -> (p, t) ∈ l -> rtc (elsewhere p) s s' -> exists l' w', sound s' l' w' /\ same_context p t s s' l'.
Proof.
  intros Hs Hp Hrun. revert s' Hrun. apply rtc_ind_r; [exists l, w; split; [done|by eapply same_context_refl]|].
  intros s1 s2 _ [Hne Hstep] (l1 & w1 & Hs1 & [K1 K2 K3]).
  destruct (machine_step_sound _ _ _ _ Hs1 Hstep) as (r & l2 & w2 & Hs2 & [_ _ M3 M4 M5 M6]). exists l2, w2. split; [done|].
  injection M5 as M5 _. constructor; [|congruence|].
  - intros q u Hq Eu. destruct (M4 q u Hq) as [(v & Hv & Ev)|[Hn Hle]]; [|rewrite Eu in Hle; lia].
    destruct (K1 q v Hv ltac:(congruence)) as (-> & Ebv & Erv & Hwv & Hfv).
    destruct (M3 p v p u Hv Hq ltac:(congruence)) as (_ & Eb & Hf & Hw). destruct (Hw ltac:(congruence)) as [Er Hw'].
    split; [done|]. split; [congruence|]. split; [congruence|]. split.
    + intros a Ha. destruct (body_eq _ _ Ebv) as (_ & _ & F1 & F2 & _). rewrite Hw' by (by rewrite F1, F2). by apply Hwv.
    + intros He. rewrite Hf; [by apply Hfv|congruence|left; congruence].
  - destruct M6 as [P1 P2], K3 as [K3|K3]; [left; auto|]. destruct (decide (g_next_pid s1 = 0)); [left; auto|]. destruct P2; [by left|right; lia].
Qed.

End History.
