(* ===== verification/MachineClaims.v ===== *)
(** * A concrete machine

    A scheduler over the concrete heap and the identity map, from its boot on, on which the theorems about the
    scheduler and the applications are run.

    Then the properties of the scheduler, the launches and the catalog. *)

From stdpp Require Import gmap.
From S2P Require Import Prelude CString Syslog FsCodec Heap HeapSpec Allocator Elf ElfSpec Manifest AppCatalog AppProcess AppProcessSpec Paging PagingTree PagingSpace PagingMap PagingKernel PagingGuard PagingClaims Scheduler SchedRing SchedInv SchedSpawn SchedSafe SchedRun SchedKeeps SchedTurns AppRuntime AppImage AppLaunch AppHistory.

(** The boot stack is below the heap. *)
Definition demo_symbols : symbols := Symbols 0x151000 0x150000 0x161000 0x120000 0x120010 0x120020.

Lemma demo_symbols_ok : symbols_ok demo_symbols.
Proof. constructor; [by vm_compute|by vm_compute|left; by vm_compute|by vm_compute|by vm_compute]. Qed.

(** The kernel after [paging_init]. *)
Definition demo_kernel : paging heap :=
  from_option snd demo_reset (paging_init demo_addresses demo_boot_info demo_cpu demo_reset).

Definition demo_boot : scheduler heap := Scheduler demo_kernel ∅ boot_table ∅ ∅ NULL NULL 1 false [] (Registers [7] 0x80000011 0x20 0).

Lemma demo_kernel_ok : kernel_ok demo_addresses demo_kernel ∅ 0xbff00000 0xc01fffff /\ world_ok demo_kernel [] [] /\ cr3 demo_kernel = pml4_address demo_addresses.
Proof.
  destruct demo_init as (s & E & Hk & _ & Hw). assert (Ek : demo_kernel = s) by (unfold demo_kernel; by rewrite E).
  rewrite <- Ek in Hk, Hw. split; [done|]. split; [done|]. by vm_compute.
Qed.

#[global] Opaque demo_kernel.

Lemma demo_boot_state : boot_state demo_addresses 0xbff00000 0xc01fffff [] demo_boot [].
Proof.
  destruct demo_kernel_ok as (Hk & Hw & Hc). constructor; unfold demo_boot; cbn [kernel spaces tasks g_next_pid g_current_task g_head]; [|exact Hc|reflexivity|reflexivity|reflexivity|reflexivity]. split; [exact Hw|]. split; [exact Hk|]. split; [constructor|].
  clear. intros p space. rewrite lookup_empty. split; [discriminate|]. intros (v & Hv & _). by apply elem_of_nil in Hv.
Qed.

(** A CPU with the four features. *)
Definition demo_features : Z := 0x7000001.

Definition demo_started : option (outcome unit * scheduler heap) := scheduler_init demo_symbols demo_features demo_boot.

(** Moves from the start on. *)
Fixpoint demo_acts (acts : list action) : KM (scheduler heap) unit :=
  match acts with
  | [] => mret tt
  | a :: acts => act demo_addresses demo_symbols a;; demo_acts acts
  end.

Definition demo_frame : call_frame := CallFrame 0x160000 [1; 2; 3; 4; 5; 6].

Definition demo_after (acts : list action) : option (outcome unit * scheduler heap) := (scheduler_init demo_symbols demo_features;; demo_acts acts) demo_boot.

Definition answer {B} (r : option (outcome unit * scheduler heap)) (f : scheduler heap -> B) : option B :=
  match r with Some (Done _, s) => Some (f s) | _ => None end.

(** Ten applications with the same small image. *)
Definition demo_image : embedded_image := EmbeddedImage 0x130000 (0x130000 + 182) sample_elf.
Definition demo_images : embedded_images :=
  EmbeddedImages demo_image demo_image demo_image demo_image demo_image demo_image demo_image demo_image demo_image demo_image.
Definition demo_arrays : catalog :=
  Catalog (replicate APP_CATALOG_CAPACITY (CatalogEntry HELLO_MANIFEST sample_plan None 0)) 0 (Registry (replicate APP_REGISTRY_CAPACITY HELLO_MANIFEST) 0).
Definition demo_catalog : catalog := match app_catalog_initialize_embedded demo_images demo_arrays with Some (_, c) => c | None => demo_arrays end.
Definition demo_entry : app_catalog_entry := CatalogEntry HELLO_MANIFEST sample_plan (Some sample_elf) 182.

Lemma demo_images_ok : Forall image_ok (images demo_images).
Proof. repeat constructor; try exact sample_elf_ok. all: vm_compute; congruence. Qed.

Lemma demo_arrays_ok : arrays_ok demo_arrays.
Proof. by split. Qed.

Lemma demo_catalog_inv : catalog_inv demo_catalog.
Proof.
  destruct (initialize_spec demo_images demo_arrays demo_arrays_ok demo_images_ok) as (r & c & E & Hc & _). unfold demo_catalog. by rewrite E.
Qed.

Lemma demo_entry_installed : demo_entry ∈ installed demo_catalog.
Proof. apply (list_elem_of_lookup_2 _ 0). vm_compute. reflexivity. Qed.

Lemma demo_launchable : launchable demo_entry sample_elf sample_plan.
Proof. constructor; [reflexivity|exact sample_elf_ok|by vm_compute|exact sample_accepted|reflexivity|by vm_compute]. Qed.

Notation demo_reachable := (reachable demo_addresses demo_symbols 0xbff00000 0xc01fffff [] demo_catalog).
Notation demo_act := (act demo_addresses demo_symbols).

Lemma demo_start : answer (demo_after []) (fun s => g_head s =? NULL) = Some false -> exists s, demo_after [] = Some (Done tt, s) /\ demo_reachable s.
Proof.
  unfold demo_after, mbind, KM_bind. destruct (scheduler_init demo_symbols demo_features demo_boot) as [[[[]|] s]|] eqn:E; [|done|done].
  intros Hh. exists s. split; [reflexivity|]. apply (reach_boot _ _ _ _ _ _ demo_features demo_boot [] s); [apply demo_boot_state|apply boot_table_inv|exact E|].
  cbn in Hh. injection Hh as Hh. by apply Z.eqb_neq.
Qed.

Lemma demo_acts_snoc acts a s : demo_acts (acts ++ [a]) s = (demo_acts acts;; demo_act a;; mret tt) s.
Proof.
  revert s. induction acts as [|b acts IH]; intros s; [done|]. cbn [app demo_acts]. unfold mbind, KM_bind. destruct (demo_act b s) as [[[u|] s']|]; [|done|done]. apply IH.
Qed.

(** One move more. *)
Lemma demo_next acts a s B (f : scheduler heap -> B) v :
  demo_after acts = Some (Done tt, s) -> demo_reachable s -> act_ok demo_catalog s a -> answer (demo_after (acts ++ [a])) f = Some v ->
  exists s', demo_after (acts ++ [a]) = Some (Done tt, s') /\ demo_act a s = Some (Done tt, s') /\ demo_reachable s' /\ f s' = v.
Proof.
  unfold demo_after, mbind, KM_bind. destruct (scheduler_init demo_symbols demo_features demo_boot) as [[[[]|] s0]|]; [|done|done].
  rewrite demo_acts_snoc. unfold mbind, KM_bind. intros -> Hs Ha. destruct (demo_act a s) as [[[[]|] s']|] eqn:E; [|done|done].
  intros [= Hf]. exists s'. split; [done|]. split; [done|]. split; [|done]. apply (reach_step _ _ _ _ _ _ s); [done|]. by exists a.
Qed.

(** The stack of the running task. *)
Definition current_stack (s : scheduler heap) : option (Z * Z) := option_map (fun t => (kernel_stack_canary t, kernel_stack_top t)) (tasks s !! g_current_task s).

(** * The scheduler and the applications: their properties

    The theorems about every state that the machine reaches: tasks, their contexts and their turns, launches of
    applications; each with a concrete run from the boot on. *)

(** A page of a launched application: there for its stack and its segments, with their rights, never writable and executable. *)
Definition stack_page (q : Z) : Prop := STACK_START / 4096 <= q < APP_USER_STACK_TOP / 4096.

Definition page_exact (plan : elf64_image_plan) (q : Z) (page : option (list Z * Z)) : Prop :=
  match page with
  | None => ~ stack_page q /\ forall g, g ∈ segments plan -> ~ touches q g
  | Some (_, f) => exists wr ex, f = frame_flags wr ex true /\ wr && ex = false /\
      (stack_page q \/ exists g, g ∈ segments plan /\ touches q g) /\
      (wr = true <-> stack_page q \/ exists g, g ∈ segments plan /\ touches q g /\ ElfSpec.writable g = true) /\
      (ex = true <-> ~ stack_page q /\ exists g, g ∈ segments plan /\ touches q g /\ ElfSpec.executable g = true)
  end.

(** A byte of it: of the file where a segment has one, else zero. *)
Definition byte_exact (plan : elf64_image_plan) (bytes : list Z) (x : Z) (b : option Z) : Prop :=
  (forall g, g ∈ segments plan -> file_backed g x -> b = bytes !! Z.to_nat (file_offset g + (x - virtual_address g))) /\
  ((forall g, g ∈ segments plan -> ~ file_backed g x) -> b = Some 0).

Section Memory.
Context {A : Type} `{AllocatorLaws A}.

Lemma holds_exact (s : scheduler A) v plan bytes n x :
  plan_inv n plan true -> g_nx_enabled (kernel s) = true -> holds s v plan bytes -> 0 <= x < 2 ^ 52 ->
  page_exact plan (x / 4096) (page_in s v (x / 4096)) /\ (is_Some (page_in s v (x / 4096)) -> byte_exact plan bytes x (byte_in s v x)).
Proof.
  intros Hp Hnx Hh Hx. destruct (Hh x Hx) as [Hr Hb]. rewrite Hnx in Hr, Hb.
  assert (Hq : 0 <= x / 4096 < 2 ^ 40) by (split; [apply Z.div_pos; lia|apply Z.div_lt_upper_bound; lia]). split.
  - destruct (page_permissions_spec n plan true Hp _ Hq) as (used & wr & ex & E & Hu & Hw & He & Hx2).
    unfold page_rights in Hr. rewrite E in Hr. unfold page_exact. fold (stack_page (x / 4096)) in Hr.
    destruct (page_in s v (x / 4096)) as [[content f]|]; cbn in Hr; case_decide as Hst; try discriminate Hr.
    + injection Hr as ->. exists true, false. split; [reflexivity|]. split; [done|]. split; [by left|]. split; split; [intros _; by left|done|done|intros [Hno _]; by destruct Hno].
    + destruct used; [|discriminate Hr]. injection Hr as ->. exists wr, ex. split; [done|]. split; [done|]. tauto.
    + destruct used; [discriminate Hr|]. split; [done|]. intros g Hg Ht. discriminate (proj2 Hu (ex_intro _ g (conj Hg Ht))).
  - intros [pg Epg]. rewrite Epg in Hr. cbn in Hr. rewrite <- Hr in Hb. change (byte_in s v x = loaded bytes (segments plan) (fun _ => Some 0) x) in Hb.
    rewrite Hb. destruct Hp as (Hwf & Hpw & _). split.
    + intros g Hg Hf. apply loaded_inside; [|done|done|done]. apply (Forall_impl _ _ _ Hwf). by intros ? (_ & ? & _).
    + intros Hno. rewrite loaded_outside; done.
Qed.

End Memory.

Section Claims.
Context {A : Type} `{AllocatorLaws A} (addresses : table_addresses) (symbols : symbols) (first_byte last_byte : Z).
Context (Hsym : symbols_ok symbols) (rest : list (Z * Z)) (c : catalog) (Hcat : catalog_inv c).

Abbreviation sched_inv := (sched_inv addresses symbols first_byte last_byte).
Abbreviation reachable := (reachable addresses symbols first_byte last_byte rest c).
Abbreviation sound := (sound addresses symbols first_byte last_byte rest).
Abbreviation elsewhere := (elsewhere addresses symbols c).
Implicit Types (s : scheduler A) (l : ring) (w : list live).

Lemma task_in s l w p t : sound s l w -> tasks s !! p = Some t -> exists n u, (p, u) ∈ l /\ t = set_next n u.
Proof.
  intros [[Hr _] _ _] Hp. assert (Hin : p ∈ l.*1) by (by apply (rr_dom _ _ _ Hr); eexists). apply list_elem_of_fmap in Hin as ([p' u] & -> & Hu).
  destruct (ring_lookup _ _ _ _ _ Hr Hu) as (n & E). cbn [fst] in *. rewrite E in Hp. injection Hp as <-. by exists n, u.
Qed.

Lemma in_tasks s l w p u : sound s l w -> (p, u) ∈ l -> exists n, tasks s !! p = Some (set_next n u).
Proof. intros [[Hr _] _ _] Hu. by apply (ring_lookup _ _ _ _ _ Hr). Qed.

Lemma current_ready s l w t : sound s l w -> tasks s !! g_current_task s = Some t -> task_state t = TASK_READY.
Proof.
  intros Hs Ht. destruct (task_in _ _ _ _ _ Hs Ht) as (n & u & Hu & ->). pose proof Hs as [Hinv (v & Hv & Hr) _].
  by rewrite (ring_unique _ _ _ _ _ _ _ _ _ _ _ Hinv Hu Hv).
Qed.

(** C8: whatever the tasks do, the machine stays sound.  From the boot on, every request of the running task to
    the scheduler, every launch, every call on its memory and on the process table ends in a state where the ring of
    tasks, their stacks with canaries and guard pages, their address spaces and the process table are all in order;
    the machine halts only when the last task that can run ends, or when a task of the kernel ends itself as a user
    task; it never faults. *)
Theorem machine_histories_sound feature_d s0 w0 :
  boot_state addresses first_byte last_byte rest s0 w0 -> table_inv (processes s0) ->
  (exists s, scheduler_init symbols feature_d s0 = Some (Done tt, s) /\ (g_head s = NULL \/ reachable s)) /\
  forall s, reachable s -> (exists l w, sound s l w) /\
    forall a, act_ok c s a ->
      match act addresses symbols a s with
      | Some (Done _, s') => reachable s'
      | Some (Halted, _) => act_halts s a
      | None => False
      end.
Proof.
  intros Hb Ht. split.
  - pose proof (scheduler_init_spec addresses symbols first_byte last_byte Hsym rest feature_d s0 w0 Hb) as Hi. unfold kwp in Hi.
    destruct (scheduler_init symbols feature_d s0) as [[[[]|] s]|] eqn:E; [|done|done]. exists s. split; [done|].
    destruct (decide (g_head s = NULL)) as [|Hn]; [by left|right]. by apply (reach_boot _ _ _ _ _ _ feature_d s0 w0).
  - intros s Hs. destruct (reachable_sound addresses symbols first_byte last_byte Hsym rest c Hcat s Hs) as (l & w & Hl).
    split; [by exists l, w|]. intros a Ha. pose proof (act_spec addresses symbols first_byte last_byte Hsym rest c Hcat a s l w Hl Ha) as Hact.
    unfold kwp in Hact. destruct (act addresses symbols a s) as [[[[]|] s']|] eqn:E; [|done|done].
    apply (reach_step _ _ _ _ _ _ s); [done|]. by exists a.
Qed.

(** C9: a task that gives up the processor finds everything as it left it.  Whatever other tasks do in between,
    as long as the task exists its stack pointer is the one of its call, its stack holds RBX, RBP, R12 to R15, the
    flags and the return address of the call and below them the words it had, and the FPU, when the task runs again,
    has the registers it had. *)
Theorem suspended_context_preserved frame saved_rflags s s1 s2 p t q u ctl :
  reachable s -> p = g_current_task s -> tasks s !! p = Some t -> call_ok t frame ->
  run addresses symbols (Yield frame saved_rflags) s = Some (Done ctl, s1) -> g_current_task s1 <> p ->
  rtc (elsewhere p) s1 s2 -> tasks s2 !! q = Some u -> task_id u = task_id t ->
  q = p /\ rsp u = frame_sp frame - 56 /\
  (forall i v, (rev (saved_rflags :: callee_saved frame) ++ [schedule_return symbols]) !! i = Some v -> words s2 !! (rsp u + 8 * Z.of_nat i) = Some v) /\
  (forall a, frame_sp frame + 8 <= a < kernel_stack_top t -> words s2 !! a = words s !! a) /\
  (g_fpu_context_enabled s = true ->
     (if q =? g_current_task s2 then fpu (cpu_registers s2) else fpu_state u) = fpu (cpu_registers s)).
Proof.
  intros Hs Ep Ht Hcall Hrun Hne Haway Hu Eid. destruct (reachable_sound addresses symbols first_byte last_byte Hsym rest c Hcat s Hs) as (l & w & Hl).
  destruct (task_in _ _ _ _ _ Hl Ht) as (n & t0 & Ht0 & ->). pose proof Hl as [Hinv Hnow Htab].
  assert (Hr : task_state t0 = TASK_READY) by (rewrite Ep in Ht; by apply (current_ready _ _ _ _ Hl) in Ht).
  assert (Hcall0 : call_ok t0 frame) by (by destruct Hcall; constructor).
  pose proof (yield_suspends addresses symbols first_byte last_byte Hsym rest frame saved_rflags p t0 s l w Hinv Ht0 Ep Hr Hcall0) as Hy.
  unfold kwp in Hy. rewrite Hrun in Hy. destruct Hy as [?|(l1 & w1 & u1 & Hinv1 & Hr1 & Hu1 & Hsu)]; [done|].
  assert (Htab1 : table_inv (processes s1)).
  { destruct (table_kept (A := A)) as [Hk1 Hk2]. by apply (keeps_run addresses symbols (fun s => table_inv (processes s)) Hk1 Hk2 (Yield frame saved_rflags) s (Done ctl)). }
  assert (Hs1 : sound s1 l1 w1) by (by constructor).
  destruct (elsewhere_context addresses symbols first_byte last_byte Hsym rest c Hcat p u1 s1 s2 l1 w1 Hs1 Hu1 Haway) as (l2 & w2 & Hs2 & [K1 K2 K3]).
  destruct (task_in _ _ _ _ _ Hs2 Hu) as (k & u0 & Hu0 & ->). destruct Hsu as [[B1 _] E1 E2 E3 E4 [E5 E6]]. pose proof (body_eq _ _ B1) as (F0 & _ & F1 & F2 & _).
  destruct (K1 q u0 Hu0) as (-> & Eb & Er & Hw & Hf); [cbn in *; congruence|]. cbn [rsp set_next fpu_state kernel_stack_top] in *.
  destruct (task_facts _ _ _ _ _ _ _ _ _ _ Hinv Ht0) as [T1 _ _ _ _]. destruct (stack_bounds _ _ Hsym T1) as (_ & _ & Hcan & Hb). cbn [snd] in *.
  destruct Hcall0 as [C1 C2 C3].
  split; [done|]. split; [congruence|]. split; [|split].
  - intros i v Hi. rewrite Er, Hw; [by apply E2|]. rewrite F1, F2, E1. apply lookup_lt_Some in Hi. rewrite length_app, length_rev in Hi. cbn in Hi. lia.
  - intros a Ha. rewrite Hw by (rewrite F1, F2; lia). apply E3; lia.
  - intros He. rewrite <- (E4 He). specialize (Hf ltac:(congruence)). unfold fpu_of in Hf. rewrite Hf.
    rewrite (proj2 (Z.eqb_neq _ _)) by congruence. done.
Qed.

(** C11: turns are fair.  In every reachable state the tasks that can run stand in a queue behind the running
    one, in the order of the ring; when each running task gives up the processor in its turn, the [n]-th of the
    queue runs after [n] switches. *)
Theorem round_robin_turns frame saved_rflags s :
  (forall t, stack_ok symbols t -> call_ok t (frame t)) -> reachable s ->
  exists l, ring_rep (tasks s) (g_head s) l /\
    (forall p, p ∈ queue (g_current_task s) l <-> p <> g_current_task s /\ exists t, tasks s !! p = Some t /\ task_state t = TASK_READY) /\
    forall n p, queue (g_current_task s) l !! n = Some p ->
      exists s', yields addresses symbols frame saved_rflags (S n) s = Some (Done tt, s') /\ g_current_task s' = p.
Proof.
  intros Hframe Hs. destruct (reachable_sound addresses symbols first_byte last_byte Hsym rest c Hcat s Hs) as (l & w & Hl). exists l.
  pose proof Hl as [Hinv Hnow _]. pose proof Hinv as [Hr _]. split; [done|]. split.
  - intros p. pose proof Hnow as (tc & Hc & _). unfold queue. rewrite list_elem_of_fmap. split.
    + intros ([p' t] & -> & Hin). pose proof (turns_others _ _ _ _ _ _ _ Hr Hc Hin) as Hne. apply turns_in in Hin as [Hin Hrt].
      split; [done|]. destruct (in_tasks _ _ _ _ _ Hl Hin) as (n & E). by exists (set_next n t).
    + intros (Hne & t & E & Hrt). destruct (task_in _ _ _ _ _ Hl E) as (n & u & Hu & ->). exists (p, u). split; [done|].
      apply list_elem_of_filter. split; [done|]. destruct (ring_split _ _ _ _ _ Hr Hc) as (l1 & l2 & -> & N1 & N2). rewrite following_split by done.
      rewrite elem_of_app in Hu |- *. rewrite elem_of_cons in Hu. destruct Hu as [?|[[= -> ->]|?]]; [by right|done|by left].
  - intros n p Hn. pose proof (yields_queue addresses symbols first_byte last_byte Hsym rest frame saved_rflags n p Hframe s l w Hinv Hnow Hn) as Hy.
    unfold kwp in Hy. destruct (yields _ _ _ _ _ s) as [[[[]|] s']|]; [|done|done]. exists s'. split; [done|]. by destruct Hy as (_ & _ & _ & _ & ?).
Qed.

(** C12: a user task keeps the processor for at most five ticks of the timer.  The ticks before the last only
    count; the last one resets the count and gives the processor to the first of the queue, if there is one. *)
Theorem user_quantum_bounded frame saved_rflags s t :
  reachable s -> tasks s !! g_current_task s = Some t -> is_user t = true -> call_ok t frame -> 0 <= quantum_ticks t ->
  let last := Z.to_nat (SCHEDULER_USER_QUANTUM_TICKS - 1 - quantum_ticks t) in
  (S last <= 5)%nat /\
  (forall j, quantum_ticks t + Z.of_nat j < SCHEDULER_USER_QUANTUM_TICKS ->
     ticks addresses symbols frame saved_rflags j s =
       Some (Done tt, set_tasks (<[g_current_task s := set_quantum_ticks (quantum_ticks t + Z.of_nat j) t]> (tasks s)) s)) /\
  exists l, ring_rep (tasks s) (g_head s) l /\
    forall n ps, queue (g_current_task s) l = n :: ps ->
      exists s', ticks addresses symbols frame saved_rflags (S last) s = Some (Done tt, s') /\ g_current_task s' = n.
Proof.
  intros Hs Ht Hu Hcall Hq last. destruct (reachable_sound addresses symbols first_byte last_byte Hsym rest c Hcat s Hs) as (l & w & Hl).
  pose proof (current_ready _ _ _ _ Hl Ht) as Hready. destruct (task_in _ _ _ _ _ Hl Ht) as (k & t0 & Ht0 & ->).
  pose proof Hl as [Hinv _ _]. pose proof Hinv as [Hr _].
  assert (Hnow : user_now s (set_next k t0)).
  { constructor; try done. intros E. apply (rr_null _ _ _ Hr). rewrite <- E. by apply (list_elem_of_fmap_2 fst) in Ht0. }
  unfold SCHEDULER_USER_QUANTUM_TICKS in *. split; [unfold last; lia|]. split.
  - intros j Hj. by apply ticks_count.
  - exists l. split; [done|]. intros n ps Eq.
    rewrite (ticks_last addresses symbols frame saved_rflags last s (set_next k t0) Hnow) by (unfold last, SCHEDULER_USER_QUANTUM_TICKS; cbn [quantum_ticks set_next]; lia).
    assert (Hcall0 : call_ok t0 frame) by (by destruct Hcall; constructor).
    pose proof (quantum_end addresses symbols first_byte last_byte Hsym rest frame saved_rflags t0 s l w n ps k (fun _ => False) Hinv Ht0 Hready Hcall0 Eq Ht) as He.
    unfold kwp in He. unfold mbind, KM_bind. destruct (run _ _ _ _) as [[[ctl|] s']|]; [|done|done]. by exists s'.
Qed.

(** C13: the end of a task by its id is exact.  It succeeds just when the id is that of a task that can run and
    is not the running one; then that task is gone, all others that can run are left with everything they have, the
    tasks that were already dead are reaped with it, and a user task is recorded as exited with -1; else nothing changes. *)
Theorem terminate_task_exact id s :
  reachable s ->
  exists b s', scheduler_terminate_task addresses id s = Some (Done b, s') /\
    (b = true <-> exists p t, tasks s !! p = Some t /\ task_id t = id /\ p <> g_current_task s /\ task_state t = TASK_READY) /\
    (b = false -> s' = s) /\
    (b = true -> g_current_task s' = g_current_task s /\
       (forall q t', (exists n, tasks s' !! q = Some (set_next n t')) <->
          (exists n, tasks s !! q = Some (set_next n t')) /\ task_id t' <> id /\ task_state t' = TASK_READY) /\
       (forall p t, tasks s !! p = Some t -> task_id t = id ->
          processes s' = if is_user t then (app_process_mark_exited (task_process_id t) (-1) (processes s)).2 else processes s)).
Proof.
  intros Hs. destruct (reachable_sound addresses symbols first_byte last_byte Hsym rest c Hcat s Hs) as (l & w & Hl). pose proof Hl as [Hinv Hnow _].
  pose proof (terminate_task_spec addresses symbols first_byte last_byte Hsym rest id s l w Hinv Hnow) as Ht. unfold kwp in Ht.
  destruct (scheduler_terminate_task addresses id s) as [[[b|] s']|]; [|done|done]. exists b, s'. split; [done|].
  destruct (terminated s l _) as [[p t]|] eqn:E.
  - destruct Ht as (-> & Ec & Ep & l' & w' & [Hr' Hb'] & Hin). apply (terminated_id addresses symbols first_byte last_byte rest s l w id p t Hinv) in E as (Hp & Eid & Hpc & Hd).
    assert (Hrt : task_state t = TASK_READY) by (by destruct (task_state t)).
    assert (Hsame : forall q u, (q, u) ∈ l -> task_id u = id -> q = p /\ u = t).
    { intros q u Hq Eu. apply (same_id addresses symbols first_byte last_byte rest s l w); [done|done|done|congruence]. }
    destruct (in_tasks _ _ _ _ _ Hl Hp) as (n & En). split; [split; [intros _; by exists p, (set_next n t)|done]|]. split; [done|]. intros _. split; [done|]. split.
    + intros q t'. assert (Hring : forall m h k, ring_rep m h k -> (exists n, m !! q = Some (set_next n t')) <-> (q, bare t') ∈ k).
      { intros m h k Hr. split.
        - intros (j & Ej). assert (Hq : q ∈ k.*1) by (by apply (rr_dom _ _ _ Hr); eexists). apply list_elem_of_fmap in Hq as ([q' u] & -> & Hu).
          destruct (ring_lookup _ _ _ _ _ Hr Hu) as (i & Ei). cbn [fst] in *. pose proof (proj1 (Forall_forall _ _) (rr_next _ _ _ Hr) _ Hu) as Hn0. cbn in Hn0.
          rewrite Ei in Ej. assert (Eu : bare u = bare t') by exact (f_equal (fun o => bare (default zero_task o)) Ej).
          by rewrite <- Eu, bare_id.
        - intros Hq. destruct (ring_lookup _ _ _ _ _ Hr Hq) as (i & Ei). by exists i. }
      rewrite (Hring _ _ _ Hr'), (Hring _ _ _ (proj1 Hinv)), Hin. split.
      * intros (Hq & Hqp & Hk). split; [done|]. split; [intros E'; exact (Hqp (proj1 (Hsame _ _ Hq E')))|]. destruct Hk as [Hk|Hk]; [|exact Hk].
        destruct Hnow as (tc & Hc & Hrc). cbn [fst] in Hk. subst q. pose proof (ring_unique _ _ _ _ _ _ _ _ _ _ _ Hinv Hc Hq) as Etc. rewrite Etc in Hrc. exact Hrc.
      * intros (Hq & Hne & Hk). split; [done|]. split; [|by right]. intros ->. apply Hne.
        pose proof (ring_unique _ _ _ _ _ _ _ _ _ _ _ Hinv Hp Hq) as Et. rewrite Et in Eid. exact Eid.
    + intros q u Hq Eu. destruct (task_in _ _ _ _ _ Hl Hq) as (k & u0 & Hu0 & ->). by destruct (Hsame _ _ Hu0 Eu) as [-> ->].
  - destruct Ht as [-> ->]. split; [split; [done|]|by split]. intros (p & t & Hp & Eid & Hpc & Hrt). exfalso.
    destruct (task_in _ _ _ _ _ Hl Hp) as (n & u & Hu & ->).
    assert (Hsome : terminated s l (fun t => task_id t =? id) = Some (p, u)); [|by rewrite E in Hsome].
    apply (terminated_id addresses symbols first_byte last_byte rest s l w id p u Hinv). split; [done|]. split; [done|]. split; [done|]. cbn in Hrt. congruence.
Qed.

(** C10: a launch is exact.  It always returns.  When it fails, the tasks, the address spaces and the processes
    are the ones before (an entry of an ended process may have gone).  When it succeeds, there is one task more, for a
    process with the next id and the rights of the manifest, in a space that holds the stack and the segments and
    nothing else: every page with the rights of its segments, none writable and executable, every byte from the file
    or zero. *)
Theorem launch_exact entry argument bytes plan s :
  reachable s -> launchable entry bytes plan ->
  let new := g_next_process_id (processes s) in
  exists result process s', launch addresses symbols entry argument s = Some (Done (result, process), s') /\
    match process with
    | None => result <> APP_RUNTIME_LAUNCH_OK /\ result <> APP_RUNTIME_LAUNCH_INVALID_IMAGE /\
        (exists l, ring_rep (tasks s) (g_head s) l /\ ring_rep (tasks s') (g_head s') l) /\
        dom (spaces s') = dom (spaces s) /\ entries_kept (processes s) (processes s')
    | Some id => result = APP_RUNTIME_LAUNCH_OK /\ id = new /\ new <> 0 /\
        exists l tp t space nodes others,
          ring_rep (tasks s) (g_head s) l /\ ring_rep (tasks s') (g_head s') (insert_second (tp, t) l) /\
          (is_user t, task_state t, address_space t, user_entry t, user_stack_top t, task_process_id t, task_capabilities t) =
            (true, TASK_READY, self space, entry_point plan, APP_USER_STACK_TOP, new, capabilities (manifest entry)) /\
          starts_at symbols (words s') t (user_task_bootstrap_address symbols) /\
          find new (processes s) = None /\ others_stay (processes s) (processes s') new /\
          find new (processes s') = Some (set_state (set_argument (loaded_process new (manifest entry) plan)
            (copy_string (startup_argument zero_process) (APP_STARTUP_ARGUMENT_MAX + 1) argument)) APP_PROCESS_STARTING) /\
          spaces s' !! self space = Some space /\ space_ok (kernel s') space nodes others /\
          forall x, 0 <= x < 2 ^ 52 ->
            page_exact plan (x / 4096) (user_page (frames (kernel s')) nodes (x / 4096)) /\
            (is_Some (user_page (frames (kernel s')) nodes (x / 4096)) -> byte_exact plan bytes x (user_byte (frames (kernel s')) nodes x))
    end.
Proof.
  intros Hs Hla new. destruct (reachable_sound addresses symbols first_byte last_byte Hsym rest c Hcat s Hs) as (l & w & Hl). pose proof Hl as [Hinv Hnow Htab].
  destruct (launchable_plan _ _ _ Hla) as (Hplan & _ & _).
  match goal with |- exists result process s', _ /\ ?P => pose (post := fun (o : app_runtime_launch_result * option Z) s' => let result := o.1 in let process := o.2 in P) end.
  assert (Hk : kwp (launch addresses symbols entry argument) post (fun _ => False) s).
  { apply (launch_spec addresses symbols first_byte last_byte Hsym rest entry argument bytes plan (g_current_task s) s l w); [done|done|done|done| |].
    - intros result s' Hr1 Hr2 Hst _ Hke. unfold post. cbn [fst snd]. split; [done|]. split; [done|]. pose proof Hinv as [Hr (bss & _ & [_ _ (_ & _ & Hsp) _ _])].
      destruct Hst as [[Hr' (bss' & _ & [_ _ (_ & _ & Hsp') _ _])] _ _ _ _]. split; [by exists l|]. split; [|done].
      assert (Hdom : forall m, spaces_rep m w -> forall p, p ∈ dom m <-> p ∈ live_self <$> w).
      { intros m [_ Hm] p. rewrite elem_of_dom, list_elem_of_fmap. split.
        - intros [sp E]. apply Hm in E as (v & Hv & _ & <-). by exists v.
        - intros (v & -> & Hv). exists (live_space v). apply Hm. by exists v. }
      apply set_eq. intros p. by rewrite (Hdom _ Hsp), (Hdom _ Hsp').
    - intros s' v tp t [Hst _ Hrole _ Hstart Hmem Hnx [_ Ho] [Hn0 Hfresh] Hproc]. unfold post. cbn [fst snd]. split; [done|]. split; [done|]. split; [done|].
      pose proof (st_inv _ _ _ _ _ _ _ _ _ _ _ _ Hst) as Hinv'.
      destruct (inv_space_step addresses symbols first_byte last_byte rest s' _ v w Hinv') as (others & Hok & Hsp & _).
      exists l, tp, t, (live_space v), (live_tree v), others. split; [by destruct Hinv|]. split; [by destruct Hinv'|]. split; [done|]. split; [done|].
      split; [done|]. split; [done|]. split; [done|]. split; [done|]. split; [done|].
      intros x Hx. by apply (holds_exact s' v plan bytes (Z.of_nat (length bytes)) x). }
  unfold kwp in Hk. destruct (launch addresses symbols entry argument s) as [[[[result process]|] s']|]; [|done|done].
  exists result, process, s'. split; [done|]. exact Hk.
Qed.

End Claims.

(** a stack whose canary is broken is never used again nor freed.  A switch from or to its task, and the
    destruction of the task, write to the log and halt, with tasks, stacks and memory as they were. *)
Theorem broken_canary_halts {A : Type} `{Allocator A} (addresses : table_addresses) (symbols : symbols) frame saved_rflags (s : scheduler A) p t :
  p <> NULL -> tasks s !! p = Some t -> canary_broken s t ->
  let halted := set_kernel (paging_log (cs "Scheduler: KERNEL STACK CANARY CORRUPTED; system halted") (kernel s)) s in
  (g_current_task s = p -> schedule addresses symbols frame saved_rflags s = Some (Halted, halted)) /\
  (forall prev, stack_canary_intact prev s = Some (Done true, s) -> switch_tasks addresses symbols frame saved_rflags prev p s = Some (Halted, halted)) /\
  destroy_task addresses p s = Some (Halted, halted).
Proof.
  intros Hp Ht Hb halted. pose proof (intact_broken p t s Ht Hb) as Hi. split_and!.
  - intros Ec. unfold schedule, mbind, KM_bind, kget. rewrite Ec, (proj2 (Z.eqb_neq _ _) Hp), Hi. done.
  - intros prev Hprev. unfold switch_tasks, mbind, KM_bind. rewrite Hprev. cbn [negb]. by rewrite Hi.
  - unfold destroy_task, mbind, KM_bind. by rewrite Hi.
Qed.

(** C14: the embedded applications are installed all or not at all.  The initialisation returns for every image
    that the linker may have put there; it succeeds just when every image is in place and passes inspection, and then
    the catalog holds the ten manifests with their images, in order; else the catalog is empty.  In every case it
    is well formed. *)
Theorem catalog_initialize_exact (e : embedded_images) (c : catalog) :
  arrays_ok c -> Forall image_ok (images e) ->
  exists r c', app_catalog_initialize_embedded e c = Some (r, c') /\ catalog_inv c' /\
    (r = APP_CATALOG_OK <-> Forall (fun i => image_start i < image_end i /\ sound_image i) (images e)) /\
    map manifest (installed c') = (if bool_decide (r = APP_CATALOG_OK) then system_manifests else []) /\
    map image (installed c') = (if bool_decide (r = APP_CATALOG_OK) then map (fun i => Some (image_bytes i)) (images e) else []).
Proof.
  intros Ha Hi. destruct (initialize_spec e c Ha Hi) as (r & c' & E & Hc & Hr & Hok & Hno). exists r, c'. split; [done|]. split; [done|]. split; [done|].
  case_bool_decide as Hd; [by apply Hok|]. by rewrite (Hno Hd).
Qed.

(** ** Concrete runs *)

Lemma machine_histories_sound_witness :
  exists s s', demo_after [] = Some (Done tt, s) /\ demo_act (Do (Spawn (Some (cs "a")) 0x200000)) s = Some (Done tt, s') /\
    (exists l w, sound demo_addresses demo_symbols 0xbff00000 0xc01fffff [] s' l w) /\ size (tasks s') = 2%nat.
Proof.
  destruct demo_start as (s & E & Hs); [vm_compute; reflexivity|].
  destruct (demo_next [] (Do (Spawn (Some (cs "a")) 0x200000)) s _ (fun s : scheduler heap => size (tasks s)) 2%nat E Hs (fun _ _ => I)) as (s' & _ & Ea & Hs' & En);
    [vm_compute; reflexivity|].
  destruct (machine_histories_sound demo_addresses demo_symbols 0xbff00000 0xc01fffff demo_symbols_ok [] demo_catalog demo_catalog_inv
    demo_features demo_boot [] demo_boot_state boot_table_inv) as [_ Hall].
  exists s, s'. split; [exact E|]. split; [exact Ea|]. split; [exact (proj1 (Hall s' Hs'))|exact En].
Defined.

Lemma demo_call s frame lo hi t :
  current_stack s = Some (lo, hi) -> tasks s !! g_current_task s = Some t -> length (callee_saved frame) = 6%nat ->
  lo + 120 <= frame_sp frame -> frame_sp frame + 8 <= hi -> call_ok t frame.
Proof. unfold current_stack. intros E Ht. rewrite Ht in E. injection E as <- <-. by constructor. Qed.

Lemma demo_yield frame flags s s' : demo_act (Do (Yield frame flags)) s = Some (Done tt, s') -> exists ctl, run demo_addresses demo_symbols (Yield frame flags) s = Some (Done ctl, s').
Proof. unfold act, mbind, KM_bind. destruct (run _ _ _ s) as [[[ctl|] s1]|]; [|done|done]. intros [= <-]. by exists ctl. Qed.

Definition demo_history : list action := [Do (Spawn (Some (cs "a")) 0x200000); Do (Compute [] [9])].
Definition demo_frame2 : call_frame := CallFrame 8413000 [11; 12; 13; 14; 15; 16].

(** The first task leaves with 9 in its FPU, the other one computes 5, the first one runs again with 9. *)
Lemma suspended_context_preserved_witness :
  exists (s s2 : scheduler heap) (u : Task), demo_reachable s /\ fpu (cpu_registers s) = [9] /\ g_current_task s2 = g_current_task s /\
    tasks s2 !! g_current_task s = Some u /\ rsp u = 0x160000 - 56 /\ words s2 !! (rsp u + 48) = Some 0x202 /\ fpu (cpu_registers s2) = [9].
Proof.
  destruct demo_start as (s0 & E0 & Hs0); [vm_compute; reflexivity|].
  destruct (demo_next [] (Do (Spawn (Some (cs "a")) 0x200000)) s0 _ (fun _ : scheduler heap => true) true E0 Hs0 (fun _ _ => I)) as (sa & Ea & _ & Hsa & _); [vm_compute; reflexivity|].
  destruct (demo_next _ (Do (Compute [] [9])) sa _
    (fun s : scheduler heap => (current_stack s, fpu (cpu_registers s), option_map task_id (tasks s !! g_current_task s), g_current_task s, g_fpu_context_enabled s))
    (Some (0x151000, 0x161000), [9], Some 1, 8388656, true) Ea Hsa (fun _ _ => Forall_nil_2 _)) as (s & Es & _ & Hs & Fs); [vm_compute; reflexivity|].
  injection Fs as F1 F2 F3 F4 F5.
  assert (Hcall : forall t, tasks s !! g_current_task s = Some t -> call_ok t demo_frame).
  { intros t Ht. apply (demo_call s demo_frame 0x151000 0x161000); [exact F1|exact Ht|reflexivity|vm_compute; congruence|vm_compute; congruence]. }
  destruct (demo_next _ (Do (Yield demo_frame 0x202)) s _ (fun s : scheduler heap => g_current_task s) 8389376 Es Hs Hcall) as (s1 & E1 & Ey & Hs1 & F6); [vm_compute; reflexivity|].
  destruct (demo_next _ (Do (Compute [] [5])) s1 _ (fun s : scheduler heap => (current_stack s, g_current_task s)) (Some (8396800, 8413184), 8389376) E1 Hs1 (fun _ _ => Forall_nil_2 _))
    as (s2 & E2 & Ec & Hs2 & F7); [vm_compute; reflexivity|]. injection F7 as F7 F8.
  assert (Hcall2 : forall t, tasks s2 !! g_current_task s2 = Some t -> call_ok t demo_frame2).
  { intros t Ht. apply (demo_call s2 demo_frame2 8396800 8413184); [exact F7|exact Ht|reflexivity|vm_compute; congruence|vm_compute; congruence]. }
  destruct (demo_next _ (Do (Yield demo_frame2 0x202)) s2 _ (fun s : scheduler heap => (g_current_task s, option_map task_id (tasks s !! 8388656))) (8388656, Some 1) E2 Hs2 Hcall2)
    as (s3 & _ & Ey3 & _ & F9); [vm_compute; reflexivity|]. injection F9 as F9 F10.
  destruct (demo_yield _ _ _ _ Ey) as (ctl & Hrun).
  destruct (tasks s !! g_current_task s) as [t|] eqn:Ht; [|discriminate F3]. injection F3 as F3.
  destruct (tasks s3 !! 8388656) as [u|] eqn:Hu; [|discriminate F10]. injection F10 as F10.
  assert (Haway : rtc (elsewhere demo_addresses demo_symbols demo_catalog 8388656) s1 s3).
  { eapply rtc_l; [|eapply rtc_l; [|apply rtc_refl]].
    - split; [rewrite F6; discriminate|]. exists (Do (Compute [] [5])). split; [exact (fun _ _ => Forall_nil_2 _)|exact Ec].
    - split; [rewrite F8; discriminate|]. exists (Do (Yield demo_frame2 0x202)). split; [exact Hcall2|exact Ey3]. }
  rewrite F4 in Ht.
  destruct (suspended_context_preserved demo_addresses demo_symbols 0xbff00000 0xc01fffff demo_symbols_ok [] demo_catalog demo_catalog_inv
    demo_frame 0x202 s s1 s3 8388656 t 8388656 u ctl Hs (eq_sym F4) Ht (Hcall t eq_refl) Hrun ltac:(rewrite F6; discriminate) Haway Hu (eq_trans F10 (eq_sym F3)))
    as (_ & R1 & R2 & _ & R4).
  specialize (R4 F5). rewrite F9 in R4. exists s, s3, u. split; [exact Hs|]. split; [exact F2|]. rewrite F4. split; [exact F9|]. split; [exact Hu|].
  split; [exact R1|]. split; [exact (R2 6%nat 0x202 eq_refl)|]. rewrite <- F2. exact R4.
Defined.

(** Each task calls from the bottom of its stack. *)
Definition demo_low_frame (t : Task) : call_frame := CallFrame (kernel_stack_canary t + 120) [1; 2; 3; 4; 5; 6].

Lemma demo_low_frame_ok t : stack_ok demo_symbols t -> call_ok t (demo_low_frame t).
Proof.
  intros Ht. destruct (stack_bounds _ _ demo_symbols_ok Ht) as (_ & _ & _ & Hb).
  constructor; cbn [demo_low_frame callee_saved frame_sp]; [reflexivity|lia|lia].
Qed.

(** Of two new tasks, both get the processor. *)
Lemma round_robin_turns_witness :
  exists (s : scheduler heap) n s', demo_reachable s /\ g_current_task s <> 8389376 /\
    yields demo_addresses demo_symbols demo_low_frame 0x202 (S n) s = Some (Done tt, s') /\ g_current_task s' = 8389376.
Proof.
  destruct demo_start as (s0 & E0 & Hs0); [vm_compute; reflexivity|].
  destruct (demo_next [] (Do (Spawn (Some (cs "a")) 0x200000)) s0 _ (fun _ : scheduler heap => true) true E0 Hs0 (fun _ _ => I)) as (s1 & E1 & _ & Hs1 & _);
    [vm_compute; reflexivity|].
  destruct (demo_next _ (Do (Spawn (Some (cs "b")) 0x200100)) s1 _ (fun s : scheduler heap => (g_current_task s, option_map task_state (tasks s !! 8389376)))
    (8388656, Some TASK_READY) E1 Hs1 (fun _ _ => I)) as (s & _ & _ & Hs & F); [vm_compute; reflexivity|]. injection F as F1 F2.
  destruct (round_robin_turns demo_addresses demo_symbols 0xbff00000 0xc01fffff demo_symbols_ok [] demo_catalog demo_catalog_inv
    demo_low_frame 0x202 s demo_low_frame_ok Hs) as (l & _ & Hq & Hturn).
  assert (Hne : g_current_task s <> 8389376) by (rewrite F1; discriminate).
  destruct (tasks s !! 8389376) as [t|] eqn:Et; [|discriminate F2]. injection F2 as F2.
  destruct (proj1 (list_elem_of_lookup _ _) (proj2 (Hq 8389376) (conj (not_eq_sym Hne) (ex_intro _ t (conj Et F2))))) as (n & Hn).
  destruct (Hturn n 8389376 Hn) as (s' & Hrun & Hcur). exists s, n, s'. exact (conj Hs (conj Hne (conj Hrun Hcur))).
Defined.

(** A launched application runs for four ticks. *)
Lemma user_quantum_bounded_witness :
  exists (s s' : scheduler heap) t, demo_reachable s /\ tasks s !! g_current_task s = Some t /\ is_user t = true /\
    ticks demo_addresses demo_symbols (CallFrame 8622000 [1; 2; 3; 4; 5; 6]) 0x202 4 s = Some (Done tt, s') /\ g_current_task s' = g_current_task s.
Proof.
  destruct demo_start as (s0 & E0 & Hs0); [vm_compute; reflexivity|].
  destruct (demo_next [] (Launch demo_entry None) s0 _ (fun s : scheduler heap => current_stack s) (Some (0x151000, 0x161000)) E0 Hs0 demo_entry_installed)
    as (s1 & E1 & _ & Hs1 & F1); [vm_compute; reflexivity|].
  assert (Hcall : forall t, tasks s1 !! g_current_task s1 = Some t -> call_ok t demo_frame).
  { intros t Ht. apply (demo_call s1 demo_frame 0x151000 0x161000); [exact F1|exact Ht|reflexivity|vm_compute; congruence|vm_compute; congruence]. }
  destruct (demo_next _ (Do (Yield demo_frame 0x202)) s1 _
    (fun s : scheduler heap => (current_stack s, option_map (fun t => (is_user t, quantum_ticks t)) (tasks s !! g_current_task s)))
    (Some (8605696, 8622080), Some (true, 0)) E1 Hs1 Hcall) as (s & _ & _ & Hs & F2); [vm_compute; reflexivity|]. injection F2 as F2 F3.
  destruct (tasks s !! g_current_task s) as [t|] eqn:Et; [|discriminate F3]. injection F3 as F3 F4.
  assert (Ht : call_ok t (CallFrame 8622000 [1; 2; 3; 4; 5; 6])).
  { apply (demo_call s _ 8605696 8622080); [exact F2|exact Et|reflexivity|vm_compute; congruence|vm_compute; congruence]. }
  destruct (user_quantum_bounded demo_addresses demo_symbols 0xbff00000 0xc01fffff demo_symbols_ok [] demo_catalog demo_catalog_inv
    (CallFrame 8622000 [1; 2; 3; 4; 5; 6]) 0x202 s t Hs Et F3 Ht) as (_ & Hticks & _); [rewrite F4; reflexivity|].
  exists s. eexists. exists t. split; [exact Hs|]. split; [exact Et|]. split; [exact F3|].
  split; [exact (Hticks 4%nat ltac:(rewrite F4; reflexivity))|reflexivity].
Defined.

(** The second task is ended by its id. *)
Lemma terminate_task_exact_witness :
  exists s s' : scheduler heap, demo_reachable s /\ scheduler_terminate_task demo_addresses 2 s = Some (Done true, s') /\
    forall q t n, tasks s' !! q = Some (set_next n t) -> task_id t <> 2.
Proof.
  destruct demo_start as (s0 & E0 & Hs0); [vm_compute; reflexivity|].
  destruct (demo_next [] (Do (Spawn (Some (cs "a")) 0x200000)) s0 _
    (fun s : scheduler heap => (g_current_task s, option_map (fun t => (task_id t, task_state t)) (tasks s !! 8389376)))
    (8388656, Some (2, TASK_READY)) E0 Hs0 (fun _ _ => I)) as (s & _ & _ & Hs & F); [vm_compute; reflexivity|]. injection F as F1 F2.
  destruct (tasks s !! 8389376) as [t|] eqn:Et; [|discriminate F2]. injection F2 as F2 F3.
  destruct (terminate_task_exact demo_addresses demo_symbols 0xbff00000 0xc01fffff demo_symbols_ok [] demo_catalog demo_catalog_inv 2 s Hs)
    as (b & s' & Hrun & Hb & _ & Hyes).
  assert (b = true) as ->.
  { apply Hb. exists 8389376, t. split; [exact Et|]. split; [exact F2|]. split; [rewrite F1; discriminate|exact F3]. }
  exists s, s'. split; [exact Hs|]. split; [exact Hrun|]. destruct (Hyes eq_refl) as (_ & Hq & _).
  intros q u n Hu. exact (proj1 (proj2 (proj1 (Hq q u) (ex_intro _ n Hu)))).
Defined.

(** The small image is launched; its bytes are in memory. *)
Lemma launch_exact_witness :
  exists (s s' : scheduler heap) id nodes, demo_reachable s /\
    launch demo_addresses demo_symbols demo_entry None s = Some (Done (APP_RUNTIME_LAUNCH_OK, Some id), s') /\
    user_byte (frames (kernel s')) nodes 0x10000000002 = sample_elf !! 178%nat.
Proof.
  destruct demo_start as (s & E & Hs); [vm_compute; reflexivity|].
  assert (Hdemo : match demo_after [] with Some (Done _, s) => match launch demo_addresses demo_symbols demo_entry None s with Some (Done (_, Some _), _) => true | _ => false end | _ => false end = true)
    by (vm_compute; reflexivity). rewrite E in Hdemo.
  destruct (launch_exact demo_addresses demo_symbols 0xbff00000 0xc01fffff demo_symbols_ok [] demo_catalog demo_catalog_inv
    demo_entry None sample_elf sample_plan s Hs demo_launchable) as (result & process & s' & Hrun & Hpost).
  rewrite Hrun in Hdemo. destruct process as [id|]; [|discriminate Hdemo].
  destruct Hpost as (-> & _ & _ & l & tp & t & space & nodes & others & _ & _ & _ & _ & _ & _ & _ & _ & _ & Hmem).
  exists s, s', id, nodes. split; [exact Hs|]. split; [exact Hrun|].
  assert (Hg : ElfSegment 0x10000000000 4 4 176 1 5 ∈ segments sample_plan) by left.
  assert (Hf : file_backed (ElfSegment 0x10000000000 4 4 176 1 5) 0x10000000002) by (split; vm_compute; congruence).
  destruct (Hmem 0x10000000002) as [Hpage Hbyte]; [split; vm_compute; congruence|].
  apply (Hbyte ltac:(destruct (user_page _ _ _) as [pg|]; [exists pg; reflexivity|];
    exfalso; apply (proj2 Hpage _ Hg); exists 0x10000000002; split; [split; vm_compute; congruence|reflexivity])) with (1 := Hg) (2 := Hf).
Defined.

(** A task whose stack holds zeros where the canary was. *)
Lemma broken_canary_halts_witness :
  let t := set_kernel_stack 0x1000 0x2000 0x3000 0x7000 true zero_task in
  let s := Scheduler demo_kernel ∅ boot_table {[ 8 := t ]} (list_to_map (map (fun i => (0x3000 + 8 * Z.of_nat i, 0)) (seq 0 STACK_CANARY_WORDS)) : gmap Z Z)
    8 8 2 false [] (Registers [] 0 0 0) in
  exists k, schedule demo_addresses demo_symbols demo_frame 0x202 s = Some (Halted, set_kernel k s).
Proof.
  intros t s. eexists.
  refine (proj1 (broken_canary_halts demo_addresses demo_symbols demo_frame 0x202 s 8 t _ eq_refl _) eq_refl); [discriminate|].
  split; [discriminate|]. split.
  - intros i Hi. exists 0. do 8 (destruct i as [|i]; [reflexivity|]). exfalso. revert Hi. unfold STACK_CANARY_WORDS. lia.
  - exists 0%nat. split; [unfold STACK_CANARY_WORDS; lia|]. vm_compute. discriminate.
Defined.

(** Ten times the small image. *)
Lemma catalog_initialize_exact_witness :
  exists c, app_catalog_initialize_embedded demo_images demo_arrays = Some (APP_CATALOG_OK, c) /\ map manifest (installed c) = system_manifests.
Proof.
  destruct (catalog_initialize_exact demo_images demo_arrays demo_arrays_ok demo_images_ok) as (r & c & E & _ & Hr & Hm & _).
  assert (r = APP_CATALOG_OK) as ->.
  { apply Hr. assert (Hi : image_start demo_image < image_end demo_image /\ sound_image demo_image).
    - split; [vm_compute; congruence|]. split; [discriminate|]. exists sample_plan. exact sample_accepted.
    - do 10 (constructor; [exact Hi|]). constructor. }
  exists c. split; [exact E|]. rewrite bool_decide_eq_true_2 in Hm by reflexivity. exact Hm.
Defined.
